(* ===== verification/_CoqProject ===== *)
-Q . S2P
Prelude.v
SessionAbi.v
Sha256.v
PairCrypto.v
P256.v
SessionCodec.v
PairHandshake.v
PairCapability.v
PairAuth.v
InitialPlan.v
LanWire.v
LanInvite.v
Lockstep.v
LanSession.v
LanSessionEffects.v
LanSessionRound.v
LanSessionEnd.v
LanSessionSafety.v
RomParser.v
Utf8.v
ZipArchive.v
ZipPayload.v
ContentIdentity.v
PersistCodec.v
ContentIds.v
FileStore.v
CatalogPersist.v
SettingsPersist.v
AppText.v
GbkRuns.v
CatalogApp.v
CatalogScan.v
Invitation.v
InviteRoute.v
ProviderEvents.v
ProviderJournal.v
CanonicalInput.v
InputWindow.v
DualScheduler.v
DualAdapter.v
CanonicalInputWire.v
RecoveryLedger.v
RecoveryStore.v
RecoveryReducer.v
AppFrame.v
AppStream.v
PreBindQueue.v
QuicContract.v
LinkActivation.v
BearerRecords.v
ChannelBind.v
GattFragment.v
QuicStreamGate.v
ContentOffer.v
ContentTransfer.v
DualController.v
InputProvenance.v
DualMessages.v
DualPeers.v
