(* ===== verification/Prelude.v ===== *)
(** * FlyNES: a verification development of the shared C++ session and catalog core

    FlyNES plays NES games, alone or with a second player nearby.  Its platforms share a C++
    core under [shared/], and this library models the parts of that core that decide: who
    may join whom, which input a frame runs on, what a received byte string means, what is
    on disk after a crash.  Paths below are relative to [src/shared/src/] unless they start
    with [include/], which is under [src/shared/].

    ** The program

    - The _catalog and application_ side finds games.  A scan of a directory hands every file
      to a scanner, which unpacks ZIP archives within bounds, classifies the payloads, hashes
      them and derives stable identifiers; the application merges the candidates of a scan
      into its catalogue, keeps favourites, play counts and settings, and replaces a file on
      disk before it shows a change.
    - The _LAN session_ is the first two-player mode: an invitation text, one stream of framed
      messages, a lockstep buffer and a coordinator.
    - The _dual session_ is its successor.  Two devices find each other by an invitation code
      or over Bluetooth, authenticate by a commit/reveal exchange and short strings compared
      by the players, agree on a plan for a bearer, exchange its credentials and an endpoint,
      bind a QUIC connection to that pairing, offer and transfer a game image, and then run
      the same game on both sides: a window of input samples, a scheduler that feeds the
      emulator and compares digests of its state, and a controller that owns both and speaks to
      the peer.  Recovery decides what survives a lost link: input sequence numbers, a
      durable root, reconnection and handover.

    ** How the model is written

    Stateful classes are records, every method is one function over the record with the
    guards of the code in its order, and results are the code's own status values.  Machine
    integers are [Z] with their wrap-around written out ([u8] to [u64] below), bytes are
    lists of [Z].  Parts with many effects ([LanSession], [CatalogApp], [FileStore]) use a state
    monad.  Code outside the repository, and code of it that only forwards to a platform, is
    a class or a record of operations with the laws its interface documents: the emulator
    ([DualRuntimePort] in [DualScheduler], instantiated by [DualAdapter]), the transport
    and emulator of a LAN session, the providers of a controller, [Zlib] in [ZipPayload], the
    [Scanner] of [CatalogApp] (implemented by [CatalogScan]), and the system calls of
    [FileStore], each of which can be refused.  Every such interface has an
    instance in the development, so that nothing is proved of an empty class.

    ** The files

    Shared: [Prelude] (record update, machine integers, byte strings, arrays, the
    monad, automation), [SessionAbi] (results of [include/flynes/flynes_session.h]).

    Hashes and curves: [Sha256] (wire/sha256), [PairCrypto] (wire/pair_crypto: HMAC, HKDF, the
    short authentication string), [P256] (wire/p256_point), [ContentIdentity] and [ContentIds]
    (catalog/content_identity: streaming SHA-256, SHA-1 and CRC, identifiers of games).

    LAN session (session/lan_mvp): [LanWire] (wire), [LanInvite] (invite), [Lockstep]
    (lockstep), [LanSession] (session: the whole coordinator).  [LanSessionEffects],
    [LanSessionRound], [LanSessionEnd] and [LanSessionSafety] hold its invariants and properties.

    Pairing: [Invitation] (session/invite_coordinator), [InviteRoute]
    (session/invite_code_route), [PairHandshake], [PairCapability] (wire/pair_handshake,
    wire/pair_capability), [PairAuth] (session/pair_auth_reducer), [InitialPlan]
    (session/initial_plan_lock), [BearerRecords] (wire/initial_bearer, wire/endpoint_offer),
    [ChannelBind] (wire/channel_bind), [QuicContract] (wire/quic_contract), [PreBindQueue]
    (wire/prebind_record_queue), [LinkActivation] (session/link_activation),
    [QuicStreamGate] (wire/quic_stream_gate), [GattFragment] (wire/gatt_fragment),
    [ProviderEvents] (session/buffer_handle, session/ports/provider_events),
    [ProviderJournal] (session/ports/provider_operation_journal).

    Messages: [SessionCodec] (wire/session_codec: the validator of protocol objects), [AppFrame]
    (wire/app_frame), [AppStream] (wire/app_stream_assembler), [CanonicalInputWire]
    (session/dual/canonical_input_wire).

    Dual game (session/dual): [CanonicalInput] (dual_runtime_contract, canonical_input),
    [InputWindow] (input_window), [DualScheduler] (dual_run_scheduler, dual_state_digest),
    [DualAdapter] (dual_runtime_adapter), [DualController] (dual_session_controller and
    product/dual_start_identity).  [InputProvenance], [DualMessages] and [DualPeers] hold no code:
    they follow samples and messages between two controllers.

    Content and recovery: [ContentOffer], [ContentTransfer] (session/content),
    [RecoveryLedger], [RecoveryStore], [RecoveryReducer] (session/recovery).

    Catalog and application: [RomParser] (catalog/rom_payload_parser), [Utf8], [ZipArchive],
    [ZipPayload] (catalog/bounded_zip_archive), [PersistCodec], [FileStore], [CatalogPersist],
    [SettingsPersist] (app/catalog_persist, app/settings_persist), [AppText], [CatalogApp],
    [CatalogScan] (app/flynes_app), [GbkRuns] (app/gbk_table.h).

    ** What the theorems show

    - _Agreement of two parties._  Both ends of a dual game run a frame on the same bundle, for
      arbitrary players, clocks, providers and channels ([DualPeers]); two lockstep peers release
      the same seat assignment in order ([Lockstep]); equal transcripts mean equal
      contributions and one bind message means one channel, up to an exhibited hash collision
      ([PairHandshake], [LinkActivation], [ChannelBind]).
    - _State machines_, over all call histories: the LAN session ([LanSessionSafety]), the
      scheduler ([DualScheduler], where a recording worker tells what it was really fed), the
      input window, the pairing chain, the plan lock, the link gate, the stream gate, the invite
      routes, the journal, the content offer.  Typical statements: a thing happens only after
      its whole chain of reasons, once, and in order.
    - _Wire formats_: exact acceptance of every record (what a decoder accepts is what
      the encoder writes), round trips, reassembly under any cut or permutation, and what a
      record binds.
    - _Arithmetic_: the SHA-256 code is the FIPS hash, the limb code is the curve
      equation, every NES header gets exactly the analysis it declares without overflow.
    - _Durability_: a root replacement and a catalogue save, crashed anywhere, leave the old
      value or the new one; sequence numbers are never used twice; a call of the application
      does what its specification [CatalogApp.intended] says or nothing.
    - _Bounds and totality_: archives within their limits, guesses of a code, buffers and rates;
      opening an archive throws nothing; the extraction loop of a stream ends.

    Several theorems state what the code does where that is not what it means to do;
    each names the behaviour in its comment ([watermark_wedges],
    [digest_failure_repeats_frame], [staging_after_check], [unreadable_start_loses_catalogue], ...).

    ** Fuel and bounds

    A loop that is not structural takes fuel that its caller computes from the
    input, and a lemma shows it is enough: the UNIF chunks, the stream readers, the
    digest chunks and the descriptor reads take one more than the bytes (or reads) left, each
    step of which consumes at least one; inflation takes one more than the declared
    size; [AppStream.data_loop] one more than the length of the buffer (its theorem also shows that
    more changes nothing); [InputWindow.advance_loop] and [DualController.step_loop] take 21, one more than
    the 20 slots of the rings ([step_fuel_enough]); [PairCrypto]'s expansion counts 256 blocks, above the 255 that
    RFC 5869 allows; a code has six places.  A crash in [FileStore] can leave every content
    the directory passes through, each prefix of a write included.

    ** What is not modelled

    The session engine and the C interface over it (session/engine, session/flynes_session.cpp
    and flynes_session_v2.cpp), which dispatch between the parts above; the schedulers of one connection attempt
    (session/link), which move results of the platform to the reducers modelled here; the
    remaining fixed-layout records (link_hello, link_ready, gatt_lookup_v2, pair_secure,
    session_signing_binding, pair_reveal); the control layout of the application, the snapshots
    that copy its catalogue to the caller, and game titles; views of the product; the emulator
    and its runtime; everything under [src/] outside [shared/].  Running out of memory, the
    interleaving of atomic operations of threads, the loss of writes a file system
    reported as durable and the security of the cryptographic primitives are outside the
    model. *)

From Stdlib Require Export Lia.
From stdpp Require Export base strings numbers option gmap list.

#[global] Open Scope Z_scope.

Declare Scope flynes_scope.
Delimit Scope flynes_scope with flynes.
Create HintDb flynes.

(** ** Record update

    A C++ member assignment [s.field = v] is written [s <| field := v |>].
    A record type declares its eta expansion once ([Eta]); the setter of every
    field is then computed from it when a notation is elaborated. *)

Class Eta (R : Type) := eta : R -> R.
Class Setter {R T : Type} (p : R -> T) := over : (T -> T) -> R -> R.
Arguments over {R T} p {_} g r.

Ltac build_setter p :=
  lazymatch type of p with
  | ?R -> ?T =>
    let i := constr:(ltac:(let i := constr:(_ : Eta R) in
                           let b := eval red in i in exact b) : R -> R) in
    let e := lazymatch i with ?b => b end in
    lazymatch eval pattern p in e with
    | ?F _ => exact (fun (g : T -> T) (r : R) => F (fun r0 => g (p r0)) r)
    end
  end.

#[export] Hint Extern 1 (Setter ?p) => build_setter p : typeclass_instances.

Notation "r '<|' p ':=' v '|>'" := (over p (fun _ => v) r)
  (at level 1, left associativity, p at level 9, v at level 99) : flynes_scope.
#[global] Open Scope flynes_scope.

(** ** Machine integers

    A [w]-bit unsigned value is a [Z] in [0, 2^w); an operation that can leave
    the range is followed by the truncation of its type. *)

Definition u8 (x : Z) : Z := x mod 2 ^ 8.
Definition u16 (x : Z) : Z := x mod 2 ^ 16.
Definition u32 (x : Z) : Z := x mod 2 ^ 32.
Definition u64 (x : Z) : Z := x mod 2 ^ 64.
Definition u64_max : Z := 2 ^ 64 - 1.

Definition is_byte (b : Z) : Prop := 0 <= b < 256.
Abbreviation bytes := (list Z) (only parsing).
Definition is_bytes (l : bytes) : Prop := Forall is_byte l.

#[export] Instance is_byte_dec b : Decision (is_byte b).
Proof. unfold is_byte. apply _. Defined.

(** Size of a buffer as the code's [size_t]. *)
Definition zlen {A} (l : list A) : Z := Z.of_nat (length l).

(** Byte at an offset the caller's guards keep in range. *)
Definition at_ (l : bytes) (i : Z) : Z := nth (Z.to_nat i) l 0.

(** The C++ subrange [data + from, data + from + count). *)
Definition slice (l : bytes) (from count : Z) : bytes :=
  take (Z.to_nat count) (drop (Z.to_nat from) l).

(** [std::copy] of [source] into [target] at a cursor, inside its bounds. *)
Definition overwrite (cursor : nat) (source target : bytes) : bytes :=
  take cursor target ++ source ++ drop (cursor + length source) target.

(** Fixed-size array access, [a[i]] and [a[i] = v], inside the bounds. *)
Definition aget {A} (d : A) (l : list A) (i : Z) : A := default d (l !! Z.to_nat i).
Definition aset {A} (l : list A) (i : Z) (v : A) : list A := <[Z.to_nat i := v]> l.

(** The code units of an ASCII literal. *)
Definition ascii_bytes (s : string) : bytes :=
  (fun a => Z.of_N (Ascii.N_of_ascii a)) <$> String.list_ascii_of_string s.

(** Big-endian stores and loads of [n] bytes, as the shift loops write them. *)
Fixpoint be_bytes (n : nat) (v : Z) : bytes :=
  match n with
  | O => []
  | S n' => u8 (Z.shiftr v (8 * Z.of_nat n')) :: be_bytes n' v
  end.

Definition be_value (l : bytes) : Z :=
  fold_left (fun value b => Z.lor (Z.shiftl value 8) b) l 0.

(** ** Tactics *)

(** Split the conjunctions and existentials of the context. *)
Ltac decompose_hyps :=
  repeat match goal with
  | H : _ /\ _ |- _ => destruct H
  | H : exists _, _ |- _ => destruct H
  end.

(** Turn boolean guards in the context into propositions. *)
Ltac bool_hyps :=
  repeat match goal with
  | H : negb _ = true |- _ => apply negb_true_iff in H
  | H : negb _ = false |- _ => apply negb_false_iff in H
  | H : _ && _ = true |- _ => apply andb_true_iff in H; destruct H
  | H : _ || _ = false |- _ => apply orb_false_iff in H; destruct H
  | H : bool_decide _ = true |- _ => apply bool_decide_eq_true in H
  | H : bool_decide _ = false |- _ => apply bool_decide_eq_false in H
  | H : (_ <? _) = true |- _ => apply Z.ltb_lt in H
  | H : (_ <? _) = false |- _ => apply Z.ltb_ge in H
  | H : (_ <=? _) = true |- _ => apply Z.leb_le in H
  | H : (_ <=? _) = false |- _ => apply Z.leb_gt in H
  | H : (_ =? _) = true |- _ => apply Z.eqb_eq in H
  | H : (_ =? _) = false |- _ => apply Z.eqb_neq in H
  end.

(** Case on the outermost guard of the goal and read it as a proposition. *)
Ltac split_guard :=
  match goal with
  | |- context [if ?c then _ else _] =>
    lazymatch c with
    | context [if _ then _ else _] => fail
    | _ => let E := fresh "G" in destruct c eqn:E; bool_hyps
    end
  end.

(** ** Bytes *)

Section Bytes.

Lemma zlen_nonneg {A} (l : list A) : 0 <= zlen l.
Proof. unfold zlen. lia. Qed.

Lemma zlen_app {A} (l k : list A) : zlen (l ++ k) = zlen l + zlen k.
Proof. unfold zlen. rewrite length_app. lia. Qed.

Lemma zlen_cons {A} (x : A) l : zlen (x :: l) = zlen l + 1.
Proof. unfold zlen. simpl. lia. Qed.

Lemma zlen_nil {A} : zlen (@nil A) = 0.
Proof. reflexivity. Qed.

Lemma length_aset {A} (l : list A) i v : length (aset l i v) = length l.
Proof. apply length_insert. Qed.

Lemma aget_aset_eq {A} (d : A) l i v :
  0 <= i < zlen l -> aget d (aset l i v) i = v.
Proof.
  intros Hi. unfold aget, aset, zlen in *. by rewrite list_lookup_insert_eq by lia.
Qed.

Lemma aget_aset_ne {A} (d : A) l i j v :
  0 <= i -> 0 <= j -> i <> j -> aget d (aset l i v) j = aget d l j.
Proof. intros. unfold aget, aset. by rewrite list_lookup_insert_ne by lia. Qed.

Lemma u8_byte x : is_byte (u8 x).
Proof. unfold is_byte, u8. apply (Z.mod_pos_bound x 256). lia. Qed.

Lemma u8_small x : is_byte x -> u8 x = x.
Proof. apply Z.mod_small. Qed.

Lemma u64_small x : 0 <= x < 2 ^ 64 -> u64 x = x.
Proof. apply Z.mod_small. Qed.

Lemma is_bytes_cons b l : is_bytes (b :: l) <-> is_byte b /\ is_bytes l.
Proof. apply Forall_cons. Qed.

Lemma is_bytes_app l k : is_bytes (l ++ k) <-> is_bytes l /\ is_bytes k.
Proof. apply Forall_app. Qed.

Lemma length_be_bytes n v : length (be_bytes n v) = n.
Proof. induction n; simpl; congruence. Qed.

Lemma be_bytes_bytes n v : is_bytes (be_bytes n v).
Proof. induction n; simpl; constructor; auto using u8_byte. Qed.

(** A shift-or step on a byte is multiplication and addition. *)
Lemma lor_shiftl_byte v b : is_byte b -> Z.lor (Z.shiftl v 8) b = 256 * v + b.
Proof.
  intros Hb. pose proof (Z.add_lor_land (Z.shiftl v 8) b) as Hadd.
  assert (Z.land (Z.shiftl v 8) b = 0) as Hz.
  { apply Z.bits_inj'. intros i Hi. rewrite Z.land_spec, Z.bits_0.
    destruct (decide (i < 8)).
    - rewrite Z.shiftl_spec_low by lia. done.
    - rewrite (Z.bits_above_log2 b i), andb_false_r; [done | unfold is_byte in *; lia |].
      destruct (decide (b = 0)) as [->|]; [simpl; lia |].
      apply Z.lt_le_trans with 8; [|lia].
      apply Z.log2_lt_pow2; unfold is_byte in *; lia. }
  rewrite Hz in Hadd. rewrite Z.shiftl_mul_pow2 in * by lia. lia.
Qed.

Lemma be_value_snoc l b : be_value (l ++ [b]) = Z.lor (Z.shiftl (be_value l) 8) b.
Proof. unfold be_value. by rewrite fold_left_app. Qed.

Lemma be_fold_acc l acc :
  is_bytes l ->
  fold_left (fun value b => Z.lor (Z.shiftl value 8) b) l acc =
  acc * 2 ^ (8 * zlen l) + be_value l.
Proof.
  revert acc. induction l as [|b l IH]; intros acc Hl.
  - unfold zlen, be_value. simpl. lia.
  - apply is_bytes_cons in Hl as [Hb Hl]. unfold be_value. cbn [fold_left].
    rewrite !IH, zlen_cons by done. rewrite !lor_shiftl_byte by done.
    replace (8 * (zlen l + 1)) with (8 * zlen l + 8) by lia.
    pose proof (zlen_nonneg l). rewrite Z.pow_add_r by lia. lia.
Qed.

Lemma be_value_cons b l :
  is_byte b -> is_bytes l -> be_value (b :: l) = b * 2 ^ (8 * zlen l) + be_value l.
Proof.
  intros Hb Hl. unfold be_value at 1. cbn [fold_left].
  by rewrite be_fold_acc, lor_shiftl_byte by done.
Qed.

Lemma be_value_bound l : is_bytes l -> 0 <= be_value l < 2 ^ (8 * zlen l).
Proof.
  induction l as [|b l IH]; intros Hl; [split; [done | reflexivity] |].
  apply is_bytes_cons in Hl as [Hb Hl]. rewrite be_value_cons, zlen_cons by done.
  specialize (IH Hl). pose proof (zlen_nonneg l). unfold is_byte in *.
  replace (8 * (zlen l + 1)) with (8 * zlen l + 8) by lia.
  rewrite Z.pow_add_r by lia. change (2 ^ 8) with 256. nia.
Qed.

(** Storing then loading gives the value back modulo the width. *)
Lemma be_value_be_bytes n v : be_value (be_bytes n v) = v mod 2 ^ (8 * Z.of_nat n).
Proof.
  induction n as [|n IH]; [by rewrite Z.mod_1_r |].
  cbn [be_bytes]. rewrite be_value_cons by eauto using u8_byte, be_bytes_bytes.
  rewrite IH. unfold zlen. rewrite length_be_bytes. unfold u8.
  rewrite Z.shiftr_div_pow2 by lia.
  replace (8 * Z.of_nat (S n)) with (8 * Z.of_nat n + 8) by lia.
  rewrite Z.pow_add_r, Z.rem_mul_r by lia. lia.
Qed.

Lemma be_value_be_bytes_small n v :
  0 <= v < 2 ^ (8 * Z.of_nat n) -> be_value (be_bytes n v) = v.
Proof. intros. rewrite be_value_be_bytes. by apply Z.mod_small. Qed.

(** Loading then storing gives the bytes back. *)
Lemma be_bytes_be_value l : is_bytes l -> be_bytes (length l) (be_value l) = l.
Proof.
  intros Hl. assert (forall k, is_bytes l ->
    be_bytes (length l) (k * 2 ^ (8 * zlen l) + be_value l) = l) as H.
  { clear Hl. induction l as [|b l IH]; intros k Hl; [done |].
    apply is_bytes_cons in Hl as [Hb Hl]. cbn [be_bytes length].
    pose proof (be_value_bound l Hl). pose proof (zlen_nonneg l).
    rewrite be_value_cons, zlen_cons by done.
    replace (k * 2 ^ (8 * (zlen l + 1)) + (b * 2 ^ (8 * zlen l) + be_value l))
      with ((k * 256 + b) * 2 ^ (8 * zlen l) + be_value l).
    2:{ replace (8 * (zlen l + 1)) with (8 * zlen l + 8) by lia.
        rewrite Z.pow_add_r by lia. lia. }
    f_equal; [| by apply IH].
    unfold u8. fold (zlen l). rewrite Z.shiftr_div_pow2 by lia.
    rewrite Z.div_add_l, Z.div_small by lia. unfold is_byte in Hb.
    rewrite Z.add_0_r, Z.add_comm. change (2 ^ 8) with 256.
    rewrite Z.mod_add by lia. by apply Z.mod_small. }
  specialize (H 0 Hl). by rewrite Z.mul_0_l, Z.add_0_l in H.
Qed.

Lemma be_value_app l k :
  is_bytes l -> is_bytes k -> be_value (l ++ k) = be_value l * 2 ^ (8 * zlen k) + be_value k.
Proof.
  intros Hl Hk. unfold be_value at 1. rewrite fold_left_app. fold (be_value l). by apply be_fold_acc.
Qed.

Lemma be_value_inj l k :
  is_bytes l -> is_bytes k -> length l = length k -> be_value l = be_value k -> l = k.
Proof.
  intros Hl Hk Hlen E. rewrite <- (be_bytes_be_value l), <- (be_bytes_be_value k) by done.
  by rewrite Hlen, E.
Qed.

Lemma be_bytes_inj n v w :
  0 <= v < 2 ^ (8 * Z.of_nat n) -> 0 <= w < 2 ^ (8 * Z.of_nat n) -> be_bytes n v = be_bytes n w -> v = w.
Proof. intros Hv Hw H. apply (f_equal be_value) in H. by rewrite !be_value_be_bytes_small in H. Qed.

Lemma zlen_be_bytes n v : zlen (be_bytes n v) = Z.of_nat n.
Proof. unfold zlen. by rewrite length_be_bytes. Qed.

Lemma app_eq_length {A} (a b c d : list A) :
  length a = length c -> a ++ b = c ++ d -> a = c /\ b = d.
Proof. intros Hl H. by apply app_inj_1 in H. Qed.

Lemma cons_eq {A} (x y : A) l k : x :: l = y :: k -> x = y /\ l = k.
Proof. by intros [= -> ->]. Qed.

End Bytes.

(** ** Subranges *)

Section Slices.
Implicit Types l : bytes.

Lemma slice_zero l i : slice l i 0 = [].
Proof. done. Qed.

Lemma slice_all l : slice l 0 (zlen l) = l.
Proof. unfold slice, zlen. rewrite Nat2Z.id. apply firstn_all. Qed.

Lemma zlen_slice l i n : 0 <= i -> 0 <= n -> i + n <= zlen l -> zlen (slice l i n) = n.
Proof. intros. unfold slice, zlen in *. rewrite length_take, length_drop. lia. Qed.

Lemma slice_bytes l i n : is_bytes l -> is_bytes (slice l i n).
Proof. intros. by apply Forall_take, Forall_drop. Qed.

Lemma slice_app_drop l i n :
  0 <= i -> 0 <= n -> i + n <= zlen l ->
  drop (Z.to_nat i) l = slice l i n ++ drop (Z.to_nat (i + n)) l.
Proof.
  intros Hi Hn Hlen. unfold slice. replace (Z.to_nat (i + n)) with (Z.to_nat i + Z.to_nat n)%nat by lia.
  by rewrite <- drop_drop, take_drop.
Qed.

(** A subrange of a concatenation lies in the part its offset falls in. *)
Lemma slice_app_here l (k : bytes) n : zlen l = n -> slice (l ++ k) 0 n = l.
Proof. intros <-. unfold slice, zlen. rewrite Nat2Z.id. apply take_app_length. Qed.

Lemma slice_app_left l (k : bytes) i n : 0 <= i -> 0 <= n -> i + n <= zlen l -> slice (l ++ k) i n = slice l i n.
Proof.
  intros Hi Hn Hl. unfold slice, zlen in *. rewrite drop_app_le by lia.
  apply take_app_le. rewrite length_drop. lia.
Qed.

Lemma slice_app_right l (k : bytes) i n : zlen l <= i -> slice (l ++ k) i n = slice k (i - zlen l) n.
Proof.
  intros Hi. unfold slice, zlen in *. rewrite drop_app_ge by lia. do 2 f_equal. lia.
Qed.

Lemma slice_drop l j i n : 0 <= i -> 0 <= j -> slice (drop (Z.to_nat j) l) i n = slice l (j + i) n.
Proof. intros Hi Hj. unfold slice. rewrite drop_drop. do 2 f_equal. lia. Qed.

Lemma slice_slice l i n j m :
  0 <= i -> 0 <= j -> 0 <= m -> j + m <= n -> slice (slice l i n) j m = slice l (i + j) m.
Proof.
  intros Hi Hj Hm Hn. unfold slice. rewrite skipn_firstn_comm, drop_drop, take_take.
  f_equal; [lia |]. f_equal. lia.
Qed.

Lemma at_slice l i n k : 0 <= i -> 0 <= k < n -> at_ (slice l i n) k = at_ l (i + k).
Proof.
  intros Hi Hk. unfold at_, slice. rewrite nth_firstn, nth_skipn.
  destruct (Nat.ltb_spec (Z.to_nat k) (Z.to_nat n)); [| lia]. f_equal. lia.
Qed.

Lemma at_drop l j i : 0 <= i -> 0 <= j -> at_ (drop (Z.to_nat j) l) i = at_ l (j + i).
Proof. intros Hi Hj. unfold at_. rewrite nth_skipn. f_equal. lia. Qed.

Lemma at_byte l i : is_bytes l -> is_byte (at_ l i).
Proof.
  intros Hl. unfold at_. revert Hl. generalize (Z.to_nat i). clear i.
  induction l as [|b l IH]; intros n Hl.
  - destruct n; cbn; unfold is_byte; lia.
  - apply is_bytes_cons in Hl as [Hb Hl]. destruct n; [done | by apply IH].
Qed.

Lemma slice_cons_at l i n :
  0 <= i < zlen l -> 0 < n -> slice l i n = at_ l i :: slice l (i + 1) (n - 1).
Proof.
  intros Hi Hn. unfold slice, at_, zlen in *.
  replace (Z.to_nat (i + 1)) with (S (Z.to_nat i)) by lia.
  replace (Z.to_nat n) with (S (Z.to_nat (n - 1))) by lia.
  destruct (lookup_lt_is_Some_2 l (Z.to_nat i)) as [b Hb]; [lia |].
  rewrite (drop_S l b) by done. cbn [take]. f_equal. by rewrite (nth_lookup_Some _ _ _ _ Hb).
Qed.

End Slices.

(** ** Multi-byte loads

    The helpers that read a big-endian integer, spelled out in every wire file. *)

Definition load16 (p : bytes) (off : Z) : Z :=
  Z.lor (Z.shiftl (at_ p off) 8) (at_ p (off + 1)).

Definition load32 (p : bytes) (off : Z) : Z :=
  Z.lor (Z.lor (Z.lor (Z.shiftl (at_ p off) 24) (Z.shiftl (at_ p (off + 1)) 16))
               (Z.shiftl (at_ p (off + 2)) 8)) (at_ p (off + 3)).

(** The accumulating loop [value = (value << 8) | p[i]]. *)
Definition load64 (p : bytes) (off : Z) : Z :=
  fold_left (fun value i => Z.lor (Z.shiftl value 8) (at_ p (off + i))) (seqZ 0 8) 0.

Section Loads.
Implicit Types l : bytes.

Lemma load16_value l off : 0 <= off -> off + 2 <= zlen l -> load16 l off = be_value (slice l off 2).
Proof.
  intros H0 Hl. rewrite !slice_cons_at by lia. cbn [Z.sub]. change (2 - 1 - 1) with 0.
  rewrite slice_zero. done.
Qed.

Lemma load32_value l off : 0 <= off -> off + 4 <= zlen l -> load32 l off = be_value (slice l off 4).
Proof.
  intros H0 Hl. rewrite !slice_cons_at by lia. change (4 - 1 - 1 - 1 - 1) with 0.
  rewrite slice_zero, <- !Z.add_assoc. unfold be_value, load32. cbn [fold_left].
  by rewrite !Z.shiftl_lor, !Z.shiftl_shiftl, Z.shiftl_0_l, Z.lor_0_l by lia.
Qed.

Lemma load64_value l off : 0 <= off -> off + 8 <= zlen l -> load64 l off = be_value (slice l off 8).
Proof.
  intros H0 Hl. rewrite !slice_cons_at by lia. change (8 - 1 - 1 - 1 - 1 - 1 - 1 - 1 - 1) with 0.
  rewrite slice_zero, <- !Z.add_assoc. unfold be_value, load64. cbn [fold_left].
  change (seqZ 0 8) with [0; 1; 2; 3; 4; 5; 6; 7]. cbn [fold_left]. by rewrite Z.add_0_r.
Qed.

Lemma load16_bound l off : is_bytes l -> 0 <= load16 l off < 2 ^ 16.
Proof.
  intros Hl. unfold load16. pose proof (at_byte l off Hl). pose proof (at_byte l (off + 1) Hl).
  rewrite lor_shiftl_byte by done. unfold is_byte in *. lia.
Qed.

Lemma load32_bound l off : is_bytes l -> 0 <= load32 l off < 2 ^ 32.
Proof.
  intros Hl. pose proof (at_byte l off Hl) as H0. pose proof (at_byte l (off + 1) Hl) as H1.
  pose proof (at_byte l (off + 2) Hl) as H2. pose proof (at_byte l (off + 3) Hl) as H3.
  assert (load32 l off = be_value [at_ l off; at_ l (off + 1); at_ l (off + 2); at_ l (off + 3)]) as ->.
  { unfold be_value, load32. cbn [fold_left].
    by rewrite !Z.shiftl_lor, !Z.shiftl_shiftl, Z.shiftl_0_l, Z.lor_0_l by lia. }
  apply be_value_bound. repeat (apply Forall_cons; split; [done |]). constructor.
Qed.

End Loads.

Lemma be_bytes_slice l i n :
  is_bytes l -> 0 <= i -> i + Z.of_nat n <= zlen l ->
  be_bytes n (be_value (slice l i (Z.of_nat n))) = slice l i (Z.of_nat n).
Proof.
  intros Hl Hi Hn. pose proof (be_bytes_be_value (slice l i (Z.of_nat n)) (slice_bytes _ _ _ Hl)) as H.
  assert (length (slice l i (Z.of_nat n)) = n) as E; [| by rewrite E in H].
  pose proof (zlen_slice l i (Z.of_nat n) Hi ltac:(lia) Hn) as E. unfold zlen in E. lia.
Qed.

Lemma slice_split l i n m :
  0 <= i -> 0 <= n <= m -> i + m <= zlen l -> slice l i m = slice l i n ++ slice l (i + n) (m - n).
Proof.
  intros Hi Hn Hl. rewrite <- (take_drop (Z.to_nat n) (slice l i m)). unfold slice, zlen in *. f_equal.
  - rewrite take_take. f_equal. lia.
  - rewrite skipn_firstn_comm, drop_drop. f_equal; [lia |]. f_equal. lia.
Qed.

(** *** Layouts

    A record of consecutive fields is the concatenation of its fields; a subrange
    at the offset of a field is the field, and a buffer cut along the sizes of its
    fields is the concatenation of the pieces. *)

Fixpoint cut (l : bytes) (off : Z) (sizes : list Z) : list bytes :=
  match sizes with
  | [] => []
  | n :: rest => slice l off n :: cut l (off + n) rest
  end.

Fixpoint total (sizes : list Z) : Z :=
  match sizes with [] => 0 | n :: rest => n + total rest end.

Lemma slice_field (fields : list bytes) (k : nat) f off n :
  fields !! k = Some f -> off = total (zlen <$> take k fields) -> n = zlen f ->
  slice (mjoin fields) off n = f.
Proof.
  revert k off. induction fields as [|g fields IH]; intros [|k] off Hk -> ->; try done.
  - injection Hk as ->. rewrite take_0. change (slice (f ++ mjoin fields) 0 (zlen f) = f).
    by apply slice_app_here.
  - cbn [take fmap list_fmap total]. change (mjoin (g :: fields)) with (g ++ mjoin fields).
    assert (0 <= total (zlen <$> take k fields)).
    { clear. revert k. induction fields as [|h fields IH]; intros [|k]; cbn; try lia.
      pose proof (zlen_nonneg h). specialize (IH k). lia. }
    rewrite slice_app_right by lia. apply (IH k); [done | lia | done].
Qed.

Lemma mjoin_cut l off sizes :
  0 <= off -> forallb (fun n => 0 <=? n) sizes = true -> off + total sizes <= zlen l ->
  mjoin (cut l off sizes) = slice l off (total sizes).
Proof.
  revert off. induction sizes as [|n sizes IH]; intros off Ho Hs Ht; [done |].
  cbn [total cut forallb] in *. apply andb_true_iff in Hs as [Hn Hs]. apply Z.leb_le in Hn.
  assert (0 <= total sizes).
  { clear -Hs. induction sizes as [|m sizes IH]; cbn in *; [lia |]. bool_hyps. specialize (IH ltac:(done)). lia. }
  change (mjoin (?a :: ?b)) with (a ++ mjoin b).
  rewrite (slice_split l off n (n + total sizes)) by lia. f_equal.
  change (foldr app [] (cut l (off + n) sizes)) with (mjoin (cut l (off + n) sizes)).
  rewrite IH by (done || lia). f_equal; lia.
Qed.

Lemma cut_all l sizes :
  forallb (fun n => 0 <=? n) sizes = true -> total sizes = zlen l -> mjoin (cut l 0 sizes) = l.
Proof. intros Hs Ht. rewrite mjoin_cut by (done || lia). by rewrite Ht, slice_all. Qed.

Lemma zlen_mjoin (fields : list bytes) : zlen (mjoin fields) = total (zlen <$> fields).
Proof.
  induction fields as [|f fields IH]; [done |]. change (mjoin (f :: fields)) with (f ++ mjoin fields).
  rewrite zlen_app, IH. done.
Qed.

(** The setting of one bit per index, as the mask loops write it. *)
Lemma mask_fold_testbit (f : Z -> bool) n i :
  0 <= i ->
  Z.testbit (fold_left (fun m p => if f p then Z.lor m (Z.shiftl 1 p) else m) (seqZ 0 (Z.of_nat n)) 0) i =
  (i <? Z.of_nat n) && f i.
Proof.
  intros Hi. induction n as [|n IH].
  { change (Z.testbit 0 i = (i <? 0) && f i). rewrite Z.bits_0.
    destruct (Z.ltb_spec i 0); [lia | done]. }
  replace (seqZ 0 (Z.of_nat (S n))) with (seqZ 0 (Z.of_nat n) ++ [Z.of_nat n]).
  2:{ replace (Z.of_nat (S n)) with (Z.of_nat n + 1) by lia. rewrite seqZ_app by lia. f_equal. }
  rewrite fold_left_app. cbn [fold_left].
  destruct (Z.ltb_spec i (Z.of_nat (S n))), (Z.ltb_spec i (Z.of_nat n)) as [|Hge]; cbn [andb] in *; try lia;
    destruct (f (Z.of_nat n)) eqn:Hf; rewrite ?Z.lor_spec, ?Z.shiftl_1_l, IH;
    rewrite ?Z.pow2_bits_false by lia; rewrite ?orb_false_r; try done.
  - assert (i = Z.of_nat n) as -> by lia. by rewrite Z.pow2_bits_true, Hf by lia.
  - by assert (i = Z.of_nat n) as -> by lia.
Qed.

(** A concrete buffer is checked to be bytes by evaluation. *)
Lemma is_bytes_compute (l : bytes) : forallb (fun x => (0 <=? x) && (x <? 256)) l = true -> is_bytes l.
Proof.
  intros H. apply Forall_forall. intros x Hx. rewrite forallb_forall in H.
  specialize (H x (proj1 (list_elem_of_In _ _) Hx)). unfold is_byte. bool_hyps. lia.
Qed.

(** [zeros(p + off, n)] and the fields of a fixed layout that must be zero. *)
Definition zeros (p : bytes) (off n : Z) : bool :=
  forallb (fun i => at_ p (off + i) =? 0) (seqZ 0 n).

Lemma seqZ_cons_first m n : 0 < n -> seqZ m n = m :: seqZ (m + 1) (n - 1).
Proof. intros. rewrite seqZ_cons by lia. by rewrite Z.add_1_r, Z.sub_1_r. Qed.

Lemma zeros_spec p off n :
  0 <= off -> 0 <= n -> off + n <= zlen p ->
  zeros p off n = true <-> slice p off n = replicate (Z.to_nat n) 0.
Proof.
  intros Ho Hn Hl. unfold zeros. rewrite forallb_forall.
  rewrite <- (Z2Nat.id n) in Hl |- * by lia. generalize dependent (Z.to_nat n). clear n Hn.
  intros n. rewrite Nat2Z.id. revert off Ho. induction n as [|n IH]; intros off Ho Hl.
  { split; [done |]. intros _ x Hx. by apply list_elem_of_In, elem_of_seqZ in Hx as [? ?]; lia. }
  rewrite slice_cons_at by lia. replace (Z.of_nat (S n) - 1) with (Z.of_nat n) by lia.
  cbn [replicate]. split.
  - intros H. f_equal.
    + specialize (H 0). rewrite Z.add_0_r in H. apply Z.eqb_eq, H, list_elem_of_In, elem_of_seqZ. lia.
    + apply (IH (off + 1)); [lia | lia |]. intros x Hx.
      apply list_elem_of_In, elem_of_seqZ in Hx. replace (off + 1 + x) with (off + (x + 1)) by lia.
      apply H, list_elem_of_In, elem_of_seqZ. lia.
  - intros [= E1 E2] x Hx. apply list_elem_of_In, elem_of_seqZ in Hx.
    destruct (decide (x = 0)) as [->|]; [by rewrite Z.add_0_r, E1 |].
    replace (off + x) with (off + 1 + (x - 1)) by lia.
    apply (proj2 (IH (off + 1) ltac:(lia) ltac:(lia)) E2), list_elem_of_In, elem_of_seqZ. lia.
Qed.

(** *** Reading a field of a layout *)

Lemma zeros_slice p off n :
  0 <= off -> 0 <= n -> zeros p off n = zeros (slice p off n) 0 n.
Proof.
  intros Ho Hn. unfold zeros. apply eq_true_iff_eq. rewrite !forallb_forall.
  split; intros H x Hx; specialize (H x Hx); apply list_elem_of_In, elem_of_seqZ in Hx;
    rewrite at_slice, Z.add_0_l in * by lia; done.
Qed.

Section Fields.
Variables (fields : list bytes) (k : nat) (f : bytes) (off : Z).
Hypothesis Hk : fields !! k = Some f.
Hypothesis Hoff : off = total (zlen <$> take k fields).

Lemma layout_field_bound : 0 <= off /\ off + zlen f <= zlen (mjoin fields).
Proof using Hk Hoff.
  assert (forall l : list bytes, 0 <= total (zlen <$> l)) as Hpos.
  { induction l as [|g l IH]; [done |]. rewrite fmap_cons. cbn [total]. pose proof (zlen_nonneg g). lia. }
  assert (forall a b : list bytes, total (zlen <$> a ++ b) = total (zlen <$> a) + total (zlen <$> b)) as Happ.
  { intros a b. induction a as [|g a IH]; [done |]. cbn [app]. rewrite !fmap_cons. cbn [total]. lia. }
  rewrite zlen_mjoin. pose proof (take_drop_middle fields k f Hk) as E.
  apply (f_equal (fun l => total (zlen <$> l))) in E. rewrite Happ, fmap_cons in E. cbn [total] in E.
  pose proof (Hpos (take k fields)). pose proof (Hpos (drop (S k) fields)). lia.
Qed.

Lemma at_field v : f = [v] -> at_ (mjoin fields) off = v.
Proof using Hk Hoff.
  intros E. pose proof layout_field_bound as [? Hb]. assert (zlen f = 1) as El by (by rewrite E).
  rewrite <- (Z.add_0_r off) at 1. rewrite <- (at_slice _ off 1 0) by lia.
  by rewrite (slice_field fields k f off 1), E.
Qed.

Lemma load16_field v : f = be_bytes 2 v -> 0 <= v < 2 ^ 16 -> load16 (mjoin fields) off = v.
Proof using Hk Hoff.
  intros E Hv. pose proof layout_field_bound as [? Hb]. assert (zlen f = 2) as El by (by rewrite E, zlen_be_bytes).
  rewrite load16_value by lia. rewrite (slice_field fields k f), E by done.
  by apply be_value_be_bytes_small.
Qed.

Lemma load32_field v : f = be_bytes 4 v -> 0 <= v < 2 ^ 32 -> load32 (mjoin fields) off = v.
Proof using Hk Hoff.
  intros E Hv. pose proof layout_field_bound as [? Hb]. assert (zlen f = 4) as El by (by rewrite E, zlen_be_bytes).
  rewrite load32_value by lia. rewrite (slice_field fields k f), E by done.
  by apply be_value_be_bytes_small.
Qed.

Lemma zeros_field n : n = zlen f -> zeros (mjoin fields) off n = zeros f 0 n.
Proof using Hk Hoff.
  intros ->. pose proof layout_field_bound as [? _]. rewrite zeros_slice by (auto using zlen_nonneg).
  by rewrite (slice_field fields k f).
Qed.

End Fields.

Lemma zeros_replicate n : zeros (replicate (Z.to_nat n) 0) 0 n = true.
Proof.
  unfold zeros. apply forallb_forall. intros x Hx. apply list_elem_of_In, elem_of_seqZ in Hx.
  apply Z.eqb_eq. unfold at_. generalize (Z.to_nat (0 + x)), (Z.to_nat n). clear.
  intros i m. revert i. induction m as [|m IH]; intros [|i]; cbn; auto.
Qed.

#[export] Hint Resolve u8_byte be_bytes_bytes zlen_nonneg : flynes.
Create Rewrite HintDb flynes_len.
#[export] Hint Rewrite @zlen_app @zlen_cons @zlen_nil : flynes_len.

(** ** State monad

    A member function that mutates its object is a computation [M S A] over the
    object's state [S]; sequencing is stdpp's monadic notation. *)

Definition M (S A : Type) : Type := S -> A * S.

#[export] Instance M_ret S : MRet (M S) := fun A a s => (a, s).
#[export] Instance M_bind S : MBind (M S) :=
  fun A B k m s => let '(a, s') := m s in k a s'.

Definition gets {S A} (f : S -> A) : M S A := fun s => (f s, s).
Definition modify {S} (f : S -> S) : M S unit := fun s => (tt, f s).

(** [when c m] is the statement [if (c) m;]. *)
Definition when {S} (c : bool) (m : M S unit) : M S unit :=
  if c then m else mret tt.

(** Hoare triples over the state monad. *)
Definition triple {S A} (P : S -> Prop) (m : M S A) (Q : A -> S -> Prop) : Prop :=
  forall s, P s -> Q (m s).1 (m s).2.

(** [keeps I m]: running [m] preserves [I]. *)
Definition keeps {S A} (I : S -> Prop) (m : M S A) : Prop :=
  triple I m (fun _ s => I s).

Section Triples.
Context {S : Type}.
Implicit Types P I : S -> Prop.

Lemma triple_ret {A} P (a : A) : triple P (mret a) (fun x s => x = a /\ P s).
Proof. intros s HP. done. Qed.

Lemma triple_bind {A B} P Q R (m : M S A) (k : A -> M S B) :
  triple P m Q -> (forall a, triple (Q a) (k a) R) -> triple P (m ≫= k) R.
Proof.
  intros Hm Hk s HP. specialize (Hm s HP). unfold mbind, M_bind.
  destruct (m s) as [a s']. by apply Hk.
Qed.

Lemma triple_conseq {A} P P' (Q Q' : A -> S -> Prop) (m : M S A) :
  triple P m Q -> (forall s, P' s -> P s) -> (forall a s, Q a s -> Q' a s) ->
  triple P' m Q'.
Proof. intros Hm HP HQ s H. by apply HQ, Hm, HP. Qed.

Lemma keeps_ret {A} I (a : A) : keeps I (mret a).
Proof. by intros s HI. Qed.

Lemma keeps_bind {A B} I (m : M S A) (k : A -> M S B) :
  keeps I m -> (forall a, keeps I (k a)) -> keeps I (m ≫= k).
Proof. apply triple_bind. Qed.

Lemma keeps_gets {A} I (f : S -> A) : keeps I (gets f).
Proof. by intros s HI. Qed.

(** Reading the state with knowledge of the value read. *)
Lemma keeps_gets_bind {A B} I (f : S -> A) (k : A -> M S B) :
  (forall s, I s -> I (k (f s) s).2) -> keeps I (gets f ≫= k).
Proof. intros H s HI. unfold mbind, M_bind, gets. by apply H. Qed.

Lemma keeps_modify I f : (forall s, I s -> I (f s)) -> keeps I (modify f).
Proof. intros H s HI. by apply H. Qed.

Lemma keeps_if {A} I (c : bool) (m n : M S A) :
  keeps I m -> keeps I n -> keeps I (if c then m else n).
Proof. by destruct c. Qed.

Lemma keeps_when I (c : bool) (m : M S unit) : keeps I m -> keeps I (when c m).
Proof. intros H. unfold when. destruct c; [done | apply keeps_ret]. Qed.

(** Reading the state with knowledge of the value read, for triples. *)
Lemma triple_gets_bind {A B} P (f : S -> A) (k : A -> M S B) R :
  (forall v, triple (fun s => P s /\ f s = v) (k v) R) -> triple P (gets f ≫= k) R.
Proof. intros H s HP. unfold mbind, M_bind, gets. by apply H. Qed.

Lemma triple_modify_bind {B} P Q f (k : unit -> M S B) R :
  (forall s, P s -> Q (f s)) -> triple Q (k tt) R -> triple P (modify f ≫= k) R.
Proof. intros H Hk s HP. unfold mbind, M_bind, modify. by apply Hk, H. Qed.

(** A first step that keeps the precondition. *)
Lemma triple_after {A B} P (m : M S A) (k : A -> M S B) R :
  keeps P m -> (forall a, triple P (k a) R) -> triple P (m ≫= k) R.
Proof. apply triple_bind. Qed.

Lemma triple_if {A} P (c : bool) (m n : M S A) Q :
  triple (fun s => P s /\ c = true) m Q -> triple (fun s => P s /\ c = false) n Q ->
  triple P (if c then m else n) Q.
Proof. intros Hm Hn s HP. destruct c; [by apply Hm | by apply Hn]. Qed.

(** Weaken a preservation at its start. *)
Lemma triple_start {A} P P' (m : M S A) (Q : A -> S -> Prop) :
  triple P m Q -> (forall s, P' s -> P s) -> triple P' m Q.
Proof. intros Hm H s HP. by apply Hm, H. Qed.

Lemma keeps_run {A} I (m : M S A) s : keeps I m -> I s -> I (m s).2.
Proof. intros H HI. by apply H. Qed.

End Triples.

Create HintDb keeps.
#[export] Hint Resolve keeps_ret keeps_bind keeps_gets keeps_if keeps_when : keeps.
