(* ===== verification/SessionAbi.v ===== *)
(** * Result vocabulary of the session interface
    ([shared/include/flynes/flynes_session.h])

    The code every session operation returns; the dual scheduler, the input
    window's caller and the recovery reducer share it. *)

From S2P Require Import Prelude.

Inductive fly_session_result_v2 :=
  | V2_OK | V2_ACCEPTED | V2_EMPTY | V2_DUPLICATE | V2_INVALID_ARGUMENT | V2_ABI_MISMATCH
  | V2_STALE | V2_INVALID_STATE | V2_UNSUPPORTED | V2_PERMISSION_DENIED | V2_BACKPRESSURE
  | V2_BUFFER_TOO_SMALL | V2_CLOSED | V2_CANCELLED | V2_TIMEOUT | V2_IO_FAILED | V2_AUTH_FAILED
  | V2_PROTOCOL_VIOLATION | V2_CONTRACT_VIOLATION | V2_BUSY | V2_OUT_OF_MEMORY | V2_UNAVAILABLE.

#[global] Instance session_result_eq_dec : EqDecision fly_session_result_v2.
Proof. solve_decision. Defined.
