(* ===== verification/Sha256.v ===== *)
(** * SHA-256 and domain hashes ([shared/src/session/wire/sha256.{hpp,cpp}])

    The digest every protocol object, configuration and ROM identity is compared
    by.  The block function works on 32-bit words, the driver pads the last one
    or two blocks by hand in a 128-byte tail buffer. *)

From S2P Require Import Prelude.

(** ** Definitions *)

Definition kK : list Z :=
  [0x428A2F98; 0x71374491; 0xB5C0FBCF; 0xE9B5DBA5; 0x3956C25B; 0x59F111F1;
   0x923F82A4; 0xAB1C5ED5; 0xD807AA98; 0x12835B01; 0x243185BE; 0x550C7DC3;
   0x72BE5D74; 0x80DEB1FE; 0x9BDC06A7; 0xC19BF174; 0xE49B69C1; 0xEFBE4786;
   0x0FC19DC6; 0x240CA1CC; 0x2DE92C6F; 0x4A7484AA; 0x5CB0A9DC; 0x76F988DA;
   0x983E5152; 0xA831C66D; 0xB00327C8; 0xBF597FC7; 0xC6E00BF3; 0xD5A79147;
   0x06CA6351; 0x14292967; 0x27B70A85; 0x2E1B2138; 0x4D2C6DFC; 0x53380D13;
   0x650A7354; 0x766A0ABB; 0x81C2C92E; 0x92722C85; 0xA2BFE8A1; 0xA81A664B;
   0xC24B8B70; 0xC76C51A3; 0xD192E819; 0xD6990624; 0xF40E3585; 0x106AA070;
   0x19A4C116; 0x1E376C08; 0x2748774C; 0x34B0BCB5; 0x391C0CB3; 0x4ED8AA4A;
   0x5B9CCA4F; 0x682E6FF3; 0x748F82EE; 0x78A5636F; 0x84C87814; 0x8CC70208;
   0x90BEFFFA; 0xA4506CEB; 0xBEF9A3F7; 0xC67178F2].

Definition rotr (value bits : Z) : Z :=
  Z.lor (Z.shiftr value bits) (u32 (Z.shiftl value (32 - bits))).

Definition xor3 (a b c : Z) : Z := Z.lxor (Z.lxor a b) c.

(** The first sixteen schedule words, read big-endian from the block. *)
Definition load_word (data : bytes) (i : Z) : Z :=
  Z.lor (Z.lor (Z.lor (Z.shiftl (at_ data (i * 4)) 24)
                      (Z.shiftl (at_ data (i * 4 + 1)) 16))
               (Z.shiftl (at_ data (i * 4 + 2)) 8))
        (at_ data (i * 4 + 3)).

(** Word [i >= 16] from the words before it. *)
Definition schedule_word (w : list Z) (i : Z) : Z :=
  let s1 := xor3 (rotr (at_ w (i - 2)) 17) (rotr (at_ w (i - 2)) 19)
                 (Z.shiftr (at_ w (i - 2)) 10) in
  let s0 := xor3 (rotr (at_ w (i - 15)) 7) (rotr (at_ w (i - 15)) 18)
                 (Z.shiftr (at_ w (i - 15)) 3) in
  u32 (at_ w (i - 16) + s0 + at_ w (i - 7) + s1).

(** [w[16..64)], appended one word at a time. *)
Definition schedule (data : bytes) : list Z :=
  fold_left (fun w i => w ++ [schedule_word w i]) (seqZ 16 48)
            (load_word data <$> seqZ 0 16).

(** The working variables [a .. h]. *)
Definition regs : Type := Z * Z * Z * Z * Z * Z * Z * Z.

Definition round (w : list Z) (r : regs) (i : Z) : regs :=
  let '(a, b, c, d, e, f, g, h) := r in
  let s1 := xor3 (rotr e 6) (rotr e 11) (rotr e 25) in
  let t1 := u32 (h + s1 + Z.lxor (Z.land e f) (Z.land (u32 (Z.lnot e)) g) +
                 at_ kK i + at_ w i) in
  let s0 := xor3 (rotr a 2) (rotr a 13) (rotr a 22) in
  let t2 := u32 (s0 + xor3 (Z.land a b) (Z.land a c) (Z.land b c)) in
  (u32 (t1 + t2), a, b, c, u32 (d + t1), e, f, g).

(** [block(state, data)]. *)
Definition block (state : list Z) (data : bytes) : list Z :=
  match state with
  | [a; b; c; d; e; f; g; h] =>
    let w := schedule data in
    let '(a', b', c', d', e', f', g', h') :=
      fold_left (round w) (seqZ 0 64) (a, b, c, d, e, f, g, h) in
    [u32 (a + a'); u32 (b + b'); u32 (c + c'); u32 (d + d');
     u32 (e + e'); u32 (f + f'); u32 (g + g'); u32 (h + h')]
  | _ => state
  end.

Definition initial_state : list Z :=
  [0x6A09E667; 0xBB67AE85; 0x3C6EF372; 0xA54FF53A;
   0x510E527F; 0x9B05688C; 0x1F83D9AB; 0x5BE0CD19].

(** The 128-byte tail: remainder, marker byte, zeros, and the bit length in the
    last eight bytes of the block that ends at [padded]. *)
Definition padded_size (rem : Z) : Z := if rem <? 56 then 64 else 128.

Definition tail_buffer (data : bytes) : bytes :=
  let size := zlen data in
  let full := size / 64 in
  let rem := size - full * 64 in
  let padded := padded_size rem in
  let bits := u64 (size * 8) in
  slice data (full * 64) rem ++ [0x80] ++
  replicate (Z.to_nat (padded - 8 - rem - 1)) 0 ++
  ((fun i => u8 (Z.shiftr bits (8 * (7 - i)))) <$> seqZ 0 8) ++
  replicate (Z.to_nat (128 - padded)) 0.

(** Hash the full 64-byte blocks of [data]. *)
Definition full_blocks (data : bytes) : list Z :=
  fold_left (fun state i => block state (slice data (i * 64) 64))
            (seqZ 0 (zlen data / 64)) initial_state.

Definition word_bytes (x : Z) : bytes :=
  [u8 (Z.shiftr x 24); u8 (Z.shiftr x 16); u8 (Z.shiftr x 8); u8 x].

Definition sha256 (data : bytes) : bytes :=
  let size := zlen data in
  let rem := size - size / 64 * 64 in
  let tail := tail_buffer data in
  let state := block (full_blocks data) (slice tail 0 64) in
  let state := if padded_size rem =? 128 then block state (slice tail 64 64) else state in
  mjoin (word_bytes <$> state).

(** [domain_hash]: the domain, the 32-bit big-endian size, the data. *)
Definition domain_hash (domain : string) (data : bytes) : bytes :=
  let size := zlen data in
  sha256 (ascii_bytes domain ++
          [u8 (Z.shiftr size 24); u8 (Z.shiftr size 16); u8 (Z.shiftr size 8); u8 size] ++
          data).

(** ** Reference: FIPS 180-4 padding then block iteration *)

(** The padded message of the standard. *)
Definition fips_pad (data : bytes) : bytes :=
  let size := zlen data in
  data ++ [0x80] ++ replicate (Z.to_nat ((55 - size) mod 64)) 0 ++
  be_bytes 8 (size * 8).

Fixpoint hash_blocks (n : nat) (state : list Z) (msg : bytes) : list Z :=
  match n with
  | O => state
  | S n => hash_blocks n (block state (take 64 msg)) (drop 64 msg)
  end.

Definition fips_sha256 (data : bytes) : bytes :=
  let msg := fips_pad data in
  mjoin (word_bytes <$> hash_blocks (Z.to_nat (zlen msg / 64)) initial_state msg).

(** ** Published test vectors *)

Definition hex_text (bs : bytes) : bytes :=
  mjoin ((fun b => [at_ (ascii_bytes "0123456789abcdef") (Z.shiftr b 4);
                    at_ (ascii_bytes "0123456789abcdef") (Z.land b 15)]) <$> bs).

Example sha256_abc :
  hex_text (sha256 (ascii_bytes "abc")) =
  ascii_bytes "ba7816bf8f01cfea414140de5dae2223b00361a396177a9cb410ff61f20015ad".
Proof. vm_compute. reflexivity. Qed.

Example sha256_empty :
  hex_text (sha256 []) =
  ascii_bytes "e3b0c44298fc1c149afbf4c8996fb92427ae41e4649b934ca495991b7852b855".
Proof. vm_compute. reflexivity. Qed.

Example sha256_two_blocks :
  hex_text (sha256 (ascii_bytes "abcdbcdecdefdefgefghfghighijhijkijkljklmklmnlmnomnopnopq")) =
  ascii_bytes "248d6a61d20638b8e5c026930c3e6039a33ce45964ff2167f6ecedd419db06c1".
Proof. vm_compute. reflexivity. Qed.

(** ** Lemmas *)

Lemma hash_blocks_add n k state msg :
  hash_blocks (n + k) state msg = hash_blocks k (hash_blocks n state msg) (drop (64 * n) msg).
Proof.
  revert state msg. induction n as [|n IH]; intros state msg; [by rewrite drop_0 |].
  cbn [hash_blocks Nat.add]. rewrite IH, drop_drop. do 2 f_equal. lia.
Qed.

Lemma full_blocks_hash data rest n :
  (64 * n <= length data)%nat ->
  fold_left (fun state i => block state (slice data (i * 64) 64))
            (seqZ 0 (Z.of_nat n)) initial_state =
  hash_blocks n initial_state (data ++ rest).
Proof.
  induction n as [|n IH]; intros Hn; [done |].
  rewrite Nat2Z.inj_succ, <- Z.add_1_r, seqZ_app, fold_left_app, IH by lia.
  replace (S n) with (n + 1)%nat by lia. rewrite hash_blocks_add.
  change (seqZ (0 + Z.of_nat n) 1) with [0 + (0 + Z.of_nat n)]. cbn [fold_left hash_blocks].
  f_equal. unfold slice.
  replace (Z.to_nat ((0 + (0 + Z.of_nat n)) * 64)) with (64 * n)%nat by lia.
  change (Z.to_nat 64) with 64%nat.
  rewrite drop_app_le, take_app_le by (rewrite ?length_drop; lia). done.
Qed.

Lemma length_block state data : length state = 8%nat -> length (block state data) = 8%nat.
Proof.
  intros H. do 8 (destruct state as [|? state]; [done |]). destruct state; [|done].
  unfold block. by destruct (fold_left _ _ _) as [[[[[[[??]?]?]?]?]?]?].
Qed.

Lemma length_full_blocks data : length (full_blocks data) = 8%nat.
Proof.
  unfold full_blocks. generalize (seqZ 0 (zlen data / 64)). intros l.
  assert (length initial_state = 8%nat) as H by done. revert H.
  generalize initial_state. induction l as [|i l IH]; intros s Hs; [done |].
  by apply IH, length_block.
Qed.

(** The remainder and the padding, as the standard lays them out. *)
Lemma fips_pad_split data :
  zlen data * 8 < 2 ^ 64 ->
  let n := Z.to_nat (zlen data / 64) in
  let rem := zlen data - zlen data / 64 * 64 in
  drop (64 * n) (fips_pad data) = take (Z.to_nat (padded_size rem)) (tail_buffer data) /\
  zlen (fips_pad data) = 64 * (zlen data / 64) + padded_size rem.
Proof.
  intros Hs n rem. pose proof (zlen_nonneg data) as H0.
  pose proof (Z.div_mod (zlen data) 64 ltac:(lia)) as Hdm.
  pose proof (Z.mod_pos_bound (zlen data) 64 ltac:(lia)) as Hmb.
  pose proof (Z.div_pos (zlen data) 64 H0 ltac:(lia)) as Hq.
  assert (rem = zlen data mod 64) as Hrem by (unfold rem; lia).
  assert ((55 - zlen data) mod 64 = padded_size rem - 8 - rem - 1) as Hz.
  { unfold padded_size. rewrite Hrem. destruct (_ <? 56) eqn:E; bool_hyps.
    - symmetry. apply (Z.mod_unique _ _ (- (zlen data / 64))); lia.
    - symmetry. apply (Z.mod_unique _ _ (- (zlen data / 64) - 1)); lia. }
  assert (0 <= padded_size rem - 8 - rem - 1) as Hzn by (rewrite <- Hz; apply Z.mod_pos_bound; lia).
  assert (slice data (zlen data / 64 * 64) rem = drop (64 * n) data) as Htail.
  { unfold slice. replace (Z.to_nat (zlen data / 64 * 64)) with (64 * n)%nat by lia.
    apply take_ge. rewrite length_drop. unfold zlen in *. lia. }
  assert (length (drop (64 * n) data) = Z.to_nat rem) as Hl
    by (rewrite length_drop; unfold zlen in *; lia).
  split.
  - unfold fips_pad, tail_buffer. fold rem. rewrite Htail, Hz.
    rewrite drop_app_le by (unfold zlen in *; lia).
    assert (forall a b c d e : bytes, a ++ b ++ c ++ d ++ e = (a ++ b ++ c ++ d) ++ e) as ->
      by (intros; by rewrite <- !app_assoc).
    rewrite take_app_length'; [|rewrite !length_app, Hl, length_replicate, length_fmap, length_seqZ;
      cbn [length]; lia].
    unfold u64. rewrite (Z.mod_small (zlen data * 8)) by lia. done.
  - unfold fips_pad. rewrite !zlen_app, Hz. unfold zlen at 3 4.
    rewrite length_replicate, length_be_bytes. change (zlen [128]) with 1. lia.
Qed.

(** ** Properties *)

Lemma sha256_is_standard (data : bytes) :
  zlen data * 8 < 2 ^ 64 -> sha256 data = fips_sha256 data.
Proof.
  intros Hs. destruct (fips_pad_split data Hs) as [Hdrop Hlen].
  set (rem := zlen data - zlen data / 64 * 64) in *.
  set (n := Z.to_nat (zlen data / 64)) in *.
  pose proof (zlen_nonneg data) as H0.
  pose proof (Z.div_pos (zlen data) 64 H0 ltac:(lia)) as Hq.
  unfold sha256, fips_sha256. fold rem. do 2 f_equal.
  rewrite Hlen, Z.mul_comm, Z.div_add_l by lia.
  rewrite Z2Nat.inj_add, hash_blocks_add by (try done; unfold padded_size; by case_match).
  fold n. rewrite Hdrop.
  assert (full_blocks data = hash_blocks n initial_state (fips_pad data)) as ->.
  { unfold full_blocks, fips_pad. replace (zlen data / 64) with (Z.of_nat n) by lia.
    apply full_blocks_hash. pose proof (Z.div_mod (zlen data) 64 ltac:(lia)).
    pose proof (Z.mod_pos_bound (zlen data) 64 ltac:(lia)). unfold zlen in *. lia. }
  assert (forall k : nat, slice (tail_buffer data) 0 (Z.of_nat k) = take k (tail_buffer data)) as Hsl.
  { intros k. unfold slice. rewrite Nat2Z.id. by rewrite drop_0. }
  specialize (Hsl 64%nat). change (Z.of_nat 64) with 64 in Hsl. rewrite Hsl.
  unfold padded_size. destruct (rem <? 56).
  - change (Z.to_nat (64 / 64)) with 1%nat. change (Z.to_nat 64) with 64%nat.
    cbn [hash_blocks Z.eqb Pos.eqb]. by rewrite take_take.
  - change (Z.to_nat (128 / 64)) with 2%nat. change (Z.to_nat 128) with 128%nat.
    cbn [hash_blocks Z.eqb Pos.eqb]. rewrite take_take, skipn_firstn_comm, take_take. done.
Qed.

(** C34. The in-place driver computes SHA-256: for every message whose bit length
    fits the 64-bit length field, hashing the full blocks and the hand-built tail
    buffer equals padding the message as FIPS 180-4 does and hashing all its
    blocks. *)
Theorem sha256_is_fips (data : bytes) :
  zlen data * 8 < 2 ^ 64 -> sha256 data = fips_sha256 data.
Proof. apply sha256_is_standard. Qed.

Lemma sha256_is_fips_witness :
  zlen (ascii_bytes "abc") * 8 < 2 ^ 64 /\
  sha256 (ascii_bytes "abc") = fips_sha256 (ascii_bytes "abc").
Proof.
  split; [vm_compute; reflexivity | apply (sha256_is_fips (ascii_bytes "abc"))].
  vm_compute. reflexivity.
Defined.

(** The digest is thirty-two bytes. *)
Lemma word_bytes_bytes x : is_bytes (word_bytes x).
Proof. repeat constructor; apply u8_byte. Qed.

Lemma sha256_length data : length (sha256 data) = 32%nat.
Proof.
  assert (forall l, length (mjoin (word_bytes <$> l)) = (4 * length l)%nat) as Hj.
  { induction l as [|x l IH]; [done |].
    change (length (word_bytes x ++ mjoin (word_bytes <$> l)) = (4 * length (x :: l))%nat).
    rewrite length_app, IH. cbn [length word_bytes]. lia. }
  pose proof (length_full_blocks data). unfold sha256. rewrite Hj.
  by case_match; rewrite !length_block by auto using length_block.
Qed.

Lemma sha256_bytes data : is_bytes (sha256 data).
Proof.
  unfold sha256. generalize (if padded_size (zlen data - zlen data / 64 * 64) =? 128
    then block (block (full_blocks data) (slice (tail_buffer data) 0 64))
           (slice (tail_buffer data) 64 64)
    else block (full_blocks data) (slice (tail_buffer data) 0 64)).
  intros l. induction l as [|x l IH]; [constructor |].
  apply is_bytes_app. split; [apply word_bytes_bytes | done].
Qed.

Lemma domain_hash_length d data : length (domain_hash d data) = 32%nat.
Proof. apply sha256_length. Qed.

Lemma domain_hash_bytes d data : is_bytes (domain_hash d data).
Proof. apply sha256_bytes. Qed.

(** *** Binding

    Two messages with one digest are equal or a collision; the messages of the
    collision are named, since some collision always exists. *)

Definition collide (m1 m2 : bytes) : Prop := m1 <> m2 /\ sha256 m1 = sha256 m2.

(** The message behind a domain hash. *)
Definition domain_message (domain : string) (data : bytes) : bytes :=
  ascii_bytes domain ++
  [u8 (Z.shiftr (zlen data) 24); u8 (Z.shiftr (zlen data) 16); u8 (Z.shiftr (zlen data) 8); u8 (zlen data)] ++ data.

Lemma domain_message_inj d a b : domain_message d a = domain_message d b -> a = b.
Proof. intros H. by apply app_inv_head, app_eq_length in H as [_ H]. Qed.

Lemma domain_hash_binds d a b :
  domain_hash d a = domain_hash d b -> a = b \/ collide (domain_message d a) (domain_message d b).
Proof.
  intros H. destruct (decide (a = b)) as [|N]; [by left | right].
  split; [intros E; by apply domain_message_inj in E | exact H].
Qed.

#[export] Hint Resolve sha256_length sha256_bytes domain_hash_length domain_hash_bytes : flynes.
