(* ===== verification/PairCrypto.v ===== *)
(** * Pairing key material ([shared/src/session/wire/pair_crypto.{hpp,cpp}])

    HMAC and HKDF over the SHA-256 of this development, the commitment to a pairing
    contribution, and the six-digit code (short authentication string) the two
    players compare. *)

From S2P Require Import Prelude Sha256.

(** ** Definitions *)

Inductive PairCryptoStatus := CryptoOk | CryptoRetry | CryptoInvalidArgument | CryptoOutputTooLarge.

#[global] Instance crypto_status_eq_dec : EqDecision PairCryptoStatus.
Proof. solve_decision. Defined.

(** The 64-byte key block: a longer key is hashed first, the rest is zero. *)
Definition key_block (key : bytes) : bytes :=
  let key := if 64 <? zlen key then sha256 key else key in
  overwrite 0 key (replicate 64 0).

Definition hmac_sha256 (key data : bytes) : bytes :=
  let inner_pad := (fun b => u8 (Z.lxor b 0x36)) <$> key_block key in
  let outer_pad := (fun b => u8 (Z.lxor b 0x5c)) <$> key_block key in
  let inner_hash := sha256 (inner_pad ++ data) in
  sha256 (outer_pad ++ inner_hash).

Definition hkdf_extract_sha256 (salt ikm : bytes) : bytes :=
  if zlen salt =? 0 then hmac_sha256 (replicate 32 0) ikm else hmac_sha256 salt ikm.

(** The loop [while (written < out_size)]; the counter is one byte. *)
Fixpoint expand_loop (fuel : nat) (prk info : bytes) (out_size : Z) (prior : bytes)
    (written counter : Z) (out : bytes) : bytes :=
  match fuel with
  | O => out
  | S fuel =>
    if out_size <=? written then out
    else
      let prior := hmac_sha256 prk (prior ++ info ++ [counter]) in
      let count := Z.min (zlen prior) (out_size - written) in
      expand_loop fuel prk info out_size prior (written + count) (u8 (counter + 1))
        (overwrite (Z.to_nat written) (take (Z.to_nat count) prior) out)
  end.

(** 255 blocks at most are written, so 256 rounds see the loop's end. *)
Definition expand_fuel : nat := 256.

(** A null pointer is [None]; [out] is the caller's buffer of [out_size] bytes. *)
Definition hkdf_expand_sha256 (prk : option bytes) (prk_size : Z) (info : option bytes) (info_size : Z)
    (out : option bytes) (out_size : Z) : PairCryptoStatus * option bytes :=
  if (bool_decide (prk = None) && negb (prk_size =? 0)) ||
     (bool_decide (info = None) && negb (info_size =? 0)) ||
     (bool_decide (out = None) && negb (out_size =? 0))
  then (CryptoInvalidArgument, out)
  else if 255 * 32 <? out_size then (CryptoOutputTooLarge, out)
  else
    let prk := slice (default [] prk) 0 prk_size in
    let info := slice (default [] info) 0 info_size in
    (CryptoOk, (expand_loop expand_fuel prk info out_size [] 0 1) <$> out).

Definition pair_commitment_v1 (contribution : bytes) : bytes :=
  domain_hash "flynes-pair-commit-v1" contribution.

(** *** The short authentication string *)

(** Words at or above the largest multiple of a million are skipped. *)
Definition sas_limit : Z := 4294000000.

(** The six digits are stored from the last to the first. *)
Fixpoint digit_loop (n : nat) (value : Z) (digits : bytes) : bytes :=
  match n with
  | O => digits
  | S n => digit_loop n (value / 10) (u8 (48 + value mod 10) :: digits)
  end.

Definition sas_digits (candidate : Z) : bytes := digit_loop 6 (candidate mod 1000000) [].

Fixpoint scan_offsets (block : bytes) (offsets : list Z) : option bytes :=
  match offsets with
  | [] => None
  | offset :: rest =>
    let candidate := load32 block offset in
    if sas_limit <=? candidate then scan_offsets block rest else Some (sas_digits candidate)
  end.

Definition word_offsets : list Z := [0; 4; 8; 12; 16; 20; 24; 28].

Fixpoint scan_blocks (blocks : list bytes) : option bytes :=
  match blocks with
  | [] => None
  | block :: rest =>
    match scan_offsets block word_offsets with
    | Some digits => Some digits
    | None => scan_blocks rest
    end
  end.

Definition pair_sas_from_blocks (blocks : option (list bytes)) (out : option bytes)
    : PairCryptoStatus * option bytes :=
  match blocks, out with
  | Some ((_ :: _) as bs), Some _ =>
    match scan_blocks bs with
    | Some digits => (CryptoOk, Some digits)
    | None => (CryptoRetry, out)
    end
  | _, _ => (CryptoInvalidArgument, out)
  end.

Definition retry_input (transcript : bytes) (retry : Z) : bytes :=
  ascii_bytes "flynes-sas-retry-v1" ++ transcript ++
  [u8 (Z.shiftr retry 24); u8 (Z.shiftr retry 16); u8 (Z.shiftr retry 8); u8 retry].

(** The retries [retry, retry + 1, ...], [n] of them: the last is
    [maximum_retry_blocks], which the test against the largest counter keeps from
    wrapping. *)
Fixpoint retry_loop (n : nat) (sas_key transcript : bytes) (retry : Z) (out : option bytes)
    : PairCryptoStatus * option bytes :=
  match n with
  | O => (CryptoRetry, out)
  | S n =>
    match pair_sas_from_blocks (Some [hmac_sha256 sas_key (retry_input transcript retry)]) out with
    | (CryptoOk, out) => (CryptoOk, out)
    | _ => retry_loop n sas_key transcript (retry + 1) out
    end
  end.

Definition derive_pair_sas_v1 (sas_key transcript : bytes) (maximum_retry_blocks : Z) (out : option bytes)
    : PairCryptoStatus * option bytes :=
  match out with
  | None => (CryptoInvalidArgument, None)
  | Some _ =>
    match pair_sas_from_blocks (Some [hmac_sha256 sas_key transcript]) out with
    | (CryptoOk, out) => (CryptoOk, out)
    | _ => retry_loop (Z.to_nat maximum_retry_blocks) sas_key transcript 1 out
    end
  end.

(** ** Published test vectors *)

(** RFC 4231, test cases 1 and 6. *)
Example hmac_rfc4231_1 :
  hex_text (hmac_sha256 (replicate 20 0x0b) (ascii_bytes "Hi There")) =
  ascii_bytes "b0344c61d8db38535ca8afceaf0bf12b881dc200c9833da726e9376c2e32cff7".
Proof. vm_compute. reflexivity. Qed.

Example hmac_rfc4231_6 :
  hex_text (hmac_sha256 (replicate 131 0xaa) (ascii_bytes "Test Using Larger Than Block-Size Key - Hash Key First")) =
  ascii_bytes "60e431591ee0b67f0d8a26aacbf5b77f8e0bc6213728c5140546040f0ee37f54".
Proof. vm_compute. reflexivity. Qed.

(** RFC 5869, test case 1. *)
Example hkdf_rfc5869_1 :
  let prk := hkdf_extract_sha256 (seqZ 0 13) (replicate 22 0x0b) in
  hex_text prk = ascii_bytes "077709362c2e32df0ddc3f0dc47bba6390b6c73bb50f9c3122ec844ad7c2b3e5" /\
  hex_text <$> (hkdf_expand_sha256 (Some prk) 32 (Some (seqZ 0xf0 10)) 10 (Some (replicate 42 0)) 42).2 =
  Some (ascii_bytes "3cb25f25faacd57a90434f64d0362f2a2d2d0a90cf1a5a4c5db02d56ecc4c5bf34007208d5b887185865").
Proof. vm_compute. done. Qed.

(** ** Reference: HKDF-Expand of RFC 5869 *)

(** T(0) is empty, T(n) is the HMAC of T(n-1), the info and the byte n. *)
Fixpoint rfc5869_block (prk info : bytes) (n : nat) : bytes :=
  match n with
  | O => []
  | S m => hmac_sha256 prk (rfc5869_block prk info m ++ info ++ [Z.of_nat n])
  end.

Fixpoint rfc5869_blocks (prk info : bytes) (n : nat) : bytes :=
  match n with
  | O => []
  | S m => rfc5869_blocks prk info m ++ rfc5869_block prk info n
  end.

Definition rfc5869_expand (prk info : bytes) (size : Z) : bytes :=
  take (Z.to_nat size) (rfc5869_blocks prk info (Z.to_nat ((size + 31) / 32))).

Lemma length_rfc5869_blocks prk info n : length (rfc5869_blocks prk info n) = (32 * n)%nat.
Proof.
  induction n as [|n IH]; [done |]. cbn [rfc5869_blocks rfc5869_block]. rewrite length_app, IH.
  unfold hmac_sha256. rewrite sha256_length. lia.
Qed.

Lemma u8_succ x : u8 (u8 x + 1) = u8 (x + 1).
Proof. unfold u8. by rewrite Zplus_mod_idemp_l. Qed.

(** The loop after [k] blocks: the buffer holds their prefix and, behind it, what it
    held before. *)
Lemma expand_loop_spec prk info buffer fuel k :
  zlen buffer <= 8160 -> 32 * Z.of_nat k <= zlen buffer + 31 ->
  zlen buffer + 32 <= 32 * (Z.of_nat k + Z.of_nat fuel) ->
  let written := Z.min (32 * Z.of_nat k) (zlen buffer) in
  expand_loop fuel prk info (zlen buffer) (rfc5869_block prk info k) written (u8 (Z.of_nat k + 1))
    (take (Z.to_nat written) (rfc5869_blocks prk info k) ++ drop (Z.to_nat written) buffer) =
  rfc5869_expand prk info (zlen buffer).
Proof.
  intros HL. revert k. induction fuel as [|fuel IH]; intros k Hk Hfuel; cbv zeta; [lia |].
  cbn [expand_loop]. destruct (Z.leb_spec (zlen buffer) (Z.min (32 * Z.of_nat k) (zlen buffer))) as [Hd|Hd].
  - rewrite Z.min_r by lia. unfold rfc5869_expand.
    replace (Z.to_nat ((zlen buffer + 31) / 32)) with k.
    2:{ replace ((zlen buffer + 31) / 32) with (Z.of_nat k); [lia |].
        apply (Z.div_unique _ _ _ (zlen buffer + 31 - 32 * Z.of_nat k)); lia. }
    rewrite (drop_ge buffer) by (unfold zlen; lia). by rewrite app_nil_r.
  - assert (32 * Z.of_nat k < zlen buffer) as Hlt by lia. rewrite Z.min_l by lia.
    assert (u8 (Z.of_nat k + 1) = Z.of_nat (S k)) as Hc by (unfold u8; rewrite Z.mod_small; lia).
    assert (hmac_sha256 prk (rfc5869_block prk info k ++ info ++ [u8 (Z.of_nat k + 1)]) =
            rfc5869_block prk info (S k)) as -> by (by rewrite Hc).
    assert (length (rfc5869_block prk info (S k)) = 32%nat) as Hb by apply sha256_length.
    set (count := Z.min (zlen (rfc5869_block prk info (S k))) (zlen buffer - 32 * Z.of_nat k)).
    assert (count = Z.min 32 (zlen buffer - 32 * Z.of_nat k)) as Ecount by (unfold count, zlen; by rewrite Hb).
    rewrite u8_succ. replace (Z.of_nat k + 1 + 1) with (Z.of_nat (S k) + 1) by lia.
    replace (32 * Z.of_nat k + count) with (Z.min (32 * Z.of_nat (S k)) (zlen buffer)) by lia.
    rewrite <- (IH (S k)) by lia. f_equal.
    unfold overwrite. pose proof (length_rfc5869_blocks prk info k) as Hl.
    replace (Z.to_nat (32 * Z.of_nat k)) with (32 * k)%nat by lia.
    rewrite (take_ge (rfc5869_blocks prk info k)) by lia.
    rewrite take_app_length' by done. rewrite length_take, Hb, drop_app_ge by lia. rewrite drop_drop, Hl.
    replace (Z.to_nat (Z.min (32 * Z.of_nat (S k)) (zlen buffer))) with (32 * k + Z.to_nat count)%nat by lia.
    cbn [rfc5869_blocks]. rewrite take_app_ge, Hl, app_assoc by lia. f_equal; [do 2 f_equal; lia |].
    f_equal. lia.
Qed.

(** HKDF-Expand computes RFC 5869: for every key and info, and every buffer of at
    most 255 blocks, the loop fills the buffer with the output keying material of
    the standard, the one-byte counter never wrapping in between; a larger request
    is refused and the buffer left alone.  A null key or info is an empty one. *)
Theorem hkdf_expand_is_rfc5869 (prk info : option bytes) (buffer : bytes) :
  let size := zlen buffer in
  let result := hkdf_expand_sha256 prk (zlen (default [] prk)) info (zlen (default [] info)) (Some buffer) size in
  (size <= 255 * 32 -> result = (CryptoOk, Some (rfc5869_expand (default [] prk) (default [] info) size))) /\
  (255 * 32 < size -> result = (CryptoOutputTooLarge, Some buffer)).
Proof.
  cbv zeta. unfold hkdf_expand_sha256.
  assert (forall p : option bytes, bool_decide (p = None) && negb (zlen (default [] p) =? 0) = false) as Hnull.
  { intros [p|]; [by rewrite bool_decide_false | by rewrite andb_false_r]. }
  rewrite !Hnull. cbn [orb].
  split; intros Hs; destruct (Z.ltb_spec (255 * 32) (zlen buffer)); try lia; [| done].
  rewrite !slice_all. pose proof (zlen_nonneg buffer).
  rewrite <- (expand_loop_spec (default [] prk) (default [] info) buffer expand_fuel 0) by (unfold expand_fuel; lia).
  rewrite Z.min_l by lia. done.
Qed.

Lemma hkdf_expand_is_rfc5869_witness :
  let result := hkdf_expand_sha256 (Some [1; 2; 3]) 3 None 0 (Some (replicate 40 0)) 40 in
  result = (CryptoOk, Some (rfc5869_expand [1; 2; 3] [] 40)).
Proof. apply (hkdf_expand_is_rfc5869 (Some [1; 2; 3]) None (replicate 40 0)). vm_compute. discriminate. Defined.

(** ** The code the players compare *)

Definition is_digit (d : Z) : Prop := 48 <= d <= 57.

Definition code_value (code : bytes) : Z := fold_left (fun v d => 10 * v + (d - 48)) code 0.

(** The words of the blocks, in the order they are tried. *)
Definition sas_words (blocks : list bytes) : list Z := mjoin ((fun b => load32 b <$> word_offsets) <$> blocks).

Lemma digit_loop_app n v digits : digit_loop n v digits = digit_loop n v [] ++ digits.
Proof.
  revert v digits. induction n as [|n IH]; intros v digits; [done |]. cbn [digit_loop].
  rewrite IH, (IH _ [_]), <- app_assoc. done.
Qed.

Lemma code_value_snoc code d : code_value (code ++ [d]) = 10 * code_value code + (d - 48).
Proof. unfold code_value. by rewrite fold_left_app. Qed.

Lemma u8_digit v : u8 (48 + v mod 10) = 48 + v mod 10.
Proof. pose proof (Z.mod_pos_bound v 10 ltac:(lia)). unfold u8. apply Z.mod_small. lia. Qed.

Lemma digit_loop_value n v : 0 <= v < 10 ^ Z.of_nat n -> code_value (digit_loop n v []) = v.
Proof.
  revert v. induction n as [|n IH]; intros v Hv; [change (10 ^ Z.of_nat 0) with 1 in Hv; cbn; lia |].
  cbn [digit_loop]. rewrite digit_loop_app, code_value_snoc, u8_digit.
  rewrite Nat2Z.inj_succ, Z.pow_succ_r in Hv by lia.
  rewrite IH by (split; [apply Z.div_pos; lia | apply Z.div_lt_upper_bound; lia]).
  pose proof (Z.div_mod v 10 ltac:(lia)). lia.
Qed.

Lemma digit_loop_code code : Forall is_digit code -> digit_loop (length code) (code_value code) [] = code.
Proof.
  induction code as [|d code IH] using rev_ind; intros Hc; [done |].
  apply Forall_app in Hc as [Hc Hd]. inversion_clear Hd as [|? ? Hd' _]. unfold is_digit in Hd'.
  rewrite length_app, Nat.add_comm, code_value_snoc. cbn [length Nat.add digit_loop].
  rewrite digit_loop_app, u8_digit.
  replace (10 * code_value code + (d - 48)) with (d - 48 + code_value code * 10) by lia.
  rewrite Z.div_add, Z.div_small, Z.add_0_l, IH by (done || lia).
  rewrite Z.mod_add, Z.mod_small by lia. do 2 f_equal. lia.
Qed.

Lemma code_value_bound code :
  Forall is_digit code -> 0 <= code_value code < 10 ^ zlen code.
Proof.
  induction code as [|d code IH] using rev_ind; intros Hc; [split; [done | reflexivity] |].
  apply Forall_app in Hc as [Hc Hd]. inversion_clear Hd as [|? ? Hd' _]. unfold is_digit in Hd'.
  rewrite code_value_snoc, zlen_app. change (zlen [d]) with 1. pose proof (zlen_nonneg code).
  rewrite Z.pow_add_r by lia. specialize (IH Hc). lia.
Qed.

(** A word yields a code exactly when it is congruent to it. *)
Lemma sas_digits_iff w code :
  length code = 6%nat -> Forall is_digit code -> sas_digits w = code <-> w mod 1000000 = code_value code.
Proof.
  intros Hl Hc. pose proof (Z.mod_pos_bound w 1000000 ltac:(lia)) as Hb. unfold sas_digits. split.
  - intros <-. symmetry. by apply digit_loop_value.
  - intros ->. rewrite <- Hl. by apply digit_loop_code.
Qed.

Lemma scan_offsets_spec block offsets :
  scan_offsets block offsets =
  sas_digits <$> head (filter (fun w => w < sas_limit) (load32 block <$> offsets)).
Proof.
  induction offsets as [|off offsets IH]; [done |]. cbn [scan_offsets]. rewrite fmap_cons, filter_cons.
  destruct (Z.leb_spec sas_limit (load32 block off)); [rewrite decide_False by lia | rewrite decide_True by lia]; done.
Qed.

Lemma scan_blocks_spec blocks :
  scan_blocks blocks = sas_digits <$> head (filter (fun w => w < sas_limit) (sas_words blocks)).
Proof.
  induction blocks as [|b blocks IH]; [done |]. cbn [scan_blocks]. rewrite scan_offsets_spec, IH.
  unfold sas_words. rewrite fmap_cons. change (mjoin (?a :: ?l)) with (a ++ mjoin l). rewrite filter_app.
  by destruct (filter _ (load32 b <$> word_offsets)).
Qed.

(** The code is the six decimal digits of the first word of the blocks that lies
    below 4,294,000,000, and a retry is reported exactly when there is none; of the
    words it can be read off, every one of the million codes has exactly 4,294, so no
    code is likelier than another. *)
Theorem pair_sas_uniform (blocks : list bytes) (out code : bytes) :
  blocks <> [] -> length code = 6%nat -> Forall is_digit code ->
  pair_sas_from_blocks (Some blocks) (Some out) =
    match head (filter (fun w => w < sas_limit) (sas_words blocks)) with
    | Some w => (CryptoOk, Some (sas_digits w))
    | None => (CryptoRetry, Some out)
    end /\
  exists words, NoDup words /\ zlen words = 4294 /\
    forall w, 0 <= w -> (w ∈ words <-> w < sas_limit /\ sas_digits w = code).
Proof.
  intros Hb Hl Hc. split.
  { destruct blocks as [|b blocks]; [done |].
    change (pair_sas_from_blocks (Some (b :: blocks)) (Some out)) with
      (match scan_blocks (b :: blocks) with
       | Some digits => (CryptoOk, Some digits) | None => (CryptoRetry, Some out) end).
    rewrite scan_blocks_spec. by destruct (head _). }
  exists ((fun k => code_value code + 1000000 * k) <$> seqZ 0 4294).
  assert (0 <= code_value code < 1000000) as Hv.
  { pose proof (code_value_bound code Hc) as Hb'. unfold zlen in Hb'. by rewrite Hl in Hb'. }
  split; [| split; [by unfold zlen; rewrite length_fmap, length_seqZ |]].
  - apply NoDup_fmap_2; [intros ? ? ?; lia | apply NoDup_seqZ].
  - intros w Hw. rewrite list_elem_of_fmap, sas_digits_iff by done. unfold sas_limit. split.
    + intros (k & -> & Hk). apply elem_of_seqZ in Hk. split; [lia |].
      rewrite Z.mul_comm, Z.mod_add, Z.mod_small; lia.
    + intros [Hlt Hm]. exists (w / 1000000). pose proof (Z.div_mod w 1000000 ltac:(lia)).
      split; [lia |]. apply elem_of_seqZ. split; [apply Z.div_pos; lia |].
      apply Z.div_lt_upper_bound; lia.
Qed.

Lemma pair_sas_uniform_witness :
  let block := [255; 255; 255; 255; 0; 18; 214; 136] ++ replicate 24 7 in
  pair_sas_from_blocks (Some [block]) (Some (replicate 6 0)) =
    (CryptoOk, Some (ascii_bytes "234568")) /\
  exists words, zlen words = 4294 /\ 0x12d688 ∈ words.
Proof.
  destruct (pair_sas_uniform [[255; 255; 255; 255; 0; 18; 214; 136] ++ replicate 24 7] (replicate 6 0)
    (ascii_bytes "234568")) as [E (words & _ & Hn & Hw)]; [done | done | |].
  { unfold is_digit. vm_compute. repeat constructor; discriminate. }
  split; [rewrite E; vm_compute; reflexivity |]. exists words. split; [exact Hn |].
  apply Hw; [lia |]. split; [reflexivity |]. vm_compute. reflexivity.
Defined.
