(* ===== verification/P256.v ===== *)
(** * P-256 point validation ([shared/src/session/wire/p256_point.cpp])

    Field elements are eight 32-bit limbs, least significant first; every loop of
    the code is a recursion over the limbs with its carry or borrow.  The theorem
    at the end is the equivalence with the curve equation over the integers. *)

From S2P Require Import Prelude.

(** ** Definitions *)

Abbreviation Field := (list Z) (only parsing).

Definition kPrime : Field :=
  [0xffffffff; 0xffffffff; 0xffffffff; 0x00000000;
   0x00000000; 0x00000000; 0x00000001; 0xffffffff].

Definition kB : Field :=
  [0x27d2604b; 0x3bce3c3e; 0xcc53b0f6; 0x651d06b0;
   0x769886bc; 0xb3ebbd55; 0xaa3a93e7; 0x5ac635d8].

(** The limb at a byte offset of a big-endian coordinate. *)
Definition parse_limb (data : bytes) (limb : Z) : Z :=
  let offset := 28 - limb * 4 in load32 data offset.

Definition parse_be (data : bytes) : Field := parse_limb data <$> seqZ 0 8.

(** The comparison loop, from limb [n - 1] down to limb 0. *)
Fixpoint compare_loop (n : nat) (left right : Field) : Z :=
  match n with
  | O => 0
  | S index =>
    let l := at_ left (Z.of_nat index) in
    let r := at_ right (Z.of_nat index) in
    if negb (l =? r) then (if l <? r then -1 else 1)
    else compare_loop index left right
  end.

Definition compare (left right : Field) : Z := compare_loop 8 left right.

(** The borrow loop: the difference of each pair of limbs at 64 bits, truncated. *)
Fixpoint sub_loop (left right : Field) (borrow : Z) : Field :=
  match left, right with
  | l :: left', r :: right' =>
    let subtrahend := u64 (r + borrow) in
    u32 (u64 (l - subtrahend)) ::
    sub_loop left' right' (if l <? subtrahend then 1 else 0)
  | _, _ => []
  end.

Definition subtract (left right : Field) : Field := sub_loop left right 0.

(** The carry loop, with the final carry. *)
Fixpoint add_loop (left right : Field) (carry : Z) : Field * Z :=
  match left, right with
  | l :: left', r :: right' =>
    let sum := u64 (l + r + carry) in
    let '(value, final) := add_loop left' right' (Z.shiftr sum 32) in
    (u32 sum :: value, final)
  | _, _ => ([], carry)
  end.

Definition add_mod (left right : Field) : Field :=
  let '(value, carry) := add_loop left right 0 in
  if (carry =? 0) && (compare value kPrime <? 0) then value
  else sub_loop value kPrime 0.

Definition sub_mod (left right : Field) : Field :=
  if 0 <=? compare left right then subtract left right
  else subtract kPrime (subtract right left).

Definition bit_of (right : Field) (bit : Z) : bool :=
  negb (Z.land (at_ right (bit / 32)) (Z.shiftl 1 (bit mod 32)) =? 0).

(** One iteration of the double-and-add loop. *)
Definition multiply_step (right : Field) (state : Field * Field) (bit : Z) : Field * Field :=
  let '(result, addend) := state in
  (if bit_of right bit then add_mod result addend else result,
   if negb (bit =? 255) then add_mod addend addend else addend).

Definition multiply_mod (left right : Field) : Field :=
  (fold_left (multiply_step right) (seqZ 0 256) (replicate 8 0, left)).1.

Definition validate_p256_uncompressed_point (point_x963 : bytes) : bool :=
  if negb (at_ point_x963 0 =? 0x04) then false
  else
    let x := parse_be (drop 1 point_x963) in
    let y := parse_be (drop 33 point_x963) in
    if (0 <=? compare x kPrime) || (0 <=? compare y kPrime) then false
    else
      let y_squared := multiply_mod y y in
      let x_squared := multiply_mod x x in
      let x_cubed := multiply_mod x_squared x in
      let two_x := add_mod x x in
      let three_x := add_mod two_x x in
      let right := add_mod (sub_mod x_cubed three_x) kB in
      compare y_squared right =? 0.

(** ** Reference: the curve over the integers *)

Definition p256 : Z := 2 ^ 256 - 2 ^ 224 + 2 ^ 192 + 2 ^ 96 - 1.
Definition b256 : Z := 0x5ac635d8aa3a93e7b3ebbd55769886bc651d06b0cc53b0f63bce3c3e27d2604b.

Definition on_curve (x y : Z) : Prop :=
  x < p256 /\ y < p256 /\ (y * y) mod p256 = (x * x * x - 3 * x + b256) mod p256.

#[export] Instance on_curve_dec x y : Decision (on_curve x y).
Proof. unfold on_curve. apply _. Defined.

(** The integer the limbs denote. *)
Fixpoint limbs_value (l : Field) : Z :=
  match l with
  | [] => 0
  | x :: l' => x + 2 ^ 32 * limbs_value l'
  end.

Definition is_limb (x : Z) : Prop := 0 <= x < 2 ^ 32.
Definition field_wf (l : Field) : Prop := length l = 8%nat /\ Forall is_limb l.

(** A field element: a well-formed value below the prime. *)
Definition element (l : Field) : Prop := field_wf l /\ limbs_value l < p256.

(** ** Limb arithmetic *)

Lemma limbs_bound l : Forall is_limb l -> 0 <= limbs_value l < 2 ^ (32 * zlen l).
Proof.
  induction 1 as [|x l Hx _ IH]; [by split |].
  rewrite zlen_cons. cbn [limbs_value]. unfold is_limb in Hx.
  replace (32 * (zlen l + 1)) with (32 + 32 * zlen l) by lia.
  pose proof (zlen_nonneg l). rewrite Z.pow_add_r by lia. lia.
Qed.

Lemma field_bound l : field_wf l -> 0 <= limbs_value l < 2 ^ 256.
Proof.
  intros [Hl Hw]. pose proof (limbs_bound l Hw) as H. unfold zlen in H. by rewrite Hl in H.
Qed.

Lemma u32_limb x : is_limb (u32 x).
Proof. apply Z.mod_pos_bound. lia. Qed.

Lemma sub_loop_spec l r borrow :
  length l = length r -> Forall is_limb l -> Forall is_limb r -> 0 <= borrow <= 1 ->
  length (sub_loop l r borrow) = length l /\ Forall is_limb (sub_loop l r borrow) /\
  limbs_value (sub_loop l r borrow) =
    (limbs_value l - limbs_value r - borrow) mod 2 ^ (32 * zlen l).
Proof.
  intros Hlen Hl. revert r borrow Hlen. induction Hl as [|x l Hx Hl IH]; intros [|y r] borrow Hlen Hr Hb;
    try done.
  { cbn. by rewrite Z.mod_1_r. }
  apply Forall_cons in Hr as [Hy Hr]. injection Hlen as Hlen. unfold is_limb in Hx, Hy.
  cbn [sub_loop]. cbv zeta. rewrite (u64_small (y + borrow)) by lia.
  set (b' := if x <? y + borrow then 1 else 0).
  assert (0 <= b' <= 1) as Hb' by (subst b'; destruct (_ <? _); lia).
  destruct (IH r b' Hlen Hr Hb') as (H1 & H2 & H3).
  split; [cbn; by rewrite H1 |]. split; [constructor; [apply u32_limb | done] |].
  cbn [limbs_value]. rewrite H3, zlen_cons.
  assert (u32 (u64 (x - (y + borrow))) = x - (y + borrow) + 2 ^ 32 * b') as ->.
  { unfold u32, u64. rewrite Z.mod_mod_divide by (by exists (2 ^ 32)).
    subst b'. destruct (Z.ltb_spec x (y + borrow)).
    - symmetry. apply (Z.mod_unique _ _ (-1)); lia.
    - rewrite Z.mod_small by lia. lia. }
  replace (32 * (zlen l + 1)) with (32 + 32 * zlen l) by lia.
  pose proof (zlen_nonneg l). pose proof (Z.pow_pos_nonneg 2 (32 * zlen l) ltac:(lia) ltac:(lia)).
  rewrite Z.pow_add_r, Z.rem_mul_r by lia.
  set (D := limbs_value l - limbs_value r - b').
  replace (x + 2 ^ 32 * limbs_value l - (y + 2 ^ 32 * limbs_value r) - borrow)
    with (x - (y + borrow) + 2 ^ 32 * b' + D * 2 ^ 32) by (subst D; lia).
  assert (0 <= x - (y + borrow) + 2 ^ 32 * b' < 2 ^ 32).
  { subst b'. destruct (Z.ltb_spec x (y + borrow)); lia. }
  rewrite Z.mod_add, Z.div_add by lia.
  set (d := x - (y + borrow) + 2 ^ 32 * b') in *.
  rewrite (Z.mod_small d), (Z.div_small d) by lia. by rewrite Z.add_0_l.
Qed.

Lemma add_loop_spec l r carry :
  length l = length r -> Forall is_limb l -> Forall is_limb r -> 0 <= carry <= 1 ->
  let '(v, final) := add_loop l r carry in
  length v = length l /\ Forall is_limb v /\ 0 <= final <= 1 /\
  limbs_value v + 2 ^ (32 * zlen l) * final = limbs_value l + limbs_value r + carry.
Proof.
  intros Hlen Hl. revert r carry Hlen. induction Hl as [|x l Hx Hl IH]; intros [|y r] carry Hlen Hr Hc;
    try done.
  { cbn [add_loop limbs_value]. change (2 ^ (32 * zlen _)) with 1. split_and!; (done || lia). }
  apply Forall_cons in Hr as [Hy Hr]. injection Hlen as Hlen. unfold is_limb in Hx, Hy.
  cbn [add_loop]. cbv zeta. rewrite (u64_small (x + y + carry)) by lia.
  rewrite Z.shiftr_div_pow2 by lia. set (c' := (x + y + carry) / 2 ^ 32).
  assert (0 <= c' <= 1) as Hc'.
  { subst c'. split; [apply Z.div_pos; lia |]. apply Z.lt_succ_r, Z.div_lt_upper_bound; lia. }
  specialize (IH r c' Hlen Hr Hc'). destruct (add_loop l r c') as [v final].
  destruct IH as (H1 & H2 & H3 & H4).
  split; [cbn; by rewrite H1 |]. split; [constructor; [apply u32_limb | done] |]. split; [done |].
  cbn [limbs_value]. rewrite zlen_cons. unfold u32.
  pose proof (Z.div_mod (x + y + carry) (2 ^ 32) ltac:(lia)) as Hd. fold c' in Hd.
  replace (32 * (zlen l + 1)) with (32 + 32 * zlen l) by lia.
  pose proof (zlen_nonneg l). rewrite Z.pow_add_r by lia. lia.
Qed.

(** Comparing from the top limb down compares the values. *)
Lemma compare_loop_spec l r n :
  (n <= length l)%nat -> (n <= length r)%nat -> Forall is_limb l -> Forall is_limb r ->
  compare_loop n l r =
  match Z.compare (limbs_value (take n l)) (limbs_value (take n r)) with Lt => -1 | Eq => 0 | Gt => 1 end.
Proof.
  assert (forall k i, (i < length k)%nat -> Forall is_limb k ->
    limbs_value (take (S i) k) = limbs_value (take i k) + 2 ^ (32 * Z.of_nat i) * at_ k (Z.of_nat i) /\
    is_limb (at_ k (Z.of_nat i)) /\ 0 <= limbs_value (take i k) < 2 ^ (32 * Z.of_nat i)) as Htop.
  { intros k i Hi Hk. split; [| split].
    - unfold at_. rewrite Nat2Z.id. revert i Hi. induction Hk as [|x k Hx Hk IH]; intros i Hi; [cbn in Hi; lia |].
      destruct i as [|i]; [change (2 ^ (32 * Z.of_nat 0)) with 1; rewrite !take_0; cbn; rewrite take_0; cbn; lia |].
      change (take (S (S i)) (x :: k)) with (x :: take (S i) k).
      change (take (S i) (x :: k)) with (x :: take i k). cbn [limbs_value nth].
      rewrite IH by (cbn in Hi; lia).
      replace (32 * Z.of_nat (S i)) with (32 + 32 * Z.of_nat i) by lia.
      rewrite Z.pow_add_r by lia. lia.
    - unfold at_. rewrite Nat2Z.id. rewrite Forall_forall in Hk. apply Hk.
      apply list_elem_of_In, nth_In. lia.
    - pose proof (limbs_bound (take i k) (Forall_take _ _ _ Hk)) as H.
      unfold zlen in H. by rewrite length_take, Nat.min_l in H by lia. }
  induction n as [|n IH]; intros Hl Hr Hwl Hwr; [done |].
  destruct (Htop l n ltac:(lia) Hwl) as (-> & Hbl & Hvl).
  destruct (Htop r n ltac:(lia) Hwr) as (-> & Hbr & Hvr).
  cbn [compare_loop]. cbv zeta. unfold is_limb in *.
  destruct (Z.eqb_spec (at_ l (Z.of_nat n)) (at_ r (Z.of_nat n))) as [->|Hne]; cbn [negb].
  { rewrite IH by (done || lia). by rewrite !(Z.add_comm _ (2 ^ (32 * Z.of_nat n) * _)), Z.add_compare_mono_l. }
  symmetry. destruct (Z.ltb_spec (at_ l (Z.of_nat n)) (at_ r (Z.of_nat n))).
  - by rewrite (proj2 (Z.compare_lt_iff _ _)) by nia.
  - by rewrite (proj2 (Z.compare_gt_iff _ _)) by nia.
Qed.

Lemma compare_spec l r :
  field_wf l -> field_wf r ->
  compare l r = match Z.compare (limbs_value l) (limbs_value r) with Lt => -1 | Eq => 0 | Gt => 1 end.
Proof.
  intros [Hl Hwl] [Hr Hwr]. unfold compare. rewrite compare_loop_spec by (done || lia).
  by rewrite !take_ge by lia.
Qed.

Lemma kPrime_value : limbs_value kPrime = p256.
Proof. reflexivity. Qed.

Lemma kB_value : limbs_value kB = b256.
Proof. reflexivity. Qed.

Lemma limbs_wf_compute l :
  length l = 8%nat -> forallb (fun x => (0 <=? x) && (x <? 2 ^ 32)) l = true -> field_wf l.
Proof.
  intros Hl H. split; [done |]. apply Forall_forall. intros x Hx.
  rewrite forallb_forall in H. specialize (H x (proj1 (list_elem_of_In _ _) Hx)).
  unfold is_limb. bool_hyps. lia.
Qed.

Lemma kPrime_wf : field_wf kPrime.
Proof. by apply limbs_wf_compute. Qed.

Lemma kB_element : element kB.
Proof. split; [by apply limbs_wf_compute | by vm_compute]. Qed.

#[local] Hint Resolve kPrime_wf kB_element : flynes.

Lemma compare_lt l r : field_wf l -> field_wf r -> (compare l r <? 0) = (limbs_value l <? limbs_value r).
Proof.
  intros Hl Hr. rewrite compare_spec by done. unfold Z.ltb at 2.
  by destruct (limbs_value l ?= limbs_value r).
Qed.

Lemma compare_ge l r : field_wf l -> field_wf r -> (0 <=? compare l r) = (limbs_value r <=? limbs_value l).
Proof.
  intros Hl Hr. rewrite compare_spec by done. unfold Z.leb at 2.
  rewrite (Z.compare_antisym (limbs_value l)). by destruct (limbs_value l ?= limbs_value r).
Qed.

Lemma subtract_spec l r :
  field_wf l -> field_wf r ->
  field_wf (subtract l r) /\ limbs_value (subtract l r) = (limbs_value l - limbs_value r) mod 2 ^ 256.
Proof.
  intros [Hl Hwl] [Hr Hwr].
  destruct (sub_loop_spec l r 0) as (H1 & H2 & H3); [congruence | done | done | lia |].
  unfold subtract, field_wf. rewrite H1, H3, Z.sub_0_r. unfold zlen. by rewrite Hl.
Qed.

(** ** Field arithmetic *)

Lemma add_mod_spec l r :
  element l -> element r ->
  element (add_mod l r) /\ limbs_value (add_mod l r) = (limbs_value l + limbs_value r) mod p256.
Proof.
  intros [Hl Hlp] [Hr Hrp]. pose proof (field_bound l Hl). pose proof (field_bound r Hr).
  unfold add_mod. pose proof (add_loop_spec l r 0) as Ha.
  destruct (add_loop l r 0) as [v carry].
  destruct Ha as (H1 & H2 & H3 & H4); [destruct Hl, Hr; congruence | apply Hl | apply Hr | lia |].
  assert (field_wf v) as Hv by (split; [destruct Hl; congruence | done]).
  replace (32 * zlen l) with 256 in H4 by (destruct Hl as [E _]; unfold zlen; rewrite E; lia).
  pose proof (field_bound v Hv). pose proof kPrime_value as Hkp.
  assert (0 < p256 < 2 ^ 256) as Hp by (split; by vm_compute).
  rewrite compare_lt, Hkp by auto with flynes.
  destruct (Z.eqb_spec carry 0) as [E0|E0]; cbn [andb]; [destruct (Z.ltb_spec (limbs_value v) p256) |].
  - subst carry. rewrite Z.mul_0_r, !Z.add_0_r in H4.
    split; [split; [done | done] |]. rewrite <- H4. rewrite Z.mod_small; lia.
  - destruct (subtract_spec v kPrime Hv kPrime_wf) as [Hw Hval]. fold (subtract v kPrime).
    subst carry. rewrite Z.mul_0_r, !Z.add_0_r in H4. rewrite Hkp in Hval.
    rewrite Z.mod_small in Hval by lia. unfold element. rewrite Hval.
    split; [split; [done | lia] |]. rewrite <- H4.
    apply (Z.mod_unique _ _ 1); lia.
  - destruct (subtract_spec v kPrime Hv kPrime_wf) as [Hw Hval]. fold (subtract v kPrime).
    assert (carry = 1) as -> by lia. rewrite Hkp in Hval.
    rewrite <- (Z.mod_unique (limbs_value v - p256) (2 ^ 256) (-1)
      (limbs_value v + 2 ^ 256 - p256)) in Hval by lia.
    unfold element. rewrite Hval. split; [split; [done | lia] |].
    apply (Z.mod_unique _ _ 1); lia.
Qed.

Lemma sub_mod_spec l r :
  element l -> element r ->
  element (sub_mod l r) /\ limbs_value (sub_mod l r) = (limbs_value l - limbs_value r) mod p256.
Proof.
  intros [Hl Hlp] [Hr Hrp]. pose proof (field_bound l Hl). pose proof (field_bound r Hr).
  pose proof kPrime_value as Hkp. assert (0 < p256 < 2 ^ 256) as Hp by (split; by vm_compute).
  unfold sub_mod. rewrite compare_ge by done.
  destruct (Z.leb_spec (limbs_value r) (limbs_value l)).
  - destruct (subtract_spec l r Hl Hr) as [Hw Hv]. rewrite Z.mod_small in Hv by lia.
    unfold element. rewrite Hv. split; [split; [done | lia] |]. symmetry. apply Z.mod_small. lia.
  - destruct (subtract_spec r l Hr Hl) as [Hw Hv]. rewrite Z.mod_small in Hv by lia.
    destruct (subtract_spec kPrime _ kPrime_wf Hw) as [Hw' Hv']. rewrite Hv, Hkp in Hv'.
    rewrite Z.mod_small in Hv' by lia.
    unfold element. rewrite Hv'. split; [split; [done | lia] |]. apply (Z.mod_unique _ _ (-1)); lia.
Qed.

(** Bit [i] of the value is the bit the loop tests. *)
Lemma bit_of_spec l i :
  Forall is_limb l -> 0 <= i -> i < 32 * zlen l -> bit_of l i = Z.testbit (limbs_value l) i.
Proof.
  intros Hl Hi Hlt. unfold bit_of.
  assert (Z.testbit (limbs_value l) i = Z.testbit (at_ l (i / 32)) (i mod 32)) as ->.
  { revert i Hi Hlt. induction Hl as [|x l Hx Hl IH]; intros i Hi Hlt.
    { change (zlen []) with 0 in Hlt. lia. }
    rewrite zlen_cons in Hlt. cbn [limbs_value]. unfold is_limb in Hx.
    destruct (decide (i < 32)).
    - rewrite (Z.div_small i), (Z.mod_small i) by lia. change (at_ (x :: l) 0) with x.
      rewrite <- (Z.mod_pow2_bits_low _ 32) by lia.
      rewrite (Z.mul_comm (2 ^ 32)), Z.mod_add, Z.mod_small by lia. done.
    - replace i with (i - 32 + 32) at 1 by lia. rewrite <- Z.div_pow2_bits by lia.
      rewrite (Z.mul_comm (2 ^ 32)), Z.div_add, Z.div_small, Z.add_0_l by lia.
      rewrite IH by lia. replace i with (i - 32 + 1 * 32) at 3 4 by lia.
      rewrite Z.mod_add, Z.div_add by lia. f_equal. unfold at_.
      assert (0 <= (i - 32) / 32) by (apply Z.div_pos; lia).
      by replace (Z.to_nat ((i - 32) / 32 + 1)) with (S (Z.to_nat ((i - 32) / 32))) by lia. }
  pose proof (Z.mod_pos_bound i 32 ltac:(lia)) as Hm. set (k := i mod 32) in *.
  rewrite Z.shiftl_1_l. destruct (Z.testbit (at_ l (i / 32)) k) eqn:E.
  - apply negb_true_iff, Z.eqb_neq. intros H. apply (f_equal (fun x => Z.testbit x k)) in H.
    rewrite Z.land_spec, E, Z.pow2_bits_true, Z.bits_0 in H by lia. done.
  - apply negb_false_iff, Z.eqb_eq, Z.bits_inj'. intros j Hj. rewrite Z.land_spec, Z.bits_0.
    destruct (decide (j = k)) as [->|]; [by rewrite E |].
    rewrite Z.pow2_bits_false by congruence. by rewrite andb_false_r.
Qed.

Lemma mod_pow2_succ y k : 0 <= k -> y mod 2 ^ (k + 1) = y mod 2 ^ k + 2 ^ k * Z.b2z (Z.testbit y k).
Proof.
  intros Hk. rewrite Z.pow_add_r, Z.rem_mul_r by lia. f_equal. f_equal.
  rewrite Z.testbit_spec' by lia. done.
Qed.

Lemma p256_pos : 0 < p256.
Proof. by vm_compute. Qed.

(** After [k] iterations the accumulator holds the product with the low [k] bits
    and the addend the left operand doubled [k] times. *)
Lemma multiply_loop l r k :
  element l -> element r -> (k <= 256)%nat ->
  let '(result, addend) := fold_left (multiply_step r) (seqZ 0 (Z.of_nat k)) (replicate 8 0, l) in
  element result /\ element addend /\
  limbs_value result = (limbs_value l * (limbs_value r mod 2 ^ Z.of_nat k)) mod p256 /\
  ((k <= 255)%nat -> limbs_value addend = (limbs_value l * 2 ^ Z.of_nat k) mod p256).
Proof.
  intros Hl Hr. pose proof p256_pos as Hp. induction k as [|k IH]; intros Hk.
  { cbn [seqZ fold_left]. change (seqZ 0 (Z.of_nat 0)) with (@nil Z). cbn [fold_left].
    split; [split; [by apply limbs_wf_compute | by vm_compute] |]. split; [done |].
    destruct Hl as [Hl Hlp]. pose proof (field_bound l Hl).
    change (2 ^ Z.of_nat 0) with 1. rewrite Z.mod_1_r, Z.mul_0_r, Z.mul_1_r.
    split; [done |]. intros _. by rewrite Z.mod_small by lia. }
  replace (seqZ 0 (Z.of_nat (S k))) with (seqZ 0 (Z.of_nat k) ++ [Z.of_nat k]).
  2:{ replace (Z.of_nat (S k)) with (Z.of_nat k + 1) by lia.
      rewrite seqZ_app by lia. f_equal. }
  rewrite fold_left_app. specialize (IH ltac:(lia)).
  destruct (fold_left _ (seqZ 0 (Z.of_nat k)) _) as [result addend].
  destruct IH as (Her & Hea & Hvr & Hva). specialize (Hva ltac:(lia)).
  cbn [fold_left multiply_step]. replace (Z.of_nat (S k)) with (Z.of_nat k + 1) by lia.
  rewrite bit_of_spec by (try apply Hr; unfold zlen; rewrite ?(proj1 (proj1 Hr)); lia).
  rewrite mod_pow2_succ by lia.
  destruct (add_mod_spec result addend Her Hea) as [Hes Hvs].
  destruct (add_mod_spec addend addend Hea Hea) as [Hed Hvd].
  split; [by destruct (Z.testbit _ _) |]. split; [by destruct (negb _) |]. split.
  - destruct (Z.testbit (limbs_value r) (Z.of_nat k)).
    + rewrite Hvs, Hvr, Hva, <- Z.add_mod by lia. f_equal. cbn [Z.b2z]. lia.
    + rewrite Hvr. f_equal. cbn [Z.b2z]. lia.
  - intros Hk'. destruct (Z.eqb_spec (Z.of_nat k) 255); [lia |]. cbn [negb].
    rewrite Hvd, Hva, <- Z.add_mod by lia. f_equal. rewrite Z.pow_add_r by lia. lia.
Qed.

Lemma multiply_mod_spec l r :
  element l -> element r ->
  element (multiply_mod l r) /\
  limbs_value (multiply_mod l r) = (limbs_value l * limbs_value r) mod p256.
Proof.
  intros Hl Hr. pose proof (multiply_loop l r 256 Hl Hr ltac:(lia)) as H. unfold multiply_mod.
  change (Z.of_nat 256) with 256 in H. destruct (fold_left _ _ _) as [result addend].
  destruct H as (He & _ & Hv & _). split; [done |]. cbn [fst]. rewrite Hv.
  pose proof (field_bound r (proj1 Hr)). by rewrite (Z.mod_small (limbs_value r)) by lia.
Qed.

(** ** Parsing *)

Lemma limbs_value_snoc l x : limbs_value (l ++ [x]) = limbs_value l + 2 ^ (32 * zlen l) * x.
Proof.
  induction l as [|y l IH]; [cbn [app limbs_value]; change (2 ^ (32 * zlen [])) with 1; lia |].
  cbn [app limbs_value]. rewrite IH, zlen_cons. replace (32 * (zlen l + 1)) with (32 + 32 * zlen l) by lia.
  pose proof (zlen_nonneg l). rewrite Z.pow_add_r by lia. lia.
Qed.

(** Limbs read from the last word up denote the big-endian value. *)
Lemma limbs_of_be (n : nat) (data : bytes) :
  is_bytes data -> zlen data = 4 * Z.of_nat n ->
  limbs_value ((fun limb => be_value (slice data (4 * Z.of_nat n - 4 - limb * 4) 4)) <$> seqZ 0 (Z.of_nat n)) =
  be_value data.
Proof.
  revert data. induction n as [|n IH]; intros data Hb Hl.
  { destruct data; [done |]. rewrite zlen_cons in Hl. pose proof (zlen_nonneg data). lia. }
  replace (seqZ 0 (Z.of_nat (S n))) with (seqZ 0 (Z.of_nat n) ++ [Z.of_nat n]).
  2:{ replace (Z.of_nat (S n)) with (Z.of_nat n + 1) by lia. rewrite seqZ_app by lia. f_equal. }
  rewrite fmap_app. cbn [fmap list_fmap]. rewrite limbs_value_snoc.
  set (first := slice data 0 4). set (rest := slice data 4 (4 * Z.of_nat n)).
  assert (data = first ++ rest) as Hsplit.
  { subst first rest. rewrite <- (slice_all data) at 1. unfold slice, zlen in *. cbn [Z.to_nat drop].
    rewrite Hl, !drop_0. replace (Z.to_nat (4 * Z.of_nat (S n))) with (4 + Z.to_nat (4 * Z.of_nat n))%nat by lia.
    by rewrite take_take_drop. }
  assert (zlen first = 4) as Hf by (apply zlen_slice; lia).
  assert (zlen rest = 4 * Z.of_nat n) as Hr by (apply zlen_slice; lia).
  assert (is_bytes first /\ is_bytes rest) as [Hbf Hbr] by (split; by apply slice_bytes).
  assert (be_value data = be_value first * 2 ^ (8 * zlen rest) + be_value rest) as ->
    by (rewrite Hsplit at 1; by apply be_value_app).
  replace (4 * Z.of_nat (S n) - 4 - Z.of_nat n * 4) with 0 by lia. fold first.
  rewrite <- (IH rest) by done. unfold zlen at 1. rewrite length_fmap, length_seqZ, Z2Nat.id, Hr by lia.
  replace (32 * Z.of_nat n) with (8 * (4 * Z.of_nat n)) by lia.
  rewrite (Z.mul_comm (be_value first)), Z.add_comm. f_equal. f_equal.
  apply list_fmap_ext. intros i limb Hi.
  apply list_elem_of_lookup_2, elem_of_seqZ in Hi. f_equal.
  subst rest. rewrite slice_slice by lia. f_equal; lia.
Qed.

Lemma parse_be_spec data :
  is_bytes data -> 32 <= zlen data ->
  field_wf (parse_be data) /\ limbs_value (parse_be data) = be_value (slice data 0 32).
Proof.
  intros Hb Hl. split.
  - split; [done |]. apply Forall_fmap, Forall_forall. intros limb _. cbn. by apply load32_bound.
  - rewrite <- (limbs_of_be 8); [| by apply slice_bytes | by apply zlen_slice].
    unfold parse_be. f_equal. apply list_fmap_ext. intros i limb Hi.
    apply list_elem_of_lookup_2, elem_of_seqZ in Hi. unfold parse_limb. cbv zeta.
    change (Z.of_nat 8) with 8 in *. rewrite load32_value, slice_slice by lia. done.
Qed.

(** ** Property *)

(** C31. The limb implementation decides the curve: a 65-byte string is accepted
    exactly when it is an uncompressed point whose coordinates are below the prime
    and satisfy y^2 = x^3 - 3x + b modulo it. *)
Theorem point_check_is_curve_equation (point : bytes) :
  is_bytes point -> zlen point = 65 ->
  validate_p256_uncompressed_point point = true <->
  at_ point 0 = 4 /\ on_curve (be_value (slice point 1 32)) (be_value (slice point 33 32)).
Proof.
  intros Hb Hl. unfold validate_p256_uncompressed_point. cbv zeta.
  destruct (Z.eqb_spec (at_ point 0) 4) as [E0|]; cbn [negb]; [| by split; [| intros [? _]]].
  assert (is_bytes (drop 1 point) /\ is_bytes (drop 33 point)) as [Hb1 Hb2] by (split; by apply Forall_drop).
  destruct (parse_be_spec (drop 1 point) Hb1) as [Hwx Hx]; [unfold zlen in *; rewrite length_drop; lia |].
  destruct (parse_be_spec (drop 33 point) Hb2) as [Hwy Hy]; [unfold zlen in *; rewrite length_drop; lia |].
  change 1%nat with (Z.to_nat 1) in Hx. change 33%nat with (Z.to_nat 33) in Hy.
  rewrite slice_drop in Hx, Hy by lia. change (1 + 0) with 1 in Hx. change (33 + 0) with 33 in Hy.
  set (x := parse_be (drop 1 point)) in *. set (y := parse_be (drop 33 point)) in *.
  change (parse_be (drop (Z.to_nat 1) point)) with x in Hx.
  change (parse_be (drop (Z.to_nat 33) point)) with y in Hy. rewrite <- Hx, <- Hy.
  rewrite !compare_ge, kPrime_value by auto with flynes. unfold on_curve.
  destruct (Z.leb_spec p256 (limbs_value x)); cbn [orb]; [split; [done | lia] |].
  destruct (Z.leb_spec p256 (limbs_value y)); cbn [orb]; [split; [done | lia] |].
  assert (element x) as Ex by done. assert (element y) as Ey by done.
  destruct (multiply_mod_spec y y Ey Ey) as [Eyy Vyy].
  destruct (multiply_mod_spec x x Ex Ex) as [Exx Vxx].
  destruct (multiply_mod_spec _ x Exx Ex) as [Ex3 Vx3].
  destruct (add_mod_spec x x Ex Ex) as [E2x V2x].
  destruct (add_mod_spec _ x E2x Ex) as [E3x V3x].
  destruct (sub_mod_spec _ _ Ex3 E3x) as [Ed Vd].
  destruct (add_mod_spec _ kB Ed kB_element) as [Er Vr].
  rewrite compare_spec by (apply Eyy || apply Er). rewrite Vyy, Vr, Vd, Vx3, Vxx, V3x, V2x, kB_value.
  pose proof p256_pos as Hp.
  rewrite Z.mul_mod_idemp_l, (Z.add_mod_idemp_l (limbs_value x + limbs_value x)) by lia.
  rewrite Zminus_mod_idemp_l, Zminus_mod_idemp_r, Z.add_mod_idemp_l by lia.
  replace (limbs_value x + limbs_value x + limbs_value x) with (3 * limbs_value x) by lia.
  match goal with |- context [?a ?= ?b] => destruct (Z.compare_spec a b) end; split; (done || lia || tauto).
Qed.

(** The base point of the curve. *)
Definition base_point : bytes :=
  4 :: be_bytes 32 0x6b17d1f2e12c4247f8bce6e563a440f277037d812deb33a0f4a13945d898c296 ++
  be_bytes 32 0x4fe342e2fe1a7f9b8ee7eb4a7c0f9e162bce33576b315ececbb6406837bf51f5.

Lemma point_check_is_curve_equation_witness :
  zlen base_point = 65 /\ validate_p256_uncompressed_point base_point = true /\
  on_curve (be_value (slice base_point 1 32)) (be_value (slice base_point 33 32)).
Proof.
  assert (is_bytes base_point) as Hb.
  { apply is_bytes_cons. split; [unfold is_byte; lia |]. apply is_bytes_app. split; apply be_bytes_bytes. }
  assert (validate_p256_uncompressed_point base_point = true) as Hv by (vm_compute; reflexivity).
  split; [reflexivity |]. split; [exact Hv |].
  apply (point_check_is_curve_equation base_point Hb eq_refl) in Hv. apply Hv.
Defined.
