(* ===== verification/SessionCodec.v ===== *)
(** * The protocol object codec ([shared/src/session/wire/session_codec.{hpp,cpp}])

    [check] decides whether a byte string is a canonical encoding of a named
    protocol object and writes the object's digest.  Every branch is translated:
    the variable-length objects, the table of fixed-size ones, the two objects
    with cryptographic fields.  The output buffer is threaded through, because some
    branches write it before they refuse. *)

From S2P Require Import Prelude Sha256 P256.

(** ** Definitions *)

Inductive Status :=
  | Ok | Truncated | Trailing | UnknownEnum | NonzeroReserved | BadLength | UnknownKind
  | UnknownCriticalTag | InvalidField.

#[global] Instance status_eq_dec : EqDecision Status.
Proof. solve_decision. Defined.

Inductive QuicChannel := Control | Input | StateCommit | Bulk | Rom | Video | Audio.

#[global] Instance channel_eq_dec : EqDecision QuicChannel.
Proof. solve_decision. Defined.

(** The sign of [memcmp] over the common length. *)
Fixpoint memcmp (a b : bytes) : Z :=
  match a, b with
  | x :: a', y :: b' => if x <? y then -1 else if y <? x then 1 else memcmp a' b'
  | _, _ => 0
  end.

Definition p256_order : bytes :=
  [0xff;0xff;0xff;0xff;0x00;0x00;0x00;0x00; 0xff;0xff;0xff;0xff;0xff;0xff;0xff;0xff;
   0xbc;0xe6;0xfa;0xad;0xa7;0x17;0x9e;0x84; 0xf3;0xb9;0xca;0xc2;0xfc;0x63;0x25;0x51].

Definition p256_half_order : bytes :=
  [0x7f;0xff;0xff;0xff;0x80;0x00;0x00;0x00; 0x7f;0xff;0xff;0xff;0xff;0xff;0xff;0xff;
   0xde;0x73;0x7d;0x56;0xd3;0x8b;0xcf;0x42; 0x79;0xdc;0xe5;0x61;0x7e;0x31;0x92;0xa8].

Definition canonical_p256_low_s (signature : bytes) : bool :=
  negb (zeros signature 0 32) && (memcmp (slice signature 0 32) p256_order <? 0) &&
  negb (zeros signature 32 32) && (memcmp (slice signature 32 32) p256_half_order <=? 0).

Definition validate_identity_verifier_ref (data : bytes) : Status :=
  if negb (load16 data 0 =? 1) then InvalidField
  else if negb (zeros data 2 6) || negb (zeros data 105 7) then NonzeroReserved
  else if negb (validate_p256_uncompressed_point (slice data 40 65)) then InvalidField
  else
    let key_id := domain_hash "flynes-identity-key-id-v1" (slice data 40 65) in
    if decide (slice data 8 32 = key_id) then Ok else InvalidField.

Definition validate_session_signing_binding (data : bytes) : Status :=
  if zeros data 8 32 || zeros data 40 16 then InvalidField
  else if negb (zeros data 57 7) || negb (zeros data 241 7) then NonzeroReserved
  else
    let identity := validate_identity_verifier_ref (drop 64 data) in
    if decide (identity <> Ok) then identity
    else if negb (validate_p256_uncompressed_point (slice data 176 65)) ||
            bool_decide (slice data 104 65 = slice data 176 65) ||
            negb (canonical_p256_low_s (drop 248 data)) then InvalidField
    else Ok.

Definition length_status (size expected : Z) : Status :=
  if size =? expected then Ok else if size <? expected then Truncated else Trailing.

Definition write_hash (domain : string) (data : bytes) : bytes :=
  if decide (domain <> ""%string) then domain_hash domain data else sha256 data.

Definition require_version_reserved (data : bytes) : Status :=
  if zlen data <? 8 then Truncated
  else if negb (load16 data 0 =? 1) then InvalidField
  else if negb (zeros data 2 6) then NonzeroReserved
  else Ok.

(** The enum loop: offsets with their maxima. *)
Fixpoint check_enums (data : bytes) (enums : list (Z * Z)) : Status :=
  match enums with
  | [] => Ok
  | (off, enum_max) :: rest =>
    if zlen data <=? off then InvalidField
    else if (at_ data off <? 1) || (enum_max <? at_ data off) then UnknownEnum
    else check_enums data rest
  end.

Section Checks.
(** The caller's digest buffer. *)
Variable hash_out : bytes.

Definition check_fixed (data : bytes) (expected : Z) (domain : string) (enums : list (Z * Z))
    : Status * bytes :=
  let ls := length_status (zlen data) expected in
  if decide (ls <> Ok) then (ls, hash_out)
  else
    let vs := require_version_reserved data in
    if decide (vs <> Ok) then (vs, hash_out)
    else
      let es := check_enums data enums in
      if decide (es <> Ok) then (es, hash_out) else (Ok, write_hash domain data).

Definition check_pending_config_confirm (data : bytes) : Status * bytes :=
  let ls := length_status (zlen data) 44 in
  if decide (ls <> Ok) then (ls, hash_out)
  else if negb (load16 data 0 =? 1) then (InvalidField, hash_out)
  else if negb (zeros data 2 2) then (NonzeroReserved, hash_out)
  else if zeros data 4 32 then (InvalidField, hash_out)
  else if load64 data 36 =? 0 then (InvalidField, hash_out)
  else (Ok, write_hash "flynes-pending-config-confirm-v1" data).

Definition check_frame_cursor (data : bytes) : Status * bytes :=
  let ls := length_status (zlen data) 16 in
  if decide (ls <> Ok) then (ls, hash_out)
  else if 1 <? at_ data 0 then (UnknownEnum, hash_out)
  else if negb (zeros data 1 7) then (NonzeroReserved, hash_out)
  else if (at_ data 0 =? 0) && negb (zeros data 8 8) then (InvalidField, hash_out)
  else (Ok, write_hash "" data).

Definition check_channel_bind (data : bytes) : Status * bytes :=
  let ls := length_status (zlen data) 136 in
  if decide (ls <> Ok) then (ls, hash_out)
  else
    let vs := require_version_reserved data in
    if decide (vs <> Ok) then (vs, hash_out)
    else
      let kind := at_ data 8 in
      if (kind <? 1) || (3 <? kind) then (UnknownEnum, hash_out)
      else if negb (zeros data 9 7) then (NonzeroReserved, hash_out)
      else if (kind =? 1) && negb (zeros data 64 32) then (InvalidField, hash_out)
      else if (kind =? 1) && negb (zeros data 96 8) then (InvalidField, hash_out)
      else
        let nonce := sha256 (ascii_bytes "flynes-initial-bind-v1" ++ slice data 16 32) in
        if (kind =? 1) && negb (bool_decide (slice data 120 16 = take 16 nonce))
        then (InvalidField, hash_out)
        else (Ok, write_hash "" data).

(** The port loop of an input bundle: source, reason, reserved bytes, agreement
    with the prediction mask, and the pad bits. *)
Definition check_bundle_port (data : bytes) (mask port : Z) : Status :=
  let slot := 90 + port * 16 in
  let source := at_ data slot in
  let reason := at_ data (slot + 1) in
  let predicted := source =? 5 in
  let buttons := load32 data (slot + 4) in
  if (source <? 1) || (7 <? source) then UnknownEnum
  else if 4 <? reason then UnknownEnum
  else if negb (at_ data (slot + 2) =? 0) || negb (at_ data (slot + 3) =? 0) then NonzeroReserved
  else if negb (Z.land (Z.shiftr mask port) 1 =? (if predicted then 1 else 0)) then InvalidField
  else if negb (Z.land buttons 0xFFFFFF00 =? 0) then InvalidField
  else if (Z.land buttons 0x30 =? 0x30) || (Z.land buttons 0xC0 =? 0xC0) then InvalidField
  else Ok.

Fixpoint check_bundle_ports (data : bytes) (mask : Z) (ports : list Z) : Status :=
  match ports with
  | [] => Ok
  | port :: rest =>
    let st := check_bundle_port data mask port in
    if decide (st <> Ok) then st else check_bundle_ports data mask rest
  end.

Definition bundle_preimage (data : bytes) : bytes :=
  let size := zlen data in
  [0x10] ++ ascii_bytes "flynes-input-bundle-v1" ++
  [u8 (Z.shiftr size 24); u8 (Z.shiftr size 16); u8 (Z.shiftr size 8); u8 size] ++ data.

Definition check_bundle (data : bytes) : Status * bytes :=
  let ls := length_status (zlen data) 154 in
  if decide (ls <> Ok) then (ls, hash_out)
  else if negb (load16 data 0 =? 1) then (InvalidField, hash_out)
  else if negb (zeros data 83 7) then (NonzeroReserved, hash_out)
  else
    let mask := at_ data 82 in
    if negb (Z.land mask 0xF0 =? 0) then (InvalidField, hash_out)
    else
      let ps := check_bundle_ports data mask (seqZ 0 4) in
      if decide (ps <> Ok) then (ps, hash_out)
      else (Ok, sha256 (bundle_preimage data)).

(** The tag-length-value loop of the end package. *)
Fixpoint package_loop (n : nat) (data : bytes) (offset prev : Z) : Status * Z :=
  match n with
  | O => (Ok, offset)
  | S n' =>
    if zlen data <? offset + 6 then (Truncated, offset)
    else
      let tag := load16 data offset in
      let length := load32 data (offset + 2) in
      if (tag <? 1) || (23 <? tag) then (UnknownCriticalTag, offset)
      else if tag <=? prev then (InvalidField, offset)
      else if zlen data <? offset + 6 + length then (Truncated, offset)
      else package_loop n' data (offset + 6 + length) tag
  end.

Definition check_end_package (data : bytes) : Status * bytes :=
  if zlen data <? 4 then (Truncated, hash_out)
  else if negb (load16 data 0 =? 1) then (InvalidField, hash_out)
  else
    let '(st, offset) := package_loop (Z.to_nat (load16 data 2)) data 4 0 in
    if decide (st <> Ok) then (st, hash_out)
    else if offset <? zlen data then (Trailing, hash_out)
    else (Ok, write_hash "flynes-end-package-v1" data).

Definition check_counted (data : bytes) (header entry count_off max_count : Z) (domain : string)
    : Status * bytes :=
  if zlen data <? header then (Truncated, hash_out)
  else
    let vs := require_version_reserved data in
    if decide (vs <> Ok) then (vs, hash_out)
    else
      let count := load32 data count_off in
      if max_count <? count then (InvalidField, hash_out)
      else
        let ls := length_status (zlen data) (header + entry * count) in
        if decide (ls <> Ok) then (ls, hash_out) else (Ok, write_hash domain data).

Definition check_blob (data : bytes) (expected : Z) : Status * bytes :=
  let ls := length_status (zlen data) expected in
  if decide (ls <> Ok) then (ls, hash_out) else (Ok, write_hash "" data).

End Checks.

(** The evidence check runs the cursor check into the same buffer. *)
Definition check_evidence (hash_out data : bytes) : Status * bytes :=
  if zlen data =? 0 then (Truncated, hash_out)
  else if 1 <? at_ data 0 then (UnknownEnum, hash_out)
  else
    let ls := length_status (zlen data) (if at_ data 0 =? 0 then 8 else 64) in
    if decide (ls <> Ok) then (ls, hash_out)
    else if negb (zeros data 1 7) then (NonzeroReserved, hash_out)
    else
      let '(cursor, hash_out) :=
        if at_ data 0 =? 1 then check_frame_cursor hash_out (slice data 16 16)
        else (Ok, hash_out) in
      if decide (cursor <> Ok) then (cursor, hash_out) else (Ok, write_hash "" data).

Record FixedKind := mkFixed {
  kind_name : string; kind_length : Z; kind_domain : string;
  enum_off : Z; enum_max : Z; has_enum : bool
}.

Definition kFixed : list FixedKind := [
  mkFixed "0x0201" 232 "flynes-dual-run-fence-v1" 81 2 true;
  mkFixed "0x0202" 120 "flynes-input-sequence-ledger-v1" 0 0 false;
  mkFixed "0x0203" 144 "flynes-input-sequence-reservation-v1" 25 4 true;
  mkFixed "0x0205" 144 "flynes-reconnect-deadline-record-v1" 0 0 false;
  mkFixed "0x0206" 272 "flynes-preprepare-terminal-evidence-v1" 264 4 true;
  mkFixed "0x0207" 344 "flynes-terminal-recovery-evidence-v1" 328 8 true;
  mkFixed "0x0208" 192 "flynes-opaque-recovery-failure-evidence-v1" 176 8 true;
  mkFixed "0x0209" 112 "flynes-identity-verifier-ref-v1" 0 0 false;
  mkFixed "0x020a" 312 "flynes-input-sequence-reserve-grant-v1" 0 0 false;
  mkFixed "0x020b" 192 "flynes-input-sequence-reserve-ack-v1" 0 0 false;
  mkFixed "0x020c" 248 "flynes-input-sequence-reserve-finalized-v1" 0 0 false;
  mkFixed "0x020d" 184 "flynes-input-sequence-reserve-req-v1" 25 4 true;
  mkFixed "0x020e" 240 "flynes-prime-authorization-v1" 8 4 true;
  mkFixed "0x020f" 296 "flynes-epoch-input-close-certificate-v1" 65 3 true;
  mkFixed "0x0210" 240 "flynes-suspend-intent-v1" 0 0 false;
  mkFixed "0x0211" 336 "flynes-input-range-authorization-v1" 8 3 true;
  mkFixed "0x0212" 312 "flynes-session-signing-key-binding-hash-v1" 56 2 true;
  mkFixed "0x0213" 880 "flynes-pair-transcript-object-v1" 8 2 true;
  mkFixed "0x0216" 488 "flynes-link-hello-object-v1" 10 2 true;
  mkFixed "0x0217" 432 "flynes-link-ready-object-v1" 10 2 true;
  mkFixed "0x0301" 312 "flynes-offline-release-certificate-hash-v1" 0 0 false;
  mkFixed "0x0303" 392 "flynes-save-commit-certificate-hash-v1" 0 0 false;
  mkFixed "0x0304" 208 "flynes-save-commit-decision-v1" 24 2 true;
  mkFixed "0x0305" 400 "flynes-save-publication-certificate-hash-v1" 296 2 true;
  mkFixed "0x0307" 360 "flynes-end-commit-decision-v1" 352 3 true;
  mkFixed "0x0308" 392 "flynes-end-commit-certificate-hash-v1" 0 0 false ].

(** The key-id test that closes the check of a verifier reference. *)
Definition check_key_id (data : bytes) : Status :=
  if negb (at_ data 40 =? 0x04) then InvalidField
  else
    let key_id := sha256 (ascii_bytes "flynes-identity-key-id-v1" ++ [0; 0; 0; 65] ++ slice data 40 65) in
    if decide (slice data 8 32 = key_id) then Ok else InvalidField.

(** One row of the table: the fixed check has written the digest when the two
    objects with cryptographic fields are looked at. *)
Definition check_fixed_kind (hash_out : bytes) (kind : FixedKind) (data : bytes) : Status * bytes :=
  let '(fixed, hash_out) :=
    check_fixed hash_out data (kind_length kind) (kind_domain kind)
                (if has_enum kind then [(enum_off kind, enum_max kind)] else []) in
  if decide (fixed <> Ok) then (fixed, hash_out)
  else if decide (kind_name kind = "0x0212"%string) then (validate_session_signing_binding data, hash_out)
  else if decide (kind_name kind <> "0x0209"%string) then (Ok, hash_out)
  else (check_key_id data, hash_out).

Fixpoint check_table (hash_out : bytes) (name : string) (kinds : list FixedKind) (data : bytes)
    : Status * bytes :=
  match kinds with
  | [] => (UnknownKind, hash_out)
  | kind :: rest =>
    if decide (name = kind_name kind) then check_fixed_kind hash_out kind data
    else check_table hash_out name rest data
  end.

Definition check_object (name : string) (data hash_out : bytes) : Status * bytes :=
  if decide (name = "FrameCursorV1")%string then check_frame_cursor hash_out data
  else if decide (name = "EvidenceCursorV1")%string then check_evidence hash_out data
  else if decide (name = "CanonicalInputBundleV1")%string then check_bundle hash_out data
  else if decide (name = "ChannelBindV1")%string then check_channel_bind hash_out data
  else if decide (name = "ChannelResumeSummaryV1")%string then
    check_fixed hash_out data 176 "flynes-channel-resume-summary-v1" [(88, 2)]
  else if decide (name = "0x0306")%string then check_end_package hash_out data
  else if decide (name = "0x010f")%string then
    check_counted hash_out data 220 36 216 32 "flynes-end-closure-manifest-v1"
  else if decide (name = "0x0110")%string then
    check_counted hash_out data 80 40 72 1024 "flynes-published-save-index-v1"
  else if decide (name = "0x0112")%string then
    check_counted hash_out data 104 184 96 8 "flynes-open-input-reservation-set-v1"
  else if decide (name = "0x000b")%string then check_blob hash_out data 245760
  else if decide (name = "0x0218")%string then check_pending_config_confirm hash_out data
  else check_table hash_out name kFixed data.

(** The entry point with its null guards; [data] is the object the pointer and the
    size delimit. *)
Definition check (type_name : option string) (data : option bytes) (size : Z)
    (hash_out : option bytes) : Status * option bytes :=
  match type_name, hash_out with
  | Some name, Some out =>
    match data with
    | None => if negb (size =? 0) then (InvalidField, hash_out)
              else let '(st, out) := check_object name [] out in (st, Some out)
    | Some b => let '(st, out) := check_object name (slice b 0 size) out in (st, Some out)
    end
  | _, _ => (InvalidField, hash_out)
  end.

(** The cursor encoder: the kind, seven zero bytes, the index. *)
Definition encode_frame_cursor (kind index : Z) (out : option bytes) (written : option Z)
    : Status * option bytes * option Z :=
  match out, written with
  | Some _, Some _ =>
    if 1 <? kind then (UnknownEnum, out, written)
    else if (kind =? 0) && negb (index =? 0) then (InvalidField, out, written)
    else (Ok, Some (kind :: replicate 7 0 ++ be_bytes 8 index), Some 16)
  | _, _ => (InvalidField, out, written)
  end.

(** ** What an accepted object's digest covers *)

(** The domain an object name is hashed under; the empty one hashes the bytes. *)
Definition domain_of (name : string) : string :=
  if decide (name = "ChannelResumeSummaryV1")%string then "flynes-channel-resume-summary-v1"
  else if decide (name = "0x0306")%string then "flynes-end-package-v1"
  else if decide (name = "0x010f")%string then "flynes-end-closure-manifest-v1"
  else if decide (name = "0x0110")%string then "flynes-published-save-index-v1"
  else if decide (name = "0x0112")%string then "flynes-open-input-reservation-set-v1"
  else if decide (name = "0x0218")%string then "flynes-pending-config-confirm-v1"
  else match List.find (fun k => bool_decide (name = kind_name k)) kFixed with
       | Some k => kind_domain k
       | None => ""
       end.

Definition object_digest (name : string) (data : bytes) : bytes :=
  if decide (name = "CanonicalInputBundleV1")%string then sha256 (bundle_preimage data)
  else write_hash (domain_of name) data.

Ltac refuse :=
  repeat match goal with
  | |- context [decide (?a <> Ok)] => destruct (decide (a <> Ok)); [let H := fresh in intros H; congruence |]
  | |- context [if ?c then (?s, _) else _] =>
    lazymatch s with Ok => fail | _ => destruct c; [let H := fresh in intros H; congruence |] end
  end.

Lemma check_fixed_digest out data n domain enums h :
  check_fixed out data n domain enums = (Ok, h) -> h = write_hash domain data.
Proof. unfold check_fixed. cbv zeta. refuse. by intros [= <-]. Qed.

Lemma check_counted_digest out data a b c d domain h :
  check_counted out data a b c d domain = (Ok, h) -> h = write_hash domain data.
Proof. unfold check_counted. cbv zeta. refuse. by intros [= <-]. Qed.

Lemma check_table_digest out name kinds data h :
  check_table out name kinds data = (Ok, h) ->
  exists k, List.find (fun k => bool_decide (name = kind_name k)) kinds = Some k /\
    h = write_hash (kind_domain k) data.
Proof.
  induction kinds as [|k kinds IH]; cbn [check_table List.find]; [done |].
  destruct (decide (name = kind_name k)) as [E|E]; [| by rewrite bool_decide_false].
  rewrite bool_decide_true by done. intros H. exists k. split; [done |].
  unfold check_fixed_kind in H. destruct (check_fixed _ _ _ _ _) as [fixed h'] eqn:Hf.
  destruct (decide (fixed <> Ok)) as [|Hok]; [congruence |].
  assert (fixed = Ok) as -> by (by destruct fixed; try done; destruct Hok).
  apply check_fixed_digest in Hf. subst h'.
  repeat case_decide; congruence.
Qed.

(** An accepted object's digest is the digest of exactly its bytes. *)
Lemma accepted_digest name data out h :
  check_object name data out = (Ok, h) -> h = object_digest name data.
Proof.
  unfold check_object, object_digest, domain_of.
  destruct (decide (name = "FrameCursorV1"%string)) as [->|].
  { unfold check_frame_cursor. cbv zeta. refuse. by intros [= <-]. }
  destruct (decide (name = "EvidenceCursorV1"%string)) as [->|].
  { unfold check_evidence. cbv zeta. refuse. destruct (if at_ data 0 =? 1 then _ else _). refuse.
    by intros [= <-]. }
  destruct (decide (name = "CanonicalInputBundleV1"%string)) as [->|].
  { unfold check_bundle. cbv zeta. refuse. by intros [= <-]. }
  destruct (decide (name = "ChannelBindV1"%string)) as [->|].
  { unfold check_channel_bind. cbv zeta. refuse. by intros [= <-]. }
  destruct (decide (name = "ChannelResumeSummaryV1"%string)) as [->|]; [apply check_fixed_digest |].
  destruct (decide (name = "0x0306"%string)) as [->|].
  { unfold check_end_package. destruct (package_loop _ _ _ _). refuse. by intros [= <-]. }
  destruct (decide (name = "0x010f"%string)) as [->|]; [apply check_counted_digest |].
  destruct (decide (name = "0x0110"%string)) as [->|]; [apply check_counted_digest |].
  destruct (decide (name = "0x0112"%string)) as [->|]; [apply check_counted_digest |].
  destruct (decide (name = "0x000b"%string)) as [->|].
  { unfold check_blob. cbv zeta. refuse. by intros [= <-]. }
  destruct (decide (name = "0x0218"%string)) as [->|].
  { unfold check_pending_config_confirm. cbv zeta. refuse. by intros [= <-]. }
  intros H. by destruct (check_table_digest _ _ _ _ _ H) as (k & -> & ->).
Qed.

Definition size_prefix (data : bytes) : bytes :=
  [u8 (Z.shiftr (zlen data) 24); u8 (Z.shiftr (zlen data) 16); u8 (Z.shiftr (zlen data) 8); u8 (zlen data)].

(** Both digests put a header of fixed length before the bytes they cover. *)
Definition object_header (name : string) (data : bytes) : bytes :=
  if decide (name = "CanonicalInputBundleV1")%string
  then [0x10] ++ ascii_bytes "flynes-input-bundle-v1" ++ size_prefix data
  else if decide (domain_of name <> ""%string) then ascii_bytes (domain_of name) ++ size_prefix data
  else [].

Lemma object_digest_header name data :
  object_digest name data = sha256 (object_header name data ++ data).
Proof.
  unfold object_digest, object_header, write_hash, bundle_preimage, domain_hash.
  repeat case_decide; by rewrite <- ?app_assoc.
Qed.

(** ** Properties *)

(** The digest of an accepted object binds its bytes: two objects of one name
    that are both accepted with the same digest are equal, or their headers and
    bytes are a SHA-256 collision. *)
Theorem accepted_digest_binds (name : string) (data1 data2 out1 out2 h : bytes) :
  check_object name data1 out1 = (Ok, h) -> check_object name data2 out2 = (Ok, h) ->
  data1 = data2 \/
  collide (object_header name data1 ++ data1) (object_header name data2 ++ data2).
Proof.
  intros H1 H2. apply accepted_digest in H1, H2. rewrite object_digest_header in H1, H2.
  destruct (decide (data1 = data2)); [by left | right].
  split; [| congruence]. intros E. apply app_eq_length in E; [by destruct E |].
  unfold object_header, size_prefix. repeat case_decide; by rewrite ?length_app.
Qed.

(** *** The end package *)

Definition encode_entry (e : Z * bytes) : bytes := be_bytes 2 e.1 ++ be_bytes 4 (zlen e.2) ++ e.2.
Definition encode_entries (es : list (Z * bytes)) : bytes := mjoin (encode_entry <$> es).

(** Version 1, the number of entries, the entries. *)
Definition encode_package (es : list (Z * bytes)) : bytes :=
  be_bytes 2 1 ++ be_bytes 2 (zlen es) ++ encode_entries es.

(** Tags strictly increase inside 1 .. 23, values are byte strings of a size their
    field can hold. *)
Fixpoint entries_wf (prev : Z) (es : list (Z * bytes)) : Prop :=
  match es with
  | [] => True
  | (tag, value) :: rest =>
    1 <= tag <= 23 /\ prev < tag /\ is_bytes value /\ zlen value < 2 ^ 32 /\ entries_wf tag rest
  end.

Lemma zlen_encode_entry e : zlen (encode_entry e) = zlen e.2 + 6.
Proof. unfold encode_entry. rewrite !zlen_app, !zlen_be_bytes. lia. Qed.

Lemma entries_count prev es : 0 <= prev -> entries_wf prev es -> prev <= 23 -> zlen es <= 23 - prev.
Proof.
  revert prev. induction es as [|[tag value] es IH]; intros prev H0 Hw Hp; [change (zlen []) with 0; lia |].
  destruct Hw as (? & ? & _ & _ & Hw). rewrite zlen_cons. specialize (IH tag ltac:(lia) Hw ltac:(lia)). lia.
Qed.

(** The entry at an offset, as the loop reads it. *)
Lemma entry_at_offset pre tag value rest :
  0 <= tag < 2 ^ 16 -> zlen value < 2 ^ 32 ->
  let data := pre ++ encode_entry (tag, value) ++ rest in
  load16 data (zlen pre) = tag /\ load32 data (zlen pre + 2) = zlen value.
Proof.
  intros Ht Hv. cbv zeta. pose proof (zlen_nonneg pre). pose proof (zlen_nonneg value).
  pose proof (zlen_nonneg rest). unfold encode_entry. cbn [fst snd].
  rewrite load16_value, load32_value by
    (rewrite ?zlen_app, ?zlen_be_bytes; change (Z.of_nat 2) with 2; change (Z.of_nat 4) with 4; lia).
  rewrite <- !app_assoc. rewrite slice_app_right, Z.sub_diag by lia.
  rewrite (slice_app_right pre) by lia. replace (zlen pre + 2 - zlen pre) with 2 by lia. split.
  - rewrite slice_app_here by apply zlen_be_bytes. by apply be_value_be_bytes_small.
  - rewrite slice_app_right by (rewrite zlen_be_bytes; lia). rewrite zlen_be_bytes.
    change (2 - Z.of_nat 2) with 0. rewrite slice_app_here by apply zlen_be_bytes.
    apply be_value_be_bytes_small. change (8 * Z.of_nat 4) with 32. lia.
Qed.

Lemma package_loop_encoded es pre prev :
  0 <= prev -> entries_wf prev es ->
  package_loop (length es) (pre ++ encode_entries es) (zlen pre) prev =
  (Ok, zlen (pre ++ encode_entries es)).
Proof.
  revert pre prev. induction es as [|[tag value] es IH]; intros pre prev Hp Hw.
  { unfold encode_entries. cbn. by rewrite app_nil_r. }
  destruct Hw as (Ht & Hlt & Hb & Hl & Hw).
  change (encode_entries ((tag, value) :: es)) with (encode_entry (tag, value) ++ encode_entries es).
  destruct (entry_at_offset pre tag value (encode_entries es)) as [E1 E2]; [lia | done |].
  cbn [length package_loop]. cbv zeta. rewrite E1, E2. rewrite !zlen_app, zlen_encode_entry. cbn [snd].
  pose proof (zlen_nonneg (encode_entries es)). pose proof (zlen_nonneg value).
  destruct (Z.ltb_spec (zlen pre + (zlen value + 6 + zlen (encode_entries es))) (zlen pre + 6)); [lia |].
  destruct (Z.ltb_spec tag 1); [lia |]. destruct (Z.ltb_spec 23 tag); [lia |].
  destruct (Z.leb_spec tag prev); [lia |]. cbn [orb].
  destruct (Z.ltb_spec (zlen pre + (zlen value + 6 + zlen (encode_entries es)))
    (zlen pre + 6 + zlen value)); [lia |].
  specialize (IH (pre ++ encode_entry (tag, value)) tag ltac:(lia) Hw).
  rewrite <- !app_assoc, !zlen_app, zlen_encode_entry in IH. cbn [snd] in IH.
  replace (zlen pre + 6 + zlen value) with (zlen pre + (zlen value + 6)) by lia.
  by rewrite IH.
Qed.

Lemma package_loop_inv n data offset prev stop :
  is_bytes data -> 0 <= offset -> offset <= zlen data ->
  package_loop n data offset prev = (Ok, stop) ->
  offset <= stop <= zlen data /\
  exists es, length es = n /\ entries_wf prev es /\ slice data offset (stop - offset) = encode_entries es.
Proof.
  intros Hb. revert offset prev. induction n as [|n IH]; intros offset prev H0 Hl; cbn [package_loop].
  { intros [= <-]. split; [lia |]. exists []. by rewrite Z.sub_diag, slice_zero. }
  cbv zeta. destruct (Z.ltb_spec (zlen data) (offset + 6)); [done |].
  set (tag := load16 data offset). set (len := load32 data (offset + 2)).
  destruct (Z.ltb_spec tag 1); [done |]. destruct (Z.ltb_spec 23 tag); [done |]. cbn [orb].
  destruct (Z.leb_spec tag prev); [done |].
  destruct (Z.ltb_spec (zlen data) (offset + 6 + len)); [done |]. intros Hloop.
  pose proof (load32_bound data (offset + 2) Hb) as Hlen. fold len in Hlen.
  destruct (IH (offset + 6 + len) tag ltac:(lia) ltac:(lia) Hloop) as (Hstop & es & Hn & Hw & Henc).
  split; [lia |]. exists ((tag, slice data (offset + 6) len) :: es).
  split; [cbn; by rewrite Hn |]. split.
  { split_and!; [done | done | lia | by apply slice_bytes | rewrite zlen_slice; lia | done]. }
  change (encode_entries (_ :: es)) with
    (encode_entry (tag, slice data (offset + 6) len) ++ encode_entries es).
  rewrite <- Henc. unfold encode_entry. cbn [fst snd]. rewrite zlen_slice by lia.
  subst tag. rewrite load16_value by lia. unfold len at 1. rewrite load32_value by lia.
  assert (slice data offset (stop - offset) =
    slice data offset 2 ++ slice data (offset + 2) 4 ++ slice data (offset + 6) len ++
    slice data (offset + 6 + len) (stop - (offset + 6 + len))) as ->.
  { rewrite (slice_split data offset 2 (stop - offset)) by lia.
    rewrite (slice_split data (offset + 2) 4 (stop - offset - 2)) by lia.
    rewrite (slice_split data (offset + 2 + 4) len (stop - offset - 2 - 4)) by lia.
    replace (offset + 2 + 4) with (offset + 6) by lia.
    by replace (stop - offset - 2 - 4 - len) with (stop - (offset + 6 + len)) by lia. }
  pose proof (be_bytes_slice data offset 2 Hb ltac:(lia) ltac:(lia)) as E2.
  pose proof (be_bytes_slice data (offset + 2) 4 Hb ltac:(lia) ltac:(lia)) as E4.
  change (Z.of_nat 2) with 2 in E2. change (Z.of_nat 4) with 4 in E4.
  rewrite E2, E4. by rewrite <- !app_assoc.
Qed.

(** The end package check accepts exactly the encodings of entry lists whose
    tags strictly increase inside 1 .. 23: no truncation, no trailing byte, no
    duplicate, no unknown tag. *)
Theorem end_package_exact (data out : bytes) :
  is_bytes data ->
  (check_object "0x0306" data out).1 = Ok <->
  exists es, data = encode_package es /\ entries_wf 0 es.
Proof.
  intros Hb. change (check_object "0x0306" data out) with (check_end_package out data).
  unfold check_end_package. split.
  - destruct (Z.ltb_spec (zlen data) 4); [done |].
    destruct (Z.eqb_spec (load16 data 0) 1) as [Hv|]; [| done]. cbn [negb].
    destruct (package_loop _ _ _ _) as [st stop] eqn:Hloop.
    destruct (decide (st <> Ok)) as [|Hok]; [done |].
    assert (st = Ok) as -> by (by destruct st; try done; destruct Hok).
    destruct (Z.ltb_spec stop (zlen data)); [done |]. intros _.
    destruct (package_loop_inv _ data 4 0 stop Hb ltac:(lia) ltac:(lia) Hloop)
      as (Hstop & es & Hn & Hw & Henc). exists es. split; [| done].
    pose proof (load16_bound data 2 Hb) as Hc.
    assert (zlen es = load16 data 2) as Hcount by (unfold zlen; lia).
    unfold encode_package. rewrite Hcount, <- Henc, <- Hv, !load16_value by lia.
    pose proof (be_bytes_slice data 0 2 Hb ltac:(lia) ltac:(lia)) as E0.
    pose proof (be_bytes_slice data 2 2 Hb ltac:(lia) ltac:(lia)) as E2.
    change (Z.of_nat 2) with 2 in E0, E2. rewrite E0, E2.
    rewrite <- (slice_all data) at 1. rewrite (slice_split data 0 2 (zlen data)) by lia.
    rewrite (slice_split data (0 + 2) 2 (zlen data - 2)) by lia.
    change (0 + 2) with 2. change (2 + 2) with 4.
    by replace (zlen data - 2 - 2) with (stop - 4) by lia.
  - intros (es & -> & Hw). pose proof (entries_count 0 es ltac:(lia) Hw ltac:(lia)) as Hc.
    pose proof (zlen_nonneg es). pose proof (zlen_nonneg (encode_entries es)).
    unfold encode_package.
    assert (zlen (be_bytes 2 1 ++ be_bytes 2 (zlen es) ++ encode_entries es) =
            4 + zlen (encode_entries es)) as Hl by (rewrite !zlen_app, !zlen_be_bytes; lia).
    rewrite Hl. destruct (Z.ltb_spec (4 + zlen (encode_entries es)) 4); [lia |].
    rewrite !load16_value by lia.
    rewrite slice_app_here by apply zlen_be_bytes. rewrite be_value_be_bytes_small by done.
    cbn [Z.eqb negb Pos.eqb]. rewrite slice_app_right by (rewrite zlen_be_bytes; lia).
    rewrite zlen_be_bytes. change (2 - Z.of_nat 2) with 0. rewrite slice_app_here by apply zlen_be_bytes.
    rewrite be_value_be_bytes_small by (change (8 * Z.of_nat 2) with 16; lia).
    unfold zlen at 1. rewrite Nat2Z.id.
    pose proof (package_loop_encoded es (be_bytes 2 1 ++ be_bytes 2 (zlen es)) 0 ltac:(lia) Hw) as H'.
    rewrite <- !app_assoc, Hl in H'. rewrite !zlen_app, !zlen_be_bytes in H'.
    change (Z.of_nat 2 + Z.of_nat 2) with 4 in H'. rewrite H'.
    destruct (decide (Ok <> Ok)); [done |]. by rewrite Z.ltb_irrefl.
Qed.

(** *** The frame cursor *)

(** The cursor check accepts exactly what the encoder produces. *)
Theorem frame_cursor_exact (data out out0 : bytes) (n0 : Z) :
  is_bytes data ->
  (check_frame_cursor out data).1 = Ok <->
  exists kind index, 0 <= kind /\ 0 <= index < 2 ^ 64 /\
    encode_frame_cursor kind index (Some out0) (Some n0) = (Ok, Some data, Some 16).
Proof.
  intros Hb. unfold check_frame_cursor, length_status. cbv zeta. split.
  - destruct (Z.eqb_spec (zlen data) 16) as [Hl|]; [| by destruct (_ <? _)].
    destruct (decide (Ok <> Ok)); [done |].
    destruct (Z.ltb_spec 1 (at_ data 0)); [done |].
    destruct (zeros data 1 7) eqn:Hz; [| done]. cbn [negb]. intros Hst.
    pose proof (at_byte data 0 Hb) as H0. unfold is_byte in H0.
    apply zeros_spec in Hz; [| lia | lia | lia].
    assert (data = at_ data 0 :: replicate 7 0 ++ slice data 8 8) as Hd.
    { change (replicate 7 0) with (replicate (Z.to_nat 7) 0). rewrite <- Hz.
      rewrite <- (slice_all data) at 1. rewrite Hl, slice_cons_at by lia. f_equal.
      rewrite (slice_split data (0 + 1) 7 (16 - 1)) by lia. done. }
    pose proof (be_bytes_slice data 8 8 Hb ltac:(lia) ltac:(lia)) as E8. change (Z.of_nat 8) with 8 in E8.
    pose proof (be_value_bound (slice data 8 8) (slice_bytes _ _ _ Hb)) as Hv.
    rewrite zlen_slice in Hv by lia.
    exists (at_ data 0), (be_value (slice data 8 8)). split; [lia |]. split; [exact Hv |].
    unfold encode_frame_cursor. destruct (Z.ltb_spec 1 (at_ data 0)); [lia |].
    assert ((at_ data 0 =? 0) && negb (be_value (slice data 8 8) =? 0) = false) as ->.
    { destruct (at_ data 0 =? 0); [| done].
      destruct (_ && _) eqn:Hc in Hst; [done |]. cbn [andb] in Hc |- *.
      destruct (zeros data 8 8) eqn:Hz8; [| by destruct (at_ data 0 =? 0)].
      apply zeros_spec in Hz8; [| lia | lia | lia]. by rewrite Hz8. }
    rewrite E8. congruence.
  - intros (kind & index & Hk & Hi & He). unfold encode_frame_cursor in He.
    destruct (Z.ltb_spec 1 kind); [done |]. destruct (_ && _) eqn:Hc; [done |].
    assert (data = kind :: replicate 7 0 ++ be_bytes 8 index) as -> by congruence. clear He. change (zlen (kind :: replicate 7 0 ++ be_bytes 8 index) =? 16) with true.
    destruct (decide (Ok <> Ok)); [done |].
    change (at_ (kind :: replicate 7 0 ++ be_bytes 8 index) 0) with kind.
    destruct (Z.ltb_spec 1 kind); [lia |].
    change (zeros (kind :: replicate 7 0 ++ be_bytes 8 index) 1 7) with true. cbn [negb].
    destruct (Z.eqb_spec kind 0) as [->|]; cbn [andb]; [| done].
    destruct (Z.eqb_spec index 0) as [->|]; [by vm_compute | done].
Qed.

(** ** Witnesses *)

Lemma accepted_digest_binds_witness :
  let cursor := 1 :: replicate 15 0 in
  check_object "FrameCursorV1" cursor [] = (Ok, sha256 cursor) /\
  (cursor = cursor \/ collide (object_header "FrameCursorV1" cursor ++ cursor) (object_header "FrameCursorV1" cursor ++ cursor)).
Proof.
  assert (check_object "FrameCursorV1" (1 :: replicate 15 0) [] = (Ok, sha256 (1 :: replicate 15 0))) as H
    by (vm_compute; reflexivity).
  split; [exact H |]. exact (accepted_digest_binds "FrameCursorV1" _ _ [] [] _ H H).
Defined.

(** Two entries, tags 1 and 23. *)
Lemma end_package_exact_witness :
  let data := [0; 1; 0; 2; 0; 1; 0; 0; 0; 2; 7; 8; 0; 23; 0; 0; 0; 0] in
  (check_object "0x0306" data []).1 = Ok /\
  exists es, data = encode_package es /\ entries_wf 0 es.
Proof.
  assert ((check_object "0x0306" [0; 1; 0; 2; 0; 1; 0; 0; 0; 2; 7; 8; 0; 23; 0; 0; 0; 0] []).1 = Ok) as H
    by (vm_compute; reflexivity).
  split; [exact H |]. apply (end_package_exact _ []); [| exact H].
  repeat (apply Forall_cons; split; [unfold is_byte; lia |]). constructor.
Defined.

(** A signing-key binding that fails its last checks has already had its digest
    written out. *)
Example refused_binding_writes_hash :
  let data := [0; 1] ++ replicate 54 0 ++ [1] ++ replicate 255 0 in
  let '(st, out) := check_object "0x0212" data [] in st = InvalidField /\ out <> [].
Proof. vm_compute. split; [reflexivity | discriminate]. Qed.
