(* ===== verification/PairHandshake.v ===== *)
(** * The pairing prelude ([shared/src/session/wire/pair_handshake.{hpp,cpp}])

    The two players first commit to their key contributions, then reveal them; the
    transcript both sign covers everything said.  The records, the exchange that
    collects them in their one legal order, and the transcript. *)

From S2P Require Import Prelude Sha256 P256 SessionCodec PairCrypto.

(** ** Data *)

(** [PairRoleV1] and the session's [PairRole]: an enumeration over a byte, which a
    cast from the wire or a default value can leave outside the two roles. *)
Definition Initiator : Z := 1.
Definition Responder : Z := 2.

(** A point validator; [None] is the null function pointer. *)
Abbreviation P256PointValidatorV1 := (option (bytes -> bool)) (only parsing).

Record PairContextV1 := mkContext { context_bytes : bytes; context_hash : bytes }.

Record PairContributionV1 := mkContribution {
  role : Z;
  contribution_bytes : bytes;
  commitment : bytes;
  identity_public_key : bytes;
  ephemeral_public_key : bytes;
  tls_spki_hash : bytes;
  capability_summary_hash : bytes;
}.

Record PairCommitV1 := mkCommit {
  sender : Z;
  receiver : Z;
  pair_context_hash : bytes;
  committed : bytes;
  committed_ephemeral_key : bytes;
}.

Definition zero_bytes (n : Z) : bytes := replicate (Z.to_nat n) 0.

(** The values of empty braces. *)
Definition context0 : PairContextV1 := mkContext (zero_bytes 80) (zero_bytes 32).
Definition contribution0 : PairContributionV1 :=
  mkContribution 0 (zero_bytes 320) (zero_bytes 32) (zero_bytes 65) (zero_bytes 65) (zero_bytes 32) (zero_bytes 32).
Definition commit0 : PairCommitV1 := mkCommit 0 0 (zero_bytes 32) (zero_bytes 32) (zero_bytes 65).

#[global] Instance pair_context_eq_dec : EqDecision PairContextV1.
Proof. solve_decision. Defined.
#[global] Instance contribution_eq_dec : EqDecision PairContributionV1.
Proof. solve_decision. Defined.

(** ** Helpers *)

Definition opposite (left right : Z) : bool :=
  ((left =? Initiator) && (right =? Responder)) || ((left =? Responder) && (right =? Initiator)).

(** The scalar s is at most half the group order. *)
Definition canonical_low_s (signature : bytes) : bool :=
  negb (zeros signature 0 32) && negb (zeros signature 32 32) &&
  negb (memcmp p256_half_order (slice signature 32 32) <? 0).

Definition exact_size (data : option bytes) (expected : Z) : Status :=
  match data with
  | None => InvalidField
  | Some l => if zlen l <? expected then Truncated else if expected <? zlen l then Trailing else Ok
  end.

(** ** Records

    An output pointer is an option; a record that is refused leaves the cleared
    value behind it. *)

Definition decode_pair_context_v1 (data : option bytes) (out : option PairContextV1)
    : Status * option PairContextV1 :=
  match out with
  | None => (InvalidField, None)
  | Some _ =>
    let out := Some context0 in
    let sized := exact_size data 80 in
    if decide (sized <> Ok) then (sized, out)
    else
      let b := default [] data in
      if negb (load16 b 0 =? 1) || negb (load16 b 8 =? 2) || negb (load16 b 10 =? 0) ||
         negb (load32 b 48 =? 60000)
      then (InvalidField, out)
      else if negb (zeros b 2 6) || negb (zeros b 13 3) || negb (zeros b 52 12)
      then (NonzeroReserved, out)
      else if (negb (at_ b 12 =? 1) && negb (at_ b 12 =? 2)) ||
              zeros b 16 16 || zeros b 32 16 || zeros b 64 16
      then (InvalidField, out)
      else (Ok, Some (mkContext b (domain_hash "flynes-pair-context-v1" b)))
  end.

Definition decode_pair_contribution_v1 (data : option bytes) (expected_context : PairContextV1)
    (expected_role : Z) (validate_point : P256PointValidatorV1) (out : option PairContributionV1)
    : Status * option PairContributionV1 :=
  match out, validate_point with
  | Some _, Some valid =>
    let out := Some contribution0 in
    let sized := exact_size data 320 in
    if decide (sized <> Ok) then (sized, out)
    else
      let b := default [] data in
      let expected_hash := domain_hash "flynes-pair-context-v1" (context_bytes expected_context) in
      if negb (bool_decide (expected_hash = context_hash expected_context)) || negb (load16 b 0 =? 1) ||
         negb (load16 b 8 =? 2) || negb (load16 b 10 =? 0) || negb (at_ b 12 =? expected_role) ||
         negb (load32 b 80 =? 60000) ||
         negb (bool_decide (slice b 16 32 = context_hash expected_context)) ||
         negb (bool_decide (slice b 48 32 = slice (context_bytes expected_context) 16 32))
      then (InvalidField, out)
      else if negb (zeros b 2 6) || negb (zeros b 13 3) || negb (zeros b 84 4) || negb (zeros b 314 6)
      then (NonzeroReserved, out)
      else if zeros b 218 32 || zeros b 250 32 || zeros b 282 32 || negb (at_ b 88 =? 0x04) ||
              negb (at_ b 153 =? 0x04) || negb (valid (slice b 88 65)) || negb (valid (slice b 153 65))
      then (InvalidField, out)
      else (Ok, Some (mkContribution expected_role b (pair_commitment_v1 b) (slice b 88 65)
                        (slice b 153 65) (slice b 218 32) (slice b 282 32)))
  | _, _ => (InvalidField, out)
  end.

(** The fields of a contribution, from the first byte to the last. *)
Definition contribution_layout (context : PairContextV1) (role : Z)
    (identity ephemeral spki nonce summary : bytes) : bytes :=
  mjoin [be_bytes 2 1; zero_bytes 6; be_bytes 2 2; be_bytes 2 0; [u8 role]; zero_bytes 3;
         context_hash context; slice (context_bytes context) 16 32; be_bytes 4 60000; zero_bytes 4;
         identity; ephemeral; spki; nonce; summary; zero_bytes 6].

Definition encode_pair_contribution_v1 (context : PairContextV1) (role : Z)
    (identity ephemeral spki nonce summary : bytes) (validate_point : P256PointValidatorV1)
    (out : option bytes) : Status * option bytes :=
  match out, validate_point with
  | Some _, Some _ =>
    if negb (role =? Initiator) && negb (role =? Responder) then (InvalidField, out)
    else
      match decode_pair_context_v1 (Some (context_bytes context)) (Some context0) with
      | (Ok, Some canonical_context) =>
        if decide (context_hash canonical_context <> context_hash context) then (InvalidField, out)
        else
          let b := contribution_layout context role identity ephemeral spki nonce summary in
          let status := (decode_pair_contribution_v1 (Some b) context role validate_point
                           (Some contribution0)).1 in
          (status, Some (if decide (status <> Ok) then zero_bytes 320 else b))
      | _ => (InvalidField, out)
      end
  | _, _ => (InvalidField, out)
  end.

Definition commit_layout (context : PairContextV1) (contribution : PairContributionV1) : bytes :=
  mjoin [be_bytes 2 1; zero_bytes 6; context_hash context; [u8 (role contribution)];
         [if role contribution =? Initiator then Responder else Initiator]; zero_bytes 6;
         commitment contribution; ephemeral_public_key contribution; zero_bytes 7].

Definition encode_pair_commit_v1 (context : PairContextV1) (contribution : PairContributionV1)
    (validate_point : P256PointValidatorV1) (out : option bytes) : Status * option bytes :=
  match out, validate_point with
  | Some _, Some _ =>
    match decode_pair_contribution_v1 (Some (contribution_bytes contribution)) context (role contribution)
            validate_point (Some contribution0) with
    | (Ok, Some canonical) =>
      if negb (bool_decide (commitment canonical = commitment contribution)) ||
         negb (bool_decide (identity_public_key canonical = identity_public_key contribution)) ||
         negb (bool_decide (ephemeral_public_key canonical = ephemeral_public_key contribution)) ||
         negb (bool_decide (tls_spki_hash canonical = tls_spki_hash contribution)) ||
         negb (bool_decide (capability_summary_hash canonical = capability_summary_hash contribution))
      then (InvalidField, out)
      else (Ok, Some (commit_layout context contribution))
    | _ => (InvalidField, out)
    end
  | _, _ => (InvalidField, out)
  end.

Definition decode_pair_commit_v1 (data : option bytes) (expected_context : PairContextV1)
    (expected_sender : Z) (validate_point : P256PointValidatorV1) (out : option PairCommitV1)
    : Status * option PairCommitV1 :=
  match out, validate_point with
  | Some _, Some valid =>
    let out := Some commit0 in
    let sized := exact_size data 152 in
    if decide (sized <> Ok) then (sized, out)
    else
      let b := default [] data in
      let receiver := at_ b 41 in
      if negb (load16 b 0 =? 1) || negb (at_ b 40 =? expected_sender) ||
         negb (opposite expected_sender receiver) ||
         negb (bool_decide (slice b 8 32 = context_hash expected_context)) ||
         zeros b 48 32 || negb (at_ b 80 =? 0x04) || negb (valid (slice b 80 65))
      then (InvalidField, out)
      else if negb (zeros b 2 6) || negb (zeros b 42 6) || negb (zeros b 145 7)
      then (NonzeroReserved, out)
      else (Ok, Some (mkCommit expected_sender receiver (context_hash expected_context)
                        (slice b 48 32) (slice b 80 65)))
  | _, _ => (InvalidField, out)
  end.

Definition bind_reveal_to_commit_v1 (commit : PairCommitV1) (reveal : PairContributionV1) : Status :=
  let calculated := pair_commitment_v1 (contribution_bytes reveal) in
  if negb (sender commit =? role reveal) || negb (bool_decide (commitment reveal = calculated)) ||
     negb (bool_decide (committed commit = calculated)) ||
     negb (bool_decide (slice (contribution_bytes reveal) 153 65 = ephemeral_public_key reveal)) ||
     negb (bool_decide (committed_ephemeral_key commit = ephemeral_public_key reveal))
  then InvalidField else Ok.

(** ** The exchange *)

Inductive PairExchangeResultV1 :=
  | ExchangeAccepted | ExchangeReady | ExchangeInvalidState | ExchangeProtocolViolation.

#[global] Instance exchange_result_eq_dec : EqDecision PairExchangeResultV1.
Proof. solve_decision. Defined.

Inductive ExchangePhase :=
  | Empty | InitiatorCommit | ResponderCommit | InitiatorReveal | ResponderReveal | Ready | ExchangeFailed.

#[global] Instance exchange_phase_eq_dec : EqDecision ExchangePhase.
Proof. solve_decision. Defined.

Record PairExchangeV1 := mkExchange {
  validate_point_ : P256PointValidatorV1;
  phase_ : ExchangePhase;
  context_ : PairContextV1;
  commits_ : list PairCommitV1;
  contributions_ : list PairContributionV1;
  reveal_hashes_ : list bytes;
}.

#[global] Instance eta_exchange : Eta PairExchangeV1 := fun r =>
  mkExchange (validate_point_ r) (phase_ r) (context_ r) (commits_ r) (contributions_ r) (reveal_hashes_ r).

Definition exchange_new (validate_point : P256PointValidatorV1) : PairExchangeV1 :=
  mkExchange validate_point Empty context0 [commit0; commit0] [contribution0; contribution0]
    [zero_bytes 32; zero_bytes 32].

Definition exchange_ready (x : PairExchangeV1) : bool := bool_decide (phase_ x = Ready).
Definition exchange_failed (x : PairExchangeV1) : bool := bool_decide (phase_ x = ExchangeFailed).

Definition reject (x : PairExchangeV1) : PairExchangeResultV1 * PairExchangeV1 :=
  (ExchangeProtocolViolation, x <| phase_ := ExchangeFailed |>).

Definition exchange_begin (data : option bytes) (x : PairExchangeV1) : PairExchangeResultV1 * PairExchangeV1 :=
  if decide (phase_ x <> Empty) then reject x
  else
    match validate_point_ x with
    | None => reject x
    | Some _ =>
      let '(status, out) := decode_pair_context_v1 data (Some (context_ x)) in
      let x := x <| context_ := default context0 out |> in
      if decide (status <> Ok) then reject x
      else (ExchangeAccepted, x <| phase_ := InitiatorCommit |>)
    end.

Definition accept_commit (sender : Z) (data : option bytes) (x : PairExchangeV1)
    : PairExchangeResultV1 * PairExchangeV1 :=
  let initiator := bool_decide (phase_ x = InitiatorCommit) && (sender =? Initiator) in
  let responder := bool_decide (phase_ x = ResponderCommit) && (sender =? Responder) in
  if negb initiator && negb responder then reject x
  else
    let index := if initiator then 0 else 1 in
    let '(status, out) := decode_pair_commit_v1 data (context_ x) sender (validate_point_ x)
                            (Some (aget commit0 (commits_ x) index)) in
    let x := x <| commits_ := aset (commits_ x) index (default commit0 out) |> in
    if decide (status <> Ok) then reject x
    else (ExchangeAccepted, x <| phase_ := if initiator then ResponderCommit else InitiatorReveal |>).

Definition accept_reveal (sender : Z) (data : option bytes) (logical_hash : bytes) (x : PairExchangeV1)
    : PairExchangeResultV1 * PairExchangeV1 :=
  let initiator := bool_decide (phase_ x = InitiatorReveal) && (sender =? Initiator) in
  let responder := bool_decide (phase_ x = ResponderReveal) && (sender =? Responder) in
  if (negb initiator && negb responder) || zeros logical_hash 0 32 then reject x
  else
    let index := if initiator then 0 else 1 in
    let '(status, out) := decode_pair_contribution_v1 data (context_ x) sender (validate_point_ x)
                            (Some (aget contribution0 (contributions_ x) index)) in
    let x := x <| contributions_ := aset (contributions_ x) index (default contribution0 out) |> in
    if bool_decide (status <> Ok) ||
       bool_decide (bind_reveal_to_commit_v1 (aget commit0 (commits_ x) index)
                      (aget contribution0 (contributions_ x) index) <> Ok)
    then reject x
    else
      let x := x <| reveal_hashes_ := aset (reveal_hashes_ x) index logical_hash |> in
      if initiator then (ExchangeAccepted, x <| phase_ := ResponderReveal |>)
      else (ExchangeReady, x <| phase_ := Ready |>).

(** ** The transcript *)

Definition transcript_layout (entry_mode : Z) (entry_context_hash initiator_commitment responder_commitment : bytes)
    (initiator responder : PairContributionV1) : bytes :=
  mjoin [be_bytes 2 1; zero_bytes 6; [u8 entry_mode]; zero_bytes 7; entry_context_hash;
         initiator_commitment; responder_commitment; contribution_bytes initiator; contribution_bytes responder].

(** The preimage and its hash, when both output pointers are there. *)
Definition build_pair_transcript_preimage_v1 (entry_mode : Z)
    (entry_context_hash initiator_commitment responder_commitment : bytes)
    (initiator responder : PairContributionV1) (out : option (bytes * bytes)) : Status * option (bytes * bytes) :=
  if bool_decide (out = None) || (negb (entry_mode =? 1) && negb (entry_mode =? 2)) ||
     ((entry_mode =? 1) && negb (zeros entry_context_hash 0 32)) ||
     ((entry_mode =? 2) && zeros entry_context_hash 0 32) ||
     negb (role initiator =? Initiator) || negb (role responder =? Responder) ||
     negb (bool_decide (commitment initiator = initiator_commitment)) ||
     negb (bool_decide (commitment responder = responder_commitment))
  then (InvalidField, out)
  else
    let preimage := transcript_layout entry_mode entry_context_hash initiator_commitment
                      responder_commitment initiator responder in
    (Ok, Some (preimage, domain_hash "flynes-pair-transcript-v1" preimage)).

Definition build_pair_transcript_object_v1
    (preimage expected_transcript_hash initiator_signature responder_signature : bytes)
    (out : option (bytes * bytes)) : Status * option (bytes * bytes) :=
  if bool_decide (out = None) ||
     negb (bool_decide (domain_hash "flynes-pair-transcript-v1" preimage = expected_transcript_hash)) ||
     negb (canonical_low_s initiator_signature) || negb (canonical_low_s responder_signature)
  then (InvalidField, out)
  else
    let transcript := preimage ++ initiator_signature ++ responder_signature in
    (Ok, Some (transcript, domain_hash "flynes-pair-transcript-object-v1" transcript)).

(** ** Calls on an exchange *)

Inductive ExchangeCall :=
  | BeginCall (data : option bytes)
  | CommitCall (sender : Z) (data : option bytes)
  | RevealCall (sender : Z) (data : option bytes) (logical_hash : bytes).

Definition exchange_step (x : PairExchangeV1) (call : ExchangeCall) : PairExchangeV1 :=
  match call with
  | BeginCall data => (exchange_begin data x).2
  | CommitCall sender data => (accept_commit sender data x).2
  | RevealCall sender data hash => (accept_reveal sender data hash x).2
  end.

Definition run_exchange (validate_point : P256PointValidatorV1) (calls : list ExchangeCall) : PairExchangeV1 :=
  fold_left exchange_step calls (exchange_new validate_point).

(** The records of a complete prelude, and that they were said in order. *)
Record PairPrelude := mkPrelude {
  said_context : bytes; said_commits : bytes * bytes; said_reveals : bytes * bytes; said_hashes : bytes * bytes;
}.

Definition prelude_calls (p : PairPrelude) : list ExchangeCall :=
  [BeginCall (Some (said_context p));
   CommitCall Initiator (Some (said_commits p).1); CommitCall Responder (Some (said_commits p).2);
   RevealCall Initiator (Some (said_reveals p).1) (said_hashes p).1;
   RevealCall Responder (Some (said_reveals p).2) (said_hashes p).2].

(** What the records of a prelude decode to. *)
Record PreludeMeans (valid : bytes -> bool) (p : PairPrelude) (context : PairContextV1)
    (k0 k1 : PairCommitV1) (r0 r1 : PairContributionV1) : Prop := {
  means_context : decode_pair_context_v1 (Some (said_context p)) (Some context0) = (Ok, Some context);
  means_commit0 : decode_pair_commit_v1 (Some (said_commits p).1) context Initiator (Some valid) (Some commit0) =
                    (Ok, Some k0);
  means_commit1 : decode_pair_commit_v1 (Some (said_commits p).2) context Responder (Some valid) (Some commit0) =
                    (Ok, Some k1);
  means_reveal0 : decode_pair_contribution_v1 (Some (said_reveals p).1) context Initiator (Some valid)
                    (Some contribution0) = (Ok, Some r0);
  means_reveal1 : decode_pair_contribution_v1 (Some (said_reveals p).2) context Responder (Some valid)
                    (Some contribution0) = (Ok, Some r1);
  means_opens0 : bind_reveal_to_commit_v1 k0 r0 = Ok;
  means_opens1 : bind_reveal_to_commit_v1 k1 r1 = Ok;
  means_hash0 : zeros (said_hashes p).1 0 32 = false;
  means_hash1 : zeros (said_hashes p).2 0 32 = false;
}.

Definition prelude_state (valid : bytes -> bool) (p : PairPrelude) (context : PairContextV1)
    (k0 k1 : PairCommitV1) (r0 r1 : PairContributionV1) : PairExchangeV1 :=
  mkExchange (Some valid) Ready context [k0; k1] [r0; r1] [(said_hashes p).1; (said_hashes p).2].

(** ** Lemmas *)

Lemma reject_phase x : phase_ (reject x).2 = ExchangeFailed.
Proof. done. Qed.

Lemma decode_context_none out : decode_pair_context_v1 None (Some out) = (InvalidField, Some context0).
Proof. done. Qed.

(** What a decoder was given beforehand does not matter. *)
Lemma decode_context_out data out out' :
  decode_pair_context_v1 data (Some out) = decode_pair_context_v1 data (Some out').
Proof. done. Qed.

Lemma decode_commit_out data context who valid out out' :
  decode_pair_commit_v1 data context who (Some valid) (Some out) =
  decode_pair_commit_v1 data context who (Some valid) (Some out').
Proof. done. Qed.

Lemma decode_contribution_out data context who valid out out' :
  decode_pair_contribution_v1 data context who (Some valid) (Some out) =
  decode_pair_contribution_v1 data context who (Some valid) (Some out').
Proof. done. Qed.

(** Step over the guard of a decoder that did not refuse. *)
Ltac not_refused G :=
  match goal with |- (if ?c then _ else _) = _ -> _ => destruct c eqn:G; [discriminate |] end.

Lemma exact_size_ok b n : exact_size (Some b) n = Ok -> zlen b = n.
Proof. unfold exact_size. repeat case_match; bool_hyps; (discriminate || lia). Qed.

Lemma decode_context_ok data out r :
  decode_pair_context_v1 data (Some out) = (Ok, r) ->
  exists b, data = Some b /\ zlen b = 80 /\
            r = Some (mkContext b (domain_hash "flynes-pair-context-v1" b)).
Proof.
  destruct data as [b|]; [| discriminate]. unfold decode_pair_context_v1. change (default [] (Some b)) with b.
  destruct (decide _) as [|E]; [congruence |]. apply dec_stable, exact_size_ok in E.
  not_refused G1. not_refused G2. not_refused G3. intros [= <-]. by exists b.
Qed.

Lemma decode_commit_ok data context who valid out r :
  decode_pair_commit_v1 data context who (Some valid) (Some out) = (Ok, r) ->
  exists b receiver, data = Some b /\ opposite who receiver = true /\
    r = Some (mkCommit who receiver (context_hash context) (slice b 48 32) (slice b 80 65)).
Proof.
  destruct data as [b|]; [| discriminate]. unfold decode_pair_commit_v1. change (default [] (Some b)) with b.
  destruct (decide _) as [|E]; [congruence |]. not_refused G1. not_refused G2.
  intros [= <-]. bool_hyps. by exists b, (at_ b 41).
Qed.

Lemma decode_contribution_ok data context who valid out r :
  decode_pair_contribution_v1 data context who (Some valid) (Some out) = (Ok, r) ->
  exists b, data = Some b /\ zlen b = 320 /\ slice b 16 32 = context_hash context /\
    r = Some (mkContribution who b (pair_commitment_v1 b) (slice b 88 65) (slice b 153 65)
                (slice b 218 32) (slice b 282 32)).
Proof.
  destruct data as [b|]; [| discriminate]. unfold decode_pair_contribution_v1. change (default [] (Some b)) with b.
  destruct (decide _) as [|E]; [congruence |]. apply dec_stable, exact_size_ok in E.
  not_refused G1. not_refused G2. not_refused G3. intros [= <-]. bool_hyps. by exists b.
Qed.

Lemma bind_ok k r :
  bind_reveal_to_commit_v1 k r = Ok ->
  sender k = role r /\ committed k = pair_commitment_v1 (contribution_bytes r) /\
  committed_ephemeral_key k = ephemeral_public_key r.
Proof. unfold bind_reveal_to_commit_v1. destruct (_ || _) eqn:G; [discriminate |]. intros _. by bool_hyps. Qed.

(** The state after each accepted record, spelled out. *)
Section Progress.
Variable valid : bytes -> bool.

Definition in_phase (p : ExchangePhase) (context : PairContextV1) (ks : list PairCommitV1)
    (rs : list PairContributionV1) (hs : list bytes) : PairExchangeV1 :=
  mkExchange (Some valid) p context (ks ++ drop (length ks) [commit0; commit0])
    (rs ++ drop (length rs) [contribution0; contribution0]) (hs ++ drop (length hs) [zero_bytes 32; zero_bytes 32]).

(** The phase tells which calls were made: all of them succeeded. *)
Definition progress (calls : list ExchangeCall) (x : PairExchangeV1) : Prop :=
  match phase_ x with
  | Empty => calls = [] /\ x = exchange_new (Some valid)
  | InitiatorCommit => exists b context, calls = [BeginCall (Some b)] /\
      decode_pair_context_v1 (Some b) (Some context0) = (Ok, Some context) /\
      x = in_phase InitiatorCommit context [] [] []
  | ResponderCommit => exists b context d0 k0, calls = [BeginCall (Some b); CommitCall Initiator (Some d0)] /\
      decode_pair_context_v1 (Some b) (Some context0) = (Ok, Some context) /\
      decode_pair_commit_v1 (Some d0) context Initiator (Some valid) (Some commit0) = (Ok, Some k0) /\
      x = in_phase ResponderCommit context [k0] [] []
  | InitiatorReveal => exists b context d0 k0 d1 k1,
      calls = [BeginCall (Some b); CommitCall Initiator (Some d0); CommitCall Responder (Some d1)] /\
      decode_pair_context_v1 (Some b) (Some context0) = (Ok, Some context) /\
      decode_pair_commit_v1 (Some d0) context Initiator (Some valid) (Some commit0) = (Ok, Some k0) /\
      decode_pair_commit_v1 (Some d1) context Responder (Some valid) (Some commit0) = (Ok, Some k1) /\
      x = in_phase InitiatorReveal context [k0; k1] [] []
  | ResponderReveal => exists b context d0 k0 d1 k1 c0 r0 h0,
      calls = [BeginCall (Some b); CommitCall Initiator (Some d0); CommitCall Responder (Some d1);
               RevealCall Initiator (Some c0) h0] /\
      decode_pair_context_v1 (Some b) (Some context0) = (Ok, Some context) /\
      decode_pair_commit_v1 (Some d0) context Initiator (Some valid) (Some commit0) = (Ok, Some k0) /\
      decode_pair_commit_v1 (Some d1) context Responder (Some valid) (Some commit0) = (Ok, Some k1) /\
      decode_pair_contribution_v1 (Some c0) context Initiator (Some valid) (Some contribution0) = (Ok, Some r0) /\
      bind_reveal_to_commit_v1 k0 r0 = Ok /\ zeros h0 0 32 = false /\
      x = in_phase ResponderReveal context [k0; k1] [r0] [h0]
  | Ready => exists p context k0 k1 r0 r1, calls = prelude_calls p /\
      PreludeMeans valid p context k0 k1 r0 r1 /\ x = prelude_state valid p context k0 k1 r0 r1
  | ExchangeFailed => True
  end.

Lemma progress_failed calls x : phase_ x = ExchangeFailed -> progress calls x.
Proof. unfold progress. by intros ->. Qed.

(** A commit or a reveal out of its turn fails. *)
Lemma not_turn p who r x : ~ (phase_ x = p /\ who = r) -> bool_decide (phase_ x = p) && (who =? r) = false.
Proof. intros N. apply not_true_iff_false. by rewrite andb_true_iff, bool_decide_eq_true, Z.eqb_eq. Qed.

Lemma commit_out_of_turn who data x :
  ~ (phase_ x = InitiatorCommit /\ who = Initiator) -> ~ (phase_ x = ResponderCommit /\ who = Responder) ->
  phase_ (accept_commit who data x).2 = ExchangeFailed.
Proof.
  intros N0 N1. unfold accept_commit. by rewrite (not_turn InitiatorCommit), (not_turn ResponderCommit).
Qed.

Lemma reveal_out_of_turn who data h x :
  ~ (phase_ x = InitiatorReveal /\ who = Initiator) -> ~ (phase_ x = ResponderReveal /\ who = Responder) ->
  phase_ (accept_reveal who data h x).2 = ExchangeFailed.
Proof.
  intros N0 N1. unfold accept_reveal. by rewrite (not_turn InitiatorReveal), (not_turn ResponderReveal).
Qed.

(** In its turn a call does what its decoder says. *)
Lemma begin_turn data :
  let x := exchange_new (Some valid) in
  let d := decode_pair_context_v1 data (Some context0) in
  (d.1 <> Ok -> phase_ (exchange_begin data x).2 = ExchangeFailed) /\
  (forall context, d = (Ok, Some context) -> (exchange_begin data x).2 = in_phase InitiatorCommit context [] [] []).
Proof.
  intros x d. unfold exchange_begin. destruct (decide (phase_ x <> Empty)) as [N|_]; [by destruct N |].
  change (validate_point_ x) with (Some valid). change (context_ x) with context0. fold d. cbv iota.
  split; [| by intros context ->]. destruct d as [status out]. intros N.
  by destruct (decide (status <> Ok)).
Qed.

Lemma commit_turn (first : bool) data context ks :
  ks = (if first then [] else [aget commit0 ks 0]) ->
  let who := if first then Initiator else Responder in
  let x := in_phase (if first then InitiatorCommit else ResponderCommit) context ks [] [] in
  let d := decode_pair_commit_v1 data context who (Some valid) (Some commit0) in
  (d.1 <> Ok -> phase_ (accept_commit who data x).2 = ExchangeFailed) /\
  (forall k, d = (Ok, Some k) ->
     (accept_commit who data x).2 =
     in_phase (if first then ResponderCommit else InitiatorReveal) context (ks ++ [k]) [] []).
Proof.
  intros -> who x d.
  assert ((accept_commit who data x).2 =
    (let y := x <| commits_ := aset (commits_ x) (if first then 0 else 1) (default commit0 d.2) |> in
     if decide (d.1 <> Ok) then (reject y).2
     else y <| phase_ := if first then ResponderCommit else InitiatorReveal |>)) as ->.
  { unfold accept_commit, x, d. destruct first; cbn -[decode_pair_commit_v1];
      destruct (decode_pair_commit_v1 _ _ _ _ _) as [[] o]; done. }
  split; [intros N; by destruct (decide (d.1 <> Ok)) | intros k ->; by destruct first].
Qed.

Lemma reveal_turn (first : bool) data h context k0 k1 rs hs :
  rs = (if first then [] else [aget contribution0 rs 0]) -> hs = (if first then [] else [aget [] hs 0]) ->
  let who := if first then Initiator else Responder in
  let x := in_phase (if first then InitiatorReveal else ResponderReveal) context [k0; k1] rs hs in
  let d := decode_pair_contribution_v1 data context who (Some valid) (Some contribution0) in
  let bound r := bind_reveal_to_commit_v1 (if first then k0 else k1) r = Ok in
  (zeros h 0 32 = true \/ d.1 <> Ok \/ ~ bound (default contribution0 d.2) ->
   phase_ (accept_reveal who data h x).2 = ExchangeFailed) /\
  (forall r, zeros h 0 32 = false -> d = (Ok, Some r) -> bound r ->
     (accept_reveal who data h x).2 =
     in_phase (if first then ResponderReveal else Ready) context [k0; k1] (rs ++ [r]) (hs ++ [h])).
Proof.
  intros -> -> who x d bound.
  assert ((accept_reveal who data h x).2 =
    (if zeros h 0 32 then (reject x).2
     else
       let y := x <| contributions_ := aset (contributions_ x) (if first then 0 else 1) (default contribution0 d.2) |> in
       if bool_decide (d.1 <> Ok) ||
          bool_decide (bind_reveal_to_commit_v1 (if first then k0 else k1) (default contribution0 d.2) <> Ok)
       then (reject y).2
       else y <| reveal_hashes_ := aset (reveal_hashes_ y) (if first then 0 else 1) h |>
              <| phase_ := if first then ResponderReveal else Ready |>)) as ->.
  { unfold accept_reveal, x, d. destruct first, (zeros h 0 32); try done;
      cbn -[decode_pair_contribution_v1 bind_reveal_to_commit_v1];
      destruct (decode_pair_contribution_v1 _ _ _ _ _) as [[] o]; try done;
      cbn -[bind_reveal_to_commit_v1]; by destruct (bind_reveal_to_commit_v1 _ _). }
  split.
  - intros Hbad. destruct (zeros h 0 32); [done |]. cbv zeta. destruct (_ || _) eqn:G; [done |]. bool_hyps.
    unfold bound in Hbad. destruct Hbad as [?|[?|?]]; first [done | tauto].
  - intros r -> Ed Hb. unfold bound in Hb. rewrite Ed. cbv zeta.
    change (default contribution0 (Ok, Some r).2) with r. rewrite Hb. by destruct first.
Qed.

Lemma begin_progress calls data x :
  progress calls x -> progress (calls ++ [BeginCall data]) (exchange_begin data x).2.
Proof.
  intros Hp. destruct (decide (phase_ x = Empty)) as [E|N].
  2:{ apply progress_failed. unfold exchange_begin. by destruct (decide (phase_ x <> Empty)). }
  unfold progress in Hp. rewrite E in Hp. destruct Hp as [-> ->].
  destruct (begin_turn data) as [Hbad Hgood].
  destruct (decode_pair_context_v1 data (Some context0)) as [status out] eqn:D.
  destruct (decide (status = Ok)) as [->|N]; [| by apply progress_failed, Hbad].
  destruct (decode_context_ok _ _ _ D) as (b & -> & _ & ->). rewrite (Hgood _ eq_refl). by do 2 eexists.
Qed.

Lemma commit_progress calls who data x :
  progress calls x -> progress (calls ++ [CommitCall who data]) (accept_commit who data x).2.
Proof.
  intros Hp. destruct (decide (phase_ x = InitiatorCommit /\ who = Initiator)) as [[E ->] | N0].
  - unfold progress in Hp. rewrite E in Hp. destruct Hp as (b & context & -> & Db & ->).
    destruct (commit_turn true data context [] eq_refl) as [Hbad Hgood].
    destruct (decode_pair_commit_v1 _ _ _ _ _) as [status out] eqn:D.
    destruct (decide (status = Ok)) as [->|N]; [| by apply progress_failed, Hbad].
    destruct (decode_commit_ok _ _ _ _ _ _ D) as (d0 & receiver & -> & _ & ->).
    rewrite (Hgood _ eq_refl). by do 4 eexists.
  - destruct (decide (phase_ x = ResponderCommit /\ who = Responder)) as [[E ->] | N1].
    2:{ by apply progress_failed, commit_out_of_turn. }
    unfold progress in Hp. rewrite E in Hp. destruct Hp as (b & context & d0 & k0 & -> & Db & D0 & ->).
    destruct (commit_turn false data context [k0] eq_refl) as [Hbad Hgood].
    destruct (decode_pair_commit_v1 data _ _ _ _) as [status out] eqn:D.
    destruct (decide (status = Ok)) as [->|N]; [| by apply progress_failed, Hbad].
    destruct (decode_commit_ok _ _ _ _ _ _ D) as (d1 & receiver & -> & _ & ->).
    rewrite (Hgood _ eq_refl). by do 6 eexists.
Qed.

Lemma reveal_progress calls who data h x :
  progress calls x -> progress (calls ++ [RevealCall who data h]) (accept_reveal who data h x).2.
Proof.
  intros Hp. destruct (decide (phase_ x = InitiatorReveal /\ who = Initiator)) as [[E ->] | N0].
  - unfold progress in Hp. rewrite E in Hp.
    destruct Hp as (b & context & d0 & k0 & d1 & k1 & -> & Db & D0 & D1 & ->).
    destruct (reveal_turn true data h context k0 k1 [] [] eq_refl eq_refl) as [Hbad Hgood].
    destruct (zeros h 0 32) eqn:Hh; [apply progress_failed, Hbad; by left |].
    destruct (decode_pair_contribution_v1 data _ _ _ _) as [status out] eqn:D.
    destruct (decide (status = Ok)) as [->|N]; [| apply progress_failed, Hbad; by right; left].
    destruct (decode_contribution_ok _ _ _ _ _ _ D) as (c0 & -> & _ & _ & ->).
    destruct (decide (bind_reveal_to_commit_v1 k0 (mkContribution Initiator c0 (pair_commitment_v1 c0)
      (slice c0 88 65) (slice c0 153 65) (slice c0 218 32) (slice c0 282 32)) = Ok)) as [B|N];
      [| apply progress_failed, Hbad; by right; right].
    rewrite (Hgood _ eq_refl eq_refl B). by do 9 eexists.
  - destruct (decide (phase_ x = ResponderReveal /\ who = Responder)) as [[E ->] | N1].
    2:{ by apply progress_failed, reveal_out_of_turn. }
    unfold progress in Hp. rewrite E in Hp.
    destruct Hp as (b & context & d0 & k0 & d1 & k1 & c0 & r0 & h0 & -> & Db & D0 & D1 & C0 & B0 & H0 & ->).
    destruct (reveal_turn false data h context k0 k1 [r0] [h0] eq_refl eq_refl) as [Hbad Hgood].
    destruct (zeros h 0 32) eqn:Hh; [apply progress_failed, Hbad; by left |].
    destruct (decode_pair_contribution_v1 data _ _ _ _) as [status out] eqn:D.
    destruct (decide (status = Ok)) as [->|N]; [| apply progress_failed, Hbad; by right; left].
    destruct (decode_contribution_ok _ _ _ _ _ _ D) as (c1 & -> & _ & _ & ->).
    destruct (decide (bind_reveal_to_commit_v1 k1 (mkContribution Responder c1 (pair_commitment_v1 c1)
      (slice c1 88 65) (slice c1 153 65) (slice c1 218 32) (slice c1 282 32)) = Ok)) as [B|N];
      [| apply progress_failed, Hbad; by right; right].
    rewrite (Hgood _ eq_refl eq_refl B). exists (mkPrelude b (d0, d1) (c0, c1) (h0, h)).
    do 5 eexists. split; [reflexivity |]. by split.
Qed.

Lemma run_progress calls : progress calls (run_exchange (Some valid) calls).
Proof.
  induction calls as [|c calls IH] using rev_ind; [done |]. unfold run_exchange in *. rewrite fold_left_app.
  cbn [fold_left]. destruct c; [by apply begin_progress | by apply commit_progress | by apply reveal_progress].
Qed.

(** The five calls of a meaningful prelude run to the end. *)
Lemma prelude_runs p context k0 k1 r0 r1 :
  PreludeMeans valid p context k0 k1 r0 r1 ->
  run_exchange (Some valid) (prelude_calls p) = prelude_state valid p context k0 k1 r0 r1.
Proof.
  intros [Dc D0 D1 C0 C1 B0 B1 H0 H1]. unfold run_exchange, prelude_calls. cbn [fold_left exchange_step].
  rewrite (proj2 (begin_turn _) _ Dc); cbn [app].
  rewrite (proj2 (commit_turn true _ context [] eq_refl) _ D0); cbn [app].
  rewrite (proj2 (commit_turn false _ context [k0] eq_refl) _ D1); cbn [app].
  rewrite (proj2 (reveal_turn true _ _ context k0 k1 [] [] eq_refl eq_refl) _ H0 C0 B0); cbn [app].
  by rewrite (proj2 (reveal_turn false _ _ context k0 k1 [r0] _ eq_refl eq_refl) _ H1 C1 B1); cbn [app].
Qed.

End Progress.

(** ** Properties *)

(** The exchange is ready after exactly the preludes that are complete, legal and
    in order: a context, the two commits, then the two reveals, initiator first, each
    record well formed in the context, each reveal opening the commit made before
    either was revealed.  Nothing skipped, repeated, reflected or reordered leads
    there, and what it then holds is what was said. *)
Theorem exchange_ready_exact (valid : bytes -> bool) (calls : list ExchangeCall) :
  phase_ (run_exchange (Some valid) calls) = Ready <->
  exists p context k0 k1 r0 r1,
    calls = prelude_calls p /\ PreludeMeans valid p context k0 k1 r0 r1 /\
    run_exchange (Some valid) calls = prelude_state valid p context k0 k1 r0 r1 /\
    committed k0 = pair_commitment_v1 (said_reveals p).1 /\ committed k1 = pair_commitment_v1 (said_reveals p).2.
Proof.
  split.
  - intros E. pose proof (run_progress valid calls) as Hp. unfold progress in Hp. rewrite E in Hp.
    destruct Hp as (p & context & k0 & k1 & r0 & r1 & -> & Hm & Es).
    exists p, context, k0, k1, r0, r1. do 3 (split; [done |]). destruct Hm as [_ _ _ C0 C1 B0 B1 _ _].
    destruct (bind_ok _ _ B0) as (_ & -> & _). destruct (bind_ok _ _ B1) as (_ & -> & _).
    destruct (decode_contribution_ok _ _ _ _ _ _ C0) as (? & [= <-] & _ & _ & [= ->]).
    by destruct (decode_contribution_ok _ _ _ _ _ _ C1) as (? & [= <-] & _ & _ & [= ->]).
  - intros (p & context & k0 & k1 & r0 & r1 & -> & Hm & -> & _). done.
Qed.

(** What the session signs at the end of an exchange. *)
Definition exchange_transcript (entry_mode : Z) (entry_context_hash : bytes) (x : PairExchangeV1)
    : Status * option (bytes * bytes) :=
  build_pair_transcript_preimage_v1 entry_mode entry_context_hash
    (committed (aget commit0 (commits_ x) 0)) (committed (aget commit0 (commits_ x) 1))
    (aget contribution0 (contributions_ x) 0) (aget contribution0 (contributions_ x) 1) (Some ([], [])).

Lemma transcript_ok mode entry ki kr i r out :
  build_pair_transcript_preimage_v1 mode entry ki kr i r (Some out) =
    (Ok, Some (transcript_layout mode entry ki kr i r,
               domain_hash "flynes-pair-transcript-v1" (transcript_layout mode entry ki kr i r))) /\
    (mode = 1 \/ mode = 2) /\ commitment i = ki /\ commitment r = kr \/
  build_pair_transcript_preimage_v1 mode entry ki kr i r (Some out) = (InvalidField, Some out).
Proof.
  unfold build_pair_transcript_preimage_v1. destruct (_ || _) eqn:G; [by right | left].
  bool_hyps. split_and!; try done.
  destruct (Z.eqb_spec mode 1), (Z.eqb_spec mode 2); cbn in *; auto; discriminate.
Qed.

(** Two preludes whose reveals have the same bytes are the same, or their contexts collide. *)
Lemma same_reveals valid1 valid2 p1 p2 c1 c2 k0 k1 r0 r1 m0 m1 s0 s1 :
  PreludeMeans valid1 p1 c1 k0 k1 r0 r1 -> PreludeMeans valid2 p2 c2 m0 m1 s0 s1 ->
  contribution_bytes r0 = contribution_bytes s0 -> contribution_bytes r1 = contribution_bytes s1 ->
  (c1 = c2 /\ k0 = m0 /\ k1 = m1 /\ r0 = s0 /\ r1 = s1) \/
  collide (domain_message "flynes-pair-context-v1" (context_bytes c1))
    (domain_message "flynes-pair-context-v1" (context_bytes c2)).
Proof.
  intros [A1 A2 A3 A4 A5 A6 A7 _ _] [B1 B2 B3 B4 B5 B6 B7 _ _] E0 E1.
  destruct (decode_context_ok _ _ _ A1) as (b1 & _ & _ & [= ->]).
  destruct (decode_context_ok _ _ _ B1) as (b2 & _ & _ & [= ->]).
  destruct (decode_contribution_ok _ _ _ _ _ _ A4) as (x0 & _ & _ & Hx0 & [= ->]).
  destruct (decode_contribution_ok _ _ _ _ _ _ A5) as (x1 & _ & _ & _ & [= ->]).
  destruct (decode_contribution_ok _ _ _ _ _ _ B4) as (y0 & _ & _ & Hy0 & [= ->]).
  destruct (decode_contribution_ok _ _ _ _ _ _ B5) as (y1 & _ & _ & _ & [= ->]).
  cbn [contribution_bytes context_hash context_bytes] in *. subst y0 y1.
  rewrite Hx0 in Hy0. destruct (domain_hash_binds _ _ _ Hy0) as [<- | Hc]; [left | by right].
  destruct (decode_commit_ok _ _ _ _ _ _ A2) as (? & a0 & _ & Oa0 & [= ->]).
  destruct (decode_commit_ok _ _ _ _ _ _ A3) as (? & a1 & _ & Oa1 & [= ->]).
  destruct (decode_commit_ok _ _ _ _ _ _ B2) as (? & b0' & _ & Ob0 & [= ->]).
  destruct (decode_commit_ok _ _ _ _ _ _ B3) as (? & b1' & _ & Ob1 & [= ->]).
  apply bind_ok in A6 as (_ & Ka0 & Ke0), A7 as (_ & Ka1 & Ke1), B6 as (_ & Kb0 & Kf0), B7 as (_ & Kb1 & Kf1).
  cbn in Ka0, Ke0, Ka1, Ke1, Kb0, Kf0, Kb1, Kf1.
  assert (forall who a b, opposite who a = true -> opposite who b = true -> a = b) as Hop.
  { unfold opposite, Initiator, Responder. intros who a b Ha Hb.
    apply orb_true_iff in Ha as [Ha|Ha], Hb as [Hb|Hb]; bool_hyps; lia. }
  split_and!; try done; f_equal; try congruence; by eapply Hop.
Qed.

Lemma transcript_layout_inj mode1 mode2 entry1 entry2 ki1 ki2 kr1 kr2 i1 i2 r1 r2 :
  length entry1 = length entry2 -> length ki1 = length ki2 -> length kr1 = length kr2 ->
  length (contribution_bytes i1) = length (contribution_bytes i2) ->
  transcript_layout mode1 entry1 ki1 kr1 i1 r1 = transcript_layout mode2 entry2 ki2 kr2 i2 r2 ->
  u8 mode1 = u8 mode2 /\ entry1 = entry2 /\
  contribution_bytes i1 = contribution_bytes i2 /\ contribution_bytes r1 = contribution_bytes r2.
Proof.
  intros Le Lk Lk' Li H. unfold transcript_layout in H. cbn [mjoin list_join foldr] in H.
  do 2 apply app_inv_head in H. apply app_eq_length in H as [Hm H]; [| done]. injection Hm as Hm.
  apply app_inv_head in H. apply app_eq_length in H as [-> H]; [| done].
  apply app_eq_length in H as [_ H]; [| done]. apply app_eq_length in H as [_ H]; [| done].
  apply app_eq_length in H as [Hi H]; [| done]. rewrite !app_nil_r in H. done.
Qed.

Section Lengths.
Context {valid : bytes -> bool} {p : PairPrelude} {context : PairContextV1} {k0 k1 : PairCommitV1}
  {r0 r1 : PairContributionV1}.
Hypothesis M : PreludeMeans valid p context k0 k1 r0 r1.

Lemma committed_length : length (committed k0) = 32%nat.
Proof using M. destruct (bind_ok _ _ (means_opens0 _ _ _ _ _ _ _ M)) as (_ & -> & _). apply domain_hash_length. Qed.

Lemma committed_length1 : length (committed k1) = 32%nat.
Proof using M. destruct (bind_ok _ _ (means_opens1 _ _ _ _ _ _ _ M)) as (_ & -> & _). apply domain_hash_length. Qed.

Lemma reveal_length : length (contribution_bytes r0) = 320%nat.
Proof using M.
  destruct (decode_contribution_ok _ _ _ _ _ _ (means_reveal0 _ _ _ _ _ _ _ M)) as (b & _ & L & _ & [= ->]).
  cbn. unfold zlen in L. lia.
Qed.

End Lengths.

(** C8. A transcript both players computed means they saw the same prelude: if each
    one's exchange is ready and the hash each signs is the same, then they agree on
    how the pairing was entered, on the context, on both commitments and on every key
    of both contributions -- or one of two explicit pairs of messages is a SHA-256
    collision. *)
Theorem transcripts_agree (valid1 valid2 : bytes -> bool) (calls1 calls2 : list ExchangeCall)
    (mode1 mode2 : Z) (entry1 entry2 pre1 pre2 hash : bytes) :
  let x1 := run_exchange (Some valid1) calls1 in
  let x2 := run_exchange (Some valid2) calls2 in
  phase_ x1 = Ready -> phase_ x2 = Ready -> length entry1 = 32%nat -> length entry2 = 32%nat ->
  exchange_transcript mode1 entry1 x1 = (Ok, Some (pre1, hash)) ->
  exchange_transcript mode2 entry2 x2 = (Ok, Some (pre2, hash)) ->
  (mode1 = mode2 /\ entry1 = entry2 /\ context_ x1 = context_ x2 /\ commits_ x1 = commits_ x2 /\
   contributions_ x1 = contributions_ x2) \/
  collide (domain_message "flynes-pair-transcript-v1" pre1) (domain_message "flynes-pair-transcript-v1" pre2) \/
  collide (domain_message "flynes-pair-context-v1" (context_bytes (context_ x1)))
    (domain_message "flynes-pair-context-v1" (context_bytes (context_ x2))).
Proof.
  intros x1 x2 P1 P2 L1 L2.
  pose proof (run_progress valid1 calls1) as R1. unfold progress in R1. fold x1 in R1. rewrite P1 in R1.
  pose proof (run_progress valid2 calls2) as R2. unfold progress in R2. fold x2 in R2. rewrite P2 in R2.
  destruct R1 as (p1 & c1 & k0 & k1 & r0 & r1 & _ & M1 & E1), R2 as (p2 & c2 & m0 & m1 & s0 & s1 & _ & M2 & E2).
  clearbody x1 x2. subst x1 x2. unfold exchange_transcript.
  cbn [prelude_state commits_ contributions_ context_].
  change (aget commit0 [k0; k1] 0) with k0. change (aget commit0 [k0; k1] 1) with k1.
  change (aget commit0 [m0; m1] 0) with m0. change (aget commit0 [m0; m1] 1) with m1.
  change (aget contribution0 [r0; r1] 0) with r0. change (aget contribution0 [r0; r1] 1) with r1.
  change (aget contribution0 [s0; s1] 0) with s0. change (aget contribution0 [s0; s1] 1) with s1.
  destruct (transcript_ok mode1 entry1 (committed k0) (committed k1) r0 r1 ([], [])) as [(-> & Hm1 & _) | ->]; [| done].
  destruct (transcript_ok mode2 entry2 (committed m0) (committed m1) s0 s1 ([], [])) as [(-> & Hm2 & _) | ->]; [| done].
  intros [= <- Hh1] [= <- Hh2]. rewrite <- Hh2 in Hh1.
  destruct (domain_hash_binds _ _ _ Hh1) as [El | Hc]; [| by right; left]. clear Hh1 Hh2.
  apply transcript_layout_inj in El as (Hm & He & Hi & Hr);
    [| congruence | by rewrite (committed_length M1), (committed_length M2)
     | by rewrite (committed_length1 M1), (committed_length1 M2)
     | by rewrite (reveal_length M1), (reveal_length M2)].
  destruct (same_reveals _ _ _ _ _ _ _ _ _ _ _ _ _ _ M1 M2 Hi Hr) as [(-> & -> & -> & -> & ->) | Hc];
    [left | by right; right].
  split_and!; try done. destruct Hm1 as [-> | ->], Hm2 as [-> | ->]; done.
Qed.

(** *** Honest players *)

(** What a player brings. *)
Record Party := mkParty {
  party_identity : bytes; party_ephemeral : bytes; party_spki : bytes; party_nonce : bytes; party_summary : bytes }.

Definition key_ok (valid : bytes -> bool) (key : bytes) : Prop :=
  zlen key = 65 /\ at_ key 0 = 4 /\ valid key = true.
Definition hash_ok (hash : bytes) : Prop := zlen hash = 32 /\ zeros hash 0 32 = false.

Record party_ok (valid : bytes -> bool) (p : Party) : Prop := {
  ok_identity : key_ok valid (party_identity p); ok_ephemeral : key_ok valid (party_ephemeral p);
  ok_spki : hash_ok (party_spki p); ok_nonce : hash_ok (party_nonce p); ok_summary : hash_ok (party_summary p) }.

Definition contribution_of (context : PairContextV1) (role : Z) (p : Party) : PairContributionV1 :=
  let b := contribution_layout context role (party_identity p) (party_ephemeral p) (party_spki p)
             (party_nonce p) (party_summary p) in
  mkContribution role b (pair_commitment_v1 b) (party_identity p) (party_ephemeral p) (party_spki p) (party_summary p).

Lemma zlen_zero_bytes n : 0 <= n -> zlen (zero_bytes n) = n.
Proof. intros. unfold zlen, zero_bytes. rewrite length_replicate. lia. Qed.

(** The offset of a field: the sizes before it. *)
Ltac field_offset :=
  repeat match goal with x := _ :: _ : list (list Z) |- _ => unfold x end; cbn [take fmap list_fmap total]; autorewrite with flynes_len;
  rewrite ?zlen_be_bytes, ?zlen_zero_bytes by lia; lia.


Section Honest.
Variables (valid : bytes -> bool) (said : bytes) (context : PairContextV1).
Hypothesis Hcontext : decode_pair_context_v1 (Some said) (Some context0) = (Ok, Some context).

Lemma context_parts :
  context = mkContext said (domain_hash "flynes-pair-context-v1" said) /\ zlen said = 80 /\
  zlen (context_hash context) = 32 /\ zlen (slice (context_bytes context) 16 32) = 32.
Proof using Hcontext.
  destruct (decode_context_ok _ _ _ Hcontext) as (b & [= <-] & L & [= ->]).
  split_and!; [done | done | |].
  - unfold zlen. cbn [context_hash]. by rewrite domain_hash_length.
  - apply zlen_slice; cbn [context_bytes]; lia.
Qed.

(** A byte of a field. *)
Lemma at_of_slice l off n : 0 <= off -> 0 < n -> at_ l off = at_ (slice l off n) 0.
Proof. intros. rewrite at_slice by lia. by rewrite Z.add_0_r. Qed.

Lemma contribution_decodes who p :
  who = Initiator \/ who = Responder -> party_ok valid p ->
  decode_pair_contribution_v1 (Some (contribution_bytes (contribution_of context who p))) context who (Some valid)
    (Some contribution0) = (Ok, Some (contribution_of context who p)).
Proof using Hcontext.
  intros Hwho [(Li & Ti & Vi) (Le & Te & Ve) (Ls & Zs) (Ln & Zn) (Lc & Zc)].
  destruct context_parts as (Ec & Lsaid & Lh & Lids).
  assert (zlen [u8 who] = 1) as Lr by done. assert (u8 who = who) as Er by (by destruct Hwho as [-> | ->]).
  unfold contribution_of, contribution_layout. cbn [contribution_bytes].
  match goal with |- context [mjoin ?l] => set (fields := l) end.
  assert (zlen (mjoin fields) = 320) as Hlen by (rewrite zlen_mjoin; unfold fields; field_offset).
  unfold decode_pair_contribution_v1. change (default [] (Some (mjoin fields))) with (mjoin fields).
  assert (exact_size (Some (mjoin fields)) 320 = Ok) as -> by (unfold exact_size; by rewrite Hlen).
  destruct (decide (Ok <> Ok)) as [N|_]; [by destruct N |].
  rewrite (load16_field fields 0 (be_bytes 2 1) 0) with (v := 1) by (done || field_offset).
  rewrite (load16_field fields 2 (be_bytes 2 2) 8) with (v := 2) by (done || field_offset).
  rewrite (load16_field fields 3 (be_bytes 2 0) 10) with (v := 0) by (done || field_offset).
  rewrite (at_field fields 4 [u8 who] 12) with (v := u8 who) by (done || field_offset).
  rewrite (load32_field fields 8 (be_bytes 4 60000) 80) with (v := 60000) by (done || field_offset).
  rewrite (slice_field fields 6 (context_hash context) 16 32) by (done || field_offset).
  rewrite (slice_field fields 7 (slice (context_bytes context) 16 32) 48 32) by (done || field_offset).
  rewrite (zeros_field fields 1 (zero_bytes 6) 2), (zeros_field fields 5 (zero_bytes 3) 13),
    (zeros_field fields 9 (zero_bytes 4) 84), (zeros_field fields 15 (zero_bytes 6) 314) by (done || field_offset).
  rewrite (zeros_field fields 12 (party_spki p) 218), (zeros_field fields 13 (party_nonce p) 250),
    (zeros_field fields 14 (party_summary p) 282) by (done || field_offset).
  rewrite (at_of_slice _ 88 65), (at_of_slice _ 153 65) by lia.
  rewrite (slice_field fields 10 (party_identity p) 88 65), (slice_field fields 11 (party_ephemeral p) 153 65),
    (slice_field fields 12 (party_spki p) 218 32), (slice_field fields 14 (party_summary p) 282 32) by (done || field_offset).
  unfold zero_bytes. rewrite !zeros_replicate, Er, Zs, Zn, Zc, Ti, Te, Vi, Ve, Ec. cbn [context_bytes context_hash].
  rewrite !Z.eqb_refl, !bool_decide_true by done. done.
Qed.

Lemma contribution_encodes who p :
  who = Initiator \/ who = Responder -> party_ok valid p ->
  encode_pair_contribution_v1 context who (party_identity p) (party_ephemeral p) (party_spki p) (party_nonce p)
    (party_summary p) (Some valid) (Some []) = (Ok, Some (contribution_bytes (contribution_of context who p))).
Proof using Hcontext.
  intros Hwho Hp. pose proof (contribution_decodes who p Hwho Hp) as D. cbn [contribution_of contribution_bytes] in D.
  unfold encode_pair_contribution_v1.
  assert (negb (who =? Initiator) && negb (who =? Responder) = false) as -> by (by destruct Hwho as [-> | ->]).
  destruct context_parts as (Ec & _). assert (context_bytes context = said) as -> by (by rewrite Ec).
  rewrite Hcontext. destruct (decide (context_hash context <> context_hash context)) as [N|_]; [by destruct N |].
  cbv zeta. rewrite D. by destruct (decide _) as [N|_]; [destruct N |].
Qed.

Lemma commit_encodes who p :
  who = Initiator \/ who = Responder -> party_ok valid p ->
  encode_pair_commit_v1 context (contribution_of context who p) (Some valid) (Some []) =
  (Ok, Some (commit_layout context (contribution_of context who p))).
Proof using Hcontext.
  intros Hwho Hp. unfold encode_pair_commit_v1. change (role (contribution_of context who p)) with who.
  rewrite (contribution_decodes who p Hwho Hp). by rewrite !bool_decide_true by done.
Qed.

Definition commit_of (who : Z) (p : Party) : PairCommitV1 :=
  mkCommit who (if who =? Initiator then Responder else Initiator) (context_hash context)
    (commitment (contribution_of context who p)) (party_ephemeral p).

Lemma commit_decodes who p :
  who = Initiator \/ who = Responder -> party_ok valid p ->
  zeros (commitment (contribution_of context who p)) 0 32 = false ->
  decode_pair_commit_v1 (Some (commit_layout context (contribution_of context who p))) context who (Some valid)
    (Some commit0) = (Ok, Some (commit_of who p)).
Proof using Hcontext.
  intros Hwho [_ (Le & Te & Ve) _ _ _] Hz. destruct context_parts as (Ec & Lsaid & Lh & Lids).
  unfold commit_layout, commit_of. change (role (contribution_of context who p)) with who.
  change (ephemeral_public_key (contribution_of context who p)) with (party_ephemeral p).
  set (value := commitment (contribution_of context who p)) in *.
  assert (zlen value = 32) as Lv
    by (assert (length value = 32%nat) by apply domain_hash_length; unfold zlen; lia).
  clearbody value. set (other := if who =? Initiator then Responder else Initiator).
  assert (opposite who other = true) as Ho by (by destruct Hwho as [-> | ->]).
  assert (u8 who = who) as Er by (by destruct Hwho as [-> | ->]).
  match goal with |- context [mjoin ?l] => set (fields := l) end.
  assert (zlen (mjoin fields) = 152) as Hlen by (rewrite zlen_mjoin; unfold fields; field_offset).
  unfold decode_pair_commit_v1. change (default [] (Some (mjoin fields))) with (mjoin fields).
  assert (exact_size (Some (mjoin fields)) 152 = Ok) as -> by (unfold exact_size; by rewrite Hlen).
  destruct (decide (Ok <> Ok)) as [N|_]; [by destruct N |].
  rewrite (load16_field fields 0 (be_bytes 2 1) 0) with (v := 1) by (done || field_offset).
  rewrite (at_field fields 3 [u8 who] 40) with (v := u8 who) by (done || field_offset).
  rewrite (at_field fields 4 [other] 41) with (v := other) by (done || field_offset).
  rewrite (at_of_slice _ 80 65) by lia.
  rewrite (slice_field fields 2 (context_hash context) 8 32), (slice_field fields 6 value 48 32),
    (slice_field fields 7 (party_ephemeral p) 80 65) by (done || field_offset).
  rewrite (zeros_field fields 1 (zero_bytes 6) 2), (zeros_field fields 5 (zero_bytes 6) 42),
    (zeros_field fields 8 (zero_bytes 7) 145), (zeros_field fields 6 value 48) by (done || field_offset).
  unfold zero_bytes. rewrite !zeros_replicate, Er, Te, Ve, Hz, Ho, !Z.eqb_refl, !bool_decide_true by done. done.
Qed.

Lemma honest_opens who p :
  party_ok valid p -> bind_reveal_to_commit_v1 (commit_of who p) (contribution_of context who p) = Ok.
Proof using Hcontext.
  intros [(Li & _) (Le & _) (Ls & _) (Ln & _) (Lc & _)]. destruct context_parts as (Ec & Lsaid & Lh & Lids).
  assert (zlen [u8 who] = 1) as Lr by done.
  unfold bind_reveal_to_commit_v1, commit_of, contribution_of.
  cbn [sender role commitment committed contribution_bytes ephemeral_public_key committed_ephemeral_key].
  unfold contribution_layout. match goal with |- context [mjoin ?l] => set (fields := l) end.
  rewrite (slice_field fields 11 (party_ephemeral p) 153 65) by (done || field_offset).
  by rewrite Z.eqb_refl, !bool_decide_true by done.
Qed.

End Honest.

(** The pairing prelude completes between honest players: from one valid context,
    two players with valid keys, nonzero hashes and nonzero commitments encode their
    commits and reveals without an error, and whoever receives the five records in
    order ends up ready, holding exactly the keys and hashes the players put in. *)
Theorem honest_prelude_completes (valid : bytes -> bool) (said : bytes) (context : PairContextV1) (a b : Party)
    (ha hb : bytes) :
  decode_pair_context_v1 (Some said) (Some context0) = (Ok, Some context) ->
  party_ok valid a -> party_ok valid b -> zeros ha 0 32 = false -> zeros hb 0 32 = false ->
  let ca := contribution_of context Initiator a in
  let cb := contribution_of context Responder b in
  zeros (commitment ca) 0 32 = false -> zeros (commitment cb) 0 32 = false ->
  exists ra rb ka kb,
    encode_pair_contribution_v1 context Initiator (party_identity a) (party_ephemeral a) (party_spki a)
      (party_nonce a) (party_summary a) (Some valid) (Some []) = (Ok, Some ra) /\
    encode_pair_contribution_v1 context Responder (party_identity b) (party_ephemeral b) (party_spki b)
      (party_nonce b) (party_summary b) (Some valid) (Some []) = (Ok, Some rb) /\
    encode_pair_commit_v1 context ca (Some valid) (Some []) = (Ok, Some ka) /\
    encode_pair_commit_v1 context cb (Some valid) (Some []) = (Ok, Some kb) /\
    let x := run_exchange (Some valid)
      [BeginCall (Some said); CommitCall Initiator (Some ka); CommitCall Responder (Some kb);
       RevealCall Initiator (Some ra) ha; RevealCall Responder (Some rb) hb] in
    phase_ x = Ready /\ context_ x = context /\ contributions_ x = [ca; cb] /\ reveal_hashes_ x = [ha; hb].
Proof.
  intros Hc Ha Hb Hha Hhb ca cb Za Zb.
  assert (Initiator = Initiator \/ Initiator = Responder) as Wi by (by left).
  assert (Responder = Initiator \/ Responder = Responder) as Wr by (by right).
  eexists _, _, _, _.
  split; [exact (contribution_encodes valid said context Hc Initiator a Wi Ha) |].
  split; [exact (contribution_encodes valid said context Hc Responder b Wr Hb) |].
  split; [exact (commit_encodes valid said context Hc Initiator a Wi Ha) |].
  split; [exact (commit_encodes valid said context Hc Responder b Wr Hb) |].
  set (p := mkPrelude said (commit_layout context ca, commit_layout context cb)
              (contribution_bytes ca, contribution_bytes cb) (ha, hb)).
  assert (PreludeMeans valid p context (commit_of context Initiator a) (commit_of context Responder b) ca cb) as M.
  { split.
    - exact Hc.
    - exact (commit_decodes valid said context Hc Initiator a Wi Ha Za).
    - exact (commit_decodes valid said context Hc Responder b Wr Hb Zb).
    - exact (contribution_decodes valid said context Hc Initiator a Wi Ha).
    - exact (contribution_decodes valid said context Hc Responder b Wr Hb).
    - exact (honest_opens valid said context Hc Initiator a Ha).
    - exact (honest_opens valid said context Hc Responder b Hb).
    - exact Hha.
    - exact Hhb. }
  pose proof (prelude_runs valid p _ _ _ _ _ M) as E.
  cbv zeta. change (run_exchange (Some valid) _) with (run_exchange (Some valid) (prelude_calls p)). by rewrite E.
Qed.

(** ** Witnesses

    Two players whose keys are the base point of P-256, checked by the point check of
    this development. *)

Definition demo_said : bytes :=
  be_bytes 2 1 ++ zero_bytes 6 ++ be_bytes 2 2 ++ be_bytes 2 0 ++ [1] ++ zero_bytes 3 ++
  replicate 16 1 ++ replicate 16 2 ++ be_bytes 4 60000 ++ zero_bytes 12 ++ replicate 16 3.

Definition demo_context : PairContextV1 :=
  mkContext demo_said (domain_hash "flynes-pair-context-v1" demo_said).

Definition demo_party (seed : Z) : Party :=
  mkParty base_point base_point (replicate 32 seed) (replicate 32 (seed + 1)) (replicate 32 (seed + 2)).

Definition demo_contribution (role seed : Z) : PairContributionV1 :=
  contribution_of demo_context role (demo_party seed).

Definition demo_prelude : PairPrelude :=
  mkPrelude demo_said
    (commit_layout demo_context (demo_contribution Initiator 10), commit_layout demo_context (demo_contribution Responder 20))
    (contribution_bytes (demo_contribution Initiator 10), contribution_bytes (demo_contribution Responder 20))
    (replicate 32 5, replicate 32 6).

(** The transcript's witness only asks for the uncompressed tag. *)
Definition tagged (key : bytes) : bool := at_ key 0 =? 4.

Abbreviation demo_exchange := (run_exchange (Some tagged) (prelude_calls demo_prelude)).

Lemma demo_context_ok : decode_pair_context_v1 (Some demo_said) (Some context0) = (Ok, Some demo_context).
Proof. vm_compute. reflexivity. Qed.

Lemma demo_key_ok : key_ok validate_p256_uncompressed_point base_point.
Proof. unfold key_ok. vm_compute. done. Qed.

Lemma demo_party_ok (seed : Z) :
  seed = 10 \/ seed = 20 -> party_ok validate_p256_uncompressed_point (demo_party seed).
Proof.
  intros Hs. split; cbn [demo_party party_identity party_ephemeral party_spki party_nonce party_summary];
    try apply demo_key_ok; destruct Hs as [-> | ->]; unfold hash_ok; vm_compute; done.
Qed.

(** What the witness looks at, in one evaluation of the exchange. *)
Definition transcribed (x : PairExchangeV1) : bool * bool :=
  (bool_decide (phase_ x = Ready),
   match exchange_transcript 1 (zero_bytes 32) x with (Ok, Some _) => true | _ => false end).

Lemma demo_transcribed : transcribed demo_exchange = (true, true).
Proof. vm_compute. reflexivity. Qed.

Lemma transcribed_spec x :
  transcribed x = (true, true) ->
  phase_ x = Ready /\ exists pre hash, exchange_transcript 1 (zero_bytes 32) x = (Ok, Some (pre, hash)).
Proof.
  intros [= Hp Ht]. split; [by apply bool_decide_eq_true in Hp |].
  destruct (exchange_transcript 1 (zero_bytes 32) x) as [[] [[pre hash]|]]; try done. by exists pre, hash.
Qed.

Lemma demo_ready : phase_ demo_exchange = Ready.
Proof. exact (proj1 (transcribed_spec demo_exchange demo_transcribed)). Qed.

Lemma demo_transcript :
  exists pre hash, exchange_transcript 1 (zero_bytes 32) demo_exchange = (Ok, Some (pre, hash)).
Proof. exact (proj2 (transcribed_spec demo_exchange demo_transcribed)). Qed.

Lemma transcripts_agree_witness :
  exists pre hash,
    exchange_transcript 1 (zero_bytes 32) demo_exchange = (Ok, Some (pre, hash)) /\
    ((1 = 1 /\ zero_bytes 32 = zero_bytes 32 /\ context_ demo_exchange = context_ demo_exchange /\
      commits_ demo_exchange = commits_ demo_exchange /\
      contributions_ demo_exchange = contributions_ demo_exchange) \/
     collide (domain_message "flynes-pair-transcript-v1" pre) (domain_message "flynes-pair-transcript-v1" pre) \/
     collide (domain_message "flynes-pair-context-v1" (context_bytes (context_ demo_exchange)))
       (domain_message "flynes-pair-context-v1" (context_bytes (context_ demo_exchange)))).
Proof.
  destruct demo_transcript as (pre & hash & H). exists pre, hash. split; [exact H |].
  exact (transcripts_agree tagged tagged (prelude_calls demo_prelude) (prelude_calls demo_prelude) 1 1 (zero_bytes 32) (zero_bytes 32) pre pre hash
           demo_ready demo_ready eq_refl eq_refl H H).
Defined.

Lemma honest_prelude_completes_witness :
  exists ra rb ka kb,
    let x := run_exchange (Some validate_p256_uncompressed_point)
      [BeginCall (Some demo_said); CommitCall Initiator (Some ka); CommitCall Responder (Some kb);
       RevealCall Initiator (Some ra) (replicate 32 5); RevealCall Responder (Some rb) (replicate 32 6)] in
    phase_ x = Ready /\
    contributions_ x = [demo_contribution Initiator 10; demo_contribution Responder 20].
Proof.
  assert (zeros (commitment (demo_contribution Initiator 10)) 0 32 = false) as Z0 by (vm_compute; reflexivity).
  assert (zeros (commitment (demo_contribution Responder 20)) 0 32 = false) as Z1 by (vm_compute; reflexivity).
  destruct (honest_prelude_completes validate_p256_uncompressed_point demo_said demo_context (demo_party 10)
    (demo_party 20) (replicate 32 5) (replicate 32 6) demo_context_ok (demo_party_ok 10 (or_introl eq_refl))
    (demo_party_ok 20 (or_intror eq_refl)) eq_refl eq_refl Z0 Z1)
    as (ra & rb & ka & kb & _ & _ & _ & _ & Hr & _ & Hx & _).
  exists ra, rb, ka, kb. exact (conj Hr Hx).
Defined.
