(* ===== verification/PairCapability.v ===== *)
(** * Capability summaries and the bearer plan
    ([shared/src/session/wire/pair_capability.{hpp,cpp}])

    Each player states up to eight ways of carrying the game traffic, as 48-byte plans
    in a 512-byte summary; the plan both can use and that ranks first is selected, the
    same one on either side. *)

From S2P Require Import Prelude Sha256 SessionCodec.

(** ** Definitions *)

Definition kSummarySize : Z := 512.
Definition kPlansOffset : Z := 96.
Definition kPlanSize : Z := 48.
Definition kMaxPlans : Z := 8.

Definition validate_plan (p : bytes) (platform : Z) : Status :=
  if negb (at_ p 7 =? 0) || negb (zeros p 44 4) then NonzeroReserved
  else if (at_ p 0 <? 2) || (4 <? at_ p 0) || (at_ p 1 <? 1) || (2 <? at_ p 1) ||
          (at_ p 2 <? 1) || (2 <? at_ p 2) || (at_ p 3 <? 1) || (2 <? at_ p 3) ||
          (at_ p 4 <? 1) || (3 <? at_ p 4) || (2 <? at_ p 5)
  then UnknownEnum
  else
    let expected_rank := if at_ p 0 =? 2 then 10 else if at_ p 0 =? 3 then 20 else 30 in
    let expected_codec := if at_ p 0 =? 4 then 1 else 2 in
    if negb (at_ p 6 =? expected_rank) || negb (at_ p 3 =? expected_codec) ||
       ((at_ p 4 =? 3) && (negb (platform =? 3) || negb (at_ p 0 =? 3) || negb (at_ p 3 =? 2))) ||
       zeros p 8 4 || zeros p 12 32
    then InvalidField
    else Ok.

(** The first field in which two plans differ decides, then the bytes of the
    certification and what follows it. *)
Definition preference_fields : list Z := [6; 5; 0; 1; 2; 3; 4].

Fixpoint preferred_loop (fields : list Z) (candidate current : bytes) : bool :=
  match fields with
  | [] => memcmp (slice candidate 8 36) (slice current 8 36) <? 0
  | offset :: rest =>
    if negb (at_ candidate offset =? at_ current offset) then at_ candidate offset <? at_ current offset
    else preferred_loop rest candidate current
  end.

Definition preferred (candidate current : bytes) : bool := preferred_loop preference_fields candidate current.

Definition validate_bearer_plan_v1 (plan : bytes) (platform : Z) : Status :=
  if (1 <=? platform) && (platform <=? 3) then validate_plan plan platform else UnknownEnum.

Definition selected_bearer_plan_hash_v1 (plan : bytes) : bytes :=
  sha256 (ascii_bytes "flynes-selected-bearer-plan-v1" ++ [0; 0; 0; 48] ++ plan).

Definition plan_at (summary : bytes) (i : Z) : bytes := slice summary (kPlansOffset + i * kPlanSize) kPlanSize.

(** The loop over the plans: each valid, in strictly ascending byte order. *)
Fixpoint check_plans (summary : bytes) (indices : list Z) : Status :=
  match indices with
  | [] => Ok
  | i :: rest =>
    let status := validate_plan (plan_at summary i) (at_ summary 8) in
    if decide (status <> Ok) then status
    else if negb (i =? 0) && (0 <=? memcmp (plan_at summary (i - 1)) (plan_at summary i)) then InvalidField
    else check_plans summary rest
  end.

Definition validate_pair_capability (data : option bytes) : Status :=
  match data with
  | None => InvalidField
  | Some b =>
    if zlen b <? kSummarySize then Truncated
    else if kSummarySize <? zlen b then Trailing
    else if negb (at_ b 0 =? 0) || negb (at_ b 1 =? 1) then InvalidField
    else if negb (zeros b 2 6) || negb (zeros b 10 2) || negb (zeros b 16 16) || negb (zeros b 480 32)
    then NonzeroReserved
    else if (at_ b 8 <? 1) || (3 <? at_ b 8) then UnknownEnum
    else
      let count := at_ b 9 in
      if (kMaxPlans <? count) || zeros b 32 32 || zeros b 64 32 then InvalidField
      else
        let status := check_plans b (seqZ 0 count) in
        if decide (status <> Ok) then status
        else if negb (zeros b (kPlansOffset + count * kPlanSize) ((kMaxPlans - count) * kPlanSize))
        then NonzeroReserved
        else Ok
  end.

Inductive PairSelectionStatus := SelectionOk | InvalidInitiator | InvalidResponder | NoCommonPlan.

#[global] Instance selection_eq_dec : EqDecision PairSelectionStatus.
Proof. solve_decision. Defined.

(** The inner loop, over the responder's plans. *)
Definition consider (candidate : bytes) (best : option bytes) (remote : bytes) : option bytes :=
  if (memcmp candidate remote =? 0) && match best with None => true | Some b => preferred candidate b end
  then Some candidate else best.

Definition plans (summary : bytes) : list bytes := plan_at summary <$> seqZ 0 (at_ summary 9).

Definition best_plan (initiator responder : bytes) : option bytes :=
  fold_left (fun best candidate => fold_left (consider candidate) (plans responder) best) (plans initiator) None.

(** The status, and the selected plan. *)
Definition select_pair_plan (initiator responder : option bytes) : PairSelectionStatus * bytes :=
  let cleared := replicate 48 0 in
  let initiator_status := validate_pair_capability initiator in
  let responder_status := validate_pair_capability responder in
  if bool_decide (initiator_status <> Ok) || bool_decide (responder_status <> Ok) then
    (if decide (initiator_status <> Ok) then InvalidInitiator else InvalidResponder, cleared)
  else
    match best_plan (default [] initiator) (default [] responder) with
    | None => (NoCommonPlan, cleared)
    | Some best => (SelectionOk, best)
    end.

(** ** The byte order *)

Lemma memcmp_swap a b : length a = length b -> memcmp b a = - memcmp a b.
Proof.
  revert b. induction a as [|x a IH]; intros [|y b] Hl; try done. cbn [memcmp].
  destruct (Z.ltb_spec x y), (Z.ltb_spec y x); (lia || (apply IH; cbn in Hl; lia)).
Qed.

Lemma memcmp_eq a b : length a = length b -> memcmp a b = 0 <-> a = b.
Proof.
  revert b. induction a as [|x a IH]; intros [|y b] Hl; try done. cbn [memcmp].
  destruct (Z.ltb_spec x y), (Z.ltb_spec y x); try (split; [discriminate | intros [= -> ->]; lia]).
  assert (x = y) as -> by lia. rewrite IH by (cbn in Hl; lia). split; [by intros -> | by intros [= ->]].
Qed.

Lemma memcmp_trans a b c :
  length a = length b -> length b = length c -> memcmp a b < 0 -> memcmp b c < 0 -> memcmp a c < 0.
Proof.
  revert b c. induction a as [|x a IH]; intros [|y b] [|z c] L1 L2; try done. cbn [memcmp].
  destruct (Z.ltb_spec x y), (Z.ltb_spec y x), (Z.ltb_spec y z), (Z.ltb_spec z y), (Z.ltb_spec x z),
    (Z.ltb_spec z x); try lia. apply IH; cbn in *; lia.
Qed.

(** What the preference compares, in its order. *)
Definition plan_key (fields : list Z) (p : bytes) : bytes := (at_ p <$> fields) ++ slice p 8 36.

Lemma preferred_key fields c d :
  preferred_loop fields c d = (memcmp (plan_key fields c) (plan_key fields d) <? 0).
Proof.
  induction fields as [|off fields IH]; [done |]. unfold plan_key in *. cbn [preferred_loop]. rewrite !fmap_cons.
  cbn [app memcmp]. rewrite IH.
  destruct (Z.eqb_spec (at_ c off) (at_ d off)) as [->|N]; cbn [negb]; [by rewrite Z.ltb_irrefl |].
  destruct (Z.ltb_spec (at_ c off) (at_ d off)), (Z.ltb_spec (at_ d off) (at_ c off)); (done || lia).
Qed.

(** ** Valid plans *)

Definition plan_wf (p : bytes) : Prop := zlen p = 48 /\ at_ p 7 = 0 /\ slice p 44 4 = replicate 4 0.

Lemma length_plan_key p : plan_wf p -> length (plan_key preference_fields p) = 43%nat.
Proof.
  intros (L & _). pose proof (zlen_slice p 8 36 ltac:(lia) ltac:(lia) ltac:(lia)) as Hs. unfold zlen in Hs.
  unfold plan_key. rewrite length_app, length_fmap. cbn [length preference_fields]. lia.
Qed.

Lemma plan_key_inj p q :
  plan_wf p -> plan_wf q -> plan_key preference_fields p = plan_key preference_fields q -> p = q.
Proof.
  intros (Lp & Zp & Tp) (Lq & Zq & Tq) H. unfold plan_key in H. apply app_eq_length in H as [Hh Hs]; [| done].
  injection Hh as H6 H5 H0 H1 H2 H3 H4.
  assert (forall l, zlen l = 48 -> l = [at_ l 0; at_ l 1; at_ l 2; at_ l 3; at_ l 4; at_ l 5; at_ l 6; at_ l 7] ++
            slice l 8 36 ++ slice l 44 4) as Hcut.
  { intros l Hl. rewrite <- (slice_all l) at 1. rewrite Hl, (slice_split l 0 8 48) by lia.
    rewrite (slice_split l (0 + 8) 36 (48 - 8)) by lia. f_equal.
    rewrite !slice_cons_at by lia. change (8 - 1 - 1 - 1 - 1 - 1 - 1 - 1 - 1) with 0. by rewrite slice_zero. }
  rewrite (Hcut p Lp), (Hcut q Lq). congruence.
Qed.

Lemma preferred_irrefl p : preferred p p = false.
Proof. unfold preferred. rewrite preferred_key. by rewrite (proj2 (memcmp_eq _ _ eq_refl) eq_refl). Qed.

Lemma preferred_trans p q r :
  plan_wf p -> plan_wf q -> plan_wf r -> preferred p q = true -> preferred q r = true -> preferred p r = true.
Proof.
  intros Hp Hq Hr. unfold preferred. rewrite !preferred_key, !Z.ltb_lt.
  apply memcmp_trans; by rewrite !length_plan_key.
Qed.

Lemma preferred_total p q : plan_wf p -> plan_wf q -> p = q \/ preferred p q = true \/ preferred q p = true.
Proof.
  intros Hp Hq. unfold preferred. rewrite !preferred_key, !Z.ltb_lt.
  rewrite (memcmp_swap (plan_key _ p)) by (by rewrite !length_plan_key).
  destruct (Z.eq_dec (memcmp (plan_key preference_fields p) (plan_key preference_fields q)) 0) as [E|N]; [left | lia].
  apply plan_key_inj; try done. apply memcmp_eq; [by rewrite !length_plan_key | done].
Qed.

Lemma validate_plan_wf p platform : zlen p = 48 -> validate_plan p platform = Ok -> plan_wf p.
Proof.
  intros L. unfold validate_plan. destruct (_ || negb (zeros p 44 4)) eqn:G; [done |]. intros _. bool_hyps.
  split_and!; try done. apply (zeros_spec p 44 4); (lia || done).
Qed.

Lemma check_plans_all summary indices :
  check_plans summary indices = Ok -> Forall (fun i => validate_plan (plan_at summary i) (at_ summary 8) = Ok) indices.
Proof.
  induction indices as [|i rest IH]; [constructor |]. cbn [check_plans].
  destruct (decide _) as [N|E]; [congruence |]. apply dec_stable in E.
  destruct (_ && _); [done |]. intros H. constructor; auto.
Qed.

Lemma plans_valid data :
  validate_pair_capability data = Ok ->
  exists b, data = Some b /\ zlen b = 512 /\
    Forall (fun p => zlen p = 48 /\ validate_plan p (at_ b 8) = Ok) (plans b).
Proof.
  destruct data as [b|]; [| done]. unfold validate_pair_capability, kSummarySize, kMaxPlans.
  do 3 (split_guard; [discriminate |]). split_guard; [discriminate |]. split_guard; [discriminate |]. cbv zeta.
  split_guard; [discriminate |]. destruct (decide _) as [N|E]; [congruence |]. apply dec_stable in E. intros _.
  exists b. split_and!; [done | lia |]. apply Forall_fmap, Forall_forall. intros i Hi.
  apply check_plans_all in E. rewrite Forall_forall in E. specialize (E i Hi). apply elem_of_seqZ in Hi.
  split; [| exact E]. unfold plan_at, kPlansOffset, kPlanSize. apply zlen_slice; lia.
Qed.

Lemma valid_plans data :
  validate_pair_capability data = Ok -> exists b, data = Some b /\ zlen b = 512 /\ Forall plan_wf (plans b).
Proof.
  intros (b & -> & L & H)%plans_valid. exists b. split_and!; [done | done |].
  eapply Forall_impl; [exact H |]. intros p [Lp Hp]. by eapply validate_plan_wf.
Qed.

(** ** The selection *)

Lemma consider_all candidate remotes best :
  plan_wf candidate -> Forall plan_wf remotes ->
  fold_left (consider candidate) remotes best =
  if decide (candidate ∈ remotes) then consider candidate best candidate else best.
Proof.
  intros Hc. revert best. induction remotes as [|r remotes IH]; intros best Hr; [done |].
  inversion_clear Hr as [|? ? Hr0 Hrs]. cbn [fold_left]. rewrite IH by done.
  assert (memcmp candidate candidate = 0) as E0 by (by apply memcmp_eq).
  destruct (decide (candidate = r)) as [->|N].
  - rewrite (decide_True (P := r ∈ r :: remotes)) by set_solver. destruct (decide (r ∈ remotes)); [| done].
    unfold consider at 1. rewrite E0. cbn [Z.eqb andb]. unfold consider. rewrite E0. cbn [Z.eqb andb].
    destruct best as [b|]; [destruct (preferred r b) eqn:Eb | ]; rewrite ?preferred_irrefl, ?Eb; done.
  - assert (consider candidate best r = best) as ->.
    { unfold consider. destruct (Z.eqb_spec (memcmp candidate r) 0) as [E|]; [| done].
      apply memcmp_eq in E; [done |]. destruct Hc as (L1 & _), Hr0 as (L2 & _). unfold zlen in *. lia. }
    destruct (decide (candidate ∈ remotes)); [rewrite decide_True by set_solver | rewrite decide_False by set_solver]; done.
Qed.

(** The best of the first plans that the responder has too. *)
Definition best_of (seen remotes : list bytes) (best : option bytes) : Prop :=
  match best with
  | None => forall q, q ∈ seen -> q ∉ remotes
  | Some p => p ∈ seen /\ p ∈ remotes /\ forall q, q ∈ seen -> q ∈ remotes -> q = p \/ preferred p q = true
  end.

Lemma consider_best candidate seen remotes best :
  plan_wf candidate -> Forall plan_wf seen -> Forall plan_wf remotes -> best_of seen remotes best ->
  best_of (seen ++ [candidate]) remotes (fold_left (consider candidate) remotes best).
Proof.
  intros Hc Hs Hr Hb. rewrite consider_all by done. rewrite Forall_forall in Hs, Hr.
  destruct (decide (candidate ∈ remotes)) as [Hin|Hout].
  2:{ destruct best as [p|]; cbn [best_of] in *; set_solver. }
  unfold consider. assert (memcmp candidate candidate = 0) as -> by (by apply memcmp_eq). cbn [Z.eqb andb].
  destruct best as [p|]; cbn [best_of] in *.
  - destruct Hb as (Hp & Hpr & Hbest). destruct (preferred candidate p) eqn:E; cbn [best_of].
    + split_and!; [set_solver | done |]. intros q Hq Hqr. apply elem_of_app in Hq as [Hq|Hq]; [| set_solver].
      right. destruct (Hbest q Hq Hqr) as [->|Hpq]; [done |]. apply (preferred_trans _ p); auto.
    + split_and!; [set_solver | done |]. intros q Hq Hqr. apply elem_of_app in Hq as [Hq|Hq]; [by auto |].
      assert (q = candidate) as -> by set_solver.
      destruct (preferred_total candidate p Hc (Hs p Hp)) as [->|[|]]; [by left | congruence | by right].
  - split_and!; [set_solver | done |]. intros q Hq Hqr. apply elem_of_app in Hq as [Hq|Hq]; [| set_solver].
    by destruct (Hb q Hq).
Qed.

Lemma best_plan_spec initiator responder :
  Forall plan_wf (plans initiator) -> Forall plan_wf (plans responder) ->
  best_of (plans initiator) (plans responder) (best_plan initiator responder).
Proof.
  intros Hi Hr. unfold best_plan. generalize dependent (plans initiator). intros l Hl.
  induction l as [|c l IH] using rev_ind; [cbn; set_solver |].
  apply Forall_app in Hl as [Hl Hc]. inversion_clear Hc as [|? ? Hc' _].
  rewrite fold_left_app. cbn [fold_left]. by apply consider_best; auto.
Qed.

Lemma best_of_unique seen remotes p q :
  Forall plan_wf seen -> best_of seen remotes (Some p) -> best_of seen remotes (Some q) -> p = q.
Proof.
  intros Hw (Ip & Rp & Bp) (Iq & Rq & Bq). rewrite Forall_forall in Hw.
  destruct (Bp q Iq Rq) as [|Hpq]; [done |]. destruct (Bq p Ip Rp) as [|Hqp]; [done |].
  pose proof (preferred_trans p q p (Hw p Ip) (Hw q Iq) (Hw p Ip) Hpq Hqp) as H. by rewrite preferred_irrefl in H.
Qed.

Lemma select_some initiator responder bi br :
  initiator = Some bi -> responder = Some br -> validate_pair_capability initiator = Ok ->
  validate_pair_capability responder = Ok ->
  select_pair_plan initiator responder =
  match best_plan bi br with None => (NoCommonPlan, replicate 48 0) | Some best => (SelectionOk, best) end.
Proof. intros -> -> H1 H2. unfold select_pair_plan. by rewrite H1, H2, bool_decide_false by (intros N; by apply N). Qed.

(** Both inputs valid, the search decides. *)
Lemma select_cases x y :
  validate_pair_capability x = Ok -> validate_pair_capability y = Ok ->
  exists bi br, x = Some bi /\ y = Some br /\ Forall plan_wf (plans bi) /\
    best_of (plans bi) (plans br) (best_plan bi br) /\
    select_pair_plan x y =
      match best_plan bi br with None => (NoCommonPlan, replicate 48 0) | Some best => (SelectionOk, best) end.
Proof.
  intros Ex Ey. destruct (valid_plans x Ex) as (bi & Hx & _ & Hi), (valid_plans y Ey) as (br & Hy & _ & Hr).
  exists bi, br. split_and!; try done; [by apply best_plan_spec | by apply select_some].
Qed.

Lemma select_invalid x y :
  ~ (validate_pair_capability x = Ok /\ validate_pair_capability y = Ok) ->
  (select_pair_plan x y).1 = InvalidInitiator \/ (select_pair_plan x y).1 = InvalidResponder.
Proof.
  intros N. unfold select_pair_plan.
  assert (bool_decide (validate_pair_capability x <> Ok) || bool_decide (validate_pair_capability y <> Ok) = true) as ->.
  { apply orb_true_iff. rewrite !bool_decide_eq_true.
    destruct (decide (validate_pair_capability x = Ok)); [right | by left]. tauto. }
  cbn [fst]. destruct (decide _); auto.
Qed.

Lemma select_best_of x y p :
  select_pair_plan x y = (SelectionOk, p) <->
  exists bi br, x = Some bi /\ y = Some br /\ validate_pair_capability x = Ok /\ validate_pair_capability y = Ok /\
    best_of (plans bi) (plans br) (Some p).
Proof.
  split.
  - intros H. destruct (decide (validate_pair_capability x = Ok /\ validate_pair_capability y = Ok)) as [[Ex Ey]|N].
    2:{ apply select_invalid in N. rewrite H in N. by destruct N. }
    destruct (select_cases x y Ex Ey) as (bi & br & Hx & Hy & _ & Hb & E). rewrite E in H.
    destruct (best_plan bi br); [| discriminate]. injection H as ->. by exists bi, br.
  - intros (bi & br & Hx & Hy & Ex & Ey & Hp).
    destruct (select_cases x y Ex Ey) as (bi' & br' & Hx' & Hy' & Hw & Hb & ->). simplify_eq.
    destruct (best_plan _ _) as [q|]; [by rewrite (best_of_unique _ _ p q Hw Hp Hb) |].
    destruct Hp as (Hp1 & Hp2 & _). by destruct (Hb p Hp1).
Qed.

(** The creator and the prompting side a selected plan names. *)
Lemma selected_roles x y p :
  select_pair_plan x y = (SelectionOk, p) -> (at_ p 1 = 1 \/ at_ p 1 = 2) /\ at_ p 5 <= 2.
Proof.
  intros (bi & br & -> & _ & Ex & _ & Hp & _)%select_best_of. apply plans_valid in Ex as (b & [= <-] & _ & H).
  rewrite Forall_forall in H. destruct (H p Hp) as [_ Hv]. clear H. revert Hv. unfold validate_plan.
  split_guard; [discriminate |]. split_guard; [discriminate |]. intros _. lia.
Qed.

(** The selected plan is the best common one: a plan is selected exactly when both
    summaries are valid, both state it, and every other plan they share ranks behind
    it; the answer does not depend on whose summary comes first, and "no common plan"
    means the two valid summaries share none. *)
Theorem selected_plan_is_best (initiator responder : option bytes) (plan : bytes) :
  (select_pair_plan initiator responder = (SelectionOk, plan) <->
   exists bi br, initiator = Some bi /\ responder = Some br /\
     validate_pair_capability initiator = Ok /\ validate_pair_capability responder = Ok /\
     plan ∈ plans bi /\ plan ∈ plans br /\
     forall q, q ∈ plans bi -> q ∈ plans br -> q = plan \/ preferred plan q = true) /\
  (select_pair_plan initiator responder = (SelectionOk, plan) <->
   select_pair_plan responder initiator = (SelectionOk, plan)) /\
  ((select_pair_plan initiator responder).1 = NoCommonPlan <->
   exists bi br, initiator = Some bi /\ responder = Some br /\
     validate_pair_capability initiator = Ok /\ validate_pair_capability responder = Ok /\
     forall q, q ∈ plans bi -> q ∉ plans br).
Proof.
  split; [| split].
  - rewrite select_best_of. cbn [best_of]. naive_solver.
  - rewrite !select_best_of. cbn [best_of]. split; intros (bi & br & ? & ? & ? & ? & ? & ? & ?); exists br, bi; auto 10.
  - split.
    + intros H. destruct (decide (validate_pair_capability initiator = Ok /\ validate_pair_capability responder = Ok))
        as [[Ex Ey]|N].
      2:{ apply select_invalid in N. rewrite H in N. by destruct N. }
      destruct (select_cases _ _ Ex Ey) as (bi & br & Hx & Hy & _ & Hb & E). rewrite E in H.
      destruct (best_plan bi br); [discriminate |]. by exists bi, br.
    + intros (bi & br & Hx & Hy & Ex & Ey & Hnone).
      destruct (select_cases _ _ Ex Ey) as (bi' & br' & Hx' & Hy' & _ & Hb & ->). simplify_eq.
      destruct (best_plan _ _) as [q|]; [| done]. destruct Hb as (Hq1 & Hq2 & _). by destruct (Hnone q).
Qed.

(** A summary with two plans, on the code's own bytes. *)
Definition demo_plan (kind rank codec cert : Z) : bytes :=
  [kind; 1; 1; codec; 1; 0; rank; 0] ++ [0; 0; 0; cert] ++ replicate 32 7 ++ replicate 4 0.

Definition demo_summary (listed : list bytes) : bytes :=
  [0; 1] ++ replicate 6 0 ++ [1; zlen listed; 0; 0] ++ replicate 4 9 ++ replicate 16 0 ++
  replicate 32 1 ++ replicate 32 2 ++ mjoin listed ++
  replicate (Z.to_nat ((8 - zlen listed) * 48)) 0 ++ replicate 32 0.

Example selection_demo :
  let fast := demo_plan 2 10 2 5 in
  let slow := demo_plan 4 30 1 5 in
  select_pair_plan (Some (demo_summary [fast; slow])) (Some (demo_summary [fast; slow])) = (SelectionOk, fast) /\
  (select_pair_plan (Some (demo_summary [fast])) (Some (demo_summary [slow]))).1 = NoCommonPlan.
Proof. vm_compute. done. Qed.
