(* ===== verification/PairAuth.v ===== *)
(** * Authenticated pairing ([shared/src/session/pair_auth_reducer.{hpp,cpp}], the
    evidence of [shared/src/session/initial_plan_lock.{hpp,cpp}])

    The reducer turns the receipts of the cryptography provider, the player's own
    approval and the two revealed capability summaries into one sealed piece of
    evidence: that this pairing is authentic. *)

From S2P Require Import Prelude Sha256 SessionCodec PairHandshake PairCapability.

(** ** Data *)

(** [nonzero] and [all_zero] over an array of any size. *)
Definition any_nonzero (h : bytes) : bool := existsb (fun b => negb (b =? 0)) h.

Definition role_bit (role : Z) : Z := if role =? Initiator then 1 else 2.
Definition valid_role (role : Z) : bool := (role =? Initiator) || (role =? Responder).

Definition FLY_SESSION_PAIR_SIGNATURE_VERIFIED_V2 : Z := 101.
Definition FLY_SESSION_PAIR_KEY_CONFIRM_VERIFIED_V2 : Z := 102.

Definition FLY_SESSION_APPROVAL_BLE_SAS_MATCH_V2 : Z := 1.
Definition FLY_SESSION_APPROVAL_QR_SCANNER_JOIN_V2 : Z := 2.
Definition FLY_SESSION_APPROVAL_QR_INVITER_ACCEPT_V2 : Z := 3.
Definition FLY_SESSION_APPROVAL_KNOWN_FRIEND_INVITE_V2 : Z := 4.
Definition FLY_SESSION_APPROVAL_KNOWN_FRIEND_ACCEPT_V2 : Z := 5.

Record VerifiedPairEvidence := mkEvidence {
  local_role : Z;
  generation : Z;
  transcript : bytes;
  initiator_reveal : bytes;
  responder_reveal : bytes;
  initiator_capability : bytes;
  responder_capability : bytes;
  initiator_summary : bytes;
  responder_summary : bytes;
  authentication_seal_ : bytes;
}.

#[global] Instance eta_evidence : Eta VerifiedPairEvidence := fun r =>
  mkEvidence (local_role r) (generation r) (transcript r) (initiator_reveal r) (responder_reveal r)
    (initiator_capability r) (responder_capability r) (initiator_summary r) (responder_summary r)
    (authentication_seal_ r).

Definition evidence0 : VerifiedPairEvidence :=
  mkEvidence 0 0 (zero_bytes 32) (zero_bytes 32) (zero_bytes 32) (zero_bytes 32) (zero_bytes 32)
    (zero_bytes 512) (zero_bytes 512) (zero_bytes 32).

Definition evidence_bytes (e : VerifiedPairEvidence) : bytes :=
  [u8 (local_role e)] ++ be_bytes 8 (generation e) ++ transcript e ++ initiator_reveal e ++ responder_reveal e ++
  initiator_capability e ++ responder_capability e ++ initiator_summary e ++ responder_summary e.

Definition evidence_seal (e : VerifiedPairEvidence) : bytes :=
  sha256 (ascii_bytes "flynes-verified-pair-evidence-v2" ++ evidence_bytes e).

Definition seal_for_authenticated_pipeline (e : VerifiedPairEvidence) : VerifiedPairEvidence :=
  e <| authentication_seal_ := evidence_seal e |>.

Definition authenticated (e : VerifiedPairEvidence) : bool :=
  any_nonzero (authentication_seal_ e) && bool_decide (authentication_seal_ e = evidence_seal e).

Record PairAuthStartV1 := mkAuthStart {
  start_generation : Z;
  start_engine_instance_id : bytes;
  start_link_id : bytes;
  start_signature_operation_ids : Z * Z;
  start_key_confirm_operation_ids : Z * Z;
  start_local_role : Z;
  start_entry_mode : Z;
  start_known_path : bool;
  start_entry_context_hash : bytes;
  start_pair_context_hash : bytes;
  start_initiator_commit : PairCommitV1;
  start_responder_commit : PairCommitV1;
  start_initiator_contribution : PairContributionV1;
  start_responder_contribution : PairContributionV1;
  start_initiator_reveal : bytes;
  start_responder_reveal : bytes;
}.

Record PairAuthenticationReducer := mkAuth {
  begun_ : bool;
  failed_ : bool;
  consumed_ : bool;
  generation_ : Z;
  engine_instance_id_ : bytes;
  link_id_ : bytes;
  signature_operation_ids_ : Z * Z;
  key_confirm_operation_ids_ : Z * Z;
  local_role_ : Z;
  entry_mode_ : Z;
  known_path_ : bool;
  approval_kind_ : Z;
  transcript_hash_ : bytes;
  initiator_reveal_ : bytes;
  responder_reveal_ : bytes;
  initiator_capability_ : bytes;
  responder_capability_ : bytes;
  expected_initiator_summary_hash_ : bytes;
  expected_responder_summary_hash_ : bytes;
  initiator_summary_ : bytes;
  responder_summary_ : bytes;
  operation_ids_ : list Z;
  operation_count_ : Z;
  signature_mask_ : Z;
  key_confirm_mask_ : Z;
  capability_mask_ : Z;
}.

#[global] Instance eta_auth : Eta PairAuthenticationReducer := fun r =>
  mkAuth (begun_ r) (failed_ r) (consumed_ r) (generation_ r) (engine_instance_id_ r) (link_id_ r)
    (signature_operation_ids_ r) (key_confirm_operation_ids_ r) (local_role_ r) (entry_mode_ r) (known_path_ r)
    (approval_kind_ r) (transcript_hash_ r) (initiator_reveal_ r) (responder_reveal_ r) (initiator_capability_ r)
    (responder_capability_ r) (expected_initiator_summary_hash_ r) (expected_responder_summary_hash_ r)
    (initiator_summary_ r) (responder_summary_ r) (operation_ids_ r) (operation_count_ r) (signature_mask_ r)
    (key_confirm_mask_ r) (capability_mask_ r).

Definition auth_new : PairAuthenticationReducer :=
  mkAuth false false false 0 (zero_bytes 16) (zero_bytes 16) (0, 0) (0, 0) 0 0 false 0 (zero_bytes 32)
    (zero_bytes 32) (zero_bytes 32) (zero_bytes 32) (zero_bytes 32) (zero_bytes 32) (zero_bytes 32)
    (zero_bytes 512) (zero_bytes 512) [0; 0; 0; 0] 0 0 0 0.

(** ** Operations *)

Section Reducer.
Implicit Types r : PairAuthenticationReducer.

Definition auth_reject r : bool * PairAuthenticationReducer := (false, r <| failed_ := true |>).

(** The two nested loops over the four operation numbers. *)
Fixpoint distinct_nonzero (prior operations : list Z) : bool :=
  match operations with
  | [] => true
  | op :: rest =>
    negb (op =? 0) && negb (existsb (fun p => op =? p) prior) && distinct_nonzero (prior ++ [op]) rest
  end.

Definition distinct_nonzero_operations (start : PairAuthStartV1) : bool :=
  let '(s0, s1) := start_signature_operation_ids start in
  let '(k0, k1) := start_key_confirm_operation_ids start in
  distinct_nonzero [] [s0; s1; k0; k1].

(** The transcript the two sides sign, from the parts of a start. *)
Definition start_transcript (start : PairAuthStartV1) : Status * option (bytes * bytes) :=
  build_pair_transcript_preimage_v1 (start_entry_mode start) (start_entry_context_hash start)
    (committed (start_initiator_commit start)) (committed (start_responder_commit start))
    (start_initiator_contribution start) (start_responder_contribution start)
    (Some (zero_bytes 752, zero_bytes 32)).

Definition begin_refused (start : PairAuthStartV1) r : bool :=
  begun_ r || failed_ r || (start_generation start =? 0) || negb (valid_role (start_local_role start)) ||
  negb (any_nonzero (start_engine_instance_id start)) || negb (any_nonzero (start_link_id start)) ||
  negb (distinct_nonzero_operations start) ||
  (negb (start_entry_mode start =? 1) && negb (start_entry_mode start =? 2)) ||
  negb (any_nonzero (start_pair_context_hash start)) ||
  negb (sender (start_initiator_commit start) =? Initiator) ||
  negb (receiver (start_initiator_commit start) =? Responder) ||
  negb (sender (start_responder_commit start) =? Responder) ||
  negb (receiver (start_responder_commit start) =? Initiator) ||
  negb (role (start_initiator_contribution start) =? Initiator) ||
  negb (role (start_responder_contribution start) =? Responder) ||
  negb (bool_decide (pair_context_hash (start_initiator_commit start) = start_pair_context_hash start)) ||
  negb (bool_decide (pair_context_hash (start_responder_commit start) = start_pair_context_hash start)) ||
  negb (bool_decide (bind_reveal_to_commit_v1 (start_initiator_commit start)
                       (start_initiator_contribution start) = Ok)) ||
  negb (bool_decide (bind_reveal_to_commit_v1 (start_responder_commit start)
                       (start_responder_contribution start) = Ok)) ||
  negb (any_nonzero (start_initiator_reveal start)) || negb (any_nonzero (start_responder_reveal start)) ||
  bool_decide (start_initiator_reveal start = start_responder_reveal start).

Definition begin (start : PairAuthStartV1) r : bool * PairAuthenticationReducer :=
  if begin_refused start r then auth_reject r
  else
    match start_transcript start with
    | (Ok, Some (_, hash)) =>
      (true,
       r <| begun_ := true |> <| generation_ := start_generation start |>
         <| engine_instance_id_ := start_engine_instance_id start |> <| link_id_ := start_link_id start |>
         <| signature_operation_ids_ := start_signature_operation_ids start |>
         <| key_confirm_operation_ids_ := start_key_confirm_operation_ids start |>
         <| local_role_ := start_local_role start |> <| entry_mode_ := start_entry_mode start |>
         <| known_path_ := start_known_path start |> <| transcript_hash_ := hash |>
         <| initiator_reveal_ := start_initiator_reveal start |>
         <| responder_reveal_ := start_responder_reveal start |>
         <| expected_initiator_summary_hash_ := capability_summary_hash (start_initiator_contribution start) |>
         <| expected_responder_summary_hash_ := capability_summary_hash (start_responder_contribution start) |>)
    | _ => auth_reject r
    end.

Definition seen_operation (operation_id : Z) r : bool :=
  existsb (fun op => op =? operation_id) (take (Z.to_nat (operation_count_ r)) (operation_ids_ r)).

(** [operation_ids[role_index]]. *)
Definition operation_of (role : Z) (ids : Z * Z) : Z := if role =? Initiator then ids.1 else ids.2.

Definition note_operation (operation_id : Z) r : PairAuthenticationReducer :=
  r <| operation_ids_ := aset (operation_ids_ r) (operation_count_ r) operation_id |>
    <| operation_count_ := operation_count_ r + 1 |>.

Definition accept_provider_verification (operation_id payload_kind role : Z) r
    : bool * PairAuthenticationReducer :=
  if negb (begun_ r) || failed_ r || consumed_ r || (4 <=? operation_count_ r) ||
     seen_operation operation_id r || negb (valid_role role)
  then auth_reject r
  else if payload_kind =? FLY_SESSION_PAIR_SIGNATURE_VERIFIED_V2 then
    let expected := if signature_mask_ r =? 0 then Initiator else Responder in
    if (signature_mask_ r =? 3) || negb (role =? expected) ||
       negb (operation_id =? operation_of role (signature_operation_ids_ r))
    then auth_reject r
    else (true, note_operation operation_id
                  (r <| signature_mask_ := u8 (Z.lor (signature_mask_ r) (role_bit role)) |>))
  else if payload_kind =? FLY_SESSION_PAIR_KEY_CONFIRM_VERIFIED_V2 then
    if negb (signature_mask_ r =? 3) || (approval_kind_ r =? 0) || (key_confirm_mask_ r =? 3) ||
       negb (Z.land (key_confirm_mask_ r) (role_bit role) =? 0) ||
       negb (operation_id =? operation_of role (key_confirm_operation_ids_ r))
    then auth_reject r
    else (true, note_operation operation_id
                  (r <| key_confirm_mask_ := u8 (Z.lor (key_confirm_mask_ r) (role_bit role)) |>))
  else auth_reject r.

(** The approval due, by the way the pairing was entered and the player's side. *)
Definition expected_approval r : Z :=
  if entry_mode_ r =? 2 then
    if local_role_ r =? Initiator then FLY_SESSION_APPROVAL_QR_INVITER_ACCEPT_V2
    else FLY_SESSION_APPROVAL_QR_SCANNER_JOIN_V2
  else if known_path_ r then
    if local_role_ r =? Initiator then FLY_SESSION_APPROVAL_KNOWN_FRIEND_INVITE_V2
    else FLY_SESSION_APPROVAL_KNOWN_FRIEND_ACCEPT_V2
  else FLY_SESSION_APPROVAL_BLE_SAS_MATCH_V2.

Definition approve_local (approval_kind : Z) r : bool * PairAuthenticationReducer :=
  if negb (begun_ r) || failed_ r || consumed_ r || negb (signature_mask_ r =? 3) || negb (approval_kind_ r =? 0)
  then auth_reject r
  else if negb (approval_kind =? expected_approval r) then auth_reject r
  else (true, r <| approval_kind_ := approval_kind |>).

Definition accept_capability_reveal (sender : Z) (summary logical_hash : bytes) r
    : bool * PairAuthenticationReducer :=
  if negb (begun_ r) || failed_ r || consumed_ r || negb (key_confirm_mask_ r =? 3) ||
     negb (valid_role sender) || negb (any_nonzero logical_hash) ||
     negb (Z.land (capability_mask_ r) (role_bit sender) =? 0) ||
     ((capability_mask_ r =? 0) && negb (sender =? Initiator)) ||
     negb (bool_decide (validate_pair_capability (Some summary) = Ok))
  then auth_reject r
  else
    let summary_hash := domain_hash "flynes-pair-capability-summary-v1" summary in
    let expected_hash := if sender =? Initiator then expected_initiator_summary_hash_ r
                         else expected_responder_summary_hash_ r in
    if negb (bool_decide (summary_hash = expected_hash)) then auth_reject r
    else
      let r := if sender =? Initiator
               then r <| initiator_summary_ := summary |> <| initiator_capability_ := logical_hash |>
               else r <| responder_summary_ := summary |> <| responder_capability_ := logical_hash |> in
      (true, r <| capability_mask_ := u8 (Z.lor (capability_mask_ r) (role_bit sender)) |>).

(** The evidence is the value an empty one gets field by field, then sealed. *)
Definition take_verified_evidence r : option VerifiedPairEvidence * PairAuthenticationReducer :=
  if negb (begun_ r) || failed_ r || consumed_ r || negb (signature_mask_ r =? 3) ||
     negb (key_confirm_mask_ r =? 3) || negb (capability_mask_ r =? 3) || (approval_kind_ r =? 0)
  then (None, r)
  else
    let evidence :=
      evidence0 <| local_role := local_role_ r |> <| generation := generation_ r |>
        <| transcript := transcript_hash_ r |> <| initiator_reveal := initiator_reveal_ r |>
        <| responder_reveal := responder_reveal_ r |> <| initiator_capability := initiator_capability_ r |>
        <| responder_capability := responder_capability_ r |> <| initiator_summary := initiator_summary_ r |>
        <| responder_summary := responder_summary_ r |> in
    (Some (seal_for_authenticated_pipeline evidence), r <| consumed_ := true |>).

End Reducer.

(** ** Histories *)

Inductive AuthCall :=
  | AuthBegin (start : PairAuthStartV1)
  | AuthVerified (operation_id payload_kind role : Z)
  | AuthApproved (approval_kind : Z)
  | AuthRevealed (sender : Z) (summary logical_hash : bytes)
  | AuthTake.

(** A reducer, and the evidence it has handed out. *)
Definition auth_step (x : PairAuthenticationReducer * list VerifiedPairEvidence) (call : AuthCall)
    : PairAuthenticationReducer * list VerifiedPairEvidence :=
  let '(r, out) := x in
  match call with
  | AuthBegin start => ((begin start r).2, out)
  | AuthVerified op kind role => ((accept_provider_verification op kind role r).2, out)
  | AuthApproved kind => ((approve_local kind r).2, out)
  | AuthRevealed sender summary hash => ((accept_capability_reveal sender summary hash r).2, out)
  | AuthTake => let '(e, r) := take_verified_evidence r in (r, out ++ option_list e)
  end.

Definition run_auth (calls : list AuthCall) : PairAuthenticationReducer * list VerifiedPairEvidence :=
  fold_left auth_step calls (auth_new, []).

Definition is_take (call : AuthCall) : bool := match call with AuthTake => true | _ => false end.

(** The calls that are not polls for the evidence. *)
Definition said (calls : list AuthCall) : list AuthCall := filter (fun c => is_take c = false) calls.

(** What a start must satisfy, and the transcript it binds. *)
Definition start_ok (start : PairAuthStartV1) (hash : bytes) : Prop :=
  begin_refused start auth_new = false /\ exists pre, start_transcript start = (Ok, Some (pre, hash)).

(** The approval due for a start. *)
Definition due_approval (start : PairAuthStartV1) : Z :=
  expected_approval (auth_new <| entry_mode_ := start_entry_mode start |>
                       <| known_path_ := start_known_path start |> <| local_role_ := start_local_role start |>).

Definition signature_call (start : PairAuthStartV1) (role : Z) : AuthCall :=
  AuthVerified (operation_of role (start_signature_operation_ids start)) FLY_SESSION_PAIR_SIGNATURE_VERIFIED_V2 role.
Definition confirm_call (start : PairAuthStartV1) (role : Z) : AuthCall :=
  AuthVerified (operation_of role (start_key_confirm_operation_ids start)) FLY_SESSION_PAIR_KEY_CONFIRM_VERIFIED_V2 role.

(** A capability summary is the one its owner committed to. *)
Definition summary_ok (contribution : PairContributionV1) (summary logical_hash : bytes) : Prop :=
  validate_pair_capability (Some summary) = Ok /\ any_nonzero logical_hash = true /\
  domain_hash "flynes-pair-capability-summary-v1" summary = capability_summary_hash contribution.

(** ** The invariant: the masks tell what was said *)

Section Stages.
Variable start : PairAuthStartV1.
Implicit Types r : PairAuthenticationReducer.

Inductive signed : Z -> list AuthCall -> Prop :=
  | signed_none : signed 0 []
  | signed_first : signed 1 [signature_call start Initiator]
  | signed_both : signed 3 [signature_call start Initiator; signature_call start Responder].

Inductive approved : Z -> list AuthCall -> Prop :=
  | approved_none : approved 0 []
  | approved_due : approved (due_approval start) [AuthApproved (due_approval start)].

Inductive confirmed : Z -> list AuthCall -> Prop :=
  | confirmed_none : confirmed 0 []
  | confirmed_one role : valid_role role = true -> confirmed (role_bit role) [confirm_call start role]
  | confirmed_both role other : opposite role other = true ->
      confirmed 3 [confirm_call start role; confirm_call start other].

Inductive revealed r : Z -> list AuthCall -> Prop :=
  | revealed_none : revealed r 0 []
  | revealed_first :
      summary_ok (start_initiator_contribution start) (initiator_summary_ r) (initiator_capability_ r) ->
      revealed r 1 [AuthRevealed Initiator (initiator_summary_ r) (initiator_capability_ r)]
  | revealed_both :
      summary_ok (start_initiator_contribution start) (initiator_summary_ r) (initiator_capability_ r) ->
      summary_ok (start_responder_contribution start) (responder_summary_ r) (responder_capability_ r) ->
      revealed r 3 [AuthRevealed Initiator (initiator_summary_ r) (initiator_capability_ r);
                    AuthRevealed Responder (responder_summary_ r) (responder_capability_ r)].

(** What [begin] stored. *)
Record bound_to (hash : bytes) r : Prop := {
  bound_begun : begun_ r = true;
  bound_generation : generation_ r = start_generation start;
  bound_signatures : signature_operation_ids_ r = start_signature_operation_ids start;
  bound_confirms : key_confirm_operation_ids_ r = start_key_confirm_operation_ids start;
  bound_role : local_role_ r = start_local_role start;
  bound_due : expected_approval r = due_approval start;
  bound_hash : transcript_hash_ r = hash;
  bound_reveals : (initiator_reveal_ r, responder_reveal_ r) = (start_initiator_reveal start, start_responder_reveal start);
  bound_expected_initiator : expected_initiator_summary_hash_ r = capability_summary_hash (start_initiator_contribution start);
  bound_expected_responder : expected_responder_summary_hash_ r = capability_summary_hash (start_responder_contribution start);
}.

(** The stages in order: none is entered before the one in front of it is complete. *)
Record staged (hash : bytes) (calls : list AuthCall) r : Prop := {
  staged_start : start_ok start hash;
  staged_bound : bound_to hash r;
  staged_calls : exists s a k c, calls = AuthBegin start :: s ++ a ++ k ++ c /\
    signed (signature_mask_ r) s /\ approved (approval_kind_ r) a /\ confirmed (key_confirm_mask_ r) k /\
    revealed r (capability_mask_ r) c;
  staged_approval : signature_mask_ r <> 3 -> approval_kind_ r = 0;
  staged_confirm : approval_kind_ r = 0 -> key_confirm_mask_ r = 0;
  staged_reveal : key_confirm_mask_ r <> 3 -> capability_mask_ r = 0;
}.

End Stages.

Definition auth_inv (calls : list AuthCall) r : Prop :=
  failed_ r = true \/ (failed_ r = false /\ consumed_ r = false /\ calls = [] /\ r = auth_new) \/
  (failed_ r = false /\ exists start hash, staged start hash calls r).

(** ** Lemmas *)

Lemma due_nonzero start : due_approval start <> 0.
Proof. unfold due_approval, expected_approval. repeat case_match; discriminate. Qed.

Lemma inv_failed calls r : failed_ r = true -> auth_inv calls r.
Proof. by left. Qed.

Lemma inv_rejected calls r : auth_inv calls (auth_reject r).2.
Proof. by left. Qed.

Create HintDb auth.
#[local] Hint Resolve inv_rejected inv_failed : auth.

Lemma role_cases role : valid_role role = true -> role = Initiator \/ role = Responder.
Proof. unfold valid_role. rewrite orb_true_iff, !Z.eqb_eq. tauto. Qed.

(** A reducer that has begun and not failed is in a stage. *)
Lemma inv_staged calls r :
  auth_inv calls r -> begun_ r = true -> failed_ r = false -> exists start hash, staged start hash calls r.
Proof. intros [? | [(_ & _ & _ & ->) | (_ & H)]]; [congruence | done | by intros]. Qed.

Lemma begin_inv calls start r : auth_inv calls r -> auth_inv (calls ++ [AuthBegin start]) (begin start r).2.
Proof.
  intros Hinv. unfold begin. destruct (begin_refused start r) eqn:G; [auto with auth |].
  assert (begun_ r = false /\ failed_ r = false) as [Hb Hf] by (unfold begin_refused in G; by bool_hyps).
  destruct Hinv as [? | [(_ & _ & -> & ->) | (_ & s & hash & H)]]; [congruence | |].
  2:{ pose proof (bound_begun _ _ _ (staged_bound _ _ _ _ H)). congruence. }
  destruct (start_transcript start) as [[] [[pre hash]|]] eqn:T; auto with auth.
  right. right. split; [done |]. exists start, hash. split; try done.
  - split; [done | by exists pre].
  - exists [], [], [], []. split_and!; constructor.
Qed.

(** A stage only depends on the fields it reads. *)
Lemma bound_same start hash r r' :
  bound_to start hash r -> begun_ r' = begun_ r -> generation_ r' = generation_ r ->
  signature_operation_ids_ r' = signature_operation_ids_ r ->
  key_confirm_operation_ids_ r' = key_confirm_operation_ids_ r -> local_role_ r' = local_role_ r ->
  entry_mode_ r' = entry_mode_ r -> known_path_ r' = known_path_ r ->
  transcript_hash_ r' = transcript_hash_ r -> initiator_reveal_ r' = initiator_reveal_ r ->
  responder_reveal_ r' = responder_reveal_ r ->
  expected_initiator_summary_hash_ r' = expected_initiator_summary_hash_ r ->
  expected_responder_summary_hash_ r' = expected_responder_summary_hash_ r -> bound_to start hash r'.
Proof.
  intros [] E1 E2 E3 E4 E5 E6 E7 E8 E9 E10 E11 E12. split; try congruence.
  unfold expected_approval in *. by rewrite E5, E6, E7.
Qed.

Lemma revealed_same start r r' m c :
  revealed start r m c -> initiator_summary_ r' = initiator_summary_ r ->
  initiator_capability_ r' = initiator_capability_ r -> responder_summary_ r' = responder_summary_ r ->
  responder_capability_ r' = responder_capability_ r -> revealed start r' m c.
Proof.
  intros [|H|H H'] E1 E2 E3 E4; [constructor | |]; rewrite <- ?E1, <- ?E2, <- ?E3, <- ?E4;
    rewrite <- E1, <- E2 in H.
  - by constructor.
  - rewrite <- E3, <- E4 in H'. by constructor.
Qed.

Ltac same_bound H := eapply bound_same; [exact H | done..].

Lemma verified_inv calls op kind who r :
  auth_inv calls r -> auth_inv (calls ++ [AuthVerified op kind who]) (accept_provider_verification op kind who r).2.
Proof.
  intros Hinv. unfold accept_provider_verification.
  destruct (_ || negb (valid_role who)) eqn:G; [auto with auth |]. bool_hyps.
  destruct (inv_staged calls r Hinv) as (start & hash & S); [done.. |].
  destruct (Z.eqb_spec kind FLY_SESSION_PAIR_SIGNATURE_VERIFIED_V2) as [->|_].
  - destruct (_ || _) eqn:G; [auto with auth |]. bool_hyps. subst op.
    match goal with H : who = _ |- _ => rename H into Hwho end.
    right. right. split; [done |]. exists start, hash.
    destruct S as [St B (s & a & k & c & -> & Hs & Ha & Hk & Hc) Sa Sk Sc].
    assert (approval_kind_ r = 0) as A0 by (by apply Sa). assert (key_confirm_mask_ r = 0) as K0 by (by apply Sk).
    assert (capability_mask_ r = 0) as C0 by (apply Sc; rewrite K0; discriminate).
    rewrite A0 in Ha. rewrite K0 in Hk. rewrite C0 in Hc.
    assert (a = []) as -> by (inversion Ha; [done | by destruct (due_nonzero start)]).
    assert (k = []) as -> by (inversion Hk; [done | by destruct (role_cases role) as [-> | ->]]).
    assert (c = []) as -> by (by inversion Hc).
    split; [done | same_bound B | | done | done | done].
    exists (s ++ [signature_call start who]), [], [], []. rewrite (bound_signatures _ _ _ B), !app_nil_r.
    split; [done |].
    match goal with |- context [approval_kind_ ?x] => set (r' := x) end.
    assert (signature_mask_ r' = u8 (Z.lor (signature_mask_ r) (role_bit who))) as -> by done.
    assert (approval_kind_ r' = 0) as -> by (by rewrite <- A0).
    assert (key_confirm_mask_ r' = 0) as -> by (by rewrite <- K0).
    assert (capability_mask_ r' = 0) as -> by (by rewrite <- C0).
    split_and!; [| constructor..]. rewrite Hwho.
    inversion Hs as [E | E | E]; rewrite <- E in *; [constructor | constructor | done].
  - destruct (Z.eqb_spec kind FLY_SESSION_PAIR_KEY_CONFIRM_VERIFIED_V2) as [->|_]; [| auto with auth].
    destruct (_ || _) eqn:G; [auto with auth |]. bool_hyps. subst op.
    right. right. split; [done |]. exists start, hash.
    destruct S as [St B (s & a & k & c & -> & Hs & Ha & Hk & Hc) Sa Sk Sc].
    assert (capability_mask_ r = 0) as C0 by auto. rewrite C0 in Hc.
    assert (c = []) as -> by (by inversion Hc).
    split; [done | same_bound B | | done | | ].
    + exists s, a, (k ++ [confirm_call start who]), []. rewrite (bound_confirms _ _ _ B).
      split; [by rewrite !app_nil_r; cbn [app]; rewrite <- !app_assoc |].
      match goal with |- context [approval_kind_ ?x] => set (r' := x) end.
      assert (key_confirm_mask_ r' = u8 (Z.lor (key_confirm_mask_ r) (role_bit who))) as -> by done.
      assert (capability_mask_ r' = 0) as -> by (by rewrite <- C0).
      split_and!; [done | done | | constructor].
      match goal with H : valid_role who = true |- _ => apply role_cases in H as [-> | ->] end;
        (inversion Hk as [E | role V E | role other O E]; rewrite <- E in *;
         [first [exact (confirmed_one start Initiator eq_refl) | exact (confirmed_one start Responder eq_refl)] | | done]);
        (apply role_cases in V as [-> | ->]; try done);
        first [exact (confirmed_both start Initiator Responder eq_refl)
              | exact (confirmed_both start Responder Initiator eq_refl)].
    + cbn. intros A0. by rewrite A0 in *.
    + cbn. by rewrite C0.
Qed.

Lemma approved_inv calls kind r :
  auth_inv calls r -> auth_inv (calls ++ [AuthApproved kind]) (approve_local kind r).2.
Proof.
  intros Hinv. unfold approve_local. destruct (_ || negb (approval_kind_ r =? 0)) eqn:G; [auto with auth |]. bool_hyps.
  destruct (inv_staged calls r Hinv) as (start & hash & S); [done.. |].
  destruct (Z.eqb_spec kind (expected_approval r)) as [->|_]; [| auto with auth].
  right. right. split; [done |]. exists start, hash.
  destruct S as [St B (s & a & k & c & -> & Hs & Ha & Hk & Hc) Sa Sk Sc].
  assert (key_confirm_mask_ r = 0) as K0 by auto.
  assert (capability_mask_ r = 0) as C0 by (apply Sc; rewrite K0; discriminate).
  rewrite K0 in Hk. rewrite C0 in Hc.
  match goal with H : approval_kind_ r = 0 |- _ => rewrite H in Ha end.
  assert (a = []) as -> by (inversion Ha; [done | by destruct (due_nonzero start)]).
  assert (k = []) as -> by (inversion Hk; [done | by destruct (role_cases role) as [-> | ->]]).
  assert (c = []) as -> by (by inversion Hc).
  split; [done | same_bound B | | done | done | done].
  exists s, [AuthApproved (expected_approval r)], [], [].
  split; [by rewrite !app_nil_r |].
  match goal with |- context [key_confirm_mask_ ?x] => set (r' := x) end.
  assert (key_confirm_mask_ r' = 0) as -> by (by rewrite <- K0).
  assert (capability_mask_ r' = 0) as -> by (by rewrite <- C0).
  assert (approval_kind_ r' = expected_approval r) as -> by done.
  rewrite (bound_due _ _ _ B). split_and!; [done | constructor..].
Qed.

Lemma revealed_inv calls who summary hash r :
  auth_inv calls r ->
  auth_inv (calls ++ [AuthRevealed who summary hash]) (accept_capability_reveal who summary hash r).2.
Proof.
  intros Hinv. unfold accept_capability_reveal. destruct (_ || negb (bool_decide _)) eqn:G; [auto with auth |]. bool_hyps.
  destruct (inv_staged calls r Hinv) as (start & tr & S); [done.. |].
  destruct S as [St B (s & a & k & c & -> & Hs & Ha & Hk & Hc) Sa Sk Sc]. cbv zeta.
  rewrite (bound_expected_initiator _ _ _ B), (bound_expected_responder _ _ _ B).
  destruct (bool_decide _) eqn:G; cbn [negb]; [| auto with auth]. bool_hyps.
  match goal with H : key_confirm_mask_ r = 3 |- _ => rename H into K3 end.
  match goal with H : Z.land _ _ = 0 |- _ => rename H into Hmask end.
  match goal with H : validate_pair_capability _ = Ok |- _ => rename H into Hvalid end.
  match goal with H : any_nonzero _ = true |- _ => rename H into Hnz end.
  destruct (role_cases who) as [-> | ->]; [done | |].
  - change (Initiator =? Initiator) with true in *. cbv iota in *.
    assert (summary_ok (start_initiator_contribution start) summary hash) as Hok by done.
    right. right. split; [done |]. exists start, tr.
    split; [done | same_bound B | | done | done | intros N; by destruct N].
    exists s, a, k, (c ++ [AuthRevealed Initiator summary hash]).
    split; [cbn [app]; by rewrite <- !app_assoc |]. split_and!; [done.. |].
    match goal with |- revealed start ?x _ _ => set (r' := x) end.
    assert (capability_mask_ r' = u8 (Z.lor (capability_mask_ r) (role_bit Initiator))) as -> by done.
    inversion Hc as [E | O1 E | O1 O2 E]; rewrite <- E in *; [| done | done]. exact (revealed_first start r' Hok).
  - change (Responder =? Initiator) with false in *. cbv iota in *.
    assert (summary_ok (start_responder_contribution start) summary hash) as Hok by done.
    right. right. split; [done |]. exists start, tr.
    split; [done | same_bound B | | done | done | intros N; by destruct N].
    exists s, a, k, (c ++ [AuthRevealed Responder summary hash]).
    split; [cbn [app]; by rewrite <- !app_assoc |]. split_and!; [done.. |].
    match goal with |- revealed start ?x _ _ => set (r' := x) end.
    assert (capability_mask_ r' = u8 (Z.lor (capability_mask_ r) (role_bit Responder))) as -> by done.
    inversion Hc as [E | O1 E | O1 O2 E]; rewrite <- E in *; [done | | done]. exact (revealed_both start r' O1 Hok).
Qed.

(** Every history keeps the invariant; the evidence comes at most once, when all
    stages are complete. *)
Definition complete (calls : list AuthCall) (e : VerifiedPairEvidence) : Prop :=
  exists start hash r, staged start hash calls r /\ signature_mask_ r = 3 /\ approval_kind_ r <> 0 /\
    key_confirm_mask_ r = 3 /\ capability_mask_ r = 3 /\
    e = seal_for_authenticated_pipeline
          (mkEvidence (local_role_ r) (generation_ r) (transcript_hash_ r) (initiator_reveal_ r) (responder_reveal_ r)
             (initiator_capability_ r) (responder_capability_ r) (initiator_summary_ r) (responder_summary_ r)
             (zero_bytes 32)).

Definition run_inv (calls : list AuthCall) (x : PairAuthenticationReducer * list VerifiedPairEvidence) : Prop :=
  auth_inv (said calls) x.1 /\
  (x.2 = [] \/ (failed_ x.1 = true \/ consumed_ x.1 = true) /\
   exists before after e, calls = before ++ AuthTake :: after /\ x.2 = [e] /\ complete (said before) e).

Lemma said_snoc calls c : said (calls ++ [c]) = if is_take c then said calls else said calls ++ [c].
Proof. unfold said. rewrite filter_app, filter_cons. by destruct c; cbn; rewrite ?app_nil_r. Qed.

Lemma said_step calls r c :
  auth_inv (said calls) r -> is_take c = false ->
  auth_inv (said (calls ++ [c])) (auth_step (r, []) c).1.
Proof.
  intros Hinv Hc. rewrite said_snoc, Hc. destruct c; [by apply begin_inv | by apply verified_inv
    | by apply approved_inv | by apply revealed_inv | done].
Qed.

(** After the end -- a failure, or the evidence taken -- nothing is ever taken. *)
Lemma over_step r c :
  failed_ r = true \/ consumed_ r = true ->
  let r' := (auth_step (r, []) c).1 in (failed_ r' = true \/ consumed_ r' = true) /\ (auth_step (r, []) c).2 = [].
Proof.
  intros H. destruct c as [start | op kind who | kind | who summary hash |]; cbn [auth_step fst snd]; cbv zeta;
    (split; [| try done]).
  - unfold begin. destruct (begin_refused start r); [by left |].
    destruct (start_transcript start) as [[] [[? ?]|]]; first [by left | destruct H as [H|H]; first [by left | by right]].
  - unfold accept_provider_verification. destruct (_ || negb (valid_role who)) eqn:G; [by left |].
    bool_hyps. destruct H; congruence.
  - unfold approve_local. destruct (_ || negb (approval_kind_ r =? 0)) eqn:G; [by left |].
    bool_hyps. destruct H; congruence.
  - unfold accept_capability_reveal. destruct (_ || negb (bool_decide _)) eqn:G; [by left |].
    bool_hyps. destruct H; congruence.
  - unfold take_verified_evidence. destruct (_ || (approval_kind_ r =? 0)) eqn:G; [done |]. by right.
  - unfold take_verified_evidence. destruct (_ || (approval_kind_ r =? 0)) eqn:G; [done |].
    bool_hyps. destruct H; congruence.
Qed.

Lemma step_out r out c : auth_step (r, out) c = ((auth_step (r, []) c).1, out ++ (auth_step (r, []) c).2).
Proof.
  destruct c; cbn [auth_step fst snd]; rewrite ?app_nil_r; try done. by destruct (take_verified_evidence r).
Qed.

Lemma run_auth_inv calls : run_inv calls (run_auth calls).
Proof.
  induction calls as [|c calls IH] using rev_ind; [split; [right; left; by split_and! | by left] |].
  unfold run_auth in *. rewrite fold_left_app. cbn [fold_left].
  destruct (fold_left auth_step calls (auth_new, [])) as [r out]. destruct IH as [Hinv Hout]. cbn [fst snd] in *.
  rewrite step_out. destruct Hout as [-> | (Hover & before & after & e & -> & -> & Hc)].
  - destruct (is_take c) eqn:Hc.
    2:{ split; [by apply said_step | left; by destruct c]. }
    destruct c; try done. unfold run_inv. rewrite said_snoc. cbn [is_take auth_step fst snd].
    unfold take_verified_evidence. destruct (_ || (approval_kind_ r =? 0)) eqn:G; [by split; [| left] |].
    bool_hyps. destruct (inv_staged _ _ Hinv) as (start & hash & S); [done.. |].
    split; cbn [fst snd].
    + right. right. split; [done |]. exists start, hash. destruct S as [St B C Sa Sk Sc].
      split; [done | same_bound B | | done..]. destruct C as (s & a & k & c & -> & Hs & Ha & Hk & Hr).
      exists s, a, k, c. split_and!; [done.. |]. by eapply revealed_same.
    + right. split; [by right |]. exists calls, []. eexists. split; [done |]. split; [reflexivity |].
      by exists start, hash, r.
  - destruct (over_step r c Hover) as [Hover' ->]. rewrite app_nil_r. split; cbn [fst snd].
    + destruct (is_take c) eqn:Hc'; [| by apply said_step].
      destruct c; try done. rewrite said_snoc. cbn [is_take auth_step fst].
      unfold take_verified_evidence in *. destruct (_ || (approval_kind_ r =? 0)) eqn:G; [done |].
      bool_hyps. destruct Hover; congruence.
    + right. split; [done |]. exists before, (after ++ [c]), e. split; [by rewrite <- app_assoc | done].
Qed.

(** ** Property *)

(** C12. Evidence of an authentic pairing exists only after the whole chain.  In any
    history of a fresh reducer, at most one piece of evidence is handed out, and the
    calls before it, polls aside, are exactly: a start whose commits open to its
    contributions; the two signatures over its transcript, initiator first, under the
    operation numbers of the start; the player's approval, of the kind due for the way
    the pairing was entered; the two key confirmations; the two capability summaries
    their owners committed to, initiator first.  The evidence names that transcript,
    those reveals and summaries, and carries the seal of its contents. *)
Theorem evidence_needs_whole_chain (calls : list AuthCall) (e : VerifiedPairEvidence) :
  e ∈ (run_auth calls).2 ->
  (run_auth calls).2 = [e] /\
  exists before after start hash first second,
    calls = before ++ AuthTake :: after /\ start_ok start hash /\ opposite first second = true /\
    said before =
      [AuthBegin start; signature_call start Initiator; signature_call start Responder;
       AuthApproved (due_approval start); confirm_call start first; confirm_call start second;
       AuthRevealed Initiator (initiator_summary e) (initiator_capability e);
       AuthRevealed Responder (responder_summary e) (responder_capability e)] /\
    summary_ok (start_initiator_contribution start) (initiator_summary e) (initiator_capability e) /\
    summary_ok (start_responder_contribution start) (responder_summary e) (responder_capability e) /\
    transcript e = hash /\ local_role e = start_local_role start /\ generation e = start_generation start /\
    (initiator_reveal e, responder_reveal e) = (start_initiator_reveal start, start_responder_reveal start) /\
    authentication_seal_ e = evidence_seal e.
Proof.
  intros He. destruct (run_auth_inv calls) as [_ [E | (_ & before & after & e' & -> & E & Hc)]];
    [rewrite E in He; by apply elem_of_nil in He |].
  rewrite E in *. apply list_elem_of_singleton in He as <-. split; [done |].
  destruct Hc as (start & hash & r & [St B (s & a & k & c & Ec & Hs & Ha & Hk & Hr) _ _ _] & M1 & M2 & M3 & M4 & ->).
  rewrite M1 in Hs. rewrite M3 in Hk. rewrite M4 in Hr.
  inversion Hs; subst s. inversion Ha as [E0 | E0]; subst a; [congruence |].
  inversion Hk as [E1 | role V E1 | role other O E1]; subst k;
    [by apply role_cases in V as [-> | ->] |]. inversion Hr; subst c.
  exists before, after, start, hash, role, other. destruct B. by split_and!.
Qed.

(** ** Witness *)

Definition demo_capability : bytes := demo_summary [demo_plan 2 10 2 5; demo_plan 4 30 1 5].

Definition pairing_party (seed : Z) : Party :=
  mkParty (4 :: replicate 64 seed) (4 :: replicate 64 (seed + 1)) (replicate 32 seed) (replicate 32 (seed + 1))
    (domain_hash "flynes-pair-capability-summary-v1" demo_capability).

Definition pairing_start : PairAuthStartV1 :=
  mkAuthStart 7 (replicate 16 1) (replicate 16 2) (11, 12) (13, 14) Initiator 1 false (zero_bytes 32)
    (context_hash demo_context)
    (commit_of demo_context Initiator (pairing_party 10)) (commit_of demo_context Responder (pairing_party 20))
    (contribution_of demo_context Initiator (pairing_party 10)) (contribution_of demo_context Responder (pairing_party 20))
    (replicate 32 5) (replicate 32 6).

(** The responder's key confirmation is verified before the initiator's; one poll too early. *)
Definition pairing_calls : list AuthCall :=
  [AuthBegin pairing_start; signature_call pairing_start Initiator; signature_call pairing_start Responder; AuthTake;
   AuthApproved FLY_SESSION_APPROVAL_BLE_SAS_MATCH_V2; confirm_call pairing_start Responder;
   confirm_call pairing_start Initiator; AuthRevealed Initiator demo_capability (replicate 32 8);
   AuthRevealed Responder demo_capability (replicate 32 9); AuthTake].

Definition pairing_evidence : VerifiedPairEvidence := default evidence0 (head (run_auth pairing_calls).2).

(** One evaluation of the run: one record of evidence is taken. *)
Lemma pairing_run : length (run_auth pairing_calls).2 = 1%nat.
Proof. vm_compute. reflexivity. Qed.

Lemma only_element {A} (d : A) l : length l = 1%nat -> default d (head l) ∈ l.
Proof. destruct l as [|x []]; try done. intros _. left. Qed.

Lemma pairing_taken : pairing_evidence ∈ (run_auth pairing_calls).2.
Proof. exact (only_element evidence0 (run_auth pairing_calls).2 pairing_run). Qed.

Lemma evidence_needs_whole_chain_witness : (run_auth pairing_calls).2 = [pairing_evidence].
Proof. exact (proj1 (evidence_needs_whole_chain pairing_calls pairing_evidence pairing_taken)). Defined.
