(* ===== verification/InitialPlan.v ===== *)
(** * The initial plan lock ([shared/src/session/initial_plan_lock.{hpp,cpp}])

    Once a pairing is authentic the two players lock one bearer plan -- plan,
    acknowledgement, final -- and only then may a radio be touched: one side creates
    the bearer, the other joins it.  The lock issues one command at a time to an
    executor that performs it and reports back. *)

From S2P Require Import Prelude Sha256 SessionCodec PairHandshake PairCapability PairAuth.

(** ** Data *)

Record VerifiedPlanEvidence := mkPlanEvidence {
  plan_generation : Z;
  plan_sender : Z;
  plan_receiver : Z;
  plan_transcript : bytes;
  plan_initiator_reveal : bytes;
  plan_responder_reveal : bytes;
  plan_initiator_capability : bytes;
  plan_responder_capability : bytes;
  plan_selected : bytes;
  plan_selected_hash : bytes;
  plan_logical_hash : bytes;
  ack_logical_hash : bytes;
  final_logical_hash : bytes;
}.

Definition plan_evidence0 : VerifiedPlanEvidence :=
  mkPlanEvidence 0 0 0 (zero_bytes 32) (zero_bytes 32) (zero_bytes 32) (zero_bytes 32) (zero_bytes 32)
    (zero_bytes 48) (zero_bytes 32) (zero_bytes 32) (zero_bytes 32) (zero_bytes 32).

Record VerifiedCredentialEvidence := mkCredential { binding : VerifiedPlanEvidence; credential_logical_hash : bytes }.

Inductive InitialPlanCommandKind :=
  | PersistPlan | PersistPlanAndLock | SendPlan | PersistAck | PersistAckAndLock | SendAck
  | PersistFinal | SendFinal | PersistMutualLock | PersistPromptConsumed | CreateBearer | PublishCredentials
  | PersistCredentials | JoinBearer.

#[global] Instance command_kind_eq_dec : EqDecision InitialPlanCommandKind.
Proof. solve_decision. Defined.

Record InitialPlanCommand := mkCommand {
  command_id : Z;
  command_generation : Z;
  command_kind : InitialPlanCommandKind;
  command_evidence : VerifiedPlanEvidence;
  command_credential_hash : bytes;
  may_prompt : bool;
}.

Inductive LockPhase := LockIdle | LockPlan | LockAck | LockFinal | LockCredentials | LockPending | LockDone.

#[global] Instance lock_phase_eq_dec : EqDecision LockPhase.
Proof. solve_decision. Defined.

Record InitialPlanLock := mkLock {
  lock_phase_ : LockPhase;
  lock_failed_ : bool;
  not_supported_ : bool;
  locked_ : bool;
  mutually_locked_ : bool;
  prompt_consumed_ : bool;
  next_id_ : Z;
  pair_ : VerifiedPairEvidence;
  evidence_ : VerifiedPlanEvidence;
  credential_hash_ : bytes;
  selected_ : bytes;
  pending_ : option InitialPlanCommand;
}.

#[global] Instance eta_lock : Eta InitialPlanLock := fun r =>
  mkLock (lock_phase_ r) (lock_failed_ r) (not_supported_ r) (locked_ r) (mutually_locked_ r) (prompt_consumed_ r)
    (next_id_ r) (pair_ r) (evidence_ r) (credential_hash_ r) (selected_ r) (pending_ r).

Definition lock_new : InitialPlanLock :=
  mkLock LockIdle false false false false false 1 evidence0 plan_evidence0 (zero_bytes 32) (zero_bytes 48) None.

Definition other (role : Z) : Z := if role =? Initiator then Responder else Initiator.

(** ** Operations *)

Section Lock.
Implicit Types l : InitialPlanLock.

Definition invalidate l : InitialPlanLock :=
  l <| lock_failed_ := true |> <| pending_ := None |> <| lock_phase_ := LockDone |>.

Definition lock_reject l : bool * InitialPlanLock := (false, invalidate l).

Definition lock_begin (evidence : VerifiedPairEvidence) l : bool * InitialPlanLock :=
  if lock_failed_ l || negb (bool_decide (lock_phase_ l = LockIdle)) || negb (authenticated evidence) ||
     negb (valid_role (local_role evidence)) || (generation evidence =? 0) ||
     negb (any_nonzero (transcript evidence)) || negb (any_nonzero (initiator_reveal evidence)) ||
     negb (any_nonzero (responder_reveal evidence)) || negb (any_nonzero (initiator_capability evidence)) ||
     negb (any_nonzero (responder_capability evidence))
  then lock_reject l
  else
    let '(selection, selected) := select_pair_plan (Some (initiator_summary evidence)) (Some (responder_summary evidence)) in
    let l := l <| selected_ := selected |> in
    if decide (selection <> SelectionOk)
    then lock_reject (l <| not_supported_ := bool_decide (selection = NoCommonPlan) |>)
    else (true, l <| pair_ := evidence |> <| lock_phase_ := LockPlan |>).

Definition valid_binding (evidence : VerifiedPlanEvidence) (sender : Z) l : bool :=
  negb (lock_failed_ l) && (plan_generation evidence =? generation (pair_ l)) &&
  negb (plan_generation evidence =? 0) && (plan_sender evidence =? sender) &&
  (plan_receiver evidence =? other sender) &&
  bool_decide (plan_transcript evidence = transcript (pair_ l)) &&
  bool_decide (plan_initiator_reveal evidence = initiator_reveal (pair_ l)) &&
  bool_decide (plan_responder_reveal evidence = responder_reveal (pair_ l)) &&
  bool_decide (plan_initiator_capability evidence = initiator_capability (pair_ l)) &&
  bool_decide (plan_responder_capability evidence = responder_capability (pair_ l)) &&
  bool_decide (plan_selected evidence = selected_ l) &&
  bool_decide (plan_selected_hash evidence = selected_bearer_plan_hash_v1 (selected_ l)) &&
  any_nonzero (plan_selected_hash evidence) && any_nonzero (plan_logical_hash evidence).

Definition issue (kind : InitialPlanCommandKind) (prompt : bool) l : bool * InitialPlanLock :=
  if lock_failed_ l || bool_decide (is_Some (pending_ l)) || (next_id_ l =? u64_max) then lock_reject l
  else
    (true,
     l <| pending_ := Some (mkCommand (next_id_ l) (generation (pair_ l)) kind (evidence_ l) (credential_hash_ l) prompt) |>
       <| next_id_ := next_id_ l + 1 |> <| lock_phase_ := LockPending |>).

Definition accept_plan (evidence : VerifiedPlanEvidence) l : bool * InitialPlanLock :=
  if negb (bool_decide (lock_phase_ l = LockPlan)) || negb (valid_binding evidence Initiator l) ||
     any_nonzero (ack_logical_hash evidence) || any_nonzero (final_logical_hash evidence)
  then lock_reject l
  else issue (if local_role (pair_ l) =? Initiator then PersistPlan else PersistPlanAndLock) false
         (l <| evidence_ := evidence |>).

Definition accept_ack (evidence : VerifiedPlanEvidence) l : bool * InitialPlanLock :=
  if negb (bool_decide (lock_phase_ l = LockAck)) || negb (valid_binding evidence Responder l) ||
     negb (bool_decide (plan_logical_hash evidence = plan_logical_hash (evidence_ l))) ||
     negb (any_nonzero (ack_logical_hash evidence)) || any_nonzero (final_logical_hash evidence)
  then lock_reject l
  else issue (if local_role (pair_ l) =? Initiator then PersistAckAndLock else PersistAck) false
         (l <| evidence_ := evidence |>).

Definition accept_final (evidence : VerifiedPlanEvidence) l : bool * InitialPlanLock :=
  if negb (bool_decide (lock_phase_ l = LockFinal)) || negb (valid_binding evidence Initiator l) ||
     negb (bool_decide (plan_logical_hash evidence = plan_logical_hash (evidence_ l))) ||
     negb (bool_decide (ack_logical_hash evidence = ack_logical_hash (evidence_ l))) ||
     negb (any_nonzero (ack_logical_hash evidence)) || negb (any_nonzero (final_logical_hash evidence))
  then lock_reject l
  else issue PersistFinal false (l <| evidence_ := evidence |>).

Definition accept_credentials (evidence : VerifiedCredentialEvidence) l : bool * InitialPlanLock :=
  let creator := at_ (selected_ l) 1 in
  if negb (bool_decide (lock_phase_ l = LockCredentials)) || negb (mutually_locked_ l) ||
     negb (valid_binding (binding evidence) creator l) ||
     negb (bool_decide (plan_logical_hash (binding evidence) = plan_logical_hash (evidence_ l))) ||
     negb (bool_decide (ack_logical_hash (binding evidence) = ack_logical_hash (evidence_ l))) ||
     negb (bool_decide (final_logical_hash (binding evidence) = final_logical_hash (evidence_ l))) ||
     negb (any_nonzero (credential_logical_hash evidence))
  then lock_reject l
  else issue PersistCredentials false
         (l <| credential_hash_ := credential_logical_hash evidence |> <| evidence_ := binding evidence |>).

Definition poll l : option InitialPlanCommand := pending_ l.

Definition designated l : bool := at_ (selected_ l) 5 =? local_role (pair_ l).
Definition creator l : bool := at_ (selected_ l) 1 =? local_role (pair_ l).

Definition issue_bearer l : bool * InitialPlanLock :=
  if negb (mutually_locked_ l) || (designated l && negb (prompt_consumed_ l)) then lock_reject l
  else if negb (creator l) && negb (any_nonzero (credential_hash_ l)) then lock_reject l
  else issue (if creator l then CreateBearer else JoinBearer) (designated l) l.

Definition authorize_bearer l : bool * InitialPlanLock :=
  if negb (mutually_locked_ l) then lock_reject l
  else if designated l then
    if prompt_consumed_ l then lock_reject l else issue PersistPromptConsumed false l
  else issue_bearer l.

Definition complete (id generation_of_report : Z) (success : bool) l : bool * InitialPlanLock :=
  match pending_ l with
  | None => lock_reject l
  | Some c =>
    if lock_failed_ l || negb (command_id c =? id) || negb (command_generation c =? generation_of_report) ||
       negb (generation (pair_ l) =? generation_of_report) || negb success
    then lock_reject l
    else
      let l := l <| pending_ := None |> in
      match command_kind c with
      | PersistPlan => issue SendPlan false l
      | PersistPlanAndLock => (true, l <| locked_ := true |> <| lock_phase_ := LockAck |>)
      | SendPlan => (true, l <| lock_phase_ := LockAck |>)
      | PersistAck => issue SendAck false l
      | PersistAckAndLock => (true, l <| locked_ := true |> <| lock_phase_ := LockFinal |>)
      | SendAck => (true, l <| lock_phase_ := LockFinal |>)
      | PersistFinal =>
        issue (if local_role (pair_ l) =? Initiator then SendFinal else PersistMutualLock) false l
      | SendFinal => issue PersistMutualLock false l
      | PersistMutualLock =>
        let l := l <| mutually_locked_ := true |> in
        if creator l then authorize_bearer l else (true, l <| lock_phase_ := LockCredentials |>)
      | PersistCredentials => if creator l then issue PublishCredentials false l else authorize_bearer l
      | PersistPromptConsumed => issue_bearer (l <| prompt_consumed_ := true |>)
      | CreateBearer => (true, l <| lock_phase_ := LockCredentials |>)
      | PublishCredentials | JoinBearer => (true, l <| lock_phase_ := LockDone |>)
      end
  end.

End Lock.

(** ** Histories *)

Inductive LockCall :=
  | CallLockBegin (evidence : VerifiedPairEvidence)
  | CallPlan (evidence : VerifiedPlanEvidence)
  | CallAck (evidence : VerifiedPlanEvidence)
  | CallFinal (evidence : VerifiedPlanEvidence)
  | CallCredentials (evidence : VerifiedCredentialEvidence)
  | CallComplete (id generation : Z) (success : bool)
  | CallInvalidate.

Definition lock_call (call : LockCall) (l : InitialPlanLock) : InitialPlanLock :=
  match call with
  | CallLockBegin evidence => (lock_begin evidence l).2
  | CallPlan evidence => (accept_plan evidence l).2
  | CallAck evidence => (accept_ack evidence l).2
  | CallFinal evidence => (accept_final evidence l).2
  | CallCredentials evidence => (accept_credentials evidence l).2
  | CallComplete id generation success => (complete id generation success l).2
  | CallInvalidate => invalidate l
  end.

(** The executor polls after every call and knows a command by its number. *)
Definition lock_step (x : InitialPlanLock * list InitialPlanCommand) (call : LockCall)
    : InitialPlanLock * list InitialPlanCommand :=
  let l := lock_call call x.1 in
  (l, match poll l with
      | Some c => if existsb (fun d => command_id d =? command_id c) x.2 then x.2 else x.2 ++ [c]
      | None => x.2
      end).

Definition run_lock (calls : list LockCall) : InitialPlanLock * list InitialPlanCommand :=
  fold_left lock_step calls (lock_new, []).

(** ** Specification: the script of an attempt

    What a side does is a fixed list of commands, given its role, whether the selected
    plan makes it the creator of the bearer, and whether the one permitted system
    prompt is its own. *)

Section Script.
Variables (local : Z) (creates prompts : bool).

Definition first_kind : InitialPlanCommandKind := if local =? Initiator then PersistPlan else PersistPlanAndLock.

Definition bearer_kind : InitialPlanCommandKind := if creates then CreateBearer else JoinBearer.

Definition after (k : InitialPlanCommandKind) : option InitialPlanCommandKind :=
  match k with
  | PersistPlan => Some SendPlan
  | SendPlan => Some PersistAckAndLock
  | PersistPlanAndLock => Some PersistAck
  | PersistAck => Some SendAck
  | PersistAckAndLock | SendAck => Some PersistFinal
  | PersistFinal => Some (if local =? Initiator then SendFinal else PersistMutualLock)
  | SendFinal => Some PersistMutualLock
  | PersistMutualLock =>
    Some (if creates then if prompts then PersistPromptConsumed else CreateBearer else PersistCredentials)
  | PersistPromptConsumed => Some bearer_kind
  | CreateBearer => Some PersistCredentials
  | PersistCredentials =>
    Some (if creates then PublishCredentials else if prompts then PersistPromptConsumed else JoinBearer)
  | PublishCredentials | JoinBearer => None
  end.

Definition opening_script : list InitialPlanCommandKind :=
  if local =? Initiator
  then [PersistPlan; SendPlan; PersistAckAndLock; PersistFinal; SendFinal; PersistMutualLock]
  else [PersistPlanAndLock; PersistAck; SendAck; PersistFinal; PersistMutualLock].

Definition prompt_script : list InitialPlanCommandKind := if prompts then [PersistPromptConsumed] else [].

Definition bearer_script : list InitialPlanCommandKind :=
  if creates then prompt_script ++ [CreateBearer; PersistCredentials; PublishCredentials]
  else [PersistCredentials] ++ prompt_script ++ [JoinBearer].

Definition script : list InitialPlanCommandKind := opening_script ++ bearer_script.

(** The steps follow the script; a step belongs to the side it is made by. *)
Lemma after_script i k : script !! i = Some k -> after k = script !! S i.
Proof.
  unfold script, opening_script, bearer_script, prompt_script, after, bearer_kind.
  destruct (local =? Initiator), creates, prompts; cbn [app];
    (do 11 (destruct i as [|i]; [by intros [= <-] |])); by destruct i.
Qed.

Lemma script_side i k :
  script !! i = Some k ->
  match k with
  | PersistPlan | SendPlan | PersistAckAndLock | SendFinal => (local =? Initiator) = true
  | PersistPlanAndLock | PersistAck | SendAck => (local =? Initiator) = false
  | CreateBearer | PublishCredentials => creates = true
  | JoinBearer => creates = false
  | PersistPromptConsumed => prompts = true
  | _ => True
  end.
Proof.
  unfold script, opening_script, bearer_script, prompt_script.
  destruct (local =? Initiator), creates, prompts; cbn [app];
    (do 11 (destruct i as [|i]; [by intros [= <-] |])); by destruct i.
Qed.

(** [k] may be issued next. *)
Definition due (issued : list InitialPlanCommandKind) (k : InitialPlanCommandKind) : Prop :=
  issued = take (length issued) script /\ script !! length issued = Some k.

Lemma due_snoc issued k : due issued k -> issued ++ [k] = take (length (issued ++ [k])) script.
Proof.
  intros [E H]. rewrite length_app, Nat.add_1_r, (take_S_r _ _ k H). by rewrite <- E.
Qed.

(** The last command issued, and what follows it. *)
Lemma due_after issued k k' :
  issued ++ [k] = take (length (issued ++ [k])) script -> after k = Some k' -> due (issued ++ [k]) k'.
Proof.
  intros E Ha. split; [done |].
  assert (script !! length issued = Some k) as H.
  { rewrite <- (lookup_take_lt _ (length (issued ++ [k]))) by (rewrite length_app; cbn; lia).
    rewrite <- E, lookup_app_r, Nat.sub_diag by lia. done. }
  apply after_script in H. by rewrite length_app, Nat.add_1_r, <- H.
Qed.

Lemma last_side issued k :
  issued ++ [k] = take (length (issued ++ [k])) script -> exists i, script !! i = Some k.
Proof.
  intros E. exists (length issued).
  rewrite <- (lookup_take_lt _ (length (issued ++ [k]))) by (rewrite length_app; cbn; lia).
  by rewrite <- E, lookup_app_r, Nat.sub_diag by lia.
Qed.

End Script.

(** ** The invariant *)

Definition kinds (issued : list InitialPlanCommand) : list InitialPlanCommandKind := command_kind <$> issued.

Definition lock_script (l : InitialPlanLock) : list InitialPlanCommandKind :=
  script (local_role (pair_ l)) (creator l) (designated l).

Definition lock_due (l : InitialPlanLock) (issued : list InitialPlanCommand) (k : InitialPlanCommandKind) : Prop :=
  due (local_role (pair_ l)) (creator l) (designated l) (kinds issued) k.

Definition selection_ok (l : InitialPlanLock) : Prop :=
  select_pair_plan (Some (initiator_summary (pair_ l))) (Some (responder_summary (pair_ l))) = (SelectionOk, selected_ l) /\
  valid_role (local_role (pair_ l)) = true /\ authenticated (pair_ l) = true.

Definition command_ok (l : InitialPlanLock) (c : InitialPlanCommand) : Prop :=
  command_generation c = generation (pair_ l) /\
  (may_prompt c = true -> designated l = true /\ (command_kind c = CreateBearer \/ command_kind c = JoinBearer)).

Record lock_base (l : InitialPlanLock) (issued : list InitialPlanCommand) : Prop := {
  base_ids : command_id <$> issued = seqZ 1 (zlen issued);
  base_next : next_id_ l = zlen issued + 1;
  base_script : issued = [] \/ selection_ok l /\ kinds issued = take (length (kinds issued)) (lock_script l);
  base_commands : Forall (command_ok l) issued;
}.

Definition lock_stage (l : InitialPlanLock) (issued : list InitialPlanCommand) : Prop :=
  match lock_phase_ l with
  | LockIdle => issued = [] /\ pending_ l = None
  | LockPlan => issued = [] /\ pending_ l = None /\ selection_ok l
  | LockAck => pending_ l = None /\ selection_ok l /\
      lock_due l issued (if local_role (pair_ l) =? Initiator then PersistAckAndLock else PersistAck)
  | LockFinal => pending_ l = None /\ selection_ok l /\ lock_due l issued PersistFinal
  | LockCredentials => pending_ l = None /\ selection_ok l /\ lock_due l issued PersistCredentials
  | LockPending => selection_ok l /\ exists c before, pending_ l = Some c /\ issued = before ++ [c]
  | LockDone => pending_ l = None
  end.

Definition lock_inv (x : InitialPlanLock * list InitialPlanCommand) : Prop :=
  lock_base x.1 x.2 /\ (if lock_failed_ x.1 then pending_ x.1 = None else lock_stage x.1 x.2).

(** ** Lemmas *)

Definition observed (issued : list InitialPlanCommand) (l : InitialPlanLock) : list InitialPlanCommand :=
  match poll l with
  | Some c => if existsb (fun d => command_id d =? command_id c) issued then issued else issued ++ [c]
  | None => issued
  end.

Section Same.
Context {l l' : InitialPlanLock}.
Hypotheses (Hpair : pair_ l' = pair_ l) (Hselected : selected_ l' = selected_ l).

Lemma same_creator : creator l' = creator l.
Proof using Hpair Hselected. unfold creator. by rewrite Hpair, Hselected. Qed.

Lemma same_designated : designated l' = designated l.
Proof using Hpair Hselected. unfold designated. by rewrite Hpair, Hselected. Qed.

Lemma same_selection : selection_ok l -> selection_ok l'.
Proof using Hpair Hselected. unfold selection_ok. by rewrite Hpair, Hselected. Qed.

Lemma same_due issued k : lock_due l issued k -> lock_due l' issued k.
Proof using Hpair Hselected. unfold lock_due. by rewrite Hpair, same_creator, same_designated. Qed.

Lemma same_base issued : next_id_ l' = next_id_ l -> lock_base l issued -> lock_base l' issued.
Proof using Hpair Hselected.
  intros Hn [B1 B2 B3 B4]. split; [done | by rewrite Hn | |].
  - destruct B3 as [|[B3 B5]]; [by left | right]. split; [by apply same_selection |].
    unfold lock_script. by rewrite Hpair, same_creator, same_designated.
  - eapply Forall_impl; [exact B4 |]. intros c [C1 C2]. unfold command_ok. by rewrite Hpair, same_designated.
Qed.

End Same.

Lemma invalid_inv l issued : lock_base l issued -> lock_inv (invalidate l, observed issued (invalidate l)).
Proof. intros Hb. split; [by apply (same_base (l := l)) | done]. Qed.

Lemma fresh_id l issued : lock_base l issued -> existsb (fun d => command_id d =? next_id_ l) issued = false.
Proof.
  intros [B1 B2 _ _]. apply not_true_iff_false. rewrite existsb_exists. intros (d & Hd & E%Z.eqb_eq).
  apply list_elem_of_In in Hd. apply (list_elem_of_fmap_2 command_id) in Hd. rewrite B1, E, B2 in Hd.
  apply elem_of_seqZ in Hd. lia.
Qed.

Lemma issue_inv l issued k p :
  lock_base l issued -> pending_ l = None -> selection_ok l -> lock_due l issued k ->
  (p = true -> designated l = true /\ (k = CreateBearer \/ k = JoinBearer)) ->
  lock_inv ((issue k p l).2, observed issued (issue k p l).2).
Proof.
  intros Hb Hp Hs Hd Hprompt. unfold issue. destruct (_ || _) eqn:G; [by apply invalid_inv |]. bool_hyps.
  set (c := mkCommand (next_id_ l) (generation (pair_ l)) k (evidence_ l) (credential_hash_ l) p).
  assert (observed issued (true, l <| pending_ := Some c |> <| next_id_ := next_id_ l + 1 |>
            <| lock_phase_ := LockPending |>).2 = issued ++ [c]) as ->
    by (unfold observed, poll; cbn -[existsb]; by rewrite (fresh_id l)).
  split; cbn [fst snd].
  - destruct Hb as [B1 B2 B3 B4]. split.
    + rewrite fmap_app, zlen_app, B1. change (zlen [c]) with 1. change (command_id <$> [c]) with [next_id_ l].
      pose proof (zlen_nonneg issued). rewrite B2, seqZ_app by lia. f_equal.
      change (seqZ (1 + zlen issued) 1) with [0 + (1 + zlen issued)]. f_equal. lia.
    + rewrite zlen_app. change (zlen [c]) with 1. cbn. lia.
    + right. split; [by apply (same_selection (l := l)) |]. unfold kinds. rewrite fmap_app.
      apply (due_snoc _ _ _ _ _ Hd).
    + apply Forall_app. split; [| by apply Forall_singleton].
      eapply Forall_impl; [exact B4 |]. intros d Hc. exact Hc.
  - change (lock_failed_ (l <| pending_ := Some c |> <| next_id_ := next_id_ l + 1 |>
              <| lock_phase_ := LockPending |>)) with (lock_failed_ l).
    match goal with H : lock_failed_ l = false |- _ => rewrite H end.
    split; [by apply (same_selection (l := l)) |]. by exists c, issued.
Qed.

(** The first command is due at the start; the next one after the pending one. *)
Lemma first_due l issued :
  issued = [] -> lock_due l issued (if local_role (pair_ l) =? Initiator then PersistPlan else PersistPlanAndLock).
Proof.
  intros ->. split; [done |]. unfold script, opening_script. by destruct (_ =? _).
Qed.

Lemma next_due l issued before c k :
  lock_base l issued -> issued = before ++ [c] ->
  after (local_role (pair_ l)) (creator l) (designated l) (command_kind c) = Some k -> lock_due l issued k.
Proof.
  intros [_ _ [->|[_ B3]] _] E Ha; [by destruct before |]. subst issued. unfold lock_due, kinds in *.
  rewrite fmap_app in *. by apply due_after.
Qed.

Lemma pending_side l issued before c :
  lock_base l issued -> issued = before ++ [c] ->
  exists i, lock_script l !! i = Some (command_kind c).
Proof.
  intros [_ _ [->|[_ B3]] _] E; [by destruct before |]. subst issued. unfold kinds in B3. rewrite fmap_app in B3.
  by eapply last_side.
Qed.

(** *** The calls *)

Lemma lock_begin_inv evidence l issued :
  lock_inv (l, issued) ->
  lock_inv ((lock_begin evidence l).2, observed issued (lock_begin evidence l).2).
Proof.
  intros [Hb Hst]. cbn [fst snd] in *. unfold lock_begin.
  destruct (_ || negb (any_nonzero (responder_capability evidence))) eqn:G; [by apply invalid_inv |]. bool_hyps.
  match goal with H : lock_failed_ l = false |- _ => rewrite H in Hst; rename H into Hf end.
  match goal with H : lock_phase_ l = LockIdle |- _ => unfold lock_stage in Hst; rewrite H in Hst end.
  match goal with H : valid_role _ = true |- _ => rename H into Hrole end.
  destruct Hst as [-> Hp]. destruct (select_pair_plan _ _) as [selection selected] eqn:Hsel.
  assert (forall l', next_id_ l' = next_id_ l -> lock_base l' []) as Hb'.
  { intros l' E. destruct Hb as [B1 B2 _ _]. split; [done | by rewrite E | by left | constructor]. }
  destruct (decide (selection <> SelectionOk)) as [N|E]; [by apply invalid_inv, Hb' |].
  apply dec_stable in E. subst selection. cbn [snd].
  match goal with |- lock_inv (?x, _) => set (l' := x) end.
  assert (pending_ l' = None) as Hp' by (by rewrite <- Hp).
  assert (observed [] l' = []) as -> by (unfold observed, poll; by rewrite Hp').
  split; [by apply Hb' |]. cbn [fst snd]. assert (lock_failed_ l' = false) as -> by (by rewrite <- Hf).
  unfold lock_stage. change (lock_phase_ l') with LockPlan. cbv iota. split_and!; [done | done |]. by split.
Qed.

(** A call out of its phase invalidates; in its phase it issues what is due. *)
Section Accepting.
Variables (l : InitialPlanLock) (issued : list InitialPlanCommand).
Hypothesis Hinv : lock_inv (l, issued).

Lemma accept_plan_inv e : lock_inv ((accept_plan e l).2, observed issued (accept_plan e l).2).
Proof using Hinv.
  destruct Hinv as [Hb Hst]. cbn [fst snd] in *. unfold accept_plan. destruct (_ || _) eqn:G; [by apply invalid_inv |].
  bool_hyps. unfold valid_binding in *. bool_hyps.
  match goal with H : lock_failed_ l = false |- _ => rewrite H in Hst end.
  match goal with H : lock_phase_ l = _ |- _ => unfold lock_stage in Hst; rewrite H in Hst end.
  destruct Hst as (-> & Hp & Hs). apply issue_inv; [by apply (same_base (l := l)) | done | done | | done].
  exact (first_due (l <| evidence_ := e |>) [] eq_refl).
Qed.

Lemma accept_ack_inv e : lock_inv ((accept_ack e l).2, observed issued (accept_ack e l).2).
Proof using Hinv.
  destruct Hinv as [Hb Hst]. cbn [fst snd] in *. unfold accept_ack. destruct (_ || _) eqn:G; [by apply invalid_inv |].
  bool_hyps. unfold valid_binding in *. bool_hyps.
  match goal with H : lock_failed_ l = false |- _ => rewrite H in Hst end.
  match goal with H : lock_phase_ l = _ |- _ => unfold lock_stage in Hst; rewrite H in Hst end.
  destruct Hst as (Hp & Hs & Hd). apply issue_inv; [by apply (same_base (l := l)) | done | done | exact Hd | done].
Qed.

Lemma accept_final_inv e : lock_inv ((accept_final e l).2, observed issued (accept_final e l).2).
Proof using Hinv.
  destruct Hinv as [Hb Hst]. cbn [fst snd] in *. unfold accept_final. destruct (_ || _) eqn:G; [by apply invalid_inv |].
  bool_hyps. unfold valid_binding in *. bool_hyps.
  match goal with H : lock_failed_ l = false |- _ => rewrite H in Hst end.
  match goal with H : lock_phase_ l = _ |- _ => unfold lock_stage in Hst; rewrite H in Hst end.
  destruct Hst as (Hp & Hs & Hd). apply issue_inv; [by apply (same_base (l := l)) | done | done | exact Hd | done].
Qed.

Lemma accept_credentials_inv e : lock_inv ((accept_credentials e l).2, observed issued (accept_credentials e l).2).
Proof using Hinv.
  destruct Hinv as [Hb Hst]. cbn [fst snd] in *. unfold accept_credentials.
  destruct (_ || negb (any_nonzero _)) eqn:G; [by apply invalid_inv |].
  bool_hyps. unfold valid_binding in *. bool_hyps.
  match goal with H : lock_failed_ l = false |- _ => rewrite H in Hst end.
  match goal with H : lock_phase_ l = _ |- _ => unfold lock_stage in Hst; rewrite H in Hst end.
  destruct Hst as (Hp & Hs & Hd). apply issue_inv; [by apply (same_base (l := l)) | done | done | exact Hd | done].
Qed.

End Accepting.
(** The reports.  The pending command was the last one issued. *)
Lemma issue_bearer_inv l issued :
  lock_base l issued -> pending_ l = None -> selection_ok l ->
  lock_due l issued (bearer_kind (creator l)) ->
  lock_inv ((issue_bearer l).2, observed issued (issue_bearer l).2).
Proof.
  intros Hb Hp Hs Hd. unfold issue_bearer. destruct (_ || _); [by apply invalid_inv |].
  destruct (_ && _); [by apply invalid_inv |]. apply issue_inv; try done.
  intros ->. split; [done |]. destruct (creator l); auto.
Qed.

Lemma authorize_bearer_inv l issued :
  lock_base l issued -> pending_ l = None -> selection_ok l ->
  lock_due l issued (if designated l then PersistPromptConsumed else bearer_kind (creator l)) ->
  lock_inv ((authorize_bearer l).2, observed issued (authorize_bearer l).2).
Proof.
  intros Hb Hp Hs Hd. unfold authorize_bearer. destruct (negb _); [by apply invalid_inv |].
  destruct (designated l); [| by apply issue_bearer_inv]. destruct (prompt_consumed_ l); [by apply invalid_inv |].
  by apply issue_inv.
Qed.

(** A report that only moves to a waiting phase. *)
Lemma waiting_inv l l' issued :
  lock_base l issued -> pair_ l' = pair_ l -> selected_ l' = selected_ l -> next_id_ l' = next_id_ l ->
  pending_ l' = None -> lock_stage l' issued -> lock_inv (l', observed issued l').
Proof.
  intros Hb H1 H2 H3 Hp Hst. unfold observed, poll. rewrite Hp. split; [by apply (same_base (l := l)) |].
  cbn [fst snd]. by destruct (lock_failed_ l').
Qed.

Lemma complete_inv id g success l issued :
  lock_inv (l, issued) -> lock_inv ((complete id g success l).2, observed issued (complete id g success l).2).
Proof.
  intros [Hb Hst]. cbn [fst snd] in *. unfold complete. destruct (pending_ l) as [c|] eqn:Hp; [| by apply invalid_inv].
  destruct (_ || negb success) eqn:G; [by apply invalid_inv |]. bool_hyps.
  match goal with H : lock_failed_ l = false |- _ => rewrite H in Hst end.
  assert (selection_ok l /\ exists before, issued = before ++ [c]) as (Hs & before & E).
  { unfold lock_stage in Hst. destruct (lock_phase_ l); try (decompose_hyps; congruence).
    destruct Hst as (Hs & c' & before & Hc & E). split; [done |]. exists before. congruence. }
  pose proof (fun k => next_due l issued before c k Hb E) as Hnext.
  destruct (pending_side l issued before c Hb E) as [i Hi]. apply script_side in Hi.
  set (l0 := l <| pending_ := None |>).
  assert (lock_base l0 issued) as Hb0 by (by apply (same_base (l := l))).
  assert (selection_ok l0) as Hs0 by done. assert (pending_ l0 = None) as Hp0 by done.
  change (creator l0) with (creator l). change (local_role (pair_ l0)) with (local_role (pair_ l)).
  destruct (command_kind c); cbn [after] in Hnext; cbv zeta; try specialize (Hnext _ eq_refl).
  all: try (apply issue_inv; [done|done|done|exact Hnext|done]).
  all: try (apply (waiting_inv l); [done|done|done|done|done|unfold lock_stage; cbn -[lock_due selection_ok]; rewrite ?Hi; split_and?; try done; exact Hnext]).
  - change (creator (l0 <| mutually_locked_ := true |>)) with (creator l). destruct (creator l) eqn:Hc.
    + apply authorize_bearer_inv; [by apply (same_base (l := l)) | done | done |].
      change (lock_due l issued (if designated l then PersistPromptConsumed else bearer_kind (creator l))).
      by rewrite Hc.
    + apply (waiting_inv l); done.
  - by apply issue_bearer_inv; [apply (same_base (l := l)) | | |].
  - destruct (creator l) eqn:Hc; [by apply issue_inv |]. apply authorize_bearer_inv; [done | done | done |].
    change (lock_due l issued (if designated l then PersistPromptConsumed else bearer_kind (creator l))).
    by rewrite Hc.
Qed.

Lemma lock_call_inv call l issued :
  lock_inv (l, issued) -> lock_inv (lock_call call l, observed issued (lock_call call l)).
Proof.
  intros Hinv. destruct call; cbn [lock_call].
  - by apply lock_begin_inv.
  - by apply accept_plan_inv.
  - by apply accept_ack_inv.
  - by apply accept_final_inv.
  - by apply accept_credentials_inv.
  - by apply complete_inv.
  - apply invalid_inv, Hinv.
Qed.

Lemma run_lock_inv calls : lock_inv (run_lock calls).
Proof.
  unfold run_lock. induction calls as [|call calls IH] using rev_ind.
  - split; [| done]. split; [done | done | by left | constructor].
  - rewrite fold_left_app. cbn [fold_left]. destruct (fold_left lock_step calls (lock_new, [])) as [l issued].
    unfold lock_step. cbn [fst snd]. exact (lock_call_inv call l issued IH).
Qed.

(** A command of the run is a command of the script. *)
Lemma issued_side calls c :
  c ∈ (run_lock calls).2 ->
  selection_ok (run_lock calls).1 /\ command_ok (run_lock calls).1 c /\
  exists i, lock_script (run_lock calls).1 !! i = Some (command_kind c).
Proof.
  intros Hc. destruct (run_lock_inv calls) as [[_ _ B3 B4] _]. rewrite Forall_forall in B4.
  destruct B3 as [E|[Hs B3]]; [by rewrite E in Hc; apply not_elem_of_nil in Hc |]. split_and!; [done | by apply B4 |].
  apply (list_elem_of_fmap_2 command_kind) in Hc. unfold kinds in B3. rewrite B3 in Hc.
  apply list_elem_of_lookup in Hc as [i Hi]. exists i. by apply lookup_take_Some in Hi as [Hi _].
Qed.

(** C19. Whatever is called on a lock, in whatever order, the commands it issues are a
    prefix of the one script its role, the creator and the prompting side of the selected
    plan fix; they are numbered 1, 2, 3 and carry the generation of the pairing, whose
    evidence is authentic and whose summaries select that plan.  A system prompt is allowed
    only on the bearer command, and only on the designated side. *)
Theorem commands_follow_script (calls : list LockCall) :
  let l := (run_lock calls).1 in
  let issued := (run_lock calls).2 in
  command_kind <$> issued = take (length issued) (script (local_role (pair_ l)) (creator l) (designated l)) /\
  command_id <$> issued = seqZ 1 (zlen issued) /\
  (issued <> [] ->
   authenticated (pair_ l) = true /\
   select_pair_plan (Some (initiator_summary (pair_ l))) (Some (responder_summary (pair_ l))) =
     (SelectionOk, selected_ l)) /\
  (forall c, c ∈ issued ->
   command_generation c = generation (pair_ l) /\
   (may_prompt c = true -> designated l = true /\ (command_kind c = CreateBearer \/ command_kind c = JoinBearer))).
Proof.
  cbv zeta. destruct (run_lock_inv calls) as [[B1 _ B3 B4] _]. rewrite Forall_forall in B4. split_and!.
  - destruct B3 as [E|[_ B3]]; [by rewrite E |]. unfold kinds in B3. by rewrite length_fmap in B3.
  - exact B1.
  - intros N. destruct B3 as [?|[(H1 & _ & H2) _]]; [done | by split].
  - exact B4.
Qed.

(** One side creates, one side joins, one side prompts: of two locks with the same
    capability summaries and opposite roles, whatever each was told, no command of one and
    command of the other both create the bearer, both join it, or both allow a prompt. *)
Theorem one_side_creates (ours theirs : list LockCall) (c d : InitialPlanCommand) :
  let l := (run_lock ours).1 in
  let r := (run_lock theirs).1 in
  initiator_summary (pair_ l) = initiator_summary (pair_ r) ->
  responder_summary (pair_ l) = responder_summary (pair_ r) ->
  local_role (pair_ l) <> local_role (pair_ r) ->
  c ∈ (run_lock ours).2 -> d ∈ (run_lock theirs).2 ->
  ~ (command_kind c = CreateBearer /\ command_kind d = CreateBearer) /\
  ~ (command_kind c = JoinBearer /\ command_kind d = JoinBearer) /\
  ~ (may_prompt c = true /\ may_prompt d = true).
Proof.
  cbv zeta. intros Hi Hr Hrole Hc Hd.
  destruct (issued_side ours c Hc) as ((S1 & R1 & _) & (_ & P1) & i & I1).
  destruct (issued_side theirs d Hd) as ((S2 & R2 & _) & (_ & P2) & j & J1).
  apply script_side in I1, J1. rewrite Hi, Hr, S2 in S1. injection S1 as Hsel.
  apply selected_roles in S2 as [Hcreator _]. unfold creator, designated, valid_role in *. rewrite <- Hsel in *.
  split_and!; intros [E1 E2].
  - rewrite E1 in I1. rewrite E2 in J1. lia.
  - rewrite E1 in I1. rewrite E2 in J1. unfold Initiator, Responder in *. lia.
  - destruct (P1 E1) as [D1 _], (P2 E2) as [D2 _]. lia.
Qed.

(** Both sides of one attempt: the initiator creates the bearer, the responder joins it. *)
Definition attempt_pair (role : Z) : VerifiedPairEvidence :=
  seal_for_authenticated_pipeline
    (mkEvidence role 7 (replicate 32 1) (replicate 32 2) (replicate 32 3) (replicate 32 4) (replicate 32 5)
       demo_capability demo_capability (zero_bytes 32)).

Definition attempt_plan (sender : Z) (ack final : bytes) : VerifiedPlanEvidence :=
  mkPlanEvidence 7 sender (other sender) (replicate 32 1) (replicate 32 2) (replicate 32 3) (replicate 32 4)
    (replicate 32 5) (demo_plan 2 10 2 5) (selected_bearer_plan_hash_v1 (demo_plan 2 10 2 5)) (replicate 32 6) ack final.

Definition attempt (role : Z) : list LockCall :=
  let ack := replicate 32 7 in
  let final := replicate 32 8 in
  let done := fun id => CallComplete id 7 true in
  [CallLockBegin (attempt_pair role); CallPlan (attempt_plan Initiator (zero_bytes 32) (zero_bytes 32))] ++
  (if role =? Initiator then done <$> [1; 2] else [done 1]) ++
  [CallAck (attempt_plan Responder ack (zero_bytes 32))] ++
  (if role =? Initiator then [done 3] else done <$> [2; 3]) ++
  [CallFinal (attempt_plan Initiator ack final)] ++
  (if role =? Initiator then done <$> [4; 5; 6; 7] else done <$> [4; 5]) ++
  [CallCredentials (mkCredential (attempt_plan Initiator ack final) (replicate 32 9))] ++
  (if role =? Initiator then done <$> [8; 9] else done <$> [6; 7]).

Definition side_of (l : InitialPlanLock) : Z * bytes * bytes :=
  (local_role (pair_ l), initiator_summary (pair_ l), responder_summary (pair_ l)).

(** What the examples look at, in one evaluation of the run. *)
Definition seen (r : InitialPlanLock * list InitialPlanCommand) : list InitialPlanCommandKind * (Z * bytes * bytes) :=
  (command_kind <$> r.2, side_of r.1).

Lemma initiator_run :
  seen (run_lock (attempt Initiator)) =
  ([PersistPlan; SendPlan; PersistAckAndLock; PersistFinal; SendFinal; PersistMutualLock; CreateBearer;
    PersistCredentials; PublishCredentials], (Initiator, demo_capability, demo_capability)).
Proof. vm_compute. reflexivity. Qed.

Lemma responder_run :
  seen (run_lock (attempt Responder)) =
  ([PersistPlanAndLock; PersistAck; SendAck; PersistFinal; PersistMutualLock; PersistCredentials; JoinBearer],
   (Responder, demo_capability, demo_capability)).
Proof. vm_compute. reflexivity. Qed.

Lemma seen_kinds r kinds side : seen r = (kinds, side) -> command_kind <$> r.2 = kinds.
Proof. by intros [= -> _]. Qed.

Lemma seen_side r kinds side : seen r = (kinds, side) -> side_of r.1 = side.
Proof. by intros [= _ ->]. Qed.

Example attempt_runs :
  command_kind <$> (run_lock (attempt Initiator)).2 =
    [PersistPlan; SendPlan; PersistAckAndLock; PersistFinal; SendFinal; PersistMutualLock; CreateBearer;
     PersistCredentials; PublishCredentials] /\
  command_kind <$> (run_lock (attempt Responder)).2 =
    [PersistPlanAndLock; PersistAck; SendAck; PersistFinal; PersistMutualLock; PersistCredentials; JoinBearer].
Proof. exact (conj (seen_kinds _ _ _ initiator_run) (seen_kinds _ _ _ responder_run)). Qed.

Definition command_at (l : list InitialPlanCommand) (i : nat) : InitialPlanCommand :=
  default (mkCommand 0 0 PersistPlan plan_evidence0 [] false) (l !! i).

Lemma command_at_kind l i kinds k :
  command_kind <$> l = kinds -> kinds !! i = Some k -> command_at l i ∈ l /\ command_kind (command_at l i) = k.
Proof.
  intros <- H. rewrite list_lookup_fmap in H. unfold command_at. destruct (l !! i) as [c|] eqn:E; [| done].
  injection H as <-. split; [by eapply list_elem_of_lookup_2 | done].
Qed.

Definition attempt_command (role : Z) (i : nat) : InitialPlanCommand := command_at (run_lock (attempt role)).2 i.

Definition attempt_creates :=
  command_at_kind (run_lock (attempt Initiator)).2 6 _ CreateBearer (seen_kinds _ _ _ initiator_run) eq_refl.

Definition attempt_joins :=
  command_at_kind (run_lock (attempt Responder)).2 6 _ JoinBearer (seen_kinds _ _ _ responder_run) eq_refl.

Lemma same_attempt l r a b :
  side_of l = (Initiator, a, b) -> side_of r = (Responder, a, b) ->
  initiator_summary (pair_ l) = initiator_summary (pair_ r) /\
  responder_summary (pair_ l) = responder_summary (pair_ r) /\ local_role (pair_ l) <> local_role (pair_ r).
Proof. intros [= -> -> ->] [= -> -> ->]. done. Qed.

Definition attempt_same :=
  same_attempt (run_lock (attempt Initiator)).1 (run_lock (attempt Responder)).1 demo_capability demo_capability
    (seen_side _ _ _ initiator_run) (seen_side _ _ _ responder_run).

Lemma one_side_creates_witness :
  command_kind (attempt_command Initiator 6) = CreateBearer /\ command_kind (attempt_command Responder 6) = JoinBearer /\
  ~ (command_kind (attempt_command Initiator 6) = JoinBearer /\ command_kind (attempt_command Responder 6) = JoinBearer).
Proof.
  split; [exact (proj2 attempt_creates) |]. split; [exact (proj2 attempt_joins) |].
  exact (proj1 (proj2 (one_side_creates (attempt Initiator) (attempt Responder) (attempt_command Initiator 6)
    (attempt_command Responder 6) (proj1 attempt_same) (proj1 (proj2 attempt_same)) (proj2 (proj2 attempt_same))
    (proj1 attempt_creates) (proj1 attempt_joins)))).
Defined.
