(* ===== verification/LanWire.v ===== *)
(** * LAN MVP framing ([shared/src/session/lan_mvp/wire.{hpp,cpp}])

    A message travels as a 16-bit big-endian body size followed by the body: one
    kind byte and the payload.  This file models the encoder and the incremental
    [Decoder] that reassembles messages from arbitrary stream chunks, and proves
    that framing is lossless under every chunking, that the decoder's buffer
    stays bounded whatever the peer sends, and that failure is absorbing. *)

From S2P Require Import Prelude.

(** ** Definitions *)

Definition kMaxBodySize : Z := 1024.

(** [enum class Kind : std::uint8_t]; the decoder casts any byte to the enum, so
    a value without an enumerator is a value of the type too. *)
Inductive Kind :=
  | Join | Accept | Config | Ready | Start | Input | Digest | End
  | LobbyRequest | Lobby | LobbyAck | Pause
  | UnnamedKind (code : Z).

#[global] Instance Kind_eq_dec : EqDecision Kind.
Proof. solve_decision. Defined.

Definition kind_code (kind : Kind) : Z :=
  match kind with
  | Join => 1 | Accept => 2 | Config => 3 | Ready => 4 | Start => 5
  | Input => 6 | Digest => 7 | End => 8 | LobbyRequest => 9 | Lobby => 10
  | LobbyAck => 11 | Pause => 12
  | UnnamedKind code => code
  end.

(** [static_cast<Kind>(byte)]. *)
Definition kind_of_code (b : Z) : Kind :=
  match b with
  | 1 => Join | 2 => Accept | 3 => Config | 4 => Ready | 5 => Start
  | 6 => Input | 7 => Digest | 8 => End | 9 => LobbyRequest | 10 => Lobby
  | 11 => LobbyAck | 12 => Pause
  | _ => UnnamedKind b
  end.

Record Message := mkMessage { kind : Kind; payload : bytes }.

(** [bool encode(Kind, const vector&, vector* output)]: [None] is the null
    output pointer. *)
Definition encode (kind : Kind) (payload : bytes) (output : option bytes)
    : bool * option bytes :=
  match output with
  | None => (false, None)
  | Some _ =>
    if (kMaxBodySize <? zlen payload + 1) || (65535 <? zlen payload + 1)
    then (false, output)
    else
      let body_size := u16 (zlen payload + 1) in
      (true, Some ([u8 (Z.shiftr body_size 8); u8 (Z.land body_size 255);
                    kind_code kind] ++ payload))
  end.

Record Decoder := mkDecoder { bytes_ : bytes; failed_ : bool }.

Definition Decoder_new : Decoder := mkDecoder [] false.

(** The size field of the frame at the front of the buffer. *)
Definition front_body_size (b : bytes) : Z :=
  Z.lor (Z.shiftl (at_ b 0) 8) (at_ b 1).

Definition validate_front (d : Decoder) : bool * Decoder :=
  if failed_ d || (zlen (bytes_ d) <? 2) then (negb (failed_ d), d)
  else
    let body_size := front_body_size (bytes_ d) in
    if (body_size =? 0) || (kMaxBodySize <? body_size)
    then (false, mkDecoder [] true)
    else (true, d).

(** [bytes = None] is the null pointer. *)
Definition push (d : Decoder) (bytes : option bytes) (size : Z) : bool * Decoder :=
  if failed_ d || (bool_decide (bytes = None) && negb (size =? 0))
  then (false, d)
  else validate_front
         (mkDecoder (bytes_ d ++ slice (default [] bytes) 0 size) (failed_ d)).

(** [message = None] is the null pointer; the third component is what the
    pointed-to message holds afterwards. *)
Definition pop (d : Decoder) (message : option Message)
    : bool * Decoder * option Message :=
  match message with
  | None => (false, d, None)
  | Some _ =>
    let '(valid, d) := validate_front d in
    if negb valid || (zlen (bytes_ d) <? 2) then (false, d, message)
    else
      let body_size := front_body_size (bytes_ d) in
      if zlen (bytes_ d) <? body_size + 2 then (false, d, message)
      else
        let m := mkMessage (kind_of_code (at_ (bytes_ d) 2))
                           (slice (bytes_ d) 3 (body_size - 1)) in
        let '(ok, d') :=
          validate_front
            (mkDecoder (drop (Z.to_nat (body_size + 2)) (bytes_ d)) (failed_ d)) in
        (ok, d', Some m)
  end.

(** The consumer's loop [while (decoder.pop(&message)) handle(message)] with a
    handler that only collects: the messages delivered, and the decoder left. *)
Fixpoint drain (fuel : nat) (d : Decoder) (scratch : Message) : list Message * Decoder :=
  match fuel with
  | O => ([], d)
  | S fuel =>
    match pop d (Some scratch) with
    | (true, d', Some m) => let '(ms, d'') := drain fuel d' m in (m :: ms, d'')
    | (_, d', _) => ([], d')
    end
  end.

(** Feed the chunks of a stream, draining after each. *)
Fixpoint feed (d : Decoder) (chunks : list bytes) : list Message * Decoder :=
  match chunks with
  | [] => ([], d)
  | c :: rest =>
    let d1 := (push d (Some c) (zlen c)).2 in
    let '(ms, d2) := drain (length (bytes_ d1)) d1 (mkMessage Join []) in
    let '(ms', d3) := feed d2 rest in (ms ++ ms', d3)
  end.

(** A message the encoder accepts and the decoder can name. *)
Definition encodable (m : Message) : Prop :=
  zlen (payload m) + 1 <= kMaxBodySize /\ kind_of_code (kind_code (kind m)) = kind m.

Definition frame_of (m : Message) : bytes :=
  default [] (encode (kind m) (payload m) (Some [])).2.

Definition stream_of (ms : list Message) : bytes := concat (frame_of <$> ms).

(** ** Lemmas *)

Lemma kind_of_code_code c : kind_code (kind_of_code c) = c.
Proof. unfold kind_of_code. repeat case_match; reflexivity. Qed.

Lemma frame_of_eq m :
  encodable m ->
  frame_of m = be_bytes 2 (zlen (payload m) + 1) ++ [kind_code (kind m)] ++ payload m.
Proof.
  intros [Hs _]. unfold frame_of, encode, kMaxBodySize in *.
  pose proof (zlen_nonneg (payload m)).
  destruct (1024 <? _) eqn:E1; bool_hyps; [lia |].
  destruct (65535 <? _) eqn:E2; bool_hyps; [lia |]. simpl.
  unfold u16. rewrite Z.mod_small by lia.
  change 255 with (Z.ones 8). rewrite Z.land_ones by lia.
  unfold u8 at 2. change (2 ^ 8) with 256. rewrite Z.mod_mod by lia. done.
Qed.

Lemma zlen_frame m : encodable m -> zlen (frame_of m) = zlen (payload m) + 3.
Proof.
  intros Hm. rewrite frame_of_eq by done. unfold zlen.
  rewrite !length_app, length_be_bytes. simpl. lia.
Qed.

Lemma front_body_size_be v l :
  0 <= v < 2 ^ 16 -> front_body_size (be_bytes 2 v ++ l) = v.
Proof. intros Hv. exact (be_value_be_bytes_small 2 v Hv). Qed.

Lemma front_body_size_frame m rest :
  encodable m -> front_body_size (frame_of m ++ rest) = zlen (payload m) + 1.
Proof.
  intros Hm. rewrite frame_of_eq, <- app_assoc by done.
  pose proof (zlen_nonneg (payload m)). destruct Hm as [Hm _]. unfold kMaxBodySize in *.
  apply front_body_size_be. lia.
Qed.

(** The two size bytes are read from the front only. *)
Lemma front_body_size_prefix b rest :
  2 <= zlen b -> front_body_size (b ++ rest) = front_body_size b.
Proof. destruct b as [|x [|y b]]; unfold zlen; simpl; (lia || done). Qed.

(** What [validate_front] accepts. *)
Definition valid_front (b : bytes) : Prop :=
  zlen b < 2 \/ (front_body_size b <> 0 /\ front_body_size b <= kMaxBodySize).

Lemma validate_front_true b :
  valid_front b -> validate_front (mkDecoder b false) = (true, mkDecoder b false).
Proof.
  unfold valid_front, validate_front. simpl. intros Hv.
  destruct (zlen b <? 2) eqn:E; [done |]. bool_hyps.
  destruct (front_body_size b =? 0) eqn:E1; bool_hyps; [lia |].
  destruct (kMaxBodySize <? front_body_size b) eqn:E2; bool_hyps; [lia |]. done.
Qed.

Lemma push_eq b c :
  push (mkDecoder b false) (Some c) (zlen c) = validate_front (mkDecoder (b ++ c) false).
Proof. unfold push. simpl. by rewrite slice_all. Qed.

(** [b] holds no complete frame of the messages still to come. *)
Definition incomplete (b : bytes) (ms : list Message) : Prop :=
  match ms with [] => b = [] | m :: _ => zlen b < zlen (frame_of m) end.

Lemma stream_prefix_valid b rest ms :
  Forall encodable ms -> b ++ rest = stream_of ms -> valid_front b.
Proof.
  intros Hms Hb. destruct (decide (zlen b < 2)); [by left | right].
  destruct Hms as [|m ms Hm Hms].
  { apply app_nil in Hb as [-> ->]. done. }
  rewrite <- (front_body_size_prefix b rest), Hb by lia.
  change (stream_of (m :: ms)) with (frame_of m ++ stream_of ms).
  rewrite front_body_size_frame by done.
  pose proof (zlen_nonneg (payload m)). destruct Hm. lia.
Qed.

(** [pop] on a buffer whose first frame is complete. *)
Lemma pop_frame m rest x :
  encodable m ->
  pop (mkDecoder (frame_of m ++ rest) false) (Some x) =
  let '(ok, d) := validate_front (mkDecoder rest false) in (ok, d, Some m).
Proof.
  intros Hm. pose proof (zlen_frame m Hm) as Hlen.
  pose proof (zlen_nonneg (payload m)). pose proof (zlen_nonneg rest).
  unfold pop. rewrite validate_front_true; simpl.
  2:{ right. rewrite front_body_size_frame by done. destruct Hm. lia. }
  rewrite front_body_size_frame, zlen_app, Hlen by done.
  destruct (_ <? 2) eqn:E; bool_hyps; [lia |].
  destruct (_ <? _) eqn:E2; bool_hyps; [lia |].
  replace (Z.to_nat (zlen (payload m) + 1 + 2)) with (length (frame_of m))
    by (unfold zlen in *; lia).
  rewrite drop_app_length. destruct (validate_front _) as [ok d].
  repeat f_equal. destruct m as [k p]. rewrite (frame_of_eq _ Hm).
  destruct Hm as [_ Hk]. simpl in *. unfold at_, slice, zlen. simpl. rewrite Hk.
  replace (Z.to_nat (Z.of_nat (length p) + 1 - 1)) with (length p) by lia.
  by rewrite drop_0, take_app_length.
Qed.

(** One [pop] on a buffer holding a prefix of an honest stream. *)
Lemma pop_stream b rest ms x :
  Forall encodable ms -> b ++ rest = stream_of ms ->
  (exists m ms' b', ms = m :: ms' /\ b = frame_of m ++ b' /\ b' ++ rest = stream_of ms' /\
     pop (mkDecoder b false) (Some x) = (true, mkDecoder b' false, Some m)) \/
  (incomplete b ms /\
     pop (mkDecoder b false) (Some x) = (false, mkDecoder b false, Some x)).
Proof.
  intros Hms Hb. pose proof (stream_prefix_valid _ _ _ Hms Hb) as Hv.
  destruct ms as [|m ms].
  { right. apply app_nil in Hb as [-> ->]. done. }
  apply Forall_cons in Hms as [Hm Hms].
  change (stream_of (m :: ms)) with (frame_of m ++ stream_of ms) in Hb.
  pose proof (zlen_frame m Hm) as Hlen. pose proof (zlen_nonneg (payload m)) as Hp.
  destruct (decide (zlen b < zlen (frame_of m))) as [Hlt|Hge].
  - right. split; [done |]. unfold pop. rewrite validate_front_true by done. simpl.
    destruct (zlen b <? 2) eqn:E; [done |]. bool_hyps.
    rewrite <- (front_body_size_prefix b rest), Hb, front_body_size_frame by (done || lia).
    destruct (zlen b <? _) eqn:E2; bool_hyps; [done | lia].
  - left. assert (exists b', b = frame_of m ++ b' /\ b' ++ rest = stream_of ms) as (b' & -> & Hb').
    { apply app_eq_app in Hb as (l & [[-> ->]|[Heq ->]]); [eauto |].
      rewrite Heq, zlen_app in Hge. destruct l; [|rewrite zlen_cons in *; pose proof (zlen_nonneg l); lia].
      exists []. rewrite app_nil_r in *. by subst. }
    exists m, ms, b'. split_and!; try done.
    rewrite pop_frame by done.
    by rewrite validate_front_true by eauto using stream_prefix_valid.
Qed.

Lemma drain_stream fuel b rest ms x :
  Forall encodable ms -> b ++ rest = stream_of ms -> (length b <= fuel)%nat ->
  exists ms1 ms2 b', ms = ms1 ++ ms2 /\ b' ++ rest = stream_of ms2 /\ incomplete b' ms2 /\
    drain fuel (mkDecoder b false) x = (ms1, mkDecoder b' false).
Proof.
  revert b ms x. induction fuel as [|fuel IH]; intros b ms x Hms Hb Hf.
  { destruct b; [|simpl in *; lia]. exists [], ms, []. split_and!; try done.
    destruct Hms as [|m ms Hm]; [done |]. simpl. rewrite zlen_frame by done.
    rewrite zlen_nil. pose proof (zlen_nonneg (payload m)). lia. }
  destruct (pop_stream b rest ms x Hms Hb) as [(m & ms' & b' & -> & -> & Hb' & E)|[Hinc E]].
  - apply Forall_cons in Hms as [Hm Hms].
    destruct (IH b' ms' m) as (ms1 & ms2 & b2 & -> & Hb2 & Hinc & E2); [done..| |].
    { rewrite length_app in Hf. pose proof (zlen_frame m Hm).
      pose proof (zlen_nonneg (payload m)). unfold zlen in *. lia. }
    exists (m :: ms1), ms2, b2. cbn [drain]. rewrite E, E2. done.
  - exists [], ms, b. cbn [drain]. rewrite E. done.
Qed.

Lemma feed_stream chunks b ms :
  Forall encodable ms -> b ++ concat chunks = stream_of ms -> incomplete b ms ->
  feed (mkDecoder b false) chunks = (ms, mkDecoder [] false).
Proof.
  revert b ms. induction chunks as [|c chunks IH]; intros b ms Hms Hb Hinc.
  { simpl in Hb. rewrite app_nil_r in Hb. destruct ms as [|m ms]; simpl in *; [by subst |].
    subst b. change (stream_of (m :: ms)) with (frame_of m ++ stream_of ms) in Hinc.
    rewrite zlen_app in Hinc. pose proof (zlen_nonneg (stream_of ms)). lia. }
  cbn [concat] in Hb. rewrite app_assoc in Hb.
  cbn [feed]. rewrite push_eq, validate_front_true by eauto using stream_prefix_valid.
  cbn [snd bytes_].
  destruct (drain_stream (length (b ++ c)) (b ++ c) (concat chunks) ms (mkMessage Join []))
    as (ms1 & ms2 & b2 & -> & Hb2 & Hinc2 & E); [done..|].
  rewrite E. apply Forall_app in Hms as [_ Hms2].
  by rewrite (IH b2 ms2).
Qed.

(** ** Bounded buffering against an arbitrary peer *)

(** A failed decoder holds no bytes. *)
Definition decoder_ok (d : Decoder) : Prop := failed_ d = true -> bytes_ d = [].

Lemma validate_front_cases d :
  decoder_ok d ->
  (validate_front d = (true, d) /\ failed_ d = false /\ valid_front (bytes_ d)) \/
  validate_front d = (false, mkDecoder [] true).
Proof.
  destruct d as [b f]. unfold decoder_ok, validate_front, valid_front. simpl. intros Hok.
  destruct f; simpl; [right; by rewrite Hok |].
  destruct (zlen b <? 2) eqn:E; bool_hyps; [left; auto |].
  destruct (_ =? 0) eqn:E1; simpl; [by right |].
  destruct (kMaxBodySize <? _) eqn:E2; [by right |]. bool_hyps. left. auto 6.
Qed.

Lemma pop_false d x m d' :
  decoder_ok d -> is_bytes (bytes_ d) -> pop d (Some x) = (false, d', m) ->
  decoder_ok d' /\ is_bytes (bytes_ d') /\ zlen (bytes_ d') < kMaxBodySize + 2.
Proof.
  intros Hok Hb. unfold pop.
  destruct (validate_front_cases d Hok) as [(-> & Hf & Hv)| ->]; simpl;
    [|intros [= <- <-]; split_and!; [done | constructor | done]].
  destruct (zlen (bytes_ d) <? 2) eqn:E; bool_hyps.
  { intros [= <- <-]. unfold kMaxBodySize. split_and!; [done..| lia]. }
  destruct (_ <? front_body_size (bytes_ d) + 2) eqn:E2; bool_hyps.
  { intros [= <- <-]. split_and!; [done..|]. destruct Hv as [|[? ?]]; lia. }
  rewrite Hf. destruct (validate_front_cases (mkDecoder
    (drop (Z.to_nat (front_body_size (bytes_ d) + 2)) (bytes_ d)) false))
    as [(-> & ?)| ->]; [done|done|].
  intros [= <- <-]. split_and!; [done | constructor | done].
Qed.

Lemma front_body_size_nonneg b : is_bytes b -> 0 <= front_body_size b.
Proof.
  intros Hb. unfold front_body_size. apply Z.lor_nonneg. rewrite Z.shiftl_nonneg.
  assert (forall i, 0 <= at_ b i); [|auto]. intros i. unfold at_.
  destruct (nth_in_or_default (Z.to_nat i) b 0) as [Hin|E]; [|by rewrite E].
  apply list_elem_of_In in Hin. eapply (proj1 (Forall_forall _ _) Hb) in Hin. apply Hin.
Qed.

Lemma pop_true d x m d' :
  decoder_ok d -> is_bytes (bytes_ d) -> pop d (Some x) = (true, d', m) ->
  failed_ d' = false /\ is_bytes (bytes_ d') /\ is_Some m /\
  (length (bytes_ d') < length (bytes_ d))%nat.
Proof.
  intros Hok Hb. unfold pop.
  destruct (validate_front_cases d Hok) as [(-> & Hf & Hv)| ->]; simpl; [|done].
  destruct (zlen (bytes_ d) <? 2) eqn:E; bool_hyps; [done |].
  destruct (_ <? front_body_size (bytes_ d) + 2) eqn:E2; bool_hyps; [done |].
  rewrite Hf. pose proof (front_body_size_nonneg _ Hb).
  destruct (validate_front_cases (mkDecoder
    (drop (Z.to_nat (front_body_size (bytes_ d) + 2)) (bytes_ d)) false))
    as [(-> & ?)| ->]; [done| |done].
  intros [= <- <-]. simpl. rewrite length_drop. unfold zlen in *.
  split_and!; [done | by apply Forall_drop | done | lia].
Qed.

Lemma drain_bounded fuel d x :
  decoder_ok d -> is_bytes (bytes_ d) -> (length (bytes_ d) <= fuel)%nat ->
  let d' := (drain fuel d x).2 in
  decoder_ok d' /\ is_bytes (bytes_ d') /\ zlen (bytes_ d') < kMaxBodySize + 2.
Proof.
  revert d x. induction fuel as [|fuel IH]; intros d x Hok Hb Hf; cbn [drain].
  { split_and!; [done..|]. unfold zlen, kMaxBodySize in *. simpl. lia. }
  destruct (pop _ _) as [[[] d'] m] eqn:E.
  - destruct (pop_true _ _ _ _ Hok Hb E) as (Hf' & Hb' & [m' ->] & Hlt).
    specialize (IH d' m'). destruct (drain fuel d' m') as [ms d''].
    apply IH; [unfold decoder_ok; congruence | done | lia].
  - by apply (pop_false _ _ _ _ Hok Hb E).
Qed.

Lemma feed_bounded chunks d :
  decoder_ok d -> is_bytes (bytes_ d) -> zlen (bytes_ d) < kMaxBodySize + 2 ->
  Forall is_bytes chunks ->
  let d' := (feed d chunks).2 in
  decoder_ok d' /\ zlen (bytes_ d') < kMaxBodySize + 2.
Proof.
  revert d. induction chunks as [|c chunks IH]; intros d Hok Hb Hlen Hc; [done |].
  apply Forall_cons in Hc as [Hc Hcs]. cbn [feed].
  set (d1 := (push d (Some c) (zlen c)).2).
  assert (decoder_ok d1 /\ is_bytes (bytes_ d1)) as [Hok1 Hb1].
  { unfold d1, push. destruct (failed_ d) eqn:Hf; simpl; [done |].
    destruct (validate_front_cases (mkDecoder (bytes_ d ++ slice c 0 (zlen c)) false))
      as [(-> & _)| ->]; [done| |split; [done | constructor]].
    split; [done |]. simpl. rewrite slice_all. by apply is_bytes_app. }
  pose proof (drain_bounded (length (bytes_ d1)) d1 (mkMessage Join []) Hok1 Hb1
    ltac:(lia)) as Hd. destruct (drain _ d1 _) as [ms d2]. simpl in Hd.
  destruct Hd as (Hok2 & Hb2 & Hlen2). specialize (IH d2 Hok2 Hb2 Hlen2 Hcs).
  by destruct (feed d2 chunks) as [ms' d3].
Qed.

(** ** Properties *)

(** Framing is lossless under every chunking: however the concatenation of
    encoded messages is cut into stream reads, pushing the reads and popping
    after each delivers exactly the messages, in order, and leaves an empty,
    unfailed decoder. *)
Theorem stream_roundtrip (ms : list Message) (chunks : list bytes) :
  Forall encodable ms -> concat chunks = stream_of ms ->
  feed Decoder_new chunks = (ms, Decoder_new).
Proof.
  intros Hms Hc. apply feed_stream; [done..|].
  destruct Hms as [|m ms Hm]; [done |]. simpl.
  rewrite zlen_frame, zlen_nil by done. pose proof (zlen_nonneg (payload m)). lia.
Qed.

Lemma stream_roundtrip_witness :
  let ms := [mkMessage Input [0; 1; 2]; mkMessage LobbyRequest []] in
  Forall encodable ms /\
  feed Decoder_new [[0]; [4; 6; 0; 1; 2; 0]; [1; 9]] = (ms, Decoder_new).
Proof.
  split.
  - repeat constructor; vm_compute; discriminate.
  - apply (stream_roundtrip [mkMessage Input [0; 1; 2]; mkMessage LobbyRequest []]);
      [repeat constructor; vm_compute; discriminate | reflexivity].
Defined.

(** Whatever bytes the peer sends in whatever chunks, after each drain the
    decoder holds less than one maximal frame, and a failed decoder holds
    nothing. *)
Theorem decoder_buffer_bounded (chunks : list bytes) :
  Forall is_bytes chunks ->
  let d := (feed Decoder_new chunks).2 in
  (failed_ d = true -> bytes_ d = []) /\ zlen (bytes_ d) < kMaxBodySize + 2.
Proof. intros Hc. apply feed_bounded; [done | constructor | done | done]. Qed.

Lemma decoder_buffer_bounded_witness :
  Forall is_bytes [[0]; [9]; [1; 2; 3]] /\
  zlen (bytes_ (feed Decoder_new [[0]; [9]; [1; 2; 3]]).2) < kMaxBodySize + 2.
Proof.
  assert (Forall is_bytes [[0]; [9]; [1; 2; 3]]) as H
    by (repeat constructor; unfold is_byte; discriminate).
  split; [exact H | exact (proj2 (decoder_buffer_bounded _ H))].
Defined.

(** A valid message is lost when the malformed size field of the next frame
    is already buffered behind it, and is delivered when that field arrives in a
    later read: what [pop] reports depends on how the transport cut the bytes. *)
Theorem message_lost_before_malformed_header (m : Message) (a b : Z) :
  encodable m -> is_byte a -> is_byte b ->
  256 * a + b = 0 \/ kMaxBodySize < 256 * a + b ->
  feed Decoder_new [frame_of m ++ [a; b]] = ([], mkDecoder [] true) /\
  feed Decoder_new [frame_of m; [a; b]] = ([m], mkDecoder [] true).
Proof.
  intros Hm Ha Hb Hbad.
  assert (validate_front (mkDecoder [a; b] false) = (false, mkDecoder [] true)) as Hv.
  { unfold validate_front. simpl. unfold front_body_size, at_. simpl.
    rewrite lor_shiftl_byte by done. unfold kMaxBodySize in *.
    destruct (_ =? 0) eqn:E; [done |]. destruct (1024 <? _) eqn:E2; [done |].
    bool_hyps. lia. }
  assert (valid_front (frame_of m ++ [a; b]) /\ valid_front (frame_of m)) as [Hf1 Hf2].
  { pose proof (front_body_size_frame m [a; b] Hm) as H1.
    pose proof (front_body_size_frame m [] Hm) as H2. rewrite app_nil_r in H2.
    pose proof (zlen_nonneg (payload m)). destruct Hm. split; right; lia. }
  assert (forall rest, (3 <= length (frame_of m ++ rest))%nat) as Hl.
  { intros. pose proof (zlen_frame m Hm). pose proof (zlen_nonneg (payload m)).
    rewrite length_app. unfold zlen in *. lia. }
  change Decoder_new with (mkDecoder [] false).
  split; cbn [feed]; rewrite push_eq; cbn [app];
    rewrite validate_front_true by done; cbn [snd bytes_].
  - specialize (Hl [a; b]). destruct (length _) as [|n]; [lia |].
    cbn [drain]. by rewrite pop_frame, Hv by done.
  - specialize (Hl []). rewrite app_nil_r in Hl.
    destruct (length (frame_of m)) as [|[|n]]; [lia..|].
    assert (forall x, drain (S (S n)) (mkDecoder (frame_of m) false) x =
                      ([m], mkDecoder [] false)) as ->.
    { intros x. cbn [drain]. rewrite <- (app_nil_r (frame_of m)), pop_frame by done.
      by rewrite (validate_front_true []) by (by left). }
    rewrite (push_eq [] [a; b]). cbn [app]. by rewrite Hv.
Qed.

Lemma message_lost_before_malformed_header_witness :
  encodable (mkMessage End []) /\
  feed Decoder_new [frame_of (mkMessage End []) ++ [0; 0]] = ([], mkDecoder [] true).
Proof.
  assert (encodable (mkMessage End [])) as H by (split; vm_compute; [discriminate | reflexivity]).
  split; [exact H |].
  apply (message_lost_before_malformed_header (mkMessage End []) 0 0);
    [exact H | split; reflexivity || discriminate .. | by left].
Defined.
