(* ===== verification/LanInvite.v ===== *)
(** * LAN invitation text ([shared/src/session/lan_mvp/invite.{hpp,cpp}])

    The QR payload is an exact, versioned text: prefix, IPv4 address, port, the
    32-byte certificate pin and the 16-byte one-time token in hexadecimal.  Text
    is the list of its character codes (the code reads [char]s and only compares
    them with ASCII constants, so a negative [char] and the code above 127 it
    stands for are rejected alike). *)

From S2P Require Import Prelude.

(** ** Definitions *)

Record Invite := mkInvite {
  ipv4 : bytes;
  port : Z;
  spki_pin : bytes;
  token : bytes;
}.

#[export] Instance eta_Invite : Eta Invite :=
  fun r => mkInvite (ipv4 r) (port r) (spki_pin r) (token r).

#[export] Instance Invite_eq_dec : EqDecision Invite.
Proof. solve_decision. Defined.

(** [Invite{}]: value-initialised. *)
Definition Invite_empty : Invite :=
  mkInvite (replicate 4 0) 0 (replicate 32 0) (replicate 16 0).

Definition kPrefix : bytes := ascii_bytes "flynes-lan-v1:".
Definition kHex : bytes := ascii_bytes "0123456789abcdef".
Definition ch_dot : Z := 46.
Definition ch_colon : Z := 58.

(** The loop of [parse_decimal]; [unsigned] arithmetic. *)
Fixpoint decimal_loop (text : bytes) (maximum value : Z) : option Z :=
  match text with
  | [] => Some value
  | digit :: rest =>
    if (digit <? 48) || (57 <? digit) then None
    else
      let value := u32 (u32 (value * 10) + (digit - 48)) in
      if maximum <? value then None else decimal_loop rest maximum value
  end.

Definition parse_decimal (text : bytes) (maximum : Z) : option Z :=
  if bool_decide (text = []) || ((1 <? zlen text) && (at_ text 0 =? 48)) then None
  else decimal_loop text maximum 0.

Definition allowed_address (ip : bytes) : bool :=
  negb (at_ ip 0 =? 0) && negb (at_ ip 0 =? 127) && (at_ ip 0 <? 224) &&
  negb ((at_ ip 0 =? 169) && (at_ ip 1 =? 254)) &&
  negb (at_ ip 3 =? 0) && negb (at_ ip 3 =? 255).

(** [string_view::find(ch)]; [None] is [npos]. *)
Fixpoint find (ch : Z) (text : bytes) : option nat :=
  match text with
  | [] => None
  | c :: rest => if c =? ch then Some O else S <$> find ch rest
  end.

(** The octet loop of [parse_ip]; [left] octets are still to be read, so the
    code's index is [4 - left]. *)
Fixpoint parse_octets (left : nat) (text : bytes) : option bytes :=
  match left with
  | O => Some []
  | S left' =>
    let last := bool_decide (left' = O) in
    match find ch_dot text with
    | None =>
      if negb last then None
      else octet ← parse_decimal text 255;
           rest ← parse_octets left' text; Some (u8 octet :: rest)
    | Some dot =>
      if last then None
      else octet ← parse_decimal (take dot text) 255;
           rest ← parse_octets left' (drop (dot + 1) text); Some (u8 octet :: rest)
    end
  end.

Definition parse_ip (text : bytes) : option bytes :=
  ip ← parse_octets 4 text;
  if negb (allowed_address ip) then None else Some ip.

Definition hex_value (ch : Z) : Z :=
  if (48 <=? ch) && (ch <=? 57) then ch - 48
  else if (97 <=? ch) && (ch <=? 102) then ch - 97 + 10
  else if (65 <=? ch) && (ch <=? 70) then ch - 65 + 10
  else -1.

Fixpoint hex_loop (text : bytes) : option bytes :=
  match text with
  | h :: l :: rest =>
    let high := hex_value h in
    let low := hex_value l in
    if (high <? 0) || (low <? 0) then None
    else bs ← hex_loop rest; Some (u8 (Z.lor (Z.shiftl high 4) low) :: bs)
  | _ => Some []
  end.

(** [parse_hex<N>]. *)
Definition parse_hex (n : nat) (text : bytes) : option bytes :=
  if negb (zlen text =? Z.of_nat n * 2) then None else hex_loop text.

(** [append_hex]: the characters appended. *)
Definition append_hex (bs : bytes) : bytes :=
  mjoin ((fun b => [at_ kHex (Z.shiftr b 4); at_ kHex (Z.land b 15)]) <$> bs).

(** [take_field]: the field and the remaining text. *)
Definition take_field (remaining : bytes) : option (bytes * bytes) :=
  separator ← find ch_colon remaining;
  Some (take separator remaining, drop (separator + 1) remaining).

(** [std::to_string] of an unsigned value: decimal digits, most significant
    first; twenty digits hold any 64-bit value. *)
Fixpoint decimal_digits (fuel : nat) (n : Z) : bytes :=
  match fuel with
  | O => []
  | S fuel =>
    if n <? 10 then [48 + n] else decimal_digits fuel (n / 10) ++ [48 + n mod 10]
  end.
Definition to_string (n : Z) : bytes := decimal_digits 20 n.

(** The address with dots between the octets. *)
Fixpoint dotted (ip : bytes) : bytes :=
  match ip with
  | [] => []
  | [b] => to_string b
  | b :: rest => to_string b ++ [ch_dot] ++ dotted rest
  end.

(** [parse_lan_ipv4], [format_invite], [parse_invite]: [None] is the null output
    pointer; the pointed-to value is written only on success. *)
Definition parse_lan_ipv4 (text : bytes) (out : option bytes) : bool * option bytes :=
  match out with
  | None => (false, None)
  | Some _ =>
    match parse_ip text with
    | None => (false, out)
    | Some ip => (true, Some ip)
    end
  end.

Definition format_invite (invite : Invite) (out : option bytes) : bool * option bytes :=
  match out with
  | None => (false, None)
  | Some _ =>
    if negb (allowed_address (ipv4 invite)) || (port invite =? 0) then (false, out)
    else
      (true, Some (kPrefix ++ dotted (ipv4 invite) ++ [ch_colon] ++
                   to_string (port invite) ++ [ch_colon] ++
                   append_hex (spki_pin invite) ++ [ch_colon] ++
                   append_hex (token invite)))
  end.

Definition parse_invite_fields (text : bytes) : option Invite :=
  if negb (bool_decide (take (length kPrefix) text = kPrefix)) then None
  else
    let text := drop (length kPrefix) text in
    '(ip_text, text) ← take_field text;
    '(port_text, text) ← take_field text;
    '(pin_text, text) ← take_field text;
    ip ← parse_ip ip_text;
    port ← parse_decimal port_text 65535;
    if port =? 0 then None
    else
      pin ← parse_hex 32 pin_text;
      token ← parse_hex 16 text;
      Some (mkInvite ip (u16 port) pin token).

Definition parse_invite (text : bytes) (out : option Invite) : bool * option Invite :=
  match out with
  | None => (false, None)
  | Some _ =>
    match parse_invite_fields text with
    | None => (false, out)
    | Some invite => (true, Some invite)
    end
  end.

(** [endpoint] of session.cpp: the address text handed to the transport. *)
Definition endpoint (invite : Invite) : bytes :=
  dotted (ipv4 invite) ++ [ch_colon] ++ to_string (port invite).

(** The invitations the format can express. *)
Definition valid_invite (i : Invite) : Prop :=
  length (ipv4 i) = 4%nat /\ is_bytes (ipv4 i) /\ allowed_address (ipv4 i) = true /\
  1 <= port i <= 65535 /\
  length (spki_pin i) = 32%nat /\ is_bytes (spki_pin i) /\
  length (token i) = 16%nat /\ is_bytes (token i).

(** ASCII lower case of a hexadecimal letter. *)
Definition lower (c : Z) : Z := if (65 <=? c) && (c <=? 70) then c + 32 else c.

(** ** Decimal numbers *)

Definition is_digit (c : Z) : Prop := 48 <= c <= 57.

Definition dec_value (text : bytes) : Z :=
  fold_left (fun v d => v * 10 + (d - 48)) text 0.

Lemma dec_value_snoc l d : dec_value (l ++ [d]) = dec_value l * 10 + (d - 48).
Proof. unfold dec_value. by rewrite fold_left_app. Qed.

Lemma dec_value_nonneg l : Forall is_digit l -> 0 <= dec_value l.
Proof.
  induction l as [|d l IH] using rev_ind; intros H; [done |].
  apply Forall_app in H as [H1 H2]. rewrite Forall_singleton in H2. rewrite dec_value_snoc.
  specialize (IH H1). unfold is_digit in H2. lia.
Qed.

Lemma decimal_digits_digits fuel n : 0 <= n -> Forall is_digit (decimal_digits fuel n).
Proof.
  revert n. induction fuel as [|fuel IH]; intros n Hn; simpl; [done |].
  destruct (n <? 10) eqn:E; bool_hyps.
  - repeat constructor; lia.
  - apply Forall_app. split; [apply IH, Z.div_pos; lia |].
    pose proof (Z.mod_pos_bound n 10). repeat constructor; lia.
Qed.

Lemma decimal_digits_value fuel n :
  0 <= n < 10 ^ Z.of_nat fuel -> dec_value (decimal_digits fuel n) = n.
Proof.
  revert n. induction fuel as [|fuel IH]; intros n Hn; [simpl in *; unfold dec_value; simpl; lia |].
  cbn [decimal_digits]. destruct (n <? 10) eqn:E; bool_hyps.
  - unfold dec_value. simpl. lia.
  - rewrite Nat2Z.inj_succ, Z.pow_succ_r in Hn by lia.
    rewrite dec_value_snoc, IH.
    + pose proof (Z.div_mod n 10). lia.
    + split; [apply Z.div_pos; lia | apply Z.div_lt_upper_bound; lia].
Qed.

(** No leading zero unless the text is the digit zero. *)
Definition no_leading_zero (text : bytes) : Prop :=
  text <> [] /\ (1 < zlen text -> at_ text 0 <> 48).

Lemma decimal_digits_lead fuel n :
  0 <= n < 10 ^ Z.of_nat fuel -> (0 < fuel)%nat ->
  no_leading_zero (decimal_digits fuel n) /\ (0 < n -> at_ (decimal_digits fuel n) 0 <> 48).
Proof.
  revert n. induction fuel as [|fuel IH]; intros n Hn Hf; [lia |].
  cbn [decimal_digits]. destruct (n <? 10) eqn:E; bool_hyps.
  - unfold no_leading_zero, zlen, at_. simpl. split_and!; [done | lia | lia].
  - rewrite Nat2Z.inj_succ, Z.pow_succ_r in Hn by lia.
    destruct fuel as [|fuel]; [simpl in Hn; lia |].
    destruct (IH (n / 10)) as [[Hne _] Hl]; [|lia|].
    { split; [apply Z.div_pos; lia | apply Z.div_lt_upper_bound; lia]. }
    assert (0 < n / 10) as Hq by (apply Z.div_str_pos; lia). specialize (Hl Hq).
    destruct (decimal_digits (S fuel) (n / 10)) as [|c l] eqn:El; [done |].
    unfold at_ in *. simpl in *. unfold no_leading_zero. split_and!; done.
Qed.

(** A digit text without a leading zero is the text of its value. *)
Lemma decimal_digits_unique fuel l :
  Forall is_digit l -> no_leading_zero l -> (length l <= fuel)%nat ->
  decimal_digits fuel (dec_value l) = l.
Proof.
  revert l. induction fuel as [|fuel IH]; intros l Hd [Hne Hz] Hlen.
  { destruct l; simpl in *; [done | lia]. }
  destruct l as [|d l _] using rev_ind; [done |].
  apply Forall_app in Hd as [Hl Hd]. rewrite Forall_singleton in Hd. unfold is_digit in Hd.
  rewrite dec_value_snoc. cbn [decimal_digits].
  destruct l as [|c l].
  { change (dec_value []) with 0. destruct (_ <? 10) eqn:E; bool_hyps; [|lia].
    simpl. f_equal. lia. }
  assert (no_leading_zero (c :: l)) as Hnz.
  { split; [done |]. intros _. apply Hz. rewrite zlen_app. unfold zlen. simpl. lia. }
  assert (1 <= dec_value (c :: l)) as Hpos.
  { destruct (decide (dec_value (c :: l) = 0)) as [E|]; [|pose proof (dec_value_nonneg _ Hl); lia].
    exfalso. pose proof (IH (c :: l) Hl Hnz) as Hc. rewrite E in Hc.
    rewrite length_app in Hlen. simpl in Hlen, Hc.
    destruct fuel as [|fuel]; [lia |]. specialize (Hc ltac:(lia)). simpl in Hc.
    injection Hc as <- <-. apply Hz; [unfold zlen; simpl; lia | done]. }
  destruct (_ <? 10) eqn:E; bool_hyps; [lia |].
  replace ((dec_value (c :: l) * 10 + (d - 48)) / 10) with (dec_value (c :: l))
    by (rewrite Z.div_add_l, Z.div_small by lia; lia).
  rewrite IH by (done || (rewrite length_app in Hlen; simpl in *; lia)).
  replace (dec_value (c :: l) * 10 + (d - 48)) with ((d - 48) + dec_value (c :: l) * 10) by lia.
  rewrite Z.mod_add, Z.mod_small by lia. do 2 f_equal. lia.
Qed.

Lemma dec_value_bound l : Forall is_digit l -> dec_value l < 10 ^ zlen l.
Proof.
  induction l as [|d l IH] using rev_ind; intros H; [done |].
  apply Forall_app in H as [H1 H2]. rewrite Forall_singleton in H2.
  rewrite dec_value_snoc, zlen_app. specialize (IH H1). unfold is_digit in H2.
  pose proof (zlen_nonneg l). change (zlen [d]) with 1.
  rewrite Z.pow_add_r by lia. lia.
Qed.

(** Any fuel that covers the value gives the same digits. *)
Lemma decimal_digits_fuel f g n :
  0 <= n < 10 ^ Z.of_nat f -> n < 10 ^ Z.of_nat g -> (0 < f)%nat -> (0 < g)%nat ->
  decimal_digits f n = decimal_digits g n.
Proof.
  revert g n. induction f as [|f IH]; intros g n Hf Hg Hpos Hpos'; [lia |].
  destruct g as [|g]; [lia |].
  cbn [decimal_digits]. destruct (n <? 10) eqn:E; [done |]. bool_hyps.
  rewrite Nat2Z.inj_succ, Z.pow_succ_r in Hf, Hg by lia.
  rewrite (IH g (n / 10)); [done | | | |].
  - split; [apply Z.div_pos; lia | apply Z.div_lt_upper_bound; lia].
  - apply Z.div_lt_upper_bound; lia.
  - destruct f; [simpl in Hf; lia | lia].
  - destruct g; [simpl in Hg; lia | lia].
Qed.

Lemma decimal_loop_spec text maximum value :
  0 <= value <= maximum -> maximum <= 65535 ->
  decimal_loop text maximum value =
    if decide (Forall is_digit text /\
               fold_left (fun v d => v * 10 + (d - 48)) text value <= maximum)
    then Some (fold_left (fun v d => v * 10 + (d - 48)) text value) else None.
Proof.
  intros Hv Hm. revert value Hv. induction text as [|d text IH]; intros value Hv; cbn.
  { case_decide as Hc; [done |]. exfalso. apply Hc. split; [constructor | lia]. }
  destruct ((d <? 48) || (57 <? d)) eqn:E.
  { case_decide as Hc; [|done]. destruct Hc as [H _]. apply Forall_cons in H as [H _].
    unfold is_digit in H. apply orb_true_iff in E as [E|E]; bool_hyps; lia. }
  bool_hyps. unfold u32. rewrite (Z.mod_small (value * 10)) by lia.
  rewrite Z.mod_small by lia.
  assert (forall text v w, 0 <= v <= w -> Forall is_digit text ->
    v <= fold_left (fun v d => v * 10 + (d - 48)) text w) as Hmono.
  { clear. induction text as [|d text IH]; intros v w Hvw Hd; simpl; [lia |].
    apply Forall_cons in Hd as [Hd Hds]. apply IH; [unfold is_digit in Hd; lia | done]. }
  destruct (maximum <? _) eqn:E2; bool_hyps.
  - case_decide as Hc; [|done]. destruct Hc as [Hd Hle]. apply Forall_cons in Hd as [_ Hd].
    specialize (Hmono text (value * 10 + (d - 48)) (value * 10 + (d - 48)) ltac:(lia) Hd). lia.
  - rewrite IH by lia. case_decide as Hc1; case_decide as Hc2; try done; exfalso.
    + destruct Hc1 as [H1 H2]. apply Hc2. split; [|done].
      constructor; [unfold is_digit; lia | done].
    + destruct Hc2 as [H1 H2]. apply Forall_cons in H1 as [_ H1]. auto.
Qed.

(** [parse_decimal] inverts [to_string] and accepts nothing else. *)
Lemma parse_decimal_spec text maximum n :
  0 <= maximum <= 65535 ->
  parse_decimal text maximum = Some n <-> 0 <= n <= maximum /\ text = to_string n.
Proof.
  intros Hm. unfold parse_decimal, to_string. rewrite decimal_loop_spec by lia.
  fold (dec_value text). split.
  - destruct (bool_decide (text = []) || _) eqn:E; [done |]. bool_hyps.
    case_decide as Hc; [|done]. destruct Hc as [Hd Hle]. intros [= <-].
    pose proof (dec_value_nonneg _ Hd). split; [lia |]. symmetry.
    assert (no_leading_zero text) as Hnz.
    { split; [done |]. intros Hl He. rewrite (proj2 (Z.ltb_lt 1 _)), He in * by done. done. }
    rewrite <- (decimal_digits_unique (length text) text) at 2 by done.
    apply decimal_digits_fuel; [lia | | lia |].
    + pose proof (dec_value_bound text Hd). unfold zlen in *. lia.
    + destruct text; simpl; [done | lia].
  - intros [Hn ->]. assert (0 <= n < 10 ^ Z.of_nat 20) as Hb by lia.
    destruct (decimal_digits_lead 20 n Hb ltac:(lia)) as [[Hne Hz] _].
    rewrite bool_decide_eq_false_2 by done. cbn [orb].
    destruct (1 <? _) eqn:E1; bool_hyps; cbn [andb].
    + rewrite (proj2 (Z.eqb_neq _ _)) by auto.
      rewrite decimal_digits_value by done. rewrite decide_True; [done |].
      split; [apply decimal_digits_digits; lia | lia].
    + rewrite decimal_digits_value by done. rewrite decide_True; [done |].
      split; [apply decimal_digits_digits; lia | lia].
Qed.

Lemma parse_decimal_to_string n maximum :
  0 <= n <= maximum -> maximum <= 65535 -> parse_decimal (to_string n) maximum = Some n.
Proof. intros Hn Hm. apply parse_decimal_spec; [lia | done]. Qed.

Lemma to_string_digits n : 0 <= n -> Forall is_digit (to_string n).
Proof. apply decimal_digits_digits. Qed.

(** ** Fields *)

Lemma find_some ch text k :
  find ch text = Some k ->
  (text = take k text ++ (ch :: drop (k + 1) text)) /\ (ch ∉ take k text) /\
  length (take k text) = k.
Proof.
  revert k. induction text as [|c text IH]; intros k; simpl; [done |].
  destruct (c =? ch) eqn:E; bool_hyps.
  - intros [= <-]. subst. simpl. rewrite drop_0. split_and!; [done | set_solver | done].
  - intros (j & Hj & ->)%fmap_Some. destruct (IH j Hj) as (Heq & Hn & Hl). simpl.
    split_and!; [congruence | set_solver | congruence].
Qed.

Lemma find_none ch text : find ch text = None <-> ch ∉ text.
Proof.
  induction text as [|c text IH]; simpl; [set_solver |].
  destruct (c =? ch) eqn:E; bool_hyps.
  - subst. set_solver.
  - rewrite fmap_None, IH. set_solver.
Qed.

Lemma find_app ch l rest : ch ∉ l -> find ch (l ++ ch :: rest) = Some (length l).
Proof.
  induction l as [|c l IH]; intros H; simpl; [by rewrite Z.eqb_refl |].
  rewrite (proj2 (Z.eqb_neq c ch)) by set_solver.
  rewrite IH by set_solver. done.
Qed.

Lemma drop_app_cons {A} (l : list A) x r : drop (length l + 1) (l ++ x :: r) = r.
Proof. induction l; simpl; [by rewrite drop_0 | done]. Qed.

Lemma take_field_spec text f rest :
  take_field text = Some (f, rest) <-> text = (f ++ ch_colon :: rest) /\ ch_colon ∉ f.
Proof.
  unfold take_field. split.
  - intros (k & Hk & [= <- <-])%bind_Some.
    destruct (find_some _ _ _ Hk) as (Heq & Hn & _). done.
  - intros [-> Hn]. rewrite find_app by done. simpl.
    by rewrite take_app_length, drop_app_cons.
Qed.

(** Octets. *)
Lemma dotted_cons b c ip : dotted (b :: c :: ip) = (to_string b ++ ch_dot :: dotted (c :: ip)).
Proof. done. Qed.

Lemma digits_no_char ch l : ~ is_digit ch -> Forall is_digit l -> ch ∉ l.
Proof. intros Hc Hl Hin. rewrite Forall_forall in Hl. by apply Hc, Hl. Qed.

Lemma parse_octets_succ left' text :
  parse_octets (S left') text =
  match find ch_dot text with
  | None =>
    if negb (bool_decide (left' = O)) then None
    else octet ← parse_decimal text 255;
         rest ← parse_octets left' text; Some (u8 octet :: rest)
  | Some dot =>
    if bool_decide (left' = O) then None
    else octet ← parse_decimal (take dot text) 255;
         rest ← parse_octets left' (drop (dot + 1) text); Some (u8 octet :: rest)
  end.
Proof. done. Qed.

Lemma parse_octets_spec n text ip :
  parse_octets (S n) text = Some ip <->
  length ip = S n /\ is_bytes ip /\ text = dotted ip.
Proof.
  assert (forall b, is_byte b -> u8 b = b) as Hu8 by apply u8_small.
  revert text ip. induction n as [|n IH]; intros text ip; rewrite parse_octets_succ.
  - rewrite bool_decide_eq_true_2 by done. cbn [negb].
    destruct (find ch_dot text) as [k|] eqn:Hf.
    + split; [done |]. intros (Hlen & Hb & ->).
      destruct ip as [|b [|]]; [done| |done]. exfalso.
      apply is_bytes_cons in Hb as [Hb _]. unfold is_byte in Hb.
      assert (find ch_dot (dotted [b]) = None) as Hn; [|congruence].
      apply find_none, digits_no_char; [unfold is_digit, ch_dot; lia |].
      apply to_string_digits. lia.
    + split.
      * intros (o & Ho & (r & [= <-] & [= <-])%bind_Some)%bind_Some.
        apply parse_decimal_spec in Ho as [Ho ->]; [|lia].
        rewrite Hu8 by (unfold is_byte; lia).
        split_and!; [done | repeat constructor; lia | done].
      * intros (Hlen & Hb & ->). destruct ip as [|b [|]]; [done| |done].
        apply is_bytes_cons in Hb as [Hb _]. cbn [dotted].
        rewrite parse_decimal_to_string by (unfold is_byte in Hb; lia).
        simpl. by rewrite Hu8.
  - rewrite bool_decide_eq_false_2 by done. cbn [negb].
    destruct (find ch_dot text) as [k|] eqn:Hf.
    + destruct (find_some _ _ _ Hf) as (Heq & Hn & Hl). split.
      * intros (o & Ho & (r & Hr & [= <-])%bind_Some)%bind_Some.
        apply parse_decimal_spec in Ho as [Ho Ht]; [|lia].
        apply IH in Hr as (Hlen & Hb & Hd). rewrite Hu8 by (unfold is_byte; lia).
        split_and!; [simpl; lia | apply is_bytes_cons; split; [unfold is_byte; lia | done] |].
        destruct r as [|c r]; [done |]. rewrite dotted_cons. congruence.
      * intros (Hlen & Hb & ->). destruct ip as [|b [|c ip]]; [done..|].
        apply is_bytes_cons in Hb as [Hb Hbs].
        assert (ch_dot ∉ to_string b) as Hnd.
        { apply digits_no_char; [unfold is_digit, ch_dot; lia |].
          apply to_string_digits. unfold is_byte in Hb. lia. }
        rewrite dotted_cons, find_app in Hf by done. injection Hf as <-.
        rewrite dotted_cons, take_app_length.
        rewrite parse_decimal_to_string by (unfold is_byte in Hb; lia).
        cbn [mbind option_bind].
        rewrite drop_app_cons. rewrite (proj2 (IH _ (c :: ip))) by (simpl in *; split_and!; [lia|done..]).
        simpl. by rewrite Hu8.
    + split; [done |]. intros (Hlen & Hb & ->). exfalso.
      destruct ip as [|b [|c ip]]; [done..|].
      apply find_none in Hf. apply Hf. rewrite dotted_cons. set_solver.
Qed.

(** ** Hexadecimal *)

(** A decidable property of all values of a small range, by evaluation. *)
Lemma range_check (P : Z -> bool) lo n x :
  forallb P (seqZ lo n) = true -> lo <= x < lo + n -> P x = true.
Proof.
  rewrite forallb_forall. intros H Hx. apply H. apply list_elem_of_In, elem_of_seqZ. lia.
Qed.

Lemma hex_byte b :
  is_byte b ->
  let high := hex_value (at_ kHex (Z.shiftr b 4)) in
  let low := hex_value (at_ kHex (Z.land b 15)) in
  (high <? 0) || (low <? 0) = false /\ u8 (Z.lor (Z.shiftl high 4) low) = b.
Proof.
  intros Hb.
  pose proof (range_check (fun b =>
    let high := hex_value (at_ kHex (Z.shiftr b 4)) in
    let low := hex_value (at_ kHex (Z.land b 15)) in
    negb ((high <? 0) || (low <? 0)) && (u8 (Z.lor (Z.shiftl high 4) low) =? b)) 0 256 b
    ltac:(vm_compute; reflexivity) Hb) as H. cbv beta zeta in H. bool_hyps.
  split; [apply orb_false_iff; split; by apply Z.ltb_ge | done].
Qed.

Lemma hex_char c : 0 <= hex_value c -> 0 <= hex_value c < 16 /\ at_ kHex (hex_value c) = lower c.
Proof.
  intros Hc. assert (48 <= c < 48 + 55) as Hr.
  { unfold hex_value in Hc. repeat case_match; bool_hyps; lia. }
  pose proof (range_check (fun c => (hex_value c <? 0) ||
    ((hex_value c <? 16) && (at_ kHex (hex_value c) =? lower c))) 48 55 c
    ltac:(vm_compute; reflexivity) Hr) as H. cbv beta in H.
  apply orb_true_iff in H as [H|H]; bool_hyps; [lia | split; [lia | done]].
Qed.

Lemma hex_pair h l :
  0 <= h < 16 -> 0 <= l < 16 ->
  let b := u8 (Z.lor (Z.shiftl h 4) l) in Z.shiftr b 4 = h /\ Z.land b 15 = l.
Proof.
  intros Hh Hl.
  pose proof (range_check (fun h => forallb (fun l =>
    let b := u8 (Z.lor (Z.shiftl h 4) l) in
    (Z.shiftr b 4 =? h) && (Z.land b 15 =? l)) (seqZ 0 16)) 0 16 h
    ltac:(vm_compute; reflexivity) Hh) as H. cbv beta in H.
  pose proof (range_check _ 0 16 l H Hl) as H2. cbv beta zeta in H2. by bool_hyps.
Qed.

Lemma append_hex_cons b bs :
  append_hex (b :: bs) =
  at_ kHex (Z.shiftr b 4) :: at_ kHex (Z.land b 15) :: append_hex bs.
Proof. done. Qed.

Lemma length_append_hex bs : length (append_hex bs) = (2 * length bs)%nat.
Proof. induction bs; [done |]. rewrite append_hex_cons. simpl. lia. Qed.

Lemma hex_loop_append bs : is_bytes bs -> hex_loop (append_hex bs) = Some bs.
Proof.
  induction bs as [|b bs IH]; intros Hb; [done |].
  apply is_bytes_cons in Hb as [Hb Hbs]. rewrite append_hex_cons. cbn [hex_loop].
  destruct (hex_byte b Hb) as [-> ->]. by rewrite IH.
Qed.

Lemma hex_loop_inv n text bs :
  length text = (2 * n)%nat -> hex_loop text = Some bs ->
  length bs = n /\ is_bytes bs /\ lower <$> text = append_hex bs.
Proof.
  revert text bs. induction n as [|n IH]; intros text bs Hlen.
  { destruct text; [|done]. intros [= <-]. split_and!; [done | constructor | done]. }
  destruct text as [|h [|l text]]; simpl in Hlen; [lia..|]. cbn [hex_loop].
  destruct ((hex_value h <? 0) || _) eqn:E; [done |]. bool_hyps.
  intros (bs' & Hbs & [= <-])%bind_Some.
  destruct (IH text bs') as (Hl & Hb & Heq); [lia | done |].
  destruct (hex_char h) as [Hh Hch]; [lia |]. destruct (hex_char l) as [Hl2 Hcl]; [lia |].
  destruct (hex_pair _ _ Hh Hl2) as [E1 E2].
  split_and!; [simpl; lia | apply is_bytes_cons; split; [apply u8_byte | done] |].
  rewrite append_hex_cons, E1, E2, !fmap_cons. congruence.
Qed.

Lemma parse_hex_append n bs : length bs = n -> is_bytes bs -> parse_hex n (append_hex bs) = Some bs.
Proof.
  intros Hl Hb. unfold parse_hex, zlen. rewrite length_append_hex, Hl.
  rewrite (proj2 (Z.eqb_eq _ _)) by lia. by apply hex_loop_append.
Qed.

Lemma parse_hex_inv n text bs :
  parse_hex n text = Some bs ->
  length bs = n /\ is_bytes bs /\ lower <$> text = append_hex bs.
Proof.
  unfold parse_hex, zlen. destruct (_ =? _) eqn:E; bool_hyps; [|done]. cbn [negb].
  apply hex_loop_inv. lia.
Qed.

(** ** Whole invitations *)

Lemma lower_digits l : Forall is_digit l -> lower <$> l = l.
Proof.
  induction 1 as [|d l Hd _ IH]; [done |]. rewrite fmap_cons, IH. f_equal.
  unfold lower, is_digit in *. repeat case_match; bool_hyps; [lia | done].
Qed.

Lemma dotted_chars ip : is_bytes ip -> Forall (fun c => is_digit c \/ c = ch_dot) (dotted ip).
Proof.
  assert (forall b, is_byte b -> Forall (fun c => is_digit c \/ c = ch_dot) (to_string b)) as H.
  { intros b Hb. eapply Forall_impl; [apply to_string_digits; unfold is_byte in Hb; lia |]. auto. }
  induction ip as [|b [|c ip] IH]; intros Hip; apply is_bytes_cons in Hip || idtac; [done|..].
  - apply H, Hip.
  - destruct Hip as [Hb Hip]. rewrite dotted_cons. apply Forall_app. split; [by apply H |].
    constructor; [by right | by apply IH].
Qed.

Lemma lower_dotted ip : is_bytes ip -> lower <$> dotted ip = dotted ip.
Proof.
  intros Hip. pose proof (dotted_chars ip Hip) as H. induction H as [|d l Hd _ IH]; [done |].
  rewrite fmap_cons, IH. f_equal. unfold lower, is_digit, ch_dot in *.
  repeat case_match; bool_hyps; [lia | done].
Qed.

Lemma append_hex_no_colon bs : is_bytes bs -> ch_colon ∉ append_hex bs.
Proof.
  induction bs as [|b bs IH]; intros Hb; [set_solver |].
  apply is_bytes_cons in Hb as [Hb Hbs]. rewrite append_hex_cons.
  destruct (hex_byte b Hb) as [Hhex _]. bool_hyps.
  rewrite !not_elem_of_cons. split_and!; [| | auto]; intros E;
    rewrite <- E in *; vm_compute in *; congruence.
Qed.

Lemma format_valid i o :
  valid_invite i ->
  format_invite i (Some o) =
  (true, Some (kPrefix ++ dotted (ipv4 i) ++ ch_colon :: to_string (port i) ++
               ch_colon :: append_hex (spki_pin i) ++ ch_colon :: append_hex (token i))).
Proof.
  intros (_ & _ & Ha & Hp & _). unfold format_invite. rewrite Ha.
  rewrite (proj2 (Z.eqb_neq (port i) 0)) by lia. done.
Qed.

(** An invitation survives the QR text: formatting any invitation with an
    allowed address and a non-zero port and parsing the text gives the
    invitation back. *)
Theorem invite_roundtrip (i j : Invite) (o : bytes) :
  valid_invite i ->
  exists text, format_invite i (Some o) = (true, Some text) /\
               parse_invite text (Some j) = (true, Some i).
Proof.
  intros Hi. rewrite format_valid by done. eexists. split; [done |].
  destruct Hi as (Hl4 & Hb4 & Ha & Hp & Hl32 & Hb32 & Hl16 & Hb16).
  unfold parse_invite, parse_invite_fields.
  rewrite take_app_length, bool_decide_eq_true_2, drop_app_length by done. cbn [negb].
  assert (ch_colon ∉ dotted (ipv4 i)) as Hc1.
  { intros Hin. pose proof (dotted_chars _ Hb4) as H. rewrite Forall_forall in H.
    specialize (H _ Hin). unfold is_digit, ch_colon, ch_dot in H. lia. }
  assert (ch_colon ∉ to_string (port i)) as Hc2.
  { apply digits_no_char; [unfold is_digit, ch_colon; lia |]. apply to_string_digits. lia. }
  rewrite (proj2 (take_field_spec _ _ _) (conj eq_refl Hc1)). cbn [mbind option_bind].
  rewrite (proj2 (take_field_spec _ _ _) (conj eq_refl Hc2)). cbn [mbind option_bind].
  rewrite (proj2 (take_field_spec _ _ _) (conj eq_refl (append_hex_no_colon _ Hb32))).
  cbn [mbind option_bind]. unfold parse_ip.
  rewrite (proj2 (parse_octets_spec 3 _ (ipv4 i))) by done. cbn [mbind option_bind].
  rewrite Ha. cbn [negb]. rewrite parse_decimal_to_string by lia. cbn [mbind option_bind].
  rewrite (proj2 (Z.eqb_neq (port i) 0)) by lia.
  rewrite !parse_hex_append by done. cbn [mbind option_bind].
  unfold u16. rewrite Z.mod_small by lia. by destruct i.
Qed.

Definition sample_invite : Invite :=
  mkInvite [192; 168; 43; 1] 45678 (seqZ 100 32) (seqZ 0 16).

Lemma sample_invite_valid : valid_invite sample_invite.
Proof.
  unfold valid_invite, is_bytes, sample_invite. simpl.
  split_and!; try done; apply (bool_decide_unpack _); vm_compute; exact I.
Qed.

Lemma invite_roundtrip_witness :
  valid_invite sample_invite /\
  exists text, format_invite sample_invite (Some []) = (true, Some text) /\
               parse_invite text (Some Invite_empty) = (true, Some sample_invite).
Proof.
  split; [exact sample_invite_valid |].
  exact (invite_roundtrip sample_invite Invite_empty [] sample_invite_valid).
Defined.

(** The parser accepts only what the formatter writes, up to the case of the
    hexadecimal digits: an accepted text denotes a valid invitation (allowed
    address, port 1..65535, 32-byte pin, 16-byte token) and is that
    invitation's own text; every other text is refused and the output is left
    as it was. *)
Theorem invite_parse_exact (text o : bytes) (i j : Invite) :
  parse_invite text (Some j) = (true, Some i) ->
  valid_invite i /\ format_invite i (Some o) = (true, Some (lower <$> text)).
Proof.
  unfold parse_invite. destruct (parse_invite_fields text) as [i'|] eqn:E; [|done].
  intros [= ->]. revert E. unfold parse_invite_fields.
  destruct (bool_decide _) eqn:Ep; bool_hyps; [cbn [negb] | done].
  intros ([ipt t1] & H1%take_field_spec & E)%bind_Some. revert E.
  intros ([pt t2] & H2%take_field_spec & E)%bind_Some. revert E.
  intros ([pint tokt] & H3%take_field_spec & E)%bind_Some. revert E.
  intros (ip & Hip & (p & Hp & E)%bind_Some)%bind_Some.
  destruct (p =? 0) eqn:Ep0; bool_hyps; [done |].
  revert E. intros (pin & Hpin & (tok & Htok & [= <-])%bind_Some)%bind_Some.
  revert Hip. unfold parse_ip. intros (ip' & Hip & E)%bind_Some.
  destruct (allowed_address ip') eqn:Ha; [|done]. injection E as ->.
  apply parse_octets_spec in Hip as (Hl4 & Hb4 & ->).
  apply parse_decimal_spec in Hp as [Hp ->]; [|lia].
  apply parse_hex_inv in Hpin as (Hl32 & Hb32 & Epin).
  apply parse_hex_inv in Htok as (Hl16 & Hb16 & Etok).
  assert (u16 p = p) as Hu by (apply Z.mod_small; lia). rewrite Hu.
  assert (valid_invite (mkInvite ip p pin tok)) as Hv.
  { unfold valid_invite. simpl. split_and!; done || lia. }
  split; [done |]. rewrite format_valid by done. do 2 f_equal. simpl.
  rewrite <- (take_drop (length kPrefix) text), Ep, fmap_app.
  destruct H1 as [-> _], H2 as [-> _], H3 as [-> _].
  rewrite fmap_app, fmap_cons, fmap_app, fmap_cons, fmap_app, fmap_cons.
  rewrite lower_dotted, (lower_digits (to_string p)), Epin, Etok by
    (done || apply to_string_digits; lia).
  done.
Qed.

Lemma invite_parse_exact_witness :
  let text := default [] (format_invite sample_invite (Some [])).2 in
  parse_invite text (Some Invite_empty) = (true, Some sample_invite) /\
  format_invite sample_invite (Some []) = (true, Some (lower <$> text)).
Proof.
  split; [vm_compute; reflexivity |].
  refine (proj2 (invite_parse_exact _ [] sample_invite Invite_empty _)).
  vm_compute. reflexivity.
Defined.
