(* ===== verification/Lockstep.v ===== *)
(** * Lockstep input buffer ([shared/src/session/lan_mvp/lockstep.{hpp,cpp}])

    The buffer pairs, frame by frame, the pad mask this side submits with the
    mask the peer submits, and releases a frame to the emulator only when both
    are present.  Frames leave in order, starting at zero, so two peers that
    exchange their masks run the same game.

    Frame indices on the wire are 64-bit values; [next_frame_] counts released
    frames from zero and is incremented once per emulated frame. *)

From S2P Require Import Prelude.

(** ** Definitions *)

Inductive Put := Accepted | Duplicate | Conflict | Late | OutOfWindow.

#[global] Instance Put_eq_dec : EqDecision Put.
Proof. solve_decision. Defined.

Record Frame := mkFrame { index : Z; local_mask : Z; remote_mask : Z }.

Record Slot := mkSlot { local : option Z; remote : option Z }.

#[global] Instance eta_Slot : Eta Slot := fun r => mkSlot (local r) (remote r).

Record Buffer := mkBuffer {
  window_ : Z;
  next_frame_ : Z;
  slots_ : gmap Z Slot;
}.

#[global] Instance eta_Buffer : Eta Buffer :=
  fun r => mkBuffer (window_ r) (next_frame_ r) (slots_ r).

(** [Buffer(size_t input_delay, size_t window)]: the delay is not stored. *)
Definition Buffer_new (input_delay window : Z) : Buffer := mkBuffer window 0 ∅.

(** [Buffer::put]; [slots_[index]] creates an empty slot when there is none. *)
Definition put (index mask : Z) (is_local : bool) (b : Buffer) : Put * Buffer :=
  if index <? next_frame_ b then (Late, b)
  else
    let distance := index - next_frame_ b in
    if window_ b <=? distance then (OutOfWindow, b)
    else
      let slot := default (mkSlot None None) (slots_ b !! index) in
      let value := if is_local then local slot else remote slot in
      match value with
      | None =>
        let slot := if is_local then slot <| local := Some mask |>
                    else slot <| remote := Some mask |> in
        (Accepted, b <| slots_ := <[index := slot]> (slots_ b) |>)
      | Some v =>
        (if v =? mask then Duplicate else Conflict,
         b <| slots_ := <[index := slot]> (slots_ b) |>)
      end.

Definition put_local (index mask : Z) (b : Buffer) : Put * Buffer := put index mask true b.

Definition put_remote (index mask : Z) (b : Buffer) : Put * Buffer := put index mask false b.

(** [bool pop_ready(Frame* frame)]; [frame = None] is the null pointer, and the
    third component is what it points to afterwards. *)
Definition pop_ready (frame : option Frame) (b : Buffer)
    : bool * option Frame * Buffer :=
  match frame with
  | None => (false, None, b)
  | Some _ =>
    match slots_ b !! next_frame_ b with
    | Some (mkSlot (Some l) (Some r)) =>
      (true, Some (mkFrame (next_frame_ b) l r),
       b <| slots_ := delete (next_frame_ b) (slots_ b) |>
         <| next_frame_ := next_frame_ b + 1 |>)
    | _ => (false, frame, b)
    end
  end.

(** ** Operations as steps *)

(** One call on a buffer. *)
Inductive Op := PutLocal (index mask : Z) | PutRemote (index mask : Z) | PopReady.

(** Run one call; a successful pop contributes the frame it released. *)
Definition run_op (op : Op) (b : Buffer) : list Frame * Buffer :=
  match op with
  | PutLocal i m => ([], (put_local i m b).2)
  | PutRemote i m => ([], (put_remote i m b).2)
  | PopReady =>
    match pop_ready (Some (mkFrame 0 0 0)) b with
    | (true, Some f, b') => ([f], b')
    | (_, _, b') => ([], b')
    end
  end.

Fixpoint run_ops (ops : list Op) (b : Buffer) : list Frame * Buffer :=
  match ops with
  | [] => ([], b)
  | op :: rest =>
    let '(fs, b1) := run_op op b in
    let '(fs', b2) := run_ops rest b1 in (fs ++ fs', b2)
  end.

(** The pad masks each seat produces, as functions of the frame, and the calls a
    side makes when both its own masks and the peer's reach it unaltered (in any
    order, with repetitions and losses). *)
Definition honest (mine theirs : Z -> Z) (op : Op) : Prop :=
  match op with
  | PutLocal i m => m = mine i
  | PutRemote i m => m = theirs i
  | PopReady => True
  end.

(** What a side feeds the emulator for one frame: player one, player two. *)
Definition seats (host : bool) (f : Frame) : Z * Z :=
  if host then (local_mask f, remote_mask f) else (remote_mask f, local_mask f).

(** ** The buffer invariant *)

(** Only frames of the current window have slots. *)
Definition buffer_wf (b : Buffer) : Prop :=
  forall i s, slots_ b !! i = Some s -> next_frame_ b <= i < next_frame_ b + window_ b.

(** Every stored mask is the mask of its seat. *)
Definition faithful (mine theirs : Z -> Z) (b : Buffer) : Prop :=
  forall i s, slots_ b !! i = Some s ->
    (forall m, local s = Some m -> m = mine i) /\
    (forall m, remote s = Some m -> m = theirs i).

(** ** Lemmas *)

Implicit Types (mine theirs : Z -> Z) (side : bool).

Lemma put_window i m side b : window_ (put i m side b).2 = window_ b.
Proof. unfold put. repeat case_match; done. Qed.

Lemma put_next i m side b : next_frame_ (put i m side b).2 = next_frame_ b.
Proof. unfold put. repeat case_match; done. Qed.

Lemma buffer_new_wf d w : buffer_wf (Buffer_new d w).
Proof. by intros i s. Qed.

Lemma put_wf i m side b : buffer_wf b -> buffer_wf (put i m side b).2.
Proof.
  intros Hwf j s. rewrite put_window, put_next. unfold put.
  destruct (i <? _) eqn:E1; [apply Hwf |]. destruct (_ <=? _) eqn:E2; [apply Hwf |].
  bool_hyps. case_match; simpl; rewrite lookup_insert; case_decide; subst;
    (intros _; lia) || apply Hwf.
Qed.

(** The result of a pop, as a relation between the buffers. *)
Lemma pop_ready_cases fr b :
  (exists l r, slots_ b !! next_frame_ b = Some (mkSlot (Some l) (Some r)) /\
     pop_ready (Some fr) b =
       (true, Some (mkFrame (next_frame_ b) l r),
        mkBuffer (window_ b) (next_frame_ b + 1) (delete (next_frame_ b) (slots_ b)))) \/
  pop_ready (Some fr) b = (false, Some fr, b).
Proof. unfold pop_ready. repeat case_match; eauto 6. Qed.

Lemma pop_wf fr b : buffer_wf b -> buffer_wf (pop_ready (Some fr) b).2.
Proof.
  intros Hwf. destruct (pop_ready_cases fr b) as [(l & r & Hs & ->)| ->]; [|done].
  intros i s. simpl. rewrite lookup_delete_Some. intros [Hne Hi].
  apply Hwf in Hi. lia.
Qed.

Lemma run_op_wf op b : buffer_wf b -> buffer_wf (run_op op b).2.
Proof.
  intros Hwf. destruct op as [i m|i m|]; cbn [run_op]; [by apply put_wf..|].
  pose proof (pop_wf (mkFrame 0 0 0) b Hwf) as H.
  destruct (pop_ready _ b) as [[[] [f|]] b']; done.
Qed.

Lemma put_faithful mine theirs i m side b :
  m = (if side then mine i else theirs i) ->
  faithful mine theirs b -> faithful mine theirs (put i m side b).2.
Proof.
  intros Hm Hf j s. unfold put.
  destruct (i <? _); [apply Hf |]. destruct (_ <=? _); [apply Hf |].
  assert (forall sl, slots_ b !! i = sl ->
    let s := default (mkSlot None None) sl in
    (forall m, local s = Some m -> m = mine i) /\
    (forall m, remote s = Some m -> m = theirs i)) as Hslot.
  { intros [sl|] Hsl; simpl; [by apply Hf | split; intros ? [=]]. }
  specialize (Hslot _ eq_refl). simpl in Hslot.
  set (sl := default _ _) in *. clearbody sl.
  destruct Hslot as [Hl Hr].
  destruct side; simpl; case_match; simpl; rewrite lookup_insert; case_decide; subst;
    try apply Hf; intros [= <-]; simpl; split; intros m'; try intros [= <-];
    auto; intros; simplify_eq; naive_solver.
Qed.

Lemma pop_faithful mine theirs fr b :
  faithful mine theirs b -> faithful mine theirs (pop_ready (Some fr) b).2.
Proof.
  intros Hf. destruct (pop_ready_cases fr b) as [(l & r & Hs & ->)| ->]; [|done].
  intros i s. simpl. rewrite lookup_delete_Some. intros [Hne Hi]. by apply Hf.
Qed.

(** The frames a side must see from frame [n] on. *)
Definition expected_frames (mine theirs : Z -> Z) (n k : Z) : list Frame :=
  (fun i => mkFrame i (mine i) (theirs i)) <$> seqZ n k.

(** One honest call keeps the masks faithful and releases at most the next frame,
    carrying the masks of that frame. *)
Lemma run_op_honest mine theirs op b :
  honest mine theirs op -> faithful mine theirs b ->
  let '(fs, b') := run_op op b in
  faithful mine theirs b' /\
  fs = expected_frames mine theirs (next_frame_ b) (zlen fs) /\
  next_frame_ b' = next_frame_ b + zlen fs.
Proof.
  intros Hop Hf. destruct op as [i m|i m|]; cbn [run_op honest] in *.
  - split_and!; [by apply put_faithful | done |].
    unfold put_local. rewrite put_next, zlen_nil. lia.
  - split_and!; [by apply put_faithful | done |].
    unfold put_remote. rewrite put_next, zlen_nil. lia.
  - pose proof (pop_faithful mine theirs (mkFrame 0 0 0) b Hf) as Hpf.
    destruct (pop_ready_cases (mkFrame 0 0 0) b) as [(l & r & Hs & E)|E]; rewrite E in *; clear E.
    + destruct (Hf _ _ Hs) as [Hl Hr]. simpl in *.
      rewrite (Hl l), (Hr r) by done. split_and!; done.
    + split_and!; [done..| rewrite zlen_nil; lia].
Qed.

Lemma expected_frames_app mine theirs n j k :
  0 <= j -> 0 <= k ->
  expected_frames mine theirs n (j + k) =
  expected_frames mine theirs n j ++ expected_frames mine theirs (n + j) k.
Proof. intros. unfold expected_frames. by rewrite seqZ_app, fmap_app by lia. Qed.

Lemma run_ops_honest mine theirs ops b :
  Forall (honest mine theirs) ops -> faithful mine theirs b ->
  let '(fs, b') := run_ops ops b in
  faithful mine theirs b' /\
  fs = expected_frames mine theirs (next_frame_ b) (zlen fs) /\
  next_frame_ b' = next_frame_ b + zlen fs.
Proof.
  revert b. induction ops as [|op ops IH]; intros b Hops Hf; simpl.
  { split_and!; [done..| rewrite zlen_nil; lia]. }
  apply Forall_cons in Hops as [Hop Hops].
  pose proof (run_op_honest mine theirs op b Hop Hf) as H1.
  destruct (run_op op b) as [fs b1]. destruct H1 as (Hf1 & E1 & N1).
  specialize (IH b1 Hops Hf1). destruct (run_ops ops b1) as [fs' b2].
  destruct IH as (Hf2 & E2 & N2). split_and!; [done | |].
  - pose proof (zlen_nonneg fs). pose proof (zlen_nonneg fs').
    rewrite zlen_app, expected_frames_app, <- E1, <- N1, <- E2 by lia. done.
  - rewrite zlen_app. lia.
Qed.

Lemma run_ops_wf ops b : buffer_wf b -> buffer_wf (run_ops ops b).2.
Proof.
  revert b. induction ops as [|op ops IH]; intros b Hwf; simpl; [done |].
  pose proof (run_op_wf op b Hwf) as H1. destruct (run_op op b) as [fs b1].
  specialize (IH b1 H1). by destruct (run_ops ops b1).
Qed.

Lemma run_ops_window ops b : window_ (run_ops ops b).2 = window_ b.
Proof.
  revert b. induction ops as [|op ops IH]; intros b; simpl; [done |].
  assert (window_ (run_op op b).2 = window_ b) as H.
  { destruct op; cbn [run_op]; [apply put_window..|].
    destruct (pop_ready_cases (mkFrame 0 0 0) b) as [(l & r & _ & ->)| ->]; done. }
  destruct (run_op op b) as [fs b1]. specialize (IH b1).
  destruct (run_ops ops b1). simpl in *. congruence.
Qed.

(** A well-formed buffer holds at most [window_] slots. *)
Lemma buffer_wf_size b :
  0 <= window_ b -> buffer_wf b -> Z.of_nat (size (slots_ b)) <= window_ b.
Proof.
  intros Hw Hwf. rewrite <- size_dom.
  assert (dom (slots_ b) ⊆ list_to_set (C := gset Z) (seqZ (next_frame_ b) (window_ b))) as Hsub.
  { intros i [s Hs]%elem_of_dom. apply elem_of_list_to_set, elem_of_seqZ.
    apply Hwf in Hs. lia. }
  apply subseteq_size in Hsub. rewrite size_list_to_set in Hsub by apply NoDup_seqZ.
  rewrite length_seqZ in Hsub. lia.
Qed.

(** The buffer holds [m] for frame [i] and the given side. *)
Definition holds (i m : Z) (side : bool) (b : Buffer) : Prop :=
  next_frame_ b <= i < next_frame_ b + window_ b /\
  exists s, slots_ b !! i = Some s /\ (if side then local s else remote s) = Some m.

Lemma put_accepted_holds i m side b :
  (put i m side b).1 = Accepted -> holds i m side (put i m side b).2.
Proof.
  intros H. split.
  - rewrite put_next, put_window. revert H. unfold put.
    destruct (_ <? _) eqn:E; [done |]. destruct (_ <=? _) eqn:E2; [done |]. bool_hyps. lia.
  - revert H. unfold put. destruct (_ <? _); [done |]. destruct (_ <=? _); [done |].
    set (v := if side then local _ else remote _). destruct v as [v|]; simpl.
    { by destruct (v =? m). }
    intros _. rewrite lookup_insert_eq.
    eexists. split; [done |]. by destruct side.
Qed.

Lemma holds_put i m m' side b :
  holds i m side b ->
  (put i m' side b).1 = (if decide (m' = m) then Duplicate else Conflict).
Proof.
  intros [Hi (s & Hs & Hm)]. unfold put.
  destruct (_ <? _) eqn:E; bool_hyps; [lia |]. destruct (_ <=? _) eqn:E2; bool_hyps; [lia |].
  rewrite Hs. simpl. rewrite Hm. simpl.
  destruct (m =? m') eqn:E3; bool_hyps; case_decide; congruence.
Qed.

Lemma put_keeps_holds i m side j m' side' b :
  holds i m side b -> holds i m side (put j m' side' b).2.
Proof.
  intros [Hi (s & Hs & Hm)]. split; [by rewrite put_next, put_window |].
  unfold put. destruct (_ <? _); [eauto |]. destruct (_ <=? _); [eauto |].
  destruct (decide (i = j)) as [<-|Hne].
  - rewrite Hs. simpl. destruct (if side' then local s else remote s) eqn:Ev; simpl;
      rewrite lookup_insert_eq; eexists; (split; [done |]);
      destruct side, side'; simpl in *; congruence.
  - set (v := if side' then local _ else remote _).
    destruct v; simpl; rewrite lookup_insert_ne by done; eauto.
Qed.

Lemma run_ops_holds ops i m side b :
  holds i m side b -> Forall (fun op => op <> PopReady) ops ->
  holds i m side (run_ops ops b).2.
Proof.
  revert b. induction ops as [|op ops IH]; intros b Hb Hops; simpl; [done |].
  apply Forall_cons in Hops as [Hop Hops].
  assert (holds i m side (run_op op b).2) as H1
    by (destruct op; simpl; [by apply put_keeps_holds..| done]).
  destruct (run_op op b) as [fs b1]. specialize (IH b1 H1 Hops).
  by destruct (run_ops ops b1).
Qed.

(** ** Properties *)

(** C2. Both sides of a lockstep game play the same frames: given the masks [p1]
    and [p2] of the two seats, whatever calls each side makes with the masks of
    its own pad and the ones its peer sent, the seat-ordered frames it feeds the
    emulator are frames 0, 1, 2, ... with exactly those masks, so the shorter of
    the two games is a prefix of the longer. *)
Theorem lockstep_agreement (p1 p2 : Z -> Z) (d w : Z) (host guest : list Op) :
  Forall (honest p1 p2) host -> Forall (honest p2 p1) guest ->
  let fh := seats true <$> (run_ops host (Buffer_new d w)).1 in
  let fg := seats false <$> (run_ops guest (Buffer_new d w)).1 in
  fh `prefix_of` fg \/ fg `prefix_of` fh.
Proof.
  intros Hh Hg.
  assert (forall l r, faithful l r (Buffer_new d w)) as Hnew by (intros l r i s; done).
  pose proof (run_ops_honest p1 p2 host (Buffer_new d w) Hh (Hnew _ _)) as H1.
  pose proof (run_ops_honest p2 p1 guest (Buffer_new d w) Hg (Hnew _ _)) as H2.
  destruct (run_ops host _) as [fh bh], (run_ops guest _) as [fg bg].
  destruct H1 as (_ & -> & _), H2 as (_ & -> & _). simpl.
  set (f := fun i => (p1 i, p2 i)).
  assert (forall n k, seats true <$> expected_frames p1 p2 n k = f <$> seqZ n k) as ->
    by (intros; unfold expected_frames; rewrite <- list_fmap_compose; done).
  assert (forall n k, seats false <$> expected_frames p2 p1 n k = f <$> seqZ n k) as ->
    by (intros; unfold expected_frames; rewrite <- list_fmap_compose; done).
  assert (forall j k, 0 <= j <= k -> f <$> seqZ 0 j `prefix_of` f <$> seqZ 0 k) as Hpre.
  { intros j k Hjk. replace k with (j + (k - j)) by lia.
    rewrite seqZ_app, fmap_app by lia. by apply prefix_app_r. }
  pose proof (zlen_nonneg fh). pose proof (zlen_nonneg fg).
  destruct (Z.le_ge_cases (zlen fh) (zlen fg)); [left | right]; apply Hpre; lia.
Qed.

Lemma lockstep_agreement_witness :
  let host := [PutLocal 0 1; PutRemote 0 2; PopReady; PutLocal 1 1] in
  let guest := [PutRemote 1 1; PutLocal 0 2; PopReady; PutRemote 0 1; PopReady;
                PutLocal 1 2; PopReady] in
  seats true <$> (run_ops host (Buffer_new 2 256)).1
    `prefix_of` seats false <$> (run_ops guest (Buffer_new 2 256)).1 \/
  seats false <$> (run_ops guest (Buffer_new 2 256)).1
    `prefix_of` seats true <$> (run_ops host (Buffer_new 2 256)).1.
Proof.
  apply (lockstep_agreement (fun _ => 1) (fun _ => 2) 2 256
    [PutLocal 0 1; PutRemote 0 2; PopReady; PutLocal 1 1]
    [PutRemote 1 1; PutLocal 0 2; PopReady; PutRemote 0 1; PopReady;
     PutLocal 1 2; PopReady]); repeat constructor.
Defined.

(** Nothing a peer or a player submits makes the buffer hold more than one
    window of frames: after any calls at most [w] slots exist, all in
    [next, next + w), and a submission outside that range is refused without
    touching the buffer. *)
Theorem lockstep_window (d w : Z) (ops : list Op) (i m : Z) (side : bool) :
  0 <= w ->
  let b := (run_ops ops (Buffer_new d w)).2 in
  Z.of_nat (size (slots_ b)) <= w /\ buffer_wf b /\
  match put i m side b with
  | (Late, b') => i < next_frame_ b /\ b' = b
  | (OutOfWindow, b') => next_frame_ b + w <= i /\ b' = b
  | _ => next_frame_ b <= i < next_frame_ b + w
  end.
Proof.
  intros Hw b. pose proof (run_ops_window ops (Buffer_new d w)) as Hwin.
  pose proof (run_ops_wf ops (Buffer_new d w) (buffer_new_wf d w)) as Hwf.
  fold b in Hwin, Hwf. change (window_ (Buffer_new d w)) with w in Hwin.
  split_and!; [rewrite <- Hwin; apply buffer_wf_size; [lia | done] | done |].
  unfold put. destruct (_ <? _) eqn:E; bool_hyps; [done|].
  destruct (_ <=? _) eqn:E2; bool_hyps; [split; [lia | done]|].
  set (v := if side then local _ else remote _).
  destruct v as [v|]; [destruct (v =? m)|]; lia.
Qed.

Lemma lockstep_window_witness :
  0 <= 2 /\
  Z.of_nat (size (slots_ (run_ops [PutLocal 1 7; PutRemote 0 1] (Buffer_new 0 2)).2)) <= 2.
Proof.
  split; [lia |].
  exact (proj1 (lockstep_window 0 2 [PutLocal 1 7; PutRemote 0 1] 5 1 true ltac:(lia))).
Defined.

(** A mask, once accepted, is final until its frame is released: after any
    further submissions for any frames and sides, submitting the frame again
    reports [Duplicate] for the accepted mask and [Conflict] for any other. *)
Theorem accepted_mask_final (b : Buffer) (i m m' : Z) (side : bool) (ops : list Op) :
  (put i m side b).1 = Accepted -> Forall (fun op => op <> PopReady) ops ->
  let b' := (run_ops ops (put i m side b).2).2 in
  (put i m' side b').1 = (if decide (m' = m) then Duplicate else Conflict).
Proof.
  intros Hacc Hops. apply put_accepted_holds in Hacc.
  apply (run_ops_holds ops) in Hacc; [|done]. by apply holds_put.
Qed.

Lemma accepted_mask_final_witness :
  (put 3 9 true (Buffer_new 2 256)).1 = Accepted /\
  (put 3 8 true (run_ops [PutRemote 3 1; PutLocal 3 8] (put 3 9 true (Buffer_new 2 256)).2).2).1
    = Conflict.
Proof.
  split; [reflexivity |].
  exact (accepted_mask_final (Buffer_new 2 256) 3 9 8 true [PutRemote 3 1; PutLocal 3 8]
    eq_refl ltac:(repeat constructor; discriminate)).
Defined.
