(* ===== verification/LanSession.v ===== *)
(** * LAN MVP session coordinator ([shared/src/session/lan_mvp/session.cpp])

    One object owns a two-player session: the transport operations in flight, the
    message stream, the configuration handshake, the lockstep buffer and the
    emulator.  A member function is a computation over [session]; an entry point
    of the C interface is a computation run under the object's mutex, so calls are
    atomic steps, and the transport's completion callback is a step that only
    appends an event ([completion]).

    The environment is three interfaces.  [RuntimePort] is the emulator
    ([fly_runtime_*], which ends in the vendored NestopiaUE core): its operations
    may fail and are otherwise arbitrary functions.  [QuicPort] is the transport
    provider (Rust): the status with which it accepts or refuses the start of an
    operation.  [SteadyClock] is [std::chrono::steady_clock]: the value of the
    n-th reading, never decreasing.

    Diagnostic tracing writes text to an optional sink and changes nothing else;
    it is left out.  64-bit counters that grow by one per frame or operation are
    unbounded integers here. *)

From S2P Require Import Prelude.
From S2P Require Import Sha256.
From S2P Require Import LanInvite.
From S2P Require LanWire.
From S2P Require Lockstep.

(** ** Data *)

Module Operation.
Inductive t := Material | Listen | Accept | Connect | OpenStream | AcceptStream | Read | Write.

#[global] Instance t_eq_dec : EqDecision t.
Proof. solve_decision. Defined.

Definition code (o : t) : Z :=
  match o with
  | Material => 1 | Listen => 2 | Accept => 3 | Connect => 4
  | OpenStream => 5 | AcceptStream => 6 | Read => 7 | Write => 8
  end.
End Operation.

Inductive Role := NoRole | Host | Guest.

(** [FLY_LAN_MVP_*] states and [FLY_LAN_MVP_REASON_*]. *)
Inductive LanState :=
  | IDLE | INVITING | JOINING | LOBBY | ENDED | CONFIGURING | RUNNING | RETURNING.

Inductive Reason :=
  | REASON_NONE | INVALID_INVITE | CONNECTION | REJECTED | EXPIRED | CANCELLED
  | ROM_INVALID | ROM_MISMATCH | CONFIG_MISMATCH | STALL | DESYNC | PEER_ENDED.

#[export] Instance Role_eq_dec : EqDecision Role.
Proof. solve_decision. Defined.
#[export] Instance LanState_eq_dec : EqDecision LanState.
Proof. solve_decision. Defined.
#[export] Instance Reason_eq_dec : EqDecision Reason.
Proof. solve_decision. Defined.

(** Times in nanoseconds. *)
Definition kInviteLife : Z := 120 * 1000000000.
Definition kProgressTimeout : Z := 2 * 1000000000.
Definition kInputDelay : Z := 2.
Definition kInputWindow : Z := 256.
Definition kDigestInterval : Z := 60.

(** [fly_lan_mvp_snapshot]; its 0/1 words are booleans. *)
Record snapshot := mkSnapshot {
  state : LanState;
  reason : Reason;
  session_id : bytes;
  transport_result : Z;
  transport_operation : Z;
  view_role : Role;
  view_local_configured : bool;
  view_peer_configured : bool;
  view_local_ready : bool;
  view_peer_ready : bool;
  completed_frames : Z;
  config_hash : bytes;
  last_digest_frame : Z;
  last_state_digest : bytes;
  applied_buttons : Z * Z;
  paused : bool;
  peer_game_key : bytes;
}.

#[export] Instance eta_snapshot : Eta snapshot := fun r =>
  mkSnapshot (state r) (reason r) (session_id r) (transport_result r)
    (transport_operation r) (view_role r) (view_local_configured r)
    (view_peer_configured r) (view_local_ready r) (view_peer_ready r)
    (completed_frames r) (config_hash r) (last_digest_frame r)
    (last_state_digest r) (applied_buttons r) (paused r) (peer_game_key r).

Record Event := mkEvent {
  ev_operation : Z;
  ev_result : Z;
  ev_resource : Z;
  ev_bytes : bytes;
}.

(** ** Interfaces *)

Record SourceTiming := mkTiming {
  source_region : Z;
  frame_rate_numerator : Z;
  frame_rate_denominator : Z;
  sample_rate : Z;
}.

(** The fields of [fly_frame_input_v1] the session sets. *)
Record FrameInput := mkFrameInput {
  timeline_epoch : Z;
  frame_index : Z;
  buttons : list Z;
  input_sequence : list Z;
  batch_sequence : Z;
}.

Record FrameResult := mkFrameResult {
  pcm_published : bool;
  audio_last_sample_sequence : Z;
}.

Record PcmBlock := mkPcmBlock {
  sample_count : Z;
  first_sample_sequence : Z;
  media_time_ns : Z;
}.

Class RuntimePort := {
  Runtime : Type;
  runtime_create : option Runtime;
  runtime_load_rom_fresh : Runtime -> bytes -> bytes -> option Runtime;
  runtime_get_source_timing : Runtime -> option SourceTiming;
  runtime_step_frame : Runtime -> FrameInput -> option (FrameResult * Runtime);
  runtime_copy_frame_digest : Runtime -> Z -> Z -> option bytes;
  runtime_pull_pcm : Runtime -> Z -> option (PcmBlock * Runtime);
  runtime_copy_latest_frame : Runtime -> Z -> option bytes;
}.

(** What the session asks of the transport. *)
Inductive Request :=
  | GenerateSelfSigned
  | ListenOn (address : bytes) (material timeout : Z)
  | AcceptOn (listener : Z)
  | ConnectTo (bind address pin : bytes) (timeout : Z)
  | OpenBidi (connection : Z)
  | AcceptBidi (connection : Z)
  | ReadFrom (stream maximum : Z)
  | WriteTo (stream : Z) (data : bytes)
  | CloseHandle (handle : Z)
  | CancelOperation.

Definition QUIC_ACCEPTED : Z := 1.
Definition QUIC_OK : Z := 0.

Class QuicPort := {
  (** status of the request started under an operation number *)
  quic_start : Z -> Request -> Z;
}.

Class SteadyClock := {
  clock : nat -> Z;
  clock_steady : forall n, clock n <= clock (S n);
}.

(** ** Byte helpers of session.cpp *)

Definition big_endian_u64 (b : bytes) : Z := be_value (slice b 0 8).
Definition big_endian_u32 (b : bytes) : Z := be_value (slice b 0 4).
Definition append_u64 (value : Z) : bytes := be_bytes 8 value.
Definition append_u32 (value : Z) : bytes := be_bytes 4 value.

(** Accumulated difference, without an early exit. *)
Definition same_bytes (a b : bytes) (size : Z) : bool :=
  fold_left (fun difference i => Z.lor difference (Z.lxor (at_ a i) (at_ b i)))
            (seqZ 0 size) 0 =? 0.

Definition make_config_hash (rom_hash : bytes) (timing : SourceTiming) : bytes :=
  sha256 (rom_hash ++ ascii_bytes "flynes-lan-mvp-nestopia-v1" ++
          append_u32 (source_region timing) ++
          append_u32 (frame_rate_numerator timing) ++
          append_u32 (frame_rate_denominator timing) ++
          append_u32 (sample_rate timing)).

Definition zero32 : bytes := replicate 32 0.

Section Session.
Context {RP : RuntimePort} {QP : QuicPort} {CK : SteadyClock}.

(** [struct fly_lan_mvp_session].  [log] is the history of transport requests
    with their operation numbers and [clock_reads] counts clock readings; the
    other fields are the members of the struct. *)
Record session := mkSession {
  events : list Event;
  operations : gmap Z Operation.t;
  next_operation : Z;
  role : Role;
  view : snapshot;
  invite : Invite;
  qr : bytes;
  deadline : Z;
  last_progress : Z;
  material : Z;
  listener : Z;
  connection : Z;
  send_stream : Z;
  recv_stream : Z;
  decoder : LanWire.Decoder;
  read_inflight : bool;
  write_inflight : bool;
  writes : list bytes;
  runtime : option Runtime;
  local_rom_hash : bytes;
  remote_rom_hash : bytes;
  local_config_hash : bytes;
  remote_config_hash : bytes;
  local_configured : bool;
  peer_configured : bool;
  local_ready : bool;
  peer_ready : bool;
  inputs : option Lockstep.Buffer;
  next_submit_frame : Z;
  last_submitted_buttons : Z;
  last_applied_buttons : Z * Z;
  lobby_generation : Z;
  pcm_produced : Z;
  pcm_consumed : Z;
  local_digests : gmap Z bytes;
  remote_digests : gmap Z bytes;
  log : list (Z * Request);
  clock_reads : nat;
}.

#[export] Instance eta_session : Eta session := fun r =>
  mkSession (events r) (operations r) (next_operation r) (role r) (view r)
    (invite r) (qr r) (deadline r) (last_progress r) (material r) (listener r)
    (connection r) (send_stream r) (recv_stream r) (decoder r) (read_inflight r)
    (write_inflight r) (writes r) (runtime r) (local_rom_hash r)
    (remote_rom_hash r) (local_config_hash r) (remote_config_hash r)
    (local_configured r) (peer_configured r) (local_ready r) (peer_ready r)
    (inputs r) (next_submit_frame r) (last_submitted_buttons r)
    (last_applied_buttons r) (lobby_generation r) (pcm_produced r)
    (pcm_consumed r) (local_digests r) (remote_digests r) (log r) (clock_reads r).

Definition initial_view : snapshot :=
  mkSnapshot IDLE REASON_NONE (replicate 16 0) 0 0 NoRole false false false false
    0 zero32 0 zero32 (0, 0) false (replicate 256 0).

Definition initial_session : session :=
  mkSession [] ∅ 1 NoRole initial_view Invite_empty [] 0 0 0 0 0 0 0
    LanWire.Decoder_new false false [] None zero32 zero32 zero32 zero32
    false false false false None kInputDelay 0 (0, 0) 0 0 0 ∅ ∅ [] O.

(** ** Environment access *)

Definition now : M session Z := fun s =>
  (clock (clock_reads s), s <| clock_reads := S (clock_reads s) |>).

(** Assign members of [view]. *)
Definition set_view (f : snapshot -> snapshot) : M session unit :=
  modify (fun s => s <| view := f (view s) |>).

Definition set_state (st : LanState) : M session unit :=
  set_view (fun v => v <| state := st |>).

Definition in_state (st : LanState) (s : session) : bool :=
  bool_decide (state (view s) = st).

(** ** Transport *)

Definition stop_runtime : M session unit :=
  modify (fun s => s <| inputs := None |> <| runtime := None |>).

(** [flynes_quic_provider_close(provider, next_operation++, handle, 0)]; the
    status is ignored. *)
Definition close_handle (handle : Z) : M session unit :=
  modify (fun s => s <| log := log s ++ [(next_operation s, CloseHandle handle)] |>
                     <| next_operation := next_operation s + 1 |>).

(** Pending operations are cancelled in the (unspecified) order of the hash map;
    here in the order of the finite map. *)
Definition cancel_pending : M session unit :=
  modify (fun s => s <| log := log s ++
                          ((fun p => (p.1, CancelOperation)) <$> map_to_list (operations s)) |>
                     <| operations := ∅ |>).

Definition end_ (why : Reason) : M session unit :=
  s ← gets id;
  if in_state ENDED s then mret tt
  else
    set_view (fun v => v <| state := ENDED |> <| reason := why |>);;
    modify (fun s => s <| qr := [] |> <| writes := [] |>
                       <| write_inflight := false |> <| read_inflight := false |>);;
    stop_runtime;;
    cancel_pending;;
    when (negb (connection s =? 0)) (close_handle (connection s));;
    when (negb (listener s =? 0)) (close_handle (listener s)).

Definition submit (kind : Operation.t) (request : Request) : M session bool :=
  operation ← gets next_operation;
  modify (fun s => s <| next_operation := operation + 1 |>
                     <| operations := <[operation := kind]> (operations s) |>
                     <| log := log s ++ [(operation, request)] |>);;
  let result := quic_start operation request in
  if result =? QUIC_ACCEPTED then mret true
  else
    modify (fun s => s <| operations := delete operation (operations s) |>);;
    set_view (fun v => v <| transport_result := result |>
                         <| transport_operation := Operation.code kind |>);;
    end_ CONNECTION;;
    mret false.

Definition begin_read : M session bool :=
  s ← gets id;
  if read_inflight s || (recv_stream s =? 0) || in_state ENDED s then mret true
  else
    modify (fun s => s <| read_inflight := true |>);;
    ok ← submit Operation.Read (ReadFrom (recv_stream s) (LanWire.kMaxBodySize + 2));
    if (ok : bool) then mret true
    else modify (fun s => s <| read_inflight := false |>);; mret false.

Definition begin_next_write : M session bool :=
  s ← gets id;
  match writes s with
  | [] => mret true
  | front :: _ =>
    if write_inflight s || (send_stream s =? 0) || in_state ENDED s then mret true
    else
      modify (fun s => s <| write_inflight := true |>);;
      ok ← submit Operation.Write (WriteTo (send_stream s) front);
      if (ok : bool) then mret true
      else modify (fun s => s <| write_inflight := false |>);; mret false
  end.

Definition queue_message (kind : LanWire.Kind) (payload : bytes) : M session bool :=
  match LanWire.encode kind payload (Some []) with
  | (true, Some bytes) =>
    modify (fun s => s <| writes := writes s ++ [bytes] |>);;
    begin_next_write
  | _ => end_ REJECTED;; mret false
  end.

(** ** Game *)

Definition configs_match (s : session) : bool :=
  local_configured s && peer_configured s &&
  same_bytes (local_rom_hash s) (remote_rom_hash s) 32 &&
  same_bytes (local_config_hash s) (remote_config_hash s) 32.

Definition compare_digest (frame : Z) : M session unit :=
  s ← gets id;
  match local_digests s !! frame, remote_digests s !! frame with
  | Some local, Some remote =>
    if negb (same_bytes local remote 32) then end_ DESYNC
    else modify (fun s => s <| local_digests := delete frame (local_digests s) |>
                            <| remote_digests := delete frame (remote_digests s) |>)
  | _, _ => mret tt
  end.

Definition publish_digest (frame : Z) : M session unit :=
  s ← gets id;
  match runtime s ≫= (fun rt => runtime_copy_frame_digest rt 1 frame) with
  | None => end_ CONFIG_MISMATCH
  | Some digest =>
    modify (fun s => s <| local_digests := <[frame := digest]> (local_digests s) |>);;
    set_view (fun v => v <| last_digest_frame := frame |> <| last_state_digest := digest |>);;
    _ ← queue_message LanWire.Digest (append_u64 frame ++ digest);
    compare_digest frame
  end.

(** The emulator input of one lockstep frame: seats one and two of four. *)
Definition frame_input_of (r : Role) (f : Lockstep.Frame) : FrameInput :=
  let '(p1, p2) := Lockstep.seats (bool_decide (r = Host)) f in
  let sequence := Lockstep.index f + 1 in
  mkFrameInput 1 (Lockstep.index f) [p1; p2; 0; 0] [sequence; sequence; 0; 0] sequence.

(** The body of the loop of [advance]; [false] is its [return]. *)
Definition play_frame (f : Lockstep.Frame) : M session bool :=
  s ← gets id;
  let input := frame_input_of (role s) f in
  let p1 := at_ (buttons input) 0 in
  let p2 := at_ (buttons input) 1 in
  when (negb (p1 =? (last_applied_buttons s).1) || negb (p2 =? (last_applied_buttons s).2))
       (modify (fun s => s <| last_applied_buttons := (p1, p2) |>));;
  match runtime s ≫= (fun rt => runtime_step_frame rt input) with
  | None => end_ CONFIG_MISMATCH;; mret false
  | Some (result, rt) =>
    modify (fun s => s <| runtime := Some rt |>);;
    set_view (fun v => v <| completed_frames := Lockstep.index f + 1 |>);;
    when (pcm_published result)
         (modify (fun s => s <| pcm_produced := audio_last_sample_sequence result + 1 |>));;
    set_view (fun v => v <| applied_buttons := (p1, p2) |>);;
    t ← now;
    modify (fun s => s <| last_progress := t |>);;
    when ((Lockstep.index f + 1) mod kDigestInterval =? 0) (publish_digest (Lockstep.index f));;
    mret true
  end.

(** [while (view.state == RUNNING && inputs->pop_ready(&frame))]. *)
Fixpoint advance_loop (fuel : nat) : M session unit :=
  match fuel with
  | O => mret tt
  | S fuel =>
    s ← gets id;
    if negb (in_state RUNNING s) then mret tt
    else
      match inputs s with
      | None => mret tt
      | Some buffer =>
        match Lockstep.pop_ready (Some (Lockstep.mkFrame 0 0 0)) buffer with
        | (true, Some f, buffer') =>
          modify (fun s => s <| inputs := Some buffer' |>);;
          more ← play_frame f;
          if (more : bool) then advance_loop fuel else mret tt
        | _ => mret tt
        end
      end
  end.

(** Every iteration removes a slot, so one more than the slots is enough. *)
Definition advance_fuel (s : session) : nat :=
  match inputs s with Some b => S (size (Lockstep.slots_ b)) | None => O end.

Definition advance : M session unit :=
  s ← gets id;
  if negb (in_state RUNNING s) || paused (view s) ||
     bool_decide (inputs s = None) || negb (bool_decide (is_Some (runtime s)))
  then mret tt
  else advance_loop (advance_fuel s).


(** ** Round start and lobby *)

Definition enter_running : M session unit :=
  s ← gets id;
  if in_state RUNNING s || negb (bool_decide (is_Some (runtime s))) ||
     negb (configs_match s) || negb (local_ready s) || negb (peer_ready s)
  then mret tt
  else
    set_view (fun v => v <| state := RUNNING |> <| reason := REASON_NONE |>
                         <| completed_frames := 0 |>);;
    modify (fun s => s <| pcm_produced := 0 |> <| pcm_consumed := 0 |>);;
    set_view (fun v => v <| last_digest_frame := 0 |> <| last_state_digest := zero32 |>);;
    modify (fun s => s <| inputs := Some (Lockstep.Buffer_new kInputDelay kInputWindow) |>
                       <| next_submit_frame := kInputDelay |>
                       <| local_digests := ∅ |> <| remote_digests := ∅ |>);;
    modify (fun s => s <| inputs :=
      (fun b => foldl (fun b frame =>
         (Lockstep.put_remote frame 0 (Lockstep.put_local frame 0 b).2).2)
         b (seqZ 0 kInputDelay)) <$> inputs s |>);;
    t ← now;
    modify (fun s => s <| last_progress := t |>);;
    advance.

Definition maybe_start_host : M session unit :=
  s ← gets id;
  if negb (bool_decide (role s = Host)) || in_state RUNNING s ||
     negb (local_ready s) || negb (peer_ready s) || negb (configs_match s)
  then mret tt
  else
    ok ← queue_message LanWire.Start (local_config_hash s);
    when ok enter_running.

Definition clear_game : M session unit :=
  stop_runtime;;
  modify (fun s => s <| local_configured := false |> <| peer_configured := false |>
                     <| local_ready := false |> <| peer_ready := false |>
                     <| local_rom_hash := zero32 |> <| remote_rom_hash := zero32 |>
                     <| local_config_hash := zero32 |> <| remote_config_hash := zero32 |>
                     <| local_digests := ∅ |> <| remote_digests := ∅ |>
                     <| pcm_produced := 0 |> <| pcm_consumed := 0 |>);;
  set_view (fun v => v <| completed_frames := 0 |> <| last_digest_frame := 0 |>
                       <| paused := false |> <| peer_game_key := replicate 256 0 |>
                       <| applied_buttons := (0, 0) |> <| config_hash := zero32 |>
                       <| last_state_digest := zero32 |> <| reason := REASON_NONE |>);;
  modify (fun s => s <| last_submitted_buttons := 0 |> <| last_applied_buttons := (0, 0) |>).

Definition return_lobby : M session bool :=
  s ← gets id;
  if in_state RETURNING s then mret true
  else if negb (in_state RUNNING s) && negb (in_state LOBBY s) &&
          negb (in_state CONFIGURING s)
  then mret false
  else if bool_decide (role s = Guest) then
    set_state RETURNING;;
    queue_message LanWire.LobbyRequest []
  else
    clear_game;;
    set_state RETURNING;;
    modify (fun s => s <| lobby_generation := lobby_generation s + 1 |>);;
    generation ← gets lobby_generation;
    queue_message LanWire.Lobby (append_u64 generation).

(** ** Messages

    [handle_message] is split at its branches; each definition is the body of one
    branch and its early returns. *)

Definition on_pause (payload : bytes) : M session unit :=
  s ← gets id;
  if negb (in_state RUNNING s) then mret tt
  else
    set_view (fun v => v <| paused := negb (at_ payload 0 =? 0) |>);;
    t ← now;
    modify (fun s => s <| last_progress := t |>);;
    when (bool_decide (role s = Host)) (_ ← queue_message LanWire.Pause payload; mret tt);;
    v ← gets view;
    when (negb (paused v)) advance.

(** The guard of the Join branch reads the clock only when the operands before it
    are false. *)
Definition join_rejected (payload : bytes) : M session bool :=
  s ← gets id;
  if negb (bool_decide (role s = Host)) || negb (in_state INVITING s) ||
     negb (zlen payload =? 16)
  then mret true
  else
    t ← now;
    mret ((deadline s <=? t) || negb (same_bytes (token (invite s)) payload 16)).

Definition on_join (payload : bytes) : M session unit :=
  rejected ← join_rejected payload;
  if (rejected : bool) then
    t ← now;
    s ← gets id;
    end_ (if deadline s <=? t then EXPIRED else REJECTED)
  else
    s ← gets id;
    let hash := sha256 (take 16 (token (invite s)) ++ take 32 (spki_pin (invite s))) in
    set_view (fun v => v <| session_id := take 16 hash |>);;
    modify (fun s => s <| qr := [] |>);;
    ok ← queue_message LanWire.Accept (take 16 hash);
    when ok (set_state LOBBY).

Definition on_accept (payload : bytes) : M session unit :=
  s ← gets id;
  if negb (bool_decide (role s = Guest)) || negb (in_state JOINING s) ||
     negb (zlen payload =? 16)
  then end_ REJECTED
  else set_view (fun v => v <| session_id := payload |> <| state := LOBBY |>).

(** The game key in its zeroed 256-byte field. *)
Definition game_key_field (payload : bytes) : bytes :=
  drop 64 payload ++ replicate (256 - length (drop 64 payload)) 0.

Definition on_config (payload : bytes) : M session unit :=
  s ← gets id;
  if (negb (in_state LOBBY s) && negb (in_state CONFIGURING s)) ||
     (zlen payload <? 64) || (64 + 256 <=? zlen payload)
  then end_ REJECTED
  else
    let rom := slice payload 0 32 in
    let config := slice payload 32 32 in
    let changed := peer_configured s &&
      (negb (same_bytes (remote_rom_hash s) rom 32) ||
       negb (same_bytes (remote_config_hash s) config 32)) in
    modify (fun s => s <| remote_rom_hash := rom |> <| remote_config_hash := config |>);;
    set_view (fun v => v <| peer_game_key := game_key_field payload |>);;
    modify (fun s => s <| peer_configured := true |>);;
    when changed (modify (fun s => s <| local_ready := false |> <| peer_ready := false |>));;
    set_state CONFIGURING;;
    if local_configured s && negb (same_bytes (local_rom_hash s) rom 32) then
      set_view (fun v => v <| reason := ROM_MISMATCH |>);;
      modify (fun s => s <| local_ready := false |> <| peer_ready := false |>)
    else if local_configured s && negb (same_bytes (local_config_hash s) config 32) then
      set_view (fun v => v <| reason := CONFIG_MISMATCH |>);;
      modify (fun s => s <| local_ready := false |> <| peer_ready := false |>)
    else maybe_start_host.

Definition on_ready (payload : bytes) : M session unit :=
  s ← gets id;
  if (negb (in_state CONFIGURING s) && negb (in_state LOBBY s)) ||
     negb (zlen payload =? 32) || negb (peer_configured s) ||
     negb (same_bytes (remote_config_hash s) payload 32)
  then end_ CONFIG_MISMATCH
  else
    modify (fun s => s <| peer_ready := true |>);;
    maybe_start_host.

Definition on_start (payload : bytes) : M session unit :=
  s ← gets id;
  if negb (bool_decide (role s = Guest)) || negb (in_state CONFIGURING s) ||
     negb (zlen payload =? 32) || negb (local_ready s) || negb (peer_ready s) ||
     negb (same_bytes (local_config_hash s) payload 32) || negb (configs_match s)
  then end_ CONFIG_MISMATCH
  else enter_running.

Definition on_input (payload : bytes) : M session unit :=
  s ← gets id;
  match inputs s with
  | Some buffer =>
    if negb (in_state RUNNING s) || negb (zlen payload =? 12) then end_ REJECTED
    else
      let '(result, buffer') :=
        Lockstep.put_remote (big_endian_u64 payload) (big_endian_u32 (drop 8 payload)) buffer in
      modify (fun s => s <| inputs := Some buffer' |>);;
      if bool_decide (result = Lockstep.Conflict) || bool_decide (result = Lockstep.OutOfWindow)
      then end_ REJECTED
      else advance
  | None => end_ REJECTED
  end.

Definition on_digest (payload : bytes) : M session unit :=
  s ← gets id;
  if negb (in_state RUNNING s) || negb (zlen payload =? 40) then end_ REJECTED
  else
    let digest := slice payload 8 32 in
    let frame := big_endian_u64 payload in
    modify (fun s => s <| remote_digests := <[frame := digest]> (remote_digests s) |>);;
    compare_digest frame.

(** The messages of the lobby barrier, accepted before the RETURNING check. *)
Definition on_lobby (payload : bytes) : M session unit :=
  clear_game;;
  modify (fun s => s <| lobby_generation := big_endian_u64 payload |>);;
  set_state LOBBY;;
  _ ← queue_message LanWire.LobbyAck payload;
  mret tt.

Definition handle_message (message : LanWire.Message) : M session unit :=
  s ← gets id;
  let kind := LanWire.kind message in
  let payload := LanWire.payload message in
  if bool_decide (kind = LanWire.LobbyRequest) && bool_decide (role s = Host) &&
     (zlen payload =? 0)
  then _ ← return_lobby; mret tt
  else if bool_decide (kind = LanWire.Lobby) && bool_decide (role s = Guest) &&
          (zlen payload =? 8)
  then on_lobby payload
  else if bool_decide (kind = LanWire.LobbyAck) && bool_decide (role s = Host) &&
          in_state RETURNING s && (zlen payload =? 8) &&
          (big_endian_u64 payload =? lobby_generation s)
  then set_state LOBBY
  else if in_state RETURNING s then mret tt
  else
    match kind with
    | LanWire.Pause => if zlen payload =? 1 then on_pause payload else end_ REJECTED
    | LanWire.Join => on_join payload
    | LanWire.Accept => on_accept payload
    | LanWire.Config => on_config payload
    | LanWire.Ready => on_ready payload
    | LanWire.Start => on_start payload
    | LanWire.Input => on_input payload
    | LanWire.Digest => on_digest payload
    | LanWire.End => end_ PEER_ENDED
    | _ => end_ REJECTED
    end.

(** ** Completions *)

(** The digits after the last colon, as the loop accumulates them. *)
Fixpoint port_loop (text : bytes) (port : Z) : option Z :=
  match text with
  | [] => Some port
  | c :: rest =>
    if (c <? 48) || (57 <? c) then None
    else
      let port := u32 (port * 10 + (c - 48)) in
      if 65535 <? port then None else port_loop rest port
  end.

(** [address.substr(address.rfind(':') + 1)]. *)
Definition after_last_colon (address : bytes) : option bytes :=
  n ← find ch_colon (reverse address);
  Some (reverse (take n (reverse address))).

Definition listen_port (address : bytes) : option Z :=
  text ← after_last_colon address;
  port ← port_loop text 0;
  if port =? 0 then None else Some port.

Definition on_material (event : Event) : M session unit :=
  if (ev_resource event =? 0) || bool_decide (ev_bytes event = []) then end_ CONNECTION
  else
    modify (fun s => s <| material := ev_resource event |>
                       <| invite := mkInvite (ipv4 (invite s)) (port (invite s))
                                      (sha256 (ev_bytes event)) (token (invite s)) |>);;
    s ← gets id;
    _ ← submit Operation.Listen (ListenOn (endpoint (invite s)) (material s) 30000);
    mret tt.

Definition on_listen (event : Event) : M session unit :=
  modify (fun s => s <| listener := ev_resource event |>);;
  if (ev_resource event =? 0) || bool_decide (ev_bytes event = []) then end_ CONNECTION
  else
    match listen_port (ev_bytes event) with
    | None => end_ CONNECTION
    | Some p =>
      modify (fun s => s <| invite := mkInvite (ipv4 (invite s)) (u16 p)
                                        (spki_pin (invite s)) (token (invite s)) |>);;
      s ← gets id;
      match format_invite (invite s) (Some (qr s)) with
      | (true, Some text) =>
        modify (fun s => s <| qr := text |>);;
        t ← now;
        modify (fun s => s <| deadline := t + kInviteLife |>);;
        _ ← submit Operation.Accept (AcceptOn (listener s));
        mret tt
      | _ => end_ CONNECTION
      end
    end.

(** Both connection completions open one bidirectional stream. *)
Definition on_connection (next : Operation.t) (request : Z -> Request) (event : Event)
    : M session unit :=
  modify (fun s => s <| connection := ev_resource event |>);;
  if ev_resource event =? 0 then end_ CONNECTION
  else _ ← submit next (request (ev_resource event)); mret tt.

Definition on_stream (event : Event) : M session unit :=
  if (ev_resource event =? 0) || negb (zlen (ev_bytes event) =? 8) then end_ CONNECTION
  else
    modify (fun s => s <| send_stream := ev_resource event |>
                       <| recv_stream := big_endian_u64 (ev_bytes event) |>);;
    s ← gets id;
    when (bool_decide (role s = Guest))
         (_ ← queue_message LanWire.Join (token (invite s)); mret tt);;
    _ ← begin_read;
    _ ← begin_next_write;
    mret tt.

Definition on_write : M session unit :=
  modify (fun s => s <| write_inflight := false |>);;
  modify (fun s => s <| writes := tail (writes s) |>);;
  _ ← begin_next_write;
  mret tt.

(** [while (view.state != ENDED && decoder.pop(&message)) handle_message(message)]. *)
Fixpoint read_loop (fuel : nat) (message : LanWire.Message) : M session unit :=
  match fuel with
  | O => mret tt
  | S fuel =>
    s ← gets id;
    if in_state ENDED s then mret tt
    else
      match LanWire.pop (decoder s) (Some message) with
      | (true, d, Some m) =>
        modify (fun s => s <| decoder := d |>);;
        handle_message m;;
        read_loop fuel m
      | (_, d, _) => modify (fun s => s <| decoder := d |>)
      end
  end.

(** A popped message removes at least two buffered bytes. *)
Definition read_fuel (s : session) : nat := S (length (LanWire.bytes_ (decoder s))).

Definition on_read (event : Event) : M session unit :=
  modify (fun s => s <| read_inflight := false |>);;
  if bool_decide (ev_bytes event = []) then end_ CONNECTION
  else
    s ← gets id;
    let '(pushed, d) :=
      LanWire.push (decoder s) (Some (ev_bytes event)) (zlen (ev_bytes event)) in
    modify (fun s => s <| decoder := d |>);;
    if negb pushed then end_ REJECTED
    else
      fuel ← gets read_fuel;
      read_loop fuel (LanWire.mkMessage LanWire.Join []);;
      s ← gets id;
      when (negb (LanWire.failed_ (decoder s))) (_ ← begin_read; mret tt).

Definition consume (event : Event) : M session unit :=
  s ← gets id;
  match operations s !! ev_operation event with
  | None => mret tt
  | Some kind =>
    if in_state ENDED s then mret tt
    else
      modify (fun s => s <| operations := delete (ev_operation event) (operations s) |>);;
      if negb (ev_result event =? QUIC_OK) then
        set_view (fun v => v <| transport_result := ev_result event |>
                             <| transport_operation := Operation.code kind |>);;
        end_ CONNECTION
      else
        match kind with
        | Operation.Material => on_material event
        | Operation.Listen => on_listen event
        | Operation.Accept => on_connection Operation.AcceptStream AcceptBidi event
        | Operation.Connect => on_connection Operation.OpenStream OpenBidi event
        | Operation.OpenStream | Operation.AcceptStream => on_stream event
        | Operation.Write => on_write
        | Operation.Read => on_read event
        end
  end.

Definition sync_view : M session unit :=
  modify (fun s => s <| view :=
    (view s) <| view_role := role s |>
             <| view_local_configured := local_configured s |>
             <| view_peer_configured := peer_configured s |>
             <| view_local_ready := local_ready s |>
             <| view_peer_ready := peer_ready s |>
             <| config_hash := if local_configured s then local_config_hash s
                               else config_hash (view s) |> |>).

Fixpoint consume_all (work : list Event) : M session unit :=
  match work with
  | [] => mret tt
  | event :: work => consume event;; consume_all work
  end.

Definition pump_expiry : M session unit :=
  s ← gets id;
  if bool_decide (role s = Host) && in_state INVITING s && negb (bool_decide (qr s = [])) then
    t ← now;
    when (deadline s <=? t) (end_ EXPIRED)
  else mret tt.

Definition pump_stall : M session unit :=
  s ← gets id;
  if in_state RUNNING s && negb (paused (view s)) then
    t ← now;
    when (kProgressTimeout <=? t - last_progress s) (end_ STALL)
  else mret tt.

Definition pump : M session unit :=
  _ ← now;
  work ← gets events;
  modify (fun s => s <| events := [] |>);;
  consume_all work;;
  pump_expiry;;
  pump_stall;;
  sync_view.

(** The provider's callback, under the session's mutex. *)
Definition completion (event : Event) : M session unit :=
  modify (fun s => s <| events := events s ++ [event] |>).

(** ** C interface

    A null pointer argument is [None]; the result is the C [int]. *)

Definition host (host_ipv4 token16 : option bytes) : M session bool :=
  match host_ipv4, token16 with
  | Some text, Some token16 =>
    match parse_lan_ipv4 text (Some [0; 0; 0; 0]) with
    | (true, Some ip) =>
      s ← gets id;
      if negb (in_state IDLE s) then mret false
      else
        modify (fun s => s <| role := Host |>
                           <| invite := mkInvite ip 0 (spki_pin (invite s)) (take 16 token16) |>);;
        set_state INVITING;;
        sync_view;;
        submit Operation.Material GenerateSelfSigned
    | _ => mret false
    end
  | _, _ => mret false
  end.

Definition join (local_ipv4 qr_text : option bytes) : M session bool :=
  match local_ipv4, qr_text with
  | Some local_text, Some text =>
    match parse_invite text (Some Invite_empty) with
    | (true, Some parsed) =>
      match parse_lan_ipv4 local_text (Some [0; 0; 0; 0]) with
      | (true, Some local_ip) =>
        s ← gets id;
        if negb (in_state IDLE s) then mret false
        else
          modify (fun s => s <| role := Guest |> <| invite := parsed |>);;
          set_state JOINING;;
          sync_view;;
          let bind := endpoint (mkInvite local_ip 0 (replicate 32 0) (replicate 16 0)) in
          submit Operation.Connect
                 (ConnectTo bind (endpoint parsed) (spki_pin parsed) 10000)
      | _ => mret false
      end
    | _ => mret false
    end
  | _, _ => mret false
  end.

(** The size needed and the text copied when the capacity allows. *)
Definition copy_invite (capacity : option Z) : M session (Z * option bytes) :=
  pump;;
  s ← gets id;
  if bool_decide (qr s = []) || negb (in_state INVITING s) then mret (0, None)
  else
    let needed := zlen (qr s) + 1 in
    mret (needed, match capacity with
                  | Some c => if needed <=? c then Some (qr s ++ [0]) else None
                  | None => None
                  end).

Definition snapshot_read : M session snapshot :=
  pump;;
  gets view.

Definition select_game (rom game_key : option bytes) : M session bool :=
  match rom, game_key with
  | Some rom, Some game_key =>
    if (zlen rom =? 0) || (256 <=? zlen game_key) then mret false
    else
      pump;;
      s ← gets id;
      if negb (in_state LOBBY s) && negb (in_state CONFIGURING s) then mret false
      else
        let rom_hash := sha256 rom in
        match runtime_create with
        | None => mret false
        | Some candidate =>
          match runtime_load_rom_fresh candidate rom rom_hash with
          | None => set_view (fun v => v <| reason := ROM_INVALID |>);; mret false
          | Some candidate =>
            match runtime_get_source_timing candidate with
            | None => set_view (fun v => v <| reason := ROM_INVALID |>);; mret false
            | Some timing =>
              let hash := make_config_hash rom_hash timing in
              if peer_configured s && negb (same_bytes rom_hash (remote_rom_hash s) 32) then
                set_view (fun v => v <| reason := ROM_MISMATCH |>);; mret false
              else if peer_configured s && negb (same_bytes hash (remote_config_hash s) 32) then
                set_view (fun v => v <| reason := CONFIG_MISMATCH |>);; mret false
              else
                modify (fun s => s <| runtime := Some candidate |>
                                   <| local_rom_hash := rom_hash |>
                                   <| local_config_hash := hash |>
                                   <| local_configured := true |>
                                   <| local_ready := false |> <| peer_ready := false |>);;
                set_view (fun v => v <| reason := REASON_NONE |> <| state := CONFIGURING |>);;
                sync_view;;
                queue_message LanWire.Config (rom_hash ++ hash ++ game_key)
            end
          end
        end
  | _, _ => mret false
  end.

Definition select_rom (rom : option bytes) : M session bool := select_game rom (Some []).

Definition confirm : M session bool :=
  pump;;
  s ← gets id;
  if negb (in_state CONFIGURING s) || negb (local_configured s) ||
     negb (bool_decide (is_Some (runtime s)))
  then mret false
  else if local_ready s then mret true
  else
    modify (fun s => s <| local_ready := true |>);;
    sent ← queue_message LanWire.Ready (local_config_hash s);
    maybe_start_host;;
    sync_view;;
    mret sent.

Definition submit_input (buttons : Z) : M session bool :=
  pump;;
  s ← gets id;
  match inputs s with
  | Some buffer =>
    if negb (in_state RUNNING s) || paused (view s) then mret false
    else
      let frame := next_submit_frame s in
      if completed_frames (view s) + kInputDelay <=? frame then mret false
      else
        let '(result, buffer') := Lockstep.put_local frame buttons buffer in
        modify (fun s => s <| inputs := Some buffer' |>);;
        if negb (bool_decide (result = Lockstep.Accepted)) then mret false
        else
          sent ← queue_message LanWire.Input (append_u64 frame ++ append_u32 buttons);
          if negb (sent : bool) then mret false
          else
            modify (fun s => s <| next_submit_frame := next_submit_frame s + 1 |>);;
            modify (fun s => s <| last_submitted_buttons := buttons |>);;
            advance;;
            mret true
  | None => mret false
  end.

Definition set_paused (value : Z) : M session bool :=
  pump;;
  s ← gets id;
  if negb (in_state RUNNING s) then mret false
  else
    when (bool_decide (role s = Host))
      (set_view (fun v => v <| paused := negb (value =? 0) |>);;
       t ← now;
       modify (fun s => s <| last_progress := t |>);;
       when (value =? 0) advance);;
    queue_message LanWire.Pause [if value =? 0 then 0 else 1].

Definition api_return_lobby : M session bool :=
  pump;;
  return_lobby.

Definition copy_latest_frame (capacity : Z) : M session (option bytes) :=
  pump;;
  s ← gets id;
  mret (runtime s ≫= (fun rt => runtime_copy_latest_frame rt capacity)).

(** The block reported, after the argument checks. *)
Definition pull_pcm (sample_capacity : Z) : M session (option PcmBlock) :=
  if sample_capacity =? 0 then mret None
  else
    pump;;
    s ← gets id;
    match runtime s with
    | None => mret None
    | Some rt =>
      let available := u64 (pcm_produced s - pcm_consumed s) in
      if available =? 0 then mret (Some (mkPcmBlock 0 (pcm_consumed s) 0))
      else
        match runtime_pull_pcm rt (Z.min available sample_capacity) with
        | None => mret None
        | Some (block, rt) =>
          modify (fun s => s <| runtime := Some rt |>
                             <| pcm_consumed := u64 (first_sample_sequence block +
                                                     sample_count block) |>);;
          mret (Some block)
        end
    end.

Definition cancel : M session unit := end_ CANCELLED.

(** ** Reachable sessions *)

Inductive Call :=
  | CallHost (host_ipv4 token16 : option bytes)
  | CallJoin (local_ipv4 qr_text : option bytes)
  | CallCopyInvite (capacity : option Z)
  | CallSnapshotRead
  | CallSelectGame (rom game_key : option bytes)
  | CallConfirm
  | CallSubmitInput (buttons : Z)
  | CallSetPaused (value : Z)
  | CallReturnLobby
  | CallCopyLatestFrame (capacity : Z)
  | CallPullPcm (sample_capacity : Z)
  | CallCancel
  | Completion (event : Event).

Definition run_call (c : Call) : M session unit :=
  match c with
  | CallHost ip tok => _ ← host ip tok; mret tt
  | CallJoin ip text => _ ← join ip text; mret tt
  | CallCopyInvite capacity => _ ← copy_invite capacity; mret tt
  | CallSnapshotRead => _ ← snapshot_read; mret tt
  | CallSelectGame rom key => _ ← select_game rom key; mret tt
  | CallConfirm => _ ← confirm; mret tt
  | CallSubmitInput b => _ ← submit_input b; mret tt
  | CallSetPaused v => _ ← set_paused v; mret tt
  | CallReturnLobby => _ ← api_return_lobby; mret tt
  | CallCopyLatestFrame c => _ ← copy_latest_frame c; mret tt
  | CallPullPcm c => _ ← pull_pcm c; mret tt
  | CallCancel => cancel
  | Completion e => completion e
  end.

(** A session is created, then every entry point and every completion is one
    atomic step, in any order. *)
Inductive reachable : session -> Prop :=
  | reachable_create : reachable initial_session
  | reachable_call s c : reachable s -> reachable (run_call c s).2.

End Session.
