(* ===== verification/LanSessionEffects.v ===== *)
(** * Effects of the LAN MVP session's primitives

    Shared lemmas of the session's theorems: the local half of the lockstep
    buffer, the class of properties that the transport primitives cannot break
    ([Coarse]), and the tactic that walks a computation step by step ([keep]). *)

From S2P Require Import Prelude.
From S2P Require Import Sha256.
From S2P Require Import LanInvite.
From S2P Require LanWire.
From S2P Require Lockstep.
From S2P Require Import LanSession.

(** ** The local half of the lockstep buffer *)

Definition has_local (i : Z) (slots : gmap Z Lockstep.Slot) : Prop :=
  exists slot m, slots !! i = Some slot /\ Lockstep.local slot = Some m.

(** [done] frames are released and the masks of the frames up to [next] (not
    included) are submitted; the input delay keeps the two within two frames. *)
Definition play_ok (b : Lockstep.Buffer) (done next : Z) : Prop :=
  Lockstep.next_frame_ b = done /\ Lockstep.window_ b = kInputWindow /\
  0 <= done <= next /\ next <= done + kInputDelay /\
  forall i, has_local i (Lockstep.slots_ b) <-> done <= i < next.

Lemma has_local_insert i j slot slots :
  has_local i (<[j := slot]> slots) <->
  (i = j /\ is_Some (Lockstep.local slot)) \/ (i <> j /\ has_local i slots).
Proof.
  unfold has_local. split.
  - intros (sl & m & Hl & Hm). destruct (decide (i = j)) as [->|Hn].
    + rewrite lookup_insert_eq in Hl. simplify_eq. left. eauto.
    + rewrite lookup_insert_ne in Hl by done. right. eauto.
  - intros [[-> [m Hm]] | [Hn (sl & m & Hl & Hm)]].
    + exists slot, m. by rewrite lookup_insert_eq.
    + exists sl, m. by rewrite lookup_insert_ne.
Qed.

Lemma play_ok_start :
  play_ok (foldl (fun b frame =>
             (Lockstep.put_remote frame 0 (Lockstep.put_local frame 0 b).2).2)
             (Lockstep.Buffer_new kInputDelay kInputWindow) (seqZ 0 kInputDelay))
          0 kInputDelay.
Proof.
  match goal with |- play_ok ?b _ _ =>
    let v := eval vm_compute in (map_to_list (Lockstep.slots_ b)) in
    assert (Lockstep.slots_ b = list_to_map v) as Hs by (by vm_compute);
    assert (Lockstep.next_frame_ b = 0 /\ Lockstep.window_ b = 256) as [Hn Hw] by done;
    remember b as bb
  end.
  unfold play_ok, kInputDelay, kInputWindow in *. split_and!; try done; try lia.
  intros i. unfold has_local. rewrite Hs. cbn. split.
  - intros (sl & m & Hl & _).
    repeat (apply lookup_insert_Some in Hl as [[<- _] | [_ Hl]]; [lia |]). done.
  - intros Hi. destruct (decide (i = 0)) as [->|]; [by eexists _, _ |].
    assert (i = 1) as -> by lia. by eexists _, _.
Qed.

Lemma play_ok_put_remote b d n i m :
  play_ok b d n -> play_ok (Lockstep.put_remote i m b).2 d n.
Proof.
  intros (Hd & Hw & Hr & Hn & Hl). unfold Lockstep.put_remote, Lockstep.put.
  destruct (i <? Lockstep.next_frame_ b); [done |].
  destruct (Lockstep.window_ b <=? i - Lockstep.next_frame_ b); [done |].
  set (slot := default _ _).
  assert (forall slot', Lockstep.local slot' = Lockstep.local slot ->
    play_ok (b <| Lockstep.slots_ := <[i := slot']> (Lockstep.slots_ b) |>) d n) as H.
  { intros slot' Hs. split_and!; try done; try lia. intros j. cbn.
    rewrite has_local_insert, <- Hl, Hs. subst slot.
    destruct (decide (j = i)) as [->|Hne]; [| tauto].
    unfold has_local. destruct (Lockstep.slots_ b !! i) as [sl|]; cbn.
    - split; [intros [[_ [x Hx]] | [[] ?]]; [eauto | done] |].
      intros (? & ? & [= <-] & ?). left. eauto.
    - split; [intros [[_ [x Hx]] | [[] ?]]; done |]. by intros (? & ? & ? & ?). }
  cbv zeta. destruct (Lockstep.remote slot); by apply H.
Qed.

(** A mask submitted within the delay is always accepted. *)
Lemma play_ok_put_local b d n m :
  play_ok b d n -> n < d + kInputDelay ->
  (Lockstep.put_local n m b).1 = Lockstep.Accepted /\
  play_ok (Lockstep.put_local n m b).2 d (n + 1).
Proof.
  intros (Hd & Hw & Hr & Hn & Hl) Hlt. unfold Lockstep.put_local, Lockstep.put.
  unfold kInputDelay, kInputWindow in *.
  destruct (Z.ltb_spec n (Lockstep.next_frame_ b)); [lia |].
  destruct (Z.leb_spec (Lockstep.window_ b) (n - Lockstep.next_frame_ b)); [lia |].
  assert (~ has_local n (Lockstep.slots_ b)) as Hno by (rewrite Hl; lia).
  assert (Lockstep.local (default (Lockstep.mkSlot None None) (Lockstep.slots_ b !! n)) = None)
    as Hloc.
  { destruct (Lockstep.slots_ b !! n) as [[[x|] re]|] eqn:E; cbn; try done.
    destruct Hno. by exists (Lockstep.mkSlot (Some x) re), x. }
  rewrite Hloc. cbn [fst snd]. split; [done |].
  unfold play_ok, kInputDelay, kInputWindow. split_and!; try done; try lia. intros j. cbn.
  rewrite has_local_insert, Hl. cbn. split.
  - intros [[-> _] | [? ?]]; lia.
  - intros Hj. destruct (decide (j = n)) as [->|]; [left; eauto | right; lia].
Qed.

Lemma play_ok_pop b d n fr f b' :
  play_ok b d n -> Lockstep.pop_ready (Some fr) b = (true, Some f, b') ->
  Lockstep.index f = d /\ play_ok b' (d + 1) n.
Proof.
  intros (Hd & Hw & Hr & Hn & Hl) Hpop. unfold Lockstep.pop_ready in Hpop.
  destruct (Lockstep.slots_ b !! Lockstep.next_frame_ b) as [[[lo|] [re|]]|] eqn:E;
    try discriminate. inversion Hpop; subst f b'. cbn. split; [done |].
  assert (d <= Lockstep.next_frame_ b < n) as Hlt.
  { apply Hl. by eexists _, _. }
  split_and!; cbn; try done; try lia. intros i. unfold has_local. cbn. split.
  - intros (sl & m & Hs & Hm). apply lookup_delete_Some in Hs as [Hne Hs].
    assert (d <= i < n) by (apply Hl; by exists sl, m). lia.
  - intros Hi. assert (has_local i (Lockstep.slots_ b)) as (sl & m & Hs & Hm) by (apply Hl; lia).
    exists sl, m. split; [| done]. by rewrite lookup_delete_ne by lia.
Qed.

(** ** What the transport primitives leave alone *)

Section Safety.
Context {RP : RuntimePort} {QP : QuicPort} {CK : SteadyClock}.

(** The session without its transport bookkeeping. *)
Definition core (s : session) : session :=
  s <| operations := ∅ |> <| next_operation := 0 |> <| writes := [] |>
    <| write_inflight := false |> <| read_inflight := false |> <| log := [] |>
    <| view := (view s) <| transport_result := 0 |> <| transport_operation := 0 |> |>.

(** A property the transport primitives cannot break: it survives [end_], and it
    reads the core, and of an ended session the operation table. *)
Class Coarse (I : session -> Prop) := {
  coarse_core : forall s s', core s' = core s ->
    (state (view s) = ENDED -> operations s' = operations s) -> I s -> I s';
  coarse_end : forall why s, I s -> I (end_ why s).2;
}.

(** The session has not ended. *)
Definition live (s : session) : Prop := state (view s) <> ENDED.

Lemma in_state_spec st s : in_state st s = true <-> state (view s) = st.
Proof. unfold in_state. apply bool_decide_eq_true. Qed.

Lemma in_state_false st s : in_state st s = false <-> state (view s) <> st.
Proof. unfold in_state. apply bool_decide_eq_false. Qed.

Lemma end_ended why s : state (view (end_ why s).2) = ENDED.
Proof.
  unfold end_, mbind, M_bind, gets, in_state. cbn.
  case_bool_decide as Hs; [done |]. unfold when, close_handle.
  destruct (connection _ =? 0); cbn; destruct (listener _ =? 0); done.
Qed.

Section Coarse.
Context (I : session -> Prop) `{!Coarse I}.

Lemma keeps_end why : keeps I (end_ why).
Proof. intros s HI. by apply coarse_end. Qed.

Lemma triple_submit kind request :
  triple (fun s => I s /\ live s) (submit kind request) (fun _ s => I s).
Proof.
  unfold submit. apply triple_gets_bind; intros op.
  apply triple_modify_bind with (fun s => I s /\ live s).
  { intros s [[HI Hl] _]. split; [| done]. by apply (coarse_core s). }
  apply triple_if; [by intros s [[? ?] ?] |].
  apply triple_modify_bind with (fun s => I s /\ live s).
  { intros s [[HI Hl] _]. split; [| done]. by apply (coarse_core s). }
  apply triple_modify_bind with I.
  { intros s [HI Hl]. by apply (coarse_core s). }
  apply keeps_bind; [apply keeps_end | intros _; apply keeps_ret].
Qed.

Lemma keeps_transport_modify f :
  (forall s, core (f s) = core s /\ operations (f s) = operations s) -> keeps I (modify f).
Proof. intros Hf s HI. destruct (Hf s). by apply (coarse_core s). Qed.

(** A guarded submission that raises a flag first and drops it on refusal. *)
Lemma triple_flagged_submit kind request f g :
  (forall s, core (f s) = core s /\ operations (f s) = operations s) ->
  (forall s, core (g s) = core s /\ operations (g s) = operations s) ->
  triple (fun s => I s /\ live s)
    (modify f;; ok ← submit kind request;
     if (ok : bool) then mret true else modify g;; mret false)
    (fun _ s => I s).
Proof.
  intros Hf Hg. apply triple_modify_bind with (fun s => I s /\ live s).
  { intros s [HI Hl]. destruct (Hf s) as [Hc Ho]. split; [by apply (coarse_core s) |].
    unfold live. change (state (view (core (f s))) <> ENDED). by rewrite Hc. }
  eapply triple_bind; [apply triple_submit | intros []; [apply keeps_ret |]].
  apply keeps_bind; [by apply keeps_transport_modify | intros _; apply keeps_ret].
Qed.

Lemma keeps_begin_read : keeps I begin_read.
Proof.
  unfold begin_read. apply triple_gets_bind; intros s0.
  apply triple_if; [by intros s [[? ?] ?] |].
  eapply triple_start; [by apply triple_flagged_submit |].
  intros s [[HI <-] G]. unfold id in *. bool_hyps. split; [done |]. by apply in_state_false.
Qed.

Lemma keeps_begin_next_write : keeps I begin_next_write.
Proof.
  unfold begin_next_write. apply triple_gets_bind; intros s0.
  destruct (writes s0); [by intros s [? ?] |].
  apply triple_if; [by intros s [[? ?] ?] |].
  eapply triple_start; [by apply triple_flagged_submit |].
  intros s [[HI <-] G]. unfold id in *. bool_hyps. split; [done |]. by apply in_state_false.
Qed.

Lemma keeps_queue_message kind payload : keeps I (queue_message kind payload).
Proof.
  unfold queue_message. destruct (LanWire.encode _ _ _) as [[] [b|]];
    try (apply keeps_bind; [apply keeps_end | intros _; apply keeps_ret]).
  apply keeps_bind; [by apply keeps_transport_modify | intros _].
  apply keeps_begin_next_write.
Qed.

End Coarse.

(** A property that holds of every ended session. *)
Class EndsVacuously (I : session -> Prop) :=
  ends_vacuously : forall s, state (view s) = ENDED -> I s.

Lemma keeps_submit I `{!Coarse I, !EndsVacuously I} kind request :
  keeps I (submit kind request).
Proof.
  intros s H. destruct (decide (state (view s) = ENDED)) as [He|Hl].
  - apply ends_vacuously. unfold submit, mbind, M_bind, gets, modify.
    destruct (_ =? QUIC_ACCEPTED); cbn; [done |].
    match goal with |- context [end_ ?w ?st] =>
      pose proof (end_ended w st); destruct (end_ w st) as [[] s'] end. done.
  - by apply (triple_submit I).
Qed.

Lemma triple_end I `{!EndsVacuously I} P why : triple P (end_ why) (fun _ s => I s).
Proof. intros s _. apply ends_vacuously, end_ended. Qed.

Lemma keeps_now I : (forall s n, I s -> I (s <| clock_reads := n |>)) -> keeps I now.
Proof. intros H s HI. by apply H. Qed.

(** A refused send has already ended the session. *)
Definition false_ended (ok : bool) (s : session) : Prop :=
  ok = false -> state (view s) = ENDED.

Lemma submit_false kind request : triple (fun _ => True) (submit kind request) false_ended.
Proof.
  unfold submit. apply triple_gets_bind; intros op.
  apply triple_modify_bind with (fun _ => True); [done |]. cbv zeta.
  apply triple_if; [by intros s _ ? |].
  apply triple_modify_bind with (fun _ => True); [done |].
  apply triple_modify_bind with (fun _ => True); [done |].
  apply triple_bind with (fun _ s => state (view s) = ENDED); [intros s _; apply end_ended |].
  by intros ? s Hs _.
Qed.

Lemma queue_message_false kind payload :
  triple (fun _ => True) (queue_message kind payload) false_ended.
Proof.
  unfold queue_message.
  assert (forall why, triple (fun _ => True) (end_ why;; mret false) false_ended) as He.
  { intros why. apply triple_bind with (fun _ s => state (view s) = ENDED);
      [intros s _; apply end_ended |]. by intros ? s Hs _. }
  destruct (LanWire.encode _ _ _) as [[] [b|]]; try apply He.
  apply triple_modify_bind with (fun _ => True); [done |].
  unfold begin_next_write. apply triple_gets_bind; intros s0.
  destruct (writes s0); [by intros s _ ? |]. apply triple_if; [by intros s _ ? |].
  apply triple_modify_bind with (fun _ => True); [done |].
  apply triple_bind with false_ended;
    [eapply triple_start; [apply submit_false | done] | intros [] ].
  - by intros s _ ?.
  - apply triple_modify_bind with (false_ended false); [done |]. by intros s Hs.
Qed.

Lemma triple_and {A} P P' (m : M session A) Q Q' :
  triple P m Q -> triple P' m Q' ->
  triple (fun s => P s /\ P' s) m (fun a s => Q a s /\ Q' a s).
Proof. intros H H' s [HP HP']. split; [by apply H | by apply H']. Qed.

Lemma core_proj {A} (f : session -> A) s s' :
  (forall t, f (core t) = f t) -> core s' = core s -> f s' = f s.
Proof. intros Hf Hc. by rewrite <- (Hf s'), Hc, Hf. Qed.

Lemma pop_ready_size fr b f b' :
  Lockstep.pop_ready fr b = (true, f, b') ->
  S (size (Lockstep.slots_ b')) = size (Lockstep.slots_ b).
Proof.
  unfold Lockstep.pop_ready. destruct fr; [| done].
  destruct (Lockstep.slots_ b !! Lockstep.next_frame_ b) as [[[lo|] [re|]]|] eqn:E; try done.
  intros H. inversion H; subst. cbn. rewrite map_size_delete, E.
  assert (size (Lockstep.slots_ b) <> 0%nat); [| lia].
  rewrite map_size_ne_0_lookup. eauto.
Qed.

(** Both masks of the next frame are present. *)
Definition frame_ready (b : Lockstep.Buffer) : Prop :=
  exists lo re, Lockstep.slots_ b !! Lockstep.next_frame_ b =
                Some (Lockstep.mkSlot (Some lo) (Some re)).

(** A pop with an output releases the next frame exactly when it is ready. *)
Lemma pop_ready_spec x b :
  (exists f b', Lockstep.pop_ready (Some x) b = (true, Some f, b') /\ frame_ready b /\
     S (size (Lockstep.slots_ b')) = size (Lockstep.slots_ b)) \/
  (Lockstep.pop_ready (Some x) b = (false, Some x, b) /\ ~ frame_ready b).
Proof.
  destruct (Lockstep.pop_ready (Some x) b) as [[[] fr] b'] eqn:E.
  - left. pose proof (pop_ready_size _ _ _ _ E). unfold Lockstep.pop_ready in E.
    destruct (Lockstep.slots_ b !! _) as [[[lo|] [re|]]|] eqn:Hs; try done.
    inversion E; subst. eexists _, _. split_and!; [done | by exists lo, re | done].
  - right. unfold Lockstep.pop_ready, frame_ready in *.
    destruct (Lockstep.slots_ b !! _) as [[[lo|] [re|]]|]; simplify_eq;
      (split; [done | intros (? & ? & [=])]).
Qed.

Lemma play_frame_false f : triple (fun _ => True) (play_frame f) false_ended.
Proof.
  unfold play_frame. apply triple_gets_bind; intros s0. cbv zeta.
  apply triple_start with (fun _ => True); [| done]. apply triple_after; [done | intros _].
  destruct (runtime s0 ≫= _) as [[result rt]|].
  - repeat (apply triple_after; [done | intros ?]). by intros s _ ?.
  - apply triple_bind with (fun _ s => state (view s) = ENDED); [intros s _; apply end_ended |].
    by intros ? s Hs _.
Qed.

Lemma keeps_clear_game {A} (k : unit -> M session A) Q :
  triple (fun _ => True) (k tt) Q -> triple (fun _ => True) (clear_game ≫= k) Q.
Proof. intros Hk. apply triple_bind with (fun _ _ => True); [done |]. by intros []. Qed.


End Safety.

Ltac keep_one :=
  lazymatch goal with
  | |- triple _ ?m (fun _ => ?I) => change (keeps I m)
  | |- keeps _ (mret _) => apply keeps_ret
  | |- keeps _ (gets _) => apply keeps_gets
  | |- keeps _ (modify _) => apply keeps_modify; intros ? Hk; exact Hk
  | |- keeps _ (set_view _) => apply keeps_modify; intros ? Hk; first [exact Hk | by intros ? | by split]
  | |- keeps _ (set_state _) => solve [by intros ? ? ? | by (intros ? ?; split)]
  | |- keeps _ sync_view => apply keeps_modify; intros ? Hk; exact Hk
  | |- keeps _ now => apply keeps_now; intros ? ? Hk; exact Hk
  | |- keeps _ (when _ _) => apply keeps_when
  | |- keeps _ (if _ then _ else _) => apply keeps_if
  | |- keeps _ (mbind _ _) => apply keeps_bind; [| intros ?]
  | |- keeps _ (end_ _) => apply (keeps_end _)
  | |- keeps _ (submit _ _) => apply keeps_submit; apply _
  | |- keeps _ begin_read => apply (keeps_begin_read _)
  | |- keeps _ begin_next_write => apply (keeps_begin_next_write _)
  | |- keeps _ (queue_message _ _) => apply (keeps_queue_message _)
  | |- keeps _ (match ?x with _ => _ end) => destruct x
  | |- keeps _ (let '(_, _) := ?x in _) => destruct x
  end.

(** Walk a computation whose every step visibly keeps the property. *)
Ltac keep := repeat (cbv zeta; keep_one); auto with keeps.

