(* ===== verification/LanSessionRound.v ===== *)
(** * The running round of a LAN MVP session

    The invariants of a session in RUNNING: the emulator and the input buffer
    exist, the two sides agreed on the game ([running_ok]), the buffer holds
    exactly the local masks between the completed and the submitted frames
    ([play_ok]), and no frame with both masks is left waiting ([drained]).  Every
    entry point and every completion preserves them. *)

From S2P Require Import Prelude.
From S2P Require Import Sha256.
From S2P Require Import LanInvite.
From S2P Require LanWire.
From S2P Require Lockstep.
From S2P Require Import LanSession.
From S2P Require Import LanSessionEffects.

Section Round.
Context {RP : RuntimePort} {QP : QuicPort} {CK : SteadyClock}.

(** ** The invariant of a running round *)

(** [k] is 1 between the acceptance of a local mask and the increment of
    [next_submit_frame]. *)
Definition running_ok (k : Z) (s : session) : Prop :=
  state (view s) = RUNNING ->
  is_Some (runtime s) /\ configs_match s = true /\
  local_ready s = true /\ peer_ready s = true /\
  exists b, inputs s = Some b /\
    play_ok b (completed_frames (view s)) (next_submit_frame s + k).

Definition not_running (s : session) : Prop := state (view s) <> RUNNING.

(** In a running round that is not paused no frame is waiting with both masks. *)
Definition drained (s : session) : Prop :=
  state (view s) = RUNNING -> paused (view s) = false ->
  forall b, inputs s = Some b -> ~ frame_ready b.

(** The buffer is [b] unless the round has ended. *)
Definition buffer_is (b : Lockstep.Buffer) (s : session) : Prop :=
  state (view s) = RUNNING -> inputs s = Some b.


#[export] Instance running_coarse k : Coarse (running_ok k).
Proof.
  split; [intros s s' Hc _ H | intros why s _ H; by rewrite end_ended in H].
  change (running_ok k (core s')). rewrite Hc. exact H.
Qed.

#[export] Instance not_running_coarse : Coarse not_running.
Proof.
  split; [intros s s' Hc _ H | intros why s _ H; by rewrite end_ended in H].
  change (not_running (core s')). rewrite Hc. exact H.
Qed.

Lemma not_running_ok k s : not_running s -> running_ok k s.
Proof. intros H Hr. by destruct H. Qed.

#[export] Instance drained_coarse : Coarse drained.
Proof.
  split; [intros s s' Hc _ H | intros why s _ H; by rewrite end_ended in H].
  change (drained (core s')). rewrite Hc. exact H.
Qed.

#[export] Instance buffer_is_coarse b : Coarse (buffer_is b).
Proof.
  split; [intros s s' Hc _ H | intros why s _ H; by rewrite end_ended in H].
  change (buffer_is b (core s')). rewrite Hc. exact H.
Qed.

#[export] Instance running_vacuous k : EndsVacuously (running_ok k).
Proof. intros s Hs Hr. congruence. Qed.

#[export] Instance not_running_vacuous : EndsVacuously not_running.
Proof. intros s Hs Hr. congruence. Qed.

(** The invariants of a round together. *)
Definition round_ok (s : session) : Prop := running_ok 0 s /\ drained s.

#[export] Instance round_coarse : Coarse round_ok.
Proof.
  split.
  - intros s s' Hc Ho [H1 H2]. split; by apply (coarse_core s).
  - intros why s [H1 H2]. split; by apply coarse_end.
Qed.

#[export] Instance round_vacuous : EndsVacuously round_ok.
Proof. intros s Hs. split; intros Hr; congruence. Qed.

Lemma not_running_round s : not_running s -> round_ok s.
Proof. intros H. split; intros Hr; by destruct H. Qed.

(** ** Advancing the emulator *)

Lemma keeps_publish_digest k frame : keeps (running_ok k) (publish_digest frame).
Proof. unfold publish_digest, compare_digest. keep. Qed.

Lemma keeps_compare_digest k frame : keeps (running_ok k) (compare_digest frame).
Proof. unfold compare_digest. keep. Qed.

#[local] Hint Resolve keeps_publish_digest keeps_compare_digest : keeps.

Lemma round_publish_digest frame : keeps round_ok (publish_digest frame).
Proof. unfold publish_digest, compare_digest. keep. Qed.

Lemma round_compare_digest frame : keeps round_ok (compare_digest frame).
Proof. unfold compare_digest. keep. Qed.

#[local] Hint Resolve round_publish_digest round_compare_digest : keeps.

(** A frame was popped and is not yet counted as completed. *)
Definition popped (n : Z) (s : session) : Prop :=
  is_Some (runtime s) /\ configs_match s = true /\
  local_ready s = true /\ peer_ready s = true /\
  exists b, inputs s = Some b /\ play_ok b n (next_submit_frame s).

Lemma play_frame_ok f :
  triple (popped (Lockstep.index f + 1)) (play_frame f) (fun _ => running_ok 0).
Proof.
  unfold play_frame. apply triple_gets_bind; intros s0. cbv zeta.
  apply triple_start with (popped (Lockstep.index f + 1)); [| tauto].
  apply triple_after; [keep | intros _].
  destruct (runtime s0 ≫= _) as [[result rt]|].
  - apply triple_modify_bind with (popped (Lockstep.index f + 1)).
    { intros s (_ & H). split; [by eexists | exact H]. }
    apply triple_modify_bind with (running_ok 0).
    { intros s (? & ? & ? & ? & b & Hb & Hp) _. cbn. split_and!; try done.
      exists b. by rewrite Z.add_0_r. }
    keep.
  - eapply triple_bind; [apply (triple_end (running_ok 0)) |].
    intros ?. cbv beta. keep.
Qed.

Lemma keeps_advance_loop fuel : keeps (running_ok 0) (advance_loop fuel).
Proof.
  induction fuel as [|fuel IH]; cbn [advance_loop]; [apply keeps_ret |].
  apply triple_gets_bind; intros s0. apply triple_if; [by intros s [[] ] |].
  destruct (inputs s0) as [b|] eqn:Hb; [| by intros s [[] ]].
  destruct (Lockstep.pop_ready _ b) as [[ok fr] b'] eqn:Hpop.
  destruct ok, fr as [f|]; try by intros s [[] ].
  apply triple_modify_bind with (popped (Lockstep.index f + 1)).
  { intros s [[H <-] Hrun]. apply negb_false_iff, in_state_spec in Hrun.
    destruct (H Hrun) as (? & ? & ? & ? & b0 & Hb0 & Hp).
    unfold id in Hb. rewrite Hb in Hb0. simplify_eq.
    destruct (play_ok_pop _ _ _ _ _ _ Hp Hpop) as [-> Hp'].
    split_and!; try done. exists b'. rewrite Z.add_0_r in Hp'. by split. }
  eapply triple_bind; [apply play_frame_ok | intros more]. destruct more; [apply IH | keep].
Qed.

Lemma keeps_advance : keeps (running_ok 0) advance.
Proof.
  unfold advance. apply keeps_bind; [keep | intros s0].
  apply keeps_if; [keep | apply keeps_advance_loop].
Qed.

Lemma buffer_publish_digest b frame : keeps (buffer_is b) (publish_digest frame).
Proof. unfold publish_digest, compare_digest. keep. Qed.

#[local] Hint Resolve buffer_publish_digest : keeps.

Lemma buffer_play_frame b f : keeps (buffer_is b) (play_frame f).
Proof. unfold play_frame. keep. Qed.

(** Enough fuel for the slots of the buffer empties it of ready frames. *)
Lemma drained_advance_loop fuel b :
  (size (Lockstep.slots_ b) < fuel)%nat ->
  triple (buffer_is b) (advance_loop fuel) (fun _ => drained).
Proof.
  revert b. induction fuel as [|fuel IH]; intros b Hf; [lia |]. cbn [advance_loop].
  apply triple_gets_bind; intros s0. apply triple_if.
  { intros s [[_ <-] G] Hr. apply negb_true_iff, in_state_false in G. by destruct G. }
  intros s [[H <-] G]. apply negb_false_iff, in_state_spec in G.
  specialize (H G). unfold id. rewrite H.
  destruct (pop_ready_spec (Lockstep.mkFrame 0 0 0) b) as [(f & b' & -> & _ & Hsz) | [-> Hn]].
  2:{ intros _ _ b1 Hb1. cbn in Hb1. congruence. }
  assert (triple (fun s => True /\ buffer_is b' s)
    (more ← play_frame f; if (more : bool) then advance_loop fuel else mret tt)
    (fun _ => drained)) as Ht.
  { eapply triple_bind; [apply triple_and; [apply play_frame_false | apply buffer_play_frame] |].
    cbv beta. intros []; [eapply triple_start; [apply (IH b'); lia | tauto] |].
    intros s1 [Hs1 _] Hr. cbn in Hr. by rewrite Hs1 in Hr. }
  by apply (Ht (s <| inputs := Some b' |>)).
Qed.

Lemma drained_advance : triple (running_ok 0) advance (fun _ => drained).
Proof.
  unfold advance. apply triple_gets_bind; intros s0.
  intros s [Hok <-]. unfold id. destruct (_ || _) eqn:G.
  - intros Hr Hp b Hb. cbn in *. destruct (Hok Hr) as ([rt Hrt] & _).
    unfold in_state in G. rewrite Hr, Hp, Hb, Hrt in G. done.
  - bool_hyps. unfold advance_fuel. destruct (inputs s) as [b|] eqn:Hb; [| done].
    eapply drained_advance_loop; [| by intros ?]. lia.
Qed.

Lemma round_advance : triple (running_ok 0) advance (fun _ => round_ok).
Proof.
  intros s H. split; [by apply keeps_advance | by apply drained_advance].
Qed.

(** What [enter_running] checks before it starts the round. *)
Definition round_agreed (s : session) : Prop :=
  is_Some (runtime s) /\ configs_match s = true /\
  local_ready s = true /\ peer_ready s = true.

Lemma keeps_enter_running : keeps round_ok enter_running.
Proof.
  unfold enter_running. apply triple_gets_bind; intros s0.
  apply triple_if; [by intros s [[] ] |].
  apply triple_modify_bind with (fun s => round_agreed s /\ completed_frames (view s) = 0).
  { intros s [[_ <-] G]. unfold id in *. bool_hyps. by repeat split. }
  apply triple_after; [keep | intros _]. apply triple_after; [keep | intros _].
  apply triple_modify_bind with (fun s => round_agreed s /\ completed_frames (view s) = 0 /\
    inputs s = Some (Lockstep.Buffer_new kInputDelay kInputWindow) /\
    next_submit_frame s = kInputDelay).
  { by intros s [? ?]. }
  apply triple_modify_bind with (running_ok 0).
  { intros s ((? & ? & ? & ?) & Hc & Hi & Hn) _. split_and!; try done.
    eexists. split; [cbn; by rewrite Hi |]. cbn. rewrite Hc, Hn. apply play_ok_start. }
  apply triple_after; [keep | intros ?]. apply triple_after; [keep | intros _].
  apply round_advance.
Qed.

Lemma keeps_round_advance : keeps round_ok advance.
Proof. eapply triple_start; [apply round_advance | by intros s [? _] ]. Qed.

#[local] Hint Resolve keeps_round_advance keeps_enter_running : keeps.

(** ** Handlers *)

Lemma keeps_maybe_start_host : keeps round_ok maybe_start_host.
Proof. unfold maybe_start_host. keep. Qed.

#[local] Hint Resolve keeps_maybe_start_host : keeps.

(** A prefix that stays outside a running round, whatever it then resets. *)
Lemma not_running_then {A} (m : M session A) :
  keeps not_running m -> triple not_running m (fun _ => round_ok).
Proof.
  intros H. eapply triple_conseq; [exact H | done |]. intros ? s. apply not_running_round.
Qed.

(** Whatever came before, assigning a state other than RUNNING leaves the round. *)
Lemma leave_running {A} P st (k : unit -> M session A) :
  st <> RUNNING -> triple not_running (k tt) (fun _ => round_ok) ->
  triple P (set_state st ≫= k) (fun _ => round_ok).
Proof. intros Hst Hk. by apply triple_modify_bind with not_running. Qed.

Lemma keeps_return_lobby : keeps round_ok return_lobby.
Proof.
  unfold return_lobby. apply keeps_bind; [keep | intros s0].
  do 2 (apply keeps_if; [keep |]). apply keeps_if.
  - apply leave_running; [done |]. apply not_running_then. keep.
  - apply triple_start with (fun _ => True); [| done]. apply keeps_clear_game.
    apply leave_running; [done |]. apply not_running_then. keep.
Qed.

Lemma keeps_on_lobby payload : keeps round_ok (on_lobby payload).
Proof.
  apply triple_start with (fun _ => True); [| done]. apply keeps_clear_game.
  apply triple_modify_bind with (fun _ => True); [done |].
  apply leave_running; [done |]. apply not_running_then. keep.
Qed.

Ltac not_running_guard :=
  let s := fresh in let G := fresh in
  intros s [[_ <-] G]; unfold not_running, id in *; bool_hyps;
  repeat match goal with
  | H : negb _ && negb _ = false |- _ => apply andb_false_iff in H as [H|H]; bool_hyps
  | H : in_state _ _ = true |- _ => apply in_state_spec in H
  | H : in_state _ _ = false |- _ => apply in_state_false in H
  end; congruence.

(** Enter a computation whose first guard returns early unless the session is
    outside a running round. *)
Ltac outside_round :=
  apply triple_gets_bind; intros ?;
  apply triple_if;
  [apply triple_start with round_ok; [keep | tauto] |];
  apply triple_start with not_running; [cbv zeta | not_running_guard].

Lemma keeps_on_config payload : keeps round_ok (on_config payload).
Proof.
  unfold on_config. outside_round.
  do 5 (apply triple_after; [keep | intros _]).
  destruct (_ && _); [apply not_running_then; keep |].
  destruct (_ && _); [apply not_running_then; keep |].
  eapply triple_start; [apply keeps_maybe_start_host | apply not_running_round].
Qed.

Lemma keeps_on_ready payload : keeps round_ok (on_ready payload).
Proof.
  unfold on_ready. outside_round. apply triple_after; [keep | intros _].
  eapply triple_start; [apply keeps_maybe_start_host | apply not_running_round].
Qed.

Lemma keeps_on_input payload : keeps round_ok (on_input payload).
Proof.
  unfold on_input. apply triple_gets_bind; intros s0.
  destruct (inputs s0) as [b|] eqn:Hb;
    [| apply triple_start with round_ok; [keep | tauto]].
  apply triple_if; [apply triple_start with round_ok; [keep | tauto] |].
  destruct (Lockstep.put_remote _ _ b) as [result b'] eqn:Hput.
  apply triple_modify_bind with (running_ok 0).
  2:{ destruct (_ || _); [apply (triple_end round_ok) | apply round_advance]. }
  intros s [[[H _] <-] _] Hrun. destruct (H Hrun) as (? & ? & ? & ? & b0 & Hb0 & Hp).
  unfold id in Hb. rewrite Hb in Hb0. simplify_eq. split_and!; try done.
  exists b'. split; [done |]. cbn.
  change b' with (result, b').2. rewrite <- Hput. by apply play_ok_put_remote.
Qed.

(** Pausing suspends the promise of [drained]; resuming restores it. *)
Lemma resume_ok (p : session -> bool) :
  (forall s, p s = true -> paused (view s) = true) ->
  triple (running_ok 0) (s ← gets id; when (negb (p s)) advance) (fun _ => round_ok).
Proof.
  intros Hp. apply triple_gets_bind; intros s0. destruct (p s0) eqn:E; cbn [negb when].
  - intros s [H <-]. split; [done |]. intros _ Hn. unfold id in E. apply Hp in E.
    cbn in Hn. congruence.
  - eapply triple_start; [apply round_advance | tauto].
Qed.

Lemma keeps_on_pause payload : keeps round_ok (on_pause payload).
Proof.
  unfold on_pause. apply triple_gets_bind; intros s0.
  apply triple_if; [by intros s [[? ?] ?] |].
  apply triple_start with (running_ok 0); [| by intros s [[[? ?] ?] ?] ].
  do 4 (apply triple_after; [keep | intros ?]).
  apply (resume_ok (fun s => paused (view s))). done.
Qed.

Lemma keeps_on_join payload : keeps round_ok (on_join payload).
Proof.
  unfold on_join, join_rejected. apply keeps_bind; [keep | intros [] ]; [keep |].
  apply triple_gets_bind; intros s0. apply triple_start with round_ok; [| tauto].
  keep.
Qed.

#[local] Hint Resolve keeps_return_lobby keeps_on_lobby keeps_on_config keeps_on_ready
  keeps_on_input keeps_on_pause keeps_on_join : keeps.

Lemma keeps_handle_message m : keeps round_ok (handle_message m).
Proof.
  unfold handle_message, on_accept, on_start, on_digest. keep.
Qed.

Lemma keeps_read_loop fuel m : keeps round_ok (read_loop fuel m).
Proof.
  revert m. induction fuel as [|fuel IH]; intros m; cbn [read_loop]; [keep |].
  pose proof keeps_handle_message. keep.
Qed.

Lemma keeps_consume event : keeps round_ok (consume event).
Proof.
  pose proof keeps_read_loop.
  unfold consume, on_material, on_listen, on_connection, on_stream, on_write, on_read. keep.
Qed.

Lemma keeps_pump : keeps round_ok pump.
Proof.
  assert (forall work, keeps round_ok (consume_all work)) as H.
  { pose proof keeps_consume. induction work; cbn [consume_all]; keep. }
  unfold pump, pump_expiry, pump_stall. keep.
Qed.

#[local] Hint Resolve keeps_handle_message keeps_read_loop keeps_consume keeps_pump : keeps.

Lemma keeps_select_game rom key : keeps round_ok (select_game rom key).
Proof.
  unfold select_game. destruct rom as [rom|], key as [key|]; try apply keeps_ret.
  apply keeps_if; [keep |]. apply triple_after; [keep | intros _]. outside_round.
  assert (forall r, keeps not_running (set_view (fun v => v <| reason := r |>);; mret false))
    as Hr by (intros; keep).
  apply not_running_then. keep.
Qed.

Lemma keeps_confirm : keeps round_ok confirm.
Proof.
  unfold confirm. apply triple_after; [keep | intros _]. outside_round.
  apply triple_if; [apply triple_start with not_running; [apply not_running_then; keep | tauto] |].
  apply triple_start with not_running; [| tauto]. apply triple_after; [keep | intros _].
  apply triple_start with round_ok; [keep | apply not_running_round].
Qed.

Lemma keeps_submit_input buttons : keeps round_ok (submit_input buttons).
Proof.
  unfold submit_input. apply triple_after; [keep | intros _].
  apply triple_gets_bind; intros s0.
  destruct (inputs s0) as [b|] eqn:Hb; [| apply triple_start with round_ok; [keep | tauto]].
  apply triple_if; [apply triple_start with round_ok; [keep | tauto] |]. cbv zeta.
  apply triple_if; [apply triple_start with round_ok; [keep | tauto] |].
  destruct (Lockstep.put_local _ _ b) as [result b'] eqn:Hput.
  apply triple_modify_bind with (fun s => running_ok 1 s /\ result = Lockstep.Accepted).
  { intros s [[[[H _] <-] G1] G2]. unfold id in *. bool_hyps.
    match goal with H : in_state _ _ = true |- _ => apply in_state_spec in H end.
    destruct H as (? & ? & ? & ? & b0 & Hb0 & Hp); [done |]. simplify_eq.
    rewrite Z.add_0_r in Hp. destruct (play_ok_put_local _ _ _ buttons Hp) as [Ha Hp']; [lia |].
    rewrite Hput in Ha, Hp'. split; [| done]. intros _. split_and!; try done.
    by exists b'. }
  apply triple_if.
  { intros s [[_ ->] G]. by rewrite bool_decide_true in G. }
  apply triple_start with (fun s => True /\ running_ok 1 s); [| tauto].
  eapply triple_bind.
  { apply triple_and; [apply queue_message_false | apply (keeps_queue_message (running_ok 1))]. }
  cbv beta. intros sent. apply triple_if.
  - intros s [[Hf _] G]. apply negb_true_iff in G. apply ends_vacuously. by apply Hf.
  - apply triple_modify_bind with (running_ok 0).
    + intros s [[_ H] _] Hrun. destruct (H Hrun) as (? & ? & ? & ? & b0 & ? & Hp).
      split_and!; try done. exists b0. cbn. by rewrite Z.add_0_r.
    + apply triple_after; [keep | intros _].
      eapply triple_bind; [apply round_advance | intros ?; apply keeps_ret].
Qed.

Lemma keeps_set_paused value : keeps round_ok (set_paused value).
Proof.
  unfold set_paused. apply triple_after; [keep | intros _].
  apply keeps_bind; [keep | intros s0]. apply keeps_if; [keep |].
  apply keeps_bind; [| intros _; keep]. apply keeps_when.
  apply triple_start with (running_ok 0); [| by intros s [? _] ].
  destruct (value =? 0); cbn [negb when].
  - do 3 (apply triple_after; [keep | intros ?]). apply round_advance.
  - apply triple_modify_bind with (fun s => running_ok 0 s /\ paused (view s) = true); [done |].
    apply triple_conseq with (fun s => running_ok 0 s /\ paused (view s) = true)
      (fun (_ : unit) s => running_ok 0 s /\ paused (view s) = true); [keep | done |].
    intros _ s [? Hp]. split; [done |]. intros _ Hn. congruence.
Qed.

Lemma keeps_pull_pcm capacity : keeps round_ok (pull_pcm capacity).
Proof.
  unfold pull_pcm. apply keeps_if; [keep |]. apply triple_after; [keep | intros _].
  apply triple_gets_bind; intros s0. destruct (runtime s0) as [rt|];
    [| apply triple_start with round_ok; [keep | tauto]].
  apply triple_start with round_ok; [| tauto]. cbv zeta.
  apply keeps_if; [keep |]. destruct (runtime_pull_pcm _ _) as [[block rt']|]; [| keep].
  apply triple_modify_bind with round_ok; [| keep].
  intros s [H Hd]. split; [| exact Hd]. intros Hrun. destruct (H Hrun) as (_ & H').
  split; [by eexists | exact H'].
Qed.


Lemma keeps_host ip tok : keeps round_ok (host ip tok).
Proof.
  unfold host. destruct ip, tok; try apply keeps_ret.
  destruct (parse_lan_ipv4 _ _) as [[] [addr|]]; try apply keeps_ret. keep.
Qed.

Lemma keeps_join ip text : keeps round_ok (join ip text).
Proof.
  unfold join. destruct ip, text; try apply keeps_ret.
  destruct (parse_invite _ _) as [[] [inv|]]; try apply keeps_ret.
  destruct (parse_lan_ipv4 _ _) as [[] [addr|]]; try apply keeps_ret. keep.
Qed.

#[local] Hint Resolve keeps_host keeps_join keeps_select_game keeps_confirm keeps_submit_input
  keeps_set_paused keeps_pull_pcm : keeps.

Lemma run_call_round c : keeps round_ok (run_call c).
Proof.
  destruct c; cbn [run_call];
    unfold copy_invite, snapshot_read, api_return_lobby, copy_latest_frame, cancel, completion;
    keep.
Qed.

Lemma reachable_round s : reachable s -> round_ok s.
Proof. induction 1 as [|s c _ IH]; [done |]. by apply run_call_round. Qed.

End Round.
