(* ===== verification/LanSessionEnd.v ===== *)
(** * The end of a LAN MVP session

    Once a session has ended it holds no emulator, no input buffer and no pending
    operation ([ended_ok]), and no entry point or completion changes anything but
    the event queue and the mirrored members of the view ([quiet]). *)

From S2P Require Import Prelude.
From S2P Require Import Sha256.
From S2P Require Import LanInvite.
From S2P Require LanWire.
From S2P Require Lockstep.
From S2P Require Import LanSession.
From S2P Require Import LanSessionEffects.

Section Final.
Context {RP : RuntimePort} {QP : QuicPort} {CK : SteadyClock}.

(** ** An ended session *)

(** Ending releases the emulator, the input buffer and every operation. *)
Definition ended_ok (s : session) : Prop :=
  state (view s) = ENDED -> runtime s = None /\ inputs s = None /\ operations s = ∅.

Lemma live_ok s : live s -> ended_ok s.
Proof. intros H He. by destruct H. Qed.

Lemma end_released why s : ended_ok s -> ended_ok (end_ why s).2.
Proof.
  intros H. unfold end_, mbind, M_bind, gets. cbn [fst snd].
  destruct (in_state ENDED (id s)); [done |]. intros _.
  unfold when, close_handle, set_view, stop_runtime, cancel_pending, modify, mret, M_ret.
  unfold mbind, M_bind. cbn.
  destruct (connection s =? 0); cbn; destruct (listener s =? 0); done.
Qed.

#[export] Instance ended_coarse : Coarse ended_ok.
Proof.
  split; [| apply end_released].
  intros s s' Hc Ho H He.
  pose proof (core_proj (fun t => state (view t)) s s' (fun _ => eq_refl) Hc) as E.
  cbn in E. rewrite E in He. destruct (H He) as (? & ? & ?).
  rewrite Ho by done. split_and!; [| |done];
    [rewrite (core_proj runtime s s') | rewrite (core_proj inputs s s')]; done.
Qed.

(** Steps that keep the session live, then steps that keep [ended_ok]. *)
Lemma live_then {A} (m : M session A) :
  keeps live m -> triple live m (fun _ => ended_ok).
Proof.
  intros H. eapply triple_conseq; [exact H | done |]. intros ? s. apply live_ok.
Qed.

Lemma enter_live {A} P st (k : unit -> M session A) :
  st <> ENDED -> triple live (k tt) (fun _ => ended_ok) ->
  triple P (set_state st ≫= k) (fun _ => ended_ok).
Proof. intros Hst Hk. by apply triple_modify_bind with live. Qed.

Lemma ended_submit kind request : triple live (submit kind request) (fun _ => ended_ok).
Proof.
  eapply triple_start; [apply (triple_submit ended_ok) |]. intros s Hl.
  split; [by apply live_ok | done].
Qed.

(** Continue with a computation that keeps [ended_ok]. *)
Ltac now_ended := eapply triple_start; [| apply live_ok]; keep.

(** Enter a computation whose first guard is false in a session that has ended. *)
Ltac live_guard :=
  let s := fresh in let G := fresh in
  intros s [[_ <-] G]; unfold live, id in *; bool_hyps;
  repeat match goal with
  | H : negb _ && negb _ = false |- _ => apply andb_false_iff in H as [H|H]; bool_hyps
  | H : in_state _ _ = true |- _ => apply in_state_spec in H
  | H : in_state _ _ = false |- _ => apply in_state_false in H
  end; congruence.

Ltac while_live :=
  apply triple_gets_bind; intros ?;
  apply triple_if;
  [apply triple_start with ended_ok; [keep | tauto] |];
  apply triple_start with live; [cbv zeta | live_guard].

Lemma ended_publish_digest frame : keeps ended_ok (publish_digest frame).
Proof. unfold publish_digest, compare_digest. keep. Qed.

Lemma ended_compare_digest frame : keeps ended_ok (compare_digest frame).
Proof. unfold compare_digest. keep. Qed.

#[local] Hint Resolve ended_publish_digest ended_compare_digest : keeps.

Lemma ended_play_frame f : triple live (play_frame f) (fun _ => ended_ok).
Proof.
  unfold play_frame. apply triple_gets_bind; intros s0. cbv zeta.
  apply triple_start with live; [| tauto].
  apply triple_after; [keep | intros _].
  destruct (runtime s0 ≫= _) as [[result rt]|].
  - apply triple_after; [keep | intros _]. now_ended.
  - now_ended.
Qed.

Lemma ended_advance_loop fuel : keeps ended_ok (advance_loop fuel).
Proof.
  induction fuel as [|fuel IH]; cbn [advance_loop]; [apply keeps_ret |].
  while_live. destruct (inputs _) as [b|]; [| now_ended].
  destruct (Lockstep.pop_ready _ b) as [[[] [f|]] b']; try solve [now_ended].
  apply triple_after; [keep | intros _].
  eapply triple_bind; [apply ended_play_frame | intros []; [apply IH | keep]].
Qed.

Lemma ended_advance : keeps ended_ok advance.
Proof. pose proof ended_advance_loop. unfold advance. keep. Qed.

#[local] Hint Resolve ended_advance : keeps.

Lemma ended_enter_running : keeps ended_ok enter_running.
Proof.
  unfold enter_running. apply triple_gets_bind; intros s0.
  apply triple_if; [by intros s [[] ] |].
  apply triple_modify_bind with live; [done |].
  do 5 (apply triple_after; [keep | intros ?]). now_ended.
Qed.

#[local] Hint Resolve ended_enter_running : keeps.

Lemma ended_maybe_start_host : keeps ended_ok maybe_start_host.
Proof. unfold maybe_start_host. keep. Qed.

Lemma ended_return_lobby : keeps ended_ok return_lobby.
Proof.
  unfold return_lobby. apply keeps_bind; [keep | intros s0].
  do 2 (apply keeps_if; [keep |]). apply keeps_if; [keep |].
  apply triple_start with (fun _ => True); [| done]. apply keeps_clear_game.
  apply enter_live; [done |]. now_ended.
Qed.

Lemma ended_on_lobby payload : keeps ended_ok (on_lobby payload).
Proof.
  apply triple_start with (fun _ => True); [| done]. apply keeps_clear_game.
  apply triple_modify_bind with (fun _ => True); [done |].
  apply enter_live; [done |]. now_ended.
Qed.

#[local] Hint Resolve ended_maybe_start_host ended_return_lobby ended_on_lobby : keeps.

Lemma ended_on_input payload : keeps ended_ok (on_input payload).
Proof.
  unfold on_input. apply triple_gets_bind; intros s0.
  destruct (inputs s0) as [b|]; [| apply triple_start with ended_ok; [keep | tauto]].
  apply triple_if; [apply triple_start with ended_ok; [keep | tauto] |].
  apply triple_start with live; [| live_guard].
  destruct (Lockstep.put_remote _ _ b) as [result b'].
  apply triple_after; [keep | intros _]. now_ended.
Qed.

#[local] Hint Resolve ended_on_input : keeps.

Lemma ended_handle_message m : keeps ended_ok (handle_message m).
Proof.
  unfold handle_message, on_pause, on_join, join_rejected, on_accept, on_config,
    on_ready, on_start, on_digest.
  keep.
Qed.

#[local] Hint Resolve ended_handle_message : keeps.

Lemma ended_read_loop fuel m : keeps ended_ok (read_loop fuel m).
Proof. revert m. induction fuel as [|fuel IH]; intros m; cbn [read_loop]; keep. Qed.

#[local] Hint Resolve ended_read_loop : keeps.

(** Handlers of completions start in a live session. *)
Ltac submit_live :=
  repeat lazymatch goal with
  | |- triple _ (submit _ _ ≫= _) _ => fail
  | |- _ => apply triple_after; [keep | intros ?]
  end;
  eapply triple_bind; [apply ended_submit | intros ?; keep].

Lemma ended_on_material event : triple live (on_material event) (fun _ => ended_ok).
Proof.
  unfold on_material. destruct (_ || _); [now_ended |]. submit_live.
Qed.

Lemma ended_on_listen event : triple live (on_listen event) (fun _ => ended_ok).
Proof.
  unfold on_listen. apply triple_after; [keep | intros _].
  destruct (_ || _); [now_ended |]. destruct (listen_port _); [| now_ended].
  do 2 (apply triple_after; [keep | intros ?]).
  destruct (format_invite _ _) as [[] [text|]]; try solve [now_ended]. submit_live.
Qed.

Lemma ended_on_connection next request event :
  triple live (on_connection next request event) (fun _ => ended_ok).
Proof.
  unfold on_connection. apply triple_after; [keep | intros _].
  destruct (_ =? 0); [now_ended |]. submit_live.
Qed.

Lemma ended_consume event : keeps ended_ok (consume event).
Proof.
  unfold consume. apply triple_gets_bind; intros s0.
  destruct (operations s0 !! _) as [kind|]; [| by intros s [? ?]].
  apply triple_if; [by intros s [[? ?] ?] |].
  apply triple_start with live; [| live_guard].
  apply triple_after; [keep | intros _]. destruct (negb _); [now_ended |].
  pose proof (ended_on_material event). pose proof (ended_on_listen event).
  destruct kind; auto using ended_on_connection;
    unfold on_stream, on_write, on_read; now_ended.
Qed.

Lemma ended_pump : keeps ended_ok pump.
Proof.
  assert (forall work, keeps ended_ok (consume_all work)) as H.
  { pose proof ended_consume. induction work; cbn [consume_all]; keep. }
  unfold pump, pump_expiry, pump_stall. keep.
Qed.

#[local] Hint Resolve ended_pump : keeps.

Lemma ended_host ip tok : keeps ended_ok (host ip tok).
Proof.
  unfold host. destruct ip, tok; try apply keeps_ret.
  destruct (parse_lan_ipv4 _ _) as [[] [addr|]]; try apply keeps_ret. while_live.
  do 3 (apply triple_after; [keep | intros ?]). apply ended_submit.
Qed.

Lemma ended_join ip text : keeps ended_ok (join ip text).
Proof.
  unfold join. destruct ip, text; try apply keeps_ret.
  destruct (parse_invite _ _) as [[] [inv|]]; try apply keeps_ret.
  destruct (parse_lan_ipv4 _ _) as [[] [addr|]]; try apply keeps_ret. while_live.
  do 3 (apply triple_after; [keep | intros ?]). apply ended_submit.
Qed.

Lemma ended_select_game rom key : keeps ended_ok (select_game rom key).
Proof.
  unfold select_game. destruct rom as [rom|], key as [key|]; try apply keeps_ret.
  apply keeps_if; [keep |]. apply triple_after; [keep | intros _]. while_live.
  destruct runtime_create as [c|]; [| now_ended].
  destruct (runtime_load_rom_fresh _ _ _); [| now_ended].
  destruct (runtime_get_source_timing _); [| now_ended].
  do 2 (destruct (_ && _); [now_ended |]).
  do 3 (apply triple_after; [keep | intros ?]). now_ended.
Qed.

Lemma ended_confirm : keeps ended_ok confirm.
Proof. unfold confirm. keep. Qed.

Lemma ended_submit_input buttons : keeps ended_ok (submit_input buttons).
Proof.
  unfold submit_input. apply triple_after; [keep | intros _].
  apply triple_gets_bind; intros s0.
  destruct (inputs s0); [| by intros s [? ?]].
  apply triple_if; [by intros s [[? ?] ?] |].
  apply triple_start with live; [cbv zeta | live_guard].
  destruct (_ <=? _); [now_ended |]. destruct (Lockstep.put_local _ _ _).
  apply triple_after; [keep | intros ?]. now_ended.
Qed.

Lemma ended_set_paused value : keeps ended_ok (set_paused value).
Proof. unfold set_paused. keep. Qed.

Lemma ended_pull_pcm capacity : keeps ended_ok (pull_pcm capacity).
Proof.
  unfold pull_pcm. apply keeps_if; [keep |]. apply triple_after; [keep | intros _].
  apply triple_gets_bind; intros s0. destruct (runtime s0) as [rt|] eqn:Hrt;
    [| by intros s [? ?]].
  cbv zeta. apply triple_if; [by intros s [[? ?] ?] |].
  apply triple_start with live.
  2:{ intros s [[H <-] _] He. unfold id in *. destruct (H He) as (? & _). congruence. }
  destruct (runtime_pull_pcm _ _) as [[block rt']|]; [| now_ended].
  apply triple_after; [keep | intros ?]. now_ended.
Qed.

#[local] Hint Resolve ended_host ended_join ended_select_game ended_confirm
  ended_submit_input ended_set_paused ended_pull_pcm : keeps.

Lemma run_call_ended c : keeps ended_ok (run_call c).
Proof.
  destruct c; cbn [run_call];
    unfold copy_invite, snapshot_read, api_return_lobby, copy_latest_frame, cancel, completion;
    keep.
Qed.

Lemma reachable_ended s : reachable s -> ended_ok s.
Proof. induction 1 as [|s c _ IH]; [done |]. by apply run_call_ended. Qed.

(** ** Nothing happens after the end *)

(** The session without the members an ended session may still change: the event
    queue, the clock counter and the members of the view copied by [sync_view]. *)
Definition blank (s : session) : session :=
  s <| events := [] |> <| clock_reads := O |>
    <| view := (view s) <| view_role := NoRole |> <| view_local_configured := false |>
         <| view_peer_configured := false |> <| view_local_ready := false |>
         <| view_peer_ready := false |> <| config_hash := [] |> |>.

Section Quiet.
Context (s0 : session) (Hended : state (view s0) = ENDED) (Hops : operations s0 = ∅)
  (Hruntime : runtime s0 = None).

Definition quiet (s : session) : Prop := blank s = blank s0.

Lemma blank_proj {A} (f : session -> A) s :
  (forall t, f (blank t) = f t) -> quiet s -> f s = f s0.
Proof. intros Hf Hq. by rewrite <- (Hf s), Hq, Hf. Qed.

Lemma quiet_not st s : quiet s -> st <> ENDED -> in_state st s = false.
Proof.
  intros Hq Hst. apply in_state_false.
  rewrite (blank_proj (fun t => state (view t)) s (fun _ => eq_refl) Hq). congruence.
Qed.

Lemma quiet_ended s : quiet s -> in_state ENDED s = true.
Proof.
  intros Hq. apply in_state_spec.
  by rewrite (blank_proj (fun t => state (view t)) s (fun _ => eq_refl) Hq).
Qed.

Lemma quiet_gets {A} (k : session -> M session A) :
  (forall v, quiet v -> keeps quiet (k v)) -> keeps quiet (gets id ≫= k).
Proof. intros H. apply keeps_gets_bind. intros s Hs. by apply H. Qed.

(** Read the session and decide the guards on its state. *)
Ltac quiet_guard :=
  apply quiet_gets; intros ? Hq;
  repeat rewrite (quiet_not _ _ Hq) by done; rewrite ?(quiet_ended _ Hq);
  cbn [negb orb andb]; rewrite ?andb_false_r, ?orb_true_r; cbn [negb orb andb].

Lemma quiet_consume event : keeps quiet (consume event).
Proof.
  unfold consume. apply quiet_gets; intros v Hq.
  rewrite (blank_proj operations v (fun _ => eq_refl) Hq), Hops, lookup_empty.
  apply keeps_ret.
Qed.

Lemma quiet_pump : keeps quiet pump.
Proof.
  assert (forall work, keeps quiet (consume_all work)) as Hall.
  { pose proof quiet_consume. induction work; cbn [consume_all]; keep. }
  unfold pump. do 4 (apply keeps_bind; [solve [keep] | intros ?]).
  apply keeps_bind; [| intros ?; apply keeps_bind].
  - unfold pump_expiry. quiet_guard. keep.
  - unfold pump_stall. quiet_guard. keep.
  - intros _. keep.
Qed.

#[local] Hint Resolve quiet_pump : keeps.

Lemma quiet_run_call c : keeps quiet (run_call c).
Proof.
  assert (keeps quiet api_return_lobby) as Hret.
  { unfold api_return_lobby, return_lobby. apply keeps_bind; [keep | intros _].
    quiet_guard. keep. }
  assert (keeps quiet cancel) as Hcancel.
  { unfold cancel, end_. quiet_guard. keep. }
  destruct c; cbn [run_call]; try (apply keeps_bind; [| intros _; apply keeps_ret]); try done.
  all: try solve [unfold snapshot_read, copy_latest_frame; keep].
  - unfold host. destruct host_ipv4, token16; try apply keeps_ret.
    destruct (parse_lan_ipv4 _ _) as [[] [addr|]]; try apply keeps_ret. quiet_guard. keep.
  - unfold join. destruct local_ipv4, qr_text; try apply keeps_ret.
    destruct (parse_invite _ _) as [[] [inv|]]; try apply keeps_ret.
    destruct (parse_lan_ipv4 _ _) as [[] [addr|]]; try apply keeps_ret. quiet_guard. keep.
  - unfold copy_invite. keep.
  - unfold select_game. destruct rom, game_key; try apply keeps_ret.
    apply keeps_if; [keep |]. apply keeps_bind; [keep | intros _]. quiet_guard. keep.
  - unfold confirm. apply keeps_bind; [keep | intros _]. quiet_guard. keep.
  - unfold submit_input. apply keeps_bind; [keep | intros _]. quiet_guard.
    destruct (inputs _); keep.
  - unfold set_paused. apply keeps_bind; [keep | intros _]. quiet_guard. keep.
  - unfold pull_pcm. apply keeps_if; [keep |]. apply keeps_bind; [keep | intros _].
    apply quiet_gets. intros v Hq.
    rewrite (blank_proj runtime v (fun _ => eq_refl) Hq), Hruntime. keep.
  - unfold completion. keep.
Qed.

End Quiet.

(** Any sequence of entry points and completions. *)
Fixpoint run_calls (cs : list Call) (s : session) : session :=
  match cs with
  | [] => s
  | c :: cs => run_calls cs (run_call c s).2
  end.

Lemma reachable_calls cs s : reachable s -> reachable (run_calls cs s).
Proof.
  revert s. induction cs as [|c cs IH]; intros s Hs; [done |]. by apply IH, reachable_call.
Qed.

End Final.
