(* ===== verification/LanSessionSafety.v ===== *)
(** * Properties of the LAN MVP session

    Theorems about the coordinator of LanSession.v: what holds in every reachable
    session whatever the emulator, the transport, the clock and the peer do, and
    what a received message can do to a session.  [Demo] is a concrete environment
    the witnesses run in. *)

From S2P Require Import Prelude.
From S2P Require Import Sha256.
From S2P Require Import LanInvite.
From S2P Require LanWire.
From S2P Require Lockstep.
From S2P Require Import LanSession.
From S2P Require Import LanSessionEffects.
From S2P Require Import LanSessionRound.
From S2P Require Import LanSessionEnd.

(** ** Byte comparison *)

Lemma fold_lor_zero {A} (f : A -> Z) l acc :
  fold_left (fun d i => Z.lor d (f i)) l acc = 0 <->
  acc = 0 /\ Forall (fun i => f i = 0) l.
Proof.
  revert acc. induction l as [|x l IH]; intros acc; cbn [fold_left].
  - split; [by intros -> | by intros [-> _] ].
  - rewrite IH, Z.lor_eq_0_iff, Forall_cons. tauto.
Qed.

Lemma same_bytes_spec a b n :
  same_bytes a b n = true <-> forall i, 0 <= i < n -> at_ a i = at_ b i.
Proof.
  unfold same_bytes. rewrite Z.eqb_eq.
  rewrite (fold_lor_zero (fun i => Z.lxor (at_ a i) (at_ b i))), Forall_forall. split.
  - intros [_ H] i Hi. apply Z.lxor_eq. apply H, elem_of_seqZ. lia.
  - intros H. split; [done |]. intros i Hi%elem_of_seqZ. rewrite H by lia.
    apply Z.lxor_nilpotent.
Qed.

(** On buffers of the compared size the comparison is equality. *)
Lemma same_bytes_eq a b n :
  zlen a = n -> zlen b = n -> same_bytes a b n = true <-> a = b.
Proof.
  intros Ha Hb. rewrite same_bytes_spec. split; [| by intros ->]. intros H.
  apply list_eq_same_length with (length a); unfold zlen in *; try lia.
  intros i x y Hi Hx Hy. specialize (H (Z.of_nat i)). unfold at_ in H.
  rewrite !Nat2Z.id in H. erewrite !nth_lookup_Some in H by done. apply H. lia.
Qed.

(** ** A concrete environment

    The emulator counts the frames it ran, every request is accepted and every
    reading of the clock takes a millisecond. *)
Module Demo.

#[export] Instance demo_runtime : RuntimePort := {|
  Runtime := Z;
  runtime_create := Some 0;
  runtime_load_rom_fresh rt rom hash := Some (zlen rom);
  runtime_get_source_timing rt := Some (mkTiming 1 60 1 48000);
  runtime_step_frame rt input := Some (mkFrameResult true (800 * rt), rt + 1);
  runtime_copy_frame_digest rt epoch frame := Some (be_bytes 32 rt);
  runtime_pull_pcm rt capacity := Some (mkPcmBlock capacity 0 0, rt);
  runtime_copy_latest_frame rt capacity := None;
|}.

#[export] Instance demo_quic : QuicPort := {| quic_start op request := QUIC_ACCEPTED |}.

#[export] Instance demo_clock : SteadyClock.
Proof. refine {| clock n := 1000000 * Z.of_nat n |}. intros n. lia. Defined.

Definition ip : bytes := ascii_bytes "192.168.1.5".
Definition tok : bytes := replicate 16 7.
Definition rom : bytes := [78; 69; 83; 26].
Definition hash : bytes := make_config_hash (sha256 rom) (mkTiming 1 60 1 48000).

Definition frame_ (kind : LanWire.Kind) (payload : bytes) : bytes :=
  LanWire.frame_of (LanWire.mkMessage kind payload).

Definition done_ (op resource : Z) (b : bytes) : Call := Completion (mkEvent op 0 resource b).

(** A host invites, a guest connects and opens the stream. *)
Definition connect_script : list Call :=
  [CallHost (Some ip) (Some tok); done_ 1 7 [1; 2; 3]; CallSnapshotRead;
   done_ 2 8 (ip ++ ascii_bytes ":5000"); CallSnapshotRead;
   done_ 3 9 []; CallSnapshotRead; done_ 4 10 (be_bytes 8 11); CallSnapshotRead].

(** The guest joins with the token, both choose the same game and are ready. *)
Definition play_script : list Call :=
  connect_script ++
  [done_ 5 0 (frame_ LanWire.Join tok); CallSnapshotRead;
   CallSelectGame (Some rom) (Some []);
   done_ 7 0 (frame_ LanWire.Config (sha256 rom ++ hash)); CallSnapshotRead;
   CallConfirm;
   done_ 8 0 (frame_ LanWire.Ready hash); CallSnapshotRead].

Definition inviting : session := run_calls connect_script initial_session.
Definition running : session := run_calls play_script initial_session.

End Demo.

Example demo_running :
  state (view Demo.running) = RUNNING /\ completed_frames (view Demo.running) = 2 /\
  state (view Demo.inviting) = INVITING.
Proof. vm_compute. done. Qed.

(** ** Two sessions joined by a reliable stream *)
Module Net.
Section Net.
Context {RP : RuntimePort} {QP : QuicPort} {CK : SteadyClock}.

(** The pending operation of a kind. *)
Definition pending (kind : Operation.t) (s : session) : option Z :=
  fst <$> head (filter (fun p => p.2 = kind) (map_to_list (operations s))).

(** The bytes of the write in flight. *)
Definition written (op : Z) (s : session) : option bytes :=
  head (omap (fun p => match p.2 with
                       | WriteTo _ data => if decide (p.1 = op) then Some data else None
                       | _ => None
                       end) (log s)).

Definition poll (e : Event) (s : session) : session :=
  (run_call CallSnapshotRead (run_call (Completion e) s).2).2.

(** The write in flight of the first session completes and the second reads it. *)
Definition transfer (a b : session) : option (session * session) :=
  w ← pending Operation.Write a;
  r ← pending Operation.Read b;
  data ← written w a;
  Some (poll (mkEvent w 0 0 []) a, poll (mkEvent r 0 0 data) b).

(** Deliver until both outboxes are empty. *)
Fixpoint settle (fuel : nat) (a b : session) : session * session :=
  match fuel with
  | O => (a, b)
  | S fuel =>
    match transfer a b with
    | Some (a, b) => settle fuel a b
    | None =>
      match transfer b a with
      | Some (b, a) => settle fuel a b
      | None => (a, b)
      end
    end
  end.

(** Nothing is left to deliver. *)
Definition settled (a b : session) : bool :=
  bool_decide (writes a = []) && bool_decide (writes b = []).

End Net.
End Net.

Module Pair.
Import Demo.

Definition call (c : Call) (s : session) : session := (run_call c s).2.

(** The guest reads the host's invitation and connects. *)
Definition joined : session * session :=
  let h := run_calls connect_script initial_session in
  let g := run_calls [CallJoin (Some ip) (Some (qr h)); done_ 1 9 []; CallSnapshotRead;
                      done_ 2 10 (be_bytes 8 11); CallSnapshotRead] initial_session in
  Net.settle 20 h g.

Definition select (s : session) : session := call (CallSelectGame (Some rom) (Some [])) s.

Definition configured : session * session :=
  Net.settle 20 (select joined.1) (select joined.2).

(** Both confirm: the round starts on both sides. *)
Definition started : session * session :=
  let p := Net.settle 20 (call CallConfirm configured.1) configured.2 in
  Net.settle 20 p.1 (call CallConfirm p.2).

(** The guest confirms, then the host chooses the same game again. *)
Definition reselected : session * session :=
  let p := Net.settle 20 configured.1 (call CallConfirm configured.2) in
  Net.settle 20 (select p.1) p.2.

(** Both confirm after that. *)
Definition stuck : session * session :=
  Net.settle 20 (call CallConfirm reselected.1) (call CallConfirm reselected.2).

End Pair.

(** ** Sending under a transport that accepts *)

Section Properties.
Context {RP : RuntimePort} {QP : QuicPort} {CK : SteadyClock}.

(** The transport accepts every request. *)
Definition accepting : Prop := forall op request, quic_start op request = QUIC_ACCEPTED.

(** A message that fits is then sent or queued, and only the transport's
    bookkeeping changes. *)
Lemma queue_message_accepted kind payload s :
  accepting -> zlen payload < LanWire.kMaxBodySize ->
  (queue_message kind payload s).1 = true /\ core (queue_message kind payload s).2 = core s.
Proof.
  intros Hacc Hlen. unfold queue_message, LanWire.encode, LanWire.kMaxBodySize in *.
  destruct (Z.ltb_spec 1024 (zlen payload + 1)); [lia |].
  destruct (Z.ltb_spec 65535 (zlen payload + 1)); [lia |]. cbn [orb].
  generalize ([u8 (Z.shiftr (u16 (zlen payload + 1)) 8);
               u8 (Z.land (u16 (zlen payload + 1)) 255); LanWire.kind_code kind] ++ payload).
  intros frame. unfold begin_next_write, submit, mbind, M_bind, gets, modify. cbn.
  destruct (writes s ++ [frame]); [done |].
  destruct (write_inflight s || (send_stream s =? 0) || in_state ENDED _); [done |].
  cbn. by rewrite Hacc.
Qed.

(** A reply that ends the session leaves it ended. *)
Lemma ended_not_lobby why s : state (view (end_ why s).2) <> LOBBY.
Proof. by rewrite end_ended. Qed.

(** The admission of a Join by an inviting host. *)
Lemma on_join_admits (payload : bytes) (s : session) :
  role s = Host -> state (view s) = INVITING -> zlen (token (invite s)) = 16 ->
  let admitted := payload = token (invite s) /\ clock (clock_reads s) < deadline s in
  let s' := (on_join payload s).2 in
  (state (view s') = LOBBY /\ admitted) \/
  (state (view s') = ENDED /\ ~ (accepting /\ admitted)).
Proof.
  intros Hrole Hst Htok admitted s'. subst admitted s'.
  assert (forall s1, (role s1 = Host /\ state (view s1) = INVITING) -> True) as _ by done.
  unfold on_join, join_rejected, mbind, M_bind, gets. cbn [fst snd]. unfold id.
  rewrite Hrole, bool_decide_true by done. unfold in_state. rewrite Hst, bool_decide_true by done.
  cbn [negb orb]. destruct (Z.eqb_spec (zlen payload) 16) as [Hlen|Hlen]; cbn [negb].
  2:{ right. cbn. rewrite end_ended. split; [done |]. intros [_ [-> _]]. done. }
  unfold now, mret, M_ret. cbn [fst snd].
  destruct (Z.leb_spec (deadline s) (clock (clock_reads s))) as [Hd|Hd]; cbn [orb].
  { right. cbn. rewrite end_ended. split; [done |]. intros [_ [_ ?]]. lia. }
  destruct (same_bytes (token (invite s)) payload 16) eqn:Hsame; cbn [negb].
  2:{ right. cbn. rewrite end_ended. split; [done |]. intros [_ [-> _]].
      assert (same_bytes (token (invite s)) (token (invite s)) 16 = true) by
        (by apply same_bytes_eq). congruence. }
  apply same_bytes_eq in Hsame; [| done..]. unfold set_view, modify, when. cbn [fst snd].
  match goal with |- context [queue_message ?k ?p ?st] =>
    pose proof (queue_message_false k p st Logic.I) as Hf;
    pose proof (queue_message_accepted k p st) as Hacc;
    destruct (queue_message k p st) as [[] s2] end.
  - left. done.
  - right. cbn in *. split; [by apply Hf |]. intros [Ha _]. destruct Hacc as [? _]; [done | | done].
    unfold LanWire.kMaxBodySize, zlen. rewrite length_take. lia.
Qed.

(** Decide the closed guards of the goal. *)
Ltac decide_guards :=
  repeat match goal with
  | |- context [bool_decide ?P] =>
    first [rewrite (bool_decide_true P) by done | rewrite (bool_decide_false P) by done]
  end.

(** What an inviting host does with each message. *)
Lemma inviting_dispatch (m : LanWire.Message) (s : session) :
  role s = Host -> state (view s) = INVITING ->
  handle_message m s =
  (let p := LanWire.payload m in
   match LanWire.kind m with
   | LanWire.Join => on_join p s
   | LanWire.LobbyRequest => if zlen p =? 0 then (tt, s) else end_ REJECTED s
   | LanWire.Pause => if zlen p =? 1 then (tt, s) else end_ REJECTED s
   | LanWire.Ready | LanWire.Start => end_ CONFIG_MISMATCH s
   | LanWire.End => end_ PEER_ENDED s
   | _ => end_ REJECTED s
   end).
Proof.
  intros Hrole Hst. destruct m as [kind p].
  assert (forall st, st <> INVITING -> in_state st s = false) as Hin
    by (intros st ?; apply in_state_false; congruence).
  assert (return_lobby s = (false, s)) as Hret.
  { unfold return_lobby, mbind, M_bind, gets, id. by rewrite !Hin. }
  unfold handle_message, on_pause, on_accept, on_config, on_ready, on_start, on_input,
    on_digest, mbind, M_bind, gets, id.
  cbn [fst snd LanWire.kind LanWire.payload]. rewrite !Hin, Hrole by done.
  destruct kind;
    repeat (progress (decide_guards; cbn [andb orb negb]; rewrite ?Hret, ?Hin, ?Hrole by done));
    try done; [by destruct (inputs s) | |]; case_match; try done.
  - by rewrite Hret.
  - by rewrite Hin.
Qed.

Lemma end_reason why s : live s -> reason (view (end_ why s).2) = why.
Proof.
  intros Hl. unfold end_, mbind, M_bind, gets, id. cbn [fst snd].
  destruct (in_state ENDED s) eqn:E; [by apply in_state_spec in E |].
  unfold when, close_handle, set_view, stop_runtime, cancel_pending, modify, mret, M_ret.
  unfold mbind, M_bind. cbn.
  destruct (connection s =? 0); cbn; destruct (listener s =? 0); done.
Qed.

(** C3. In every reachable session that is RUNNING the emulator and the input
    buffer exist, both sides are configured with equal game and configuration
    hashes and both are ready; the buffer's next frame is the number of completed
    frames, the frames submitted run at most two ahead of it, the buffer holds a
    local mask exactly for the frames submitted and not yet played, and unless
    the round is paused no frame with both masks is left unplayed. *)
Theorem running_round (s : session) :
  reachable s -> state (view s) = RUNNING ->
  is_Some (runtime s) /\ configs_match s = true /\
  local_ready s = true /\ peer_ready s = true /\
  exists b, inputs s = Some b /\
    Lockstep.next_frame_ b = completed_frames (view s) /\
    completed_frames (view s) <= next_submit_frame s <= completed_frames (view s) + kInputDelay /\
    (forall i, has_local i (Lockstep.slots_ b) <->
               completed_frames (view s) <= i < next_submit_frame s) /\
    (paused (view s) = false -> ~ frame_ready b).
Proof.
  intros Hr Hrun. destruct (reachable_round s Hr) as [Hok Hd].
  destruct (Hok Hrun) as (? & ? & ? & ? & b & Hb & Hn & _ & ? & ? & Hl).
  rewrite Z.add_0_r in *. split_and!; try done. exists b. split_and!; try done; try lia.
  intros Hp. by apply Hd.
Qed.

(** A session that has ended stays as it is: whatever entry points are called
    and whatever completions arrive, its state and reason do not change, no
    request reaches the transport, and the emulator, the input buffer and the
    operation table stay released. *)
Theorem ended_is_final (s : session) (cs : list Call) :
  reachable s -> state (view s) = ENDED ->
  let s' := run_calls cs s in
  state (view s') = ENDED /\ reason (view s') = reason (view s) /\
  completed_frames (view s') = completed_frames (view s) /\ log s' = log s /\
  runtime s' = None /\ inputs s' = None /\ operations s' = ∅.
Proof.
  intros Hr He. destruct (reachable_ended s Hr He) as (Hrt & Hin & Hops).
  assert (quiet s (run_calls cs s)) as Hq.
  { enough (forall t, quiet s t -> quiet s (run_calls cs t)) as H by (by apply H).
    induction cs as [|c cs IH]; intros t Ht; [done |]. apply IH.
    by apply (quiet_run_call s He Hops Hrt c). }
  pose proof (fun A (f : session -> A) Hf => blank_proj s f (run_calls cs s) Hf Hq) as Hp.
  cbv zeta.
  rewrite (Hp _ (fun t => state (view t))), (Hp _ (fun t => reason (view t))),
    (Hp _ (fun t => completed_frames (view t))), (Hp _ log), (Hp _ runtime), (Hp _ inputs),
    (Hp _ operations); done.
Qed.

(** C10. While a host is INVITING the only message that lets a peer in is a Join
    that carries exactly the invitation's token and is handled before the
    deadline; an empty LobbyRequest and a one-byte Pause are ignored and every
    other message ends the session.  With a transport that accepts, the right Join
    does let the peer in. *)
Theorem only_the_token_admits (s : session) (m : LanWire.Message) :
  role s = Host -> state (view s) = INVITING -> zlen (token (invite s)) = 16 ->
  let admitted := LanWire.kind m = LanWire.Join /\ LanWire.payload m = token (invite s) /\
                  clock (clock_reads s) < deadline s in
  let ignored := (LanWire.kind m = LanWire.LobbyRequest /\ zlen (LanWire.payload m) = 0) \/
                 (LanWire.kind m = LanWire.Pause /\ zlen (LanWire.payload m) = 1) in
  let s' := (handle_message m s).2 in
  (state (view s') = LOBBY /\ admitted) \/ (s' = s /\ ignored) \/
  (state (view s') = ENDED /\ ~ (accepting /\ admitted)).
Proof.
  intros Hrole Hst Htok. cbv zeta. rewrite inviting_dispatch by done. cbv zeta.
  destruct m as [kind p]. cbn [LanWire.kind LanWire.payload].
  assert (forall why, kind <> LanWire.Join ->
    state (view (end_ why s).2) = ENDED /\ ~ (accepting /\ kind = LanWire.Join /\
      p = token (invite s) /\ clock (clock_reads s) < deadline s)) as Hend.
  { intros why Hk. rewrite end_ended. split; [done |]. tauto. }
  destruct kind; try (right; right; by apply Hend).
  - pose proof (on_join_admits p s Hrole Hst Htok) as Hj. cbv zeta in Hj. tauto.
  - destruct (Z.eqb_spec (zlen p) 0); [right; left; by eauto | right; right; by apply Hend].
  - destruct (Z.eqb_spec (zlen p) 1); [right; left; by eauto | right; right; by apply Hend].
Qed.

(** A session that waits for the lobby barrier (RETURNING) drops every message
    of the previous game: only the barrier messages of its role, a Lobby for the
    guest, the LobbyAck of its own generation for the host, change it. *)
Theorem barrier_drops (s : session) (m : LanWire.Message) :
  state (view s) = RETURNING ->
  ~ (LanWire.kind m = LanWire.Lobby /\ role s = Guest /\ zlen (LanWire.payload m) = 8) ->
  ~ (LanWire.kind m = LanWire.LobbyAck /\ role s = Host /\ zlen (LanWire.payload m) = 8 /\
     big_endian_u64 (LanWire.payload m) = lobby_generation s) ->
  (handle_message m s).2 = s.
Proof.
  intros Hst Hlobby Hack. assert (in_state RETURNING s = true) as Hin by by apply in_state_spec.
  assert (return_lobby s = (true, s)) as Hret.
  { unfold return_lobby, mbind, M_bind, gets, id. by rewrite Hin. }
  unfold handle_message, mbind, M_bind, gets, id. rewrite Hin.
  split_guard; [by rewrite Hret |]. split_guard; [destruct Hlobby; by split_and! |].
  split_guard; [destruct Hack; by split_and! | done].
Qed.

(** The watchdog of [pump], with no completion waiting: a running round that
    is not paused and made no progress for two seconds ends with STALL, and one
    that progressed more recently goes on. *)
Theorem pump_stalls (s : session) :
  events s = [] -> state (view s) = RUNNING -> paused (view s) = false ->
  let elapsed := clock (S (clock_reads s)) - last_progress s in
  let s' := (pump s).2 in
  (kProgressTimeout <= elapsed -> state (view s') = ENDED /\ reason (view s') = STALL) /\
  (elapsed < kProgressTimeout -> state (view s') = RUNNING /\ inputs s' = inputs s /\
     operations s' = operations s /\ completed_frames (view s') = completed_frames (view s)).
Proof.
  intros Hev Hst Hp. cbv zeta.
  set (s1 := s <| clock_reads := S (clock_reads s) |> <| events := [] |>).
  assert ((pump s).2 = ((pump_stall;; sync_view) s1).2) as ->.
  { unfold pump, mbind, M_bind, now, gets, modify. cbn [fst snd]. cbn [events over].
    rewrite Hev. unfold pump_expiry, mbind, M_bind, gets, id, in_state. cbn. rewrite Hst.
    rewrite (bool_decide_false (RUNNING = INVITING)), andb_false_r by done. done. }
  unfold pump_stall, mbind, M_bind, gets, id, in_state, now, when. cbn. rewrite Hst, Hp.
  rewrite (bool_decide_true (RUNNING = RUNNING)) by done. cbn.
  destruct (Z.leb_spec kProgressTimeout (clock (S (clock_reads s)) - last_progress s)).
  - split; [| lia]. intros _.
    match goal with |- context [end_ STALL ?st] =>
      pose proof (end_ended STALL st) as He; pose proof (end_reason STALL st) as Hw;
      destruct (end_ STALL st) as [[] s2] end.
    cbn in *. split; [done | apply Hw]. unfold live. cbn. congruence.
  - split; [lia |]. intros _. cbn. done.
Qed.

(** Input pacing, under a transport that accepts: [submit_input] takes the
    buttons exactly when, after the pump, the round is running, not paused and
    fewer than two frames are submitted beyond the completed ones; it is never
    refused for a conflict in the buffer. *)
Theorem submit_input_paced (s : session) (buttons : Z) :
  reachable s -> accepting ->
  let s1 := (pump s).2 in
  (submit_input buttons s).1 =
  bool_decide (state (view s1) = RUNNING /\ paused (view s1) = false /\
               next_submit_frame s1 < completed_frames (view s1) + kInputDelay).
Proof.
  intros Hr Hacc. cbv zeta. unfold submit_input, mbind, M_bind, gets, id.
  pose proof (keeps_pump s (reachable_round s Hr)) as [Hok _].
  destruct (pump s) as [[] s1]. cbn [fst snd] in *.
  destruct (inputs s1) as [buf|] eqn:Hb.
  2:{ symmetry. apply bool_decide_eq_false. intros (Hrun & _).
      destruct (Hok Hrun) as (_ & _ & _ & _ & ? & ? & _). congruence. }
  destruct (in_state RUNNING s1) eqn:Hrun; cbn [negb orb].
  2:{ symmetry. apply bool_decide_eq_false. apply in_state_false in Hrun. tauto. }
  destruct (paused (view s1)) eqn:Hp.
  { symmetry. apply bool_decide_eq_false. intros (_ & ? & _). congruence. }
  apply in_state_spec in Hrun. destruct (Hok Hrun) as (_ & _ & _ & _ & b & Hb' & Hplay).
  rewrite Hb' in Hb. simplify_eq. rewrite Z.add_0_r in Hplay.
  destruct (Z.leb_spec (completed_frames (view s1) + kInputDelay) (next_submit_frame s1)).
  { symmetry. apply bool_decide_eq_false. lia. }
  rewrite bool_decide_true by (split_and!; [done | done | lia]).
  destruct (play_ok_put_local _ _ _ buttons Hplay) as [Ha _]; [lia |].
  destruct (Lockstep.put_local _ _ _) as [res buf']. cbn in Ha. subst res.
  unfold modify. rewrite bool_decide_true by done. cbn [negb].
  match goal with |- context [queue_message ?k ?p ?st] =>
    destruct (queue_message_accepted k p st) as [Hq _]; [done | |
      destruct (queue_message k p st) as [[] s2]; [| done]] end.
  - unfold zlen, append_u64, append_u32. rewrite length_app, !length_be_bytes. done.
  - cbn. by destruct (advance _).
Qed.

End Properties.

Section Findings.
Import Demo.

(** A finding: choosing the same game again after the peer confirmed loses the
    peer's confirmation.  The guest confirms, the host re-selects the game they
    agreed on (which resets [peer_ready]), the guest keeps its confirmation because
    the configuration did not change, and both confirm: both calls report success,
    every message has been delivered, and neither side ever leaves CONFIGURING,
    the host because it waits for a READY that the guest will not send again.
    Without the second selection the same calls start the round. *)
Theorem reselection_loses_ready :
  (state (view Pair.started.1) = RUNNING /\ state (view Pair.started.2) = RUNNING) /\
  (confirm Pair.reselected.1).1 = true /\ (confirm Pair.reselected.2).1 = true /\
  Net.settled Pair.stuck.1 Pair.stuck.2 = true /\
  state (view Pair.stuck.1) = CONFIGURING /\ state (view Pair.stuck.2) = CONFIGURING /\
  configs_match Pair.stuck.1 = true /\ configs_match Pair.stuck.2 = true /\
  local_ready Pair.stuck.1 = true /\ peer_ready Pair.stuck.1 = false /\
  local_ready Pair.stuck.2 = true /\ (confirm Pair.stuck.2).1 = true /\
  log (confirm Pair.stuck.2).2 = log Pair.stuck.2.
Proof. vm_compute. repeat split; reflexivity. Qed.

(** A finding: a message followed in the same read by a header of size zero is
    lost, and the session is left open without a reader.  The Join with the right
    token was decoded but is never handled, the decoder has failed, no read is in
    flight and the session still waits in INVITING. *)
Theorem malformed_header_stops_reading :
  let join := Demo.frame_ LanWire.Join Demo.tok in
  let s := run_calls [Demo.done_ 5 0 (join ++ [0; 0]); CallSnapshotRead] Demo.inviting in
  let t := run_calls [Demo.done_ 5 0 join; CallSnapshotRead] Demo.inviting in
  (state (view t) = LOBBY) /\
  (state (view s) = INVITING /\ LanWire.failed_ (decoder s) = true /\
   read_inflight s = false /\ Net.pending Operation.Read s = None).
Proof. vm_compute. done. Qed.

(** ** Witnesses *)

Lemma demo_reachable cs : reachable (run_calls cs initial_session).
Proof. apply reachable_calls, reachable_create. Qed.

Lemma demo_accepting : accepting.
Proof. done. Qed.

(** Evaluate a closed goal without looking at the hypotheses. *)
Ltac compute_closed := clear; vm_compute; reflexivity.

Lemma running_round_witness :
  state (view running) = RUNNING /\
  (exists b, inputs running = Some b /\
     Lockstep.next_frame_ b = completed_frames (view running) /\ ~ frame_ready b).
Proof.
  assert (state (view running) = RUNNING) as Hrun by compute_closed.
  assert (paused (view running) = false) as Hp by compute_closed.
  destruct (running_round running (demo_reachable _) Hrun)
    as (_ & _ & _ & _ & b & Hb & Hn & _ & _ & Hd).
  split; [exact Hrun |]. exists b. split; [exact Hb |]. split; [exact Hn |]. exact (Hd Hp).
Defined.

Definition cancelled : session := (run_call CallCancel running).2.
Definition after_cancel : list Call :=
  [CallConfirm; CallSubmitInput 1; CallReturnLobby; CallSnapshotRead].

Lemma ended_is_final_witness :
  state (view cancelled) = ENDED /\ state (view (run_calls after_cancel cancelled)) = ENDED /\
  log (run_calls after_cancel cancelled) = log cancelled.
Proof.
  assert (state (view cancelled) = ENDED) as He by compute_closed.
  destruct (ended_is_final cancelled after_cancel) as (H1 & _ & _ & H3 & _).
  - exact (reachable_call _ CallCancel (demo_reachable _)).
  - exact He.
  - exact (conj He (conj H1 H3)).
Defined.

(** The outcome of a message, read off the three cases of the theorem. *)
Lemma only_the_token_admits_witness :
  state (view (handle_message (LanWire.mkMessage LanWire.Join tok) inviting).2) = LOBBY.
Proof.
  assert (role inviting = Host) as Hr by compute_closed.
  assert (state (view inviting) = INVITING) as Hs by compute_closed.
  assert (zlen (token (invite inviting)) = 16) as Hz by compute_closed.
  assert (token (invite inviting) = tok) as Ht by compute_closed.
  assert ((clock (clock_reads inviting) <? deadline inviting) = true) as Hd by compute_closed.
  destruct (only_the_token_admits inviting (LanWire.mkMessage LanWire.Join tok) Hr Hs Hz)
    as [[H _] | [[_ [[Hk _] | [Hk _]]] | [_ Hn]]].
  - exact H.
  - discriminate Hk.
  - discriminate Hk.
  - destruct Hn. split; [exact demo_accepting |]. split; [reflexivity |].
    split; [exact (eq_sym Ht) | exact (proj1 (Z.ltb_lt _ _) Hd)].
Defined.

Definition returning : session := (run_call CallReturnLobby running).2.

Lemma barrier_drops_witness :
  (handle_message (LanWire.mkMessage LanWire.Input (replicate 12 0)) returning).2 = returning.
Proof.
  apply barrier_drops; [compute_closed | |]; intros [Hk _]; discriminate Hk.
Defined.

Definition late : session := running <| last_progress := -2000000000 |>.

Lemma pump_stalls_witness :
  state (view (pump running).2) = RUNNING /\ reason (view (pump late).2) = STALL.
Proof.
  assert ((clock (S (clock_reads running)) - last_progress running <? kProgressTimeout) = true)
    as H1 by compute_closed.
  assert ((kProgressTimeout <=? clock (S (clock_reads late)) - last_progress late) = true)
    as H2 by compute_closed.
  assert (events running = []) as He by compute_closed.
  assert (state (view running) = RUNNING) as Hr by compute_closed.
  assert (paused (view running) = false) as Hp by compute_closed.
  assert (events late = []) as He' by compute_closed.
  assert (state (view late) = RUNNING) as Hr' by compute_closed.
  assert (paused (view late) = false) as Hp' by compute_closed.
  exact (conj (proj1 (proj2 (pump_stalls running He Hr Hp) (proj1 (Z.ltb_lt _ _) H1)))
              (proj2 (proj1 (pump_stalls late He' Hr' Hp') (proj1 (Z.leb_le _ _) H2)))).
Defined.

Lemma submit_input_paced_witness :
  (submit_input 1 running).1 = true /\ (submit_input 1 cancelled).1 = false.
Proof.
  assert (reachable cancelled) as Hc by exact (reachable_call _ CallCancel (demo_reachable _)).
  split.
  - refine (eq_trans (submit_input_paced running 1 (demo_reachable play_script)
                        demo_accepting) _). compute_closed.
  - refine (eq_trans (submit_input_paced cancelled 1 Hc demo_accepting) _). compute_closed.
Defined.

End Findings.
