(* ===== verification/RomParser.v ===== *)
(** * ROM payload classification ([shared/src/catalog/rom_payload_parser.{hpp,cpp}])

    The catalog decides from the bytes of a file which format it is, whether the
    product can play it, and the sizes its header declares.  [parse_rom_payload]
    is total: every payload, truncated or hostile, gets a result.

    Sizes are [size_t] and [uint64_t] values; a [ByteView] is a possibly null
    pointer and a size. *)

From S2P Require Import Prelude.

(** ** Data *)

Inductive RomFormat := INES | NES2 | FDS | UNIF | UNKNOWN.

Inductive CompatibilityState := PLAYABLE | UNSUPPORTED | INVALID | STATE_UNKNOWN.

Inductive CompatibilityReason :=
  | PLAYABLE_NES | FDS_BIOS_API_NOT_IMPLEMENTED | UNIF_PRODUCT_DISABLED
  | NES_HEADER_INVALID | NES_ZERO_PRG | NES_TRUNCATED | NES_SIZE_OVERFLOW
  | FDS_INVALID_HEADER | FDS_INVALID_SIDE_COUNT | FDS_TRUNCATED
  | UNIF_INVALID_CHUNK | UNIF_MISSING_PRG | UNKNOWN_FORMAT.

#[global] Instance reason_eq_dec : EqDecision CompatibilityReason.
Proof. solve_decision. Defined.

Inductive RomWarning := TRAILING_DATA | DIRTY_HEADER | UNICODE_PATH_REJECTED.

Record ByteView := mkView { data : option bytes; size : Z }.

Record RomAnalysis := mkAnalysis {
  expected_bytes : Z;
  actual_bytes : Z;
  prg_bytes : Z;
  chr_bytes : Z;
  mapper : Z;
  submapper : Z;
  trainer : bool;
  battery : bool;
  disk_sides : Z;
  warnings : list RomWarning;
  warning_count : Z;
}.

#[global] Instance eta_RomAnalysis : Eta RomAnalysis := fun r =>
  mkAnalysis (expected_bytes r) (actual_bytes r) (prg_bytes r) (chr_bytes r) (mapper r)
    (submapper r) (trainer r) (battery r) (disk_sides r) (warnings r) (warning_count r).

Definition RomAnalysis_new : RomAnalysis :=
  mkAnalysis 0 0 0 0 (-1) (-1) false false 0 [TRAILING_DATA; TRAILING_DATA] 0.

Record RomParseResult := mkResult {
  recognized : bool;
  format : RomFormat;
  state : CompatibilityState;
  reason : CompatibilityReason;
  analysis : RomAnalysis;
}.

(** ** Constants *)

Definition ines_header_bytes : Z := 16.
Definition trainer_bytes : Z := 512.
Definition fds_header_bytes : Z := 16.
Definition fds_side_bytes : Z := 65500.
Definition signed_64_max : Z := 2 ^ 63 - 1.

Definition nes_signature : bytes := [78; 69; 83; 26].
Definition fds_signature : bytes := [70; 68; 83; 26].
Definition unif_signature : bytes := [85; 78; 73; 70].
Definition fds_side_signature : bytes := 1 :: ascii_bytes "*NINTENDO-HVC*".

(** ** Helpers *)

(** [payload.data[offset]] where the guards keep the offset in range. *)
Definition byte_at (payload : ByteView) (offset : Z) : Z := at_ (default [] (data payload)) offset.

(** The comparison loop from an index. *)
Fixpoint matches_at (payload : ByteView) (offset : Z) (prefix : bytes) : bool :=
  match prefix with
  | [] => true
  | b :: rest => if negb (byte_at payload offset =? b) then false
                 else matches_at payload (offset + 1) rest
  end.

Definition starts_with_at (payload : ByteView) (offset : Z) (prefix : bytes) : bool :=
  if bool_decide (data payload = None) || (size payload <? offset) ||
     (size payload - offset <? zlen prefix)
  then false
  else matches_at payload offset prefix.

Definition basic_analysis (actual_size : Z) : RomAnalysis :=
  RomAnalysis_new <| expected_bytes := actual_size |> <| actual_bytes := actual_size |>.

Definition unrecognized (actual_size : Z) : RomParseResult :=
  mkResult false UNKNOWN STATE_UNKNOWN UNKNOWN_FORMAT (basic_analysis actual_size).

Definition invalid (f : RomFormat) (r : CompatibilityReason) (a : RomAnalysis) : RomParseResult :=
  mkResult true f INVALID r a.

Definition append_warning (a : RomAnalysis) (w : RomWarning) : RomAnalysis :=
  if warning_count a <? 2 then
    a <| warnings := <[Z.to_nat (warning_count a) := w]> (warnings a) |>
      <| warning_count := warning_count a + 1 |>
  else a.

Definition checked_signed_add (left right : Z) : option Z :=
  if (signed_64_max <? left) || (signed_64_max <? right) || (signed_64_max - right <? left)
  then None else Some (left + right).

Definition checked_signed_multiply (left right : Z) : option Z :=
  if negb (left =? 0) && (signed_64_max / left <? right) then None
  else Some (u64 (left * right)).

Definition nes2_size (low high_nibble unit_ : Z) : option Z :=
  if negb (high_nibble =? 15) then
    checked_signed_multiply (Z.lor (Z.shiftl high_nibble 8) low) unit_
  else
    let exponent := Z.shiftr low 2 in
    let multiplier := u8 (Z.land low 3 * 2 + 1) in
    if 63 <=? exponent then None
    else checked_signed_multiply (u64 (Z.shiftl 1 exponent)) multiplier.

Definition has_dirty_legacy_header (payload : ByteView) : bool :=
  existsb (fun index => negb (byte_at payload index =? 0)) (seqZ 12 4).

(** ** iNES and NES 2.0 *)

Definition nes_overflow_analysis (actual mapper_ submapper_ : Z) (trainer_ battery_ : bool)
    : RomAnalysis :=
  RomAnalysis_new <| actual_bytes := actual |> <| mapper := mapper_ |>
    <| submapper := submapper_ |> <| trainer := trainer_ |> <| battery := battery_ |>.

(** [parse_nes] from the point where the header is decoded. *)
Definition nes_result (payload : ByteView) (is_nes2 : bool) (mapper_ submapper_ : Z)
    (prg chr : Z) (trainer_ battery_ : bool) : RomParseResult :=
  let f := if is_nes2 then NES2 else INES in
  let a := RomAnalysis_new <| actual_bytes := size payload |> <| prg_bytes := prg |>
             <| chr_bytes := chr |> <| mapper := mapper_ |> <| submapper := submapper_ |>
             <| trainer := trainer_ |> <| battery := battery_ |> in
  let a := if negb is_nes2 && has_dirty_legacy_header payload
           then (append_warning a DIRTY_HEADER) <| mapper := Z.shiftr (byte_at payload 6) 4 |>
           else a in
  let prefix_bytes := ines_header_bytes + (if trainer_ then trainer_bytes else 0) in
  match checked_signed_add prg chr ≫= checked_signed_add prefix_bytes with
  | None => invalid f NES_SIZE_OVERFLOW (a <| expected_bytes := 0 |>)
  | Some expected =>
    let a := a <| expected_bytes := expected |> in
    if prg =? 0 then invalid f NES_ZERO_PRG a
    else if actual_bytes a <? expected_bytes a then invalid f NES_TRUNCATED a
    else
      let a := if expected_bytes a <? actual_bytes a then append_warning a TRAILING_DATA else a in
      mkResult true f PLAYABLE PLAYABLE_NES a
  end.

Definition parse_nes (payload : ByteView) : RomParseResult :=
  if size payload <? ines_header_bytes then
    invalid INES NES_HEADER_INVALID (basic_analysis (size payload))
  else
    let flags6 := byte_at payload 6 in
    let flags7 := byte_at payload 7 in
    let is_nes2 := Z.land flags7 12 =? 8 in
    let trainer_ := negb (Z.land flags6 4 =? 0) in
    let battery_ := negb (Z.land flags6 2 =? 0) in
    let mapper_ := Z.lor (Z.shiftr flags6 4) (Z.land flags7 240) in
    if is_nes2 then
      let byte8 := byte_at payload 8 in
      let byte9 := byte_at payload 9 in
      let mapper_ := Z.lor mapper_ (Z.shiftl (Z.land byte8 15) 8) in
      let submapper_ := Z.shiftr byte8 4 in
      match nes2_size (byte_at payload 4) (Z.land byte9 15) 16384,
            nes2_size (byte_at payload 5) (Z.shiftr byte9 4) 8192 with
      | Some prg, Some chr =>
        nes_result payload true mapper_ submapper_ prg chr trainer_ battery_
      | _, _ => invalid NES2 NES_SIZE_OVERFLOW
                  (nes_overflow_analysis (size payload) mapper_ submapper_ trainer_ battery_)
      end
    else
      match checked_signed_multiply (byte_at payload 4) 16384,
            checked_signed_multiply (byte_at payload 5) 8192 with
      | Some prg, Some chr => nes_result payload false mapper_ 0 prg chr trainer_ battery_
      | _, _ => invalid INES NES_SIZE_OVERFLOW
                  (nes_overflow_analysis (size payload) mapper_ 0 trainer_ battery_)
      end.

(** ** Famicom Disk System *)

Definition fds_analysis (expected actual sides : Z) : RomAnalysis :=
  RomAnalysis_new <| expected_bytes := expected |> <| actual_bytes := actual |>
    <| disk_sides := sides |>.

(** The loop over the sides that are left. *)
Fixpoint valid_fds_signatures (payload : ByteView) (side_offset : Z) (sides : nat) : bool :=
  match sides with
  | O => true
  | S rest =>
    if negb (starts_with_at payload side_offset fds_side_signature) then false
    else valid_fds_signatures payload
           (if bool_decide (rest = O) then side_offset else side_offset + fds_side_bytes) rest
  end.

Definition unsupported_fds (a : RomAnalysis) : RomParseResult :=
  mkResult true FDS UNSUPPORTED FDS_BIOS_API_NOT_IMPLEMENTED a.

Definition parse_headered_fds (payload : ByteView) : RomParseResult :=
  if size payload <? fds_header_bytes then
    invalid FDS FDS_TRUNCATED (basic_analysis (size payload))
  else
    let sides := byte_at payload 4 in
    if sides =? 0 then invalid FDS FDS_INVALID_SIDE_COUNT (basic_analysis (size payload))
    else
      let expected := fds_header_bytes + sides * fds_side_bytes in
      let a := fds_analysis expected (size payload) sides in
      if actual_bytes a <? expected then invalid FDS FDS_TRUNCATED a
      else if negb (valid_fds_signatures payload fds_header_bytes (Z.to_nat sides))
      then invalid FDS FDS_INVALID_HEADER a
      else
        let a := if expected <? actual_bytes a then append_warning a TRAILING_DATA else a in
        unsupported_fds a.

Definition parse_headerless_fds (payload : ByteView) : RomParseResult :=
  if (size payload <? fds_side_bytes) || negb (size payload mod fds_side_bytes =? 0) then
    let expected_sides := size payload / fds_side_bytes in
    let expected_sides := if negb (size payload mod fds_side_bytes =? 0)
                          then expected_sides + 1 else expected_sides in
    let sides := if expected_sides =? 0 then 1 else expected_sides in
    let expected := if u64_max / fds_side_bytes <? sides then u64_max
                    else sides * fds_side_bytes in
    invalid FDS FDS_TRUNCATED (fds_analysis expected (size payload) sides)
  else
    let sides := size payload / fds_side_bytes in
    let a := fds_analysis (size payload) (size payload) sides in
    if negb (valid_fds_signatures payload 0 (Z.to_nat sides)) then
      invalid FDS FDS_INVALID_HEADER a
    else unsupported_fds a.

(** ** UNIF *)

Definition is_hex_digit (value : Z) : bool :=
  ((48 <=? value) && (value <=? 57)) || ((65 <=? value) && (value <=? 70)) ||
  ((97 <=? value) && (value <=? 102)).

Definition little_endian_u32 (payload : ByteView) (offset : Z) : Z :=
  Z.lor (Z.lor (Z.lor (byte_at payload offset) (Z.shiftl (byte_at payload (offset + 1)) 8))
               (Z.shiftl (byte_at payload (offset + 2)) 16))
        (Z.shiftl (byte_at payload (offset + 3)) 24).

Definition prg_chunk (payload : ByteView) (cursor : Z) : bool :=
  (byte_at payload cursor =? 80) && (byte_at payload (cursor + 1) =? 82) &&
  (byte_at payload (cursor + 2) =? 71) && is_hex_digit (byte_at payload (cursor + 3)).

(** The chunk loop: [None] is the invalid-chunk return, [Some has_prg] its end. *)
Fixpoint unif_loop (fuel : nat) (payload : ByteView) (cursor : Z) (has_prg : bool)
    : option bool :=
  match fuel with
  | O => None
  | S fuel =>
    if cursor <? size payload then
      if size payload - cursor <? 8 then None
      else
        let prg := prg_chunk payload cursor in
        let length := little_endian_u32 payload (cursor + 4) in
        let cursor := cursor + 8 in
        let remaining := size payload - cursor in
        if remaining <? length then None
        else unif_loop fuel payload (cursor + length) (has_prg || (prg && (0 <? length)))
    else Some has_prg
  end.

(** Every chunk advances the cursor, so the size bounds the iterations. *)
Definition unif_fuel (payload : ByteView) : nat := S (Z.to_nat (size payload)).

Definition parse_unif (payload : ByteView) : RomParseResult :=
  if size payload <? 32 then invalid UNIF UNIF_INVALID_CHUNK (basic_analysis (size payload))
  else
    match unif_loop (unif_fuel payload) payload 32 false with
    | None => invalid UNIF UNIF_INVALID_CHUNK (basic_analysis (size payload))
    | Some false => invalid UNIF UNIF_MISSING_PRG (basic_analysis (size payload))
    | Some true => mkResult true UNIF UNSUPPORTED UNIF_PRODUCT_DISABLED
                     (basic_analysis (size payload))
    end.

Definition parse_rom_payload (payload : ByteView) : RomParseResult :=
  if starts_with_at payload 0 nes_signature then parse_nes payload
  else if starts_with_at payload 0 fds_signature then parse_headered_fds payload
  else if starts_with_at payload 0 fds_side_signature then parse_headerless_fds payload
  else if starts_with_at payload 0 unif_signature then parse_unif payload
  else unrecognized (size payload).

(** ** Views of whole buffers *)

Definition view_of (l : bytes) : ByteView := mkView (Some l) (zlen l).

Lemma byte_at_view l i : byte_at (view_of l) i = at_ l i.
Proof. done. Qed.

(** The comparison loop compares a subrange. *)
Lemma matches_at_spec l offset prefix :
  0 <= offset -> offset + zlen prefix <= zlen l ->
  matches_at (view_of l) offset prefix = true <-> slice l offset (zlen prefix) = prefix.
Proof.
  revert offset. induction prefix as [|b prefix IH]; intros offset Ho Hlen; [done |].
  rewrite zlen_cons in *. pose proof (zlen_nonneg prefix).
  cbn [matches_at]. rewrite byte_at_view, slice_cons_at by lia.
  replace (zlen prefix + 1 - 1) with (zlen prefix) by lia.
  destruct (Z.eqb_spec (at_ l offset) b) as [->|Hne]; cbn [negb].
  - rewrite IH by lia. split; [by intros -> | by intros [= ->] ].
  - split; [done | by intros [= ? ?] ].
Qed.

Lemma starts_with_at_spec l offset prefix :
  0 <= offset ->
  starts_with_at (view_of l) offset prefix = true <->
  offset + zlen prefix <= zlen l /\ slice l offset (zlen prefix) = prefix.
Proof.
  intros Ho. unfold starts_with_at. cbn [data size view_of].
  pose proof (zlen_nonneg prefix).
  destruct (Z.ltb_spec (zlen l) offset); [rewrite ?orb_true_r; cbn; split; [done | lia] |].
  destruct (Z.ltb_spec (zlen l - offset) (zlen prefix));
    [rewrite ?orb_true_r; cbn; split; [done | lia] |].
  cbn [orb bool_decide]. rewrite bool_decide_false by done. cbn [orb].
  rewrite matches_at_spec by lia. split; [intros ?; split; [lia | done] | tauto].
Qed.

(** ** Checked arithmetic *)

Lemma checked_signed_multiply_spec l r :
  0 <= l -> 0 <= r ->
  checked_signed_multiply l r = if l * r <=? signed_64_max then Some (l * r) else None.
Proof.
  intros Hl Hr. unfold checked_signed_multiply, signed_64_max.
  destruct (Z.eqb_spec l 0) as [->|Hn]; cbn [negb andb]; [done |].
  pose proof (Z.div_mod (2 ^ 63 - 1) l Hn). pose proof (Z.mod_pos_bound (2 ^ 63 - 1) l).
  destruct (Z.ltb_spec ((2 ^ 63 - 1) / l) r); destruct (Z.leb_spec (l * r) (2 ^ 63 - 1));
    try nia; [done |].
  rewrite u64_small by nia. done.
Qed.

Lemma checked_signed_add_spec l r :
  0 <= l -> 0 <= r ->
  checked_signed_add l r = if l + r <=? signed_64_max then Some (l + r) else None.
Proof.
  intros Hl Hr. unfold checked_signed_add.
  destruct (Z.ltb_spec signed_64_max l); destruct (Z.ltb_spec signed_64_max r);
    destruct (Z.ltb_spec (signed_64_max - r) l); destruct (Z.leb_spec (l + r) signed_64_max);
    cbn [orb]; done || lia.
Qed.

(** The size a NES 2.0 header declares, without width. *)
Definition declared_size (low high_nibble unit_ : Z) : Z :=
  if high_nibble =? 15 then (2 * (low mod 4) + 1) * 2 ^ (low / 4)
  else (256 * high_nibble + low) * unit_.

Lemma nes2_size_spec low nibble unit_ :
  is_byte low -> 0 <= nibble <= 15 -> 0 <= unit_ ->
  nes2_size low nibble unit_ =
  if declared_size low nibble unit_ <=? signed_64_max
  then Some (declared_size low nibble unit_) else None.
Proof.
  intros Hlow Hn Hu. unfold nes2_size, declared_size, is_byte in *.
  destruct (Z.eqb_spec nibble 15); cbn [negb].
  - rewrite Z.shiftr_div_pow2 by lia. change (2 ^ 2) with 4.
    change 3 with (Z.ones 2). rewrite Z.land_ones by lia. change (2 ^ 2) with 4.
    pose proof (Z.mod_pos_bound low 4). assert (0 <= low / 4 < 64) as He
      by (split; [apply Z.div_pos; lia | apply Z.div_lt_upper_bound; lia]).
    destruct (Z.leb_spec 63 (low / 4)).
    + assert (2 ^ 63 <= 2 ^ (low / 4)) by (apply Z.pow_le_mono_r; lia).
      destruct (Z.leb_spec ((2 * (low mod 4) + 1) * 2 ^ (low / 4)) signed_64_max); [| done].
      unfold signed_64_max in *. nia.
    + rewrite Z.shiftl_mul_pow2, Z.mul_1_l by lia.
      assert (2 ^ (low / 4) <= 2 ^ 62) by (apply Z.pow_le_mono_r; lia).
      assert (0 < 2 ^ (low / 4)) by (apply Z.pow_pos_nonneg; lia).
      rewrite u64_small by lia. rewrite u8_small by (unfold is_byte; lia).
      rewrite checked_signed_multiply_spec by lia.
      replace (2 ^ (low / 4) * (low mod 4 * 2 + 1))
        with ((2 * (low mod 4) + 1) * 2 ^ (low / 4)) by lia. done.
  - rewrite lor_shiftl_byte by done. by rewrite checked_signed_multiply_spec by lia.
Qed.

(** ** What a NES header declares *)

Definition nes2_header (l : bytes) : bool := Z.land (at_ l 7) 12 =? 8.

Definition declared_prg (l : bytes) : Z :=
  if nes2_header l then declared_size (at_ l 4) (at_ l 9 mod 16) 16384 else at_ l 4 * 16384.

Definition declared_chr (l : bytes) : Z :=
  if nes2_header l then declared_size (at_ l 5) (at_ l 9 / 16) 8192 else at_ l 5 * 8192.

Definition has_trainer (l : bytes) : bool := negb (Z.land (at_ l 6) 4 =? 0).

(** Header, trainer, program and character data. *)
Definition declared_total (l : bytes) : Z :=
  16 + (if has_trainer l then 512 else 0) + declared_prg l + declared_chr l.

Lemma declared_size_nonneg low nibble unit_ :
  is_byte low -> 0 <= nibble -> 0 <= unit_ -> 0 <= declared_size low nibble unit_.
Proof.
  intros Hlow Hn Hu. unfold declared_size, is_byte in *. destruct (nibble =? 15); [| nia].
  pose proof (Z.mod_pos_bound low 4). pose proof (Z.pow_nonneg 2 (low / 4)). nia.
Qed.

Lemma declared_prg_nonneg l : is_bytes l -> 0 <= declared_prg l.
Proof.
  intros Hl. unfold declared_prg. pose proof (at_byte l 4 Hl). pose proof (at_byte l 9 Hl).
  destruct (nes2_header l).
  - apply declared_size_nonneg; [done | | lia]. apply Z.mod_pos_bound. lia.
  - unfold is_byte in *. lia.
Qed.

Lemma declared_chr_nonneg l : is_bytes l -> 0 <= declared_chr l.
Proof.
  intros Hl. unfold declared_chr. pose proof (at_byte l 5 Hl). pose proof (at_byte l 9 Hl).
  unfold is_byte in *. destruct (nes2_header l).
  - apply declared_size_nonneg; [done | | lia]. apply Z.div_pos; lia.
  - lia.
Qed.

(** The verdict on a NES payload, from the declared sizes alone. *)
Definition nes_verdict (l : bytes) : CompatibilityReason :=
  if zlen l <? 16 then NES_HEADER_INVALID
  else if signed_64_max <? declared_total l then NES_SIZE_OVERFLOW
  else if declared_prg l =? 0 then NES_ZERO_PRG
  else if zlen l <? declared_total l then NES_TRUNCATED
  else PLAYABLE_NES.

(** The bytes an old dumping tool may have written its name to. *)
Definition dirty_header (l : bytes) : bool :=
  existsb (fun b => negb (b =? 0)) [at_ l 12; at_ l 13; at_ l 14; at_ l 15].

Definition has_battery (l : bytes) : bool := negb (Z.land (at_ l 6) 2 =? 0).

Definition nes_format (l : bytes) : RomFormat :=
  if (16 <=? zlen l) && nes2_header l then NES2 else INES.

(** The mapper has its low nibble in byte 6, the next in byte 7, which a dirty header
    spoils, and in NES 2.0 a third one in byte 8. *)
Definition declared_mapper (l : bytes) : Z :=
  if nes2_header l then at_ l 6 / 16 + 16 * (at_ l 7 / 16) + 256 * (at_ l 8 mod 16)
  else if dirty_header l then at_ l 6 / 16 else at_ l 6 / 16 + 16 * (at_ l 7 / 16).

Definition declared_submapper (l : bytes) : Z := if nes2_header l then at_ l 8 / 16 else 0.

(** A spoilt header is warned of whatever the verdict, bytes after the image when it is playable. *)
Definition nes_warnings (l : bytes) : list RomWarning :=
  (if negb (nes2_header l) && dirty_header l then [DIRTY_HEADER] else []) ++
  (if bool_decide (nes_verdict l = PLAYABLE_NES) && (declared_total l <? zlen l) then [TRAILING_DATA] else []).

(** The whole analysis of a NES payload: nothing is declared in less than a header, and
    sizes of which one does not fit 63 bits are not reported. *)
Definition nes_analysis (l : bytes) : RomAnalysis :=
  if zlen l <? 16 then basic_analysis (zlen l)
  else
    let sizes_fit := (declared_prg l <=? signed_64_max) && (declared_chr l <=? signed_64_max) in
    mkAnalysis
      (if signed_64_max <? declared_total l then 0 else declared_total l) (zlen l)
      (if sizes_fit then declared_prg l else 0) (if sizes_fit then declared_chr l else 0)
      (declared_mapper l) (declared_submapper l) (has_trainer l) (has_battery l) 0
      (take 2 (nes_warnings l ++ [TRAILING_DATA; TRAILING_DATA])) (zlen (nes_warnings l)).

Definition nes_expected (l : bytes) : RomParseResult :=
  mkResult true (nes_format l)
    (if decide (nes_verdict l = PLAYABLE_NES) then PLAYABLE else INVALID)
    (nes_verdict l) (nes_analysis l).

(** ** NES payloads *)

Lemma append_warning_sizes a w :
  expected_bytes (append_warning a w) = expected_bytes a /\
  actual_bytes (append_warning a w) = actual_bytes a /\
  prg_bytes (append_warning a w) = prg_bytes a /\
  chr_bytes (append_warning a w) = chr_bytes a /\
  trainer (append_warning a w) = trainer a /\
  disk_sides (append_warning a w) = disk_sides a.
Proof. unfold append_warning. by destruct (_ <? _). Qed.

Lemma lor_shiftl x y k : 0 <= k -> 0 <= x < 2 ^ k -> Z.lor x (Z.shiftl y k) = x + 2 ^ k * y.
Proof.
  intros Hk Hx. pose proof (Z.add_lor_land x (Z.shiftl y k)) as Hadd. rewrite Z.shiftl_mul_pow2 in * by done.
  assert (Z.land x (y * 2 ^ k) = 0) as Hz; [| lia].
  apply Z.bits_inj'. intros i Hi. rewrite Z.land_spec, Z.bits_0.
  destruct (decide (i < k)) as [Hlt|Hge].
  - by rewrite Z.mul_pow2_bits_low, andb_false_r by done.
  - rewrite <- (Z.mod_small x (2 ^ k)) by done. by rewrite Z.mod_pow2_bits_high by lia.
Qed.

Lemma land_15 x : Z.land x 15 = x mod 16.
Proof. change 15 with (Z.ones 4). by rewrite Z.land_ones. Qed.

Lemma land_high_nibble b : is_byte b -> Z.land b 240 = Z.shiftl (b / 16) 4.
Proof.
  intros Hb. unfold is_byte in Hb.
  assert (forallb (fun b => Z.land b 240 =? Z.shiftl (b / 16) 4) (seqZ 0 256) = true) as H
    by (vm_compute; reflexivity).
  rewrite forallb_forall in H. apply Z.eqb_eq, H, list_elem_of_In, elem_of_seqZ. lia.
Qed.

Lemma low_mapper a b : is_byte a -> is_byte b ->
  Z.lor (Z.shiftr a 4) (Z.land b 240) = a / 16 + 16 * (b / 16).
Proof.
  intros Ha Hb. unfold is_byte in Ha. rewrite land_high_nibble by done. rewrite Z.shiftr_div_pow2 by done.
  change (2 ^ 4) with 16. rewrite lor_shiftl; [done | done |].
  split; [apply Z.div_pos; lia | apply Z.div_lt_upper_bound; lia].
Qed.

Lemma full_mapper a b c : is_byte a -> is_byte b ->
  Z.lor (Z.lor (Z.shiftr a 4) (Z.land b 240)) (Z.shiftl (Z.land c 15) 8) =
  a / 16 + 16 * (b / 16) + 256 * (c mod 16).
Proof.
  intros Ha Hb. rewrite low_mapper, land_15 by done. unfold is_byte in *. rewrite lor_shiftl; [done | done |].
  assert (0 <= a / 16 < 16) by (split; [apply Z.div_pos; lia | apply Z.div_lt_upper_bound; lia]).
  assert (0 <= b / 16 < 16) by (split; [apply Z.div_pos; lia | apply Z.div_lt_upper_bound; lia]). lia.
Qed.

(** From decoded sizes that fit on, the code reports what the header declares. *)
Lemma nes_result_expected l mapper_ :
  is_bytes l -> 16 <= zlen l -> declared_prg l <= signed_64_max -> declared_chr l <= signed_64_max ->
  (nes2_header l = true \/ dirty_header l = false -> mapper_ = declared_mapper l) ->
  nes_result (view_of l) (nes2_header l) mapper_ (declared_submapper l) (declared_prg l) (declared_chr l)
    (has_trainer l) (has_battery l) = nes_expected l.
Proof.
  intros Hl Hlen Hp Hc Hm. pose proof (declared_prg_nonneg l Hl). pose proof (declared_chr_nonneg l Hl).
  unfold nes_result, nes_expected, nes_analysis, nes_format, nes_warnings. cbv zeta.
  change (has_dirty_legacy_header (view_of l)) with (dirty_header l).
  change (byte_at (view_of l) 6) with (at_ l 6).
  destruct (Z.ltb_spec (zlen l) 16); [lia |]. destruct (Z.leb_spec 16 (zlen l)); [| lia]. cbn [andb].
  destruct (Z.leb_spec (declared_prg l) signed_64_max); [| lia].
  destruct (Z.leb_spec (declared_chr l) signed_64_max); [| lia]. cbn [andb].
  assert (checked_signed_add (declared_prg l) (declared_chr l) ≫=
          checked_signed_add (ines_header_bytes + (if has_trainer l then trainer_bytes else 0)) =
          if declared_total l <=? signed_64_max then Some (declared_total l) else None) as ->.
  { rewrite checked_signed_add_spec by done. unfold declared_total, ines_header_bytes, trainer_bytes.
    destruct (Z.leb_spec (declared_prg l + declared_chr l) signed_64_max); cbn [mbind option_bind].
    - rewrite checked_signed_add_spec by (destruct (has_trainer l); lia). by rewrite !Z.add_assoc.
    - destruct (Z.leb_spec (16 + (if has_trainer l then 512 else 0) + declared_prg l + declared_chr l) signed_64_max);
        [destruct (has_trainer l); lia | done]. }
  assert (negb (nes2_header l) && dirty_header l = false -> mapper_ = declared_mapper l) as Hmapper.
  { intros E. apply Hm. destruct (nes2_header l); [by left | by right]. }
  assert (negb (nes2_header l) && dirty_header l = true -> Z.shiftr (at_ l 6) 4 = declared_mapper l) as Hdirty.
  { intros E. apply andb_true_iff in E as [E1 E2]. apply negb_true_iff in E1. unfold declared_mapper. rewrite E1, E2.
    by rewrite Z.shiftr_div_pow2. }
  unfold nes_verdict. destruct (Z.ltb_spec (zlen l) 16); [lia |].
  destruct (Z.leb_spec (declared_total l) signed_64_max), (Z.ltb_spec signed_64_max (declared_total l)); try lia;
    [destruct (declared_prg l =? 0) |]; [| destruct (Z.ltb_spec (zlen l) (declared_total l)) |];
    destruct (negb (nes2_header l) && dirty_header l) eqn:E;
    rewrite ?(Hmapper eq_refl), ?(Hdirty eq_refl).
  all: try done.
  all: cbn [actual_bytes expected_bytes over append_warning warning_count RomAnalysis_new view_of size];
    repeat match goal with |- context [actual_bytes (append_warning ?a ?w)] =>
      change (actual_bytes (append_warning a w)) with (zlen l) end;
    (destruct (Z.ltb_spec (zlen l) (declared_total l)); [try done; lia | try lia]).
  all: destruct (Z.ltb_spec (declared_total l) (zlen l)); rewrite ?andb_true_r, ?andb_false_r; done.
Qed.

Lemma has_trainer_view l : negb (Z.land (byte_at (view_of l) 6) 4 =? 0) = has_trainer l.
Proof. done. Qed.

Lemma parse_nes_expected l : is_bytes l -> parse_nes (view_of l) = nes_expected l.
Proof.
  intros Hl. unfold parse_nes, ines_header_bytes. cbv zeta. cbn [size view_of].
  destruct (Z.ltb_spec (zlen l) 16) as [Hshort|Hlen].
  { unfold nes_expected, nes_format, nes_verdict, nes_analysis. destruct (Z.ltb_spec (zlen l) 16); [| lia].
    destruct (Z.leb_spec 16 (zlen l)); [lia |]. done. }
  rewrite !byte_at_view. fold (nes2_header l) (has_trainer l) (has_battery l).
  pose proof (at_byte l 4 Hl) as H4. pose proof (at_byte l 5 Hl) as H5. pose proof (at_byte l 6 Hl) as H6.
  pose proof (at_byte l 7 Hl) as H7. pose proof (at_byte l 8 Hl) as H8. pose proof (at_byte l 9 Hl) as H9.
  pose proof (declared_prg_nonneg l Hl) as Hp. pose proof (declared_chr_nonneg l Hl) as Hc.
  pose proof (nes_result_expected l) as Hres.
  assert (forall m, m = declared_mapper l ->
    signed_64_max < declared_prg l \/ signed_64_max < declared_chr l ->
    nes2_header l = true ->
    invalid NES2 NES_SIZE_OVERFLOW
      (nes_overflow_analysis (zlen l) m (declared_submapper l) (has_trainer l) (has_battery l)) =
    nes_expected l) as Hover.
  { intros m -> H E. unfold nes_expected, nes_format, nes_verdict, nes_analysis, nes_warnings, nes_verdict. rewrite E.
    destruct (Z.ltb_spec (zlen l) 16); [lia |]. destruct (Z.leb_spec 16 (zlen l)); [| lia].
    destruct (Z.ltb_spec signed_64_max (declared_total l)) as [|Ht];
      [| unfold declared_total in Ht; destruct (has_trainer l); lia].
    destruct (Z.leb_spec (declared_prg l) signed_64_max), (Z.leb_spec (declared_chr l) signed_64_max); try done. lia. }
  destruct (nes2_header l) eqn:E.
  - assert (0 <= at_ l 9 mod 16 <= 15) by (pose proof (Z.mod_pos_bound (at_ l 9) 16); lia).
    assert (0 <= at_ l 9 / 16 <= 15).
    { unfold is_byte in H9. split; [apply Z.div_pos; lia |].
      assert (at_ l 9 / 16 < 16); [apply Z.div_lt_upper_bound; lia | lia]. }
    rewrite full_mapper by done. rewrite land_15, !Z.shiftr_div_pow2 by lia. change (2 ^ 4) with 16.
    rewrite !nes2_size_spec by (done || lia).
    assert (at_ l 6 / 16 + 16 * (at_ l 7 / 16) + 256 * (at_ l 8 mod 16) = declared_mapper l) as ->
      by (unfold declared_mapper; by rewrite E).
    assert (at_ l 8 / 16 = declared_submapper l) as -> by (unfold declared_submapper; by rewrite E).
    assert (declared_size (at_ l 4) (at_ l 9 mod 16) 16384 = declared_prg l) as ->
      by (unfold declared_prg; by rewrite E).
    assert (declared_size (at_ l 5) (at_ l 9 / 16) 8192 = declared_chr l) as ->
      by (unfold declared_chr; by rewrite E).
    destruct (Z.leb_spec (declared_prg l) signed_64_max); [| by apply Hover; [| left |]].
    destruct (Z.leb_spec (declared_chr l) signed_64_max); [| by apply Hover; [| right |]].
    apply Hres; [done..|]. by intros _.
  - unfold is_byte in *. rewrite low_mapper by done. rewrite !checked_signed_multiply_spec by lia.
    assert (at_ l 4 * 16384 = declared_prg l) as -> by (unfold declared_prg; by rewrite E).
    assert (at_ l 5 * 8192 = declared_chr l) as Ec by (unfold declared_chr; by rewrite E).
    assert (declared_prg l <= signed_64_max) by (unfold declared_prg, signed_64_max; rewrite E; lia).
    assert (declared_chr l <= signed_64_max) by (unfold signed_64_max; lia).
    rewrite Ec. destruct (Z.leb_spec (declared_prg l) signed_64_max); [| lia].
    destruct (Z.leb_spec (declared_chr l) signed_64_max); [| lia].
    assert (0 = declared_submapper l) as -> by (unfold declared_submapper; by rewrite E).
    apply Hres; [done..|]. intros [? | Hd]; [done |]. unfold declared_mapper. by rewrite E, Hd.
Qed.

(** ** UNIF as a list of chunks *)

Record Chunk := mkChunk { chunk_name : bytes; chunk_data : bytes }.

Definition le32 (n : Z) : bytes := reverse (be_bytes 4 n).

Definition chunk_bytes (c : Chunk) : bytes :=
  chunk_name c ++ le32 (zlen (chunk_data c)) ++ chunk_data c.

Definition chunk_ok (c : Chunk) : Prop :=
  zlen (chunk_name c) = 4 /\ zlen (chunk_data c) < 2 ^ 32.

(** A chunk named PRG0 to PRGF with data. *)
Definition has_program (c : Chunk) : bool :=
  (at_ (chunk_name c) 0 =? 80) && (at_ (chunk_name c) 1 =? 82) &&
  (at_ (chunk_name c) 2 =? 71) && is_hex_digit (at_ (chunk_name c) 3) &&
  (0 <? zlen (chunk_data c)).

Definition chunks_bytes (cs : list Chunk) : bytes := mjoin (chunk_bytes <$> cs).

Lemma le32_eq n : le32 n = [u8 n; u8 (Z.shiftr n 8); u8 (Z.shiftr n 16); u8 (Z.shiftr n 24)].
Proof. unfold le32. cbn. by rewrite Z.shiftr_0_r. Qed.

Lemma lor_disjoint a b k : 0 <= k -> 0 <= a < 2 ^ k -> 0 <= b -> Z.lor a (Z.shiftl b k) = a + b * 2 ^ k.
Proof.
  intros Hk Ha Hb. rewrite <- Z.shiftl_mul_pow2 by done.
  pose proof (Z.add_lor_land a (Z.shiftl b k)) as H.
  assert (Z.land a (Z.shiftl b k) = 0) as Hz; [| rewrite Hz in H; lia].
  apply Z.bits_inj'. intros i Hi. rewrite Z.land_spec, Z.bits_0.
  destruct (decide (i < k)).
  - by rewrite Z.shiftl_spec_low, andb_false_r by lia.
  - destruct (decide (a = 0)) as [->|]; [by rewrite Z.testbit_0_l |].
    rewrite (Z.bits_above_log2 a i); [done | lia |].
    assert (Z.log2 a < k); [apply Z.log2_lt_pow2; lia | lia].
Qed.

(** The loader reads a 32-bit length back. *)
Lemma little_endian_u32_spec l i :
  is_bytes l -> 0 <= i -> i + 4 <= zlen l ->
  0 <= little_endian_u32 (view_of l) i < 2 ^ 32 /\
  slice l i 4 = le32 (little_endian_u32 (view_of l) i).
Proof.
  intros Hl Hi Hlen. unfold little_endian_u32. rewrite !byte_at_view.
  pose proof (at_byte l i Hl) as H0. pose proof (at_byte l (i + 1) Hl) as H1.
  pose proof (at_byte l (i + 2) Hl) as H2. pose proof (at_byte l (i + 3) Hl) as H3.
  rewrite !slice_cons_at by lia.
  replace (i + 1 + 1) with (i + 2) by lia. replace (i + 2 + 1) with (i + 3) by lia.
  change (4 - 1 - 1 - 1 - 1) with 0. rewrite slice_zero. revert H0 H1 H2 H3.
  generalize (at_ l i), (at_ l (i + 1)), (at_ l (i + 2)), (at_ l (i + 3)).
  clear. intros a b c d Ha Hb Hc Hd. unfold is_byte in *.
  rewrite !(lor_disjoint a b 8), (lor_disjoint (a + b * 2 ^ 8) c 16),
    (lor_disjoint (a + b * 2 ^ 8 + c * 2 ^ 16) d 24) by lia.
  set (v := a + b * 2 ^ 8 + c * 2 ^ 16 + d * 2 ^ 24). rewrite le32_eq. unfold u8.
  rewrite !Z.shiftr_div_pow2 by lia. change (2 ^ 8) with 256 in *.
  change (2 ^ 16) with 65536 in *. change (2 ^ 24) with 16777216 in *.
  assert (v mod 256 = a) as -> by (subst v; Z.to_euclidean_division_equations; lia).
  assert (v / 256 mod 256 = b) as -> by (subst v; Z.to_euclidean_division_equations; lia).
  assert (v / 65536 mod 256 = c) as -> by (subst v; Z.to_euclidean_division_equations; lia).
  assert (v / 16777216 mod 256 = d) as -> by (subst v; Z.to_euclidean_division_equations; lia).
  split; [subst v; lia |]. done.
Qed.

Lemma le32_inj a b : 0 <= a < 2 ^ 32 -> 0 <= b < 2 ^ 32 -> le32 a = le32 b -> a = b.
Proof.
  unfold le32. intros Ha Hb H. apply (inj reverse) in H.
  apply (f_equal be_value) in H. by rewrite !be_value_be_bytes_small in H.
Qed.

Lemma zlen_le32 n : zlen (le32 n) = 4.
Proof. by rewrite le32_eq. Qed.

(** The chunk at an offset, and why no other chunk is there. *)
Lemma chunk_at l i c rest :
  is_bytes l -> 0 <= i -> i + 8 <= zlen l -> chunk_ok c ->
  let n := little_endian_u32 (view_of l) (i + 4) in
  drop (Z.to_nat i) l = chunk_bytes c ++ rest <->
  c = mkChunk (slice l i 4) (slice l (i + 8) n) /\ i + 8 + n <= zlen l /\
  rest = drop (Z.to_nat (i + 8 + n)) l.
Proof.
  intros Hl Hi Hlen [Hname Hdata] n.
  destruct (little_endian_u32_spec l (i + 4)) as [Hn Hle]; [done | lia | lia |]. fold n in Hn, Hle.
  assert (drop (Z.to_nat i) l = slice l i 4 ++ le32 n ++ drop (Z.to_nat (i + 8)) l) as Hsplit.
  { rewrite (slice_app_drop l i 4), (slice_app_drop l (i + 4) 4), Hle by lia.
    by replace (i + 4 + 4) with (i + 8) by lia. }
  rewrite Hsplit. destruct c as [name d]. unfold chunk_bytes. cbn [chunk_name chunk_data] in *.
  rewrite <- !(assoc_L (++)). split.
  - intros H. apply app_inj_1 in H as [H1 H].
    2:{ pose proof (zlen_slice l i 4). unfold zlen in *. lia. }
    apply app_inj_1 in H as [H2 H].
    2:{ pose proof (zlen_le32 n). pose proof (zlen_le32 (zlen d)). unfold zlen in *. lia. }
    apply le32_inj in H2; [| lia | pose proof (zlen_nonneg d); lia].
    assert (i + 8 + n <= zlen l).
    { apply (f_equal length) in H. rewrite length_drop, length_app in H. unfold zlen in *. lia. }
    rewrite (slice_app_drop l (i + 8) n) in H by lia.
    apply app_inj_1 in H as [H3 H4].
    2:{ pose proof (zlen_slice l (i + 8) n). unfold zlen in *. lia. }
    by subst.
  - intros (H & Hb & ->). injection H as -> ->. rewrite zlen_slice by lia.
    by rewrite (slice_app_drop l (i + 8) n) by lia.
Qed.

Lemma chunk_bytes_length c : chunk_ok c -> 8 <= zlen (chunk_bytes c).
Proof.
  intros [Hn _]. unfold chunk_bytes. autorewrite with flynes_len.
  rewrite zlen_le32. pose proof (zlen_nonneg (chunk_data c)). lia.
Qed.

Lemma chunks_bytes_length c cs :
  Forall chunk_ok (c :: cs) -> 8 <= zlen (chunks_bytes (c :: cs)).
Proof.
  intros [Hc _]%Forall_cons. apply chunk_bytes_length in Hc.
  change (chunks_bytes (c :: cs)) with (chunk_bytes c ++ chunks_bytes cs).
  rewrite zlen_app. pose proof (zlen_nonneg (chunks_bytes cs)). lia.
Qed.

(** The loop recognises exactly the chunk lists. *)
Lemma unif_loop_spec fuel l cursor hp b :
  is_bytes l -> 0 <= cursor <= zlen l -> zlen l - cursor < Z.of_nat fuel ->
  unif_loop fuel (view_of l) cursor hp = Some b <->
  exists cs, Forall chunk_ok cs /\ drop (Z.to_nat cursor) l = chunks_bytes cs /\
             b = hp || existsb has_program cs.
Proof.
  intros Hl. revert cursor hp. induction fuel as [|fuel IH]; intros cursor hp Hc Hf; [lia |].
  cbn [unif_loop]. cbv zeta. cbn [size view_of].
  destruct (Z.ltb_spec cursor (zlen l)) as [Hlt|Hge].
  2:{ assert (drop (Z.to_nat cursor) l = []) as ->.
      { apply drop_ge. unfold zlen in *. lia. }
      split; [intros [= <-]; exists []; by rewrite orb_false_r |].
      intros (cs & Hok & Hd & ->). destruct cs as [|c cs]; [by rewrite orb_false_r |].
      apply chunks_bytes_length in Hok. rewrite <- Hd, zlen_nil in Hok. lia. }
  assert (zlen (drop (Z.to_nat cursor) l) = zlen l - cursor) as Hdl
    by (unfold zlen in *; rewrite length_drop; lia).
  assert (forall cs, Forall chunk_ok cs -> drop (Z.to_nat cursor) l = chunks_bytes cs ->
    exists c cs', cs = c :: cs' /\ chunk_ok c /\ Forall chunk_ok cs' /\ 8 <= zlen l - cursor)
    as Hcons.
  { intros cs Hok Hd. rewrite Hd in Hdl. destruct cs as [|c cs].
    { change (zlen (chunks_bytes [])) with 0 in Hdl. lia. }
    pose proof (chunks_bytes_length _ _ Hok) as H8.
    apply Forall_cons in Hok as [Hc0 Hcs]. exists c, cs. split_and!; try done. lia. }
  destruct (Z.ltb_spec (zlen l - cursor) 8) as [H8|H8].
  { split; [done |]. intros (cs & Hok & Hd & _).
    destruct (Hcons cs Hok Hd) as (_ & _ & _ & _ & _ & ?). lia. }
  set (n := little_endian_u32 (view_of l) (cursor + 4)).
  destruct (little_endian_u32_spec l (cursor + 4)) as [Hn _]; [done | lia | lia |].
  fold n in Hn. destruct (Z.ltb_spec (zlen l - (cursor + 8)) n) as [Hlong|Hfit].
  { split; [done |]. intros (cs & Hok & Hd & _).
    destruct (Hcons cs Hok Hd) as (c & cs' & -> & Hc0 & _ & _).
    change (chunks_bytes (c :: cs')) with (chunk_bytes c ++ chunks_bytes cs') in Hd.
    apply (chunk_at l cursor c) in Hd as (_ & ? & _); [| done | lia | lia | done].
    fold n in H. lia. }
  rewrite IH by lia. clear IH.
  set (c0 := mkChunk (slice l cursor 4) (slice l (cursor + 8) n)).
  assert (chunk_ok c0) as Hc0
    by (unfold chunk_ok, c0; cbn [chunk_name chunk_data]; rewrite !zlen_slice by lia; lia).
  assert (has_program c0 = prg_chunk (view_of l) cursor && (0 <? n)) as Hprog.
  { unfold has_program, prg_chunk. cbn [chunk_name chunk_data c0]. rewrite !byte_at_view.
    rewrite !at_slice, zlen_slice by lia. by rewrite Z.add_0_r. }
  assert (forall rest, drop (Z.to_nat cursor) l = chunk_bytes c0 ++ rest <->
    rest = drop (Z.to_nat (cursor + 8 + n)) l) as Hat.
  { intros rest. rewrite (chunk_at l cursor c0 rest) by (done || lia). fold n. subst c0.
    split; [tauto |]. intros ?. split_and!; [done | lia | done]. }
  split.
  - intros (cs & Hok & Hd & ->). exists (c0 :: cs). split_and!; [by constructor | |].
    + by apply Hat.
    + cbn [existsb]. rewrite Hprog, <- orb_assoc. done.
  - intros (cs & Hok & Hd & ->). destruct (Hcons cs Hok Hd) as (c & cs' & -> & Hc1 & Hcs & _).
    change (chunks_bytes (c :: cs')) with (chunk_bytes c ++ chunks_bytes cs') in Hd.
    pose proof Hd as Hd'. apply (chunk_at l cursor c) in Hd' as (Hceq & _ & _); [| done | lia | lia | done].
    fold n in Hceq. fold c0 in Hceq. subst c. exists cs'. split_and!; [done | |].
    + symmetry. by apply Hat.
    + cbn [existsb]. by rewrite Hprog, <- orb_assoc.
Qed.

(** ** Disk images *)

Lemma valid_fds_signatures_spec l offset n :
  0 <= offset ->
  valid_fds_signatures (view_of l) offset n = true <->
  forall k, 0 <= k < Z.of_nat n ->
    starts_with_at (view_of l) (offset + k * fds_side_bytes) fds_side_signature = true.
Proof.
  revert offset. induction n as [|n IH]; intros offset Ho; [split; [lia | done] |].
  cbn [valid_fds_signatures]. unfold fds_side_bytes in *.
  destruct (starts_with_at (view_of l) offset fds_side_signature) eqn:E; cbn [negb].
  2:{ split; [done |]. intros H. specialize (H 0). rewrite Z.add_0_r in H. rewrite H in E; [done | lia]. }
  assert (valid_fds_signatures (view_of l)
            (if bool_decide (n = O) then offset else offset + 65500) n =
          valid_fds_signatures (view_of l) (offset + 65500) n) as ->
    by (destruct n; [done | by rewrite bool_decide_false by done]).
  rewrite IH by lia. split; intros H k Hk.
  - destruct (decide (k = 0)) as [->|]; [by rewrite Z.add_0_r |].
    specialize (H (k - 1)). replace (offset + 65500 + (k - 1) * 65500)
      with (offset + k * 65500) in H by lia. apply H. lia.
  - specialize (H (k + 1)). replace (offset + (k + 1) * 65500)
      with (offset + 65500 + k * 65500) in H by lia. apply H. lia.
Qed.

(** A disk side starts at an offset. *)
Definition side_at (l : bytes) (offset : Z) : Prop :=
  offset + 15 <= zlen l /\ slice l offset 15 = fds_side_signature.

Lemma side_at_spec l offset :
  0 <= offset -> starts_with_at (view_of l) offset fds_side_signature = true <-> side_at l offset.
Proof. intros Ho. by rewrite starts_with_at_spec. Qed.

Lemma parse_headered_fds_spec l :
  is_bytes l ->
  state (parse_headered_fds (view_of l)) = UNSUPPORTED <->
  16 <= zlen l /\ at_ l 4 <> 0 /\ 16 + at_ l 4 * 65500 <= zlen l /\
  forall k, 0 <= k < at_ l 4 -> side_at l (16 + k * 65500).
Proof.
  intros Hl. pose proof (at_byte l 4 Hl) as H4. unfold is_byte in H4.
  unfold parse_headered_fds, fds_header_bytes. cbn [size view_of]. rewrite byte_at_view.
  destruct (Z.ltb_spec (zlen l) 16); [split; [done | lia] |].
  destruct (Z.eqb_spec (at_ l 4) 0); [split; [done | lia] |].
  cbn [actual_bytes fds_analysis over]. unfold fds_side_bytes.
  destruct (Z.ltb_spec (zlen l) (16 + at_ l 4 * 65500)); [split; [done | lia] |].
  pose proof (valid_fds_signatures_spec l 16 (Z.to_nat (at_ l 4))) as Hv.
  rewrite Z2Nat.id in Hv by lia. unfold fds_side_bytes in Hv.
  destruct (valid_fds_signatures (view_of l) 16 (Z.to_nat (at_ l 4))) eqn:E; cbn [negb].
  - split; [| done]. intros _. split_and!; try lia. intros k Hk.
    apply side_at_spec; [lia |]. apply Hv; [lia | done | done].
  - split; [done |]. intros (_ & _ & _ & Hs). enough (false = true) by done.
    apply Hv; [lia |]. intros k Hk. apply side_at_spec; [lia |]. auto.
Qed.

(** ** Properties *)

Lemma starts_with_spec l prefix :
  starts_with_at (view_of l) 0 prefix = true <-> take (length prefix) l = prefix.
Proof.
  rewrite starts_with_at_spec by lia. unfold slice, zlen. rewrite Nat2Z.id. cbn [drop Z.to_nat].
  split; [tauto |]. intros H. split; [| done].
  apply (f_equal length) in H. rewrite length_take in H. lia.
Qed.

(** A payload with a four-byte signature does not start with another prefix. *)
Lemma other_prefix l signature prefix :
  take 4 l = signature -> (4 <= length prefix)%nat -> take 4 prefix <> signature ->
  starts_with_at (view_of l) 0 prefix = false.
Proof.
  intros Hs Hlen Hne. apply not_true_iff_false. rewrite starts_with_spec. intros H.
  apply Hne. rewrite <- H, take_take, Nat.min_l by lia. done.
Qed.

(** C20. A payload with the NES signature gets exactly the result its header declares,
    computed without overflow: the format, the verdict (too short for a header, too large for
    63 bits, no program, truncated, or playable), on every outcome the analysis
    [nes_analysis] of the declared sizes (zero when one does not fit), mapper,
    submapper, trainer and battery, and exactly the warnings due, of a spoilt header
    and of bytes after the image.  It is PLAYABLE exactly when the
    declared bytes are all there, fit 63 bits and have a program. *)
Theorem nes_classification (l : bytes) :
  is_bytes l -> take 4 l = nes_signature ->
  let r := parse_rom_payload (view_of l) in
  recognized r = true /\ format r = nes_format l /\ reason r = nes_verdict l /\
  analysis r = nes_analysis l /\
  take (Z.to_nat (warning_count (analysis r))) (warnings (analysis r)) =
    (if zlen l <? 16 then [] else nes_warnings l) /\
  state r = (if decide (nes_verdict l = PLAYABLE_NES) then PLAYABLE else INVALID) /\
  (state r = PLAYABLE <->
     16 <= zlen l /\ 0 < declared_prg l /\ declared_total l <= zlen l /\
     declared_total l <= signed_64_max).
Proof.
  intros Hl Hsig. cbv zeta. unfold parse_rom_payload.
  assert (starts_with_at (view_of l) 0 nes_signature = true) as -> by by apply starts_with_spec.
  rewrite parse_nes_expected by done. split_and!; try done.
  - cbn [analysis nes_expected]. unfold nes_analysis, nes_warnings. destruct (zlen l <? 16); [done |]. cbv zeta.
    cbn [warnings warning_count]. by destruct (_ && _), (_ && _).
  - cbn [state nes_expected]. unfold nes_verdict. pose proof (declared_prg_nonneg l Hl).
    destruct (Z.ltb_spec (zlen l) 16); [split; [done | lia] |].
    destruct (Z.ltb_spec signed_64_max (declared_total l)); [split; [done | lia] |].
    destruct (Z.eqb_spec (declared_prg l) 0); [split; [done | lia] |].
    destruct (Z.ltb_spec (zlen l) (declared_total l)); [split; [done | lia] |].
    split; [intros _; lia | done].
Qed.

(** One 16 KiB program bank, complete, then cut short by one byte. *)
Definition small_rom (n : nat) : bytes :=
  [78; 69; 83; 26; 1; 0; 0; 0; 0; 0; 0; 0; 0; 0; 0; 0] ++ replicate n 0.

Lemma small_rom_bytes n : is_bytes (small_rom n).
Proof.
  apply is_bytes_app. split.
  - repeat constructor; vm_compute; try discriminate.
  - apply Forall_replicate. split; done.
Qed.

(** A playable image with a spoilt header and a byte too many, and a truncated one. *)
Definition dirty_rom : bytes :=
  [78; 69; 83; 26; 1; 0; 17; 64; 0; 0; 0; 0; 68; 105; 115; 107] ++ replicate 16385 0.

Lemma dirty_rom_bytes : is_bytes dirty_rom.
Proof.
  apply is_bytes_app. split.
  - repeat constructor; vm_compute; try discriminate.
  - apply Forall_replicate. split; done.
Qed.

Lemma nes_classification_witness :
  state (parse_rom_payload (view_of dirty_rom)) = PLAYABLE /\
  warnings (analysis (parse_rom_payload (view_of dirty_rom))) = [DIRTY_HEADER; TRAILING_DATA] /\
  mapper (analysis (parse_rom_payload (view_of dirty_rom))) = 1 /\
  reason (parse_rom_payload (view_of (small_rom 16383))) = NES_TRUNCATED.
Proof.
  destruct (nes_classification dirty_rom dirty_rom_bytes eq_refl) as (_ & _ & _ & Ha & _ & _ & H).
  destruct (nes_classification (small_rom 16383) (small_rom_bytes _) eq_refl) as (_ & _ & H' & _).
  split; [apply H; vm_compute; repeat split; discriminate |].
  split; [rewrite Ha; vm_compute; reflexivity |]. split; [rewrite Ha; vm_compute; reflexivity |].
  rewrite H'. vm_compute. reflexivity.
Defined.

(** A payload with the UNIF signature is accepted, as a disabled format,
    exactly when what follows the 32-byte header is a sequence of complete chunks
    one of which is a program chunk with data; the chunk loop has enough fuel. *)
Theorem unif_classification (l : bytes) :
  is_bytes l -> take 4 l = unif_signature ->
  state (parse_rom_payload (view_of l)) = UNSUPPORTED <->
  32 <= zlen l /\ exists cs, Forall chunk_ok cs /\ drop 32 l = chunks_bytes cs /\
    existsb has_program cs = true.
Proof.
  intros Hl Hsig. unfold parse_rom_payload.
  rewrite (other_prefix l unif_signature nes_signature) by (done || (cbn; lia)).
  rewrite (other_prefix l unif_signature fds_signature) by (done || (cbn; lia)).
  rewrite (other_prefix l unif_signature fds_side_signature) by (done || (cbn; lia)).
  assert (starts_with_at (view_of l) 0 unif_signature = true) as -> by by apply starts_with_spec.
  unfold parse_unif. cbn [size view_of].
  destruct (Z.ltb_spec (zlen l) 32); [split; [done | lia] |].
  pose proof (fun b => unif_loop_spec (unif_fuel (view_of l)) l 32 false b Hl) as Hspec.
  assert (0 <= 32 <= zlen l) as H32 by lia.
  assert (zlen l - 32 < Z.of_nat (unif_fuel (view_of l))) as Hfuel
    by (unfold unif_fuel; cbn [size view_of]; lia).
  assert (forall b, unif_loop (unif_fuel (view_of l)) (view_of l) 32 false = Some b <->
    exists cs, Forall chunk_ok cs /\ drop 32 l = chunks_bytes cs /\
               b = existsb has_program cs) as Hs by (intros b; by apply Hspec).
  destruct (unif_loop _ _ 32 false) as [[]|].
  - split; [| done]. intros _. split; [lia |]. destruct (Hs true) as [H' _].
    destruct (H' eq_refl) as (cs & ? & ? & ?). eauto.
  - split; [done |]. intros (_ & cs & ? & ? & Hc). destruct (Hs true) as [_ H'].
    by assert (Some false = Some true) by (apply H'; eauto).
  - split; [done |]. intros (_ & cs & ? & ? & Hc). destruct (Hs true) as [_ H'].
    by assert (None = Some true) by (apply H'; eauto).
Qed.

Definition small_unif : bytes :=
  unif_signature ++ replicate 28 0 ++
  chunks_bytes [mkChunk [78; 65; 77; 69] [65]; mkChunk [80; 82; 71; 48] [1; 2]].

Lemma unif_classification_witness :
  state (parse_rom_payload (view_of small_unif)) = UNSUPPORTED.
Proof.
  assert (is_bytes small_unif) as Hb
    by (vm_compute; repeat constructor; vm_compute; discriminate).
  refine (proj2 (unif_classification small_unif Hb eq_refl) _).
  split; [vm_compute; discriminate |].
  exists [mkChunk [78; 65; 77; 69] [65]; mkChunk [80; 82; 71; 48] [1; 2]].
  split; [repeat constructor; vm_compute; reflexivity |].
  split; vm_compute; reflexivity.
Defined.

(** A payload with the FDS header is recognised as a disk image exactly when
    it declares at least one side and every declared side is present and carries
    the disk signature at its start. *)
Theorem fds_classification (l : bytes) :
  is_bytes l -> take 4 l = fds_signature ->
  state (parse_rom_payload (view_of l)) = UNSUPPORTED <->
  16 <= zlen l /\ at_ l 4 <> 0 /\ 16 + at_ l 4 * fds_side_bytes <= zlen l /\
  forall k, 0 <= k < at_ l 4 -> side_at l (16 + k * fds_side_bytes).
Proof.
  intros Hl Hsig. unfold parse_rom_payload.
  rewrite (other_prefix l fds_signature nes_signature) by (done || (cbn; lia)).
  assert (starts_with_at (view_of l) 0 fds_signature = true) as -> by by apply starts_with_spec.
  by apply parse_headered_fds_spec.
Qed.

Definition small_fds (n : nat) : bytes :=
  fds_signature ++ [1] ++ replicate 11 0 ++ fds_side_signature ++ replicate n 0.

Lemma small_fds_bytes n : is_bytes (small_fds n).
Proof.
  unfold small_fds. rewrite !is_bytes_app. split_and!.
  1,2,4: by (repeat constructor; vm_compute; discriminate).
  1,2: by (apply Forall_replicate; split).
Qed.

Lemma fds_classification_witness :
  state (parse_rom_payload (view_of (small_fds 65485))) = UNSUPPORTED.
Proof.
  refine (proj2 (fds_classification (small_fds 65485) (small_fds_bytes _) eq_refl) _).
  split_and!; [vm_compute; discriminate .. |].
  intros k Hk. change (at_ (small_fds 65485) 4) with 1 in Hk.
  assert (k = 0) as -> by lia. split; vm_compute; [discriminate | reflexivity].
Defined.

(** The relations between the fields of a result. *)
Definition result_wf (r : RomParseResult) : Prop :=
  (recognized r = false <-> state r = STATE_UNKNOWN) /\
  (state r = STATE_UNKNOWN <-> format r = UNKNOWN) /\
  (state r = PLAYABLE <-> reason r = PLAYABLE_NES) /\
  (state r = PLAYABLE -> (format r = INES \/ format r = NES2) /\
     expected_bytes (analysis r) <= actual_bytes (analysis r) /\ prg_bytes (analysis r) <> 0) /\
  (state r = UNSUPPORTED ->
     (format r = FDS /\ reason r = FDS_BIOS_API_NOT_IMPLEMENTED) \/
     (format r = UNIF /\ reason r = UNIF_PRODUCT_DISABLED)) /\
  length (warnings (analysis r)) = 2%nat /\ 0 <= warning_count (analysis r) <= 2.

Definition analysis_wf (a : RomAnalysis) : Prop :=
  length (warnings a) = 2%nat /\ 0 <= warning_count a <= 2.

Lemma append_warning_wf a w : analysis_wf a -> analysis_wf (append_warning a w).
Proof.
  unfold append_warning, analysis_wf. intros [Hl Hc].
  destruct (Z.ltb_spec (warning_count a) 2); [| done]. cbn [warnings warning_count over].
  rewrite length_insert. split; [done | lia].
Qed.

Lemma invalid_wf f r a :
  f <> UNKNOWN -> r <> PLAYABLE_NES -> analysis_wf a -> result_wf (invalid f r a).
Proof. intros Hf Hr Ha. unfold result_wf. cbn. by destruct Ha. Qed.

Lemma nes_result_wf v is2 m sm prg chr (tr bat : bool) :
  result_wf (nes_result v is2 m sm prg chr tr bat).
Proof.
  unfold nes_result. cbv zeta.
  set (f := if is2 then NES2 else INES).
  assert (f = INES \/ f = NES2) as Hf by (subst f; destruct is2; auto).
  assert (f <> UNKNOWN) as Hf' by (by destruct Hf as [-> | ->]). clearbody f.
  set (a0 := if negb is2 && _ then _ else _).
  assert (analysis_wf a0) as Ha.
  { subst a0. destruct (_ && _); (split; [done | by cbn]). }
  assert (prg_bytes a0 = prg) as Hp by (subst a0; by destruct (_ && _)).
  clearbody a0. destruct (_ ≫= _) as [expected|]; [| by apply invalid_wf].
  destruct (Z.eqb_spec prg 0); [by apply invalid_wf |].
  destruct (Z.ltb_spec (actual_bytes (a0 <| expected_bytes := expected |>))
    (expected_bytes (a0 <| expected_bytes := expected |>))) as [H|H]; [by apply invalid_wf |].
  set (a := a0 <| expected_bytes := expected |>) in *.
  assert (analysis_wf a) as Hw by exact Ha. assert (prg_bytes a = prg) as Hpa by exact Hp.
  clearbody a. unfold result_wf. cbn [recognized format state reason analysis].
  assert (analysis_wf (if expected_bytes a <? actual_bytes a
                       then append_warning a TRAILING_DATA else a)) as [? ?]
    by (destruct (_ <? _); [by apply append_warning_wf | done]).
  destruct (append_warning_sizes a TRAILING_DATA) as (E0 & E1 & E2 & _).
  split_and!; try done; try lia; intros _; destruct (expected_bytes a <? actual_bytes a);
    rewrite ?E0, ?E1, ?E2, ?Hpa; done.
Qed.

(** C40. Every result is consistent, for every payload, null or truncated or
    hostile: unknown formats are the unrecognised ones, PLAYABLE is a NES format
    whose declared bytes are all present and whose program is not empty,
    UNSUPPORTED is a disk image or a UNIF file, and the warnings fit their array. *)
Theorem classification_consistent (v : ByteView) : result_wf (parse_rom_payload v).
Proof.
  assert (forall n, analysis_wf (basic_analysis n)) as Hb by (intros; split; [done | by cbn]).
  assert (forall e a s, analysis_wf (fds_analysis e a s)) as Hfds by (intros; split; [done | by cbn]).
  assert (forall a, analysis_wf a -> result_wf (unsupported_fds a)) as Hu.
  { intros a [? ?]. unfold result_wf. cbn. intuition done. }
  unfold parse_rom_payload. destruct (starts_with_at v 0 nes_signature).
  { unfold parse_nes. destruct (_ <? _); [by apply invalid_wf |]. cbv zeta.
    destruct (_ =? 8).
    - destruct (nes2_size _ _ 16384); [destruct (nes2_size _ _ 8192) |];
        try apply nes_result_wf; (apply invalid_wf; [done | done | by split]).
    - destruct (checked_signed_multiply _ 16384);
        [destruct (checked_signed_multiply _ 8192) |];
        try apply nes_result_wf; (apply invalid_wf; [done | done | by split]). }
  destruct (starts_with_at v 0 fds_signature).
  { unfold parse_headered_fds. cbv zeta. destruct (_ <? _); [by apply invalid_wf |].
    destruct (_ =? 0); [by apply invalid_wf |]. destruct (_ <? _); [by apply invalid_wf |].
    destruct (negb _); [by apply invalid_wf |]. apply Hu.
    destruct (_ <? _); [by apply append_warning_wf | done]. }
  destruct (starts_with_at v 0 fds_side_signature).
  { unfold parse_headerless_fds. cbv zeta. destruct (_ || _); [by apply invalid_wf |].
    destruct (negb _); [by apply invalid_wf | by apply Hu]. }
  destruct (starts_with_at v 0 unif_signature); [| unfold result_wf; cbn; intuition done].
  unfold parse_unif. destruct (_ <? _); [by apply invalid_wf |].
  destruct (unif_loop _ _ _ _) as [[]|]; try by apply invalid_wf.
  unfold result_wf. cbn. intuition done.
Qed.
