(* ===== verification/Utf8.v ===== *)
(** * Strict UTF-8 ([is_strict_utf8] of [shared/src/catalog/bounded_zip_archive.cpp])

    The check of the entry names of an archive, and the encoding it accepts. *)

From S2P Require Import Prelude.

(** ** The check *)

Definition is_continuation (value : Z) : bool := (0x80 <=? value) && (value <=? 0xBF).

Definition second_of_three (first second : Z) : bool :=
  ((first =? 0xE0) && (0xA0 <=? second) && (second <=? 0xBF)) ||
  ((first =? 0xED) && (0x80 <=? second) && (second <=? 0x9F)) ||
  ((0xE1 <=? first) && (first <=? 0xEC) && is_continuation second) ||
  ((0xEE <=? first) && (first <=? 0xEF) && is_continuation second).

Definition second_of_four (first second : Z) : bool :=
  ((first =? 0xF0) && (0x90 <=? second) && (second <=? 0xBF)) ||
  ((0xF1 <=? first) && (first <=? 0xF3) && is_continuation second) ||
  ((first =? 0xF4) && (0x80 <=? second) && (second <=? 0x8F)).

(** [value] is what is left from the index on. *)
Fixpoint is_strict_utf8 (value : bytes) : bool :=
  match value with
  | [] => true
  | first :: rest =>
    if first <=? 0x7F then is_strict_utf8 rest
    else if (0xC2 <=? first) && (first <=? 0xDF) then
      match rest with
      | second :: rest => if negb (is_continuation second) then false else is_strict_utf8 rest
      | [] => false
      end
    else if (0xE0 <=? first) && (first <=? 0xEF) then
      match rest with
      | second :: third :: rest =>
        if negb (is_continuation third) then false
        else if negb (second_of_three first second) then false else is_strict_utf8 rest
      | _ => false
      end
    else if (0xF0 <=? first) && (first <=? 0xF4) then
      match rest with
      | second :: third :: fourth :: rest =>
        if negb (is_continuation third) || negb (is_continuation fourth) then false
        else if negb (second_of_four first second) then false else is_strict_utf8 rest
      | _ => false
      end
    else false
  end.

(** ** The encoding

    A Unicode scalar value is a code point that is not a surrogate. *)

Definition scalar (c : Z) : Prop := 0 <= c < 0xD800 \/ 0xE000 <= c <= 0x10FFFF.

Definition utf8 (c : Z) : bytes :=
  if c <? 0x80 then [c]
  else if c <? 0x800 then [0xC0 + c / 64; 0x80 + c mod 64]
  else if c <? 0x10000 then [0xE0 + c / 4096; 0x80 + c / 64 mod 64; 0x80 + c mod 64]
  else [0xF0 + c / 262144; 0x80 + c / 4096 mod 64; 0x80 + c / 64 mod 64; 0x80 + c mod 64].

Definition encoded (cs : list Z) : bytes := mjoin (utf8 <$> cs).

(** ** Lemmas *)

#[local] Ltac dlia := Z.to_euclidean_division_equations; lia.

(** Decides the outermost test of the goal. *)
#[local] Ltac branch :=
  match goal with
  | |- context [if ?b then _ else _] => first [replace b with true by lia | replace b with false by lia]; cbv iota
  end.

(** An encoded scalar is skipped. *)
Lemma strict_utf8_step c rest : scalar c -> is_strict_utf8 (utf8 c ++ rest) = is_strict_utf8 rest.
Proof.
  intros Hc. unfold utf8.
  destruct (Z.ltb_spec c 0x80); [| destruct (Z.ltb_spec c 0x800); [| destruct (Z.ltb_spec c 0x10000)]];
    cbn [app is_strict_utf8].
  - unfold scalar in Hc. by repeat branch.
  - unfold is_continuation.
    assert (2 <= c / 64 <= 0x1F) by dlia. assert (0 <= c mod 64 < 64) by dlia.
    generalize dependent (c / 64). generalize dependent (c mod 64). intros. by repeat branch.
  - unfold second_of_three, is_continuation.
    assert (0 <= c / 4096 <= 0xF) by dlia. assert (0 <= c mod 64 < 64) by dlia. assert (0 <= c / 64 mod 64 < 64) by dlia.
    assert (c / 4096 = 0 -> 0x20 <= c / 64 mod 64) by dlia.
    assert (c / 4096 = 0xD -> c / 64 mod 64 <= 0x1F) by (unfold scalar in Hc; dlia).
    clear Hc. generalize dependent (c / 4096). generalize dependent (c / 64 mod 64). generalize dependent (c mod 64).
    intros. by repeat branch.
  - unfold second_of_four, is_continuation.
    assert (0 <= c / 262144 <= 4) by (unfold scalar in Hc; dlia). assert (0 <= c mod 64 < 64) by dlia.
    assert (0 <= c / 64 mod 64 < 64) by dlia. assert (0 <= c / 4096 mod 64 < 64) by dlia.
    assert (c / 262144 = 0 -> 0x10 <= c / 4096 mod 64) by dlia.
    assert (c / 262144 = 4 -> c / 4096 mod 64 <= 0xF) by (unfold scalar in Hc; dlia).
    clear Hc. generalize dependent (c / 262144). generalize dependent (c / 4096 mod 64).
    generalize dependent (c / 64 mod 64). generalize dependent (c mod 64). intros. by repeat branch.
Qed.

(** What the check accepts first is one encoded scalar. *)
Lemma strict_utf8_first first rest :
  is_bytes (first :: rest) -> is_strict_utf8 (first :: rest) = true ->
  exists c k, scalar c /\ first :: rest = utf8 c ++ k /\ is_strict_utf8 k = true.
Proof.
  intros Hb H. apply is_bytes_cons in Hb as [Hf Hb]. unfold is_byte in Hf. cbn [is_strict_utf8] in H.
  destruct (Z.leb_spec first 0x7F).
  { exists first, rest. split_and!; [unfold scalar; lia | | done]. unfold utf8. destruct (Z.ltb_spec first 0x80); [done | lia]. }
  destruct ((0xC2 <=? first) && (first <=? 0xDF)) eqn:G2.
  { destruct rest as [|second rest]; [done |]. destruct (negb _) eqn:G; [done |]. unfold is_continuation in G. bool_hyps.
    exists ((first - 0xC0) * 64 + (second - 0x80)), rest. split_and!; [unfold scalar; lia | | done].
    unfold utf8. repeat branch. cbn [app]. repeat f_equal; dlia. }
  destruct ((0xE0 <=? first) && (first <=? 0xEF)) eqn:G3.
  { destruct rest as [|second [|third rest]]; [done | done |]. destruct (negb (is_continuation _)) eqn:G; [done |].
    destruct (negb (second_of_three _ _)) eqn:G4; [done |]. unfold second_of_three, is_continuation in *.
    assert (0x80 <= second <= 0xBF /\ (first = 0xE0 -> 0xA0 <= second) /\ (first = 0xED -> second <= 0x9F)) as (? & ? & ?) by lia.
    bool_hyps. clear G4. exists ((first - 0xE0) * 4096 + (second - 0x80) * 64 + (third - 0x80)), rest.
    split_and!; [unfold scalar; lia | | done]. unfold utf8. repeat branch. cbn [app]. repeat f_equal; dlia. }
  destruct ((0xF0 <=? first) && (first <=? 0xF4)) eqn:G5; [| done].
  destruct rest as [|second [|third [|fourth rest]]]; [done | done | done |].
  destruct (negb (is_continuation third) || _) eqn:G; [done |].
  destruct (negb (second_of_four _ _)) eqn:G4; [done |]. unfold second_of_four, is_continuation in *.
  assert (0x80 <= second <= 0xBF /\ (first = 0xF0 -> 0x90 <= second) /\ (first = 0xF4 -> second <= 0x8F)) as (? & ? & ?) by lia.
  bool_hyps. clear G4.
  exists ((first - 0xF0) * 262144 + (second - 0x80) * 4096 + (third - 0x80) * 64 + (fourth - 0x80)), rest.
  split_and!; [unfold scalar; lia | | done]. unfold utf8. repeat branch. cbn [app]. repeat f_equal; dlia.
Qed.

Lemma utf8_cons c : exists x k, utf8 c = x :: k.
Proof. unfold utf8. repeat destruct (_ <? _); eauto. Qed.

Lemma strict_utf8_iff (value : bytes) :
  is_bytes value ->
  is_strict_utf8 value = true <-> exists cs, Forall scalar cs /\ value = encoded cs.
Proof.
  intros Hb. split.
  - revert Hb. induction value as [value IH] using (induction_ltof1 _ length). intros Hb H.
    destruct value as [|first rest]; [by exists [] |].
    destruct (strict_utf8_first first rest Hb H) as (c & k & Hc & E & Hk). rewrite E in Hb |- *.
    apply is_bytes_app in Hb as [_ Hb]. destruct (IH k) as (cs & Hcs & ->); [| done | done |].
    { unfold ltof. rewrite E, length_app. destruct (utf8_cons c) as (x & l & ->). cbn [length]. lia. }
    exists (c :: cs). split; [by constructor | done].
  - intros (cs & Hcs & ->). clear Hb. induction Hcs as [|c cs Hc Hcs IH]; [done |].
    change (encoded (c :: cs)) with (utf8 c ++ encoded cs). by rewrite strict_utf8_step.
Qed.

(** The check accepts exactly UTF-8: a name passes when it is the encoding of some
    sequence of Unicode scalar values -- no surrogates, nothing above U+10FFFF, every
    value in its shortest form, nothing cut off. *)
Theorem strict_utf8_exact (value : bytes) :
  is_bytes value ->
  is_strict_utf8 value = true <-> exists cs, Forall scalar cs /\ value = encoded cs.
Proof. apply strict_utf8_iff. Qed.

(** A name in four lengths: A, e acute, the euro sign, a game controller. *)
Lemma strict_utf8_exact_witness :
  is_strict_utf8 [0x41; 0xC3; 0xA9; 0xE2; 0x82; 0xAC; 0xF0; 0x9F; 0x8E; 0xAE] = true.
Proof.
  apply (strict_utf8_exact [0x41; 0xC3; 0xA9; 0xE2; 0x82; 0xAC; 0xF0; 0x9F; 0x8E; 0xAE]).
  - apply is_bytes_compute. reflexivity.
  - exists [0x41; 0xE9; 0x20AC; 0x1F3AE]. split; [| reflexivity].
    repeat constructor; unfold scalar; lia.
Defined.

Example overlong_refused : is_strict_utf8 [0xC0; 0x80] = false /\ is_strict_utf8 [0xED; 0xA0; 0x80] = false.
Proof. done. Qed.
