(* ===== verification/ZipArchive.v ===== *)
(** * The bounded ZIP archive ([shared/src/catalog/bounded_zip_archive.{hpp,cpp}])

    Game images arrive in ZIP packages from anywhere.  The archive is opened by reading
    its directory only: every structure is range-checked, the entries may not overlap,
    and the limits of the caller are enforced before anything is inflated. *)

From stdpp Require Import sorting.
From S2P Require Import Prelude Utf8.

(** ** Data *)

Inductive ZipOpenCode :=
  | INVALID_ZIP | PACKAGE_LIMIT_EXCEEDED | ENTRY_LIMIT_EXCEEDED | INFLATED_LIMIT_EXCEEDED | PAYLOAD_LIMIT_EXCEEDED
  | NAME_LIMIT_EXCEEDED | RATIO_LIMIT_EXCEEDED | ENCRYPTED | UNSUPPORTED_COMPRESSION | ENTRY_MISSING.

#[global] Instance zip_code_eq_dec : EqDecision ZipOpenCode.
Proof. solve_decision. Defined.

Definition zip_open_code_name (code : ZipOpenCode) : string :=
  match code with
  | INVALID_ZIP => "INVALID_ZIP"
  | PACKAGE_LIMIT_EXCEEDED => "PACKAGE_LIMIT_EXCEEDED"
  | ENTRY_LIMIT_EXCEEDED => "ENTRY_LIMIT_EXCEEDED"
  | INFLATED_LIMIT_EXCEEDED => "INFLATED_LIMIT_EXCEEDED"
  | PAYLOAD_LIMIT_EXCEEDED => "PAYLOAD_LIMIT_EXCEEDED"
  | NAME_LIMIT_EXCEEDED => "NAME_LIMIT_EXCEEDED"
  | RATIO_LIMIT_EXCEEDED => "RATIO_LIMIT_EXCEEDED"
  | ENCRYPTED => "ENCRYPTED"
  | UNSUPPORTED_COMPRESSION => "UNSUPPORTED_COMPRESSION"
  | ENTRY_MISSING => "ENTRY_MISSING"
  end.

Record BoundedZipLimits := mkLimits {
  max_package_bytes : Z;
  max_payload_bytes : Z;
  max_zip_entries : Z;
  max_cumulative_inflated_bytes : Z;
  max_name_bytes : Z;
  max_compression_ratio : Z;
  ratio_guard_threshold_bytes : Z;
}.

Definition i32_max : Z := 2 ^ 31 - 1.
Definition i64_max : Z := 2 ^ 63 - 1.

Definition create (package payload entries cumulative name ratio threshold : Z) : option BoundedZipLimits :=
  if (package =? 0) || (i64_max <? package) || (payload =? 0) || (i64_max <? payload) ||
     (entries =? 0) || (i32_max <? entries) || (cumulative =? 0) || (i64_max <? cumulative) ||
     (name =? 0) || (0xFFFF <? name) || (ratio =? 0) || (i32_max <? ratio) || (i64_max <? threshold)
  then None
  else Some (mkLimits package payload (u32 entries) cumulative (u16 name) (u32 ratio) threshold).

Definition defaults : BoundedZipLimits :=
  mkLimits (8 * 1024 * 1024) (8 * 1024 * 1024) 2048 (32 * 1024 * 1024) 1024 200 (1024 * 1024).

Record CentralEntry := mkCentral {
  raw_name : bytes;
  central_extra : bytes;
  local_header_offset : Z;
  flags : Z;
  method : Z;
  crc32 : Z;
  compressed_size : Z;
  uncompressed_size : Z;
}.

Record BoundedZipEntry := mkEntry { central : CentralEntry; is_directory : bool }.

Record LocalHeaderValidation := mkLocal { data_offset : Z; entry_end : Z }.

Record ParsedEntries := mkParsed { entries : list BoundedZipEntry; data_offsets : list Z }.

Record BoundedZipArchive := mkArchive {
  limits_ : BoundedZipLimits;
  physical_bytes_ : bytes;
  entries_ : list BoundedZipEntry;
  data_offsets_ : list Z;
}.

(** *** Exceptions

    [ValidationFailure] is the exception of the file, caught at its boundary; the
    standard exceptions leave it.  [OutOfFuel] is no exception: no run reaches it. *)

Inductive Exception :=
  | ValidationFailure (code : ZipOpenCode) (message : string)
  | RuntimeError (message : string)
  | BadAlloc
  | OutOfFuel.

Definition checked (A : Type) : Type := Exception + A.

#[global] Instance checked_ret : MRet checked := fun _ a => inr a.
#[global] Instance checked_bind : MBind checked := fun _ _ k m =>
  match m with inl e => inl e | inr a => k a end.

Definition fail {A} (code : ZipOpenCode) (message : string) : checked A := inl (ValidationFailure code message).
Definition invalid {A} (message : string) : checked A := fail INVALID_ZIP message.

(** [if (condition) fail(code, message);] *)
Definition refuse (condition : bool) (code : ZipOpenCode) (message : string) : checked unit :=
  if condition then fail code message else mret tt.

(** The boundary: a validation failure becomes an error value. *)
Record BoundedZipOpenError := mkError { error_code : ZipOpenCode; error_message : string }.

Definition catch {A} (m : checked A) : checked (BoundedZipOpenError + A) :=
  match m with
  | inl (ValidationFailure code message) => inr (inl (mkError code message))
  | inl e => inl e
  | inr a => inr (inr a)
  end.

(** ** Reading *)

Definition require_range (b : bytes) (offset length : Z) (message : string) : checked unit :=
  refuse ((zlen b <? offset) || (zlen b - offset <? length)) INVALID_ZIP message.

Definition unsigned_short (b : bytes) (offset : Z) : checked Z :=
  _ ← require_range b offset 2 "ZIP structure is truncated";
  mret (Z.lor (at_ b offset) (Z.shiftl (at_ b (offset + 1)) 8)).

Definition unsigned_int (b : bytes) (offset : Z) : checked Z :=
  _ ← require_range b offset 4 "ZIP structure is truncated";
  mret (Z.lor (Z.lor (Z.lor (at_ b offset) (Z.shiftl (at_ b (offset + 1)) 8)) (Z.shiftl (at_ b (offset + 2)) 16))
          (Z.shiftl (at_ b (offset + 3)) 24)).

Definition checked_add (first second : Z) (message : string) : checked Z :=
  _ ← refuse (u64_max - second <? first) INVALID_ZIP message; mret (first + second).

Definition local_signature : Z := 0x04034B50.
Definition central_signature : Z := 0x02014B50.
Definition end_signature : Z := 0x06054B50.
Definition descriptor_signature : Z := 0x08074B50.
Definition encrypted_flag : Z := 0x0001.
Definition data_descriptor_flag : Z := 0x0008.
Definition efs_flag : Z := 0x0800.

Definition has_flag (value flag : Z) : bool := negb (Z.land value flag =? 0).

(** ** The end record

    Every place, from the last possible one backwards over the longest comment, whose
    comment ends with the archive. *)

Fixpoint scan_end_records (n : nat) (archive : bytes) (offset : Z) : checked (list Z) :=
  match n with
  | O => mret []
  | S n =>
    signature ← unsigned_int archive offset;
    found ← (if signature =? end_signature
             then comment_length ← unsigned_short archive (offset + 20);
                  mret (offset + 22 + comment_length =? zlen archive)
             else mret false);
    rest ← scan_end_records n archive (offset - 1);
    mret (if found : bool then offset :: rest else rest)
  end.

Definition find_end_records (archive : bytes) : checked (list Z) :=
  _ ← refuse (zlen archive <? 22) INVALID_ZIP "ZIP end record is missing";
  let last := zlen archive - 22 in
  let scan_distance := 22 + 0xFFFF in
  let earliest := if scan_distance <? zlen archive then zlen archive - scan_distance else 0 in
  candidates ← scan_end_records (Z.to_nat (last - earliest + 1)) archive last;
  match candidates with
  | [] => invalid "ZIP end record is missing or truncated"
  | _ => mret candidates
  end.

(** ** Entries *)

Definition validate_ratio (entry : CentralEntry) (limits : BoundedZipLimits) : checked unit :=
  if uncompressed_size entry <=? ratio_guard_threshold_bytes limits then mret tt
  else
    let maximum := u64 (compressed_size entry * max_compression_ratio limits) in
    refuse ((compressed_size entry =? 0) || (maximum <? uncompressed_size entry)) RATIO_LIMIT_EXCEEDED
      "ZIP compression ratio exceeds the limit".

Definition require_zero_or_equal (local central : Z) (field : string) : checked unit :=
  if (local =? 0) || (local =? central) then mret tt
  else if bool_decide (field = "CRC"%string) then invalid "ZIP local and central CRC differ"
  else if bool_decide (field = "compressed size"%string) then invalid "ZIP local and central compressed size differ"
  else invalid "ZIP local and central size differ".

Definition descriptor_matches (archive : bytes) (entry : CentralEntry) (offset : Z) : checked bool :=
  crc ← unsigned_int archive offset;
  if negb (crc =? crc32 entry) then mret false
  else
    compressed ← unsigned_int archive (offset + 4);
    if negb (compressed =? compressed_size entry) then mret false
    else
      uncompressed ← unsigned_int archive (offset + 8);
      mret (uncompressed =? uncompressed_size entry).

(** The data descriptor behind the payload, with or without its signature. *)
Definition descriptor_end (archive : bytes) (entry : CentralEntry) (central_offset boundary payload_end : Z) : checked Z :=
  _ ← refuse (boundary <? payload_end) INVALID_ZIP "ZIP local entries overlap";
  let available := boundary - payload_end in
  _ ← refuse (available <? 4) INVALID_ZIP
        (if boundary <? central_offset then "ZIP local entries overlap"
         else "ZIP data descriptor overlaps the central directory");
  first ← unsigned_int archive payload_end;
  unsigned_matches ← (if 12 <=? available then descriptor_matches archive entry payload_end else mret false);
  signed_matches ← (if (first =? descriptor_signature) && (16 <=? available)
                    then descriptor_matches archive entry (payload_end + 4) else mret false);
  if unsigned_matches && signed_matches then invalid "ZIP data descriptor is ambiguous"
  else if signed_matches : bool then mret (payload_end + 16)
  else if unsigned_matches : bool then mret (payload_end + 12)
  else if (boundary <? central_offset) &&
          ((available <? 12) || ((first =? descriptor_signature) && (available <? 16)))
  then invalid "ZIP local entries overlap"
  else if negb (first =? descriptor_signature) && (available <? 12)
  then invalid "ZIP data descriptor overlaps the central directory"
  else if (first =? descriptor_signature) && (12 <=? available) && (available <? 16)
  then invalid "ZIP data descriptor overlaps the central directory"
  else invalid "ZIP data descriptor differs from central metadata".

(** The message of an overlap depends on whether the descriptor belongs to the last entry. *)
Definition validate_local_header (archive : bytes) (entry : CentralEntry) (central_offset boundary : Z)
    : checked LocalHeaderValidation :=
  let offset := local_header_offset entry in
  _ ← require_range archive offset 30 "ZIP local header is truncated";
  signature ← unsigned_int archive offset;
  _ ← refuse (negb (signature =? local_signature)) INVALID_ZIP "ZIP local header signature is invalid";
  local_flags ← unsigned_short archive (offset + 6);
  local_method ← unsigned_short archive (offset + 8);
  _ ← refuse (negb (local_flags =? flags entry) || negb (local_method =? method entry)) INVALID_ZIP
        "ZIP local and central flags or methods differ";
  name_length ← unsigned_short archive (offset + 26);
  extra_length ← unsigned_short archive (offset + 28);
  _ ← refuse (negb (name_length =? zlen (raw_name entry))) INVALID_ZIP "ZIP local and central entry names differ";
  let metadata_length := name_length + extra_length in
  _ ← require_range archive (offset + 30) metadata_length "ZIP local entry metadata is truncated";
  _ ← refuse (negb (bool_decide (slice archive (offset + 30) (zlen (raw_name entry)) = raw_name entry))) INVALID_ZIP
        "ZIP local and central entry names differ";
  data_offset ← checked_add (offset + 30) metadata_length "ZIP local data offset overflows";
  payload_end ← checked_add data_offset (compressed_size entry) "ZIP entry size overflows";
  _ ← refuse ((central_offset <? payload_end) || (i32_max <? data_offset)) INVALID_ZIP
        "ZIP compressed payload is truncated";
  local_crc ← unsigned_int archive (offset + 14);
  local_compressed ← unsigned_int archive (offset + 18);
  local_uncompressed ← unsigned_int archive (offset + 22);
  if has_flag local_flags data_descriptor_flag then
    _ ← require_zero_or_equal local_crc (crc32 entry) "CRC";
    _ ← require_zero_or_equal local_compressed (compressed_size entry) "compressed size";
    _ ← require_zero_or_equal local_uncompressed (uncompressed_size entry) "size";
    entry_end ← descriptor_end archive entry central_offset boundary payload_end;
    mret (mkLocal data_offset entry_end)
  else
    _ ← refuse (negb (local_crc =? crc32 entry) || negb (local_compressed =? compressed_size entry) ||
                negb (local_uncompressed =? uncompressed_size entry)) INVALID_ZIP
          "ZIP local and central CRC or sizes differ";
    mret (mkLocal data_offset payload_end).

(** One record of the central directory and where the next begins. *)
Definition central_entry (archive : bytes) (limits : BoundedZipLimits) (central_end : Z) (apply_policy : bool)
    (cursor : Z) : checked (CentralEntry * Z) :=
  _ ← require_range archive cursor 46 "ZIP central directory is truncated";
  signature ← unsigned_int archive cursor;
  _ ← refuse (negb (signature =? central_signature)) INVALID_ZIP "ZIP central directory signature is invalid";
  flags ← unsigned_short archive (cursor + 8);
  method ← unsigned_short archive (cursor + 10);
  name_length ← unsigned_short archive (cursor + 28);
  extra_length ← unsigned_short archive (cursor + 30);
  comment_length ← unsigned_short archive (cursor + 32);
  _ ← refuse (name_length =? 0) INVALID_ZIP "ZIP entry name is empty";
  _ ← refuse (apply_policy && (max_name_bytes limits <? name_length)) NAME_LIMIT_EXCEEDED
        "ZIP entry name exceeds the limit";
  disk ← unsigned_short archive (cursor + 34);
  _ ← refuse (negb (disk =? 0)) INVALID_ZIP "split ZIP entries are unsupported";
  local_offset ← unsigned_int archive (cursor + 42);
  _ ← refuse ((local_offset =? 0xFFFFFFFF) || (i32_max <? local_offset)) INVALID_ZIP
        "ZIP64 local headers are unsupported";
  let variable_length := name_length + extra_length + comment_length in
  central_entry_end ← checked_add (cursor + 46) variable_length "ZIP central entry overflows";
  _ ← refuse (central_end <? central_entry_end) INVALID_ZIP "ZIP central entry is truncated";
  let name_begin := cursor + 46 in
  let raw_name := slice archive name_begin name_length in
  let central_extra := slice archive (name_begin + name_length) extra_length in
  _ ← refuse (apply_policy && has_flag flags encrypted_flag) ENCRYPTED "encrypted ZIP entries are unsupported";
  _ ← refuse (apply_policy && negb (method =? 0) && negb (method =? 8)) UNSUPPORTED_COMPRESSION
        "ZIP compression method is unsupported";
  _ ← refuse (has_flag flags efs_flag && negb (is_strict_utf8 raw_name)) INVALID_ZIP "ZIP entry name encoding is invalid";
  crc ← unsigned_int archive (cursor + 16);
  compressed ← unsigned_int archive (cursor + 20);
  uncompressed ← unsigned_int archive (cursor + 24);
  let entry := mkCentral raw_name central_extra local_offset flags method crc compressed uncompressed in
  _ ← (if apply_policy then validate_ratio entry limits else mret tt);
  mret (entry, central_entry_end).

Fixpoint central_loop (n : nat) (archive : bytes) (limits : BoundedZipLimits) (central_end : Z) (apply_policy : bool)
    (cursor : Z) : checked (list CentralEntry * Z) :=
  match n with
  | O => mret ([], cursor)
  | S n =>
    first ← central_entry archive limits central_end apply_policy cursor;
    rest ← central_loop n archive limits central_end apply_policy first.2;
    mret (first.1 :: rest.1, rest.2)
  end.

(** [std::stable_sort] by the offset of the local header. *)
Fixpoint insert_by_offset (entry : CentralEntry) (sorted : list CentralEntry) : list CentralEntry :=
  match sorted with
  | [] => [entry]
  | head :: tail =>
    if local_header_offset entry <=? local_header_offset head then entry :: sorted
    else head :: insert_by_offset entry tail
  end.

Definition sort_by_offset (entries : list CentralEntry) : list CentralEntry := foldr insert_by_offset [] entries.

Fixpoint local_loop (archive : bytes) (limits : BoundedZipLimits) (central_offset : Z) (apply_policy : bool)
    (central_entries : list CentralEntry) (previous_entry_end : option Z) (declared_inflated : Z) : checked (list Z) :=
  match central_entries with
  | [] => mret []
  | central :: rest =>
    let local_offset := local_header_offset central in
    _ ← refuse (match previous_entry_end with Some e => local_offset <? e | None => false end) INVALID_ZIP
          "ZIP local entries overlap";
    let boundary :=
      match rest with
      | next :: _ => Z.min (local_header_offset next) central_offset
      | [] => central_offset
      end in
    local ← validate_local_header archive central central_offset boundary;
    declared ← (if apply_policy then
                  declared ← checked_add declared_inflated (uncompressed_size central) "ZIP inflated total overflows";
                  _ ← refuse (max_cumulative_inflated_bytes limits <? declared) INFLATED_LIMIT_EXCEEDED
                        "ZIP inflated total exceeds the limit";
                  mret declared
                else mret declared_inflated);
    offsets ← local_loop archive limits central_offset apply_policy rest (Some (entry_end local)) declared;
    mret (data_offset local :: offsets)
  end.

Definition entry_of (central : CentralEntry) : BoundedZipEntry :=
  let back := at_ (raw_name central) (zlen (raw_name central) - 1) in
  mkEntry central (negb (bool_decide (raw_name central = [])) && ((back =? 0x2F) || (back =? 0x5C))).

Definition parse_entries_at_end_record (archive : bytes) (limits : BoundedZipLimits) (end_record : Z)
    (apply_policy : bool) : checked ParsedEntries :=
  disk_number ← unsigned_short archive (end_record + 4);
  central_directory_disk ← unsigned_short archive (end_record + 6);
  entries_on_disk ← unsigned_short archive (end_record + 8);
  total_entries ← unsigned_short archive (end_record + 10);
  central_size ← unsigned_int archive (end_record + 12);
  central_offset ← unsigned_int archive (end_record + 16);
  _ ← refuse (apply_policy && (max_zip_entries limits <? total_entries)) ENTRY_LIMIT_EXCEEDED
        "ZIP entry count exceeds the limit";
  _ ← refuse (negb (disk_number =? 0) || negb (central_directory_disk =? 0) || negb (entries_on_disk =? total_entries))
        INVALID_ZIP "split ZIP archives are unsupported";
  _ ← refuse ((total_entries =? 0xFFFF) || (central_size =? 0xFFFFFFFF) || (central_offset =? 0xFFFFFFFF))
        INVALID_ZIP "ZIP64 archives are unsupported";
  central_end ← checked_add central_offset central_size "central directory overflows";
  _ ← refuse (negb (central_end =? end_record) || (i32_max <? central_offset)) INVALID_ZIP
        "ZIP central directory bounds are invalid";
  directory ← central_loop (Z.to_nat total_entries) archive limits central_end apply_policy central_offset;
  _ ← refuse (negb (directory.2 =? central_end)) INVALID_ZIP "ZIP central entry count is invalid";
  let central_entries := sort_by_offset directory.1 in
  offsets ← local_loop archive limits central_offset apply_policy central_entries None 0;
  _ ← refuse (match central_entries with
              | [] => negb (central_offset =? 0)
              | front :: _ => negb (local_header_offset front =? 0)
              end) INVALID_ZIP "ZIP prefix bytes are unsupported";
  mret (mkParsed (entry_of <$> central_entries) offsets).

(** The structural interpretations of the candidates: exactly one may exist. *)
Record Candidates := mkCandidates {
  structural_end_record : option Z;
  first_structural_failure : option (ZipOpenCode * string);
}.

Fixpoint structural_loop (archive : bytes) (limits : BoundedZipLimits) (end_records : list Z) (found : Candidates)
    : checked Candidates :=
  match end_records with
  | [] => mret found
  | end_record :: rest =>
    match parse_entries_at_end_record archive limits end_record false with
    | inl (ValidationFailure code message) =>
      structural_loop archive limits rest
        (match first_structural_failure found with
         | None => mkCandidates (structural_end_record found) (Some (code, message))
         | Some _ => found
         end)
    | inl e => inl e
    | inr _ =>
      match structural_end_record found with
      | Some _ => invalid "ZIP end record is ambiguous"
      | None => structural_loop archive limits rest (mkCandidates (Some end_record) (first_structural_failure found))
      end
    end
  end.

Definition parse_entries (archive : bytes) (limits : BoundedZipLimits) : checked ParsedEntries :=
  end_records ← find_end_records archive;
  found ← structural_loop archive limits end_records (mkCandidates None None);
  match structural_end_record found with
  | Some end_record => parse_entries_at_end_record archive limits end_record true
  | None =>
    _ ← parse_entries_at_end_record archive limits (default 0 (head end_records)) true;
    match first_structural_failure found with
    | Some (code, message) => fail code message
    | None => invalid "ZIP end record is missing or truncated"
    end
  end.

(** A null pointer is [None]; the archive owns its own copy. *)
Definition open_bounded_zip (data : option bytes) (size : Z) (limits : BoundedZipLimits)
    : checked (BoundedZipOpenError + BoundedZipArchive) :=
  if max_package_bytes limits <? size then
    mret (inl (mkError PACKAGE_LIMIT_EXCEEDED "ZIP package is over the source limit"))
  else if bool_decide (data = None) && negb (size =? 0) then
    mret (inl (mkError INVALID_ZIP "ZIP bytes pointer is null"))
  else
    let physical_bytes := if negb (size =? 0) then slice (default [] data) 0 size else [] in
    catch (parsed ← parse_entries physical_bytes limits;
           mret (mkArchive limits physical_bytes (entries parsed) (data_offsets parsed))).

(** ** Lemmas *)

(** *** Successful computations *)

Lemma bind_inr {A B} (m : checked A) (k : A -> checked B) b :
  (a ← m; k a) = inr b -> exists a, m = inr a /\ k a = inr b.
Proof. destruct m as [|a]; [done |]. by exists a. Qed.

Lemma refuse_inr c code message u : refuse c code message = inr u -> c = false.
Proof. by destruct c. Qed.

Lemma mret_inr {A} (a b : A) : mret (M := checked) a = inr b -> a = b.
Proof. by intros [= ->]. Qed.

(** Takes a successful computation apart. *)
Ltac checked_step :=
  match goal with
  | H : mbind _ _ = inr _ |- _ => let x := fresh "x" in let E := fresh "E" in apply bind_inr in H as (x & E & H)
  | H : refuse _ _ _ = inr _ |- _ => apply refuse_inr in H
  | H : mret _ = inr _ |- _ => apply mret_inr in H
  | H : fail _ _ = inr _ |- _ => discriminate H
  | H : invalid _ = inr _ |- _ => discriminate H
  end.

Lemma range_inr b offset length message u :
  require_range b offset length message = inr u -> offset <= zlen b /\ offset + length <= zlen b.
Proof. unfold require_range. intros H. checked_step. bool_hyps. lia. Qed.

Lemma short_inr b offset v :
  is_bytes b -> unsigned_short b offset = inr v -> 0 <= v /\ offset + 2 <= zlen b.
Proof.
  intros Hb H. unfold unsigned_short in H. repeat checked_step. apply range_inr in E as [_ ?]. subst v. split; [| done].
  assert (forall i, 0 <= at_ b i) as Hpos by (intros i; apply (at_byte b i Hb)).
  apply Z.lor_nonneg. split; [apply Hpos | by apply Z.shiftl_nonneg].
Qed.

Lemma int_inr b offset v : is_bytes b -> unsigned_int b offset = inr v -> 0 <= v /\ offset + 4 <= zlen b.
Proof.
  intros Hb H. unfold unsigned_int in H. repeat checked_step. apply range_inr in E as [_ ?]. subst v. split; [| done].
  assert (forall i, 0 <= at_ b i) as Hpos by (intros i; apply (at_byte b i Hb)).
  rewrite !Z.lor_nonneg, !Z.shiftl_nonneg. auto 10.
Qed.

Lemma add_inr a b message v : checked_add a b message = inr v -> v = a + b.
Proof. unfold checked_add. intros H. by repeat checked_step. Qed.

(** *** What an accepted entry satisfies *)

Record entry_ok (limits : BoundedZipLimits) (e : CentralEntry) : Prop := {
  entry_name : 0 < zlen (raw_name e) <= max_name_bytes limits;
  entry_plain : has_flag (flags e) encrypted_flag = false;
  entry_method : method e = 0 \/ method e = 8;
  entry_utf8 : has_flag (flags e) efs_flag = true -> is_strict_utf8 (raw_name e) = true;
  entry_sizes : 0 <= local_header_offset e <= i32_max /\ 0 <= compressed_size e /\ 0 <= uncompressed_size e;
  entry_ratio : uncompressed_size e <= ratio_guard_threshold_bytes limits \/
                uncompressed_size e <= compressed_size e * max_compression_ratio limits;
}.

Lemma ratio_inr e limits u :
  0 <= max_compression_ratio limits -> 0 <= compressed_size e -> validate_ratio e limits = inr u ->
  uncompressed_size e <= ratio_guard_threshold_bytes limits \/
  uncompressed_size e <= compressed_size e * max_compression_ratio limits.
Proof.
  intros Hr Hc. unfold validate_ratio. destruct (Z.leb_spec (uncompressed_size e) (ratio_guard_threshold_bytes limits)); [auto |].
  cbv zeta. intros G. checked_step. bool_hyps. right. unfold u64 in *.
  pose proof (Z.mod_le (compressed_size e * max_compression_ratio limits) (2 ^ 64) ltac:(nia) ltac:(lia)). lia.
Qed.

Section Opened.
Variables (b : bytes) (limits : BoundedZipLimits).
Hypothesis Hb : is_bytes b.

(** Facts of the numbers read. *)
#[local] Ltac read_facts :=
  repeat match goal with
  | E : unsigned_short b _ = inr _ |- _ => apply (short_inr _ _ _ Hb) in E as [? ?]
  | E : unsigned_int b _ = inr _ |- _ => apply (int_inr _ _ _ Hb) in E as [? ?]
  | E : require_range b _ _ _ = inr _ |- _ => apply range_inr in E as [? ?]
  | E : checked_add _ _ _ = inr _ |- _ => apply add_inr in E
  end.

Lemma central_entry_ok central_end cursor e next :
  0 <= max_compression_ratio limits -> 0 <= cursor -> central_end <= zlen b ->
  central_entry b limits central_end true cursor = inr (e, next) ->
  entry_ok limits e /\ cursor <= next.
Proof using Hb.
  intros Hr Hcursor Hend H. unfold central_entry in H. repeat checked_step. read_facts.
  injection H as <- <-. match goal with E : validate_ratio _ _ = _ |- _ => apply ratio_inr in E; [| done..] end.
  cbn [andb] in *. bool_hyps.
  match goal with |- entry_ok _ (mkCentral (slice b ?i ?n) _ _ _ _ _ _ _) /\ _ =>
    assert (zlen (slice b i n) = n) by (apply zlen_slice; lia) end.
  split; [| lia]. split; cbn; try done; try lia.
  intros Hefs. rewrite Hefs in *. by destruct (is_strict_utf8 _).
Qed.

Lemma central_loop_ok n central_end cursor es next :
  0 <= max_compression_ratio limits -> 0 <= cursor -> central_end <= zlen b ->
  central_loop n b limits central_end true cursor = inr (es, next) ->
  Forall (entry_ok limits) es /\ length es = n.
Proof using Hb.
  intros Hr Hcursor Hend. revert cursor es next Hcursor. induction n as [|n IH]; intros cursor es next Hcursor H; cbn [central_loop] in H.
  - checked_step. injection H as <- <-. by split.
  - repeat checked_step. match goal with E : central_entry _ _ _ _ _ = inr ?p |- _ => destruct p as [e k]; rename E into He end.
    cbn [fst snd] in *. apply central_entry_ok in He as [He Hk]; [| done..].
    match goal with E : central_loop _ _ _ _ _ _ = inr ?p |- _ => destruct p as [rest k']; apply IH in E as [? ?]; [| lia] end.
    cbn [fst snd] in *. injection H as <- <-. split; [by constructor | cbn; congruence].
Qed.

(** *** The local headers *)

Lemma descriptor_end_after e central_offset boundary payload_end v :
  descriptor_end b e central_offset boundary payload_end = inr v -> payload_end <= v.
Proof using.
  clear. unfold descriptor_end. cbv zeta. intros H. do 5 checked_step.
  repeat match goal with H : (if ?c then _ else _) = inr v |- _ => destruct c end; repeat checked_step; lia.
Qed.

Lemma local_header_ok e central_offset boundary local :
  0 <= local_header_offset e ->
  validate_local_header b e central_offset boundary = inr local ->
  slice b (local_header_offset e + 30) (zlen (raw_name e)) = raw_name e /\
  local_header_offset e + 30 + zlen (raw_name e) <= data_offset local <= i32_max /\
  data_offset local + compressed_size e <= central_offset /\
  data_offset local + compressed_size e <= entry_end local.
Proof using Hb.
  intros Hpos H. unfold validate_local_header in H. cbv zeta in H. repeat checked_step.
  repeat match goal with E : unsigned_short b _ = inr _ |- _ => apply (short_inr _ _ _ Hb) in E as [? ?] end.
  repeat match goal with E : checked_add _ _ _ = inr _ |- _ => apply add_inr in E end. bool_hyps.
  destruct (has_flag _ _).
  - repeat checked_step. match goal with E : descriptor_end _ _ _ _ _ = _ |- _ => apply descriptor_end_after in E end.
    subst local. cbn. split_and!; try done; lia.
  - repeat checked_step. subst local. cbn. split_and!; try done; lia.
Qed.

(** The windows of the entries, in order and apart: each behind the header that names
    it, all of them before the central directory. *)
Fixpoint laid_out (limit from : Z) (es : list CentralEntry) (offsets : list Z) : Prop :=
  match es, offsets with
  | [], [] => True
  | e :: es, d :: offsets =>
    from <= local_header_offset e /\
    slice b (local_header_offset e + 30) (zlen (raw_name e)) = raw_name e /\
    local_header_offset e + 30 + zlen (raw_name e) <= d <= i32_max /\
    d + compressed_size e <= limit /\ laid_out limit (d + compressed_size e) es offsets
  | _, _ => False
  end.

Lemma laid_out_from limit from from' es offsets :
  from' <= from -> laid_out limit from es offsets -> laid_out limit from' es offsets.
Proof using. clear. destruct es, offsets; cbn; [done | done | done |]. intros ? (? & ?). split; [lia | done]. Qed.

Lemma local_loop_ok central_offset es previous declared offsets :
  Forall (entry_ok limits) es ->
  local_loop b limits central_offset true es previous declared = inr offsets ->
  laid_out central_offset (default 0 previous) es offsets /\
  declared + total (uncompressed_size <$> es) <= Z.max declared (max_cumulative_inflated_bytes limits).
Proof using Hb.
  intros Hes. revert previous declared offsets. induction Hes as [|e es He Hes IH]; intros previous declared offsets H;
    cbn [local_loop] in H.
  - checked_step. subst offsets. cbn. split; [done | lia].
  - cbv zeta in H. repeat checked_step.
    match goal with E : checked_add _ _ _ = _ |- _ => apply add_inr in E end.
    match goal with E : local_loop _ _ _ _ _ _ _ = _ |- _ => apply IH in E as [Hlaid Hsum] end.
    destruct (entry_sizes _ _ He) as (? & ? & ?).
    match goal with E : validate_local_header _ _ _ _ = _ |- _ => apply local_header_ok in E as (L1 & L2 & L3 & L4); [| lia] end.
    bool_hyps. subst. rewrite fmap_cons. cbn [total laid_out default]. split; [| lia].
    split; [by destruct previous; cbn; bool_hyps; lia |]. split_and!; try done; try lia.
    by apply (laid_out_from _ _ _ _ _ L4).
Qed.

End Opened.

(** *** Sorting *)

Lemma insert_perm e es : insert_by_offset e es ≡ₚ e :: es.
Proof.
  induction es as [|h t IH]; [done |]. cbn. destruct (_ <=? _); [done |]. rewrite IH. apply Permutation_swap.
Qed.

Lemma sort_perm es : sort_by_offset es ≡ₚ es.
Proof. induction es as [|e es IH]; [done |]. cbn. rewrite insert_perm. by constructor. Qed.

(** *** An opened archive *)

Lemma scan_bounded n b offset found :
  is_bytes b -> scan_end_records n b offset = inr found -> Forall (fun o => o + 4 <= zlen b) found.
Proof.
  intros Hb. revert offset found. induction n as [|n IH]; intros offset found H; cbn [scan_end_records] in H.
  - checked_step. by subst.
  - repeat checked_step. subst. match goal with E : scan_end_records _ _ _ = _ |- _ => apply IH in E end.
    match goal with E : unsigned_int _ offset = _ |- _ => apply int_inr in E as [_ ?]; [| done] end.
    match goal with |- Forall _ (if ?c then _ else _) => destruct c end; [by constructor | done].
Qed.

Lemma find_bounded b found :
  is_bytes b -> find_end_records b = inr found -> Forall (fun o => o + 4 <= zlen b) found.
Proof.
  intros Hb H. unfold find_end_records in H. cbv zeta in H. repeat checked_step.
  match goal with E : scan_end_records _ _ _ = inr ?l |- _ => apply scan_bounded in E; [| done]; destruct l end;
    checked_step; by subst.
Qed.

(** The structural reading of one end record. *)
Definition directory_ok (limits : BoundedZipLimits) (b : bytes) (parsed : ParsedEntries) : Prop :=
  let es := central <$> entries parsed in
  Forall (entry_ok limits) es /\ zlen es <= max_zip_entries limits /\
  (forall e rest, es = e :: rest -> local_header_offset e = 0) /\
  total (uncompressed_size <$> es) <= Z.max 0 (max_cumulative_inflated_bytes limits) /\
  exists central_offset, 0 <= central_offset <= zlen b /\ laid_out b central_offset 0 es (data_offsets parsed).

Lemma central_entry_of (es : list CentralEntry) : central <$> (entry_of <$> es) = es.
Proof. induction es as [|e es IH]; [done |]. rewrite !fmap_cons, IH. done. Qed.

Lemma parse_record_ok b limits end_record parsed :
  is_bytes b -> 0 <= max_compression_ratio limits -> end_record <= zlen b ->
  parse_entries_at_end_record b limits end_record true = inr parsed -> directory_ok limits b parsed.
Proof.
  intros Hb Hr Hend H. unfold parse_entries_at_end_record in H. cbv zeta in H. repeat checked_step. bool_hyps.
  repeat match goal with E : unsigned_short b _ = inr _ |- _ => apply (short_inr _ _ _ Hb) in E as [? ?] end.
  repeat match goal with E : unsigned_int b _ = inr _ |- _ => apply (int_inr _ _ _ Hb) in E as [? ?] end.
  match goal with E : checked_add _ _ _ = inr _ |- _ => apply add_inr in E end.
  match goal with E : central_loop _ _ _ _ _ _ = inr ?p |- _ =>
    destruct p as [es next]; apply (central_loop_ok b limits Hb) in E as [Hes Hlen]; [| lia..] end.
  cbn [fst snd] in *.
  match goal with E : local_loop _ _ _ _ _ _ _ = inr _ |- _ => apply (local_loop_ok b limits Hb) in E as [Hlaid Hsum] end.
  2:{ by rewrite sort_perm. }
  subst parsed. unfold directory_ok. cbn [entries data_offsets]. rewrite central_entry_of. split_and!.
  - by rewrite sort_perm.
  - unfold zlen. rewrite sort_perm. lia.
  - intros e rest E. rewrite E in *. bool_hyps. lia.
  - lia.
  - eexists. split; [| exact Hlaid]. lia.
Qed.

(** *** The limits and the reading

    A computation under looser limits succeeds with the same value. *)

Definition loosens {A} (m m' : checked A) : Prop := forall a, m = inr a -> m' = inr a.

Lemma loosens_refl {A} (m : checked A) : loosens m m.
Proof. by intros a. Qed.

Lemma loosens_bind {A B} (m m' : checked A) (k k' : A -> checked B) :
  loosens m m' -> (forall a, m = inr a -> loosens (k a) (k' a)) -> loosens (a ← m; k a) (a ← m'; k' a).
Proof. intros Hm Hk v (a & Ha & Hv)%bind_inr. rewrite (Hm a Ha). cbn. by apply (Hk a Ha). Qed.

Lemma loosens_refuse c c' code message code' message' :
  (c' = true -> c = true) -> loosens (refuse c code message) (refuse c' code' message').
Proof. intros H [] Hc%refuse_inr. destruct c'; [by specialize (H eq_refl); congruence | done]. Qed.

Definition tighter (l l' : BoundedZipLimits) : Prop :=
  max_package_bytes l <= max_package_bytes l' /\ max_zip_entries l <= max_zip_entries l' /\
  max_cumulative_inflated_bytes l <= max_cumulative_inflated_bytes l' /\ max_name_bytes l <= max_name_bytes l' /\
  max_compression_ratio l <= max_compression_ratio l' /\ ratio_guard_threshold_bytes l <= ratio_guard_threshold_bytes l' /\
  0 <= max_compression_ratio l /\ max_compression_ratio l' <= i32_max.

Lemma lor_below a b k : 0 <= a < 2 ^ k -> 0 <= b < 2 ^ k -> 0 <= k -> 0 <= Z.lor a b < 2 ^ k.
Proof.
  intros Ha Hb Hk. split; [apply Z.lor_nonneg; lia |]. destruct (decide (Z.lor a b = 0)) as [->|N]; [lia |].
  assert (0 <= Z.lor a b) by (apply Z.lor_nonneg; lia). apply Z.log2_lt_pow2; [lia |]. rewrite Z.log2_lor by lia.
  assert (forall x, 0 <= x < 2 ^ k -> Z.log2 x < k \/ x = 0) as Hlog.
  { intros x Hx. destruct (decide (x = 0)); [by right | left]. apply Z.log2_lt_pow2; lia. }
  destruct (Hlog a Ha), (Hlog b Hb); subst; rewrite ?Z.lor_0_l, ?Z.lor_0_r in *; cbn [Z.log2]; try lia.
  all: destruct (decide (k = 0)) as [->|]; [| lia]; lia.
Qed.

Lemma int_below b offset v : is_bytes b -> unsigned_int b offset = inr v -> 0 <= v < 2 ^ 32.
Proof.
  intros Hb H. unfold unsigned_int in H. repeat checked_step. subst v.
  assert (forall i k, 0 <= k <= 24 -> 0 <= Z.shiftl (at_ b i) k < 2 ^ 32) as Hpart.
  { intros i k Hk. pose proof (at_byte b i Hb) as Hi. unfold is_byte in Hi. rewrite Z.shiftl_mul_pow2 by lia.
    assert (2 ^ k <= 2 ^ 24) by (apply Z.pow_le_mono_r; lia). nia. }
  rewrite <- (Z.shiftl_0_r (at_ b offset)). repeat apply lor_below; try lia; by apply Hpart.
Qed.

Section Loosen.
Variables (b : bytes) (l l' : BoundedZipLimits) (policy : bool).
Hypothesis Hb : is_bytes b.
Hypothesis Hl : policy = true -> tighter l l'.

Lemma ratio_loosens e :
  0 <= compressed_size e < 2 ^ 32 ->
  loosens (validate_ratio e l) (if policy then validate_ratio e l' else mret tt).
Proof using Hl.
  intros Hc [] H. destruct policy; [| done]. destruct Hl as (_ & _ & _ & _ & Hr & Ht & H0 & H1); [done |].
  unfold validate_ratio in *. destruct (Z.leb_spec (uncompressed_size e) (ratio_guard_threshold_bytes l')); [done |].
  destruct (Z.leb_spec (uncompressed_size e) (ratio_guard_threshold_bytes l)); [lia |]. cbv zeta in *.
  apply refuse_inr in H. apply orb_false_iff in H as [G1 G2]. unfold u64, i32_max in *.
  rewrite Z.mod_small in * by nia. unfold refuse. rewrite G1. cbn [orb].
  destruct (Z.ltb_spec (compressed_size e * max_compression_ratio l') (uncompressed_size e)); [nia | done].
Qed.

#[local] Ltac same_step := first
  [ apply loosens_refl
  | apply loosens_bind; [| intros]
  | apply loosens_refuse; intros; destruct policy; first
      [ done | destruct Hl as (? & ? & ? & ? & ?); [done |]; cbn [andb] in *; bool_hyps; lia ] ].

Lemma central_entry_loosens central_end cursor :
  loosens (central_entry b l central_end true cursor) (central_entry b l' central_end policy cursor).
Proof using Hb Hl.
  unfold central_entry. cbv zeta. repeat same_step. apply ratio_loosens. cbn [compressed_size]. by eapply int_below.
Qed.

Lemma central_loop_loosens n central_end cursor :
  loosens (central_loop n b l central_end true cursor) (central_loop n b l' central_end policy cursor).
Proof using Hb Hl.
  revert cursor. induction n as [|n IH]; intros cursor; [apply loosens_refl |].
  cbn [central_loop]. apply loosens_bind; [apply central_entry_loosens | intros].
  apply loosens_bind; [apply IH | intros; apply loosens_refl].
Qed.

Lemma local_loop_loosens central_offset es previous declared declared' :
  (policy = true -> declared = declared') ->
  loosens (local_loop b l central_offset true es previous declared)
    (local_loop b l' central_offset policy es previous declared').
Proof using Hl.
  revert previous declared declared'. induction es as [|e es IH]; intros previous declared declared' Heq; [apply loosens_refl |].
  cbn [local_loop]. cbv zeta. apply loosens_bind; [apply loosens_refl | intros _ _].
  apply loosens_bind; [apply loosens_refl | intros local _].
  destruct policy eqn:P.
  - rewrite Heq by done. apply loosens_bind; [| intros; apply loosens_bind; [by apply IH | intros; apply loosens_refl]].
    apply loosens_bind; [apply loosens_refl | intros]. apply loosens_bind; [| intros; apply loosens_refl].
    apply loosens_refuse. destruct Hl as (? & ? & ? & ?); [done |]. intros. bool_hyps. lia.
  - intros offsets H. repeat checked_step. subst. cbn [mret checked_ret mbind checked_bind].
    match goal with E : local_loop _ _ _ _ _ _ _ = _ |- _ => apply (IH _ _ declared') in E; [| done]; rewrite E end. done.
Qed.

Lemma record_loosens end_record :
  loosens (parse_entries_at_end_record b l end_record true) (parse_entries_at_end_record b l' end_record policy).
Proof using Hb Hl.
  unfold parse_entries_at_end_record. cbv zeta. repeat same_step.
  - apply central_loop_loosens.
  - by apply local_loop_loosens.
Qed.

End Loosen.

(** *** The structural interpretation *)

Lemma short_below b offset v : is_bytes b -> unsigned_short b offset = inr v -> 0 <= v < 2 ^ 16.
Proof.
  intros Hb H. unfold unsigned_short in H. repeat checked_step. subst v.
  pose proof (at_byte b offset Hb). pose proof (at_byte b (offset + 1) Hb). unfold is_byte in *.
  apply lor_below; [lia | rewrite Z.shiftl_mul_pow2; lia | lia].
Qed.

(** An end record at [o] whose comment ends with the archive. *)
Definition ends_here (b : bytes) (o : Z) : Prop :=
  unsigned_int b o = inr end_signature /\
  exists comment_length, unsigned_short b (o + 20) = inr comment_length /\ o + 22 + comment_length = zlen b.

Lemma scan_complete b n last found o :
  scan_end_records n b last = inr found -> last - Z.of_nat n < o <= last -> ends_here b o -> o ∈ found.
Proof.
  revert last found. induction n as [|n IH]; intros last found H Ho (Hs & c & Hc & Hlen); [lia |].
  cbn [scan_end_records] in H. repeat checked_step. subst found. destruct (decide (o = last)) as [->|Hne].
  - assert (x0 = true) as ->; [| by apply list_elem_of_here].
    rewrite Hs in E. injection E as <-. rewrite Z.eqb_refl, Hc in E0. cbn in E0. injection E0 as <-. by apply Z.eqb_eq.
  - assert (o ∈ x1) by (apply (IH (last - 1)); [done | lia | by split; [| exists c]]).
    destruct x0; [by apply list_elem_of_further | done].
Qed.

Lemma scan_sound b n last found o :
  scan_end_records n b last = inr found -> o ∈ found -> ends_here b o /\ last - Z.of_nat n < o <= last.
Proof.
  revert last found. induction n as [|n IH]; intros last found H Ho; cbn [scan_end_records] in H.
  - checked_step. subst. by apply elem_of_nil in Ho.
  - repeat checked_step. subst found.
    assert (o ∈ x1 -> ends_here b o /\ last - Z.of_nat (S n) < o <= last) as Hrest.
    { intros Hin. destruct (IH _ _ E1 Hin). split; [done | lia]. }
    destruct x0; [| by apply Hrest]. apply elem_of_cons in Ho as [->|Ho]; [| by apply Hrest]. split; [| lia].
    destruct (Z.eqb_spec x end_signature) as [->|]; [| by checked_step]. repeat checked_step.
    split; [done |]. eexists. split; [done |]. by apply Z.eqb_eq.
Qed.

Lemma find_exact b found o :
  is_bytes b -> find_end_records b = inr found -> o ∈ found <-> 0 <= o /\ ends_here b o.
Proof.
  intros Hb H. unfold find_end_records in H. cbv zeta in H. repeat checked_step. bool_hyps.
  assert (x0 = found) as -> by (by destruct x0; checked_step).
  set (earliest := if 22 + 0xFFFF <? zlen b then zlen b - (22 + 0xFFFF) else 0) in *.
  assert (0 <= earliest <= zlen b - 22 /\ zlen b - 22 - 0xFFFF <= earliest) by
    (unfold earliest; destruct (Z.ltb_spec (22 + 0xFFFF) (zlen b)); lia). split.
  - intros Hin. destruct (scan_sound _ _ _ _ _ E0 Hin). split; [lia | done].
  - intros [Ho He]. apply (scan_complete _ _ _ _ _ E0); [| done]. destruct He as (_ & c & Hc & ?).
    apply (short_below _ _ _ Hb) in Hc. enough (earliest <= o) by lia.
    unfold earliest. destruct (Z.ltb_spec (22 + 0xFFFF) (zlen b)); lia.
Qed.

Definition reads_structurally (b : bytes) (limits : BoundedZipLimits) (o : Z) : Prop :=
  exists parsed, parse_entries_at_end_record b limits o false = inr parsed.

(** The loop ends with the only candidate that can be read, if any. *)
Lemma structural_loop_spec b limits records found result e :
  structural_loop b limits records found = inr result -> structural_end_record result = Some e ->
  (structural_end_record found = Some e /\ Forall (fun o => ~ reads_structurally b limits o) records) \/
  (structural_end_record found = None /\ e ∈ records /\ reads_structurally b limits e /\
   forall o, o ∈ records -> reads_structurally b limits o -> o = e).
Proof.
  revert found. induction records as [|r records IH]; intros found H He; cbn [structural_loop] in H.
  { injection H as <-. by left. }
  destruct (parse_entries_at_end_record b limits r false) as [exception|parsed] eqn:P.
  - assert (~ reads_structurally b limits r) as Hno by (intros [? ?]; congruence).
    destruct exception; [| discriminate..]. apply IH in H; [| done].
    assert (forall o, o ∈ r :: records -> reads_structurally b limits o -> o ∈ records) as Hin.
    { intros o [->|?]%elem_of_cons ?; done. }
    destruct H as [[Hf Hall]|(Hf & Hr & Hread & Honly)]; [left | right].
    + split; [by destruct (first_structural_failure found) | by constructor].
    + split_and!; [by destruct (first_structural_failure found) | by apply list_elem_of_further | done | by auto].
  - destruct (structural_end_record found) eqn:F; [discriminate |]. right. split; [done |].
    apply IH in H as [[[= ->] Hall]|(Hf & _)]; [| discriminate | done]. split_and!; [apply list_elem_of_here | by eexists |].
    intros o [->|Hin]%elem_of_cons Hread; [done |]. rewrite Forall_forall in Hall. by destruct (Hall o Hin).
Qed.

Lemma structural_central b l l' central_end cursor :
  central_entry b l central_end false cursor = central_entry b l' central_end false cursor.
Proof. reflexivity. Qed.

Lemma structural_central_loop b l l' n central_end cursor :
  central_loop n b l central_end false cursor = central_loop n b l' central_end false cursor.
Proof.
  revert cursor. induction n as [|n IH]; intros cursor; [done |]. cbn [central_loop].
  rewrite (structural_central b l l'). destruct (central_entry _ _ _ _ _) as [|first]; cbn; [done | by rewrite IH].
Qed.

Lemma structural_local_loop b l l' central_offset es previous declared :
  local_loop b l central_offset false es previous declared = local_loop b l' central_offset false es previous declared.
Proof.
  revert previous declared. induction es as [|e es IH]; intros previous declared; [done |].
  cbn [local_loop]. cbv zeta. destruct (refuse _ _ _); [done |]. cbn [mbind checked_bind].
  destruct (validate_local_header _ _ _ _); [done |]. cbn. by rewrite IH.
Qed.

Lemma structural_record b l l' end_record :
  parse_entries_at_end_record b l end_record false = parse_entries_at_end_record b l' end_record false.
Proof.
  unfold parse_entries_at_end_record. cbv zeta. cbn [andb].
  do 11 (match goal with |- mbind _ ?m = _ => destruct m; [done |] end; cbn [mbind checked_bind]).
  rewrite (structural_central_loop b l l').
  do 2 (match goal with |- mbind _ ?m = _ => destruct m; [done |] end; cbn [mbind checked_bind]).
  by rewrite (structural_local_loop b l l').
Qed.

Lemma structural_loop_same b l l' records found :
  structural_loop b l records found = structural_loop b l' records found.
Proof.
  revert found. induction records as [|r records IH]; intros found; [done |]. cbn [structural_loop].
  rewrite (structural_record b l l'). destruct (parse_entries_at_end_record b l' r false) as [[]|]; try done.
  by destruct (structural_end_record found).
Qed.

(** An accepted archive was read at the one end record that can be read at all. *)
Lemma parse_entries_inr b limits parsed :
  is_bytes b -> parse_entries b limits = inr parsed ->
  exists e, 0 <= e /\ ends_here b e /\ parse_entries_at_end_record b limits e true = inr parsed /\
    forall o, 0 <= o -> ends_here b o -> reads_structurally b limits o -> o = e.
Proof.
  intros Hb H. unfold parse_entries in H. checked_step. checked_step. rename x into records, x0 into found.
  pose proof (fun o => find_exact b records o Hb E) as Hrecords.
  destruct (structural_end_record found) as [e|] eqn:He.
  - destruct (structural_loop_spec _ _ _ _ _ e E0 He) as [[? _]|(_ & Hin & _ & Honly)]; [discriminate |].
    apply Hrecords in Hin as [? ?]. exists e. split_and!; try done. intros o ? ? ?. apply Honly; [by apply Hrecords | done].
  - checked_step. by destruct (first_structural_failure found) as [[]|].
Qed.

(** The only exceptions are validation failures. *)
Definition validates {A} (m : checked A) : Prop :=
  forall exception, m = inl exception -> exists code message, exception = ValidationFailure code message.

Lemma validates_ret {A} (a : A) : validates (mret a).
Proof. done. Qed.

Lemma validates_fail {A} code message : validates (@fail A code message).
Proof. intros ? [= <-]. eauto. Qed.

Lemma validates_refuse c code message : validates (refuse c code message).
Proof. destruct c; [apply validates_fail | done]. Qed.

Lemma validates_bind {A B} (m : checked A) (k : A -> checked B) :
  validates m -> (forall a, validates (k a)) -> validates (a ← m; k a).
Proof. intros Hm Hk. destruct m as [x|a]; [| apply Hk]. intros e H. apply (Hm e). cbn in H. by injection H as ->. Qed.

Create HintDb validates.
#[local] Hint Resolve validates_ret validates_fail validates_refuse : validates.

#[local] Ltac validates_steps :=
  cbv zeta; repeat first
    [ progress eauto with validates
    | apply validates_bind; [| intros]
    | match goal with |- validates (if ?c then _ else _) => destruct c end
    | match goal with |- validates (match ?c with _ => _ end) => destruct c end ].

Lemma validates_short b offset : validates (unsigned_short b offset).
Proof. unfold unsigned_short, require_range. validates_steps. Qed.
Lemma validates_int b offset : validates (unsigned_int b offset).
Proof. unfold unsigned_int, require_range. validates_steps. Qed.
#[local] Hint Resolve validates_short validates_int : validates.

Lemma validates_scan n b offset : validates (scan_end_records n b offset).
Proof. revert offset. induction n as [|n IH]; intros offset; cbn [scan_end_records]; validates_steps. Qed.
#[local] Hint Resolve validates_scan : validates.

Lemma validates_find b : validates (find_end_records b).
Proof. unfold find_end_records. validates_steps. Qed.

Lemma validates_local b entry central_offset boundary : validates (validate_local_header b entry central_offset boundary).
Proof.
  unfold validate_local_header, require_zero_or_equal, checked_add, require_range, descriptor_end, descriptor_matches, invalid.
  validates_steps.
Qed.
#[local] Hint Resolve validates_find validates_local : validates.

Lemma validates_central n b limits central_end policy cursor :
  validates (central_loop n b limits central_end policy cursor).
Proof.
  revert cursor. induction n as [|n IH]; intros cursor; cbn [central_loop]; validates_steps.
  unfold central_entry, validate_ratio, checked_add, require_range. validates_steps.
Qed.

Lemma validates_locals b limits central_offset policy es previous declared :
  validates (local_loop b limits central_offset policy es previous declared).
Proof.
  revert previous declared. induction es as [|e es IH]; intros previous declared; cbn [local_loop]; unfold checked_add;
    validates_steps.
Qed.
#[local] Hint Resolve validates_central validates_locals : validates.

Lemma validates_record b limits e policy : validates (parse_entries_at_end_record b limits e policy).
Proof. unfold parse_entries_at_end_record, checked_add. validates_steps. Qed.
#[local] Hint Resolve validates_record : validates.

Lemma validates_entries b limits : validates (parse_entries b limits).
Proof.
  unfold parse_entries. apply validates_bind; [apply validates_find | intros records].
  apply validates_bind; [| intros; validates_steps]. generalize (mkCandidates None None).
  induction records as [|r rs IH]; intros found; cbn [structural_loop]; [apply validates_ret |].
  pose proof (validates_record b limits r false) as Hr.
  destruct (parse_entries_at_end_record b limits r false) as [exception|]; unfold invalid; [| validates_steps].
  destruct (Hr exception) as (code & message & ->); [done | apply IH].
Qed.

(** *** Opening *)

Lemma owned_bytes (data : bytes) : (if negb (zlen data =? 0) then slice data 0 (zlen data) else []) = data.
Proof.
  destruct (Z.eqb_spec (zlen data) 0) as [Hz|]; cbn [negb]; [| by rewrite slice_all].
  destruct data; [done |]. rewrite zlen_cons in Hz. pose proof (zlen_nonneg data). lia.
Qed.

Lemma open_inr limits data a :
  open_bounded_zip (Some data) (zlen data) limits = inr (inr a) ->
  zlen data <= max_package_bytes limits /\
  exists parsed, parse_entries data limits = inr parsed /\ a = mkArchive limits data (entries parsed) (data_offsets parsed).
Proof.
  unfold open_bounded_zip. destruct (Z.ltb_spec (max_package_bytes limits) (zlen data)) as [|Hsize]; [done |].
  cbn [default]. rewrite bool_decide_false by done. cbn [andb]. cbv zeta.
  rewrite owned_bytes.
  intros H. split; [done |]. destruct (parse_entries data limits) as [[]|parsed]; [discriminate..|].
  exists parsed. split; [done |]. by injection H as <-.
Qed.

Lemma open_from limits data es offsets :
  zlen data <= max_package_bytes limits -> parse_entries data limits = inr (mkParsed es offsets) ->
  open_bounded_zip (Some data) (zlen data) limits = inr (inr (mkArchive limits data es offsets)).
Proof.
  intros Hsize H. unfold open_bounded_zip. destruct (Z.ltb_spec (max_package_bytes limits) (zlen data)); [lia |].
  cbn [default]. rewrite bool_decide_false by done. cbn [andb]. cbv zeta.
  rewrite owned_bytes.
  by rewrite H.
Qed.

(** ** Correctness of opening *)

(** C23. An archive that opens is within the package limit and was read at the only end record that can be read at all:
    no other end record in it has a structural interpretation.  Its entries are within the limits on their number, their
    names' lengths, their compression ratios (above the guard's threshold) and the sum of their declared sizes; their local headers carry the names of
    the central directory, and their payloads lie in order and without overlap between the first byte and the central
    directory.  (The limit on a single payload, [max_payload_bytes], is not looked at here but when the payload is read.) *)
Theorem zip_open_sound (limits : BoundedZipLimits) (data : bytes) (a : BoundedZipArchive)
    (Hb : is_bytes data) (Hratio : 0 <= max_compression_ratio limits)
    (H : open_bounded_zip (Some data) (zlen data) limits = inr (inr a)) :
  physical_bytes_ a = data /\ zlen data <= max_package_bytes limits /\
  directory_ok limits data (mkParsed (entries_ a) (data_offsets_ a)) /\
  exists e, 0 <= e /\ ends_here data e /\
    parse_entries_at_end_record data limits e true = inr (mkParsed (entries_ a) (data_offsets_ a)) /\
    forall o, 0 <= o -> ends_here data o -> reads_structurally data limits o -> o = e.
Proof.
  apply open_inr in H as (Hsize & parsed & Hparse & ->). cbn [physical_bytes_ entries_ data_offsets_].
  destruct (parse_entries_inr _ _ _ Hb Hparse) as (e & He & Hends & Hread & Honly).
  replace (mkParsed (entries parsed) (data_offsets parsed)) with parsed by (by destruct parsed).
  split_and!; [done | done | | by exists e]. apply (parse_record_ok _ _ _ _ Hb Hratio) in Hread; [done |].
  destruct Hends as [Hs _]. apply (int_inr _ _ _ Hb) in Hs. lia.
Qed.

(** Looser limits accept every archive that tighter limits accept, and read the same entries at the same places:
    the limits decide only whether an archive is refused. *)
Theorem zip_limits_monotone (l l' : BoundedZipLimits) (data : bytes) (a : BoundedZipArchive)
    (Hb : is_bytes data) (Hl : tighter l l') (H : open_bounded_zip (Some data) (zlen data) l = inr (inr a)) :
  open_bounded_zip (Some data) (zlen data) l' = inr (inr (mkArchive l' data (entries_ a) (data_offsets_ a))).
Proof.
  apply open_inr in H as (Hsize & parsed & Hparse & ->). cbn [entries_ data_offsets_].
  apply open_from; [destruct Hl; lia |]. replace (mkParsed _ _) with parsed by (by destruct parsed).
  unfold parse_entries in *. checked_step. rewrite E. cbn [mbind checked_bind].
  rewrite (structural_loop_same data l' l). checked_step. rewrite E0. cbn [mbind checked_bind].
  destruct (structural_end_record _).
  - by apply (record_loosens data l l' true Hb).
  - checked_step. by destruct (first_structural_failure _) as [[]|].
Qed.

(** Whatever the bytes, opening returns an archive or an error value and throws nothing. *)
Theorem zip_open_total (data : option bytes) (size : Z) (limits : BoundedZipLimits) :
  exists result, open_bounded_zip data size limits = inr result.
Proof.
  unfold open_bounded_zip. destruct (_ <? _); [by eexists |]. destruct (_ && _); [by eexists |]. cbv zeta.
  match goal with |- context [parse_entries ?b _] => pose proof (validates_entries b limits) as Hv;
    destruct (parse_entries b limits) as [exception|parsed] end; [| by eexists].
  destruct (Hv exception) as (code & message & ->); [done |]. by eexists.
Qed.

(** An archive of the one stored file [a], whose content is [x]. *)
Definition stored_archive : bytes :=
  [80; 75; 3; 4; 20; 0; 0; 0; 0; 0; 0; 0; 0; 0; 131; 22; 220; 140; 1; 0; 0; 0; 1; 0; 0; 0; 1; 0; 0; 0; 97; 120] ++
  [80; 75; 1; 2; 20; 0; 20; 0; 0; 0; 0; 0; 0; 0; 0; 0; 131; 22; 220; 140; 1; 0; 0; 0; 1; 0; 0; 0; 1; 0; 0; 0; 0; 0; 0; 0; 0; 0; 0; 0; 0; 0; 0; 0; 0; 0; 97] ++
  [80; 75; 5; 6; 0; 0; 0; 0; 1; 0; 1; 0; 47; 0; 0; 0; 32; 0; 0; 0; 0; 0].

Definition small_limits : BoundedZipLimits := mkLimits 4096 4096 4 4096 255 100 1024.

Lemma zip_open_sound_witness :
  exists a, open_bounded_zip (Some stored_archive) (zlen stored_archive) small_limits = inr (inr a) /\
    data_offsets_ a = [31] /\ physical_bytes_ a = stored_archive.
Proof.
  eexists. split; [vm_compute; reflexivity |]. split; [reflexivity |].
  refine (proj1 (zip_open_sound small_limits stored_archive _ _ _ _)); [apply is_bytes_compute; vm_compute | | vm_compute]; done.
Defined.

Lemma zip_limits_monotone_witness :
  exists a, open_bounded_zip (Some stored_archive) (zlen stored_archive) defaults = inr (inr a).
Proof.
  eexists. refine (zip_limits_monotone small_limits defaults stored_archive _ _ _ _).
  - apply is_bytes_compute; vm_compute; done.
  - unfold tighter. vm_compute. split_and!; done.
  - vm_compute. reflexivity.
Defined.
