(* ===== verification/ZipPayload.v ===== *)
(** * Payloads of a bounded ZIP archive ([shared/src/catalog/bounded_zip_archive.{hpp,cpp}])

    An entry is read by its name and the offset of its local header.  A stored entry is
    its window of the archive; a deflated one is inflated into a buffer of 8192 bytes at
    a time, stopped as soon as it produces more than it declared.  zlib is the class
    [Zlib]: what its stream does with the rest of the input, and its CRC. *)

From S2P Require Import Prelude ZipArchive.

(** ** The library *)

Definition Z_OK : Z := 0.
Definition Z_STREAM_END : Z := 1.
Definition Z_NEED_DICT : Z := 2.
Definition Z_STREAM_ERROR : Z := -2.
Definition Z_DATA_ERROR : Z := -3.
Definition Z_MEM_ERROR : Z := -4.
Definition Z_BUF_ERROR : Z := -5.
Definition Z_VERSION_ERROR : Z := -6.

(** What one call of [inflate] gives: its status, the bytes put in the buffer, the input
    not read yet, the state of the stream. *)
Record Inflated (stream : Type) := mkInflated {
  status : Z;
  produced : bytes;
  unread : bytes;
  state : stream;
}.
Arguments mkInflated {stream}.
Arguments status {stream}.
Arguments produced {stream}.
Arguments unread {stream}.
Arguments state {stream}.

Class Zlib := {
  z_stream : Type;
  inflate_init : Z * z_stream;
  inflate : z_stream -> bytes -> Z -> Inflated z_stream;
  zlib_crc32 : bytes -> Z;
}.

(** zlib with memory, used as its manual asks. *)
Class ZlibHealthy `{Zlib} : Prop := {
  init_ok : fst inflate_init = Z_OK;
  status_known s input room :
    status (inflate s input room) ∈ [Z_OK; Z_STREAM_END; Z_NEED_DICT; Z_BUF_ERROR; Z_DATA_ERROR];
}.

(** ** The entry *)

Inductive ExactEntrySelectionStatus := FOUND | MISSING | DUPLICATE.

Record ExactEntrySelection := mkSelection { selection : ExactEntrySelectionStatus; index : nat }.

Fixpoint select_from (entries : list BoundedZipEntry) (raw : bytes) (offset : Z) (i : nat) (result : ExactEntrySelection)
    : ExactEntrySelection :=
  match entries with
  | [] => result
  | entry :: rest =>
    if negb (local_header_offset (central entry) =? offset) || negb (bool_decide (raw_name (central entry) = raw))
    then select_from rest raw offset (S i) result
    else
      match selection result with
      | FOUND => mkSelection DUPLICATE 0
      | _ => select_from rest raw offset (S i) (mkSelection FOUND i)
      end
  end.

Definition select_exact_bounded_zip_entry (entries : list BoundedZipEntry) (raw : bytes) (offset : Z) : ExactEntrySelection :=
  select_from entries raw offset 0 (mkSelection MISSING 0).

(** ** Inflation *)

Inductive InflateStall := INPUT_EXHAUSTED | DICTIONARY_REQUIRED | NO_PROGRESS.

Definition classify_inflate_stall (dictionary_required input_exhausted : bool) : InflateStall :=
  if dictionary_required then DICTIONARY_REQUIRED else if input_exhausted then INPUT_EXHAUSTED else NO_PROGRESS.

Definition inflate_stall_message (stall : InflateStall) : string :=
  match stall with
  | INPUT_EXHAUSTED | DICTIONARY_REQUIRED => "ZIP deflate stream ended before completion"
  | NO_PROGRESS => "ZIP deflate stream made no progress"
  end.

Section Zlib.
Context `{Zlib}.

Definition inflater : checked z_stream :=
  if fst inflate_init =? Z_MEM_ERROR then inl BadAlloc
  else if negb (fst inflate_init =? Z_OK) then inl (RuntimeError "ZIP inflater initialization failed internally")
  else mret (snd inflate_init).

(** The loop: every turn but the last produces at least one byte. *)
Fixpoint inflate_loop (fuel : nat) (entry : CentralEntry) (limits : BoundedZipLimits) (stream : z_stream) (input output : bytes)
    : checked bytes :=
  match fuel with
  | O => inl OutOfFuel
  | S fuel =>
    let step := inflate stream input 8192 in
    if status step =? Z_DATA_ERROR then invalid "ZIP deflate stream is invalid"
    else if status step =? Z_MEM_ERROR then inl BadAlloc
    else if (status step =? Z_STREAM_ERROR) || (status step =? Z_VERSION_ERROR) then
      inl (RuntimeError "ZIP inflater failed internally")
    else if negb (status step =? Z_OK) && negb (status step =? Z_STREAM_END) && negb (status step =? Z_BUF_ERROR) &&
            negb (status step =? Z_NEED_DICT) then
      inl (RuntimeError "ZIP inflater returned an unknown internal status")
    else
      output ← (if negb (zlen (produced step) =? 0) then
                  let entry_total := zlen output + zlen (produced step) in
                  _ ← refuse (max_cumulative_inflated_bytes limits <? entry_total) INFLATED_LIMIT_EXCEEDED
                        "ZIP inflated total exceeds the limit";
                  _ ← refuse (uncompressed_size entry <? entry_total) INVALID_ZIP
                        "ZIP entry inflated past its declared size";
                  mret (output ++ produced step)
                else mret output);
      if status step =? Z_STREAM_END then
        _ ← refuse (negb (zlen (unread step) =? 0)) INVALID_ZIP "ZIP compressed size includes trailing bytes";
        mret output
      else if zlen (produced step) =? 0 then
        invalid (inflate_stall_message (classify_inflate_stall (status step =? Z_NEED_DICT) (zlen (unread step) =? 0)))
      else inflate_loop fuel entry limits (state step) (unread step) output
  end.

Definition inflate_selected_payload (physical_bytes : bytes) (entry : CentralEntry) (data_offset : Z)
    (limits : BoundedZipLimits) : checked bytes :=
  _ ← refuse (max_payload_bytes limits <? uncompressed_size entry) PAYLOAD_LIMIT_EXCEEDED "ZIP entry exceeds the payload limit";
  _ ← refuse (i32_max <? uncompressed_size entry) INFLATED_LIMIT_EXCEEDED "ZIP entry cannot fit in memory";
  _ ← refuse (i32_max <? compressed_size entry) INVALID_ZIP "ZIP compressed size is invalid";
  if data_offset <? 0 then inl (RuntimeError "ZIP data offset is invalid internally")
  else if (zlen physical_bytes <? data_offset) || (zlen physical_bytes - data_offset <? compressed_size entry) then
    inl (RuntimeError "ZIP payload window is invalid internally")
  else
    let window := slice physical_bytes data_offset (compressed_size entry) in
    if method entry =? 0 then
      _ ← refuse (negb (compressed_size entry =? uncompressed_size entry)) INVALID_ZIP "stored ZIP entry sizes differ";
      mret window
    else if negb (method entry =? 8) then inl (RuntimeError "ZIP compression method escaped open validation")
    else
      stream ← inflater;
      inflate_loop (S (Z.to_nat (uncompressed_size entry))) entry limits stream window [].

Definition payload_crc32 (payload : bytes) : Z := u32 (zlib_crc32 payload).

(** ** Reading *)

Definition read_bounded_zip_payload (archive : BoundedZipArchive) (raw : bytes) (offset : Z)
    : checked (BoundedZipOpenError + bytes) :=
  let selected := select_exact_bounded_zip_entry (entries_ archive) raw offset in
  match selection selected with
  | MISSING => mret (inl (mkError ENTRY_MISSING "ZIP exact locator is missing"))
  | DUPLICATE => mret (inl (mkError INVALID_ZIP "ZIP exact locator is duplicated"))
  | FOUND =>
    match entries_ archive !! index selected, data_offsets_ archive !! index selected with
    | Some entry, Some data_offset =>
      catch (payload ← inflate_selected_payload (physical_bytes_ archive) (central entry) data_offset (limits_ archive);
             _ ← refuse (negb (zlen payload =? uncompressed_size (central entry))) INVALID_ZIP
                   "ZIP inflated size differs from central metadata";
             _ ← refuse (negb (payload_crc32 payload =? crc32 (central entry))) INVALID_ZIP
                   "ZIP inflated CRC differs from central metadata";
             mret payload)
    | _, _ => inl (RuntimeError "ZIP entry data index is invalid internally")
    end
  end.

End Zlib.

(** ** Lemmas *)

(** *** Selection *)

Lemma select_skip es raw offset i result :
  Forall (fun e => local_header_offset (central e) <> offset) es -> select_from es raw offset i result = result.
Proof.
  intros Hes. revert i. induction Hes as [|e es He Hes IH]; intros i; [done |]. cbn [select_from].
  destruct (Z.eqb_spec (local_header_offset (central e)) offset); [done |]. cbn. apply IH.
Qed.

Lemma select_listed es k e i r :
  NoDup (local_header_offset ∘ central <$> es) -> es !! k = Some e ->
  select_from es (raw_name (central e)) (local_header_offset (central e)) i (mkSelection MISSING r) = mkSelection FOUND (i + k).
Proof.
  revert k i r. induction es as [|h es IH]; intros k i r Hdup Hk; [done |]. rewrite fmap_cons in Hdup.
  apply NoDup_cons in Hdup as [Hnew Hdup]. cbn [select_from].
  assert (forall e', e' ∈ es -> local_header_offset (central e') <> local_header_offset (central h)) as Hother.
  { intros e' Hin Heq. apply Hnew. cbn [compose]. rewrite <- Heq.
    by apply (list_elem_of_fmap_2 (local_header_offset ∘ central) _ _ Hin). }
  destruct k as [|k]; cbn [lookup list_lookup] in Hk.
  - injection Hk as ->. rewrite Z.eqb_refl, bool_decide_true by done. cbn. rewrite Nat.add_0_r.
    apply select_skip, Forall_forall, Hother.
  - specialize (Hother e (list_elem_of_lookup_2 _ _ _ Hk)).
    destruct (Z.eqb_spec (local_header_offset (central h)) (local_header_offset (central e))); [congruence |]. cbn.
    rewrite (IH k) by done. f_equal. lia.
Qed.

(** *** Windows *)

Lemma laid_out_lookup b limit from es offsets k e :
  laid_out b limit from es offsets -> Forall (fun e => 0 <= compressed_size e) es -> es !! k = Some e ->
  from <= local_header_offset e /\
  exists d, offsets !! k = Some d /\ from <= d <= i32_max /\ d + compressed_size e <= limit.
Proof.
  intros H Hes. revert from offsets k H. induction Hes as [|h es Hh Hes IH]; intros from offsets k H Hk; [done |].
  destruct offsets as [|d offsets]; [done |]. destruct H as (Hfrom & _ & Hd & Hlimit & H).
  pose proof (zlen_nonneg (raw_name h)). destruct k as [|k]; cbn in Hk.
  - injection Hk as ->. split; [done |]. exists d. split; [done | lia].
  - destruct (IH _ _ _ H Hk) as (? & d' & ? & ? & ?). split; [lia |]. exists d'. split; [done | lia].
Qed.

Lemma laid_out_nodup b limit from es offsets :
  laid_out b limit from es offsets -> Forall (fun e => 0 <= compressed_size e) es ->
  NoDup (local_header_offset <$> es).
Proof.
  intros H Hes. revert from offsets H. induction Hes as [|h es Hh Hes IH]; intros from offsets H; [constructor |].
  destruct offsets as [|d offsets]; [done |]. destruct H as (Hfrom & _ & Hd & Hlimit & H).
  pose proof (zlen_nonneg (raw_name h)). rewrite fmap_cons. constructor; [| by eapply IH].
  intros (e & Heq & (k & Hk)%list_elem_of_lookup)%list_elem_of_fmap.
  destruct (laid_out_lookup _ _ _ _ _ _ _ H Hes Hk). lia.
Qed.

(** *** Failures *)

(** The only exceptions are validation failures with one of these codes. *)
Definition refuses (codes : list ZipOpenCode) {A} (m : checked A) : Prop :=
  forall exception, m = inl exception -> exists code message, exception = ValidationFailure code message /\ code ∈ codes.

Lemma refuses_ret codes {A} (a : A) : refuses codes (mret a).
Proof. done. Qed.

Lemma refuses_refuse codes c code message : code ∈ codes -> refuses codes (refuse c code message).
Proof. destruct c; [| done]. intros Hin ? [= <-]. eauto. Qed.

Lemma refuses_invalid codes {A} message : INVALID_ZIP ∈ codes -> refuses codes (@invalid A message).
Proof. intros Hin ? [= <-]. eauto. Qed.

Lemma refuses_bind codes {A B} (m : checked A) (k : A -> checked B) :
  refuses codes m -> (forall a, m = inr a -> refuses codes (k a)) -> refuses codes (a ← m; k a).
Proof. intros Hm Hk. destruct m as [x|a]; [| by apply Hk]. intros e H. apply (Hm e). cbn in H. by injection H as ->. Qed.

Lemma refuses_catch codes {A} (m : checked A) :
  refuses codes m ->
  (exists a, m = inr a /\ catch m = inr (inr a)) \/ (exists error, catch m = inr (inl error) /\ error_code error ∈ codes).
Proof.
  intros Hm. destruct m as [e|a]; [right | left; eauto]. destruct (Hm e eq_refl) as (code & message & -> & Hin).
  by eexists.
Qed.

Definition payload_codes : list ZipOpenCode := [PAYLOAD_LIMIT_EXCEEDED; INFLATED_LIMIT_EXCEEDED; INVALID_ZIP].

(** Membership in a concrete list. *)
#[local] Ltac listed := apply (bool_decide_unpack _); vm_compute; exact I.

Section Read.
Context `{Hz : Zlib}.

Lemma inflate_loop_refuses `{!ZlibHealthy} fuel entry limits stream input output :
  zlen output <= uncompressed_size entry -> uncompressed_size entry - zlen output < Z.of_nat fuel ->
  refuses payload_codes (inflate_loop fuel entry limits stream input output).
Proof.
  revert stream input output. induction fuel as [|fuel IH]; intros stream input output Hlen Hfuel; [lia |].
  cbn [inflate_loop]. cbv zeta. pose proof (status_known stream input 8192) as Hs.
  assert (INVALID_ZIP ∈ payload_codes) by (listed).
  assert (INFLATED_LIMIT_EXCEEDED ∈ payload_codes) by (listed).
  set (step := inflate stream input 8192) in *. pose proof (zlen_nonneg (produced step)).
  destruct (Z.eqb_spec (status step) Z_DATA_ERROR); [by apply refuses_invalid |].
  assert (status step = 0 \/ status step = 1 \/ status step = 2 \/ status step = -5) as Hstatus.
  { rewrite !elem_of_cons, elem_of_nil in Hs. unfold Z_OK, Z_STREAM_END, Z_NEED_DICT, Z_BUF_ERROR, Z_DATA_ERROR in *. lia. }
  destruct (Z.eqb_spec (status step) Z_MEM_ERROR); [exfalso; unfold Z_MEM_ERROR in *; lia |].
  destruct (_ || _) eqn:E; [exfalso; unfold Z_STREAM_ERROR, Z_VERSION_ERROR in E; lia | clear E].
  destruct (_ && _ && _ && _) eqn:E; [exfalso; unfold Z_OK, Z_STREAM_END, Z_NEED_DICT, Z_BUF_ERROR in E; lia | clear E].
  apply refuses_bind.
  { destruct (negb _); [| apply refuses_ret]. by repeat (apply refuses_bind; [by apply refuses_refuse | intros]). }
  intros next Hnext. destruct (_ =? Z_STREAM_END).
  { apply refuses_bind; [by apply refuses_refuse | intros; apply refuses_ret]. }
  destruct (Z.eqb_spec (zlen (produced step)) 0) as [|Hpos]; [by apply refuses_invalid |]. cbn [negb] in Hnext.
  repeat checked_step. subst next. bool_hyps. apply IH; rewrite zlen_app; lia.
Qed.

Lemma inflate_refuses `{!ZlibHealthy} b entry d limits :
  0 <= d -> d + compressed_size entry <= zlen b -> 0 <= compressed_size entry -> 0 <= uncompressed_size entry ->
  method entry = 0 \/ method entry = 8 -> refuses payload_codes (inflate_selected_payload b entry d limits).
Proof.
  intros Hd Hwindow Hc Hu Hm. unfold inflate_selected_payload. cbv zeta.
  do 3 (apply refuses_bind; [apply refuses_refuse; listed | intros ? _]).
  destruct (Z.ltb_spec d 0); [lia |]. destruct (_ || _) eqn:E; [lia |]. clear E.
  destruct (Z.eqb_spec (method entry) 0).
  { apply refuses_bind; [apply refuses_refuse; listed | intros; apply refuses_ret]. }
  destruct (Z.eqb_spec (method entry) 8); [cbn [negb] | lia]. unfold inflater. rewrite init_ok. cbn [Z.eqb Z_OK negb mbind checked_bind mret checked_ret].
  apply inflate_loop_refuses; unfold zlen; cbn; lia.
Qed.

(** What reading a listed entry of an opened archive computes. *)
Lemma read_listed limits data a k entry :
  is_bytes data -> 0 <= max_compression_ratio limits ->
  open_bounded_zip (Some data) (zlen data) limits = inr (inr a) -> entries_ a !! k = Some entry ->
  entry_ok limits (central entry) /\
  exists d, data_offsets_ a !! k = Some d /\ 0 <= d /\ d + compressed_size (central entry) <= zlen data /\
    read_bounded_zip_payload a (raw_name (central entry)) (local_header_offset (central entry)) =
    catch (payload ← inflate_selected_payload data (central entry) d limits;
           _ ← refuse (negb (zlen payload =? uncompressed_size (central entry))) INVALID_ZIP
                 "ZIP inflated size differs from central metadata";
           _ ← refuse (negb (payload_crc32 payload =? crc32 (central entry))) INVALID_ZIP
                 "ZIP inflated CRC differs from central metadata";
           mret payload).
Proof.
  intros Hb Hr (Hsize & parsed & Hparse & ->)%open_inr Hk. cbn [entries_ data_offsets_] in *.
  destruct (parse_entries_inr _ _ _ Hb Hparse) as (e & He & [Hs _] & Hread & _).
  apply (parse_record_ok _ _ _ _ Hb Hr) in Hread as (Hok & _ & _ & _ & limit & Hlimit & Hlaid).
  2:{ apply (int_inr _ _ _ Hb) in Hs. lia. }
  assert ((central <$> entries parsed) !! k = Some (central entry)) as Hk' by (by rewrite list_lookup_fmap, Hk).
  assert (Forall (fun e => 0 <= compressed_size e) (central <$> entries parsed)) as Hsizes.
  { eapply Forall_impl; [exact Hok |]. intros ? He'. by destruct (entry_sizes _ _ He') as (_ & ? & _). }
  destruct (laid_out_lookup _ _ _ _ _ _ _ Hlaid Hsizes Hk') as (_ & d & Hd & Hd0 & Hwindow).
  split; [by apply (Forall_lookup_1 _ _ _ _ Hok Hk') |]. exists d. split; [done |]. split; [lia |]. split; [lia |].
  unfold read_bounded_zip_payload, select_exact_bounded_zip_entry. cbn [entries_ data_offsets_ physical_bytes_ limits_].
  apply (laid_out_nodup _ _ _ _ _ Hlaid) in Hsizes as Hdup. rewrite <- list_fmap_compose in Hdup.
  rewrite (select_listed _ k _ 0 0 Hdup Hk).
  cbn [selection index]. by rewrite Nat.add_0_l, Hk, Hd.
Qed.

End Read.

(** ** Correctness of reading *)

(** C24. Every entry of an opened archive can be named: reading it finds it, throws nothing as long as zlib has memory and
    is used as its manual asks, and ends after finitely many calls of zlib.  The payload, if there is one, has exactly
    the declared size, within the payload limit, and the declared CRC, and a stored entry is its window of the archive;
    otherwise the error says that the archive is invalid or a size limit is exceeded. *)
Theorem zip_payload_read `{ZlibHealthy} (limits : BoundedZipLimits) (data : bytes) (a : BoundedZipArchive) (k : nat)
    (entry : BoundedZipEntry) (Hb : is_bytes data) (Hratio : 0 <= max_compression_ratio limits)
    (Hopen : open_bounded_zip (Some data) (zlen data) limits = inr (inr a)) (Hentry : entries_ a !! k = Some entry) :
  let e := central entry in
  let read := read_bounded_zip_payload a (raw_name e) (local_header_offset e) in
  exists d, data_offsets_ a !! k = Some d /\
  ((exists payload, read = inr (inr payload) /\ zlen payload = uncompressed_size e /\
      zlen payload <= max_payload_bytes limits /\ payload_crc32 payload = crc32 e /\
      (method e = 0 -> payload = slice data d (compressed_size e))) \/
   exists error, read = inr (inl error) /\ error_code error ∈ payload_codes).
Proof.
  cbv zeta. destruct (read_listed _ _ _ _ _ Hb Hratio Hopen Hentry) as (Hok & d & Hd & Hd0 & Hwindow & ->).
  exists d. split; [done |]. destruct (entry_sizes _ _ Hok) as (_ & Hc & Hu).
  match goal with |- context [catch ?m] => destruct (refuses_catch payload_codes m) as [(payload & Hm & ->)|(error & -> & Hin)] end.
  - apply refuses_bind; [by apply inflate_refuses, (entry_method _ _ Hok) | intros].
    do 2 (apply refuses_bind; [apply refuses_refuse; listed | intros]). apply refuses_ret.
  - left. exists payload. split; [done |]. repeat checked_step. subst. bool_hyps. split; [done |].
    unfold inflate_selected_payload in E. do 6 checked_step. bool_hyps. split; [lia |]. split; [done |]. intros Hstored.
    destruct (_ <? 0); [done |]. destruct (_ || _); [done |]. cbv zeta in E. rewrite Hstored in E. cbn [Z.eqb] in E.
    by repeat checked_step.
  - right. by exists error.
Qed.

(** Reading every entry of an opened archive inflates no more bytes in total than the limit, whatever zlib does. *)
Theorem zip_total_bounded `{Zlib} (limits : BoundedZipLimits) (data : bytes) (a : BoundedZipArchive) (payloads : list bytes)
    (Hb : is_bytes data) (Hratio : 0 <= max_compression_ratio limits)
    (Hopen : open_bounded_zip (Some data) (zlen data) limits = inr (inr a))
    (Hread : Forall2 (fun entry payload =>
       read_bounded_zip_payload a (raw_name (central entry)) (local_header_offset (central entry)) = inr (inr payload))
       (entries_ a) payloads) :
  total (zlen <$> payloads) <= Z.max 0 (max_cumulative_inflated_bytes limits).
Proof.
  assert (zlen <$> payloads = uncompressed_size <$> (central <$> entries_ a)) as ->.
  { apply list_eq. intros k. rewrite !list_lookup_fmap. destruct (entries_ a !! k) as [entry|] eqn:Hk.
    - destruct (Forall2_lookup_l _ _ _ _ _ Hread Hk) as (payload & -> & Hp). cbn.
      destruct (read_listed _ _ _ _ _ Hb Hratio Hopen Hk) as (_ & d & _ & _ & _ & Heq). rewrite Heq in Hp.
      f_equal. match type of Hp with catch ?m = _ => destruct m as [[]|p] eqn:Hm end; try discriminate Hp.
      injection Hp as ->. repeat checked_step. bool_hyps. by subst.
    - assert (payloads !! k = None) as ->; [| done]. apply lookup_ge_None. rewrite <- (Forall2_length _ _ _ Hread).
      by apply lookup_ge_None. }
  apply open_inr in Hopen as (_ & parsed & Hparse & ->).
  destruct (parse_entries_inr _ _ _ Hb Hparse) as (e & He & [Hs _] & Hrecord & _).
  apply (parse_record_ok _ _ _ _ Hb Hratio) in Hrecord as (_ & _ & _ & Htotal & _); [exact Htotal |].
  apply (int_inr _ _ _ Hb) in Hs. lia.
Qed.

(** *** An instance *)

(** A decoder of deflate streams of one stored block, and the CRC. *)
Definition crc_bit (c : Z) : Z := if Z.odd c then Z.lxor (Z.shiftr c 1) 0xEDB88320 else Z.shiftr c 1.
Definition crc_byte (c b : Z) : Z := Nat.iter 8 crc_bit (Z.lxor c b).

#[local] Instance one_block : Zlib := {|
  z_stream := unit;
  inflate_init := (Z_OK, tt);
  inflate _ input _ :=
    match input with
    | 1 :: l0 :: l1 :: _ :: _ :: rest =>
      let n := l0 + 256 * l1 in
      mkInflated Z_STREAM_END (slice rest 0 n) (drop (Z.to_nat n) rest) tt
    | _ => mkInflated Z_DATA_ERROR [] input tt
    end;
  zlib_crc32 payload := Z.lxor (fold_left crc_byte payload 0xFFFFFFFF) 0xFFFFFFFF;
|}.

#[local] Instance one_block_healthy : ZlibHealthy.
Proof.
  split; [done |]. intros s input room. unfold inflate, one_block.
  repeat match goal with |- context [match ?x with _ => _ end] => destruct x end; listed.
Qed.

(** An archive of the one deflated file [a], whose content is [x]. *)
Definition deflated_archive : bytes :=
  [80; 75; 3; 4; 20; 0; 0; 0; 8; 0; 0; 0; 0; 0; 131; 22; 220; 140; 6; 0; 0; 0; 1; 0; 0; 0; 1; 0; 0; 0; 97; 1; 1; 0; 254; 255; 120] ++
  [80; 75; 1; 2; 20; 0; 20; 0; 0; 0; 8; 0; 0; 0; 0; 0; 131; 22; 220; 140; 6; 0; 0; 0; 1; 0; 0; 0; 1; 0; 0; 0; 0; 0; 0; 0; 0; 0; 0; 0; 0; 0; 0; 0; 0; 0; 97] ++
  [80; 75; 5; 6; 0; 0; 0; 0; 1; 0; 1; 0; 47; 0; 0; 0; 37; 0; 0; 0; 0; 0].

Definition demo_limits : BoundedZipLimits := mkLimits 4096 4096 4 4096 255 100 1024.

Lemma zip_payload_read_witness :
  exists a, open_bounded_zip (Some deflated_archive) (zlen deflated_archive) demo_limits = inr (inr a) /\
    (exists d, data_offsets_ a !! 0%nat = Some d) /\ read_bounded_zip_payload a [97] 0 = inr (inr [0x78]).
Proof.
  eexists. split; [vm_compute; reflexivity |]. split; [| vm_compute; reflexivity].
  refine (match zip_payload_read demo_limits deflated_archive _ 0%nat _ _ _ _ _ with ex_intro _ d (conj H _) => ex_intro _ d H end);
    [apply is_bytes_compute; vm_compute; done | vm_compute; done | vm_compute; done | vm_compute; reflexivity].
Defined.

Lemma zip_total_bounded_witness : total (zlen <$> [[0x78]]) <= Z.max 0 4096.
Proof.
  refine (zip_total_bounded demo_limits deflated_archive _ [[0x78]] _ _ _ _);
    [apply is_bytes_compute; vm_compute; done | vm_compute; done | vm_compute; reflexivity |].
  cbn [entries_]. constructor; [vm_compute; reflexivity | constructor].
Defined.
