(* ===== verification/ContentIdentity.v ===== *)
(** * Content hashes ([shared/src/catalog/content_identity.{hpp,cpp}])

    The streaming hashers behind the identity of a game: SHA-1 and SHA-256 over one
    buffered driver, and CRC-32.  The driver is parametrised by the block function, as
    the templates of the code are. *)

From S2P Require Import Prelude Sha256.

(** ** Data *)

Definition max_hash_bytes : Z := u64_max / 8.
Definition uppercase_hex : bytes := ascii_bytes "0123456789ABCDEF".

Inductive ContentIdentityError :=
  | NONE | INVALID_BYTE_VIEW | LENGTH_OVERFLOW | ALREADY_FINALIZED | INVALID_UTF8 | BLANK | INVALID_HEX.

#[global] Instance identity_error_eq_dec : EqDecision ContentIdentityError.
Proof. solve_decision. Defined.

Definition error_text (error : ContentIdentityError) : string :=
  match error with
  | NONE => ""
  | INVALID_BYTE_VIEW => "Hash input pointer must not be null when length is nonzero"
  | LENGTH_OVERFLOW => "Hash input length exceeds the supported length limit"
  | ALREADY_FINALIZED => "Hash calculation has already been finalized"
  | INVALID_UTF8 => "ID input must be valid Unicode"
  | BLANK => "ID input must not be blank"
  | INVALID_HEX => "Hash input must be hexadecimal"
  end.

(** A text or an error; [StableIdResult] has the same fields. *)
Record TextResult := mkText { text_error : ContentIdentityError; text_value : bytes; text_message : string }.

Definition text_ok (value : bytes) : TextResult := mkText NONE value "".
Definition text_failed (error : ContentIdentityError) : TextResult := mkText error [] (error_text error).
Definition text_failed_with (error : ContentIdentityError) (message : string) : TextResult := mkText error [] message.
Definition ok (result : TextResult) : bool := bool_decide (text_error result = NONE).

(** ** Words *)

Definition rotate_left (value bits : Z) : Z := Z.lor (u32 (Z.shiftl value bits)) (Z.shiftr value (32 - bits)).
Definition rotate_right (value bits : Z) : Z := Z.lor (Z.shiftr value bits) (u32 (Z.shiftl value (32 - bits))).

(** [output[7 - index] = value >> (index * 8)] *)
Definition store_big_endian_u64 (value : Z) : bytes := (fun i => u8 (Z.shiftr value ((7 - i) * 8))) <$> seqZ 0 8.

Definition word_to_hex (word : Z) : bytes :=
  (fun shift => at_ uppercase_hex (Z.land (Z.shiftr word shift) 0xF)) <$> [28; 24; 20; 16; 12; 8; 4; 0].
Definition words_to_hex (words : list Z) : bytes := mjoin (word_to_hex <$> words).

Definition validate_view (data : option bytes) (size : Z) : ContentIdentityError :=
  if bool_decide (data = None) && negb (size =? 0) then INVALID_BYTE_VIEW else NONE.

Definition validate_hash_byte_count (current additional : Z) : ContentIdentityError :=
  if (max_hash_bytes <? current) || (max_hash_bytes - current <? additional) then LENGTH_OVERFLOW else NONE.

Definition validate_id_utf8_length (byte_length : Z) : ContentIdentityError :=
  if 2 ^ 31 - 1 <? byte_length then LENGTH_OVERFLOW else NONE.

(** ** Block functions *)

(** What a hash of 64-byte blocks is. *)
Class BlockHash := {
  initial_words : list Z;
  process_block : list Z -> bytes -> list Z;
}.

(** The schedule of SHA-1. *)
Definition sha1_word (words : list Z) (i : Z) : Z :=
  rotate_left (Z.lxor (Z.lxor (Z.lxor (at_ words (i - 3)) (at_ words (i - 8))) (at_ words (i - 14))) (at_ words (i - 16))) 1.

Definition sha1_schedule (block : bytes) : list Z :=
  fold_left (fun words i => words ++ [sha1_word words i]) (seqZ 16 64) ((fun i => load32 block (i * 4)) <$> seqZ 0 16).

Definition sha1_function (i b c d : Z) : Z * Z :=
  if i <? 20 then (Z.lor (Z.land b c) (Z.land (u32 (Z.lnot b)) d), 0x5A827999)
  else if i <? 40 then (Z.lxor (Z.lxor b c) d, 0x6ED9EBA1)
  else if i <? 60 then (Z.lor (Z.lor (Z.land b c) (Z.land b d)) (Z.land c d), 0x8F1BBCDC)
  else (Z.lxor (Z.lxor b c) d, 0xCA62C1D6).

Definition sha1_round (words : list Z) (r : Z * Z * Z * Z * Z) (i : Z) : Z * Z * Z * Z * Z :=
  let '(a, b, c, d, e) := r in
  let '(f, k) := sha1_function i b c d in
  let temporary := u32 (rotate_left a 5 + f + e + k + at_ words i) in
  (temporary, a, rotate_left b 30, c, d).

Definition sha1_process_block (state : list Z) (block : bytes) : list Z :=
  match state with
  | [s0; s1; s2; s3; s4] =>
    let words := sha1_schedule block in
    let '(a, b, c, d, e) := fold_left (sha1_round words) (seqZ 0 80) (s0, s1, s2, s3, s4) in
    [u32 (s0 + a); u32 (s1 + b); u32 (s2 + c); u32 (s3 + d); u32 (s4 + e)]
  | _ => state
  end.

(** The schedule of SHA-256; its table is [kK]. *)
Definition sha256_word (words : list Z) (i : Z) : Z :=
  let first := Z.lxor (Z.lxor (rotate_right (at_ words (i - 15)) 7) (rotate_right (at_ words (i - 15)) 18))
                 (Z.shiftr (at_ words (i - 15)) 3) in
  let second := Z.lxor (Z.lxor (rotate_right (at_ words (i - 2)) 17) (rotate_right (at_ words (i - 2)) 19))
                  (Z.shiftr (at_ words (i - 2)) 10) in
  u32 (at_ words (i - 16) + first + at_ words (i - 7) + second).

Definition sha256_schedule (block : bytes) : list Z :=
  fold_left (fun words i => words ++ [sha256_word words i]) (seqZ 16 48) ((fun i => load32 block (i * 4)) <$> seqZ 0 16).

Definition sha256_round_constants : list Z := [
  0x428A2F98; 0x71374491; 0xB5C0FBCF; 0xE9B5DBA5; 0x3956C25B; 0x59F111F1; 0x923F82A4; 0xAB1C5ED5;
  0xD807AA98; 0x12835B01; 0x243185BE; 0x550C7DC3; 0x72BE5D74; 0x80DEB1FE; 0x9BDC06A7; 0xC19BF174;
  0xE49B69C1; 0xEFBE4786; 0x0FC19DC6; 0x240CA1CC; 0x2DE92C6F; 0x4A7484AA; 0x5CB0A9DC; 0x76F988DA;
  0x983E5152; 0xA831C66D; 0xB00327C8; 0xBF597FC7; 0xC6E00BF3; 0xD5A79147; 0x06CA6351; 0x14292967;
  0x27B70A85; 0x2E1B2138; 0x4D2C6DFC; 0x53380D13; 0x650A7354; 0x766A0ABB; 0x81C2C92E; 0x92722C85;
  0xA2BFE8A1; 0xA81A664B; 0xC24B8B70; 0xC76C51A3; 0xD192E819; 0xD6990624; 0xF40E3585; 0x106AA070;
  0x19A4C116; 0x1E376C08; 0x2748774C; 0x34B0BCB5; 0x391C0CB3; 0x4ED8AA4A; 0x5B9CCA4F; 0x682E6FF3;
  0x748F82EE; 0x78A5636F; 0x84C87814; 0x8CC70208; 0x90BEFFFA; 0xA4506CEB; 0xBEF9A3F7; 0xC67178F2].

Definition sha256_round (words : list Z) (r : Z * Z * Z * Z * Z * Z * Z * Z) (i : Z) : Z * Z * Z * Z * Z * Z * Z * Z :=
  let '(a, b, c, d, e, f, g, h) := r in
  let sum_one := Z.lxor (Z.lxor (rotate_right e 6) (rotate_right e 11)) (rotate_right e 25) in
  let choice := Z.lxor (Z.land e f) (Z.land (u32 (Z.lnot e)) g) in
  let temporary_one := u32 (h + sum_one + choice + at_ sha256_round_constants i + at_ words i) in
  let sum_zero := Z.lxor (Z.lxor (rotate_right a 2) (rotate_right a 13)) (rotate_right a 22) in
  let majority := Z.lxor (Z.lxor (Z.land a b) (Z.land a c)) (Z.land b c) in
  let temporary_two := u32 (sum_zero + majority) in
  (u32 (temporary_one + temporary_two), a, b, c, u32 (d + temporary_one), e, f, g).

Definition sha256_process_block (state : list Z) (block : bytes) : list Z :=
  match state with
  | [s0; s1; s2; s3; s4; s5; s6; s7] =>
    let words := sha256_schedule block in
    let '(a, b, c, d, e, f, g, h) := fold_left (sha256_round words) (seqZ 0 64) (s0, s1, s2, s3, s4, s5, s6, s7) in
    [u32 (s0 + a); u32 (s1 + b); u32 (s2 + c); u32 (s3 + d); u32 (s4 + e); u32 (s5 + f); u32 (s6 + g); u32 (s7 + h)]
  | _ => state
  end.

Definition sha1 : BlockHash := {|
  initial_words := [0x67452301; 0xEFCDAB89; 0x98BADCFE; 0x10325476; 0xC3D2E1F0];
  process_block := sha1_process_block;
|}.

Definition sha256_hash : BlockHash := {|
  initial_words := [0x6A09E667; 0xBB67AE85; 0x3C6EF372; 0xA54FF53A; 0x510E527F; 0x9B05688C; 0x1F83D9AB; 0x5BE0CD19];
  process_block := sha256_process_block;
|}.

(** ** The buffered driver *)

Record Hasher := mkHasher {
  words_ : list Z;
  buffer_ : bytes;
  buffered_ : Z;
  total_bytes_ : Z;
  error_ : ContentIdentityError;
  finalized_ : bool;
  final_hex_ : bytes;
}.

#[global] Instance eta_hasher : Eta Hasher := fun r =>
  mkHasher (words_ r) (buffer_ r) (buffered_ r) (total_bytes_ r) (error_ r) (finalized_ r) (final_hex_ r).

Section Driver.
Context `{BlockHash}.

Definition hasher_new : Hasher := mkHasher initial_words (replicate 64 0) 0 0 NONE false [].

(** Whole blocks of the input: the state after them and the rest.  Every turn takes 64 bytes. *)
Fixpoint block_loop (fuel : nat) (words : list Z) (input : bytes) : list Z * bytes :=
  match fuel with
  | O => (words, input)
  | S fuel => if 64 <=? zlen input then block_loop fuel (process_block words (take 64 input)) (drop 64 input) else (words, input)
  end.

(** The bytes that complete the block in the buffer. *)
Definition fill_buffer (input : bytes) (h : Hasher) : Hasher * bytes :=
  if negb (buffered_ h =? 0) then
    let copied := Z.min (64 - buffered_ h) (zlen input) in
    let '(h, input) :=
      if negb (copied =? 0) then
        (h <| buffer_ := overwrite (Z.to_nat (buffered_ h)) (slice input 0 copied) (buffer_ h) |>
           <| buffered_ := buffered_ h + copied |>, drop (Z.to_nat copied) input)
      else (h, input) in
    if buffered_ h =? 64 then (h <| words_ := process_block (words_ h) (buffer_ h) |> <| buffered_ := 0 |>, input)
    else (h, input)
  else (h, input).

Definition update (data : option bytes) (size : Z) (h : Hasher) : ContentIdentityError * Hasher :=
  if negb (bool_decide (error_ h = NONE)) then (error_ h, h)
  else if finalized_ h then (ALREADY_FINALIZED, h)
  else
    let view := validate_view data size in
    if negb (bool_decide (view = NONE)) then (view, h <| error_ := view |>)
    else
      let count := validate_hash_byte_count (total_bytes_ h) size in
      if negb (bool_decide (count = NONE)) then (count, h <| error_ := count |>)
      else
        let h := h <| error_ := NONE |> <| total_bytes_ := total_bytes_ h + size |> in
        let '(h, input) := fill_buffer (slice (default [] data) 0 size) h in
        let '(words, rest) := block_loop (length input) (words_ h) input in
        let h := h <| words_ := words |> in
        (NONE, if negb (zlen rest =? 0)
               then h <| buffer_ := overwrite 0 rest (buffer_ h) |> <| buffered_ := zlen rest |> else h).

(** The padding, and the last one or two blocks. *)
Definition finish_hex (h : Hasher) : TextResult * Hasher :=
  if negb (bool_decide (error_ h = NONE)) then (text_failed (error_ h), h)
  else if finalized_ h then (text_ok (final_hex_ h), h)
  else
    let bit_length := u64 (total_bytes_ h * 8) in
    let buffer := aset (buffer_ h) (buffered_ h) 0x80 in
    let buffered := buffered_ h + 1 in
    let '(words, buffer, buffered) :=
      if 56 <? buffered then
        (process_block (words_ h) (slice buffer 0 buffered ++ replicate (Z.to_nat (64 - buffered)) 0),
         slice buffer 0 buffered ++ replicate (Z.to_nat (64 - buffered)) 0, 0)
      else (words_ h, buffer, buffered) in
    let buffer := slice buffer 0 buffered ++ replicate (Z.to_nat (56 - buffered)) 0 ++ store_big_endian_u64 bit_length in
    let words := process_block words buffer in
    let hex := words_to_hex words in
    (text_ok hex,
     h <| words_ := words |> <| buffer_ := buffer |> <| buffered_ := 0 |> <| final_hex_ := hex |> <| finalized_ := true |>).

Definition one_shot (data : option bytes) (size : Z) : TextResult :=
  let '(error, h) := update data size hasher_new in
  if negb (bool_decide (error = NONE)) then text_failed error else (finish_hex h).1.

End Driver.

Definition sha1_hex : option bytes -> Z -> TextResult := one_shot (H := sha1).
Definition sha256_hex : option bytes -> Z -> TextResult := one_shot (H := sha256_hash).

(** ** CRC-32 *)

Record Crc32Hasher := mkCrc { crc_state_ : Z; crc_total_ : Z; crc_error_ : ContentIdentityError; crc_finalized_ : bool; crc_hex_ : bytes }.

#[global] Instance eta_crc : Eta Crc32Hasher := fun r =>
  mkCrc (crc_state_ r) (crc_total_ r) (crc_error_ r) (crc_finalized_ r) (crc_hex_ r).

Definition crc_new : Crc32Hasher := mkCrc 0xFFFFFFFF 0 NONE false [].

Definition crc_bit (state : Z) : Z :=
  let mask := u32 (0 - Z.land state 1) in Z.lxor (Z.shiftr state 1) (Z.land 0xEDB88320 mask).

Definition crc_byte (state b : Z) : Z := fold_left (fun state _ => crc_bit state) (seqZ 0 8) (Z.lxor state b).

Definition crc_update (data : option bytes) (size : Z) (h : Crc32Hasher) : ContentIdentityError * Crc32Hasher :=
  if negb (bool_decide (crc_error_ h = NONE)) then (crc_error_ h, h)
  else if crc_finalized_ h then (ALREADY_FINALIZED, h)
  else
    let view := validate_view data size in
    if negb (bool_decide (view = NONE)) then (view, h <| crc_error_ := view |>)
    else if u64_max - crc_total_ h <? size then (LENGTH_OVERFLOW, h <| crc_error_ := LENGTH_OVERFLOW |>)
    else
      (NONE, h <| crc_error_ := NONE |> <| crc_total_ := crc_total_ h + size |>
               <| crc_state_ := fold_left crc_byte (slice (default [] data) 0 size) (crc_state_ h) |>).

Definition crc_finish_hex (h : Crc32Hasher) : TextResult * Crc32Hasher :=
  if negb (bool_decide (crc_error_ h = NONE)) then (text_failed (crc_error_ h), h)
  else if crc_finalized_ h then (text_ok (crc_hex_ h), h)
  else
    let hex := word_to_hex (Z.lxor (crc_state_ h) 0xFFFFFFFF) in
    (text_ok hex, h <| crc_hex_ := hex |> <| crc_finalized_ := true |>).

Definition crc32_hex (data : option bytes) (size : Z) : TextResult :=
  let '(error, h) := crc_update data size crc_new in
  if negb (bool_decide (error = NONE)) then text_failed error else (crc_finish_hex h).1.

(** ** The hashes of a game *)

Record RomContentHashes := mkHashes {
  payload_sha1 : bytes; payload_sha256 : bytes; physical_package_sha256 : bytes; crc32 : bytes }.

Definition hash_rom_content (payload : option bytes) (payload_size : Z) (package : option bytes) (package_size : Z)
    : TextResult + RomContentHashes :=
  let results := [sha1_hex payload payload_size; sha256_hex payload payload_size; crc32_hex payload payload_size;
                  sha256_hex package package_size] in
  match List.find (fun result => negb (ok result)) results with
  | Some failed => inl (mkText (text_error failed) [] (text_message failed))
  | None =>
    match results with
    | [s1; s256; c; p256] => inr (mkHashes (text_value s1) (text_value s256) (text_value p256) (text_value c))
    | _ => inl (text_failed NONE)
    end
  end.

Example sha1_of_abc :
  text_value (sha1_hex (Some (ascii_bytes "abc")) 3) = ascii_bytes "A9993E364706816ABA3E25717850C26C9CD0D89D".
Proof. vm_compute. reflexivity. Qed.

Example crc32_of_digits : text_value (crc32_hex (Some (ascii_bytes "123456789")) 9) = ascii_bytes "CBF43926".
Proof. vm_compute. reflexivity. Qed.

(** ** Lemmas *)

Section Absorb.
Context `{BlockHash}.

(** Hashes the first [n] blocks. *)
Fixpoint absorb (n : nat) (words : list Z) (message : bytes) : list Z :=
  match n with
  | O => words
  | S n => absorb n (process_block words (take 64 message)) (drop 64 message)
  end.

Lemma absorb_add n k words message :
  absorb (n + k) words message = absorb k (absorb n words message) (drop (64 * n) message).
Proof.
  revert words message. induction n as [|n IH]; intros words message; [by rewrite drop_0 |].
  cbn [absorb Nat.add]. rewrite IH, drop_drop. do 2 f_equal. lia.
Qed.

Lemma absorb_app n words a b : (64 * n <= length a)%nat -> absorb n words (a ++ b) = absorb n words a.
Proof.
  revert words a. induction n as [|n IH]; intros words a Hn; [done |]. cbn [absorb].
  rewrite take_app_le, drop_app_le by lia. apply IH. rewrite length_drop. lia.
Qed.

Definition blocks (message : bytes) : nat := (length message / 64)%nat.

Lemma blocks_lower message : (64 * blocks message <= length message)%nat.
Proof. unfold blocks. apply Nat.Div0.mul_div_le. Qed.

Lemma blocks_upper message : (length message < 64 * blocks message + 64)%nat.
Proof. unfold blocks. pose proof (Nat.div_mod_eq (length message) 64). pose proof (Nat.mod_upper_bound (length message) 64). lia. Qed.

Lemma blocks_unique n message : (64 * n <= length message < 64 * n + 64)%nat -> blocks message = n.
Proof. intros Hn. unfold blocks. symmetry. apply (Nat.div_unique _ _ _ (length message - 64 * n)); lia. Qed.

(** What is left of a message after its whole blocks. *)
Definition leftover (message : bytes) : bytes := drop (64 * blocks message) message.

Lemma length_leftover message : (length (leftover message) < 64)%nat.
Proof. unfold leftover. rewrite length_drop. pose proof (blocks_upper message). lia. Qed.

Lemma block_loop_spec fuel words input :
  (length input <= fuel)%nat -> block_loop fuel words input = (absorb (blocks input) words input, leftover input).
Proof.
  revert words input. induction fuel as [|fuel IH]; intros words input Hf.
  { by destruct input; [| cbn in Hf; lia]. }
  cbn [block_loop]. unfold zlen. destruct (Z.leb_spec 64 (Z.of_nat (length input))).
  - rewrite IH by (rewrite length_drop; lia).
    assert (blocks input = S (blocks (drop 64 input))) as ->.
    { apply blocks_unique. pose proof (blocks_lower (drop 64 input)). pose proof (blocks_upper (drop 64 input)).
      rewrite length_drop in *. lia. }
    cbn [absorb]. f_equal. unfold leftover. rewrite drop_drop. f_equal. symmetry.
    rewrite (blocks_unique (S (blocks (drop 64 input)))); [lia |].
    pose proof (blocks_lower (drop 64 input)). pose proof (blocks_upper (drop 64 input)). rewrite length_drop in *. lia.
  - assert (blocks input = 0%nat) as E by (apply blocks_unique; lia). unfold leftover. by rewrite E.
Qed.

(** *** The buffer *)

Definition pending (h : Hasher) : bytes := slice (buffer_ h) 0 (buffered_ h).

(** A hasher that takes bytes, after [message]. *)
Record absorbed (message : bytes) (h : Hasher) : Prop := {
  no_error : error_ h = NONE;
  not_final : finalized_ h = false;
  total : total_bytes_ h = zlen message;
  hashed : words_ h = absorb (blocks message) initial_words message;
  kept : pending h = leftover message;
  count : buffered_ h = zlen (leftover message);
  space : zlen (buffer_ h) = 64;
}.

Lemma absorbed_new : absorbed [] hasher_new.
Proof. by split. Qed.

(** Appending to a message: the whole blocks of what was left and of what comes. *)
Lemma absorb_more message data :
  absorb (blocks (message ++ data)) initial_words (message ++ data) =
    absorb (blocks (leftover message ++ data)) (absorb (blocks message) initial_words message) (leftover message ++ data) /\
  leftover (message ++ data) = leftover (leftover message ++ data).
Proof.
  assert (drop (64 * blocks message) (message ++ data) = leftover message ++ data) as Hdrop.
  { unfold leftover. apply drop_app_le, blocks_lower. }
  assert (blocks (message ++ data) = (blocks message + blocks (leftover message ++ data))%nat) as Hblocks.
  { apply blocks_unique. pose proof (blocks_lower (leftover message ++ data)). pose proof (blocks_upper (leftover message ++ data)).
    pose proof (blocks_lower message). apply (f_equal length) in Hdrop. rewrite length_drop in Hdrop. rewrite !length_app in *. lia. }
  split.
  - rewrite Hblocks, absorb_add, Hdrop. f_equal. apply absorb_app, blocks_lower.
  - unfold leftover at 1. rewrite Hblocks, Nat.mul_add_distr_l, <- drop_drop, Hdrop. done.
Qed.

(** The driver on the bytes it holds and the bytes it is given. *)
Lemma fill_buffer_spec input h :
  zlen (buffer_ h) = 64 -> 0 <= buffered_ h < 64 ->
  let '(h', rest) := fill_buffer input h in
  let m := pending h ++ input in
  zlen (buffer_ h') = 64 /\ error_ h' = error_ h /\ finalized_ h' = finalized_ h /\ total_bytes_ h' = total_bytes_ h /\
  absorb (blocks rest) (words_ h') rest = absorb (blocks m) (words_ h) m /\
  ((buffered_ h' = 0 /\ leftover m = leftover rest) \/
   (rest = [] /\ buffered_ h' = zlen (leftover m) /\ pending h' = leftover m)).
Proof.
  intros Hspace Hb. unfold fill_buffer. destruct (Z.eqb_spec (buffered_ h) 0) as [E0|N0]; cbn [negb].
  { cbv zeta. assert (pending h = []) as -> by (unfold pending; by rewrite E0, slice_zero). cbn [app].
    split_and!; try done. by left. }
  pose proof (zlen_nonneg input) as Hin. cbv zeta.
  assert (zlen (pending h) = buffered_ h) as Hpend by (unfold pending; apply zlen_slice; lia).
  destruct (Z.eqb_spec (Z.min (64 - buffered_ h) (zlen input)) 0) as [Ec|Nc]; cbn [negb].
  { assert (input = []) as -> by (destruct input; [done | rewrite zlen_cons in *; pose proof (zlen_nonneg input); lia]).
    destruct (Z.eqb_spec (buffered_ h) 64); [lia |]. rewrite app_nil_r.
    assert (blocks (pending h) = 0%nat) as Eb by (apply blocks_unique; unfold zlen in *; lia).
    unfold leftover. rewrite Eb. cbn [Nat.mul drop]. rewrite drop_0. split_and!; try done. right. by split_and!. }
  set (copied := Z.min (64 - buffered_ h) (zlen input)) in *.
  set (filled := overwrite (Z.to_nat (buffered_ h)) (slice input 0 copied) (buffer_ h)).
  assert (zlen (slice input 0 copied) = copied) as Hcopied by (apply zlen_slice; lia).
  assert (zlen filled = 64) as Hfilled.
  { unfold filled, overwrite, zlen in *. rewrite !length_app, length_take, length_drop. lia. }
  assert (slice filled 0 (buffered_ h + copied) = pending h ++ slice input 0 copied) as Hfront.
  { unfold filled, overwrite. rewrite app_assoc. apply slice_app_here. by rewrite zlen_app, Hcopied, Hpend. }
  change (buffered_ (h <| buffer_ := filled |> <| buffered_ := buffered_ h + copied |>)) with (buffered_ h + copied).
  destruct (Z.eqb_spec (buffered_ h + copied) 64) as [E64|N64].
  - assert (filled = pending h ++ slice input 0 copied) as Hwhole.
    { rewrite <- Hfront, E64, <- Hfilled. by rewrite slice_all. }
    assert (pending h ++ input = filled ++ drop (Z.to_nat copied) input) as Hm.
    { rewrite Hwhole, <- app_assoc. f_equal. unfold slice. by rewrite drop_0, take_drop. }
    rewrite Hm. change (words_ (h <| buffer_ := filled |> <| buffered_ := buffered_ h + copied |> <| words_ := process_block
      (words_ (h <| buffer_ := filled |> <| buffered_ := buffered_ h + copied |>))
      (buffer_ (h <| buffer_ := filled |> <| buffered_ := buffered_ h + copied |>)) |> <| buffered_ := 0 |>))
      with (process_block (words_ h) filled).
    set (rest := drop (Z.to_nat copied) input).
    assert (blocks (filled ++ rest) = S (blocks rest)) as Hblocks.
    { apply blocks_unique. rewrite length_app. pose proof (blocks_lower rest). pose proof (blocks_upper rest). unfold zlen in *. lia. }
    assert (length filled = 64%nat) as Hl by (unfold zlen in *; lia).
    split_and!; try done.
    + rewrite Hblocks. cbn [absorb]. by rewrite take_app_length', drop_app_length' by done.
    + left. split; [done |]. unfold leftover. rewrite Hblocks.
      replace (64 * S (blocks rest))%nat with (length filled + 64 * blocks rest)%nat by lia.
      by rewrite drop_app_add.
  - assert (copied = zlen input) as Hall by lia.
    assert (drop (Z.to_nat copied) input = []) as -> by (rewrite Hall; unfold zlen; rewrite Nat2Z.id; apply drop_all).
    assert (slice input 0 copied = input) as Hslice by (by rewrite Hall, slice_all).
    assert (blocks (pending h ++ input) = 0%nat) as Eb by (apply blocks_unique; rewrite length_app; unfold zlen in *; lia).
    unfold leftover. rewrite Eb. cbn [Nat.mul drop]. rewrite drop_0. split_and!; try done.
    right. split_and!; [done | |].
    + change (buffered_ h + copied = zlen (pending h ++ input)). rewrite zlen_app. lia.
    + change (slice filled 0 (buffered_ h + copied) = pending h ++ input). by rewrite Hfront, Hslice.
Qed.

Lemma update_spec message data h :
  absorbed message h -> zlen (message ++ data) <= max_hash_bytes ->
  (update (Some data) (zlen data) h).1 = NONE /\ absorbed (message ++ data) (update (Some data) (zlen data) h).2.
Proof.
  intros [He Hf Ht Hw Hp Hc Hs] Hmax. pose proof (zlen_nonneg message). pose proof (zlen_nonneg data).
  pose proof (length_leftover message) as Hlt. rewrite zlen_app in Hmax.
  unfold update. rewrite He, Hf, bool_decide_true by done. cbn [negb]. cbv zeta.
  unfold validate_view. rewrite (bool_decide_false (_ = None)), bool_decide_true by done. cbn [andb negb].
  unfold validate_hash_byte_count. rewrite Ht.
  destruct (Z.ltb_spec max_hash_bytes (zlen message)); [lia |]. destruct (Z.ltb_spec (max_hash_bytes - zlen message) (zlen data)); [lia |].
  cbn [orb]. rewrite bool_decide_true by done. cbn [negb default]. unfold id. rewrite slice_all.
  set (h1 := h <| error_ := NONE |> <| total_bytes_ := zlen message + zlen data |>).
  pose proof (fill_buffer_spec data h1) as Hfill. change (buffer_ h1) with (buffer_ h) in Hfill.
  change (buffered_ h1) with (buffered_ h) in Hfill. change (pending h1) with (pending h) in Hfill.
  change (words_ h1) with (words_ h) in Hfill.
  destruct (fill_buffer data h1) as [h2 rest]. cbv zeta in Hfill. rewrite Hp in Hfill.
  destruct Hfill as (S2 & E2 & F2 & T2 & W2 & Hcase); [done | unfold zlen in *; lia |].
  rewrite block_loop_spec by done. destruct (absorb_more message data) as [Hwords Hleft].
  assert (words_ (h2 <| words_ := absorb (blocks rest) (words_ h2) rest |>) = absorb (blocks (message ++ data)) initial_words (message ++ data)) as Hnew.
  { change (absorb (blocks rest) (words_ h2) rest = absorb (blocks (message ++ data)) initial_words (message ++ data)).
    by rewrite W2, Hwords, Hw. }
  assert (error_ h2 = NONE) as He2 by (by rewrite E2). assert (finalized_ h2 = false) as Hf2 by (rewrite F2; exact Hf).
  split; [done |]. cbn [snd]. set (h3 := h2 <| words_ := absorb (blocks rest) (words_ h2) rest |>) in *.
  destruct (Z.eqb_spec (zlen (leftover rest)) 0) as [E|N]; cbn [negb].
  - assert (leftover rest = []) as Enil by (by apply length_zero_iff_nil; unfold zlen in E; lia).
    split; try done.
    + change (total_bytes_ h2 = zlen (message ++ data)). rewrite T2, zlen_app. done.
    + change (pending h2 = leftover (message ++ data)). rewrite Hleft.
      destruct Hcase as [[B2 L2] | (_ & _ & P2)]; [| done]. rewrite L2, Enil. unfold pending. by rewrite B2, slice_zero.
    + change (buffered_ h2 = zlen (leftover (message ++ data))). rewrite Hleft.
      destruct Hcase as [[B2 L2] | (_ & B2 & _)]; [| done]. rewrite L2, Enil. done.
  - destruct Hcase as [[B2 L2] | (-> & _)]; [| done]. pose proof (length_leftover rest).
    split; try done.
    + change (total_bytes_ h2 = zlen (message ++ data)). rewrite T2, zlen_app. done.
    + change (slice (overwrite 0 (leftover rest) (buffer_ h2)) 0 (zlen (leftover rest)) = leftover (message ++ data)).
      rewrite Hleft, L2. unfold overwrite. rewrite take_0. cbn [app]. by apply slice_app_here.
    + change (zlen (leftover rest) = zlen (leftover (message ++ data))). by rewrite Hleft, L2.
    + change (zlen (overwrite 0 (leftover rest) (buffer_ h2)) = 64). unfold overwrite, zlen in *.
      rewrite !length_app, length_take, length_drop. lia.
Qed.

(** *** The end of the message *)

Lemma store_is_be value : store_big_endian_u64 value = be_bytes 8 value.
Proof. reflexivity. Qed.

Lemma marked_buffer buffer (b : Z) :
  0 <= b < zlen buffer -> slice (aset buffer b 0x80) 0 (b + 1) = slice buffer 0 b ++ [0x80].
Proof.
  intros Hb. unfold slice, aset. change (Z.to_nat 0) with 0%nat. rewrite !drop_0.
  rewrite insert_take_drop by (unfold zlen in *; lia). replace (Z.to_nat (b + 1)) with (Z.to_nat b + 1)%nat by lia.
  rewrite take_app_ge by (rewrite length_take; lia). f_equal.
  replace (_ - _)%nat with 1%nat by (rewrite length_take; unfold zlen in *; lia). done.
Qed.

(** The padded message hashed by [Sha256]'s standard padding, for any block function. *)
Definition digest (message : bytes) : list Z :=
  absorb (blocks (fips_pad message)) initial_words (fips_pad message).

Lemma digest_tail message k :
  length (fips_pad message) = (64 * (blocks message + k))%nat ->
  digest message = absorb k (absorb (blocks message) initial_words message)
    (leftover message ++ drop (length message) (fips_pad message)).
Proof.
  intros Hlen. unfold digest. rewrite (blocks_unique (blocks message + k)) by lia. rewrite absorb_add.
  unfold fips_pad. rewrite drop_app_length, (drop_app_le message) by apply blocks_lower. f_equal.
  apply absorb_app, blocks_lower.
Qed.

Lemma finish_spec message h :
  absorbed message h -> zlen message <= max_hash_bytes -> (finish_hex h).1 = text_ok (words_to_hex (digest message)).
Proof.
  intros [He Hf Ht Hw Hp Hc Hs] Hmax. pose proof (length_leftover message) as Hlt.
  pose proof (blocks_lower message) as Hlow. pose proof (blocks_upper message) as Hup.
  assert (length (leftover message) = length message - 64 * blocks message)%nat as Hleft by apply length_drop.
  unfold finish_hex. rewrite He, Hf, bool_decide_true by done. cbn [negb].
  rewrite Ht, Hw, Hc. assert (u64 (zlen message * 8) = zlen message * 8) as ->.
  { apply u64_small. pose proof (zlen_nonneg message). unfold max_hash_bytes, u64_max in Hmax.
    Z.to_euclidean_division_equations; lia. }
  cbv zeta. rewrite store_is_be, marked_buffer by (unfold zlen in *; lia).
  unfold pending in Hp. rewrite Hc in Hp. rewrite Hp.
  set (b := zlen (leftover message)) in *.
  assert (zlen (leftover message ++ [128]) = b + 1) as Hmark by (by rewrite zlen_app).
  assert (drop (length message) (fips_pad message) =
    [128] ++ replicate (Z.to_nat ((55 - zlen message) mod 64)) 0 ++ be_bytes 8 (zlen message * 8)) as Hdrop.
  { unfold fips_pad. by rewrite drop_app_length. }
  assert (length (fips_pad message) = (length message + 1 + Z.to_nat ((55 - zlen message) mod 64) + 8)%nat) as Hlen.
  { unfold fips_pad. rewrite !length_app, length_replicate, length_be_bytes. cbn [length]. lia. }
  assert (zlen message = 64 * Z.of_nat (blocks message) + b) as Hsize by (unfold b, zlen in *; lia).
  assert (0 <= b < 64) as Hbound by (unfold b, zlen in *; lia).
  destruct (Z.ltb_spec 56 (b + 1)) as [Hlong|Hshort].
  - assert ((55 - zlen message) mod 64 = 119 - b) as Hzero.
    { symmetry. apply (Z.mod_unique _ _ (- Z.of_nat (blocks message) - 1)); lia. }
    rewrite Hzero in *. rewrite (digest_tail message 2) by (unfold zlen in *; lia). rewrite Hdrop. cbn [fst].
    rewrite slice_zero. cbn [app absorb]. do 2 f_equal.
    assert (leftover message ++ 128 :: replicate (Z.to_nat (119 - b)) 0 ++ be_bytes 8 (zlen message * 8) =
      ((leftover message ++ [128]) ++ replicate (Z.to_nat (64 - (b + 1))) 0) ++
      (replicate (Z.to_nat (56 - 0)) 0 ++ be_bytes 8 (zlen message * 8))) as Hsplit.
    { replace (Z.to_nat (119 - b)) with (Z.to_nat (64 - (b + 1)) + Z.to_nat (56 - 0))%nat by lia.
      rewrite replicate_add, <- !app_assoc. done. }
    rewrite Hsplit. set (first := (leftover message ++ [128]) ++ _).
    assert (length first = 64%nat) as Hfirst by (unfold first, zlen in *; rewrite length_app, length_replicate; lia).
    rewrite take_app_length', drop_app_length' by done. done.
  - assert ((55 - zlen message) mod 64 = 55 - b) as Hzero.
    { symmetry. apply (Z.mod_unique _ _ (- Z.of_nat (blocks message))); lia. }
    rewrite Hzero in *. rewrite (digest_tail message 1) by (unfold zlen in *; lia). rewrite Hdrop. cbn [fst absorb].
    rewrite marked_buffer by (unfold zlen in *; lia). rewrite Hp. do 2 f_equal.
    replace (56 - (b + 1)) with (55 - b) by lia. rewrite <- app_assoc. rewrite take_ge; [done |].
    rewrite !length_app, length_replicate, length_be_bytes. cbn [length]. unfold b, zlen in *. lia.
Qed.

(** Updates with the pieces of a message, all of them accepted. *)
Lemma updates_spec pieces message h :
  absorbed message h -> zlen (message ++ mjoin pieces) <= max_hash_bytes ->
  absorbed (message ++ mjoin pieces) (fold_left (fun h piece => (update (Some piece) (zlen piece) h).2) pieces h).
Proof.
  revert message h. induction pieces as [|piece pieces IH]; intros message h Hh Hmax.
  - change (mjoin []) with (@nil Z). by rewrite app_nil_r.
  - change (mjoin (piece :: pieces)) with (piece ++ mjoin pieces) in *. rewrite app_assoc in *. cbn [fold_left].
    pose proof (zlen_nonneg (mjoin pieces)). rewrite zlen_app in Hmax.
    apply IH; [apply update_spec; [done | lia] | by rewrite zlen_app].
Qed.

End Absorb.

(** *** SHA-256, twice

    The block function of the hasher and that of the session's [sha256] are the same
    function, and the hexadecimal digits of the words those of the bytes. *)

Lemma same_word words i : sha256_word words i = Sha256.schedule_word words i.
Proof. reflexivity. Qed.

Lemma same_constants : sha256_round_constants = kK.
Proof. reflexivity. Qed.

Lemma same_round words r i : sha256_round words r i = Sha256.round words r i.
Proof. unfold sha256_round, round. by rewrite same_constants. Qed.

Lemma same_schedule b : sha256_schedule b = Sha256.schedule b.
Proof. unfold sha256_schedule, schedule. reflexivity. Qed.

Lemma same_process state b : sha256_process_block state b = Sha256.block state b.
Proof. unfold sha256_process_block, Sha256.block. by rewrite same_schedule. Qed.

#[local] Opaque sha256_process_block Sha256.block.

Lemma absorb_hash_blocks n words message : absorb (H := sha256_hash) n words message = hash_blocks n words message.
Proof.
  revert words message. induction n as [|n IH]; intros words message; [done |]. cbn [absorb hash_blocks].
  etransitivity; [apply IH |]. apply (f_equal (fun w => hash_blocks n w (drop 64 message))), (same_process words (take 64 message)).
Qed.

Definition hex_upper (bs : bytes) : bytes :=
  mjoin ((fun b => [at_ uppercase_hex (Z.shiftr b 4); at_ uppercase_hex (Z.land b 0xF)]) <$> bs).

Lemma word_hex_bytes word : word_to_hex word = hex_upper (Sha256.word_bytes word).
Proof.
  assert (forall s, 0 <= s -> Z.land (Z.shiftr word (s + 4)) 0xF = Z.shiftr (u8 (Z.shiftr word s)) 4) as Hhigh.
  { intros s Hs. unfold u8. change 0xF with (Z.ones 4). rewrite Z.land_ones, <- Z.shiftr_shiftr, !Z.shiftr_div_pow2 by lia.
    change (2 ^ 4) with 16. change (2 ^ 8) with 256. Z.to_euclidean_division_equations; lia. }
  assert (forall s, 0 <= s -> Z.land (Z.shiftr word s) 0xF = Z.land (u8 (Z.shiftr word s)) 0xF) as Hlow.
  { intros s Hs. unfold u8. change 0xF with (Z.ones 4). rewrite !Z.land_ones by lia. change (2 ^ 4) with 16.
    change (2 ^ 8) with 256. Z.to_euclidean_division_equations; lia. }
  pose proof (Hhigh 24 ltac:(lia)) as H3. pose proof (Hhigh 16 ltac:(lia)) as H2. pose proof (Hhigh 8 ltac:(lia)) as H1.
  pose proof (Hhigh 0 ltac:(lia)) as H0. pose proof (Hlow 0 ltac:(lia)) as L0. rewrite Z.shiftr_0_r in H0, L0.
  unfold word_to_hex, hex_upper, Sha256.word_bytes. cbn [fmap list_fmap].
  rewrite (H3 : Z.land (Z.shiftr word 28) 0xF = _), (H2 : Z.land (Z.shiftr word 20) 0xF = _),
    (H1 : Z.land (Z.shiftr word 12) 0xF = _), (H0 : Z.land (Z.shiftr word 4) 0xF = _).
  rewrite (Hlow 24), (Hlow 16), (Hlow 8), Z.shiftr_0_r, L0 by lia. done.
Qed.

Lemma mjoin_cons (x : bytes) l : mjoin (x :: l) = x ++ mjoin l.
Proof. done. Qed.

Lemma hex_upper_app a b : hex_upper (a ++ b) = hex_upper a ++ hex_upper b.
Proof. unfold hex_upper. rewrite fmap_app. apply join_app. Qed.

Lemma words_hex_bytes words : words_to_hex words = hex_upper (mjoin (Sha256.word_bytes <$> words)).
Proof.
  induction words as [|w words IH]; [done |]. unfold words_to_hex in *.
  by rewrite !fmap_cons, !mjoin_cons, hex_upper_app, IH, word_hex_bytes.
Qed.

Lemma sha256_digest message :
  zlen message <= max_hash_bytes -> words_to_hex (digest (H := sha256_hash) message) = hex_upper (Sha256.sha256 message).
Proof.
  intros Hmax. rewrite sha256_is_standard by (unfold max_hash_bytes, u64_max in Hmax; Z.to_euclidean_division_equations; lia).
  rewrite words_hex_bytes. unfold fips_sha256, digest. rewrite absorb_hash_blocks. do 4 f_equal.
  unfold blocks, zlen. by rewrite <- (Nat2Z.id (_ / 64)), Nat2Z.inj_div.
Qed.

Lemma one_shot_spec `{H : BlockHash} message :
  zlen message <= max_hash_bytes -> one_shot (H := H) (Some message) (zlen message) = text_ok (words_to_hex (digest (H := H) message)).
Proof.
  intros Hmax. unfold one_shot.
  destruct (update_spec (H := H) [] message hasher_new absorbed_new Hmax) as [Hok Habs].
  destruct (update (H := H) _ _ _) as [error h]. cbn [fst snd] in *. subst error. cbn [app] in Habs.
  rewrite bool_decide_true by done. cbn [negb]. by apply (finish_spec (H := H)).
Qed.

Lemma sha256_hex_spec message :
  zlen message <= max_hash_bytes -> sha256_hex (Some message) (zlen message) = text_ok (hex_upper (Sha256.sha256 message)).
Proof. intros Hmax. unfold sha256_hex. by rewrite one_shot_spec, sha256_digest. Qed.

(** ** Correctness *)

(** A hasher that was given the pieces of a message, in order. *)
Definition fed `{BlockHash} (pieces : list bytes) : Hasher :=
  fold_left (fun h piece => (update (Some piece) (zlen piece) h).2) pieces hasher_new.

(** C33. However a message is cut into updates, the streaming SHA-256 of the catalogue ends with the hexadecimal digits of
    the digest that the one-pass SHA-256 of the session computes: the two implementations are the same function. *)
Theorem streaming_sha256_agrees (pieces : list bytes) (Hmax : zlen (mjoin pieces) <= max_hash_bytes) :
  (finish_hex (H := sha256_hash) (fed (H := sha256_hash) pieces)).1 = text_ok (hex_upper (Sha256.sha256 (mjoin pieces))) /\
  sha256_hex (Some (mjoin pieces)) (zlen (mjoin pieces)) = text_ok (hex_upper (Sha256.sha256 (mjoin pieces))).
Proof.
  pose proof (sha256_digest (mjoin pieces) Hmax) as Hdigest. split.
  - rewrite (finish_spec (H := sha256_hash) (mjoin pieces)), Hdigest by
      (done || by apply (updates_spec (H := sha256_hash) pieces []); [apply absorbed_new |]). done.
  - by apply sha256_hex_spec.
Qed.

(** SHA-1 does not depend on how the message is cut either: the digits are those of the blocks of the padded message. *)
Theorem streaming_sha1_exact (pieces : list bytes) (Hmax : zlen (mjoin pieces) <= max_hash_bytes) :
  (finish_hex (H := sha1) (fed (H := sha1) pieces)).1 = text_ok (words_to_hex (digest (H := sha1) (mjoin pieces))) /\
  sha1_hex (Some (mjoin pieces)) (zlen (mjoin pieces)) = text_ok (words_to_hex (digest (H := sha1) (mjoin pieces))).
Proof.
  split.
  - apply (finish_spec (H := sha1)); [| done]. by apply (updates_spec (H := sha1) pieces []); [apply absorbed_new |].
  - by apply (one_shot_spec (H := sha1)).
Qed.

Lemma streaming_sha256_agrees_witness :
  (finish_hex (H := sha256_hash) (fed (H := sha256_hash) [ascii_bytes "a"; ascii_bytes "bc"])).1 =
  text_ok (hex_upper (Sha256.sha256 (ascii_bytes "abc"))).
Proof.
  refine (proj1 (streaming_sha256_agrees [ascii_bytes "a"; ascii_bytes "bc"] _)). vm_compute. discriminate.
Defined.

Lemma streaming_sha1_exact_witness :
  (finish_hex (H := sha1) (fed (H := sha1) [ascii_bytes "a"; ascii_bytes "bc"])).1 =
  text_ok (words_to_hex (digest (H := sha1) (ascii_bytes "abc"))).
Proof. refine (proj1 (streaming_sha1_exact [ascii_bytes "a"; ascii_bytes "bc"] _)). vm_compute. discriminate. Defined.
