(* ===== verification/PersistCodec.v ===== *)
(** * Writers, readers and digests of the persisted files
    ([shared/src/app/catalog_persist.cpp], [settings_persist.cpp])

    A writer appends to a buffer or gives up; a reader takes a value off the rest of a
    buffer or fails.  The position of the code's reader is the length of what was taken, so
    the rest stands for it.  [round_trips] relates a writer to the reader that undoes it; it
    composes, and a type with both is an instance of [Persisted]. *)

From S2P Require Import Prelude Sha256 ContentIdentity.

(** ** Writers and readers *)

Definition W : Type := bytes -> option bytes.
Definition R (A : Type) : Type := bytes -> option (A * list Z).

#[export] Instance R_ret : MRet R := fun A a r => Some (a, r).
#[export] Instance R_bind : MBind R := fun A B k m r => match m r with Some (a, r') => k a r' | None => None end.

(** [if (!first || !second) return false;] *)
Definition andthen (first second : W) : W := fun w => first w ≫= second.
Notation "p >&> q" := (andthen p q) (at level 60, right associativity) : flynes_scope.

Definition check_ (c : bool) : R unit := fun r => if c then Some (tt, r) else None.
Definition check_put (c : bool) : W := fun w => if c then Some w else None.

(** A loop over a vector, and the loop that reads as many elements. *)
Fixpoint put_each {A} (put : A -> W) (l : list A) : W :=
  match l with [] => Some | a :: l => put a >&> put_each put l end.

Fixpoint take_each {A} (n : nat) (take : R A) : R (list A) :=
  match n with O => mret [] | S n => a ← take; l ← take_each n take; mret (a :: l) end.

(** What [write] appends, [read] takes off as [a]. *)
Definition round_trips {A} (write : W) (read : R A) (a : A) : Prop :=
  forall w w', write w = Some w' -> exists out, w' = w ++ out /\ forall rest, read (out ++ rest) = Some (a, rest).

(** A type with a writer and a reader, and the values they agree on. *)
Class Persisted (A : Type) := {
  put_value : A -> W;
  take_value : R A;
  fits : A -> Prop;
  persisted_round_trips : forall a, fits a -> round_trips (put_value a) take_value a;
}.

Section RoundTrips.

Lemma round_trips_ret {A} (a : A) : round_trips Some (mret a) a.
Proof. intros w w' [= ->]. exists []. by rewrite app_nil_r. Qed.

Lemma round_trips_bind {A B} (p q : W) (t : R A) (k : A -> R B) a b :
  round_trips p t a -> round_trips q (k a) b -> round_trips (p >&> q) (t ≫= k) b.
Proof.
  intros Hp Hq w w' H. unfold andthen in H. destruct (p w) as [w1|] eqn:E; [| done]. cbn [mbind option_bind] in H.
  destruct (Hp w w1 E) as (o1 & -> & H1). destruct (Hq _ _ H) as (o2 & -> & H2).
  exists (o1 ++ o2). split; [by rewrite app_assoc |]. intros rest. unfold mbind, R_bind. by rewrite <- app_assoc, H1, H2.
Qed.

(** A guard of the reader that the value meets, and one of the writer. *)
Lemma round_trips_check {B} q c (k : unit -> R B) b :
  c = true -> round_trips q (k tt) b -> round_trips q (check_ c ≫= k) b.
Proof. intros -> H. exact H. Qed.

Lemma round_trips_check_put {B} c q (t : R B) b :
  (c = true -> round_trips q t b) -> round_trips (check_put c >&> q) t b.
Proof. intros H w w'. unfold andthen, check_put. destruct c; [by apply H | done]. Qed.

(** The last write of a sequence. *)
Lemma round_trips_last {A B} (p : W) (t : R A) (k : A -> R B) a b :
  round_trips p t a -> round_trips Some (k a) b -> round_trips p (t ≫= k) b.
Proof.
  intros Hp Hk w w' H. pose proof (round_trips_bind p Some t k a b Hp Hk w w') as Hb. apply Hb.
  unfold andthen. rewrite H. done.
Qed.

Lemma round_trips_each {A} (put : A -> W) (take : R A) l :
  Forall (fun a => round_trips (put a) take a) l -> round_trips (put_each put l) (take_each (length l) take) l.
Proof.
  induction 1 as [|a l Ha _ IH]; [apply round_trips_ret |]. cbn [put_each take_each length].
  eapply round_trips_bind; [exact Ha |]. eapply round_trips_last; [exact IH | apply round_trips_ret].
Qed.

Lemma persisted_each `{Persisted A} l : Forall fits l -> round_trips (put_each put_value l) (take_each (length l) take_value) l.
Proof. intros Hl. apply round_trips_each. eapply Forall_impl, persisted_round_trips. exact Hl. Qed.

End RoundTrips.

(** ** Little-endian words *)

(** An unsigned value of [w] bits, and a signed one. *)
Definition unsigned (w v : Z) : Prop := 0 <= v < 2 ^ w.
Definition signed32 (v : Z) : Prop := - 2 ^ 31 <= v < 2 ^ 31.

(** [static_cast<std::int32_t>(raw)] *)
Definition as_int32 (raw : Z) : Z := if raw <? 2 ^ 31 then raw else raw - 2 ^ 32.

Lemma as_int32_u32 v : signed32 v -> as_int32 (u32 v) = v.
Proof.
  unfold signed32, as_int32, u32. change (2 ^ 32) with (4294967296). change (2 ^ 31) with 2147483648. intros Hv.
  destruct (Z.ltb_spec (v mod 4294967296) 2147483648); Z.to_euclidean_division_equations; lia.
Qed.

Definition or_bytes (b0 b1 b2 b3 : Z) : Z :=
  Z.lor (Z.lor (Z.lor b0 (Z.shiftl b1 8)) (Z.shiftl b2 16)) (Z.shiftl b3 24).

Lemma or_bytes_sum b0 b1 b2 b3 :
  is_byte b0 -> is_byte b1 -> is_byte b2 -> is_byte b3 ->
  or_bytes b0 b1 b2 b3 = b0 + 256 * (b1 + 256 * (b2 + 256 * b3)).
Proof.
  intros H0 H1 H2 H3. unfold or_bytes.
  assert (Z.shiftl b3 24 = Z.shiftl (Z.shiftl (Z.shiftl b3 8) 8) 8) as -> by (by rewrite !Z.shiftl_shiftl by lia).
  assert (Z.shiftl b2 16 = Z.shiftl (Z.shiftl b2 8) 8) as -> by (by rewrite !Z.shiftl_shiftl by lia).
  rewrite <- !Z.lor_assoc, <- !Z.shiftl_lor.
  rewrite (Z.lor_comm b2), (Z.lor_comm b1), (Z.lor_comm b0).
  rewrite !lor_shiftl_byte by done. lia.
Qed.

Lemma or_bytes_word v : unsigned 32 v -> or_bytes (u8 v) (u8 (Z.shiftr v 8)) (u8 (Z.shiftr v 16)) (u8 (Z.shiftr v 24)) = v.
Proof.
  intros Hv. rewrite or_bytes_sum by apply u8_byte. unfold u8, unsigned in *. rewrite !Z.shiftr_div_pow2 by lia.
  change (2 ^ 8) with 256. change (2 ^ 16) with 65536. change (2 ^ 24) with 16777216. change (2 ^ 32) with 4294967296 in Hv.
  Z.to_euclidean_division_equations; lia.
Qed.

(** The two halves of a 64-bit value. *)
Lemma halves_word v : unsigned 64 v -> Z.lor (u32 v) (Z.shiftl (u32 (Z.shiftr v 32)) 32) = v.
Proof.
  intros Hv. unfold unsigned, u32 in *.
  apply Z.bits_inj'. intros i Hi. rewrite Z.lor_spec.
  destruct (Z.ltb_spec i 32).
  - rewrite Z.shiftl_spec_low, orb_false_r by lia. by rewrite Z.mod_pow2_bits_low by lia.
  - rewrite Z.mod_pow2_bits_high, Z.shiftl_spec by lia. cbn [orb].
    destruct (Z.ltb_spec (i - 32) 32).
    + rewrite Z.mod_pow2_bits_low, Z.shiftr_spec by lia. f_equal. lia.
    + rewrite Z.mod_pow2_bits_high by lia. destruct (decide (v = 0)) as [-> | Hn]; [by rewrite Z.bits_0 |].
      rewrite Z.bits_above_log2; [done | lia |].
      apply Z.lt_le_trans with 64; [| lia]. apply Z.log2_lt_pow2; lia.
Qed.

(** ** The digest of a file *)

Definition nibble (value : Z) : Z :=
  if (0x30 <=? value) && (value <=? 0x39) then value - 0x30
  else if (0x41 <=? value) && (value <=? 0x46) then value - 0x41 + 10
  else if (0x61 <=? value) && (value <=? 0x66) then value - 0x61 + 10
  else -1.

(** [out[index] = (nibble(hex[2 * index]) << 4) | nibble(hex[2 * index + 1])], for all pairs. *)
Fixpoint unhex (hex : bytes) : option bytes :=
  match hex with
  | [] => Some []
  | high :: low :: hex =>
      if (nibble high <? 0) || (nibble low <? 0) then None
      else cons (Z.lor (Z.shiftl (nibble high) 4) (nibble low)) <$> unhex hex
  | [_] => None
  end.

Definition sha256_of_bytes (data : bytes) : option bytes :=
  let hex := sha256_hex (Some data) (zlen data) in
  if negb (ok hex) || negb (zlen (text_value hex) =? 64) then None else unhex (text_value hex).

(** The first half of every [decode_file]: the size, the magic, the version and the digest; what is left is the
    payload. *)
Definition open_file (magic : bytes) (version max : Z) (encoded : bytes) : option bytes :=
  if (zlen encoded <? 44) || (max <? zlen encoded) then None
  else if negb (bool_decide (slice encoded 0 8 = magic)) then None
  else if negb (or_bytes (at_ encoded 8) (at_ encoded 9) (at_ encoded 10) (at_ encoded 11) =? version) then None
  else
    match sha256_of_bytes (slice encoded 0 (zlen encoded - 32)) with
    | Some digest =>
        if bool_decide (digest = slice encoded (zlen encoded - 32) 32) then Some (slice encoded 12 (zlen encoded - 44)) else None
    | None => None
    end.

Lemma unhex_pair b : is_byte b ->
  forall rest, unhex (at_ uppercase_hex (Z.shiftr b 4) :: at_ uppercase_hex (Z.land b 0xF) :: rest) = cons b <$> unhex rest.
Proof.
  intros Hb rest.
  assert (forallb (fun b => let high := at_ uppercase_hex (Z.shiftr b 4) in let low := at_ uppercase_hex (Z.land b 0xF) in
    negb (nibble high <? 0) && negb (nibble low <? 0) && (Z.lor (Z.shiftl (nibble high) 4) (nibble low) =? b))
    (seqZ 0 256) = true) as Hall by (vm_compute; reflexivity).
  rewrite forallb_forall in Hall. specialize (Hall b). cbn [unhex].
  assert (In b (seqZ 0 256)) as Hin by (apply list_elem_of_In, elem_of_seqZ; unfold is_byte in *; lia).
  apply Hall in Hin. bool_hyps. rewrite !andb_true_iff, !negb_true_iff in Hin. cbn zeta in Hin.
  destruct Hin as [[-> ->] E]. bool_hyps. cbn [orb]. by rewrite E.
Qed.

Lemma unhex_hex_upper l : is_bytes l -> unhex (hex_upper l) = Some l.
Proof.
  induction 1 as [|b l Hb _ IH]; [done |]. unfold hex_upper in *. rewrite fmap_cons.
  change (mjoin (?x :: ?y)) with (x ++ mjoin y). cbn [app]. rewrite unhex_pair by done. by rewrite IH.
Qed.

Lemma zlen_hex_upper l : zlen (hex_upper l) = 2 * zlen l.
Proof.
  induction l as [|b l IH]; [done |]. unfold hex_upper in *. rewrite fmap_cons.
  change (mjoin (?x :: ?y)) with (x ++ mjoin y). rewrite zlen_app, IH, !zlen_cons, zlen_nil. lia.
Qed.

(** The digest is that of the session's SHA-256. *)
Lemma sha256_of_bytes_spec data : zlen data <= max_hash_bytes -> sha256_of_bytes data = Some (sha256 data).
Proof.
  intros Hmax. unfold sha256_of_bytes. rewrite sha256_hex_spec by done. unfold text_ok. cbn [text_value].
  rewrite zlen_hex_upper. unfold zlen at 1. rewrite sha256_length. change (ok _) with true.
  change (2 * Z.of_nat 32 =? 64) with true. cbn [negb orb].
  by rewrite unhex_hex_upper by apply Sha256.sha256_bytes.
Qed.

(** A file made of these parts opens to its payload. *)
Lemma open_file_made magic max payload body file :
  zlen magic = 8 -> max <= max_hash_bytes ->
  body = magic ++ [1; 0; 0; 0] ++ payload -> file = body ++ sha256 body -> zlen file <= max ->
  open_file magic 1 max file = Some payload.
Proof.
  intros Hmagic Hhash Hbody Hfile Hmax.
  assert (zlen (sha256 body) = 32) as Hdigest by (unfold zlen; by rewrite sha256_length).
  assert (zlen body = 12 + zlen payload) as Hlen.
  { rewrite Hbody, !zlen_app. change (zlen [1; 0; 0; 0]) with 4. lia. }
  assert (zlen file = zlen body + 32) as Hflen by (by rewrite Hfile, zlen_app, Hdigest).
  pose proof (zlen_nonneg payload). unfold open_file.
  destruct (Z.ltb_spec (zlen file) 44); [lia |]. destruct (Z.ltb_spec max (zlen file)); [lia |]. cbn [orb].
  assert (file = magic ++ [1; 0; 0; 0] ++ payload ++ sha256 body) as Hparts by (by rewrite Hfile, Hbody, <- !app_assoc).
  assert (slice file 0 8 = magic) as -> by (rewrite Hparts; by apply slice_app_here).
  rewrite bool_decide_true by done. cbn [negb].
  assert (forall i, 0 <= i < 4 -> at_ file (8 + i) = at_ [1; 0; 0; 0] i) as Hversion.
  { intros i Hi. rewrite <- (Z.add_0_l i) at 2. replace (8 + i) with (8 + (0 + i)) by lia.
    rewrite <- (at_slice file 8 4 (0 + i)) by lia. rewrite Hparts, slice_app_right by lia. rewrite Hmagic, Z.sub_diag.
    by rewrite slice_app_here. }
  assert (or_bytes (at_ file 8) (at_ file 9) (at_ file 10) (at_ file 11) = 1) as ->.
  { change (at_ file 8) with (at_ file (8 + 0)). change (at_ file 9) with (at_ file (8 + 1)).
    change (at_ file 10) with (at_ file (8 + 2)). change (at_ file 11) with (at_ file (8 + 3)). by rewrite !Hversion by lia. }
  cbn [negb Z.eqb Pos.eqb]. replace (zlen file - 32) with (zlen body) by lia.
  assert (slice file 0 (zlen body) = body) as -> by (rewrite Hfile; by apply slice_app_here).
  rewrite sha256_of_bytes_spec by lia.
  assert (slice file (zlen body) 32 = sha256 body) as ->.
  { rewrite Hfile, slice_app_right, Z.sub_diag by lia. pose proof (slice_app_here (sha256 body) [] 32 Hdigest) as Hs.
    by rewrite app_nil_r in Hs. }
  rewrite bool_decide_true by done. f_equal.
  replace (zlen file - 44) with (zlen payload) by lia. rewrite Hparts, app_assoc.
  assert (zlen (magic ++ [1; 0; 0; 0]) = 12) as Htwelve by (rewrite zlen_app, Hmagic; done).
  rewrite slice_app_right, Htwelve, Z.sub_diag by lia. by apply slice_app_here.
Qed.
