(* ===== verification/FileStore.v ===== *)
(** * Files and the replacement of a live file
    ([shared/src/app/catalog_persist.cpp]; [settings_persist.cpp] and [layout_persist.cpp] carry copies of the same
    functions)

    The directory of the application's data is a finite map from file names to contents.
    Every system call meets a fate: it is carried out, or it is refused, a write after a part
    of its bytes.  [shown] collects every content of the directory a crash could leave
    behind: the one after each call, and, while a file is being written, each prefix.

    The model is one of system calls that take effect in their order: a rename that the
    file system has not made durable when the power fails is outside it, and so are
    directories or links in place of the files.  A status query ([exists],
    [is_regular_file]) has its own fates, since a failing one answers [false]. *)

From S2P Require Import Prelude.

Abbreviation directory := (gmap string (list Z)) (only parsing).

(** What happens to a call: [Refused n] is a failure, of a write after [n] bytes. *)
Inductive fate := Done | Refused (written : nat).

Record Disk := mkDisk { files : directory; fates : list fate; answers : list bool; shown : list directory }.

#[global] Instance eta_disk : Eta Disk := fun r => mkDisk (files r) (fates r) (answers r) (shown r).

(** A directory with no failure ahead. *)
Definition calm (d : directory) : Disk := mkDisk d [] [] [].

Abbreviation IO := (M Disk).

(** The fate of the next call; the calls after the listed ones are carried out. *)
Definition next_fate : IO fate := fun w =>
  match fates w with [] => (Done, w) | f :: rest => (f, w <| fates := rest |>) end.

(** Whether the next status query is answered. *)
Definition next_answer : IO bool := fun w =>
  match answers w with [] => (true, w) | a :: rest => (a, w <| answers := rest |>) end.

Definition show (d : directory) : IO unit := modify (fun w => w <| files := d |> <| shown := shown w ++ [d] |>).

(** A call without a content of its own ([create_directories], [fflush], [fsync], [fclose]). *)
Definition plain_call : IO bool := f ← next_fate; mret (match f with Done => true | Refused _ => false end).

(** ** Status *)

Definition exists_ (path : string) : IO bool :=
  answered ← next_answer; d ← gets files; mret (answered && bool_decide (is_Some (d !! path))).

Definition is_regular_file (path : string) : IO bool := exists_ path.

(** ** Writing *)

(** [fopen(path, "wb")]: the file is there and empty. *)
Definition open_write (path : string) : IO bool :=
  f ← next_fate; d ← gets files;
  match f with Done => show (<[path := []]> d);; mret true | Refused _ => mret false end.

(** [fwrite] of the whole buffer; what reached the file before a failure stays. *)
Definition fwrite (path : string) (data : bytes) : IO bool :=
  f ← next_fate; d ← gets files;
  let written := match f with Done => length data | Refused n => n end in
  modify (fun w => w <| shown := shown w ++ ((fun n => <[path := take n data]> d) <$> seq 0 (length data)) |>);;
  show (<[path := take written data]> d);;
  mret (match f with Done => true | Refused _ => false end).

Definition flush_sync_close : IO bool :=
  flushed ← plain_call;
  if negb flushed then plain_call;; mret false
  else
    synced ← plain_call;
    if negb synced then plain_call;; mret false else plain_call.

Definition write_file_sync (path : string) (data : bytes) : IO bool :=
  opened ← open_write path;
  if negb opened then mret false
  else
    written ← (if bool_decide (data = []) then mret true else fwrite path data);
    if negb written then plain_call;; mret false else flush_sync_close.

(** ** Renaming *)

(** [remove]; its failure is ignored by every caller. *)
Definition remove (path : string) : IO unit :=
  f ← next_fate; d ← gets files;
  match f with Done => show (delete path d) | Refused _ => mret tt end.

(** Whether the rename succeeded; a missing source is an error. *)
Definition rename (from to : string) : IO bool :=
  f ← next_fate; d ← gets files;
  match f, d !! from with
  | Done, Some content => show (<[to := content]> (delete from d));; mret true
  | _, _ => mret false
  end.

(** [if (std::filesystem::exists(live, error)) { ... }]: [false] when the caller must give up. *)
Definition back_up (live tmp bak : string) : IO bool :=
  there ← exists_ live;
  if negb there then mret true
  else
    remove bak;;
    moved ← rename live bak;
    if negb moved then remove tmp;; mret false else mret true.

Definition replace_live (live tmp bak : string) : IO bool :=
  backed ← back_up live tmp bak;
  if negb backed then mret false
  else
    published ← rename tmp live;
    if (published : bool) then mret true
    else
      there ← exists_ bak;
      (if (there : bool) then rename bak live;; mret tt else mret tt);;
      remove tmp;;
      mret false.

(** The end of every [save_*]: the directory, the temporary file, the replacement. *)
Definition publish (live tmp bak : string) (data : bytes) : IO bool :=
  created ← plain_call;
  if negb created then mret false
  else
    written ← write_file_sync tmp data;
    if negb written then remove tmp;; mret false else replace_live live tmp bak.

(** ** Reading *)

Definition read_buffer : Z := 8192.

(** The loop over [fread]: the rest of the file, what was read so far.  A read that fails ends the loop as an error. *)
Fixpoint read_loop (fuel : nat) (max : Z) (rest acc : bytes) : IO (option bytes) :=
  match fuel with
  | O => mret None
  | S fuel =>
      f ← next_fate;
      match f with
      | Refused _ => mret None
      | Done =>
          let chunk := take (Z.to_nat read_buffer) rest in
          let amount := zlen chunk in
          if amount =? 0 then mret (Some acc)
          else if (max <? zlen acc) || (max - zlen acc <? amount) then mret None
          else read_loop fuel max (drop (Z.to_nat read_buffer) rest) (acc ++ chunk)
      end
  end.

Definition read_file_bounded (max : Z) (path : string) : IO (option bytes) :=
  regular ← is_regular_file path;
  if negb regular then mret None
  else
    f ← next_fate; d ← gets files;
    match f, d !! path with
    | Done, Some content => read_loop (S (length content)) max content []
    | _, _ => mret None
    end.

(** The file a load reads: the live one, or else the backup. *)
Definition choose (live bak : string) : IO (option string) :=
  there ← is_regular_file live;
  if (there : bool) then mret (Some live)
  else
    backup ← is_regular_file bak;
    mret (if (backup : bool) then Some bak else None).

(** [chosen], read within the bound; [None] for every way to fail. *)
Definition read_chosen (max : Z) (live bak : string) : IO (option bytes) :=
  chosen ← choose live bak;
  match chosen with None => mret None | Some path => read_file_bounded max path end.

(** ** What a directory holds *)

(** The bytes a load without failures reads. *)
Definition current (live bak : string) (d : directory) : option bytes :=
  match d !! live with Some content => Some content | None => d !! bak end.

Definition bounded (max : Z) (content : bytes) : option bytes :=
  if zlen content <=? max then Some content else None.

(** ** Reading, in one step *)

Lemma read_loop_calm fuel max d s rest acc :
  0 <= max -> (length rest < fuel)%nat -> zlen acc <= max ->
  read_loop fuel max rest acc (mkDisk d [] [] s) = (bounded max (acc ++ rest), mkDisk d [] [] s).
Proof.
  intros Hmax. revert rest acc. induction fuel as [|fuel IH]; intros rest acc Hfuel Hacc; [lia |].
  cbn [read_loop]. unfold mbind, M_bind, next_fate at 1. cbn [fates].
  assert (read_buffer = 8192) as Hbuffer by done.
  assert (zlen (take (Z.to_nat read_buffer) rest) = Z.min 8192 (zlen rest)) as Hchunk.
  { unfold zlen. rewrite length_take. lia. }
  pose proof (zlen_nonneg rest). pose proof (zlen_nonneg acc).
  assert (zlen (acc ++ rest) = zlen acc + zlen rest) as Hsum by apply zlen_app.
  rewrite Hchunk. destruct (Z.min 8192 (zlen rest) =? 0) eqn:E; bool_hyps.
  { assert (rest = []) as -> by (apply length_zero_iff_nil; unfold zlen in *; lia).
    rewrite app_nil_r in *. unfold bounded. by destruct (Z.leb_spec (zlen acc) max); [| lia]. }
  destruct ((max <? zlen acc) || (max - zlen acc <? Z.min 8192 (zlen rest))) eqn:G; bool_hyps.
  - unfold bounded. destruct (Z.leb_spec (zlen (acc ++ rest)) max); [| done]. apply orb_true_iff in G as [G | G]; bool_hyps; lia.
  - rewrite IH.
    + by rewrite <- app_assoc, take_drop.
    + rewrite length_drop. unfold zlen in *. lia.
    + rewrite zlen_app, Hchunk. lia.
Qed.

Lemma read_chosen_calm max live bak d :
  0 <= max -> read_chosen max live bak (calm d) = (current live bak d ≫= bounded max, calm d).
Proof.
  intros Hmax. unfold read_chosen, choose, is_regular_file, exists_, current, calm.
  unfold mbind, M_bind, mret, M_ret, next_answer, gets. cbn [answers files].
  destruct (d !! live) as [content|] eqn:Hlive.
  - rewrite bool_decide_true by done. cbn [andb]. unfold read_file_bounded, is_regular_file, exists_.
    unfold mbind, M_bind, mret, M_ret, next_answer, gets. cbn [answers files]. rewrite Hlive.
    rewrite bool_decide_true by done. cbn [andb negb]. unfold next_fate. cbn [fates files]. rewrite Hlive.
    rewrite read_loop_calm by (lia || done). done.
  - rewrite bool_decide_false by (by intros [? ?]). cbn [andb answers files].
    destruct (d !! bak) as [content|] eqn:Hbak.
    + rewrite bool_decide_true by done. cbn [andb]. unfold read_file_bounded, is_regular_file, exists_.
      unfold mbind, M_bind, mret, M_ret, next_answer, gets. cbn [answers files]. rewrite Hbak.
      rewrite bool_decide_true by done. cbn [andb negb]. unfold next_fate. cbn [fates files]. rewrite Hbak.
      rewrite read_loop_calm by (lia || done). done.
    + rewrite bool_decide_false by (by intros [? ?]). done.
Qed.

(** ** Publishing, as an atomic step

    [steps I R m]: from a directory satisfying [I], every directory shown satisfies [R], and the one at the end is
    described by [Q]. *)

Section Publish.
Context (live tmp bak : string) (data : bytes) (before : option bytes).
Hypothesis Hlt : live <> tmp.
Hypothesis Hlb : live <> bak.
Hypothesis Htb : tmp <> bak.

(** What a crash may leave: the content before, or the new one. *)
Definition safe (d : directory) : Prop := current live bak d = before \/ current live bak d = Some data.

(** The queries are answered and everything shown so far is safe. *)
Definition fine (P : directory -> Prop) (w : Disk) : Prop := answers w = [] /\ Forall safe (shown w) /\ P (files w).

Definition unchanged (d : directory) : Prop := current live bak d = before.
Definition staged (d : directory) : Prop := unchanged d /\ d !! tmp = Some data.
Definition moved_aside (d : directory) : Prop := staged d /\ d !! live = None.

Lemma fine_weaken (P Q : directory -> Prop) w : (forall d, P d -> Q d) -> fine P w -> fine Q w.
Proof using Type. intros H (Ha & Hs & HP). split_and!; auto. Qed.

Lemma next_fate_triple P : triple (fine P) next_fate (fun _ => fine P).
Proof using Type.
  intros w (Ha & Hs & HP). unfold next_fate. destruct (fates w) as [|f rest]; by cbn [fst snd].
Qed.

Lemma plain_call_triple P : triple (fine P) plain_call (fun _ => fine P).
Proof using Type.
  eapply triple_bind; [apply next_fate_triple |]. intros f. cbn beta. apply keeps_ret.
Qed.

Lemma exists_triple P path :
  triple (fine P) (exists_ path) (fun b => fine (fun d => P d /\ b = bool_decide (is_Some (d !! path)))).
Proof using Type.
  intros w (Ha & Hs & HP). unfold exists_, mbind, M_bind, mret, M_ret, next_answer, gets. rewrite Ha. cbn [fst snd].
  by split_and!.
Qed.

Lemma fate_triple {A} P (k : fate -> directory -> IO A) Q :
  (forall f d, P d -> triple (fine (eq d)) (k f d) Q) ->
  triple (fine P) (f ← next_fate; d ← gets files; k f d) Q.
Proof using Type.
  intros H. eapply triple_bind; [apply next_fate_triple |]. intros f. apply triple_gets_bind. intros d w [(Ha & Hs & HP) E].
  apply H; [by subst d |]. by split_and!.
Qed.

Lemma show_triple P d d' : safe d' -> P d' -> triple (fine (eq d)) (show d') (fun _ => fine P).
Proof using Type.
  intros Hs' HP w (Ha & Hs & _). unfold show, modify. cbn [fst snd]. split_and!; [done | | done].
  apply Forall_app. split; [done |]. by constructor.
Qed.

Lemma show_ret_triple {A} (P : directory -> Prop) (a : A) (Q : A -> directory -> Prop) d d' :
  safe d' -> Q a d' -> triple (fine (eq d)) (show d';; mret a) (fun r => fine (Q r)).
Proof using Type.
  intros Hs HQ. eapply triple_bind; [by apply (show_triple (Q a)) |]. intros _ w Hw. exact Hw.
Qed.

Lemma current_tmp d content : current live bak (<[tmp := content]> d) = current live bak d.
Proof using Hlt Htb. unfold current. by rewrite !lookup_insert_ne by done. Qed.

Lemma current_delete_tmp d : current live bak (delete tmp d) = current live bak d.
Proof using Hlt Htb. unfold current. by rewrite !lookup_delete_ne by done. Qed.

Lemma unchanged_safe d : unchanged d -> safe d.
Proof using Type. by left. Qed.

Lemma remove_triple P Q path :
  (forall d, P d -> safe (delete path d) /\ Q (delete path d)) -> (forall d, P d -> Q d) ->
  triple (fine P) (remove path) (fun _ => fine Q).
Proof using Type.
  intros H HPQ. apply fate_triple. intros f d Hd. destruct f.
  - apply show_triple; by apply H.
  - intros w Hw. eapply fine_weaken, Hw. intros ? <-. by apply HPQ.
Qed.

Lemma rename_triple P (Q : bool -> directory -> Prop) from to :
  (forall d content, P d -> d !! from = Some content ->
    safe (<[to := content]> (delete from d)) /\ Q true (<[to := content]> (delete from d))) ->
  (forall d, P d -> Q false d) ->
  triple (fine P) (rename from to) (fun r => fine (Q r)).
Proof using Type.
  intros H HPQ. apply fate_triple. intros f d Hd.
  destruct f; [destruct (d !! from) as [content|] eqn:E |].
  - apply (show_ret_triple (Q true) true Q); by apply H.
  - intros w Hw. eapply fine_weaken, Hw. intros ? <-. by apply HPQ.
  - intros w Hw. eapply fine_weaken, Hw. intros ? <-. by apply HPQ.
Qed.

Lemma remove_tmp_triple : triple (fine unchanged) (remove tmp) (fun _ => fine unchanged).
Proof using Hlt Htb.
  apply remove_triple; [| done]. intros d Hd. unfold safe, unchanged. rewrite current_delete_tmp. auto.
Qed.

Lemma open_triple :
  triple (fine unchanged) (open_write tmp) (fun r => fine (fun d => unchanged d /\ (r = true -> d !! tmp = Some []))).
Proof using Hlt Htb.
  apply fate_triple. intros f d Hd. destruct f.
  - apply (show_ret_triple unchanged true (fun r d => unchanged d /\ (r = true -> d !! tmp = Some [])));
      unfold safe, unchanged; rewrite current_tmp; [by left |]. by rewrite lookup_insert_eq.
  - intros w Hw. eapply fine_weaken, Hw. by intros ? <-.
Qed.

Lemma fwrite_triple :
  triple (fine unchanged) (fwrite tmp data) (fun r => fine (fun d => unchanged d /\ (r = true -> d !! tmp = Some data))).
Proof using Hlt Htb.
  apply fate_triple. intros f d Hd.
  apply triple_modify_bind with (Q := fine (eq d)).
  - intros w (Ha & Hs & Hw). split_and!; [done | | done]. apply Forall_app. split; [done |].
    apply Forall_fmap, Forall_forall. intros n _. left. unfold compose. by rewrite current_tmp.
  - apply (show_ret_triple unchanged _ (fun r d => unchanged d /\ (r = true -> d !! tmp = Some data)));
      unfold safe, unchanged; rewrite current_tmp; [by left |]. split; [done |].
    rewrite lookup_insert_eq. destruct f; [| done]. by rewrite firstn_all.
Qed.

(** The temporary file has the bytes, or it does not matter. *)
Definition written_if (r : bool) (d : directory) : Prop := unchanged d /\ (r = true -> d !! tmp = Some data).

Lemma then_false P (m : IO bool) (Q : bool -> directory -> Prop) :
  triple (fine P) m (fun _ => fine P) -> (forall d, P d -> Q false d) ->
  triple (fine P) (m;; mret false) (fun r => fine (Q r)).
Proof using Type.
  intros Hm H. eapply triple_bind; [exact Hm |]. intros _ w Hw. eapply fine_weaken, Hw. done.
Qed.

Lemma flush_triple P : triple (fine P) flush_sync_close (fun _ => fine P).
Proof using Type.
  unfold flush_sync_close. eapply triple_bind; [apply plain_call_triple |]. intros [|]; cbn [negb].
  - eapply triple_bind; [apply plain_call_triple |]. intros [|]; cbn [negb]; [apply plain_call_triple |].
    apply (then_false P _ (fun _ => P)); [apply plain_call_triple | done].
  - apply (then_false P _ (fun _ => P)); [apply plain_call_triple | done].
Qed.

Lemma write_triple : triple (fine unchanged) (write_file_sync tmp data) (fun r => fine (written_if r)).
Proof using Hlt Htb.
  eapply triple_bind; [apply open_triple |]. intros opened. cbn beta. destruct opened; cbn [negb].
  2:{ intros w Hw. eapply fine_weaken, Hw. intros d [Hd _]. by split. }
  apply triple_bind with (Q := fun r => fine (written_if r)).
  - destruct (bool_decide (data = [])) eqn:E; bool_hyps.
    + intros w Hw. eapply fine_weaken, Hw. intros d [Hd H]. split; [done |]. rewrite E. auto.
    + eapply triple_start; [apply fwrite_triple |]. intros w. apply fine_weaken. by intros d [Hd _].
  - intros [|]; cbn [negb].
    + eapply triple_conseq; [apply flush_triple | done |]. intros r w. apply fine_weaken.
      intros d [Hd H]. split; [done |]. intros _. by apply H.
    + apply then_false; [apply plain_call_triple |]. intros d [Hd _]. by split.
Qed.

Definition backed_if (r : bool) (d : directory) : Prop := if r then moved_aside d else unchanged d.

Lemma current_live d content : d !! live = Some content -> current live bak d = Some content.
Proof using Type. unfold current. by intros ->. Qed.

Lemma current_bak d : d !! live = None -> current live bak d = d !! bak.
Proof using Type. unfold current. by intros ->. Qed.

Lemma back_up_triple : triple (fine staged) (back_up live tmp bak) (fun r => fine (backed_if r)).
Proof using Hlt Hlb Htb.
  eapply triple_bind; [apply exists_triple |]. intros there. cbn beta. destruct there; cbn [negb].
  2:{ intros w Hw. eapply fine_weaken, Hw. intros d [Hd H]. symmetry in H. bool_hyps. split; [done |].
      destruct (d !! live) eqn:E; [| done]. exfalso. apply H. by eexists. }
  apply triple_bind with (Q := fun _ => fine (fun d => staged d /\ is_Some (d !! live))).
  - apply remove_triple; intros d [[Hd Htmp] H]; symmetry in H; bool_hyps; destruct H as [content H].
    + assert (current live bak (delete bak d) = before) as E.
      { rewrite <- Hd. unfold current. rewrite lookup_delete_ne by done. by rewrite H. }
      split; [by left |]. split; [split; [exact E |] |]; rewrite lookup_delete_ne by done; [done | by eexists].
    + split; [by split | by eexists].
  - intros _. eapply triple_bind.
    + apply (rename_triple _ (fun r d => if r then moved_aside d else staged d)).
      * intros d content [[Hd Htmp] _] Hlive.
        assert (unchanged (<[bak := content]> (delete live d))) as E.
        { unfold unchanged. rewrite <- Hd, (current_live d content) by done. unfold current.
          rewrite lookup_insert_ne, lookup_delete_eq by done. by rewrite lookup_insert_eq. }
        split; [by left |]. split; [split; [exact E |] |].
        -- by rewrite lookup_insert_ne, lookup_delete_ne by done.
        -- by rewrite lookup_insert_ne, lookup_delete_eq by done.
      * by intros d [Hd _].
    + intros [|]; cbn [negb].
      * intros w Hw. exact Hw.
      * apply triple_bind with (Q := fun _ => fine unchanged); [| intros _ w Hw; exact Hw].
        eapply triple_start; [apply remove_tmp_triple |]. intros w. apply fine_weaken. by intros d [Hd _].
Qed.

(** What the call reports is what the directory holds. *)
Definition reported (r : bool) (d : directory) : Prop := current live bak d = if r then Some data else before.

Lemma restore_triple :
  triple (fine moved_aside)
    (there ← exists_ bak; (if (there : bool) then rename bak live;; mret tt else mret tt);; remove tmp;; mret false)
    (fun r => fine (reported r)).
Proof using Hlt Hlb Htb.
  eapply triple_bind; [apply exists_triple |]. intros there.
  apply triple_bind with (Q := fun _ => fine unchanged).
  - destruct there; [| intros w Hw; eapply fine_weaken, Hw; by intros d [[[Hd _] _] _]].
    eapply triple_bind; [| intros r w Hw; exact Hw].
    apply (rename_triple _ (fun _ => unchanged)); [| by intros d [[[Hd _] _] _]].
    intros d content [[[Hd _] Hlive] _] Hbak.
    assert (unchanged (<[live := content]> (delete bak d))) as E.
    { unfold unchanged. rewrite <- Hd, (current_bak d), Hbak by done. by apply current_live, lookup_insert_eq. }
    split; [by left | done].
  - intros _. eapply triple_bind; [apply remove_tmp_triple |]. intros _ w Hw. exact Hw.
Qed.

Lemma replace_triple : triple (fine staged) (replace_live live tmp bak) (fun r => fine (reported r)).
Proof using Hlt Hlb Htb.
  eapply triple_bind; [apply back_up_triple |]. intros [|]; cbn [negb]; [| intros w Hw; exact Hw].
  eapply triple_bind.
  - apply (rename_triple _ (fun r d => if r then reported true d else moved_aside d)); [| done].
    intros d content [[Hd Htmp] Hlive] H. rewrite Htmp in H. injection H as <-.
    assert (current live bak (<[live := data]> (delete tmp d)) = Some data) as E by (by apply current_live, lookup_insert_eq).
    split; [by right | exact E].
  - intros [|]; [intros w Hw; exact Hw | apply restore_triple].
Qed.

Lemma publish_triple : triple (fine unchanged) (publish live tmp bak data) (fun r => fine (reported r)).
Proof using Hlt Hlb Htb.
  unfold publish. eapply triple_bind; [apply plain_call_triple |]. intros [|]; cbn [negb]; [| intros w Hw; exact Hw].
  eapply triple_bind; [apply write_triple |]. intros [|]; cbn [negb].
  - eapply triple_start; [apply replace_triple |]. intros w. apply fine_weaken. intros d [Hd H]. split; auto.
  - apply triple_bind with (Q := fun _ => fine unchanged); [| intros _ w Hw; exact Hw].
    eapply triple_start; [apply remove_tmp_triple |]. intros w. apply fine_weaken. by intros d [Hd _].
Qed.

End Publish.

(** Whatever calls fail and wherever it is cut, a publication leaves the content before it or the new one; it reports
    which. *)
Lemma publish_atomic live tmp bak data d fs :
  NoDup [live; tmp; bak] ->
  let '(ok, w) := publish live tmp bak data (mkDisk d fs [] []) in
  current live bak (files w) = (if ok then Some data else current live bak d) /\ answers w = [] /\
  Forall (fun crash => current live bak crash = current live bak d \/ current live bak crash = Some data) (shown w).
Proof.
  intros Hdup. apply NoDup_cons in Hdup as [H1 Hdup]. apply NoDup_cons in Hdup as [H2 _].
  assert (live <> tmp /\ live <> bak /\ tmp <> bak) as (Hlt & Hlb & Htb).
  { split_and!; intros ->; [apply H1 | apply H1 | apply H2]; rewrite ?elem_of_cons; auto. }
  pose proof (publish_triple live tmp bak data (current live bak d) Hlt Hlb Htb (mkDisk d fs [] [])) as H.
  destruct (publish live tmp bak data (mkDisk d fs [] [])) as [ok w]. cbn [fst snd] in H.
  destruct H as (Ha & Hs & Hr); [| done]. split_and!; [done | by constructor | done].
Qed.

Lemma write_calm path data d s :
  exists s', write_file_sync path data (mkDisk d [] [] s) = (true, mkDisk (<[path := data]> d) [] [] s').
Proof.
  assert (forall d s, flush_sync_close (mkDisk d [] [] s) = (true, mkDisk d [] [] s)) as Hflush by done.
  assert (forall d s, exists s', fwrite path data (mkDisk d [] [] s) = (true, mkDisk (<[path := data]> d) [] [] s')) as Hwrite.
  { intros d' s'. eexists. unfold fwrite, show, modify, next_fate, gets, mbind, M_bind, mret, M_ret.
    lazy beta iota zeta delta [fates files answers shown over]. rewrite (firstn_all data). done. }
  unfold write_file_sync. unfold mbind at 1, M_bind at 1.
  assert (open_write path (mkDisk d [] [] s) = (true, mkDisk (<[path := []]> d) [] [] (s ++ [<[path := []]> d]))) as -> by done.
  cbn [negb]. destruct (bool_decide (data = [])) eqn:E; bool_hyps.
  - subst data. eexists. unfold mbind, M_bind, mret, M_ret. cbn [negb]. apply Hflush.
  - destruct (Hwrite (<[path := []]> d) (s ++ [<[path := []]> d])) as [s' Hs]. exists s'.
    unfold mbind, M_bind. rewrite Hs. cbn [negb]. by rewrite Hflush, insert_insert_eq.
Qed.

(** When no call fails, a publication succeeds. *)
Lemma publish_calm live tmp bak data d :
  NoDup [live; tmp; bak] -> (publish live tmp bak data (calm d)).1 = true.
Proof.
  intros Hdup. apply NoDup_cons in Hdup as [H1 Hdup]. apply NoDup_cons in Hdup as [H2 _].
  assert (tmp <> live /\ tmp <> bak /\ live <> bak) as (Htl & Htb & Hlb).
  { split_and!; intros ->; [apply H1 | apply H2 | apply H1]; rewrite ?elem_of_cons; auto. }
  assert (forall s, (replace_live live tmp bak (mkDisk (<[tmp := data]> d) [] [] s)).1 = true) as Hreplace.
  { intros s. unfold replace_live, back_up, exists_, remove, rename, show, next_answer, next_fate, gets, modify.
    unfold mbind, M_bind, mret, M_ret. cbn [answers fates files]. rewrite lookup_insert_ne by done.
    destruct (d !! live) as [content|] eqn:Hlive.
    - rewrite bool_decide_true by done. cbn -[lookup insert delete].
      rewrite lookup_delete_ne, lookup_insert_ne, Hlive by congruence. cbn -[lookup insert delete].
      rewrite lookup_insert_ne, !lookup_delete_ne, lookup_insert_eq by congruence. done.
    - rewrite bool_decide_false by (by intros [? ?]). cbn -[lookup insert delete]. by rewrite lookup_insert_eq. }
  destruct (write_calm tmp data d []) as [s' Hs]. unfold publish, calm, mbind, M_bind.
  change (plain_call (mkDisk d [] [] [])) with (true, mkDisk d [] [] []). cbn [negb]. rewrite Hs. cbn [negb]. apply Hreplace.
Qed.

(** *** Other files

    A publication touches its three names only. *)

Section Others.
Context (names : list string) (base : directory).

Definition same_elsewhere (d : directory) : Prop := forall path, path ∉ names -> d !! path = base !! path.
Definition elsewhere (w : Disk) : Prop := same_elsewhere (files w) /\ Forall same_elsewhere (shown w).

Lemma elsewhere_fate : keeps elsewhere next_fate.
Proof using Type. intros w Hw. unfold next_fate. by destruct (fates w). Qed.

Lemma elsewhere_answer : keeps elsewhere next_answer.
Proof using Type. intros w Hw. unfold next_answer. by destruct (answers w). Qed.

(** A call that shows one more content. *)
Lemma elsewhere_call {A} (k : fate -> directory -> IO A) :
  (forall f d, same_elsewhere d -> keeps elsewhere (k f d)) -> keeps elsewhere (f ← next_fate; d ← gets files; k f d).
Proof using Type.
  intros H. apply keeps_bind; [apply elsewhere_fate |]. intros f. apply keeps_gets_bind. intros w Hw. by apply H; [apply Hw |].
Qed.

Lemma elsewhere_show d : same_elsewhere d -> keeps elsewhere (show d).
Proof using Type. intros Hd. apply keeps_modify. intros w [Hf Hs]. split; [done |]. apply Forall_app. by split; [| constructor]. Qed.

Lemma same_insert path content d : path ∈ names -> same_elsewhere d -> same_elsewhere (<[path := content]> d).
Proof using Type. intros Hp Hd q Hq. rewrite lookup_insert_ne; [by apply Hd |]. by intros ->. Qed.

Lemma same_delete path d : path ∈ names -> same_elsewhere d -> same_elsewhere (delete path d).
Proof using Type. intros Hp Hd q Hq. rewrite lookup_delete_ne; [by apply Hd |]. by intros ->. Qed.

Hint Resolve elsewhere_fate elsewhere_answer elsewhere_show same_insert same_delete : keeps.

Lemma elsewhere_plain : keeps elsewhere plain_call.
Proof using Type. unfold plain_call. auto with keeps. Qed.

Lemma elsewhere_exists path : keeps elsewhere (exists_ path).
Proof using Type. unfold exists_. auto with keeps. Qed.

Lemma elsewhere_open path : path ∈ names -> keeps elsewhere (open_write path).
Proof using Type. intros Hp. apply elsewhere_call. intros [|n] d Hd; auto with keeps. Qed.

Lemma elsewhere_fwrite path data : path ∈ names -> keeps elsewhere (fwrite path data).
Proof using Type.
  intros Hp. apply elsewhere_call. intros f d Hd. apply keeps_bind; [| auto with keeps].
  apply keeps_modify. intros w [Hf Hs]. split; [done |]. apply Forall_app. split; [done |].
  apply Forall_fmap, Forall_forall. intros n _. by apply same_insert.
Qed.

Lemma elsewhere_remove path : path ∈ names -> keeps elsewhere (remove path).
Proof using Type. intros Hp. apply elsewhere_call. intros [|n] d Hd; auto with keeps. Qed.

Lemma elsewhere_rename from to : from ∈ names -> to ∈ names -> keeps elsewhere (rename from to).
Proof using Type. intros Hf Ht. apply elsewhere_call. intros [|n] d Hd; [destruct (d !! from) |]; auto 8 with keeps. Qed.

Hint Resolve elsewhere_plain elsewhere_exists elsewhere_open elsewhere_fwrite elsewhere_remove elsewhere_rename : keeps.

Lemma elsewhere_publish live tmp bak data :
  live ∈ names -> tmp ∈ names -> bak ∈ names -> keeps elsewhere (publish live tmp bak data).
Proof using Type.
  intros Hl Ht Hb. unfold publish, write_file_sync, flush_sync_close, replace_live, back_up.
  repeat first [apply keeps_bind; [solve [auto with keeps] |]; intros ? | apply keeps_if | apply keeps_bind; [| intros ?] | solve [auto with keeps]].
Qed.

End Others.

Lemma publish_elsewhere live tmp bak data d fs path :
  path ∉ [live; tmp; bak] ->
  let w := (publish live tmp bak data (mkDisk d fs [] [])).2 in
  files w !! path = d !! path /\ Forall (fun crash => crash !! path = d !! path) (shown w).
Proof.
  intros Hpath. destruct (elsewhere_publish [live; tmp; bak] d live tmp bak data) with (s := mkDisk d fs [] []) as [Hf Hs];
    rewrite ?elem_of_cons; auto.
  - split; [by intros q Hq | constructor].
  - split; [by apply Hf |]. eapply Forall_impl; [exact Hs |]. intros crash Hc. by apply Hc.
Qed.

(** A status query that fails right when the rename does brings an older content back: [exists(live)] answers [false],
    the backup is not refreshed, and the restoration renames the old backup over the live file. *)
Example older_content_returns :
  current "live" "bak" (<["bak" := [1]]> (<["live" := [2]]> ∅)) = Some [2] /\
  let w := (replace_live "live" "tmp" "bak"
              (mkDisk (<["tmp" := [3]]> (<["bak" := [1]]> (<["live" := [2]]> ∅))) [Refused 0] [false] [])) in
  w.1 = false /\ current "live" "bak" (files w.2) = Some [1].
Proof. vm_compute. auto. Qed.
