(* ===== verification/CatalogPersist.v ===== *)
(** * The catalogue on disk ([shared/src/app/catalog_persist.{hpp,cpp}], [catalog_state.hpp])

    The file is a magic, a version, the payload and the SHA-256 of all of it.  It is written
    aside and renamed over the live one; the previous one is kept as a backup. *)

From S2P Require Import Prelude Sha256 ContentIdentity FileStore PersistCodec.

(** ** Data *)

Definition FLYCAT01_MAX_BYTES : Z := 16777216.
Definition kMagic : bytes := ascii_bytes "FLYCAT01".
Definition kVersion : Z := 1.
Definition kMaxStringBytes : Z := 65536.
Definition kMaxCount : Z := 100000.

Definition FLY_SCAN_COMPLETENESS_FULL : Z := 1.
Definition FLY_CATALOG_FRESHNESS_FRESH : Z := 1.

Record SourceKey := mkKey { uuid : bytes; scope : Z }.

#[global] Instance source_key_eq_dec : EqDecision SourceKey.
Proof. solve_decision. Defined.

Definition same_source (left right : SourceKey) : bool :=
  (scope left =? scope right) && bool_decide (uuid left = uuid right).

Record SourceRecord := mkSource { source_key : SourceKey; last_completeness : Z }.

Record UserRecord := mkUser {
  user_id : bytes;
  favorite : bool;
  favorite_revision : Z;
  last_played_sequence : Z;
  play_count : Z;
}.

Record CatalogEntryData := mkCatalogEntry {
  entry_source : SourceKey;
  payload_size : Z;
  physical_size : Z;
  entry_expected_bytes : Z;
  entry_prg_bytes : Z;
  entry_chr_bytes : Z;
  entry_mapper : Z;
  entry_submapper : Z;
  entry_disk_sides : Z;
  payload_sha1 : bytes;
  payload_sha256 : bytes;
  physical_sha256 : bytes;
  payload_crc32 : bytes;
  package_format : Z;
  rom_format : Z;
  compatibility_state : Z;
  compatibility_reason : Z;
  freshness : Z;
  entry_flags : Z;
  canonical_id : bytes;
  variant_id : bytes;
  display_name : bytes;
  source_relative_path : bytes;
  package_id : bytes;
  zip_raw_name : bytes;
  zip_local_header_offset : Z;
}.

Record CatalogData := mkCatalog {
  generation : Z;
  entries : list CatalogEntryData;
  sources : list SourceRecord;
  users : list UserRecord;
  next_favorite_revision : Z;
  next_play_sequence : Z;
}.

#[global] Instance eta_source : Eta SourceRecord := fun r => mkSource (source_key r) (last_completeness r).
#[global] Instance eta_user : Eta UserRecord := fun r =>
  mkUser (user_id r) (favorite r) (favorite_revision r) (last_played_sequence r) (play_count r).
#[global] Instance eta_catalog_entry : Eta CatalogEntryData := fun r =>
  mkCatalogEntry (entry_source r) (payload_size r) (physical_size r) (entry_expected_bytes r) (entry_prg_bytes r) (entry_chr_bytes r)
    (entry_mapper r) (entry_submapper r) (entry_disk_sides r) (payload_sha1 r) (payload_sha256 r) (physical_sha256 r)
    (payload_crc32 r) (package_format r) (rom_format r) (compatibility_state r) (compatibility_reason r) (freshness r)
    (entry_flags r) (canonical_id r) (variant_id r) (display_name r) (source_relative_path r) (package_id r)
    (zip_raw_name r) (zip_local_header_offset r).
#[global] Instance eta_catalog : Eta CatalogData := fun r =>
  mkCatalog (generation r) (entries r) (sources r) (users r) (next_favorite_revision r) (next_play_sequence r).

(** [CatalogData{}] *)
Definition catalog_empty : CatalogData := mkCatalog 0 [] [] [] 0 0.

(** ** Writer *)

Definition put_u8 (value : Z) : W := fun w => if FLYCAT01_MAX_BYTES <=? zlen w then None else Some (w ++ [value]).

Definition put_u32 (value : Z) : W :=
  put_u8 (u8 value) >&> put_u8 (u8 (Z.shiftr value 8)) >&> put_u8 (u8 (Z.shiftr value 16)) >&> put_u8 (u8 (Z.shiftr value 24)).

Definition put_i32 (value : Z) : W := put_u32 (u32 value).
Definition put_u64 (value : Z) : W := put_u32 (u32 value) >&> put_u32 (u32 (Z.shiftr value 32)).

Definition put_bytes (data : bytes) : W := fun w =>
  if FLYCAT01_MAX_BYTES - zlen w <? zlen data then None else Some (w ++ data).

Definition put_blob (data : bytes) : W := fun w =>
  if kMaxStringBytes <? zlen data then None else (put_u32 (u32 (zlen data)) >&> put_bytes data) w.

Definition put_string (value : bytes) : W := put_blob value.

(** ** Reader *)

Definition take_u8 : R Z := fun r => match r with [] => None | b :: r => Some (b, r) end.

Definition take_u32 : R Z :=
  b0 ← take_u8; b1 ← take_u8; b2 ← take_u8; b3 ← take_u8; mret (or_bytes b0 b1 b2 b3).

Definition take_i32 : R Z := raw ← take_u32; mret (as_int32 raw).
Definition take_u64 : R Z := low ← take_u32; high ← take_u32; mret (Z.lor low (Z.shiftl high 32)).

Definition take_bytes (size : Z) : R (list Z) := fun r =>
  if zlen r <? size then None else Some (slice r 0 size, drop (Z.to_nat size) r).

Definition take_blob : R (list Z) :=
  size ← take_u32; _ ← check_ (size <=? kMaxStringBytes); take_bytes size.

Definition take_string : R (list Z) := take_blob.
Definition at_end : R unit := fun r => match r with [] => Some (tt, []) | _ => None end.

(** ** Payload *)

Definition put_source (s : SourceRecord) : W :=
  put_bytes (uuid (source_key s)) >&> put_u32 (scope (source_key s)) >&> put_u32 (last_completeness s).

Definition take_source : R SourceRecord :=
  id ← take_bytes 16; scope ← take_u32; completeness ← take_u32; mret (mkSource (mkKey id scope) completeness).

Definition put_entry (e : CatalogEntryData) : W :=
  put_bytes (uuid (entry_source e)) >&> put_u32 (scope (entry_source e)) >&> put_u64 (payload_size e) >&>
  put_u64 (physical_size e) >&> put_u64 (entry_expected_bytes e) >&> put_u64 (entry_prg_bytes e) >&> put_u64 (entry_chr_bytes e) >&>
  put_i32 (entry_mapper e) >&> put_i32 (entry_submapper e) >&> put_u32 (entry_disk_sides e) >&> put_bytes (payload_sha1 e) >&>
  put_bytes (payload_sha256 e) >&> put_bytes (physical_sha256 e) >&> put_bytes (payload_crc32 e) >&>
  put_u32 (package_format e) >&> put_u32 (rom_format e) >&> put_u32 (compatibility_state e) >&>
  put_u32 (compatibility_reason e) >&> put_u32 (freshness e) >&> put_u32 (entry_flags e) >&> put_string (canonical_id e) >&>
  put_string (variant_id e) >&> put_string (display_name e) >&> put_string (source_relative_path e) >&>
  put_string (package_id e) >&> put_blob (zip_raw_name e) >&> put_i32 (zip_local_header_offset e).

Definition take_entry : R CatalogEntryData :=
  id ← take_bytes 16; scope ← take_u32; payload_size ← take_u64; physical_size ← take_u64; expected ← take_u64;
  prg ← take_u64; chr ← take_u64; mapper ← take_i32; submapper ← take_i32; disk_sides ← take_u32;
  sha1 ← take_bytes 20; sha256 ← take_bytes 32; physical ← take_bytes 32; crc32 ← take_bytes 4;
  package_format ← take_u32; rom_format ← take_u32; state ← take_u32; reason ← take_u32; freshness ← take_u32;
  flags ← take_u32; canonical ← take_string; variant ← take_string; display ← take_string; path ← take_string;
  package ← take_string; raw_name ← take_blob; offset ← take_i32;
  mret (mkCatalogEntry (mkKey id scope) payload_size physical_size expected prg chr mapper submapper disk_sides sha1 sha256 physical
          crc32 package_format rom_format state reason freshness flags canonical variant display path package raw_name offset).

Definition put_user (u : UserRecord) : W :=
  put_string (user_id u) >&> put_u8 (if favorite u then 1 else 0) >&> put_u64 (favorite_revision u) >&>
  put_u64 (last_played_sequence u) >&> put_u32 (play_count u).

Definition take_user : R UserRecord :=
  id ← take_string; favorite ← take_u8; _ ← check_ (favorite <=? 1); revision ← take_u64; sequence ← take_u64;
  count ← take_u32; mret (mkUser id (negb (favorite =? 0)) revision sequence count).

Definition encode_payload (c : CatalogData) : W :=
  check_put ((zlen (sources c) <=? kMaxCount) && (zlen (entries c) <=? kMaxCount) && (zlen (users c) <=? kMaxCount)) >&>
  put_u64 (generation c) >&> put_u32 (u32 (zlen (sources c))) >&> put_each put_source (sources c) >&>
  put_u32 (u32 (zlen (entries c))) >&> put_each put_entry (entries c) >&>
  put_u32 (u32 (zlen (users c))) >&> put_each put_user (users c) >&>
  put_u64 (next_favorite_revision c) >&> put_u64 (next_play_sequence c).

Definition decode_fields : R CatalogData :=
  generation ← take_u64; source_count ← take_u32; _ ← check_ (source_count <=? kMaxCount);
  sources ← take_each (Z.to_nat source_count) take_source;
  entry_count ← take_u32; _ ← check_ (entry_count <=? kMaxCount);
  entries ← take_each (Z.to_nat entry_count) take_entry;
  user_count ← take_u32; _ ← check_ (user_count <=? kMaxCount);
  users ← take_each (Z.to_nat user_count) take_user;
  favorite ← take_u64; play ← take_u64;
  mret (mkCatalog generation entries sources users favorite play).

(** ... and [reader.at_end()]. *)
Definition decode_payload : R CatalogData := c ← decode_fields; _ ← at_end; mret c.

(** ** File *)

Definition decode_file (encoded : bytes) : option CatalogData :=
  payload ← open_file kMagic kVersion FLYCAT01_MAX_BYTES encoded; fst <$> decode_payload payload.

(** The first half of [save_catalog]: the bytes of the file. *)
Definition encode_file (c : CatalogData) : option bytes :=
  payload ← encode_payload c [];
  body ← (put_bytes kMagic >&> put_u32 kVersion >&> put_bytes payload) [];
  digest ← sha256_of_bytes body;
  file ← put_bytes digest body;
  if FLYCAT01_MAX_BYTES <? zlen file then None else Some file.

Definition live_path : string := "catalog.flycat01".
Definition tmp_path : string := "catalog.flycat01.tmp".
Definition bak_path : string := "catalog.flycat01.bak".

Definition load_catalog : IO CatalogData :=
  encoded ← read_chosen FLYCAT01_MAX_BYTES live_path bak_path;
  mret (default catalog_empty (encoded ≫= decode_file)).

Definition save_catalog (c : CatalogData) : IO bool :=
  match encode_file c with
  | None => mret false
  | Some file => publish live_path tmp_path bak_path file
  end.

(** What a process that starts on a directory loads. *)
Definition catalog_on (d : gmap string (list Z)) : CatalogData := (load_catalog (calm d)).1.

(** ** Values the file can hold

    The ranges of the fields' types: fixed arrays and unsigned and signed widths. *)

Definition key_fits (k : SourceKey) : Prop := zlen (uuid k) = 16 /\ unsigned 32 (scope k).
Definition source_fits (s : SourceRecord) : Prop := key_fits (source_key s) /\ unsigned 32 (last_completeness s).

Record entry_fits (e : CatalogEntryData) : Prop := {
  fit_source : key_fits (entry_source e);
  fit_sizes : Forall (unsigned 64) [payload_size e; physical_size e; entry_expected_bytes e; entry_prg_bytes e; entry_chr_bytes e];
  fit_signed : Forall signed32 [entry_mapper e; entry_submapper e; zip_local_header_offset e];
  fit_words : Forall (unsigned 32) [entry_disk_sides e; package_format e; rom_format e; compatibility_state e;
    compatibility_reason e; freshness e; entry_flags e];
  fit_hashes : [zlen (payload_sha1 e); zlen (payload_sha256 e); zlen (physical_sha256 e); zlen (payload_crc32 e)] = [20; 32; 32; 4];
}.

Definition user_fits (u : UserRecord) : Prop :=
  unsigned 64 (favorite_revision u) /\ unsigned 64 (last_played_sequence u) /\ unsigned 32 (play_count u).

Record catalog_fits (c : CatalogData) : Prop := {
  fit_generation : unsigned 64 (generation c);
  fit_favorite : unsigned 64 (next_favorite_revision c);
  fit_play : unsigned 64 (next_play_sequence c);
  fit_catalog_sources : Forall source_fits (sources c);
  fit_catalog_entries : Forall entry_fits (entries c);
  fit_catalog_users : Forall user_fits (users c);
}.

(** ** Round trips *)

Create HintDb persist.

Lemma u8_round v : is_byte v -> round_trips (put_u8 v) take_u8 v.
Proof. intros _ w w' H. unfold put_u8 in H. case_match; [done |]. injection H as <-. by exists [v]. Qed.

Lemma u32_round v : unsigned 32 v -> round_trips (put_u32 v) take_u32 v.
Proof.
  intros Hv. unfold put_u32, take_u32. rewrite <- (or_bytes_word v Hv) at 5.
  repeat (eapply round_trips_bind; [apply u8_round, u8_byte |]).
  eapply round_trips_last; [apply u8_round, u8_byte |]. apply round_trips_ret.
Qed.

Lemma u32_unsigned v : unsigned 32 (u32 v).
Proof. unfold unsigned, u32. apply Z.mod_pos_bound. lia. Qed.

Lemma u32_id v : unsigned 32 v -> u32 v = v.
Proof. apply Z.mod_small. Qed.

Lemma i32_round v : signed32 v -> round_trips (put_i32 v) take_i32 v.
Proof.
  intros Hv. unfold put_i32, take_i32. rewrite <- (as_int32_u32 v Hv) at 2.
  eapply round_trips_last; [apply u32_round, u32_unsigned | apply round_trips_ret].
Qed.

Lemma u64_round v : unsigned 64 v -> round_trips (put_u64 v) take_u64 v.
Proof.
  intros Hv. unfold put_u64, take_u64. rewrite <- (halves_word v Hv) at 3.
  eapply round_trips_bind; [apply u32_round, u32_unsigned |].
  eapply round_trips_last; [apply u32_round, u32_unsigned | apply round_trips_ret].
Qed.

Lemma bytes_round data n : zlen data = n -> round_trips (put_bytes data) (take_bytes n) data.
Proof.
  intros <- w w' H. unfold put_bytes in H. case_match; [done |]. injection H as <-. exists data. split; [done |]. intros rest.
  unfold take_bytes. rewrite zlen_app. pose proof (zlen_nonneg rest). destruct (Z.ltb_spec (zlen data + zlen rest) (zlen data)); [lia |].
  rewrite slice_app_here by done. unfold zlen. by rewrite Nat2Z.id, drop_app_length.
Qed.

Lemma blob_round data : round_trips (put_blob data) take_blob data.
Proof.
  intros w w' H. unfold put_blob in H. destruct (kMaxStringBytes <? zlen data) eqn:E; [done |]. bool_hyps.
  assert (unsigned 32 (zlen data)) as Hu.
  { pose proof (zlen_nonneg data). unfold unsigned, kMaxStringBytes in *. lia. }
  rewrite u32_id in H by done. revert w w' H. change (round_trips (put_u32 (zlen data) >&> put_bytes data) take_blob data).
  eapply round_trips_bind; [by apply u32_round |]. apply round_trips_check; [by apply Z.leb_le |]. by apply bytes_round.
Qed.

Lemma string_round value : round_trips (put_string value) take_string value.
Proof. apply blob_round. Qed.

#[export] Hint Resolve u8_round u32_round i32_round u64_round blob_round string_round round_trips_ret : persist.
#[export] Hint Extern 1 (round_trips (put_bytes _) _ _) => apply bytes_round; assumption : persist.

(** A field after the other. *)
Ltac field_by_field :=
  repeat (eapply round_trips_bind; [solve [eauto 2 with persist] |]);
  eapply round_trips_last; [solve [eauto 2 with persist] | apply round_trips_ret].

Lemma source_round s : source_fits s -> round_trips (put_source s) take_source s.
Proof.
  destruct s as [[id sc] completeness]. intros [[Hid Hs] Hc]. cbn in *. unfold put_source, take_source. cbn [source_key uuid scope last_completeness].
  field_by_field.
Qed.

Lemma entry_round e : entry_fits e -> round_trips (put_entry e) take_entry e.
Proof.
  destruct e as [[id sc]]. intros [[Hid Hsc] Hsizes Hsigned Hwords Hhashes]. cbn [entry_source uuid scope payload_size physical_size
    entry_expected_bytes entry_prg_bytes entry_chr_bytes entry_mapper entry_submapper zip_local_header_offset entry_disk_sides
    package_format rom_format compatibility_state compatibility_reason freshness entry_flags payload_sha1 payload_sha256
    physical_sha256 payload_crc32] in *.
  repeat match goal with H : Forall _ (_ :: _) |- _ => apply Forall_cons in H as [? H] end.
  injection Hhashes as Hsha1 Hsha256 Hphysical Hcrc.
  unfold put_entry, take_entry. cbn. field_by_field.
Qed.

Lemma user_round u : user_fits u -> round_trips (put_user u) take_user u.
Proof.
  destruct u as [id [|] revision sequence count]; intros (Hr & Hs & Hc); cbn in *; unfold put_user, take_user; cbn;
    (eapply round_trips_bind; [apply string_round |]);
    (eapply round_trips_bind; [apply u8_round; unfold is_byte; lia |]);
    (apply round_trips_check; [done |]); field_by_field.
Qed.

(** The three vectors of the catalogue are written and read through the interface. *)
#[export] Program Instance persisted_source : Persisted SourceRecord := {| put_value := put_source; take_value := take_source; fits := source_fits |}.
Next Obligation. apply source_round. Qed.
#[export] Program Instance persisted_entry : Persisted CatalogEntryData := {| put_value := put_entry; take_value := take_entry; fits := entry_fits |}.
Next Obligation. apply entry_round. Qed.
#[export] Program Instance persisted_user : Persisted UserRecord := {| put_value := put_user; take_value := take_user; fits := user_fits |}.
Next Obligation. apply user_round. Qed.

(** A count, its check, and as many elements. *)
Lemma counted_round `{Persisted A} {B} (l : list A) q (k : list A -> R B) b :
  zlen l <= kMaxCount -> Forall fits l -> round_trips q (k l) b ->
  round_trips (put_u32 (u32 (zlen l)) >&> put_each put_value l >&> q)
    (n ← take_u32; _ ← check_ (n <=? kMaxCount); l' ← take_each (Z.to_nat n) take_value; k l') b.
Proof.
  intros Hmax Hl Hq. pose proof (zlen_nonneg l).
  assert (unsigned 32 (zlen l)) as Hu by (unfold unsigned, kMaxCount in *; lia). rewrite u32_id by done.
  eapply round_trips_bind; [by apply u32_round |]. apply round_trips_check; [by apply Z.leb_le |].
  eapply round_trips_bind; [| exact Hq]. unfold zlen. rewrite Nat2Z.id. by apply persisted_each.
Qed.

Lemma payload_round c : catalog_fits c -> round_trips (encode_payload c) decode_fields c.
Proof.
  intros [Hg Hf Hp Hs He Hu]. unfold encode_payload. apply round_trips_check_put. intros Hcounts. bool_hyps.
  destruct c as [g es ss us nf np]. cbn [generation entries sources users next_favorite_revision next_play_sequence] in *.
  unfold decode_fields. eapply round_trips_bind; [by apply u64_round |].
  apply (counted_round (H := persisted_source)); [done | done |].
  apply (counted_round (H := persisted_entry)); [done | done |].
  apply (counted_round (H := persisted_user)); [done | done |]. field_by_field.
Qed.

Lemma decode_encode_payload c payload : catalog_fits c -> encode_payload c [] = Some payload -> decode_payload payload = Some (c, []).
Proof.
  intros Hc H. destruct (payload_round c Hc [] payload H) as (out & -> & Hdecode). specialize (Hdecode []).
  rewrite app_nil_r in Hdecode. cbn [app]. unfold decode_payload, mbind, R_bind. by rewrite Hdecode.
Qed.

(** *** The file *)

Lemma encode_file_inv c file :
  encode_file c = Some file ->
  exists payload body, encode_payload c [] = Some payload /\ body = kMagic ++ [1; 0; 0; 0] ++ payload /\
    file = body ++ sha256 body /\ zlen file <= FLYCAT01_MAX_BYTES.
Proof.
  intros H. unfold encode_file in H. destruct (encode_payload c []) as [payload|]; [| done]. cbn [mbind option_bind] in H.
  destruct ((put_bytes kMagic >&> put_u32 kVersion >&> put_bytes payload) []) as [body|] eqn:Hbody; [| done].
  cbn [mbind option_bind] in H. unfold andthen in Hbody.
  change (put_bytes kMagic []) with (Some kMagic) in Hbody. cbn [mbind option_bind] in Hbody.
  change (put_u32 kVersion kMagic) with (Some (kMagic ++ [1; 0; 0; 0])) in Hbody. cbn [mbind option_bind] in Hbody.
  unfold put_bytes in Hbody. destruct (FLYCAT01_MAX_BYTES - zlen _ <? zlen payload) eqn:Hlen; [done |]. bool_hyps.
  apply (inj Some) in Hbody as <-. rewrite sha256_of_bytes_spec in H.
  2:{ rewrite zlen_app. unfold FLYCAT01_MAX_BYTES in Hlen.
      assert (16777216 <= max_hash_bytes) by (vm_compute; discriminate). lia. }
  cbn [mbind option_bind] in H. unfold put_bytes in H at 1. case_match; [done |]. cbn [mbind option_bind] in H.
  case_match; [done |]. apply (inj Some) in H as <-. bool_hyps. eexists payload, _. split_and!; [done | reflexivity | by rewrite <- app_assoc | done].
Qed.

Lemma decode_encode_file c file : catalog_fits c -> encode_file c = Some file -> decode_file file = Some c.
Proof.
  intros Hc H. destruct (encode_file_inv c file H) as (payload & body & Hpayload & Hbody & Hfile & Hmax).
  unfold decode_file. change kVersion with 1. rewrite (open_file_made kMagic FLYCAT01_MAX_BYTES payload body file) by (done || vm_compute; done).
  cbn [mbind option_bind]. by rewrite (decode_encode_payload c payload).
Qed.

Lemma paths_distinct : NoDup [live_path; tmp_path; bak_path].
Proof. by apply (bool_decide_unpack _). Qed.

(** A load is a function of what the directory holds. *)
Definition decode_held (held : option bytes) : CatalogData :=
  default catalog_empty ((held ≫= bounded FLYCAT01_MAX_BYTES) ≫= decode_file).

Lemma load_catalog_calm d : load_catalog (calm d) = (decode_held (current live_path bak_path d), calm d).
Proof. unfold load_catalog, mbind, M_bind. by rewrite read_chosen_calm. Qed.

Lemma catalog_on_current d : catalog_on d = decode_held (current live_path bak_path d).
Proof. unfold catalog_on. by rewrite load_catalog_calm. Qed.

Lemma decode_held_file c file : catalog_fits c -> encode_file c = Some file -> decode_held (Some file) = c.
Proof.
  intros Hc H. unfold decode_held, bounded. cbn [mbind option_bind].
  destruct (encode_file_inv c file H) as (_ & _ & _ & _ & _ & Hmax).
  destruct (Z.leb_spec (zlen file) FLYCAT01_MAX_BYTES); [| lia]. cbn [mbind option_bind].
  by rewrite (decode_encode_file c file).
Qed.

(** A save is one step of the catalogue on disk, under every failure and every crash. *)
Lemma save_atomic c d fs :
  catalog_fits c ->
  let '(saved, w) := save_catalog c (mkDisk d fs [] []) in
  catalog_on (files w) = (if saved then c else catalog_on d) /\ answers w = [] /\
  Forall (fun crash => catalog_on crash = catalog_on d \/ catalog_on crash = c) (shown w).
Proof.
  intros Hc. unfold save_catalog. destruct (encode_file c) as [file|] eqn:E; [| by split_and!].
  pose proof (publish_atomic live_path tmp_path bak_path file d fs paths_distinct) as H.
  destruct (publish live_path tmp_path bak_path file (mkDisk d fs [] [])) as [ok w]. destruct H as (Hr & Ha & Hs).
  rewrite catalog_on_current, Hr. split_and!; [| done |].
  - destruct ok; [by apply decode_held_file | by rewrite catalog_on_current].
  - eapply Forall_impl; [exact Hs |]. intros crash [H | H]; rewrite catalog_on_current, H; [left; by rewrite catalog_on_current |].
    right. by apply decode_held_file.
Qed.

(** ** Correctness *)

(** C27. Reading a catalogue file back gives the catalogue it was written from: for every catalogue whose fields lie in the
    ranges of their types, if the writer accepts it (its limits on counts, strings and size hold) then the reader,
    magic, version, digest and bounds checks included, returns exactly that catalogue. *)
Theorem catalog_file_round_trip (c : CatalogData) (file : bytes) (Hc : catalog_fits c) (H : encode_file c = Some file) :
  decode_file file = Some c.
Proof. by apply decode_encode_file. Qed.

(** Saving the catalogue is atomic.  Whatever system calls are refused, and after however many bytes of a write:
    the directory at the end loads as the new catalogue exactly when the save reported success, and as the previous
    one otherwise; and a crash at any point, also inside the write, leaves a directory that loads as the previous or
    the new catalogue.  If no call fails and the catalogue can be encoded, the save succeeds. *)
Theorem catalog_save_crash_safe (c : CatalogData) (d : gmap string (list Z)) (fs : list fate) (Hc : catalog_fits c) :
  (let '(saved, w) := save_catalog c (mkDisk d fs [] []) in
   catalog_on (files w) = (if saved then c else catalog_on d) /\
   Forall (fun crash => catalog_on crash = catalog_on d \/ catalog_on crash = c) (shown w)) /\
  (encode_file c <> None -> (save_catalog c (calm d)).1 = true).
Proof.
  split.
  - pose proof (save_atomic c d fs Hc) as H. destruct (save_catalog c (mkDisk d fs [] [])) as [saved w]. tauto.
  - unfold save_catalog. destruct (encode_file c); [| done]. intros _. apply publish_calm, paths_distinct.
Qed.

(** A catalogue with one favourite. *)
Definition demo_catalog : CatalogData := mkCatalog 0 [] [] [mkUser (ascii_bytes "game") true 1 0 0] 1 0.

Lemma demo_fits : catalog_fits demo_catalog.
Proof.
  split; cbn [demo_catalog generation entries sources users next_favorite_revision next_play_sequence];
    repeat first [apply Forall_cons; split | apply Forall_nil; exact I | split]; unfold unsigned; cbn; lia.
Qed.

Lemma catalog_file_round_trip_witness :
  exists file, encode_file demo_catalog = Some file /\ decode_file file = Some demo_catalog.
Proof.
  destruct (encode_file demo_catalog) as [file|] eqn:E.
  - exists file. split; [done |]. exact (catalog_file_round_trip demo_catalog file demo_fits E).
  - exfalso. revert E. vm_compute. discriminate.
Defined.

(** The rename that publishes the file is refused, after the old file was moved aside. *)
Lemma catalog_save_crash_safe_witness :
  catalog_fits demo_catalog /\
  let '(saved, w) := save_catalog demo_catalog (mkDisk ∅ [Done; Done; Done; Done; Done; Done; Refused 0] [] []) in
  catalog_on (files w) = (if saved then demo_catalog else catalog_on ∅).
Proof.
  split; [exact demo_fits |].
  pose proof (catalog_save_crash_safe demo_catalog ∅ [Done; Done; Done; Done; Done; Done; Refused 0] demo_fits) as [H _].
  destruct (save_catalog _ _) as [saved w]. exact (proj1 H).
Defined.
