(* ===== verification/SettingsPersist.v ===== *)
(** * The settings on disk ([shared/src/app/settings_persist.cpp], [SettingsData] of [catalog_state.hpp])

    The file has the shape of the catalogue's, with a writer that has no limits of its own.
    A [float] is stored as its 32 bits and the model keeps it as those bits: no operation
    of the file computes with one. *)

From S2P Require Import Prelude Sha256 ContentIdentity FileStore PersistCodec.

(** ** Data *)

Definition kMagic : bytes := ascii_bytes "FLYSET01".
Definition kVersion : Z := 1.
Definition kMaxStringBytes : Z := 65536.
Definition kMaxBytes : Z := 16777216.

Record SettingsData := mkSettings {
  aspect_mode : Z;
  video_quality_preset : Z;
  custom_refresh_policy : Z;
  custom_temporal_mode : Z;
  custom_spatial_mode : Z;
  custom_post_effect : Z;
  adaptive_protection : Z;
  layout_preset : Z;
  direction_mode : Z;
  button_scale : Z;
  vertical_offset : Z;
  control_opacity : Z;
  joystick_scale : Z;
  dead_zone : Z;
  haptic_level : Z;
  distinct_ab_haptics : Z;
  audio_enabled : Z;
  audio_focus_policy : Z;
  autosave_enabled : Z;
  locale_tag : bytes;
  last_played_id : bytes;
}.

(** The member initialisers; [1.0f], [0.0f], [0.78f] and [0.18f] by their bits. *)
Definition settings_default : SettingsData :=
  mkSettings 1 2 3 1 2 1 1 1 2 0x3F800000 0 0x3F47AE14 0x3F800000 0x3E3851EC 2 1 1 1 1
    (ascii_bytes "system") [].

(** ** Writer and reader *)

Definition append_u32 (value : Z) : W := fun w =>
  Some (w ++ [u8 value; u8 (Z.shiftr value 8); u8 (Z.shiftr value 16); u8 (Z.shiftr value 24)]).

(** The bits of the float. *)
Definition append_f32 (bits : Z) : W := append_u32 bits.
Definition append_string (value : bytes) : W := append_u32 (u32 (zlen value)) >&> fun w => Some (w ++ value).

Definition take_u32 : R Z := fun r =>
  if zlen r <? 4 then None else Some (or_bytes (at_ r 0) (at_ r 1) (at_ r 2) (at_ r 3), drop 4 r).

Definition take_f32 : R Z := take_u32.

(** [size > kMaxStringBytes || bytes.size() - offset < size], then the characters. *)
Definition take_chars (size : Z) : R (list Z) := fun r =>
  if (kMaxStringBytes <? size) || (zlen r <? size) then None else Some (slice r 0 size, drop (Z.to_nat size) r).

Definition take_string : R (list Z) := size ← take_u32; take_chars size.

Definition encode_payload (s : SettingsData) : W :=
  append_u32 (aspect_mode s) >&> append_u32 (video_quality_preset s) >&> append_u32 (custom_refresh_policy s) >&>
  append_u32 (custom_temporal_mode s) >&> append_u32 (custom_spatial_mode s) >&> append_u32 (custom_post_effect s) >&>
  append_u32 (adaptive_protection s) >&> append_u32 (layout_preset s) >&> append_u32 (direction_mode s) >&>
  append_f32 (button_scale s) >&> append_f32 (vertical_offset s) >&> append_f32 (control_opacity s) >&>
  append_f32 (joystick_scale s) >&> append_f32 (dead_zone s) >&> append_u32 (haptic_level s) >&>
  append_u32 (distinct_ab_haptics s) >&> append_u32 (audio_enabled s) >&> append_u32 (audio_focus_policy s) >&>
  append_u32 (autosave_enabled s) >&> append_string (locale_tag s) >&> append_string (last_played_id s).

Definition decode_fields : R SettingsData :=
  aspect ← take_u32; quality ← take_u32; refresh ← take_u32; temporal ← take_u32; spatial ← take_u32; post ← take_u32;
  protection ← take_u32; layout ← take_u32; direction ← take_u32; button ← take_f32; vertical ← take_f32;
  opacity ← take_f32; joystick ← take_f32; dead ← take_f32; haptic ← take_u32; distinct ← take_u32; audio ← take_u32;
  focus ← take_u32; autosave ← take_u32; locale ← take_string; last ← take_string;
  mret (mkSettings aspect quality refresh temporal spatial post protection layout direction button vertical opacity joystick
          dead haptic distinct audio focus autosave locale last).

(** ... and [offset == bytes.size()]. *)
Definition decode_payload (payload : bytes) : option SettingsData :=
  match decode_fields payload with Some (s, []) => Some s | _ => None end.

(** ** File *)

Definition decode_file (encoded : bytes) : option SettingsData :=
  payload ← open_file kMagic kVersion kMaxBytes encoded; decode_payload payload.

(** The first half of [save_settings]: the bytes of the file. *)
Definition encode_file (s : SettingsData) : option bytes :=
  payload ← encode_payload s [];
  body ← append_u32 kVersion kMagic;
  let file := body ++ payload in
  digest ← sha256_of_bytes file;
  if kMaxBytes <? zlen file + 32 then None else Some (file ++ digest).

Definition live_path : string := "settings.flyset01".
Definition tmp_path : string := "settings.flyset01.tmp".
Definition bak_path : string := "settings.flyset01.bak".

Definition load_settings : IO SettingsData :=
  encoded ← read_chosen kMaxBytes live_path bak_path;
  mret (default settings_default (encoded ≫= decode_file)).

Definition save_settings (s : SettingsData) : IO bool :=
  match encode_file s with
  | None => mret false
  | Some file => publish live_path tmp_path bak_path file
  end.

(** What a process that starts on a directory loads. *)
Definition settings_on (d : gmap string (list Z)) : SettingsData := (load_settings (calm d)).1.

(** ** Values the file can hold

    The strings are what the reader accepts; [fly_settings_apply] lets no longer ones through. *)

Record settings_fit (s : SettingsData) : Prop := {
  fit_numbers : Forall (unsigned 32) [aspect_mode s; video_quality_preset s; custom_refresh_policy s; custom_temporal_mode s;
    custom_spatial_mode s; custom_post_effect s; adaptive_protection s; layout_preset s; direction_mode s; haptic_level s;
    distinct_ab_haptics s; audio_enabled s; audio_focus_policy s; autosave_enabled s];
  fit_floats : Forall (unsigned 32) [button_scale s; vertical_offset s; control_opacity s; joystick_scale s; dead_zone s];
  fit_locale : zlen (locale_tag s) <= kMaxStringBytes;
  fit_last_played : zlen (last_played_id s) <= kMaxStringBytes;
}.

(** ** Round trips *)

Create HintDb settings.

Lemma settings_u32_round v : unsigned 32 v -> round_trips (append_u32 v) take_u32 v.
Proof.
  intros Hv w w' H. unfold append_u32 in H. apply (inj Some) in H as <-. eexists. split; [reflexivity |]. intros rest.
  unfold take_u32. rewrite zlen_app. pose proof (zlen_nonneg rest).
  change (zlen [u8 v; u8 (Z.shiftr v 8); u8 (Z.shiftr v 16); u8 (Z.shiftr v 24)]) with 4.
  destruct (Z.ltb_spec (4 + zlen rest) 4); [lia |].
  change (drop 4 _) with rest. change (at_ _ 0) with (u8 v). change (at_ _ 1) with (u8 (Z.shiftr v 8)).
  change (at_ _ 2) with (u8 (Z.shiftr v 16)). change (at_ _ 3) with (u8 (Z.shiftr v 24)). by rewrite or_bytes_word.
Qed.

Lemma settings_f32_round v : unsigned 32 v -> round_trips (append_f32 v) take_f32 v.
Proof. apply settings_u32_round. Qed.

Lemma settings_string_round value : zlen value <= kMaxStringBytes -> round_trips (append_string value) take_string value.
Proof.
  intros Hmax. pose proof (zlen_nonneg value). assert (unsigned 32 (zlen value)) as Hu by (unfold unsigned, kMaxStringBytes in *; lia).
  unfold append_string, u32. rewrite Z.mod_small by exact Hu. eapply round_trips_bind; [by apply settings_u32_round |].
  intros w w' H'. apply (inj Some) in H' as <-. exists value. split; [done |]. intros rest. unfold take_chars. rewrite zlen_app.
  pose proof (zlen_nonneg rest). destruct (Z.ltb_spec kMaxStringBytes (zlen value)); [lia |].
  destruct (Z.ltb_spec (zlen value + zlen rest) (zlen value)); [lia |]. cbn [orb].
  rewrite slice_app_here by done. unfold zlen. by rewrite Nat2Z.id, drop_app_length.
Qed.

#[export] Hint Resolve settings_u32_round settings_f32_round settings_string_round : settings.

Lemma settings_payload_round s : settings_fit s -> round_trips (encode_payload s) decode_fields s.
Proof.
  destruct s. intros [Hnumbers Hfloats Hlocale Hlast]. cbn [aspect_mode video_quality_preset custom_refresh_policy custom_temporal_mode
    custom_spatial_mode custom_post_effect adaptive_protection layout_preset direction_mode haptic_level distinct_ab_haptics
    audio_enabled audio_focus_policy autosave_enabled button_scale vertical_offset control_opacity joystick_scale dead_zone
    locale_tag last_played_id] in *.
  repeat match goal with H : Forall _ (_ :: _) |- _ => apply Forall_cons in H as [? H] end.
  unfold encode_payload, decode_fields. cbn.
  repeat (eapply round_trips_bind; [solve [eauto 2 with settings] |]).
  eapply round_trips_last; [solve [eauto 2 with settings] | apply round_trips_ret].
Qed.

Lemma settings_decode_encode_payload s payload : settings_fit s -> encode_payload s [] = Some payload -> decode_payload payload = Some s.
Proof.
  intros Hs H. destruct (settings_payload_round s Hs [] payload H) as (out & -> & Hdecode). specialize (Hdecode []).
  rewrite app_nil_r in Hdecode. cbn [app]. unfold decode_payload. by rewrite Hdecode.
Qed.

(** *** The file *)

Lemma settings_encode_file_inv s file :
  encode_file s = Some file ->
  exists payload body, encode_payload s [] = Some payload /\ body = kMagic ++ [1; 0; 0; 0] ++ payload /\
    file = body ++ sha256 body /\ zlen file <= kMaxBytes.
Proof.
  intros H. unfold encode_file in H. destruct (encode_payload s []) as [payload|]; [| done]. cbn [mbind option_bind] in H.
  change (append_u32 kVersion kMagic) with (Some (kMagic ++ [1; 0; 0; 0])) in H. cbn [mbind option_bind] in H. cbv zeta in H.
  destruct (Z.leb_spec (zlen ((kMagic ++ [1; 0; 0; 0]) ++ payload)) max_hash_bytes) as [Hhash | Hhash].
  - rewrite sha256_of_bytes_spec in H by done. cbn [mbind option_bind] in H. case_match; [done |].
    apply (inj Some) in H as <-. bool_hyps. eexists payload, _. split_and!; [done | reflexivity | by rewrite <- app_assoc |].
    rewrite zlen_app. unfold zlen at 2. by rewrite sha256_length.
  - destruct (sha256_of_bytes _); [| done]. cbn [mbind option_bind] in H. case_match; [done |]. bool_hyps.
    assert (kMaxBytes <= max_hash_bytes) by (vm_compute; discriminate). lia.
Qed.

Lemma settings_decode_encode_file s file : settings_fit s -> encode_file s = Some file -> decode_file file = Some s.
Proof.
  intros Hs H. destruct (settings_encode_file_inv s file H) as (payload & body & Hpayload & Hbody & Hfile & Hmax).
  unfold decode_file. change kVersion with 1. rewrite (open_file_made kMagic kMaxBytes payload body file) by (done || vm_compute; done).
  cbn [mbind option_bind]. by rewrite (settings_decode_encode_payload s payload).
Qed.

Lemma settings_paths_distinct : NoDup [live_path; tmp_path; bak_path].
Proof. by apply (bool_decide_unpack _). Qed.

Definition decode_held (held : option bytes) : SettingsData :=
  default settings_default ((held ≫= bounded kMaxBytes) ≫= decode_file).

Lemma load_settings_calm d : load_settings (calm d) = (decode_held (current live_path bak_path d), calm d).
Proof. unfold load_settings, mbind, M_bind. by rewrite read_chosen_calm. Qed.

Lemma settings_on_current d : settings_on d = decode_held (current live_path bak_path d).
Proof. unfold settings_on. by rewrite load_settings_calm. Qed.

Lemma settings_decode_held_file s file : settings_fit s -> encode_file s = Some file -> decode_held (Some file) = s.
Proof.
  intros Hs H. unfold decode_held, bounded. cbn [mbind option_bind].
  destruct (settings_encode_file_inv s file H) as (_ & _ & _ & _ & _ & Hmax).
  destruct (Z.leb_spec (zlen file) kMaxBytes); [| lia]. cbn [mbind option_bind]. by rewrite (settings_decode_encode_file s file).
Qed.

(** A save is one step of the settings on disk, under every failure and every crash. *)
Lemma settings_save_atomic s d fs :
  settings_fit s ->
  let '(saved, w) := save_settings s (mkDisk d fs [] []) in
  settings_on (files w) = (if saved then s else settings_on d) /\ answers w = [] /\
  Forall (fun crash => settings_on crash = settings_on d \/ settings_on crash = s) (shown w).
Proof.
  intros Hs. unfold save_settings. destruct (encode_file s) as [file|] eqn:E; [| by split_and!].
  pose proof (publish_atomic live_path tmp_path bak_path file d fs settings_paths_distinct) as H.
  destruct (publish live_path tmp_path bak_path file (mkDisk d fs [] [])) as [ok w]. destruct H as (Hr & Ha & Hshown).
  rewrite settings_on_current, Hr. split_and!; [| done |].
  - destruct ok; [by apply settings_decode_held_file | by rewrite settings_on_current].
  - eapply Forall_impl; [exact Hshown |]. intros crash [H | H]; rewrite settings_on_current, H;
      [left; by rewrite settings_on_current | right; by apply settings_decode_held_file].
Qed.

(** The reader refuses a string over its limit; the writer has none: a save of such settings reports success, and the
    next start loads the defaults. *)
Example long_locale_lost :
  let long := replicate (Z.to_nat (kMaxStringBytes + 1)) 97 in
  exists bs, append_string long [] = Some bs /\ take_string bs = None.
Proof. eexists. split; [reflexivity |]. vm_compute. reflexivity. Qed.
