(* ===== verification/AppText.v ===== *)
(** * Names and paths the application accepts ([shared/src/app/flynes_app.cpp])

    UTF-8 of bounded length, relative paths, display names, and the names of archive
    entries, which may come in GBK. *)

From S2P Require Import Prelude Utf8.

Definition FLY_APP_ROOT_MAX_UTF8_BYTES : Z := 4096.
Definition FLY_CANONICAL_ID_MAX_UTF8_BYTES : Z := 4096.
Definition FLY_SCAN_RELATIVE_PATH_MAX_UTF8_BYTES : Z := 4096.
Definition FLY_SCAN_DISPLAY_NAME_MAX_UTF8_BYTES : Z := 1024.
Definition FLY_SCAN_MAX_ZIP_NAME_BYTES : Z := 1024.

(** ** UTF-8 *)

Definition is_utf8_continuation (byte : Z) : bool := (0x80 <=? byte) && (byte <=? 0xBF).

(** The loop, over what is left from the index on. *)
Fixpoint valid_loop (value : bytes) : bool :=
  match value with
  | [] => true
  | first :: rest =>
    if first <=? 0x7F then if first =? 0 then false else valid_loop rest
    else if (0xC2 <=? first) && (first <=? 0xDF) then
      match rest with
      | second :: rest => if negb (is_utf8_continuation second) then false else valid_loop rest
      | _ => false
      end
    else if (0xE0 <=? first) && (first <=? 0xEF) then
      match rest with
      | second :: third :: rest =>
        let valid_second := is_utf8_continuation second && (negb (first =? 0xE0) || (0xA0 <=? second)) &&
                            (negb (first =? 0xED) || (second <=? 0x9F)) in
        if negb valid_second || negb (is_utf8_continuation third) then false else valid_loop rest
      | _ => false
      end
    else if (0xF0 <=? first) && (first <=? 0xF4) then
      match rest with
      | second :: third :: fourth :: rest =>
        let valid_second := is_utf8_continuation second && (negb (first =? 0xF0) || (0x90 <=? second)) &&
                            (negb (first =? 0xF4) || (second <=? 0x8F)) in
        if negb valid_second || negb (is_utf8_continuation third) || negb (is_utf8_continuation fourth) then false
        else valid_loop rest
      | _ => false
      end
    else false
  end.

(** [None] is the null pointer. *)
Definition is_valid_utf8 (data : option bytes) (maximum_length : Z) : bool :=
  match data with
  | None => false
  | Some value => if (zlen value =? 0) || (maximum_length <? zlen value) then false else valid_loop value
  end.

Definition is_valid_root_utf8 (data : option bytes) : bool := is_valid_utf8 data FLY_APP_ROOT_MAX_UTF8_BYTES.

(** ** Paths *)

Definition slash : Z := 0x2F.
Definition backslash : Z := 0x5C.

Definition is_ascii_letter (value : Z) : bool :=
  ((0x61 <=? value) && (value <=? 0x7A)) || ((0x41 <=? value) && (value <=? 0x5A)).

Definition contains (value : Z) (text : bytes) : bool := existsb (Z.eqb value) text.

(** [path[0]] is a letter, [path[1]] a colon, [path[2]] a slash. *)
Definition drive_prefix (path : bytes) : bool :=
  match path with letter :: colon :: separator :: _ => is_ascii_letter letter && (colon =? 0x3A) && (separator =? slash) | _ => false end.

(** The segments between separators. *)
Fixpoint segments_from (segment path : bytes) : list bytes :=
  match path with
  | [] => [segment]
  | c :: rest => if c =? slash then segment :: segments_from [] rest else segments_from (segment ++ [c]) rest
  end.

Definition segments (path : bytes) : list bytes := segments_from [] path.

Definition bad_segment (segment : bytes) : bool :=
  bool_decide (segment = []) || bool_decide (segment = [0x2E]) || bool_decide (segment = [0x2E; 0x2E]).

Definition is_safe_relative_path (path : bytes) : bool :=
  match path, last path with
  | front :: _, Some back =>
    if (front =? slash) || (front =? backslash) || (back =? slash) || (back =? backslash) || contains backslash path then false
    else if drive_prefix path then false
    else negb (existsb bad_segment (segments path))
  | _, _ => false
  end.

Definition is_safe_display_name (value : bytes) : bool :=
  negb (bool_decide (value = [])) && negb (bool_decide (value = [0x2E])) && negb (bool_decide (value = [0x2E; 0x2E])) &&
  negb (contains slash value) && negb (contains backslash value).

(** ** Executables *)

Definition ascii_lower (value : Z) : Z := if (0x41 <=? value) && (value <=? 0x5A) then value + 0x20 else value.

Definition ends_with_ascii_case_insensitive (value suffix : bytes) : bool :=
  if zlen value <? zlen suffix then false
  else bool_decide ((ascii_lower <$> drop (length value - length suffix) value) = (ascii_lower <$> suffix)).

Definition executable_suffixes : list bytes :=
  ascii_bytes <$> [".exe"; ".dll"; ".so"; ".dylib"; ".apk"; ".hap"; ".ipa"; ".wasm"]%string.

Definition is_executable_name (name : bytes) : bool :=
  existsb (ends_with_ascii_case_insensitive name) executable_suffixes.

Definition has_zip_signature (data : bytes) : bool :=
  match data with
  | p :: k :: c :: d :: _ =>
    (p =? 0x50) && (k =? 0x4B) && (((c =? 3) && (d =? 4)) || ((c =? 5) && (d =? 6)) || ((c =? 7) && (d =? 8)))
  | _ => false
  end.

(** ** GBK

    The table of [gbk_table.h] has runs of trail indices with the difference from code
    to code point, in a range per lead byte.  It is a class here, so that what is shown
    of names and paths holds for any table; [GbkRuns] has the program's. *)

Record GbkRun := mkRun { run_start : Z; run_end : Z; run_delta : Z }.

Class GbkTable := { lead_runs : Z -> list GbkRun }.

Definition kGbkLeadMin : Z := 0x81.
Definition kGbkLeadMax : Z := 0xFE.

Definition trail_index (byte1 : Z) : Z := if byte1 <? 0x7F then byte1 - 0x40 else byte1 - 0x80 + 63.

Definition valid_trail (byte1 : Z) : bool := ((0x40 <=? byte1) && (byte1 <=? 0x7E)) || ((0x80 <=? byte1) && (byte1 <=? 0xFE)).

(** The loop over the runs of a lead byte: the first that holds the trail index. *)
Fixpoint find_run (runs : list GbkRun) (trail : Z) : option GbkRun :=
  match runs with
  | [] => None
  | run :: runs => if (trail <? run_start run) || (run_end run <? trail) then find_run runs trail else Some run
  end.

Section Gbk.
Context `{GbkTable}.

Definition gbk_code_point (byte0 byte1 : Z) : option Z :=
  (fun run => u32 (Z.lor (Z.shiftl byte0 8) byte1 + run_delta run)) <$>
  find_run (lead_runs (byte0 - kGbkLeadMin)) (trail_index byte1).

Fixpoint gbk_code_points (input : bytes) : option (list Z) :=
  match input with
  | [] => Some []
  | byte0 :: rest =>
    if byte0 <? 0x80 then
      if (byte0 =? 0) || ((byte0 <? 0x20) && negb (byte0 =? 9)) then None else cons byte0 <$> gbk_code_points rest
    else if (kGbkLeadMin <=? byte0) && (byte0 <=? kGbkLeadMax) then
      match rest with
      | byte1 :: rest =>
        if valid_trail byte1 then
          match gbk_code_point byte0 byte1 with
          | Some code_point => cons code_point <$> gbk_code_points rest
          | None => None
          end
        else None
      | [] => None
      end
    else None
  end.

(** [static_cast<char>] of each group of bits. *)
Definition encode_code_point (cp : Z) : bytes :=
  if cp <? 0x80 then [u8 cp]
  else if cp <? 0x800 then [u8 (Z.lor 0xC0 (Z.shiftr cp 6)); u8 (Z.lor 0x80 (Z.land cp 0x3F))]
  else if cp <? 0x10000 then
    [u8 (Z.lor 0xE0 (Z.shiftr cp 12)); u8 (Z.lor 0x80 (Z.land (Z.shiftr cp 6) 0x3F)); u8 (Z.lor 0x80 (Z.land cp 0x3F))]
  else
    [u8 (Z.lor 0xF0 (Z.shiftr cp 18)); u8 (Z.lor 0x80 (Z.land (Z.shiftr cp 12) 0x3F));
     u8 (Z.lor 0x80 (Z.land (Z.shiftr cp 6) 0x3F)); u8 (Z.lor 0x80 (Z.land cp 0x3F))].

Definition gb18030_to_utf8 (input : bytes) : option bytes :=
  (fun code_points => mjoin (encode_code_point <$> code_points)) <$> gbk_code_points input.

(** The name an archive entry is shown under. *)
Definition strict_zip_display_path (raw_name : bytes) : option bytes :=
  if bool_decide (raw_name = []) || (FLY_SCAN_MAX_ZIP_NAME_BYTES <? zlen raw_name) then None
  else if is_valid_utf8 (Some raw_name) FLY_SCAN_MAX_ZIP_NAME_BYTES then
    if is_safe_relative_path raw_name then Some raw_name else None
  else
    match gb18030_to_utf8 raw_name with
    | Some decoded =>
      if (zlen decoded <=? FLY_SCAN_MAX_ZIP_NAME_BYTES) && is_valid_utf8 (Some decoded) FLY_SCAN_MAX_ZIP_NAME_BYTES then
        if is_safe_relative_path decoded then Some decoded else None
      else None
    | None => None
    end.

End Gbk.

(** ** Lemmas *)

(** The check of the application is that of the archive names, without the zero byte. *)
Lemma valid_loop_strict value : valid_loop value = is_strict_utf8 value && negb (contains 0 value).
Proof.
  induction value as [value IH] using (induction_ltof1 _ length).
  assert (forall a b, is_utf8_continuation a = true -> contains 0 (a :: b) = contains 0 b) as Hcont.
  { intros a b Ha. unfold is_utf8_continuation in Ha. bool_hyps. unfold contains. cbn [existsb].
    destruct (Z.eqb_spec 0 a); [lia | done]. }
  destruct value as [|first rest]; [done |]. cbn [valid_loop is_strict_utf8].
  destruct (Z.leb_spec first 0x7F).
  { unfold contains. cbn [existsb]. rewrite (Z.eqb_sym 0 first). destruct (first =? 0); [by rewrite andb_false_r |].
    cbn [orb]. apply IH. unfold ltof. cbn. lia. }
  assert (contains 0 (first :: rest) = contains 0 rest) as ->.
  { unfold contains. cbn [existsb]. destruct (Z.eqb_spec 0 first); [lia | done]. }
  destruct ((0xC2 <=? first) && (first <=? 0xDF)).
  { destruct rest as [|second rest]; [done |]. change (is_continuation second) with (is_utf8_continuation second).
    destruct (is_utf8_continuation second) eqn:G; cbn [negb]; [| done]. rewrite Hcont by done. apply IH. unfold ltof. cbn. lia. }
  destruct ((0xE0 <=? first) && (first <=? 0xEF)) eqn:G3.
  { destruct rest as [|second [|third rest]]; [done | done |]. cbv zeta.
    assert (is_utf8_continuation second && (negb (first =? 0xE0) || (0xA0 <=? second)) &&
      (negb (first =? 0xED) || (second <=? 0x9F)) = second_of_three first second) as ->.
    { unfold second_of_three, is_continuation, is_utf8_continuation. bool_hyps. lia. }
    change (is_continuation third) with (is_utf8_continuation third).
    destruct (second_of_three first second) eqn:G, (is_utf8_continuation third) eqn:G'; cbn [negb orb]; try done.
    rewrite !Hcont; [| done | unfold second_of_three, is_continuation, is_utf8_continuation in *; bool_hyps; lia].
    apply IH. unfold ltof. cbn. lia. }
  destruct ((0xF0 <=? first) && (first <=? 0xF4)) eqn:G4; [| done].
  destruct rest as [|second [|third [|fourth rest]]]; [done | done | done |]. cbv zeta.
  assert (is_utf8_continuation second && (negb (first =? 0xF0) || (0x90 <=? second)) &&
    (negb (first =? 0xF4) || (second <=? 0x8F)) = second_of_four first second) as ->.
  { unfold second_of_four, is_continuation, is_utf8_continuation. bool_hyps. lia. }
  change (is_continuation third) with (is_utf8_continuation third). change (is_continuation fourth) with (is_utf8_continuation fourth).
  destruct (second_of_four first second) eqn:G, (is_utf8_continuation third) eqn:G', (is_utf8_continuation fourth) eqn:G'';
    cbn [negb orb]; try done.
  rewrite !Hcont; [| done | done | unfold second_of_four, is_continuation, is_utf8_continuation in *; bool_hyps; lia].
  apply IH. unfold ltof. cbn. lia.
Qed.

(** Following the segments of a path from a directory, as a file system does. *)
Fixpoint walk (location : list bytes) (path : list bytes) : list bytes :=
  match path with
  | [] => location
  | segment :: path =>
    if bool_decide (segment = []) || bool_decide (segment = [0x2E]) then walk location path
    else if bool_decide (segment = [0x2E; 0x2E]) then walk (take (length location - 1) location) path
    else walk (location ++ [segment]) path
  end.

Lemma walk_good location path : existsb bad_segment path = false -> walk location path = location ++ path.
Proof.
  revert location. induction path as [|segment path IH]; intros location H; [by rewrite app_nil_r |].
  cbn [existsb] in H. apply orb_false_iff in H as [Hb H]. unfold bad_segment in Hb.
  apply orb_false_iff in Hb as [Hb H3]. apply orb_false_iff in Hb as [H1 H2]. cbn [walk]. rewrite H1, H2, H3. cbn [orb].
  rewrite IH by done. by rewrite <- app_assoc.
Qed.

Lemma segments_from_join segment path :
  mjoin (list_fmap _ _ (cons slash) (segments_from segment path)) = slash :: segment ++ path.
Proof.
  revert segment. induction path as [|c path IH]; intros segment; [done |]. cbn [segments_from].
  destruct (Z.eqb_spec c slash) as [-> |].
  - cbn [list_fmap]. change (mjoin (?x :: ?y)) with (x ++ mjoin y). by rewrite IH.
  - rewrite IH. by rewrite <- app_assoc.
Qed.

Lemma safe_path_inv path :
  is_safe_relative_path path = true ->
  path <> [] /\ contains backslash path = false /\ drive_prefix path = false /\ existsb bad_segment (segments path) = false.
Proof.
  unfold is_safe_relative_path. destruct path as [|front path]; [done |]. destruct (last (front :: path)); [| done].
  destruct (_ || contains backslash (front :: path)) eqn:G; [done |]. apply orb_false_iff in G as [_ G].
  destruct (drive_prefix (front :: path)) eqn:G2; [done |]. intros H. bool_hyps. by split_and!.
Qed.

(** ** Correctness *)

(** C36. Names and paths stay where they belong.  The application's UTF-8 check accepts exactly the encodings of Unicode
    scalar values other than zero, within the length bound.  A relative path it accepts, followed from any directory, leads
    below that directory, through every one of the segments its separators cut it in, and to no other place. *)
Theorem accepted_path_stays_below (path : bytes) (maximum : Z) (location : list bytes) (Hb : is_bytes path)
    (Hutf8 : is_valid_utf8 (Some path) maximum = true) (Hsafe : is_safe_relative_path path = true) :
  (exists cs, Forall scalar cs /\ Forall (fun c => c <> 0) cs /\ path = encoded cs) /\ 0 < zlen path <= maximum /\
  walk location (segments path) = location ++ segments path /\ segments path <> [] /\
  mjoin (list_fmap _ _ (cons slash) (segments path)) = slash :: path.
Proof.
  unfold is_valid_utf8 in Hutf8. destruct ((zlen path =? 0) || (maximum <? zlen path)) eqn:G; [done |]. bool_hyps.
  rewrite valid_loop_strict in Hutf8. apply andb_true_iff in Hutf8 as [Hstrict Hzero].
  apply negb_true_iff in Hzero. pose proof (zlen_nonneg path).
  apply safe_path_inv in Hsafe as (Hne & _ & _ & Hsegments). split_and!; [| lia | lia | by apply walk_good | | apply segments_from_join].
  - apply strict_utf8_iff in Hstrict as (cs & Hcs & ->); [| done]. exists cs. split_and!; [done | | done].
    clear -Hzero. induction cs as [|c cs IH]; [constructor |]. change (encoded (c :: cs)) with (utf8 c ++ encoded cs) in Hzero.
    unfold contains in Hzero. rewrite existsb_app in Hzero. apply orb_false_iff in Hzero as [H1 H2]. constructor; [| by apply IH].
    intros ->. discriminate.
  - unfold segments. destruct path as [|c path]; [done |]. cbn [segments_from]. destruct (c =? slash); [done |].
    clear. generalize ([] ++ [c]). induction path as [|d path IH]; intros s; [done |]. cbn [segments_from]. by destruct (d =? slash).
Qed.

Lemma accepted_path_stays_below_witness :
  walk [ascii_bytes "library"] (segments (ascii_bytes "a/b.nes")) = [ascii_bytes "library"; ascii_bytes "a"; ascii_bytes "b.nes"].
Proof.
  apply (accepted_path_stays_below (ascii_bytes "a/b.nes") 4096 [ascii_bytes "library"]).
  - apply is_bytes_compute. reflexivity.
  - reflexivity.
  - reflexivity.
Defined.
