(* ===== verification/GbkRuns.v ===== *)
(** * The GBK table ([shared/src/app/gbk_table.h])

    The runs of every lead byte, in the order of the header, and the ranges of them that belong to each lead byte.  A run
    is the first and last trail index and the difference from the two-byte code to the code point. *)

From Stdlib Require Import Mergesort Orders.
From S2P Require Import Prelude Utf8 AppText.

Definition runs_81 : list GbkRun := [
  mkRun 0 0 (-13118); mkRun 1 3 (-13117); mkRun 4 4 (-13109); mkRun 5 5 (-13107); mkRun 6 6 (-13103); mkRun 7 9 (-13096);
  mkRun 10 10 (-13095); mkRun 11 11 (-13093); mkRun 12 12 (-13091); mkRun 13 14 (-13087); mkRun 15 15 (-13086);
  mkRun 16 16 (-13085); mkRun 17 17 (-13084); mkRun 18 18 (-13083); mkRun 19 19 (-13079); mkRun 20 22 (-13076);
  mkRun 23 23 (-13075); mkRun 24 24 (-13074); mkRun 25 25 (-13071); mkRun 26 26 (-13065); mkRun 27 27 (-13062);
  mkRun 28 28 (-13061); mkRun 29 30 (-13059); mkRun 31 34 (-13053); mkRun 35 36 (-13052); mkRun 37 42 (-13051);
  mkRun 43 43 (-13049); mkRun 44 53 (-13048); mkRun 54 60 (-13047); mkRun 61 61 (-13046); mkRun 62 62 (-13044);
  mkRun 63 63 (-13040); mkRun 64 65 (-13035); mkRun 66 66 (-13034); mkRun 67 69 (-13032); mkRun 70 70 (-13028);
  mkRun 71 71 (-13022); mkRun 72 74 (-13018); mkRun 75 75 (-13016); mkRun 76 79 (-13015); mkRun 80 82 (-13013);
  mkRun 83 83 (-13004); mkRun 84 84 (-13001); mkRun 85 86 (-12999); mkRun 87 87 (-12998); mkRun 88 90 (-12991);
  mkRun 91 91 (-12988); mkRun 92 92 (-12987); mkRun 93 94 (-12984); mkRun 95 95 (-12983); mkRun 96 98 (-12980);
  mkRun 99 99 (-12979); mkRun 100 100 (-12977); mkRun 101 103 (-12974); mkRun 104 104 (-12973); mkRun 105 105 (-12972);
  mkRun 106 106 (-12971); mkRun 107 113 (-12970); mkRun 114 115 (-12968); mkRun 116 120 (-12963); mkRun 121 122 (-12958);
  mkRun 123 123 (-12955); mkRun 124 124 (-12954); mkRun 125 126 (-12950); mkRun 127 129 (-12948); mkRun 130 130 (-12946);
  mkRun 131 131 (-12945); mkRun 132 132 (-12944); mkRun 133 133 (-12943); mkRun 134 134 (-12942); mkRun 135 135 (-12941);
  mkRun 136 140 (-12939); mkRun 141 142 (-12938); mkRun 143 148 (-12937); mkRun 149 149 (-12932); mkRun 150 150 (-12931);
  mkRun 151 151 (-12930); mkRun 152 153 (-12920); mkRun 154 154 (-12917); mkRun 155 155 (-12916); mkRun 156 157 (-12915);
  mkRun 158 159 (-12914); mkRun 160 161 (-12912); mkRun 162 162 (-12910); mkRun 163 166 (-12909); mkRun 167 167 (-12907);
  mkRun 168 170 (-12905); mkRun 171 173 (-12903); mkRun 174 174 (-12901); mkRun 175 175 (-12900); mkRun 176 176 (-12899);
  mkRun 177 177 (-12898); mkRun 178 179 (-12897); mkRun 180 181 (-12896); mkRun 182 184 (-12895); mkRun 185 185 (-12894);
  mkRun 186 187 (-12893); mkRun 188 189 (-12892)
].

Definition runs_82 : list GbkRun := [
  mkRun 0 0 (-12956); mkRun 1 1 (-12950); mkRun 2 2 (-12949); mkRun 3 7 (-12947); mkRun 8 16 (-12946); mkRun 17 19 (-12945);
  mkRun 20 23 (-12942); mkRun 24 26 (-12941); mkRun 27 31 (-12937); mkRun 32 32 (-12935); mkRun 33 33 (-12934);
  mkRun 34 34 (-12930); mkRun 35 35 (-12929); mkRun 36 37 (-12928); mkRun 38 38 (-12927); mkRun 39 40 (-12924);
  mkRun 41 41 (-12921); mkRun 42 42 (-12920); mkRun 43 46 (-12919); mkRun 47 47 (-12918); mkRun 48 50 (-12917);
  mkRun 51 62 (-12916); mkRun 63 63 (-12917); mkRun 64 64 (-12915); mkRun 65 66 (-12914); mkRun 67 67 (-12913);
  mkRun 68 70 (-12912); mkRun 71 71 (-12909); mkRun 72 73 (-12908); mkRun 74 74 (-12907); mkRun 75 77 (-12906);
  mkRun 78 78 (-12904); mkRun 79 79 (-12901); mkRun 80 90 (-12898); mkRun 91 91 (-12897); mkRun 92 92 (-12896);
  mkRun 93 96 (-12895); mkRun 97 99 (-12894); mkRun 100 102 (-12892); mkRun 103 103 (-12891); mkRun 104 108 (-12889);
  mkRun 109 112 (-12888); mkRun 113 113 (-12887); mkRun 114 121 (-12886); mkRun 122 127 (-12885); mkRun 128 136 (-12884);
  mkRun 137 139 (-12882); mkRun 140 141 (-12881); mkRun 142 145 (-12878); mkRun 146 147 (-12877); mkRun 148 151 (-12876);
  mkRun 152 172 (-12875); mkRun 173 173 (-12874); mkRun 174 174 (-12873); mkRun 175 176 (-12870); mkRun 177 181 (-12869);
  mkRun 182 188 (-12868); mkRun 189 189 (-12866)
].

Definition runs_83 : list GbkRun := [
  mkRun 0 17 (-12931); mkRun 18 23 (-12930); mkRun 24 26 (-12929); mkRun 27 37 (-12928); mkRun 38 41 (-12926);
  mkRun 42 45 (-12923); mkRun 46 46 (-12922); mkRun 47 51 (-12921); mkRun 52 61 (-12920); mkRun 62 62 (-12918);
  mkRun 63 64 (-12919); mkRun 65 70 (-12918); mkRun 71 84 (-12917); mkRun 85 113 (-12916); mkRun 114 114 (-12913);
  mkRun 115 115 (-12909); mkRun 116 116 (-12907); mkRun 117 117 (-12906); mkRun 118 120 (-12905); mkRun 121 122 (-12904);
  mkRun 123 125 (-12901); mkRun 126 126 (-12900); mkRun 127 131 (-12899); mkRun 132 133 (-12898); mkRun 134 135 (-12897);
  mkRun 136 137 (-12896); mkRun 138 138 (-12892); mkRun 139 139 (-12890); mkRun 140 140 (-12883); mkRun 141 142 (-12880);
  mkRun 143 144 (-12877); mkRun 145 146 (-12876); mkRun 147 148 (-12874); mkRun 149 152 (-12872); mkRun 153 154 (-12871);
  mkRun 155 155 (-12868); mkRun 156 156 (-12867); mkRun 157 159 (-12865); mkRun 160 160 (-12864); mkRun 161 161 (-12863);
  mkRun 162 166 (-12861); mkRun 167 168 (-12859); mkRun 169 169 (-12854); mkRun 170 172 (-12851); mkRun 173 174 (-12848);
  mkRun 175 177 (-12847); mkRun 178 178 (-12846); mkRun 179 179 (-12844); mkRun 180 180 (-12843); mkRun 181 182 (-12841);
  mkRun 183 183 (-12840); mkRun 184 189 (-12839)
].

Definition runs_84 : list GbkRun := [
  mkRun 0 2 (-12904); mkRun 3 3 (-12903); mkRun 4 5 (-12902); mkRun 6 7 (-12900); mkRun 8 13 (-12899); mkRun 14 14 (-12898);
  mkRun 15 15 (-12897); mkRun 16 17 (-12895); mkRun 18 18 (-12894); mkRun 19 19 (-12892); mkRun 20 20 (-12886);
  mkRun 21 22 (-12881); mkRun 23 23 (-12878); mkRun 24 25 (-12877); mkRun 26 27 (-12875); mkRun 28 30 (-12873);
  mkRun 31 31 (-12867); mkRun 32 33 (-12866); mkRun 34 36 (-12865); mkRun 37 39 (-12864); mkRun 40 40 (-12862);
  mkRun 41 41 (-12861); mkRun 42 42 (-12859); mkRun 43 44 (-12858); mkRun 45 46 (-12857); mkRun 47 47 (-12851);
  mkRun 48 48 (-12850); mkRun 49 54 (-12845); mkRun 55 55 (-12844); mkRun 56 57 (-12842); mkRun 58 59 (-12840);
  mkRun 60 60 (-12839); mkRun 61 62 (-12838); mkRun 63 65 (-12839); mkRun 66 66 (-12838); mkRun 67 68 (-12837);
  mkRun 69 71 (-12836); mkRun 72 72 (-12835); mkRun 73 73 (-12834); mkRun 74 77 (-12832); mkRun 78 79 (-12831);
  mkRun 80 89 (-12830); mkRun 90 90 (-12829); mkRun 91 91 (-12828); mkRun 92 96 (-12826); mkRun 97 103 (-12825);
  mkRun 104 105 (-12824); mkRun 106 112 (-12823); mkRun 113 113 (-12822); mkRun 114 117 (-12815); mkRun 118 120 (-12809);
  mkRun 121 130 (-12806); mkRun 131 133 (-12804); mkRun 134 136 (-12803); mkRun 137 137 (-12802); mkRun 138 138 (-12801);
  mkRun 139 142 (-12800); mkRun 143 143 (-12799); mkRun 144 146 (-12798); mkRun 147 147 (-12797); mkRun 148 153 (-12796);
  mkRun 154 157 (-12795); mkRun 158 168 (-12794); mkRun 169 176 (-12793); mkRun 177 179 (-12791); mkRun 180 183 (-12788);
  mkRun 184 184 (-12786); mkRun 185 188 (-12785); mkRun 189 189 (-12784)
].

Definition runs_85 : list GbkRun := [
  mkRun 0 3 (-12847); mkRun 4 4 (-12844); mkRun 5 6 (-12842); mkRun 7 8 (-12841); mkRun 9 9 (-12839); mkRun 10 11 (-12838);
  mkRun 12 14 (-12837); mkRun 15 17 (-12836); mkRun 18 27 (-12835); mkRun 28 29 (-12832); mkRun 30 30 (-12830);
  mkRun 31 31 (-12829); mkRun 32 32 (-12828); mkRun 33 33 (-12827); mkRun 34 36 (-12823); mkRun 37 37 (-12821);
  mkRun 38 38 (-12818); mkRun 39 40 (-12815); mkRun 41 41 (-12814); mkRun 42 42 (-12813); mkRun 43 43 (-12806);
  mkRun 44 44 (-12804); mkRun 45 45 (-12803); mkRun 46 47 (-12802); mkRun 48 48 (-12798); mkRun 49 49 (-12795);
  mkRun 50 50 (-12793); mkRun 51 54 (-12792); mkRun 55 56 (-12791); mkRun 57 57 (-12790); mkRun 58 59 (-12787);
  mkRun 60 60 (-12786); mkRun 61 62 (-12783); mkRun 63 67 (-12784); mkRun 68 69 (-12783); mkRun 70 70 (-12782);
  mkRun 71 72 (-12781); mkRun 73 73 (-12780); mkRun 74 75 (-12779); mkRun 76 76 (-12777); mkRun 77 77 (-12775);
  mkRun 78 81 (-12773); mkRun 82 88 (-12772); mkRun 89 92 (-12771); mkRun 93 95 (-12770); mkRun 96 96 (-12769);
  mkRun 97 101 (-12767); mkRun 102 104 (-12761); mkRun 105 106 (-12760); mkRun 107 107 (-12759); mkRun 108 108 (-12755);
  mkRun 109 111 (-12754); mkRun 112 113 (-12752); mkRun 114 114 (-12748); mkRun 115 115 (-12736); mkRun 116 116 (-12731);
  mkRun 117 119 (-12728); mkRun 120 120 (-12727); mkRun 121 121 (-12725); mkRun 122 122 (-12724); mkRun 123 123 (-12721);
  mkRun 124 124 (-12713); mkRun 125 127 (-12710); mkRun 128 128 (-12709); mkRun 129 129 (-12704); mkRun 130 131 (-12703);
  mkRun 132 132 (-12699); mkRun 133 133 (-12694); mkRun 134 134 (-12692); mkRun 135 136 (-12690); mkRun 137 137 (-12688);
  mkRun 138 138 (-12686); mkRun 139 139 (-12685); mkRun 140 141 (-12684); mkRun 142 143 (-12683); mkRun 144 144 (-12682);
  mkRun 145 145 (-12681); mkRun 146 149 (-12679); mkRun 150 150 (-12678); mkRun 151 151 (-12670); mkRun 152 156 (-12668);
  mkRun 157 157 (-12667); mkRun 158 158 (-12666); mkRun 159 159 (-12665); mkRun 160 167 (-12664); mkRun 168 168 (-12661);
  mkRun 169 170 (-12657); mkRun 171 172 (-12654); mkRun 173 173 (-12653); mkRun 174 174 (-12652); mkRun 175 175 (-12651);
  mkRun 176 179 (-12650); mkRun 180 180 (-12648); mkRun 181 181 (-12645); mkRun 182 182 (-12644); mkRun 183 184 (-12641);
  mkRun 185 185 (-12638); mkRun 186 189 (-12637)
].

Definition runs_86 : list GbkRun := [
  mkRun 0 0 (-12702); mkRun 1 1 (-12700); mkRun 2 2 (-12692); mkRun 3 3 (-12691); mkRun 4 4 (-12690); mkRun 5 7 (-12688);
  mkRun 8 9 (-12687); mkRun 10 10 (-12686); mkRun 11 11 (-12685); mkRun 12 12 (-12681); mkRun 13 13 (-12680);
  mkRun 14 15 (-12676); mkRun 16 16 (-12666); mkRun 17 17 (-12665); mkRun 18 18 (-12663); mkRun 19 23 (-12659);
  mkRun 24 25 (-12653); mkRun 26 28 (-12651); mkRun 29 34 (-12649); mkRun 35 35 (-12648); mkRun 36 36 (-12646);
  mkRun 37 37 (-12645); mkRun 38 41 (-12644); mkRun 42 42 (-12642); mkRun 43 47 (-12641); mkRun 48 49 (-12638);
  mkRun 50 55 (-12637); mkRun 56 59 (-12636); mkRun 60 60 (-12635); mkRun 61 64 (-12632); mkRun 65 65 (-12631);
  mkRun 66 66 (-12630); mkRun 67 67 (-12626); mkRun 68 70 (-12625); mkRun 71 74 (-12624); mkRun 75 75 (-12623);
  mkRun 76 76 (-12621); mkRun 77 77 (-12620); mkRun 78 78 (-12618); mkRun 79 80 (-12617); mkRun 81 85 (-12615);
  mkRun 86 89 (-12614); mkRun 90 94 (-12612); mkRun 95 98 (-12611); mkRun 99 100 (-12610); mkRun 101 102 (-12606);
  mkRun 103 103 (-12605); mkRun 104 109 (-12602); mkRun 110 111 (-12598); mkRun 112 112 (-12596); mkRun 113 113 (-12595);
  mkRun 114 115 (-12590); mkRun 116 118 (-12585); mkRun 119 119 (-12584); mkRun 120 121 (-12583); mkRun 122 124 (-12582);
  mkRun 125 126 (-12580); mkRun 127 127 (-12578); mkRun 128 134 (-12577); mkRun 135 143 (-12576); mkRun 144 144 (-12575);
  mkRun 145 145 (-12574); mkRun 146 146 (-12573); mkRun 147 147 (-12572); mkRun 148 148 (-12571); mkRun 149 149 (-12570);
  mkRun 150 154 (-12568); mkRun 155 157 (-12566); mkRun 158 159 (-12565); mkRun 160 162 (-12563); mkRun 163 163 (-12559);
  mkRun 164 168 (-12558); mkRun 169 169 (-12556); mkRun 170 170 (-12555); mkRun 171 171 (-12554); mkRun 172 172 (-12550);
  mkRun 173 173 (-12549); mkRun 174 175 (-12546); mkRun 176 177 (-12545); mkRun 178 178 (-12543); mkRun 179 179 (-12542);
  mkRun 180 184 (-12541); mkRun 185 185 (-12539); mkRun 186 189 (-12537)
].

Definition runs_87 : list GbkRun := [
  mkRun 0 1 (-12602); mkRun 2 3 (-12600); mkRun 4 4 (-12599); mkRun 5 12 (-12597); mkRun 13 14 (-12596); mkRun 15 16 (-12595);
  mkRun 17 19 (-12593); mkRun 20 21 (-12591); mkRun 22 25 (-12590); mkRun 26 28 (-12588); mkRun 29 29 (-12586);
  mkRun 30 30 (-12585); mkRun 31 32 (-12584); mkRun 33 33 (-12583); mkRun 34 36 (-12582); mkRun 37 48 (-12581);
  mkRun 49 53 (-12578); mkRun 54 55 (-12577); mkRun 56 57 (-12574); mkRun 58 63 (-12573); mkRun 64 66 (-12572);
  mkRun 67 70 (-12567); mkRun 71 74 (-12566); mkRun 75 78 (-12565); mkRun 79 86 (-12563); mkRun 87 93 (-12561);
  mkRun 94 96 (-12559); mkRun 97 111 (-12558); mkRun 112 122 (-12557); mkRun 123 129 (-12556); mkRun 130 133 (-12555);
  mkRun 134 146 (-12554); mkRun 147 155 (-12553); mkRun 156 157 (-12552); mkRun 158 159 (-12551); mkRun 160 160 (-12549);
  mkRun 161 161 (-12543); mkRun 162 167 (-12542); mkRun 168 168 (-12541); mkRun 169 170 (-12540); mkRun 171 172 (-12538);
  mkRun 173 175 (-12536); mkRun 176 177 (-12534); mkRun 178 180 (-12531); mkRun 181 181 (-12529); mkRun 182 182 (-12528);
  mkRun 183 189 (-12525)
].

Definition runs_88 : list GbkRun := [
  mkRun 0 9 (-12590); mkRun 10 11 (-12589); mkRun 12 14 (-12588); mkRun 15 18 (-12587); mkRun 19 19 (-12584);
  mkRun 20 21 (-12579); mkRun 22 26 (-12578); mkRun 27 28 (-12575); mkRun 29 29 (-12574); mkRun 30 30 (-12573);
  mkRun 31 34 (-12572); mkRun 35 36 (-12571); mkRun 37 37 (-12570); mkRun 38 42 (-12564); mkRun 43 44 (-12563);
  mkRun 45 46 (-12555); mkRun 47 47 (-12554); mkRun 48 48 (-12553); mkRun 49 49 (-12549); mkRun 50 50 (-12548);
  mkRun 51 53 (-12547); mkRun 54 55 (-12546); mkRun 56 58 (-12544); mkRun 59 62 (-12542); mkRun 63 63 (-12543);
  mkRun 64 67 (-12538); mkRun 68 72 (-12536); mkRun 73 79 (-12534); mkRun 80 83 (-12533); mkRun 84 84 (-12528);
  mkRun 85 85 (-12526); mkRun 86 86 (-12525); mkRun 87 87 (-12524); mkRun 88 90 (-12522); mkRun 91 91 (-12521);
  mkRun 92 94 (-12520); mkRun 95 103 (-12519); mkRun 104 110 (-12517); mkRun 111 112 (-12516); mkRun 113 114 (-12514);
  mkRun 115 115 (-12513); mkRun 116 117 (-12511); mkRun 118 119 (-12508); mkRun 120 120 (-12507); mkRun 121 123 (-12505);
  mkRun 124 131 (-12504); mkRun 132 132 (-12503); mkRun 133 136 (-12502); mkRun 137 139 (-12501); mkRun 140 141 (-12498);
  mkRun 142 143 (-12497); mkRun 144 144 (-12496); mkRun 145 147 (-12495); mkRun 148 150 (-12493); mkRun 151 151 (-12492);
  mkRun 152 154 (-12491); mkRun 155 157 (-12490); mkRun 158 160 (-12489); mkRun 161 164 (-12488); mkRun 165 165 (-12487);
  mkRun 166 167 (-12485); mkRun 168 172 (-12484); mkRun 173 177 (-12483); mkRun 178 181 (-12482); mkRun 182 189 (-12481)
].

Definition runs_89 : list GbkRun := [
  mkRun 0 5 (-12546); mkRun 6 12 (-12545); mkRun 13 15 (-12543); mkRun 16 17 (-12542); mkRun 18 20 (-12541);
  mkRun 21 25 (-12540); mkRun 26 31 (-12539); mkRun 32 36 (-12538); mkRun 37 53 (-12536); mkRun 54 54 (-12535);
  mkRun 55 55 (-12533); mkRun 56 56 (-12532); mkRun 57 59 (-12531); mkRun 60 62 (-12530); mkRun 63 67 (-12531);
  mkRun 68 72 (-12529); mkRun 73 75 (-12527); mkRun 76 83 (-12525); mkRun 84 101 (-12523); mkRun 102 105 (-12522);
  mkRun 106 108 (-12521); mkRun 109 119 (-12520); mkRun 120 122 (-12519); mkRun 123 136 (-12518); mkRun 137 142 (-12517);
  mkRun 143 143 (-12515); mkRun 144 144 (-12514); mkRun 145 146 (-12513); mkRun 147 148 (-12512); mkRun 149 150 (-12511);
  mkRun 151 158 (-12510); mkRun 159 159 (-12509); mkRun 160 161 (-12508); mkRun 162 166 (-12507); mkRun 167 167 (-12506);
  mkRun 168 171 (-12505); mkRun 172 173 (-12502); mkRun 174 174 (-12500); mkRun 175 176 (-12499); mkRun 177 180 (-12498);
  mkRun 181 181 (-12496); mkRun 182 182 (-12495); mkRun 183 183 (-12492); mkRun 184 184 (-12489); mkRun 185 186 (-12488);
  mkRun 187 188 (-12487); mkRun 189 189 (-12483)
].

Definition runs_8A : list GbkRun := [
  mkRun 0 3 (-12547); mkRun 4 4 (-12545); mkRun 5 6 (-12544); mkRun 7 7 (-12541); mkRun 8 9 (-12540); mkRun 10 10 (-12538);
  mkRun 11 12 (-12537); mkRun 13 13 (-12532); mkRun 14 18 (-12531); mkRun 19 19 (-12530); mkRun 20 21 (-12529);
  mkRun 22 34 (-12528); mkRun 35 35 (-12526); mkRun 36 36 (-12525); mkRun 37 39 (-12523); mkRun 40 42 (-12522);
  mkRun 43 43 (-12518); mkRun 44 44 (-12515); mkRun 45 46 (-12514); mkRun 47 50 (-12513); mkRun 51 52 (-12511);
  mkRun 53 53 (-12509); mkRun 54 57 (-12508); mkRun 58 61 (-12507); mkRun 62 62 (-12504); mkRun 63 63 (-12505);
  mkRun 64 65 (-12501); mkRun 66 67 (-12499); mkRun 68 73 (-12498); mkRun 74 74 (-12497); mkRun 75 76 (-12496);
  mkRun 77 83 (-12495); mkRun 84 86 (-12494); mkRun 87 90 (-12492); mkRun 91 92 (-12487); mkRun 93 93 (-12485);
  mkRun 94 94 (-12484); mkRun 95 99 (-12482); mkRun 100 100 (-12481); mkRun 101 102 (-12480); mkRun 103 105 (-12479);
  mkRun 106 117 (-12478); mkRun 118 118 (-12477); mkRun 119 121 (-12476); mkRun 122 122 (-12475); mkRun 123 123 (-12474);
  mkRun 124 125 (-12467); mkRun 126 129 (-12466); mkRun 130 130 (-12465); mkRun 131 134 (-12464); mkRun 135 137 (-12463);
  mkRun 138 139 (-12462); mkRun 140 141 (-12460); mkRun 142 142 (-12459); mkRun 143 145 (-12458); mkRun 146 152 (-12457);
  mkRun 153 153 (-12455); mkRun 154 154 (-12454); mkRun 155 159 (-12453); mkRun 160 162 (-12452); mkRun 163 167 (-12451);
  mkRun 168 169 (-12450); mkRun 170 179 (-12448); mkRun 180 183 (-12447); mkRun 184 189 (-12446)
].

Definition runs_8B : list GbkRun := [
  mkRun 0 0 (-12511); mkRun 1 4 (-12510); mkRun 5 6 (-12509); mkRun 7 15 (-12508); mkRun 16 17 (-12504); mkRun 18 21 (-12503);
  mkRun 22 39 (-12502); mkRun 40 46 (-12501); mkRun 47 60 (-12499); mkRun 61 62 (-12498); mkRun 63 67 (-12499);
  mkRun 68 68 (-12497); mkRun 69 70 (-12496); mkRun 71 75 (-12495); mkRun 76 77 (-12494); mkRun 78 83 (-12492);
  mkRun 84 85 (-12491); mkRun 86 90 (-12490); mkRun 91 91 (-12489); mkRun 92 92 (-12488); mkRun 93 93 (-12487);
  mkRun 94 96 (-12486); mkRun 97 99 (-12485); mkRun 100 100 (-12483); mkRun 101 102 (-12482); mkRun 103 104 (-12481);
  mkRun 105 105 (-12480); mkRun 106 110 (-12479); mkRun 111 133 (-12478); mkRun 134 145 (-12477); mkRun 146 171 (-12475);
  mkRun 172 172 (-12474); mkRun 173 174 (-12473); mkRun 175 182 (-12472); mkRun 183 189 (-12471)
].

Definition runs_8C : list GbkRun := [
  mkRun 0 7 (-12536); mkRun 8 8 (-12534); mkRun 9 9 (-12531); mkRun 10 10 (-12524); mkRun 11 12 (-12523); mkRun 13 14 (-12518);
  mkRun 15 15 (-12516); mkRun 16 18 (-12515); mkRun 19 19 (-12513); mkRun 20 20 (-12512); mkRun 21 24 (-12511);
  mkRun 25 26 (-12510); mkRun 27 28 (-12509); mkRun 29 29 (-12507); mkRun 30 30 (-12504); mkRun 31 31 (-12501);
  mkRun 32 33 (-12499); mkRun 34 36 (-12498); mkRun 37 37 (-12497); mkRun 38 38 (-12496); mkRun 39 39 (-12488);
  mkRun 40 42 (-12481); mkRun 43 46 (-12479); mkRun 47 48 (-12478); mkRun 49 49 (-12474); mkRun 50 52 (-12472);
  mkRun 53 54 (-12469); mkRun 55 55 (-12468); mkRun 56 59 (-12464); mkRun 60 63 (-12463); mkRun 64 72 (-12461);
  mkRun 73 73 (-12458); mkRun 74 75 (-12457); mkRun 76 77 (-12455); mkRun 78 82 (-12454); mkRun 83 83 (-12453);
  mkRun 84 90 (-12452); mkRun 91 92 (-12447); mkRun 93 93 (-12446); mkRun 94 95 (-12445); mkRun 96 96 (-12444);
  mkRun 97 98 (-12443); mkRun 99 102 (-12441); mkRun 103 103 (-12440); mkRun 104 105 (-12439); mkRun 106 106 (-12436);
  mkRun 107 107 (-12435); mkRun 108 108 (-12434); mkRun 109 112 (-12432); mkRun 113 113 (-12431); mkRun 114 114 (-12429);
  mkRun 115 118 (-12428); mkRun 119 122 (-12427); mkRun 123 124 (-12426); mkRun 125 127 (-12425); mkRun 128 129 (-12414);
  mkRun 130 131 (-12413); mkRun 132 133 (-12409); mkRun 134 136 (-12405); mkRun 137 139 (-12404); mkRun 140 143 (-12403);
  mkRun 144 144 (-12402); mkRun 145 145 (-12400); mkRun 146 146 (-12399); mkRun 147 153 (-12397); mkRun 154 154 (-12395);
  mkRun 155 161 (-12394); mkRun 162 165 (-12392); mkRun 166 166 (-12391); mkRun 167 171 (-12389); mkRun 172 174 (-12388);
  mkRun 175 176 (-12386); mkRun 177 178 (-12384); mkRun 179 179 (-12383); mkRun 180 184 (-12376); mkRun 185 189 (-12374)
].

Definition runs_8D : list GbkRun := [
  mkRun 0 0 (-12438); mkRun 1 3 (-12435); mkRun 4 4 (-12434); mkRun 5 5 (-12433); mkRun 6 6 (-12432); mkRun 7 10 (-12430);
  mkRun 11 11 (-12429); mkRun 12 12 (-12428); mkRun 13 14 (-12427); mkRun 15 20 (-12426); mkRun 21 26 (-12425);
  mkRun 27 32 (-12424); mkRun 33 39 (-12423); mkRun 40 41 (-12422); mkRun 42 42 (-12419); mkRun 43 43 (-12418);
  mkRun 44 45 (-12417); mkRun 46 47 (-12416); mkRun 48 57 (-12415); mkRun 58 62 (-12414); mkRun 63 63 (-12415);
  mkRun 64 65 (-12413); mkRun 66 71 (-12411); mkRun 72 76 (-12410); mkRun 77 77 (-12409); mkRun 78 81 (-12408);
  mkRun 82 83 (-12407); mkRun 84 88 (-12406); mkRun 89 89 (-12405); mkRun 90 90 (-12403); mkRun 91 93 (-12402);
  mkRun 94 98 (-12400); mkRun 99 106 (-12399); mkRun 107 114 (-12397); mkRun 115 116 (-12396); mkRun 117 127 (-12393);
  mkRun 128 129 (-12392); mkRun 130 130 (-12391); mkRun 131 141 (-12390); mkRun 142 142 (-12389); mkRun 143 144 (-12387);
  mkRun 145 148 (-12386); mkRun 149 161 (-12385); mkRun 162 183 (-12384); mkRun 184 186 (-12383); mkRun 187 189 (-12382)
].

Definition runs_8E : list GbkRun := [
  mkRun 0 21 (-12447); mkRun 22 34 (-12446); mkRun 35 41 (-12445); mkRun 42 54 (-12444); mkRun 55 55 (-12443);
  mkRun 56 57 (-12441); mkRun 58 59 (-12439); mkRun 60 60 (-12434); mkRun 61 62 (-12433); mkRun 63 63 (-12432);
  mkRun 64 65 (-12428); mkRun 66 70 (-12427); mkRun 71 72 (-12425); mkRun 73 73 (-12422); mkRun 74 74 (-12420);
  mkRun 75 77 (-12419); mkRun 78 79 (-12418); mkRun 80 81 (-12415); mkRun 82 82 (-12412); mkRun 83 90 (-12406);
  mkRun 91 95 (-12404); mkRun 96 97 (-12402); mkRun 98 102 (-12401); mkRun 103 104 (-12399); mkRun 105 108 (-12396);
  mkRun 109 109 (-12395); mkRun 110 115 (-12393); mkRun 116 122 (-12392); mkRun 123 127 (-12390); mkRun 128 129 (-12389);
  mkRun 130 131 (-12388); mkRun 132 146 (-12386); mkRun 147 147 (-12383); mkRun 148 148 (-12382); mkRun 149 149 (-12381);
  mkRun 150 150 (-12377); mkRun 151 153 (-12375); mkRun 154 154 (-12374); mkRun 155 156 (-12372); mkRun 157 159 (-12370);
  mkRun 160 160 (-12367); mkRun 161 161 (-12362); mkRun 162 162 (-12360); mkRun 163 163 (-12359); mkRun 164 167 (-12356);
  mkRun 168 172 (-12353); mkRun 173 177 (-12352); mkRun 178 178 (-12351); mkRun 179 182 (-12346); mkRun 183 189 (-12345)
].

Definition runs_8F : list GbkRun := [
  mkRun 0 2 (-12410); mkRun 3 8 (-12408); mkRun 9 10 (-12405); mkRun 11 14 (-12404); mkRun 15 26 (-12403);
  mkRun 27 27 (-12402); mkRun 28 36 (-12401); mkRun 37 37 (-12400); mkRun 38 39 (-12398); mkRun 40 42 (-12397);
  mkRun 43 45 (-12390); mkRun 46 46 (-12389); mkRun 47 49 (-12387); mkRun 50 50 (-12386); mkRun 51 51 (-12385);
  mkRun 52 52 (-12384); mkRun 53 53 (-12383); mkRun 54 55 (-12381); mkRun 56 58 (-12380); mkRun 59 62 (-12378);
  mkRun 63 63 (-12376); mkRun 64 65 (-12374); mkRun 66 66 (-12373); mkRun 67 67 (-12372); mkRun 68 74 (-12371);
  mkRun 75 75 (-12369); mkRun 76 78 (-12368); mkRun 79 93 (-12367); mkRun 94 94 (-12366); mkRun 95 95 (-12364);
  mkRun 96 99 (-12360); mkRun 100 102 (-12359); mkRun 103 103 (-12357); mkRun 104 104 (-12356); mkRun 105 106 (-12355);
  mkRun 107 107 (-12353); mkRun 108 109 (-12351); mkRun 110 110 (-12349); mkRun 111 113 (-12348); mkRun 114 114 (-12347);
  mkRun 115 115 (-12346); mkRun 116 118 (-12344); mkRun 119 119 (-12341); mkRun 120 120 (-12339); mkRun 121 123 (-12333);
  mkRun 124 124 (-12332); mkRun 125 126 (-12331); mkRun 127 127 (-12330); mkRun 128 129 (-12327); mkRun 130 133 (-12326);
  mkRun 134 139 (-12325); mkRun 140 140 (-12324); mkRun 141 142 (-12323); mkRun 143 148 (-12321); mkRun 149 149 (-12320);
  mkRun 150 153 (-12319); mkRun 154 158 (-12317); mkRun 159 160 (-12313); mkRun 161 162 (-12312); mkRun 163 163 (-12310);
  mkRun 164 166 (-12306); mkRun 167 169 (-12302); mkRun 170 171 (-12301); mkRun 172 173 (-12299); mkRun 174 175 (-12298);
  mkRun 176 177 (-12297); mkRun 178 178 (-12295); mkRun 179 180 (-12293); mkRun 181 183 (-12292); mkRun 184 185 (-12291);
  mkRun 186 187 (-12290); mkRun 188 188 (-12289); mkRun 189 189 (-12279)
].

Definition runs_90 : list GbkRun := [
  mkRun 0 1 (-12344); mkRun 2 3 (-12343); mkRun 4 5 (-12340); mkRun 6 6 (-12339); mkRun 7 8 (-12336); mkRun 9 9 (-12335);
  mkRun 10 11 (-12332); mkRun 12 14 (-12330); mkRun 15 17 (-12323); mkRun 18 22 (-12322); mkRun 23 27 (-12321);
  mkRun 28 29 (-12319); mkRun 30 30 (-12318); mkRun 31 37 (-12315); mkRun 38 38 (-12314); mkRun 39 40 (-12313);
  mkRun 41 41 (-12312); mkRun 42 43 (-12311); mkRun 44 46 (-12310); mkRun 47 48 (-12308); mkRun 49 52 (-12307);
  mkRun 53 54 (-12304); mkRun 55 55 (-12297); mkRun 56 57 (-12295); mkRun 58 59 (-12294); mkRun 60 60 (-12293);
  mkRun 61 61 (-12287); mkRun 62 62 (-12286); mkRun 63 64 (-12287); mkRun 65 68 (-12285); mkRun 69 70 (-12284);
  mkRun 71 74 (-12282); mkRun 75 75 (-12281); mkRun 76 76 (-12280); mkRun 77 79 (-12279); mkRun 80 80 (-12277);
  mkRun 81 81 (-12276); mkRun 82 83 (-12274); mkRun 84 85 (-12273); mkRun 86 86 (-12272); mkRun 87 88 (-12271);
  mkRun 89 89 (-12268); mkRun 90 90 (-12267); mkRun 91 91 (-12265); mkRun 92 94 (-12264); mkRun 95 96 (-12263);
  mkRun 97 104 (-12261); mkRun 105 107 (-12259); mkRun 108 112 (-12257); mkRun 113 115 (-12256); mkRun 116 117 (-12255);
  mkRun 118 118 (-12254); mkRun 119 119 (-12253); mkRun 120 120 (-12251); mkRun 121 125 (-12249); mkRun 126 126 (-12245);
  mkRun 127 128 (-12239); mkRun 129 129 (-12237); mkRun 130 131 (-12236); mkRun 132 136 (-12234); mkRun 137 140 (-12232);
  mkRun 141 141 (-12231); mkRun 142 144 (-12229); mkRun 145 149 (-12226); mkRun 150 153 (-12225); mkRun 154 157 (-12224);
  mkRun 158 159 (-12222); mkRun 160 160 (-12220); mkRun 161 163 (-12218); mkRun 164 182 (-12217); mkRun 183 189 (-12216)
].

Definition runs_91 : list GbkRun := [
  mkRun 0 0 (-12281); mkRun 1 1 (-12280); mkRun 2 2 (-12279); mkRun 3 3 (-12278); mkRun 4 5 (-12277); mkRun 6 8 (-12276);
  mkRun 9 15 (-12275); mkRun 16 19 (-12274); mkRun 20 23 (-12273); mkRun 24 30 (-12271); mkRun 31 34 (-12270);
  mkRun 35 35 (-12269); mkRun 36 54 (-12268); mkRun 55 56 (-12267); mkRun 57 61 (-12266); mkRun 62 62 (-12265);
  mkRun 63 69 (-12266); mkRun 70 78 (-12265); mkRun 79 80 (-12262); mkRun 81 90 (-12261); mkRun 91 96 (-12260);
  mkRun 97 99 (-12259); mkRun 100 104 (-12258); mkRun 105 105 (-12257); mkRun 106 110 (-12255); mkRun 111 111 (-12253);
  mkRun 112 128 (-12252); mkRun 129 142 (-12251); mkRun 143 151 (-12250); mkRun 152 157 (-12249); mkRun 158 158 (-12248);
  mkRun 159 159 (-12247); mkRun 160 161 (-12238); mkRun 162 162 (-12234); mkRun 163 165 (-12232); mkRun 166 166 (-12231);
  mkRun 167 167 (-12229); mkRun 168 171 (-12227); mkRun 172 172 (-12226); mkRun 173 173 (-12225); mkRun 174 177 (-12224);
  mkRun 178 179 (-12222); mkRun 180 184 (-12221); mkRun 185 185 (-12216); mkRun 186 188 (-12215); mkRun 189 189 (-12212)
].

Definition runs_92 : list GbkRun := [
  mkRun 0 1 (-12273); mkRun 2 4 (-12269); mkRun 5 6 (-12268); mkRun 7 13 (-12267); mkRun 14 15 (-12266); mkRun 16 16 (-12264);
  mkRun 17 18 (-12256); mkRun 19 20 (-12255); mkRun 21 22 (-12254); mkRun 23 24 (-12253); mkRun 25 25 (-12252);
  mkRun 26 28 (-12249); mkRun 29 32 (-12248); mkRun 33 38 (-12246); mkRun 39 39 (-12243); mkRun 40 40 (-12239);
  mkRun 41 43 (-12237); mkRun 44 44 (-12233); mkRun 45 46 (-12231); mkRun 47 48 (-12230); mkRun 49 52 (-12228);
  mkRun 53 55 (-12227); mkRun 56 58 (-12226); mkRun 59 59 (-12225); mkRun 60 60 (-12222); mkRun 61 63 (-12221);
  mkRun 64 64 (-12214); mkRun 65 65 (-12211); mkRun 66 66 (-12210); mkRun 67 67 (-12207); mkRun 68 69 (-12200);
  mkRun 70 71 (-12199); mkRun 72 72 (-12197); mkRun 73 74 (-12192); mkRun 75 75 (-12188); mkRun 76 76 (-12187);
  mkRun 77 77 (-12185); mkRun 78 81 (-12183); mkRun 82 82 (-12179); mkRun 83 86 (-12177); mkRun 87 90 (-12174);
  mkRun 91 92 (-12173); mkRun 93 96 (-12172); mkRun 97 99 (-12171); mkRun 100 100 (-12169); mkRun 101 102 (-12160);
  mkRun 103 103 (-12159); mkRun 104 106 (-12157); mkRun 107 108 (-12156); mkRun 109 114 (-12155); mkRun 115 116 (-12153);
  mkRun 117 120 (-12152); mkRun 121 121 (-12150); mkRun 122 123 (-12148); mkRun 124 124 (-12147); mkRun 125 128 (-12141);
  mkRun 129 136 (-12140); mkRun 137 137 (-12138); mkRun 138 140 (-12135); mkRun 141 141 (-12134); mkRun 142 144 (-12133);
  mkRun 145 146 (-12131); mkRun 147 150 (-12130); mkRun 151 152 (-12128); mkRun 153 156 (-12126); mkRun 157 157 (-12125);
  mkRun 158 161 (-12124); mkRun 162 162 (-12120); mkRun 163 163 (-12119); mkRun 164 164 (-12116); mkRun 165 167 (-12115);
  mkRun 168 168 (-12114); mkRun 169 175 (-12113); mkRun 176 176 (-12112); mkRun 177 177 (-12110); mkRun 178 178 (-12109);
  mkRun 179 179 (-12105); mkRun 180 180 (-12102); mkRun 181 182 (-12101); mkRun 183 184 (-12099); mkRun 185 185 (-12097);
  mkRun 186 186 (-12096); mkRun 187 187 (-12095); mkRun 188 189 (-12094)
].

Definition runs_93 : list GbkRun := [
  mkRun 0 2 (-12159); mkRun 3 3 (-12158); mkRun 4 5 (-12157); mkRun 6 8 (-12156); mkRun 9 9 (-12152); mkRun 10 12 (-12151);
  mkRun 13 19 (-12150); mkRun 20 20 (-12149); mkRun 21 21 (-12147); mkRun 22 26 (-12146); mkRun 27 28 (-12144);
  mkRun 29 32 (-12143); mkRun 33 33 (-12142); mkRun 34 34 (-12141); mkRun 35 35 (-12140); mkRun 36 39 (-12139);
  mkRun 40 40 (-12138); mkRun 41 42 (-12134); mkRun 43 47 (-12133); mkRun 48 49 (-12131); mkRun 50 51 (-12129);
  mkRun 52 57 (-12127); mkRun 58 58 (-12125); mkRun 59 59 (-12124); mkRun 60 62 (-12122); mkRun 63 63 (-12123);
  mkRun 64 66 (-12122); mkRun 67 67 (-12121); mkRun 68 73 (-12119); mkRun 74 78 (-12118); mkRun 79 80 (-12117);
  mkRun 81 81 (-12116); mkRun 82 82 (-12115); mkRun 83 84 (-12114); mkRun 85 85 (-12109); mkRun 86 92 (-12108);
  mkRun 93 93 (-12107); mkRun 94 96 (-12106); mkRun 97 101 (-12105); mkRun 102 109 (-12104); mkRun 110 110 (-12103);
  mkRun 111 113 (-12102); mkRun 114 123 (-12101); mkRun 124 130 (-12098); mkRun 131 131 (-12097); mkRun 132 132 (-12095);
  mkRun 133 141 (-12094); mkRun 142 143 (-12092); mkRun 144 145 (-12090); mkRun 146 149 (-12089); mkRun 150 154 (-12088);
  mkRun 155 158 (-12087); mkRun 159 160 (-12086); mkRun 161 161 (-12083); mkRun 162 165 (-12082); mkRun 166 166 (-12081);
  mkRun 167 167 (-12079); mkRun 168 168 (-12078); mkRun 169 171 (-12077); mkRun 172 172 (-12076); mkRun 173 174 (-12075);
  mkRun 175 181 (-12074); mkRun 182 182 (-12072); mkRun 183 183 (-12071); mkRun 184 187 (-12070); mkRun 188 189 (-12068)
].

Definition runs_94 : list GbkRun := [
  mkRun 0 2 (-12133); mkRun 3 5 (-12132); mkRun 6 6 (-12131); mkRun 7 7 (-12130); mkRun 8 32 (-12129); mkRun 33 40 (-12128);
  mkRun 41 48 (-12127); mkRun 49 53 (-12126); mkRun 54 62 (-12125); mkRun 63 65 (-12126); mkRun 66 70 (-12125);
  mkRun 71 72 (-12124); mkRun 73 76 (-12122); mkRun 77 77 (-12119); mkRun 78 78 (-12117); mkRun 79 80 (-12116);
  mkRun 81 85 (-12114); mkRun 86 87 (-12113); mkRun 88 89 (-12111); mkRun 90 91 (-12110); mkRun 92 92 (-12109);
  mkRun 93 95 (-12108); mkRun 96 97 (-12106); mkRun 98 98 (-12105); mkRun 99 99 (-12104); mkRun 100 102 (-12102);
  mkRun 103 104 (-12100); mkRun 105 108 (-12099); mkRun 109 111 (-12097); mkRun 112 112 (-12096); mkRun 113 113 (-12095);
  mkRun 114 115 (-12094); mkRun 116 130 (-12093); mkRun 131 133 (-12092); mkRun 134 136 (-12090); mkRun 137 137 (-12088);
  mkRun 138 140 (-12087); mkRun 141 141 (-12086); mkRun 142 142 (-12085); mkRun 143 144 (-12083); mkRun 145 145 (-12082);
  mkRun 146 147 (-12081); mkRun 148 148 (-12079); mkRun 149 149 (-12078); mkRun 150 150 (-12077); mkRun 151 151 (-12076);
  mkRun 152 152 (-12075); mkRun 153 160 (-12073); mkRun 161 162 (-12072); mkRun 163 165 (-12070); mkRun 166 166 (-12069);
  mkRun 167 170 (-12065); mkRun 171 171 (-12063); mkRun 172 173 (-12061); mkRun 174 176 (-12060); mkRun 177 184 (-12058);
  mkRun 185 185 (-12057); mkRun 186 187 (-12056); mkRun 188 189 (-12051)
].

Definition runs_95 : list GbkRun := [
  mkRun 0 3 (-12110); mkRun 4 5 (-12108); mkRun 6 10 (-12107); mkRun 11 11 (-12106); mkRun 12 13 (-12104);
  mkRun 14 16 (-12103); mkRun 17 17 (-12102); mkRun 18 18 (-12101); mkRun 19 21 (-12099); mkRun 22 24 (-12096);
  mkRun 25 27 (-12095); mkRun 28 28 (-12094); mkRun 29 32 (-12092); mkRun 33 33 (-12091); mkRun 34 37 (-12089);
  mkRun 38 38 (-12088); mkRun 39 39 (-12087); mkRun 40 41 (-12086); mkRun 42 46 (-12083); mkRun 47 47 (-12082);
  mkRun 48 49 (-12081); mkRun 50 50 (-12080); mkRun 51 57 (-12079); mkRun 58 59 (-12077); mkRun 60 61 (-12076);
  mkRun 62 62 (-12070); mkRun 63 63 (-12071); mkRun 64 67 (-12070); mkRun 68 68 (-12069); mkRun 69 70 (-12068);
  mkRun 71 71 (-12067); mkRun 72 72 (-12066); mkRun 73 77 (-12065); mkRun 78 80 (-12062); mkRun 81 81 (-12061);
  mkRun 82 83 (-12059); mkRun 84 86 (-12058); mkRun 87 89 (-12057); mkRun 90 90 (-12056); mkRun 91 92 (-12055);
  mkRun 93 96 (-12054); mkRun 97 100 (-12053); mkRun 101 104 (-12052); mkRun 105 109 (-12050); mkRun 110 118 (-12049);
  mkRun 119 123 (-12047); mkRun 124 128 (-12046); mkRun 129 132 (-12045); mkRun 133 136 (-12044); mkRun 137 162 (-12043);
  mkRun 163 163 (-12042); mkRun 164 171 (-12039); mkRun 172 173 (-12038); mkRun 174 179 (-12037); mkRun 180 180 (-12036);
  mkRun 181 182 (-12033); mkRun 183 183 (-12032); mkRun 184 185 (-12031); mkRun 186 186 (-12030); mkRun 187 189 (-12027)
].

Definition runs_96 : list GbkRun := [
  mkRun 0 3 (-12092); mkRun 4 4 (-12088); mkRun 5 6 (-12087); mkRun 7 9 (-12086); mkRun 10 10 (-12084); mkRun 11 13 (-12083);
  mkRun 14 14 (-12082); mkRun 15 15 (-12081); mkRun 16 21 (-12080); mkRun 22 22 (-12079); mkRun 23 23 (-12078);
  mkRun 24 24 (-12074); mkRun 25 25 (-12073); mkRun 26 27 (-12072); mkRun 28 31 (-12070); mkRun 32 33 (-12069);
  mkRun 34 35 (-12068); mkRun 36 36 (-12067); mkRun 37 38 (-12065); mkRun 39 39 (-12064); mkRun 40 41 (-12062);
  mkRun 42 42 (-12061); mkRun 43 43 (-12057); mkRun 44 45 (-12056); mkRun 46 50 (-12055); mkRun 51 51 (-12054);
  mkRun 52 54 (-12050); mkRun 55 56 (-12049); mkRun 57 58 (-12046); mkRun 59 59 (-12045); mkRun 60 60 (-12043);
  mkRun 61 61 (-12041); mkRun 62 66 (-12040); mkRun 67 67 (-12039); mkRun 68 68 (-12037); mkRun 69 70 (-12036);
  mkRun 71 72 (-12035); mkRun 73 73 (-12034); mkRun 74 74 (-12033); mkRun 75 78 (-12032); mkRun 79 82 (-12031);
  mkRun 83 83 (-12030); mkRun 84 84 (-12028); mkRun 85 85 (-12027); mkRun 86 88 (-12024); mkRun 89 89 (-12022);
  mkRun 90 90 (-12021); mkRun 91 91 (-12019); mkRun 92 92 (-12017); mkRun 93 93 (-12016); mkRun 94 95 (-12014);
  mkRun 96 96 (-12013); mkRun 97 104 (-12009); mkRun 105 105 (-12008); mkRun 106 115 (-12006); mkRun 116 118 (-12000);
  mkRun 119 119 (-11997); mkRun 120 120 (-11994); mkRun 121 121 (-11993); mkRun 122 123 (-11992); mkRun 124 126 (-11991);
  mkRun 127 128 (-11990); mkRun 129 130 (-11989); mkRun 131 131 (-11986); mkRun 132 139 (-11984); mkRun 140 140 (-11983);
  mkRun 141 144 (-11981); mkRun 145 145 (-11980); mkRun 146 146 (-11974); mkRun 147 147 (-11972); mkRun 148 148 (-11971);
  mkRun 149 150 (-11970); mkRun 151 155 (-11968); mkRun 156 158 (-11967); mkRun 159 165 (-11966); mkRun 166 172 (-11964);
  mkRun 173 175 (-11962); mkRun 176 177 (-11959); mkRun 178 178 (-11956); mkRun 179 179 (-11949); mkRun 180 180 (-11946);
  mkRun 181 181 (-11945); mkRun 182 182 (-11944); mkRun 183 183 (-11942); mkRun 184 189 (-11939)
].

Definition runs_97 : list GbkRun := [
  mkRun 0 3 (-12004); mkRun 4 4 (-11994); mkRun 5 12 (-11993); mkRun 13 13 (-11992); mkRun 14 22 (-11990);
  mkRun 23 23 (-11989); mkRun 24 24 (-11988); mkRun 25 32 (-11986); mkRun 33 35 (-11985); mkRun 36 38 (-11984);
  mkRun 39 48 (-11983); mkRun 49 51 (-11982); mkRun 52 55 (-11979); mkRun 56 56 (-11978); mkRun 57 58 (-11976);
  mkRun 59 59 (-11975); mkRun 60 62 (-11974); mkRun 63 69 (-11975); mkRun 70 70 (-11974); mkRun 71 76 (-11973);
  mkRun 77 77 (-11972); mkRun 78 78 (-11971); mkRun 79 82 (-11970); mkRun 83 84 (-11969); mkRun 85 86 (-11968);
  mkRun 87 87 (-11967); mkRun 88 92 (-11966); mkRun 93 94 (-11965); mkRun 95 104 (-11964); mkRun 105 105 (-11963);
  mkRun 106 108 (-11961); mkRun 109 111 (-11960); mkRun 112 112 (-11958); mkRun 113 116 (-11957); mkRun 117 119 (-11956);
  mkRun 120 124 (-11955); mkRun 125 125 (-11954); mkRun 126 126 (-11952); mkRun 127 127 (-11951); mkRun 128 139 (-11950);
  mkRun 140 142 (-11948); mkRun 143 150 (-11947); mkRun 151 152 (-11946); mkRun 153 155 (-11945); mkRun 156 159 (-11944);
  mkRun 160 162 (-11943); mkRun 163 163 (-11942); mkRun 164 165 (-11941); mkRun 166 182 (-11940); mkRun 183 184 (-11939);
  mkRun 185 186 (-11938); mkRun 187 188 (-11937); mkRun 189 189 (-11935)
].

Definition runs_98 : list GbkRun := [
  mkRun 0 1 (-11999); mkRun 2 3 (-11998); mkRun 4 7 (-11997); mkRun 8 9 (-11996); mkRun 10 11 (-11995); mkRun 12 16 (-11994);
  mkRun 17 18 (-11991); mkRun 19 21 (-11990); mkRun 22 22 (-11989); mkRun 23 23 (-11988); mkRun 24 24 (-11987);
  mkRun 25 27 (-11983); mkRun 28 33 (-11982); mkRun 34 35 (-11980); mkRun 36 37 (-11979); mkRun 38 47 (-11977);
  mkRun 48 49 (-11975); mkRun 50 50 (-11974); mkRun 51 53 (-11973); mkRun 54 55 (-11972); mkRun 56 57 (-11971);
  mkRun 58 60 (-11970); mkRun 61 62 (-11969); mkRun 63 65 (-11970); mkRun 66 73 (-11969); mkRun 74 74 (-11968);
  mkRun 75 75 (-11967); mkRun 76 76 (-11966); mkRun 77 79 (-11965); mkRun 80 85 (-11964); mkRun 86 88 (-11963);
  mkRun 89 100 (-11961); mkRun 101 104 (-11960); mkRun 105 114 (-11959); mkRun 115 115 (-11958); mkRun 116 125 (-11957);
  mkRun 126 137 (-11956); mkRun 138 143 (-11954); mkRun 144 144 (-11953); mkRun 145 150 (-11952); mkRun 151 151 (-11951);
  mkRun 152 155 (-11950); mkRun 156 156 (-11949); mkRun 157 159 (-11948); mkRun 160 166 (-11947); mkRun 167 171 (-11945);
  mkRun 172 173 (-11944); mkRun 174 181 (-11943); mkRun 182 188 (-11942); mkRun 189 189 (-11940)
].

Definition runs_99 : list GbkRun := [
  mkRun 0 4 (-12004); mkRun 5 7 (-12003); mkRun 8 18 (-12002); mkRun 19 25 (-12001); mkRun 26 27 (-12000);
  mkRun 28 30 (-11999); mkRun 31 33 (-11998); mkRun 34 42 (-11997); mkRun 43 43 (-11996); mkRun 44 48 (-11994);
  mkRun 49 56 (-11993); mkRun 57 62 (-11992); mkRun 63 64 (-11993); mkRun 65 65 (-11992); mkRun 66 180 (-11990);
  mkRun 181 182 (-11985); mkRun 183 189 (-11984)
].

Definition runs_9A : list GbkRun := [
  mkRun 0 2 (-12049); mkRun 3 6 (-12048); mkRun 7 7 (-12047); mkRun 8 10 (-12045); mkRun 11 14 (-12044); mkRun 15 16 (-12043);
  mkRun 17 17 (-12041); mkRun 18 19 (-12040); mkRun 20 31 (-12039); mkRun 32 39 (-12038); mkRun 40 41 (-12032);
  mkRun 42 55 (-12031); mkRun 56 56 (-12030); mkRun 57 60 (-12028); mkRun 61 61 (-12024); mkRun 62 62 (-12022);
  mkRun 63 63 (-12020); mkRun 64 67 (-12019); mkRun 68 69 (-12017); mkRun 70 72 (-12016); mkRun 73 77 (-12014);
  mkRun 78 85 (-12013); mkRun 86 93 (-12012); mkRun 94 94 (-12009); mkRun 95 101 (-12008); mkRun 102 102 (-12007);
  mkRun 103 104 (-12005); mkRun 105 109 (-12004); mkRun 110 110 (-12003); mkRun 111 111 (-12002); mkRun 112 113 (-12001);
  mkRun 114 114 (-11995); mkRun 115 115 (-11994); mkRun 116 120 (-11993); mkRun 121 128 (-11992); mkRun 129 131 (-11990);
  mkRun 132 134 (-11989); mkRun 135 135 (-11988); mkRun 136 138 (-11987); mkRun 139 141 (-11986); mkRun 142 148 (-11985);
  mkRun 149 153 (-11982); mkRun 154 154 (-11981); mkRun 155 155 (-11978); mkRun 156 156 (-11974); mkRun 157 159 (-11970);
  mkRun 160 160 (-11969); mkRun 161 161 (-11967); mkRun 162 162 (-11966); mkRun 163 165 (-11961); mkRun 166 166 (-11958);
  mkRun 167 167 (-11957); mkRun 168 169 (-11955); mkRun 170 173 (-11954); mkRun 174 175 (-11953); mkRun 176 178 (-11950);
  mkRun 179 179 (-11948); mkRun 180 184 (-11946); mkRun 185 187 (-11945); mkRun 188 188 (-11943); mkRun 189 189 (-11942)
].

Definition runs_9B : list GbkRun := [
  mkRun 0 1 (-12007); mkRun 2 3 (-12000); mkRun 4 6 (-11999); mkRun 7 11 (-11996); mkRun 12 12 (-11995); mkRun 13 13 (-11994);
  mkRun 14 14 (-11993); mkRun 15 16 (-11992); mkRun 17 19 (-11991); mkRun 20 21 (-11989); mkRun 22 22 (-11986);
  mkRun 23 23 (-11984); mkRun 24 25 (-11982); mkRun 26 27 (-11981); mkRun 28 29 (-11979); mkRun 30 33 (-11977);
  mkRun 34 34 (-11976); mkRun 35 37 (-11975); mkRun 38 38 (-11974); mkRun 39 39 (-11973); mkRun 40 40 (-11968);
  mkRun 41 41 (-11965); mkRun 42 43 (-11963); mkRun 44 47 (-11960); mkRun 48 48 (-11958); mkRun 49 52 (-11953);
  mkRun 53 55 (-11951); mkRun 56 56 (-11949); mkRun 57 59 (-11948); mkRun 60 61 (-11947); mkRun 62 62 (-11942);
  mkRun 63 64 (-11943); mkRun 65 66 (-11942); mkRun 67 67 (-11941); mkRun 68 68 (-11937); mkRun 69 70 (-11936);
  mkRun 71 71 (-11935); mkRun 72 73 (-11933); mkRun 74 74 (-11929); mkRun 75 75 (-11928); mkRun 76 76 (-11924);
  mkRun 77 78 (-11919); mkRun 79 80 (-11918); mkRun 81 82 (-11917); mkRun 83 85 (-11916); mkRun 86 86 (-11914);
  mkRun 87 89 (-11913); mkRun 90 93 (-11912); mkRun 94 94 (-11911); mkRun 95 96 (-11908); mkRun 97 102 (-11907);
  mkRun 103 103 (-11906); mkRun 104 105 (-11905); mkRun 106 107 (-11903); mkRun 108 109 (-11902); mkRun 110 110 (-11899);
  mkRun 111 113 (-11898); mkRun 114 114 (-11897); mkRun 115 116 (-11893); mkRun 117 117 (-11892); mkRun 118 118 (-11891);
  mkRun 119 119 (-11887); mkRun 120 120 (-11885); mkRun 121 121 (-11882); mkRun 122 125 (-11878); mkRun 126 126 (-11876);
  mkRun 127 127 (-11875); mkRun 128 128 (-11874); mkRun 129 130 (-11873); mkRun 131 132 (-11872); mkRun 133 134 (-11871);
  mkRun 135 137 (-11869); mkRun 138 141 (-11867); mkRun 142 143 (-11866); mkRun 144 146 (-11864); mkRun 147 151 (-11863);
  mkRun 152 153 (-11862); mkRun 154 155 (-11861); mkRun 156 157 (-11859); mkRun 158 158 (-11858); mkRun 159 160 (-11857);
  mkRun 161 161 (-11856); mkRun 162 166 (-11853); mkRun 167 167 (-11852); mkRun 168 168 (-11847); mkRun 169 169 (-11845);
  mkRun 170 171 (-11839); mkRun 172 173 (-11837); mkRun 174 175 (-11836); mkRun 176 177 (-11835); mkRun 178 183 (-11834);
  mkRun 184 186 (-11832); mkRun 187 189 (-11828)
].

Definition runs_9C : list GbkRun := [
  mkRun 0 3 (-11891); mkRun 4 7 (-11890); mkRun 8 8 (-11889); mkRun 9 11 (-11887); mkRun 12 12 (-11885); mkRun 13 14 (-11883);
  mkRun 15 15 (-11882); mkRun 16 19 (-11881); mkRun 20 20 (-11879); mkRun 21 22 (-11878); mkRun 23 23 (-11877);
  mkRun 24 26 (-11876); mkRun 27 27 (-11875); mkRun 28 28 (-11874); mkRun 29 36 (-11872); mkRun 37 40 (-11871);
  mkRun 41 41 (-11870); mkRun 42 42 (-11867); mkRun 43 44 (-11865); mkRun 45 45 (-11864); mkRun 46 47 (-11862);
  mkRun 48 49 (-11861); mkRun 50 51 (-11860); mkRun 52 52 (-11858); mkRun 53 55 (-11855); mkRun 56 56 (-11854);
  mkRun 57 57 (-11853); mkRun 58 58 (-11852); mkRun 59 60 (-11851); mkRun 61 61 (-11850); mkRun 62 62 (-11849);
  mkRun 63 64 (-11850); mkRun 65 65 (-11849); mkRun 66 73 (-11848); mkRun 74 81 (-11846); mkRun 82 85 (-11844);
  mkRun 86 86 (-11842); mkRun 87 87 (-11841); mkRun 88 89 (-11840); mkRun 90 92 (-11839); mkRun 93 103 (-11838);
  mkRun 104 105 (-11837); mkRun 106 120 (-11836); mkRun 121 123 (-11834); mkRun 124 124 (-11833); mkRun 125 126 (-11831);
  mkRun 127 131 (-11830); mkRun 132 138 (-11828); mkRun 139 141 (-11827); mkRun 142 143 (-11826); mkRun 144 145 (-11825);
  mkRun 146 147 (-11824); mkRun 148 148 (-11823); mkRun 149 150 (-11822); mkRun 151 154 (-11821); mkRun 155 155 (-11820);
  mkRun 156 156 (-11818); mkRun 157 157 (-11817); mkRun 158 159 (-11815); mkRun 160 160 (-11813); mkRun 161 163 (-11812);
  mkRun 164 167 (-11810); mkRun 168 170 (-11809); mkRun 171 173 (-11808); mkRun 174 174 (-11807); mkRun 175 175 (-11806);
  mkRun 176 176 (-11803); mkRun 177 178 (-11802); mkRun 179 181 (-11801); mkRun 182 182 (-11796); mkRun 183 183 (-11793);
  mkRun 184 189 (-11791)
].

Definition runs_9D : list GbkRun := [
  mkRun 0 3 (-11856); mkRun 4 7 (-11855); mkRun 8 15 (-11854); mkRun 16 18 (-11853); mkRun 19 20 (-11852);
  mkRun 21 25 (-11851); mkRun 26 28 (-11850); mkRun 29 38 (-11847); mkRun 39 41 (-11846); mkRun 42 45 (-11845);
  mkRun 46 46 (-11842); mkRun 47 47 (-11841); mkRun 48 48 (-11840); mkRun 49 49 (-11839); mkRun 50 51 (-11838);
  mkRun 52 58 (-11837); mkRun 59 62 (-11836); mkRun 63 65 (-11837); mkRun 66 68 (-11835); mkRun 69 69 (-11834);
  mkRun 70 79 (-11833); mkRun 80 82 (-11832); mkRun 83 83 (-11831); mkRun 84 86 (-11830); mkRun 87 89 (-11829);
  mkRun 90 95 (-11828); mkRun 96 98 (-11826); mkRun 99 99 (-11825); mkRun 100 102 (-11824); mkRun 103 103 (-11823);
  mkRun 104 104 (-11822); mkRun 105 111 (-11821); mkRun 112 114 (-11820); mkRun 115 116 (-11818); mkRun 117 129 (-11815);
  mkRun 130 133 (-11814); mkRun 134 138 (-11813); mkRun 139 149 (-11812); mkRun 150 151 (-11811); mkRun 152 153 (-11810);
  mkRun 154 159 (-11809); mkRun 160 160 (-11808); mkRun 161 166 (-11807); mkRun 167 173 (-11806); mkRun 174 184 (-11804);
  mkRun 185 185 (-11803); mkRun 186 189 (-11801)
].

Definition runs_9E : list GbkRun := [
  mkRun 0 7 (-11866); mkRun 8 40 (-11864); mkRun 41 48 (-11863); mkRun 49 55 (-11861); mkRun 56 62 (-11860);
  mkRun 63 72 (-11861); mkRun 73 75 (-11860); mkRun 76 93 (-11859); mkRun 94 95 (-11858); mkRun 96 109 (-11857);
  mkRun 110 121 (-11856); mkRun 122 122 (-11853); mkRun 123 126 (-11851); mkRun 127 127 (-11849); mkRun 128 130 (-11848);
  mkRun 131 131 (-11847); mkRun 132 135 (-11844); mkRun 136 138 (-11843); mkRun 139 141 (-11841); mkRun 142 144 (-11840);
  mkRun 145 145 (-11839); mkRun 146 147 (-11836); mkRun 148 149 (-11835); mkRun 150 162 (-11833); mkRun 163 163 (-11828);
  mkRun 164 164 (-11827); mkRun 165 167 (-11826); mkRun 168 168 (-11823); mkRun 169 170 (-11820); mkRun 171 174 (-11816);
  mkRun 175 175 (-11815); mkRun 176 188 (-11814); mkRun 189 189 (-11812)
].

Definition runs_9F : list GbkRun := [
  mkRun 0 2 (-11876); mkRun 3 6 (-11875); mkRun 7 7 (-11874); mkRun 8 8 (-11870); mkRun 9 9 (-11867); mkRun 10 16 (-11866);
  mkRun 17 17 (-11865); mkRun 18 20 (-11864); mkRun 21 31 (-11863); mkRun 32 36 (-11861); mkRun 37 38 (-11860);
  mkRun 39 39 (-11859); mkRun 40 40 (-11857); mkRun 41 51 (-11854); mkRun 52 59 (-11853); mkRun 60 62 (-11850);
  mkRun 63 63 (-11851); mkRun 64 77 (-11850); mkRun 78 81 (-11849); mkRun 82 82 (-11848); mkRun 83 83 (-11847);
  mkRun 84 96 (-11846); mkRun 97 97 (-11845); mkRun 98 102 (-11844); mkRun 103 103 (-11843); mkRun 104 108 (-11840);
  mkRun 109 111 (-11839); mkRun 112 115 (-11837); mkRun 116 116 (-11836); mkRun 117 118 (-11835); mkRun 119 124 (-11834);
  mkRun 125 129 (-11833); mkRun 130 133 (-11832); mkRun 134 137 (-11831); mkRun 138 140 (-11830); mkRun 141 145 (-11828);
  mkRun 146 152 (-11826); mkRun 153 155 (-11825); mkRun 156 161 (-11824); mkRun 162 162 (-11823); mkRun 163 165 (-11822);
  mkRun 166 174 (-11821); mkRun 175 184 (-11820); mkRun 185 189 (-11819)
].

Definition runs_A0 : list GbkRun := [
  mkRun 0 9 (-11882); mkRun 10 13 (-11881); mkRun 14 14 (-11880); mkRun 15 20 (-11879); mkRun 21 30 (-11878);
  mkRun 31 42 (-11877); mkRun 43 62 (-11876); mkRun 63 64 (-11877); mkRun 65 74 (-11876); mkRun 75 75 (-11875);
  mkRun 76 76 (-11874); mkRun 77 79 (-11873); mkRun 80 82 (-11871); mkRun 83 83 (-11866); mkRun 84 84 (-11865);
  mkRun 85 85 (-11864); mkRun 86 92 (-11863); mkRun 93 95 (-11861); mkRun 96 99 (-11859); mkRun 100 102 (-11858);
  mkRun 103 104 (-11857); mkRun 105 105 (-11856); mkRun 106 106 (-11855); mkRun 107 107 (-11854); mkRun 108 108 (-11853);
  mkRun 109 111 (-11851); mkRun 112 112 (-11849); mkRun 113 116 (-11848); mkRun 117 118 (-11846); mkRun 119 120 (-11845);
  mkRun 121 123 (-11844); mkRun 124 126 (-11842); mkRun 127 128 (-11838); mkRun 129 133 (-11837); mkRun 134 134 (-11835);
  mkRun 135 135 (-11834); mkRun 136 137 (-11833); mkRun 138 149 (-11832); mkRun 150 161 (-11831); mkRun 162 162 (-11829);
  mkRun 163 165 (-11827); mkRun 166 166 (-11826); mkRun 167 173 (-11822); mkRun 174 176 (-11818); mkRun 177 180 (-11817);
  mkRun 181 181 (-11815); mkRun 182 182 (-11814); mkRun 183 186 (-11813); mkRun 187 187 (-11812); mkRun 188 189 (-11811)
].

Definition runs_A1 : list GbkRun := [
  mkRun 0 62 17286; mkRun 63 95 17285; mkRun 96 98 (-29089); mkRun 99 99 (-41197); mkRun 100 100 (-40668);
  mkRun 101 101 (-40671); mkRun 102 102 (-41215); mkRun 103 103 (-29093); mkRun 104 104 (-29092); mkRun 105 105 (-33174);
  mkRun 106 106 23987; mkRun 107 107 (-33174); mkRun 108 108 (-33159); mkRun 109 110 (-33174); mkRun 111 112 (-33172);
  mkRun 113 114 (-29086); mkRun 115 122 (-29100); mkRun 123 124 (-29094); mkRun 125 126 (-29102); mkRun 127 127 (-41231);
  mkRun 128 128 (-41194); mkRun 129 129 (-41163); mkRun 130 130 (-32653); mkRun 131 132 (-32669); mkRun 133 133 (-32693);
  mkRun 134 134 (-32696); mkRun 135 135 (-32670); mkRun 136 136 (-32672); mkRun 137 137 (-32706); mkRun 138 138 (-32660);
  mkRun 139 139 (-32690); mkRun 140 140 (-32552); mkRun 141 141 (-32681); mkRun 142 142 (-32687); mkRun 143 143 (-32446);
  mkRun 144 144 (-32568); mkRun 145 145 (-32679); mkRun 146 146 (-32677); mkRun 147 147 (-32627); mkRun 148 148 (-32649);
  mkRun 149 149 (-32654); mkRun 150 150 (-32666); mkRun 151 151 (-32699); mkRun 152 152 (-32633); mkRun 153 154 (-32620);
  mkRun 155 156 (-32632); mkRun 157 157 (-32704); mkRun 158 158 (-32682); mkRun 159 159 (-32684); mkRun 160 160 (-31647);
  mkRun 161 161 (-31650); mkRun 162 162 (-41267); mkRun 163 164 (-33202); mkRun 165 165 (-32995); mkRun 166 166 23837;
  mkRun 167 167 (-41284); mkRun 168 169 24055; mkRun 170 170 (-33211); mkRun 171 171 (-41285); mkRun 172 172 (-32983);
  mkRun 173 173 (-31720); mkRun 174 174 (-31722); mkRun 175 175 (-31781); mkRun 176 176 (-31778); mkRun 177 177 (-31780);
  mkRun 178 178 (-31788); mkRun 179 179 (-31790); mkRun 180 180 (-31828); mkRun 181 181 (-31830); mkRun 182 182 (-31812);
  mkRun 183 183 (-31814); mkRun 184 184 (-33214); mkRun 185 185 (-32872); mkRun 186 187 (-32875); mkRun 188 188 (-32874);
  mkRun 189 189 (-29163)
].

Definition runs_A2 : list GbkRun := [
  mkRun 0 62 17126; mkRun 63 95 17125; mkRun 96 105 (-33073); mkRun 106 111 17595; mkRun 112 131 (-32297);
  mkRun 132 151 (-32337); mkRun 152 161 (-32377); mkRun 162 162 (-33335); mkRun 163 163 17545; mkRun 164 173 (-28869);
  mkRun 174 175 17535; mkRun 176 187 (-33169); mkRun 188 189 17523
].

Definition runs_A3 : list GbkRun := [
  mkRun 0 62 16966; mkRun 63 95 16965; mkRun 96 98 23392; mkRun 99 99 23617; mkRun 100 188 23392; mkRun 189 189 23525
].

Definition runs_A4 : list GbkRun := [
  mkRun 0 62 16806; mkRun 63 95 16805; mkRun 96 178 (-29792); mkRun 179 189 17022
].

Definition runs_A5 : list GbkRun := [
  mkRun 0 62 16646; mkRun 63 95 16645; mkRun 96 181 (-29952); mkRun 182 189 16774
].

Definition runs_A6 : list GbkRun := [
  mkRun 0 62 16486; mkRun 63 95 16485; mkRun 96 112 (-41744); mkRun 113 119 (-41743); mkRun 120 127 16588;
  mkRun 128 144 (-41744); mkRun 145 151 (-41743); mkRun 152 158 16564; mkRun 159 160 22357; mkRun 161 162 22359;
  mkRun 163 164 22363; mkRun 165 166 22359; mkRun 167 170 22361; mkRun 171 172 16552; mkRun 173 174 22349; mkRun 175 176 22343;
  mkRun 177 177 22335; mkRun 178 178 16547; mkRun 179 180 22335; mkRun 181 189 16545
].

Definition runs_A7 : list GbkRun := [
  mkRun 0 62 16326; mkRun 63 95 16325; mkRun 96 101 (-41873); mkRun 102 102 (-41894); mkRun 103 128 (-41874);
  mkRun 129 143 16350; mkRun 144 149 (-41889); mkRun 150 150 (-41862); mkRun 151 176 (-41890); mkRun 177 189 16317
].

Definition runs_A8 : list GbkRun := [
  mkRun 0 1 (-42358); mkRun 2 2 (-42345); mkRun 3 3 (-34864); mkRun 4 4 (-34863); mkRun 5 5 (-34848); mkRun 6 6 (-34833);
  mkRun 7 7 (-34626); mkRun 8 8 (-34623); mkRun 9 12 (-34483); mkRun 13 13 (-34360); mkRun 14 14 (-34351);
  mkRun 15 15 (-34348); mkRun 16 16 (-34302); mkRun 17 18 (-34283); mkRun 19 19 (-34196); mkRun 20 55 (-33540);
  mkRun 56 62 (-33527); mkRun 63 70 (-33528); mkRun 71 73 (-33525); mkRun 74 75 (-33487); mkRun 76 79 (-33451);
  mkRun 80 80 (-33416); mkRun 81 81 (-34301); mkRun 82 82 (-30849); mkRun 83 84 (-30839); mkRun 85 95 16166;
  mkRun 96 96 (-42912); mkRun 97 97 (-42945); mkRun 98 98 (-42709); mkRun 99 99 (-42948); mkRun 100 100 (-42898);
  mkRun 101 101 (-42941); mkRun 102 102 (-42892); mkRun 103 103 (-42944); mkRun 104 104 (-42878); mkRun 105 105 (-42941);
  mkRun 106 106 (-42715); mkRun 107 107 (-42944); mkRun 108 108 (-42848); mkRun 109 109 (-42939); mkRun 110 110 (-42717);
  mkRun 111 111 (-42942); mkRun 112 112 (-42822); mkRun 113 113 (-42936); mkRun 114 114 (-42719); mkRun 115 115 (-42939);
  mkRun 116 116 (-42719); mkRun 117 117 (-42718); mkRun 118 118 (-42717); mkRun 119 119 (-42716); mkRun 120 120 (-42941);
  mkRun 121 121 (-42960); mkRun 122 122 (-42602); mkRun 123 123 16139; mkRun 124 124 (-42873); mkRun 125 125 (-42870);
  mkRun 126 126 (-42694); mkRun 127 127 (-42591); mkRun 128 131 16136; mkRun 132 168 (-30656); mkRun 169 189 16099
].

Definition runs_A9 : list GbkRun := [
  mkRun 0 8 (-31007); mkRun 9 9 (-30374); mkRun 10 11 (-30140); mkRun 12 14 (-30128); mkRun 15 15 (-30126);
  mkRun 16 16 (-30092); mkRun 17 17 (-30083); mkRun 18 19 (-30081); mkRun 20 20 (-30079); mkRun 21 21 21723; mkRun 22 22 22156;
  mkRun 23 23 22157; mkRun 24 24 16010; mkRun 25 25 (-34872); mkRun 26 26 (-30505); mkRun 27 27 16008; mkRun 28 28 (-35148);
  mkRun 29 31 16007; mkRun 32 32 (-30820); mkRun 33 34 (-30918); mkRun 35 36 (-30822); mkRun 37 37 (-31071);
  mkRun 38 39 (-30921); mkRun 40 49 21729; mkRun 50 53 21730; mkRun 54 62 21731; mkRun 63 67 21730; mkRun 68 71 21731;
  mkRun 72 72 (-31051); mkRun 73 84 (-31130); mkRun 85 85 (-31119); mkRun 86 98 15965; mkRun 99 174 (-33956);
  mkRun 175 189 15889
].

Definition runs_AA : list GbkRun := [
  mkRun 0 1 (-14180); mkRun 2 2 (-14179); mkRun 3 8 (-14177); mkRun 9 10 (-14175); mkRun 11 12 (-14166); mkRun 13 13 (-14164);
  mkRun 14 17 (-14161); mkRun 18 18 (-14160); mkRun 19 24 (-14159); mkRun 25 27 (-14158); mkRun 28 31 (-14157);
  mkRun 32 32 (-14156); mkRun 33 35 (-14153); mkRun 36 37 (-14149); mkRun 38 39 (-14147); mkRun 40 42 (-14146);
  mkRun 43 43 (-14142); mkRun 44 45 (-14141); mkRun 46 47 (-14140); mkRun 48 49 (-14139); mkRun 50 53 (-14136);
  mkRun 54 62 (-14134); mkRun 63 66 (-14135); mkRun 67 68 (-14134); mkRun 69 69 (-14133); mkRun 70 73 (-14132);
  mkRun 74 81 (-14131); mkRun 82 92 (-14130); mkRun 93 93 (-14128); mkRun 94 95 (-14127); mkRun 96 189 13663
].

Definition runs_AB : list GbkRun := [
  mkRun 0 11 (-14286); mkRun 12 16 (-14285); mkRun 17 18 (-14284); mkRun 19 19 (-14283); mkRun 20 20 (-14282);
  mkRun 21 22 (-14281); mkRun 23 24 (-14280); mkRun 25 28 (-14279); mkRun 29 32 (-14278); mkRun 33 35 (-14277);
  mkRun 36 37 (-14276); mkRun 38 43 (-14275); mkRun 44 44 (-14274); mkRun 45 46 (-14273); mkRun 47 47 (-14270);
  mkRun 48 50 (-14268); mkRun 51 52 (-14267); mkRun 53 56 (-14265); mkRun 57 57 (-14264); mkRun 58 62 (-14263);
  mkRun 63 64 (-14261); mkRun 65 65 (-14260); mkRun 66 72 (-14257); mkRun 73 76 (-14256); mkRun 77 77 (-14255);
  mkRun 78 81 (-14254); mkRun 82 82 (-14253); mkRun 83 83 (-14252); mkRun 84 86 (-14251); mkRun 87 90 (-14250);
  mkRun 91 95 (-14249); mkRun 96 189 13501
].

Definition runs_AC : list GbkRun := [
  mkRun 0 10 (-14408); mkRun 11 11 (-14407); mkRun 12 13 (-14405); mkRun 14 17 (-14403); mkRun 18 26 (-14401);
  mkRun 27 32 (-14399); mkRun 33 34 (-14398); mkRun 35 35 (-14396); mkRun 36 36 (-14395); mkRun 37 37 (-14394);
  mkRun 38 38 (-14393); mkRun 39 39 (-14392); mkRun 40 41 (-14391); mkRun 42 46 (-14387); mkRun 47 50 (-14386);
  mkRun 51 62 (-14385); mkRun 63 69 (-14386); mkRun 70 70 (-14385); mkRun 71 71 (-14384); mkRun 72 72 (-14380);
  mkRun 73 85 (-14378); mkRun 86 87 (-14377); mkRun 88 92 (-14376); mkRun 93 95 (-14374); mkRun 96 189 13339
].

Definition runs_AD : list GbkRun := [
  mkRun 0 2 (-14533); mkRun 3 3 (-14532); mkRun 4 4 (-14530); mkRun 5 7 (-14529); mkRun 8 10 (-14528); mkRun 11 12 (-14527);
  mkRun 13 13 (-14526); mkRun 14 24 (-14525); mkRun 25 25 (-14524); mkRun 26 33 (-14523); mkRun 34 49 (-14520);
  mkRun 50 62 (-14519); mkRun 63 72 (-14520); mkRun 73 81 (-14519); mkRun 82 82 (-14518); mkRun 83 83 (-14517);
  mkRun 84 84 (-14516); mkRun 85 85 (-14513); mkRun 86 92 (-14512); mkRun 93 95 (-14510); mkRun 96 189 13177
].

Definition runs_AE : list GbkRun := [
  mkRun 0 0 (-14669); mkRun 1 1 (-14668); mkRun 2 8 (-14666); mkRun 9 12 (-14665); mkRun 13 20 (-14664); mkRun 21 21 (-14663);
  mkRun 22 22 (-14662); mkRun 23 23 (-14661); mkRun 24 27 (-14660); mkRun 28 28 (-14657); mkRun 29 30 (-14656);
  mkRun 31 35 (-14655); mkRun 36 37 (-14654); mkRun 38 38 (-14652); mkRun 39 39 (-14649); mkRun 40 40 (-14644);
  mkRun 41 41 (-14643); mkRun 42 42 (-14641); mkRun 43 44 (-14639); mkRun 45 45 (-14638); mkRun 46 49 (-14637);
  mkRun 50 51 (-14636); mkRun 52 53 (-14635); mkRun 54 54 (-14633); mkRun 55 58 (-14631); mkRun 59 62 (-14630);
  mkRun 63 70 (-14627); mkRun 71 73 (-14625); mkRun 74 80 (-14624); mkRun 81 81 (-14623); mkRun 82 84 (-14622);
  mkRun 85 89 (-14620); mkRun 90 92 (-14619); mkRun 93 94 (-14618); mkRun 95 95 (-14617); mkRun 96 189 13015
].

Definition runs_AF : list GbkRun := [
  mkRun 0 2 (-14776); mkRun 3 5 (-14775); mkRun 6 6 (-14774); mkRun 7 7 (-14772); mkRun 8 8 (-14771); mkRun 9 9 (-14769);
  mkRun 10 11 (-14767); mkRun 12 12 (-14766); mkRun 13 13 (-14763); mkRun 14 18 (-14760); mkRun 19 19 (-14758);
  mkRun 20 21 (-14750); mkRun 22 23 (-14748); mkRun 24 26 (-14745); mkRun 27 27 (-14741); mkRun 28 29 (-14737);
  mkRun 30 33 (-14736); mkRun 34 34 (-14735); mkRun 35 35 (-14732); mkRun 36 37 (-14731); mkRun 38 39 (-14730);
  mkRun 40 42 (-14729); mkRun 43 43 (-14726); mkRun 44 44 (-14723); mkRun 45 48 (-14721); mkRun 49 50 (-14719);
  mkRun 51 54 (-14718); mkRun 55 56 (-14717); mkRun 57 58 (-14716); mkRun 59 59 (-14713); mkRun 60 60 (-14712);
  mkRun 61 62 (-14711); mkRun 63 64 (-14712); mkRun 65 65 (-14711); mkRun 66 68 (-14710); mkRun 69 72 (-14709);
  mkRun 73 73 (-14708); mkRun 74 74 (-14705); mkRun 75 77 (-14704); mkRun 78 78 (-14702); mkRun 79 79 (-14701);
  mkRun 80 81 (-14698); mkRun 82 82 (-14695); mkRun 83 84 (-14694); mkRun 85 86 (-14693); mkRun 87 88 (-14690);
  mkRun 89 91 (-14689); mkRun 92 92 (-14688); mkRun 93 94 (-14685); mkRun 95 95 (-14684); mkRun 96 189 12853
].

Definition runs_B0 : list GbkRun := [
  mkRun 0 6 (-14843); mkRun 7 12 (-14841); mkRun 13 13 (-14840); mkRun 14 18 (-14839); mkRun 19 19 (-14838);
  mkRun 20 23 (-14837); mkRun 24 30 (-14836); mkRun 31 33 (-14835); mkRun 34 41 (-14834); mkRun 42 43 (-14833);
  mkRun 44 44 (-14832); mkRun 45 47 (-14830); mkRun 48 48 (-14829); mkRun 49 49 (-14828); mkRun 50 51 (-14825);
  mkRun 52 53 (-14824); mkRun 54 55 (-14823); mkRun 56 56 (-14822); mkRun 57 58 (-14821); mkRun 59 60 (-14820);
  mkRun 61 62 (-14819); mkRun 63 70 (-14820); mkRun 71 79 (-14819); mkRun 80 81 (-14818); mkRun 82 82 (-14816);
  mkRun 83 92 (-14815); mkRun 93 94 (-14814); mkRun 95 95 (-14813); mkRun 96 96 (-23383); mkRun 97 97 (-6755);
  mkRun 98 98 (-22752); mkRun 99 99 (-19836); mkRun 100 100 (-23511); mkRun 101 101 (-23453); mkRun 102 102 (-23527);
  mkRun 103 103 (-14871); mkRun 104 104 (-14941); mkRun 105 105 (-11118); mkRun 106 106 (-14525); mkRun 107 107 (-11822);
  mkRun 108 108 (-14368); mkRun 109 109 (-15997); mkRun 110 110 (-6679); mkRun 111 111 (-6435); mkRun 112 112 (-17545);
  mkRun 113 113 (-21801); mkRun 114 114 (-24761); mkRun 115 115 (-19883); mkRun 116 116 (-18974); mkRun 117 117 (-21502);
  mkRun 118 118 (-12221); mkRun 119 119 (-18544); mkRun 120 120 (-12299); mkRun 121 121 (-19128); mkRun 122 122 (-14829);
  mkRun 123 123 (-24259); mkRun 124 124 (-19303); mkRun 125 125 (-16146); mkRun 126 126 (-12494); mkRun 127 127 (-10300);
  mkRun 128 128 (-24591); mkRun 129 129 (-22365); mkRun 130 130 (-20217); mkRun 131 131 (-16657); mkRun 132 132 (-11800);
  mkRun 133 133 (-19834); mkRun 134 134 (-20085); mkRun 135 135 (-23771); mkRun 136 136 (-23714); mkRun 137 137 (-13764);
  mkRun 138 138 (-24416); mkRun 139 139 (-15144); mkRun 140 140 (-21209); mkRun 141 141 (-19962); mkRun 142 142 (-8964);
  mkRun 143 143 (-6490); mkRun 144 144 (-20039); mkRun 145 145 (-12473); mkRun 146 146 (-22902); mkRun 147 147 (-6556);
  mkRun 148 148 (-12659); mkRun 149 149 (-16030); mkRun 150 150 (-14938); mkRun 151 151 (-18697); mkRun 152 152 (-14939);
  mkRun 153 153 (-19604); mkRun 154 154 (-24939); mkRun 155 155 (-9143); mkRun 156 156 (-19969); mkRun 157 157 (-14023);
  mkRun 158 158 (-19278); mkRun 159 159 (-15603); mkRun 160 160 (-19637); mkRun 161 161 (-20079); mkRun 162 162 (-11959);
  mkRun 163 163 (-6243); mkRun 164 164 (-18790); mkRun 165 165 (-16030); mkRun 166 166 (-20089); mkRun 167 167 (-19996);
  mkRun 168 168 (-25013); mkRun 169 169 (-15367); mkRun 170 170 (-23969); mkRun 171 171 (-24142); mkRun 172 172 (-12835);
  mkRun 173 173 (-8264); mkRun 174 174 (-21185); mkRun 175 175 (-18538); mkRun 176 176 (-18261); mkRun 177 177 (-12146);
  mkRun 178 178 (-12834); mkRun 179 179 (-18466); mkRun 180 180 (-14384); mkRun 181 181 (-10858); mkRun 182 182 (-7078);
  mkRun 183 183 (-24683); mkRun 184 184 (-9429); mkRun 185 185 (-11804); mkRun 186 186 (-12317); mkRun 187 187 (-24055);
  mkRun 188 188 (-10219); mkRun 189 189 (-24217)
].

Definition runs_B1 : list GbkRun := [
  mkRun 0 0 (-14972); mkRun 1 1 (-14970); mkRun 2 2 (-14969); mkRun 3 4 (-14968); mkRun 5 5 (-14962); mkRun 6 6 (-14961);
  mkRun 7 8 (-14958); mkRun 9 11 (-14957); mkRun 12 16 (-14956); mkRun 17 24 (-14955); mkRun 25 25 (-14953);
  mkRun 26 26 (-14951); mkRun 27 29 (-14950); mkRun 30 31 (-14948); mkRun 32 32 (-14947); mkRun 33 34 (-14946);
  mkRun 35 36 (-14945); mkRun 37 38 (-14944); mkRun 39 39 (-14941); mkRun 40 40 (-14940); mkRun 41 51 (-14939);
  mkRun 52 55 (-14937); mkRun 56 56 (-14935); mkRun 57 59 (-14934); mkRun 60 60 (-14933); mkRun 61 62 (-14931);
  mkRun 63 63 (-14932); mkRun 64 64 (-14931); mkRun 65 69 (-14930); mkRun 70 70 (-14926); mkRun 71 71 (-14925);
  mkRun 72 74 (-14924); mkRun 75 75 (-14922); mkRun 76 78 (-14921); mkRun 79 86 (-14920); mkRun 87 94 (-14918);
  mkRun 95 95 (-14916); mkRun 96 96 (-11293); mkRun 97 97 (-6825); mkRun 98 98 (-25030); mkRun 99 99 (-22915);
  mkRun 100 100 (-6196); mkRun 101 101 (-22025); mkRun 102 102 (-20214); mkRun 103 103 (-20227); mkRun 104 104 (-19189);
  mkRun 105 105 (-9521); mkRun 106 106 (-5406); mkRun 107 107 (-16294); mkRun 108 108 (-19006); mkRun 109 109 (-14621);
  mkRun 110 110 (-20733); mkRun 111 111 (-24159); mkRun 112 112 (-24218); mkRun 113 113 (-8746); mkRun 114 114 (-12519);
  mkRun 115 115 (-9367); mkRun 116 116 (-7444); mkRun 117 117 (-25001); mkRun 118 118 (-16111); mkRun 119 119 (-22705);
  mkRun 120 120 (-20686); mkRun 121 121 (-16545); mkRun 122 122 (-10512); mkRun 123 123 (-22632); mkRun 124 124 (-11982);
  mkRun 125 125 (-19090); mkRun 126 126 (-13975); mkRun 127 127 (-21655); mkRun 128 128 (-13002); mkRun 129 129 (-15509);
  mkRun 130 130 (-17614); mkRun 131 131 (-9054); mkRun 132 132 (-8653); mkRun 133 133 (-8586); mkRun 134 134 (-4748);
  mkRun 135 135 (-17908); mkRun 136 136 (-8368); mkRun 137 137 (-14006); mkRun 138 138 (-21071); mkRun 139 139 (-14629);
  mkRun 140 140 (-11511); mkRun 141 141 (-11409); mkRun 142 142 (-17914); mkRun 143 143 (-17911); mkRun 144 144 (-17915);
  mkRun 145 145 (-21457); mkRun 146 146 (-21324); mkRun 147 147 (-15323); mkRun 148 148 (-7144); mkRun 149 149 (-19577);
  mkRun 150 150 (-21197); mkRun 151 151 (-21011); mkRun 152 152 (-8762); mkRun 153 153 (-22809); mkRun 154 154 (-12313);
  mkRun 155 155 (-8541); mkRun 156 156 (-7042); mkRun 157 157 (-6705); mkRun 158 158 (-8742); mkRun 159 159 (-13002);
  mkRun 160 160 (-9397); mkRun 161 161 (-20385); mkRun 162 162 (-25124); mkRun 163 163 (-24076); mkRun 164 164 (-24199);
  mkRun 165 166 (-8766); mkRun 167 167 (-8765); mkRun 168 168 (-8604); mkRun 169 169 (-18915); mkRun 170 170 (-21121);
  mkRun 171 171 (-12372); mkRun 172 172 (-10629); mkRun 173 173 (-5400); mkRun 174 174 (-20580); mkRun 175 175 (-24517);
  mkRun 176 176 (-15303); mkRun 177 177 (-21126); mkRun 178 178 (-19559); mkRun 179 179 (-16930); mkRun 180 180 (-17165);
  mkRun 181 181 (-22072); mkRun 182 182 (-19887); mkRun 183 183 (-24707); mkRun 184 184 (-24649); mkRun 185 185 (-18998);
  mkRun 186 186 (-25570); mkRun 187 187 (-14387); mkRun 188 188 (-6273); mkRun 189 189 (-16715)
].

Definition runs_B2 : list GbkRun := [
  mkRun 0 3 (-15075); mkRun 4 4 (-15072); mkRun 5 5 (-15070); mkRun 6 7 (-15069); mkRun 8 19 (-15067); mkRun 20 22 (-15066);
  mkRun 23 25 (-15062); mkRun 26 31 (-15060); mkRun 32 33 (-15057); mkRun 34 45 (-15055); mkRun 46 46 (-15053);
  mkRun 47 48 (-15052); mkRun 49 49 (-15051); mkRun 50 50 (-15050); mkRun 51 51 (-15048); mkRun 52 54 (-15047);
  mkRun 55 56 (-15046); mkRun 57 57 (-15045); mkRun 58 63 (-15044); mkRun 64 64 (-15043); mkRun 65 77 (-15042);
  mkRun 78 86 (-15041); mkRun 87 89 (-15040); mkRun 90 94 (-15038); mkRun 95 95 (-15036); mkRun 96 96 (-15580);
  mkRun 97 97 (-21548); mkRun 98 98 (-16104); mkRun 99 99 (-11972); mkRun 100 100 (-19960); mkRun 101 101 (-20414);
  mkRun 102 102 (-7666); mkRun 103 103 (-17862); mkRun 104 104 (-24399); mkRun 105 105 (-24551); mkRun 106 106 (-20124);
  mkRun 107 107 (-7658); mkRun 108 108 (-14105); mkRun 109 109 (-25471); mkRun 110 110 (-21652); mkRun 111 111 (-12410);
  mkRun 112 112 (-12699); mkRun 113 113 (-12584); mkRun 114 114 (-17551); mkRun 115 115 (-17898); mkRun 116 116 (-6210);
  mkRun 117 117 (-20321); mkRun 118 118 (-24411); mkRun 119 119 (-23998); mkRun 120 120 (-10836); mkRun 121 121 (-23258);
  mkRun 122 122 (-25774); mkRun 123 123 (-21689); mkRun 124 124 (-18264); mkRun 125 125 (-13951); mkRun 126 126 (-8663);
  mkRun 127 127 (-21162); mkRun 128 128 (-19931); mkRun 129 129 (-16294); mkRun 130 130 (-10754); mkRun 131 131 (-19316);
  mkRun 132 132 (-20600); mkRun 133 133 (-9636); mkRun 134 134 (-15195); mkRun 135 135 (-9375); mkRun 136 136 (-8450);
  mkRun 137 137 (-21345); mkRun 138 138 (-12015); mkRun 139 139 (-11691); mkRun 140 140 (-6589); mkRun 141 141 (-24332);
  mkRun 142 142 (-11322); mkRun 143 143 (-18245); mkRun 144 144 (-20964); mkRun 145 145 (-20970); mkRun 146 146 (-16980);
  mkRun 147 147 (-12295); mkRun 148 148 (-12452); mkRun 149 149 (-25603); mkRun 150 150 (-17968); mkRun 151 151 (-11529);
  mkRun 152 152 (-19980); mkRun 153 153 (-13825); mkRun 154 154 (-18654); mkRun 155 155 (-19427); mkRun 156 156 (-12180);
  mkRun 157 157 (-24393); mkRun 158 158 (-14217); mkRun 159 159 (-25401); mkRun 160 160 (-24917); mkRun 161 161 (-17815);
  mkRun 162 162 (-22177); mkRun 163 163 (-9335); mkRun 164 164 (-20243); mkRun 165 165 (-24349); mkRun 166 166 (-12219);
  mkRun 167 167 (-12210); mkRun 168 168 (-19204); mkRun 169 169 (-14902); mkRun 170 170 (-20142); mkRun 171 171 (-22285);
  mkRun 172 172 (-22105); mkRun 173 173 (-21760); mkRun 174 174 (-9992); mkRun 175 175 (-20522); mkRun 176 176 (-19197);
  mkRun 177 177 (-9848); mkRun 178 178 (-20211); mkRun 179 179 (-20282); mkRun 180 180 (-11180); mkRun 181 181 (-6507);
  mkRun 182 182 (-9952); mkRun 183 183 (-13272); mkRun 184 184 (-7687); mkRun 185 185 (-25683); mkRun 186 186 (-7403);
  mkRun 187 187 (-6744); mkRun 188 188 (-19697); mkRun 189 189 (-16360)
].

Definition runs_B3 : list GbkRun := [
  mkRun 0 0 (-15194); mkRun 1 1 (-15193); mkRun 2 2 (-15192); mkRun 3 6 (-15188); mkRun 7 8 (-15187); mkRun 9 9 (-15186);
  mkRun 10 13 (-15185); mkRun 14 19 (-15179); mkRun 20 21 (-15178); mkRun 22 24 (-15176); mkRun 25 25 (-15174);
  mkRun 26 26 (-15173); mkRun 27 27 (-15170); mkRun 28 28 (-15169); mkRun 29 29 (-15167); mkRun 30 32 (-15166);
  mkRun 33 33 (-15165); mkRun 34 34 (-15162); mkRun 35 36 (-15161); mkRun 37 38 (-15159); mkRun 39 41 (-15158);
  mkRun 42 43 (-15157); mkRun 44 44 (-15151); mkRun 45 45 (-15150); mkRun 46 49 (-15149); mkRun 50 50 (-15148);
  mkRun 51 54 (-15147); mkRun 55 55 (-15146); mkRun 56 56 (-15145); mkRun 57 57 (-15144); mkRun 58 59 (-15143);
  mkRun 60 62 (-15140); mkRun 63 64 (-15141); mkRun 65 76 (-15140); mkRun 77 84 (-15135); mkRun 85 88 (-15134);
  mkRun 89 95 (-15133); mkRun 96 96 (-23655); mkRun 97 97 (-22405); mkRun 98 98 (-21867); mkRun 99 99 (-7717);
  mkRun 100 100 (-25382); mkRun 101 101 (-13062); mkRun 102 102 (-24613); mkRun 103 103 (-20042); mkRun 104 104 (-15972);
  mkRun 105 105 (-24185); mkRun 106 106 (-25482); mkRun 107 107 (-9767); mkRun 108 108 (-20777); mkRun 109 109 (-7952);
  mkRun 110 110 (-19602); mkRun 111 111 (-23934); mkRun 112 112 (-17475); mkRun 113 113 (-21968); mkRun 114 114 (-24446);
  mkRun 115 115 (-17186); mkRun 116 116 (-9295); mkRun 117 117 (-20807); mkRun 118 118 (-20243); mkRun 119 119 (-20501);
  mkRun 120 120 (-21566); mkRun 121 121 (-17458); mkRun 122 122 (-8903); mkRun 123 123 (-12761); mkRun 124 124 (-9229);
  mkRun 125 125 (-22438); mkRun 126 126 (-19799); mkRun 127 127 (-21455); mkRun 128 128 (-18232); mkRun 129 129 (-7546);
  mkRun 130 130 (-9794); mkRun 131 131 (-11096); mkRun 132 132 (-20276); mkRun 133 133 (-14806); mkRun 134 134 (-23545);
  mkRun 135 135 (-18799); mkRun 136 136 (-20921); mkRun 137 137 (-24450); mkRun 138 138 (-25971); mkRun 139 139 (-14785);
  mkRun 140 140 (-21220); mkRun 141 141 (-17482); mkRun 142 142 (-10229); mkRun 143 143 (-20817); mkRun 144 144 (-9139);
  mkRun 145 145 (-6471); mkRun 146 146 (-14831); mkRun 147 147 (-24529); mkRun 148 148 (-15841); mkRun 149 149 (-20693);
  mkRun 150 150 (-24766); mkRun 151 151 (-18296); mkRun 152 152 (-9210); mkRun 153 153 (-21695); mkRun 154 154 (-6507);
  mkRun 155 155 (-13217); mkRun 156 156 (-5214); mkRun 157 157 (-25686); mkRun 158 158 (-22437); mkRun 159 159 (-9852);
  mkRun 160 160 (-13340); mkRun 161 161 (-20029); mkRun 162 162 (-17190); mkRun 163 163 (-25247); mkRun 164 164 (-25139);
  mkRun 165 165 (-11643); mkRun 166 166 (-22240); mkRun 167 167 (-22600); mkRun 168 168 (-20780); mkRun 169 169 (-8830);
  mkRun 170 170 (-15991); mkRun 171 171 (-9696); mkRun 172 172 (-14797); mkRun 173 173 (-21229); mkRun 174 174 (-14454);
  mkRun 175 175 (-25897); mkRun 176 176 (-13561); mkRun 177 177 (-15469); mkRun 178 178 (-26082); mkRun 179 179 (-12807);
  mkRun 180 180 (-25048); mkRun 181 181 (-25084); mkRun 182 182 (-18822); mkRun 183 183 (-24656); mkRun 184 184 (-9586);
  mkRun 185 185 (-7926); mkRun 186 186 (-7468); mkRun 187 187 (-17723); mkRun 188 188 (-7577); mkRun 189 189 (-19108)
].

Definition runs_B4 : list GbkRun := [
  mkRun 0 2 (-15292); mkRun 3 3 (-15291); mkRun 4 5 (-15290); mkRun 6 7 (-15287); mkRun 8 8 (-15286); mkRun 9 11 (-15285);
  mkRun 12 12 (-15283); mkRun 13 14 (-15280); mkRun 15 15 (-15279); mkRun 16 16 (-15278); mkRun 17 17 (-15277);
  mkRun 18 18 (-15276); mkRun 19 26 (-15275); mkRun 27 30 (-15270); mkRun 31 34 (-15269); mkRun 35 36 (-15268);
  mkRun 37 39 (-15267); mkRun 40 42 (-15266); mkRun 43 46 (-15263); mkRun 47 49 (-15262); mkRun 50 52 (-15260);
  mkRun 53 62 (-15259); mkRun 63 66 (-15260); mkRun 67 69 (-15259); mkRun 70 74 (-15258); mkRun 75 75 (-15257);
  mkRun 76 77 (-15256); mkRun 78 79 (-15255); mkRun 80 85 (-15254); mkRun 86 88 (-15253); mkRun 89 95 (-15252);
  mkRun 96 96 (-15457); mkRun 97 97 (-25594); mkRun 98 98 (-15564); mkRun 99 99 (-20628); mkRun 100 100 (-10943);
  mkRun 101 101 (-23458); mkRun 102 102 (-20676); mkRun 103 103 (-22219); mkRun 104 104 (-14890); mkRun 105 105 (-19309);
  mkRun 106 106 (-25995); mkRun 107 107 (-12915); mkRun 108 108 (-24341); mkRun 109 109 (-26236); mkRun 110 110 (-16129);
  mkRun 111 111 (-14873); mkRun 112 112 (-22095); mkRun 113 113 (-22056); mkRun 114 114 (-7876); mkRun 115 115 (-25241);
  mkRun 116 116 (-24700); mkRun 117 117 (-17452); mkRun 118 118 (-20801); mkRun 119 119 (-8084); mkRun 120 120 (-23863);
  mkRun 121 121 (-20117); mkRun 122 122 (-19324); mkRun 123 123 (-9013); mkRun 124 124 (-24502); mkRun 125 125 (-18123);
  mkRun 126 126 (-13840); mkRun 127 127 (-11422); mkRun 128 128 (-21134); mkRun 129 129 (-13778); mkRun 130 130 (-16142);
  mkRun 131 131 (-12700); mkRun 132 132 (-15364); mkRun 133 133 (-7674); mkRun 134 134 (-9513); mkRun 135 135 (-21376);
  mkRun 136 136 (-16338); mkRun 137 137 (-10493); mkRun 138 138 (-18791); mkRun 139 139 (-25234); mkRun 140 140 (-10109);
  mkRun 141 141 (-18861); mkRun 142 142 (-13413); mkRun 143 143 (-12383); mkRun 144 144 (-24032); mkRun 145 145 (-25036);
  mkRun 146 146 (-26117); mkRun 147 147 (-26297); mkRun 148 148 (-25348); mkRun 149 149 (-14399); mkRun 150 150 (-9036);
  mkRun 151 151 (-14545); mkRun 152 152 (-25878); mkRun 153 153 (-9819); mkRun 154 154 (-14586); mkRun 155 155 (-14912);
  mkRun 156 156 (-20598); mkRun 157 157 (-22474); mkRun 158 158 (-25651); mkRun 159 159 (-13274); mkRun 160 160 (-16096);
  mkRun 161 161 (-14377); mkRun 162 162 (-18167); mkRun 163 163 (-13572); mkRun 164 164 (-19860); mkRun 165 165 (-22926);
  mkRun 166 166 (-22767); mkRun 167 167 (-15389); mkRun 168 168 (-20539); mkRun 169 169 (-20695); mkRun 170 170 (-20801);
  mkRun 171 171 (-20929); mkRun 172 172 (-8148); mkRun 173 173 (-20673); mkRun 174 174 (-9521); mkRun 175 175 (-14748);
  mkRun 176 176 (-16072); mkRun 177 177 (-21151); mkRun 178 178 (-23500); mkRun 179 179 (-24750); mkRun 180 180 (-18812);
  mkRun 181 181 (-25683); mkRun 182 182 (-21187); mkRun 183 183 (-22226); mkRun 184 184 (-18803); mkRun 185 185 (-26135);
  mkRun 186 186 (-10180); mkRun 187 187 (-11377); mkRun 188 188 (-21880); mkRun 189 189 (-9424)
].

Definition runs_B5 : list GbkRun := [
  mkRun 0 5 (-15411); mkRun 6 15 (-15410); mkRun 16 20 (-15409); mkRun 21 35 (-15408); mkRun 36 40 (-15407);
  mkRun 41 41 (-15404); mkRun 42 42 (-15403); mkRun 43 46 (-15401); mkRun 47 47 (-15400); mkRun 48 56 (-15398);
  mkRun 57 58 (-15397); mkRun 59 60 (-15395); mkRun 61 61 (-15388); mkRun 62 62 (-15387); mkRun 63 63 (-15388);
  mkRun 64 64 (-15387); mkRun 65 68 (-15385); mkRun 69 69 (-15384); mkRun 70 76 (-15383); mkRun 77 77 (-15381);
  mkRun 78 82 (-15380); mkRun 83 84 (-15378); mkRun 85 88 (-15376); mkRun 89 92 (-15375); mkRun 93 95 (-15374);
  mkRun 96 96 (-21889); mkRun 97 97 (-13669); mkRun 98 98 (-21214); mkRun 99 99 (-26475); mkRun 100 100 (-25168);
  mkRun 101 101 (-9390); mkRun 102 102 (-20975); mkRun 103 103 (-13538); mkRun 104 104 (-20419); mkRun 105 105 (-18812);
  mkRun 106 106 (-26213); mkRun 107 107 (-21694); mkRun 108 108 (-18380); mkRun 109 109 (-10704); mkRun 110 110 (-22134);
  mkRun 111 111 (-12005); mkRun 112 112 (-22110); mkRun 113 113 (-21137); mkRun 114 114 (-25689); mkRun 115 115 (-12883);
  mkRun 116 116 (-19794); mkRun 117 117 (-25526); mkRun 118 118 (-21076); mkRun 119 119 (-10096); mkRun 120 120 (-26023);
  mkRun 121 121 (-22815); mkRun 122 122 (-15428); mkRun 123 123 (-22976); mkRun 124 124 (-25485); mkRun 125 125 (-15235);
  mkRun 126 126 (-21763); mkRun 127 127 (-9581); mkRun 128 128 (-16106); mkRun 129 129 (-22027); mkRun 130 130 (-22060);
  mkRun 131 131 (-16192); mkRun 132 132 (-10073); mkRun 133 133 (-17751); mkRun 134 134 (-16204); mkRun 135 135 (-14975);
  mkRun 136 136 (-15903); mkRun 137 137 (-25559); mkRun 138 138 (-9528); mkRun 139 139 (-23976); mkRun 140 140 (-26239);
  mkRun 141 141 (-18138); mkRun 142 142 (-9701); mkRun 143 143 (-20612); mkRun 144 144 (-15030); mkRun 145 145 (-17166);
  mkRun 146 146 (-18479); mkRun 147 147 (-13813); mkRun 148 148 (-23284); mkRun 149 149 (-21281); mkRun 150 150 (-22338);
  mkRun 151 151 (-24232); mkRun 152 152 (-12631); mkRun 153 153 (-15022); mkRun 154 154 (-22462); mkRun 155 155 (-22205);
  mkRun 156 156 (-9675); mkRun 157 157 (-14026); mkRun 158 158 (-7487); mkRun 159 159 (-21086); mkRun 160 160 (-18202);
  mkRun 161 161 (-15690); mkRun 162 162 (-17706); mkRun 163 163 (-25708); mkRun 164 164 (-7818); mkRun 165 165 (-24123);
  mkRun 166 166 (-16562); mkRun 167 167 (-26277); mkRun 168 168 (-16561); mkRun 169 169 (-22355); mkRun 170 170 (-21765);
  mkRun 171 171 (-23692); mkRun 172 172 (-18477); mkRun 173 173 (-18991); mkRun 174 174 (-15718); mkRun 175 175 (-25076);
  mkRun 176 176 (-7964); mkRun 177 177 (-25639); mkRun 178 178 (-25586); mkRun 179 179 (-21099); mkRun 180 180 (-25067);
  mkRun 181 181 (-8547); mkRun 182 182 (-10740); mkRun 183 183 (-10284); mkRun 184 184 (-17344); mkRun 185 185 (-15707);
  mkRun 186 186 (-11909); mkRun 187 187 (-9743); mkRun 188 188 (-10736); mkRun 189 189 (-25118)
].

Definition runs_B6 : list GbkRun := [
  mkRun 0 6 (-15533); mkRun 7 18 (-15532); mkRun 19 29 (-15531); mkRun 30 34 (-15530); mkRun 35 35 (-15527);
  mkRun 36 36 (-15525); mkRun 37 37 (-15523); mkRun 38 39 (-15522); mkRun 40 41 (-15521); mkRun 42 42 (-15520);
  mkRun 43 43 (-15519); mkRun 44 46 (-15518); mkRun 47 48 (-15516); mkRun 49 50 (-15515); mkRun 51 56 (-15514);
  mkRun 57 59 (-15513); mkRun 60 60 (-15511); mkRun 61 61 (-15509); mkRun 62 63 (-15508); mkRun 64 64 (-15507);
  mkRun 65 71 (-15505); mkRun 72 73 (-15504); mkRun 74 74 (-15503); mkRun 75 76 (-15502); mkRun 77 77 (-15501);
  mkRun 78 79 (-15499); mkRun 80 83 (-15498); mkRun 84 84 (-15497); mkRun 85 89 (-15495); mkRun 90 91 (-15494);
  mkRun 92 93 (-15493); mkRun 94 95 (-15492); mkRun 96 96 (-26784); mkRun 97 97 (-16307); mkRun 98 98 (-25269);
  mkRun 99 99 (-8731); mkRun 100 100 (-7727); mkRun 101 101 (-6040); mkRun 102 102 (-8570); mkRun 103 103 (-23310);
  mkRun 104 104 (-11015); mkRun 105 105 (-26760); mkRun 106 106 (-26767); mkRun 107 107 (-25856); mkRun 108 108 (-12874);
  mkRun 109 109 (-21740); mkRun 110 110 (-25607); mkRun 111 111 (-20133); mkRun 112 112 (-26394); mkRun 113 113 (-22087);
  mkRun 114 114 (-25848); mkRun 115 115 (-18838); mkRun 116 116 (-25945); mkRun 117 117 (-21536); mkRun 118 118 (-20768);
  mkRun 119 119 (-8279); mkRun 120 120 (-10867); mkRun 121 121 (-9891); mkRun 122 122 (-16611); mkRun 123 123 (-9663);
  mkRun 124 124 (-16218); mkRun 125 125 (-19180); mkRun 126 126 (-17461); mkRun 127 127 (-17364); mkRun 128 128 (-10950);
  mkRun 129 129 (-24205); mkRun 130 130 (-16202); mkRun 131 131 (-10616); mkRun 132 132 (-20329); mkRun 133 133 (-8582);
  mkRun 134 134 (-13869); mkRun 135 135 (-22562); mkRun 136 136 (-18600); mkRun 137 137 (-23864); mkRun 138 138 (-15324);
  mkRun 139 139 (-16095); mkRun 140 140 (-8594); mkRun 141 141 (-19225); mkRun 142 142 (-20770); mkRun 143 143 (-14274);
  mkRun 144 144 (-24267); mkRun 145 145 (-25985); mkRun 146 146 (-8372); mkRun 147 147 (-23259); mkRun 148 148 (-24108);
  mkRun 149 149 (-25262); mkRun 150 150 (-10341); mkRun 151 151 (-20850); mkRun 152 152 (-7770); mkRun 153 153 (-24566);
  mkRun 154 154 (-8766); mkRun 155 155 (-16350); mkRun 156 156 (-9884); mkRun 157 157 (-21335); mkRun 158 158 (-25113);
  mkRun 159 159 (-24006); mkRun 160 160 (-23975); mkRun 161 161 (-24391); mkRun 162 162 (-10289); mkRun 163 163 (-20399);
  mkRun 164 164 (-10475); mkRun 165 165 (-13489); mkRun 166 166 (-25766); mkRun 167 167 (-22008); mkRun 168 168 (-24276);
  mkRun 169 169 (-12268); mkRun 170 170 (-23043); mkRun 171 171 (-6311); mkRun 172 172 (-26409); mkRun 173 173 (-7761);
  mkRun 174 174 (-11062); mkRun 175 175 (-23755); mkRun 176 176 (-22139); mkRun 177 177 (-25454); mkRun 178 178 (-21623);
  mkRun 179 179 (-9893); mkRun 180 180 (-9715); mkRun 181 181 (-7543); mkRun 182 182 (-22158); mkRun 183 183 (-14060);
  mkRun 184 184 (-26042); mkRun 185 185 (-14023); mkRun 186 186 (-23271); mkRun 187 187 (-7559); mkRun 188 188 (-18892);
  mkRun 189 189 (-26738)
].

Definition runs_B7 : list GbkRun := [
  mkRun 0 0 (-15651); mkRun 1 1 (-15650); mkRun 2 3 (-15649); mkRun 4 18 (-15648); mkRun 19 21 (-15647); mkRun 22 22 (-15646);
  mkRun 23 23 (-15645); mkRun 24 24 (-15642); mkRun 25 30 (-15641); mkRun 31 40 (-15640); mkRun 41 45 (-15639);
  mkRun 46 62 (-15638); mkRun 63 69 (-15639); mkRun 70 72 (-15638); mkRun 73 73 (-15637); mkRun 74 77 (-15632);
  mkRun 78 78 (-15629); mkRun 79 79 (-15627); mkRun 80 80 (-15626); mkRun 81 84 (-15625); mkRun 85 87 (-15624);
  mkRun 88 89 (-15622); mkRun 90 92 (-15618); mkRun 93 93 (-15616); mkRun 94 95 (-15614); mkRun 96 96 (-10865);
  mkRun 97 97 (-25553); mkRun 98 98 (-14409); mkRun 99 99 (-15445); mkRun 100 100 (-26773); mkRun 101 101 (-26967);
  mkRun 102 102 (-8615); mkRun 103 103 (-19155); mkRun 104 104 (-17369); mkRun 105 105 (-12737); mkRun 106 106 (-22949);
  mkRun 107 107 (-16962); mkRun 108 108 (-14258); mkRun 109 109 (-19876); mkRun 110 110 (-16305); mkRun 111 111 (-8990);
  mkRun 112 112 (-14704); mkRun 113 113 (-26065); mkRun 114 114 (-18125); mkRun 115 115 (-25575); mkRun 116 116 (-10209);
  mkRun 117 117 (-13491); mkRun 118 118 (-10894); mkRun 119 119 (-17673); mkRun 120 120 (-7756); mkRun 121 121 (-19167);
  mkRun 122 122 (-24689); mkRun 123 123 (-13577); mkRun 124 124 (-20996); mkRun 125 125 (-14100); mkRun 126 126 (-21888);
  mkRun 127 127 (-8590); mkRun 128 128 (-24089); mkRun 129 129 (-26819); mkRun 130 130 (-11268); mkRun 131 131 (-14602);
  mkRun 132 132 (-21127); mkRun 133 133 (-13268); mkRun 134 134 (-8297); mkRun 135 135 (-25191); mkRun 136 136 (-7915);
  mkRun 137 137 (-14117); mkRun 138 138 (-25761); mkRun 139 139 (-11215); mkRun 140 140 (-25517); mkRun 141 141 (-14100);
  mkRun 142 142 (-22832); mkRun 143 143 (-19224); mkRun 144 144 (-10904); mkRun 145 145 (-13606); mkRun 146 146 (-9849);
  mkRun 147 147 (-25515); mkRun 148 148 (-19386); mkRun 149 149 (-26064); mkRun 150 150 (-14624); mkRun 151 151 (-24697);
  mkRun 152 152 (-18111); mkRun 153 153 (-19292); mkRun 154 154 (-15186); mkRun 155 155 (-24209); mkRun 156 156 (-26848);
  mkRun 157 157 (-22495); mkRun 158 158 (-22203); mkRun 159 159 (-15158); mkRun 160 160 (-27057); mkRun 161 161 (-23521);
  mkRun 162 162 (-20536); mkRun 163 163 (-12514); mkRun 164 164 (-23285); mkRun 165 165 (-8923); mkRun 166 166 (-7961);
  mkRun 167 167 (-16953); mkRun 168 168 (-18156); mkRun 169 169 (-10184); mkRun 170 170 (-26172); mkRun 171 171 (-14543);
  mkRun 172 172 (-11312); mkRun 173 173 (-24229); mkRun 174 174 (-26123); mkRun 175 175 (-26773); mkRun 176 176 (-25547);
  mkRun 177 177 (-24263); mkRun 178 178 (-21116); mkRun 179 179 (-14160); mkRun 180 180 (-23680); mkRun 181 181 (-21888);
  mkRun 182 182 (-21813); mkRun 183 183 (-10344); mkRun 184 184 (-22964); mkRun 185 185 (-19419); mkRun 186 186 (-15573);
  mkRun 187 187 (-26861); mkRun 188 188 (-26661); mkRun 189 189 (-20721)
].

Definition runs_B8 : list GbkRun := [
  mkRun 0 1 (-15773); mkRun 2 2 (-15771); mkRun 3 5 (-15770); mkRun 6 10 (-15768); mkRun 11 21 (-15767); mkRun 22 32 (-15766);
  mkRun 33 42 (-15765); mkRun 43 44 (-15764); mkRun 45 48 (-15763); mkRun 49 50 (-15760); mkRun 51 51 (-15759);
  mkRun 52 57 (-15757); mkRun 58 58 (-15756); mkRun 59 62 (-15755); mkRun 63 67 (-15756); mkRun 68 69 (-15754);
  mkRun 70 70 (-15753); mkRun 71 73 (-15752); mkRun 74 74 (-15750); mkRun 75 75 (-15749); mkRun 76 76 (-15748);
  mkRun 77 79 (-15746); mkRun 80 80 (-15745); mkRun 81 82 (-15744); mkRun 83 85 (-15742); mkRun 86 86 (-15741);
  mkRun 87 88 (-15740); mkRun 89 89 (-15739); mkRun 90 92 (-15738); mkRun 93 93 (-15735); mkRun 94 94 (-15734);
  mkRun 95 95 (-15731); mkRun 96 96 (-19251); mkRun 97 97 (-19192); mkRun 98 98 (-16148); mkRun 99 99 (-12275);
  mkRun 100 100 (-22926); mkRun 101 101 (-17275); mkRun 102 102 (-22029); mkRun 103 103 (-10531); mkRun 104 104 (-26810);
  mkRun 105 105 (-9934); mkRun 106 106 (-21252); mkRun 107 107 (-14205); mkRun 108 108 (-14172); mkRun 109 109 (-23058);
  mkRun 110 110 (-14175); mkRun 111 111 (-11068); mkRun 112 112 (-26178); mkRun 113 113 (-12076); mkRun 114 114 (-11112);
  mkRun 115 115 (-24487); mkRun 116 116 (-26672); mkRun 117 117 (-27102); mkRun 118 118 (-8859); mkRun 119 119 (-18050);
  mkRun 120 120 (-14144); mkRun 121 121 (-11163); mkRun 122 122 (-23791); mkRun 123 123 (-11545); mkRun 124 124 (-8825);
  mkRun 125 125 (-24375); mkRun 126 126 (-14757); mkRun 127 127 (-25648); mkRun 128 128 (-25163); mkRun 129 129 (-25268);
  mkRun 130 130 (-11486); mkRun 131 131 (-21387); mkRun 132 132 (-20291); mkRun 133 133 (-9261); mkRun 134 134 (-16881);
  mkRun 135 135 (-19007); mkRun 136 136 (-23127); mkRun 137 137 (-17330); mkRun 138 138 (-20869); mkRun 139 139 (-20731);
  mkRun 140 140 (-15822); mkRun 141 141 (-14385); mkRun 142 142 (-11097); mkRun 143 143 (-22449); mkRun 144 144 (-16139);
  mkRun 145 145 (-21360); mkRun 146 146 (-11120); mkRun 147 147 (-26444); mkRun 148 148 (-26299); mkRun 149 149 (-9268);
  mkRun 150 150 (-14751); mkRun 151 151 (-14397); mkRun 152 152 (-14887); mkRun 153 153 (-23619); mkRun 154 154 (-19116);
  mkRun 155 155 (-20860); mkRun 156 156 (-15620); mkRun 157 157 (-16979); mkRun 158 158 (-7687); mkRun 159 159 (-14161);
  mkRun 160 160 (-14669); mkRun 161 161 (-15373); mkRun 162 162 (-21701); mkRun 163 163 (-9108); mkRun 164 164 (-16038);
  mkRun 165 165 (-25756); mkRun 166 166 (-25602); mkRun 167 167 (-19868); mkRun 168 168 (-21736); mkRun 169 169 (-22242);
  mkRun 170 170 (-6830); mkRun 171 171 (-14329); mkRun 172 172 (-17236); mkRun 173 173 (-26236); mkRun 174 174 (-8582);
  mkRun 175 175 (-13461); mkRun 176 176 (-20661); mkRun 177 177 (-12814); mkRun 178 178 (-8946); mkRun 179 179 (-8800);
  mkRun 180 180 (-9225); mkRun 181 181 (-27340); mkRun 182 182 (-25843); mkRun 183 183 (-14879); mkRun 184 184 (-20672);
  mkRun 185 185 (-11035); mkRun 186 186 (-14566); mkRun 187 187 (-21000); mkRun 188 188 (-23139); mkRun 189 189 (-14661)
].

Definition runs_B9 : list GbkRun := [
  mkRun 0 1 (-15889); mkRun 2 2 (-15888); mkRun 3 6 (-15887); mkRun 7 7 (-15886); mkRun 8 8 (-15885); mkRun 9 9 (-15884);
  mkRun 10 15 (-15883); mkRun 16 16 (-15882); mkRun 17 17 (-15881); mkRun 18 18 (-15880); mkRun 19 20 (-15878);
  mkRun 21 21 (-15874); mkRun 22 22 (-15873); mkRun 23 23 (-15872); mkRun 24 24 (-15871); mkRun 25 25 (-15869);
  mkRun 26 27 (-15868); mkRun 28 28 (-15867); mkRun 29 39 (-15866); mkRun 40 41 (-15865); mkRun 42 43 (-15863);
  mkRun 44 44 (-15862); mkRun 45 45 (-15861); mkRun 46 46 (-15860); mkRun 47 48 (-15859); mkRun 49 49 (-15858);
  mkRun 50 53 (-15857); mkRun 54 60 (-15856); mkRun 61 65 (-15855); mkRun 66 66 (-15853); mkRun 67 70 (-15852);
  mkRun 71 73 (-15850); mkRun 74 76 (-15848); mkRun 77 79 (-15840); mkRun 80 81 (-15839); mkRun 82 84 (-15838);
  mkRun 85 92 (-15837); mkRun 93 95 (-15836); mkRun 96 96 (-25055); mkRun 97 97 (-14691); mkRun 98 98 (-20748);
  mkRun 99 99 (-23487); mkRun 100 100 (-21610); mkRun 101 101 (-26375); mkRun 102 102 (-22842); mkRun 103 103 (-6670);
  mkRun 104 104 (-27150); mkRun 105 105 (-11006); mkRun 106 106 (-26687); mkRun 107 107 (-24065); mkRun 108 108 (-23194);
  mkRun 109 109 (-23493); mkRun 110 110 (-19793); mkRun 111 111 (-22207); mkRun 112 112 (-11408); mkRun 113 113 (-26689);
  mkRun 114 114 (-9482); mkRun 115 115 (-26294); mkRun 116 116 (-19734); mkRun 117 117 (-14039); mkRun 118 118 (-18144);
  mkRun 119 119 (-25110); mkRun 120 120 (-21045); mkRun 121 121 (-11405); mkRun 122 122 (-24732); mkRun 123 123 (-10784);
  mkRun 124 124 (-13814); mkRun 125 125 (-25897); mkRun 126 126 (-15922); mkRun 127 127 (-27280); mkRun 128 128 (-19716);
  mkRun 129 129 (-24158); mkRun 130 130 (-24562); mkRun 131 131 (-6833); mkRun 132 132 (-26081); mkRun 133 133 (-13052);
  mkRun 134 134 (-7967); mkRun 135 135 (-11665); mkRun 136 136 (-14632); mkRun 137 137 (-21637); mkRun 138 138 (-8525);
  mkRun 139 139 (-25298); mkRun 140 140 (-8966); mkRun 141 141 (-26528); mkRun 142 142 (-17651); mkRun 143 143 (-26496);
  mkRun 144 144 (-24048); mkRun 145 145 (-22224); mkRun 146 146 (-12497); mkRun 147 147 (-27518); mkRun 148 148 (-22277);
  mkRun 149 149 (-22956); mkRun 150 150 (-20701); mkRun 151 151 (-26725); mkRun 152 152 (-24129); mkRun 153 153 (-26682);
  mkRun 154 154 (-12313); mkRun 155 155 (-15931); mkRun 156 156 (-8279); mkRun 157 157 (-14990); mkRun 158 158 (-22768);
  mkRun 159 159 (-18836); mkRun 160 160 (-11442); mkRun 161 161 (-26777); mkRun 162 162 (-23396); mkRun 163 163 (-10697);
  mkRun 164 164 (-17781); mkRun 165 165 (-12322); mkRun 166 166 (-25274); mkRun 167 167 (-16803); mkRun 168 168 (-23191);
  mkRun 169 169 (-6731); mkRun 170 170 (-9201); mkRun 171 171 (-10884); mkRun 172 172 (-7857); mkRun 173 173 (-11789);
  mkRun 174 174 (-17271); mkRun 175 175 (-20910); mkRun 176 176 (-21013); mkRun 177 177 (-11272); mkRun 178 178 (-11454);
  mkRun 179 179 (-26551); mkRun 180 180 (-10859); mkRun 181 181 (-19228); mkRun 182 182 (-20778); mkRun 183 183 (-9459);
  mkRun 184 184 (-10508); mkRun 185 185 (-25341); mkRun 186 186 (-21087); mkRun 187 187 (-12547); mkRun 188 188 (-10806);
  mkRun 189 189 (-25910)
].

Definition runs_BA : list GbkRun := [
  mkRun 0 0 (-15995); mkRun 1 4 (-15993); mkRun 5 8 (-15992); mkRun 9 9 (-15991); mkRun 10 14 (-15990); mkRun 15 16 (-15988);
  mkRun 17 19 (-15987); mkRun 20 22 (-15986); mkRun 23 25 (-15984); mkRun 26 28 (-15983); mkRun 29 30 (-15982);
  mkRun 31 35 (-15981); mkRun 36 39 (-15980); mkRun 40 40 (-15979); mkRun 41 48 (-15978); mkRun 49 51 (-15977);
  mkRun 52 53 (-15975); mkRun 54 59 (-15974); mkRun 60 62 (-15973); mkRun 63 67 (-15974); mkRun 68 73 (-15973);
  mkRun 74 75 (-15971); mkRun 76 88 (-15970); mkRun 89 94 (-15969); mkRun 95 95 (-15966); mkRun 96 96 (-8169);
  mkRun 97 97 (-24377); mkRun 98 98 (-19756); mkRun 99 99 (-20094); mkRun 100 100 (-27648); mkRun 101 101 (-24307);
  mkRun 102 102 (-8224); mkRun 103 103 (-10565); mkRun 104 104 (-22785); mkRun 105 105 (-10747); mkRun 106 106 (-8898);
  mkRun 107 107 (-26241); mkRun 108 108 (-19704); mkRun 109 109 (-24284); mkRun 110 110 (-26802); mkRun 111 111 (-25894);
  mkRun 112 112 (-15196); mkRun 113 113 (-15042); mkRun 114 114 (-22007); mkRun 115 115 (-22375); mkRun 116 116 (-21700);
  mkRun 117 117 (-22776); mkRun 118 118 (-23082); mkRun 119 119 (-18862); mkRun 120 120 (-20066); mkRun 121 121 (-20081);
  mkRun 122 122 (-24972); mkRun 123 123 (-21327); mkRun 124 124 (-14483); mkRun 125 125 (-25065); mkRun 126 126 (-25649);
  mkRun 127 127 (-11862); mkRun 128 128 (-20182); mkRun 129 129 (-10725); mkRun 130 130 (-24902); mkRun 131 131 (-15021);
  mkRun 132 132 (-26318); mkRun 133 133 (-19805); mkRun 134 134 (-26194); mkRun 135 135 (-25899); mkRun 136 136 (-14162);
  mkRun 137 137 (-14075); mkRun 138 138 (-21139); mkRun 139 139 (-16654); mkRun 140 140 (-26177); mkRun 141 141 (-27513);
  mkRun 142 142 (-26311); mkRun 143 143 (-17406); mkRun 144 144 (-11848); mkRun 145 145 (-9424); mkRun 146 146 (-20000);
  mkRun 147 147 (-19740); mkRun 148 148 (-11626); mkRun 149 149 (-12742); mkRun 150 150 (-7283); mkRun 151 151 (-11678);
  mkRun 152 152 (-25754); mkRun 153 153 (-7177); mkRun 154 154 (-17670); mkRun 155 155 (-23380); mkRun 156 156 (-18429);
  mkRun 157 157 (-23158); mkRun 158 158 (-26083); mkRun 159 159 (-27704); mkRun 160 160 (-20663); mkRun 161 161 (-12929);
  mkRun 162 162 (-23185); mkRun 163 163 (-11124); mkRun 164 164 (-26145); mkRun 165 165 (-18958); mkRun 166 166 (-13422);
  mkRun 167 167 (-7337); mkRun 168 168 (-19903); mkRun 169 169 (-24411); mkRun 170 170 (-23507); mkRun 171 171 (-15434);
  mkRun 172 172 (-25956); mkRun 173 173 (-27455); mkRun 174 174 (-18363); mkRun 175 175 (-26292); mkRun 176 176 (-26455);
  mkRun 177 177 (-27353); mkRun 178 178 (-26341); mkRun 179 179 (-26232); mkRun 180 180 (-27815); mkRun 181 181 (-23289);
  mkRun 182 182 (-18077); mkRun 183 183 (-25090); mkRun 184 184 (-13966); mkRun 185 185 (-14873); mkRun 186 186 (-13191);
  mkRun 187 187 (-18476); mkRun 188 188 (-15923); mkRun 189 189 (-19624)
].

Definition runs_BB : list GbkRun := [
  mkRun 0 9 (-16125); mkRun 10 46 (-16124); mkRun 47 52 (-16122); mkRun 53 62 (-16119); mkRun 63 63 (-16120);
  mkRun 64 70 (-16119); mkRun 71 72 (-16117); mkRun 73 73 (-16116); mkRun 74 76 (-16114); mkRun 77 78 (-16110);
  mkRun 79 79 (-16109); mkRun 80 83 (-16107); mkRun 84 86 (-16106); mkRun 87 88 (-16105); mkRun 89 93 (-16102);
  mkRun 94 95 (-16101); mkRun 96 96 (-23674); mkRun 97 97 (-13652); mkRun 98 98 (-26231); mkRun 99 99 (-22784);
  mkRun 100 100 (-27923); mkRun 101 101 (-20220); mkRun 102 102 (-22896); mkRun 103 103 (-14583); mkRun 104 104 (-26322);
  mkRun 105 105 (-26716); mkRun 106 106 (-18541); mkRun 107 107 (-19675); mkRun 108 108 (-18034); mkRun 109 109 (-27036);
  mkRun 110 110 (-26777); mkRun 111 111 (-12243); mkRun 112 112 (-20961); mkRun 113 113 (-23592); mkRun 114 114 (-23475);
  mkRun 115 115 (-19910); mkRun 116 116 (-25702); mkRun 117 117 (-20628); mkRun 118 118 (-18440); mkRun 119 119 (-21349);
  mkRun 120 120 (-11233); mkRun 121 121 (-15527); mkRun 122 122 (-22617); mkRun 123 123 (-23321); mkRun 124 124 (-26265);
  mkRun 125 125 (-17876); mkRun 126 126 (-12125); mkRun 127 127 (-19115); mkRun 128 128 (-19998); mkRun 129 129 (-24604);
  mkRun 130 130 (-23880); mkRun 131 131 (-14450); mkRun 132 132 (-23161); mkRun 133 133 (-7426); mkRun 134 134 (-17101);
  mkRun 135 135 (-13425); mkRun 136 136 (-16290); mkRun 137 137 (-17731); mkRun 138 138 (-27099); mkRun 139 139 (-23254);
  mkRun 140 140 (-19073); mkRun 141 141 (-21899); mkRun 142 142 (-23939); mkRun 143 143 (-23427); mkRun 144 144 (-12227);
  mkRun 145 145 (-19298); mkRun 146 146 (-22702); mkRun 147 147 (-11339); mkRun 148 148 (-23576); mkRun 149 149 (-23412);
  mkRun 150 150 (-13571); mkRun 151 151 (-25850); mkRun 152 152 (-20504); mkRun 153 153 (-23366); mkRun 154 154 (-23156);
  mkRun 155 155 (-26771); mkRun 156 156 (-23293); mkRun 157 157 (-21880); mkRun 158 158 (-11936); mkRun 159 159 (-16867);
  mkRun 160 160 (-27847); mkRun 161 161 (-19193); mkRun 162 162 (-20380); mkRun 163 163 (-12337); mkRun 164 164 (-12275);
  mkRun 165 165 (-15630); mkRun 166 166 (-14467); mkRun 167 167 (-21977); mkRun 168 168 (-24975); mkRun 169 169 (-8360);
  mkRun 170 170 (-20122); mkRun 171 171 (-19957); mkRun 172 172 (-12204); mkRun 173 173 (-20147); mkRun 174 174 (-27862);
  mkRun 175 175 (-19333); mkRun 176 176 (-14394); mkRun 177 177 (-23004); mkRun 178 178 (-23330); mkRun 179 179 (-9447);
  mkRun 180 180 (-11982); mkRun 181 181 (-17022); mkRun 182 182 (-27132); mkRun 183 183 (-25786); mkRun 184 184 (-25599);
  mkRun 185 185 (-21696); mkRun 186 186 (-18051); mkRun 187 187 (-16831); mkRun 188 188 (-16910); mkRun 189 189 (-16489)
].

Definition runs_BC : list GbkRun := [
  mkRun 0 1 (-16257); mkRun 2 4 (-16256); mkRun 5 5 (-16255); mkRun 6 6 (-16253); mkRun 7 7 (-16252); mkRun 8 14 (-16250);
  mkRun 15 15 (-16247); mkRun 16 17 (-16246); mkRun 18 19 (-16245); mkRun 20 26 (-16243); mkRun 27 32 (-16242);
  mkRun 33 40 (-16241); mkRun 41 42 (-16240); mkRun 43 56 (-16239); mkRun 57 62 (-16238); mkRun 63 77 (-16239);
  mkRun 78 78 (-16238); mkRun 79 82 (-16237); mkRun 83 85 (-16236); mkRun 86 88 (-16235); mkRun 89 95 (-16234);
  mkRun 96 96 (-15381); mkRun 97 97 (-9021); mkRun 98 98 (-11434); mkRun 99 99 (-19684); mkRun 100 100 (-12544);
  mkRun 101 101 (-7813); mkRun 102 102 (-25275); mkRun 103 103 (-15807); mkRun 104 104 (-15776); mkRun 105 105 (-26785);
  mkRun 106 106 (-21802); mkRun 107 107 (-21460); mkRun 108 108 (-11548); mkRun 109 109 (-16481); mkRun 110 110 (-9705);
  mkRun 111 111 (-26854); mkRun 112 112 (-23692); mkRun 113 113 (-18164); mkRun 114 114 (-20545); mkRun 115 115 (-26945);
  mkRun 116 116 (-25068); mkRun 117 117 (-15887); mkRun 118 118 (-22931); mkRun 119 119 (-27352); mkRun 120 120 (-15279);
  mkRun 121 121 (-24265); mkRun 122 122 (-14300); mkRun 123 123 (-23100); mkRun 124 124 (-27453); mkRun 125 125 (-24923);
  mkRun 126 126 (-28081); mkRun 127 127 (-17235); mkRun 128 128 (-27263); mkRun 129 129 (-23562); mkRun 130 130 (-20341);
  mkRun 131 131 (-24832); mkRun 132 132 (-24835); mkRun 133 133 (-12581); mkRun 134 134 (-12567); mkRun 135 135 (-22246);
  mkRun 136 136 (-23805); mkRun 137 137 (-9861); mkRun 138 138 (-25400); mkRun 139 139 (-15845); mkRun 140 140 (-15907);
  mkRun 141 141 (-26309); mkRun 142 142 (-21784); mkRun 143 143 (-25495); mkRun 144 144 (-27998); mkRun 145 145 (-24860);
  mkRun 146 146 (-27187); mkRun 147 147 (-14714); mkRun 148 148 (-9291); mkRun 149 149 (-12184); mkRun 150 150 (-18341);
  mkRun 151 151 (-10266); mkRun 152 152 (-27794); mkRun 153 153 (-17054); mkRun 154 154 (-28132); mkRun 155 155 (-21798);
  mkRun 156 156 (-8799); mkRun 157 157 (-25117); mkRun 158 158 (-20835); mkRun 159 159 (-17935); mkRun 160 160 (-25991);
  mkRun 161 161 (-24780); mkRun 162 162 (-16809); mkRun 163 163 (-9968); mkRun 164 164 (-19351); mkRun 165 165 (-27498);
  mkRun 166 166 (-15422); mkRun 167 167 (-14968); mkRun 168 168 (-25457); mkRun 169 169 (-15846); mkRun 170 170 (-14788);
  mkRun 171 171 (-21548); mkRun 172 172 (-21761); mkRun 173 173 (-17469); mkRun 174 174 (-17528); mkRun 175 175 (-23053);
  mkRun 176 176 (-22928); mkRun 177 177 (-16754); mkRun 178 178 (-27910); mkRun 179 179 (-27274); mkRun 180 180 (-27430);
  mkRun 181 181 (-14758); mkRun 182 182 (-21276); mkRun 183 183 (-10884); mkRun 184 184 (-12036); mkRun 185 185 (-12233);
  mkRun 186 186 (-13114); mkRun 187 187 (-10190); mkRun 188 188 (-16720); mkRun 189 189 (-28168)
].

Definition runs_BD : list GbkRun := [
  mkRun 0 54 (-16393); mkRun 55 95 (-16392); mkRun 96 96 (-27964); mkRun 97 97 (-15218); mkRun 98 98 (-27474);
  mkRun 99 99 (-9269); mkRun 100 100 (-20373); mkRun 101 101 (-20257); mkRun 102 102 (-20480); mkRun 103 103 (-24238);
  mkRun 104 104 (-27828); mkRun 105 105 (-25550); mkRun 106 106 (-24997); mkRun 107 107 (-20582); mkRun 108 108 (-20814);
  mkRun 109 109 (-18472); mkRun 110 110 (-14628); mkRun 111 111 (-21832); mkRun 112 112 (-25691); mkRun 113 113 (-12800);
  mkRun 114 114 (-27283); mkRun 115 115 (-11331); mkRun 116 116 (-10088); mkRun 117 117 (-14445); mkRun 118 118 (-21669);
  mkRun 119 119 (-17591); mkRun 120 120 (-19603); mkRun 121 121 (-15556); mkRun 122 122 (-28439); mkRun 123 123 (-11506);
  mkRun 124 124 (-20598); mkRun 125 125 (-9018); mkRun 126 126 (-25528); mkRun 127 127 (-26372); mkRun 128 128 (-22972);
  mkRun 129 129 (-10450); mkRun 130 130 (-17880); mkRun 131 131 (-28191); mkRun 132 132 (-15531); mkRun 133 133 (-19173);
  mkRun 134 134 (-13301); mkRun 135 135 (-9294); mkRun 136 136 (-16021); mkRun 137 137 (-16108); mkRun 138 138 (-27468);
  mkRun 139 139 (-22643); mkRun 140 140 (-11352); mkRun 141 141 (-11855); mkRun 142 142 (-11852); mkRun 143 143 (-27109);
  mkRun 144 144 (-17211); mkRun 145 145 (-23013); mkRun 146 146 (-23086); mkRun 147 147 (-18254); mkRun 148 148 (-17373);
  mkRun 149 149 (-13695); mkRun 150 150 (-10145); mkRun 151 151 (-23470); mkRun 152 152 (-27438); mkRun 153 153 (-15192);
  mkRun 154 154 (-21895); mkRun 155 155 (-22124); mkRun 156 156 (-23142); mkRun 157 157 (-18035); mkRun 158 158 (-17138);
  mkRun 159 159 (-20703); mkRun 160 160 (-16142); mkRun 161 161 (-13311); mkRun 162 162 (-25619); mkRun 163 163 (-23506);
  mkRun 164 164 (-14364); mkRun 165 165 (-15169); mkRun 166 166 (-18587); mkRun 167 167 (-28105); mkRun 168 168 (-28446);
  mkRun 169 169 (-18501); mkRun 170 170 (-12800); mkRun 171 171 (-24994); mkRun 172 172 (-24559); mkRun 173 173 (-17059);
  mkRun 174 174 (-22603); mkRun 175 175 (-11295); mkRun 176 176 (-28455); mkRun 177 177 (-20685); mkRun 178 178 (-13460);
  mkRun 179 179 (-16589); mkRun 180 180 (-10447); mkRun 181 181 (-28465); mkRun 182 182 (-12751); mkRun 183 183 (-11805);
  mkRun 184 184 (-9862); mkRun 185 185 (-22447); mkRun 186 186 (-17530); mkRun 187 187 (-11819); mkRun 188 188 (-19729);
  mkRun 189 189 (-20614)
].

Definition runs_BE : list GbkRun := [
  mkRun 0 12 (-16551); mkRun 13 19 (-16550); mkRun 20 62 (-16549); mkRun 63 95 (-16550); mkRun 96 96 (-25188);
  mkRun 97 97 (-27632); mkRun 98 98 (-15197); mkRun 99 99 (-27970); mkRun 100 100 (-15255); mkRun 101 101 (-18251);
  mkRun 102 102 (-22577); mkRun 103 103 (-8688); mkRun 104 104 (-28669); mkRun 105 105 (-24032); mkRun 106 106 (-16877);
  mkRun 107 107 (-16889); mkRun 108 108 (-16350); mkRun 109 109 (-28697); mkRun 110 110 (-13129); mkRun 111 111 (-22593);
  mkRun 112 112 (-9769); mkRun 113 113 (-10073); mkRun 114 114 (-26160); mkRun 115 115 (-22856); mkRun 116 116 (-10585);
  mkRun 117 117 (-24370); mkRun 118 118 (-18670); mkRun 119 119 (-10082); mkRun 120 120 (-17370); mkRun 121 121 (-17372);
  mkRun 122 122 (-27899); mkRun 123 123 (-19981); mkRun 124 124 (-17445); mkRun 125 125 (-23252); mkRun 126 126 (-17481);
  mkRun 127 127 (-16416); mkRun 128 128 (-19243); mkRun 129 129 (-9941); mkRun 130 130 (-28798); mkRun 131 131 (-20044);
  mkRun 132 132 (-28776); mkRun 133 133 (-11636); mkRun 134 134 (-27422); mkRun 135 135 (-22903); mkRun 136 136 (-22754);
  mkRun 137 137 (-15566); mkRun 138 138 (-15558); mkRun 139 139 (-27198); mkRun 140 140 (-25244); mkRun 141 141 (-18740);
  mkRun 142 142 (-10031); mkRun 143 143 (-23544); mkRun 144 144 (-19448); mkRun 145 145 (-18709); mkRun 146 146 (-25230);
  mkRun 147 147 (-9307); mkRun 148 148 (-15115); mkRun 149 149 (-25238); mkRun 150 150 (-27223); mkRun 151 151 (-18159);
  mkRun 152 152 (-28827); mkRun 153 153 (-21036); mkRun 154 154 (-16001); mkRun 155 155 (-23562); mkRun 156 156 (-23407);
  mkRun 157 157 (-24822); mkRun 158 158 (-28008); mkRun 159 159 (-12547); mkRun 160 160 (-12483); mkRun 161 161 (-10675);
  mkRun 162 162 (-28402); mkRun 163 163 (-27391); mkRun 164 164 (-24062); mkRun 165 165 (-20026); mkRun 166 166 (-27776);
  mkRun 167 167 (-23448); mkRun 168 168 (-8358); mkRun 169 169 (-25803); mkRun 170 170 (-28357); mkRun 171 171 (-18357);
  mkRun 172 172 (-27510); mkRun 173 173 (-16396); mkRun 174 174 (-23146); mkRun 175 175 (-22981); mkRun 176 176 (-23656);
  mkRun 177 177 (-23386); mkRun 178 178 (-28383); mkRun 179 179 (-19647); mkRun 180 180 (-13612); mkRun 181 181 (-27971);
  mkRun 182 182 (-13111); mkRun 183 183 (-16411); mkRun 184 184 (-26546); mkRun 185 185 (-15150); mkRun 186 186 (-10836);
  mkRun 187 187 (-28001); mkRun 188 188 (-27362); mkRun 189 189 (-25091)
].

Definition runs_BF : list GbkRun := [
  mkRun 0 62 (-16709); mkRun 63 63 (-16710); mkRun 64 68 (-16709); mkRun 69 73 (-16708); mkRun 74 95 (-16707);
  mkRun 96 96 (-28631); mkRun 97 97 (-17599); mkRun 98 98 (-21065); mkRun 99 99 (-11971); mkRun 100 100 (-9494);
  mkRun 101 101 (-27174); mkRun 102 102 (-27409); mkRun 103 103 (-27719); mkRun 104 104 (-27386); mkRun 105 105 (-24746);
  mkRun 106 106 (-23490); mkRun 107 107 (-22069); mkRun 108 108 (-28094); mkRun 109 109 (-24134); mkRun 110 110 (-28069);
  mkRun 111 111 (-26502); mkRun 112 112 (-27865); mkRun 113 113 (-26724); mkRun 114 114 (-18342); mkRun 115 115 (-18601);
  mkRun 116 116 (-24830); mkRun 117 117 (-24127); mkRun 118 118 (-17111); mkRun 119 119 (-23901); mkRun 120 120 (-23842);
  mkRun 121 121 (-28952); mkRun 122 122 (-20262); mkRun 123 123 (-16313); mkRun 124 124 (-23750); mkRun 125 125 (-20186);
  mkRun 126 126 (-10335); mkRun 127 127 (-26697); mkRun 128 128 (-15590); mkRun 129 129 (-22483); mkRun 130 130 (-22222);
  mkRun 131 131 (-18159); mkRun 132 132 (-10030); mkRun 133 133 (-17909); mkRun 134 134 (-26324); mkRun 135 135 (-27413);
  mkRun 136 136 (-27610); mkRun 137 137 (-20886); mkRun 138 138 (-28288); mkRun 139 139 (-28049); mkRun 140 140 (-25643);
  mkRun 141 141 (-13264); mkRun 142 142 (-16160); mkRun 143 143 (-27277); mkRun 144 144 (-26667); mkRun 145 145 (-24415);
  mkRun 146 146 (-26754); mkRun 147 147 (-27559); mkRun 148 148 (-17755); mkRun 149 149 (-24454); mkRun 150 150 (-25731);
  mkRun 151 151 (-23601); mkRun 152 152 (-23865); mkRun 153 153 (-27639); mkRun 154 154 (-23928); mkRun 155 155 (-25621);
  mkRun 156 156 (-22574); mkRun 157 157 (-27377); mkRun 158 158 (-17728); mkRun 159 159 (-15610); mkRun 160 160 (-11882);
  mkRun 161 161 (-24911); mkRun 162 162 (-14079); mkRun 163 163 (-26284); mkRun 164 164 (-26679); mkRun 165 165 (-23768);
  mkRun 166 166 (-12799); mkRun 167 167 (-16121); mkRun 168 168 (-26770); mkRun 169 169 (-17523); mkRun 170 170 (-28738);
  mkRun 171 171 (-24577); mkRun 172 172 (-25648); mkRun 173 173 (-21680); mkRun 174 174 (-27854); mkRun 175 175 (-17568);
  mkRun 176 176 (-19759); mkRun 177 177 (-22444); mkRun 178 178 (-18420); mkRun 179 179 (-18622); mkRun 180 180 (-23038);
  mkRun 181 181 (-28225); mkRun 182 182 (-29032); mkRun 183 183 (-18724); mkRun 184 184 (-25402); mkRun 185 185 (-17749);
  mkRun 186 186 (-15238); mkRun 187 187 (-26286); mkRun 188 188 (-9404); mkRun 189 189 (-28542)
].

Definition runs_C0 : list GbkRun := [
  mkRun 0 35 (-16866); mkRun 36 59 (-16865); mkRun 60 62 (-16864); mkRun 63 63 (-16850); mkRun 64 64 (-16845);
  mkRun 65 66 (-16839); mkRun 67 67 (-16814); mkRun 68 68 (-16801); mkRun 69 69 (-16794); mkRun 70 70 (-16782);
  mkRun 71 71 (-16766); mkRun 72 72 (-16761); mkRun 73 73 (-16748); mkRun 74 74 (-16724); mkRun 75 75 (-16723);
  mkRun 76 82 (-16722); mkRun 83 83 (-16721); mkRun 84 93 (-16719); mkRun 94 95 (-16717); mkRun 96 96 (-10009);
  mkRun 97 97 (-24443); mkRun 98 98 (-21024); mkRun 99 99 (-26944); mkRun 100 100 (-23199); mkRun 101 101 (-23904);
  mkRun 102 102 (-27063); mkRun 103 103 (-23996); mkRun 104 104 (-24128); mkRun 105 105 (-25047); mkRun 106 106 (-10903);
  mkRun 107 107 (-26921); mkRun 108 108 (-24036); mkRun 109 109 (-27431); mkRun 110 110 (-14734); mkRun 111 111 (-16230);
  mkRun 112 112 (-12558); mkRun 113 113 (-27468); mkRun 114 114 (-15618); mkRun 115 115 (-22863); mkRun 116 116 (-13151);
  mkRun 117 117 (-15321); mkRun 118 118 (-26189); mkRun 119 119 (-22697); mkRun 120 120 (-24019); mkRun 121 121 (-17612);
  mkRun 122 122 (-10922); mkRun 123 123 (-28492); mkRun 124 124 (-20769); mkRun 125 125 (-13454); mkRun 126 126 (-23746);
  mkRun 127 127 (-14072); mkRun 128 128 (-24303); mkRun 129 129 (-16828); mkRun 130 130 (-20481); mkRun 131 131 (-20959);
  mkRun 132 132 (-19648); mkRun 133 133 (-22322); mkRun 134 134 (-19915); mkRun 135 135 (-25086); mkRun 136 136 (-12283);
  mkRun 137 137 (-22963); mkRun 138 138 (-21345); mkRun 139 139 (-23918); mkRun 140 140 (-28186); mkRun 141 141 (-20076);
  mkRun 142 142 (-16590); mkRun 143 143 (-29028); mkRun 144 144 (-26348); mkRun 145 145 (-12136); mkRun 146 146 (-20474);
  mkRun 147 147 (-21303); mkRun 148 148 (-28163); mkRun 149 149 (-29318); mkRun 150 150 (-10720); mkRun 151 151 (-11115);
  mkRun 152 152 (-15195); mkRun 153 153 (-18448); mkRun 154 154 (-17324); mkRun 155 155 (-28603); mkRun 156 156 (-26955);
  mkRun 157 157 (-23580); mkRun 158 158 (-16468); mkRun 159 159 (-17509); mkRun 160 160 (-21495); mkRun 161 161 (-22513);
  mkRun 162 162 (-22405); mkRun 163 163 (-28461); mkRun 164 164 (-27981); mkRun 165 165 (-22590); mkRun 166 166 (-20070);
  mkRun 167 167 (-8730); mkRun 168 168 (-17656); mkRun 169 169 (-19954); mkRun 170 170 (-18224); mkRun 171 171 (-20953);
  mkRun 172 172 (-19687); mkRun 173 173 (-22944); mkRun 174 174 (-12067); mkRun 175 175 (-9292); mkRun 176 176 (-18357);
  mkRun 177 177 (-15721); mkRun 178 178 (-15775); mkRun 179 179 (-27877); mkRun 180 180 (-22750); mkRun 181 181 (-29369);
  mkRun 182 182 (-28014); mkRun 183 183 (-28231); mkRun 184 184 (-18619); mkRun 185 185 (-28020); mkRun 186 186 (-28370);
  mkRun 187 187 (-28788); mkRun 188 188 (-29042); mkRun 189 189 (-28974)
].

Definition runs_C1 : list GbkRun := [
  mkRun 0 0 (-16874); mkRun 1 1 (-16872); mkRun 2 5 (-16871); mkRun 6 6 (-16870); mkRun 7 11 (-16868); mkRun 12 14 (-16865);
  mkRun 15 16 (-16864); mkRun 17 17 (-16862); mkRun 18 21 (-16861); mkRun 22 25 (-16860); mkRun 26 27 (-16859);
  mkRun 28 35 (-16858); mkRun 36 36 (-16857); mkRun 37 37 (-16856); mkRun 38 42 (-16855); mkRun 43 47 (-16854);
  mkRun 48 49 (-16853); mkRun 50 50 (-16850); mkRun 51 52 (-16849); mkRun 53 54 (-16848); mkRun 55 61 (-16847);
  mkRun 62 67 (-16845); mkRun 68 69 (-16843); mkRun 70 70 (-16841); mkRun 71 71 (-16840); mkRun 72 74 (-16839);
  mkRun 75 78 (-16838); mkRun 79 79 (-16837); mkRun 80 80 (-16836); mkRun 81 85 (-16835); mkRun 86 87 (-16833);
  mkRun 88 93 (-16832); mkRun 94 95 (-16829); mkRun 96 96 (-19391); mkRun 97 97 (-18135); mkRun 98 98 (-17681);
  mkRun 99 99 (-21759); mkRun 100 100 (-10991); mkRun 101 101 (-28427); mkRun 102 102 (-19748); mkRun 103 103 (-27839);
  mkRun 104 104 (-29120); mkRun 105 105 (-16726); mkRun 106 106 (-15865); mkRun 107 107 (-12750); mkRun 108 108 (-11325);
  mkRun 109 109 (-25317); mkRun 110 110 (-24979); mkRun 111 111 (-21521); mkRun 112 112 (-25497); mkRun 113 113 (-23639);
  mkRun 114 114 (-16507); mkRun 115 115 (-11446); mkRun 116 116 (-24938); mkRun 117 117 (-20730); mkRun 118 118 (-17140);
  mkRun 119 119 (-17674); mkRun 120 120 (-28656); mkRun 121 121 (-22841); mkRun 122 122 (-17674); mkRun 123 123 (-16205);
  mkRun 124 124 (-29593); mkRun 125 125 (-12856); mkRun 126 126 (-12272); mkRun 127 127 (-23362); mkRun 128 128 (-29459);
  mkRun 129 129 (-13757); mkRun 130 130 (-23834); mkRun 131 131 (-16762); mkRun 132 132 (-28907); mkRun 133 133 (-19503);
  mkRun 134 134 (-20473); mkRun 135 135 (-26083); mkRun 136 136 (-12812); mkRun 137 137 (-21092); mkRun 138 138 (-29509);
  mkRun 139 139 (-23882); mkRun 140 140 (-11370); mkRun 141 141 (-25336); mkRun 142 142 (-23606); mkRun 143 143 (-28601);
  mkRun 144 144 (-14607); mkRun 145 145 (-20746); mkRun 146 146 (-28464); mkRun 147 147 (-20166); mkRun 148 148 (-19874);
  mkRun 149 149 (-23103); mkRun 150 150 (-18656); mkRun 151 151 (-10946); mkRun 152 152 (-29605); mkRun 153 153 (-12575);
  mkRun 154 154 (-9469); mkRun 155 155 (-21521); mkRun 156 156 (-28674); mkRun 157 157 (-13469); mkRun 158 158 (-28098);
  mkRun 159 159 (-24338); mkRun 160 160 (-20015); mkRun 161 161 (-15857); mkRun 162 162 (-10989); mkRun 163 163 (-8800);
  mkRun 164 164 (-11554); mkRun 165 165 (-29360); mkRun 166 166 (-16973); mkRun 167 167 (-28700); mkRun 168 168 (-20852);
  mkRun 169 169 (-11125); mkRun 170 170 (-25918); mkRun 171 171 (-10598); mkRun 172 172 (-28167); mkRun 173 173 (-29450);
  mkRun 174 174 (-21331); mkRun 175 175 (-19943); mkRun 176 176 (-22589); mkRun 177 177 (-18823); mkRun 178 178 (-10340);
  mkRun 179 179 (-19611); mkRun 180 180 (-28637); mkRun 181 181 (-19410); mkRun 182 182 (-21686); mkRun 183 183 (-23045);
  mkRun 184 184 (-28812); mkRun 185 185 (-8801); mkRun 186 186 (-16816); mkRun 187 187 (-28003); mkRun 188 188 (-18113);
  mkRun 189 189 (-18239)
].

Definition runs_C2 : list GbkRun := [
  mkRun 0 0 (-16988); mkRun 1 2 (-16986); mkRun 3 6 (-16985); mkRun 7 7 (-16984); mkRun 8 8 (-16982); mkRun 9 15 (-16981);
  mkRun 16 18 (-16979); mkRun 19 19 (-16977); mkRun 20 23 (-16973); mkRun 24 25 (-16970); mkRun 26 26 (-16969);
  mkRun 27 27 (-16968); mkRun 28 29 (-16962); mkRun 30 32 (-16961); mkRun 33 33 (-16960); mkRun 34 35 (-16959);
  mkRun 36 41 (-16953); mkRun 42 42 (-16952); mkRun 43 43 (-16951); mkRun 44 45 (-16947); mkRun 46 46 (-16946);
  mkRun 47 47 (-16945); mkRun 48 49 (-16944); mkRun 50 51 (-16942); mkRun 52 54 (-16941); mkRun 55 58 (-16937);
  mkRun 59 59 (-16936); mkRun 60 63 (-16935); mkRun 64 77 (-16934); mkRun 78 83 (-16932); mkRun 84 95 (-16931);
  mkRun 96 96 (-11291); mkRun 97 97 (-27422); mkRun 98 98 (-24513); mkRun 99 99 (-11357); mkRun 100 100 (-22825);
  mkRun 101 101 (-26786); mkRun 102 102 (-24229); mkRun 103 103 (-18133); mkRun 104 104 (-21402); mkRun 105 105 (-11359);
  mkRun 106 106 (-16389); mkRun 107 107 (-28490); mkRun 108 108 (-10792); mkRun 109 109 (-25630); mkRun 110 110 (-21030);
  mkRun 111 111 (-24317); mkRun 112 112 (-28493); mkRun 113 113 (-15459); mkRun 114 114 (-9778); mkRun 115 115 (-9249);
  mkRun 116 116 (-18985); mkRun 117 117 (-11140); mkRun 118 118 (-13512); mkRun 119 119 (-13686); mkRun 120 120 (-9274);
  mkRun 121 121 (-21340); mkRun 122 122 (-18743); mkRun 123 123 (-25447); mkRun 124 124 (-11383); mkRun 125 125 (-24720);
  mkRun 126 126 (-10315); mkRun 127 127 (-28331); mkRun 128 128 (-11748); mkRun 129 129 (-29471); mkRun 130 130 (-23806);
  mkRun 131 131 (-26207); mkRun 132 132 (-26212); mkRun 133 133 (-17329); mkRun 134 134 (-15478); mkRun 135 135 (-22169);
  mkRun 136 136 (-25406); mkRun 137 137 (-20291); mkRun 138 138 (-21479); mkRun 139 139 (-17357); mkRun 140 140 (-26087);
  mkRun 141 141 (-24499); mkRun 142 142 (-26469); mkRun 143 143 (-21482); mkRun 144 144 (-28508); mkRun 145 145 (-29793);
  mkRun 146 146 (-24371); mkRun 147 147 (-19823); mkRun 148 148 (-24628); mkRun 149 149 (-13160); mkRun 150 150 (-29617);
  mkRun 151 151 (-29703); mkRun 152 152 (-22067); mkRun 153 153 (-17444); mkRun 154 154 (-14113); mkRun 155 155 (-16063);
  mkRun 156 156 (-15139); mkRun 157 157 (-17287); mkRun 158 158 (-12964); mkRun 159 159 (-11709); mkRun 160 160 (-18232);
  mkRun 161 161 (-10305); mkRun 162 162 (-14827); mkRun 163 163 (-16039); mkRun 164 164 (-21962); mkRun 165 165 (-10336);
  mkRun 166 166 (-17419); mkRun 167 167 (-26976); mkRun 168 168 (-9262); mkRun 169 169 (-20303); mkRun 170 170 (-19178);
  mkRun 171 171 (-15466); mkRun 172 172 (-10369); mkRun 173 173 (-10348); mkRun 174 174 (-27860); mkRun 175 175 (-28377);
  mkRun 176 176 (-27430); mkRun 177 177 (-29826); mkRun 178 178 (-9293); mkRun 179 179 (-28574); mkRun 180 180 (-13101);
  mkRun 181 181 (-16877); mkRun 182 182 (-19301); mkRun 183 183 (-10598); mkRun 184 184 (-15371); mkRun 185 185 (-21529);
  mkRun 186 186 (-15848); mkRun 187 187 (-23552); mkRun 188 188 (-24987); mkRun 189 189 (-21459)
].

Definition runs_C3 : list GbkRun := [
  mkRun 0 0 (-17090); mkRun 1 2 (-17088); mkRun 3 3 (-17086); mkRun 4 4 (-17084); mkRun 5 5 (-17083); mkRun 6 11 (-17081);
  mkRun 12 13 (-17080); mkRun 14 14 (-17079); mkRun 15 15 (-17078); mkRun 16 16 (-17074); mkRun 17 17 (-17070);
  mkRun 18 20 (-17068); mkRun 21 21 (-17065); mkRun 22 22 (-17062); mkRun 23 23 (-17060); mkRun 24 25 (-17059);
  mkRun 26 27 (-17058); mkRun 28 28 (-17057); mkRun 29 29 (-17048); mkRun 30 34 (-17047); mkRun 35 41 (-17044);
  mkRun 42 42 (-17042); mkRun 43 44 (-17036); mkRun 45 46 (-17035); mkRun 47 47 (-17033); mkRun 48 48 (-17026);
  mkRun 49 49 (-17020); mkRun 50 50 (-17019); mkRun 51 51 (-17018); mkRun 52 52 (-17017); mkRun 53 56 (-17015);
  mkRun 57 59 (-17014); mkRun 60 61 (-17013); mkRun 62 62 (-17011); mkRun 63 63 (-17012); mkRun 64 64 (-17004);
  mkRun 65 65 (-17003); mkRun 66 66 (-17002); mkRun 67 69 (-17001); mkRun 70 82 (-17000); mkRun 83 84 (-16999);
  mkRun 85 85 (-16998); mkRun 86 88 (-16996); mkRun 89 89 (-16995); mkRun 90 94 (-16994); mkRun 95 95 (-16993);
  mkRun 96 96 (-14200); mkRun 97 97 (-16656); mkRun 98 98 (-16504); mkRun 99 99 (-19634); mkRun 100 100 (-22418);
  mkRun 101 101 (-25549); mkRun 102 102 (-16362); mkRun 103 103 (-20605); mkRun 104 104 (-16548); mkRun 105 105 (-11920);
  mkRun 106 106 (-22480); mkRun 107 107 (-19409); mkRun 108 108 (-12007); mkRun 109 109 (-28735); mkRun 110 110 (-16557);
  mkRun 111 111 (-29214); mkRun 112 112 (-25972); mkRun 113 113 (-14118); mkRun 114 114 (-13947); mkRun 115 115 (-30060);
  mkRun 116 116 (-20490); mkRun 117 117 (-23580); mkRun 118 118 (-23346); mkRun 119 119 (-12866); mkRun 120 120 (-11440);
  mkRun 121 121 (-21078); mkRun 122 122 (-22298); mkRun 123 123 (-19635); mkRun 124 124 (-26923); mkRun 125 125 (-11901);
  mkRun 126 126 (-22512); mkRun 127 127 (-17458); mkRun 128 128 (-23962); mkRun 129 129 (-26610); mkRun 130 130 (-27146);
  mkRun 131 131 (-26922); mkRun 132 132 (-11741); mkRun 133 133 (-11727); mkRun 134 134 (-29915); mkRun 135 135 (-16316);
  mkRun 136 136 (-16176); mkRun 137 137 (-22814); mkRun 138 138 (-19692); mkRun 139 139 (-11932); mkRun 140 140 (-20658);
  mkRun 141 141 (-23336); mkRun 142 142 (-26736); mkRun 143 143 (-19617); mkRun 144 144 (-12855); mkRun 145 145 (-11377);
  mkRun 146 146 (-18167); mkRun 147 147 (-13277); mkRun 148 148 (-14265); mkRun 149 149 (-25777); mkRun 150 150 (-18276);
  mkRun 151 151 (-18944); mkRun 152 152 (-14868); mkRun 153 153 (-22286); mkRun 154 154 (-15551); mkRun 155 155 (-26646);
  mkRun 156 156 (-26011); mkRun 157 157 (-23317); mkRun 158 158 (-19647); mkRun 159 159 (-17643); mkRun 160 160 (-29260);
  mkRun 161 161 (-29333); mkRun 162 162 (-28954); mkRun 163 163 (-27067); mkRun 164 164 (-17632); mkRun 165 165 (-11396);
  mkRun 166 166 (-16656); mkRun 167 167 (-24601); mkRun 168 168 (-19557); mkRun 169 169 (-15898); mkRun 170 170 (-18969);
  mkRun 171 171 (-21938); mkRun 172 172 (-25940); mkRun 173 173 (-27221); mkRun 174 174 (-16094); mkRun 175 175 (-21379);
  mkRun 176 176 (-22496); mkRun 177 177 (-24883); mkRun 178 178 (-19764); mkRun 179 179 (-24229); mkRun 180 180 (-25414);
  mkRun 181 181 (-11769); mkRun 182 182 (-24041); mkRun 183 183 (-15449); mkRun 184 184 (-9686); mkRun 185 185 (-12045);
  mkRun 186 186 (-28654); mkRun 187 187 (-28543); mkRun 188 188 (-14289); mkRun 189 189 (-24454)
].

Definition runs_C4 : list GbkRun := [
  mkRun 0 5 (-17152); mkRun 6 6 (-17151); mkRun 7 7 (-17150); mkRun 8 10 (-17147); mkRun 11 11 (-17145); mkRun 12 14 (-17142);
  mkRun 15 19 (-17140); mkRun 20 23 (-17139); mkRun 24 24 (-17138); mkRun 25 25 (-17137); mkRun 26 28 (-17136);
  mkRun 29 29 (-17134); mkRun 30 31 (-17132); mkRun 32 35 (-17131); mkRun 36 36 (-17123); mkRun 37 41 (-17122);
  mkRun 42 42 (-17121); mkRun 43 46 (-17120); mkRun 47 47 (-17119); mkRun 48 53 (-17118); mkRun 54 55 (-17117);
  mkRun 56 60 (-17114); mkRun 61 63 (-17113); mkRun 64 64 (-17112); mkRun 65 72 (-17111); mkRun 73 78 (-17110);
  mkRun 79 82 (-17108); mkRun 83 84 (-17104); mkRun 85 87 (-17103); mkRun 88 88 (-17102); mkRun 89 95 (-17101);
  mkRun 96 96 (-24616); mkRun 97 97 (-16017); mkRun 98 98 (-23170); mkRun 99 99 (-17160); mkRun 100 100 (-19389);
  mkRun 101 101 (-24637); mkRun 102 102 (-10579); mkRun 103 103 (-25071); mkRun 104 104 (-23934); mkRun 105 105 (-16639);
  mkRun 106 106 (-27651); mkRun 107 107 (-9684); mkRun 108 108 (-22530); mkRun 109 109 (-21902); mkRun 110 110 (-26833);
  mkRun 111 111 (-11876); mkRun 112 112 (-14502); mkRun 113 113 (-21075); mkRun 114 114 (-23779); mkRun 115 115 (-25069);
  mkRun 116 116 (-21076); mkRun 117 117 (-30221); mkRun 118 118 (-27377); mkRun 119 119 (-22763); mkRun 120 120 (-27686);
  mkRun 121 121 (-24076); mkRun 122 122 (-26214); mkRun 123 123 (-29149); mkRun 124 124 (-25448); mkRun 125 125 (-23958);
  mkRun 126 126 (-19921); mkRun 127 127 (-19802); mkRun 128 128 (-21082); mkRun 129 129 (-19068); mkRun 130 130 (-25028);
  mkRun 131 131 (-28634); mkRun 132 132 (-28789); mkRun 133 133 (-12326); mkRun 134 134 (-13348); mkRun 135 135 (-27308);
  mkRun 136 136 (-17942); mkRun 137 137 (-22708); mkRun 138 138 (-30344); mkRun 139 139 (-27478); mkRun 140 140 (-17597);
  mkRun 141 141 (-27526); mkRun 142 142 (-29048); mkRun 143 143 (-20377); mkRun 144 144 (-11795); mkRun 145 145 (-28168);
  mkRun 146 146 (-25011); mkRun 147 147 (-17347); mkRun 148 148 (-25689); mkRun 149 149 (-11997); mkRun 150 150 (-22273);
  mkRun 151 151 (-28790); mkRun 152 152 (-11096); mkRun 153 153 (-29525); mkRun 154 154 (-27122); mkRun 155 155 (-17375);
  mkRun 156 156 (-27439); mkRun 157 157 (-11723); mkRun 158 158 (-29877); mkRun 159 159 (-22523); mkRun 160 160 (-26789);
  mkRun 161 161 (-25091); mkRun 162 162 (-30083); mkRun 163 163 (-29093); mkRun 164 164 (-17258); mkRun 165 165 (-13536);
  mkRun 166 166 (-22061); mkRun 167 167 (-16317); mkRun 168 168 (-25121); mkRun 169 169 (-26230); mkRun 170 170 (-19501);
  mkRun 171 171 (-24631); mkRun 172 172 (-24946); mkRun 173 173 (-25849); mkRun 174 174 (-27351); mkRun 175 175 (-13169);
  mkRun 176 176 (-9938); mkRun 177 177 (-26803); mkRun 178 178 (-24996); mkRun 179 179 (-17586); mkRun 180 180 (-27000);
  mkRun 181 181 (-28552); mkRun 182 182 (-12205); mkRun 183 183 (-12203); mkRun 184 184 (-22388); mkRun 185 185 (-25682);
  mkRun 186 186 (-23835); mkRun 187 187 (-21022); mkRun 188 188 (-29472); mkRun 189 189 (-27005)
].

Definition runs_C5 : list GbkRun := [
  mkRun 0 14 (-17260); mkRun 15 17 (-17259); mkRun 18 19 (-17258); mkRun 20 20 (-17257); mkRun 21 25 (-17255);
  mkRun 26 31 (-17253); mkRun 32 32 (-17251); mkRun 33 33 (-17250); mkRun 34 34 (-17247); mkRun 35 39 (-17244);
  mkRun 40 41 (-17242); mkRun 42 42 (-17241); mkRun 43 43 (-17240); mkRun 44 49 (-17239); mkRun 50 50 (-17237);
  mkRun 51 51 (-17235); mkRun 52 55 (-17232); mkRun 56 56 (-17231); mkRun 57 57 (-17227); mkRun 58 58 (-17224);
  mkRun 59 59 (-17217); mkRun 60 61 (-17216); mkRun 62 62 (-17215); mkRun 63 66 (-17216); mkRun 67 68 (-17215);
  mkRun 69 69 (-17214); mkRun 70 70 (-17213); mkRun 71 73 (-17212); mkRun 74 81 (-17211); mkRun 82 82 (-17210);
  mkRun 83 86 (-17209); mkRun 87 94 (-17208); mkRun 95 95 (-17207); mkRun 96 96 (-25274); mkRun 97 97 (-22724);
  mkRun 98 98 (-21320); mkRun 99 99 (-25399); mkRun 100 100 (-12535); mkRun 101 101 (-18153); mkRun 102 102 (-17556);
  mkRun 103 103 (-22613); mkRun 104 104 (-29709); mkRun 105 105 (-26278); mkRun 106 106 (-27703); mkRun 107 107 (-29442);
  mkRun 108 108 (-26011); mkRun 109 109 (-27707); mkRun 110 110 (-24345); mkRun 111 111 (-16224); mkRun 112 112 (-20498);
  mkRun 113 113 (-25224); mkRun 114 114 (-25549); mkRun 115 115 (-18629); mkRun 116 116 (-14779); mkRun 117 117 (-28880);
  mkRun 118 118 (-23184); mkRun 119 119 (-10131); mkRun 120 120 (-23045); mkRun 121 121 (-16357); mkRun 122 122 (-29030);
  mkRun 123 123 (-30022); mkRun 124 124 (-22809); mkRun 125 125 (-28756); mkRun 126 126 (-14347); mkRun 127 127 (-21396);
  mkRun 128 128 (-26540); mkRun 129 129 (-26029); mkRun 130 130 (-20877); mkRun 131 131 (-25335); mkRun 132 132 (-25139);
  mkRun 133 133 (-21370); mkRun 134 134 (-26159); mkRun 135 135 (-22405); mkRun 136 136 (-22667); mkRun 137 137 (-24778);
  mkRun 138 138 (-22131); mkRun 139 139 (-20212); mkRun 140 140 (-19709); mkRun 141 141 (-20178); mkRun 142 142 (-20603);
  mkRun 143 143 (-29612); mkRun 144 144 (-29174); mkRun 145 145 (-30591); mkRun 146 146 (-26421); mkRun 147 147 (-24595);
  mkRun 148 148 (-17835); mkRun 149 149 (-17664); mkRun 150 150 (-25404); mkRun 151 151 (-29010); mkRun 152 152 (-29617);
  mkRun 153 153 (-21804); mkRun 154 154 (-15694); mkRun 155 155 (-14347); mkRun 156 156 (-22780); mkRun 157 157 (-29030);
  mkRun 158 158 (-17669); mkRun 159 159 (-28135); mkRun 160 160 (-15597); mkRun 161 161 (-14478); mkRun 162 162 (-12153);
  mkRun 163 163 (-13463); mkRun 164 164 (-30332); mkRun 165 165 (-22859); mkRun 166 166 (-28720); mkRun 167 167 (-20258);
  mkRun 168 168 (-19897); mkRun 169 169 (-25410); mkRun 170 170 (-21746); mkRun 171 171 (-22110); mkRun 172 172 (-26240);
  mkRun 173 173 (-16642); mkRun 174 174 (-23829); mkRun 175 175 (-19828); mkRun 176 176 (-18938); mkRun 177 177 (-17482);
  mkRun 178 178 (-24296); mkRun 179 179 (-10149); mkRun 180 180 (-25230); mkRun 181 181 (-19782); mkRun 182 182 (-28296);
  mkRun 183 183 (-19942); mkRun 184 184 (-11968); mkRun 185 185 (-25473); mkRun 186 186 (-25424); mkRun 187 187 (-29556);
  mkRun 188 188 (-20936); mkRun 189 189 (-23079)
].

Definition runs_C6 : list GbkRun := [
  mkRun 0 3 (-17366); mkRun 4 4 (-17363); mkRun 5 8 (-17360); mkRun 9 10 (-17358); mkRun 11 12 (-17355); mkRun 13 13 (-17354);
  mkRun 14 16 (-17353); mkRun 17 17 (-17352); mkRun 18 18 (-17350); mkRun 19 19 (-17347); mkRun 20 23 (-17345);
  mkRun 24 25 (-17342); mkRun 26 26 (-17340); mkRun 27 27 (-17339); mkRun 28 29 (-17338); mkRun 30 30 (-17335);
  mkRun 31 31 (-17325); mkRun 32 33 (-17323); mkRun 34 36 (-17320); mkRun 37 38 (-17318); mkRun 39 40 (-17317);
  mkRun 41 42 (-17316); mkRun 43 43 (-17314); mkRun 44 44 (-17308); mkRun 45 45 (-17303); mkRun 46 47 (-17301);
  mkRun 48 48 (-17299); mkRun 49 49 (-17295); mkRun 50 53 (-17291); mkRun 54 56 (-17290); mkRun 57 57 (-17289);
  mkRun 58 59 (-17288); mkRun 60 61 (-17287); mkRun 62 63 (-17286); mkRun 64 68 (-17285); mkRun 69 70 (-17276);
  mkRun 71 71 (-17275); mkRun 72 72 (-17273); mkRun 73 74 (-17272); mkRun 75 75 (-17270); mkRun 76 77 (-17269);
  mkRun 78 87 (-17266); mkRun 88 89 (-17264); mkRun 90 90 (-17261); mkRun 91 91 (-17260); mkRun 92 92 (-17259);
  mkRun 93 93 (-17255); mkRun 94 94 (-17252); mkRun 95 95 (-17251); mkRun 96 96 (-28989); mkRun 97 97 (-17764);
  mkRun 98 98 (-20721); mkRun 99 99 (-20470); mkRun 100 100 (-29548); mkRun 101 101 (-20680); mkRun 102 102 (-30124);
  mkRun 103 103 (-27239); mkRun 104 104 (-15165); mkRun 105 105 (-19171); mkRun 106 106 (-30300); mkRun 107 107 (-21605);
  mkRun 108 108 (-11286); mkRun 109 109 (-11734); mkRun 110 110 (-22445); mkRun 111 111 (-20942); mkRun 112 112 (-19785);
  mkRun 113 113 (-25131); mkRun 114 114 (-20238); mkRun 115 115 (-25528); mkRun 116 116 (-11812); mkRun 117 117 (-14731);
  mkRun 118 118 (-29174); mkRun 119 119 (-18016); mkRun 120 120 (-30823); mkRun 121 121 (-28496); mkRun 122 122 (-17346);
  mkRun 123 123 (-17071); mkRun 124 124 (-26698); mkRun 125 125 (-29905); mkRun 126 126 (-20937); mkRun 127 127 (-15100);
  mkRun 128 128 (-27250); mkRun 129 129 (-28513); mkRun 130 130 (-22983); mkRun 131 131 (-11837); mkRun 132 132 (-27775);
  mkRun 133 133 (-20114); mkRun 134 134 (-11139); mkRun 135 135 (-14045); mkRun 136 136 (-18996); mkRun 137 137 (-29812);
  mkRun 138 138 (-25722); mkRun 139 139 (-12754); mkRun 140 140 (-30727); mkRun 141 141 (-17224); mkRun 142 142 (-17006);
  mkRun 143 143 (-17127); mkRun 144 144 (-16927); mkRun 145 145 (-28414); mkRun 146 146 (-24479); mkRun 147 147 (-28625);
  mkRun 148 148 (-24679); mkRun 149 149 (-22896); mkRun 150 150 (-15014); mkRun 151 151 (-24571); mkRun 152 152 (-22216);
  mkRun 153 153 (-24507); mkRun 154 154 (-23457); mkRun 155 155 (-24262); mkRun 156 156 (-25795); mkRun 157 157 (-27939);
  mkRun 158 158 (-30940); mkRun 159 159 (-29980); mkRun 160 160 (-22491); mkRun 161 161 (-24336); mkRun 162 162 (-23124);
  mkRun 163 163 (-30062); mkRun 164 164 (-24090); mkRun 165 165 (-28063); mkRun 166 166 (-23424); mkRun 167 167 (-20866);
  mkRun 168 168 (-27099); mkRun 169 169 (-17882); mkRun 170 170 (-10139); mkRun 171 171 (-24853); mkRun 172 172 (-19877);
  mkRun 173 173 (-19885); mkRun 174 174 (-11358); mkRun 175 175 (-14713); mkRun 176 176 (-27247); mkRun 177 177 (-30868);
  mkRun 178 178 (-30706); mkRun 179 179 (-29381); mkRun 180 180 (-28068); mkRun 181 181 (-20202); mkRun 182 182 (-28815);
  mkRun 183 183 (-23268); mkRun 184 184 (-14133); mkRun 185 185 (-26615); mkRun 186 186 (-23166); mkRun 187 187 (-23065);
  mkRun 188 188 (-15186); mkRun 189 189 (-25454)
].

Definition runs_C7 : list GbkRun := [
  mkRun 0 1 (-17410); mkRun 2 3 (-17409); mkRun 4 5 (-17408); mkRun 6 6 (-17406); mkRun 7 11 (-17405); mkRun 12 12 (-17401);
  mkRun 13 17 (-17400); mkRun 18 18 (-17397); mkRun 19 19 (-17393); mkRun 20 26 (-17380); mkRun 27 28 (-17378);
  mkRun 29 35 (-17375); mkRun 36 37 (-17373); mkRun 38 41 (-17372); mkRun 42 44 (-17371); mkRun 45 48 (-17369);
  mkRun 49 50 (-17368); mkRun 51 51 (-17366); mkRun 52 52 (-17365); mkRun 53 59 (-17364); mkRun 60 62 (-17360);
  mkRun 63 63 (-17361); mkRun 64 64 (-17356); mkRun 65 65 (-17351); mkRun 66 67 (-17349); mkRun 68 70 (-17347);
  mkRun 71 71 (-17346); mkRun 72 73 (-17345); mkRun 74 74 (-17344); mkRun 75 76 (-17343); mkRun 77 80 (-17342);
  mkRun 81 81 (-17341); mkRun 82 82 (-17340); mkRun 83 85 (-17339); mkRun 86 86 (-17337); mkRun 87 89 (-17334);
  mkRun 90 92 (-17333); mkRun 93 95 (-17331); mkRun 96 96 (-26417); mkRun 97 97 (-23141); mkRun 98 98 (-21806);
  mkRun 99 99 (-25918); mkRun 100 100 (-13079); mkRun 101 101 (-13025); mkRun 102 102 (-29796); mkRun 103 103 (-14311);
  mkRun 104 104 (-19499); mkRun 105 105 (-30923); mkRun 106 106 (-15237); mkRun 107 107 (-31022); mkRun 108 108 (-10457);
  mkRun 109 109 (-13053); mkRun 110 110 (-13052); mkRun 111 111 (-30051); mkRun 112 112 (-22613); mkRun 113 113 (-14159);
  mkRun 114 114 (-23150); mkRun 115 115 (-15232); mkRun 116 116 (-28580); mkRun 117 117 (-27242); mkRun 118 118 (-23703);
  mkRun 119 119 (-23663); mkRun 120 120 (-24591); mkRun 121 121 (-29535); mkRun 122 122 (-18023); mkRun 123 123 (-18480);
  mkRun 124 124 (-28452); mkRun 125 125 (-17031); mkRun 126 126 (-26757); mkRun 127 127 (-25886); mkRun 128 128 (-23930);
  mkRun 129 129 (-12937); mkRun 130 130 (-25169); mkRun 131 131 (-26432); mkRun 132 132 (-24416); mkRun 133 133 (-20511);
  mkRun 134 134 (-31091); mkRun 135 135 (-30752); mkRun 136 136 (-27106); mkRun 137 137 (-12338); mkRun 138 138 (-25375);
  mkRun 139 139 (-18420); mkRun 140 140 (-27360); mkRun 141 141 (-30719); mkRun 142 142 (-19778); mkRun 143 143 (-30153);
  mkRun 144 144 (-17613); mkRun 145 145 (-31166); mkRun 146 146 (-26532); mkRun 147 147 (-19793); mkRun 148 148 (-13103);
  mkRun 149 149 (-30753); mkRun 150 150 (-31013); mkRun 151 151 (-19954); mkRun 152 152 (-21413); mkRun 153 153 (-29942);
  mkRun 154 154 (-17698); mkRun 155 155 (-25354); mkRun 156 156 (-20000); mkRun 157 157 (-27649); mkRun 158 158 (-23390);
  mkRun 159 159 (-12430); mkRun 160 160 (-14438); mkRun 161 161 (-23488); mkRun 162 162 (-30629); mkRun 163 163 (-29797);
  mkRun 164 164 (-23008); mkRun 165 165 (-25368); mkRun 166 166 (-24947); mkRun 167 167 (-23480); mkRun 168 168 (-26404);
  mkRun 169 169 (-12147); mkRun 170 170 (-15348); mkRun 171 171 (-26982); mkRun 172 172 (-21425); mkRun 173 173 (-19831);
  mkRun 174 174 (-20004); mkRun 175 175 (-31192); mkRun 176 176 (-14144); mkRun 177 177 (-21487); mkRun 178 178 (-23473);
  mkRun 179 179 (-28954); mkRun 180 180 (-13994); mkRun 181 181 (-23345); mkRun 182 182 (-14956); mkRun 183 183 (-29886);
  mkRun 184 184 (-16691); mkRun 185 185 (-24840); mkRun 186 186 (-14668); mkRun 187 187 (-27572); mkRun 188 188 (-11660);
  mkRun 189 189 (-23006)
].

Definition runs_C8 : list GbkRun := [
  mkRun 0 1 (-17490); mkRun 2 6 (-17487); mkRun 7 9 (-17485); mkRun 10 12 (-17484); mkRun 13 13 (-17483); mkRun 14 14 (-17481);
  mkRun 15 18 (-17480); mkRun 19 19 (-17475); mkRun 20 25 (-17474); mkRun 26 28 (-17473); mkRun 29 34 (-17471);
  mkRun 35 42 (-17466); mkRun 43 48 (-17465); mkRun 49 51 (-17464); mkRun 52 59 (-17462); mkRun 60 62 (-17461);
  mkRun 63 69 (-17462); mkRun 70 74 (-17461); mkRun 75 75 (-17460); mkRun 76 79 (-17456); mkRun 80 80 (-17455);
  mkRun 81 85 (-17454); mkRun 86 86 (-17453); mkRun 87 89 (-17450); mkRun 90 90 (-17449); mkRun 91 91 (-17448);
  mkRun 92 92 (-17446); mkRun 93 93 (-17445); mkRun 94 95 (-17444); mkRun 96 96 (-29899); mkRun 97 97 (-28268);
  mkRun 98 98 (-10520); mkRun 99 99 (-15105); mkRun 100 100 (-29930); mkRun 101 101 (-29086); mkRun 102 102 (-12288);
  mkRun 103 103 (-24933); mkRun 104 104 (-14094); mkRun 105 105 (-23521); mkRun 106 106 (-30531); mkRun 107 107 (-21218);
  mkRun 108 108 (-26042); mkRun 109 109 (-22018); mkRun 110 110 (-30327); mkRun 111 111 (-30227); mkRun 112 112 (-18807);
  mkRun 113 113 (-22558); mkRun 114 114 (-21115); mkRun 115 115 (-30016); mkRun 116 116 (-10859); mkRun 117 117 (-24319);
  mkRun 118 118 (-20553); mkRun 119 119 (-12792); mkRun 120 120 (-16352); mkRun 121 121 (-18710); mkRun 122 122 (-22405);
  mkRun 123 123 (-22265); mkRun 124 124 (-30516); mkRun 125 125 (-24811); mkRun 126 126 (-21467); mkRun 127 127 (-28636);
  mkRun 128 128 (-25513); mkRun 129 129 (-29195); mkRun 130 130 (-15642); mkRun 131 131 (-12110); mkRun 132 132 (-26197);
  mkRun 133 133 (-18929); mkRun 134 134 (-26574); mkRun 135 135 (-22491); mkRun 136 136 (-28637); mkRun 137 137 (-31241);
  mkRun 138 138 (-31249); mkRun 139 139 (-26879); mkRun 140 140 (-12518); mkRun 141 141 (-31187); mkRun 142 142 (-15659);
  mkRun 143 143 (-30413); mkRun 144 144 (-28487); mkRun 145 145 (-18983); mkRun 146 146 (-26239); mkRun 147 147 (-31239);
  mkRun 148 148 (-25328); mkRun 149 149 (-26312); mkRun 150 150 (-17823); mkRun 151 151 (-17423); mkRun 152 152 (-17782);
  mkRun 153 153 (-16717); mkRun 154 154 (-22343); mkRun 155 155 (-23078); mkRun 156 156 (-27940); mkRun 157 157 (-18956);
  mkRun 158 158 (-30536); mkRun 159 159 (-25879); mkRun 160 160 (-24845); mkRun 161 161 (-18521); mkRun 162 162 (-17834);
  mkRun 163 163 (-16591); mkRun 164 164 (-30675); mkRun 165 165 (-28012); mkRun 166 166 (-28517); mkRun 167 167 (-14647);
  mkRun 168 168 (-31350); mkRun 169 169 (-23693); mkRun 170 170 (-30598); mkRun 171 171 (-16327); mkRun 172 172 (-14718);
  mkRun 173 173 (-12992); mkRun 174 174 (-17317); mkRun 175 175 (-21650); mkRun 176 176 (-13281); mkRun 177 177 (-13058);
  mkRun 178 178 (-23373); mkRun 179 179 (-17935); mkRun 180 180 (-27076); mkRun 181 181 (-25700); mkRun 182 182 (-23525);
  mkRun 183 183 (-17616); mkRun 184 184 (-18315); mkRun 185 185 (-11319); mkRun 186 186 (-28829); mkRun 187 187 (-15265);
  mkRun 188 188 (-31476); mkRun 189 189 (-30013)
].

Definition runs_C9 : list GbkRun := [
  mkRun 0 4 (-17603); mkRun 5 8 (-17602); mkRun 9 9 (-17599); mkRun 10 10 (-17597); mkRun 11 18 (-17596); mkRun 19 19 (-17595);
  mkRun 20 21 (-17594); mkRun 22 25 (-17593); mkRun 26 38 (-17592); mkRun 39 40 (-17591); mkRun 41 41 (-17590);
  mkRun 42 44 (-17589); mkRun 45 46 (-17586); mkRun 47 47 (-17585); mkRun 48 48 (-17584); mkRun 49 50 (-17583);
  mkRun 51 54 (-17582); mkRun 55 56 (-17580); mkRun 57 58 (-17579); mkRun 59 59 (-17577); mkRun 60 61 (-17576);
  mkRun 62 62 (-17575); mkRun 63 67 (-17576); mkRun 68 68 (-17575); mkRun 69 70 (-17573); mkRun 71 71 (-17572);
  mkRun 72 76 (-17570); mkRun 77 79 (-17569); mkRun 80 90 (-17568); mkRun 91 92 (-17567); mkRun 93 95 (-17566);
  mkRun 96 96 (-31363); mkRun 97 97 (-25663); mkRun 98 98 (-24914); mkRun 99 99 (-29649); mkRun 100 100 (-31614);
  mkRun 101 101 (-26002); mkRun 102 102 (-12045); mkRun 103 103 (-26429); mkRun 104 104 (-28391); mkRun 105 105 (-21835);
  mkRun 106 106 (-18233); mkRun 107 107 (-23555); mkRun 108 108 (-24767); mkRun 109 109 (-30919); mkRun 110 110 (-17953);
  mkRun 111 111 (-20910); mkRun 112 112 (-25201); mkRun 113 113 (-30585); mkRun 114 114 (-23834); mkRun 115 115 (-19203);
  mkRun 116 116 (-30970); mkRun 117 117 (-29777); mkRun 118 118 (-22617); mkRun 119 119 (-20061); mkRun 120 120 (-25447);
  mkRun 121 121 (-22000); mkRun 122 122 (-18128); mkRun 123 123 (-25203); mkRun 124 124 (-27980); mkRun 125 125 (-30622);
  mkRun 126 126 (-22594); mkRun 127 127 (-16725); mkRun 128 128 (-13271); mkRun 129 129 (-13165); mkRun 130 130 (-25854);
  mkRun 131 131 (-15459); mkRun 132 132 (-18450); mkRun 133 133 (-29762); mkRun 134 134 (-23922); mkRun 135 135 (-26497);
  mkRun 136 136 (-19099); mkRun 137 137 (-28984); mkRun 138 138 (-31399); mkRun 139 139 (-29830); mkRun 140 140 (-15486);
  mkRun 141 141 (-25474); mkRun 142 142 (-31685); mkRun 143 143 (-28086); mkRun 144 144 (-16606); mkRun 145 145 (-24880);
  mkRun 146 146 (-26245); mkRun 147 147 (-20423); mkRun 148 148 (-22766); mkRun 149 149 (-18249); mkRun 150 150 (-30429);
  mkRun 151 151 (-12770); mkRun 152 152 (-28104); mkRun 153 153 (-29938); mkRun 154 154 (-14630); mkRun 155 155 (-19215);
  mkRun 156 156 (-28795); mkRun 157 157 (-15508); mkRun 158 158 (-17176); mkRun 159 160 (-18388); mkRun 161 161 (-15484);
  mkRun 162 162 (-26015); mkRun 163 163 (-28128); mkRun 164 164 (-26772); mkRun 165 165 (-23645); mkRun 166 166 (-20649);
  mkRun 167 167 (-15914); mkRun 168 168 (-20914); mkRun 169 169 (-21687); mkRun 170 170 (-30064); mkRun 171 171 (-31412);
  mkRun 172 172 (-15170); mkRun 173 173 (-23549); mkRun 174 174 (-28623); mkRun 175 175 (-19243); mkRun 176 176 (-20627);
  mkRun 177 177 (-23914); mkRun 178 178 (-28242); mkRun 179 179 (-28542); mkRun 180 180 (-21723); mkRun 181 181 (-18744);
  mkRun 182 182 (-26793); mkRun 183 183 (-23521); mkRun 184 184 (-28937); mkRun 185 185 (-21723); mkRun 186 186 (-21718);
  mkRun 187 187 (-22410); mkRun 188 188 (-30390); mkRun 189 189 (-19211)
].

Definition runs_CA : list GbkRun := [
  mkRun 0 8 (-17725); mkRun 9 12 (-17724); mkRun 13 13 (-17723); mkRun 14 16 (-17722); mkRun 17 18 (-17721);
  mkRun 19 22 (-17720); mkRun 23 23 (-17719); mkRun 24 32 (-17718); mkRun 33 42 (-17716); mkRun 43 47 (-17709);
  mkRun 48 51 (-17708); mkRun 52 64 (-17705); mkRun 65 68 (-17704); mkRun 69 73 (-17703); mkRun 74 76 (-17702);
  mkRun 77 85 (-17701); mkRun 86 86 (-17700); mkRun 87 90 (-17699); mkRun 91 92 (-17696); mkRun 93 95 (-17695);
  mkRun 96 96 (-21408); mkRun 97 97 (-21447); mkRun 98 98 (-30778); mkRun 99 99 (-18888); mkRun 100 100 (-29570);
  mkRun 101 101 (-27806); mkRun 102 102 (-29046); mkRun 103 103 (-22458); mkRun 104 104 (-25836); mkRun 105 105 (-23595);
  mkRun 106 106 (-16084); mkRun 107 107 (-28276); mkRun 108 108 (-17468); mkRun 109 109 (-30573); mkRun 110 110 (-21180);
  mkRun 111 111 (-26546); mkRun 112 112 (-25787); mkRun 113 113 (-31730); mkRun 114 114 (-12756); mkRun 115 115 (-17460);
  mkRun 116 116 (-28439); mkRun 117 117 (-16112); mkRun 118 118 (-30405); mkRun 119 119 (-21206); mkRun 120 120 (-31546);
  mkRun 121 121 (-28268); mkRun 122 122 (-12357); mkRun 123 123 (-28913); mkRun 124 124 (-27566); mkRun 125 125 (-20868);
  mkRun 126 126 (-29140); mkRun 127 127 (-31914); mkRun 128 128 (-25282); mkRun 129 129 (-31799); mkRun 130 130 (-26582);
  mkRun 131 131 (-16433); mkRun 132 132 (-15016); mkRun 133 133 (-30727); mkRun 134 134 (-25752); mkRun 135 135 (-29932);
  mkRun 136 136 (-29789); mkRun 137 137 (-15048); mkRun 138 138 (-31734); mkRun 139 139 (-31551); mkRun 140 140 (-14595);
  mkRun 141 141 (-12638); mkRun 142 142 (-24256); mkRun 143 143 (-27854); mkRun 144 144 (-27278); mkRun 145 145 (-28462);
  mkRun 146 146 (-16653); mkRun 147 147 (-16127); mkRun 148 148 (-26015); mkRun 149 149 (-26763); mkRun 150 150 (-12609);
  mkRun 151 151 (-28496); mkRun 152 152 (-28378); mkRun 153 153 (-26450); mkRun 154 154 (-30125); mkRun 155 155 (-30469);
  mkRun 156 156 (-21687); mkRun 157 157 (-31073); mkRun 158 158 (-17843); mkRun 159 159 (-25406); mkRun 160 160 (-25134);
  mkRun 161 161 (-24408); mkRun 162 162 (-26705); mkRun 163 163 (-15185); mkRun 164 164 (-30481); mkRun 165 165 (-18644);
  mkRun 166 166 (-23830); mkRun 167 167 (-21849); mkRun 168 168 (-31875); mkRun 169 169 (-15772); mkRun 170 170 (-28539);
  mkRun 171 171 (-22861); mkRun 172 172 (-17726); mkRun 173 173 (-25693); mkRun 174 174 (-25622); mkRun 175 175 (-19326);
  mkRun 176 176 (-17393); mkRun 177 177 (-11301); mkRun 178 178 (-11219); mkRun 179 179 (-28310); mkRun 180 180 (-25542);
  mkRun 181 181 (-15110); mkRun 182 182 (-25318); mkRun 183 183 (-25497); mkRun 184 184 (-26860); mkRun 185 185 (-20516);
  mkRun 186 186 (-29302); mkRun 187 187 (-27718); mkRun 188 188 (-25997); mkRun 189 189 (-23501)
].

Definition runs_CB : list GbkRun := [
  mkRun 0 1 (-17854); mkRun 2 2 (-17852); mkRun 3 9 (-17851); mkRun 10 20 (-17850); mkRun 21 27 (-17848); mkRun 28 30 (-17847);
  mkRun 31 31 (-17846); mkRun 32 34 (-17845); mkRun 35 40 (-17842); mkRun 41 41 (-17841); mkRun 42 48 (-17840);
  mkRun 49 55 (-17839); mkRun 56 60 (-17838); mkRun 61 63 (-17836); mkRun 64 69 (-17835); mkRun 70 76 (-17834);
  mkRun 77 80 (-17833); mkRun 81 95 (-17832); mkRun 96 96 (-27468); mkRun 97 97 (-31083); mkRun 98 98 (-19350);
  mkRun 99 99 (-26448); mkRun 100 100 (-17205); mkRun 101 101 (-22141); mkRun 102 102 (-28066); mkRun 103 103 (-25493);
  mkRun 104 104 (-26805); mkRun 105 105 (-13454); mkRun 106 106 (-30687); mkRun 107 107 (-22895); mkRun 108 108 (-16300);
  mkRun 109 109 (-24442); mkRun 110 110 (-21582); mkRun 111 111 (-20898); mkRun 112 112 (-30595); mkRun 113 113 (-21510);
  mkRun 114 114 (-13113); mkRun 115 115 (-18840); mkRun 116 116 (-16321); mkRun 117 117 (-21345); mkRun 118 118 (-25763);
  mkRun 119 119 (-23287); mkRun 120 120 (-26122); mkRun 121 121 (-26405); mkRun 122 122 (-30085); mkRun 123 123 (-27551);
  mkRun 124 124 (-20988); mkRun 125 125 (-30662); mkRun 126 126 (-32162); mkRun 127 127 (-24645); mkRun 128 128 (-19259);
  mkRun 129 129 (-28616); mkRun 130 130 (-30176); mkRun 131 131 (-29929); mkRun 132 132 (-31883); mkRun 133 133 (-31882);
  mkRun 134 134 (-12885); mkRun 135 135 (-28117); mkRun 136 136 (-25675); mkRun 137 137 (-19346); mkRun 138 138 (-27593);
  mkRun 139 139 (-13130); mkRun 140 140 (-15308); mkRun 141 141 (-28739); mkRun 142 142 (-16403); mkRun 143 143 (-16347);
  mkRun 144 144 (-26549); mkRun 145 145 (-18810); mkRun 146 146 (-26357); mkRun 147 147 (-30167); mkRun 148 148 (-18694);
  mkRun 149 149 (-14961); mkRun 150 150 (-31744); mkRun 151 151 (-20152); mkRun 152 152 (-15290); mkRun 153 153 (-20283);
  mkRun 154 154 (-31464); mkRun 155 155 (-29579); mkRun 156 156 (-23854); mkRun 157 157 (-28703); mkRun 158 158 (-16406);
  mkRun 159 159 (-19293); mkRun 160 160 (-14953); mkRun 161 161 (-18246); mkRun 162 162 (-20556); mkRun 163 163 (-17767);
  mkRun 164 164 (-13658); mkRun 165 165 (-13655); mkRun 166 166 (-19714); mkRun 167 167 (-12565); mkRun 168 168 (-21339);
  mkRun 169 169 (-28521); mkRun 170 170 (-20884); mkRun 171 171 (-15274); mkRun 172 172 (-13638); mkRun 173 173 (-21135);
  mkRun 174 174 (-28822); mkRun 175 175 (-26769); mkRun 176 176 (-20710); mkRun 177 177 (-18209); mkRun 178 178 (-25414);
  mkRun 179 179 (-30446); mkRun 180 180 (-19660); mkRun 181 181 (-22502); mkRun 182 182 (-20181); mkRun 183 183 (-14071);
  mkRun 184 184 (-27065); mkRun 185 185 (-29614); mkRun 186 186 (-32037); mkRun 187 187 (-28793); mkRun 188 188 (-29316);
  mkRun 189 189 (-29610)
].

Definition runs_CC : list GbkRun := [
  mkRun 0 1 (-17991); mkRun 2 4 (-17990); mkRun 5 9 (-17989); mkRun 10 20 (-17988); mkRun 21 24 (-17987); mkRun 25 40 (-17986);
  mkRun 41 41 (-17985); mkRun 42 55 (-17984); mkRun 56 58 (-17983); mkRun 59 62 (-17982); mkRun 63 74 (-17983);
  mkRun 75 76 (-17978); mkRun 77 81 (-17977); mkRun 82 84 (-17976); mkRun 85 87 (-17975); mkRun 88 95 (-17974);
  mkRun 96 96 (-22836); mkRun 97 97 (-27012); mkRun 98 98 (-15960); mkRun 99 99 (-16021); mkRun 100 100 (-19415);
  mkRun 101 101 (-18898); mkRun 102 102 (-27131); mkRun 103 103 (-30904); mkRun 104 104 (-24505); mkRun 105 105 (-15180);
  mkRun 106 106 (-29569); mkRun 107 107 (-27819); mkRun 108 108 (-24637); mkRun 109 109 (-30049); mkRun 110 110 (-26725);
  mkRun 111 111 (-16262); mkRun 112 112 (-22150); mkRun 113 113 (-24009); mkRun 114 114 (-30040); mkRun 115 115 (-25140);
  mkRun 116 116 (-22213); mkRun 117 117 (-23881); mkRun 118 118 (-16522); mkRun 119 119 (-16560); mkRun 120 120 (-30035);
  mkRun 121 121 (-24779); mkRun 122 122 (-17449); mkRun 123 123 (-21513); mkRun 124 124 (-26907); mkRun 125 125 (-30917);
  mkRun 126 126 (-23570); mkRun 127 127 (-24668); mkRun 128 128 (-29801); mkRun 129 129 (-26776); mkRun 130 130 (-29889);
  mkRun 131 131 (-25572); mkRun 132 132 (-19242); mkRun 133 133 (-30646); mkRun 134 134 (-20465); mkRun 135 135 (-31920);
  mkRun 136 136 (-15887); mkRun 137 137 (-24318); mkRun 138 138 (-16172); mkRun 139 139 (-23521); mkRun 140 140 (-26942);
  mkRun 141 141 (-24371); mkRun 142 142 (-24059); mkRun 143 143 (-19946); mkRun 144 144 (-18637); mkRun 145 145 (-25743);
  mkRun 146 146 (-15568); mkRun 147 147 (-24316); mkRun 148 148 (-13919); mkRun 149 149 (-16686); mkRun 150 150 (-29568);
  mkRun 151 151 (-23135); mkRun 152 152 (-18165); mkRun 153 153 (-19292); mkRun 154 154 (-22303); mkRun 155 155 (-16978);
  mkRun 156 156 (-25646); mkRun 157 157 (-31370); mkRun 158 158 (-16061); mkRun 159 159 (-14287); mkRun 160 160 (-26897);
  mkRun 161 161 (-13386); mkRun 162 162 (-16031); mkRun 163 163 (-30568); mkRun 164 164 (-32146); mkRun 165 165 (-26087);
  mkRun 166 166 (-30296); mkRun 167 167 (-27667); mkRun 168 168 (-24404); mkRun 169 169 (-31399); mkRun 170 170 (-28834);
  mkRun 171 171 (-29635); mkRun 172 172 (-24306); mkRun 173 173 (-29827); mkRun 174 174 (-22463); mkRun 175 175 (-22484);
  mkRun 176 176 (-27781); mkRun 177 177 (-19166); mkRun 178 178 (-19373); mkRun 179 179 (-27107); mkRun 180 180 (-26004);
  mkRun 181 181 (-15636); mkRun 182 182 (-21949); mkRun 183 183 (-16133); mkRun 184 184 (-16325); mkRun 185 185 (-14393);
  mkRun 186 186 (-28389); mkRun 187 187 (-31095); mkRun 188 188 (-30929); mkRun 189 189 (-23611)
].

Definition runs_CD : list GbkRun := [
  mkRun 0 0 (-18131); mkRun 1 2 (-18130); mkRun 3 9 (-18129); mkRun 10 16 (-18119); mkRun 17 21 (-18115); mkRun 22 22 (-18114);
  mkRun 23 28 (-18113); mkRun 29 33 (-18111); mkRun 34 35 (-18109); mkRun 36 36 (-18105); mkRun 37 38 (-18104);
  mkRun 39 40 (-18101); mkRun 41 43 (-18098); mkRun 44 48 (-18097); mkRun 49 51 (-18096); mkRun 52 52 (-18095);
  mkRun 53 53 (-18093); mkRun 54 55 (-18090); mkRun 56 57 (-18086); mkRun 58 60 (-18085); mkRun 61 61 (-18083);
  mkRun 62 62 (-18082); mkRun 63 63 (-18083); mkRun 64 67 (-18081); mkRun 68 71 (-18080); mkRun 72 74 (-18079);
  mkRun 75 75 (-18077); mkRun 76 78 (-18072); mkRun 79 82 (-18070); mkRun 83 83 (-18069); mkRun 84 84 (-18068);
  mkRun 85 87 (-18066); mkRun 88 89 (-18062); mkRun 90 93 (-18061); mkRun 94 94 (-18059); mkRun 95 95 (-18058);
  mkRun 96 96 (-24929); mkRun 97 97 (-28331); mkRun 98 98 (-32071); mkRun 99 99 (-32503); mkRun 100 100 (-28408);
  mkRun 101 101 (-27244); mkRun 102 102 (-19296); mkRun 103 103 (-15758); mkRun 104 104 (-25945); mkRun 105 105 (-15420);
  mkRun 106 106 (-22008); mkRun 107 107 (-31136); mkRun 108 108 (-14545); mkRun 109 109 (-28234); mkRun 110 110 (-21194);
  mkRun 111 111 (-25914); mkRun 112 112 (-27244); mkRun 113 113 (-21088); mkRun 114 114 (-20180); mkRun 115 115 (-22489);
  mkRun 116 116 (-32062); mkRun 117 117 (-27425); mkRun 118 118 (-29827); mkRun 119 119 (-15785); mkRun 120 120 (-31681);
  mkRun 121 121 (-21495); mkRun 122 122 (-21306); mkRun 123 123 (-30398); mkRun 124 124 (-28203); mkRun 125 125 (-15786);
  mkRun 126 126 (-24637); mkRun 127 127 (-29024); mkRun 128 128 (-30370); mkRun 129 129 (-31154); mkRun 130 130 (-31855);
  mkRun 131 131 (-24439); mkRun 132 132 (-30435); mkRun 133 133 (-27166); mkRun 134 134 (-13620); mkRun 135 135 (-19529);
  mkRun 136 136 (-18100); mkRun 137 137 (-17568); mkRun 138 138 (-15819); mkRun 139 139 (-31150); mkRun 140 140 (-29022);
  mkRun 141 141 (-19470); mkRun 142 142 (-27385); mkRun 143 143 (-27512); mkRun 144 144 (-19616); mkRun 145 145 (-12189);
  mkRun 146 146 (-14227); mkRun 147 147 (-13158); mkRun 148 148 (-13145); mkRun 149 149 (-25769); mkRun 150 150 (-29746);
  mkRun 151 151 (-27397); mkRun 152 152 (-30875); mkRun 153 153 (-27332); mkRun 154 154 (-30996); mkRun 155 155 (-18179);
  mkRun 156 156 (-24737); mkRun 157 157 (-29659); mkRun 158 158 (-22777); mkRun 159 159 (-17732); mkRun 160 160 (-25207);
  mkRun 161 161 (-29900); mkRun 162 162 (-16791); mkRun 163 163 (-28341); mkRun 164 164 (-24423); mkRun 165 165 (-23101);
  mkRun 166 166 (-13674); mkRun 167 167 (-32688); mkRun 168 168 (-23794); mkRun 169 169 (-29278); mkRun 170 170 (-21844);
  mkRun 171 171 (-27311); mkRun 172 172 (-26515); mkRun 173 173 (-22360); mkRun 174 174 (-27940); mkRun 175 175 (-29269);
  mkRun 176 176 (-29608); mkRun 177 177 (-32747); mkRun 178 178 (-19614); mkRun 179 179 (-24970); mkRun 180 180 (-23146);
  mkRun 181 181 (-32597); mkRun 182 182 (-26222); mkRun 183 183 (-20135); mkRun 184 184 (-28281); mkRun 185 185 (-26624);
  mkRun 186 186 (-26336); mkRun 187 187 (-28196); mkRun 188 188 (-29817); mkRun 189 189 (-29693)
].

Definition runs_CE : list GbkRun := [
  mkRun 0 0 (-18215); mkRun 1 1 (-18214); mkRun 2 2 (-18213); mkRun 3 4 (-18212); mkRun 5 5 (-18209); mkRun 6 8 (-18208);
  mkRun 9 12 (-18207); mkRun 13 14 (-18206); mkRun 15 16 (-18205); mkRun 17 18 (-18204); mkRun 19 21 (-18203);
  mkRun 22 23 (-18202); mkRun 24 30 (-18200); mkRun 31 32 (-18197); mkRun 33 33 (-18196); mkRun 34 37 (-18195);
  mkRun 38 40 (-18194); mkRun 41 41 (-18193); mkRun 42 47 (-18192); mkRun 48 49 (-18191); mkRun 50 57 (-18188);
  mkRun 58 58 (-18187); mkRun 59 61 (-18186); mkRun 62 66 (-18185); mkRun 67 69 (-18181); mkRun 70 70 (-18179);
  mkRun 71 72 (-18178); mkRun 73 74 (-18177); mkRun 75 75 (-18176); mkRun 76 80 (-18175); mkRun 81 83 (-18174);
  mkRun 84 90 (-18173); mkRun 91 95 (-18172); mkRun 96 96 (-28884); mkRun 97 97 (-28404); mkRun 98 98 (-31538);
  mkRun 99 99 (-14014); mkRun 100 100 (-16072); mkRun 101 101 (-26209); mkRun 102 102 (-30643); mkRun 103 103 (-31097);
  mkRun 104 104 (-28106); mkRun 105 105 (-32880); mkRun 106 106 (-24414); mkRun 107 107 (-20408); mkRun 108 108 (-19430);
  mkRun 109 109 (-19104); mkRun 110 110 (-29915); mkRun 111 111 (-32657); mkRun 112 112 (-32647); mkRun 113 113 (-29300);
  mkRun 114 114 (-20487); mkRun 115 115 (-26506); mkRun 116 116 (-18843); mkRun 117 117 (-31299); mkRun 118 118 (-22888);
  mkRun 119 119 (-19957); mkRun 120 120 (-31031); mkRun 121 121 (-13163); mkRun 122 122 (-32622); mkRun 123 123 (-24719);
  mkRun 124 124 (-17066); mkRun 125 125 (-29365); mkRun 126 126 (-27983); mkRun 127 127 (-31573); mkRun 128 128 (-22690);
  mkRun 129 129 (-24729); mkRun 130 130 (-18489); mkRun 131 131 (-26941); mkRun 132 132 (-14538); mkRun 133 133 (-20493);
  mkRun 134 134 (-31372); mkRun 135 135 (-21653); mkRun 136 136 (-20927); mkRun 137 137 (-14556); mkRun 138 138 (-30954);
  mkRun 139 139 (-20235); mkRun 140 140 (-23007); mkRun 141 141 (-27569); mkRun 142 142 (-18360); mkRun 143 143 (-24879);
  mkRun 144 144 (-21556); mkRun 145 145 (-27841); mkRun 146 146 (-26930); mkRun 147 147 (-31597); mkRun 148 148 (-27380);
  mkRun 149 149 (-25171); mkRun 150 150 (-28908); mkRun 151 151 (-31356); mkRun 152 152 (-14897); mkRun 153 153 (-32910);
  mkRun 154 154 (-25210); mkRun 155 155 (-17136); mkRun 156 156 (-29330); mkRun 157 157 (-26878); mkRun 158 158 (-19523);
  mkRun 159 159 (-26169); mkRun 160 160 (-31395); mkRun 161 161 (-31406); mkRun 162 162 (-25368); mkRun 163 163 (-25470);
  mkRun 164 164 (-32849); mkRun 165 165 (-27556); mkRun 166 166 (-31647); mkRun 167 167 (-19658); mkRun 168 168 (-32732);
  mkRun 169 169 (-32572); mkRun 170 170 (-30605); mkRun 171 171 (-27874); mkRun 172 172 (-14319); mkRun 173 173 (-26762);
  mkRun 174 174 (-23686); mkRun 175 175 (-31729); mkRun 176 176 (-31824); mkRun 177 177 (-28243); mkRun 178 178 (-17156);
  mkRun 179 179 (-26848); mkRun 180 180 (-23900); mkRun 181 181 (-26470); mkRun 182 182 (-17784); mkRun 183 183 (-22182);
  mkRun 184 184 (-22268); mkRun 185 185 (-26762); mkRun 186 186 (-30912); mkRun 187 187 (-31428); mkRun 188 188 (-14812);
  mkRun 189 189 (-23684)
].

Definition runs_CF : list GbkRun := [
  mkRun 0 2 (-18331); mkRun 3 4 (-18330); mkRun 5 5 (-18327); mkRun 6 8 (-18326); mkRun 9 9 (-18325); mkRun 10 13 (-18324);
  mkRun 14 15 (-18323); mkRun 16 17 (-18322); mkRun 18 22 (-18321); mkRun 23 25 (-18320); mkRun 26 30 (-18318);
  mkRun 31 37 (-18315); mkRun 38 41 (-18314); mkRun 42 45 (-18313); mkRun 46 49 (-18312); mkRun 50 52 (-18311);
  mkRun 53 66 (-18310); mkRun 67 70 (-18309); mkRun 71 76 (-18308); mkRun 77 84 (-18307); mkRun 85 85 (-18306);
  mkRun 86 89 (-18304); mkRun 90 94 (-18303); mkRun 95 95 (-18301); mkRun 96 96 (-21921); mkRun 97 97 (-28467);
  mkRun 98 98 (-29079); mkRun 99 99 (-28443); mkRun 100 100 (-19976); mkRun 101 101 (-30353); mkRun 102 102 (-28363);
  mkRun 103 103 (-24100); mkRun 104 104 (-24250); mkRun 105 105 (-24832); mkRun 106 106 (-25435); mkRun 107 107 (-23852);
  mkRun 108 108 (-25897); mkRun 109 109 (-18177); mkRun 110 110 (-29058); mkRun 111 111 (-33104); mkRun 112 112 (-29950);
  mkRun 113 113 (-31254); mkRun 114 114 (-15056); mkRun 115 115 (-25245); mkRun 116 116 (-21178); mkRun 117 117 (-14621);
  mkRun 118 118 (-28072); mkRun 119 119 (-20722); mkRun 120 120 (-22571); mkRun 121 121 (-18748); mkRun 122 122 (-31896);
  mkRun 123 123 (-14494); mkRun 124 124 (-16423); mkRun 125 125 (-26935); mkRun 126 126 (-29406); mkRun 127 127 (-32800);
  mkRun 128 128 (-23764); mkRun 129 129 (-33207); mkRun 130 130 (-31773); mkRun 131 131 (-30389); mkRun 132 132 (-31666);
  mkRun 133 133 (-27718); mkRun 134 134 (-15007); mkRun 135 135 (-32384); mkRun 136 136 (-33008); mkRun 137 137 (-13102);
  mkRun 138 138 (-20775); mkRun 139 139 (-31508); mkRun 140 140 (-17065); mkRun 141 141 (-18298); mkRun 142 142 (-19864);
  mkRun 143 143 (-14814); mkRun 144 144 (-25155); mkRun 145 145 (-28844); mkRun 146 146 (-29959); mkRun 147 147 (-27030);
  mkRun 148 148 (-14700); mkRun 149 149 (-23590); mkRun 150 150 (-23721); mkRun 151 151 (-31769); mkRun 152 152 (-20063);
  mkRun 153 153 (-13909); mkRun 154 154 (-20538); mkRun 155 155 (-29746); mkRun 156 156 (-14694); mkRun 157 157 (-14734);
  mkRun 158 158 (-20768); mkRun 159 159 (-22760); mkRun 160 160 (-31807); mkRun 161 161 (-14956); mkRun 162 162 (-13898);
  mkRun 163 163 (-21555); mkRun 164 164 (-18081); mkRun 165 165 (-24974); mkRun 166 166 (-33158); mkRun 167 167 (-20500);
  mkRun 168 168 (-22148); mkRun 169 169 (-17412); mkRun 170 170 (-28408); mkRun 171 171 (-31519); mkRun 172 172 (-33090);
  mkRun 173 173 (-14197); mkRun 174 174 (-29176); mkRun 175 175 (-25999); mkRun 176 176 (-32546); mkRun 177 177 (-31713);
  mkRun 178 178 (-17298); mkRun 179 179 (-19405); mkRun 180 180 (-22424); mkRun 181 181 (-14578); mkRun 182 182 (-32173);
  mkRun 183 183 (-31498); mkRun 184 184 (-31062); mkRun 185 185 (-15098); mkRun 186 186 (-25203); mkRun 187 187 (-29767);
  mkRun 188 188 (-25143); mkRun 189 189 (-27051)
].

Definition runs_D0 : list GbkRun := [
  mkRun 0 13 (-18460); mkRun 14 19 (-18459); mkRun 20 21 (-18458); mkRun 22 24 (-18457); mkRun 25 27 (-18456);
  mkRun 28 33 (-18454); mkRun 34 39 (-18452); mkRun 40 41 (-18451); mkRun 42 42 (-18450); mkRun 43 49 (-18449);
  mkRun 50 51 (-18444); mkRun 52 52 (-18442); mkRun 53 53 (-18440); mkRun 54 54 (-18439); mkRun 55 55 (-18438);
  mkRun 56 59 (-18437); mkRun 60 62 (-18436); mkRun 63 64 (-18437); mkRun 65 65 (-18434); mkRun 66 66 (-18432);
  mkRun 67 68 (-18430); mkRun 69 70 (-18429); mkRun 71 71 (-18428); mkRun 72 75 (-18427); mkRun 76 78 (-18426);
  mkRun 79 83 (-18425); mkRun 84 88 (-18424); mkRun 89 89 (-18423); mkRun 90 95 (-18422); mkRun 96 96 (-29842);
  mkRun 97 97 (-30021); mkRun 98 98 (-26754); mkRun 99 99 (-20494); mkRun 100 100 (-31533); mkRun 101 101 (-21909);
  mkRun 102 102 (-27487); mkRun 103 103 (-26452); mkRun 104 104 (-33294); mkRun 105 105 (-25955); mkRun 106 106 (-18781);
  mkRun 107 107 (-14625); mkRun 108 108 (-32094); mkRun 109 109 (-28047); mkRun 110 110 (-27765); mkRun 111 111 (-16390);
  mkRun 112 112 (-27413); mkRun 113 113 (-20465); mkRun 114 114 (-17571); mkRun 115 115 (-32539); mkRun 116 116 (-26629);
  mkRun 117 117 (-32062); mkRun 118 118 (-18622); mkRun 119 119 (-28400); mkRun 120 120 (-25589); mkRun 121 121 (-25535);
  mkRun 122 122 (-17561); mkRun 123 123 (-29803); mkRun 124 124 (-19219); mkRun 125 125 (-19983); mkRun 126 126 (-15283);
  mkRun 127 127 (-26013); mkRun 128 128 (-16678); mkRun 129 129 (-27410); mkRun 130 130 (-28872); mkRun 131 131 (-28929);
  mkRun 132 132 (-32996); mkRun 133 133 (-18561); mkRun 134 134 (-27304); mkRun 135 135 (-20323); mkRun 136 136 (-23968);
  mkRun 137 137 (-28624); mkRun 138 138 (-32599); mkRun 139 139 (-32443); mkRun 140 140 (-31042); mkRun 141 141 (-29036);
  mkRun 142 142 (-16429); mkRun 143 143 (-18564); mkRun 144 144 (-16191); mkRun 145 145 (-29274); mkRun 146 146 (-27012);
  mkRun 147 147 (-28845); mkRun 148 148 (-30466); mkRun 149 149 (-32658); mkRun 150 150 (-32481); mkRun 151 151 (-20448);
  mkRun 152 152 (-32209); mkRun 153 153 (-25697); mkRun 154 154 (-14871); mkRun 155 155 (-24402); mkRun 156 156 (-33228);
  mkRun 157 157 (-33008); mkRun 158 158 (-20801); mkRun 159 159 (-27043); mkRun 160 160 (-31516); mkRun 161 161 (-15322);
  mkRun 162 162 (-22307); mkRun 163 163 (-18510); mkRun 164 164 (-20994); mkRun 165 165 (-30791); mkRun 166 166 (-28379);
  mkRun 167 167 (-14824); mkRun 168 168 (-19087); mkRun 169 169 (-31442); mkRun 170 170 (-14448); mkRun 171 171 (-29020);
  mkRun 172 172 (-17717); mkRun 173 173 (-19498); mkRun 174 174 (-16280); mkRun 175 175 (-32023); mkRun 176 176 (-27396);
  mkRun 177 177 (-29283); mkRun 178 178 (-23447); mkRun 179 179 (-28816); mkRun 180 180 (-21383); mkRun 181 181 (-30327);
  mkRun 182 182 (-21005); mkRun 183 183 (-21003); mkRun 184 184 (-16784); mkRun 185 185 (-31571); mkRun 186 186 (-30040);
  mkRun 187 187 (-28752); mkRun 188 188 (-27442); mkRun 189 189 (-23930)
].

Definition runs_D1 : list GbkRun := [
  mkRun 0 0 (-18580); mkRun 1 3 (-18579); mkRun 4 8 (-18578); mkRun 9 12 (-18577); mkRun 13 16 (-18576); mkRun 17 18 (-18574);
  mkRun 19 20 (-18572); mkRun 21 24 (-18571); mkRun 25 27 (-18570); mkRun 28 28 (-18569); mkRun 29 30 (-18567);
  mkRun 31 35 (-18565); mkRun 36 37 (-18564); mkRun 38 39 (-18560); mkRun 40 46 (-18559); mkRun 47 47 (-18557);
  mkRun 48 50 (-18555); mkRun 51 52 (-18553); mkRun 53 53 (-18552); mkRun 54 56 (-18551); mkRun 57 62 (-18550);
  mkRun 63 63 (-18551); mkRun 64 68 (-18550); mkRun 69 69 (-18549); mkRun 70 74 (-18547); mkRun 75 79 (-18544);
  mkRun 80 82 (-18543); mkRun 83 86 (-18542); mkRun 87 90 (-18540); mkRun 91 93 (-18539); mkRun 94 94 (-18538);
  mkRun 95 95 (-18537); mkRun 96 96 (-16792); mkRun 97 97 (-23359); mkRun 98 98 (-23162); mkRun 99 99 (-21194);
  mkRun 100 100 (-14897); mkRun 101 101 (-19467); mkRun 102 102 (-30273); mkRun 103 103 (-22324); mkRun 104 104 (-15039);
  mkRun 105 105 (-18794); mkRun 106 106 (-32480); mkRun 107 107 (-24605); mkRun 108 108 (-29187); mkRun 109 109 (-27586);
  mkRun 110 110 (-17869); mkRun 111 111 (-30133); mkRun 112 112 (-14146); mkRun 113 113 (-29649); mkRun 114 114 (-26154);
  mkRun 115 115 (-25945); mkRun 116 116 (-17928); mkRun 117 117 (-17927); mkRun 118 118 (-16813); mkRun 119 119 (-16883);
  mkRun 120 120 (-32302); mkRun 121 121 (-28414); mkRun 122 122 (-13205); mkRun 123 123 (-13199); mkRun 124 124 (-32125);
  mkRun 125 125 (-33683); mkRun 126 126 (-20226); mkRun 127 127 (-24423); mkRun 128 128 (-19237); mkRun 129 129 (-29868);
  mkRun 130 130 (-18794); mkRun 131 131 (-25621); mkRun 132 132 (-15104); mkRun 133 133 (-31989); mkRun 134 134 (-33581);
  mkRun 135 135 (-17938); mkRun 136 136 (-24768); mkRun 137 137 (-32013); mkRun 138 138 (-15298); mkRun 139 139 (-24813);
  mkRun 140 140 (-25556); mkRun 141 141 (-23294); mkRun 142 142 (-33706); mkRun 143 143 (-22972); mkRun 144 144 (-19135);
  mkRun 145 145 (-29993); mkRun 146 146 (-29405); mkRun 147 147 (-18388); mkRun 148 148 (-14649); mkRun 149 149 (-15304);
  mkRun 150 150 (-24905); mkRun 151 151 (-25881); mkRun 152 152 (-30869); mkRun 153 153 (-28209); mkRun 154 154 (-23199);
  mkRun 155 155 (-18831); mkRun 156 156 (-25289); mkRun 157 157 (-20331); mkRun 158 158 (-31151); mkRun 159 159 (-24587);
  mkRun 160 160 (-32341); mkRun 161 161 (-22984); mkRun 162 162 (-15138); mkRun 163 163 (-31971); mkRun 164 164 (-29311);
  mkRun 165 165 (-24758); mkRun 166 166 (-30259); mkRun 167 167 (-17870); mkRun 168 168 (-14173); mkRun 169 169 (-26215);
  mkRun 170 170 (-30909); mkRun 171 171 (-13245); mkRun 172 172 (-22534); mkRun 173 173 (-27270); mkRun 174 174 (-28547);
  mkRun 175 175 (-33409); mkRun 176 176 (-23632); mkRun 177 177 (-21096); mkRun 178 178 (-25832); mkRun 179 179 (-15297);
  mkRun 180 180 (-26062); mkRun 181 181 (-33542); mkRun 182 182 (-23589); mkRun 183 183 (-32893); mkRun 184 184 (-27074);
  mkRun 185 185 (-25276); mkRun 186 186 (-16763); mkRun 187 187 (-20620); mkRun 188 188 (-30823); mkRun 189 189 (-23944)
].

Definition runs_D2 : list GbkRun := [
  mkRun 0 8 (-18696); mkRun 9 10 (-18695); mkRun 11 35 (-18694); mkRun 36 41 (-18692); mkRun 42 61 (-18691);
  mkRun 62 62 (-18690); mkRun 63 64 (-18691); mkRun 65 65 (-18690); mkRun 66 66 (-18689); mkRun 67 68 (-18688);
  mkRun 69 95 (-18687); mkRun 96 96 (-28250); mkRun 97 97 (-30331); mkRun 98 98 (-16958); mkRun 99 99 (-22547);
  mkRun 100 100 (-18050); mkRun 101 101 (-30924); mkRun 102 102 (-32251); mkRun 103 103 (-20648); mkRun 104 104 (-20282);
  mkRun 105 105 (-18729); mkRun 106 106 (-21163); mkRun 107 107 (-27004); mkRun 108 108 (-31839); mkRun 109 109 (-21112);
  mkRun 110 110 (-24696); mkRun 111 111 (-16610); mkRun 112 112 (-33019); mkRun 113 113 (-33875); mkRun 114 114 (-14910);
  mkRun 115 115 (-28446); mkRun 116 116 (-33947); mkRun 117 117 (-32448); mkRun 118 118 (-27588); mkRun 119 119 (-20845);
  mkRun 120 120 (-31133); mkRun 121 121 (-25864); mkRun 122 122 (-33979); mkRun 123 123 (-31171); mkRun 124 124 (-32642);
  mkRun 125 125 (-28392); mkRun 126 126 (-15822); mkRun 127 127 (-33571); mkRun 128 128 (-33719); mkRun 129 129 (-19039);
  mkRun 130 130 (-14899); mkRun 131 131 (-31117); mkRun 132 132 (-17006); mkRun 133 133 (-22731); mkRun 134 134 (-33757);
  mkRun 135 135 (-20952); mkRun 136 136 (-23864); mkRun 137 137 (-26184); mkRun 138 138 (-30511); mkRun 139 139 (-30948);
  mkRun 140 140 (-29552); mkRun 141 141 (-27081); mkRun 142 142 (-19534); mkRun 143 143 (-33462); mkRun 144 144 (-29919);
  mkRun 145 145 (-33913); mkRun 146 146 (-23280); mkRun 147 147 (-33775); mkRun 148 148 (-20571); mkRun 149 149 (-28741);
  mkRun 150 150 (-27844); mkRun 151 151 (-16967); mkRun 152 152 (-30304); mkRun 153 153 (-33819); mkRun 154 154 (-29538);
  mkRun 155 155 (-20758); mkRun 156 156 (-17061); mkRun 157 157 (-21082); mkRun 158 158 (-23860); mkRun 159 159 (-33850);
  mkRun 160 160 (-18957); mkRun 161 161 (-29139); mkRun 162 162 (-26398); mkRun 163 163 (-29470); mkRun 164 164 (-33948);
  mkRun 165 165 (-23580); mkRun 166 166 (-25669); mkRun 167 167 (-18181); mkRun 168 168 (-18235); mkRun 169 169 (-18144);
  mkRun 170 170 (-18202); mkRun 171 171 (-29674); mkRun 172 172 (-21233); mkRun 173 173 (-21282); mkRun 174 174 (-21537);
  mkRun 175 175 (-20411); mkRun 176 176 (-20358); mkRun 177 177 (-31762); mkRun 178 178 (-26428); mkRun 179 179 (-15105);
  mkRun 180 180 (-15553); mkRun 181 181 (-30971); mkRun 182 182 (-32472); mkRun 183 183 (-15874); mkRun 184 184 (-25870);
  mkRun 185 185 (-30517); mkRun 186 186 (-14733); mkRun 187 187 (-30403); mkRun 188 188 (-29672); mkRun 189 189 (-15470)
].

Definition runs_D3 : list GbkRun := [
  mkRun 0 30 (-18846); mkRun 31 31 (-18844); mkRun 32 32 (-18835); mkRun 33 35 (-18830); mkRun 36 38 (-18829);
  mkRun 39 39 (-18828); mkRun 40 40 (-18827); mkRun 41 44 (-18826); mkRun 45 45 (-18825); mkRun 46 49 (-18823);
  mkRun 50 52 (-18822); mkRun 53 55 (-18821); mkRun 56 62 (-18820); mkRun 63 67 (-18821); mkRun 68 73 (-18820);
  mkRun 74 95 (-18819); mkRun 96 96 (-32817); mkRun 97 97 (-20657); mkRun 98 98 (-26994); mkRun 99 99 (-31024);
  mkRun 100 100 (-13621); mkRun 101 101 (-29970); mkRun 102 102 (-21631); mkRun 103 103 (-20463); mkRun 104 105 (-20357);
  mkRun 106 106 (-20548); mkRun 107 107 (-19557); mkRun 108 108 (-17375); mkRun 109 109 (-17996); mkRun 110 110 (-23783);
  mkRun 111 111 (-29759); mkRun 112 112 (-15131); mkRun 113 113 (-23366); mkRun 114 114 (-28051); mkRun 115 115 (-32469);
  mkRun 116 116 (-28880); mkRun 117 117 (-33875); mkRun 118 118 (-20980); mkRun 119 119 (-24048); mkRun 120 120 (-29953);
  mkRun 121 121 (-15597); mkRun 122 122 (-17841); mkRun 123 123 (-19651); mkRun 124 124 (-32558); mkRun 125 125 (-26315);
  mkRun 126 126 (-26163); mkRun 127 127 (-26504); mkRun 128 128 (-29506); mkRun 129 129 (-33019); mkRun 130 130 (-24219);
  mkRun 131 131 (-30023); mkRun 132 132 (-33965); mkRun 133 133 (-29478); mkRun 134 134 (-29664); mkRun 135 135 (-30628);
  mkRun 136 136 (-24216); mkRun 137 137 (-17180); mkRun 138 138 (-16139); mkRun 139 139 (-24851); mkRun 140 140 (-26388);
  mkRun 141 141 (-26006); mkRun 142 142 (-17030); mkRun 143 143 (-27847); mkRun 144 144 (-32774); mkRun 145 145 (-32735);
  mkRun 146 146 (-33922); mkRun 147 147 (-16907); mkRun 148 148 (-18404); mkRun 149 149 (-32782); mkRun 150 150 (-30043);
  mkRun 151 151 (-17430); mkRun 152 152 (-26101); mkRun 153 153 (-34124); mkRun 154 154 (-23833); mkRun 155 155 (-27222);
  mkRun 156 156 (-19839); mkRun 157 157 (-29380); mkRun 158 158 (-20953); mkRun 159 159 (-33927); mkRun 160 160 (-33795);
  mkRun 161 161 (-17316); mkRun 162 162 (-14183); mkRun 163 163 (-29403); mkRun 164 164 (-26056); mkRun 165 165 (-26066);
  mkRun 166 166 (-15714); mkRun 167 167 (-34144); mkRun 168 168 (-31160); mkRun 169 169 (-15618); mkRun 170 170 (-34269);
  mkRun 171 171 (-30573); mkRun 172 172 (-23092); mkRun 173 173 (-30823); mkRun 174 174 (-18434); mkRun 175 175 (-21555);
  mkRun 176 176 (-24680); mkRun 177 177 (-31763); mkRun 178 178 (-20840); mkRun 179 179 (-17203); mkRun 180 180 (-32756);
  mkRun 181 181 (-17327); mkRun 182 182 (-32316); mkRun 183 183 (-30478); mkRun 184 184 (-29784); mkRun 185 185 (-29426);
  mkRun 186 186 (-26825); mkRun 187 187 (-24843); mkRun 188 188 (-21323); mkRun 189 189 (-18805)
].

Definition runs_D4 : list GbkRun := [
  mkRun 0 31 (-18978); mkRun 32 40 (-18977); mkRun 41 62 (-18976); mkRun 63 88 (-18977); mkRun 89 95 (-18976);
  mkRun 96 96 (-26413); mkRun 97 97 (-30927); mkRun 98 98 (-19406); mkRun 99 99 (-15392); mkRun 100 100 (-18490);
  mkRun 101 101 (-14905); mkRun 102 102 (-13940); mkRun 103 103 (-26270); mkRun 104 104 (-33541); mkRun 105 105 (-33639);
  mkRun 106 106 (-32008); mkRun 107 107 (-19499); mkRun 108 108 (-33038); mkRun 109 109 (-28858); mkRun 110 110 (-17690);
  mkRun 111 111 (-32195); mkRun 112 112 (-32857); mkRun 113 113 (-32172); mkRun 114 114 (-24948); mkRun 115 115 (-26148);
  mkRun 116 116 (-21917); mkRun 117 117 (-17626); mkRun 118 118 (-20966); mkRun 119 119 (-29561); mkRun 120 120 (-29841);
  mkRun 121 121 (-15960); mkRun 122 122 (-28107); mkRun 123 123 (-22038); mkRun 124 124 (-18227); mkRun 125 125 (-18171);
  mkRun 126 126 (-16410); mkRun 127 127 (-30733); mkRun 128 128 (-22557); mkRun 129 129 (-28090); mkRun 130 130 (-29725);
  mkRun 131 131 (-16063); mkRun 132 132 (-21677); mkRun 133 133 (-34357); mkRun 134 134 (-17376); mkRun 135 135 (-33224);
  mkRun 136 136 (-15969); mkRun 137 137 (-33673); mkRun 138 138 (-17659); mkRun 139 139 (-20312); mkRun 140 140 (-17264);
  mkRun 141 141 (-28281); mkRun 142 142 (-15578); mkRun 143 143 (-31099); mkRun 144 144 (-33204); mkRun 145 145 (-23706);
  mkRun 146 146 (-28049); mkRun 147 147 (-27799); mkRun 148 148 (-32780); mkRun 149 149 (-25688); mkRun 150 150 (-31015);
  mkRun 151 151 (-17755); mkRun 152 152 (-33612); mkRun 153 153 (-32178); mkRun 154 154 (-32810); mkRun 155 155 (-28618);
  mkRun 156 156 (-28251); mkRun 157 157 (-18304); mkRun 158 158 (-18332); mkRun 159 159 (-21457); mkRun 160 160 (-20597);
  mkRun 161 161 (-17525); mkRun 162 162 (-22532); mkRun 163 163 (-33509); mkRun 164 164 (-20202); mkRun 165 165 (-27971);
  mkRun 166 166 (-28414); mkRun 167 167 (-25927); mkRun 168 168 (-20037); mkRun 169 169 (-18025); mkRun 170 170 (-32385);
  mkRun 171 171 (-17612); mkRun 172 172 (-24171); mkRun 173 173 (-25720); mkRun 174 174 (-25354); mkRun 175 175 (-18381);
  mkRun 176 176 (-29192); mkRun 177 177 (-33497); mkRun 178 178 (-26614); mkRun 179 179 (-18360); mkRun 180 180 (-29927);
  mkRun 181 181 (-31832); mkRun 182 182 (-29545); mkRun 183 183 (-28154); mkRun 184 184 (-18329); mkRun 185 185 (-29356);
  mkRun 186 186 (-32584); mkRun 187 187 (-26329); mkRun 188 188 (-28112); mkRun 189 189 (-17815)
].

Definition runs_D5 : list GbkRun := [
  mkRun 0 7 (-19135); mkRun 8 15 (-19133); mkRun 16 62 (-19132); mkRun 63 95 (-19133); mkRun 96 96 (-16576);
  mkRun 97 97 (-16298); mkRun 98 98 (-24187); mkRun 99 99 (-28063); mkRun 100 100 (-27645); mkRun 101 101 (-33051);
  mkRun 102 102 (-34650); mkRun 103 103 (-25840); mkRun 104 104 (-18913); mkRun 105 105 (-29010); mkRun 106 106 (-28704);
  mkRun 107 107 (-31271); mkRun 108 108 (-23337); mkRun 109 109 (-34164); mkRun 110 110 (-31175); mkRun 111 111 (-24053);
  mkRun 112 112 (-27088); mkRun 113 113 (-19257); mkRun 114 114 (-22811); mkRun 115 115 (-26870); mkRun 116 116 (-24294);
  mkRun 117 117 (-28685); mkRun 118 118 (-17952); mkRun 119 119 (-30859); mkRun 120 120 (-31076); mkRun 121 121 (-20354);
  mkRun 122 122 (-28083); mkRun 123 123 (-33372); mkRun 124 124 (-29605); mkRun 125 125 (-23269); mkRun 126 126 (-26468);
  mkRun 127 127 (-22211); mkRun 128 128 (-27554); mkRun 129 129 (-23266); mkRun 130 130 (-30291); mkRun 131 131 (-26257);
  mkRun 132 132 (-30373); mkRun 133 133 (-29242); mkRun 134 134 (-26655); mkRun 135 135 (-28274); mkRun 136 136 (-34753);
  mkRun 137 137 (-30650); mkRun 138 138 (-18597); mkRun 139 139 (-34549); mkRun 140 140 (-21773); mkRun 141 141 (-24474);
  mkRun 142 142 (-16179); mkRun 143 143 (-29429); mkRun 144 144 (-28580); mkRun 145 145 (-29524); mkRun 146 146 (-26903);
  mkRun 147 147 (-18527); mkRun 148 148 (-25710); mkRun 149 149 (-22125); mkRun 150 150 (-33937); mkRun 151 151 (-21841);
  mkRun 152 152 (-33261); mkRun 153 153 (-17772); mkRun 154 154 (-29507); mkRun 155 155 (-33002); mkRun 156 156 (-20205);
  mkRun 157 157 (-17989); mkRun 158 158 (-21978); mkRun 159 159 (-16585); mkRun 160 160 (-20682); mkRun 161 161 (-17929);
  mkRun 162 162 (-26762); mkRun 163 163 (-25111); mkRun 164 164 (-28742); mkRun 165 165 (-24263); mkRun 166 166 (-24803);
  mkRun 167 167 (-24001); mkRun 168 168 (-21486); mkRun 169 169 (-18636); mkRun 170 170 (-16739); mkRun 171 171 (-34374);
  mkRun 172 172 (-28248); mkRun 173 173 (-24629); mkRun 174 174 (-18981); mkRun 175 175 (-16105); mkRun 176 176 (-29378);
  mkRun 177 177 (-16555); mkRun 178 178 (-16318); mkRun 179 179 (-20796); mkRun 180 180 (-29394); mkRun 181 181 (-24245);
  mkRun 182 182 (-30326); mkRun 183 183 (-25352); mkRun 184 184 (-34672); mkRun 185 185 (-30182); mkRun 186 186 (-28807);
  mkRun 187 187 (-29453); mkRun 188 188 (-27290); mkRun 189 189 (-28863)
].

Definition runs_D6 : list GbkRun := [
  mkRun 0 34 (-19292); mkRun 35 62 (-19291); mkRun 63 64 (-19292); mkRun 65 95 (-19291); mkRun 96 96 (-30842);
  mkRun 97 97 (-24795); mkRun 98 98 (-17874); mkRun 99 99 (-19171); mkRun 100 100 (-21512); mkRun 101 101 (-28425);
  mkRun 102 102 (-29048); mkRun 103 103 (-33399); mkRun 104 104 (-20369); mkRun 105 105 (-24261); mkRun 106 106 (-22025);
  mkRun 107 107 (-21930); mkRun 108 108 (-27244); mkRun 109 109 (-34915); mkRun 110 110 (-22504); mkRun 111 111 (-22116);
  mkRun 112 112 (-24509); mkRun 113 113 (-28069); mkRun 114 114 (-27421); mkRun 115 115 (-29773); mkRun 116 116 (-34425);
  mkRun 117 117 (-34610); mkRun 118 118 (-32631); mkRun 119 119 (-29617); mkRun 120 120 (-27479); mkRun 121 121 (-18684);
  mkRun 122 122 (-33489); mkRun 123 123 (-28884); mkRun 124 124 (-22533); mkRun 125 125 (-30439); mkRun 126 126 (-29605);
  mkRun 127 127 (-29449); mkRun 128 129 (-21710); mkRun 130 130 (-22357); mkRun 131 131 (-30888); mkRun 132 132 (-31212);
  mkRun 133 133 (-33936); mkRun 134 134 (-28749); mkRun 135 135 (-23775); mkRun 136 136 (-23727); mkRun 137 137 (-18850);
  mkRun 138 138 (-26162); mkRun 139 139 (-24824); mkRun 140 140 (-26607); mkRun 141 141 (-27155); mkRun 142 142 (-23613);
  mkRun 143 143 (-34979); mkRun 144 144 (-24588); mkRun 145 145 (-30450); mkRun 146 146 (-16948); mkRun 147 147 (-20061);
  mkRun 148 148 (-22541); mkRun 149 149 (-23817); mkRun 150 150 (-22040); mkRun 151 151 (-17675); mkRun 152 152 (-34791);
  mkRun 153 153 (-34755); mkRun 154 154 (-21692); mkRun 155 155 (-33396); mkRun 156 156 (-30975); mkRun 157 157 (-27052);
  mkRun 158 158 (-19219); mkRun 159 159 (-23099); mkRun 160 160 (-18285); mkRun 161 161 (-22090); mkRun 162 162 (-30921);
  mkRun 163 163 (-33362); mkRun 164 164 (-24628); mkRun 165 165 (-31565); mkRun 166 166 (-28843); mkRun 167 167 (-15428);
  mkRun 168 168 (-25353); mkRun 169 169 (-28352); mkRun 170 170 (-20496); mkRun 171 171 (-28603); mkRun 172 172 (-25539);
  mkRun 173 173 (-19190); mkRun 174 174 (-19220); mkRun 175 175 (-18144); mkRun 176 176 (-23544); mkRun 177 177 (-26135);
  mkRun 178 178 (-25989); mkRun 179 179 (-29744); mkRun 180 180 (-24396); mkRun 181 181 (-32965); mkRun 182 182 (-35004);
  mkRun 183 183 (-21153); mkRun 184 184 (-28424); mkRun 185 185 (-33873); mkRun 186 186 (-20539); mkRun 187 187 (-18894);
  mkRun 188 188 (-16901); mkRun 189 189 (-23469)
].

Definition runs_D7 : list GbkRun := [
  mkRun 0 31 (-19450); mkRun 32 36 (-19449); mkRun 37 62 (-19448); mkRun 63 87 (-19449); mkRun 88 88 (-19437);
  mkRun 89 89 (-19433); mkRun 90 90 (-19424); mkRun 91 91 (-19413); mkRun 92 92 (-19405); mkRun 93 93 (-19380);
  mkRun 94 94 (-19350); mkRun 95 95 (-19330); mkRun 96 96 (-34898); mkRun 97 97 (-27322); mkRun 98 98 (-24134);
  mkRun 99 99 (-15657); mkRun 100 100 (-29970); mkRun 101 101 (-25980); mkRun 102 102 (-29866); mkRun 103 103 (-35221);
  mkRun 104 104 (-24467); mkRun 105 105 (-18494); mkRun 106 106 (-29435); mkRun 107 107 (-19026); mkRun 108 108 (-23527);
  mkRun 109 109 (-28485); mkRun 110 110 (-31019); mkRun 111 111 (-20203); mkRun 112 112 (-32299); mkRun 113 113 (-29460);
  mkRun 114 114 (-32453); mkRun 115 115 (-25854); mkRun 116 116 (-28327); mkRun 117 117 (-17041); mkRun 118 118 (-18362);
  mkRun 119 119 (-19040); mkRun 120 120 (-32857); mkRun 121 121 (-22714); mkRun 122 122 (-19381); mkRun 123 123 (-34294);
  mkRun 124 124 (-29812); mkRun 125 125 (-29925); mkRun 126 126 (-33900); mkRun 127 127 (-28532); mkRun 128 128 (-25503);
  mkRun 129 129 (-21697); mkRun 130 130 (-18039); mkRun 131 131 (-33408); mkRun 132 132 (-24709); mkRun 133 133 (-26442);
  mkRun 134 134 (-27261); mkRun 135 135 (-34383); mkRun 136 136 (-33569); mkRun 137 137 (-19078); mkRun 138 138 (-32204);
  mkRun 139 139 (-26881); mkRun 140 140 (-27145); mkRun 141 141 (-31858); mkRun 142 142 (-23204); mkRun 143 143 (-35068);
  mkRun 144 144 (-23380); mkRun 145 145 (-26879); mkRun 146 146 (-31875); mkRun 147 147 (-21994); mkRun 148 148 (-27080);
  mkRun 149 149 (-31871); mkRun 150 150 (-15572); mkRun 151 151 (-28419); mkRun 152 152 (-18863); mkRun 153 153 (-31811);
  mkRun 154 154 (-22751); mkRun 155 155 (-30625); mkRun 156 156 (-22824); mkRun 157 157 (-18213); mkRun 158 158 (-19055);
  mkRun 159 159 (-32401); mkRun 160 160 (-29716); mkRun 161 161 (-24067); mkRun 162 162 (-18992); mkRun 163 163 (-33938);
  mkRun 164 164 (-29206); mkRun 165 165 (-24208); mkRun 166 166 (-19490); mkRun 167 167 (-16813); mkRun 168 168 (-22821);
  mkRun 169 169 (-17199); mkRun 170 170 (-22889); mkRun 171 171 (-33208); mkRun 172 172 (-18020); mkRun 173 173 (-28910);
  mkRun 174 174 (-22661); mkRun 175 175 (-31718); mkRun 176 176 (-18300); mkRun 177 177 (-29130); mkRun 178 178 (-31245);
  mkRun 179 179 (-34980); mkRun 180 180 (-28695); mkRun 181 181 (-34716); mkRun 182 182 (-34971); mkRun 183 183 (-32936);
  mkRun 184 184 (-31058); mkRun 185 189 4118
].

Definition runs_D8 : list GbkRun := [
  mkRun 0 8 (-19464); mkRun 9 12 (-19463); mkRun 13 13 (-19461); mkRun 14 15 (-19460); mkRun 16 23 (-19459);
  mkRun 24 27 (-19458); mkRun 28 33 (-19457); mkRun 34 40 (-19455); mkRun 41 47 (-19453); mkRun 48 51 (-19452);
  mkRun 52 58 (-19449); mkRun 59 60 (-19448); mkRun 61 62 (-19447); mkRun 63 63 (-19448); mkRun 64 64 (-19446);
  mkRun 65 71 (-19445); mkRun 72 74 (-19444); mkRun 75 95 (-19443); mkRun 96 96 (-35348); mkRun 97 97 (-35478);
  mkRun 98 98 (-34659); mkRun 99 99 (-35476); mkRun 100 100 (-31142); mkRun 101 101 (-34145); mkRun 102 102 (-35474);
  mkRun 103 103 (-35344); mkRun 104 104 (-35467); mkRun 105 105 (-15736); mkRun 106 106 (-32063); mkRun 107 107 (-33347);
  mkRun 108 108 (-35461); mkRun 109 109 (-24308); mkRun 110 110 (-35440); mkRun 111 111 (-34203); mkRun 112 112 (-35434);
  mkRun 113 113 (-32645); mkRun 114 114 (-26232); mkRun 115 115 (-34118); mkRun 116 116 (-27813); mkRun 117 117 (-33239);
  mkRun 118 118 (-22483); mkRun 119 119 (-16161); mkRun 120 120 (-27878); mkRun 121 121 (-24892); mkRun 122 122 (-14756);
  mkRun 123 123 (-35462); mkRun 124 124 (-35358); mkRun 125 125 (-14766); mkRun 126 126 (-35427); mkRun 127 127 (-35415);
  mkRun 128 128 (-35374); mkRun 129 129 (-22074); mkRun 130 130 (-32104); mkRun 131 131 (-33624); mkRun 132 132 (-33462);
  mkRun 133 133 (-35330); mkRun 134 134 (-34106); mkRun 135 135 (-34091); mkRun 136 136 (-34086); mkRun 137 137 (-34085);
  mkRun 138 138 (-34077); mkRun 139 139 (-16743); mkRun 140 140 (-19312); mkRun 141 141 (-34228); mkRun 142 142 (-34010);
  mkRun 143 143 (-34218); mkRun 144 144 (-34211); mkRun 145 145 (-34196); mkRun 146 146 (-19319); mkRun 147 147 (-34158);
  mkRun 148 148 (-34162); mkRun 149 149 (-34516); mkRun 150 150 (-34511); mkRun 151 151 (-34506); mkRun 152 152 (-34476);
  mkRun 153 153 (-34471); mkRun 154 155 (-34460); mkRun 156 156 (-34449); mkRun 157 157 (-34432); mkRun 158 158 (-34430);
  mkRun 159 159 (-34436); mkRun 160 160 (-21554); mkRun 161 161 (-34405); mkRun 162 162 (-34401); mkRun 163 163 (-34403);
  mkRun 164 164 (-34389); mkRun 165 165 (-34387); mkRun 166 166 (-34661); mkRun 167 167 (-22932); mkRun 168 168 (-35374);
  mkRun 169 169 (-35367); mkRun 170 170 (-35362); mkRun 171 171 (-35370); mkRun 172 172 (-35333); mkRun 173 173 (-35341);
  mkRun 174 174 (-35332); mkRun 175 175 (-35346); mkRun 176 176 (-35286); mkRun 177 177 (-35327); mkRun 178 178 (-35281);
  mkRun 179 179 (-35216); mkRun 180 180 (-35328); mkRun 181 181 (-35281); mkRun 182 182 (-35280); mkRun 183 183 (-35311);
  mkRun 184 184 (-35278); mkRun 185 185 (-35228); mkRun 186 186 (-35220); mkRun 187 187 (-29636); mkRun 188 188 (-35235);
  mkRun 189 189 (-35233)
].

Definition runs_D9 : list GbkRun := [
  mkRun 0 62 (-19602); mkRun 63 95 (-19603); mkRun 96 96 (-35394); mkRun 97 97 (-35403); mkRun 98 98 (-35441);
  mkRun 99 99 (-35431); mkRun 100 100 (-35375); mkRun 101 101 (-35378); mkRun 102 102 (-35350); mkRun 103 103 (-35359);
  mkRun 104 104 (-35366); mkRun 105 105 (-35355); mkRun 106 106 (-35373); mkRun 107 107 (-35377); mkRun 108 108 (-35331);
  mkRun 109 109 (-35378); mkRun 110 110 (-35331); mkRun 111 111 (-35356); mkRun 112 112 (-35275); mkRun 113 113 (-35274);
  mkRun 114 114 (-35273); mkRun 115 115 (-35311); mkRun 116 116 (-35291); mkRun 117 117 (-35283); mkRun 118 118 (-35291);
  mkRun 119 119 (-35303); mkRun 120 120 (-35290); mkRun 121 121 (-35266); mkRun 122 122 (-35218); mkRun 123 123 (-35184);
  mkRun 124 124 (-35274); mkRun 125 125 (-35218); mkRun 126 126 (-35248); mkRun 127 127 (-35218); mkRun 128 128 (-35220);
  mkRun 129 129 (-35268); mkRun 130 130 (-35239); mkRun 131 131 (-35256); mkRun 132 132 (-35232); mkRun 133 133 (-35230);
  mkRun 134 134 (-35145); mkRun 135 135 (-35205); mkRun 136 136 (-35188); mkRun 137 137 (-35202); mkRun 138 138 (-35197);
  mkRun 139 139 (-35168); mkRun 140 140 (-35154); mkRun 141 141 (-35113); mkRun 142 142 (-35112); mkRun 143 143 (-35111);
  mkRun 144 144 (-35095); mkRun 145 145 (-35068); mkRun 146 146 (-35021); mkRun 147 147 (-35047); mkRun 148 148 (-35049);
  mkRun 149 149 (-35056); mkRun 150 150 (-35049); mkRun 151 151 (-35025); mkRun 152 152 (-35022); mkRun 153 153 (-35581);
  mkRun 154 154 (-28062); mkRun 155 155 (-35460); mkRun 156 156 (-35448); mkRun 157 157 (-35344); mkRun 158 158 (-14911);
  mkRun 159 159 (-28058); mkRun 160 160 (-23917); mkRun 161 161 (-34932); mkRun 162 162 (-31718); mkRun 163 163 (-15131);
  mkRun 164 164 (-16461); mkRun 165 165 (-34917); mkRun 166 166 (-32979); mkRun 167 167 (-34543); mkRun 168 168 (-34524);
  mkRun 169 169 (-20451); mkRun 170 170 (-34523); mkRun 171 171 (-34817); mkRun 172 172 (-32980); mkRun 173 173 (-34969);
  mkRun 174 174 (-35663); mkRun 175 175 (-34970); mkRun 176 176 (-35646); mkRun 177 177 (-20868); mkRun 178 178 (-20815);
  mkRun 179 179 (-35647); mkRun 180 180 (-22753); mkRun 181 181 (-20772); mkRun 182 182 (-24695); mkRun 183 183 (-32452);
  mkRun 184 184 (-20982); mkRun 185 185 (-23106); mkRun 186 186 (-34896); mkRun 187 187 (-34891); mkRun 188 188 (-34880);
  mkRun 189 189 (-34882)
].

Definition runs_DA : list GbkRun := [
  mkRun 0 14 (-19762); mkRun 15 15 (-19759); mkRun 16 17 (-19711); mkRun 18 18 (-19707); mkRun 19 19 (-19700);
  mkRun 20 20 (-19695); mkRun 21 23 (-19693); mkRun 24 24 (-19692); mkRun 25 26 (-19691); mkRun 27 28 (-19690);
  mkRun 29 37 (-19685); mkRun 38 39 (-19684); mkRun 40 43 (-19682); mkRun 44 48 (-19680); mkRun 49 50 (-19679);
  mkRun 51 60 (-19678); mkRun 61 62 (-19677); mkRun 63 63 (-19678); mkRun 64 76 (-19677); mkRun 77 77 (-19676);
  mkRun 78 79 (-19673); mkRun 80 80 (-19672); mkRun 81 81 (-19671); mkRun 82 82 (-19670); mkRun 83 85 (-19668);
  mkRun 86 86 (-19666); mkRun 87 90 (-19665); mkRun 91 91 (-19663); mkRun 92 92 (-19661); mkRun 93 95 (-19660);
  mkRun 96 96 (-35034); mkRun 97 97 (-35084); mkRun 98 98 (-35073); mkRun 99 99 (-35071); mkRun 100 100 (-20229);
  mkRun 101 102 (-20224); mkRun 103 103 (-20222); mkRun 104 105 (-20213); mkRun 106 106 (-20212); mkRun 107 108 (-20202);
  mkRun 109 109 (-20195); mkRun 110 110 (-20192); mkRun 111 111 (-20194); mkRun 112 114 (-20191); mkRun 115 115 (-20190);
  mkRun 116 117 (-20189); mkRun 118 118 (-20187); mkRun 119 120 (-20185); mkRun 121 121 (-20182); mkRun 122 123 (-20179);
  mkRun 124 124 (-20175); mkRun 125 125 (-20174); mkRun 126 126 (-20172); mkRun 127 127 (-20170); mkRun 128 128 (-20168);
  mkRun 129 129 (-20166); mkRun 130 131 (-20164); mkRun 132 132 (-20163); mkRun 133 133 (-20162); mkRun 134 134 (-20160);
  mkRun 135 135 (-20156); mkRun 136 136 (-20154); mkRun 137 138 (-20153); mkRun 139 141 (-20152); mkRun 142 142 (-20150);
  mkRun 143 143 (-20149); mkRun 144 144 (-20153); mkRun 145 145 (-20149); mkRun 146 148 (-20148); mkRun 149 149 (-20145);
  mkRun 150 150 (-20144); mkRun 151 152 (-20142); mkRun 153 154 (-20140); mkRun 155 156 (-20138); mkRun 157 158 (-20137);
  mkRun 159 159 (-34679); mkRun 160 160 (-34663); mkRun 161 161 (-17605); mkRun 162 162 (-17601); mkRun 163 163 (-17603);
  mkRun 164 164 (-17588); mkRun 165 165 (-17596); mkRun 166 166 (-17578); mkRun 167 167 (-17580); mkRun 168 168 (-17575);
  mkRun 169 169 (-17569); mkRun 170 170 (-17559); mkRun 171 171 (-17549); mkRun 172 172 (-17542); mkRun 173 173 (-17538);
  mkRun 174 174 (-17533); mkRun 175 175 (-17532); mkRun 176 176 (-17513); mkRun 177 177 (-17509); mkRun 178 178 (-17500);
  mkRun 179 179 (-17476); mkRun 180 180 (-19038); mkRun 181 181 (-19035); mkRun 182 182 (-19034); mkRun 183 183 (-19039);
  mkRun 184 184 (-19021); mkRun 185 185 (-19033); mkRun 186 186 (-19015); mkRun 187 187 (-19017); mkRun 188 188 (-19015);
  mkRun 189 189 (-19012)
].

Definition runs_DB : list GbkRun := [
  mkRun 0 0 (-19819); mkRun 1 2 (-19817); mkRun 3 3 (-19815); mkRun 4 6 (-19812); mkRun 7 9 (-19810); mkRun 10 10 (-19809);
  mkRun 11 12 (-19806); mkRun 13 15 (-19805); mkRun 16 16 (-19804); mkRun 17 17 (-19803); mkRun 18 18 (-19798);
  mkRun 19 25 (-19797); mkRun 26 28 (-19796); mkRun 29 29 (-19794); mkRun 30 31 (-19793); mkRun 32 35 (-19792);
  mkRun 36 43 (-19791); mkRun 44 45 (-19788); mkRun 46 50 (-19786); mkRun 51 51 (-19784); mkRun 52 52 (-19783);
  mkRun 53 53 (-19781); mkRun 54 56 (-19780); mkRun 57 59 (-19779); mkRun 60 61 (-19777); mkRun 62 62 (-19776);
  mkRun 63 63 (-19777); mkRun 64 64 (-19774); mkRun 65 66 (-19773); mkRun 67 71 (-19768); mkRun 72 77 (-19766);
  mkRun 78 89 (-19765); mkRun 90 91 (-19764); mkRun 92 93 (-19763); mkRun 94 94 (-19761); mkRun 95 95 (-19759);
  mkRun 96 96 (-19177); mkRun 97 97 (-19186); mkRun 98 98 (-19156); mkRun 99 99 (-19167); mkRun 100 100 (-19175);
  mkRun 101 101 (-19158); mkRun 102 102 (-19171); mkRun 103 103 (-19169); mkRun 104 104 (-19158); mkRun 105 105 (-19140);
  mkRun 106 106 (-19145); mkRun 107 107 (-19152); mkRun 108 108 (-19158); mkRun 109 109 (-19155); mkRun 110 110 (-19140);
  mkRun 111 111 (-19137); mkRun 112 112 (-19123); mkRun 113 113 (-19118); mkRun 114 114 (-19089); mkRun 115 115 (-19094);
  mkRun 116 116 (-19090); mkRun 117 117 (-19077); mkRun 118 118 (-19080); mkRun 119 119 (-19071); mkRun 120 120 (-19062);
  mkRun 121 121 (-19060); mkRun 122 122 (-35246); mkRun 123 123 (-33402); mkRun 124 124 (-35099); mkRun 125 126 (-35090);
  mkRun 127 127 (-35074); mkRun 128 128 (-34498); mkRun 129 129 (-35058); mkRun 130 130 (-35053); mkRun 131 131 (-35028);
  mkRun 132 132 (-34790); mkRun 133 133 (-27096); mkRun 134 134 (-25594); mkRun 135 135 (-31956); mkRun 136 136 (-35284);
  mkRun 137 137 (-35278); mkRun 138 138 (-16540); mkRun 139 139 (-34838); mkRun 140 140 (-31948); mkRun 141 141 (-26228);
  mkRun 142 142 (-32224); mkRun 143 143 (-33924); mkRun 144 144 (-33832); mkRun 145 145 (-33841); mkRun 146 146 (-33621);
  mkRun 147 147 (-33560); mkRun 148 148 (-33552); mkRun 149 149 (-33541); mkRun 150 150 (-33966); mkRun 151 151 (-33964);
  mkRun 152 152 (-33967); mkRun 153 153 (-33959); mkRun 154 154 (-33954); mkRun 155 156 (-33966); mkRun 157 157 (-33922);
  mkRun 158 158 (-33956); mkRun 159 159 (-33950); mkRun 160 160 (-33912); mkRun 161 161 (-33885); mkRun 162 162 (-33912);
  mkRun 163 163 (-33886); mkRun 164 164 (-33897); mkRun 165 165 (-33899); mkRun 166 166 (-33919); mkRun 167 167 (-33915);
  mkRun 168 168 (-33907); mkRun 169 169 (-33911); mkRun 170 170 (-33854); mkRun 171 171 (-33864); mkRun 172 172 (-33889);
  mkRun 173 173 (-33852); mkRun 174 174 (-33824); mkRun 175 175 (-33865); mkRun 176 176 (-33853); mkRun 177 177 (-33887);
  mkRun 178 178 (-33875); mkRun 179 179 (-33823); mkRun 180 180 (-33821); mkRun 181 181 (-33820); mkRun 182 182 (-33822);
  mkRun 183 183 (-33830); mkRun 184 184 (-33857); mkRun 185 185 (-33798); mkRun 186 186 (-33804); mkRun 187 187 (-33796);
  mkRun 188 188 (-33817); mkRun 189 189 (-33825)
].

Definition runs_DC : list GbkRun := [
  mkRun 0 0 (-19917); mkRun 1 1 (-19916); mkRun 2 6 (-19915); mkRun 7 8 (-19914); mkRun 9 9 (-19913); mkRun 10 12 (-19912);
  mkRun 13 13 (-19911); mkRun 14 20 (-19910); mkRun 21 23 (-19908); mkRun 24 30 (-19907); mkRun 31 31 (-19906);
  mkRun 32 43 (-19905); mkRun 44 45 (-19903); mkRun 46 47 (-19902); mkRun 48 54 (-19901); mkRun 55 62 (-19900);
  mkRun 63 73 (-19901); mkRun 74 95 (-19900); mkRun 96 96 (-33942); mkRun 97 97 (-33941); mkRun 98 98 (-33958);
  mkRun 99 99 (-33975); mkRun 100 100 (-33957); mkRun 101 101 (-33928); mkRun 102 102 (-33934); mkRun 103 103 (-33892);
  mkRun 104 104 (-33929); mkRun 105 105 (-33861); mkRun 106 106 (-33855); mkRun 107 107 (-33835); mkRun 108 108 (-33828);
  mkRun 109 109 (-33812); mkRun 110 110 (-33839); mkRun 111 111 (-17160); mkRun 112 112 (-15768); mkRun 113 113 (-31411);
  mkRun 114 114 (-23098); mkRun 115 115 (-23095); mkRun 116 116 (-23094); mkRun 117 117 (-23079); mkRun 118 118 (-23085);
  mkRun 119 119 (-23056); mkRun 120 120 (-23093); mkRun 121 121 (-23084); mkRun 122 122 (-23082); mkRun 123 123 (-23077);
  mkRun 124 124 (-23076); mkRun 125 125 (-23059); mkRun 126 126 (-23047); mkRun 127 127 (-23042); mkRun 128 128 (-23057);
  mkRun 129 129 (-23034); mkRun 130 130 (-23033); mkRun 131 131 (-23009); mkRun 132 132 (-23085); mkRun 133 133 (-23055);
  mkRun 134 134 (-23065); mkRun 135 136 (-23037); mkRun 137 137 (-23049); mkRun 138 138 (-23074); mkRun 139 139 (-23064);
  mkRun 140 140 (-23084); mkRun 141 141 (-23076); mkRun 142 142 (-23088); mkRun 143 143 (-23052); mkRun 144 144 (-23043);
  mkRun 145 145 (-23086); mkRun 146 146 (-23026); mkRun 147 147 (-22987); mkRun 148 148 (-23006); mkRun 149 149 (-23026);
  mkRun 150 150 (-22984); mkRun 151 151 (-22993); mkRun 152 152 (-23037); mkRun 153 153 (-23014); mkRun 154 154 (-23049);
  mkRun 155 155 (-23044); mkRun 156 156 (-22993); mkRun 157 157 (-23011); mkRun 158 158 (-23052); mkRun 159 159 (-22991);
  mkRun 160 160 (-22983); mkRun 161 161 (-23004); mkRun 162 163 (-22991); mkRun 164 164 (-23045); mkRun 165 165 (-23057);
  mkRun 166 166 (-22987); mkRun 167 167 (-22935); mkRun 168 169 (-22926); mkRun 170 170 (-23011); mkRun 171 171 (-22874);
  mkRun 172 172 (-22961); mkRun 173 173 (-22970); mkRun 174 174 (-22974); mkRun 175 175 (-22869); mkRun 176 176 (-22931);
  mkRun 177 177 (-22979); mkRun 178 178 (-22948); mkRun 179 179 (-22957); mkRun 180 180 (-22962); mkRun 181 181 (-22935);
  mkRun 182 182 (-22967); mkRun 183 183 (-23009); mkRun 184 184 (-22937); mkRun 185 185 (-22989); mkRun 186 186 (-22977);
  mkRun 187 187 (-22985); mkRun 188 188 (-22935); mkRun 189 189 (-22937)
].

Definition runs_DD : list GbkRun := [
  mkRun 0 62 (-20059); mkRun 63 95 (-20060); mkRun 96 96 (-23097); mkRun 97 97 (-23175); mkRun 98 98 (-23098);
  mkRun 99 99 (-23096); mkRun 100 100 (-23099); mkRun 101 102 (-23097); mkRun 103 103 (-23032); mkRun 104 104 (-23089);
  mkRun 105 106 (-23031); mkRun 107 107 (-23052); mkRun 108 108 (-23043); mkRun 109 109 (-23067); mkRun 110 110 (-23059);
  mkRun 111 111 (-23083); mkRun 112 112 (-23093); mkRun 113 113 (-23036); mkRun 114 114 (-23050); mkRun 115 115 (-23095);
  mkRun 116 116 (-23037); mkRun 117 117 (-23099); mkRun 118 118 (-23071); mkRun 119 119 (-23066); mkRun 120 120 (-23057);
  mkRun 121 121 (-23040); mkRun 122 122 (-23039); mkRun 123 123 (-23035); mkRun 124 124 (-22972); mkRun 125 125 (-23001);
  mkRun 126 126 (-23015); mkRun 127 127 (-34233); mkRun 128 128 (-22953); mkRun 129 129 (-22967); mkRun 130 130 (-23014);
  mkRun 131 131 (-22983); mkRun 132 132 (-23023); mkRun 133 133 (-22954); mkRun 134 134 (-22927); mkRun 135 135 (-22967);
  mkRun 136 136 (-22979); mkRun 137 137 (-23030); mkRun 138 138 (-23020); mkRun 139 139 (-22973); mkRun 140 140 (-22986);
  mkRun 141 142 (-22998); mkRun 143 143 (-23014); mkRun 144 144 (-23052); mkRun 145 145 (-23058); mkRun 146 146 (-22957);
  mkRun 147 147 (-23012); mkRun 148 148 (-23028); mkRun 149 149 (-22906); mkRun 150 150 (-22918); mkRun 151 151 (-22910);
  mkRun 152 152 (-22912); mkRun 153 153 (-22887); mkRun 154 155 (-22868); mkRun 156 156 (-22883); mkRun 157 157 (-22869);
  mkRun 158 158 (-22887); mkRun 159 159 (-22948); mkRun 160 160 (-22939); mkRun 161 161 (-22905); mkRun 162 162 (-22893);
  mkRun 163 163 (-22872); mkRun 164 164 (-22871); mkRun 165 165 (-22965); mkRun 166 166 (-22906); mkRun 167 167 (-22823);
  mkRun 168 168 (-22812); mkRun 169 169 (-22810); mkRun 170 170 (-22789); mkRun 171 171 (-22831); mkRun 172 172 (-22810);
  mkRun 173 173 (-22820); mkRun 174 174 (-22832); mkRun 175 175 (-22838); mkRun 176 176 (-22801); mkRun 177 177 (-22865);
  mkRun 178 178 (-22842); mkRun 179 179 (-22848); mkRun 180 180 (-22878); mkRun 181 181 (-22801); mkRun 182 182 (-22804);
  mkRun 183 183 (-22764); mkRun 184 184 (-26860); mkRun 185 185 (-22722); mkRun 186 186 (-22795); mkRun 187 187 (-22723);
  mkRun 188 188 (-22750); mkRun 189 189 (-22724)
].

Definition runs_DE : list GbkRun := [
  mkRun 0 32 (-20219); mkRun 33 33 (-20215); mkRun 34 34 (-20194); mkRun 35 35 (-20183); mkRun 36 36 (-20178);
  mkRun 37 37 (-20168); mkRun 38 40 (-20166); mkRun 41 44 (-20165); mkRun 45 45 (-20163); mkRun 46 49 (-20162);
  mkRun 50 53 (-20160); mkRun 54 55 (-20159); mkRun 56 58 (-20158); mkRun 59 60 (-20156); mkRun 61 61 (-20154);
  mkRun 62 62 (-20152); mkRun 63 67 (-20151); mkRun 68 68 (-20150); mkRun 69 69 (-20148); mkRun 70 71 (-20145);
  mkRun 72 72 (-20143); mkRun 73 74 (-20138); mkRun 75 75 (-20137); mkRun 76 76 (-20134); mkRun 77 77 (-20130);
  mkRun 78 78 (-20128); mkRun 79 80 (-20127); mkRun 81 83 (-20126); mkRun 84 86 (-20123); mkRun 87 88 (-20122);
  mkRun 89 90 (-20115); mkRun 91 91 (-20112); mkRun 92 92 (-20111); mkRun 93 93 (-20107); mkRun 94 94 (-20106);
  mkRun 95 95 (-20104); mkRun 96 96 (-22859); mkRun 97 97 (-22887); mkRun 98 98 (-22948); mkRun 99 99 (-22952);
  mkRun 100 100 (-22860); mkRun 101 101 (-22878); mkRun 102 102 (-22847); mkRun 103 103 (-22852); mkRun 104 104 (-22859);
  mkRun 105 105 (-22832); mkRun 106 106 (-26377); mkRun 107 107 (-22889); mkRun 108 108 (-22843); mkRun 109 109 (-22835);
  mkRun 110 110 (-22795); mkRun 111 111 (-22792); mkRun 112 112 (-22826); mkRun 113 113 (-22819); mkRun 114 114 (-22842);
  mkRun 115 115 (-22790); mkRun 116 116 (-22809); mkRun 117 117 (-22833); mkRun 118 118 (-22782); mkRun 119 119 (-22785);
  mkRun 120 120 (-22793); mkRun 121 121 (-22759); mkRun 122 122 (-22778); mkRun 123 123 (-22752); mkRun 124 124 (-22718);
  mkRun 125 125 (-22679); mkRun 126 126 (-22714); mkRun 127 127 (-22679); mkRun 128 128 (-22699); mkRun 129 129 (-22662);
  mkRun 130 130 (-32709); mkRun 131 131 (-32700); mkRun 132 132 (-34185); mkRun 133 133 (-34181); mkRun 134 134 (-24208);
  mkRun 135 135 (-34163); mkRun 136 136 (-34159); mkRun 137 137 (-34162); mkRun 138 138 (-35772); mkRun 139 139 (-33450);
  mkRun 140 140 (-33448); mkRun 141 141 (-33442); mkRun 142 142 (-33435); mkRun 143 143 (-31876); mkRun 144 144 (-31847);
  mkRun 145 145 (-31795); mkRun 146 146 (-31768); mkRun 147 147 (-31754); mkRun 148 148 (-31739); mkRun 149 149 (-31743);
  mkRun 150 150 (-31721); mkRun 151 151 (-31670); mkRun 152 152 (-31715); mkRun 153 153 (-31649); mkRun 154 154 (-31632);
  mkRun 155 155 (-31641); mkRun 156 156 (-31536); mkRun 157 157 (-31464); mkRun 158 158 (-31598); mkRun 159 159 (-31590);
  mkRun 160 160 (-31571); mkRun 161 161 (-31534); mkRun 162 162 (-31606); mkRun 163 163 (-31544); mkRun 164 164 (-31579);
  mkRun 165 165 (-31613); mkRun 166 166 (-31545); mkRun 167 167 (-31532); mkRun 168 168 (-31479); mkRun 169 169 (-31474);
  mkRun 170 170 (-31499); mkRun 171 171 (-31469); mkRun 172 172 (-31529); mkRun 173 173 (-31504); mkRun 174 174 (-31521);
  mkRun 175 175 (-31390); mkRun 176 176 (-31531); mkRun 177 177 (-31540); mkRun 178 178 (-31406); mkRun 179 179 (-31411);
  mkRun 180 180 (-31466); mkRun 181 181 (-31451); mkRun 182 182 (-31447); mkRun 183 183 (-31468); mkRun 184 184 (-31443);
  mkRun 185 185 (-31449); mkRun 186 186 (-31389); mkRun 187 187 (-31352); mkRun 188 188 (-31376); mkRun 189 189 (-31336)
].

Definition runs_DF : list GbkRun := [
  mkRun 0 0 (-20263); mkRun 1 1 (-20261); mkRun 2 4 (-20255); mkRun 5 10 (-20254); mkRun 11 15 (-20251); mkRun 16 16 (-20249);
  mkRun 17 18 (-20248); mkRun 19 19 (-20246); mkRun 20 21 (-20245); mkRun 22 22 (-20243); mkRun 23 24 (-20242);
  mkRun 25 29 (-20241); mkRun 30 30 (-20240); mkRun 31 33 (-20235); mkRun 34 35 (-20233); mkRun 36 41 (-20232);
  mkRun 42 42 (-20230); mkRun 43 44 (-20229); mkRun 45 48 (-20228); mkRun 49 53 (-20226); mkRun 54 60 (-20224);
  mkRun 61 61 (-20223); mkRun 62 62 (-20221); mkRun 63 66 (-20220); mkRun 67 68 (-20219); mkRun 69 73 (-20218);
  mkRun 74 74 (-20217); mkRun 75 75 (-20216); mkRun 76 76 (-20215); mkRun 77 77 (-20214); mkRun 78 78 (-20213);
  mkRun 79 79 (-20212); mkRun 80 82 (-20211); mkRun 83 84 (-20208); mkRun 85 87 (-20207); mkRun 88 88 (-20206);
  mkRun 89 89 (-20205); mkRun 90 90 (-20201); mkRun 91 91 (-20197); mkRun 92 93 (-20193); mkRun 94 95 (-20192);
  mkRun 96 96 (-31527); mkRun 97 98 (-31467); mkRun 99 99 (-31499); mkRun 100 100 (-31467); mkRun 101 101 (-31462);
  mkRun 102 102 (-31447); mkRun 103 103 (-31441); mkRun 104 104 (-31429); mkRun 105 105 (-31432); mkRun 106 106 (-31394);
  mkRun 107 107 (-31367); mkRun 108 108 (-31359); mkRun 109 109 (-32931); mkRun 110 110 (-32733); mkRun 111 111 (-27287);
  mkRun 112 112 (-32928); mkRun 113 113 (-35923); mkRun 114 114 (-35778); mkRun 115 115 (-35767); mkRun 116 116 (-35788);
  mkRun 117 117 (-35790); mkRun 118 118 (-35772); mkRun 119 119 (-35750); mkRun 120 120 (-35747); mkRun 121 121 (-35764);
  mkRun 122 122 (-35696); mkRun 123 125 (-35690); mkRun 126 126 (-35689); mkRun 127 127 (-35709); mkRun 128 128 (-35744);
  mkRun 129 129 (-35691); mkRun 130 130 (-35690); mkRun 131 131 (-35745); mkRun 132 132 (-35731); mkRun 133 133 (-35652);
  mkRun 134 134 (-35635); mkRun 135 135 (-35665); mkRun 136 136 (-35672); mkRun 137 137 (-35686); mkRun 138 139 (-35633);
  mkRun 140 140 (-35657); mkRun 141 141 (-35672); mkRun 142 142 (-35689); mkRun 143 143 (-35635); mkRun 144 144 (-35585);
  mkRun 145 145 (-35621); mkRun 146 146 (-35601); mkRun 147 147 (-35616); mkRun 148 148 (-35587); mkRun 149 149 (-35631);
  mkRun 150 150 (-35633); mkRun 151 152 (-35589); mkRun 153 153 (-35688); mkRun 154 154 (-35640); mkRun 155 155 (-35591);
  mkRun 156 156 (-35618); mkRun 157 157 (-35615); mkRun 158 158 (-35603); mkRun 159 160 (-35591); mkRun 161 161 (-35590);
  mkRun 162 163 (-35642); mkRun 164 164 (-35649); mkRun 165 165 (-35593); mkRun 166 166 (-35608); mkRun 167 167 (-35594);
  mkRun 168 168 (-35534); mkRun 169 169 (-35587); mkRun 170 170 (-35531); mkRun 171 171 (-35567); mkRun 172 172 (-35545);
  mkRun 173 173 (-35579); mkRun 174 175 (-35533); mkRun 176 176 (-35554); mkRun 177 177 (-35553); mkRun 178 178 (-35532);
  mkRun 179 179 (-35530); mkRun 180 180 (-35470); mkRun 181 181 (-35431); mkRun 182 182 (-35394); mkRun 183 183 (-35503);
  mkRun 184 184 (-35468); mkRun 185 185 (-35513); mkRun 186 186 (-35494); mkRun 187 187 (-35517); mkRun 188 188 (-35501);
  mkRun 189 189 (-35522)
].

Definition runs_E0 : list GbkRun := [
  mkRun 0 1 (-20350); mkRun 2 2 (-20348); mkRun 3 4 (-20347); mkRun 5 7 (-20346); mkRun 8 8 (-20342); mkRun 9 11 (-20341);
  mkRun 12 14 (-20340); mkRun 15 17 (-20337); mkRun 18 20 (-20335); mkRun 21 22 (-20332); mkRun 23 23 (-20331);
  mkRun 24 24 (-20330); mkRun 25 28 (-20329); mkRun 29 31 (-20328); mkRun 32 35 (-20327); mkRun 36 38 (-20325);
  mkRun 39 39 (-20324); mkRun 40 59 (-20323); mkRun 60 62 (-20322); mkRun 63 63 (-20323); mkRun 64 66 (-20322);
  mkRun 67 77 (-20320); mkRun 78 78 (-20319); mkRun 79 85 (-20318); mkRun 86 94 (-20317); mkRun 95 95 (-20316);
  mkRun 96 96 (-35690); mkRun 97 97 (-35660); mkRun 98 100 (-35630); mkRun 101 101 (-35699); mkRun 102 102 (-35703);
  mkRun 103 103 (-35660); mkRun 104 104 (-35614); mkRun 105 105 (-35544); mkRun 106 106 (-35624); mkRun 107 107 (-35579);
  mkRun 108 108 (-35572); mkRun 109 109 (-35622); mkRun 110 110 (-35630); mkRun 111 111 (-35601); mkRun 112 112 (-35635);
  mkRun 113 113 (-35548); mkRun 114 114 (-35618); mkRun 115 115 (-35641); mkRun 116 116 (-35542); mkRun 117 118 (-35577);
  mkRun 119 119 (-35620); mkRun 120 120 (-35616); mkRun 121 121 (-35536); mkRun 122 122 (-35524); mkRun 123 123 (-35571);
  mkRun 124 124 (-35486); mkRun 125 125 (-35565); mkRun 126 127 (-35540); mkRun 128 128 (-35565); mkRun 129 129 (-35548);
  mkRun 130 130 (-35558); mkRun 131 131 (-35584); mkRun 132 132 (-35542); mkRun 133 133 (-35553); mkRun 134 135 (-35541);
  mkRun 136 137 (-35581); mkRun 138 138 (-35555); mkRun 139 139 (-35543); mkRun 140 140 (-35561); mkRun 141 141 (-20794);
  mkRun 142 142 (-35505); mkRun 143 143 (-35528); mkRun 144 144 (-35525); mkRun 145 145 (-35537); mkRun 146 146 (-35503);
  mkRun 147 147 (-35505); mkRun 148 148 (-35543); mkRun 149 149 (-35542); mkRun 150 150 (-35504); mkRun 151 151 (-35499);
  mkRun 152 152 (-35457); mkRun 153 153 (-35489); mkRun 154 154 (-35460); mkRun 155 155 (-35504); mkRun 156 156 (-35472);
  mkRun 157 157 (-35452); mkRun 158 158 (-35462); mkRun 159 159 (-35460); mkRun 160 160 (-35477); mkRun 161 161 (-35470);
  mkRun 162 162 (-35421); mkRun 163 163 (-35456); mkRun 164 164 (-35444); mkRun 165 165 (-35451); mkRun 166 167 (-35436);
  mkRun 168 168 (-35428); mkRun 169 169 (-35415); mkRun 170 170 (-35388); mkRun 171 171 (-35352); mkRun 172 172 (-35350);
  mkRun 173 173 (-35345); mkRun 174 174 (-35342); mkRun 175 175 (-35323); mkRun 176 176 (-35334); mkRun 177 177 (-35321);
  mkRun 178 178 (-35316); mkRun 179 179 (-35312); mkRun 180 180 (-35307); mkRun 181 181 (-35309); mkRun 182 182 (-35291);
  mkRun 183 183 (-33513); mkRun 184 184 (-33504); mkRun 185 185 (-33510); mkRun 186 186 (-33514); mkRun 187 187 (-33483);
  mkRun 188 189 (-33474)
].

Definition runs_E1 : list GbkRun := [
  mkRun 0 0 (-20475); mkRun 1 2 (-20474); mkRun 3 3 (-20466); mkRun 4 7 (-20465); mkRun 8 9 (-20464); mkRun 10 11 (-20463);
  mkRun 12 13 (-20461); mkRun 14 16 (-20456); mkRun 17 17 (-20454); mkRun 18 18 (-20453); mkRun 19 19 (-20448);
  mkRun 20 22 (-20442); mkRun 23 27 (-20439); mkRun 28 28 (-20438); mkRun 29 29 (-20437); mkRun 30 30 (-20436);
  mkRun 31 32 (-20433); mkRun 33 39 (-20430); mkRun 40 45 (-20428); mkRun 46 51 (-20426); mkRun 52 53 (-20425);
  mkRun 54 57 (-20422); mkRun 58 61 (-20420); mkRun 62 62 (-20419); mkRun 63 73 (-20420); mkRun 74 74 (-20419);
  mkRun 75 75 (-20417); mkRun 76 76 (-20413); mkRun 77 86 (-20412); mkRun 87 95 (-20411); mkRun 96 96 (-33642);
  mkRun 97 97 (-33630); mkRun 98 98 (-33615); mkRun 99 99 (-33609); mkRun 100 100 (-33607); mkRun 101 101 (-33605);
  mkRun 102 102 (-34075); mkRun 103 103 (-34094); mkRun 104 104 (-34076); mkRun 105 105 (-34074); mkRun 106 106 (-34069);
  mkRun 107 107 (-34084); mkRun 108 109 (-34069); mkRun 110 110 (-34078); mkRun 111 111 (-34070); mkRun 112 112 (-34069);
  mkRun 113 113 (-34045); mkRun 114 114 (-34065); mkRun 115 115 (-34039); mkRun 116 116 (-34057); mkRun 117 117 (-34059);
  mkRun 118 118 (-34054); mkRun 119 119 (-34069); mkRun 120 120 (-34040); mkRun 121 121 (-34051); mkRun 122 122 (-34039);
  mkRun 123 123 (-34026); mkRun 124 124 (-34009); mkRun 125 125 (-34035); mkRun 126 126 (-34010); mkRun 127 128 (-33982);
  mkRun 129 129 (-33947); mkRun 130 130 (-33949); mkRun 131 131 (-33942); mkRun 132 132 (-33953); mkRun 133 133 (-33960);
  mkRun 134 134 (-33985); mkRun 135 135 (-33965); mkRun 136 136 (-33905); mkRun 137 137 (-33932); mkRun 138 138 (-33943);
  mkRun 139 139 (-33935); mkRun 140 140 (-33889); mkRun 141 141 (-33907); mkRun 142 142 (-33888); mkRun 143 143 (-33907);
  mkRun 144 144 (-33894); mkRun 145 145 (-33927); mkRun 146 146 (-33929); mkRun 147 147 (-33899); mkRun 148 148 (-33889);
  mkRun 149 149 (-33876); mkRun 150 150 (-33854); mkRun 151 151 (-33851); mkRun 152 152 (-21862); mkRun 153 153 (-33827);
  mkRun 154 154 (-33814); mkRun 155 155 (-33385); mkRun 156 156 (-33382); mkRun 157 157 (-33372); mkRun 158 158 (-33368);
  mkRun 159 159 (-33367); mkRun 160 160 (-33365); mkRun 161 161 (-33357); mkRun 162 162 (-33354); mkRun 163 163 (-33352);
  mkRun 164 164 (-33341); mkRun 165 165 (-33337); mkRun 166 166 (-33330); mkRun 167 167 (-33324); mkRun 168 168 (-22919);
  mkRun 169 169 (-33417); mkRun 170 170 (-28478); mkRun 171 171 (-28476); mkRun 172 172 (-28473); mkRun 173 174 (-28471);
  mkRun 175 175 (-28461); mkRun 176 176 (-28464); mkRun 177 177 (-28452); mkRun 178 178 (-28454); mkRun 179 179 (-28450);
  mkRun 180 180 (-28429); mkRun 181 181 (-28423); mkRun 182 182 (-28430); mkRun 183 183 (-28422); mkRun 184 184 (-28421);
  mkRun 185 185 (-28419); mkRun 186 186 (-28410); mkRun 187 187 (-28425); mkRun 188 188 (-28410); mkRun 189 189 (-28420)
].

Definition runs_E2 : list GbkRun := [
  mkRun 0 62 (-20570); mkRun 63 95 (-20571); mkRun 96 96 (-28582); mkRun 97 97 (-28555); mkRun 98 98 (-28560);
  mkRun 99 99 (-28547); mkRun 100 100 (-28571); mkRun 101 101 (-28552); mkRun 102 102 (-28554); mkRun 103 103 (-28563);
  mkRun 104 104 (-28551); mkRun 105 105 (-28529); mkRun 106 106 (-28550); mkRun 107 107 (-28544); mkRun 108 108 (-28533);
  mkRun 109 109 (-28541); mkRun 110 110 (-28511); mkRun 111 111 (-28515); mkRun 112 112 (-28506); mkRun 113 113 (-28498);
  mkRun 114 114 (-28487); mkRun 115 115 (-28485); mkRun 116 116 (-28471); mkRun 117 117 (-24731); mkRun 118 118 (-35218);
  mkRun 119 119 (-18897); mkRun 120 120 (-35221); mkRun 121 121 (-35256); mkRun 122 122 (-18776); mkRun 123 128 (-18773);
  mkRun 129 129 (-18766); mkRun 130 130 (-18764); mkRun 131 131 (-18759); mkRun 132 132 (-18757); mkRun 133 133 (-18754);
  mkRun 134 134 (-18752); mkRun 135 135 (-18750); mkRun 136 136 (-18748); mkRun 137 138 (-18746); mkRun 139 141 (-18745);
  mkRun 142 142 (-33871); mkRun 143 143 (-33855); mkRun 144 144 (-33862); mkRun 145 145 (-33852); mkRun 146 146 (-33838);
  mkRun 147 147 (-33844); mkRun 148 148 (-33820); mkRun 149 149 (-33825); mkRun 150 150 (-33817); mkRun 151 151 (-33829);
  mkRun 152 152 (-21894); mkRun 153 153 (-33800); mkRun 154 154 (-33802); mkRun 155 155 (-33793); mkRun 156 156 (-33781);
  mkRun 157 157 (-33780); mkRun 158 158 (-24869); mkRun 159 159 (-33564); mkRun 160 160 (-33560); mkRun 161 161 (-33548);
  mkRun 162 162 (-33556); mkRun 163 163 (-33505); mkRun 164 164 (-33527); mkRun 165 165 (-33506); mkRun 166 166 (-33542);
  mkRun 167 167 (-33540); mkRun 168 168 (-33515); mkRun 169 170 (-33509); mkRun 171 171 (-33538); mkRun 172 172 (-33536);
  mkRun 173 173 (-33526); mkRun 174 174 (-33494); mkRun 175 175 (-33467); mkRun 176 176 (-33483); mkRun 177 177 (-33495);
  mkRun 178 178 (-33508); mkRun 179 179 (-33511); mkRun 180 180 (-33484); mkRun 181 181 (-33483); mkRun 182 182 (-33517);
  mkRun 183 183 (-33465); mkRun 184 184 (-33496); mkRun 185 186 (-33410); mkRun 187 187 (-33409); mkRun 188 188 (-33411);
  mkRun 189 189 (-33468)
].

Definition runs_E3 : list GbkRun := [
  mkRun 0 45 (-20730); mkRun 46 62 (-20729); mkRun 63 70 (-20730); mkRun 71 95 (-20729); mkRun 96 96 (-33591);
  mkRun 97 97 (-33573); mkRun 98 98 (-33549); mkRun 99 99 (-33546); mkRun 100 100 (-33528); mkRun 101 101 (-33545);
  mkRun 102 102 (-33572); mkRun 103 103 (-33558); mkRun 104 104 (-33565); mkRun 105 105 (-33551); mkRun 106 106 (-33471);
  mkRun 107 107 (-33521); mkRun 108 108 (-33532); mkRun 109 109 (-33489); mkRun 110 110 (-33495); mkRun 111 111 (-33514);
  mkRun 112 112 (-33495); mkRun 113 113 (-33534); mkRun 114 114 (-33427); mkRun 115 115 (-33422); mkRun 116 116 (-33440);
  mkRun 117 117 (-33427); mkRun 118 118 (-33475); mkRun 119 119 (-33464); mkRun 120 120 (-33451); mkRun 121 121 (-33423);
  mkRun 122 122 (-33393); mkRun 123 123 (-33351); mkRun 124 124 (-33297); mkRun 125 125 (-33322); mkRun 126 126 (-33304);
  mkRun 127 127 (-33289); mkRun 128 128 (-33261); mkRun 129 129 (-33229); mkRun 130 130 (-33766); mkRun 131 131 (-19729);
  mkRun 132 132 (-19932); mkRun 133 133 (-19931); mkRun 134 134 (-19926); mkRun 135 135 (-19925); mkRun 136 137 (-19924);
  mkRun 138 138 (-19919); mkRun 139 139 (-19918); mkRun 140 141 (-19914); mkRun 142 142 (-19913); mkRun 143 143 (-19912);
  mkRun 144 147 (-19911); mkRun 148 148 (-19910); mkRun 149 149 (-19908); mkRun 150 152 (-19906); mkRun 153 154 (-19905);
  mkRun 155 155 (-38320); mkRun 156 156 (-29086); mkRun 157 157 (-33225); mkRun 158 158 (-30634); mkRun 159 159 (-30604);
  mkRun 160 160 (-30597); mkRun 161 161 (-30616); mkRun 162 162 (-30528); mkRun 163 163 (-30559); mkRun 164 164 (-30549);
  mkRun 165 165 (-30546); mkRun 166 166 (-30555); mkRun 167 168 (-30592); mkRun 169 169 (-30582); mkRun 170 170 (-30581);
  mkRun 171 171 (-30566); mkRun 172 172 (-30532); mkRun 173 173 (-30494); mkRun 174 174 (-30491); mkRun 175 175 (-30531);
  mkRun 176 177 (-30458); mkRun 178 178 (-30466); mkRun 179 179 (-30493); mkRun 180 180 (-30531); mkRun 181 181 (-30486);
  mkRun 182 182 (-30497); mkRun 183 183 (-30462); mkRun 184 184 (-30478); mkRun 185 185 (-30476); mkRun 186 186 (-30538);
  mkRun 187 187 (-30505); mkRun 188 188 (-30478); mkRun 189 189 (-30464)
].

Definition runs_E4 : list GbkRun := [
  mkRun 0 5 (-20888); mkRun 6 30 (-20887); mkRun 31 62 (-20886); mkRun 63 95 (-20887); mkRun 96 96 (-30568);
  mkRun 97 97 (-30587); mkRun 98 98 (-30615); mkRun 99 99 (-30561); mkRun 100 100 (-30557); mkRun 101 101 (-30623);
  mkRun 102 102 (-30627); mkRun 103 103 (-30607); mkRun 104 104 (-30619); mkRun 105 105 (-30591); mkRun 106 106 (-30558);
  mkRun 107 107 (-30590); mkRun 108 108 (-30584); mkRun 109 109 (-30612); mkRun 110 110 (-30560); mkRun 111 111 (-30558);
  mkRun 112 112 (-30557); mkRun 113 113 (-30591); mkRun 114 114 (-30498); mkRun 115 115 (-30533); mkRun 116 116 (-30487);
  mkRun 117 117 (-30486); mkRun 118 118 (-30553); mkRun 119 120 (-30501); mkRun 121 121 (-30558); mkRun 122 122 (-30555);
  mkRun 123 123 (-30528); mkRun 124 124 (-30554); mkRun 125 125 (-30372); mkRun 126 126 (-30456); mkRun 127 127 (-30459);
  mkRun 128 128 (-30435); mkRun 129 129 (-30388); mkRun 130 130 (-30468); mkRun 131 131 (-30436); mkRun 132 132 (-30388);
  mkRun 133 133 (-30432); mkRun 134 134 (-30442); mkRun 135 135 (-30447); mkRun 136 136 (-30387); mkRun 137 137 (-30495);
  mkRun 138 138 (-30399); mkRun 139 139 (-30494); mkRun 140 140 (-30370); mkRun 141 141 (-30304); mkRun 142 142 (-30337);
  mkRun 143 143 (-30309); mkRun 144 144 (-30239); mkRun 145 145 (-30323); mkRun 146 146 (-30285); mkRun 147 148 (-30337);
  mkRun 149 149 (-30372); mkRun 150 150 (-30386); mkRun 151 151 (-30356); mkRun 152 152 (-30202); mkRun 153 153 (-30249);
  mkRun 154 154 (-30275); mkRun 155 155 (-30204); mkRun 156 156 (-30128); mkRun 157 157 (-30204); mkRun 158 158 (-30266);
  mkRun 159 159 (-30265); mkRun 160 160 (-30244); mkRun 161 161 (-30247); mkRun 162 162 (-30252); mkRun 163 163 (-30221);
  mkRun 164 164 (-30257); mkRun 165 165 (-30231); mkRun 166 166 (-30296); mkRun 167 167 (-30246); mkRun 168 168 (-30282);
  mkRun 169 169 (-30088); mkRun 170 171 (-30117); mkRun 172 172 (-30153); mkRun 173 173 (-30169); mkRun 174 174 (-30198);
  mkRun 175 175 (-30145); mkRun 176 176 (-30139); mkRun 177 177 (-30119); mkRun 178 178 (-30079); mkRun 179 179 (-30154);
  mkRun 180 180 (-30188); mkRun 181 181 (-30157); mkRun 182 182 (-30062); mkRun 183 183 (-30059); mkRun 184 184 (-30061);
  mkRun 185 185 (-30082); mkRun 186 186 (-30089); mkRun 187 187 (-30080); mkRun 188 188 (-30083); mkRun 189 189 (-29997)
].

Definition runs_E5 : list GbkRun := [
  mkRun 0 51 (-21046); mkRun 52 62 (-21045); mkRun 63 94 (-21046); mkRun 95 95 (-21045); mkRun 96 96 (-30168);
  mkRun 97 97 (-30203); mkRun 98 98 (-30186); mkRun 99 99 (-30190); mkRun 100 100 (-30179); mkRun 101 101 (-30149);
  mkRun 102 102 (-30137); mkRun 103 103 (-30154); mkRun 104 104 (-30153); mkRun 105 105 (-30139); mkRun 106 106 (-30097);
  mkRun 107 107 (-30089); mkRun 108 108 (-30098); mkRun 109 109 (-30069); mkRun 110 110 (-30074); mkRun 111 111 (-30049);
  mkRun 112 112 (-30035); mkRun 113 113 (-35378); mkRun 114 114 (-35375); mkRun 115 115 (-35359); mkRun 116 116 (-35362);
  mkRun 117 117 (-35345); mkRun 118 118 (-35327); mkRun 119 119 (-28809); mkRun 120 120 (-19227); mkRun 121 121 (-33158);
  mkRun 122 122 (-35287); mkRun 123 123 (-35278); mkRun 124 124 (-23693); mkRun 125 125 (-35278); mkRun 126 126 (-22392);
  mkRun 127 127 (-23225); mkRun 128 128 (-22027); mkRun 129 129 (-21999); mkRun 130 130 (-21998); mkRun 131 131 (-21983);
  mkRun 132 132 (-21975); mkRun 133 133 (-21986); mkRun 134 134 (-21982); mkRun 135 135 (-21986); mkRun 136 136 (-21974);
  mkRun 137 137 (-21986); mkRun 138 138 (-21958); mkRun 139 139 (-21960); mkRun 140 140 (-21954); mkRun 141 141 (-21928);
  mkRun 142 142 (-21950); mkRun 143 143 (-21955); mkRun 144 144 (-21947); mkRun 145 145 (-21937); mkRun 146 147 (-21918);
  mkRun 148 148 (-21928); mkRun 149 149 (-21927); mkRun 150 150 (-21907); mkRun 151 152 (-21895); mkRun 153 153 (-21898);
  mkRun 154 154 (-21875); mkRun 155 155 (-21892); mkRun 156 156 (-21883); mkRun 157 157 (-21891); mkRun 158 158 (-32550);
  mkRun 159 159 (-21868); mkRun 160 160 (-21860); mkRun 161 161 (-21856); mkRun 162 162 (-21851); mkRun 163 163 (-21857);
  mkRun 164 164 (-21850); mkRun 165 165 (-34454); mkRun 166 166 (-34448); mkRun 167 167 (-34450); mkRun 168 168 (-34449);
  mkRun 169 169 (-35247); mkRun 170 170 (-37184); mkRun 171 171 (-35228); mkRun 172 172 (-35220); mkRun 173 173 (-35453);
  mkRun 174 174 (-35212); mkRun 175 175 (-35210); mkRun 176 176 (-26165); mkRun 177 177 (-34504); mkRun 178 178 (-34506);
  mkRun 179 179 (-34503); mkRun 180 180 (-25473); mkRun 181 181 (-34490); mkRun 182 182 (-19132); mkRun 183 183 (-35210);
  mkRun 184 184 (-35960); mkRun 185 185 (-35959); mkRun 186 186 (-35950); mkRun 187 188 (-35923); mkRun 189 189 (-35931)
].

Definition runs_E6 : list GbkRun := [
  mkRun 0 34 (-21204); mkRun 35 62 (-21203); mkRun 63 92 (-21204); mkRun 93 95 (-21203); mkRun 96 96 (-36106);
  mkRun 97 97 (-36056); mkRun 98 98 (-36088); mkRun 99 99 (-36102); mkRun 100 100 (-36097); mkRun 101 101 (-36052);
  mkRun 102 102 (-36085); mkRun 103 103 (-36089); mkRun 104 104 (-36050); mkRun 105 105 (-36076); mkRun 106 107 (-36006);
  mkRun 108 108 (-36048); mkRun 109 109 (-36006); mkRun 110 110 (-36044); mkRun 111 111 (-36056); mkRun 112 112 (-36024);
  mkRun 113 113 (-36006); mkRun 114 114 (-36010); mkRun 115 115 (-35970); mkRun 116 116 (-35969); mkRun 117 117 (-36005);
  mkRun 118 118 (-35988); mkRun 119 119 (-36005); mkRun 120 120 (-35961); mkRun 121 121 (-35923); mkRun 122 122 (-35953);
  mkRun 123 123 (-35943); mkRun 124 124 (-35969); mkRun 125 125 (-35932); mkRun 126 126 (-35914); mkRun 127 127 (-26068);
  mkRun 128 128 (-35863); mkRun 129 129 (-35879); mkRun 130 130 (-35916); mkRun 131 131 (-35914); mkRun 132 132 (-35847);
  mkRun 133 133 (-35803); mkRun 134 134 (-35861); mkRun 135 135 (-35830); mkRun 136 136 (-35829); mkRun 137 137 (-35858);
  mkRun 138 138 (-35819); mkRun 139 139 (-35817); mkRun 140 140 (-35804); mkRun 141 141 (-35832); mkRun 142 142 (-35817);
  mkRun 143 143 (-35832); mkRun 144 144 (-35829); mkRun 145 145 (-35785); mkRun 146 146 (-35772); mkRun 147 147 (-35774);
  mkRun 148 148 (-35747); mkRun 149 149 (-35743); mkRun 150 150 (-35735); mkRun 151 151 (-35523); mkRun 152 152 (-35517);
  mkRun 153 153 (-35712); mkRun 154 154 (-35702); mkRun 155 155 (-35689); mkRun 156 156 (-35724); mkRun 157 157 (-35723);
  mkRun 158 158 (-35709); mkRun 159 159 (-19563); mkRun 160 161 (-19562); mkRun 162 162 (-19561); mkRun 163 163 (-19557);
  mkRun 164 164 (-19560); mkRun 165 166 (-19558); mkRun 167 167 (-19555); mkRun 168 168 (-19553); mkRun 169 169 (-19552);
  mkRun 170 170 (-19547); mkRun 171 172 (-19546); mkRun 173 173 (-19544); mkRun 174 174 (-19543); mkRun 175 177 (-19541);
  mkRun 178 179 (-19540); mkRun 180 181 (-19539); mkRun 182 182 (-19538); mkRun 183 183 (-19537); mkRun 184 184 (-26714);
  mkRun 185 185 (-26713); mkRun 186 186 (-26712); mkRun 187 187 (-26711); mkRun 188 189 (-26709)
].

Definition runs_E7 : list GbkRun := [
  mkRun 0 7 (-21362); mkRun 8 62 (-21361); mkRun 63 95 (-21362); mkRun 96 96 (-26868); mkRun 97 97 (-26866);
  mkRun 98 98 (-26853); mkRun 99 101 (-26852); mkRun 102 102 (-26846); mkRun 103 104 (-26845); mkRun 105 105 (-26842);
  mkRun 106 106 (-26839); mkRun 107 107 (-26837); mkRun 108 108 (-26834); mkRun 109 110 (-26830); mkRun 111 111 (-26824);
  mkRun 112 112 (-26822); mkRun 113 114 (-26820); mkRun 115 116 (-26819); mkRun 117 117 (-26793); mkRun 118 118 (-26817);
  mkRun 119 120 (-26814); mkRun 121 121 (-26812); mkRun 122 124 (-26810); mkRun 125 126 (-26807); mkRun 127 128 (-26805);
  mkRun 129 129 (-26803); mkRun 130 131 (-26802); mkRun 132 132 (-26798); mkRun 133 133 (-26797); mkRun 134 134 (-26795);
  mkRun 135 135 (-26797); mkRun 136 136 (-26794); mkRun 137 143 (-26793); mkRun 144 147 (-26791); mkRun 148 152 (-26790);
  mkRun 153 153 (-26789); mkRun 154 154 (-35169); mkRun 155 155 (-29277); mkRun 156 156 (-35330); mkRun 157 157 (-29344);
  mkRun 158 158 (-22346); mkRun 159 159 (-29778); mkRun 160 160 (-29776); mkRun 161 161 (-29748); mkRun 162 162 (-29761);
  mkRun 163 163 (-29765); mkRun 164 164 (-29718); mkRun 165 165 (-29732); mkRun 166 166 (-29718); mkRun 167 167 (-29745);
  mkRun 168 168 (-29750); mkRun 169 169 (-29738); mkRun 170 170 (-29730); mkRun 171 171 (-29732); mkRun 172 172 (-29704);
  mkRun 173 173 (-29717); mkRun 174 174 (-20339); mkRun 175 175 (-29670); mkRun 176 176 (-29704); mkRun 177 177 (-29707);
  mkRun 178 178 (-29717); mkRun 179 179 (-29754); mkRun 180 180 (-29699); mkRun 181 181 (-29671); mkRun 182 182 (-29645);
  mkRun 183 183 (-29597); mkRun 184 184 (-29651); mkRun 185 185 (-29653); mkRun 186 186 (-29651); mkRun 187 187 (-29644);
  mkRun 188 188 (-29647); mkRun 189 189 (-29650)
].

Definition runs_E8 : list GbkRun := [
  mkRun 0 14 (-21521); mkRun 15 58 (-21520); mkRun 59 62 (-21519); mkRun 63 83 (-21520); mkRun 84 84 (-21508);
  mkRun 85 85 (-21504); mkRun 86 86 (-21503); mkRun 87 87 (-21457); mkRun 88 88 (-21450); mkRun 89 90 (-21447);
  mkRun 91 91 (-21442); mkRun 92 92 (-21431); mkRun 93 93 (-21411); mkRun 94 94 (-21379); mkRun 95 95 (-21376);
  mkRun 96 96 (-29830); mkRun 97 97 (-29832); mkRun 98 98 (-29794); mkRun 99 99 (-29768); mkRun 100 100 (-29774);
  mkRun 101 101 (-29777); mkRun 102 102 (-29774); mkRun 103 103 (-29745); mkRun 104 104 (-29756); mkRun 105 105 (-29740);
  mkRun 106 106 (-29711); mkRun 107 107 (-29726); mkRun 108 109 (-29741); mkRun 110 110 (-29736); mkRun 111 111 (-29733);
  mkRun 112 112 (-29715); mkRun 113 114 (-29706); mkRun 115 115 (-29732); mkRun 116 116 (-29710); mkRun 117 117 (-29668);
  mkRun 118 118 (-29693); mkRun 119 121 (-20686); mkRun 122 122 (-33135); mkRun 123 123 (-33129); mkRun 124 124 (-33119);
  mkRun 125 125 (-33142); mkRun 126 126 (-33110); mkRun 127 127 (-33051); mkRun 128 128 (-33082); mkRun 129 129 (-33112);
  mkRun 130 130 (-33104); mkRun 131 131 (-33068); mkRun 132 132 (-33054); mkRun 133 133 (-33105); mkRun 134 134 (-33055);
  mkRun 135 135 (-33066); mkRun 136 136 (-33052); mkRun 137 137 (-33087); mkRun 138 138 (-33108); mkRun 139 139 (-33104);
  mkRun 140 140 (-32989); mkRun 141 141 (-32965); mkRun 142 142 (-33015); mkRun 143 143 (-32966); mkRun 144 144 (-33000);
  mkRun 145 145 (-33058); mkRun 146 146 (-32967); mkRun 147 147 (-33019); mkRun 148 148 (-33056); mkRun 149 149 (-33020);
  mkRun 150 150 (-33060); mkRun 151 151 (-33019); mkRun 152 152 (-32985); mkRun 153 153 (-33047); mkRun 154 154 (-33059);
  mkRun 155 155 (-33018); mkRun 156 156 (-32975); mkRun 157 157 (-33053); mkRun 158 158 (-32994); mkRun 159 160 (-32942);
  mkRun 161 162 (-32898); mkRun 163 163 (-32918); mkRun 164 164 (-32899); mkRun 165 165 (-32930); mkRun 166 166 (-32899);
  mkRun 167 167 (-32869); mkRun 168 168 (-32972); mkRun 169 169 (-32917); mkRun 170 170 (-32901); mkRun 171 171 (-32939);
  mkRun 172 172 (-32902); mkRun 173 173 (-32942); mkRun 174 174 (-32945); mkRun 175 175 (-32934); mkRun 176 176 (-32936);
  mkRun 177 177 (-32969); mkRun 178 178 (-32830); mkRun 179 179 (-32869); mkRun 180 180 (-32897); mkRun 181 181 (-32895);
  mkRun 182 182 (-32868); mkRun 183 183 (-32909); mkRun 184 184 (-32823); mkRun 185 185 (-32652); mkRun 186 186 (-32767);
  mkRun 187 188 (-32733); mkRun 189 189 (-32773)
].

Definition runs_E9 : list GbkRun := [
  mkRun 0 0 (-21529); mkRun 1 1 (-21518); mkRun 2 2 (-21509); mkRun 3 3 (-21504); mkRun 4 4 (-21500); mkRun 5 5 (-21498);
  mkRun 6 6 (-21489); mkRun 7 7 (-21485); mkRun 8 8 (-21480); mkRun 9 9 (-21467); mkRun 10 11 (-21462); mkRun 12 19 (-21461);
  mkRun 20 62 (-21460); mkRun 63 95 (-21461); mkRun 96 96 (-32893); mkRun 97 97 (-32946); mkRun 98 98 (-32920);
  mkRun 99 99 (-32931); mkRun 100 100 (-32846); mkRun 101 101 (-32963); mkRun 102 102 (-32919); mkRun 103 103 (-32823);
  mkRun 104 104 (-32880); mkRun 105 105 (-32842); mkRun 106 106 (-32873); mkRun 107 107 (-32847); mkRun 108 108 (-32809);
  mkRun 109 109 (-32835); mkRun 110 110 (-32815); mkRun 111 111 (-32792); mkRun 112 112 (-32825); mkRun 113 113 (-32894);
  mkRun 114 114 (-32743); mkRun 115 116 (-32813); mkRun 117 117 (-32744); mkRun 118 118 (-32814); mkRun 119 119 (-32850);
  mkRun 120 120 (-32854); mkRun 121 121 (-32833); mkRun 122 122 (-32800); mkRun 123 123 (-32789); mkRun 124 124 (-32770);
  mkRun 125 125 (-32787); mkRun 126 126 (-32786); mkRun 127 127 (-32748); mkRun 128 128 (-32784); mkRun 129 129 (-32769);
  mkRun 130 130 (-32761); mkRun 131 131 (-32741); mkRun 132 132 (-32816); mkRun 133 133 (-32742); mkRun 134 134 (-32826);
  mkRun 135 135 (-32713); mkRun 136 136 (-32666); mkRun 137 137 (-32733); mkRun 138 139 (-32692); mkRun 140 140 (-32616);
  mkRun 141 141 (-32732); mkRun 142 142 (-32651); mkRun 143 143 (-32658); mkRun 144 144 (-32561); mkRun 145 145 (-32642);
  mkRun 146 146 (-32632); mkRun 147 147 (-32671); mkRun 148 148 (-32583); mkRun 149 149 (-32605); mkRun 150 150 (-32666);
  mkRun 151 151 (-32688); mkRun 152 152 (-32641); mkRun 153 153 (-32606); mkRun 154 154 (-32586); mkRun 155 155 (-32588);
  mkRun 156 156 (-32564); mkRun 157 157 (-32583); mkRun 158 158 (-32564); mkRun 159 159 (-30377); mkRun 160 160 (-30351);
  mkRun 161 162 (-32353); mkRun 163 163 (-32349); mkRun 164 164 (-32353); mkRun 165 166 (-32340); mkRun 167 167 (-32347);
  mkRun 168 169 (-32335); mkRun 170 170 (-32330); mkRun 171 171 (-32322); mkRun 172 172 (-23170); mkRun 173 173 (-23169);
  mkRun 174 176 (-23166); mkRun 177 178 (-23165); mkRun 179 179 (-23164); mkRun 180 180 (-23166); mkRun 181 182 (-23165);
  mkRun 183 183 (-23164); mkRun 184 184 (-23163); mkRun 185 186 (-23161); mkRun 187 187 (-23160); mkRun 188 188 (-23158);
  mkRun 189 189 (-23155)
].

Definition runs_EA : list GbkRun := [
  mkRun 0 27 (-21620); mkRun 28 28 (-21616); mkRun 29 29 (-21598); mkRun 30 30 (-21591); mkRun 31 31 (-21580);
  mkRun 32 32 (-21576); mkRun 33 33 (-21574); mkRun 34 34 (-21572); mkRun 35 35 (-21571); mkRun 36 42 (-21569);
  mkRun 43 45 (-21568); mkRun 46 47 (-21567); mkRun 48 51 (-21561); mkRun 52 52 (-21558); mkRun 53 53 (-21556);
  mkRun 54 54 (-21555); mkRun 55 55 (-21549); mkRun 56 57 (-21546); mkRun 58 60 (-21545); mkRun 61 62 (-21543);
  mkRun 63 65 (-21544); mkRun 66 68 (-21543); mkRun 69 69 (-21542); mkRun 70 70 (-21540); mkRun 71 72 (-21539);
  mkRun 73 73 (-21535); mkRun 74 78 (-21534); mkRun 79 79 (-21533); mkRun 80 92 (-21529); mkRun 93 93 (-21527);
  mkRun 94 95 (-21526); mkRun 96 98 (-23316); mkRun 99 99 (-23308); mkRun 100 100 (-23307); mkRun 101 101 (-23512);
  mkRun 102 102 (-34972); mkRun 103 103 (-34961); mkRun 104 104 (-34958); mkRun 105 105 (-34955); mkRun 106 106 (-34953);
  mkRun 107 107 (-34955); mkRun 108 108 (-34952); mkRun 109 109 (-34954); mkRun 110 110 (-34947); mkRun 111 111 (-26825);
  mkRun 112 112 (-30146); mkRun 113 113 (-30142); mkRun 114 114 (-30132); mkRun 115 115 (-30117); mkRun 116 116 (-30116);
  mkRun 117 117 (-30115); mkRun 118 118 (-34179); mkRun 119 121 (-33994); mkRun 122 122 (-33969); mkRun 123 123 (-33955);
  mkRun 124 124 (-33611); mkRun 125 125 (-33979); mkRun 126 126 (-33962); mkRun 127 127 (-33984); mkRun 128 128 (-31292);
  mkRun 129 129 (-33739); mkRun 130 130 (-33958); mkRun 131 131 (-33936); mkRun 132 132 (-33940); mkRun 133 133 (-33936);
  mkRun 134 134 (-33938); mkRun 135 135 (-27330); mkRun 136 136 (-33898); mkRun 137 137 (-33910); mkRun 138 138 (-33930);
  mkRun 139 139 (-33917); mkRun 140 140 (-33911); mkRun 141 141 (-33901); mkRun 142 142 (-33912); mkRun 143 143 (-33881);
  mkRun 144 144 (-33869); mkRun 145 145 (-33862); mkRun 146 146 (-33836); mkRun 147 147 (-33847); mkRun 148 148 (-33815);
  mkRun 149 150 (-33787); mkRun 151 151 (-33778); mkRun 152 152 (-33776); mkRun 153 154 (-23976); mkRun 155 155 (-23974);
  mkRun 156 156 (-23970); mkRun 157 157 (-23969); mkRun 158 158 (-23967); mkRun 159 160 (-23963); mkRun 161 162 (-23962);
  mkRun 163 163 (-23965); mkRun 164 164 (-23960); mkRun 165 165 (-23953); mkRun 166 166 (-23950); mkRun 167 167 (-24865);
  mkRun 168 170 (-24863); mkRun 171 174 (-24862); mkRun 175 175 (-30850); mkRun 176 176 (-30802); mkRun 177 177 (-30869);
  mkRun 178 178 (-30861); mkRun 179 179 (-30853); mkRun 180 181 (-30839); mkRun 182 182 (-30835); mkRun 183 183 (-30829);
  mkRun 184 184 (-30828); mkRun 185 185 (-30827); mkRun 186 186 (-30825); mkRun 187 187 (-34804); mkRun 188 188 (-34763);
  mkRun 189 189 (-34638)
].

Definition runs_EB : list GbkRun := [
  mkRun 0 0 (-21684); mkRun 1 1 (-21683); mkRun 2 4 (-21681); mkRun 5 6 (-21680); mkRun 7 8 (-21677); mkRun 9 18 (-21676);
  mkRun 19 26 (-21675); mkRun 27 28 (-21674); mkRun 29 30 (-21673); mkRun 31 32 (-21672); mkRun 33 34 (-21671);
  mkRun 35 35 (-21668); mkRun 36 37 (-21666); mkRun 38 38 (-21662); mkRun 39 40 (-21661); mkRun 41 42 (-21657);
  mkRun 43 44 (-21656); mkRun 45 54 (-21655); mkRun 55 61 (-21654); mkRun 62 62 (-21651); mkRun 63 65 (-21652);
  mkRun 66 68 (-21651); mkRun 69 70 (-21650); mkRun 71 71 (-21648); mkRun 72 75 (-21647); mkRun 76 76 (-21646);
  mkRun 77 78 (-21644); mkRun 79 79 (-21643); mkRun 80 82 (-21639); mkRun 83 85 (-21636); mkRun 86 87 (-21635);
  mkRun 88 92 (-21634); mkRun 93 93 (-21633); mkRun 94 95 (-21632); mkRun 96 96 (-34658); mkRun 97 97 (-34506);
  mkRun 98 98 (-27551); mkRun 99 99 (-32698); mkRun 100 100 (-32690); mkRun 101 101 (-32681); mkRun 102 102 (-32690);
  mkRun 103 103 (-32687); mkRun 104 104 (-32676); mkRun 105 105 (-32675); mkRun 106 106 (-32677); mkRun 107 107 (-32671);
  mkRun 108 108 (-32664); mkRun 109 111 (-32662); mkRun 112 112 (-32656); mkRun 113 113 (-32649); mkRun 114 114 (-32655);
  mkRun 115 115 (-32650); mkRun 116 116 (-32643); mkRun 117 117 (-34433); mkRun 118 118 (-34402); mkRun 119 119 (-34381);
  mkRun 120 120 (-31084); mkRun 121 121 (-31080); mkRun 122 122 (-31077); mkRun 123 123 (-31116); mkRun 124 124 (-25947);
  mkRun 125 125 (-39336); mkRun 126 126 (-27424); mkRun 127 127 (-27428); mkRun 128 128 (-27438); mkRun 129 129 (-27398);
  mkRun 130 130 (-33977); mkRun 131 131 (-27399); mkRun 132 132 (-27412); mkRun 133 133 (-27419); mkRun 134 134 (-27418);
  mkRun 135 135 (-27412); mkRun 136 136 (-27410); mkRun 137 140 (-27363); mkRun 141 141 (-27379); mkRun 142 142 (-27405);
  mkRun 143 143 (-27404); mkRun 144 144 (-27384); mkRun 145 145 (-27397); mkRun 146 146 (-27388); mkRun 147 147 (-33988);
  mkRun 148 148 (-27384); mkRun 149 149 (-27371); mkRun 150 150 (-27366); mkRun 151 151 (-27364); mkRun 152 152 (-27372);
  mkRun 153 154 (-27341); mkRun 155 155 (-27370); mkRun 156 156 (-27361); mkRun 157 157 (-33993); mkRun 158 158 (-27341);
  mkRun 159 159 (-24454); mkRun 160 160 (-27307); mkRun 161 161 (-27332); mkRun 162 162 (-27319); mkRun 163 163 (-27340);
  mkRun 164 164 (-27315); mkRun 165 165 (-27294); mkRun 166 166 (-27291); mkRun 167 167 (-27285); mkRun 168 168 (-27253);
  mkRun 169 170 (-27281); mkRun 171 171 (-27259); mkRun 172 172 (-27277); mkRun 173 173 (-27269); mkRun 174 175 (-27251);
  mkRun 176 176 (-27268); mkRun 177 177 (-27275); mkRun 178 178 (-37798); mkRun 179 179 (-37183); mkRun 180 180 (-27245);
  mkRun 181 181 (-27252); mkRun 182 182 (-27238); mkRun 183 183 (-32035); mkRun 184 184 (-27222); mkRun 185 185 (-27216);
  mkRun 186 186 (-27183); mkRun 187 187 (-34006); mkRun 188 188 (-27187); mkRun 189 189 (-27203)
].

Definition runs_EC : list GbkRun := [
  mkRun 0 8 (-21791); mkRun 9 10 (-21790); mkRun 11 12 (-21789); mkRun 13 13 (-21788); mkRun 14 18 (-21787);
  mkRun 19 22 (-21785); mkRun 23 41 (-21784); mkRun 42 43 (-21782); mkRun 44 45 (-21781); mkRun 46 46 (-21780);
  mkRun 47 48 (-21779); mkRun 49 49 (-21778); mkRun 50 51 (-21775); mkRun 52 54 (-21774); mkRun 55 62 (-21773);
  mkRun 63 63 (-21774); mkRun 64 64 (-21772); mkRun 65 69 (-21771); mkRun 70 77 (-21770); mkRun 78 82 (-21769);
  mkRun 83 83 (-21768); mkRun 84 86 (-21767); mkRun 87 87 (-21765); mkRun 88 90 (-21764); mkRun 91 95 (-21763);
  mkRun 96 96 (-27360); mkRun 97 97 (-27388); mkRun 98 98 (-33151); mkRun 99 99 (-33133); mkRun 100 100 (-33132);
  mkRun 101 101 (-33123); mkRun 102 102 (-33121); mkRun 103 103 (-33103); mkRun 104 106 (-21464); mkRun 107 107 (-21463);
  mkRun 108 109 (-21460); mkRun 110 110 (-33020); mkRun 111 111 (-36208); mkRun 112 112 (-33007); mkRun 113 113 (-25279);
  mkRun 114 114 (-34595); mkRun 115 115 (-19811); mkRun 116 116 (-34594); mkRun 117 117 (-34554); mkRun 118 118 (-34545);
  mkRun 119 119 (-34548); mkRun 120 120 (-34550); mkRun 121 121 (-34542); mkRun 122 122 (-34541); mkRun 123 123 (-34538);
  mkRun 124 124 (-34535); mkRun 125 125 (-31806); mkRun 126 126 (-31779); mkRun 127 127 (-31786); mkRun 128 128 (-31780);
  mkRun 129 129 (-31751); mkRun 130 130 (-31747); mkRun 131 131 (-31757); mkRun 132 132 (-31770); mkRun 133 133 (-31765);
  mkRun 134 134 (-31711); mkRun 135 135 (-31742); mkRun 136 136 (-31673); mkRun 137 137 (-31671); mkRun 138 138 (-31669);
  mkRun 139 139 (-31645); mkRun 140 140 (-31644); mkRun 141 141 (-31579); mkRun 142 142 (-31603); mkRun 143 143 (-31592);
  mkRun 144 144 (-31628); mkRun 145 145 (-31584); mkRun 146 146 (-31625); mkRun 147 147 (-31580); mkRun 148 148 (-31579);
  mkRun 149 149 (-31550); mkRun 150 150 (-31524); mkRun 151 151 (-31523); mkRun 152 152 (-31537); mkRun 153 153 (-31546);
  mkRun 154 154 (-31483); mkRun 155 155 (-31496); mkRun 156 156 (-31478); mkRun 157 157 (-31461); mkRun 158 158 (-31426);
  mkRun 159 159 (-31416); mkRun 160 160 (-31861); mkRun 161 161 (-31690); mkRun 162 162 (-31613); mkRun 163 163 (-31531);
  mkRun 164 164 (-35495); mkRun 165 165 (-35497); mkRun 166 166 (-35492); mkRun 167 168 (-35488); mkRun 169 169 (-29615);
  mkRun 170 170 (-29611); mkRun 171 171 (-29606); mkRun 172 172 (-29604); mkRun 173 174 (-29587); mkRun 175 175 (-29597);
  mkRun 176 176 (-29591); mkRun 177 177 (-29584); mkRun 178 178 (-29596); mkRun 179 179 (-29588); mkRun 180 180 (-29574);
  mkRun 181 181 (-29583); mkRun 182 182 (-29565); mkRun 183 183 (-29555); mkRun 184 184 (-29551); mkRun 185 185 (-29536);
  mkRun 186 186 (-29524); mkRun 187 187 (-29513); mkRun 188 188 (-36140); mkRun 189 189 (-36142)
].

Definition runs_ED : list GbkRun := [
  mkRun 0 1 (-21922); mkRun 2 3 (-21921); mkRun 4 10 (-21920); mkRun 11 11 (-21919); mkRun 12 12 (-21918);
  mkRun 13 14 (-21917); mkRun 15 15 (-21916); mkRun 16 62 (-21915); mkRun 63 64 (-21916); mkRun 65 65 (-21914);
  mkRun 66 70 (-21909); mkRun 71 71 (-21908); mkRun 72 95 (-21906); mkRun 96 96 (-36197); mkRun 97 97 (-36165);
  mkRun 98 98 (-36169); mkRun 99 99 (-36157); mkRun 100 100 (-36196); mkRun 101 101 (-36173); mkRun 102 102 (-36164);
  mkRun 103 103 (-36093); mkRun 104 104 (-36003); mkRun 105 105 (-35997); mkRun 106 106 (-35918); mkRun 107 107 (-35843);
  mkRun 108 108 (-35856); mkRun 109 109 (-35811); mkRun 110 110 (-35806); mkRun 111 111 (-35754); mkRun 112 112 (-27953);
  mkRun 113 113 (-27955); mkRun 114 114 (-33056); mkRun 115 115 (-32958); mkRun 116 116 (-32697); mkRun 117 117 (-30144);
  mkRun 118 118 (-30143); mkRun 119 119 (-30136); mkRun 120 120 (-30128); mkRun 121 122 (-30115); mkRun 123 123 (-30123);
  mkRun 124 124 (-34834); mkRun 125 125 (-30097); mkRun 126 127 (-30115); mkRun 128 130 (-30088); mkRun 131 131 (-30117);
  mkRun 132 132 (-30089); mkRun 133 133 (-30113); mkRun 134 134 (-30107); mkRun 135 135 (-30117); mkRun 136 136 (-30112);
  mkRun 137 137 (-30076); mkRun 138 138 (-30046); mkRun 139 140 (-30070); mkRun 141 141 (-30120); mkRun 142 142 (-30079);
  mkRun 143 143 (-30089); mkRun 144 144 (-30085); mkRun 145 145 (-30056); mkRun 146 146 (-30008); mkRun 147 147 (-30017);
  mkRun 148 148 (-30011); mkRun 149 149 (-30031); mkRun 150 150 (-30011); mkRun 151 151 (-30007); mkRun 152 152 (-30006);
  mkRun 153 153 (-29992); mkRun 154 154 (-29986); mkRun 155 155 (-30007); mkRun 156 156 (-29961); mkRun 157 157 (-29957);
  mkRun 158 158 (-29974); mkRun 159 159 (-29940); mkRun 160 160 (-29935); mkRun 161 161 (-29917); mkRun 162 162 (-29935);
  mkRun 163 163 (-29905); mkRun 164 164 (-29889); mkRun 165 165 (-29896); mkRun 166 166 (-29875); mkRun 167 167 (-20045);
  mkRun 168 168 (-20208); mkRun 169 170 (-20207); mkRun 171 171 (-30459); mkRun 172 172 (-30441); mkRun 173 173 (-30433);
  mkRun 174 174 (-30454); mkRun 175 176 (-30441); mkRun 177 177 (-30424); mkRun 178 178 (-30417); mkRun 179 179 (-30427);
  mkRun 180 180 (-30408); mkRun 181 181 (-30416); mkRun 182 182 (-30402); mkRun 183 183 (-30400); mkRun 184 185 (-30377);
  mkRun 186 186 (-30388); mkRun 187 187 (-30393); mkRun 188 188 (-30371); mkRun 189 189 (-30358)
].

Definition runs_EE : list GbkRun := [
  mkRun 0 62 (-22065); mkRun 63 95 (-22066); mkRun 96 96 (-30527); mkRun 97 97 (-30525); mkRun 98 98 (-30500);
  mkRun 99 99 (-30487); mkRun 100 100 (-30504); mkRun 101 101 (-30502); mkRun 102 102 (-30491); mkRun 103 103 (-30487);
  mkRun 104 105 (-30474); mkRun 106 106 (-30459); mkRun 107 107 (-30455); mkRun 108 108 (-30448); mkRun 109 109 (-31092);
  mkRun 110 110 (-31087); mkRun 111 111 (-31074); mkRun 112 112 (-31078); mkRun 113 113 (-31082); mkRun 114 114 (-31064);
  mkRun 115 115 (-31042); mkRun 116 116 (-31036); mkRun 117 117 (-31027); mkRun 118 118 (-28511); mkRun 119 119 (-28503);
  mkRun 120 120 (-28506); mkRun 121 121 (-25714); mkRun 122 122 (-28499); mkRun 123 123 (-28488); mkRun 124 124 (-28492);
  mkRun 125 125 (-28485); mkRun 126 126 (-28478); mkRun 127 127 (-28482); mkRun 128 128 (-30708); mkRun 129 129 (-30685);
  mkRun 130 130 (-26257); mkRun 131 133 (-23103); mkRun 134 134 (-23100); mkRun 135 135 (-23102); mkRun 136 137 (-23101);
  mkRun 138 139 (-23100); mkRun 140 140 (-23097); mkRun 141 141 (-23095); mkRun 142 142 (-23098); mkRun 143 145 (-23094);
  mkRun 146 147 (-23088); mkRun 148 148 (-23082); mkRun 149 149 (-23084); mkRun 150 150 (-23082); mkRun 151 151 (-23084);
  mkRun 152 153 (-23082); mkRun 154 154 (-23081); mkRun 155 155 (-23080); mkRun 156 160 (-23079); mkRun 161 162 (-23078);
  mkRun 163 163 (-23077); mkRun 164 164 (-23073); mkRun 165 171 (-23070); mkRun 172 174 (-23069); mkRun 175 177 (-23067);
  mkRun 178 178 (-23066); mkRun 179 179 (-23068); mkRun 180 180 (-23066); mkRun 181 183 (-23064); mkRun 184 184 (-23063);
  mkRun 185 186 (-23062); mkRun 187 188 (-23061); mkRun 189 189 (-23060)
].

Definition runs_EF : list GbkRun := [
  mkRun 0 5 (-22225); mkRun 6 6 (-22203); mkRun 7 7 (-22201); mkRun 8 8 (-22198); mkRun 9 9 (-22196); mkRun 10 10 (-22193);
  mkRun 11 11 (-22184); mkRun 12 49 (-22180); mkRun 50 51 (-22179); mkRun 52 52 (-22176); mkRun 53 54 (-22175);
  mkRun 55 57 (-22172); mkRun 58 62 (-22170); mkRun 63 64 (-22171); mkRun 65 95 (-22169); mkRun 96 96 (-23224);
  mkRun 97 97 (-23223); mkRun 98 99 (-23221); mkRun 100 102 (-23218); mkRun 103 103 (-23217); mkRun 104 104 (-23216);
  mkRun 105 106 (-23214); mkRun 107 107 (-23213); mkRun 108 108 (-23210); mkRun 109 109 (-23212); mkRun 110 111 (-23209);
  mkRun 112 113 (-23208); mkRun 114 116 (-23206); mkRun 117 121 (-23204); mkRun 122 122 (-23203); mkRun 123 123 (-23201);
  mkRun 124 126 (-23200); mkRun 127 127 (-23198); mkRun 128 129 (-23191); mkRun 130 130 (-23194); mkRun 131 131 (-23192);
  mkRun 132 133 (-23188); mkRun 134 134 (-23187); mkRun 135 137 (-23186); mkRun 138 138 (-23183); mkRun 139 140 (-23182);
  mkRun 141 141 (-23180); mkRun 142 142 (-23194); mkRun 143 145 (-23180); mkRun 146 146 (-23178); mkRun 147 147 (-23176);
  mkRun 148 149 (-23175); mkRun 150 152 (-23173); mkRun 153 156 (-23172); mkRun 157 157 (-23171); mkRun 158 159 (-23169);
  mkRun 160 160 (-23172); mkRun 161 162 (-23169); mkRun 163 171 (-23168); mkRun 172 172 (-23166); mkRun 173 175 (-23165);
  mkRun 176 176 (-23223); mkRun 177 177 (-30731); mkRun 178 178 (-30727); mkRun 179 179 (-22827); mkRun 180 180 (-30240);
  mkRun 181 181 (-30217); mkRun 182 182 (-30228); mkRun 183 183 (-30221); mkRun 184 184 (-30195); mkRun 185 185 (-37555);
  mkRun 186 186 (-30200); mkRun 187 187 (-30202); mkRun 188 188 (-30175); mkRun 189 189 (-30186)
].

Definition runs_F0 : list GbkRun := [
  mkRun 0 4 (-22328); mkRun 5 6 (-22327); mkRun 7 35 (-22326); mkRun 36 62 (-22325); mkRun 63 72 (-22326);
  mkRun 73 85 (-22324); mkRun 86 86 (-22323); mkRun 87 87 (-22322); mkRun 88 88 (-22310); mkRun 89 90 (-22306);
  mkRun 91 91 (-22305); mkRun 92 92 (-22303); mkRun 93 94 (-22300); mkRun 95 95 (-22295); mkRun 96 96 (-30312);
  mkRun 97 97 (-30315); mkRun 98 98 (-30290); mkRun 99 99 (-20949); mkRun 100 100 (-22272); mkRun 101 101 (-30262);
  mkRun 102 102 (-31263); mkRun 103 103 (-31258); mkRun 104 104 (-31254); mkRun 105 105 (-31249); mkRun 106 106 (-31239);
  mkRun 107 107 (-31694); mkRun 108 108 (-31693); mkRun 109 109 (-31618); mkRun 110 110 (-21135); mkRun 111 111 (-21134);
  mkRun 112 116 (-21129); mkRun 117 117 (-21124); mkRun 118 118 (-21126); mkRun 119 119 (-21122); mkRun 120 120 (-21121);
  mkRun 121 121 (-21123); mkRun 122 123 (-21122); mkRun 124 124 (-21119); mkRun 125 126 (-21117); mkRun 127 127 (-21116);
  mkRun 128 131 (-21115); mkRun 132 133 (-21114); mkRun 134 134 (-21113); mkRun 135 135 (-21111); mkRun 136 136 (-21108);
  mkRun 137 137 (-21107); mkRun 138 140 (-21105); mkRun 141 141 (-21104); mkRun 142 142 (-21100); mkRun 143 149 (-21098);
  mkRun 150 150 (-21094); mkRun 151 151 (-21099); mkRun 152 152 (-21094); mkRun 153 153 (-31560); mkRun 154 154 (-31559);
  mkRun 155 155 (-31558); mkRun 156 156 (-31549); mkRun 157 157 (-31553); mkRun 158 158 (-31539); mkRun 159 159 (-31549);
  mkRun 160 161 (-31534); mkRun 162 162 (-31531); mkRun 163 163 (-31520); mkRun 164 164 (-31540); mkRun 165 165 (-31542);
  mkRun 166 166 (-31524); mkRun 167 167 (-31526); mkRun 168 168 (-31507); mkRun 169 169 (-31517); mkRun 170 170 (-31496);
  mkRun 171 171 (-31492); mkRun 172 172 (-31495); mkRun 173 173 (-31498); mkRun 174 174 (-31492); mkRun 175 175 (-31497);
  mkRun 176 176 (-31470); mkRun 177 177 (-31489); mkRun 178 178 (-31479); mkRun 179 179 (-31477); mkRun 180 180 (-31461);
  mkRun 181 181 (-31478); mkRun 182 182 (-31474); mkRun 183 183 (-31468); mkRun 184 184 (-31458); mkRun 185 185 (-31472);
  mkRun 186 186 (-31446); mkRun 187 187 (-31460); mkRun 188 188 (-31464); mkRun 189 189 (-31461)
].

Definition runs_F1 : list GbkRun := [
  mkRun 0 0 (-22452); mkRun 1 1 (-22451); mkRun 2 12 (-22440); mkRun 13 14 (-22439); mkRun 15 62 (-22438);
  mkRun 63 95 (-22439); mkRun 96 96 (-31622); mkRun 97 97 (-31590); mkRun 98 98 (-31617); mkRun 99 99 (-31620);
  mkRun 100 100 (-31589); mkRun 101 101 (-31609); mkRun 102 102 (-31607); mkRun 103 103 (-31593); mkRun 104 104 (-31604);
  mkRun 105 105 (-31591); mkRun 106 106 (-31597); mkRun 107 107 (-31609); mkRun 108 108 (-31584); mkRun 109 109 (-31568);
  mkRun 110 110 (-31579); mkRun 111 111 (-31572); mkRun 112 112 (-31579); mkRun 113 113 (-31559); mkRun 114 114 (-31556);
  mkRun 115 115 (-29162); mkRun 116 116 (-30415); mkRun 117 118 (-30526); mkRun 119 119 (-30520); mkRun 120 120 (-30515);
  mkRun 121 121 (-30514); mkRun 122 122 (-30502); mkRun 123 123 (-30486); mkRun 124 124 (-30493); mkRun 125 125 (-30482);
  mkRun 126 126 (-30487); mkRun 127 127 (-30483); mkRun 128 128 (-30478); mkRun 129 129 (-26974); mkRun 130 130 (-26970);
  mkRun 131 131 (-26962); mkRun 132 132 (-26952); mkRun 133 133 (-26951); mkRun 134 134 (-26949); mkRun 135 135 (-26918);
  mkRun 136 136 (-26883); mkRun 137 137 (-26899); mkRun 138 138 (-26895); mkRun 139 139 (-26883); mkRun 140 140 (-26859);
  mkRun 141 141 (-26880); mkRun 142 142 (-26860); mkRun 143 143 (-26859); mkRun 144 144 (-26848); mkRun 145 145 (-26808);
  mkRun 146 146 (-26839); mkRun 147 147 (-26860); mkRun 148 148 (-26839); mkRun 149 149 (-26854); mkRun 150 150 (-26806);
  mkRun 151 151 (-26815); mkRun 152 152 (-26822); mkRun 153 153 (-26815); mkRun 154 154 (-26833); mkRun 155 155 (-26792);
  mkRun 156 156 (-26802); mkRun 157 157 (-26792); mkRun 158 158 (-26782); mkRun 159 159 (-26746); mkRun 160 160 (-26726);
  mkRun 161 161 (-31831); mkRun 162 162 (-28926); mkRun 163 163 (-31538); mkRun 164 164 (-31537); mkRun 165 165 (-31242);
  mkRun 166 166 (-29141); mkRun 167 167 (-29140); mkRun 168 168 (-29139); mkRun 169 169 (-29134); mkRun 170 170 (-29131);
  mkRun 171 171 (-29130); mkRun 172 174 (-29128); mkRun 175 175 (-29127); mkRun 176 176 (-29129); mkRun 177 177 (-29121);
  mkRun 178 178 (-29160); mkRun 179 179 (-29119); mkRun 180 180 (-29106); mkRun 181 181 (-29104); mkRun 182 182 (-29098);
  mkRun 183 183 (-29094); mkRun 184 184 (-29072); mkRun 185 185 (-29065); mkRun 186 186 (-26744); mkRun 187 187 (-22916);
  mkRun 188 188 (-22909); mkRun 189 189 (-22907)
].

Definition runs_F2 : list GbkRun := [
  mkRun 0 62 (-22598); mkRun 63 95 (-22599); mkRun 96 96 (-23064); mkRun 97 98 (-23062); mkRun 99 99 (-23061);
  mkRun 100 100 (-23057); mkRun 101 102 (-23052); mkRun 103 104 (-23050); mkRun 105 106 (-23049); mkRun 107 108 (-23047);
  mkRun 109 109 (-27745); mkRun 110 110 (-27739); mkRun 111 111 (-27716); mkRun 112 112 (-27715); mkRun 113 113 (-27699);
  mkRun 114 114 (-27705); mkRun 115 115 (-27704); mkRun 116 116 (-27706); mkRun 117 117 (-27662); mkRun 118 118 (-27690);
  mkRun 119 119 (-27693); mkRun 120 120 (-27661); mkRun 121 121 (-27677); mkRun 122 122 (-27668); mkRun 123 123 (-27673);
  mkRun 124 124 (-27667); mkRun 125 125 (-27691); mkRun 126 126 (-27670); mkRun 127 127 (-27658); mkRun 128 128 (-27645);
  mkRun 129 129 (-27661); mkRun 130 130 (-27637); mkRun 131 131 (-27668); mkRun 132 132 (-27659); mkRun 133 133 (-27669);
  mkRun 134 134 (-27672); mkRun 135 135 (-27647); mkRun 136 136 (-27642); mkRun 137 137 (-27670); mkRun 138 138 (-27618);
  mkRun 139 140 (-27611); mkRun 141 141 (-27617); mkRun 142 142 (-27612); mkRun 143 143 (-27648); mkRun 144 144 (-27582);
  mkRun 145 145 (-27636); mkRun 146 146 (-27615); mkRun 147 147 (-27637); mkRun 148 148 (-27645); mkRun 149 149 (-27653);
  mkRun 150 150 (-27604); mkRun 151 151 (-27601); mkRun 152 152 (-27617); mkRun 153 153 (-27602); mkRun 154 154 (-27601);
  mkRun 155 155 (-27599); mkRun 156 156 (-27604); mkRun 157 157 (-27579); mkRun 158 158 (-27556); mkRun 159 159 (-27586);
  mkRun 160 160 (-27580); mkRun 161 161 (-27572); mkRun 162 162 (-27593); mkRun 163 163 (-27558); mkRun 164 164 (-27549);
  mkRun 165 165 (-27570); mkRun 166 166 (-27574); mkRun 167 167 (-27583); mkRun 168 168 (-27570); mkRun 169 169 (-27563);
  mkRun 170 170 (-27497); mkRun 171 171 (-27594); mkRun 172 173 (-27504); mkRun 174 174 (-27508); mkRun 175 175 (-27536);
  mkRun 176 176 (-27521); mkRun 177 177 (-27558); mkRun 178 178 (-27525); mkRun 179 179 (-27497); mkRun 180 180 (-27554);
  mkRun 181 181 (-27539); mkRun 182 182 (-27515); mkRun 183 183 (-27540); mkRun 184 184 (-27552); mkRun 185 185 (-27541);
  mkRun 186 186 (-27496); mkRun 187 187 (-27469); mkRun 188 188 (-27477); mkRun 189 189 (-27436)
].

Definition runs_F3 : list GbkRun := [
  mkRun 0 17 (-22758); mkRun 18 18 (-22752); mkRun 19 19 (-22736); mkRun 20 20 (-22731); mkRun 21 22 (-22728);
  mkRun 23 24 (-22723); mkRun 25 25 (-22720); mkRun 26 26 (-22708); mkRun 27 33 (-22706); mkRun 34 37 (-22704);
  mkRun 38 38 (-22701); mkRun 39 39 (-22700); mkRun 40 42 (-22699); mkRun 43 44 (-22696); mkRun 45 49 (-22695);
  mkRun 50 53 (-22693); mkRun 54 54 (-22692); mkRun 55 58 (-22691); mkRun 59 62 (-22690); mkRun 63 64 (-22691);
  mkRun 65 65 (-22690); mkRun 66 69 (-22689); mkRun 70 73 (-22688); mkRun 74 74 (-22687); mkRun 75 75 (-22686);
  mkRun 76 84 (-22685); mkRun 85 85 (-22684); mkRun 86 92 (-22683); mkRun 93 95 (-22682); mkRun 96 96 (-27611);
  mkRun 97 97 (-27674); mkRun 98 98 (-27678); mkRun 99 99 (-27639); mkRun 100 100 (-27662); mkRun 101 101 (-27683);
  mkRun 102 102 (-27644); mkRun 103 103 (-27587); mkRun 104 104 (-27645); mkRun 105 105 (-27637); mkRun 106 106 (-27640);
  mkRun 107 107 (-27617); mkRun 108 108 (-27610); mkRun 109 109 (-27633); mkRun 110 110 (-27614); mkRun 111 111 (-27632);
  mkRun 112 112 (-27623); mkRun 113 113 (-27607); mkRun 114 114 (-27593); mkRun 115 115 (-27604); mkRun 116 116 (-27591);
  mkRun 117 117 (-27552); mkRun 118 118 (-27556); mkRun 119 119 (-27578); mkRun 120 120 (-27567); mkRun 121 121 (-27551);
  mkRun 122 122 (-27546); mkRun 123 123 (-27523); mkRun 124 124 (-27521); mkRun 125 125 (-29832); mkRun 126 126 (-29821);
  mkRun 127 128 (-29820); mkRun 129 129 (-29106); mkRun 130 130 (-30921); mkRun 131 131 (-30919); mkRun 132 132 (-30909);
  mkRun 133 134 (-30915); mkRun 135 135 (-30899); mkRun 136 136 (-30911); mkRun 137 137 (-30879); mkRun 138 138 (-30908);
  mkRun 139 139 (-30853); mkRun 140 140 (-30869); mkRun 141 141 (-30884); mkRun 142 142 (-30902); mkRun 143 143 (-30882);
  mkRun 144 144 (-30880); mkRun 145 145 (-30898); mkRun 146 146 (-30894); mkRun 147 147 (-30896); mkRun 148 148 (-30882);
  mkRun 149 149 (-30872); mkRun 150 150 (-30905); mkRun 151 151 (-30848); mkRun 152 152 (-30847); mkRun 153 153 (-30869);
  mkRun 154 154 (-30822); mkRun 155 155 (-30864); mkRun 156 156 (-30848); mkRun 157 157 (-30846); mkRun 158 158 (-30833);
  mkRun 159 159 (-30821); mkRun 160 160 (-30847); mkRun 161 161 (-30832); mkRun 162 162 (-30834); mkRun 163 163 (-30804);
  mkRun 164 165 (-30783); mkRun 166 166 (-30767); mkRun 167 167 (-30780); mkRun 168 168 (-30796); mkRun 169 169 (-30786);
  mkRun 170 170 (-30822); mkRun 171 171 (-30786); mkRun 172 172 (-30801); mkRun 173 173 (-30796); mkRun 174 174 (-30788);
  mkRun 175 175 (-30780); mkRun 176 176 (-30752); mkRun 177 177 (-30769); mkRun 178 178 (-30759); mkRun 179 179 (-30743);
  mkRun 180 180 (-30747); mkRun 181 182 (-30737); mkRun 183 183 (-30734); mkRun 184 184 (-30701); mkRun 185 185 (-30716);
  mkRun 186 186 (-30719); mkRun 187 187 (-30701); mkRun 188 188 (-30695); mkRun 189 189 (-30707)
].

Definition runs_F4 : list GbkRun := [
  mkRun 0 0 (-22841); mkRun 1 6 (-22840); mkRun 7 9 (-22839); mkRun 10 20 (-22838); mkRun 21 23 (-22837); mkRun 24 34 (-22836);
  mkRun 35 36 (-22835); mkRun 37 44 (-22834); mkRun 45 48 (-22832); mkRun 49 49 (-22827); mkRun 50 52 (-22824);
  mkRun 53 53 (-22823); mkRun 54 54 (-22822); mkRun 55 56 (-22821); mkRun 57 62 (-22820); mkRun 63 95 (-22821);
  mkRun 96 96 (-30850); mkRun 97 97 (-30840); mkRun 98 98 (-30845); mkRun 99 99 (-30828); mkRun 100 100 (-30820);
  mkRun 101 101 (-30822); mkRun 102 102 (-29353); mkRun 103 104 (-29351); mkRun 105 105 (-29350); mkRun 106 106 (-29375);
  mkRun 107 107 (-27752); mkRun 108 110 (-29324); mkRun 111 111 (-29315); mkRun 112 112 (-29314); mkRun 113 113 (-29322);
  mkRun 114 114 (-29320); mkRun 115 115 (-29308); mkRun 116 116 (-29306); mkRun 117 118 (-29315); mkRun 119 119 (-29306);
  mkRun 120 120 (-29301); mkRun 121 121 (-29297); mkRun 122 122 (-29296); mkRun 123 123 (-29293); mkRun 124 124 (-29283);
  mkRun 125 125 (-29279); mkRun 126 126 (-29271); mkRun 127 127 (-27714); mkRun 128 128 (-27708); mkRun 129 129 (-27706);
  mkRun 130 130 (-27627); mkRun 131 131 (-27621); mkRun 132 132 (-27495); mkRun 133 133 (-29993); mkRun 134 134 (-29992);
  mkRun 135 135 (-29985); mkRun 136 137 (-29978); mkRun 138 138 (-29977); mkRun 139 139 (-30800); mkRun 140 140 (-36740);
  mkRun 141 141 (-30781); mkRun 142 142 (-30770); mkRun 143 143 (-30772); mkRun 144 144 (-30771); mkRun 145 145 (-30768);
  mkRun 146 146 (-30753); mkRun 147 148 (-30744); mkRun 149 149 (-30741); mkRun 150 150 (-30736); mkRun 151 152 (-30732);
  mkRun 153 153 (-30738); mkRun 154 154 (-30742); mkRun 155 155 (-30725); mkRun 156 156 (-30709); mkRun 157 157 (-29296);
  mkRun 158 158 (-36407); mkRun 159 159 (-29985); mkRun 160 160 (-29971); mkRun 161 161 (-29965); mkRun 162 162 (-29950);
  mkRun 163 163 (-29955); mkRun 164 164 (-29951); mkRun 165 165 (-29949); mkRun 166 166 (-29945); mkRun 167 167 (-29941);
  mkRun 168 168 (-30705); mkRun 169 169 (-30579); mkRun 170 170 (-30533); mkRun 171 171 (-30526); mkRun 172 172 (-30374);
  mkRun 173 173 (-30291); mkRun 174 174 (-22071); mkRun 175 175 (-22076); mkRun 176 176 (-26494); mkRun 177 177 (-26478);
  mkRun 178 178 (-26463); mkRun 179 179 (-26467); mkRun 180 180 (-26436); mkRun 181 181 (-26511); mkRun 182 182 (-26506);
  mkRun 183 183 (-26801); mkRun 184 184 (-26800); mkRun 185 185 (-25520); mkRun 186 186 (-25515); mkRun 187 188 (-25518);
  mkRun 189 189 (-25498)
].

Definition runs_F5 : list GbkRun := [
  mkRun 0 62 (-22980); mkRun 63 95 (-22981); mkRun 96 96 (-25663); mkRun 97 97 (-25665); mkRun 98 98 (-25651);
  mkRun 99 99 (-25659); mkRun 100 100 (-25654); mkRun 101 102 (-25641); mkRun 103 103 (-25654); mkRun 104 104 (-25653);
  mkRun 105 105 (-25649); mkRun 106 106 (-25631); mkRun 107 107 (-25639); mkRun 108 108 (-25629); mkRun 109 109 (-25633);
  mkRun 110 110 (-25630); mkRun 111 112 (-25614); mkRun 113 113 (-25608); mkRun 114 116 (-25606); mkRun 117 117 (-25601);
  mkRun 118 118 (-25603); mkRun 119 119 (-25598); mkRun 120 120 (-26980); mkRun 121 121 (-22332); mkRun 122 122 (-26627);
  mkRun 123 123 (-26577); mkRun 124 124 (-26552); mkRun 125 125 (-26469); mkRun 126 126 (-26454); mkRun 127 127 (-26635);
  mkRun 128 128 (-26626); mkRun 129 129 (-26630); mkRun 130 130 (-26633); mkRun 131 131 (-26624); mkRun 132 133 (-26607);
  mkRun 134 134 (-26605); mkRun 135 135 (-26602); mkRun 136 137 (-26619); mkRun 138 138 (-26608); mkRun 139 139 (-26630);
  mkRun 140 140 (-26593); mkRun 141 142 (-26583); mkRun 143 143 (-26605); mkRun 144 144 (-26584); mkRun 145 145 (-26583);
  mkRun 146 146 (-26607); mkRun 147 147 (-26571); mkRun 148 148 (-26584); mkRun 149 149 (-26562); mkRun 150 150 (-26554);
  mkRun 151 151 (-26553); mkRun 152 152 (-26541); mkRun 153 153 (-26540); mkRun 154 154 (-26552); mkRun 155 155 (-26541);
  mkRun 156 156 (-26531); mkRun 157 157 (-26526); mkRun 158 158 (-26534); mkRun 159 159 (-26539); mkRun 160 160 (-26532);
  mkRun 161 161 (-26545); mkRun 162 162 (-26522); mkRun 163 164 (-26531); mkRun 165 166 (-26517); mkRun 167 167 (-26526);
  mkRun 168 168 (-26489); mkRun 169 169 (-26484); mkRun 170 170 (-26479); mkRun 171 171 (-26493); mkRun 172 172 (-26489);
  mkRun 173 173 (-26473); mkRun 174 174 (-26464); mkRun 175 175 (-26460); mkRun 176 176 (-26465); mkRun 177 177 (-26454);
  mkRun 178 178 (-26453); mkRun 179 179 (-27004); mkRun 180 180 (-26995); mkRun 181 181 (-26988); mkRun 182 182 (-26994);
  mkRun 183 183 (-26976); mkRun 184 184 (-26981); mkRun 185 185 (-36959); mkRun 186 186 (-27685); mkRun 187 187 (-27678);
  mkRun 188 188 (-27683); mkRun 189 189 (-27682)
].

Definition runs_F6 : list GbkRun := [
  mkRun 0 62 (-23140); mkRun 63 95 (-23141); mkRun 96 96 (-27836); mkRun 97 97 (-27831); mkRun 98 98 (-27828);
  mkRun 99 99 (-27750); mkRun 100 100 (-27519); mkRun 101 101 (-24403); mkRun 102 102 (-24510); mkRun 103 103 (-24501);
  mkRun 104 104 (-24506); mkRun 105 105 (-24484); mkRun 106 106 (-24490); mkRun 107 107 (-24484); mkRun 108 108 (-24478);
  mkRun 109 109 (-24480); mkRun 110 110 (-24453); mkRun 111 111 (-24451); mkRun 112 112 (-24449); mkRun 113 113 (-24436);
  mkRun 114 114 (-22323); mkRun 115 115 (-22321); mkRun 116 121 (-22320); mkRun 122 122 (-22319); mkRun 123 123 (-22462);
  mkRun 124 124 (-22450); mkRun 125 125 (-22449); mkRun 126 126 (-24582); mkRun 127 128 (-24580); mkRun 129 129 (-24564);
  mkRun 130 130 (-24561); mkRun 131 131 (-32517); mkRun 132 132 (-24549); mkRun 133 133 (-25656); mkRun 134 134 (-25625);
  mkRun 135 135 (-25600); mkRun 136 136 (-25483); mkRun 137 137 (-25440); mkRun 138 138 (-25345); mkRun 139 139 (-25405);
  mkRun 140 140 (-25231); mkRun 141 141 (-25187); mkRun 142 142 (-23120); mkRun 143 143 (-23118); mkRun 144 147 (-23116);
  mkRun 148 148 (-31922); mkRun 149 149 (-23115); mkRun 150 150 (-23113); mkRun 151 153 (-23112); mkRun 154 155 (-23111);
  mkRun 156 157 (-23107); mkRun 158 163 (-23105); mkRun 164 168 (-23104); mkRun 169 169 (-23103); mkRun 170 171 (-23102);
  mkRun 172 179 (-23101); mkRun 180 183 (-23099); mkRun 184 187 (-23093); mkRun 188 189 (-23091)
].

Definition runs_F7 : list GbkRun := [
  mkRun 0 62 (-23300); mkRun 63 63 (-23301); mkRun 64 65 (-23300); mkRun 66 66 (-23299); mkRun 67 68 (-23297);
  mkRun 69 70 (-23293); mkRun 71 71 (-23292); mkRun 72 72 (-23290); mkRun 73 73 (-23287); mkRun 74 77 (-23285);
  mkRun 78 78 (-23282); mkRun 79 79 (-23270); mkRun 80 80 (-23269); mkRun 81 81 (-23267); mkRun 82 82 (-23258);
  mkRun 83 87 (-23254); mkRun 88 89 (-23249); mkRun 90 91 (-23242); mkRun 92 93 (-23235); mkRun 94 95 (-23231);
  mkRun 96 100 (-23253); mkRun 101 103 (-23251); mkRun 104 106 (-23250); mkRun 107 108 (-23248); mkRun 109 109 (-23247);
  mkRun 110 110 (-23245); mkRun 111 111 (-24628); mkRun 112 112 (-24620); mkRun 113 114 (-24609); mkRun 115 115 (-24608);
  mkRun 116 116 (-24582); mkRun 117 117 (-24587); mkRun 118 118 (-24596); mkRun 119 119 (-24582); mkRun 120 120 (-24581);
  mkRun 121 121 (-23817); mkRun 122 122 (-23819); mkRun 123 123 (-23813); mkRun 124 124 (-22885); mkRun 125 125 (-23816);
  mkRun 126 126 (-23813); mkRun 127 127 (-23812); mkRun 128 128 (-23808); mkRun 129 129 (-23810); mkRun 130 130 (-23806);
  mkRun 131 131 (-23810); mkRun 132 133 (-23802); mkRun 134 134 (-23798); mkRun 135 135 (-23683); mkRun 136 136 (-23686);
  mkRun 137 137 (-23683); mkRun 138 138 (-23682); mkRun 139 139 (-23684); mkRun 140 140 (-23680); mkRun 141 141 (-23677);
  mkRun 142 142 (-24295); mkRun 143 143 (-24259); mkRun 144 144 (-24227); mkRun 145 145 (-24189); mkRun 146 146 (-24191);
  mkRun 147 147 (-23797); mkRun 148 148 (-23796); mkRun 149 149 (-23792); mkRun 150 150 (-23784); mkRun 151 151 (-23789);
  mkRun 152 152 (-23774); mkRun 153 153 (-23789); mkRun 154 154 (-23778); mkRun 155 155 (-23764); mkRun 156 156 (-23758);
  mkRun 157 157 (-23755); mkRun 158 158 (-23744); mkRun 159 159 (-23741); mkRun 160 161 (-22820); mkRun 162 162 (-31144);
  mkRun 163 163 (-22882); mkRun 164 165 (-22878); mkRun 166 166 (-22876); mkRun 167 167 (-22870); mkRun 168 168 (-25619);
  mkRun 169 169 (-22861); mkRun 170 170 (-22860); mkRun 171 173 (-22801); mkRun 174 174 (-22799); mkRun 175 175 (-22801);
  mkRun 176 176 (-22799); mkRun 177 177 (-22793); mkRun 178 178 (-22796); mkRun 179 179 (-22799); mkRun 180 180 (-22795);
  mkRun 181 181 (-22791); mkRun 182 182 (-22741); mkRun 183 183 (-22732); mkRun 184 184 (-22730); mkRun 185 185 (-22721);
  mkRun 186 186 (-22724); mkRun 187 188 (-22719); mkRun 189 189 (-22714)
].

Definition runs_F8 : list GbkRun := [
  mkRun 0 62 (-23389); mkRun 63 95 (-23390); mkRun 96 189 (-5741)
].

Definition runs_F9 : list GbkRun := [
  mkRun 0 62 (-23549); mkRun 63 95 (-23550); mkRun 96 189 (-5903)
].

Definition runs_FA : list GbkRun := [
  mkRun 0 62 (-23709); mkRun 63 95 (-23710); mkRun 96 189 (-6065)
].

Definition runs_FB : list GbkRun := [
  mkRun 0 27 (-23869); mkRun 28 28 (-23864); mkRun 29 29 (-23862); mkRun 30 30 (-23856); mkRun 31 31 (-23855);
  mkRun 32 32 (-23852); mkRun 33 34 (-23846); mkRun 35 35 (-23843); mkRun 36 36 (-23831); mkRun 37 37 (-23829);
  mkRun 38 40 (-23828); mkRun 41 41 (-23827); mkRun 42 42 (-23825); mkRun 43 43 (-23822); mkRun 44 47 (-23821);
  mkRun 48 48 (-23819); mkRun 49 50 (-23811); mkRun 51 51 (-23809); mkRun 52 61 (-23808); mkRun 62 62 (-23806);
  mkRun 63 63 (-23807); mkRun 64 67 (-23806); mkRun 68 69 (-23804); mkRun 70 75 (-23803); mkRun 76 84 (-23801);
  mkRun 85 85 (-23800); mkRun 86 91 (-23799); mkRun 92 95 (-23798); mkRun 96 189 (-6227)
].

Definition runs_FC : list GbkRun := [
  mkRun 0 8 (-23957); mkRun 9 11 (-23956); mkRun 12 13 (-23955); mkRun 14 14 (-23954); mkRun 15 19 (-23952);
  mkRun 20 23 (-23951); mkRun 24 26 (-23950); mkRun 27 27 (-23947); mkRun 28 29 (-23946); mkRun 30 32 (-23945);
  mkRun 33 34 (-23944); mkRun 35 35 (-23941); mkRun 36 36 (-23939); mkRun 37 38 (-23938); mkRun 39 39 (-23937);
  mkRun 40 40 (-23936); mkRun 41 44 (-23934); mkRun 45 53 (-23933); mkRun 54 54 (-23932); mkRun 55 55 (-23930);
  mkRun 56 62 (-23929); mkRun 63 67 (-23930); mkRun 68 68 (-23929); mkRun 69 69 (-23927); mkRun 70 71 (-23926);
  mkRun 72 74 (-23925); mkRun 75 75 (-23924); mkRun 76 81 (-23923); mkRun 82 82 (-23922); mkRun 83 91 (-23921);
  mkRun 92 93 (-23920); mkRun 94 95 (-23919); mkRun 96 189 (-6389)
].

Definition runs_FD : list GbkRun := [
  mkRun 0 4 (-24078); mkRun 5 5 (-24077); mkRun 6 6 (-24076); mkRun 7 7 (-24075); mkRun 8 12 (-24073); mkRun 13 23 (-24072);
  mkRun 24 62 (-24070); mkRun 63 68 (-24071); mkRun 69 70 (-24069); mkRun 71 82 (-24059); mkRun 83 85 (-24056);
  mkRun 86 90 (-24054); mkRun 91 91 (-1136); mkRun 92 92 (-1060); mkRun 93 93 (-1033); mkRun 94 94 (-952); mkRun 95 95 (-943);
  mkRun 96 189 (-6551)
].

Definition runs_FE : list GbkRun := [
  mkRun 0 3 (-1076); mkRun 4 4 (-1075); mkRun 5 6 (-1074); mkRun 7 7 (-1071); mkRun 8 10 (-1065); mkRun 11 12 (-1064);
  mkRun 13 15 (-1062); mkRun 16 16 (-53199); mkRun 17 19 (-5691); mkRun 20 20 (-53200); mkRun 21 21 (-51682);
  mkRun 22 22 (-51727); mkRun 23 23 (-53199); mkRun 24 24 (-53197); mkRun 25 25 (-5691); mkRun 26 26 (-51388);
  mkRun 27 27 (-51265); mkRun 28 28 (-51278); mkRun 29 29 (-53201); mkRun 30 30 (-53191); mkRun 31 31 (-50417);
  mkRun 32 32 (-50504); mkRun 33 33 (-5691); mkRun 34 34 (-50323); mkRun 35 35 (-50308); mkRun 36 36 (-50161);
  mkRun 37 37 (-50325); mkRun 38 39 (-5691); mkRun 40 40 (-49946); mkRun 41 41 (-49659); mkRun 42 42 (-49546);
  mkRun 43 43 (-53188); mkRun 44 45 (-5691); mkRun 46 46 (-53188); mkRun 47 47 (-48665); mkRun 48 48 (-48401);
  mkRun 49 49 (-53187); mkRun 50 50 (-47931); mkRun 51 51 (-53184); mkRun 52 53 (-53182); mkRun 54 54 (-5691);
  mkRun 55 55 (-47814); mkRun 56 56 (-47820); mkRun 57 57 (-53182); mkRun 58 58 (-47773); mkRun 59 59 (-47525);
  mkRun 60 60 (-47131); mkRun 61 61 (-47153); mkRun 62 62 (-5691); mkRun 63 63 (-46941); mkRun 64 64 (-46936);
  mkRun 65 65 (-46854); mkRun 66 66 (-46838); mkRun 67 67 (-53178); mkRun 68 68 (-46398); mkRun 69 69 (-46348);
  mkRun 70 70 (-46346); mkRun 71 72 (-46342); mkRun 73 74 (-46341); mkRun 75 75 (-46317); mkRun 76 76 (-46322);
  mkRun 77 77 (-46295); mkRun 78 78 (-46297); mkRun 79 80 (-5692); mkRun 81 81 (-45551); mkRun 82 84 (-45556);
  mkRun 85 85 (-45599); mkRun 86 86 (-45557); mkRun 87 93 (-45445); mkRun 94 94 (-45297); mkRun 95 95 (-5692);
  mkRun 96 189 (-6713)
].

Definition kGbkRuns : list GbkRun := mjoin [
  runs_81; runs_82; runs_83; runs_84; runs_85; runs_86; runs_87; runs_88; runs_89; runs_8A; runs_8B; runs_8C; runs_8D; runs_8E;
  runs_8F; runs_90; runs_91; runs_92; runs_93; runs_94; runs_95; runs_96; runs_97; runs_98; runs_99; runs_9A; runs_9B; runs_9C;
  runs_9D; runs_9E; runs_9F; runs_A0; runs_A1; runs_A2; runs_A3; runs_A4; runs_A5; runs_A6; runs_A7; runs_A8; runs_A9; runs_AA;
  runs_AB; runs_AC; runs_AD; runs_AE; runs_AF; runs_B0; runs_B1; runs_B2; runs_B3; runs_B4; runs_B5; runs_B6; runs_B7; runs_B8;
  runs_B9; runs_BA; runs_BB; runs_BC; runs_BD; runs_BE; runs_BF; runs_C0; runs_C1; runs_C2; runs_C3; runs_C4; runs_C5; runs_C6;
  runs_C7; runs_C8; runs_C9; runs_CA; runs_CB; runs_CC; runs_CD; runs_CE; runs_CF; runs_D0; runs_D1; runs_D2; runs_D3; runs_D4;
  runs_D5; runs_D6; runs_D7; runs_D8; runs_D9; runs_DA; runs_DB; runs_DC; runs_DD; runs_DE; runs_DF; runs_E0; runs_E1; runs_E2;
  runs_E3; runs_E4; runs_E5; runs_E6; runs_E7; runs_E8; runs_E9; runs_EA; runs_EB; runs_EC; runs_ED; runs_EE; runs_EF; runs_F0;
  runs_F1; runs_F2; runs_F3; runs_F4; runs_F5; runs_F6; runs_F7; runs_F8; runs_F9; runs_FA; runs_FB; runs_FC; runs_FD; runs_FE
].

Definition kGbkLeadOffset : list Z := [
  0; 98; 156; 208; 277; 375; 459; 506; 571; 618; 683; 718; 794; 840; 890; 963; 1034; 1080; 1164; 1230; 1289; 1349; 1434; 1487;
  1537; 1554; 1615; 1708; 1780; 1827; 1860; 1904; 1954; 2030; 2043; 2049; 2053; 2057; 2077; 2087; 2148; 2182; 2213; 2245; 2270;
  2291; 2327; 2378; 2500; 2630; 2749; 2880; 3005; 3124; 3250; 3369; 3495; 3627; 3746; 3856; 3971; 4067; 4165; 4264; 4377; 4504;
  4629; 4769; 4894; 5021; 5164; 5296; 5419; 5543; 5657; 5769; 5879; 6009; 6136; 6254; 6377; 6503; 6608; 6717; 6816; 6914; 7011;
  7113; 7224; 7320; 7426; 7554; 7663; 7755; 7885; 8012; 8124; 8245; 8331; 8419; 8514; 8609; 8698; 8770; 8872; 8970; 9081; 9201;
  9315; 9414; 9482; 9552; 9641; 9738; 9827; 9946; 10048; 10135; 10194; 10292; 10295; 10298; 10301; 10330; 10363; 10381
].

Definition kGbkLeadEnd : list Z := [
  98; 156; 208; 277; 375; 459; 506; 571; 618; 683; 718; 794; 840; 890; 963; 1034; 1080; 1164; 1230; 1289; 1349; 1434; 1487;
  1537; 1554; 1615; 1708; 1780; 1827; 1860; 1904; 1954; 2030; 2043; 2049; 2053; 2057; 2077; 2087; 2148; 2182; 2213; 2245; 2270;
  2291; 2327; 2378; 2500; 2630; 2749; 2880; 3005; 3124; 3250; 3369; 3495; 3627; 3746; 3856; 3971; 4067; 4165; 4264; 4377; 4504;
  4629; 4769; 4894; 5021; 5164; 5296; 5419; 5543; 5657; 5769; 5879; 6009; 6136; 6254; 6377; 6503; 6608; 6717; 6816; 6914; 7011;
  7113; 7224; 7320; 7426; 7554; 7663; 7755; 7885; 8012; 8124; 8245; 8331; 8419; 8514; 8609; 8698; 8770; 8872; 8970; 9081; 9201;
  9315; 9414; 9482; 9552; 9641; 9738; 9827; 9946; 10048; 10135; 10194; 10292; 10295; 10298; 10301; 10330; 10363; 10381; 10453
].

(** The runs between the two ends of a lead byte. *)
#[export] Instance gbk_table : GbkTable := {|
  lead_runs lead :=
    let first := at_ kGbkLeadOffset lead in
    take (Z.to_nat (at_ kGbkLeadEnd lead - first)) (drop (Z.to_nat first) kGbkRuns);
|}.

(** ** The table, enumerated *)

Definition trail_byte (trail : Z) : Z := if trail <? 63 then trail + 0x40 else trail - 63 + 0x80.

(** A two-byte code and its code point. *)
Definition run_points (lead : Z) (run : GbkRun) : list (Z * Z) :=
  (fun trail => let code := 256 * (lead + kGbkLeadMin) + trail_byte trail in (code + run_delta run, code)) <$>
  seqZ (run_start run) (run_end run - run_start run + 1).

Definition all_points : list (Z * Z) :=
  mjoin ((fun lead => mjoin (run_points lead <$> lead_runs lead)) <$> seqZ 0 126).

Module PointOrder <: TotalLeBool.
Definition t := (Z * Z)%type.
Definition leb (a b : t) : bool := fst a <=? fst b.
Lemma leb_total a b : leb a b = true \/ leb b a = true.
Proof. unfold leb. lia. Qed.
End PointOrder.

Module PointSort := Sort PointOrder.

(** Strictly above a bound and one another, no surrogates, no more than two bytes. *)
Fixpoint increasing (bound : Z) (points : list (Z * Z)) : bool :=
  match points with
  | [] => true
  | (cp, _) :: points => (bound <? cp) && ((cp <? 0xD800) || (0xDFFF <? cp)) && (cp <? 0x10000) && increasing cp points
  end.

(** The runs cover the trail indices from [from] on without a gap. *)
Fixpoint covers (runs : list GbkRun) (from : Z) : bool :=
  match runs with
  | [] => from =? 190
  | run :: runs => (run_start run =? from) && (from <=? run_end run) && covers runs (run_end run + 1)
  end.

Lemma runs_cover : forallb (fun lead => covers (lead_runs lead) 0) (seqZ 0 126) = true.
Proof. vm_compute. reflexivity. Qed.

Lemma points_increasing : increasing 0x7F (PointSort.sort all_points) = true.
Proof. vm_compute. reflexivity. Qed.

(** ** The code points of the table *)

Lemma find_run_covered runs from trail :
  covers runs from = true -> from <= trail < 190 ->
  exists run, find_run runs trail = Some run /\ run ∈ runs /\ run_start run <= trail <= run_end run.
Proof.
  revert from. induction runs as [|run runs IH]; intros from Hc Ht; cbn [covers find_run] in *; [bool_hyps; lia |].
  apply andb_true_iff in Hc as [Hc Hrest]. apply andb_true_iff in Hc as [H1 H2]. bool_hyps.
  destruct (Z.ltb_spec trail (run_start run)); [lia |]. destruct (Z.ltb_spec (run_end run) trail); cbn [orb].
  - destruct (IH (run_end run + 1) Hrest) as (r & Hr & Hin & Hb); [lia |]. exists r. split_and!; [done | | lia | lia].
    by apply list_elem_of_further.
  - exists run. split_and!; [done | apply list_elem_of_here | lia | lia].
Qed.

Lemma increasing_spec bound points :
  0 <= bound -> increasing bound points = true ->
  Forall (fun p => bound < p.1 < 0x10000 /\ scalar p.1) points /\ NoDup points.*1.
Proof.
  revert bound. induction points as [|[cp code] points IH]; intros bound Hb Hi.
  { split; [constructor | apply NoDup_nil_2]. }
  cbn [increasing] in Hi.
  apply andb_true_iff in Hi as [Hi Hrest]. apply andb_true_iff in Hi as [Hi H3]. apply andb_true_iff in Hi as [H1 H2].
  apply Z.ltb_lt in H1, H3. apply orb_true_iff in H2. rewrite !Z.ltb_lt in H2.
  destruct (IH cp) as [Hall Hdup]; [lia | done |]. split.
  - constructor; [unfold scalar; cbn [fst]; lia |]. eapply Forall_impl; [exact Hall |]. cbn beta. intros p [? ?]. split; [lia | done].
  - rewrite fmap_cons. apply NoDup_cons. split; [| done]. intros Hin. apply list_elem_of_fmap in Hin as (p & E & Hp).
    rewrite Forall_forall in Hall. specialize (Hall p Hp). cbn [fst] in E. lia.
Qed.

Lemma all_points_spec : Forall (fun p => 0x7F < p.1 < 0x10000 /\ scalar p.1) all_points /\ NoDup all_points.*1.
Proof.
  destruct (increasing_spec 0x7F _ ltac:(lia) points_increasing) as [Hall Hdup].
  assert (PointSort.sort all_points ≡ₚ all_points) as Hp by (symmetry; apply PointSort.Permuted_sort).
  split; [by rewrite <- Hp | by rewrite <- Hp].
Qed.

Definition lead_byte (b : Z) : Prop := 0x81 <= b <= 0xFE.
Definition trail_ok (b : Z) : Prop := 0x40 <= b <= 0xFE /\ b <> 0x7F.

Lemma valid_trail_spec b : valid_trail b = true <-> trail_ok b.
Proof. unfold valid_trail, trail_ok. rewrite orb_true_iff, !andb_true_iff, !Z.leb_le. lia. Qed.

Lemma trail_round b : trail_ok b -> trail_byte (trail_index b) = b /\ 0 <= trail_index b < 190.
Proof.
  unfold trail_ok, trail_byte, trail_index. intros Hb. destruct (Z.ltb_spec b 0x7F).
  - destruct (Z.ltb_spec (b - 0x40) 63); lia.
  - destruct (Z.ltb_spec (b - 0x80 + 63) 63); lia.
Qed.

(** What the table gives a two-byte character. *)
Lemma gbk_code_point_spec a b :
  lead_byte a -> trail_ok b -> exists cp, gbk_code_point a b = Some cp /\ (cp, 256 * a + b) ∈ all_points.
Proof.
  intros Ha Hb. destruct (trail_round b Hb) as [Hround Htrail]. unfold lead_byte in Ha.
  pose proof runs_cover as Hcover. rewrite forallb_forall in Hcover.
  destruct (find_run_covered (lead_runs (a - kGbkLeadMin)) 0 (trail_index b)) as (run & Hrun & Hin & Hbounds); [| done |].
  { apply Hcover, list_elem_of_In, elem_of_seqZ. unfold kGbkLeadMin. lia. }
  assert ((256 * a + b + run_delta run, 256 * a + b) ∈ all_points) as Hpoint.
  { unfold all_points. apply list_elem_of_join. exists (mjoin (run_points (a - kGbkLeadMin) <$> lead_runs (a - kGbkLeadMin))). split.
    - apply list_elem_of_join. exists (run_points (a - kGbkLeadMin) run). split; [| by apply list_elem_of_fmap_2].
      apply list_elem_of_fmap. exists (trail_index b). rewrite Hround. split; [| apply elem_of_seqZ; lia].
      by replace (a - kGbkLeadMin + kGbkLeadMin) with a by lia.
    - apply list_elem_of_fmap. exists (a - kGbkLeadMin). split; [done |]. apply elem_of_seqZ. unfold kGbkLeadMin. lia. }
  exists (256 * a + b + run_delta run). split; [| done]. unfold gbk_code_point. rewrite Hrun. cbn [fmap option_fmap option_map].
  f_equal. rewrite lor_shiftl_byte by (unfold is_byte, trail_ok in *; lia). unfold u32. apply Z.mod_small.
  destruct all_points_spec as [Hall _]. rewrite Forall_forall in Hall. specialize (Hall _ Hpoint). cbn [fst] in Hall. lia.
Qed.

Lemma nodup_fst {A B} (l : list (A * B)) a b b' : NoDup l.*1 -> (a, b) ∈ l -> (a, b') ∈ l -> b = b'.
Proof.
  intros Hdup Hb Hb'. apply list_elem_of_lookup in Hb as [i Hi], Hb' as [j Hj].
  assert (i = j) as <-; [| congruence]. eapply NoDup_lookup; [exact Hdup | |]; rewrite list_lookup_fmap;
    [by rewrite Hi | by rewrite Hj].
Qed.

Lemma gbk_code_point_inj a b a' b' :
  lead_byte a -> trail_ok b -> lead_byte a' -> trail_ok b' -> gbk_code_point a b = gbk_code_point a' b' -> a = a' /\ b = b'.
Proof.
  intros Ha Hb Ha' Hb' E. destruct (gbk_code_point_spec a b) as (cp & H1 & Hin); [done | done |].
  destruct (gbk_code_point_spec a' b') as (cp' & H2 & Hin'); [done | done |].
  assert (cp' = cp) as -> by congruence. assert (256 * a + b = 256 * a' + b') as Hcode.
  { eapply nodup_fst; [apply all_points_spec | done | done]. }
  unfold lead_byte, trail_ok in *. lia.
Qed.

(** ** Names *)

(** The text of a name: ASCII without control characters except the tab, and two-byte characters. *)
Inductive gbk_text : bytes -> Prop :=
  | text_end : gbk_text []
  | text_ascii b rest : b = 9 \/ 0x20 <= b < 0x80 -> gbk_text rest -> gbk_text (b :: rest)
  | text_pair a b rest : lead_byte a -> trail_ok b -> gbk_text rest -> gbk_text (a :: b :: rest).

Definition point_ok (c : Z) : Prop := scalar c /\ c <> 0.

Lemma points_of_text raw : gbk_text raw -> exists cs, gbk_code_points raw = Some cs /\ Forall point_ok cs.
Proof.
  induction 1 as [|b rest Hb _ (cs & E & IH)|a b rest Ha Hb _ (cs & E & IH)]; [by exists [] | |]; cbn [gbk_code_points].
  - destruct (Z.ltb_spec b 0x80); [| lia]. destruct ((b =? 0) || _) eqn:G; [lia |]. rewrite E. exists (b :: cs). split; [done |].
    constructor; [| done]. unfold point_ok, scalar. lia.
  - pose proof Ha as Ha'. unfold lead_byte in Ha'. unfold kGbkLeadMin, kGbkLeadMax.
    destruct (Z.ltb_spec a 0x80); [lia |]. destruct ((0x81 <=? a) && (a <=? 0xFE)) eqn:G; [| lia].
    rewrite (proj2 (valid_trail_spec b) Hb). destruct (gbk_code_point_spec a b) as (cp & -> & Hin); [done | done |].
    rewrite E. exists (cp :: cs). split; [done |]. constructor; [| done].
    destruct all_points_spec as [Hall _]. rewrite Forall_forall in Hall. specialize (Hall _ Hin). cbn [fst] in Hall.
    unfold point_ok. split; [apply Hall | lia].
Qed.

(** How the code reads a name that it decodes. *)
Lemma points_inv raw cs :
  is_bytes raw -> gbk_code_points raw = Some cs ->
  match raw with
  | [] => cs = []
  | a :: rest =>
    exists c cs', cs = c :: cs' /\
    (((a = 9 \/ 0x20 <= a < 0x80) /\ c = a /\ gbk_code_points rest = Some cs') \/
     (exists b rest', rest = b :: rest' /\ lead_byte a /\ trail_ok b /\ gbk_code_point a b = Some c /\ 0x80 <= c /\
        gbk_code_points rest' = Some cs'))
  end.
Proof.
  intros Hb H. destruct raw as [|a rest]; [by injection H as <- |]. cbn [gbk_code_points] in H.
  apply is_bytes_cons in Hb as [Ha Hb]. unfold is_byte in Ha.
  destruct (Z.ltb_spec a 0x80).
  { destruct ((a =? 0) || _) eqn:G; [done |]. destruct (gbk_code_points rest) as [cs'|]; [| done]. injection H as <-.
    exists a, cs'. split; [done |]. left. split_and!; [lia | done | done]. }
  unfold kGbkLeadMin, kGbkLeadMax in H. destruct ((0x81 <=? a) && (a <=? 0xFE)) eqn:G; [| done]. bool_hyps.
  destruct rest as [|b rest]; [done |]. destruct (valid_trail b) eqn:Hv; [| done]. apply valid_trail_spec in Hv.
  assert (lead_byte a) as Hlead by (unfold lead_byte; lia).
  destruct (gbk_code_point_spec a b Hlead Hv) as (cp & E & Hin). rewrite E in H.
  destruct (gbk_code_points rest) as [cs'|] eqn:Erest; [| done]. injection H as <-.
  exists cp, cs'. split; [done |]. right. exists b, rest. split_and!; try done.
  destruct all_points_spec as [Hall _]. rewrite Forall_forall in Hall. specialize (Hall _ Hin). cbn [fst] in Hall. lia.
Qed.

Lemma text_of_points raw cs : is_bytes raw -> gbk_code_points raw = Some cs -> gbk_text raw.
Proof.
  revert cs. induction raw as [raw IH] using (induction_ltof1 _ length). intros cs Hb H.
  pose proof (points_inv raw cs Hb H) as Hinv. destruct raw as [|a rest]; [constructor |].
  apply is_bytes_cons in Hb as [_ Hb]. destruct Hinv as (c & cs' & -> & [(Ha & -> & Hrest) | (b & rest' & -> & Ha & Hb' & _ & _ & Hrest)]).
  - constructor; [done |]. eapply IH; [| done | exact Hrest]. unfold ltof. cbn. lia.
  - constructor; [done | done |]. apply is_bytes_cons in Hb as [_ Hb]. eapply IH; [| done | exact Hrest]. unfold ltof. cbn. lia.
Qed.

Lemma points_inj raw raw' cs :
  is_bytes raw -> is_bytes raw' -> gbk_code_points raw = Some cs -> gbk_code_points raw' = Some cs -> raw = raw'.
Proof.
  revert raw raw'. induction cs as [|c cs IH]; intros raw raw' Hb Hb' H H';
    pose proof (points_inv raw _ Hb H) as Hinv; pose proof (points_inv raw' _ Hb' H') as Hinv';
    (destruct raw as [|a rest]; [destruct raw' as [|a' rest']; [done | by destruct Hinv' as (? & ? & ? & _)] |
      destruct raw' as [|a' rest']; [by destruct Hinv as (? & ? & ? & _) |]]);
    destruct Hinv as (d & ds & E & Hinv); destruct Hinv' as (d' & ds' & E' & Hinv'); [done |].
  assert (d = c /\ d' = c /\ ds = cs /\ ds' = cs) as (-> & -> & -> & ->) by (split_and!; congruence).
  apply is_bytes_cons in Hb as [_ Hb], Hb' as [_ Hb'].
  destruct Hinv as [(Ha & E1 & Hr) | (b & k & -> & Ha & Ht & Hc & Hmin & Hr)], Hinv' as [(Ha' & E1' & Hr') | (b' & k' & -> & Ha' & Ht' & Hc' & Hmin' & Hr')].
  - f_equal; [congruence | by apply IH].
  - lia.
  - lia.
  - apply is_bytes_cons in Hb as [_ Hb], Hb' as [_ Hb'].
    destruct (gbk_code_point_inj a b a' b') as [-> ->]; [done.. | congruence |]. do 2 f_equal. by apply IH.
Qed.

(** *** Encoding *)

Lemma lor_low h l k : 0 <= k -> 0 <= l < 2 ^ k -> h mod 2 ^ k = 0 -> Z.lor h l = h + l.
Proof.
  intros Hk Hl Hh. destruct (decide (l = 0)) as [-> |]; [rewrite Z.lor_0_r; lia |]. rewrite <- Z.add_lor_land. assert (Z.land h l = 0) as ->; [| lia].
  apply Z.bits_inj'. intros i Hi. rewrite Z.land_spec, Z.bits_0. destruct (Z.ltb_spec i k).
  - assert (Z.testbit h i = false) as ->; [| done].
    rewrite (Z.div_mod h (2 ^ k)), Hh, Z.add_0_r, Z.mul_comm by lia. by rewrite Z.mul_pow2_bits_low.
  - rewrite (Z.bits_above_log2 l), andb_false_r; [done | lia |].
    apply Z.log2_lt_pow2; [lia |].
    eapply Z.lt_le_trans; [apply Hl |]. by apply Z.pow_le_mono_r.
Qed.


Lemma continuation_byte v : 0 <= v -> u8 (Z.lor 0x80 (Z.land v 0x3F)) = 0x80 + v mod 64.
Proof.
  intros Hv. change 0x3F with (Z.ones 6). rewrite Z.land_ones by lia. change (2 ^ 6) with 64. pose proof (Z.mod_pos_bound v 64 ltac:(lia)).
  rewrite (lor_low 0x80 _ 6) by (done || lia). apply u8_small. unfold is_byte. lia.
Qed.

Lemma leading_byte mark width v : 0 <= width -> 0 <= v < 2 ^ width -> mark mod 2 ^ width = 0 -> 0 <= mark + v < 256 -> u8 (Z.lor mark v) = mark + v.
Proof. intros Hk Hv Hm Hb. rewrite (lor_low mark _ width) by done. by apply u8_small. Qed.

(** The bit operations of the source give the encoding of [Utf8]. *)
Lemma encode_code_point_utf8 cp : 0 <= cp <= 0x10FFFF -> encode_code_point cp = utf8 cp.
Proof.
  intros Hcp. unfold encode_code_point, utf8. rewrite !Z.shiftr_div_pow2 by lia.
  destruct (Z.ltb_spec cp 0x80); [by rewrite u8_small by (unfold is_byte; lia) |].
  pose proof (Z.div_pos cp 64 ltac:(lia) ltac:(lia)). pose proof (Z.div_pos cp 4096 ltac:(lia) ltac:(lia)).
  destruct (Z.ltb_spec cp 0x800); [| destruct (Z.ltb_spec cp 0x10000)]; change (2 ^ 6) with 64; change (2 ^ 12) with 4096;
    change (2 ^ 18) with 262144; rewrite !continuation_byte by lia.
  - rewrite (leading_byte 0xC0 6); [done | lia | | done |]; Z.to_euclidean_division_equations; lia.
  - rewrite (leading_byte 0xE0 5); [done | lia | | done |]; Z.to_euclidean_division_equations; lia.
  - rewrite (leading_byte 0xF0 3); [done | lia | | done |]; Z.to_euclidean_division_equations; lia.
Qed.

(** The encoding can be read back: no encoded scalar is a prefix of another. *)
Lemma utf8_prefix c d k l : scalar c -> scalar d -> utf8 c ++ k = utf8 d ++ l -> c = d /\ k = l.
Proof.
  unfold scalar, utf8. intros Hc Hd.
  destruct (Z.ltb_spec c 0x80), (Z.ltb_spec d 0x80), (Z.ltb_spec c 0x800), (Z.ltb_spec d 0x800), (Z.ltb_spec c 0x10000), (Z.ltb_spec d 0x10000);
    try lia; cbn [app]; intros E; injection E; intros; subst; try (split; [| done]);
    Z.to_euclidean_division_equations; lia.
Qed.

Lemma encoded_inj cs ds : Forall scalar cs -> Forall scalar ds -> encoded cs = encoded ds -> cs = ds.
Proof.
  intros Hcs. revert ds. induction Hcs as [|c cs Hc _ IH]; intros ds Hds E.
  - destruct Hds as [|d ds _ _]; [done |]. change (encoded (d :: ds)) with (utf8 d ++ encoded ds) in E.
    by destruct (utf8_cons d) as (x & k & Ex); rewrite Ex in E.
  - destruct Hds as [|d ds Hd Hds].
    + change (encoded (c :: cs)) with (utf8 c ++ encoded cs) in E. by destruct (utf8_cons c) as (x & k & Ex); rewrite Ex in E.
    + apply (utf8_prefix c d) in E as [-> E]; [| done | done]. f_equal. by apply IH.
Qed.

Lemma contains_zero cs : Forall point_ok cs -> contains 0 (encoded cs) = false.
Proof.
  unfold contains. induction 1 as [|c cs [Hc Hne] _ IH]; [done |]. change (encoded (c :: cs)) with (utf8 c ++ encoded cs).
  rewrite existsb_app, IH, orb_false_r. clear IH. unfold scalar, utf8 in *.
  destruct (Z.ltb_spec c 0x80); [| destruct (Z.ltb_spec c 0x800); [| destruct (Z.ltb_spec c 0x10000)]];
    cbn [existsb]; rewrite !orb_false_r; repeat (apply orb_false_iff; split); apply Z.eqb_neq; Z.to_euclidean_division_equations; lia.
Qed.

Lemma decoded_points raw out :
  gb18030_to_utf8 raw = Some out -> is_bytes raw ->
  exists cs, gbk_code_points raw = Some cs /\ Forall point_ok cs /\ Forall scalar cs /\ out = encoded cs.
Proof.
  unfold gb18030_to_utf8. destruct (gbk_code_points raw) as [cs|] eqn:E; [| done]. intros [= <-] Hb.
  destruct (points_of_text raw) as (cs' & E' & Hok); [by eapply text_of_points |]. assert (cs' = cs) as -> by congruence.
  assert (Forall scalar cs) as Hscalar by (eapply Forall_impl; [exact Hok |]; by intros ? []).
  exists cs. split_and!; [done | done | done |]. unfold encoded. f_equal. clear -Hscalar.
  induction Hscalar as [|c cs Hc _ IH]; [done |]. rewrite !fmap_cons, IH. f_equal. apply encode_code_point_utf8. unfold scalar in Hc. lia.
Qed.

(** ** Correctness *)

(** C35. The fallback for names that are not UTF-8 is a decoding.  With the program's table, a name is decoded exactly when it
    is a text of printable ASCII, tabs and two-byte characters with a lead and a trail byte in their ranges (the table has
    no gap); the result is then always well-formed UTF-8 without a zero byte, so that only its length can make the check
    after it fail; and different names have different results. *)
Theorem gbk_names_decode (raw : bytes) (Hb : is_bytes raw) :
  (is_Some (gb18030_to_utf8 raw) <-> gbk_text raw) /\
  forall out, gb18030_to_utf8 raw = Some out ->
    (forall maximum, is_valid_utf8 (Some out) maximum = (0 <? zlen raw) && (zlen out <=? maximum)) /\
    forall raw', is_bytes raw' -> gb18030_to_utf8 raw' = Some out -> raw' = raw.
Proof.
  split.
  - split.
    + intros [out H]. destruct (decoded_points raw out H Hb) as (cs & Hcs & _). by eapply text_of_points.
    + intros H. destruct (points_of_text raw H) as (cs & Hcs & _). unfold gb18030_to_utf8. by rewrite Hcs.
  - intros out H. destruct (decoded_points raw out H Hb) as (cs & Hcs & Hok & Hscalar & ->). split.
    + intros maximum. unfold is_valid_utf8. rewrite valid_loop_strict, contains_zero, andb_true_r by done.
      assert (is_strict_utf8 (encoded cs) = true) as ->.
      { clear -Hscalar. induction Hscalar as [|c cs Hc _ IH]; [done |]. change (encoded (c :: cs)) with (utf8 c ++ encoded cs).
        by rewrite strict_utf8_step. }
      destruct raw as [|a rest].
      { injection Hcs as <-. done. }
      destruct (points_inv _ _ Hb Hcs) as (c & cs' & -> & _). change (encoded (c :: cs')) with (utf8 c ++ encoded cs').
      destruct (utf8_cons c) as (x & k & ->). cbn [app]. unfold zlen. cbn [length].
      destruct (Z.eqb_spec (Z.of_nat (S (length (k ++ encoded cs')))) 0), (Z.ltb_spec 0 (Z.of_nat (S (length rest)))); [lia | lia | | lia].
      cbn [orb andb]. rewrite Z.leb_antisym. by destruct (_ <? _).
    + intros raw' Hb' H'. destruct (decoded_points raw' _ H' Hb') as (cs' & Hcs' & _ & Hscalar' & E).
      apply encoded_inj in E; [| done | done]. subst cs'. by eapply points_inj.
Qed.

(** The word game in Chinese, in the encoding of old archives. *)
Lemma gbk_names_decode_witness :
  is_bytes [0xD3; 0xCE; 0xCF; 0xB7] /\
  gb18030_to_utf8 [0xD3; 0xCE; 0xCF; 0xB7] = Some [0xE6; 0xB8; 0xB8; 0xE6; 0x88; 0x8F] /\
  is_valid_utf8 (Some [0xE6; 0xB8; 0xB8; 0xE6; 0x88; 0x8F]) 1024 = true.
Proof.
  assert (is_bytes [0xD3; 0xCE; 0xCF; 0xB7]) as Hb by (apply is_bytes_compute; reflexivity).
  assert (gb18030_to_utf8 [0xD3; 0xCE; 0xCF; 0xB7] = Some [0xE6; 0xB8; 0xB8; 0xE6; 0x88; 0x8F]) as H by (vm_compute; reflexivity).
  split_and!; [exact Hb | exact H |]. exact (proj1 (proj2 (gbk_names_decode _ Hb) _ H) 1024).
Defined.
