(* ===== verification/CatalogApp.v ===== *)
(** * The application: catalogue, scans, user records, settings ([shared/src/app/flynes_app.cpp])

    The state behind an application handle is the catalogue and the settings it last saved.
    Every call that changes one builds the next value, saves it, and only then shows it.
    Each call runs under the lock of the state, so it is one step; a scan is a handle of its
    own that collects candidates and is committed against the catalogue generation it began
    with.

    What a file gives as a candidate is the interface [Scanner], implemented in
    [CatalogScan].  The control layout of the handle is not modelled, and neither is running
    out of memory outside of the exceptions a scanner can throw. *)

From S2P Require Import Prelude FileStore PersistCodec AppText SettingsPersist CatalogPersist.

(** ** Results *)

Inductive fly_result :=
  | FLY_RESULT_OK | FLY_RESULT_INVALID_ARGUMENT | FLY_RESULT_STRUCT_TOO_SMALL | FLY_RESULT_UNSUPPORTED_VERSION
  | FLY_RESULT_OUT_OF_RANGE | FLY_RESULT_BUFFER_TOO_SMALL | FLY_RESULT_OUT_OF_MEMORY | FLY_RESULT_INTERNAL_ERROR
  | FLY_RESULT_INVALID_STATE | FLY_RESULT_CONFLICT | FLY_RESULT_NOT_FOUND | FLY_RESULT_FORBIDDEN.

#[global] Instance fly_result_eq_dec : EqDecision fly_result.
Proof. solve_decision. Defined.

Definition FLY_SOURCE_SCOPE_BUILTIN : Z := 1.
Definition FLY_SOURCE_SCOPE_MANAGED_LIBRARY : Z := 4.
Definition FLY_SCAN_COMPLETENESS_PARTIAL : Z := 2.
Definition FLY_SCAN_COMPLETENESS_FATAL : Z := 3.
Definition FLY_CATALOG_FRESHNESS_STALE : Z := 2.
Definition FLY_SCAN_FILE_FLAG_EXPECTED_PHYSICAL_SHA256 : Z := 1.
Definition u32_max : Z := 2 ^ 32 - 1.

(** The sizes of the ABI's structures where pointers have eight bytes. *)
Definition FLY_PLATFORM_CAPABILITIES_V1_SIZE : Z := 16.
Definition FLY_APP_CONFIG_V1_SIZE : Z := 40.
Definition FLY_SCAN_CONFIG_V1_SIZE : Z := 28.
Definition FLY_SCAN_FILE_V1_SIZE : Z := 88.

(** ** Arguments *)

Record fly_platform_capabilities := mkCapabilities { cap_size : Z; cap_version : Z }.

Record fly_app_config := mkConfig {
  config_size : Z;
  config_version : Z;
  data_root_utf8 : option bytes;
  cache_root_utf8 : option bytes;
  platform_capabilities : option fly_platform_capabilities;
}.

Record fly_scan_config := mkScanConfig { scan_config_size : Z; scan_config_version : Z; config_uuid : bytes; config_scope : Z }.

(** What one [pread] gives: at most so many bytes, an interruption, an error. *)
Inductive read_fate := Reads (most : Z) | Interrupted | ReadFailed.

(** The borrowed descriptor: its number, the file behind it, the fates of the reads. *)
Record descriptor := mkDescriptor { fd : Z; content : bytes; reads : list read_fate }.

Record fly_scan_file := mkScanFile {
  file_size : Z;
  file_version : Z;
  file_path : option bytes;
  file_display : option bytes;
  borrowed_fd : descriptor;
  file_flags : Z;
  expected_physical_sha256 : bytes;
}.

Definition is_valid_scope (scope : Z) : bool := (FLY_SOURCE_SCOPE_BUILTIN <=? scope) && (scope <=? FLY_SOURCE_SCOPE_MANAGED_LIBRARY).

Definition is_valid_completeness (completeness : Z) : bool :=
  (FLY_SCAN_COMPLETENESS_FULL <=? completeness) && (completeness <=? FLY_SCAN_COMPLETENESS_FATAL).

Definition is_zero_uuid (id : bytes) : bool := forallb (fun b => b =? 0) (take 16 id).

(** [None] is the null pointer. *)
Definition validate_capabilities (capabilities : option fly_platform_capabilities) : fly_result :=
  match capabilities with
  | None => FLY_RESULT_INVALID_ARGUMENT
  | Some c =>
    if cap_size c <? FLY_PLATFORM_CAPABILITIES_V1_SIZE then FLY_RESULT_STRUCT_TOO_SMALL
    else if negb (cap_version c =? 1) then FLY_RESULT_UNSUPPORTED_VERSION else FLY_RESULT_OK
  end.

Definition validate_config (config : option fly_app_config) : fly_result :=
  match config with
  | None => FLY_RESULT_INVALID_ARGUMENT
  | Some c =>
    if config_size c <? FLY_APP_CONFIG_V1_SIZE then FLY_RESULT_STRUCT_TOO_SMALL
    else if negb (config_version c =? 1) then FLY_RESULT_UNSUPPORTED_VERSION
    else if negb (is_valid_root_utf8 (data_root_utf8 c)) || negb (is_valid_root_utf8 (cache_root_utf8 c)) then
      FLY_RESULT_INVALID_ARGUMENT
    else validate_capabilities (platform_capabilities c)
  end.

Definition validate_scan_config (config : option fly_scan_config) : fly_result :=
  match config with
  | None => FLY_RESULT_INVALID_ARGUMENT
  | Some c =>
    if scan_config_size c <? FLY_SCAN_CONFIG_V1_SIZE then FLY_RESULT_STRUCT_TOO_SMALL
    else if negb (scan_config_version c =? 1) then FLY_RESULT_UNSUPPORTED_VERSION
    else if is_zero_uuid (config_uuid c) || negb (is_valid_scope (config_scope c)) then FLY_RESULT_INVALID_ARGUMENT
    else FLY_RESULT_OK
  end.

Definition validate_scan_file (file : option fly_scan_file) : fly_result :=
  match file with
  | None => FLY_RESULT_INVALID_ARGUMENT
  | Some f =>
    if file_size f <? FLY_SCAN_FILE_V1_SIZE then FLY_RESULT_STRUCT_TOO_SMALL
    else if negb (file_version f =? 1) then FLY_RESULT_UNSUPPORTED_VERSION
    else if negb (Z.land (file_flags f) (u32_max - FLY_SCAN_FILE_FLAG_EXPECTED_PHYSICAL_SHA256) =? 0) then
      FLY_RESULT_INVALID_ARGUMENT
    else if negb (is_valid_utf8 (file_path f) FLY_SCAN_RELATIVE_PATH_MAX_UTF8_BYTES) ||
            negb (is_valid_utf8 (file_display f) FLY_SCAN_DISPLAY_NAME_MAX_UTF8_BYTES) then FLY_RESULT_INVALID_ARGUMENT
    else if negb (is_safe_relative_path (default [] (file_path f))) || negb (is_safe_display_name (default [] (file_display f)))
    then FLY_RESULT_INVALID_ARGUMENT
    else FLY_RESULT_OK
  end.

Definition validate_canonical_id (id : option bytes) : fly_result :=
  if negb (is_valid_utf8 id FLY_CANONICAL_ID_MAX_UTF8_BYTES) then FLY_RESULT_INVALID_ARGUMENT else FLY_RESULT_OK.

(** ** Candidates *)

Inductive CandidateDisposition := INDEXED | SKIPPED | REJECTED.

#[global] Instance disposition_eq_dec : EqDecision CandidateDisposition.
Proof. solve_decision. Defined.

Record CandidateRecord := mkCandidate {
  candidate_path : bytes;
  disposition : CandidateDisposition;
  candidate_reason : Z;
  candidate_entries : list CatalogEntryData;
}.

(** What a scan makes of a file; [None] is an exception. *)
Class Scanner := { scan_candidate : SourceKey -> fly_scan_file -> option CandidateRecord }.

(** ** Catalogue *)

Definition source_scope_conflicts (catalog : CatalogData) (source : SourceKey) : bool :=
  existsb (fun s => bool_decide (uuid (source_key s) = uuid source) && negb (scope (source_key s) =? scope source)) (sources catalog).

Fixpoint upsert_source (sources : list SourceRecord) (source : SourceKey) (completeness : Z) : list SourceRecord :=
  match sources with
  | [] => [mkSource source completeness]
  | existing :: rest =>
    if bool_decide (uuid (source_key existing) = uuid source) then
      mkSource (mkKey (uuid (source_key existing)) (scope source)) completeness :: rest
    else existing :: upsert_source rest source completeness
  end.

(** [std::string] and [std::array] compare byte by byte. *)
Fixpoint bytes_less (a b : bytes) : bool :=
  match a, b with
  | _, [] => false
  | [], _ => true
  | x :: a, y :: b => (x <? y) || ((x =? y) && bytes_less a b)
  end.

Definition entry_order (left right : CatalogEntryData) : bool :=
  if negb (bool_decide (variant_id left = variant_id right)) then bytes_less (variant_id left) (variant_id right)
  else if negb (bool_decide (uuid (entry_source left) = uuid (entry_source right))) then
    bytes_less (uuid (entry_source left)) (uuid (entry_source right))
  else if negb (scope (entry_source left) =? scope (entry_source right)) then
    scope (entry_source left) <? scope (entry_source right)
  else if negb (bool_decide (source_relative_path left = source_relative_path right)) then
    bytes_less (source_relative_path left) (source_relative_path right)
  else bytes_less (display_name left) (display_name right).

(** [std::sort]; the order it leaves entries in that compare equal is not specified, here they keep theirs. *)
Fixpoint insert_entry (entry : CatalogEntryData) (sorted : list CatalogEntryData) : list CatalogEntryData :=
  match sorted with
  | [] => [entry]
  | head :: rest => if entry_order head entry then head :: insert_entry entry rest else entry :: sorted
  end.

Definition sort_entries (entries : list CatalogEntryData) : list CatalogEntryData := foldr insert_entry [] entries.

(** The first candidate of the path decides. *)
Fixpoint candidate_is_rejected (candidates : list CandidateRecord) (path : bytes) : bool :=
  match candidates with
  | [] => false
  | c :: rest =>
    if bool_decide (candidate_path c = path) then bool_decide (disposition c = REJECTED) else candidate_is_rejected rest path
  end.

Definition erase_source_path (entries : list CatalogEntryData) (source : SourceKey) (path : bytes) : list CatalogEntryData :=
  List.filter (fun e => negb (same_source (entry_source e) source && bool_decide (source_relative_path e = path))) entries.

(** The first loop of [reconcile_catalog]: what stays of the current entries. *)
Definition keep_entry (source : SourceKey) (completeness : Z) (candidates : list CandidateRecord) (existing : CatalogEntryData)
    : list CatalogEntryData :=
  if negb (same_source (entry_source existing) source) then [existing]
  else if (completeness =? FLY_SCAN_COMPLETENESS_PARTIAL) || (completeness =? FLY_SCAN_COMPLETENESS_FATAL) ||
          candidate_is_rejected candidates (source_relative_path existing) then
    [existing <| freshness := FLY_CATALOG_FRESHNESS_STALE |>]
  else [].

(** The second loop: one candidate. *)
Definition apply_candidate (source : SourceKey) (entries : list CatalogEntryData) (candidate : CandidateRecord)
    : list CatalogEntryData :=
  if decide (disposition candidate = REJECTED) then entries
  else
    let entries := erase_source_path entries source (candidate_path candidate) in
    if decide (disposition candidate = INDEXED) then
      entries ++ ((fun e => e <| freshness := FLY_CATALOG_FRESHNESS_FRESH |>) <$> candidate_entries candidate)
    else entries.

(** [None] is the exception of an exhausted generation. *)
Definition reconcile_catalog (current : CatalogData) (source : SourceKey) (completeness : Z)
    (candidates : list CandidateRecord) : option CatalogData :=
  if generation current =? u64_max then None
  else
    let kept := mjoin (keep_entry source completeness candidates <$> entries current) in
    let merged :=
      if negb (completeness =? FLY_SCAN_COMPLETENESS_FATAL) then fold_left (apply_candidate source) candidates kept else kept in
    Some (mkCatalog (generation current + 1) (sort_entries merged) (upsert_source (sources current) source completeness)
            (users current) (next_favorite_revision current) (next_play_sequence current)).

Definition has_candidate_path (candidates : list CandidateRecord) (path : bytes) : bool :=
  existsb (fun c => bool_decide (candidate_path c = path)) candidates.

Definition user_new (id : bytes) : UserRecord := mkUser id false 0 0 0.

Definition find_user (catalog : CatalogData) (id : bytes) : option UserRecord :=
  List.find (fun u => bool_decide (user_id u = id)) (users catalog).

(** [upsert_user] gives a reference; here it takes what is written through it. *)
Fixpoint upsert_user (users : list UserRecord) (id : bytes) (write : UserRecord -> UserRecord) : list UserRecord :=
  match users with
  | [] => [write (user_new id)]
  | user :: rest => if bool_decide (user_id user = id) then write user :: rest else user :: upsert_user rest id write
  end.

Definition source_freshness_summary (catalog : CatalogData) (source : SourceKey) : Z :=
  if existsb (fun e => same_source (entry_source e) source && (freshness e =? FLY_CATALOG_FRESHNESS_STALE)) (entries catalog)
  then FLY_CATALOG_FRESHNESS_STALE else FLY_CATALOG_FRESHNESS_FRESH.

(** ** State *)

Record AppState := mkApp { catalog : CatalogData; settings : SettingsData }.

(** [owner] is the weak pointer to the state: it points to the application of that launch. *)
Record Scan := mkScanHandle {
  owner : nat;
  scan_source : SourceKey;
  base_generation : Z;
  candidates : list CandidateRecord;
  closed : bool;
  poisoned : bool;
}.

(** The application, how many there were, all scans by their handles, and the directory of the data. *)
Record World := mkWorld { app : option AppState; launches : nat; scans : list Scan; disk : Disk }.

#[global] Instance eta_app : Eta AppState := fun r => mkApp (catalog r) (settings r).
#[global] Instance eta_scan : Eta Scan := fun r =>
  mkScanHandle (owner r) (scan_source r) (base_generation r) (candidates r) (closed r) (poisoned r).
#[global] Instance eta_world : Eta World := fun r => mkWorld (app r) (launches r) (scans r) (disk r).

Definition on_disk {A} (io : IO A) : M World A := fun w => let '(a, d) := io (disk w) in (a, w <| disk := d |>).

(** [app->state->catalog = std::move(next)] *)
Definition set_catalog (next : CatalogData) : M World unit :=
  modify (fun w => w <| app := (fun s => s <| catalog := next |>) <$> app w |>).

Definition set_settings (next : SettingsData) : M World unit :=
  modify (fun w => w <| app := (fun s => s <| settings := next |>) <$> app w |>).

Definition set_scan (handle : nat) (f : Scan -> Scan) : M World unit :=
  modify (fun w => w <| scans := alter f handle (scans w) |>).

(** [scan->app.lock()] *)
Definition lock_app (scan : Scan) (w : World) : option AppState :=
  if bool_decide (owner scan = launches w) then app w else None.

(** Save, then show. *)
Definition commit_catalog (next : CatalogData) : M World fly_result :=
  saved ← on_disk (save_catalog next);
  if negb saved then mret FLY_RESULT_INTERNAL_ERROR else set_catalog next;; mret FLY_RESULT_OK.

(** ** Calls *)

Definition fly_app_create (config : option fly_app_config) : M World fly_result :=
  let validation := validate_config config in
  if decide (validation <> FLY_RESULT_OK) then mret validation
  else
    loaded ← on_disk load_catalog;
    stored ← on_disk load_settings;
    modify (fun w => w <| app := Some (mkApp loaded stored) |> <| launches := S (launches w) |>);;
    mret FLY_RESULT_OK.

Definition fly_app_destroy : M World unit := modify (fun w => w <| app := None |>).

Definition fly_scan_begin (config : option fly_scan_config) : M World fly_result :=
  state ← gets app;
  match state, config with
  | Some state, Some c =>
    let validation := validate_scan_config config in
    if decide (validation <> FLY_RESULT_OK) then mret validation
    else
      let source := mkKey (take 16 (config_uuid c)) (config_scope c) in
      if source_scope_conflicts (catalog state) source then mret FLY_RESULT_CONFLICT
      else
        modify (fun w => w <| scans := scans w ++ [mkScanHandle (launches w) source (generation (catalog state)) [] false false] |>);;
        mret FLY_RESULT_OK
  | _, _ => mret FLY_RESULT_INVALID_ARGUMENT
  end.

Section Scanning.
Context `{Scanner}.

Definition fly_scan_add_file (handle : nat) (file : option fly_scan_file) : M World fly_result :=
  scan ← gets (fun w => scans w !! handle);
  match scan, file with
  | Some scan, Some f =>
    let validation := validate_scan_file file in
    if decide (validation <> FLY_RESULT_OK) then mret validation
    else if closed scan || poisoned scan then mret FLY_RESULT_INVALID_STATE
    else
      state ← gets (lock_app scan);
      if negb (bool_decide (is_Some state)) then set_scan handle (fun s => s <| closed := true |>);; mret FLY_RESULT_INVALID_STATE
      else if has_candidate_path (candidates scan) (default [] (file_path f)) then mret FLY_RESULT_INVALID_ARGUMENT
      else
        match scan_candidate (scan_source scan) f with
        | None => set_scan handle (fun s => s <| poisoned := true |>);; mret FLY_RESULT_INTERNAL_ERROR
        | Some candidate => set_scan handle (fun s => s <| candidates := candidates s ++ [candidate] |>);; mret FLY_RESULT_OK
        end
  | _, _ => mret FLY_RESULT_INVALID_ARGUMENT
  end.

End Scanning.

Definition fly_scan_commit (handle : nat) (final_completeness : Z) : M World fly_result :=
  scan ← gets (fun w => scans w !! handle);
  match scan with
  | None => mret FLY_RESULT_INVALID_ARGUMENT
  | Some scan =>
    if negb (is_valid_completeness final_completeness) then mret FLY_RESULT_INVALID_ARGUMENT
    else if closed scan || poisoned scan then mret FLY_RESULT_INVALID_STATE
    else
      set_scan handle (fun s => s <| closed := true |>);;
      state ← gets (lock_app scan);
      match state with
      | None => mret FLY_RESULT_INVALID_STATE
      | Some state =>
        if negb (generation (catalog state) =? base_generation scan) then mret FLY_RESULT_CONFLICT
        else
          match reconcile_catalog (catalog state) (scan_source scan) final_completeness (candidates scan) with
          | None => mret FLY_RESULT_INTERNAL_ERROR
          | Some next => commit_catalog next
          end
      end
  end.

Definition fly_catalog_favorite_set (id : option bytes) (favored : Z) : M World fly_result :=
  state ← gets app;
  match state with
  | None => mret FLY_RESULT_INVALID_ARGUMENT
  | Some state =>
    if negb (favored =? 0) && negb (favored =? 1) then mret FLY_RESULT_INVALID_ARGUMENT
    else
      let id_validation := validate_canonical_id id in
      if decide (id_validation <> FLY_RESULT_OK) then mret id_validation
      else
        let next := catalog state in
        if next_favorite_revision next =? u64_max then mret FLY_RESULT_INTERNAL_ERROR
        else
          let revision := next_favorite_revision next + 1 in
          commit_catalog
            (next <| users := upsert_user (users next) (default [] id)
                                (fun u => u <| favorite := (favored =? 1) |> <| favorite_revision := revision |>) |>
                  <| next_favorite_revision := revision |>)
  end.

Definition fly_catalog_mark_played (id : option bytes) : M World fly_result :=
  state ← gets app;
  match state with
  | None => mret FLY_RESULT_INVALID_ARGUMENT
  | Some state =>
    let id_validation := validate_canonical_id id in
    if decide (id_validation <> FLY_RESULT_OK) then mret id_validation
    else
      let next := catalog state in
      if next_play_sequence next =? u64_max then mret FLY_RESULT_INTERNAL_ERROR
      else if play_count (default (user_new (default [] id)) (find_user next (default [] id))) =? u32_max then
        mret FLY_RESULT_INTERNAL_ERROR
      else
        let sequence := next_play_sequence next + 1 in
        commit_catalog
          (next <| users := upsert_user (users next) (default [] id)
                              (fun u => u <| play_count := play_count u + 1 |> <| last_played_sequence := sequence |>) |>
                <| next_play_sequence := sequence |>)
  end.

Definition remove_source (current : CatalogData) (target : SourceKey) : CatalogData :=
  mkCatalog (generation current + 1) (List.filter (fun e => negb (same_source (entry_source e) target)) (entries current))
    (List.filter (fun s => negb (same_source (source_key s) target)) (sources current)) (users current)
    (next_favorite_revision current) (next_play_sequence current).

Definition fly_source_remove (source_uuid : option bytes) (source_scope : Z) : M World fly_result :=
  state ← gets app;
  match state, source_uuid with
  | Some state, Some id =>
    if is_zero_uuid id || negb (is_valid_scope source_scope) then mret FLY_RESULT_INVALID_ARGUMENT
    else if source_scope =? FLY_SOURCE_SCOPE_BUILTIN then mret FLY_RESULT_FORBIDDEN
    else
      let target := mkKey (take 16 id) source_scope in
      let current := catalog state in
      if negb (existsb (fun s => same_source (source_key s) target) (sources current)) then mret FLY_RESULT_NOT_FOUND
      else if generation current =? u64_max then mret FLY_RESULT_INTERNAL_ERROR
      else commit_catalog (remove_source current target)
  | _, _ => mret FLY_RESULT_INVALID_ARGUMENT
  end.

(** ** Reads *)

Record fly_catalog_user_state := mkUserState { state_favorite : Z; state_play_count : Z; state_revision : Z; state_sequence : Z }.

Definition fly_catalog_user_state_get (id : option bytes) : M World (fly_result * option fly_catalog_user_state) :=
  state ← gets app;
  match state with
  | None => mret (FLY_RESULT_INVALID_ARGUMENT, None)
  | Some state =>
    let id_validation := validate_canonical_id id in
    if decide (id_validation <> FLY_RESULT_OK) then mret (id_validation, None)
    else
      match find_user (catalog state) (default [] id) with
      | Some u =>
        mret (FLY_RESULT_OK,
              Some (mkUserState (if favorite u then 1 else 0) (play_count u) (favorite_revision u) (last_played_sequence u)))
      | None => mret (FLY_RESULT_OK, Some (mkUserState 0 0 0 0))
      end
  end.

Definition fly_source_status_count : M World (fly_result * Z) :=
  state ← gets app;
  mret (match state with
        | None => (FLY_RESULT_INVALID_ARGUMENT, 0)
        | Some state => (FLY_RESULT_OK, zlen (sources (catalog state)))
        end).

Record fly_source_status := mkStatus { status_source : SourceKey; status_completeness : Z; status_freshness : Z }.

Definition fly_source_status_get (index : Z) : M World (fly_result * option fly_source_status) :=
  state ← gets app;
  mret (match state with
        | None => (FLY_RESULT_INVALID_ARGUMENT, None)
        | Some state =>
          match sources (catalog state) !! Z.to_nat index with
          | None => (FLY_RESULT_OUT_OF_RANGE, None)
          | Some source =>
            (FLY_RESULT_OK,
             Some (mkStatus (source_key source) (last_completeness source)
                     (source_freshness_summary (catalog state) (source_key source))))
          end
        end).

(** ** Settings *)

Definition FLY_SETTINGS_SNAPSHOT_V1_SIZE : Z := 120.
Definition FLY_SETTINGS_LOCALE_MAX_UTF8_BYTES : Z := 128.

Record fly_settings_snapshot := mkSnapshot {
  snapshot_size : Z;
  snapshot_version : Z;
  snapshot_values : SettingsData;
  locale_tag_utf8 : option bytes;
  last_played_id_utf8 : option bytes;
}.

(** The comparisons of IEEE single precision on the bits: not-a-number compares false, and the others are in the order of
    sign and magnitude. *)
Definition is_nan (bits : Z) : bool := 0x7F800000 <? Z.land bits 0x7FFFFFFF.
Definition float_order (bits : Z) : Z := if Z.testbit bits 31 then - Z.land bits 0x7FFFFFFF else bits.

Definition in_closed_range (value minimum maximum : Z) : bool :=
  negb (is_nan value) && (float_order minimum <=? float_order value) && (float_order value <=? float_order maximum).

(** 0.80, 1.40; -0.25, 0.25; 0.40, 1.00; 0.80, 1.40; 0.08, 0.45. *)
Definition BUTTON_SCALE : Z * Z := (0x3F4CCCCD, 0x3FB33333).
Definition VERTICAL_OFFSET : Z * Z := (0xBE800000, 0x3E800000).
Definition CONTROL_OPACITY : Z * Z := (0x3ECCCCCD, 0x3F800000).
Definition JOYSTICK_SCALE : Z * Z := (0x3F4CCCCD, 0x3FB33333).
Definition DEAD_ZONE : Z * Z := (0x3DA3D70A, 0x3EE66666).

Definition in_range (value : Z) (range : Z * Z) : bool := in_closed_range value range.1 range.2.
Definition between (value low high : Z) : bool := (low <=? value) && (value <=? high).
Definition is_flag (value : Z) : bool := (value =? 0) || (value =? 1).

(** The enumerations, first to last member. *)
Definition valid_choices (s : SettingsData) : bool :=
  between (aspect_mode s) 1 3 && between (video_quality_preset s) 1 4 && between (custom_refresh_policy s) 1 5 &&
  between (custom_temporal_mode s) 1 2 && between (custom_spatial_mode s) 1 4 && between (custom_post_effect s) 1 2 &&
  between (layout_preset s) 1 2 && between (direction_mode s) 1 3 && between (haptic_level s) 1 4 &&
  between (audio_focus_policy s) 1 3.

Definition valid_flags (s : SettingsData) : bool :=
  is_flag (adaptive_protection s) && is_flag (distinct_ab_haptics s) && is_flag (audio_enabled s) && is_flag (autosave_enabled s).

Definition valid_scales (s : SettingsData) : bool :=
  in_range (button_scale s) BUTTON_SCALE && in_range (vertical_offset s) VERTICAL_OFFSET &&
  in_range (control_opacity s) CONTROL_OPACITY && in_range (joystick_scale s) JOYSTICK_SCALE && in_range (dead_zone s) DEAD_ZONE.

Definition validate_settings_snapshot (snapshot : fly_settings_snapshot) : fly_result :=
  if snapshot_size snapshot <? FLY_SETTINGS_SNAPSHOT_V1_SIZE then FLY_RESULT_STRUCT_TOO_SMALL
  else if negb (snapshot_version snapshot =? 1) then FLY_RESULT_UNSUPPORTED_VERSION
  else if negb (valid_choices (snapshot_values snapshot)) then FLY_RESULT_INVALID_ARGUMENT
  else if negb (valid_flags (snapshot_values snapshot)) then FLY_RESULT_INVALID_ARGUMENT
  else if negb (valid_scales (snapshot_values snapshot)) then FLY_RESULT_INVALID_ARGUMENT
  else if negb (is_valid_utf8 (locale_tag_utf8 snapshot) FLY_SETTINGS_LOCALE_MAX_UTF8_BYTES) then FLY_RESULT_INVALID_ARGUMENT
  else if negb (zlen (default [] (last_played_id_utf8 snapshot)) =? 0) &&
          negb (is_valid_utf8 (last_played_id_utf8 snapshot) FLY_CANONICAL_ID_MAX_UTF8_BYTES) then FLY_RESULT_INVALID_ARGUMENT
  else FLY_RESULT_OK.

(** The numbers are copied, the strings taken from their own arguments. *)
Definition settings_from_snapshot (snapshot : fly_settings_snapshot) : SettingsData :=
  let s := snapshot_values snapshot in
  mkSettings (aspect_mode s) (video_quality_preset s) (custom_refresh_policy s) (custom_temporal_mode s) (custom_spatial_mode s)
    (custom_post_effect s) (adaptive_protection s) (layout_preset s) (direction_mode s) (button_scale s) (vertical_offset s)
    (control_opacity s) (joystick_scale s) (dead_zone s) (haptic_level s) (distinct_ab_haptics s) (audio_enabled s)
    (audio_focus_policy s) (autosave_enabled s) (default [] (locale_tag_utf8 snapshot)) (default [] (last_played_id_utf8 snapshot)).

Definition fly_settings_apply (snapshot : option fly_settings_snapshot) : M World fly_result :=
  state ← gets app;
  match state, snapshot with
  | Some _, Some snapshot =>
    let validation := validate_settings_snapshot snapshot in
    if decide (validation <> FLY_RESULT_OK) then mret validation
    else
      let next := settings_from_snapshot snapshot in
      saved ← on_disk (save_settings next);
      if negb saved then mret FLY_RESULT_INTERNAL_ERROR else set_settings next;; mret FLY_RESULT_OK
  | _, _ => mret FLY_RESULT_INVALID_ARGUMENT
  end.

(** ** Runs

    The calls of an application's life, with a fate for every system call; a crash cuts a
    call at any content of the directory it shows, and what follows starts a new
    process.  The status queries of the file system are answered. *)

Inductive call :=
  | Create (config : option fly_app_config)
  | Destroy
  | ScanBegin (config : option fly_scan_config)
  | ScanAdd (handle : nat) (file : option fly_scan_file)
  | ScanCommit (handle : nat) (completeness : Z)
  | FavoriteSet (id : option bytes) (favored : Z)
  | MarkPlayed (id : option bytes)
  | SourceRemove (id : option bytes) (source_scope : Z)
  | SettingsApply (snapshot : option fly_settings_snapshot).

Section Runs.
Context `{Scanner}.

Definition perform (c : call) : M World fly_result :=
  match c with
  | Create config => fly_app_create config
  | Destroy => fly_app_destroy;; mret FLY_RESULT_OK
  | ScanBegin config => fly_scan_begin config
  | ScanAdd handle file => fly_scan_add_file handle file
  | ScanCommit handle completeness => fly_scan_commit handle completeness
  | FavoriteSet id favored => fly_catalog_favorite_set id favored
  | MarkPlayed id => fly_catalog_mark_played id
  | SourceRemove id source_scope => fly_source_remove id source_scope
  | SettingsApply snapshot => fly_settings_apply snapshot
  end.

(** A call made with these fates ahead. *)
Definition run (c : call) (fs : list fate) (w : World) : fly_result * World :=
  perform c (w <| disk := mkDisk (files (disk w)) fs [] [] |>).

(** Arguments have the sizes of their types. *)
Definition call_ok (c : call) : Prop :=
  match c with
  | ScanBegin (Some config) => zlen (config_uuid config) = 16
  | ScanAdd _ (Some file) => is_bytes (content (borrowed_fd file))
  | SettingsApply (Some snapshot) =>
      let s := snapshot_values snapshot in
      Forall (unsigned 32) [button_scale s; vertical_offset s; control_opacity s; joystick_scale s; dead_zone s]
  | _ => True
  end.

(** One application at a time is open on a directory, and it starts without failures: a load that fails takes the
    catalogue for empty ([unreadable_start_loses_catalogue]). *)
Definition may_call (c : call) (fs : list fate) (w : World) : Prop :=
  call_ok c /\ match c with Create _ => app w = None /\ fs = [] | _ => True end.

Inductive step : World -> World -> Prop :=
  | step_call w c fs : may_call c fs w -> step w (run c fs w).2
  | step_crash w c fs d :
      may_call c fs w -> d ∈ files (disk w) :: shown (disk (run c fs w).2) -> step w (mkWorld None (launches w) [] (calm d)).

Inductive reachable (w0 : World) : World -> Prop :=
  | reach_start : reachable w0 w0
  | reach_step w w' : reachable w0 w -> step w w' -> reachable w0 w'.

End Runs.

(** ** Invariants *)

(** The catalogue: values in range, one row per source, every entry from a registered source, one row per user key, and
    no row ahead of the counters or sharing a revision with another. *)
Record catalog_ok (c : CatalogData) : Prop := {
  ok_fits : catalog_fits c;
  ok_sources : NoDup ((fun s => uuid (source_key s)) <$> sources c);
  ok_entries : Forall (fun e => entry_source e ∈ source_key <$> sources c) (entries c);
  ok_users : NoDup (user_id <$> users c);
  ok_counters : Forall (fun u => favorite_revision u <= next_favorite_revision c /\
                                 last_played_sequence u <= next_play_sequence c) (users c);
  ok_revisions u v : u ∈ users c -> v ∈ users c -> favorite_revision u = favorite_revision v -> favorite_revision u <> 0 -> u = v;
  ok_sequences u v : u ∈ users c -> v ∈ users c -> last_played_sequence u = last_played_sequence v ->
    last_played_sequence u <> 0 -> u = v;
}.

(** A candidate has entries of its own path and source, and none unless it is indexed. *)
Record candidate_ok (source : SourceKey) (c : CandidateRecord) : Prop := {
  ok_candidate_entries : Forall (fun e => entry_fits e /\ entry_source e = source /\ source_relative_path e = candidate_path c)
    (candidate_entries c);
  ok_candidate_disposition : disposition c <> INDEXED -> candidate_entries c = [];
}.

(** What a scanner promises: candidates of the file's path that fit. *)
Class ScannerSound `{Scanner} : Prop := {
  scan_candidate_ok source file candidate :
    key_fits source -> is_bytes (content (borrowed_fd file)) -> scan_candidate source file = Some candidate ->
    candidate_ok source candidate /\ candidate_path candidate = default [] (file_path file);
}.

(** A scan of the current application: it agrees with the registry as long as the generation stands. *)
Record scan_ok (c : CatalogData) (s : Scan) : Prop := {
  ok_scan_source : key_fits (scan_source s);
  ok_scan_base : base_generation s <= generation c;
  ok_scan_conflict : base_generation s = generation c -> source_scope_conflicts c (scan_source s) = false;
  ok_scan_paths : NoDup (candidate_path <$> candidates s);
  ok_scan_candidates : Forall (candidate_ok (scan_source s)) (candidates s);
}.

Definition directory_ok (d : gmap string (list Z)) : Prop := catalog_ok (catalog_on d) /\ settings_fit (settings_on d).

Record world_ok (w : World) : Prop := {
  ok_directory : directory_ok (files (disk w));
  ok_owners : Forall (fun s => (owner s <= launches w)%nat) (scans w);
  ok_app s : app w = Some s -> catalog s = catalog_on (files (disk w)) /\ settings s = settings_on (files (disk w));
  ok_scans s : app w = Some s -> Forall (fun scan => owner scan = launches w -> scan_ok (catalog s) scan) (scans w);
}.

(** ** The disk *)

Lemma save_catalog_settings c d fs :
  let w := (save_catalog c (mkDisk d fs [] [])).2 in
  settings_on (files w) = settings_on d /\ Forall (fun crash => settings_on crash = settings_on d) (shown w).
Proof.
  unfold save_catalog. destruct (encode_file c) as [file|]; [| by split; [| constructor]]. cbv zeta.
  destruct (publish_elsewhere CatalogPersist.live_path CatalogPersist.tmp_path CatalogPersist.bak_path file d fs
    SettingsPersist.live_path) as [H1 H2]; [by apply (bool_decide_unpack _) |].
  destruct (publish_elsewhere CatalogPersist.live_path CatalogPersist.tmp_path CatalogPersist.bak_path file d fs
    SettingsPersist.bak_path) as [H3 H4]; [by apply (bool_decide_unpack _) |].
  assert (forall d', d' !! SettingsPersist.live_path = d !! SettingsPersist.live_path ->
    d' !! SettingsPersist.bak_path = d !! SettingsPersist.bak_path -> settings_on d' = settings_on d) as Hsame.
  { intros d' E1 E2. rewrite !settings_on_current. unfold current. by rewrite E1, E2. }
  split; [by apply Hsame |]. apply Forall_forall. intros crash Hc. rewrite Forall_forall in H2, H4. auto.
Qed.

Lemma save_settings_catalog s d fs :
  let w := (save_settings s (mkDisk d fs [] [])).2 in
  catalog_on (files w) = catalog_on d /\ Forall (fun crash => catalog_on crash = catalog_on d) (shown w).
Proof.
  unfold save_settings. destruct (SettingsPersist.encode_file s) as [file|]; [| by split; [| constructor]]. cbv zeta.
  destruct (publish_elsewhere SettingsPersist.live_path SettingsPersist.tmp_path SettingsPersist.bak_path file d fs
    CatalogPersist.live_path) as [H1 H2]; [by apply (bool_decide_unpack _) |].
  destruct (publish_elsewhere SettingsPersist.live_path SettingsPersist.tmp_path SettingsPersist.bak_path file d fs
    CatalogPersist.bak_path) as [H3 H4]; [by apply (bool_decide_unpack _) |].
  assert (forall d', d' !! CatalogPersist.live_path = d !! CatalogPersist.live_path ->
    d' !! CatalogPersist.bak_path = d !! CatalogPersist.bak_path -> catalog_on d' = catalog_on d) as Hsame.
  { intros d' E1 E2. rewrite !catalog_on_current. unfold current. by rewrite E1, E2. }
  split; [by apply Hsame |]. apply Forall_forall. intros crash Hc. rewrite Forall_forall in H2, H4. auto.
Qed.

(** ** Lists *)

Lemma filter_sublist {A} (f : A -> bool) l : List.filter f l `sublist_of` l.
Proof. induction l as [|a l IH]; [constructor |]. cbn [List.filter]. by destruct (f a); constructor. Qed.

Lemma filter_Forall {A} (P : A -> Prop) (f : A -> bool) l : Forall P l -> Forall (fun a => P a /\ f a = true) (List.filter f l).
Proof. induction 1 as [|a l Ha _ IH]; [constructor |]. cbn [List.filter]. destruct (f a) eqn:E; [by constructor | done]. Qed.

Lemma filter_Forall_1 {A} (P : A -> Prop) (f : A -> bool) l : Forall P l -> Forall P (List.filter f l).
Proof. intros H. eapply Forall_impl; [by apply (filter_Forall P f) |]. by intros ? []. Qed.

Lemma existsb_elem {A} (f : A -> bool) l : existsb f l = true <-> exists a, a ∈ l /\ f a = true.
Proof.
  rewrite existsb_exists. split; intros (a & Ha & H); exists a; (split; [| done]); by apply list_elem_of_In.
Qed.

Lemma existsb_false {A} (f : A -> bool) l : existsb f l = false <-> forall a, a ∈ l -> f a = false.
Proof.
  split.
  - intros H a Ha. destruct (f a) eqn:E; [| done]. assert (existsb f l = true) by (apply existsb_elem; eauto). congruence.
  - intros H. destruct (existsb f l) eqn:E; [| done]. apply existsb_elem in E as (a & Ha & E). rewrite H in E; done.
Qed.

Lemma insert_entry_perm e l : insert_entry e l ≡ₚ e :: l.
Proof.
  induction l as [|h l IH]; [done |]. cbn [insert_entry]. destruct (entry_order h e); [| done].
  rewrite IH. apply Permutation_swap.
Qed.

Lemma sort_entries_perm l : sort_entries l ≡ₚ l.
Proof. induction l as [|e l IH]; [done |]. cbn [sort_entries foldr]. by rewrite insert_entry_perm, IH. Qed.

Lemma same_source_spec a b : same_source a b = true <-> a = b.
Proof.
  unfold same_source. destruct a as [ua sa], b as [ub sb]. cbn [scope uuid]. rewrite andb_true_iff, Z.eqb_eq, bool_decide_eq_true.
  split; [by intros [-> ->] | by intros [= -> ->]].
Qed.

(** ** User records *)

Definition user_or_new (users : list UserRecord) (id : bytes) : UserRecord :=
  default (user_new id) (List.find (fun u => bool_decide (user_id u = id)) users).

Section Users.
Context (id : bytes) (write : UserRecord -> UserRecord).
Hypothesis write_id : forall u, user_id (write u) = user_id u.

Lemma upsert_user_ids users :
  user_id <$> upsert_user users id write =
  if bool_decide (id ∈ user_id <$> users) then user_id <$> users else (user_id <$> users) ++ [id].
Proof using write_id.
  induction users as [|u users IH].
  - cbn [upsert_user fmap list_fmap]. rewrite bool_decide_false by set_solver. by rewrite write_id.
  - cbn [upsert_user]. destruct (decide (user_id u = id)) as [E | E].
    + rewrite bool_decide_true by done. rewrite fmap_cons, write_id. rewrite bool_decide_true; [done |].
      rewrite fmap_cons, <- E. apply list_elem_of_here.
    + rewrite (bool_decide_false (user_id u = id)) by done. rewrite !fmap_cons, IH.
      destruct (decide (id ∈ user_id <$> users)) as [Hin | Hin].
      * rewrite !bool_decide_true; [done | by apply list_elem_of_further | done].
      * rewrite !bool_decide_false; [done | | done]. rewrite elem_of_cons. intros [? | ?]; congruence.
Qed.

Lemma upsert_user_nodup users : NoDup (user_id <$> users) -> NoDup (user_id <$> upsert_user users id write).
Proof using write_id.
  intros H. rewrite upsert_user_ids. destruct (bool_decide _) eqn:E; bool_hyps; [done |].
  apply NoDup_app. split_and!; [done | | apply NoDup_singleton]. intros x Hx Hx'. apply list_elem_of_singleton in Hx' as ->. done.
Qed.

(** A record after the write: another user's, or the written one. *)
Lemma upsert_user_elem users u :
  NoDup (user_id <$> users) -> u ∈ upsert_user users id write ->
  (u ∈ users /\ user_id u <> id) \/ u = write (user_or_new users id).
Proof using Type.
  unfold user_or_new. induction users as [|v users IH]; intros Hdup Hu; cbn [upsert_user List.find] in *.
  - apply list_elem_of_singleton in Hu as ->. by right.
  - rewrite fmap_cons in Hdup. apply NoDup_cons in Hdup as [Hv Hdup].
    destruct (decide (user_id v = id)) as [E | E].
    + rewrite bool_decide_true in Hu |- * by done. apply elem_of_cons in Hu as [-> | Hu]; [by right |].
      left. split; [by apply list_elem_of_further |]. intros Eu. apply Hv. rewrite E, <- Eu. by apply list_elem_of_fmap_2.
    + rewrite bool_decide_false in Hu |- * by done. apply elem_of_cons in Hu as [-> | Hu].
      * left. split; [apply list_elem_of_here | done].
      * destruct (IH Hdup Hu) as [[Hin Hne] | ->]; [left; split; [by apply list_elem_of_further | done] | by right].
Qed.

Lemma upsert_user_Forall (P : UserRecord -> Prop) users :
  Forall P users -> P (write (user_or_new users id)) -> Forall P (upsert_user users id write).
Proof using Type.
  unfold user_or_new. induction 1 as [|v users Hv Hall IH]; intros Hw; cbn [upsert_user List.find] in *.
  - by constructor.
  - destruct (bool_decide (user_id v = id)); constructor; auto.
Qed.

End Users.

Lemma user_or_new_cases users id :
  (user_or_new users id ∈ users /\ user_id (user_or_new users id) = id) \/ user_or_new users id = user_new id.
Proof.
  unfold user_or_new. destruct (List.find _ users) as [u|] eqn:E; [left | by right].
  apply List.find_some in E as [Hin E]. bool_hyps. split; [by apply list_elem_of_In | done].
Qed.

Lemma user_or_new_id users id : user_id (user_or_new users id) = id.
Proof. by destruct (user_or_new_cases users id) as [[_ ?] | ->]. Qed.

Lemma user_or_new_Forall (P : UserRecord -> Prop) users id : Forall P users -> P (user_new id) -> P (user_or_new users id).
Proof.
  intros Hall Hnew. destruct (user_or_new_cases users id) as [[Hin _] | ->]; [| done]. by rewrite Forall_forall in Hall; apply Hall.
Qed.

(** ** The operations keep the catalogue well formed *)

Definition favor (c : CatalogData) (id : bytes) (favored : bool) : CatalogData :=
  let revision := next_favorite_revision c + 1 in
  c <| users := upsert_user (users c) id (fun u => u <| favorite := favored |> <| favorite_revision := revision |>) |>
    <| next_favorite_revision := revision |>.

Definition play (c : CatalogData) (id : bytes) : CatalogData :=
  let sequence := next_play_sequence c + 1 in
  c <| users := upsert_user (users c) id (fun u => u <| play_count := play_count u + 1 |> <| last_played_sequence := sequence |>) |>
    <| next_play_sequence := sequence |>.

Lemma unsigned_next v : unsigned 64 v -> v <> u64_max -> unsigned 64 (v + 1).
Proof. unfold unsigned, u64_max. lia. Qed.

Lemma user_new_fits id : user_fits (user_new id).
Proof. unfold user_fits, user_new, unsigned. cbn. lia. Qed.

(** Distinct rows keep distinct numbers when one row takes a fresh number, larger than all, or keeps its own. *)
Lemma upsert_numbers (number : UserRecord -> Z) id write users bound :
  (forall u, user_id (write u) = user_id u) -> number (user_new id) = 0 -> NoDup (user_id <$> users) ->
  (forall u v, u ∈ users -> v ∈ users -> number u = number v -> number u <> 0 -> u = v) ->
  Forall (fun u => number u <= bound) users ->
  (forall u, number (write u) = bound + 1) \/ (forall u, number (write u) = number u) ->
  forall u v, u ∈ upsert_user users id write -> v ∈ upsert_user users id write -> number u = number v -> number u <> 0 -> u = v.
Proof.
  intros Hid Hnew Hdup Hdistinct Hbound Hwrite.
  assert (forall u, u ∈ users -> user_id u <> id -> number u = number (write (user_or_new users id)) -> number u <> 0 -> False) as Hmixed.
  { intros u Hu Hne E Hz. rewrite Forall_forall in Hbound. specialize (Hbound u Hu). cbn beta in Hbound.
    destruct Hwrite as [Hw | Hw]; rewrite Hw in E; [lia |].
    destruct (user_or_new_cases users id) as [[Hin Ei] | E']; [| rewrite E', Hnew in E; lia].
    apply Hne. by rewrite (Hdistinct u (user_or_new users id)). }
  intros u v Hu Hv E Hz. apply upsert_user_elem in Hu, Hv; [| done | done].
  destruct Hu as [[Hu Hune] | ->], Hv as [[Hv Hvne] | ->]; [by apply Hdistinct | | | done]; exfalso.
  - by apply (Hmixed u).
  - apply (Hmixed v); [done | done | by symmetry | congruence].
Qed.

Lemma favor_ok c id favored : catalog_ok c -> next_favorite_revision c <> u64_max -> catalog_ok (favor c id favored).
Proof.
  intros [[Hg Hf Hp Hs He Hu] Hsrc Hent Husers Hcount Hrev Hseq] Hmax.
  pose proof (unsigned_next _ Hf Hmax) as Hnext.
  set (write := fun u => u <| favorite := favored |> <| favorite_revision := next_favorite_revision c + 1 |>).
  assert (forall u, user_id (write u) = user_id u) as Hid by done.
  assert (user_fits (user_or_new (users c) id)) as Hold by (by apply user_or_new_Forall; [| apply user_new_fits]).
  assert (Forall (fun u => favorite_revision u <= next_favorite_revision c) (users c)) as Hr by (eapply Forall_impl; [exact Hcount |]; by intros ? []).
  assert (Forall (fun u => last_played_sequence u <= next_play_sequence c) (users c)) as Hq by (eapply Forall_impl; [exact Hcount |]; by intros ? []).
  constructor; unfold favor; cbn [users next_favorite_revision next_play_sequence sources entries generation over].
  - constructor; try done. change (Forall user_fits (upsert_user (users c) id write)).
    apply upsert_user_Forall; [done |]. destruct Hold as (_ & Hs' & Hc'). by split_and!.
  - done.
  - done.
  - by apply (upsert_user_nodup id write).
  - apply (upsert_user_Forall id write).
    + eapply Forall_impl; [exact Hcount |]. intros u [H1 H2]. change (favorite_revision u <= next_favorite_revision c + 1 /\ last_played_sequence u <= next_play_sequence c). lia.
    + change (next_favorite_revision c + 1 <= next_favorite_revision c + 1 /\
        last_played_sequence (user_or_new (users c) id) <= next_play_sequence c). split; [lia |].
      apply (user_or_new_Forall (fun u => last_played_sequence u <= next_play_sequence c)); [done |]. cbn. unfold unsigned in Hp. lia.
  - apply (upsert_numbers favorite_revision id write (users c) (next_favorite_revision c)); try done. by left.
  - apply (upsert_numbers last_played_sequence id write (users c) (next_play_sequence c)); try done. by right.
Qed.

Lemma play_ok c id :
  catalog_ok c -> next_play_sequence c <> u64_max -> play_count (user_or_new (users c) id) <> u32_max -> catalog_ok (play c id).
Proof.
  intros [[Hg Hf Hp Hs He Hu] Hsrc Hent Husers Hcount Hrev Hseq] Hmax Hplays.
  pose proof (unsigned_next _ Hp Hmax) as Hnext.
  set (write := fun u => u <| play_count := play_count u + 1 |> <| last_played_sequence := next_play_sequence c + 1 |>).
  assert (forall u, user_id (write u) = user_id u) as Hid by done.
  assert (user_fits (user_or_new (users c) id)) as Hold by (by apply user_or_new_Forall; [| apply user_new_fits]).
  assert (Forall (fun u => favorite_revision u <= next_favorite_revision c) (users c)) as Hr by (eapply Forall_impl; [exact Hcount |]; by intros ? []).
  assert (Forall (fun u => last_played_sequence u <= next_play_sequence c) (users c)) as Hq by (eapply Forall_impl; [exact Hcount |]; by intros ? []).
  constructor; unfold play; cbn [users next_favorite_revision next_play_sequence sources entries generation over].
  - constructor; try done. change (Forall user_fits (upsert_user (users c) id write)).
    apply upsert_user_Forall; [done |]. destruct Hold as (Hr' & _ & Hc').
    change (unsigned 64 (favorite_revision (user_or_new (users c) id)) /\ unsigned 64 (next_play_sequence c + 1) /\
      unsigned 32 (play_count (user_or_new (users c) id) + 1)).
    split_and!; [done | done |]. unfold unsigned, u32_max in *. lia.
  - done.
  - done.
  - by apply (upsert_user_nodup id write).
  - apply (upsert_user_Forall id write).
    + eapply Forall_impl; [exact Hcount |]. intros u [H1 H2]. change (favorite_revision u <= next_favorite_revision c /\ last_played_sequence u <= next_play_sequence c + 1). lia.
    + change (favorite_revision (user_or_new (users c) id) <= next_favorite_revision c /\
        next_play_sequence c + 1 <= next_play_sequence c + 1). split; [| lia].
      apply (user_or_new_Forall (fun u => favorite_revision u <= next_favorite_revision c)); [done |]. cbn. unfold unsigned in Hf. lia.
  - apply (upsert_numbers favorite_revision id write (users c) (next_favorite_revision c)); try done. by right.
  - apply (upsert_numbers last_played_sequence id write (users c) (next_play_sequence c)); try done. by left.
Qed.

Lemma remove_ok c target : catalog_ok c -> generation c <> u64_max -> catalog_ok (remove_source c target).
Proof.
  intros [[Hg Hf Hp Hs He Hu] Hsrc Hent Husers Hcount Hrev Hseq] Hmax.
  constructor; unfold remove_source; cbn [users next_favorite_revision next_play_sequence sources entries generation]; try done.
  - constructor; cbn [users next_favorite_revision next_play_sequence sources entries generation]; try done;
      [by apply unsigned_next | by apply filter_Forall_1 | by apply filter_Forall_1].
  - eapply sublist_NoDup; [exact Hsrc |]. apply fmap_sublist, filter_sublist.
  - apply filter_Forall with (f := fun e => negb (same_source (entry_source e) target)) in Hent.
    eapply Forall_impl; [exact Hent |]. intros e [Hin Hne]. cbn beta in *. apply negb_true_iff in Hne.
    apply list_elem_of_fmap in Hin as (s & E & Hs'). apply list_elem_of_fmap. exists s. split; [done |].
    apply list_elem_of_In, List.filter_In. split; [by apply list_elem_of_In |]. by rewrite <- E, Hne.
Qed.

(** *** Reconciling a scan *)

Lemma conflicts_false c source s :
  source_scope_conflicts c source = false -> s ∈ sources c -> uuid (source_key s) = uuid source -> source_key s = source.
Proof.
  intros H Hs E. unfold source_scope_conflicts in H. rewrite existsb_false in H. specialize (H s Hs). cbn beta in H.
  rewrite bool_decide_true in H by done. cbn [andb] in H. bool_hyps. destruct (source_key s), source. cbn in *. by subst.
Qed.

(** Without a conflict the registry keeps its keys, or gains one. *)
Lemma upsert_source_keys l source completeness :
  (forall s, s ∈ l -> uuid (source_key s) = uuid source -> source_key s = source) ->
  source_key <$> upsert_source l source completeness =
  if bool_decide (source ∈ source_key <$> l) then source_key <$> l else (source_key <$> l) ++ [source].
Proof.
  induction l as [|s l IH]; intros Hl; cbn [upsert_source].
  - rewrite bool_decide_false by set_solver. done.
  - destruct (decide (uuid (source_key s) = uuid source)) as [E | E].
    + assert (source_key s = source) as Es by (apply Hl; [apply list_elem_of_here | done]).
      rewrite bool_decide_true by done. rewrite !fmap_cons, bool_decide_true.
      2:{ rewrite <- Es. apply list_elem_of_here. }
      f_equal. cbn [source_key]. rewrite Es. by destruct source.
    + rewrite (bool_decide_false (uuid (source_key s) = uuid source)) by done. rewrite !fmap_cons, IH.
      2:{ intros s' Hs'. apply Hl. by apply list_elem_of_further. }
      assert (source_key s <> source) as Hne by congruence.
      destruct (decide (source ∈ source_key <$> l)) as [Hin | Hin].
      * rewrite !bool_decide_true; [done | by apply list_elem_of_further | done].
      * rewrite !bool_decide_false; [done | | done]. rewrite elem_of_cons. intros [? | ?]; congruence.
Qed.

Lemma upsert_source_Forall (P : SourceRecord -> Prop) l source completeness :
  Forall P l -> P (mkSource source completeness) -> Forall P (upsert_source l source completeness).
Proof.
  intros Hl Hp. induction Hl as [|s l Hs Hl IH]; cbn [upsert_source]; [by constructor |].
  destruct (decide (uuid (source_key s) = uuid source)) as [E | E];
    [rewrite bool_decide_true by done | rewrite bool_decide_false by done]; constructor; auto.
  rewrite E. by destruct source.
Qed.

Lemma upsert_source_nodup l source completeness :
  NoDup ((fun s => uuid (source_key s)) <$> l) -> NoDup ((fun s => uuid (source_key s)) <$> upsert_source l source completeness).
Proof.
  induction l as [|s l IH]; intros H; cbn [upsert_source]; [apply NoDup_singleton |].
  rewrite fmap_cons in H. apply NoDup_cons in H as [Hs Hl].
  destruct (decide (uuid (source_key s) = uuid source)) as [E | E].
  - rewrite bool_decide_true by done. rewrite fmap_cons. by apply NoDup_cons.
  - rewrite bool_decide_false by done. rewrite fmap_cons. apply NoDup_cons. split; [| by apply IH].
    clear -Hs E. induction l as [|s' l IH]; cbn [upsert_source].
    + rewrite fmap_cons, elem_of_cons. intros [H | H]; [done | by apply elem_of_nil in H].
    + rewrite fmap_cons, elem_of_cons in Hs.
      destruct (decide (uuid (source_key s') = uuid source)) as [E' | E'];
        [rewrite bool_decide_true by done | rewrite bool_decide_false by done]; rewrite fmap_cons, elem_of_cons.
      * tauto.
      * intros [H | H]; [tauto |]. apply IH in H; [done | tauto].
Qed.

(** A property of entries that does not read the freshness is kept by a reconciliation that gives it. *)
Section EntryProperty.
Context (P : CatalogEntryData -> Prop) (source : SourceKey).
Hypothesis P_freshness : forall e v, P e -> v = FLY_CATALOG_FRESHNESS_FRESH \/ v = FLY_CATALOG_FRESHNESS_STALE -> P (e <| freshness := v |>).

Lemma kept_Forall completeness cs es :
  Forall P es -> Forall P (mjoin (keep_entry source completeness cs <$> es)).
Proof using P_freshness.
  induction 1 as [|e es He _ IH]; [constructor |]. rewrite fmap_cons. change (mjoin (?x :: ?y)) with (x ++ mjoin y).
  apply Forall_app. split; [| done]. unfold keep_entry.
  destruct (negb _); [by constructor |]. destruct (_ || _); constructor; auto.
Qed.

Lemma applied_Forall cs es :
  Forall P es -> Forall (fun c => Forall P (candidate_entries c)) cs -> Forall P (fold_left (apply_candidate source) cs es).
Proof using P_freshness.
  intros Hes Hcs. revert es Hes. induction Hcs as [|c cs Hc _ IH]; intros es Hes; [done |]. cbn [fold_left]. apply IH.
  unfold apply_candidate. destruct (decide _); [done |]. cbv zeta.
  assert (Forall P (erase_source_path es source (candidate_path c))) as He by (by apply filter_Forall_1).
  destruct (decide _); [| done]. apply Forall_app. split; [done |].
  apply Forall_fmap. eapply Forall_impl; [exact Hc |]. intros e0 Hp. apply P_freshness; auto.
Qed.

End EntryProperty.

Lemma freshness_fits e v :
  entry_fits e -> v = FLY_CATALOG_FRESHNESS_FRESH \/ v = FLY_CATALOG_FRESHNESS_STALE -> entry_fits (e <| freshness := v |>).
Proof.
  intros [H1 H2 H3 H4 H5] Hv. constructor; try done.
  assert (unsigned 32 v) as Hfits by (destruct Hv as [-> | ->]; split; [done | reflexivity | done | reflexivity]).
  repeat match goal with H : Forall _ (_ :: _) |- _ => apply Forall_cons in H as [? H] end.
  cbn. repeat (apply Forall_cons; split); done.
Qed.

Lemma reconcile_ok c source completeness cs next :
  catalog_ok c -> key_fits source -> unsigned 32 completeness -> source_scope_conflicts c source = false ->
  Forall (candidate_ok source) cs -> reconcile_catalog c source completeness cs = Some next -> catalog_ok next.
Proof.
  intros [[Hg Hf Hp Hs He Hu] Hsrc Hent Husers Hcount Hrev Hseq] Hkey Hcomp Hconf Hcs H. unfold reconcile_catalog in H.
  destruct (Z.eqb_spec (generation c) u64_max) as [| Hmax]; [done |]. cbv zeta in H. apply (inj Some) in H as <-.
  set (keys := source_key <$> upsert_source (sources c) source completeness).
  assert (forall key, key ∈ source_key <$> sources c -> key ∈ keys) as Hmono.
  { intros key Hin. unfold keys. rewrite upsert_source_keys by (intros s Hin' E; by apply (conflicts_false c)).
    destruct (bool_decide _); [done |]. apply elem_of_app. by left. }
  assert (source ∈ keys) as Hsource.
  { unfold keys. rewrite upsert_source_keys by (intros s Hin' E; by apply (conflicts_false c)).
    destruct (bool_decide _) eqn:E; bool_hyps; [done |]. apply elem_of_app. right. apply list_elem_of_here. }
  assert (forall P : CatalogEntryData -> Prop,
    (forall e v, P e -> v = FLY_CATALOG_FRESHNESS_FRESH \/ v = FLY_CATALOG_FRESHNESS_STALE -> P (e <| freshness := v |>)) ->
    Forall P (entries c) -> Forall (fun k => Forall P (candidate_entries k)) cs ->
    Forall P (sort_entries (if negb (completeness =? FLY_SCAN_COMPLETENESS_FATAL)
      then fold_left (apply_candidate source) cs (mjoin (keep_entry source completeness cs <$> entries c))
      else mjoin (keep_entry source completeness cs <$> entries c)))) as Hall.
  { intros P Hfresh Hes Hcands. rewrite sort_entries_perm.
    pose proof (kept_Forall P source Hfresh completeness cs (entries c) Hes) as Hkept.
    destruct (negb _); [by apply applied_Forall | done]. }
  constructor; cbn [users next_favorite_revision next_play_sequence sources entries generation]; try done.
  - constructor; cbn [users next_favorite_revision next_play_sequence sources entries generation]; try done.
    + by apply unsigned_next.
    + by apply upsert_source_Forall.
    + apply Hall; [exact freshness_fits | done |]. eapply Forall_impl; [exact Hcs |]. intros k [Hk _].
      eapply Forall_impl; [exact Hk |]. by intros e [].
  - by apply upsert_source_nodup.
  - apply Hall; [done | |].
    + eapply Forall_impl; [exact Hent |]. intros e. apply Hmono.
    + eapply Forall_impl; [exact Hcs |]. intros k [Hk _]. eapply Forall_impl; [exact Hk |]. intros ? (_ & -> & _); done.
Qed.

(** ** The calls keep the world well formed *)

Definition loads (d : gmap string (list Z)) : CatalogData * SettingsData := (catalog_on d, settings_on d).

(** A call from a world [w]: the world after it is well formed, and the directory passes from what it loaded to something
    well formed in one step, taken exactly when the call reports success. *)
Record effect (w : World) (r : fly_result) (w' : World) : Prop := {
  eff_world : world_ok w';
  eff_atomic : exists next, catalog_ok next.1 /\ settings_fit next.2 /\
    Forall (fun crash => loads crash = loads (files (disk w)) \/ loads crash = next) (shown (disk w')) /\
    loads (files (disk w')) = if bool_decide (r = FLY_RESULT_OK) then next else loads (files (disk w));
}.

(** [w] about to make a call. *)
Definition ready (w : World) : Prop := world_ok w /\ shown (disk w) = [] /\ answers (disk w) = [].

Lemma ready_disk w : ready w -> disk w = mkDisk (files (disk w)) (fates (disk w)) [] [].
Proof. intros (_ & Hs & Ha). destruct (disk w). cbn in *. by subst. Qed.

Lemma quiet w r w' : ready w -> disk w' = disk w -> world_ok w' -> effect w r w'.
Proof.
  intros (Hw & Hs & Ha) Hd Hw'. constructor; [done |]. exists (loads (files (disk w))). rewrite Hd, Hs.
  destruct (ok_directory _ Hw) as [H1 H2]. split_and!; [done | done | constructor |]. by destruct (bool_decide _).
Qed.

(** Nothing happened. *)
Lemma quiet_same w r : ready w -> effect w r w.
Proof. intros Hw. apply quiet; [done | done | apply Hw]. Qed.

Lemma world_disk_ok w d :
  world_ok w -> files d = files (disk w) -> world_ok (w <| disk := d |>).
Proof.
  intros [H1 H2 H3 H4] E. destruct w as [a l sc dk]. cbn in *. constructor; cbn; rewrite ?E; auto.
Qed.

Lemma ready_run w fs : world_ok w -> ready (w <| disk := mkDisk (files (disk w)) fs [] [] |>).
Proof. intros Hw. split_and!; [by apply world_disk_ok | done | done]. Qed.

(** A catalogue of the next generation closes the door on all open scans; one of the same generation and sources leaves
    it as it was. *)
Definition scans_survive (c next : CatalogData) : Prop :=
  generation next = generation c + 1 \/ (generation next = generation c /\ sources next = sources c).

Lemma scans_survive_ok c next s : scans_survive c next -> scan_ok c s -> scan_ok next s.
Proof.
  intros Hn [H1 H2 H3 H4 H5]. destruct Hn as [Hg | [Hg Hs]]; constructor; try done; rewrite ?Hg; try lia.
  intros E. unfold source_scope_conflicts. rewrite Hs. by apply H3.
Qed.

Lemma commit_catalog_effect w s next :
  ready w -> app w = Some s -> catalog_ok next -> scans_survive (catalog s) next ->
  effect w (commit_catalog next w).1 (commit_catalog next w).2.
Proof.
  intros Hw Happ Hnext Hscans. pose proof (ready_disk w Hw) as Hdisk. destruct Hw as (Hw & _ & _).
  pose proof Hw as [Hdir Howners Hin Hsc].
  destruct (Hin s Happ) as [Hc Hset]. specialize (Hsc s Happ). destruct Hdir as [Hdir1 Hdir2].
  unfold commit_catalog, on_disk, mbind, M_bind. rewrite Hdisk.
  pose proof (save_atomic next (files (disk w)) (fates (disk w)) (ok_fits _ Hnext)) as Hsave.
  pose proof (save_catalog_settings next (files (disk w)) (fates (disk w))) as Hother.
  destruct (save_catalog next (mkDisk (files (disk w)) (fates (disk w)) [] [])) as [saved d]. cbv zeta in *. cbn [fst snd] in *.
  destruct Hsave as (Hfinal & Hanswers & Hshown). destruct Hother as [Hsame Hshown'].
  assert (Forall (fun crash => loads crash = loads (files (disk w)) \/ loads crash = (next, settings_on (files (disk w)))) (shown d)) as Hcrash.
  { apply Forall_forall. intros crash Hcr. rewrite Forall_forall in Hshown, Hshown'. unfold loads. rewrite (Hshown' crash Hcr).
    destruct (Hshown crash Hcr) as [-> | ->]; auto. }
  destruct w as [a l sc dk]. cbn [app scans launches disk over] in *. subst a.
  destruct saved; cbn [negb]; unfold mret, M_ret, set_catalog, modify; cbn [fst snd app scans launches disk over fmap option_fmap option_map].
  - constructor.
    + constructor; cbn [app scans launches disk over].
      * unfold directory_ok. by rewrite Hfinal, Hsame.
      * done.
      * intros s' [= <-]. cbn. split; [by rewrite Hfinal | by rewrite Hsame].
      * intros s' [= <-]. cbn [catalog over]. eapply Forall_impl; [exact Hsc |]. intros scan H1 H2. by eapply scans_survive_ok, H1.
    + exists (next, settings_on (files dk)). cbn [disk fst snd]. split_and!; [done | done | done |].
      rewrite bool_decide_true by done. change (loads (files d) = (next, settings_on (files dk))). unfold loads. by rewrite Hfinal, Hsame.
  - constructor.
    + constructor; cbn [app scans launches disk over].
      * unfold directory_ok. by rewrite Hfinal, Hsame.
      * done.
      * intros s' [= <-]. by rewrite Hfinal, Hsame.
      * intros s' [= <-]. done.
    + exists (next, settings_on (files dk)). cbn [disk fst snd]. split_and!; [done | done | done |].
      rewrite bool_decide_false by done. change (loads (files d) = loads (files dk)). unfold loads. by rewrite Hfinal, Hsame.
Qed.

Lemma favorite_effect w id favored :
  ready w -> effect w (fly_catalog_favorite_set id favored w).1 (fly_catalog_favorite_set id favored w).2.
Proof.
  intros Hw. unfold fly_catalog_favorite_set, mbind, M_bind, gets, mret, M_ret. destruct (app w) as [s|] eqn:Happ; [| by apply quiet_same].
  destruct (negb _ && negb _); [by apply quiet_same |]. cbv zeta. destruct (decide _); [by apply quiet_same |].
  destruct (Z.eqb_spec (next_favorite_revision (catalog s)) u64_max) as [| Hmax]; [by apply quiet_same |].
  assert (catalog_ok (catalog s)) as Hc.
  { destruct Hw as (Hw & _). destruct (ok_app _ Hw s Happ) as [-> _]. apply Hw. }
  apply commit_catalog_effect with (s := s); [done | done | by apply favor_ok |]. by right.
Qed.

Lemma played_effect w id : ready w -> effect w (fly_catalog_mark_played id w).1 (fly_catalog_mark_played id w).2.
Proof.
  intros Hw. unfold fly_catalog_mark_played, mbind, M_bind, gets, mret, M_ret. destruct (app w) as [s|] eqn:Happ; [| by apply quiet_same].
  cbv zeta. destruct (decide _); [by apply quiet_same |].
  destruct (Z.eqb_spec (next_play_sequence (catalog s)) u64_max) as [| Hmax]; [by apply quiet_same |].
  unfold find_user. fold (user_or_new (users (catalog s)) (default [] id)).
  destruct (Z.eqb_spec (play_count (user_or_new (users (catalog s)) (default [] id))) u32_max) as [| Hplays]; [by apply quiet_same |].
  assert (catalog_ok (catalog s)) as Hc.
  { destruct Hw as (Hw & _). destruct (ok_app _ Hw s Happ) as [-> _]. apply Hw. }
  apply commit_catalog_effect with (s := s); [done | done | by apply play_ok |]. by right.
Qed.

Lemma remove_effect w id source_scope :
  ready w -> effect w (fly_source_remove id source_scope w).1 (fly_source_remove id source_scope w).2.
Proof.
  intros Hw. unfold fly_source_remove, mbind, M_bind, gets, mret, M_ret. destruct (app w) as [s|] eqn:Happ; [| by apply quiet_same].
  destruct id as [id|]; [| by apply quiet_same]. destruct (is_zero_uuid id || _); [by apply quiet_same |].
  destruct (source_scope =? _); [by apply quiet_same |]. cbv zeta. destruct (negb _); [by apply quiet_same |].
  destruct (Z.eqb_spec (generation (catalog s)) u64_max) as [| Hmax]; [by apply quiet_same |].
  assert (catalog_ok (catalog s)) as Hc.
  { destruct Hw as (Hw & _). destruct (ok_app _ Hw s Happ) as [-> _]. apply Hw. }
  apply commit_catalog_effect with (s := s); [done | done | by apply remove_ok |]. by left.
Qed.

Lemma completeness_fits completeness : is_valid_completeness completeness = true -> unsigned 32 completeness.
Proof.
  unfold is_valid_completeness, unsigned, FLY_SCAN_COMPLETENESS_FULL, FLY_SCAN_COMPLETENESS_FATAL. intros H. bool_hyps. lia.
Qed.

(** Changing one scan. *)
Lemma set_scan_ok w handle f :
  world_ok w -> (forall s, owner (f s) = owner s) ->
  (forall state s, app w = Some state -> owner s = launches w -> s ∈ scans w -> scan_ok (catalog state) s -> scan_ok (catalog state) (f s)) ->
  world_ok (set_scan handle f w).2.
Proof.
  intros [H1 H2 H3 H4] Howner Hf. destruct w as [a l sc dk]. unfold set_scan, modify. cbn [fst snd app scans launches disk over] in *.
  constructor; cbn [app scans launches disk over]; try done.
  - apply Forall_alter; [done |]. intros s Hs Hs'. by rewrite Howner.
  - intros state Happ. specialize (H4 state Happ). apply Forall_alter; [done |].
    intros s Hs Hs' E. rewrite Howner in E. apply Hf; [done | done | by eapply list_elem_of_lookup_2 | by apply Hs'].
Qed.

Lemma set_scan_disk w handle f : disk (set_scan handle f w).2 = disk w.
Proof. done. Qed.

Lemma scan_same c s s' :
  scan_source s' = scan_source s -> base_generation s' = base_generation s -> candidates s' = candidates s ->
  scan_ok c s -> scan_ok c s'.
Proof. intros E1 E2 E3 [H1 H2 H3 H4 H5]. constructor; rewrite ?E1, ?E2, ?E3; auto. Qed.

Lemma begin_effect w config :
  ready w -> call_ok (ScanBegin config) -> effect w (fly_scan_begin config w).1 (fly_scan_begin config w).2.
Proof.
  intros Hw Hcall. unfold fly_scan_begin, mbind, M_bind, gets, mret, M_ret. destruct (app w) as [s|] eqn:Happ; [| by apply quiet_same].
  destruct config as [c|]; [| by apply quiet_same]. cbv zeta. destruct (decide _) as [| Hvalid]; [by apply quiet_same |].
  destruct (source_scope_conflicts _ _) eqn:Hconf; [by apply quiet_same |].
  apply quiet; [done | done |]. destruct Hw as ([H1 H2 H3 H4] & _). specialize (H4 s Happ).
  destruct w as [a l sc dk]. unfold modify. cbn [fst snd app scans launches disk over] in *.
  constructor; cbn [app scans launches disk over]; try done.
  - apply Forall_app. split; [done |]. by repeat constructor.
  - intros state E. assert (state = s) as -> by congruence. apply Forall_app. split; [done |]. constructor; [| constructor]. intros _.
    constructor; cbn [scan_source base_generation candidates fmap list_fmap]; [| lia | done | apply NoDup_nil_2 | apply Forall_nil_2].
    unfold key_fits. cbn [uuid scope call_ok] in *. split.
    + unfold zlen in *. rewrite length_take. lia.
    + unfold validate_scan_config in Hvalid. destruct (_ <? _); [by exfalso; apply Hvalid |]. destruct (negb _); [by exfalso; apply Hvalid |].
      destruct (is_zero_uuid _ || negb (is_valid_scope (config_scope c))) eqn:G; [by exfalso; apply Hvalid |]. bool_hyps.
      unfold is_valid_scope, FLY_SOURCE_SCOPE_BUILTIN, FLY_SOURCE_SCOPE_MANAGED_LIBRARY in *. bool_hyps. unfold unsigned. lia.
Qed.

Lemma no_candidate_path cs path : has_candidate_path cs path = false -> path ∉ candidate_path <$> cs.
Proof.
  unfold has_candidate_path. rewrite existsb_false. intros H Hin. apply list_elem_of_fmap in Hin as (c & E & Hc).
  specialize (H c Hc). cbn beta in H. bool_hyps. congruence.
Qed.

Lemma lock_app_some scan w state : lock_app scan w = Some state -> app w = Some state /\ owner scan = launches w.
Proof. unfold lock_app. destruct (bool_decide _) eqn:E; [| done]. bool_hyps. done. Qed.

Section AddFile.
Context `{ScannerSound}.

Lemma add_effect w handle file :
  ready w -> call_ok (ScanAdd handle file) -> effect w (fly_scan_add_file handle file w).1 (fly_scan_add_file handle file w).2.
Proof using All.
  intros Hw Hcall. unfold fly_scan_add_file, mbind, M_bind, gets, mret, M_ret.
  destruct (scans w !! handle) as [scan|] eqn:Hscan; [| by apply quiet_same].
  destruct file as [f|]; [| by apply quiet_same]. cbv zeta. destruct (decide _); [by apply quiet_same |].
  destruct (closed scan || poisoned scan); [by apply quiet_same |].
  destruct (bool_decide (is_Some (lock_app scan w))) eqn:Hlock; cbn [negb].
  2:{ apply quiet; [done | done |]. apply set_scan_ok; [apply Hw | done |]. intros state s _ _ _. by apply scan_same. }
  apply bool_decide_eq_true in Hlock as [state Hlock]. apply lock_app_some in Hlock as [Happ Howner].
  destruct (has_candidate_path _ _) eqn:Hpath; [by apply quiet_same |].
  destruct (scan_candidate (scan_source scan) f) as [candidate|] eqn:Hcandidate.
  2:{ apply quiet; [done | done |]. apply set_scan_ok; [apply Hw | done |]. intros st s _ _ _. by apply scan_same. }
  apply quiet; [done | done |]. destruct Hw as (Hw & _). pose proof (ok_scans _ Hw state Happ) as Hscans.
  rewrite Forall_forall in Hscans.
  assert (scan_ok (catalog state) scan) as Hok by (apply Hscans; [by eapply list_elem_of_lookup_2 | done]).
  assert (candidate_ok (scan_source scan) candidate /\ candidate_path candidate = default [] (file_path f)) as [Hc Hp].
  { eapply scan_candidate_ok; [apply Hok | exact Hcall | exact Hcandidate]. }
  destruct w as [a l sc dk]. unfold set_scan, modify. cbn [fst snd app scans launches disk over] in *.
  destruct Hw as [H1 H2 H3 H4]. constructor; cbn [app scans launches disk over] in *; try done.
  - by apply Forall_alter.
  - intros s E. assert (s = state) as -> by congruence. apply Forall_alter; [by apply H4 |]. intros s Hs _ _.
    assert (s = scan) as -> by congruence. destruct Hok as [K1 K2 K3 K4 K5].
    constructor; cbn [scan_source base_generation candidates over]; try done.
    + rewrite fmap_app. apply NoDup_app. split_and!; [done | | apply NoDup_singleton].
      intros x Hx Hx'. apply list_elem_of_singleton in Hx' as ->. rewrite Hp in Hx. by apply no_candidate_path in Hpath.
    + apply Forall_app. by split; [| constructor].
Qed.

End AddFile.

Lemma commit_effect w handle completeness :
  ready w -> effect w (fly_scan_commit handle completeness w).1 (fly_scan_commit handle completeness w).2.
Proof.
  intros Hw. destruct (fly_scan_commit handle completeness w) as [r w'] eqn:E. cbn [fst snd].
  unfold fly_scan_commit in E. unfold mbind at 1, M_bind at 1, gets at 1 in E.
  destruct (scans w !! handle) as [scan|] eqn:Hscan; [| injection E as <- <-; by apply quiet_same].
  destruct (is_valid_completeness completeness) eqn:Hcomp; cbn [negb] in E; [| injection E as <- <-; by apply quiet_same].
  destruct (closed scan || poisoned scan); [injection E as <- <-; by apply quiet_same |].
  unfold mbind at 1, M_bind at 1 in E.
  set (w1 := (set_scan handle (fun s => s <| closed := true |>) w).2).
  assert (ready w1) as Hw1.
  { destruct Hw as (Hw & Hs & Ha). split_and!; [| done | done]. apply set_scan_ok; [done | done |]. intros st s _ _ _. by apply scan_same. }
  change (set_scan handle (fun s => s <| closed := true |>) w) with (tt, w1) in E. cbn beta iota in E.
  assert (effect w1 r w' -> effect w r w') as Hback by (intros [K1 K2]; by constructor). apply Hback. clear Hback.
  unfold mbind at 1, M_bind at 1, gets at 1 in E. change (lock_app scan w1) with (lock_app scan w) in E.
  destruct (lock_app scan w) as [state|] eqn:Hstate; [| injection E as <- <-; by apply quiet_same].
  apply lock_app_some in Hstate as [Happ Howner].
  destruct (Z.eqb_spec (generation (catalog state)) (base_generation scan)) as [Hgen |]; cbn [negb] in E;
    [| injection E as <- <-; by apply quiet_same].
  destruct (reconcile_catalog _ _ _ _) as [next|] eqn:Hnext; [| injection E as <- <-; by apply quiet_same].
  destruct Hw as (Hw & _). pose proof (ok_scans _ Hw state Happ) as Hscans. rewrite Forall_forall in Hscans.
  assert (scan_ok (catalog state) scan) as Hok by (apply Hscans; [by eapply list_elem_of_lookup_2 | done]).
  assert (catalog_ok (catalog state)) as Hc by (destruct (ok_app _ Hw state Happ) as [-> _]; apply Hw).
  assert (effect w1 (commit_catalog next w1).1 (commit_catalog next w1).2) as Heffect.
  { apply commit_catalog_effect with (s := state); [done | done | |].
    - eapply reconcile_ok; [done | apply Hok | by apply completeness_fits | by apply Hok | apply Hok | exact Hnext].
    - left. unfold reconcile_catalog in Hnext. destruct (_ =? u64_max); [done |]. by apply (inj Some) in Hnext as <-. }
  by rewrite E in Heffect.
Qed.

Lemma between_fits value low high : between value low high = true -> 0 <= low -> high < 2 ^ 32 -> unsigned 32 value.
Proof. unfold between, unsigned. intros H ? ?. bool_hyps. lia. Qed.

Lemma flag_fits value : is_flag value = true -> unsigned 32 value.
Proof. unfold is_flag, unsigned. intros H. apply orb_true_iff in H as [H | H]; bool_hyps; lia. Qed.

Lemma valid_length data maximum : is_valid_utf8 data maximum = true -> zlen (default [] data) <= maximum.
Proof. unfold is_valid_utf8. destruct data as [value|]; [| done]. destruct (_ || _) eqn:G; [done |]. intros _. bool_hyps. done. Qed.

Lemma snapshot_fits snapshot :
  call_ok (SettingsApply (Some snapshot)) -> validate_settings_snapshot snapshot = FLY_RESULT_OK ->
  settings_fit (settings_from_snapshot snapshot).
Proof.
  intros Hfloats Hvalid. unfold validate_settings_snapshot in Hvalid. destruct (_ <? _); [done |]. destruct (negb (_ =? _)); [done |].
  destruct (valid_choices _) eqn:Hc; [| done]. destruct (valid_flags _) eqn:Hf; [| done]. destruct (valid_scales _); [| done].
  cbn [negb] in Hvalid. destruct (is_valid_utf8 (locale_tag_utf8 snapshot) _) eqn:Hlocale; [| done]. cbn [negb] in Hvalid.
  apply valid_length in Hlocale. unfold valid_choices, valid_flags in Hc, Hf. bool_hyps.
  constructor; cbn [settings_from_snapshot SettingsPersist.aspect_mode video_quality_preset custom_refresh_policy custom_temporal_mode
    custom_spatial_mode custom_post_effect adaptive_protection layout_preset direction_mode haptic_level distinct_ab_haptics
    audio_enabled audio_focus_policy autosave_enabled button_scale vertical_offset control_opacity joystick_scale dead_zone
    locale_tag last_played_id].
  - repeat (apply Forall_cons; split); try apply Forall_nil_2;
      first [eapply between_fits; [eassumption | lia | reflexivity] | by apply flag_fits].
  - exact Hfloats.
  - unfold SettingsPersist.kMaxStringBytes, FLY_SETTINGS_LOCALE_MAX_UTF8_BYTES in *. lia.
  - destruct (Z.eqb_spec (zlen (default [] (last_played_id_utf8 snapshot))) 0) as [-> |]; [done |]. cbn [negb andb] in Hvalid.
    destruct (is_valid_utf8 (last_played_id_utf8 snapshot) _) eqn:Hlast; [| done]. apply valid_length in Hlast.
    unfold SettingsPersist.kMaxStringBytes, FLY_CANONICAL_ID_MAX_UTF8_BYTES in *. lia.
Qed.

Lemma settings_effect w snapshot :
  ready w -> call_ok (SettingsApply snapshot) -> effect w (fly_settings_apply snapshot w).1 (fly_settings_apply snapshot w).2.
Proof.
  intros Hw Hcall. pose proof (ready_disk w Hw) as Hdisk. unfold fly_settings_apply, mbind, M_bind, gets.
  destruct (app w) as [s|] eqn:Happ; [| by apply quiet_same]. destruct snapshot as [snapshot|]; [| by apply quiet_same]. cbv zeta.
  destruct (decide _) as [| Hvalid]; [by apply quiet_same |].
  assert (settings_fit (settings_from_snapshot snapshot)) as Hnext.
  { apply snapshot_fits; [done |]. destruct (decide (validate_settings_snapshot snapshot = FLY_RESULT_OK)); [done | by exfalso; apply Hvalid]. }
  destruct Hw as (Hw & _ & _). pose proof Hw as [[Hdir1 Hdir2] Howners Hin Hsc]. destruct (Hin s Happ) as [Hc Hset].
  unfold on_disk. rewrite Hdisk. set (next := settings_from_snapshot snapshot) in *.
  pose proof (settings_save_atomic next (files (disk w)) (fates (disk w)) Hnext) as Hsave.
  pose proof (save_settings_catalog next (files (disk w)) (fates (disk w))) as Hother.
  destruct (save_settings next (mkDisk (files (disk w)) (fates (disk w)) [] [])) as [saved d]. cbv zeta in *. cbn [fst snd] in *.
  destruct Hsave as (Hfinal & Hanswers & Hshown). destruct Hother as [Hsame Hshown'].
  assert (Forall (fun crash => loads crash = loads (files (disk w)) \/ loads crash = (catalog_on (files (disk w)), next)) (shown d)) as Hcrash.
  { apply Forall_forall. intros crash Hcr. rewrite Forall_forall in Hshown, Hshown'. unfold loads. rewrite (Hshown' crash Hcr).
    destruct (Hshown crash Hcr) as [-> | ->]; auto. }
  destruct w as [a l sc dk]. cbn [app scans launches disk over] in *. subst a.
  destruct saved; cbn [negb]; unfold mret, M_ret, set_settings, modify; cbn [fst snd app scans launches disk over fmap option_fmap option_map].
  - constructor.
    + constructor; cbn [app scans launches disk over].
      * unfold directory_ok. by rewrite Hfinal, Hsame.
      * done.
      * intros s' [= <-]. cbn. split; [by rewrite Hsame | by rewrite Hfinal].
      * intros s' [= <-]. exact (Hsc s eq_refl).
    + exists (catalog_on (files dk), next). cbn [disk fst snd]. split_and!; [done | done | done |].
      rewrite bool_decide_true by done. change (loads (files d) = (catalog_on (files dk), next)). unfold loads. by rewrite Hfinal, Hsame.
  - constructor.
    + constructor; cbn [app scans launches disk over].
      * unfold directory_ok. by rewrite Hfinal, Hsame.
      * done.
      * intros s' [= <-]. by rewrite Hfinal, Hsame.
      * intros s' [= <-]. exact (Hsc s eq_refl).
    + exists (catalog_on (files dk), next). cbn [disk fst snd]. split_and!; [done | done | done |].
      rewrite bool_decide_false by done. change (loads (files d) = loads (files dk)). unfold loads. by rewrite Hfinal, Hsame.
Qed.

(** ** What the calls are meant to do

    [intended] is the specification of the calls that change what is stored: the catalogue and the settings the call is to
    save and to show, or [None] when its arguments or the state of the application do not allow it.  It knows nothing of
    files. *)

Definition updates (c : call) : bool :=
  match c with
  | ScanCommit _ _ | FavoriteSet _ _ | MarkPlayed _ | SourceRemove _ _ | SettingsApply _ => true
  | Create _ | Destroy | ScanBegin _ | ScanAdd _ _ => false
  end.

Definition intended_catalog (c : call) (w : World) (current : CatalogData) : option CatalogData :=
  match c with
  | ScanCommit handle completeness =>
    match scans w !! handle with
    | Some scan =>
      if is_valid_completeness completeness && negb (closed scan || poisoned scan) && bool_decide (owner scan = launches w) &&
         (generation current =? base_generation scan)
      then reconcile_catalog current (scan_source scan) completeness (candidates scan) else None
    | None => None
    end
  | FavoriteSet id favored =>
    if ((favored =? 0) || (favored =? 1)) && is_valid_utf8 id FLY_CANONICAL_ID_MAX_UTF8_BYTES &&
       negb (next_favorite_revision current =? u64_max)
    then Some (favor current (default [] id) (favored =? 1)) else None
  | MarkPlayed id =>
    if is_valid_utf8 id FLY_CANONICAL_ID_MAX_UTF8_BYTES && negb (next_play_sequence current =? u64_max) &&
       negb (play_count (user_or_new (users current) (default [] id)) =? u32_max)
    then Some (play current (default [] id)) else None
  | SourceRemove (Some id) source_scope =>
    let target := mkKey (take 16 id) source_scope in
    if negb (is_zero_uuid id) && is_valid_scope source_scope && negb (source_scope =? FLY_SOURCE_SCOPE_BUILTIN) &&
       existsb (fun s => same_source (source_key s) target) (sources current) && negb (generation current =? u64_max)
    then Some (remove_source current target) else None
  | _ => None
  end.

Definition intended (c : call) (w : World) : option (CatalogData * SettingsData) :=
  match app w with
  | None => None
  | Some state =>
    match c with
    | SettingsApply (Some snapshot) =>
      if decide (validate_settings_snapshot snapshot = FLY_RESULT_OK)
      then Some (catalog state, settings_from_snapshot snapshot) else None
    | _ => (fun next => (next, settings state)) <$> intended_catalog c w (catalog state)
    end
  end.

(** A call from [w] carried out its intention: all of it, on disk and in the application, with success, or nothing of it;
    a crash inside leaves either the old value or the new one.  It fails only when a system call does or the
    value has no file. *)
Definition carried_out (w : World) (next : CatalogData * SettingsData) (r : fly_result) (w' : World) : Prop :=
  ((r = FLY_RESULT_OK /\ loads (files (disk w')) = next /\ app w' = Some (mkApp next.1 next.2)) \/
   (r = FLY_RESULT_INTERNAL_ERROR /\ loads (files (disk w')) = loads (files (disk w)) /\ app w' = app w)) /\
  (forall crash, crash ∈ shown (disk w') -> loads crash = loads (files (disk w)) \/ loads crash = next) /\
  (fates (disk w) = [] -> is_Some (CatalogPersist.encode_file next.1) -> is_Some (SettingsPersist.encode_file next.2) ->
   r = FLY_RESULT_OK).

Lemma commit_catalog_carried_out w s next :
  ready w -> app w = Some s -> catalog_fits next ->
  carried_out w (next, settings s) (commit_catalog next w).1 (commit_catalog next w).2.
Proof.
  intros Hw Happ Hnext. pose proof (ready_disk w Hw) as Hdisk. destruct Hw as (Hw & _ & _).
  destruct (ok_app _ Hw s Happ) as [Hcat Hset].
  assert (fates (disk w) = [] -> is_Some (CatalogPersist.encode_file next) -> (save_catalog next (disk w)).1 = true) as Hcalm.
  { intros Hf [file E]. rewrite Hdisk, Hf. unfold save_catalog. rewrite E. apply publish_calm, CatalogPersist.paths_distinct. }
  unfold carried_out, commit_catalog, on_disk, mbind, M_bind.
  pose proof (save_atomic next (files (disk w)) (fates (disk w)) Hnext) as Hsave.
  pose proof (save_catalog_settings next (files (disk w)) (fates (disk w))) as Hother. rewrite <- Hdisk in Hsave, Hother.
  destruct (save_catalog next (disk w)) as [saved d]. cbv zeta in *. cbn [fst snd] in *.
  destruct Hsave as (Hfinal & _ & Hshown). destruct Hother as [Hsame Hshown'].
  rewrite Forall_forall in Hshown, Hshown'. unfold loads.
  destruct w as [a l sc dk]. cbn [app scans launches disk over] in *. subst a.
  destruct s as [c0 s0]. cbn [catalog settings] in *. subst c0 s0.
  split; [| split; [| destruct saved; [done |]; by intros Hf He _; specialize (Hcalm Hf He)]].
  - destruct saved; [left | right]; cbn [negb]; unfold mret, M_ret, set_catalog, modify;
      cbn [fst snd app disk over fmap option_fmap option_map catalog settings]; by rewrite Hfinal, Hsame.
  - intros crash Hc. assert (crash ∈ shown d) as Hc' by (by destruct saved). rewrite (Hshown' crash Hc').
    destruct (Hshown crash Hc') as [-> | ->]; auto.
Qed.

(** A call that was not allowed: it fails, and neither the files nor the application change. *)
Definition refused (w : World) (r : fly_result) (w' : World) : Prop :=
  r <> FLY_RESULT_OK /\ disk w' = disk w /\ app w' = app w.

Definition as_intended (w : World) (asked : option (CatalogData * SettingsData)) (r : fly_result) (w' : World) : Prop :=
  match asked with Some next => carried_out w next r w' | None => refused w r w' end.

Lemma validate_id_spec id :
  (validate_canonical_id id = FLY_RESULT_OK) <-> is_valid_utf8 id FLY_CANONICAL_ID_MAX_UTF8_BYTES = true.
Proof. unfold validate_canonical_id. by destruct (is_valid_utf8 id _). Qed.

Lemma ready_catalog_ok w s : ready w -> app w = Some s -> catalog_ok (catalog s).
Proof. intros (Hw & _) Happ. destruct (ok_app _ Hw s Happ) as [-> _]. apply Hw. Qed.

Lemma favorite_intended w id favored :
  ready w -> let x := fly_catalog_favorite_set id favored w in as_intended w (intended (FavoriteSet id favored) w) x.1 x.2.
Proof.
  intros Hw. cbv zeta. unfold fly_catalog_favorite_set, intended, intended_catalog, mbind, M_bind, gets, mret, M_ret.
  destruct (app w) as [s|] eqn:Happ; [| by split_and!].
  destruct (favored =? 0); cbn [negb andb orb];
    [| destruct (favored =? 1); cbn [negb andb orb]; [| by split_and!]];
    cbv zeta; pose proof (validate_id_spec id) as Hid;
    (destruct (is_valid_utf8 id _) eqn:Hv; [| destruct (decide _) as [|E]; [by split_and! | by apply dec_stable, Hid in E]]);
    (destruct (decide _) as [E|_]; [by destruct E; apply Hid |]); cbn [andb];
    (destruct (Z.eqb_spec (next_favorite_revision (catalog s)) u64_max); [by split_and! |]); cbn [negb fmap option_fmap option_map];
    (apply commit_catalog_carried_out; [done | done |]; apply favor_ok; [by eapply ready_catalog_ok | done]).
Qed.

Lemma played_intended w id :
  ready w -> let x := fly_catalog_mark_played id w in as_intended w (intended (MarkPlayed id) w) x.1 x.2.
Proof.
  intros Hw. cbv zeta. unfold fly_catalog_mark_played, intended, intended_catalog, mbind, M_bind, gets, mret, M_ret.
  destruct (app w) as [s|] eqn:Happ; [| by split_and!]. cbv zeta. pose proof (validate_id_spec id) as Hid.
  destruct (is_valid_utf8 id _) eqn:Hv; [| destruct (decide _) as [|E]; [by split_and! | by apply dec_stable, Hid in E]].
  destruct (decide _) as [E|_]; [by destruct E; apply Hid |]. cbn [andb].
  destruct (Z.eqb_spec (next_play_sequence (catalog s)) u64_max); [by split_and! |]. cbn [negb andb].
  unfold find_user. fold (user_or_new (users (catalog s)) (default [] id)).
  destruct (Z.eqb_spec (play_count (user_or_new (users (catalog s)) (default [] id))) u32_max); [by split_and! |].
  apply commit_catalog_carried_out; [done | done |]. apply play_ok; [by eapply ready_catalog_ok | done | done].
Qed.

Lemma remove_intended w id source_scope :
  ready w -> let x := fly_source_remove id source_scope w in as_intended w (intended (SourceRemove id source_scope) w) x.1 x.2.
Proof.
  intros Hw. cbv zeta. unfold fly_source_remove, intended, intended_catalog, mbind, M_bind, gets, mret, M_ret.
  destruct (app w) as [s|] eqn:Happ; [| by split_and!]. destruct id as [id|]; [| by split_and!]. cbv zeta.
  destruct (is_zero_uuid id); cbn [negb andb orb]; [by split_and! |].
  destruct (is_valid_scope source_scope); cbn [negb andb]; [| by split_and!].
  destruct (source_scope =? _); cbn [negb andb]; [by split_and! |].
  destruct (existsb _ _); cbn [negb andb]; [| by split_and!].
  destruct (Z.eqb_spec (generation (catalog s)) u64_max); [by split_and! |].
  apply commit_catalog_carried_out; [done | done |]. apply remove_ok; [by eapply ready_catalog_ok | done].
Qed.

Lemma commit_intended w handle completeness :
  ready w -> let x := fly_scan_commit handle completeness w in as_intended w (intended (ScanCommit handle completeness) w) x.1 x.2.
Proof.
  intros Hw. cbv zeta. unfold fly_scan_commit, intended, intended_catalog, mbind, M_bind, gets, mret, M_ret.
  destruct (scans w !! handle) as [scan|] eqn:Hscan; [| by destruct (app w)].
  destruct (is_valid_completeness completeness) eqn:Hcomp; cbn [negb andb]; [| by destruct (app w)].
  destruct (closed scan || poisoned scan); cbn [negb andb]; [by destruct (app w) |].
  set (w1 := (set_scan handle (fun s => s <| closed := true |>) w).2).
  change (set_scan handle (fun s => s <| closed := true |>) w) with (tt, w1). cbn beta iota.
  change (lock_app scan w1) with (lock_app scan w). unfold lock_app.
  destruct (bool_decide (owner scan = launches w)) eqn:Howner; cbn [andb]; [| by destruct (app w)].
  destruct (app w) as [s|] eqn:Happ; [| done].
  destruct (Z.eqb_spec (generation (catalog s)) (base_generation scan)) as [Hgen |]; cbn [negb]; [| done].
  destruct (reconcile_catalog _ _ _ _) as [next|] eqn:Hnext; [| done].
  assert (ready w1) as Hw1.
  { destruct Hw as (Hw & Hs & Ha). split_and!; [| done | done]. apply set_scan_ok; [done | done |]. intros st s' _ _ _. by apply scan_same. }
  assert (carried_out w1 (next, settings s) (commit_catalog next w1).1 (commit_catalog next w1).2) as H; [| exact H].
  apply commit_catalog_carried_out; [done | done |].
  pose proof (ok_scans _ (proj1 Hw) s Happ) as Hscans. rewrite Forall_forall in Hscans.
  assert (scan_ok (catalog s) scan) as Hok by (apply Hscans; [by eapply list_elem_of_lookup_2 | by apply bool_decide_eq_true in Howner]).
  eapply reconcile_ok; [by eapply ready_catalog_ok | apply Hok | by apply completeness_fits | by apply Hok | apply Hok | exact Hnext].
Qed.

Lemma settings_intended w snapshot :
  ready w -> call_ok (SettingsApply snapshot) ->
  let x := fly_settings_apply snapshot w in as_intended w (intended (SettingsApply snapshot) w) x.1 x.2.
Proof.
  intros Hw Hcall. pose proof (ready_disk w Hw) as Hdisk. cbv zeta. unfold fly_settings_apply, intended, mbind, M_bind, gets.
  destruct (app w) as [s|] eqn:Happ; [| by split_and!]. destruct snapshot as [snapshot|]; [| by split_and!]. cbv zeta.
  destruct (decide (validate_settings_snapshot snapshot = FLY_RESULT_OK)) as [Hvalid|Hno];
    (destruct (decide _) as [Hno'|Hok]; [| try by (exfalso; apply Hok)]); [done | | by split_and!].
  pose proof (snapshot_fits snapshot Hcall Hvalid) as Hnext. set (next := settings_from_snapshot snapshot) in *.
  destruct (ok_app _ (proj1 Hw) s Happ) as [Hcat Hset].
  assert (fates (disk w) = [] -> is_Some (SettingsPersist.encode_file next) -> (save_settings next (disk w)).1 = true) as Hcalm.
  { intros Hf [file E]. rewrite Hdisk, Hf. unfold save_settings. rewrite E. apply publish_calm, settings_paths_distinct. }
  pose proof (settings_save_atomic next (files (disk w)) (fates (disk w)) Hnext) as Hsave.
  pose proof (save_settings_catalog next (files (disk w)) (fates (disk w))) as Hother. rewrite <- Hdisk in Hsave, Hother.
  unfold as_intended, carried_out, on_disk. destruct (save_settings next (disk w)) as [saved d]. cbv zeta in *. cbn [fst snd] in *.
  destruct Hsave as (Hfinal & _ & Hshown). destruct Hother as [Hsame Hshown'].
  rewrite Forall_forall in Hshown, Hshown'. unfold loads.
  destruct w as [a l sc dk]. cbn [app scans launches disk over] in *. subst a.
  destruct s as [c0 s0]. cbn [catalog settings] in *. subst c0 s0.
  split; [| split; [| destruct saved; [done |]; by intros Hf _ He; specialize (Hcalm Hf He)]].
  - destruct saved; [left | right]; cbn [negb]; unfold mret, M_ret, set_settings, modify;
      cbn [fst snd app disk over fmap option_fmap option_map catalog settings]; by rewrite Hfinal, Hsame.
  - intros crash Hc. assert (crash ∈ shown d) as Hc' by (by destruct saved). rewrite (Hshown' crash Hc').
    destruct (Hshown crash Hc') as [-> | ->]; auto.
Qed.

Lemma create_effect w config :
  ready w -> fates (disk w) = [] -> app w = None -> effect w (fly_app_create config w).1 (fly_app_create config w).2.
Proof.
  intros Hw Hfates Happ. pose proof (ready_disk w Hw) as Hdisk. rewrite Hfates in Hdisk. unfold fly_app_create. cbv zeta.
  destruct (decide _); [by apply quiet_same |]. unfold mbind, M_bind, on_disk. rewrite Hdisk.
  change (mkDisk (files (disk w)) [] [] []) with (calm (files (disk w))). rewrite load_catalog_calm.
  cbn [disk over]. rewrite load_settings_calm. unfold modify, mret, M_ret. cbn [fst snd].
  rewrite <- catalog_on_current, <- settings_on_current.
  apply quiet; [done | symmetry; exact Hdisk |]. destruct Hw as ([H1 H2 H3 H4] & _ & _).
  destruct w as [a l sc dk]. cbn [app scans launches disk over] in *. constructor; cbn [app scans launches disk over].
  - exact H1.
  - eapply Forall_impl; [exact H2 |]. cbn. lia.
  - intros s [= <-]. done.
  - intros s [= <-]. eapply Forall_impl; [exact H2 |]. cbn. lia.
Qed.

Lemma destroy_effect w : ready w -> effect w FLY_RESULT_OK (fly_app_destroy w).2.
Proof.
  intros Hw. apply quiet; [done | done |]. destruct Hw as ([H1 H2 H3 H4] & _ & _). unfold fly_app_destroy, modify. cbn [snd].
  destruct w as [a l sc dk]. cbn [app scans launches disk over] in *. by constructor.
Qed.

Section Reachable.
Context `{ScannerSound}.

Lemma run_effect w c fs : world_ok w -> may_call c fs w -> effect w (run c fs w).1 (run c fs w).2.
Proof using All.
  intros Hw [Hcall Hmay]. pose proof (ready_run w fs Hw) as Hready. unfold run.
  set (w0 := w <| disk := mkDisk (files (disk w)) fs [] [] |>) in *.
  assert (effect w0 (perform c w0).1 (perform c w0).2 -> effect w (perform c w0).1 (perform c w0).2) as Hback by (intros [K1 K2]; by constructor).
  apply Hback. clear Hback. destruct c; cbn [perform].
  - destruct Hmay as [Happ ->]. by apply create_effect.
  - pose proof (destroy_effect w0 Hready) as Hd. unfold mbind, M_bind. destruct (fly_app_destroy w0) as [[] w1]. exact Hd.
  - by apply begin_effect.
  - by apply add_effect.
  - by apply commit_effect.
  - by apply favorite_effect.
  - by apply played_effect.
  - by apply remove_effect.
  - by apply settings_effect.
Qed.

(** The calls that change nothing stored leave the files alone. *)
Lemma quiet_disk w c fs :
  may_call c fs w -> updates c = false ->
  files (disk (run c fs w).2) = files (disk w) /\ shown (disk (run c fs w).2) = [].
Proof using Type.
  intros [_ Hmay] Hc. unfold run. set (w0 := w <| disk := mkDisk (files (disk w)) fs [] [] |>).
  assert (disk w0 = mkDisk (files (disk w)) fs [] []) as Hdisk by done. clearbody w0.
  assert (disk (perform c w0).2 = disk w0) as ->; [| by rewrite Hdisk]. destruct c; try done; cbn [perform].
  - destruct Hmay as [_ ->]. unfold fly_app_create. cbv zeta. destruct (decide _); [done |].
    unfold mbind, M_bind, on_disk. rewrite Hdisk. change (mkDisk (files (disk w)) [] [] []) with (calm (files (disk w))).
    rewrite load_catalog_calm. cbn [disk over]. rewrite load_settings_calm. done.
  - unfold fly_scan_begin, mbind, M_bind, gets. destruct (app w0), config; try done. cbv zeta.
    destruct (decide _); [done |]. by destruct (source_scope_conflicts _ _).
  - unfold fly_scan_add_file, mbind, M_bind, gets. destruct (scans w0 !! handle) as [scan|], file as [f|]; try done. cbv zeta.
    destruct (decide _); [done |]. destruct (closed scan || poisoned scan); [done |]. destruct (negb _); [done |].
    destruct (has_candidate_path _ _); [done |]. by destruct (scan_candidate _ _).
Qed.

Lemma perform_intended w c :
  ready w -> call_ok c -> updates c = true -> as_intended w (intended c w) (perform c w).1 (perform c w).2.
Proof using Type.
  intros Hw Hcall Hc. destruct c; try done.
  - by apply commit_intended.
  - by apply favorite_intended.
  - by apply played_intended.
  - by apply remove_intended.
  - by apply settings_intended.
Qed.

Lemma loads_ok d next : loads d = next -> catalog_ok next.1 -> settings_fit next.2 -> directory_ok d.
Proof. intros <-. by split. Qed.

Lemma crash_ok w c fs d :
  world_ok w -> may_call c fs w -> d ∈ files (disk w) :: shown (disk (run c fs w).2) -> directory_ok d.
Proof using All.
  intros Hw Hmay Hd. apply elem_of_cons in Hd as [-> | Hd]; [apply Hw |].
  destruct (run_effect w c fs Hw Hmay) as [_ (next & H1 & H2 & Hshown & _)]. rewrite Forall_forall in Hshown.
  destruct (Hshown d Hd) as [E | E]; [by apply (loads_ok d _ E); apply Hw | by apply (loads_ok d next)].
Qed.

Lemma reachable_world_ok w0 w : world_ok w0 -> reachable w0 w -> world_ok w.
Proof using All.
  intros Hw0. induction 1 as [| w w' _ IH Hstep]; [done |]. destruct Hstep as [w c fs Hmay | w c fs d Hmay Hd].
  - by apply run_effect.
  - constructor; cbn [app scans launches disk calm files]; try done. by eapply crash_ok.
Qed.

End Reachable.

(** ** What a reconciliation gives *)

Section Reconciled.
Context (source : SourceKey) (completeness : Z) (cs : list CandidateRecord).

(** A path the scan accounted for: indexed or skipped, not rejected. *)
Definition accounted (cs : list CandidateRecord) (e : CatalogEntryData) : bool :=
  same_source (entry_source e) source &&
  existsb (fun c => negb (bool_decide (disposition c = REJECTED)) && bool_decide (source_relative_path e = candidate_path c)) cs.

Definition stale (e : CatalogEntryData) : CatalogEntryData := e <| freshness := FLY_CATALOG_FRESHNESS_STALE |>.
Definition fresh (e : CatalogEntryData) : CatalogEntryData := e <| freshness := FLY_CATALOG_FRESHNESS_FRESH |>.

Definition found (cs : list CandidateRecord) : list CatalogEntryData :=
  mjoin ((fun c => fresh <$> candidate_entries c) <$> List.filter (fun c => bool_decide (disposition c = INDEXED)) cs).

Definition is_fatal : bool := completeness =? FLY_SCAN_COMPLETENESS_FATAL.

(** An entry of the source that stays, as stale. *)
Definition remains (e : CatalogEntryData) : bool :=
  same_source (entry_source e) source &&
  (is_fatal || (negb (accounted cs e) &&
    ((completeness =? FLY_SCAN_COMPLETENESS_PARTIAL) || candidate_is_rejected cs (source_relative_path e)))).

Lemma filter_app {A} (f : A -> bool) l k : List.filter f (l ++ k) = List.filter f l ++ List.filter f k.
Proof using Type. apply List.filter_app. Qed.

Lemma filter_filter {A} (f g : A -> bool) l : List.filter f (List.filter g l) = List.filter (fun a => g a && f a) l.
Proof using Type.
  induction l as [|a l IH]; [done |]. cbn [List.filter]. destruct (g a); cbn [List.filter andb]; [| done].
  by destruct (f a); rewrite IH.
Qed.

Lemma filter_all {A} (f : A -> bool) l : Forall (fun a => f a = true) l -> List.filter f l = l.
Proof using Type. induction 1 as [|a l Ha _ IH]; [done |]. cbn [List.filter]. by rewrite Ha, IH. Qed.

Lemma filter_ext {A} (f g : A -> bool) l : (forall a, f a = g a) -> List.filter f l = List.filter g l.
Proof using Type. intros H. apply List.filter_ext, H. Qed.

Lemma applied_spec l es :
  Forall (candidate_ok source) l -> NoDup (candidate_path <$> l) ->
  fold_left (apply_candidate source) l es = List.filter (fun e => negb (accounted l e)) es ++ found l.
Proof using Type.
  intros Hok. revert es. induction Hok as [|c l Hc Hl IH]; intros es Hdup.
  - unfold found. cbn. rewrite app_nil_r. symmetry. apply filter_all, Forall_forall. intros e _. unfold accounted. cbn.
    by rewrite andb_false_r.
  - rewrite fmap_cons in Hdup. apply NoDup_cons in Hdup as [Hc' Hdup]. cbn [fold_left]. rewrite IH by done.
    assert (forall e, negb (accounted (c :: l) e) =
      negb (same_source (entry_source e) source && (negb (bool_decide (disposition c = REJECTED)) && bool_decide (source_relative_path e = candidate_path c))) &&
      negb (accounted l e)) as Haccounted.
    { intros e. unfold accounted. cbn [existsb]. by destruct (same_source _ _), (_ && bool_decide _), (existsb _ l). }
    rewrite (filter_ext _ _ es Haccounted), <- (filter_filter (fun e => negb (accounted l e))). unfold apply_candidate, found.
    cbn [List.filter]. destruct (decide (disposition c = REJECTED)) as [Er | Hr].
    { rewrite (bool_decide_true (disposition c = REJECTED)) by done. rewrite (bool_decide_false (disposition c = INDEXED)) by congruence.
      rewrite (filter_all (fun e => negb (same_source _ _ && _))); [done |]. apply Forall_forall. intros e _. by rewrite andb_false_r. }
    rewrite (bool_decide_false (disposition c = REJECTED)) by done. cbn [negb andb]. cbv zeta.
    destruct (decide (disposition c = INDEXED)) as [Ei | Hi].
    + rewrite (bool_decide_true (disposition c = INDEXED)) by done. rewrite fmap_cons. change (mjoin (?x :: ?y)) with (x ++ mjoin y).
      rewrite filter_app, <- app_assoc. f_equal. f_equal. apply filter_all. apply Forall_fmap.
      destruct Hc as [Hentries _]. eapply Forall_impl; [exact Hentries |]. intros e (_ & _ & Hpath). unfold compose.
      apply negb_true_iff, andb_false_iff. right. apply existsb_false. intros k Hk. apply andb_false_iff. right.
      apply bool_decide_eq_false. intros E. change (source_relative_path e = candidate_path k) in E. rewrite Hpath in E. apply Hc'. rewrite E. by apply list_elem_of_fmap_2.
    + by rewrite (bool_decide_false (disposition c = INDEXED)).
Qed.

Lemma kept_split es :
  List.filter (fun e => is_fatal || negb (accounted cs e)) (mjoin (keep_entry source completeness cs <$> es)) ≡ₚ
  List.filter (fun e => negb (same_source (entry_source e) source)) es ++ (stale <$> List.filter remains es).
Proof using Type.
  induction es as [|e es IH]; [done |]. rewrite fmap_cons. change (mjoin (?x :: ?y)) with (x ++ mjoin y).
  rewrite filter_app, IH. cbn [List.filter]. unfold keep_entry, remains.
  assert (accounted cs (stale e) = accounted cs e) as Hstale by done.
  destruct (same_source (entry_source e) source) eqn:Es; cbn [negb andb].
  - unfold is_fatal. destruct (completeness =? FLY_SCAN_COMPLETENESS_PARTIAL) eqn:Ep; cbn [orb].
    + cbn [List.filter]. fold (stale e). rewrite Hstale, andb_true_r.
      destruct ((completeness =? FLY_SCAN_COMPLETENESS_FATAL) || negb (accounted cs e)); [| done].
      rewrite fmap_cons. cbn [app]. by rewrite <- Permutation_middle.
    + destruct (completeness =? FLY_SCAN_COMPLETENESS_FATAL) eqn:Ef; cbn [orb].
      * cbn [List.filter]. fold (stale e). rewrite fmap_cons. cbn [app orb]. by rewrite <- Permutation_middle.
      * destruct (candidate_is_rejected cs (source_relative_path e)) eqn:Er; cbn [List.filter]; [| by rewrite andb_false_r].
        fold (stale e). rewrite Hstale, andb_true_r. cbn [orb]. destruct (negb (accounted cs e)); [| done].
        rewrite fmap_cons. cbn [app]. by rewrite <- Permutation_middle.
  - cbn [List.filter]. assert (accounted cs e = false) as -> by (unfold accounted; by rewrite Es). cbn [negb]. by rewrite orb_true_r.
Qed.

End Reconciled.

(** ** Correctness *)

(** C6. While every start could read its files and every status query is answered, the catalogue the application shows
    is the one on disk, and it is well formed.  From a directory that loads a well-formed catalogue (an empty one does), with
    one application open at a time, after any calls in any order, with any system call refused in those that write, with
    any number of crashes inside calls and new starts: the open application shows exactly what a new process would load; no
    source is registered twice, every entry belongs to a registered source, every value is in its type's range, user rows
    are unique, none is ahead of the counters, and no two share a favourite revision or a place in the play sequence.
    (Without those conditions it fails: [unreadable_start_loses_catalogue], and [older_content_returns] in [FileStore].) *)
Theorem reachable_application_consistent `{ScannerSound} (d : gmap string (list Z)) (w : World)
    (Hd : directory_ok d) (Hw : reachable (mkWorld None 0 [] (calm d)) w) :
  directory_ok (files (disk w)) /\
  forall state, app w = Some state ->
    catalog state = catalog_on (files (disk w)) /\ settings state = settings_on (files (disk w)) /\ catalog_ok (catalog state).
Proof.
  apply reachable_world_ok in Hw.
  - split; [apply Hw |]. intros state Happ. destruct (ok_app _ Hw state Happ) as [Hc Hs]. split_and!; [done | done |].
    rewrite Hc. apply Hw.
  - by constructor.
Qed.

(** C7. Every call that changes what is stored does exactly what it is meant to do, or nothing.  When its arguments and the
    state allow no change it fails and touches neither the files nor the application; otherwise, whatever system calls are
    refused in it, it either succeeds, and then a new process loads precisely the intended catalogue and settings and the
    application shows them, or fails with an internal error, and then a new process loads what it loaded before and the
    application shows what it showed; a crash at any point inside leaves one of the two values, catalogue and settings
    together.  It does succeed when no system call is refused and the value fits its file.  The other calls leave the files
    alone.  Status queries are answered and starts can read their files (see [may_call]). *)
Theorem call_is_atomic `{ScannerSound} (w : World) (c : call) (fs : list fate) (Hw : world_ok w) (Hmay : may_call c fs w) :
  let '(r, w') := run c fs w in
  if updates c then
    match intended c w with
    | Some next =>
      ((r = FLY_RESULT_OK /\ loads (files (disk w')) = next /\ app w' = Some (mkApp next.1 next.2)) \/
       (r = FLY_RESULT_INTERNAL_ERROR /\ loads (files (disk w')) = loads (files (disk w)) /\ app w' = app w)) /\
      (forall crash, crash ∈ shown (disk w') -> loads crash = loads (files (disk w)) \/ loads crash = next) /\
      (fs = [] -> is_Some (CatalogPersist.encode_file next.1) -> is_Some (SettingsPersist.encode_file next.2) ->
       r = FLY_RESULT_OK)
    | None => r <> FLY_RESULT_OK /\ files (disk w') = files (disk w) /\ shown (disk w') = [] /\ app w' = app w
    end
  else files (disk w') = files (disk w) /\ shown (disk w') = [].
Proof.
  pose proof (quiet_disk w c fs Hmay) as Hquiet.
  set (w0 := w <| disk := mkDisk (files (disk w)) fs [] [] |>) in *.
  pose proof (perform_intended w0 c (ready_run w fs Hw) (proj1 Hmay)) as Hdone.
  change (run c fs w) with (perform c w0) in *. change (intended c w0) with (intended c w) in Hdone.
  destruct (perform c w0) as [r w']. cbn [fst snd] in *. destruct (updates c); [| by apply Hquiet].
  specialize (Hdone eq_refl). destruct (intended c w) as [next|]; [exact Hdone |].
  destruct Hdone as (Hr & Hd & Ha). by rewrite Hd.
Qed.

(** C17. What a committed scan does to the catalogue.  The entries of other sources stay as they are; of the scan's source
    stay, marked stale, all when the scan was fatal, and otherwise those of paths the scan did not account for that it
    rejected or, when it was partial, did not mention; and the entries it found are added as fresh, except when it was
    fatal.  Nothing else is in the result, and the user rows and counters are those of the moment of the commit. *)
Theorem reconcile_exact (c next : CatalogData) (source : SourceKey) (completeness : Z) (cs : list CandidateRecord)
    (Hcs : Forall (candidate_ok source) cs) (Hpaths : NoDup (candidate_path <$> cs))
    (H : reconcile_catalog c source completeness cs = Some next) :
  entries next ≡ₚ
    List.filter (fun e => negb (same_source (entry_source e) source)) (entries c) ++
    (stale <$> List.filter (remains source completeness cs) (entries c)) ++
    (if completeness =? FLY_SCAN_COMPLETENESS_FATAL then [] else found cs) /\
  generation next = generation c + 1 /\ users next = users c /\
  next_favorite_revision next = next_favorite_revision c /\ next_play_sequence next = next_play_sequence c.
Proof.
  unfold reconcile_catalog in H. destruct (_ =? u64_max); [done |]. cbv zeta in H. apply (inj Some) in H as <-.
  cbn [entries generation users next_favorite_revision next_play_sequence]. split_and!; try done.
  rewrite sort_entries_perm. pose proof (kept_split source completeness cs (entries c)) as Hsplit.
  unfold is_fatal in Hsplit. destruct (completeness =? FLY_SCAN_COMPLETENESS_FATAL); cbn [negb orb] in *.
  - rewrite (filter_all (fun _ => true)) in Hsplit by (by apply Forall_forall). by rewrite app_nil_r, Hsplit.
  - rewrite (applied_spec source) by done. by rewrite Hsplit, app_assoc.
Qed.

(** C26. The first of two scans to commit wins.  When a scan was committed with success, every other scan begun against the
    same generation is refused with a conflict, whatever it collected, and the refusal leaves the catalogue on disk. *)
Theorem first_commit_wins `{Scanner} (w w1 : World) (h1 h2 : nat) (k1 k2 : Z) (fs1 fs2 : list fate) (s2 : Scan)
    (Hne : h1 <> h2) (Hs2 : scans w !! h2 = Some s2)
    (Hopen : closed s2 = false /\ poisoned s2 = false) (Hbase : forall s1, scans w !! h1 = Some s1 -> base_generation s1 = base_generation s2)
    (Howner : owner s2 = launches w) (Hk : is_valid_completeness k2 = true)
    (H1 : run (ScanCommit h1 k1) fs1 w = (FLY_RESULT_OK, w1)) :
  (run (ScanCommit h2 k2) fs2 w1).1 = FLY_RESULT_CONFLICT /\ files (disk (run (ScanCommit h2 k2) fs2 w1).2) = files (disk w1).
Proof.
  unfold run, perform, fly_scan_commit in H1. unfold mbind at 1, M_bind at 1, gets at 1 in H1. cbn [scans over] in H1.
  destruct (scans w !! h1) as [s1|] eqn:Hs1; [| done]. destruct (negb _); [done |]. destruct (closed s1 || poisoned s1); [done |].
  unfold mbind at 1, M_bind at 1, set_scan at 1, modify at 1 in H1. unfold mbind at 1, M_bind at 1, gets at 1 in H1.
  destruct (lock_app s1 _) as [state|] eqn:Hlock; [| done]. apply lock_app_some in Hlock as [Happ _]. cbn [app over] in Happ.
  destruct (Z.eqb_spec (generation (catalog state)) (base_generation s1)) as [Hgen |]; [| done]. cbn [negb] in H1.
  destruct (reconcile_catalog _ _ _ _) as [next|] eqn:Hnext; [| done].
  assert (generation next = generation (catalog state) + 1) as Hgrown.
  { unfold reconcile_catalog in Hnext. destruct (_ =? u64_max); [done |]. by apply (inj Some) in Hnext as <-. }
  unfold commit_catalog, on_disk, mbind, M_bind in H1. cbn [disk over] in H1.
  destruct (save_catalog next _) as [[|] d1]; [| done]. cbn [negb] in H1. unfold set_catalog, modify, mret, M_ret in H1.
  injection H1 as <-. cbn [app over] in *. specialize (Hbase s1 eq_refl).
  unfold run, perform, fly_scan_commit, mbind, M_bind, gets. cbn [scans over].
  rewrite list_lookup_alter_ne by done. rewrite Hs2, Hk. destruct Hopen as [-> ->]. cbn [negb orb].
  unfold set_scan, modify, lock_app. cbn [owner launches app over]. rewrite (bool_decide_true (owner s2 = launches w)) by done.
  rewrite Happ. cbn [fmap option_fmap option_map catalog over].
  destruct (Z.eqb_spec (generation next) (base_generation s2)); [lia |]. done.
Qed.

(** The settings and the catalogue of a new directory. *)
Lemma empty_directory_ok : directory_ok ∅.
Proof.
  split.
  - assert (catalog_on ∅ = catalog_empty) as -> by (by rewrite catalog_on_current). constructor; cbn; try constructor; try (by constructor).
    all: try (split; [lia | reflexivity]). all: intros u v Hu; by apply elem_of_nil in Hu.
  - assert (settings_on ∅ = settings_default) as -> by (by rewrite settings_on_current).
    constructor; [| | vm_compute; discriminate | vm_compute; discriminate];
      repeat (apply Forall_cons; split); try apply Forall_nil_2; (split; [discriminate | reflexivity]).
Qed.

(** ** Instances of the properties *)

(** A scanner that throws on every file. *)
#[local] Instance no_scanner : Scanner := {| scan_candidate _ _ := None |}.

#[local] Instance no_scanner_sound : ScannerSound.
Proof. by constructor. Qed.

(** A load that cannot read the file takes it for a missing one: the application opens with the empty catalogue over a
    stored one, and the next save replaces the stored one. *)
Example unreadable_start_loses_catalogue (stored : bytes) :
  let d := <[CatalogPersist.live_path := stored]> (∅ : gmap string (list Z)) in
  (load_catalog (mkDisk d [Refused 0] [] [])).1 = catalog_empty /\ catalog_on d = decode_held (Some stored).
Proof. split; [done |]. by rewrite catalog_on_current. Qed.

Definition demo_config : fly_app_config := mkConfig 40 1 (Some [100]) (Some [99]) (Some (mkCapabilities 16 1)).
Definition demo_start : World := mkWorld None 0 [] (calm ∅).
Definition demo_open : World := (run (Create (Some demo_config)) [] demo_start).2.
Definition demo_favorite : call := FavoriteSet (Some (ascii_bytes "game")) 1.

Lemma demo_start_ok : world_ok demo_start.
Proof. constructor; [exact empty_directory_ok | constructor | done | done]. Qed.

Lemma demo_open_ok : world_ok demo_open.
Proof. by apply run_effect; [exact demo_start_ok |]. Qed.

(** A favourite whose publication loses its rename, then a crash in a second one. *)
Lemma reachable_application_consistent_witness :
  let w1 := (run demo_favorite [Done; Done; Done; Done; Done; Done; Refused 0] demo_open).2 in
  let w2 := mkWorld None (launches w1) [] (calm (files (disk w1))) in
  reachable demo_start w2 /\ directory_ok (files (disk w2)).
Proof.
  intros w1 w2.
  assert (reachable demo_start w2) as Hreach.
  { eapply reach_step; [eapply reach_step; [eapply reach_step; [apply reach_start |] |] |].
    - by apply (step_call demo_start (Create (Some demo_config)) []).
    - by apply (step_call demo_open demo_favorite [Done; Done; Done; Done; Done; Done; Refused 0]).
    - apply (step_crash w1 demo_favorite []); [done | apply list_elem_of_here]. }
  split; [done |]. exact (proj1 (reachable_application_consistent ∅ w2 empty_directory_ok Hreach)).
Defined.

(** The value a favourite is to give, and a write refused in the middle of it. *)
Definition demo_favored : CatalogData * SettingsData := (favor catalog_empty (ascii_bytes "game") true, settings_default).

Lemma call_is_atomic_witness :
  world_ok demo_open /\ intended demo_favorite demo_open = Some demo_favored /\
  (run demo_favorite [] demo_open).1 = FLY_RESULT_OK /\
  (forall crash, crash ∈ shown (disk (run demo_favorite [Done; Done; Refused 3] demo_open).2) ->
      loads crash = loads (files (disk demo_open)) \/ loads crash = demo_favored).
Proof.
  split; [exact demo_open_ok |]. assert (intended demo_favorite demo_open = Some demo_favored) as E by (vm_compute; reflexivity).
  split; [exact E |].
  assert (is_Some (CatalogPersist.encode_file demo_favored.1)) as He1 by (apply (bool_decide_unpack _); vm_compute; exact I).
  assert (is_Some (SettingsPersist.encode_file demo_favored.2)) as He2 by (apply (bool_decide_unpack _); vm_compute; exact I).
  split.
  - pose proof (call_is_atomic demo_open demo_favorite [] demo_open_ok (conj I I)) as H. destruct (run demo_favorite [] demo_open) as [r w'].
    cbn [updates demo_favorite] in H. fold demo_favorite in H. rewrite E in H. destruct H as (_ & _ & H). by apply H.
  - pose proof (call_is_atomic demo_open demo_favorite [Done; Done; Refused 3] demo_open_ok (conj I I)) as H.
    destruct (run demo_favorite [Done; Done; Refused 3] demo_open) as [r w'].
    cbn [updates demo_favorite] in H. fold demo_favorite in H. rewrite E in H. by destruct H as (_ & H & _).
Defined.

Definition demo_source : SourceKey := mkKey (repeat 7 16) 2.
Definition demo_entry (path : bytes) : CatalogEntryData :=
  mkCatalogEntry demo_source 4 4 4 0 0 0 0 0 (repeat 0 20) (repeat 0 32) (repeat 0 32) (repeat 0 4) 1 1 1 1 1 0
    (ascii_bytes "game") (ascii_bytes "v") (ascii_bytes "name") path (ascii_bytes "p") [] (-1).

Lemma demo_entry_ok path : entry_fits (demo_entry path).
Proof.
  constructor; repeat (apply Forall_cons; split); try apply Forall_nil_2;
    first [by split_and! | by split | (split; [by compute | reflexivity])].
Qed.

(** Of two known paths a complete scan finds one again. *)
Lemma reconcile_exact_witness :
  let c := mkCatalog 5 [demo_entry [97]; demo_entry [98]] [mkSource demo_source 1] [] 0 0 in
  let cs := [mkCandidate [98] INDEXED 1 [demo_entry [98]]] in
  exists next, reconcile_catalog c demo_source 1 cs = Some next /\ entries next ≡ₚ [demo_entry [98]].
Proof.
  intros c cs. destruct (reconcile_catalog c demo_source 1 cs) as [next|] eqn:E; [| by vm_compute in E].
  exists next. split; [done |].
  apply (reconcile_exact c next demo_source 1 cs); [| by apply (bool_decide_unpack _) | exact E].
  constructor; [| constructor]. constructor; [| done]. cbn [candidate_entries cs]. constructor; [| constructor].
  by split_and!; [apply demo_entry_ok | |].
Defined.

(** Two scans of the same generation. *)
Definition demo_scan : Scan := mkScanHandle 1 demo_source 0 [] false false.
Definition demo_scans : World := mkWorld (Some (mkApp catalog_empty settings_default)) 1 [demo_scan; demo_scan] (calm ∅).

Lemma commit_calm next w : encode_file next <> None -> disk w = calm ∅ -> (commit_catalog next w).1 = FLY_RESULT_OK.
Proof.
  intros Hencode Hdisk. unfold commit_catalog, on_disk, mbind, M_bind. rewrite Hdisk. unfold save_catalog.
  destruct (encode_file next) as [file|]; [| done].
  pose proof (publish_calm CatalogPersist.live_path CatalogPersist.tmp_path CatalogPersist.bak_path file ∅ CatalogPersist.paths_distinct) as H.
  destruct (publish _ _ _ _ _) as [saved d]. cbn [fst] in H. by subst saved.
Qed.

Lemma first_commit_wins_witness :
  (run (ScanCommit 0 1) [] demo_scans).1 = FLY_RESULT_OK /\
  (run (ScanCommit 1 1) [] (run (ScanCommit 0 1) [] demo_scans).2).1 = FLY_RESULT_CONFLICT.
Proof.
  assert ((run (ScanCommit 0 1) [] demo_scans).1 = FLY_RESULT_OK) as Hok.
  { apply (commit_calm (mkCatalog 1 [] [mkSource demo_source 1] [] 0 0)); [| done]. vm_compute. discriminate. }
  split; [exact Hok |]. pose proof (surjective_pairing (run (ScanCommit 0 1) [] demo_scans)) as E. rewrite Hok in E.
  assert (forall s1, scans demo_scans !! 0%nat = Some s1 -> base_generation s1 = base_generation demo_scan) as Hbase by (by intros s1 [= <-]).
  exact (proj1 (first_commit_wins demo_scans _ 0 1 1 1 [] [] demo_scan (O_S 0) eq_refl (conj eq_refl eq_refl) Hbase eq_refl eq_refl E)).
Defined.
