(* ===== verification/CatalogScan.v ===== *)
(** * Scanning a file into catalogue entries ([shared/src/app/flynes_app.cpp])

    A file is read through its borrowed descriptor, hashed, and parsed as a ROM, or opened as an archive whose members are;
    each recognised ROM becomes an entry named by hashes.  It is the implementation of the interface [Scanner] of
    [CatalogApp], on top of the parser, the archive, the hashers and the identifiers.

    An exception is [None]; zlib is the parameter [Zlib], and what is shown holds for every table [GbkTable]. *)

From stdpp Require Import pretty.
From S2P Require Import Prelude Sha256 Utf8 ZipArchive ZipPayload RomParser ContentIdentity PersistCodec ContentIds AppText GbkRuns CatalogPersist CatalogApp.

Definition FLY_SCAN_MAX_PACKAGE_BYTES : Z := 8388608.
Definition FLY_SCAN_MAX_PAYLOAD_BYTES : Z := 8388608.

Definition FLY_SCAN_FILE_REASON_INDEXED : Z := 1.
Definition FLY_SCAN_FILE_REASON_NO_CATALOGABLE_ROM : Z := 2.
Definition FLY_SCAN_FILE_REASON_IO_ERROR : Z := 3.
Definition FLY_SCAN_FILE_REASON_PACKAGE_LIMIT_EXCEEDED : Z := 4.
Definition FLY_SCAN_FILE_REASON_HASH_MISMATCH : Z := 5.
Definition FLY_SCAN_FILE_REASON_INVALID_ZIP : Z := 6.
Definition FLY_PACKAGE_FORMAT_RAW : Z := 1.
Definition FLY_PACKAGE_FORMAT_ZIP : Z := 2.

(** ** Reading the descriptor *)

Inductive DescriptorReadStatus := READ_OK | IO_ERROR | TOO_LARGE.

(** The loop over [pread]; an interrupted call is made again.  A read gives at least one byte before the end. *)
Fixpoint read_descriptor_loop (fuel : nat) (reads : list read_fate) (content : bytes) (offset : Z) (acc : bytes)
    : DescriptorReadStatus * bytes :=
  match fuel with
  | O => (IO_ERROR, acc)
  | S fuel =>
    let room := FLY_SCAN_MAX_PACKAGE_BYTES + 1 - offset in
    let requested := Z.min 8192 room in
    let '(outcome, reads) := match reads with [] => (Reads requested, []) | outcome :: reads => (outcome, reads) end in
    match outcome with
    | ReadFailed => (IO_ERROR, acc)
    | Interrupted => read_descriptor_loop fuel reads content offset acc
    | Reads most =>
      let amount := Z.min (Z.min (Z.max 1 most) requested) (zlen content - offset) in
      if amount =? 0 then (READ_OK, acc)
      else
        let acc := acc ++ slice content offset amount in
        let offset := offset + amount in
        if FLY_SCAN_MAX_PACKAGE_BYTES <? offset then (TOO_LARGE, [])
        else read_descriptor_loop fuel reads content offset acc
    end
  end.

Definition read_descriptor_bounded (d : descriptor) : DescriptorReadStatus * bytes :=
  if fd d <? 0 then (IO_ERROR, [])
  else read_descriptor_loop (S (length (reads d) + length (content d))) (reads d) (content d) 0 [].

(** ** Conversions *)

(** [digits[value & 0x0F]] *)
Definition hex_digit (value : Z) : Z := at_ uppercase_hex (Z.land value 0xF).
Definition bytes_hex (data : bytes) : bytes := mjoin ((fun b => [hex_digit (Z.shiftr b 4); hex_digit b]) <$> data).

Definition decode_hex (size : Z) (text : bytes) : option bytes := if negb (zlen text =? 2 * size) then None else unhex text.

(** [std::to_string] *)
Definition to_string (value : Z) : bytes := ascii_bytes (pretty value).

Definition abi_rom_format (format : RomFormat) : Z := match format with INES => 1 | NES2 => 2 | FDS => 3 | UNIF => 4 | UNKNOWN => 0 end.

Definition abi_compatibility_state (state : CompatibilityState) : Z :=
  match state with PLAYABLE => 1 | UNSUPPORTED => 2 | INVALID => 3 | STATE_UNKNOWN => 0 end.

Definition abi_compatibility_reason (reason : CompatibilityReason) : Z :=
  match reason with
  | PLAYABLE_NES => 1 | FDS_BIOS_API_NOT_IMPLEMENTED => 2 | UNIF_PRODUCT_DISABLED => 3 | NES_HEADER_INVALID => 4
  | NES_ZERO_PRG => 5 | NES_TRUNCATED => 6 | NES_SIZE_OVERFLOW => 7 | FDS_INVALID_HEADER => 8 | FDS_INVALID_SIDE_COUNT => 9
  | FDS_TRUNCATED => 10 | UNIF_INVALID_CHUNK => 11 | UNIF_MISSING_PRG => 12 | UNKNOWN_FORMAT => 0
  end.

Definition abi_entry_flags (parsed : RomParseResult) (is_zip : bool) : Z :=
  let flags := if is_zip then 0x10 else 0 in
  let flags := if battery (analysis parsed) then Z.lor flags 1 else flags in
  let flags := if trainer (analysis parsed) then Z.lor flags 2 else flags in
  fold_left (fun flags warning => match warning with TRAILING_DATA => Z.lor flags 4 | DIRTY_HEADER => Z.lor flags 8 | _ => flags end)
    (take (Z.to_nat (warning_count (analysis parsed))) (warnings (analysis parsed))) flags.

Definition source_identity (source : SourceKey) : bytes :=
  ascii_bytes "source:" ++ to_string (scope source) ++ ascii_bytes ":" ++ bytes_hex (uuid source).

(** ** Entries *)

(** The text of a result, or an exception. *)
Definition text_or_throw (result : TextResult) : option bytes := if negb (ok result) then None else Some (text_value result).

(** [zip] is the raw name and the header offset of an archive's member. *)
Definition make_catalog_entry (source : SourceKey) (path display payload physical physical_hash : bytes) (parsed : RomParseResult)
    (package_format : Z) (zip : option (bytes * Z)) : option CatalogEntryData :=
  match hash_rom_content (Some payload) (zlen payload) (Some physical) (zlen physical) with
  | inl _ => None
  | inr hashes =>
    if negb (bool_decide (physical_package_sha256 hashes = physical_hash)) then None
    else
      let package := ContentIds.package_id (source_identity source) path in
      let canonical := provisional_game_id (ContentIdentity.payload_sha256 hashes) in
      let locator := match zip with
                     | Some (raw_name, offset) => bytes_hex raw_name ++ ascii_bytes "@" ++ to_string offset
                     | None => ascii_bytes "RAW"
                     end in
      package_text ← text_or_throw package;
      canonical_text ← text_or_throw canonical;
      variant_text ← text_or_throw (ContentIds.variant_id package_text locator (ContentIdentity.payload_sha256 hashes));
      sha1 ← decode_hex 20 (ContentIdentity.payload_sha1 hashes);
      sha256 ← decode_hex 32 (ContentIdentity.payload_sha256 hashes);
      physical_sha256 ← decode_hex 32 (physical_package_sha256 hashes);
      crc ← decode_hex 4 (ContentIdentity.crc32 hashes);
      let a := analysis parsed in
      Some (mkCatalogEntry source (zlen payload) (zlen physical) (expected_bytes a) (prg_bytes a) (chr_bytes a) (mapper a) (submapper a)
              (u32 (disk_sides a)) sha1 sha256 physical_sha256 crc package_format (abi_rom_format (format parsed))
              (abi_compatibility_state (state parsed)) (abi_compatibility_reason (reason parsed)) FLY_CATALOG_FRESHNESS_FRESH
              (abi_entry_flags parsed (bool_decide (is_Some zip))) canonical_text variant_text display path package_text
              (match zip with Some (raw_name, _) => raw_name | None => [] end)
              (match zip with Some (_, offset) => offset | None => -1 end))
  end.

Definition rejected_candidate (path : bytes) (reason : Z) : CandidateRecord := mkCandidate path REJECTED reason [].
Definition skipped_candidate (path : bytes) : CandidateRecord := mkCandidate path SKIPPED FLY_SCAN_FILE_REASON_NO_CATALOGABLE_ROM [].

Definition expected_hash_matches (file : fly_scan_file) (physical_hash : bytes) : bool :=
  if Z.land (file_flags file) FLY_SCAN_FILE_FLAG_EXPECTED_PHYSICAL_SHA256 =? 0 then true
  else match decode_hex 32 physical_hash with Some actual => bool_decide (actual = expected_physical_sha256 file) | None => false end.

Definition scan_raw_candidate (source : SourceKey) (path display physical physical_hash : bytes) : option CandidateRecord :=
  if is_executable_name path || is_executable_name display then Some (skipped_candidate path)
  else
    let parsed := parse_rom_payload (view_of physical) in
    if negb (recognized parsed) then Some (skipped_candidate path)
    else
      entry ← make_catalog_entry source path display physical physical physical_hash parsed FLY_PACKAGE_FORMAT_RAW None;
      Some (mkCandidate path INDEXED FLY_SCAN_FILE_REASON_INDEXED [entry]).

Section Scan.
Context `{Zlib} `{GbkTable}.

(** The loop over the members: whether one was refused, and the entries so far. *)
Fixpoint scan_members (source : SourceKey) (path physical physical_hash : bytes) (archive : BoundedZipArchive)
    (members : list BoundedZipEntry) (payload_error : bool) (found : list CatalogEntryData) : option (bool * list CatalogEntryData) :=
  match members with
  | [] => Some (payload_error, found)
  | member :: members =>
    let go_on := scan_members source path physical physical_hash archive members in
    let e := central member in
    if is_directory member then go_on payload_error found
    else
      match strict_zip_display_path (raw_name e) with
      | None => go_on payload_error found
      | Some decoded_path =>
        if is_executable_name decoded_path then go_on payload_error found
        else if FLY_SCAN_MAX_PAYLOAD_BYTES <? uncompressed_size e then go_on true found
        else
          match read_bounded_zip_payload archive (raw_name e) (local_header_offset e) with
          | inl _ => None
          | inr (inl _) => go_on true found
          | inr (inr payload) =>
            let parsed := parse_rom_payload (view_of payload) in
            if negb (recognized parsed) then go_on payload_error found
            else
              entry ← make_catalog_entry source path decoded_path payload physical physical_hash parsed FLY_PACKAGE_FORMAT_ZIP
                        (Some (raw_name e, local_header_offset e));
              go_on payload_error (found ++ [entry])
          end
      end
  end.

Definition scan_zip_candidate (source : SourceKey) (path physical physical_hash : bytes) : option CandidateRecord :=
  match open_bounded_zip (Some physical) (zlen physical) defaults with
  | inl _ => None
  | inr (inl _) => Some (rejected_candidate path FLY_SCAN_FILE_REASON_INVALID_ZIP)
  | inr (inr archive) =>
    '(payload_error, found) ← scan_members source path physical physical_hash archive (entries_ archive) false [];
    Some (if negb (bool_decide (found = [])) then mkCandidate path INDEXED FLY_SCAN_FILE_REASON_INDEXED found
          else if (payload_error : bool) then mkCandidate path REJECTED FLY_SCAN_FILE_REASON_INVALID_ZIP found
          else mkCandidate path SKIPPED FLY_SCAN_FILE_REASON_NO_CATALOGABLE_ROM found)
  end.

Definition scan_file_candidate (source : SourceKey) (file : fly_scan_file) : option CandidateRecord :=
  let path := default [] (file_path file) in
  let display := default [] (file_display file) in
  match read_descriptor_bounded (borrowed_fd file) with
  | (IO_ERROR, _) => Some (rejected_candidate path FLY_SCAN_FILE_REASON_IO_ERROR)
  | (TOO_LARGE, _) => Some (rejected_candidate path FLY_SCAN_FILE_REASON_PACKAGE_LIMIT_EXCEEDED)
  | (READ_OK, data) =>
    let physical_hash := sha256_hex (Some data) (zlen data) in
    if negb (ok physical_hash) then None
    else if negb (expected_hash_matches file (text_value physical_hash)) then
      Some (rejected_candidate path FLY_SCAN_FILE_REASON_HASH_MISMATCH)
    else if has_zip_signature data then scan_zip_candidate source path data (text_value physical_hash)
    else scan_raw_candidate source path display data (text_value physical_hash)
  end.

#[global] Instance catalog_scanner : Scanner := {| scan_candidate := scan_file_candidate |}.

End Scan.

(** ** The descriptor *)

Lemma read_descriptor_loop_spec fuel reads content offset acc :
  (length reads + Z.to_nat (zlen content - offset) < fuel)%nat -> 0 <= offset <= zlen content -> offset <= FLY_SCAN_MAX_PACKAGE_BYTES ->
  acc = slice content 0 offset ->
  match read_descriptor_loop fuel reads content offset acc with
  | (READ_OK, out) => out = content /\ zlen content <= FLY_SCAN_MAX_PACKAGE_BYTES
  | (TOO_LARGE, _) => FLY_SCAN_MAX_PACKAGE_BYTES < zlen content
  | (IO_ERROR, _) => ReadFailed ∈ reads
  end.
Proof.
  revert reads offset acc. induction fuel as [|fuel IH]; intros reads offset acc Hfuel Hoffset Hmax Hacc; [lia |].
  cbn [read_descriptor_loop]. cbv zeta. set (requested := Z.min 8192 (FLY_SCAN_MAX_PACKAGE_BYTES + 1 - offset)).
  assert (1 <= requested <= FLY_SCAN_MAX_PACKAGE_BYTES + 1 - offset) as Hreq by lia.
  assert (forall most reads', (length reads' <= length reads)%nat -> (forall x, x ∈ reads' -> x ∈ reads) ->
    match
      (let amount := Z.min (Z.min (Z.max 1 most) requested) (zlen content - offset) in
       if amount =? 0 then (READ_OK, acc)
       else if FLY_SCAN_MAX_PACKAGE_BYTES <? offset + amount then (TOO_LARGE, [])
       else read_descriptor_loop fuel reads' content (offset + amount) (acc ++ slice content offset amount))
    with
    | (READ_OK, out) => out = content /\ zlen content <= FLY_SCAN_MAX_PACKAGE_BYTES
    | (TOO_LARGE, _) => FLY_SCAN_MAX_PACKAGE_BYTES < zlen content
    | (IO_ERROR, _) => ReadFailed ∈ reads
    end) as Hread.
  { intros most reads' Hlen Hin. cbv zeta. set (amount := Z.min (Z.min (Z.max 1 most) requested) (zlen content - offset)).
    assert (0 <= amount <= zlen content - offset /\ amount <= requested) as Ha by lia.
    destruct (Z.eqb_spec amount 0) as [E | E].
    { assert (offset = zlen content) as -> by lia. split; [| lia]. by rewrite Hacc, slice_all. }
    destruct (Z.ltb_spec FLY_SCAN_MAX_PACKAGE_BYTES (offset + amount)); [lia |].
    specialize (IH reads' (offset + amount) (acc ++ slice content offset amount)).
    assert (acc ++ slice content offset amount = slice content 0 (offset + amount)) as Hnext.
    { rewrite Hacc. symmetry. rewrite (slice_split content 0 offset) by lia. rewrite Z.add_0_l. by replace (offset + amount - offset) with amount by lia. }
    destruct (read_descriptor_loop fuel reads' _ _ _) as [[] out]; [apply IH | | apply IH]; try done; try lia.
    apply Hin, IH; try done; lia. }
  destruct reads as [|[most | |] reads].
  - apply Hread; [done | done].
  - apply Hread; [cbn; lia |]. intros x Hx. by apply list_elem_of_further.
  - specialize (IH reads offset acc). cbn [length] in Hfuel.
    destruct (read_descriptor_loop fuel reads content offset acc) as [[] out]; [apply IH | apply list_elem_of_further, IH | apply IH]; done || lia.
  - apply list_elem_of_here.
Qed.

Lemma read_descriptor_spec d :
  match read_descriptor_bounded d with
  | (READ_OK, out) => out = content d /\ zlen (content d) <= FLY_SCAN_MAX_PACKAGE_BYTES
  | (TOO_LARGE, _) => FLY_SCAN_MAX_PACKAGE_BYTES < zlen (content d)
  | (IO_ERROR, _) => fd d < 0 \/ ReadFailed ∈ reads d
  end.
Proof.
  unfold read_descriptor_bounded. destruct (Z.ltb_spec (fd d) 0); [by left |].
  pose proof (read_descriptor_loop_spec (S (length (reads d) + length (content d))) (reads d) (content d) 0 []) as H'.
  destruct (read_descriptor_loop _ _ _ _ _) as [[] out]; [apply H' | right; apply H' | apply H'];
    try done; unfold zlen, FLY_SCAN_MAX_PACKAGE_BYTES; lia.
Qed.

(** ** Hexadecimal texts *)

Lemma zlen_unhex text out : unhex text = Some out -> zlen text = 2 * zlen out.
Proof.
  revert out. induction text as [text IH] using (induction_ltof1 _ length). intros out H.
  destruct text as [|h [|l text]]; [by injection H as <- | done |]. cbn [unhex] in H. destruct (_ || _); [done |].
  destruct (unhex text) as [rest|] eqn:E; [| done]. injection H as <-. apply IH in E; [| unfold ltof; cbn; lia].
  rewrite !zlen_cons. lia.
Qed.

Lemma decode_hex_length n text out : decode_hex n text = Some out -> zlen out = n.
Proof.
  unfold decode_hex. destruct (Z.eqb_spec (zlen text) (2 * n)); [| done]. cbn [negb]. intros H. apply zlen_unhex in H. lia.
Qed.

Lemma decode_hex_upper n l : is_bytes l -> zlen l = n -> decode_hex n (hex_upper l) = Some l.
Proof. intros Hl <-. unfold decode_hex. rewrite zlen_hex_upper, Z.eqb_refl. cbn [negb]. by apply unhex_hex_upper. Qed.

(** An upper-case hexadecimal digit. *)
Definition upper_digit (c : Z) : Prop := 0x30 <= c <= 0x39 \/ 0x41 <= c <= 0x46.

Lemma hex_upper_digits l : is_bytes l -> Forall upper_digit (hex_upper l).
Proof.
  assert (forallb (fun i => let c := at_ uppercase_hex i in ((0x30 <=? c) && (c <=? 0x39)) || ((0x41 <=? c) && (c <=? 0x46))) (seqZ 0 16) = true) as Hall
    by (vm_compute; reflexivity).
  rewrite forallb_forall in Hall.
  assert (forall i, 0 <= i < 16 -> upper_digit (at_ uppercase_hex i)) as Hdigit.
  { intros i Hi. specialize (Hall i (proj1 (list_elem_of_In _ _) (proj2 (elem_of_seqZ 0 16 i) ltac:(lia)))). cbv zeta in Hall. unfold upper_digit. lia. }
  induction 1 as [|b l Hb _ IH]; [constructor |]. unfold hex_upper in *. rewrite fmap_cons. change (mjoin (?x :: ?y)) with (x ++ mjoin y).
  apply Forall_app. split; [| done]. unfold is_byte in Hb.
  repeat apply Forall_cons_2; [apply Hdigit | apply Hdigit | constructor].
  - rewrite Z.shiftr_div_pow2 by lia. change (2 ^ 4) with 16. Z.to_euclidean_division_equations; lia.
  - change 0xF with (Z.ones 4). rewrite Z.land_ones by lia. change (2 ^ 4) with 16. Z.to_euclidean_division_equations; lia.
Qed.

Lemma encoded_digits text : Forall upper_digit text -> encoded text = text /\ Forall scalar text /\ total_units text = zlen text.
Proof.
  induction 1 as [|c text Hc _ (IH1 & IH2 & IH3)]; [done |]. unfold upper_digit in Hc.
  change (encoded (c :: text)) with (utf8 c ++ encoded text). rewrite IH1. split_and!.
  - unfold utf8. by destruct (Z.ltb_spec c 0x80); [| lia].
  - constructor; [unfold scalar; lia | done].
  - rewrite zlen_cons. change (total_units (c :: text)) with (units_of c + total_units text). unfold units_of.
    destruct (Z.ltb_spec 0xFFFF c); lia.
Qed.

Lemma normalize_loop_digits text acc : Forall upper_digit text -> normalize_loop text acc = text_ok (acc ++ text).
Proof.
  intros Ht. revert acc. induction Ht as [|c text Hc _ IH]; intros acc; cbn [normalize_loop]; [by rewrite app_nil_r |].
  unfold upper_digit in Hc. cbv zeta. replace (_ && _ && _) with false by lia. replace ((0x61 <=? c) && (c <=? 0x66)) with false by lia.
  rewrite IH. by rewrite <- app_assoc.
Qed.

(** A digest's text is its own normal form. *)
Lemma normalize_digest digest : is_bytes digest -> zlen digest = 32 -> normalize_sha256 (hex_upper digest) = text_ok (hex_upper digest).
Proof.
  intros Hb Hlen. pose proof (hex_upper_digits digest Hb) as Hdigits. destruct (encoded_digits _ Hdigits) as (E & Hs & Hu).
  pose proof (zlen_hex_upper digest) as Hz. unfold normalize_sha256.
  destruct (Z.ltb_spec (zlen (hex_upper digest)) 64); [lia |]. destruct (Z.ltb_spec 192 (zlen (hex_upper digest))); [lia |]. cbn [orb].
  pose proof (scan_encoded (hex_upper digest) 0 true Hs) as Hscan. rewrite E in Hscan.
  unfold scan_utf8. rewrite Hscan. cbv zeta. cbn [valid utf16_units]. rewrite Hu.
  destruct (Z.eqb_spec (0 + zlen (hex_upper digest)) 64); [| lia]. cbn [negb andb].
  by apply (normalize_loop_digits (hex_upper digest) []).
Qed.

(** ** What the parser reports fits its types *)

Record analysis_fits (a : RomAnalysis) : Prop := {
  fit_analysis_sizes : Forall (unsigned 64) [expected_bytes a; prg_bytes a; chr_bytes a];
  fit_analysis_mapper : Forall signed32 [mapper a; submapper a];
}.

Lemma append_warning_fits a w : analysis_fits a -> analysis_fits (append_warning a w).
Proof. intros [H1 H2]. unfold append_warning. by destruct (_ <? _). Qed.

Lemma basic_fits n : unsigned 64 n -> analysis_fits (basic_analysis n).
Proof.
  intros Hn. constructor; cbn; repeat apply Forall_cons_2; try apply Forall_nil_2; try done; unfold unsigned, signed32; lia.
Qed.

Lemma nes_result_fits v is2 m sm prg chr (tr bat : bool) :
  is_byte (byte_at v 6) -> unsigned 64 prg -> unsigned 64 chr -> signed32 m -> signed32 sm ->
  analysis_fits (analysis (nes_result v is2 m sm prg chr tr bat)).
Proof.
  intros Hb Hp Hc Hm Hsm. unfold nes_result. cbv zeta.
  set (a0 := if negb is2 && _ then _ else _).
  assert (Forall (unsigned 64) [prg_bytes a0; chr_bytes a0] /\ Forall signed32 [mapper a0; submapper a0]) as [H1 H2].
  { assert (signed32 (Z.shiftr (byte_at v 6) 4)) as Hshift.
    { unfold is_byte, signed32 in *. rewrite Z.shiftr_div_pow2 by lia. change (2 ^ 4) with 16. Z.to_euclidean_division_equations; lia. }
    subst a0. destruct (_ && _); cbn; split; repeat apply Forall_cons_2; try apply Forall_nil_2; done. }
  apply Forall_cons in H1 as [H1 H1'].
  assert (forall e, unsigned 64 e -> analysis_fits (a0 <| expected_bytes := e |>)) as Hexpected.
  { intros e He. constructor; [| exact H2]. repeat apply Forall_cons_2; [exact He | exact H1 | by inversion H1' | constructor]. }
  destruct (_ ≫= _) as [expected|] eqn:E; [| apply Hexpected; unfold unsigned; lia].
  assert (unsigned 64 expected) as He.
  { destruct (checked_signed_add prg chr) as [s|] eqn:Es; [| done]. cbn [mbind option_bind] in E.
    unfold checked_signed_add, signed_64_max in E, Es. destruct (_ || _) eqn:G in Es; [done |]. destruct (_ || _) eqn:G' in E; [done |].
    injection Es as <-. injection E as <-. bool_hyps. unfold unsigned, ines_header_bytes, trainer_bytes in *. destruct tr; lia. }
  specialize (Hexpected expected He). set (a := a0 <| expected_bytes := expected |>) in *. clearbody a.
  destruct (prg =? 0); [done |]. destruct (_ <? _); [done |]. cbn [analysis]. destruct (_ <? _); [by apply append_warning_fits | done].
Qed.

Lemma multiply_fits l r v : 0 <= l -> checked_signed_multiply l r = Some v -> unsigned 64 v.
Proof.
  unfold checked_signed_multiply. destruct (_ && _); [done |]. intros _ [= <-]. unfold unsigned, u64. apply Z.mod_pos_bound. lia.
Qed.

Lemma nes2_fits low nibble unit_ v : 0 <= low -> 0 <= nibble -> nes2_size low nibble unit_ = Some v -> unsigned 64 v.
Proof.
  intros Hl Hn. unfold nes2_size. destruct (negb _).
  - intros H. eapply multiply_fits, H. apply Z.lor_nonneg. split; [apply Z.shiftl_nonneg; lia | lia].
  - cbv zeta. destruct (_ <=? _); [done |]. intros H. eapply multiply_fits, H. unfold u64. apply Z.mod_pos_bound. lia.
Qed.

Lemma lor_bound a b n : 0 <= n -> 0 <= a < 2 ^ n -> 0 <= b < 2 ^ n -> 0 <= Z.lor a b < 2 ^ n.
Proof.
  intros Hn Ha Hb. split; [apply Z.lor_nonneg; lia |].
  assert (Z.lor a b = Z.lor a b mod 2 ^ n) as ->; [| apply Z.mod_pos_bound; lia].
  apply Z.bits_inj'. intros i Hi. destruct (Z.ltb_spec i n); [by rewrite Z.mod_pow2_bits_low |].
  rewrite Z.mod_pow2_bits_high, Z.lor_spec by lia.
  rewrite <- (Z.mod_small a (2 ^ n)), <- (Z.mod_small b (2 ^ n)) by lia. by rewrite !Z.mod_pow2_bits_high by lia.
Qed.

Lemma land_bound a m : 0 <= a -> 0 <= m -> 0 <= Z.land a m <= m.
Proof.
  intros Ha Hm. split; [apply Z.land_nonneg; lia |]. pose proof (Z.land_ones 0 0 ltac:(lia)).
  assert (Z.land a m + Z.ldiff m a = m) as Hsum.
  { rewrite Z.add_nocarry_lxor, Z.lxor_lor.
    - apply Z.bits_inj'. intros i Hi. rewrite Z.lor_spec, Z.land_spec, Z.ldiff_spec. by destruct (Z.testbit a i), (Z.testbit m i).
    - apply Z.bits_inj'. intros i Hi. rewrite !Z.land_spec, Z.ldiff_spec, Z.bits_0. by destruct (Z.testbit a i), (Z.testbit m i).
    - apply Z.bits_inj'. intros i Hi. rewrite !Z.land_spec, Z.ldiff_spec, Z.bits_0. by destruct (Z.testbit a i), (Z.testbit m i). }
  assert (0 <= Z.ldiff m a) by (apply Z.ldiff_nonneg; lia). lia.
Qed.

Lemma parse_fits v :
  is_bytes (default [] (data v)) -> 0 <= size v < 2 ^ 63 -> analysis_fits (analysis (parse_rom_payload v)).
Proof.
  intros Hb Hsize. assert (forall i, is_byte (byte_at v i)) as Hbyte by (intros i; by apply at_byte).
  assert (unsigned 64 (size v)) as Hs by (unfold unsigned; lia). pose proof (basic_fits _ Hs) as Hbasic.
  assert (forall e s, unsigned 64 e -> analysis_fits (fds_analysis e (size v) s)) as Hfds.
  { intros e s He. constructor; cbn; repeat apply Forall_cons_2; try apply Forall_nil_2; try done; unfold unsigned, signed32; lia. }
  unfold parse_rom_payload. destruct (starts_with_at v 0 nes_signature).
  - unfold parse_nes. destruct (_ <? _); [done |]. cbv zeta.
    assert (forall i, 0 <= Z.shiftr (byte_at v i) 4 < 16) as Hshift.
    { intros i. specialize (Hbyte i). unfold is_byte in Hbyte. rewrite Z.shiftr_div_pow2 by lia. change (2 ^ 4) with 16.
      Z.to_euclidean_division_equations; lia. }
    assert (forall i m, 0 <= m -> 0 <= Z.land (byte_at v i) m <= m) as Hland by (intros i m Hm; apply land_bound; [apply Hbyte | done]).
    set (m := Z.lor (Z.shiftr (byte_at v 6) 4) (Z.land (byte_at v 7) 240)).
    assert (0 <= m < 2 ^ 8) as Hm.
    { apply lor_bound; [lia | |]; [specialize (Hshift 6); lia | specialize (Hland 7 240 ltac:(lia)); lia]. }
    set (m2 := Z.lor m (Z.shiftl (Z.land (byte_at v 8) 15) 8)).
    assert (0 <= m2 < 2 ^ 12) as Hm2.
    { apply lor_bound; [lia | lia |]. specialize (Hland 8 15 ltac:(lia)). rewrite Z.shiftl_mul_pow2 by lia. lia. }
    assert (signed32 m /\ signed32 m2 /\ signed32 (Z.shiftr (byte_at v 8) 4)) as (Sm & Sm2 & Ssub).
    { specialize (Hshift 8). unfold signed32. lia. }
    assert (forall m s (tr bat : bool), signed32 m -> signed32 s -> analysis_fits (nes_overflow_analysis (size v) m s tr bat)) as Hover.
    { intros m' s tr bat Hm' Hs'. constructor; cbn; repeat apply Forall_cons_2; try apply Forall_nil_2; try done; unfold unsigned; lia. }
    destruct (Z.land (byte_at v 7) 12 =? 8).
    + destruct (nes2_size (byte_at v 4) _ _) as [prg|] eqn:Ep; [| by apply Hover].
      destruct (nes2_size (byte_at v 5) _ _) as [chr|] eqn:Ec; [| by apply Hover].
      apply nes_result_fits; [done | | | done | done].
      * eapply nes2_fits, Ep; [apply Hbyte | apply (Hland 9 15); lia].
      * eapply nes2_fits, Ec; [apply Hbyte | apply (Hshift 9)].
    + destruct (checked_signed_multiply (byte_at v 4) _) as [prg|] eqn:Ep; [| apply Hover; [done | unfold signed32; lia]].
      destruct (checked_signed_multiply (byte_at v 5) _) as [chr|] eqn:Ec; [| apply Hover; [done | unfold signed32; lia]].
      apply nes_result_fits; [done | | | done | unfold signed32; lia].
      * eapply multiply_fits, Ep. apply Hbyte.
      * eapply multiply_fits, Ec. apply Hbyte.
  - destruct (starts_with_at v 0 fds_signature).
    { unfold parse_headered_fds. destruct (_ <? _); [done |]. cbv zeta. destruct (_ =? 0); [done |].
      assert (unsigned 64 (fds_header_bytes + byte_at v 4 * fds_side_bytes)) as He.
      { specialize (Hbyte 4). unfold is_byte, unsigned, fds_header_bytes, fds_side_bytes in *. lia. }
      specialize (Hfds _ (byte_at v 4) He). destruct (_ <? _); [done |]. destruct (negb _); [done |].
      unfold unsupported_fds. cbn [analysis]. destruct (_ <? _); [by apply append_warning_fits | done]. }
    destruct (starts_with_at v 0 fds_side_signature).
    { unfold parse_headerless_fds. destruct (_ || _); cbv zeta; [| destruct (negb _); by apply Hfds]. apply Hfds.
      set (k := if negb (size v mod fds_side_bytes =? 0) then size v / fds_side_bytes + 1 else size v / fds_side_bytes).
      assert (0 <= k) as Hk.
      { assert (0 <= size v / fds_side_bytes) by (apply Z.div_pos; [lia | done]). subst k. destruct (negb _); lia. }
      set (sides := if k =? 0 then 1 else k). assert (1 <= sides) as Hsides by (subst sides; destruct (Z.eqb_spec k 0); lia).
      clearbody sides. change (u64_max / fds_side_bytes) with 281629680514649. unfold unsigned.
      destruct (Z.ltb_spec 281629680514649 sides); unfold u64_max, fds_side_bytes; lia. }
    destruct (starts_with_at v 0 unif_signature); [| done].
    unfold parse_unif. destruct (_ <? _); [done |]. by destruct (unif_loop _ _ _ _) as [[]|].
Qed.

(** ** Entries *)

(** An entry made of a payload found in a file. *)
Record made_from (source : SourceKey) (path physical payload : bytes) (e : CatalogEntryData) : Prop := {
  made_fits : entry_fits e;
  made_source : entry_source e = source;
  made_path : source_relative_path e = path;
  made_payload : payload_size e = zlen payload /\ CatalogPersist.payload_sha256 e = sha256 payload;
  made_physical : physical_size e = zlen physical /\ CatalogPersist.physical_sha256 e = sha256 physical;
  made_canonical : canonical_id e = ascii_bytes "game:" ++ hex_upper (sha256 payload);
  made_recognized : recognized (parse_rom_payload (view_of payload)) = true;
}.

Lemma some_bind {A B} (m : option A) (k : A -> option B) b : m ≫= k = Some b -> exists a, m = Some a /\ k a = Some b.
Proof. destruct m as [a|]; [| done]. by exists a. Qed.

Lemma hash_rom_inr payload physical hashes :
  zlen payload <= max_hash_bytes -> zlen physical <= max_hash_bytes ->
  hash_rom_content (Some payload) (zlen payload) (Some physical) (zlen physical) = inr hashes ->
  ContentIdentity.payload_sha256 hashes = hex_upper (sha256 payload) /\
  physical_package_sha256 hashes = hex_upper (sha256 physical).
Proof.
  intros Hp Hq. unfold hash_rom_content. rewrite !sha256_hex_spec by done. destruct (List.find _ _); [done |]. by intros [= <-].
Qed.

Lemma sha256_32 message : zlen (sha256 message) = 32.
Proof. unfold zlen. by rewrite sha256_length. Qed.

Lemma abi_words parsed is_zip :
  Forall (unsigned 32) [abi_rom_format (format parsed); abi_compatibility_state (state parsed);
    abi_compatibility_reason (reason parsed); abi_entry_flags parsed is_zip].
Proof.
  repeat apply Forall_cons_2; try apply Forall_nil_2; unfold unsigned.
  - by destruct (format parsed).
  - by destruct (state parsed).
  - by destruct (reason parsed).
  - unfold abi_entry_flags. cbv zeta. generalize (take (Z.to_nat (warning_count (analysis parsed))) (warnings (analysis parsed))). intros ws.
    assert (0 <= (if trainer (analysis parsed) then Z.lor (if battery (analysis parsed) then Z.lor (if is_zip then 0x10 else 0) 1 else if is_zip then 0x10 else 0) 2
      else if battery (analysis parsed) then Z.lor (if is_zip then 0x10 else 0) 1 else if is_zip then 0x10 else 0) < 2 ^ 32) as H.
    { by destruct (trainer (analysis parsed)), (battery (analysis parsed)), is_zip. }
    revert H. generalize (if trainer (analysis parsed) then Z.lor (if battery (analysis parsed) then Z.lor (if is_zip then 0x10 else 0) 1 else if is_zip then 0x10 else 0) 2
      else if battery (analysis parsed) then Z.lor (if is_zip then 0x10 else 0) 1 else if is_zip then 0x10 else 0).
    induction ws as [|w ws IH]; intros z Hz; [done |]. cbn [fold_left]. apply IH. destruct w; [apply lor_bound | apply lor_bound |]; done || lia.
Qed.

Lemma make_entry_spec source path display payload physical parsed package_format zip e :
  key_fits source -> is_bytes payload -> zlen payload <= FLY_SCAN_MAX_PAYLOAD_BYTES -> zlen physical <= FLY_SCAN_MAX_PACKAGE_BYTES ->
  parsed = parse_rom_payload (view_of payload) -> recognized parsed = true -> unsigned 32 package_format ->
  (forall raw offset, zip = Some (raw, offset) -> signed32 offset) ->
  make_catalog_entry source path display payload physical (hex_upper (sha256 physical)) parsed package_format zip = Some e ->
  made_from source path physical payload e.
Proof.
  intros Hkey Hbytes Hpayload Hphysical Hparsed Hrec Hpackage Hzip H.
  unfold FLY_SCAN_MAX_PAYLOAD_BYTES, FLY_SCAN_MAX_PACKAGE_BYTES in *.
  assert (8388608 <= max_hash_bytes) as Hbig by (vm_compute; discriminate).
  pose proof (zlen_nonneg payload). pose proof (zlen_nonneg physical).
  unfold make_catalog_entry in H. destruct (hash_rom_content _ _ _ _) as [|hashes] eqn:Hhash; [done |].
  apply hash_rom_inr in Hhash as [Hsha Hphys]; [| lia | lia]. destruct (negb _); [done |]. cbv zeta in H.
  apply some_bind in H as (package & _ & H). apply some_bind in H as (canonical & Hcanonical & H).
  apply some_bind in H as (variant & _ & H). apply some_bind in H as (sha1 & Hsha1 & H).
  apply some_bind in H as (payload_sha & Hpsha & H). apply some_bind in H as (physical_sha & Hqsha & H).
  apply some_bind in H as (crc & Hcrc & H). apply (inj Some) in H as <-.
  rewrite Hsha in Hcanonical, Hpsha. rewrite Hphys in Hqsha.
  rewrite decode_hex_upper in Hpsha, Hqsha by (apply Sha256.sha256_bytes || apply sha256_32).
  apply (inj Some) in Hpsha as <-, Hqsha as <-. apply decode_hex_length in Hsha1, Hcrc.
  assert (canonical = ascii_bytes "game:" ++ hex_upper (sha256 payload)) as ->.
  { unfold provisional_game_id in Hcanonical. rewrite normalize_digest in Hcanonical by (apply Sha256.sha256_bytes || apply sha256_32).
    cbv zeta in Hcanonical. unfold text_or_throw in Hcanonical. cbn [negb ok text_ok text_error text_value] in Hcanonical. by injection Hcanonical as <-. }
  assert (analysis_fits (analysis parsed)) as [Hsizes Hmapper].
  { rewrite Hparsed. apply parse_fits; [done |]. cbn [size view_of]. lia. }
  apply Forall_cons in Hsizes as [F1 Hsizes]. apply Forall_cons in Hsizes as [F2 Hsizes]. apply Forall_cons in Hsizes as [F3 _].
  apply Forall_cons in Hmapper as [F4 Hmapper]. apply Forall_cons in Hmapper as [F5 _].
  pose proof (abi_words parsed (bool_decide (is_Some zip))) as Habi.
  repeat match goal with H : Forall _ (_ :: _) |- _ => apply Forall_cons in H as [? H] end.
  constructor; cbn [entry_source source_relative_path payload_size physical_size canonical_id CatalogPersist.payload_sha256 CatalogPersist.physical_sha256];
    try done; [| by rewrite <- Hparsed].
  constructor; cbn [entry_source payload_size physical_size entry_expected_bytes entry_prg_bytes entry_chr_bytes entry_mapper entry_submapper
    zip_local_header_offset entry_disk_sides CatalogPersist.package_format rom_format compatibility_state compatibility_reason freshness
    entry_flags CatalogPersist.payload_sha1 CatalogPersist.payload_sha256 CatalogPersist.physical_sha256 payload_crc32];
    repeat apply Forall_cons_2; try apply Forall_nil_2; try done.
  - unfold unsigned. lia.
  - unfold unsigned. lia.
  - destruct zip as [[raw offset]|]; [by eapply Hzip | unfold signed32; lia].
  - unfold unsigned, u32. apply Z.mod_pos_bound. lia.
  - by rewrite Hsha1, !sha256_32, Hcrc.
Qed.

(** ** Members of an archive *)

(** zlib writes bytes. *)
Class ZlibBytes `{Zlib} : Prop := { inflate_bytes s input room : is_bytes (produced (inflate s input room)) }.

Section Members.
Context `{ZlibBytes} `{GbkTable}.

Lemma inflate_loop_bytes fuel entry limits stream input output out :
  is_bytes output -> inflate_loop fuel entry limits stream input output = inr out -> is_bytes out.
Proof using All.
  revert stream input output. induction fuel as [|fuel IH]; intros stream input output Hb H'; [done |].
  cbn [inflate_loop] in H'. cbv zeta in H'. set (step := inflate stream input 8192) in *.
  do 4 (match type of H' with (if ?c then _ else _) = _ => destruct c; [done |] end).
  apply bind_inr in H' as (next & Hnext & H').
  assert (is_bytes next) as Hn.
  { destruct (negb _) in Hnext; [| by injection Hnext as <-].
    apply bind_inr in Hnext as (? & _ & Hnext). apply bind_inr in Hnext as (? & _ & Hnext). injection Hnext as <-.
    apply is_bytes_app. split; [done | apply inflate_bytes]. }
  destruct (status step =? Z_STREAM_END).
  - apply bind_inr in H' as (? & _ & H'). by injection H' as <-.
  - destruct (zlen (produced step) =? 0); [done |]. eapply IH; [exact Hn | exact H'].
Qed.

Lemma read_member_payload limits data a k member payload :
  is_bytes data -> 0 <= max_compression_ratio limits -> open_bounded_zip (Some data) (zlen data) limits = inr (inr a) ->
  entries_ a !! k = Some member ->
  read_bounded_zip_payload a (raw_name (central member)) (local_header_offset (central member)) = inr (inr payload) ->
  is_bytes payload /\ zlen payload = uncompressed_size (central member) /\ signed32 (local_header_offset (central member)).
Proof using All.
  intros Hb Hratio Hopen Hk Hread. destruct (read_listed _ _ _ _ _ Hb Hratio Hopen Hk) as (Hok & d & Hd & Hd0 & Hwindow & E).
  rewrite E in Hread. clear E. unfold catch in Hread. destruct (_ ≫= _) as [[]|p] eqn:E; try done. injection Hread as ->.
  apply bind_inr in E as (out & Hout & E). apply bind_inr in E as (? & Hlen & E). apply refuse_inr in Hlen. bool_hyps.
  apply bind_inr in E as (? & _ & E). injection E as <-.
  split_and!; [| done |].
  - unfold inflate_selected_payload in Hout. do 3 (apply bind_inr in Hout as (? & _ & Hout)).
    destruct (_ <? 0); [done |]. destruct (_ || _); [done |]. cbv zeta in Hout. destruct (_ =? 0).
    + apply bind_inr in Hout as (? & _ & Hout). injection Hout as <-. by apply slice_bytes.
    + destruct (negb _); [done |]. apply bind_inr in Hout as (stream & _ & Hout). eapply inflate_loop_bytes, Hout. constructor.
  - destruct (entry_sizes _ _ Hok) as (Ho & _). unfold i32_max, signed32 in *. lia.
Qed.

(** An entry the loop adds: made from the payload of a listed member, under a safe path. *)
Definition from_member (source : SourceKey) (path physical : bytes) (a : BoundedZipArchive) (e : CatalogEntryData) : Prop :=
  exists member payload, member ∈ entries_ a /\
    read_bounded_zip_payload a (raw_name (central member)) (local_header_offset (central member)) = inr (inr payload) /\
    zlen payload <= FLY_SCAN_MAX_PAYLOAD_BYTES /\ made_from source path physical payload e.

Lemma scan_members_spec source path physical a members payload_error found r :
  key_fits source -> is_bytes physical -> zlen physical <= FLY_SCAN_MAX_PACKAGE_BYTES ->
  open_bounded_zip (Some physical) (zlen physical) defaults = inr (inr a) ->
  (forall m, m ∈ members -> m ∈ entries_ a) -> Forall (from_member source path physical a) found ->
  scan_members source path physical (hex_upper (sha256 physical)) a members payload_error found = Some r ->
  Forall (from_member source path physical a) r.2.
Proof using All.
  intros Hkey Hb Hsize Hopen. revert payload_error found. induction members as [|member members IH]; intros payload_error found Hin Hfound H'.
  { cbn [scan_members] in H'. by injection H' as <-. }
  cbn [scan_members] in H'. cbv zeta in H'.
  assert (forall m, m ∈ members -> m ∈ entries_ a) as Hin' by (intros m Hm; by apply Hin, list_elem_of_further).
  assert (forall pe, scan_members source path physical (hex_upper (sha256 physical)) a members pe found = Some r ->
    Forall (from_member source path physical a) r.2) as Hskip by (intros pe; by apply IH).
  destruct (is_directory member); [by eapply Hskip |].
  destruct (strict_zip_display_path _) as [decoded|]; [| by eapply Hskip].
  destruct (is_executable_name decoded); [by eapply Hskip |].
  destruct (Z.ltb_spec FLY_SCAN_MAX_PAYLOAD_BYTES (uncompressed_size (central member))) as [| Hmax]; [by eapply Hskip |].
  destruct (read_bounded_zip_payload _ _ _) as [|[|payload]] eqn:Hread; [done | by eapply Hskip |].
  destruct (recognized _) eqn:Hrec; cbn [negb] in H'; [| by eapply Hskip].
  apply some_bind in H' as (entry & Hentry & H'). eapply IH; [exact Hin' | | exact H'].
  apply Forall_app. split; [done |]. constructor; [| constructor].
  assert (member ∈ entries_ a) as Hmember by (apply Hin, list_elem_of_here).
  pose proof Hmember as Hlisted. apply list_elem_of_lookup in Hlisted as [k Hk].
  destruct (read_member_payload defaults physical a k member payload) as (Hpb & Hpl & Hoffset); [done | done | done | done | done |].
  exists member, payload. split_and!; [done | done | lia |].
  eapply make_entry_spec; [done | done | lia | done | reflexivity | done | | | exact Hentry].
  - unfold unsigned, FLY_PACKAGE_FORMAT_ZIP. lia.
  - by intros raw offset [= _ <-].
Qed.

End Members.

(** ** Correctness *)

Section Sound.
Context `{ZlibBytes} `{GbkTable}.

(** Where the payload of an entry comes from: the file itself, or a member of it. *)
Definition payload_of (physical payload : bytes) : Prop :=
  payload = physical \/
  exists a member, open_bounded_zip (Some physical) (zlen physical) defaults = inr (inr a) /\ member ∈ entries_ a /\
    read_bounded_zip_payload a (raw_name (central member)) (local_header_offset (central member)) = inr (inr payload).

(** A candidate with entries of the whole content, which the expected hash, if there is one, fits. *)
Definition candidate_exact (source : SourceKey) (file : fly_scan_file) (candidate : CandidateRecord) : Prop :=
  let path := default [] (file_path file) in
  let physical := content (borrowed_fd file) in
  candidate_path candidate = path /\ (disposition candidate <> INDEXED -> candidate_entries candidate = []) /\
  Forall (fun e =>
    zlen physical <= FLY_SCAN_MAX_PACKAGE_BYTES /\
    (Z.land (file_flags file) FLY_SCAN_FILE_FLAG_EXPECTED_PHYSICAL_SHA256 <> 0 ->
     sha256 physical = expected_physical_sha256 file) /\
    exists payload, payload_of physical payload /\ made_from source path physical payload e) (candidate_entries candidate).

Lemma expected_matches file message :
  expected_hash_matches file (hex_upper (sha256 message)) = true ->
  Z.land (file_flags file) FLY_SCAN_FILE_FLAG_EXPECTED_PHYSICAL_SHA256 <> 0 -> sha256 message = expected_physical_sha256 file.
Proof using Type.
  unfold expected_hash_matches. destruct (Z.eqb_spec (Z.land (file_flags file) FLY_SCAN_FILE_FLAG_EXPECTED_PHYSICAL_SHA256) 0); [done |].
  rewrite decode_hex_upper by (apply Sha256.sha256_bytes || apply sha256_32). intros E _. by bool_hyps.
Qed.

Lemma scan_candidate_exact source file candidate :
  key_fits source -> is_bytes (content (borrowed_fd file)) -> scan_candidate source file = Some candidate ->
  candidate_exact source file candidate.
Proof using All.
  intros Hkey Hb H'. cbn [scan_candidate catalog_scanner] in H'. unfold scan_file_candidate in H'. cbv zeta in H'.
  pose proof (read_descriptor_spec (borrowed_fd file)) as Hread.
  assert (forall reason, candidate_exact source file (rejected_candidate (default [] (file_path file)) reason)) as Hrejected.
  { intros reason. split_and!; [done | done | constructor]. }
  assert (candidate_exact source file (skipped_candidate (default [] (file_path file)))) as Hskipped by (split_and!; [done | done | constructor]).
  destruct (read_descriptor_bounded (borrowed_fd file)) as [[] data]; [| by injection H' as <- | by injection H' as <-].
  destruct Hread as [-> Hsize]. set (physical := content (borrowed_fd file)) in *.
  assert (zlen physical <= max_hash_bytes) as Hmax.
  { unfold FLY_SCAN_MAX_PACKAGE_BYTES in Hsize. assert (8388608 <= max_hash_bytes) by (vm_compute; discriminate). lia. }
  rewrite sha256_hex_spec in H' by done. cbn [text_value text_ok] in H'. change (ok (text_ok _)) with true in H'. cbn [negb] in H'.
  destruct (expected_hash_matches file (hex_upper (sha256 physical))) eqn:Hexpected; cbn [negb] in H'; [| by injection H' as <-].
  pose proof (expected_matches file physical Hexpected) as Hhash.
  destruct (has_zip_signature physical).
  - unfold scan_zip_candidate in H'. destruct (open_bounded_zip _ _ _) as [|[|a]] eqn:Hopen; [done | by injection H' as <- |].
    apply some_bind in H' as ([payload_error found] & Hmembers & H').
    apply scan_members_spec in Hmembers; [| done | done | done | done | done | constructor]. cbn [snd] in Hmembers.
    assert (Forall (fun e => zlen physical <= FLY_SCAN_MAX_PACKAGE_BYTES /\
      (Z.land (file_flags file) FLY_SCAN_FILE_FLAG_EXPECTED_PHYSICAL_SHA256 <> 0 -> sha256 physical = expected_physical_sha256 file) /\
      exists payload, payload_of physical payload /\ made_from source (default [] (file_path file)) physical payload e) found) as Hfound.
    { eapply Forall_impl; [exact Hmembers |]. intros e (member & payload & Hm & Hr & Hl & He). split_and!; [done | done |].
      exists payload. split; [| done]. right. by exists a, member. }
    apply (inj Some) in H' as <-. destruct (negb (bool_decide (found = []))) eqn:Hempty; [split_and!; done |].
    bool_hyps. subst found. destruct payload_error; split_and!; done.
  - unfold scan_raw_candidate in H'. destruct (_ || _); [by injection H' as <- |]. cbv zeta in H'.
    destruct (recognized _) eqn:Hrec; cbn [negb] in H'; [| by injection H' as <-].
    apply some_bind in H' as (entry & Hentry & H'). apply (inj Some) in H' as <-. split_and!; [done | done |].
    cbn [candidate_entries]. constructor; [| constructor]. split_and!; [done | done |]. exists physical. split; [by left |].
    apply (make_entry_spec source (default [] (file_path file)) (default [] (file_display file)) physical physical
             (parse_rom_payload (view_of physical)) FLY_PACKAGE_FORMAT_RAW None); try done.
Qed.

(** The scanner keeps its promise to the application. *)
#[export] Instance catalog_scanner_sound : ScannerSound.
Proof using All.
  constructor. intros source file candidate Hkey Hb Hc. apply scan_candidate_exact in Hc as (Hpath & Hdisp & Hentries); [| done | done].
  split; [| done]. constructor; [| done]. eapply Forall_impl; [exact Hentries |].
  intros e (_ & _ & payload & _ & [M1 M2 M3 _ _ _ _]). by rewrite Hpath.
Qed.

End Sound.

(** C16. What a scan puts in the catalogue is in the file.  Every entry of a candidate describes the file's whole content, no
    longer than the limit and with the expected hash where one was given, and a payload of it, which is the content itself
    or what reading a listed member of the archive it opens as gives: the sizes and SHA-256 hashes of the entry are theirs,
    its game is named by the payload's hash, the parser recognises the payload, and every field is in its type's range.
    Only an indexed candidate has entries. *)
Theorem indexed_entries_exact `{ZlibBytes} `{GbkTable} (source : SourceKey) (file : fly_scan_file) (candidate : CandidateRecord)
    (Hkey : key_fits source) (Hb : is_bytes (content (borrowed_fd file))) (Hscan : scan_candidate source file = Some candidate) :
  candidate_exact source file candidate.
Proof. by apply scan_candidate_exact. Qed.

(** ** An instance of the property *)

(** zlib for streams of one stored block. *)
#[local] Instance stored_block : Zlib := {|
  z_stream := unit;
  inflate_init := (Z_OK, tt);
  inflate _ input _ :=
    match input with
    | 1 :: l0 :: l1 :: _ :: _ :: rest =>
      let n := l0 + 256 * l1 in
      mkInflated Z_STREAM_END ((fun b => b mod 256) <$> slice rest 0 n) (drop (Z.to_nat n) rest) tt
    | _ => mkInflated Z_DATA_ERROR [] input tt
    end;
  zlib_crc32 payload := Z.lxor (fold_left crc_byte payload 0xFFFFFFFF) 0xFFFFFFFF;
|}.

#[local] Instance stored_block_bytes : ZlibBytes.
Proof.
  constructor. intros s input room. unfold inflate, stored_block.
  repeat match goal with |- context [match ?x with _ => _ end] => destruct x end; cbn [produced]; try apply Forall_nil_2.
  apply Forall_fmap, Forall_forall. intros b _. unfold compose, is_byte. apply Z.mod_pos_bound. lia.
Qed.

(** The start of a cartridge file, read in two parts. *)
Definition demo_file : fly_scan_file :=
  mkScanFile 88 1 (Some (ascii_bytes "a.nes")) (Some (ascii_bytes "a")) (mkDescriptor 3 [78; 69; 83; 26] [Interrupted; Reads 1]) 0 [].

Lemma indexed_entries_exact_witness :
  exists candidate, scan_candidate demo_source demo_file = Some candidate /\ disposition candidate = INDEXED /\
    candidate_exact demo_source demo_file candidate.
Proof.
  assert ((disposition <$> scan_candidate demo_source demo_file) = Some INDEXED) as H by (vm_compute; reflexivity).
  destruct (scan_candidate demo_source demo_file) as [candidate|] eqn:E; [| discriminate H].
  exists candidate. split_and!; [reflexivity | by injection H |].
  apply (indexed_entries_exact demo_source demo_file candidate); [| | exact E].
  - split; [reflexivity | split; [by compute | reflexivity]].
  - by apply (bool_decide_unpack _).
Defined.
