(* ===== verification/Invitation.v ===== *)
(** * Invitations and the lookup of a code ([shared/src/session/invite_coordinator.{hpp,cpp}])

    The host's invitation, which is accepted once, on one of its two routes; the six digits that
    locate it; the limits on the rate of submissions and lookups; and the joiner's round over the
    hosts it sees, which never chooses between two that claim the same code.

    Times are values of the continuous clock, out-parameters are results; [None] for an
    out-parameter is the null pointer. *)

From S2P Require Import Prelude.

Definition kInvitationLifetimeNs : Z := 60000000000.
Definition kLookupRoundLifetimeNs : Z := 16000000000.
Definition kLookupCandidateLifetimeNs : Z := 2000000000.

Inductive InviteCoordinatorResult :=
  | Ok | Accepted | MatchPendingApproval | Duplicate | Retry | NotFound
  | Invalid | Stale | Expired | Consumed | RateLimited | Busy | Ambiguous.

#[global] Instance invite_result_eq_dec : EqDecision InviteCoordinatorResult.
Proof. solve_decision. Defined.

(** Values of the enumeration that are neither route are possible. *)
Inductive InviteRouteV2 := BleAnonymous | Qr | OtherRoute.

Record InviteChildMaterial := mkChild { child_id : bytes; nonce : bytes; commitment : bytes }.

Definition nonzero (data : bytes) : bool := existsb (fun value => negb (value =? 0)) data.
Definition valid_code (code : bytes) : bool := forallb (fun value => (0x30 <=? value) && (value <=? 0x39)) code.
Definition valid_child (child : InviteChildMaterial) : bool :=
  nonzero (child_id child) && nonzero (nonce child) && nonzero (commitment child).

Definition add_saturated (value delta : Z) : Z := if u64_max - delta <? value then u64_max else value + delta.

Definition edge_whitespace (value : Z) : bool := (value =? 0x20) || (value =? 9) || (value =? 13) || (value =? 10).

(** ** Codes *)

(** The loop over the places, from the last. *)
Fixpoint code_loop (places : nat) (value : Z) (digits : bytes) : bytes :=
  match places with
  | O => digits
  | S places => code_loop places (value / 10) (u8 (0x30 + value mod 10) :: digits)
  end.

Definition invite_code_from_uniform_u32 (draw : Z) (out : option bytes) : InviteCoordinatorResult * option bytes :=
  match out with
  | None => (Invalid, None)
  | Some _ => if 4294000000 <=? draw then (Retry, out) else (Ok, Some (code_loop 6 (draw mod 1000000) []))
  end.

Fixpoint remove_prefix (input : bytes) : bytes :=
  match input with
  | front :: rest => if edge_whitespace front then remove_prefix rest else input
  | [] => []
  end.

Definition remove_suffix (input : bytes) : bytes := rev (remove_prefix (rev input)).

(** The digits are stored one by one: those before the first other character stay. *)
Fixpoint digits_loop (input : bytes) (i : nat) (out : bytes) : InviteCoordinatorResult * bytes :=
  match input with
  | [] => (Ok, out)
  | c :: rest => if (c <? 0x30) || (0x39 <? c) then (Invalid, out) else digits_loop rest (S i) (<[i := c]> out)
  end.

Definition normalize_invite_code (input : bytes) (out : option bytes) : InviteCoordinatorResult * option bytes :=
  match out with
  | None => (Invalid, None)
  | Some code =>
    let input := remove_suffix (remove_prefix input) in
    if negb (zlen input =? zlen code) then (Invalid, out)
    else let '(result, code) := digits_loop input 0 code in (result, Some code)
  end.

(** ** The coordinator *)

Record InviteCoordinator := mkCoordinator {
  generation_ : Z;
  deadline_ns_ : Z;
  code_ : bytes;
  ble_ : InviteChildMaterial;
  qr_ : InviteChildMaterial;
  active_ : bool;
  consumed_ : bool;
  join_submissions_ : list Z;
  host_lookups_ : list Z;
  inflight_gatt_ : list Z;
}.

#[global] Instance eta_coordinator : Eta InviteCoordinator := fun r =>
  mkCoordinator (generation_ r) (deadline_ns_ r) (code_ r) (ble_ r) (qr_ r) (active_ r) (consumed_ r) (join_submissions_ r)
    (host_lookups_ r) (inflight_gatt_ r).

Definition no_child : InviteChildMaterial := mkChild (replicate 16 0) (replicate 16 0) (replicate 32 0).
Definition coordinator_new : InviteCoordinator := mkCoordinator 0 0 (replicate 6 0) no_child no_child false false [] [] [].

Definition create (generation now_ns : Z) (code : bytes) (ble qr : InviteChildMaterial) (s : InviteCoordinator)
    : InviteCoordinatorResult * InviteCoordinator :=
  if (generation =? 0) || negb (valid_code code) || negb (valid_child ble) || negb (valid_child qr) ||
     bool_decide (child_id ble = child_id qr) || bool_decide (nonce ble = nonce qr) ||
     bool_decide (commitment ble = commitment qr) then (Invalid, s)
  else
    (Ok, mkCoordinator generation (add_saturated now_ns kInvitationLifetimeNs) code ble qr true false (join_submissions_ s)
           (host_lookups_ s) []).

Definition cancel (generation : Z) (s : InviteCoordinator) : InviteCoordinatorResult * InviteCoordinator :=
  if (generation =? 0) || negb (generation =? generation_ s) then (Stale, s)
  else (Ok, s <| active_ := false |> <| consumed_ := true |> <| inflight_gatt_ := [] |>).

Definition lookup (code : bytes) (now_ns : Z) (s : InviteCoordinator) : InviteCoordinatorResult * InviteCoordinator :=
  if negb (active_ s) then (if consumed_ s then Consumed else NotFound, s)
  else if deadline_ns_ s <=? now_ns then (Expired, s <| active_ := false |>)
  else (if bool_decide (code = code_ s) then MatchPendingApproval else NotFound, s).

Definition selected (route : InviteRouteV2) (s : InviteCoordinator) : option InviteChildMaterial :=
  match route with BleAnonymous => Some (ble_ s) | Qr => Some (qr_ s) | OtherRoute => None end.

Definition accept (generation : Z) (route : InviteRouteV2) (id : bytes) (now_ns : Z) (s : InviteCoordinator)
    : InviteCoordinatorResult * InviteCoordinator :=
  if (generation =? 0) || negb (generation =? generation_ s) then (Stale, s)
  else if consumed_ s then (Consumed, s)
  else if negb (active_ s) || (deadline_ns_ s <=? now_ns) then (Expired, s <| active_ := false |>)
  else
    match selected route s with
    | None => (Stale, s)
    | Some child =>
      if negb (bool_decide (id = child_id child)) then (Stale, s)
      else (Accepted, s <| active_ := false |> <| consumed_ := true |> <| inflight_gatt_ := [] |>)
    end.

Definition prune_window (timestamps : list Z) (now_ns : Z) : list Z :=
  List.filter (fun timestamp => negb ((timestamp <=? now_ns) && (kInvitationLifetimeNs <=? now_ns - timestamp))) timestamps.

Definition begin_join_submission (now_ns : Z) (s : InviteCoordinator) : InviteCoordinatorResult * InviteCoordinator :=
  let s := s <| join_submissions_ := prune_window (join_submissions_ s) now_ns |> in
  if 5 <=? zlen (join_submissions_ s) then (RateLimited, s)
  else (Accepted, s <| join_submissions_ := join_submissions_ s ++ [now_ns] |>).

Definition begin_host_lookup (gatt_generation now_ns : Z) (s : InviteCoordinator) : InviteCoordinatorResult * InviteCoordinator :=
  if gatt_generation =? 0 then (Invalid, s)
  else if bool_decide (gatt_generation ∈ inflight_gatt_ s) then (Busy, s)
  else
    let s := s <| host_lookups_ := prune_window (host_lookups_ s) now_ns |> in
    if 20 <=? zlen (host_lookups_ s) then (RateLimited, s)
    else (Accepted, s <| host_lookups_ := host_lookups_ s ++ [now_ns] |>
                      <| inflight_gatt_ := inflight_gatt_ s ++ [gatt_generation] |>).

Definition end_host_lookup (gatt_generation : Z) (s : InviteCoordinator) : InviteCoordinator :=
  s <| inflight_gatt_ := List.filter (fun g => negb (g =? gatt_generation)) (inflight_gatt_ s) |>.

Definition route_active (route : InviteRouteV2) (s : InviteCoordinator) : bool :=
  active_ s && match route with OtherRoute => false | _ => true end.

(** ** The lookup round *)

Record JoinLookupRound := mkRound {
  submission_id_ : Z;
  round_deadline_ns_ : Z;
  candidates_ : list Z;
  next_index_ : nat;
  matched_context_ : bytes;
  has_match_ : bool;
  round_active_ : bool;
}.

#[global] Instance eta_round : Eta JoinLookupRound := fun r =>
  mkRound (submission_id_ r) (round_deadline_ns_ r) (candidates_ r) (next_index_ r) (matched_context_ r) (has_match_ r) (round_active_ r).

Definition round_new : JoinLookupRound := mkRound 0 0 [] 0 (replicate 32 0) false false.

(** The loop over the candidates: each is not zero and none of those before it. *)
Fixpoint candidates_loop (candidates seen : list Z) : bool :=
  match candidates with
  | [] => true
  | candidate :: rest =>
    if (candidate =? 0) || bool_decide (candidate ∈ seen) then false else candidates_loop rest (seen ++ [candidate])
  end.

Definition start (submission_id now_ns invitation_deadline_ns : Z) (candidates : list Z) (r : JoinLookupRound)
    : InviteCoordinatorResult * JoinLookupRound :=
  if (submission_id =? 0) || bool_decide (candidates = []) || (8 <? zlen candidates) || (invitation_deadline_ns <=? now_ns)
  then (Invalid, r)
  else if negb (candidates_loop candidates []) then (Invalid, r)
  else
    (Accepted, mkRound submission_id (Z.min invitation_deadline_ns (add_saturated now_ns kLookupRoundLifetimeNs)) candidates 0
                 (replicate 32 0) false true).

(** The candidate's handle and deadline come with the result; both are zero unless it is [Accepted]. *)
Definition next_candidate (now_ns : Z) (r : JoinLookupRound) : InviteCoordinatorResult * (Z * Z) * JoinLookupRound :=
  if submission_id_ r =? 0 then (Invalid, (0, 0), r)
  else if negb (round_active_ r) || (round_deadline_ns_ r <=? now_ns) then (Expired, (0, 0), r <| round_active_ := false |>)
  else
    match candidates_ r !! next_index_ r with
    | None => (if has_match_ r then MatchPendingApproval else NotFound, (0, 0), r <| round_active_ := false |>)
    | Some handle =>
      (Accepted, (handle, Z.min (round_deadline_ns_ r) (add_saturated now_ns kLookupCandidateLifetimeNs)),
       r <| next_index_ := S (next_index_ r) |>)
    end.

Definition record_match (candidate_handle : Z) (pair_context_hash : bytes) (r : JoinLookupRound)
    : InviteCoordinatorResult * JoinLookupRound :=
  if negb (round_active_ r) || (candidate_handle =? 0) || negb (nonzero pair_context_hash) ||
     negb (bool_decide (candidate_handle ∈ candidates_ r)) then (Invalid, r)
  else if negb (has_match_ r) then
    (MatchPendingApproval, r <| matched_context_ := pair_context_hash |> <| has_match_ := true |>)
  else if bool_decide (matched_context_ r = pair_context_hash) then (Duplicate, r)
  else (Ambiguous, r <| round_active_ := false |>).

(** ** Runs *)

Inductive InviteCall :=
  | CallCreate (generation now_ns : Z) (code : bytes) (ble qr : InviteChildMaterial)
  | CallCancel (generation : Z)
  | CallLookup (code : bytes) (now_ns : Z)
  | CallAccept (generation : Z) (route : InviteRouteV2) (id : bytes) (now_ns : Z)
  | CallJoin (now_ns : Z)
  | CallHostLookup (gatt_generation now_ns : Z)
  | CallEndLookup (gatt_generation : Z).

Definition invite_step (c : InviteCall) (s : InviteCoordinator) : InviteCoordinatorResult * InviteCoordinator :=
  match c with
  | CallCreate generation now_ns code ble qr => create generation now_ns code ble qr s
  | CallCancel generation => cancel generation s
  | CallLookup code now_ns => lookup code now_ns s
  | CallAccept generation route id now_ns => accept generation route id now_ns s
  | CallJoin now_ns => begin_join_submission now_ns s
  | CallHostLookup gatt_generation now_ns => begin_host_lookup gatt_generation now_ns s
  | CallEndLookup gatt_generation => (Ok, end_host_lookup gatt_generation s)
  end.

(** The calls with their answers, and the state they end in. *)
Fixpoint run_invite (calls : list InviteCall) (s : InviteCoordinator) : list (InviteCall * InviteCoordinatorResult) * InviteCoordinator :=
  match calls with
  | [] => ([], s)
  | c :: calls =>
    let '(answer, s) := invite_step c s in
    let '(trace, s) := run_invite calls s in
    ((c, answer) :: trace, s)
  end.

(** The clock a call reads. *)
Definition call_clock (c : InviteCall) : option Z :=
  match c with
  | CallCreate _ now _ _ _ | CallLookup _ now | CallAccept _ _ _ now | CallJoin now | CallHostLookup _ now => Some now
  | _ => None
  end.

(** The clock is continuous: it never goes back. *)
Fixpoint clocked (now : Z) (calls : list InviteCall) : Prop :=
  match calls with
  | [] => True
  | c :: calls => match call_clock c with Some t => now <= t /\ clocked t calls | None => clocked now calls end
  end.

(** The times of the accepted submissions, and of the accepted lookups. *)
Definition submission (e : InviteCall * InviteCoordinatorResult) : list Z :=
  match e with (CallJoin now, Accepted) => [now] | _ => [] end.
Definition host_lookup (e : InviteCall * InviteCoordinatorResult) : list Z :=
  match e with (CallHostLookup _ now, Accepted) => [now] | _ => [] end.

Definition in_window (t x : Z) : bool := (t <=? x) && (x <? t + kInvitationLifetimeNs).

(** How many of the times lie in the minute from [t] on. *)
Definition within (t : Z) (times : list Z) : Z := zlen (List.filter (in_window t) times).

(** ** The rate limits *)

Section Window.
Context (limit : Z).

(** [window] has the accepted times of the last minute, of all accepted [times] until [now]. *)
Record windowed (now : Z) (times window : list Z) : Prop := {
  window_past : Forall (fun x => x <= now) times;
  window_recent : window = List.filter (fun x => now - x <? kInvitationLifetimeNs) times;
  window_bound t : within t times <= limit;
}.

Lemma within_app t times times' : within t (times ++ times') = within t times + within t times'.
Proof. unfold within. by rewrite List.filter_app, zlen_app. Qed.

Lemma windowed_later now now' times window :
  now <= now' -> windowed now times window -> windowed now' times (prune_window window now').
Proof.
  intros Hle [Hpast -> Hbound]. constructor; [by eapply Forall_impl; [exact Hpast | cbn; lia] | | done].
  clear Hbound. unfold prune_window. induction Hpast as [|x times Hx _ IH]; [done |]. cbn [List.filter].
  destruct (Z.ltb_spec (now - x) kInvitationLifetimeNs), (Z.ltb_spec (now' - x) kInvitationLifetimeNs); cbn [List.filter]; try lia.
  - destruct (Z.leb_spec x now'); [| lia]. destruct (Z.leb_spec kInvitationLifetimeNs (now' - x)); [lia |]. cbn [andb negb]. by f_equal.
  - destruct (Z.leb_spec x now'); [| lia]. by destruct (Z.leb_spec kInvitationLifetimeNs (now' - x)); [| lia].
  - done.
Qed.

Lemma windowed_accept now times window :
  windowed now times window -> zlen window < limit -> windowed now (times ++ [now]) (window ++ [now]).
Proof.
  intros [Hpast -> Hbound] Hroom. constructor.
  - apply Forall_app. split; [done |]. by constructor; [lia |].
  - rewrite List.filter_app. f_equal. cbn [List.filter]. rewrite Z.sub_diag. done.
  - intros t. rewrite within_app. unfold within at 2. cbn [List.filter]. unfold in_window at 1.
    destruct (Z.leb_spec t now) as [Ht |]; cbn [andb]; [| rewrite zlen_nil; specialize (Hbound t); lia].
    destruct (Z.ltb_spec now (t + kInvitationLifetimeNs)) as [Hn |]; [| rewrite zlen_nil; specialize (Hbound t); lia].
    rewrite zlen_cons, zlen_nil.
    assert (within t times <= zlen (List.filter (fun x => now - x <? kInvitationLifetimeNs) times)); [| lia].
    unfold within, in_window. clear Hroom Hbound. induction times as [|x times IH]; [done |]. apply Forall_cons in Hpast as [Hx Hpast].
    specialize (IH Hpast). cbn [List.filter].
    destruct (Z.leb_spec t x), (Z.ltb_spec x (t + kInvitationLifetimeNs)), (Z.ltb_spec (now - x) kInvitationLifetimeNs);
      cbn [andb]; rewrite ?zlen_cons; lia.
Qed.

Lemma windowed_start now : 0 <= limit -> windowed now [] [].
Proof. intros H. by constructor. Qed.

End Window.

(** The windows are those of the last call that pruned them. *)
Definition limits_kept (now : Z) (joins hosts : list Z) (s : InviteCoordinator) : Prop :=
  (exists t, t <= now /\ windowed 5 t joins (join_submissions_ s)) /\ (exists t, t <= now /\ windowed 20 t hosts (host_lookups_ s)).

Lemma limits_later now now' joins hosts s : now <= now' -> limits_kept now joins hosts s -> limits_kept now' joins hosts s.
Proof. intros Hle [(t & ? & ?) (u & ? & ?)]. split; [exists t | exists u]; split; done || lia. Qed.

Lemma limits_same now joins hosts s s' :
  join_submissions_ s' = join_submissions_ s -> host_lookups_ s' = host_lookups_ s ->
  limits_kept now joins hosts s -> limits_kept now joins hosts s'.
Proof. unfold limits_kept. by intros -> ->. Qed.

Lemma join_limits now t joins hosts s :
  now <= t -> limits_kept now joins hosts s ->
  limits_kept t (joins ++ submission (CallJoin t, (begin_join_submission t s).1)) hosts (begin_join_submission t s).2.
Proof.
  intros Hle [(u & Hu & Hw) (v & Hv & Hh)]. apply (windowed_later 5 u t) in Hw; [| lia].
  unfold begin_join_submission. cbv zeta. cbn [join_submissions_ over].
  destruct (Z.leb_spec 5 (zlen (prune_window (join_submissions_ s) t))) as [| Hroom]; cbn [submission fst snd].
  - rewrite app_nil_r. split; [exists t; split; [lia | exact Hw] | exists v; split; [lia | exact Hh]].
  - split; [exists t; split; [lia |]; by apply windowed_accept | exists v; split; [lia | exact Hh]].
Qed.

Lemma host_limits now g t joins hosts s :
  now <= t -> limits_kept now joins hosts s ->
  limits_kept t joins (hosts ++ host_lookup (CallHostLookup g t, (begin_host_lookup g t s).1)) (begin_host_lookup g t s).2.
Proof.
  intros Hle Hkept. pose proof (limits_later now t joins hosts s Hle Hkept) as Hlater. unfold begin_host_lookup.
  destruct (g =? 0); [by rewrite app_nil_r |]. destruct (bool_decide _); [by rewrite app_nil_r |].
  destruct Hkept as [(u & Hu & Hw) (v & Hv & Hh)]. apply (windowed_later 20 v t) in Hh; [| lia]. cbv zeta. cbn [host_lookups_ over].
  destruct (Z.leb_spec 20 (zlen (prune_window (host_lookups_ s) t))) as [| Hroom]; cbn [host_lookup fst snd].
  - rewrite app_nil_r. split; [exists u; split; [lia | exact Hw] | exists t; split; [lia | exact Hh]].
  - split; [exists u; split; [lia | exact Hw] | exists t; split; [lia |]; by apply windowed_accept].
Qed.

Lemma step_limits now c joins hosts s :
  (forall t, call_clock c = Some t -> now <= t) -> limits_kept now joins hosts s ->
  limits_kept (default now (call_clock c)) (joins ++ submission (c, (invite_step c s).1)) (hosts ++ host_lookup (c, (invite_step c s).1))
    (invite_step c s).2.
Proof.
  intros Hclock Hkept.
  assert (forall s', join_submissions_ s' = join_submissions_ s -> host_lookups_ s' = host_lookups_ s ->
    limits_kept (default now (call_clock c)) joins hosts s') as Hsame.
  { intros s' E1 E2. apply (limits_same _ _ _ s s' E1 E2). apply (limits_later now); [| done].
    destruct (call_clock c) as [t|] eqn:E; [by apply Hclock | cbn; lia]. }
  destruct c as [g t code ble qr | g | code t | g route id t | t | g t | g]; cbn [invite_step call_clock default] in *.
  - unfold submission, host_lookup. rewrite !app_nil_r. apply Hsame; unfold create; by destruct (_ || _).
  - unfold submission, host_lookup. rewrite !app_nil_r. apply Hsame; unfold cancel; by destruct (_ || _).
  - unfold submission, host_lookup. rewrite !app_nil_r.
    apply Hsame; unfold lookup; destruct (negb _); try done; by destruct (_ <=? _).
  - unfold submission, host_lookup. rewrite !app_nil_r.
    apply Hsame; unfold accept; destruct (_ || _); try done; destruct (consumed_ s); try done; destruct (_ || _); try done;
      destruct (selected route s); try done; by destruct (negb _).
  - unfold host_lookup. rewrite app_nil_r. apply (join_limits now); [by apply Hclock | done].
  - unfold submission. rewrite app_nil_r. apply (host_limits now); [by apply Hclock | done].
  - unfold submission, host_lookup. rewrite !app_nil_r. by apply Hsame.
Qed.

Lemma run_limits calls now joins hosts s :
  clocked now calls -> limits_kept now joins hosts s ->
  exists now', limits_kept now' (joins ++ mjoin (submission <$> (run_invite calls s).1)) (hosts ++ mjoin (host_lookup <$> (run_invite calls s).1))
    (run_invite calls s).2.
Proof.
  revert now joins hosts s. induction calls as [|c calls IH]; intros now joins hosts s Hclock Hkept.
  { exists now. cbn. by rewrite !app_nil_r. }
  cbn [run_invite clocked] in *. destruct (invite_step c s) as [answer s1] eqn:E. destruct (run_invite calls s1) as [trace s2] eqn:E2.
  pose proof (step_limits now c joins hosts s) as Hstep. rewrite E in Hstep. cbn [fst snd] in Hstep.
  specialize (IH (default now (call_clock c)) (joins ++ submission (c, answer)) (hosts ++ host_lookup (c, answer)) s1).
  rewrite E2 in IH. cbn [fst snd fmap list_fmap] in *. change (mjoin (?x :: ?y)) with (x ++ mjoin y). rewrite !app_assoc.
  apply IH.
  - destruct (call_clock c); [apply Hclock | exact Hclock].
  - apply Hstep; [| done]. intros t Ht. rewrite Ht in Hclock. apply Hclock.
Qed.

(** ** One acceptance *)

(** What ends an invitation, or replaces it. *)
Definition spends (e : InviteCall * InviteCoordinatorResult) : bool :=
  match e with
  | (CallCreate _ _ _ _ _, Ok) | (CallCancel _, Ok) | (CallLookup _ _, Expired) | (CallAccept _ _ _ _, Accepted)
  | (CallAccept _ _ _ _, Expired) => true
  | _ => false
  end.

(** The invitation that is open after a trace: created, and not spent since. *)
Definition open_invitation (trace : list (InviteCall * InviteCoordinatorResult)) (s : InviteCoordinator) : Prop :=
  exists before after now, trace = before ++ (CallCreate (generation_ s) now (code_ s) (ble_ s) (qr_ s), Ok) :: after /\
    deadline_ns_ s = add_saturated now kInvitationLifetimeNs /\ Forall (fun e => spends e = false) after /\
    valid_code (code_ s) = true /\ child_id (ble_ s) <> child_id (qr_ s).

Lemma open_later trace s s' e :
  generation_ s' = generation_ s -> code_ s' = code_ s -> ble_ s' = ble_ s -> qr_ s' = qr_ s -> deadline_ns_ s' = deadline_ns_ s ->
  spends e = false -> open_invitation trace s -> open_invitation (trace ++ [e]) s'.
Proof.
  intros E1 E2 E3 E4 E5 He (before & after & now & -> & H1 & H2 & H3 & H4). exists before, (after ++ [e]), now.
  rewrite E1, E2, E3, E4, E5, <- app_assoc. split_and!; try done. apply Forall_app. split; [done |]. by constructor.
Qed.

Lemma step_open trace c s :
  (active_ s = true -> open_invitation trace s) ->
  active_ (invite_step c s).2 = true -> open_invitation (trace ++ [(c, (invite_step c s).1)]) (invite_step c s).2.
Proof.
  intros Hopen Hactive.
  destruct c as [g t code ble qr | g | code t | g route id t | t | g t | g]; cbn [invite_step] in *.
  - unfold create in *. destruct (_ || bool_decide (commitment ble = commitment qr)) eqn:G; cbn [fst snd] in *.
    + eapply open_later; [done.. | by apply Hopen].
    + bool_hyps. exists trace, [], t. cbn. split_and!; done.
  - unfold cancel in *. destruct (_ || _); cbn [fst snd] in *; [| done]. eapply open_later; [done.. | by apply Hopen].
  - unfold lookup in *. destruct (negb (active_ s)) eqn:Ha; cbn [fst snd] in *; [by rewrite Hactive in Ha |].
    destruct (_ <=? _); cbn [fst snd] in *; [done |]. eapply open_later; [done.. | | by apply Hopen]. by destruct (bool_decide _).
  - unfold accept in *. destruct (_ || _); cbn [fst snd] in *; [eapply open_later; [done.. | by apply Hopen] |].
    destruct (consumed_ s); cbn [fst snd] in *; [eapply open_later; [done.. | by apply Hopen] |].
    destruct (_ || _); cbn [fst snd] in *; [done |]. destruct (selected route s) as [child|]; cbn [fst snd] in *;
      [| eapply open_later; [done.. | by apply Hopen]].
    destruct (negb _); cbn [fst snd] in *; [eapply open_later; [done.. | by apply Hopen] | done].
  - unfold begin_join_submission in *. cbv zeta in *. destruct (_ <=? _); cbn [fst snd] in *; eapply open_later; try done; by apply Hopen.
  - unfold begin_host_lookup in *. destruct (g =? 0); cbn [fst snd] in *; [eapply open_later; [done.. | by apply Hopen] |].
    destruct (bool_decide _); cbn [fst snd] in *; [eapply open_later; [done.. | by apply Hopen] |]. cbv zeta in *.
    destruct (_ <=? _); cbn [fst snd] in *; eapply open_later; try done; by apply Hopen.
  - eapply open_later; [done.. | by apply Hopen].
Qed.

Lemma run_open calls trace s :
  (active_ s = true -> open_invitation trace s) ->
  active_ (run_invite calls s).2 = true -> open_invitation (trace ++ (run_invite calls s).1) (run_invite calls s).2.
Proof.
  revert trace s. induction calls as [|c calls IH]; intros trace s Hopen; cbn [run_invite].
  { cbn. rewrite app_nil_r. done. }
  pose proof (step_open trace c s Hopen) as Hstep. destruct (invite_step c s) as [answer s1].
  specialize (IH (trace ++ [(c, answer)]) s1 Hstep). destruct (run_invite calls s1) as [rest s2]. cbn [fst snd] in *.
  rewrite <- app_assoc in IH. exact IH.
Qed.

(** The limits on guessing: from a new coordinator on, whatever the calls and their times (the clock only does not
    go back), at most five submissions of a code and at most twenty lookups for other devices are accepted in any
    minute; creating, cancelling or accepting an invitation does not clear the count. *)
Theorem rate_limited calls now t :
  clocked now calls ->
  within t (mjoin (submission <$> (run_invite calls coordinator_new).1)) <= 5 /\
  within t (mjoin (host_lookup <$> (run_invite calls coordinator_new).1)) <= 20.
Proof.
  intros Hclock. destruct (run_limits calls now [] [] coordinator_new Hclock) as [now' [(u & _ & Hj) (v & _ & Hh)]].
  { split; exists now; (split; [lia | by apply windowed_start]). }
  split; [apply (window_bound _ _ _ _ Hj) | apply (window_bound _ _ _ _ Hh)].
Qed.

Definition six_joins : list InviteCall := CallJoin <$> [1; 2; 3; 4; 5; 6; 60000000001].

Lemma rate_limited_witness :
  snd <$> (run_invite six_joins coordinator_new).1 = [Accepted; Accepted; Accepted; Accepted; Accepted; RateLimited; Accepted] /\
  within 1 (mjoin (submission <$> (run_invite six_joins coordinator_new).1)) <= 5.
Proof.
  split; [by vm_compute |]. refine (proj1 (rate_limited six_joins 0 1 _)).
  cbn. by split_and!; try lia.
Defined.

(** An invitation is accepted once: an acceptance is of the invitation the last [create] of its generation made,
    with nothing since that spends it (no acceptance, cancellation, expiry or other invitation), at a time before its
    deadline, and with the identifier of the child of its own route, which is not that of the other route. *)
Theorem invitation_accepted_once calls generation route id now :
  let trace := (run_invite calls coordinator_new).1 in
  (accept generation route id now (run_invite calls coordinator_new).2).1 = Accepted ->
  exists before after created code ble qr,
    trace = before ++ (CallCreate generation created code ble qr, Ok) :: after /\ Forall (fun e => spends e = false) after /\
    now < add_saturated created kInvitationLifetimeNs /\ valid_code code = true /\
    (route = BleAnonymous /\ id = child_id ble \/ route = Qr /\ id = child_id qr) /\ child_id ble <> child_id qr.
Proof.
  intros trace. pose proof (run_open calls [] coordinator_new) as Hopen. fold trace in Hopen. revert Hopen.
  generalize (run_invite calls coordinator_new).2 as s. intros s Hopen. cbn [app] in Hopen. unfold accept.
  destruct (_ || _) eqn:G; [done |]. destruct (consumed_ s); [done |]. destruct (negb (active_ s) || _) eqn:A; [done |]. bool_hyps.
  destruct Hopen as (before & after & created & E & D & Hs & Hv & Hd); [done | done |].
  destruct (selected route s) as [child|] eqn:R; [| done]. destruct (negb _) eqn:I; [done |]. intros _. bool_hyps. subst id.
  exists before, after, created, (code_ s), (ble_ s), (qr_ s).
  replace generation with (generation_ s) by lia. split_and!; try done; [lia |].
  destruct route; cbn in R; [left | right | done]; apply (inj Some) in R; subst child; done.
Qed.

Definition example_child (n : Z) : InviteChildMaterial := mkChild (replicate 16 n) (replicate 16 n) (replicate 32 n).
Definition example_code : bytes := [0x34; 0x30; 0x37; 0x31; 0x35; 0x39].
Definition example_invite : list InviteCall := [CallCreate 7 1000 example_code (example_child 1) (example_child 2)].

Lemma invitation_accepted_once_witness :
  (accept 7 Qr (replicate 16 2) 5000 (run_invite example_invite coordinator_new).2).1 = Accepted /\
  exists before after created code ble qr,
    (run_invite example_invite coordinator_new).1 = before ++ (CallCreate 7 created code ble qr, Ok) :: after /\
    Forall (fun e => spends e = false) after /\
    5000 < add_saturated created kInvitationLifetimeNs /\ valid_code code = true /\
    (Qr = BleAnonymous /\ replicate 16 2 = child_id ble \/ Qr = Qr /\ replicate 16 2 = child_id qr) /\ child_id ble <> child_id qr.
Proof. split; [by vm_compute |]. apply (invitation_accepted_once example_invite 7 Qr (replicate 16 2) 5000). by vm_compute. Defined.

(** ** The digits of a code *)

(** The number a code is, read from the first digit. *)
Definition code_value (code : bytes) : Z := fold_left (fun value digit => value * 10 + (digit - 0x30)) code 0.

Lemma code_loop_value places value digits acc :
  0 <= value ->
  fold_left (fun value digit => value * 10 + (digit - 0x30)) (code_loop places value digits) acc =
  fold_left (fun value digit => value * 10 + (digit - 0x30)) digits (acc * 10 ^ Z.of_nat places + value mod 10 ^ Z.of_nat places).
Proof.
  revert value digits acc. induction places as [|places IH]; intros value digits acc Hv; cbn [code_loop].
  { rewrite Z.mod_1_r. f_equal. lia. }
  rewrite IH by (apply Z.div_pos; lia). cbn [fold_left]. f_equal. unfold u8. rewrite (Z.mod_small (0x30 + _)) by
    (pose proof (Z.mod_pos_bound value 10); lia).
  rewrite Nat2Z.inj_succ, Z.pow_succ_r by lia. rewrite (Z.rem_mul_r value 10 (10 ^ Z.of_nat places)) by lia. lia.
Qed.

Lemma code_value_loop value : 0 <= value < 1000000 -> code_value (code_loop 6 value []) = value.
Proof. intros H. unfold code_value. rewrite code_loop_value by lia. cbn [fold_left]. rewrite Z.mod_small by (cbn; lia). lia. Qed.

Lemma code_loop_valid places value digits :
  0 <= value -> valid_code digits = true -> valid_code (code_loop places value digits) = true.
Proof.
  revert value digits. induction places as [|places IH]; intros value digits Hv Hd; cbn [code_loop]; [done |].
  apply IH; [apply Z.div_pos; lia |]. cbn [valid_code forallb]. change (forallb _ digits) with (valid_code digits). rewrite Hd, andb_true_r.
  pose proof (Z.mod_pos_bound value 10). unfold u8. rewrite Z.mod_small by lia. lia.
Qed.

Lemma code_loop_length places value digits : length (code_loop places value digits) = (places + length digits)%nat.
Proof. revert value digits. induction places as [|places IH]; intros value digits; cbn [code_loop]; [done |]. rewrite IH. cbn. lia. Qed.

(** Codes are drawn evenly: among all 32-bit draws, each of the million codes is given by exactly the 4294 draws
    congruent to it below 4294000000, and a draw from there on is drawn again. *)
Theorem codes_drawn_evenly draw value old :
  0 <= draw < 2 ^ 32 -> 0 <= value < 1000000 ->
  (invite_code_from_uniform_u32 draw (Some old) = (Ok, Some (code_loop 6 value [])) <->
     exists k, 0 <= k < 4294 /\ draw = 1000000 * k + value) /\
  ((invite_code_from_uniform_u32 draw (Some old)).1 = Retry <-> 4294000000 <= draw).
Proof.
  intros Hdraw Hvalue. unfold invite_code_from_uniform_u32. destruct (Z.leb_spec 4294000000 draw) as [Hhigh | Hlow].
  - split; [| done]. split; [intros [=] | intros (k & Hk & ->); lia].
  - split; [| split; [done | lia]]. split.
    + intros E. assert (code_loop 6 (draw mod 1000000) [] = code_loop 6 value []) as E' by congruence.
      pose proof (Z.mod_pos_bound draw 1000000) as Hm. apply (f_equal code_value) in E'.
      rewrite !code_value_loop in E' by lia. exists (draw / 1000000).
      pose proof (Z.div_mod draw 1000000). lia.
    + intros (k & Hk & ->). do 3 f_equal. rewrite (Z.mul_comm 1000000), Z.add_comm, Z.mod_add by lia. by apply Z.mod_small.
Qed.

Lemma codes_drawn_evenly_witness :
  invite_code_from_uniform_u32 3000407159 (Some (replicate 6 0)) = (Ok, Some example_code) /\
  exists k, 0 <= k < 4294 /\ 3000407159 = 1000000 * k + 407159.
Proof.
  split; [by vm_compute |]. refine (proj1 (proj1 (codes_drawn_evenly 3000407159 407159 (replicate 6 0) _ _)) _); [lia | lia |].
  by vm_compute.
Defined.

(** ** Reading a code back *)

Lemma remove_prefix_spaces left rest : forallb edge_whitespace left = true -> remove_prefix (left ++ rest) = remove_prefix rest.
Proof. induction left as [|x left IH]; [done |]. cbn [forallb app remove_prefix]. intros H. bool_hyps. rewrite H. by apply IH. Qed.

Lemma digit_edge x : (0x30 <=? x) && (x <=? 0x39) = true -> edge_whitespace x = false.
Proof. intros H. bool_hyps. unfold edge_whitespace. lia. Qed.

Lemma remove_prefix_code code rest : valid_code code = true -> code <> [] -> remove_prefix (code ++ rest) = code ++ rest.
Proof.
  destruct code as [|x code]; [done |]. cbn [valid_code forallb app remove_prefix]. intros H _.
  apply andb_prop in H as [H _]. by rewrite (digit_edge x H).
Qed.

Lemma forallb_rev {A} (f : A -> bool) xs : forallb f (rev xs) = forallb f xs.
Proof.
  induction xs as [|x xs IH]; [done |]. cbn [rev forallb]. rewrite forallb_app, IH. cbn. by rewrite andb_true_r, andb_comm.
Qed.

Lemma digits_loop_valid input i out :
  valid_code input = true -> (i + length input = length out)%nat -> digits_loop input i out = (Ok, take i out ++ input).
Proof.
  revert i out. induction input as [|x input IH]; intros i out Hv Hlen; cbn [digits_loop].
  { rewrite app_nil_r, take_ge by (cbn in Hlen; lia). done. }
  cbn [valid_code forallb] in Hv. bool_hyps. replace ((x <? 0x30) || (0x39 <? x)) with false by lia. cbn [length] in Hlen.
  rewrite IH; [| done | rewrite length_insert; lia]. f_equal.
  rewrite (take_S_r _ i x) by (apply list_lookup_insert_eq; lia). rewrite take_insert_ge by lia. by rewrite <- app_assoc.
Qed.

(** Reading a code back: a code that was drawn has six digits, and reads as itself however the person who types it
    pads it with spaces, tabs or line ends. *)
Theorem code_reads_back draw old code left right out :
  0 <= draw ->
  invite_code_from_uniform_u32 draw (Some old) = (Ok, Some code) ->
  forallb edge_whitespace left = true -> forallb edge_whitespace right = true -> length out = 6%nat ->
  valid_code code = true /\ normalize_invite_code (left ++ code ++ right) (Some out) = (Ok, Some code).
Proof.
  intros Hdraw E Hleft Hright Hout. unfold invite_code_from_uniform_u32 in E. destruct (_ <=? _); [done |].
  assert (code = code_loop 6 (draw mod 1000000) []) as -> by congruence. clear E.
  set (code := code_loop _ _ _). assert (valid_code code = true) as Hv
    by (apply code_loop_valid; [apply Z.mod_pos_bound; lia | done]).
  assert (length code = 6%nat) as Hl by (apply (code_loop_length 6 _ [])). split; [done |].
  assert (code <> []) as Hne by (by destruct code).
  unfold normalize_invite_code. rewrite remove_prefix_spaces by done. rewrite remove_prefix_code by done.
  unfold remove_suffix. rewrite rev_app_distr, remove_prefix_spaces by (by rewrite forallb_rev).
  rewrite <- (app_nil_r (rev code)), remove_prefix_code, app_nil_r, rev_involutive;
    [| unfold valid_code; by rewrite forallb_rev | intros Hr; apply Hne; by apply (f_equal (@rev Z)) in Hr; rewrite rev_involutive in Hr].
  replace (negb _) with false by (unfold zlen; rewrite Hl, Hout; done).
  by rewrite (digits_loop_valid code 0 out) by (done || lia).
Qed.

Lemma code_reads_back_witness :
  valid_code example_code = true /\
  normalize_invite_code ([0x20] ++ example_code ++ [13; 10]) (Some (replicate 6 0)) = (Ok, Some example_code).
Proof. apply (code_reads_back 3000407159 (replicate 6 0)); [lia | by vm_compute..]. Defined.

(** ** Runs of a round *)

Inductive RoundCall :=
  | NextCandidate (now_ns : Z)
  | RecordMatch (candidate_handle : Z) (pair_context_hash : bytes).

(** The answer with the handle and the deadline of the candidate. *)
Definition round_step (c : RoundCall) (r : JoinLookupRound) : InviteCoordinatorResult * (Z * Z) * JoinLookupRound :=
  match c with
  | NextCandidate now_ns => next_candidate now_ns r
  | RecordMatch handle hash => let '(result, r) := record_match handle hash r in (result, (0, 0), r)
  end.

Fixpoint run_round (calls : list RoundCall) (r : JoinLookupRound)
    : list (RoundCall * InviteCoordinatorResult * (Z * Z)) * JoinLookupRound :=
  match calls with
  | [] => ([], r)
  | c :: calls =>
    let '(answer, candidate, r) := round_step c r in
    let '(trace, r) := run_round calls r in
    ((c, answer, candidate) :: trace, r)
  end.

(** The candidates handed out, with their deadlines. *)
Definition handed (e : RoundCall * InviteCoordinatorResult * (Z * Z)) : list (Z * Z) :=
  match e with (NextCandidate _, Accepted, candidate) => [candidate] | _ => [] end.

(** The contexts the candidates claim, the ones that end the round included. *)
Definition claimed (e : RoundCall * InviteCoordinatorResult * (Z * Z)) : list bytes :=
  match e with
  | (RecordMatch _ _, Invalid, _) => []
  | (RecordMatch _ hash, _, _) => [hash]
  | _ => []
  end.

Definition agree (claims : list bytes) (r : JoinLookupRound) : Prop :=
  if has_match_ r then matched_context_ r ∈ claims /\ Forall (fun hash => hash = matched_context_ r) claims else claims = [].

Record round_kept (candidates : list Z) (deadline : Z) (given : list (Z * Z)) (claims : list bytes) (r : JoinLookupRound) : Prop := {
  kept_candidates : candidates_ r = candidates;
  kept_deadline : round_deadline_ns_ r = deadline;
  kept_given : given.*1 = take (next_index_ r) candidates;
  kept_index : (next_index_ r <= length candidates)%nat;
  kept_bound : Forall (fun candidate => candidate.2 <= deadline) given;
  kept_agree : round_active_ r = true -> agree claims r;
}.

Lemma step_round candidates deadline given claims c r :
  round_kept candidates deadline given claims r ->
  let '(answer, candidate, r') := round_step c r in
  round_kept candidates deadline (given ++ handed (c, answer, candidate)) (claims ++ claimed (c, answer, candidate)) r'.
Proof.
  intros Hkept. pose proof Hkept as [Hc Hd Hg Hi Hb Ha]. destruct c as [now | handle hash]; cbn [round_step].
  - unfold next_candidate. destruct (submission_id_ r =? 0); [cbn; by rewrite !app_nil_r |].
    destruct (_ || _); [cbn; rewrite !app_nil_r; by constructor |].
    destruct (candidates_ r !! next_index_ r) as [handle'|] eqn:E; cbn.
    + rewrite app_nil_r. rewrite Hc in E. constructor; cbn; try done.
      * rewrite fmap_app, Hg. symmetry. by apply take_S_r.
      * apply lookup_lt_Some in E. lia.
      * apply Forall_app. split; [done |]. constructor; [cbn; lia | done].
    + destruct (has_match_ r); cbn; rewrite !app_nil_r; by constructor.
  - unfold record_match. destruct (_ || _) eqn:G; [cbn; by rewrite !app_nil_r |]. bool_hyps.
    assert (round_active_ r = true) as Hactive by (by destruct (round_active_ r)). specialize (Ha Hactive). unfold agree in Ha.
    destruct (has_match_ r) eqn:M; cbn [negb].
    + destruct Ha as [Hin Hall]. destruct (bool_decide_reflect (matched_context_ r = hash)) as [<- | Hne]; cbn; rewrite app_nil_r.
      * constructor; try done. intros _. unfold agree. rewrite M. split; [apply elem_of_app; by left |].
        apply Forall_app. split; [done |]. by constructor.
      * by constructor.
    + subst claims. cbn. rewrite app_nil_r. constructor; try done. intros _. unfold agree. cbn.
      split; [apply list_elem_of_here |]. by constructor.
Qed.

Lemma run_round_kept candidates deadline given claims calls r :
  round_kept candidates deadline given claims r ->
  round_kept candidates deadline (given ++ mjoin (handed <$> (run_round calls r).1)) (claims ++ mjoin (claimed <$> (run_round calls r).1))
    (run_round calls r).2.
Proof.
  revert given claims r. induction calls as [|c calls IH]; intros given claims r Hkept; [cbn; by rewrite !app_nil_r |].
  cbn [run_round]. pose proof (step_round candidates deadline given claims c r Hkept) as Hstep.
  destruct (round_step c r) as [[answer candidate] r1]. specialize (IH _ _ _ Hstep). destruct (run_round calls r1) as [trace r2].
  cbn [fst snd fmap list_fmap] in *. change (mjoin (?x :: ?y)) with (x ++ mjoin y). by rewrite !app_assoc.
Qed.

Lemma candidates_loop_ok candidates seen :
  NoDup seen -> candidates_loop candidates seen = true -> NoDup (seen ++ candidates) /\ 0 ∉ candidates.
Proof.
  revert seen. induction candidates as [|x rest IH]; intros seen Hseen; cbn [candidates_loop].
  { intros _. rewrite app_nil_r. split; [done | apply not_elem_of_nil]. }
  destruct (Z.eqb_spec x 0); [done |]. cbn [orb]. destruct (bool_decide_reflect (x ∈ seen)) as [| Hx]; [done |]. intros H.
  apply IH in H as [Hnodup Hzero].
  - rewrite <- app_assoc in Hnodup. split; [done |]. apply not_elem_of_cons. split; [done | done].
  - apply NoDup_app. split_and!; [done | | apply NoDup_singleton]. intros y Hy Hy'. apply list_elem_of_singleton in Hy'. by subst y.
Qed.

(** A lookup round hands out its candidates in their order, each once and none that was not named, with deadlines
    no later than the round's own or the invitation's; and it ends with a match only when it has asked all of them and
    every claim recorded in it, even one it refused, is of the one context it keeps: it never chooses between two. *)
Theorem lookup_round_unambiguous submission_id now_ns invitation_deadline_ns candidates calls r now result :
  start submission_id now_ns invitation_deadline_ns candidates round_new = (Accepted, r) ->
  let trace := (run_round calls r).1 in
  fst (fst (next_candidate now (run_round calls r).2)) = result ->
  NoDup candidates /\ (0 ∉ candidates) /\ (length candidates <= 8)%nat /\
  prefix ((mjoin (handed <$> trace)).*1) candidates /\
  Forall (fun candidate => candidate.2 <= invitation_deadline_ns /\ candidate.2 <= now_ns + kLookupRoundLifetimeNs) (mjoin (handed <$> trace)) /\
  (result = MatchPendingApproval ->
     ((mjoin (handed <$> trace)).*1) = candidates /\
     matched_context_ (run_round calls r).2 ∈ mjoin (claimed <$> trace) /\
     Forall (fun hash => hash = matched_context_ (run_round calls r).2) (mjoin (claimed <$> trace))).
Proof.
  unfold start. destruct (_ || _) eqn:G; [done |]. destruct (candidates_loop candidates []) eqn:L; [| done]. cbn [negb]. intros E R. set (trace := (run_round calls r).1) in *.
  bool_hyps. apply candidates_loop_ok in L as [Hnodup Hzero]; [| apply NoDup_nil_2]. cbn [app] in Hnodup.
  set (deadline := Z.min invitation_deadline_ns (add_saturated now_ns kLookupRoundLifetimeNs)) in E.
  assert (round_kept candidates deadline [] [] r) as Hkept.
  { assert (r = mkRound submission_id deadline candidates 0 (replicate 32 0) false true) as -> by congruence.
    constructor; [done | done | done | apply Nat.le_0_l | apply Forall_nil_2 | done]. }
  apply (run_round_kept _ _ _ _ calls) in Hkept. cbn [app] in Hkept. fold trace in Hkept.
  destruct Hkept as [Hc Hd Hg Hi Hb Ha]. split_and!; [done | done | | | |].
  - unfold zlen in *. lia.
  - rewrite Hg. apply prefix_take.
  - eapply Forall_impl; [exact Hb |]. intros [handle d]. cbn [snd]. subst deadline. unfold add_saturated, u64_max in *.
    destruct (_ <? _) eqn:S; lia.
  - intros ->. unfold next_candidate in R. destruct (_ =? _); [done |]. destruct (negb _ || _) eqn:A; [done |]. bool_hyps.
    destruct (candidates_ _ !! _) eqn:K; [done |]. cbn [fst] in R.
    assert (round_active_ (run_round calls r).2 = true) as Hactive by (by destruct (round_active_ _)). specialize (Ha Hactive). unfold agree in Ha.
    destruct (has_match_ _); [| done]. split_and!; [| apply Ha..]. rewrite Hg. apply take_ge. rewrite Hc in K. by apply lookup_ge_None in K.
Qed.

Definition example_round : JoinLookupRound := (start 9 1000 60000000000 [11; 12] round_new).2.
Definition example_claims : list RoundCall :=
  [NextCandidate 1000; RecordMatch 11 (replicate 32 5); NextCandidate 2000; RecordMatch 12 (replicate 32 5)].

Lemma lookup_round_unambiguous_witness :
  fst (fst (next_candidate 3000 (run_round example_claims example_round).2)) = MatchPendingApproval /\
  ((mjoin (handed <$> (run_round example_claims example_round).1)).*1) = [11; 12].
Proof.
  split; [by vm_compute |].
  refine (proj1 (proj2 (proj2 (proj2 (proj2 (proj2
    (lookup_round_unambiguous 9 1000 60000000000 [11; 12] example_claims example_round 3000 MatchPendingApproval _ _))))) _));
    [by vm_compute.. | reflexivity].
Defined.

(** Two claims of different contexts end the round. *)
Example ambiguous_round :
  (fun e => e.1.2) <$> ((run_round
    [NextCandidate 1000; RecordMatch 11 (replicate 32 5); NextCandidate 2000; RecordMatch 12 (replicate 32 6); NextCandidate 3000] example_round).1)
  = [Accepted; MatchPendingApproval; Accepted; Ambiguous; Expired].
Proof. by vm_compute. Qed.

(** The two readers of a code do not trim the same characters: this one refuses a trailing form feed, and keeps the
    digits before a character that is not one. *)
Example form_feed_refused :
  normalize_invite_code (example_code ++ [12]) (Some (replicate 6 0)) = (Invalid, Some (replicate 6 0)) /\
  normalize_invite_code [0x31; 0x32; 0x78; 0x34; 0x35; 0x36] (Some (replicate 6 0)) = (Invalid, Some [0x31; 0x32; 0; 0; 0; 0]).
Proof. by vm_compute. Qed.
