(* ===== verification/InviteRoute.v ===== *)
(** * The invite-code route ([shared/src/session/invite_code_route.{hpp,cpp}])

    The two machines on the ends of a six-digit code: the joiner's attempt, from the lookup through the host's approval to
    the confirmations of both people, and the host's invitation with its budget of lookups.

    Times are values of the continuous clock; a deadline is computed in 64 bits and may wrap. *)

From Stdlib Require Import Sorted.
From S2P Require Import Prelude Invitation.

Definition kInviteCodeLength : Z := 6.
Definition kInviteValidityNs : Z := 60000000000.
Definition kInviteLookupAttemptsPerInvitation : Z := 5.

Definition ascii_space (c : Z) : bool := (c =? 0x20) || (c =? 9) || (c =? 10) || (c =? 13) || (c =? 12) || (c =? 11).
Definition ascii_digit (b : Z) : bool := (0x30 <=? b) && (b <=? 0x39).

Fixpoint trim_front (input : bytes) : bytes :=
  match input with
  | front :: rest => if ascii_space front then trim_front rest else input
  | [] => []
  end.

Definition trim_back (input : bytes) : bytes := rev (trim_front (rev input)).

(** The loop over the six places. *)
Fixpoint parse_digits (input : bytes) : option bytes :=
  match input with
  | [] => Some []
  | byte :: rest => if negb (ascii_digit byte) then None else out ← parse_digits rest; Some (byte :: out)
  end.

Definition parse_invite_code (input : bytes) : option bytes :=
  let input := trim_back (trim_front input) in
  if negb (zlen input =? kInviteCodeLength) then None else parse_digits input.

Inductive InviteLookupStatus := MatchPendingHostApproval | NoMatch | LookupExpired | LookupRateLimited | OtherStatus.

#[global] Instance lookup_status_eq_dec : EqDecision InviteLookupStatus.
Proof. solve_decision. Defined.

(** ** The joiner *)

Module Joiner.

Inductive InviteJoinPhase :=
  | Idle | LookingUp | WaitingHostApproval | WaitingSasConfirm | Authenticated | Cancelled | Expired | Ambiguous.

#[global] Instance join_phase_eq_dec : EqDecision InviteJoinPhase.
Proof. solve_decision. Defined.

Record InviteCodeJoiner := mkJoiner {
  phase_ : InviteJoinPhase;
  live_attempt_id_ : Z;
  highest_attempt_id_ : Z;
  deadline_ns_ : Z;
  matched_generation_ : Z;
  local_sas_confirmed_ : bool;
  peer_sas_confirmed_ : bool;
  has_last_tick_ : bool;
  last_tick_ns_ : Z;
}.

#[global] Instance eta_joiner : Eta InviteCodeJoiner := fun r =>
  mkJoiner (phase_ r) (live_attempt_id_ r) (highest_attempt_id_ r) (deadline_ns_ r) (matched_generation_ r) (local_sas_confirmed_ r)
    (peer_sas_confirmed_ r) (has_last_tick_ r) (last_tick_ns_ r).

Definition joiner_new : InviteCodeJoiner := mkJoiner Idle 0 0 0 0 false false false 0.

Definition join_phase_live (phase : InviteJoinPhase) : bool :=
  match phase with LookingUp | WaitingHostApproval | WaitingSasConfirm => true | _ => false end.

Definition live (attempt_id : Z) (s : InviteCodeJoiner) : bool :=
  negb (attempt_id =? 0) && (attempt_id =? live_attempt_id_ s) && join_phase_live (phase_ s).

Definition end_attempt (terminal : InviteJoinPhase) (s : InviteCodeJoiner) : InviteCodeJoiner :=
  s <| phase_ := terminal |> <| live_attempt_id_ := 0 |> <| deadline_ns_ := 0 |> <| matched_generation_ := 0 |>
    <| local_sas_confirmed_ := false |> <| peer_sas_confirmed_ := false |>.

(** The clock went back. *)
Definition backwards (now_ns : Z) (s : InviteCodeJoiner) : bool := has_last_tick_ s && (now_ns <? last_tick_ns_ s).

Definition start (attempt_id : Z) (input : bytes) (now_ns : Z) (s : InviteCodeJoiner) : bool * InviteCodeJoiner :=
  if (attempt_id =? 0) || (attempt_id <=? highest_attempt_id_ s) || join_phase_live (phase_ s) || backwards now_ns s then (false, s)
  else
    match parse_invite_code input with
    | None => (false, s)
    | Some _ => (true, mkJoiner LookingUp attempt_id attempt_id (u64 (now_ns + kInviteValidityNs)) 0 false false true now_ns)
    end.

Definition on_response (attempt_id : Z) (status : InviteLookupStatus) (matched_generation now_ns : Z) (s : InviteCodeJoiner)
    : bool * InviteCodeJoiner :=
  if negb (live attempt_id s) || backwards now_ns s then (false, s)
  else if deadline_ns_ s <=? now_ns then (false, end_attempt Expired s)
  else
    let s := s <| last_tick_ns_ := now_ns |> in
    match status with
    | MatchPendingHostApproval =>
      if bool_decide (phase_ s = LookingUp) then
        if matched_generation =? 0 then (false, end_attempt Idle s)
        else (true, s <| matched_generation_ := matched_generation |> <| phase_ := WaitingHostApproval |>)
      else if matched_generation =? matched_generation_ s then (true, s)
      else (false, end_attempt Ambiguous s)
    | NoMatch | LookupExpired | LookupRateLimited => (true, end_attempt Idle s)
    | OtherStatus => (false, s)
    end.

Definition on_host_accepted (attempt_id : Z) (s : InviteCodeJoiner) : bool * InviteCodeJoiner :=
  if negb (live attempt_id s) || negb (bool_decide (phase_ s = WaitingHostApproval)) then (false, s)
  else (true, s <| phase_ := WaitingSasConfirm |>).

Definition on_local_sas_confirmed (attempt_id : Z) (s : InviteCodeJoiner) : bool * InviteCodeJoiner :=
  if negb (live attempt_id s) || negb (bool_decide (phase_ s = WaitingSasConfirm)) then (false, s)
  else
    let s := s <| local_sas_confirmed_ := true |> in
    (true, if peer_sas_confirmed_ s then s <| phase_ := Authenticated |> else s).

Definition on_peer_sas_confirmed (attempt_id : Z) (s : InviteCodeJoiner) : bool * InviteCodeJoiner :=
  if negb (live attempt_id s) || negb (bool_decide (phase_ s = WaitingSasConfirm)) then (false, s)
  else
    let s := s <| peer_sas_confirmed_ := true |> in
    (true, if local_sas_confirmed_ s then s <| phase_ := Authenticated |> else s).

Definition cancel (attempt_id : Z) (s : InviteCodeJoiner) : bool * InviteCodeJoiner :=
  if negb (live attempt_id s) then (false, s) else (true, end_attempt Cancelled s).

Definition tick (now_ns : Z) (s : InviteCodeJoiner) : InviteCodeJoiner :=
  if backwards now_ns s then if join_phase_live (phase_ s) then end_attempt Expired s else s
  else
    let s := s <| has_last_tick_ := true |> <| last_tick_ns_ := now_ns |> in
    if join_phase_live (phase_ s) && (deadline_ns_ s <=? now_ns) then end_attempt Expired s else s.

Definition connected (s : InviteCodeJoiner) : bool := bool_decide (phase_ s = Authenticated).

End Joiner.

(** ** The host *)

Module Host.

Inductive InviteHostPhase := Idle | Active.

#[global] Instance host_phase_eq_dec : EqDecision InviteHostPhase.
Proof. solve_decision. Defined.

Record InviteCodeHost := mkHost {
  phase_ : InviteHostPhase;
  generation_ : Z;
  highest_generation_ : Z;
  code_ : bytes;
  deadline_ns_ : Z;
  attempts_left_ : Z;
  has_last_tick_ : bool;
  last_tick_ns_ : Z;
}.

#[global] Instance eta_host : Eta InviteCodeHost := fun r =>
  mkHost (phase_ r) (generation_ r) (highest_generation_ r) (code_ r) (deadline_ns_ r) (attempts_left_ r) (has_last_tick_ r)
    (last_tick_ns_ r).

Definition host_new : InviteCodeHost := mkHost Idle 0 0 (replicate 6 0) 0 kInviteLookupAttemptsPerInvitation false 0.

Definition reset (s : InviteCodeHost) : InviteCodeHost :=
  s <| phase_ := Idle |> <| generation_ := 0 |> <| code_ := replicate 6 0 |> <| deadline_ns_ := 0 |>
    <| attempts_left_ := kInviteLookupAttemptsPerInvitation |>.

Definition backwards (now_ns : Z) (s : InviteCodeHost) : bool := has_last_tick_ s && (now_ns <? last_tick_ns_ s).

Definition activate (generation : Z) (code_input : bytes) (now_ns : Z) (s : InviteCodeHost) : bool * InviteCodeHost :=
  match parse_invite_code code_input with
  | None => (false, s)
  | Some code =>
    (true, mkHost Active generation generation code (u64 (now_ns + kInviteValidityNs)) kInviteLookupAttemptsPerInvitation true now_ns)
  end.

Definition publish (generation : Z) (code_input : bytes) (now_ns : Z) (s : InviteCodeHost) : bool * InviteCodeHost :=
  if (generation =? 0) || (generation <=? highest_generation_ s) || negb (bool_decide (phase_ s = Idle)) || backwards now_ns s
  then (false, s) else activate generation code_input now_ns s.

Definition regenerate (new_generation : Z) (code_input : bytes) (now_ns : Z) (s : InviteCodeHost) : bool * InviteCodeHost :=
  if (new_generation =? 0) || (new_generation <=? highest_generation_ s) || negb (bool_decide (phase_ s = Active)) || backwards now_ns s
  then (false, s) else activate new_generation code_input now_ns s.

Definition cancel (generation : Z) (s : InviteCodeHost) : bool * InviteCodeHost :=
  if negb (bool_decide (phase_ s = Active)) || negb (generation =? generation_ s) then (false, s) else (true, reset s).

Definition tick (now_ns : Z) (s : InviteCodeHost) : InviteCodeHost :=
  if backwards now_ns s then if bool_decide (phase_ s = Active) then reset s else s
  else
    let s := s <| has_last_tick_ := true |> <| last_tick_ns_ := now_ns |> in
    if bool_decide (phase_ s = Active) && (deadline_ns_ s <=? now_ns) then reset s else s.

Definition on_lookup (code : bytes) (now_ns : Z) (s : InviteCodeHost) : InviteLookupStatus * InviteCodeHost :=
  if negb (bool_decide (phase_ s = Active)) || backwards now_ns s then (NoMatch, s)
  else if deadline_ns_ s <=? now_ns then (LookupExpired, s)
  else if attempts_left_ s =? 0 then (LookupRateLimited, s)
  else
    let s := s <| attempts_left_ := attempts_left_ s - 1 |> in
    (if negb (bool_decide (code = code_ s)) then NoMatch else MatchPendingHostApproval, s).

Definition active_generation (s : InviteCodeHost) : Z := if bool_decide (phase_ s = Active) then generation_ s else 0.

End Host.

(** ** The two readers of a code *)

Lemma parse_digits_valid input : parse_digits input = if valid_code input then Some input else None.
Proof.
  induction input as [|x input IH]; [done |]. cbn [parse_digits valid_code forallb]. fold (valid_code input). rewrite IH.
  change (ascii_digit x) with ((0x30 <=? x) && (x <=? 0x39)). destruct (_ && (x <=? 0x39)); [| done]. by destruct (valid_code input).
Qed.

Lemma digits_loop_invalid input i out : valid_code input = false -> fst (digits_loop input i out) = Invalid.
Proof.
  revert i out. induction input as [|x input IH]; intros i out; [done |]. cbn [digits_loop valid_code forallb]. intros H.
  destruct ((x <? 0x30) || (0x39 <? x)) eqn:X; [done |]. apply IH. fold (valid_code input) in H.
  replace ((0x30 <=? x) && (x <=? 0x39)) with true in H by lia. exact H.
Qed.

Lemma trim_front_plain input : 11 ∉ input -> 12 ∉ input -> trim_front input = remove_prefix input.
Proof.
  induction input as [|x input IH]; [done |]. rewrite !not_elem_of_cons. intros [H1 H2] [H3 H4]. cbn [trim_front remove_prefix].
  rewrite IH by done. replace (ascii_space x) with (edge_whitespace x); [done |]. unfold ascii_space, edge_whitespace. lia.
Qed.

Lemma remove_prefix_sub input x : x ∈ remove_prefix input -> x ∈ input.
Proof. induction input as [|y input IH]; [done |]. cbn [remove_prefix]. destruct (edge_whitespace y); [right; by apply IH | done]. Qed.

Lemma trim_plain input : 11 ∉ input -> 12 ∉ input -> trim_back (trim_front input) = remove_suffix (remove_prefix input).
Proof.
  intros H1 H2. unfold trim_back, remove_suffix. rewrite (trim_front_plain input) by done.
  rewrite trim_front_plain; [done | |]; intros H; apply list_elem_of_In, in_rev, list_elem_of_In in H; by apply remove_prefix_sub in H.
Qed.

(** The coordinator's reader of a code and the route's agree on every input without a form feed or a vertical tab
    (which only the route's trims): they accept the same inputs, with the same six digits. *)
Theorem readers_agree input out code :
  length out = 6%nat -> 11 ∉ input -> 12 ∉ input ->
  parse_invite_code input = Some code <-> normalize_invite_code input (Some out) = (Ok, Some code).
Proof.
  intros Hout H1 H2. unfold parse_invite_code, normalize_invite_code. rewrite trim_plain by done.
  set (input' := remove_suffix _). replace (zlen out) with kInviteCodeLength by (unfold zlen; by rewrite Hout).
  destruct (Z.eqb_spec (zlen input') kInviteCodeLength) as [Hlen |]; [| done]. cbn [negb]. rewrite parse_digits_valid.
  destruct (valid_code input') eqn:V.
  - rewrite digits_loop_valid by (done || (unfold zlen, kInviteCodeLength in Hlen; lia)). cbn [take app]. split; [by intros [= ->] | by intros [= ->]].
  - pose proof (digits_loop_invalid input' 0 out V) as F. destruct (digits_loop input' 0 out) as [result out']. cbn in F. subst result. done.
Qed.

Lemma readers_agree_witness :
  parse_invite_code ([0x20; 9] ++ example_code ++ [10]) = Some example_code /\
  normalize_invite_code ([0x20; 9] ++ example_code ++ [10]) (Some (replicate 6 0)) = (Ok, Some example_code).
Proof.
  assert (parse_invite_code ([0x20; 9] ++ example_code ++ [10]) = Some example_code) as H by (by vm_compute). split; [exact H |].
  refine (proj1 (readers_agree _ _ _ _ _ _) H); [reflexivity | |]; by apply (bool_decide_eq_true_1 _).
Defined.

Lemma trim_front_valid code : valid_code code = true -> trim_front code = code.
Proof.
  destruct code as [|x code]; [done |]. cbn [valid_code forallb trim_front]. intros H. apply andb_prop in H as [H _].
  replace (ascii_space x) with false; [done |]. unfold ascii_space. lia.
Qed.

Lemma parse_valid code : valid_code code = true -> length code = 6%nat -> parse_invite_code code = Some code.
Proof.
  intros Hv Hl. unfold parse_invite_code, trim_back. rewrite (trim_front_valid code) by done.
  rewrite trim_front_valid by (unfold valid_code; by rewrite forallb_rev). rewrite rev_involutive. unfold zlen. rewrite Hl. cbn [negb Z.eqb kInviteCodeLength].
  rewrite parse_digits_valid, Hv. done.
Qed.

(** ** Runs of the joiner *)

Module JoinerRuns.
Import Joiner.

Inductive JoinCall :=
  | Start (attempt_id : Z) (input : bytes) (now_ns : Z)
  | Response (attempt_id : Z) (status : InviteLookupStatus) (matched_generation now_ns : Z)
  | HostAccepted (attempt_id : Z)
  | LocalConfirmed (attempt_id : Z)
  | PeerConfirmed (attempt_id : Z)
  | Cancel (attempt_id : Z)
  | Tick (now_ns : Z).

Definition join_step (c : JoinCall) (s : InviteCodeJoiner) : bool * InviteCodeJoiner :=
  match c with
  | Start id input now => start id input now s
  | Response id status generation now => on_response id status generation now s
  | HostAccepted id => on_host_accepted id s
  | LocalConfirmed id => on_local_sas_confirmed id s
  | PeerConfirmed id => on_peer_sas_confirmed id s
  | Cancel id => cancel id s
  | Tick now => (false, tick now s)
  end.

(** The calls with whether they were taken, and the state they end in. *)
Fixpoint run_joiner (calls : list JoinCall) (s : InviteCodeJoiner) : list (JoinCall * bool) * InviteCodeJoiner :=
  match calls with
  | [] => ([], s)
  | c :: calls =>
    let '(taken, s) := join_step c s in
    let '(trace, s) := run_joiner calls s in
    ((c, taken) :: trace, s)
  end.

(** [e] occurs, and [P] holds of what follows it. *)
Definition followed {A} (e : A) (P : list A -> Prop) (trace : list A) : Prop :=
  exists before after, trace = before ++ e :: after /\ P after.

Lemma followed_here {A} (e : A) (P : list A -> Prop) trace : P [] -> followed e P (trace ++ [e]).
Proof. intros H. by exists trace, []. Qed.

Lemma followed_later {A} (e x : A) (P Q : list A -> Prop) trace :
  (forall after, P after -> Q (after ++ [x])) -> followed e P trace -> followed e Q (trace ++ [x]).
Proof. intros H (before & after & -> & HP). exists before, (after ++ [x]). rewrite <- app_assoc. split; [done | by apply H]. Qed.

Lemma followed_weaken {A} (e : A) (P Q : list A -> Prop) trace :
  (forall after, P after -> Q after) -> followed e P trace -> followed e Q trace.
Proof. intros H (before & after & -> & HP). exists before, after. split; [done | by apply H]. Qed.

(** What may be taken while an attempt lasts: no other start, no cancellation, and no answer but the match of one
    generation, if one is known. *)
Definition compatible (generation : option Z) (e : JoinCall * bool) : Prop :=
  match e with
  | (Start _ _ _, true) | (Cancel _, true) => False
  | (Response _ status g _, true) => status = MatchPendingHostApproval /\ generation = Some g
  | _ => True
  end.

(** The start of the attempt, with what followed it. *)
Definition started (id deadline : Z) (generation : option Z) (P : list (JoinCall * bool) -> Prop) (trace : list (JoinCall * bool)) : Prop :=
  exists input now, parse_invite_code input <> None /\ deadline = u64 (now + kInviteValidityNs) /\
    followed (Start id input now, true) (fun after => Forall (compatible generation) after /\ P after) trace.

Definition matched (id deadline generation : Z) (P : list (JoinCall * bool) -> Prop) (trace : list (JoinCall * bool)) : Prop :=
  exists now, now < deadline /\ followed (Response id MatchPendingHostApproval generation now, true) P trace.

Definition approved (id : Z) (P : list (JoinCall * bool) -> Prop) : list (JoinCall * bool) -> Prop := followed (HostAccepted id, true) P.

Definition confirmed (id : Z) (local peer : bool) (trace : list (JoinCall * bool)) : Prop :=
  (local = true -> (LocalConfirmed id, true) ∈ trace) /\ (peer = true -> (PeerConfirmed id, true) ∈ trace).

(** What each phase says of the calls that led to it. *)
Definition evidence (s : InviteCodeJoiner) (trace : list (JoinCall * bool)) : Prop :=
  let id := live_attempt_id_ s in
  let deadline := deadline_ns_ s in
  let g := matched_generation_ s in
  match phase_ s with
  | LookingUp => (local_sas_confirmed_ s || peer_sas_confirmed_ s = false) /\ started id deadline None (fun _ => True) trace
  | WaitingHostApproval =>
    (local_sas_confirmed_ s || peer_sas_confirmed_ s = false) /\ g <> 0 /\ started id deadline (Some g) (matched id deadline g (fun _ => True)) trace
  | WaitingSasConfirm =>
    g <> 0 /\ started id deadline (Some g) (matched id deadline g (approved id (confirmed id (local_sas_confirmed_ s) (peer_sas_confirmed_ s)))) trace
  | Authenticated => g <> 0 /\ started id deadline (Some g) (matched id deadline g (approved id (confirmed id true true))) trace
  | _ => True
  end.

Section Later.
Context (x : JoinCall * bool).

Lemma started_later id deadline generation (P Q : list (JoinCall * bool) -> Prop) trace :
  compatible generation x -> (forall after, P after -> Q (after ++ [x])) ->
  started id deadline generation P trace -> started id deadline generation Q (trace ++ [x]).
Proof.
  intros Hx H (input & now & Hc & Hd & Hf). exists input, now. split_and!; [done | done |]. revert Hf. apply followed_later.
  intros after [HF HP]. split; [| by apply H]. apply Forall_app. split; [done | by constructor].
Qed.

Lemma matched_later id deadline generation (P Q : list (JoinCall * bool) -> Prop) trace :
  (forall after, P after -> Q (after ++ [x])) -> matched id deadline generation P trace -> matched id deadline generation Q (trace ++ [x]).
Proof. intros H (now & Hn & Hf). exists now. split; [done |]. by eapply followed_later. Qed.

Lemma confirmed_later id local peer trace : confirmed id local peer trace -> confirmed id local peer (trace ++ [x]).
Proof. intros [H1 H2]. split; intros; apply elem_of_app; left; [by apply H1 | by apply H2]. Qed.

(** A call that changes nothing of the attempt. *)
Lemma evidence_later s s' trace :
  phase_ s' = phase_ s -> live_attempt_id_ s' = live_attempt_id_ s -> deadline_ns_ s' = deadline_ns_ s ->
  matched_generation_ s' = matched_generation_ s -> local_sas_confirmed_ s' = local_sas_confirmed_ s ->
  peer_sas_confirmed_ s' = peer_sas_confirmed_ s ->
  compatible (if bool_decide (phase_ s = LookingUp) then None else Some (matched_generation_ s)) x ->
  evidence s trace -> evidence s' (trace ++ [x]).
Proof.
  unfold evidence. intros -> -> -> -> -> -> Hx. destruct (phase_ s); try done; cbn in Hx.
  - intros [Hf He]. split; [done |]. revert He. by apply started_later.
  - intros (Hf & Hg & He). split_and!; [done | done |]. revert He. apply started_later; [done |]. intros after. by apply matched_later.
  - intros [Hg He]. split; [done |]. revert He. apply started_later; [done |]. intros after. apply matched_later.
    intros final. apply followed_later. intros last. apply confirmed_later.
  - intros [Hg He]. split; [done |]. revert He. apply started_later; [done |]. intros after. apply matched_later.
    intros final. apply followed_later. intros last. apply confirmed_later.
Qed.

End Later.

Lemma evidence_ended terminal s trace :
  join_phase_live terminal = false -> terminal <> Authenticated -> evidence (end_attempt terminal s) trace.
Proof. destruct terminal; done. Qed.

Lemma live_id id s : live id s = true -> id = live_attempt_id_ s /\ join_phase_live (phase_ s) = true.
Proof. unfold live. intros H. bool_hyps. split; [lia | done]. Qed.

(** The attempt has its generation once it is matched. *)
Lemma started_matches id deadline g P trace :
  started id deadline None P trace -> started id deadline (Some g) P trace.
Proof.
  intros (input & now & Hc & Hd & Hf). exists input, now. split_and!; [done | done |]. revert Hf. apply followed_weaken.
  intros after [HF HP]. split; [| done]. eapply Forall_impl; [exact HF |].
  intros [[] []]; cbn; try done. by intros [].
Qed.

Lemma response_evidence id status generation now s trace :
  evidence s trace ->
  evidence (on_response id status generation now s).2 (trace ++ [(Response id status generation now, (on_response id status generation now s).1)]).
Proof.
  intros He. unfold on_response. destruct (negb (live id s) || _) eqn:G; [by apply (evidence_later _ s) |]. bool_hyps.
  assert (live id s = true) as Hlive by (by destruct (live id s)). apply live_id in Hlive as [-> Hlive].
  destruct (Z.leb_spec (deadline_ns_ s) now); [done |]. cbv zeta.
  destruct status; [| done.. | by apply (evidence_later _ s)].
  cbn [phase_ over matched_generation_]. destruct (bool_decide_reflect (phase_ s = LookingUp)) as [E | E].
  - destruct (Z.eqb_spec generation 0); [done |]. cbn [fst snd]. unfold evidence in *. rewrite E in He. cbn.
    destruct He as [Hf He]. split_and!; [done | done |]. apply (started_matches _ _ generation) in He. revert He. apply started_later; [done |].
    intros after _. exists now. split; [done |]. by apply followed_here.
  - destruct (Z.eqb_spec generation (matched_generation_ s)) as [-> |]; [| done]. cbn [fst snd].
    apply (evidence_later _ s); try done. by rewrite bool_decide_false.
Qed.

Lemma confirm_evidence (c : JoinCall) (local peer : bool) s trace :
  phase_ s = WaitingSasConfirm ->
  compatible (Some (matched_generation_ s)) (c, true) ->
  (local = true -> local_sas_confirmed_ s = true \/ c = LocalConfirmed (live_attempt_id_ s)) ->
  (peer = true -> peer_sas_confirmed_ s = true \/ c = PeerConfirmed (live_attempt_id_ s)) ->
  evidence s trace ->
  matched_generation_ s <> 0 /\
  started (live_attempt_id_ s) (deadline_ns_ s) (Some (matched_generation_ s))
    (matched (live_attempt_id_ s) (deadline_ns_ s) (matched_generation_ s) (approved (live_attempt_id_ s) (confirmed (live_attempt_id_ s) local peer)))
    (trace ++ [(c, true)]).
Proof.
  unfold evidence. intros -> Hc Hl Hp [Hg He]. split; [done |]. revert He. apply started_later; [done |]. intros after. apply matched_later.
  intros final. apply followed_later. intros last [H1 H2]. split; intros E; apply elem_of_app.
  - destruct (Hl E) as [| ->]; [left; by apply H1 | right; apply list_elem_of_here].
  - destruct (Hp E) as [| ->]; [left; by apply H2 | right; apply list_elem_of_here].
Qed.

Lemma step_evidence c s trace : evidence s trace -> evidence (join_step c s).2 (trace ++ [(c, (join_step c s).1)]).
Proof.
  intros He. destruct c as [id input now | id status generation now | id | id | id | id | now]; cbn [join_step].
  - unfold start. destruct (_ || _); [by apply (evidence_later _ s) |].
    destruct (parse_invite_code input) eqn:P; [| by apply (evidence_later _ s)].
    unfold evidence. cbn. split; [done |]. exists input, now. split_and!; [by rewrite P | done |]. by apply followed_here.
  - by apply response_evidence.
  - unfold on_host_accepted. destruct (negb (live id s) || _) eqn:G; [by apply (evidence_later _ s) |]. bool_hyps.
    assert (live id s = true) as Hlive by (by destruct (live id s)). apply live_id in Hlive as [-> _].
    assert (phase_ s = WaitingHostApproval) as E by (by destruct (phase_ s)). unfold evidence in *. rewrite E in He. cbn.
    destruct He as (Hf & Hg & He). split; [done |]. revert He. apply started_later; [done |]. intros after. apply matched_later.
    intros final _. apply followed_here. apply orb_false_iff in Hf as [Hl Hp]. by rewrite Hl, Hp.
  - unfold on_local_sas_confirmed. destruct (negb (live id s) || _) eqn:G; [by apply (evidence_later _ s) |]. bool_hyps.
    assert (live id s = true) as Hlive by (by destruct (live id s)). apply live_id in Hlive as [-> _].
    assert (phase_ s = WaitingSasConfirm) as E by (by destruct (phase_ s)). cbv zeta. cbn [fst snd peer_sas_confirmed_ over].
    destruct (peer_sas_confirmed_ s) eqn:F; cbn [fst snd].
    + apply (confirm_evidence (LocalConfirmed (live_attempt_id_ s)) true true s); try exact I; auto.
    + unfold evidence. cbn [phase_ over local_sas_confirmed_ peer_sas_confirmed_ live_attempt_id_ deadline_ns_ matched_generation_].
      rewrite E. apply (confirm_evidence (LocalConfirmed (live_attempt_id_ s)) true (peer_sas_confirmed_ s) s); try exact I; auto.
  - unfold on_peer_sas_confirmed. destruct (negb (live id s) || _) eqn:G; [by apply (evidence_later _ s) |]. bool_hyps.
    assert (live id s = true) as Hlive by (by destruct (live id s)). apply live_id in Hlive as [-> _].
    assert (phase_ s = WaitingSasConfirm) as E by (by destruct (phase_ s)). cbv zeta. cbn [fst snd local_sas_confirmed_ over].
    destruct (local_sas_confirmed_ s) eqn:F; cbn [fst snd].
    + apply (confirm_evidence (PeerConfirmed (live_attempt_id_ s)) true true s); try exact I; auto.
    + unfold evidence. cbn [phase_ over local_sas_confirmed_ peer_sas_confirmed_ live_attempt_id_ deadline_ns_ matched_generation_].
      rewrite E. apply (confirm_evidence (PeerConfirmed (live_attempt_id_ s)) (local_sas_confirmed_ s) true s); try exact I; auto.
  - unfold cancel. destruct (negb (live id s)) eqn:G; [by apply (evidence_later _ s) |]. done.
  - unfold tick. destruct (backwards now s).
    + destruct (join_phase_live (phase_ s)); [done | by apply (evidence_later _ s)].
    + cbv zeta. destruct (_ && _); [done | by apply (evidence_later _ s)].
Qed.

Lemma run_evidence calls s trace :
  evidence s trace -> evidence (run_joiner calls s).2 (trace ++ (run_joiner calls s).1).
Proof.
  revert s trace. induction calls as [|c calls IH]; intros s trace He; [cbn; by rewrite app_nil_r |].
  apply (step_evidence c) in He. cbn [run_joiner]. destruct (join_step c s) as [taken s1]. cbn [fst snd] in He.
  specialize (IH s1 _ He). destruct (run_joiner calls s1) as [rest s2]. cbn [fst snd] in *. by rewrite <- app_assoc in IH.
Qed.

(** C37. The code only locates a host: a joiner is connected only in an attempt that it started with six digits, that a
    host matched before the attempt's deadline, always with the same generation, which a host then accepted and which
    both people then confirmed, all under the attempt's own id, with no other start, cancellation or refusal taken since
    the start. *)
Theorem connected_only_confirmed calls :
  let '(trace, s) := run_joiner calls joiner_new in
  connected s = true ->
  exists id generation deadline,
    generation <> 0 /\
    started id deadline (Some generation) (matched id deadline generation (approved id (confirmed id true true))) trace.
Proof.
  pose proof (run_evidence calls joiner_new [] I) as He. destruct (run_joiner calls joiner_new) as [trace s]. cbn [app fst snd] in He.
  unfold connected. intros H. apply bool_decide_eq_true in H. unfold evidence in He. rewrite H in He. by do 3 eexists.
Qed.

Definition happy_calls : list JoinCall :=
  [Start 3 [0x20; 0x34; 0x30; 0x37; 0x31; 0x35; 0x39; 10] 1000; Response 3 MatchPendingHostApproval 7 2000; HostAccepted 3;
   PeerConfirmed 3; LocalConfirmed 3].

Lemma connected_only_confirmed_witness :
  let '(trace, s) := run_joiner happy_calls joiner_new in
  connected s = true /\
  exists id generation deadline,
    generation <> 0 /\
    started id deadline (Some generation) (matched id deadline generation (approved id (confirmed id true true))) trace.
Proof.
  pose proof (connected_only_confirmed happy_calls) as H. revert H.
  assert (connected (run_joiner happy_calls joiner_new).2 = true) as Hc by (by vm_compute). revert Hc.
  destruct (run_joiner happy_calls joiner_new) as [trace s]. cbn [snd]. intros Hc H. split; [exact Hc | exact (H Hc)].
Defined.

(** The ids of the attempts that were started. *)
Definition started_ids (trace : list (JoinCall * bool)) : list Z :=
  mjoin ((fun e => match e with (Start id _ _, true) => [id] | _ => [] end) <$> trace).

Lemma started_ids_app trace trace' : started_ids (trace ++ trace') = started_ids trace ++ started_ids trace'.
Proof. unfold started_ids. by rewrite fmap_app, join_app. Qed.

(** A call raises the highest id only by starting an attempt, whose id it then is. *)
Lemma step_highest c s :
  let '(taken, s') := join_step c s in
  started_ids [(c, taken)] = [] /\ highest_attempt_id_ s' = highest_attempt_id_ s \/
  started_ids [(c, taken)] = [highest_attempt_id_ s'] /\ highest_attempt_id_ s < highest_attempt_id_ s'.
Proof.
  destruct c as [id input now | id status generation now | id | id | id | id | now]; cbn [join_step].
  - unfold start. destruct (_ || _) eqn:G; [by left |]. destruct (parse_invite_code input); [| by left]. right. bool_hyps. cbn. split; [done | lia].
  - destruct (on_response id status generation now s) as [taken s'] eqn:E. left. split; [done |]. revert E. unfold on_response.
    destruct (_ || _); [by intros [= _ <-] |]. destruct (_ <=? _); [by intros [= _ <-] |]. cbv zeta. destruct status; [| by intros [= _ <-]..].
    destruct (bool_decide _); destruct (_ =? _); by intros [= _ <-].
  - unfold on_host_accepted. destruct (_ || _); by left.
  - unfold on_local_sas_confirmed. destruct (_ || _); [by left |]. cbv zeta. left. by destruct (peer_sas_confirmed_ _).
  - unfold on_peer_sas_confirmed. destruct (_ || _); [by left |]. cbv zeta. left. by destruct (local_sas_confirmed_ _).
  - unfold cancel. destruct (negb _); by left.
  - unfold tick. left. split; [done |]. destruct (backwards now s); [by destruct (join_phase_live _) |]. cbv zeta. by destruct (_ && _).
Qed.

Lemma run_increasing calls s :
  StronglySorted Z.lt (started_ids (run_joiner calls s).1) /\
  Forall (fun id => highest_attempt_id_ s < id) (started_ids (run_joiner calls s).1).
Proof.
  revert s. induction calls as [|c calls IH]; intros s; [split; constructor |]. cbn [run_joiner].
  pose proof (step_highest c s) as Hs. destruct (join_step c s) as [taken s1]. destruct (IH s1) as [Hsort Hall].
  destruct (run_joiner calls s1) as [trace s2]. cbn [fst snd] in *.
  change ((c, taken) :: trace) with ([(c, taken)] ++ trace). rewrite started_ids_app. destruct Hs as [[-> E] | [-> E]]; cbn [app].
  - by rewrite E in Hall.
  - split; [by constructor |]. constructor; [lia |]. eapply Forall_impl; [exact Hall |]. cbn. lia.
Qed.

(** Attempts are not revived: the ids of the attempts a joiner starts strictly increase, so an id that was used once
    is never live again. *)
Theorem attempts_increase calls :
  StronglySorted Z.lt (started_ids (run_joiner calls joiner_new).1).
Proof. apply run_increasing. Qed.

End JoinerRuns.

(** ** Runs of the host *)

Module HostRuns.
Import Host.

Inductive HostCall :=
  | Publish (generation : Z) (code_input : bytes) (now_ns : Z)
  | Regenerate (generation : Z) (code_input : bytes) (now_ns : Z)
  | Cancel (generation : Z)
  | Tick (now_ns : Z)
  | Lookup (code : bytes) (now_ns : Z).

Inductive HostAnswer := Taken (taken : bool) | Ticked | LookedUp (status : InviteLookupStatus).

Definition host_step (c : HostCall) (s : InviteCodeHost) : HostAnswer * InviteCodeHost :=
  match c with
  | Publish generation input now => let '(b, s) := publish generation input now s in (Taken b, s)
  | Regenerate generation input now => let '(b, s) := regenerate generation input now s in (Taken b, s)
  | Cancel generation => let '(b, s) := cancel generation s in (Taken b, s)
  | Tick now => (Ticked, tick now s)
  | Lookup code now => let '(status, s) := on_lookup code now s in (LookedUp status, s)
  end.

Fixpoint run_host (calls : list HostCall) (s : InviteCodeHost) : list HostAnswer * InviteCodeHost :=
  match calls with
  | [] => ([], s)
  | c :: calls =>
    let '(answer, s) := host_step c s in
    let '(answers, s) := run_host calls s in
    (answer :: answers, s)
  end.

(** The same host with another code. *)
Definition with_code (code : bytes) (s : InviteCodeHost) : InviteCodeHost := s <| code_ := code |>.

(** The lookups of a run. *)
Definition guesses (calls : list HostCall) : list bytes :=
  mjoin ((fun c => match c with Lookup code _ => [code] | _ => [] end) <$> calls).

(** A call replaces the code or clears it, leaves it alone, or compares it with one guess, and pays for it: for every code
    but the guess it answers the same. *)
Inductive blind (c : HostCall) (s : InviteCodeHost) : list bytes -> Prop :=
  | blind_fixed answer s' :
      (forall code, host_step c (with_code code s) = (answer, s')) -> blind c s []
  | blind_kept answer s' :
      (forall code, host_step c (with_code code s) = (answer, with_code code s')) -> attempts_left_ s' = attempts_left_ s -> blind c s []
  | blind_guess guess now answer s' :
      c = Lookup guess now -> (forall code, code <> guess -> host_step c (with_code code s) = (answer, with_code code s')) ->
      attempts_left_ s' = attempts_left_ s - 1 -> attempts_left_ s <> 0 -> blind c s [guess].

Lemma activate_blind c s g input now (refuse : bool) :
  (forall code, host_step c (with_code code s) =
     let '(b, s') := if refuse then (false, with_code code s) else activate g input now (with_code code s) in (Taken b, s')) ->
  blind c s [].
Proof.
  unfold activate. destruct refuse; [intros H; by apply (blind_kept c s (Taken false) s) |].
  destruct (parse_invite_code input); intros H; [by eapply blind_fixed | by apply (blind_kept c s (Taken false) s)].
Qed.

(** What a call reads of a host does not depend on its code. *)
Ltac reads :=
  intros code; cbn [host_step]; unfold publish, regenerate, cancel, tick, on_lookup, backwards in *; cbv zeta;
  cbn [phase_ highest_generation_ generation_ deadline_ns_ attempts_left_ code_ has_last_tick_ last_tick_ns_ over with_code].

Lemma step_blind c s : exists seen, blind c s seen.
Proof.
  destruct c as [g input now | g input now | g | now | guess now].
  - exists []. eapply (activate_blind _ s g input now (_ || _ || _ || backwards now s)). by reads.
  - exists []. eapply (activate_blind _ s g input now (_ || _ || _ || backwards now s)). by reads.
  - exists []. destruct (negb (bool_decide (phase_ s = Active)) || negb (g =? generation_ s)) eqn:G.
    + apply (blind_kept _ s (Taken false) s); [| done]. reads. by rewrite G.
    + apply (blind_fixed _ s (Taken true) (reset s)). reads. by rewrite G.
  - exists []. destruct (backwards now s) eqn:B, (bool_decide (phase_ s = Active)) eqn:A.
    + apply (blind_fixed _ s Ticked (reset s)). reads. by rewrite B, A.
    + apply (blind_kept _ s Ticked s); [| done]. reads. by rewrite B, A.
    + destruct (deadline_ns_ s <=? now) eqn:D.
      * apply (blind_fixed _ s Ticked (reset (s <| has_last_tick_ := true |> <| last_tick_ns_ := now |>))). reads. by rewrite B, A, D.
      * apply (blind_kept _ s Ticked (s <| has_last_tick_ := true |> <| last_tick_ns_ := now |>)); [| done]. reads. by rewrite B, A, D.
    + apply (blind_kept _ s Ticked (s <| has_last_tick_ := true |> <| last_tick_ns_ := now |>)); [| done]. reads. by rewrite B, A.
  - destruct (negb (bool_decide (phase_ s = Active)) || backwards now s) eqn:A.
    { exists []. apply (blind_kept _ s (LookedUp NoMatch) s); [| done]. reads. by rewrite A. }
    destruct (deadline_ns_ s <=? now) eqn:D.
    { exists []. apply (blind_kept _ s (LookedUp LookupExpired) s); [| done]. reads. by rewrite A, D. }
    destruct (attempts_left_ s =? 0) eqn:L.
    { exists []. apply (blind_kept _ s (LookedUp LookupRateLimited) s); [| done]. reads. by rewrite A, D, L. }
    exists [guess]. apply (blind_guess _ s guess now (LookedUp NoMatch) (s <| attempts_left_ := attempts_left_ s - 1 |>)); [done | | done | lia].
    intros code Hne. revert code Hne. reads. intros Hne. rewrite A, D, L. by rewrite bool_decide_false by done.
Qed.

(** A run compares the code with no more guesses than the budget it starts with. *)
Lemma run_blind calls s :
  0 <= attempts_left_ s ->
  exists seen, Z.of_nat (length seen) <= attempts_left_ s /\ (seen ⊆ guesses calls) /\
    forall left right, left ∉ seen -> right ∉ seen -> (run_host calls (with_code left s)).1 = (run_host calls (with_code right s)).1.
Proof.
  revert s. induction calls as [|c calls IH]; intros s Hbudget; [exists []; split_and!; [cbn; lia | done | done] |].
  destruct (step_blind c s) as [seen [answer s' H | answer s' H E | guess now answer s' -> H E Hpos]].
  - exists []. split_and!; [cbn; lia | apply list_subseteq_nil |]. intros left right _ _. cbn [run_host]. by rewrite !H.
  - destruct (IH s') as (seen' & Hlen & Hsub & Heq); [lia |]. exists seen'. split_and!; [lia | |].
    + unfold guesses. cbn [fmap list_fmap]. change (mjoin (?x :: ?y)) with (x ++ mjoin y). by apply list_subseteq_app_r.
    + intros left right Hl Hr. cbn [run_host]. rewrite !H. specialize (Heq left right Hl Hr).
      destruct (run_host calls (with_code left s')), (run_host calls (with_code right s')). cbn in *. by f_equal.
  - destruct (IH s') as (seen' & Hlen & Hsub & Heq); [lia |]. exists (guess :: seen'). split_and!; [cbn [length]; lia | |].
    + unfold guesses. cbn [fmap list_fmap]. change (mjoin (?x :: ?y)) with (x ++ mjoin y). by apply list_subseteq_skip.
    + intros left right Hl Hr. apply not_elem_of_cons in Hl as [Hl Hl'], Hr as [Hr Hr']. cbn [run_host]. rewrite !H by done.
      specialize (Heq left right Hl' Hr').
      destruct (run_host calls (with_code left s')), (run_host calls (with_code right s')). cbn in *. by f_equal.
Qed.

(** C11. The code stays hidden: once an invitation is published (or replaced by a new one), whatever is asked of the host
    afterwards, there are at most five of the codes that were looked up such that the host answers every call the same
    for any two codes that are none of these. Nobody tells the million codes apart by more than five guesses. *)
Theorem code_stays_hidden (again : bool) generation now calls s :
  let run code := (run_host ((if again then Regenerate else Publish) generation code now :: calls) s).1 in
  exists seen, (length seen <= 5)%nat /\ (seen ⊆ guesses calls) /\
    forall left right, valid_code left = true -> length left = 6%nat -> valid_code right = true -> length right = 6%nat ->
      left ∉ seen -> right ∉ seen -> run left = run right.
Proof.
  cbv zeta.
  set (fresh := mkHost Active generation generation [] (u64 (now + kInviteValidityNs)) kInviteLookupAttemptsPerInvitation true now).
  destruct (run_blind calls fresh) as (seen & Hlen & Hsub & Heq); [done |].
  exists seen. split_and!; [change (attempts_left_ fresh) with 5 in Hlen; lia | done |].
  intros left right Hl Hll Hr Hrl Hls Hrs. specialize (Heq left right Hls Hrs).
  set (refuse := fun phase => (generation =? 0) || (generation <=? highest_generation_ s) || negb (bool_decide (phase_ s = phase)) || backwards now s).
  assert (forall code, valid_code code = true -> length code = 6%nat ->
    host_step ((if again then Regenerate else Publish) generation code now) s =
    if refuse (if again then Active else Idle) then (Taken false, s) else (Taken true, with_code code fresh)) as Hstep.
  { intros code Hv Hc. destruct again; cbn [host_step]; unfold regenerate, publish, activate, refuse; rewrite (parse_valid code Hv Hc);
      cbv beta; by destruct (_ || backwards now s). }
  cbn [run_host]. rewrite !Hstep by done. destruct (refuse _); [done |].
  destruct (run_host calls (with_code left fresh)), (run_host calls (with_code right fresh)). cbn in *. by f_equal.
Qed.

(** Six guesses: the sixth is refused, and the fifth was compared. *)
Example sixth_guess :
  (run_host (Publish 1 example_code 1000 :: ((fun code => Lookup code 2000) <$> [[0x30; 0x30; 0x30; 0x30; 0x30; 0x31]; [0x30; 0x30; 0x30; 0x30; 0x30; 0x32];
      [0x30; 0x30; 0x30; 0x30; 0x30; 0x33]; [0x30; 0x30; 0x30; 0x30; 0x30; 0x34]; example_code; example_code])) host_new).1
  = Taken true :: (LookedUp <$> [NoMatch; NoMatch; NoMatch; NoMatch; MatchPendingHostApproval; LookupRateLimited]).
Proof. by vm_compute. Qed.

Lemma code_stays_hidden_witness :
  exists seen, (length seen <= 5)%nat /\ (seen ⊆ guesses [Lookup example_code 2000]) /\
    forall left right, valid_code left = true -> length left = 6%nat -> valid_code right = true -> length right = 6%nat ->
      left ∉ seen -> right ∉ seen ->
      (run_host (Publish 1 left 1000 :: [Lookup example_code 2000]) host_new).1 =
      (run_host (Publish 1 right 1000 :: [Lookup example_code 2000]) host_new).1.
Proof. exact (code_stays_hidden false 1 1000 [Lookup example_code 2000] host_new). Defined.

(** The generations of the invitations that were published. *)
Fixpoint published (calls : list HostCall) (answers : list HostAnswer) : list Z :=
  match calls, answers with
  | (Publish generation _ _ | Regenerate generation _ _) :: calls, Taken true :: answers => generation :: published calls answers
  | _ :: calls, _ :: answers => published calls answers
  | _, _ => []
  end.

Lemma step_generation c s :
  let '(answer, s') := host_step c s in
  published [c] [answer] = [] /\ highest_generation_ s' = highest_generation_ s \/
  published [c] [answer] = [highest_generation_ s'] /\ highest_generation_ s < highest_generation_ s'.
Proof.
  destruct c as [g input now | g input now | g | now | guess now]; cbn [host_step].
  - unfold publish, activate. destruct (_ || _) eqn:G; [by left |]. destruct (parse_invite_code input); [| by left]. right. bool_hyps. cbn. split; [done | lia].
  - unfold regenerate, activate. destruct (_ || _) eqn:G; [by left |]. destruct (parse_invite_code input); [| by left]. right. bool_hyps. cbn. split; [done | lia].
  - unfold cancel. destruct (_ || _); by left.
  - unfold tick. left. split; [done |]. destruct (backwards now s); [by destruct (bool_decide _) |]. cbv zeta. by destruct (_ && _).
  - unfold on_lookup. destruct (_ || _); [by left |]. destruct (_ <=? _); [by left |]. destruct (_ =? _); [by left |]. cbv zeta. by left.
Qed.

Lemma published_cons c calls answer answers : published (c :: calls) (answer :: answers) = published [c] [answer] ++ published calls answers.
Proof. by destruct c, answer as [[] | |]. Qed.

Lemma run_generations calls s :
  StronglySorted Z.lt (published calls (run_host calls s).1) /\
  Forall (fun generation => highest_generation_ s < generation) (published calls (run_host calls s).1).
Proof.
  revert s. induction calls as [|c calls IH]; intros s; [split; constructor |]. cbn [run_host].
  pose proof (step_generation c s) as Hs. destruct (host_step c s) as [answer s1]. destruct (IH s1) as [Hsort Hall].
  destruct (run_host calls s1) as [answers s2]. cbn [fst snd] in *. rewrite published_cons.
  destruct Hs as [[-> E] | [-> E]]; cbn [app].
  - by rewrite E in Hall.
  - split; [by constructor |]. constructor; [lia |]. eapply Forall_impl; [exact Hall |]. cbn. lia.
Qed.

(** A generation is used once: those a host publishes strictly increase, cancelled and expired ones included. *)
Theorem generations_increase calls : StronglySorted Z.lt (published calls (run_host calls host_new).1).
Proof. apply run_generations. Qed.

End HostRuns.
