(* ===== verification/ProviderEvents.v ===== *)
(** * Buffers and the events of providers ([shared/src/session/buffer_handle.{hpp,cpp}],
    [shared/src/session/ports/provider_events.{hpp,cpp}])

    A platform's providers answer the session's operations with events of fixed size, whose payload may hand over a
    counted buffer. An event is taken only for the exact token and kind that was asked for, and a taken event owns
    one reference to its buffer.

    Buffers live in a heap of addresses (0 is the null pointer). Using a pointer to no live buffer is undefined in the
    code, and [None] here. Records are copied from the payload in the byte order of the targets, little endian, with
    pointers of eight bytes. *)

From S2P Require Import Prelude.

Definition V2_OK : Z := 0.
Definition V2_DUPLICATE : Z := 3.
Definition V2_INVALID_ARGUMENT : Z := -1.
Definition V2_ABI_MISMATCH : Z := -2.
Definition V2_STALE : Z := -3.
Definition V2_UNSUPPORTED : Z := -5.
Definition V2_BACKPRESSURE : Z := -7.
Definition V2_CONTRACT_VIOLATION : Z := -15.
Definition V2_OUT_OF_MEMORY : Z := -17.

(** ** Buffers *)

Record Buffer := mkBuffer { references : Z; contents : bytes }.

Abbreviation Heap := (gmap Z Buffer).

Definition u32_max : Z := 2 ^ 32 - 1.

(** [place] is where the allocator puts the handle, if it has room. *)
Definition make_buffer_v2 (data : option bytes) (size : Z) (place : option Z) (h : Heap) : Z * Heap :=
  if bool_decide (data = None) && negb (size =? 0) then (0, h)
  else
    match place with
    | None => (0, h)
    | Some address => (address, <[address := mkBuffer 1 (take (Z.to_nat size) (default [] data))]> h)
    end.

Definition buffer_create_copy_v2 (data : option bytes) (size reserved_zero : Z) (place : option Z) (h : Heap) : Z * Z * Heap :=
  if negb (reserved_zero =? 0) || (bool_decide (data = None) && negb (size =? 0)) then (V2_INVALID_ARGUMENT, 0, h)
  else
    let '(buffer, h) := make_buffer_v2 data size place h in
    (if negb (buffer =? 0) then V2_OK else V2_OUT_OF_MEMORY, buffer, h).

Definition buffer_size_v2 (buffer : Z) (h : Heap) : option (Z * Z) :=
  if buffer =? 0 then Some (V2_INVALID_ARGUMENT, 0) else b ← h !! buffer; Some (V2_OK, zlen (contents b)).

(** What was written, for a destination of [capacity] bytes that is not null. *)
Definition buffer_read_v2 (buffer offset capacity : Z) (h : Heap) : option (Z * bytes) :=
  if buffer =? 0 then Some (V2_INVALID_ARGUMENT, [])
  else
    b ← h !! buffer;
    if zlen (contents b) <? offset then Some (V2_INVALID_ARGUMENT, [])
    else
      let remaining := zlen (contents b) - offset in
      let count := Z.min remaining capacity in
      Some (V2_OK, slice (contents b) offset count).

Definition buffer_retain_v2 (buffer : Z) (h : Heap) : option Heap :=
  if buffer =? 0 then Some h
  else
    b ← h !! buffer;
    Some (if negb (references b =? 0) && negb (references b =? u32_max) then <[buffer := mkBuffer (references b + 1) (contents b)]> h else h).

Definition buffer_release_v2 (buffer : Z) (h : Heap) : option Heap :=
  if buffer =? 0 then Some h
  else
    b ← h !! buffer;
    Some (if references b =? 1 then delete buffer h else <[buffer := mkBuffer (u32 (references b - 1)) (contents b)]> h).

(** ** Tokens and events *)

Record Scope := mkScope {
  scope_struct_size : Z; scope_abi_version : Z; scope_kind : Z; scope_reserved_zero : Z; link_id : bytes; branch_id : bytes
}.

Record OpToken := mkToken {
  struct_size : Z;
  abi_version : Z;
  engine_instance_id : bytes;
  scope : Scope;
  connection_generation : Z;
  config_revision : Z;
  authority_term : Z;
  writer_generation : Z;
  timeline_epoch : Z;
  seat_revision : Z;
  mode_generation : Z;
  media_generation : Z;
  operation_id : Z;
  transition_id : bytes;
}.

Record PortEvent := mkEvent {
  event_struct_size : Z;
  event_abi_version : Z;
  token : OpToken;
  event_sequence : Z;
  event_kind : Z;
  terminal : Z;
  event_result : Z;
  payload_kind : Z;
  payload_size : Z;
  event_reserved_zero : Z;
  payload : bytes;
}.

Definition SCOPE_SIZE : Z := 48.
Definition TOKEN_SIZE : Z := 160.
Definition EVENT_SIZE : Z := 264.
Definition ABI_VERSION_2 : Z := 2.

Definition same_token (left right : OpToken) : bool :=
  (struct_size left =? struct_size right) && (abi_version left =? abi_version right) &&
  bool_decide (engine_instance_id left = engine_instance_id right) &&
  (scope_struct_size (scope left) =? scope_struct_size (scope right)) &&
  (scope_abi_version (scope left) =? scope_abi_version (scope right)) &&
  (scope_kind (scope left) =? scope_kind (scope right)) &&
  (scope_reserved_zero (scope left) =? scope_reserved_zero (scope right)) &&
  bool_decide (link_id (scope left) = link_id (scope right)) &&
  bool_decide (branch_id (scope left) = branch_id (scope right)) &&
  (connection_generation left =? connection_generation right) && (config_revision left =? config_revision right) &&
  (authority_term left =? authority_term right) && (writer_generation left =? writer_generation right) &&
  (timeline_epoch left =? timeline_epoch right) && (seat_revision left =? seat_revision right) &&
  (mode_generation left =? mode_generation right) && (media_generation left =? media_generation right) &&
  (operation_id left =? operation_id right) && bool_decide (transition_id left = transition_id right).

Definition validate_token (value : OpToken) : Z :=
  if negb (struct_size value =? TOKEN_SIZE) || negb (abi_version value =? ABI_VERSION_2) ||
     negb (scope_struct_size (scope value) =? SCOPE_SIZE) || negb (scope_abi_version (scope value) =? ABI_VERSION_2)
  then V2_ABI_MISMATCH
  else if negb (scope_reserved_zero (scope value) =? 0) || (operation_id value =? 0) || (scope_kind (scope value) <? 1) ||
          (3 <? scope_kind (scope value))
  then V2_INVALID_ARGUMENT else V2_OK.

Inductive PayloadForm := Resource | BufferForm | Store | Hash | Metrics | End | Unknown.

#[global] Instance form_eq_dec : EqDecision PayloadForm.
Proof. solve_decision. Defined.

Definition DISCOVERY_CONNECTION : Z := 202.
Definition DISCOVERY_MTU : Z := 203.
Definition QUIC_HANDSHAKE : Z := 281.
Definition QUIC_DATA : Z := 284.
Definition QUIC_PAYLOAD_BUDGET : Z := 285.

(** The form of the payload of a kind, and whether its success is terminal. *)
Definition contract_for (kind : Z) : PayloadForm * Z :=
  if (kind =? 101) || (kind =? 102) then (End, 1)
  else if (kind =? 201) || (kind =? DISCOVERY_MTU) then (Resource, 0)
  else if (kind =? DISCOVERY_CONNECTION) || (kind =? 221) || (kind =? 243) || (kind =? 245) || (kind =? 260) || (kind =? 280) ||
          (kind =? 283) || (kind =? QUIC_PAYLOAD_BUDGET) then (Resource, 1)
  else if (kind =? 204) || (kind =? QUIC_DATA) then (BufferForm, 0)
  else if (kind =? 220) || (kind =? 222) || (kind =? 241) || (kind =? 242) || (kind =? 244) || (kind =? 248) || (kind =? 246) ||
          (kind =? 282) then (BufferForm, 1)
  else if kind =? 261 then (Store, 1)
  else if (kind =? 240) || (kind =? 250) || (kind =? 224) || (kind =? 270) || (kind =? QUIC_HANDSHAKE) || (kind =? 290) then (Hash, 1)
  else if kind =? 286 then (Metrics, 1)
  else if (kind =? 205) || (kind =? 223) || (kind =? 287) || (kind =? 247) then (End, 1)
  else (Unknown, 0).

(** The fields of a copied record: numbers of four and eight bytes, the least byte first. *)
Definition field32 (source : PortEvent) (off : Z) : Z := be_value (rev (slice (payload source) off 4)).
Definition field64 (source : PortEvent) (off : Z) : Z := be_value (rev (slice (payload source) off 8)).

(** All records begin alike: size, version and two zero words. *)
Definition read_payload (source : PortEvent) (size : Z) : Z :=
  if negb (payload_size source =? size) then V2_ABI_MISMATCH
  else if negb (field32 source 0 =? size) || negb (field32 source 4 =? ABI_VERSION_2) then V2_ABI_MISMATCH
  else if negb (field32 source 8 =? 0) || negb (field32 source 12 =? 0) then V2_INVALID_ARGUMENT
  else V2_OK.

Definition all_zero (data : bytes) : bool := forallb (fun b => b =? 0) data.

(** ** Parsing *)

Record ParsedProviderEvent := mkParsed {
  parsed_kind : Z;
  resource : Z;
  generation : Z;
  value0 : Z;
  value1 : Z;
  hash : bytes;
  buffer : Z;
}.

Definition parsed_empty : ParsedProviderEvent := mkParsed 0 0 0 0 0 (replicate 32 0) 0.

(** [result = check] while the result is still good. *)
Definition require (result : Z) (check : bool) : Z := if (result =? V2_OK) && check then V2_INVALID_ARGUMENT else result.

(** The branches of the contract's forms: the result, and what was parsed. *)
Definition parse_resource (source : PortEvent) : option (Z * ParsedProviderEvent) :=
  let resource := field64 source 16 in
  let generation := field64 source 24 in
  let value0 := field64 source 32 in
  let value1 := field64 source 40 in
  let kind := payload_kind source in
  let result := read_payload source 48 in
  let result := require result (resource =? 0) in
  let result := require result (((kind =? DISCOVERY_MTU) || (kind =? QUIC_PAYLOAD_BUDGET)) && (value0 =? 0)) in
  let result := require result ((kind =? DISCOVERY_CONNECTION) &&
    ((negb (value0 =? 1) && negb (value0 =? 2)) || (value1 <? 23) || (517 <? value1) || (generation =? 0))) in
  Some (result, mkParsed kind resource generation value0 value1 (replicate 32 0) 0).

(** The size of the buffer is asked for only while the result is good. *)
Definition require_buffer (result buffer : Z) (h : Heap) : option (Z * Z) :=
  if result =? V2_OK then
    '(answer, actual_size) ← buffer_size_v2 buffer h;
    Some (if negb (answer =? V2_OK) then V2_INVALID_ARGUMENT else result, actual_size)
  else Some (result, 0).

Definition parse_buffer (source : PortEvent) (h : Heap) : option (Z * ParsedProviderEvent) :=
  let buffer := field64 source 16 in
  let generation := field64 source 24 in
  let logical_size := field64 source 32 in
  let flags := field64 source 40 in
  let result := read_payload source 48 in
  let result := require result (negb (flags =? 0)) in
  '(result, actual_size) ← require_buffer result buffer h;
  let result := require result (negb (logical_size =? actual_size)) in
  Some (result, mkParsed (payload_kind source) 0 generation logical_size 0 (replicate 32 0) buffer).

Definition parse_hash (source : PortEvent) (h : Heap) : option (Z * ParsedProviderEvent) :=
  let resource := field64 source 16 in
  let buffer := field64 source 24 in
  let hash := slice (payload source) 32 32 in
  let result := read_payload source 64 in
  let result := require result (resource =? 0) in
  '(result, _) ← require_buffer result buffer h;
  let result := require result (negb (payload_kind source =? QUIC_HANDSHAKE) && all_zero hash) in
  Some (result, mkParsed (payload_kind source) resource 0 0 0 hash buffer).

Definition parse_store (source : PortEvent) (h : Heap) : option (Z * ParsedProviderEvent) :=
  let buffer := field64 source 16 in
  let revision := field64 source 24 in
  let logical_size := field64 source 32 in
  let flags := field64 source 40 in
  let result := read_payload source 48 in
  let result := require result ((revision =? 0) || negb (flags =? 0)) in
  '(result, actual_size) ← require_buffer result buffer h;
  let result := require result (negb (logical_size =? actual_size)) in
  Some (result, mkParsed (payload_kind source) 0 0 revision logical_size (replicate 32 0) buffer).

Definition parse_metrics (source : PortEvent) : option (Z * ParsedProviderEvent) :=
  Some (read_payload source 64, mkParsed (payload_kind source) 0 0 (field64 source 16) (field64 source 24) (replicate 32 0) 0).

Definition parse_end (source : PortEvent) : option (Z * ParsedProviderEvent) :=
  Some (read_payload source 16, mkParsed (payload_kind source) 0 0 0 0 (replicate 32 0) 0).

Definition parse_form (form : PayloadForm) (source : PortEvent) (h : Heap) : option (Z * ParsedProviderEvent) :=
  match form with
  | Resource => parse_resource source
  | BufferForm => parse_buffer source h
  | Hash => parse_hash source h
  | Store => parse_store source h
  | Metrics => parse_metrics source
  | _ => parse_end source
  end.

(** [destination = std::move(parsed)]: what the destination held is released. *)
Definition move_assign (destination parsed : ParsedProviderEvent) (h : Heap) : option Heap := buffer_release_v2 (buffer destination) h.

Definition parse_provider_event_v2 (source : PortEvent) (expected_token : OpToken) (expected_payload_kind : Z)
    (destination : ParsedProviderEvent) (h : Heap) : option (Z * ParsedProviderEvent * Heap) :=
  let refuse result := Some (result, destination, h) in
  if negb (event_struct_size source =? EVENT_SIZE) || negb (event_abi_version source =? ABI_VERSION_2) then refuse V2_ABI_MISMATCH
  else if (event_sequence source =? 0) || negb (event_kind source =? 3) || (1 <? terminal source) || negb (event_reserved_zero source =? 0) ||
          (64 <? payload_size source) then refuse V2_INVALID_ARGUMENT
  else
    let token_result := validate_token (token source) in
    if negb (token_result =? V2_OK) then refuse token_result
    else if negb (same_token (token source) expected_token) then refuse V2_STALE
    else if negb (payload_kind source =? expected_payload_kind) then refuse V2_CONTRACT_VIOLATION
    else
      let '(form, contract_terminal) := contract_for (payload_kind source) in
      if bool_decide (form = Unknown) then refuse V2_UNSUPPORTED
      else if V2_OK <? event_result source then refuse V2_CONTRACT_VIOLATION
      else if negb (event_result source =? V2_OK) then
        if negb (terminal source =? 1) || (negb (contract_terminal =? 1) && negb (payload_kind source =? QUIC_DATA))
        then refuse V2_CONTRACT_VIOLATION
        else
          let result := read_payload source 16 in
          if negb (result =? V2_OK) then refuse result
          else
            let parsed := mkParsed (payload_kind source) 0 0 0 0 (replicate 32 0) 0 in
            h ← move_assign destination parsed h;
            Some (V2_OK, parsed, h)
      else if negb (terminal source =? contract_terminal) then refuse V2_CONTRACT_VIOLATION
      else
        '(result, parsed) ← parse_form form source h;
        if negb (result =? V2_OK) then refuse result
        else
          h ← (if negb (buffer parsed =? 0) then buffer_retain_v2 (buffer parsed) h else Some h);
          h ← move_assign destination parsed h;
          Some (V2_OK, parsed, h).

(** ** Tokens *)

Lemma same_token_spec left right : same_token left right = true <-> left = right.
Proof.
  split.
  - destruct left as [? ? ? [] ? ? ? ? ? ? ? ? ? ?], right as [? ? ? [] ? ? ? ? ? ? ? ? ? ?]. unfold same_token. cbn.
    intros H. repeat (apply andb_prop in H as [H ?]). rewrite ?bool_decide_eq_true, ?Z.eqb_eq in *. by subst.
  - intros <-. unfold same_token. rewrite !Z.eqb_refl, !bool_decide_eq_true_2 by done. done.
Qed.

(** ** References *)

(** How often a buffer is held; a freed one is not. *)
Definition refs (h : Heap) (p : Z) : Z := match h !! p with Some b => references b | None => 0 end.

Definition counted (h : Heap) : Prop := map_Forall (fun _ b => 1 <= references b <= u32_max) h.

(** Nobody holds a buffer so often that the count is full. *)
Definition not_full (h : Heap) : Prop := map_Forall (fun _ b => references b < u32_max) h.

Definition held (d : ParsedProviderEvent) (p : Z) : Z := if buffer d =? p then 1 else 0.

Lemma retain_refs q h h' p :
  counted h -> not_full h -> q <> 0 -> buffer_retain_v2 q h = Some h' ->
  counted h' /\ refs h' p = refs h p + (if q =? p then 1 else 0).
Proof.
  intros Hc Hf Hq. unfold buffer_retain_v2. destruct (Z.eqb_spec q 0); [done |]. destruct (h !! q) as [b|] eqn:E; [| done]. cbn.
  pose proof (map_Forall_lookup_1 _ _ _ _ Hc E) as Hb. pose proof (map_Forall_lookup_1 _ _ _ _ Hf E) as Hb'. cbn in Hb, Hb'.
  destruct (negb (references b =? 0) && negb (references b =? u32_max)) eqn:G; [| lia]. intros [= <-]. split.
  - apply map_Forall_insert_2; [cbn; lia | done].
  - unfold refs. destruct (Z.eqb_spec q p) as [-> | Hne]; [rewrite lookup_insert_eq, E; cbn; lia |].
    rewrite lookup_insert_ne by done. lia.
Qed.

Lemma release_refs q h h' p :
  counted h -> p <> 0 -> buffer_release_v2 q h = Some h' ->
  counted h' /\ refs h' p + (if q =? p then 1 else 0) = refs h p.
Proof.
  intros Hc Hp. unfold buffer_release_v2. destruct (Z.eqb_spec q 0) as [-> |].
  { intros [= <-]. split; [done |]. destruct (Z.eqb_spec 0 p); lia. }
  destruct (h !! q) as [b|] eqn:E; [| done]. cbn. intros [= <-].
  pose proof (map_Forall_lookup_1 _ _ _ _ Hc E) as Hb. cbn in Hb. unfold refs. destruct (Z.eqb_spec (references b) 1) as [H1 |].
  - split; [by apply map_Forall_delete |]. destruct (Z.eqb_spec q p) as [-> | Hne]; [rewrite lookup_delete_eq, E; lia |].
    rewrite lookup_delete_ne by done. lia.
  - assert (u32 (references b - 1) = references b - 1) as -> by (unfold u32; apply Z.mod_small; unfold u32_max in Hb; lia).
    split; [apply map_Forall_insert_2; [cbn; lia | done] |].
    destruct (Z.eqb_spec q p) as [-> | Hne]; [rewrite lookup_insert_eq, E; cbn; lia |]. rewrite lookup_insert_ne by done. lia.
Qed.

(** ** What a taken event is *)

(** The result is good only if no check failed. *)
Lemma require_ok result check : require result check = V2_OK -> result = V2_OK /\ check = false.
Proof. unfold require. destruct (Z.eqb_spec result V2_OK) as [-> |], check; cbn; by intros ?. Qed.

Lemma require_buffer_ok result q h actual :
  require_buffer result q h = Some (V2_OK, actual) -> result = V2_OK /\ exists b, q <> 0 /\ h !! q = Some b /\ actual = zlen (contents b).
Proof.
  unfold require_buffer, buffer_size_v2. destruct (Z.eqb_spec result V2_OK) as [-> |]; [| by intros [= ? _]].
  destruct (Z.eqb_spec q 0); [done |]. destruct (h !! q) as [b|]; [| done]. cbn. intros [= <-]. split; [done |]. by exists b.
Qed.

Lemma read_payload_ok source size :
  read_payload source size = V2_OK ->
  payload_size source = size /\ field32 source 0 = size /\ field32 source 4 = ABI_VERSION_2 /\ field32 source 8 = 0 /\ field32 source 12 = 0.
Proof.
  unfold read_payload. destruct (_ =? size) eqn:E1; [| done]. cbn [negb]. destruct (negb (field32 source 0 =? size) || _) eqn:E2; [done |].
  destruct (negb (field32 source 8 =? 0) || _) eqn:E3; [done |]. bool_hyps. intros _. split_and!; lia.
Qed.

(** What each form carries: a resource and its limits, or a live buffer of the stated size. *)
Definition well_formed (form : PayloadForm) (source : PortEvent) (parsed : ParsedProviderEvent) (h : Heap) : Prop :=
  let kind := payload_kind source in
  match form with
  | Resource =>
    resource parsed <> 0 /\ buffer parsed = 0 /\
    (kind = DISCOVERY_MTU \/ kind = QUIC_PAYLOAD_BUDGET -> value0 parsed <> 0) /\
    (kind = DISCOVERY_CONNECTION -> (value0 parsed = 1 \/ value0 parsed = 2) /\ 23 <= value1 parsed <= 517 /\ generation parsed <> 0)
  | BufferForm => exists b, buffer parsed <> 0 /\ h !! buffer parsed = Some b /\ value0 parsed = zlen (contents b)
  | Store => value0 parsed <> 0 /\ exists b, buffer parsed <> 0 /\ h !! buffer parsed = Some b /\ value1 parsed = zlen (contents b)
  | Hash =>
    resource parsed <> 0 /\ (exists b, buffer parsed <> 0 /\ h !! buffer parsed = Some b) /\
    (kind <> QUIC_HANDSHAKE -> all_zero (hash parsed) = false)
  | _ => buffer parsed = 0 /\ resource parsed = 0
  end.

Definition form_size (form : PayloadForm) : Z :=
  match form with Resource | BufferForm | Store => 48 | Hash | Metrics => 64 | _ => 16 end.

Lemma parse_form_ok form source h parsed :
  parse_form form source h = Some (V2_OK, parsed) ->
  read_payload source (form_size form) = V2_OK /\ well_formed form source parsed h /\ parsed_kind parsed = payload_kind source.
Proof.
  assert (forall form', parse_end source = Some (V2_OK, parsed) -> form_size form' = 16 -> (form' = End \/ form' = Unknown) ->
    read_payload source (form_size form') = V2_OK /\ well_formed form' source parsed h /\ parsed_kind parsed = payload_kind source) as Hend.
  { unfold parse_end. intros form' H -> Hf. injection H as H <-. split_and!; [done | by destruct Hf as [-> | ->] | done]. }
  destruct form; cbn [parse_form]; [| | | | | by intros; apply Hend; auto | by intros; apply Hend; auto].
  - unfold parse_resource. cbv zeta. intros H. injection H as H <-. apply require_ok in H as [H C3]. apply require_ok in H as [H C2].
    apply require_ok in H as [H C1]. split_and!; [done | | done]. cbn. split_and!; [lia | done | |].
    + intros Hk. assert ((payload_kind source =? DISCOVERY_MTU) || (payload_kind source =? QUIC_PAYLOAD_BUDGET) = true) as K by lia.
      rewrite K in C2. cbn in C2. lia.
    + intros Hk. rewrite (proj2 (Z.eqb_eq _ _) Hk) in C3. cbn [andb] in C3. bool_hyps. split_and!; lia.
  - unfold parse_buffer. cbv zeta. destruct (require_buffer _ _ h) as [[r actual]|] eqn:B; [| done]. cbn. intros H. injection H as H <-.
    apply require_ok in H as [-> C]. apply require_buffer_ok in B as [H (b & Hq & Hb & ->)]. apply require_ok in H as [H _].
    split_and!; [done | | done]. exists b. split_and!; [done | done |]. cbn. by apply negb_false_iff, Z.eqb_eq in C.
  - unfold parse_store. cbv zeta. destruct (require_buffer _ _ h) as [[r actual]|] eqn:B; [| done]. cbn. intros H. injection H as H <-.
    apply require_ok in H as [-> C]. apply require_buffer_ok in B as [H (b & Hq & Hb & ->)]. apply require_ok in H as [H C'].
    split; [done |]. split; [| done]. split; [cbn; lia |]. exists b. split_and!; [done | done |]. cbn. by apply negb_false_iff, Z.eqb_eq in C.
  - unfold parse_hash. cbv zeta. destruct (require_buffer _ _ h) as [[r actual]|] eqn:B; [| done]. cbn. intros H. injection H as H <-.
    apply require_ok in H as [-> C]. apply require_buffer_ok in B as [H (b & Hq & Hb & _)]. apply require_ok in H as [H C'].
    split; [done |]. split; [| done]. cbn. split_and!; [lia | by exists b |]. intros Hk.
    rewrite (proj2 (Z.eqb_neq _ _) Hk) in C. exact C.
  - unfold parse_metrics. intros H. injection H as H <-. done.
Qed.

(** The checks before the payload, in the code's order. *)
Lemma parse_checks source expected kind d h d' h' :
  parse_provider_event_v2 source expected kind d h = Some (V2_OK, d', h') ->
  validate_token (token source) = V2_OK /\ token source = expected /\ payload_kind source = kind /\ terminal source <= 1 /\
  payload_size source <= 64 /\ (contract_for kind).1 <> Unknown /\ event_result source <= V2_OK /\
  (event_result source < 0 /\ terminal source = 1 /\ ((contract_for kind).2 = 1 \/ kind = QUIC_DATA) /\ read_payload source 16 = V2_OK /\
     d' = mkParsed kind 0 0 0 0 (replicate 32 0) 0 /\ buffer_release_v2 (buffer d) h = Some h' \/
   event_result source = 0 /\ terminal source = (contract_for kind).2 /\
     parse_form (contract_for kind).1 source h = Some (V2_OK, d') /\
     exists h1, (if negb (buffer d' =? 0) then buffer_retain_v2 (buffer d') h else Some h) = Some h1 /\
                buffer_release_v2 (buffer d) h1 = Some h').
Proof.
  unfold parse_provider_event_v2. cbv zeta.
  destruct (negb (event_struct_size source =? EVENT_SIZE) || _); [done |].
  destruct (_ || (64 <? payload_size source)) eqn:G; [done |].
  destruct (Z.eqb_spec (validate_token (token source)) V2_OK) as [Hv | Hv]; cbn [negb]; [| by intros [= ? _ _]].
  destruct (same_token (token source) expected) eqn:T; [| done]. apply same_token_spec in T. cbn [negb].
  destruct (Z.eqb_spec (payload_kind source) kind) as [<- |]; [| done]. cbn [negb].
  destruct (contract_for (payload_kind source)) as [form contract_terminal] eqn:F. cbn [fst snd].
  destruct (bool_decide_reflect (form = Unknown)); [done |].
  destruct (Z.ltb_spec V2_OK (event_result source)) as [| Hres]; [done |]. bool_hyps.
  destruct (Z.eqb_spec (event_result source) V2_OK) as [Hz | Hz]; cbn [negb].
  - destruct (Z.eqb_spec (terminal source) contract_terminal) as [Ht |]; [| done]. cbn [negb].
    destruct (parse_form form source h) as [[r parsed]|] eqn:P; [| done]. cbn.
    destruct (Z.eqb_spec r V2_OK) as [-> |]; [| by intros [= ? _ _]]. cbn [negb].
    destruct (if negb _ then _ else _) as [h1|] eqn:R; [| done]. cbn. unfold move_assign.
    destruct (buffer_release_v2 (buffer d) h1) as [h2|] eqn:L; [| done]. cbn. intros [= <- <-].
    split_and!; try done; try lia. right. split_and!; try done. by exists h1.
  - destruct (negb (terminal source =? 1) || _) eqn:C; [done |]. bool_hyps.
    destruct (Z.eqb_spec (read_payload source 16) V2_OK) as [Hp |]; [| by intros [= ? _ _]]. cbn [negb]. unfold move_assign.
    destruct (buffer_release_v2 (buffer d) h) as [h2|] eqn:L; [| done]. cbn. intros [= <- <-].
    split_and!; try done; try lia. left. unfold V2_OK in *. split_and!; try done; try lia.
Qed.

(** What a taken event is: its token is the one expected, its kind is the kind asked for and known to the contract;
    either it reports a failure, which is terminal and carries nothing, or it is of the kind's form, terminal exactly as
    the contract says, with a resource that is not zero or a live buffer of the size it states, and in their bounds the
    values that its kind limits. *)
Theorem taken_event_sound source expected kind d h d' h' :
  parse_provider_event_v2 source expected kind d h = Some (V2_OK, d', h') ->
  token source = expected /\ operation_id expected <> 0 /\ payload_kind source = kind /\ (contract_for kind).1 <> Unknown /\
  (event_result source < 0 /\ terminal source = 1 /\ payload_size source = 16 /\ resource d' = 0 /\ buffer d' = 0 \/
   event_result source = 0 /\ terminal source = (contract_for kind).2 /\ payload_size source = form_size (contract_for kind).1 /\
   well_formed (contract_for kind).1 source d' h).
Proof.
  intros H. apply parse_checks in H as (Hv & Ht & Hk & _ & _ & Hu & _ & H).
  split_and!; [done | | done | done |].
  - subst expected. unfold validate_token in Hv. destruct (_ || negb (scope_abi_version _ =? _)); [done |].
    destruct (_ || (3 <? _)) eqn:G; [done |]. bool_hyps. lia.
  - destruct H as [(Hr & Ht1 & _ & Hp & -> & _) | (Hr & Ht1 & Hp & _)]; [left | right].
    + apply read_payload_ok in Hp as (Hp & _). by split_and!.
    + apply parse_form_ok in Hp as (Hp & Hw & _). apply read_payload_ok in Hp as (Hp & _). by split_and!.
Qed.

(** A parse that is refused changes neither the destination nor any count. *)
Lemma parse_refused source expected kind d h result d' h' :
  parse_provider_event_v2 source expected kind d h = Some (result, d', h') -> result <> V2_OK -> d' = d /\ h' = h.
Proof.
  unfold parse_provider_event_v2. cbv zeta. intros H Hr. revert H.
  destruct (negb (event_struct_size source =? EVENT_SIZE) || _); [by intros [= _ <- <-] |].
  destruct (_ || (64 <? payload_size source)); [by intros [= _ <- <-] |].
  destruct (negb (validate_token (token source) =? V2_OK)); [by intros [= _ <- <-] |].
  destruct (negb (same_token (token source) expected)); [by intros [= _ <- <-] |].
  destruct (negb (payload_kind source =? kind)); [by intros [= _ <- <-] |].
  destruct (contract_for (payload_kind source)) as [form contract_terminal].
  destruct (bool_decide _); [by intros [= _ <- <-] |]. destruct (V2_OK <? _); [by intros [= _ <- <-] |].
  destruct (negb (event_result source =? V2_OK)).
  - destruct (_ || _); [by intros [= _ <- <-] |]. destruct (negb (read_payload source 16 =? V2_OK)); [by intros [= _ <- <-] |].
    destruct (move_assign _ _ _); [| done]. cbn. by intros [= <- _ _].
  - destruct (negb _); [by intros [= _ <- <-] |]. destruct (parse_form form source h) as [[r parsed]|]; [| done]. cbn.
    destruct (negb (r =? V2_OK)); [by intros [= _ <- <-] |]. destruct (if negb _ then _ else _); [| done]. cbn.
    destruct (move_assign _ _ _); [| done]. cbn. by intros [= <- _ _].
Qed.

(** C32. References balance: while no count is full, whatever a parse answers, every buffer is counted once more for what
    the destination holds afterwards and once less for what it held before; so a taken event owns exactly one reference
    to its buffer, and a refused one none. *)
Theorem references_balance source expected kind d h result d' h' :
  counted h -> not_full h ->
  parse_provider_event_v2 source expected kind d h = Some (result, d', h') ->
  counted h' /\ forall p, p <> 0 -> refs h' p + held d p = refs h p + held d' p.
Proof.
  intros Hc Hf H. destruct (decide (result = V2_OK)) as [-> | Hr].
  - apply parse_checks in H as (_ & _ & _ & _ & _ & _ & _ & [(_ & _ & _ & _ & -> & H) | (_ & _ & _ & h1 & H1 & H)]).
    + split; [by apply (release_refs (buffer d) h h' 1) |]. intros p Hp.
      pose proof (release_refs (buffer d) h h' p Hc Hp H) as [_ E]. unfold held. cbn [buffer].
      destruct (Z.eqb_spec 0 p); lia.
    + destruct (Z.eqb_spec (buffer d') 0) as [E | E]; cbn [negb] in H1.
      * injection H1 as <-. split; [by apply (release_refs (buffer d) h h' 1) |]. intros p Hp.
        pose proof (release_refs (buffer d) h h' p Hc Hp H) as [_ E']. unfold held. destruct (Z.eqb_spec (buffer d') p); lia.
      * assert (counted h1) as Hc1 by (by apply (retain_refs _ h h1 1 Hc Hf E)).
        split; [by apply (release_refs (buffer d) h1 h' 1) |]. intros p Hp.
        pose proof (release_refs (buffer d) h1 h' p Hc1 Hp H) as [_ E']. pose proof (retain_refs _ h h1 p Hc Hf E H1) as [_ E'']. unfold held. lia.
  - apply parse_refused in H as [-> ->]; [| done]. split; [done |]. intros p Hp. lia.
Qed.

(** A contract's success is terminal or not. *)
Lemma contract_terminal_bit kind : (contract_for kind).2 <> 0 -> (contract_for kind).2 = 1.
Proof. unfold contract_for. repeat (destruct (_ || _)); repeat (destruct (_ =? _)); cbn; done. Qed.

(** ** Nothing undefined *)

Definition usable (h : Heap) (p : Z) : Prop := p = 0 \/ is_Some (h !! p).

(** The pointer in a payload of a form. *)
Definition payload_pointer (form : PayloadForm) (source : PortEvent) : Z :=
  match form with BufferForm | Store => field64 source 16 | Hash => field64 source 24 | _ => 0 end.

Lemma require_buffer_defined result q h : usable h q -> is_Some (require_buffer result q h).
Proof.
  unfold require_buffer, buffer_size_v2. intros [-> | [b E]]; destruct (_ =? V2_OK); [by eexists | by eexists | | by eexists].
  destruct (q =? 0); [by eexists |]. rewrite E. by eexists.
Qed.

Lemma parse_form_defined form source h : usable h (payload_pointer form source) -> is_Some (parse_form form source h).
Proof.
  destruct form; cbn [payload_pointer parse_form]; intros Hu; [by eexists | | | | by eexists..].
  - unfold parse_buffer. cbv zeta. destruct (require_buffer_defined (require (read_payload source 48) (negb (field64 source 40 =? 0))) _ _ Hu) as [[r a] ->].
    by eexists.
  - unfold parse_store. cbv zeta.
    destruct (require_buffer_defined (require (read_payload source 48) ((field64 source 24 =? 0) || negb (field64 source 40 =? 0))) _ _ Hu) as [[r a] ->].
    by eexists.
  - unfold parse_hash. cbv zeta. destruct (require_buffer_defined (require (read_payload source 64) (field64 source 16 =? 0)) _ _ Hu) as [[r a] ->].
    by eexists.
Qed.

Lemma release_defined q h : usable h q -> is_Some (buffer_release_v2 q h).
Proof. unfold buffer_release_v2. intros [-> | [b E]]; [by eexists |]. destruct (q =? 0); [by eexists |]. rewrite E. by eexists. Qed.

Lemma retain_keeps q h h1 p : buffer_retain_v2 q h = Some h1 -> usable h p -> usable h1 p.
Proof.
  unfold buffer_retain_v2. destruct (q =? 0); [by intros [= <-] |]. destruct (h !! q) as [b|]; [| done]. cbn. intros [= <-].
  destruct (_ && _); [| done]. intros [-> | Hp]; [by left | right]. apply lookup_insert_is_Some'. by right.
Qed.

(** A parse never touches a buffer that is not there: if the pointers it is given (the payload's, where its kind has
    one, and the destination's) are null or of live buffers, it has a result. *)
Theorem parse_defined source expected kind d h :
  usable h (payload_pointer (contract_for (payload_kind source)).1 source) -> usable h (buffer d) ->
  exists result d' h', parse_provider_event_v2 source expected kind d h = Some (result, d', h').
Proof.
  intros Hp Hd. unfold parse_provider_event_v2. cbv zeta.
  destruct (negb (event_struct_size source =? EVENT_SIZE) || _); [by do 3 eexists |].
  destruct (_ || (64 <? payload_size source)); [by do 3 eexists |].
  destruct (negb (validate_token (token source) =? V2_OK)); [by do 3 eexists |].
  destruct (negb (same_token (token source) expected)); [by do 3 eexists |].
  destruct (negb (payload_kind source =? kind)); [by do 3 eexists |].
  destruct (contract_for (payload_kind source)) as [form contract_terminal]. cbn [fst] in Hp.
  destruct (bool_decide _); [by do 3 eexists |]. destruct (V2_OK <? _); [by do 3 eexists |].
  destruct (negb (event_result source =? V2_OK)).
  - destruct (_ || _); [by do 3 eexists |]. destruct (negb (read_payload source 16 =? V2_OK)); [by do 3 eexists |].
    unfold move_assign. destruct (release_defined _ _ Hd) as [h' ->]. by do 3 eexists.
  - destruct (negb _); [by do 3 eexists |]. destruct (parse_form_defined _ _ _ Hp) as [[r parsed] P]. rewrite P. cbn.
    destruct (Z.eqb_spec r V2_OK) as [-> |]; [| by do 3 eexists]. cbn [negb].
    assert (is_Some (if negb (buffer parsed =? 0) then buffer_retain_v2 (buffer parsed) h else Some h)) as [h1 R].
    { destruct (Z.eqb_spec (buffer parsed) 0) as [| Hne]; cbn [negb]; [by eexists |]. apply parse_form_ok in P as (_ & Hw & _).
      assert (is_Some (h !! buffer parsed)) as [b Hb].
      { destruct form; cbn in Hw; [lia | | | | lia..]; [destruct Hw as (b & _ & ? & _) | destruct Hw as (_ & b & _ & ? & _) |
          destruct Hw as (_ & (b & _ & ?) & _)]; by exists b. }
      unfold buffer_retain_v2. destruct (buffer parsed =? 0); [by eexists |]. rewrite Hb. by eexists. }
    rewrite R. cbn. unfold move_assign.
    assert (usable h1 (buffer d)) as Hd1. { destruct (negb _); [by eapply retain_keeps | by injection R as <-]. }
    destruct (release_defined _ _ Hd1) as [h' ->]. by do 3 eexists.
Qed.

(** ** An example: a public key of three bytes, for operation 9 *)

Definition example_token : OpToken :=
  mkToken 160 2 (replicate 16 1) (mkScope 48 2 2 0 (replicate 16 2) (replicate 16 3)) 1 2 3 4 5 6 7 8 9 (replicate 16 4).
Definition example_heap : Heap := <[7 := mkBuffer 1 [1; 2; 3]]> ∅.
Definition example_payload : bytes :=
  [48; 0; 0; 0; 2; 0; 0; 0; 0; 0; 0; 0; 0; 0; 0; 0; 7; 0; 0; 0; 0; 0; 0; 0] ++ replicate 8 0 ++ [3] ++ replicate 31 0.
Definition example_event : PortEvent := mkEvent 264 2 example_token 1 3 1 0 241 48 0 example_payload.
Definition example_parsed : ParsedProviderEvent := mkParsed 241 0 0 3 0 (replicate 32 0) 7.

Lemma taken_event_sound_witness :
  parse_provider_event_v2 example_event example_token 241 parsed_empty example_heap =
    Some (V2_OK, example_parsed, <[7 := mkBuffer 2 [1; 2; 3]]> ∅) /\
  token example_event = example_token.
Proof.
  assert (parse_provider_event_v2 example_event example_token 241 parsed_empty example_heap =
    Some (V2_OK, example_parsed, <[7 := mkBuffer 2 [1; 2; 3]]> ∅)) as H by (by vm_compute).
  split; [exact H |]. exact (proj1 (taken_event_sound _ _ _ _ _ _ _ H)).
Defined.

Lemma example_counted : counted example_heap /\ not_full example_heap.
Proof. split; apply map_Forall_insert_2; (done || apply map_Forall_empty). Qed.

Lemma references_balance_witness :
  refs (<[7 := mkBuffer 2 [1; 2; 3]]> ∅) 7 + held parsed_empty 7 = refs example_heap 7 + held example_parsed 7.
Proof.
  refine (proj2 (references_balance example_event example_token 241 parsed_empty example_heap V2_OK example_parsed _ _ _ _) 7 _);
    [apply example_counted.. | by vm_compute | done].
Defined.

Lemma parse_defined_witness :
  exists result d' h', parse_provider_event_v2 example_event example_token 241 parsed_empty example_heap = Some (result, d', h').
Proof.
  apply parse_defined; [| by left]. right. exists (mkBuffer 1 [1; 2; 3]). by vm_compute.
Defined.
