(* ===== verification/ProviderJournal.v ===== *)
(** * The journal of provider operations ([shared/src/session/ports/provider_operation_journal.{hpp,cpp}])

    An operation is registered before it is dispatched; only its exact token and kind complete it, once, unless it was
    cancelled. *)

From stdpp Require Import sorting.
From S2P Require Import Prelude ProviderEvents.

Definition valid_token (value : OpToken) : bool :=
  (struct_size value =? TOKEN_SIZE) && (abi_version value =? ABI_VERSION_2) && (scope_struct_size (scope value) =? SCOPE_SIZE) &&
  (scope_abi_version (scope value) =? ABI_VERSION_2) && (scope_reserved_zero (scope value) =? 0) && negb (operation_id value =? 0) &&
  (1 <=? scope_kind (scope value)) && (scope_kind (scope value) <=? 3).

Definition same_event (left right : PortEvent) : bool :=
  same_token (token left) (token right) && (event_struct_size left =? event_struct_size right) &&
  (event_abi_version left =? event_abi_version right) && (event_sequence left =? event_sequence right) &&
  (event_kind left =? event_kind right) && (terminal left =? terminal right) && (event_result left =? event_result right) &&
  (payload_kind left =? payload_kind right) && (payload_size left =? payload_size right) &&
  (event_reserved_zero left =? event_reserved_zero right) &&
  bool_decide (slice (payload left) 0 (payload_size left) = slice (payload right) 0 (payload_size left)).

Inductive State := Pending | Terminal | Cancelled.

#[global] Instance state_eq_dec : EqDecision State.
Proof. solve_decision. Defined.

Definition no_token : OpToken := mkToken 0 0 (replicate 16 0) (mkScope 0 0 0 0 (replicate 16 0) (replicate 16 0)) 0 0 0 0 0 0 0 0 0 (replicate 16 0).
Definition no_event : PortEvent := mkEvent 0 0 no_token 0 0 0 0 0 0 0 (replicate 64 0).

Record Operation := mkOperation { op_token : OpToken; op_payload_kind : Z; op_state : State; terminal_event : PortEvent }.

Record ProviderOperationJournal := mkJournal { records_ : list Operation; active_capacity_ : Z; highest_operation_id_ : Z }.

#[global] Instance eta_journal : Eta ProviderOperationJournal := fun r => mkJournal (records_ r) (active_capacity_ r) (highest_operation_id_ r).

Record ProviderOperationCompletion := mkCompletion {
  completion_kind : Z; completion_result : Z; completion_terminal : bool; completion_payload : ParsedProviderEvent
}.

Definition completion_new : ProviderOperationCompletion := mkCompletion 0 V2_OK false parsed_empty.

(** The constructor throws for no capacity. *)
Definition journal_new (active_capacity : Z) : option ProviderOperationJournal :=
  if active_capacity =? 0 then None else Some (mkJournal [] active_capacity 0).

(** [std::find_if] by the operation's id. *)
Definition find_record (id : Z) (records : list Operation) : option (nat * Operation) :=
  list_find (fun item => operation_id (op_token item) = id) records.

Definition is_pending (item : Operation) : bool := bool_decide (op_state item = Pending).

Definition expect (operation_token : OpToken) (payload_kind : Z) (j : ProviderOperationJournal) : Z * ProviderOperationJournal :=
  if negb (valid_token operation_token) || (payload_kind =? 0) then (V2_INVALID_ARGUMENT, j)
  else
    match find_record (operation_id operation_token) (records_ j) with
    | Some (_, existing) =>
      (if same_token (op_token existing) operation_token && (op_payload_kind existing =? payload_kind) then V2_DUPLICATE
       else V2_INVALID_ARGUMENT, j)
    | None =>
      if operation_id operation_token <=? highest_operation_id_ j then (V2_INVALID_ARGUMENT, j)
      else
        let active := zlen (List.filter is_pending (records_ j)) in
        if active_capacity_ j <=? active then (V2_BACKPRESSURE, j)
        else
          (V2_OK, j <| records_ := records_ j ++ [mkOperation operation_token payload_kind Pending no_event] |>
                    <| highest_operation_id_ := operation_id operation_token |>)
    end.

Definition accept (event : PortEvent) (completion : ProviderOperationCompletion) (j : ProviderOperationJournal) (h : Heap)
    : option (Z * ProviderOperationCompletion * ProviderOperationJournal * Heap) :=
  match find_record (operation_id (token event)) (records_ j) with
  | None => Some (V2_STALE, completion, j, h)
  | Some (i, record) =>
    if negb (same_token (op_token record) (token event)) || bool_decide (op_state record = Cancelled) then Some (V2_STALE, completion, j, h)
    else if bool_decide (op_state record = Terminal) then
      Some (if same_event (terminal_event record) event then V2_DUPLICATE else V2_CONTRACT_VIOLATION, completion, j, h)
    else
      '(parse_result, parsed, h) ← parse_provider_event_v2 event (op_token record) (op_payload_kind record) parsed_empty h;
      if negb (parse_result =? V2_OK) then Some (parse_result, completion, j, h)
      else if terminal event =? 0 then h ← buffer_release_v2 (buffer parsed) h; Some (V2_CONTRACT_VIOLATION, completion, j, h)
      else
        h ← buffer_release_v2 (buffer (completion_payload completion)) h;
        Some (V2_OK, mkCompletion (payload_kind event) (event_result event) true parsed,
              j <| records_ := <[i := mkOperation (op_token record) (op_payload_kind record) Terminal event]> (records_ j) |>, h)
  end.

Definition cancel (operation_token : OpToken) (j : ProviderOperationJournal) : Z * ProviderOperationJournal :=
  match find_record (operation_id operation_token) (records_ j) with
  | None => (V2_STALE, j)
  | Some (i, record) =>
    if negb (same_token (op_token record) operation_token) then (V2_STALE, j)
    else if negb (bool_decide (op_state record = Pending)) then (V2_DUPLICATE, j)
    else (V2_OK, j <| records_ := <[i := mkOperation (op_token record) (op_payload_kind record) Cancelled (terminal_event record)]> (records_ j) |>)
  end.

Definition has_pending (j : ProviderOperationJournal) : bool := existsb is_pending (records_ j).

(** ** Runs *)

Inductive JournalCall :=
  | Expect (operation_token : OpToken) (payload_kind : Z)
  | Accept (event : PortEvent) (completion : ProviderOperationCompletion)
  | Cancel (operation_token : OpToken).

(** The calls with their results; [None] when one uses a dangling buffer. *)
Definition journal_step (c : JournalCall) (j : ProviderOperationJournal) (h : Heap) : option (Z * ProviderOperationJournal * Heap) :=
  match c with
  | Expect token kind => let '(result, j) := expect token kind j in Some (result, j, h)
  | Accept event completion => '(result, _, j, h) ← accept event completion j h; Some (result, j, h)
  | Cancel token => let '(result, j) := cancel token j in Some (result, j, h)
  end.

Fixpoint run_journal (calls : list JournalCall) (j : ProviderOperationJournal) (h : Heap)
    : option (list (JournalCall * Z) * ProviderOperationJournal * Heap) :=
  match calls with
  | [] => Some ([], j, h)
  | c :: calls =>
    '(result, j, h) ← journal_step c j h;
    '(trace, j, h) ← run_journal calls j h;
    Some ((c, result) :: trace, j, h)
  end.

(** The operation a call completed or cancelled. *)
Definition resolves (e : JournalCall * Z) : option Z :=
  match e with
  | (Accept event _, result) => if result =? V2_OK then Some (operation_id (token event)) else None
  | (Cancel token, result) => if result =? V2_OK then Some (operation_id token) else None
  | _ => None
  end.

Definition record_id (item : Operation) : Z := operation_id (op_token item).

(** The journal after a trace. *)
Record journal_ok (capacity : Z) (trace : list (JournalCall * Z)) (j : ProviderOperationJournal) : Prop := {
  ok_sorted : StronglySorted Z.lt (record_id <$> records_ j);
  ok_highest : Forall (fun item => record_id item <= highest_operation_id_ j) (records_ j);
  ok_capacity : active_capacity_ j = capacity;
  ok_bound : zlen (List.filter is_pending (records_ j)) <= capacity;
  ok_registered : Forall (fun item => (Expect (op_token item) (op_payload_kind item), V2_OK) ∈ trace) (records_ j);
  ok_resolved : forall e id, e ∈ trace -> resolves e = Some id -> Exists (fun item => record_id item = id /\ op_state item <> Pending) (records_ j);
}.

Lemma find_record_some id records i item :
  find_record id records = Some (i, item) -> records !! i = Some item /\ record_id item = id.
Proof. unfold find_record. intros H. apply list_find_Some in H as (H & E & _). done. Qed.

(** Ids are unique: the record found is the only one. *)
Lemma sorted_ids_unique records i k x y :
  StronglySorted Z.lt (record_id <$> records) -> records !! i = Some x -> records !! k = Some y -> record_id x = record_id y -> i = k.
Proof.
  intros Hs Hx Hy E.
  assert (forall i k x y, (i < k)%nat -> records !! i = Some x -> records !! k = Some y -> record_id x < record_id y) as Hlt.
  { clear -Hs. induction records as [|r records IH]; [done |]. cbn in Hs. apply StronglySorted_inv in Hs as [Hs Hall].
    intros [|i] [|k] x y Hik Hx Hy; [lia | | lia |]; cbn in *.
    - injection Hx as <-. rewrite Forall_fmap, Forall_lookup in Hall. by apply (Hall k).
    - apply (IH Hs i k); [lia | done | done]. }
  destruct (Nat.lt_total i k) as [H | [H | H]]; [| done |].
  - pose proof (Hlt _ _ _ _ H Hx Hy). lia.
  - pose proof (Hlt _ _ _ _ H Hy Hx). lia.
Qed.

(** A pending record settles: it keeps its token and kind, and one operation less is pending. *)
Lemma settle_pending records i item settled :
  records !! i = Some item -> is_pending item = true -> is_pending settled = false ->
  zlen (List.filter is_pending (<[i := settled]> records)) + 1 = zlen (List.filter is_pending records).
Proof.
  revert i. induction records as [|r records IH]; [done |]. intros [|i] Hi Hp Hs.
  - apply (inj Some) in Hi. subst r. change (<[0%nat := settled]> (item :: records)) with (settled :: records). cbn [List.filter].
    by rewrite Hp, Hs, zlen_cons.
  - specialize (IH i Hi Hp Hs). change (<[S i := settled]> (r :: records)) with (r :: <[i := settled]> records). cbn [List.filter]. destruct (is_pending r); rewrite ?zlen_cons; lia.
Qed.

Lemma settle_ok capacity trace j i item state event e :
  journal_ok capacity trace j -> records_ j !! i = Some item -> op_state item = Pending -> state <> Pending ->
  (forall id, resolves e = Some id -> record_id item = id) ->
  journal_ok capacity (trace ++ [e]) (j <| records_ := <[i := mkOperation (op_token item) (op_payload_kind item) state event]> (records_ j) |>).
Proof.
  intros [Hs Hh Hc Hb Hr Ho] Hi Hp Hn He. set (settled := mkOperation _ _ _ _). pose proof Hi as Hlt. apply lookup_lt_Some in Hlt.
  assert (record_id <$> <[i := settled]> (records_ j) = record_id <$> records_ j) as Eids.
  { rewrite list_fmap_insert. apply list_insert_id. rewrite list_lookup_fmap, Hi. done. }
  constructor; cbn [records_ highest_operation_id_ active_capacity_ over].
  - by rewrite Eids.
  - apply Forall_insert; [done |]. change (record_id settled) with (record_id item). rewrite Forall_lookup in Hh. by apply (Hh i).
  - done.
  - pose proof (settle_pending (records_ j) i item settled Hi) as H. unfold is_pending in H at 1 2. cbn [op_state settled] in H.
    rewrite bool_decide_true, bool_decide_false in H by done. specialize (H eq_refl eq_refl). lia.
  - apply Forall_insert.
    + eapply Forall_impl; [exact Hr |]. intros x Hx. apply elem_of_app. by left.
    + apply elem_of_app. left. rewrite Forall_lookup in Hr. by apply (Hr i item).
  - intros e' id Hin Hres. apply Exists_exists. apply elem_of_app in Hin as [Hin | Hin].
    + specialize (Ho e' id Hin Hres). apply Exists_exists in Ho as (x & Hx & Hid & Hst). apply list_elem_of_lookup in Hx as [k Hk].
      exists x. split; [| done]. apply list_elem_of_lookup. exists k. rewrite list_lookup_insert_ne; [done |].
      intros ->. congruence.
    + apply list_elem_of_singleton in Hin as ->. exists settled. split; [| split; [by apply He | done]].
      apply list_elem_of_lookup. exists i. by apply list_lookup_insert_eq.
Qed.

(** A call that leaves the journal as it is. *)
Lemma idle_ok capacity trace j e : journal_ok capacity trace j -> resolves e = None -> journal_ok capacity (trace ++ [e]) j.
Proof.
  intros [Hs Hh Hc Hb Hr Ho] He. constructor; try done.
  - eapply Forall_impl; [exact Hr |]. intros x Hx. apply elem_of_app. by left.
  - intros e' id Hin Hres. apply elem_of_app in Hin as [Hin | Hin]; [by apply (Ho e') |].
    apply list_elem_of_singleton in Hin as ->. congruence.
Qed.

Lemma expect_ok capacity trace token kind j :
  journal_ok capacity trace j -> journal_ok capacity (trace ++ [(Expect token kind, (expect token kind j).1)]) (expect token kind j).2.
Proof.
  intros Hok. unfold expect. destruct (_ || _); [by apply idle_ok |].
  destruct (find_record _ _) as [[i item]|] eqn:F; [by apply idle_ok |]. destruct (Z.leb_spec (operation_id token) (highest_operation_id_ j)); [by apply idle_ok |].
  cbv zeta. destruct (Z.leb_spec (active_capacity_ j) (zlen (List.filter is_pending (records_ j)))); [by apply idle_ok |].
  destruct Hok as [Hs Hh Hc Hb Hr Ho]. cbn [fst snd]. constructor; cbn [records_ highest_operation_id_ active_capacity_ over].
  - rewrite fmap_app. cbn. apply StronglySorted_app. split_and!; [| done | by repeat constructor]. intros x y Hx Hy.
    apply list_elem_of_fmap in Hx as (r & -> & Hr'). rewrite Forall_forall in Hh. specialize (Hh r Hr').
    apply list_elem_of_singleton in Hy as ->. change (record_id (mkOperation token kind Pending no_event)) with (operation_id token). lia.
  - apply Forall_app. split; [| by repeat constructor]. eapply Forall_impl; [exact Hh |]. cbn. lia.
  - done.
  - rewrite List.filter_app, zlen_app. change (zlen (List.filter is_pending [_])) with 1. lia.
  - apply Forall_app. split.
    + eapply Forall_impl; [exact Hr |]. intros x Hx. apply elem_of_app. by left.
    + constructor; [| done]. apply elem_of_app. right. apply list_elem_of_here.
  - intros e' id Hin Hres. apply elem_of_app in Hin as [Hin | Hin].
    + apply Exists_app. left. by apply (Ho e').
    + by apply list_elem_of_singleton in Hin as ->.
Qed.

Lemma accept_ok capacity trace event completion j h result completion' j' h' :
  journal_ok capacity trace j -> accept event completion j h = Some (result, completion', j', h') ->
  journal_ok capacity (trace ++ [(Accept event completion, result)]) j'.
Proof.
  intros Hok. unfold accept. destruct (find_record _ _) as [[i item]|] eqn:F; [| intros [= <- _ <- _]; (apply idle_ok; [exact Hok | reflexivity])].
  destruct (_ || _) eqn:G; [intros [= <- _ <- _]; (apply idle_ok; [exact Hok | reflexivity]) |]. bool_hyps.
  destruct (bool_decide_reflect (op_state item = Terminal)).
  { destruct (same_event _ _); intros [= <- _ <- _]; (apply idle_ok; [exact Hok | reflexivity]). }
  destruct (parse_provider_event_v2 _ _ _ _ _) as [[[r parsed] h1]|]; [| done]. cbn.
  destruct (negb (r =? V2_OK)) eqn:R; [intros [= <- _ <- _]; apply idle_ok; [exact Hok |]; cbn [resolves]; by apply negb_true_iff in R as -> |].
  destruct (terminal event =? 0).
  { destruct (buffer_release_v2 _ _); [| done]. cbn. intros [= <- _ <- _]. (apply idle_ok; [exact Hok | reflexivity]). }
  destruct (buffer_release_v2 _ _); [| done]. cbn. intros [= <- _ <- _].
  apply find_record_some in F as [Hi Hid]. apply settle_ok; [done | done | | done |].
  - by destruct (op_state item).
  - intros id [= <-]. done.
Qed.

Lemma cancel_ok capacity trace token j :
  journal_ok capacity trace j -> journal_ok capacity (trace ++ [(Cancel token, (cancel token j).1)]) (cancel token j).2.
Proof.
  intros Hok. unfold cancel. destruct (find_record _ _) as [[i item]|] eqn:F; [| (apply idle_ok; [exact Hok | reflexivity])].
  destruct (negb (same_token _ _)); [(apply idle_ok; [exact Hok | reflexivity]) |].
  destruct (bool_decide_reflect (op_state item = Pending)); [| (apply idle_ok; [exact Hok | reflexivity])]. cbn [negb fst snd].
  apply find_record_some in F as [Hi Hid]. apply settle_ok; [done | done | done | done |]. intros id [= <-]. done.
Qed.

Lemma step_ok capacity trace c j h result j' h' :
  journal_ok capacity trace j -> journal_step c j h = Some (result, j', h') -> journal_ok capacity (trace ++ [(c, result)]) j'.
Proof.
  intros Hok. destruct c as [token kind | event completion | token]; cbn [journal_step].
  - pose proof (expect_ok capacity trace token kind j Hok) as H. destruct (expect token kind j) as [r j1]. by intros [= <- <- _].
  - destruct (accept event completion j h) as [[[[r c'] j1] h1]|] eqn:E; [| done]. cbn. intros [= <- <- _]. by eapply accept_ok.
  - pose proof (cancel_ok capacity trace token j Hok) as H. destruct (cancel token j) as [r j1]. by intros [= <- <- _].
Qed.

Lemma run_journal_ok capacity calls trace j h rest j' h' :
  journal_ok capacity trace j -> run_journal calls j h = Some (rest, j', h') -> journal_ok capacity (trace ++ rest) j'.
Proof.
  revert trace j h rest. induction calls as [|c calls IH]; intros trace j h rest Hok; cbn [run_journal].
  { intros [= <- <- _]. by rewrite app_nil_r. }
  destruct (journal_step c j h) as [[[r j1] h1]|] eqn:E; [| done]. cbn.
  destruct (run_journal calls j1 h1) as [[[rest' j2] h2]|] eqn:E'; [| done]. cbn. intros [= <- <- <-].
  apply (step_ok _ _ _ _ _ _ _ _ Hok) in E. apply (IH _ _ _ _ E) in E'. by rewrite <- app_assoc in E'.
Qed.

Lemma start_ok capacity j : 0 <= capacity -> journal_new capacity = Some j -> journal_ok capacity [] j.
Proof.
  unfold journal_new. destruct (_ =? 0); [done |]. intros H [= <-]. constructor; try done; [constructor |].
  intros e id Hin. by apply not_elem_of_nil in Hin.
Qed.

(** A call that completes an operation, or cancels it, found it registered and pending. *)
Lemma resolving_pending c j h result j' h' id :
  journal_step c j h = Some (result, j', h') -> resolves (c, result) = Some id ->
  exists i item, records_ j !! i = Some item /\ record_id item = id /\ op_state item = Pending /\
    match c with
    | Accept event _ => op_token item = token event /\ op_payload_kind item = payload_kind event /\ terminal event = 1
    | Cancel token => op_token item = token
    | Expect _ _ => False
    end.
Proof.
  destruct c as [token' kind | event completion | token']; cbn [journal_step]; [by destruct (expect _ _ _) | |].
  - unfold accept. destruct (find_record _ _) as [[i item]|] eqn:F; [| by intros [= <- _ _]]. cbn [resolves].
    destruct (_ || _) eqn:G; [by intros [= <- _ _] |]. bool_hyps.
    destruct (bool_decide_reflect (op_state item = Terminal)); [destruct (same_event _ _); by intros [= <- _ _] |].
    destruct (parse_provider_event_v2 _ _ _ _ _) as [[[r parsed] h1]|] eqn:P; [| done]. cbn.
    destruct (Z.eqb_spec r V2_OK) as [-> | Hr]; cbn [negb]; [| intros [= <- _ _]; by apply Z.eqb_neq in Hr as ->].
    destruct (Z.eqb_spec (terminal event) 0) as [| Hterm]; [destruct (buffer_release_v2 _ _); [| done]; by intros [= <- _ _] |].
    intros _ Hres. apply parse_checks in P as (_ & Ht & Hk & Hle & _ & _ & _ & Hend). apply find_record_some in F as [Hi Hid].
    exists i, item. rewrite Hid. assert (terminal event = 1) as He.
    { destruct Hend as [(_ & E & _) | (_ & E & _)]; [done |]. rewrite E in Hterm |- *. by apply contract_terminal_bit. }
    split_and!; [done | | by destruct (op_state item) | done | done | done].
    destruct (_ =? V2_OK) in Hres; [by apply (inj Some) in Hres | done].
  - unfold cancel. destruct (find_record _ _) as [[i item]|] eqn:F; [| by intros [= <- _ _]].
    destruct (same_token _ _) eqn:T; cbn [negb]; [| by intros [= <- _ _]]. apply same_token_spec in T.
    destruct (bool_decide_reflect (op_state item = Pending)); cbn [negb]; [| by intros [= <- _ _]].
    intros [= <- _ _]. cbn. intros [= <-]. apply find_record_some in F as [Hi Hid]. by exists i, item.
Qed.

(** C38. An operation completes at most once, and only as it was announced. In any run from a new journal, when an event
    is accepted, its very token was registered before with its very payload kind, the event is terminal, and no event of
    the operation was accepted before it and the operation was not cancelled. *)
Theorem completed_once capacity j calls h event completion trace j1 h1 j2 h2 :
  0 <= capacity -> journal_new capacity = Some j ->
  run_journal calls j h = Some (trace, j1, h1) ->
  journal_step (Accept event completion) j1 h1 = Some (V2_OK, j2, h2) ->
  (Expect (token event) (payload_kind event), V2_OK) ∈ trace /\ terminal event = 1 /\
  forall e, e ∈ trace -> resolves e <> Some (operation_id (token event)).
Proof.
  intros Hcap Hnew Hrun Hstep. apply (run_journal_ok capacity _ [] _ _ _ _ _ (start_ok _ _ Hcap Hnew)) in Hrun as Hok. cbn [app] in Hok.
  destruct (resolving_pending _ _ _ _ _ _ (operation_id (token event)) Hstep eq_refl) as (i & item & Hi & Hid & Hp & Ht & Hk & Hterm).
  split_and!; [| done |].
  - pose proof (ok_registered _ _ _ Hok) as Hr. rewrite Forall_lookup in Hr. specialize (Hr i item Hi). by rewrite Ht, Hk in Hr.
  - intros e Hin Hres. pose proof (ok_resolved _ _ _ Hok e _ Hin Hres) as Hex. apply Exists_exists in Hex as (x & Hx & Hxid & Hxs).
    apply list_elem_of_lookup in Hx as [k Hx].
    assert (i = k) as -> by (eapply sorted_ids_unique; [apply (ok_sorted _ _ _ Hok) | done | done | by rewrite Hid, Hxid]). congruence.
Qed.

(** The journal is bounded in what it waits for: never are more operations pending than its capacity, and the ids it
    registers strictly increase, so that no id is used twice. *)
Theorem pending_bounded capacity j calls h trace j1 h1 :
  0 <= capacity -> journal_new capacity = Some j ->
  run_journal calls j h = Some (trace, j1, h1) ->
  zlen (List.filter is_pending (records_ j1)) <= capacity /\ StronglySorted Z.lt (record_id <$> records_ j1).
Proof.
  intros Hcap Hnew Hrun. apply (run_journal_ok capacity _ [] _ _ _ _ _ (start_ok _ _ Hcap Hnew)) in Hrun as Hok.
  split; [apply (ok_bound _ _ _ Hok) | apply (ok_sorted _ _ _ Hok)].
Qed.

(** ** An example *)

Definition example_journal : ProviderOperationJournal := mkJournal [] 1 0.
Definition example_calls : list JournalCall := [Expect example_token 241; Expect example_token 241].

Lemma completed_once_witness :
  exists trace j1 h1 j2 h2,
    run_journal example_calls example_journal example_heap = Some (trace, j1, h1) /\
    snd <$> trace = [V2_OK; V2_DUPLICATE] /\
    journal_step (Accept example_event completion_new) j1 h1 = Some (V2_OK, j2, h2) /\
    (Expect example_token 241, V2_OK) ∈ trace.
Proof.
  destruct (run_journal example_calls example_journal example_heap) as [[[trace j1] h1]|] eqn:R; [| by vm_compute in R].
  destruct (journal_step (Accept example_event completion_new) j1 h1) as [[[result j2] h2]|] eqn:S.
  - exists trace, j1, h1, j2, h2. split; [reflexivity |].
    vm_compute in R. injection R as <- <- <-. vm_compute in S. injection S as <- <- <-.
    split; [reflexivity |]. split; [reflexivity |].
    refine (proj1 (completed_once 1 example_journal example_calls example_heap example_event completion_new _ _ _ _ _ _ _ _ _));
      [lia | reflexivity | by vm_compute | by vm_compute].
  - vm_compute in R. injection R as <- <- <-. by vm_compute in S.
Defined.

Lemma pending_bounded_witness :
  exists trace j1 h1, run_journal example_calls example_journal example_heap = Some (trace, j1, h1) /\
    zlen (List.filter is_pending (records_ j1)) <= 1.
Proof.
  destruct (run_journal example_calls example_journal example_heap) as [[[trace j1] h1]|] eqn:R; [| by vm_compute in R].
  exists trace, j1, h1. split; [reflexivity |].
  refine (proj1 (pending_bounded 1 example_journal example_calls example_heap trace j1 h1 _ _ _)); [lia | reflexivity | exact R].
Defined.
