(* ===== verification/CanonicalInput.v ===== *)
(** * Canonical input of the dual runtime
    ([shared/src/session/dual/dual_runtime_contract.hpp], [canonical_input.{hpp,cpp}])

    The only input unit two simulating peers exchange: a key (session, branch,
    epoch, frame, seat revision), the seat and its signing key, and the complete
    state of the four pads.  This file models the contract's pure gates, the
    builder, the canonical-form check, and the digest.

    Byte arrays are byte lists of the array's length; [wf_bundle] records the
    widths of the fields. *)

From S2P Require Import Prelude.
From S2P Require Import Sha256.
From S2P Require Import SessionAbi.

(** ** The contract *)

Definition kDualPortCountV1 : Z := 4.
Definition kDualRollbackSlotCountV1 : Z := 12.
Definition kDualMaxRollbackFramesV1 : Z := 12.
Definition kDualPredictionFreezeDepthV1 : Z := 10.
Definition kDualGuestLeadFramesV1 : Z := 4.
Definition kDualMaxCatchUpFramesPerQuantumV1 : Z := 3.
Definition kDualDigestGateFramesV1 : Z := 120.
Definition kDualDigestSampleIntervalFramesV1 : Z := 60.
Definition kDualFullPortMaskV1 : Z := 255.

Inductive DualModeV1 := Dual | HostStream.

Inductive DualFreezeReasonV1 :=
  | FreezeNone | InputWindowExceeded | PredictionDepthExceeded | CommittedHistoryRewrite
  | DigestMismatch | AuthenticatedActivityTimeout | TransportTerminal | FreezePaused
  | FreezeShutdown | SeatOrAuthorityChanged.

#[global] Instance freeze_eq_dec : EqDecision DualFreezeReasonV1.
Proof. solve_decision. Defined.

Record DualInputKeyV1 := mkKey {
  session_id : bytes;
  branch_id : bytes;
  timeline_epoch : Z;
  frame_index : Z;
  seat_revision : Z;
}.

#[global] Instance eta_key : Eta DualInputKeyV1 := fun r =>
  mkKey (session_id r) (branch_id r) (timeline_epoch r) (frame_index r) (seat_revision r).
#[global] Instance key_eq_dec : EqDecision DualInputKeyV1.
Proof. solve_decision. Defined.

Record DualPortSampleV1 := mkSample { mask : Z; input_sequence : Z }.

#[global] Instance sample_eq_dec : EqDecision DualPortSampleV1.
Proof. solve_decision. Defined.

Record DualInputBundleV1 := mkBundle {
  key : DualInputKeyV1;
  logical_seat : Z;
  reserved_zero0 : bytes;
  predicted_port_mask : Z;
  ports : list DualPortSampleV1;
  owner_signing_key_id : bytes;
}.

#[global] Instance eta_bundle : Eta DualInputBundleV1 := fun r =>
  mkBundle (key r) (logical_seat r) (reserved_zero0 r) (predicted_port_mask r) (ports r)
    (owner_signing_key_id r).

Definition sample0 : DualPortSampleV1 := mkSample 0 0.
Definition port_of (b : DualInputBundleV1) (port : Z) : DualPortSampleV1 :=
  aget sample0 (ports b) port.

Definition zero_key : bytes := replicate 32 0.
Definition key0 : DualInputKeyV1 := mkKey (replicate 16 0) (replicate 16 0) 0 0 0.
Definition bundle0 : DualInputBundleV1 :=
  mkBundle key0 0 [0; 0; 0] 0 (replicate 4 sample0) zero_key.

Record DualStateDigestV1 := mkDigest { digest_state : bytes; digest_frame : bytes; digest_pcm : bytes }.

#[global] Instance digest_eq_dec : EqDecision DualStateDigestV1.
Proof. solve_decision. Defined.

Definition normalize_dual_port_mask_v1 (mask : Z) : Z :=
  let mask := if negb (Z.land mask 16 =? 0) && negb (Z.land mask 32 =? 0)
              then Z.ldiff mask 48 else mask in
  let mask := if negb (Z.land mask 64 =? 0) && negb (Z.land mask 128 =? 0)
              then Z.ldiff mask 192 else mask in
  Z.land mask kDualFullPortMaskV1.

Definition dual_input_key_is_valid_v1 (k : DualInputKeyV1) : bool :=
  if (timeline_epoch k =? 0) || (seat_revision k =? 0) then false
  else existsb (fun b => negb (b =? 0)) (session_id k).

Definition checked_dual_next_sequence_v1 (current : Z) : option Z :=
  if (current =? 0) || (current =? u64_max) then None else Some (current + 1).

Definition checked_dual_next_generation_v1 (current : Z) : option Z :=
  checked_dual_next_sequence_v1 current.

Definition dual_rollback_slot_v1 (confirmed_frame target_frame : Z) : option Z :=
  if confirmed_frame <? target_frame then None
  else
    let behind := confirmed_frame - target_frame in
    if kDualMaxRollbackFramesV1 <=? behind then None else Some behind.

Definition evaluate_dual_window_v1 (confirmed_frame target_frame prediction_depth : Z)
    : DualFreezeReasonV1 :=
  match dual_rollback_slot_v1 confirmed_frame target_frame with
  | None => InputWindowExceeded
  | Some _ => if kDualPredictionFreezeDepthV1 <=? prediction_depth
              then PredictionDepthExceeded else FreezeNone
  end.

Definition evaluate_dual_digest_v1 (local peer : DualStateDigestV1) : DualFreezeReasonV1 :=
  if bool_decide (local = peer) then FreezeNone else DigestMismatch.

(** Only the mode of this release is available. *)
Definition evaluate_dual_mode_v1 (mode : DualModeV1) : fly_session_result_v2 :=
  match mode with Dual => V2_OK | HostStream => V2_UNAVAILABLE end.

Definition write_u32le_v1 (value : Z) : bytes :=
  [u8 value; u8 (Z.shiftr value 8); u8 (Z.shiftr value 16); u8 (Z.shiftr value 24)].

(** The frame geometry and sample rate are the public runtime's constants. *)
Definition write_canonical_dual_profile_bytes_v1 (width height : Z) : bytes :=
  write_u32le_v1 0 ++ write_u32le_v1 2 ++ write_u32le_v1 0 ++
  write_u32le_v1 width ++ write_u32le_v1 height.

Definition write_canonical_dual_options_bytes_v1 (sample_rate : Z) : bytes :=
  write_u32le_v1 0 ++ write_u32le_v1 sample_rate ++ write_u32le_v1 0.

(** ** The canonical bundle *)

Record DualPortInputV1 := mkInput { raw_mask : Z; sequence : Z }.
Definition input0 : DualPortInputV1 := mkInput 0 0.

Inductive DualInputStatusV1 := StatusOk | InvalidArgument | InvalidKey | InvalidSequence | InvalidMask.

#[global] Instance input_status_eq_dec : EqDecision DualInputStatusV1.
Proof. solve_decision. Defined.

(** Equality as the operator compares: not the reserved bytes. *)
Definition bundle_eqb (lhs rhs : DualInputBundleV1) : bool :=
  if negb (bool_decide (key lhs = key rhs)) || negb (logical_seat lhs =? logical_seat rhs)
  then false
  else if negb (bool_decide (owner_signing_key_id lhs = owner_signing_key_id rhs)) then false
  else if negb (predicted_port_mask lhs =? predicted_port_mask rhs) then false
  else forallb (fun port =>
    (mask (port_of lhs port) =? mask (port_of rhs port)) &&
    (input_sequence (port_of lhs port) =? input_sequence (port_of rhs port))) (seqZ 0 4).

Definition all_zero (b : bytes) : bool := forallb (fun x => x =? 0) b.

(** The sequence loop of the builder: nonzero and strictly increasing. *)
Fixpoint increasing (previous : option Z) (sequences : list Z) : bool :=
  match sequences with
  | [] => true
  | x :: rest =>
    if x =? 0 then false
    else match previous with
         | Some p => if x <=? p then false else increasing (Some x) rest
         | None => increasing (Some x) rest
         end
  end.

(** The mask loop of the builder: [None] is the early return on a wide mask. *)
Fixpoint normalize_all (samples : list DualPortInputV1) : option (list DualPortSampleV1) :=
  match samples with
  | [] => Some []
  | s :: rest =>
    let normalized := normalize_dual_port_mask_v1 (raw_mask s) in
    if negb (Z.ldiff (raw_mask s) kDualFullPortMaskV1 =? 0) then None
    else (fun l => mkSample normalized (sequence s) :: l) <$> normalize_all rest
  end.

Definition canonical_input_build_v1 (k : DualInputKeyV1) (seat : Z) (owner : bytes)
    (samples : list DualPortInputV1) (out : option DualInputBundleV1)
    : DualInputStatusV1 * option DualInputBundleV1 :=
  match out with
  | None => (InvalidArgument, None)
  | Some _ =>
    if kDualPortCountV1 <=? seat then (InvalidArgument, out)
    else if negb (dual_input_key_is_valid_v1 k) then (InvalidKey, out)
    else if all_zero owner then (InvalidKey, out)
    else if negb (increasing None (sequence <$> samples)) then (InvalidSequence, out)
    else
      match normalize_all samples with
      | None => (InvalidMask, out)
      | Some ps => (StatusOk, Some (mkBundle k seat [0; 0; 0] 0 ps owner))
      end
  end.

Definition sample_is_canonical (s : DualPortSampleV1) : bool :=
  (Z.ldiff (mask s) kDualFullPortMaskV1 =? 0) &&
  (mask s =? normalize_dual_port_mask_v1 (mask s)).

(** The port loop of the check, with the previous port's sequence. *)
Fixpoint ports_canonical (previous : option Z) (ps : list DualPortSampleV1) : bool :=
  match ps with
  | [] => true
  | s :: rest =>
    if input_sequence s =? 0 then false
    else if match previous with Some p => input_sequence s <=? p | None => false end then false
    else if negb (Z.ldiff (mask s) kDualFullPortMaskV1 =? 0) then false
    else if negb (mask s =? normalize_dual_port_mask_v1 (mask s)) then false
    else ports_canonical (Some (input_sequence s)) rest
  end.

Definition canonical_input_is_canonical_v1 (b : DualInputBundleV1) : bool :=
  if negb (dual_input_key_is_valid_v1 (key b)) then false
  else if kDualPortCountV1 <=? logical_seat b then false
  else if all_zero (owner_signing_key_id b) then false
  else if negb (Z.ldiff (predicted_port_mask b) kDualFullPortMaskV1 =? 0) then false
  else if existsb (fun x => negb (x =? 0)) (reserved_zero0 b) then false
  else ports_canonical None (ports b).

Definition canonical_input_is_duplicate_v1 (stored incoming : DualInputBundleV1) : bool :=
  bundle_eqb stored incoming.

Definition store_u64be (value : Z) : bytes := be_bytes 8 value.

(** The 128 bytes the digest hashes. *)
Definition digest_preimage (b : DualInputBundleV1) : bytes :=
  session_id (key b) ++ branch_id (key b) ++
  store_u64be (timeline_epoch (key b)) ++ store_u64be (frame_index (key b)) ++
  store_u64be (seat_revision (key b)) ++
  [logical_seat b; if canonical_input_is_canonical_v1 b then 1 else 0;
   u8 (Z.land (predicted_port_mask b) kDualFullPortMaskV1); 0] ++
  mjoin ((fun s => u8 (mask s) :: store_u64be (input_sequence s)) <$> ports b) ++
  owner_signing_key_id b.

Definition canonical_input_digest_v1 (b : DualInputBundleV1) : bytes :=
  domain_hash "flynes-dual-canonical-input-v1" (digest_preimage b).

(** The widths of the fields of a bundle. *)
Definition wf_key (k : DualInputKeyV1) : Prop :=
  length (session_id k) = 16%nat /\ length (branch_id k) = 16%nat /\
  0 <= timeline_epoch k < 2 ^ 64 /\ 0 <= frame_index k < 2 ^ 64 /\ 0 <= seat_revision k < 2 ^ 64.

Definition wf_sample (s : DualPortSampleV1) : Prop :=
  0 <= mask s < 2 ^ 32 /\ 0 <= input_sequence s < 2 ^ 64.

Definition wf_bundle (b : DualInputBundleV1) : Prop :=
  wf_key (key b) /\ is_byte (logical_seat b) /\ length (reserved_zero0 b) = 3%nat /\
  0 <= predicted_port_mask b < 2 ^ 32 /\ length (ports b) = 4%nat /\
  Forall wf_sample (ports b) /\ length (owner_signing_key_id b) = 32%nat.

(** ** Pad masks *)

Lemma land_pow2_testbit m c k :
  c = 2 ^ k -> 0 <= k -> negb (Z.land m c =? 0) = Z.testbit m k.
Proof.
  intros -> Hk. destruct (Z.testbit m k) eqn:E.
  - apply negb_true_iff, Z.eqb_neq. intros H. apply (f_equal (fun x => Z.testbit x k)) in H.
    rewrite Z.land_spec, E, Z.pow2_bits_true, Z.bits_0 in H by done. done.
  - apply negb_false_iff, Z.eqb_eq, Z.bits_inj'. intros i Hi. rewrite Z.land_spec, Z.bits_0.
    destruct (decide (i = k)) as [->|]; [by rewrite E |].
    rewrite Z.pow2_bits_false by congruence. by rewrite andb_false_r.
Qed.

(** The opposite direction of a d-pad bit (UP 4, DOWN 5, LEFT 6, RIGHT 7). *)
Definition opposite (i : Z) : Z := Z.lxor i 1.

(** Bit by bit, normalization keeps the eight pad bits and drops a direction whose
    opposite is also pressed. *)
Lemma normalize_bits m i :
  0 <= i ->
  Z.testbit (normalize_dual_port_mask_v1 m) i =
  (i <? 8) && Z.testbit m i && negb ((4 <=? i) && Z.testbit m (opposite i)).
Proof.
  intros Hi. unfold normalize_dual_port_mask_v1, kDualFullPortMaskV1. cbv zeta.
  rewrite (land_pow2_testbit m 16 4), (land_pow2_testbit m 32 5) by done.
  set (m1 := if _ && _ then Z.ldiff m 48 else m).
  rewrite (land_pow2_testbit m1 64 6), (land_pow2_testbit m1 128 7) by done.
  assert (forall j, 0 <= j -> j <> 4 -> j <> 5 -> Z.testbit m1 j = Z.testbit m j) as Hm1.
  { intros j Hj H4 H5. subst m1. destruct (_ && _); [| done].
    rewrite Z.ldiff_spec. assert (Z.testbit 48 j = false) as ->; [| by rewrite andb_true_r].
    destruct (decide (j < 6)) as [Hlt|]; [| apply Z.bits_above_log2; [done | cbn; lia]].
    assert (j = 0 \/ j = 1 \/ j = 2 \/ j = 3) as [-> | [-> | [-> | ->]]] by lia; done. }
  rewrite !Hm1 by lia. rewrite Z.land_spec.
  destruct (Z.ltb_spec i 8) as [Hlt|Hge].
  2:{ rewrite (Z.bits_above_log2 255 i), andb_false_r by (done || (cbn; lia)). done. }
  assert (i = 0 \/ i = 1 \/ i = 2 \/ i = 3 \/ i = 4 \/ i = 5 \/ i = 6 \/ i = 7) as Hcases by lia.
  subst m1. destruct (Z.testbit m 6) eqn:E6, (Z.testbit m 7) eqn:E7,
    (Z.testbit m 4) eqn:E4, (Z.testbit m 5) eqn:E5; cbn [andb];
  destruct_or! Hcases; subst i; 
    repeat match goal with |- context [opposite ?x] =>
      let v := eval vm_compute in (opposite x) in change (opposite x) with v end;
    rewrite ?Z.ldiff_spec, ?E4, ?E5, ?E6, ?E7; cbn; rewrite ?andb_true_r; done.
Qed.

Lemma normalize_range m : 0 <= normalize_dual_port_mask_v1 m < 256.
Proof.
  unfold normalize_dual_port_mask_v1, kDualFullPortMaskV1.
  match goal with |- 0 <= Z.land ?x _ < _ => generalize x end. intros x.
  change 255 with (Z.ones 8). rewrite Z.land_ones by lia. by apply Z.mod_pos_bound.
Qed.

Lemma normalize_idempotent m :
  normalize_dual_port_mask_v1 (normalize_dual_port_mask_v1 m) = normalize_dual_port_mask_v1 m.
Proof.
  apply Z.bits_inj'. intros i Hi. rewrite normalize_bits, !normalize_bits by done.
  destruct (Z.ltb_spec i 8); [| done]. destruct (Z.leb_spec 4 i); [| by rewrite !andb_true_r].
  assert (0 <= opposite i) by (assert (i = 4 \/ i = 5 \/ i = 6 \/ i = 7) as Hc by lia;
    destruct_or! Hc; subst; by vm_compute).
  rewrite normalize_bits by done. cbn [andb].
  destruct (Z.testbit m i), (Z.testbit m (opposite i)); cbn; rewrite ?andb_false_r; done.
Qed.

Lemma ldiff_full_mask x : 0 <= x < 256 <-> 0 <= x /\ Z.ldiff x kDualFullPortMaskV1 = 0.
Proof.
  unfold kDualFullPortMaskV1. change 255 with (Z.ones 8). rewrite Z.ldiff_ones_r by lia.
  rewrite Z.shiftl_mul_pow2, Z.shiftr_div_pow2 by lia. change (2 ^ 8) with 256.
  split; intros H.
  - rewrite Z.div_small by lia. lia.
  - assert (x / 256 = 0) by lia. assert (0 <= x) by lia.
    split; [done |]. apply Z.div_small_iff in H0; lia.
Qed.

(** ** The builder and the canonical form *)

Lemma increasing_ports ps qs previous :
  (input_sequence <$> ps) = qs ->
  Forall (fun s => sample_is_canonical s = true) ps ->
  ports_canonical previous ps = increasing previous qs.
Proof.
  revert previous qs. induction ps as [|s ps IH]; intros previous qs <- Hs; [done |].
  apply Forall_cons in Hs as [Hs Hps]. unfold sample_is_canonical in Hs. bool_hyps.
  cbn [ports_canonical increasing fmap list_fmap].
  destruct (input_sequence s =? 0); [done |].
  assert ((Z.ldiff (mask s) kDualFullPortMaskV1 =? 0) = true) as -> by by apply Z.eqb_eq.
  assert ((mask s =? normalize_dual_port_mask_v1 (mask s)) = true) as -> by by apply Z.eqb_eq.
  cbn [negb]. destruct previous as [p|]; [destruct (_ <=? p); [done |] |]; by apply IH.
Qed.

Lemma ports_canonical_spec previous ps :
  ports_canonical previous ps = true <->
  increasing previous (input_sequence <$> ps) = true /\
  Forall (fun s => sample_is_canonical s = true) ps.
Proof.
  split.
  - intros H. assert (Forall (fun s => sample_is_canonical s = true) ps) as Hs.
    { revert previous H. induction ps as [|s ps IH]; intros previous H; [constructor |].
      cbn [ports_canonical] in H. destruct (input_sequence s =? 0); [done |].
      destruct (match previous with Some p => _ | None => _ end); [done |].
      destruct (Z.ldiff (mask s) kDualFullPortMaskV1 =? 0) eqn:E1; [| done].
      destruct (mask s =? normalize_dual_port_mask_v1 (mask s)) eqn:E2; [| done].
      constructor; [| exact (IH _ H)]. unfold sample_is_canonical. by rewrite E1, E2. }
    split; [| done]. by rewrite <- (increasing_ports ps _ previous eq_refl Hs).
  - intros [H Hs]. by rewrite (increasing_ports ps _ previous eq_refl Hs).
Qed.

Lemma normalize_all_spec samples ps :
  normalize_all samples = Some ps <->
  Forall (fun s => Z.ldiff (raw_mask s) kDualFullPortMaskV1 = 0) samples /\
  ps = (fun s => mkSample (normalize_dual_port_mask_v1 (raw_mask s)) (sequence s)) <$> samples.
Proof.
  revert ps. induction samples as [|s samples IH]; intros ps; cbn [normalize_all].
  - split; [by intros [= <-] | by intros [_ ->] ].
  - cbn [fmap list_fmap]. destruct (Z.eqb_spec (Z.ldiff (raw_mask s) kDualFullPortMaskV1) 0).
    + cbn [negb]. rewrite fmap_Some, Forall_cons. setoid_rewrite IH. naive_solver.
    + cbn [negb]. rewrite Forall_cons. naive_solver.
Qed.

Lemma normalized_canonical m q : sample_is_canonical (mkSample (normalize_dual_port_mask_v1 m) q) = true.
Proof.
  unfold sample_is_canonical. cbn [mask]. rewrite normalize_idempotent, Z.eqb_refl, andb_true_r.
  apply Z.eqb_eq. by apply ldiff_full_mask, normalize_range.
Qed.

Definition impossible_dpad (m : Z) : Prop :=
  (Z.testbit m 4 = true /\ Z.testbit m 5 = true) \/ (Z.testbit m 6 = true /\ Z.testbit m 7 = true).

Lemma canonical_sample_dpad s : sample_is_canonical s = true -> ~ impossible_dpad (mask s).
Proof.
  unfold sample_is_canonical. intros H. bool_hyps. unfold impossible_dpad.
  match goal with H : mask s = _ |- _ => rename H into Hn end.
  pose proof (normalize_bits (mask s) 4) as H4. pose proof (normalize_bits (mask s) 6) as H6.
  rewrite <- Hn in H4, H6. change (opposite 4) with 5 in H4. change (opposite 6) with 7 in H6.
  intros [[E1 E2] | [E1 E2]]; [rewrite E1, E2 in H4 | rewrite E1, E2 in H6];
    [by specialize (H4 ltac:(lia)) | by specialize (H6 ltac:(lia))].
Qed.

(** ** The digest's pre-image *)

Lemma store_u64be_inj a b : 0 <= a < 2 ^ 64 -> 0 <= b < 2 ^ 64 -> store_u64be a = store_u64be b -> a = b.
Proof.
  unfold store_u64be. intros Ha Hb H. apply (f_equal be_value) in H.
  by rewrite !be_value_be_bytes_small in H.
Qed.

(** The samples of a canonical, well-formed bundle fit their nine bytes. *)
Lemma canonical_mask_byte s : wf_sample s -> sample_is_canonical s = true -> is_byte (mask s).
Proof.
  intros [[Hm _] _] H. unfold sample_is_canonical in H. bool_hyps.
  by apply ldiff_full_mask.
Qed.

Lemma samples_inj ps qs :
  Forall wf_sample ps -> Forall wf_sample qs ->
  Forall (fun s => sample_is_canonical s = true) ps ->
  Forall (fun s => sample_is_canonical s = true) qs ->
  length ps = length qs ->
  mjoin ((fun s => u8 (mask s) :: store_u64be (input_sequence s)) <$> ps) =
  mjoin ((fun s => u8 (mask s) :: store_u64be (input_sequence s)) <$> qs) -> ps = qs.
Proof.
  revert qs. induction ps as [|[m q] ps IH]; intros [|[m' q'] qs] Hwp Hwq Hcp Hcq Hl H; try done.
  apply Forall_cons in Hwp as [Hw Hwp], Hwq as [Hw' Hwq], Hcp as [Hc Hcp], Hcq as [Hc' Hcq].
  pose proof (canonical_mask_byte _ Hw Hc). pose proof (canonical_mask_byte _ Hw' Hc').
  cbn [fmap list_fmap mjoin list_join] in H. rewrite <- !app_comm_cons in H.
  apply cons_eq in H as [Hm H]. cbn [mask input_sequence] in *. rewrite !u8_small in Hm by done.
  apply app_eq_length in H as [Hq H]; [| unfold store_u64be; by rewrite !length_be_bytes].
  apply store_u64be_inj in Hq; [| apply Hw | apply Hw']. subst.
  f_equal. apply IH; try done. cbn in Hl. lia.
Qed.

Lemma zero_reserved l :
  length l = 3%nat -> existsb (fun x => negb (x =? 0)) l = false -> l = [0; 0; 0].
Proof.
  intros Hl H. destruct l as [|a [|b [|c [|]]]]; try done. cbn in H.
  rewrite orb_false_r in H. bool_hyps. by subst.
Qed.

Lemma canonical_parts b :
  canonical_input_is_canonical_v1 b = true ->
  logical_seat b < 4 /\ Z.ldiff (predicted_port_mask b) kDualFullPortMaskV1 = 0 /\
  existsb (fun x => negb (x =? 0)) (reserved_zero0 b) = false /\
  Forall (fun s => sample_is_canonical s = true) (ports b) /\
  increasing None (input_sequence <$> ports b) = true /\
  dual_input_key_is_valid_v1 (key b) = true /\ all_zero (owner_signing_key_id b) = false.
Proof.
  unfold canonical_input_is_canonical_v1, kDualPortCountV1.
  destruct (dual_input_key_is_valid_v1 (key b)); [| done]. cbn [negb].
  destruct (Z.leb_spec 4 (logical_seat b)); [done |].
  destruct (all_zero _); [done |].
  destruct (Z.eqb_spec (Z.ldiff (predicted_port_mask b) kDualFullPortMaskV1) 0); [| done].
  cbn [negb]. destruct (existsb _ _); [done |]. intros H'. apply ports_canonical_spec in H'.
  tauto.
Qed.

(** The message behind the digest. *)
Definition digest_message (b : DualInputBundleV1) : bytes :=
  domain_message "flynes-dual-canonical-input-v1" (digest_preimage b).

(** The canonical digest determines the bundle: two canonical bundles with the
    same digest are the same bundle, or the messages behind their digests are a
    SHA-256 collision. *)
Theorem canonical_digest_injective (a b : DualInputBundleV1) :
  wf_bundle a -> wf_bundle b ->
  canonical_input_is_canonical_v1 a = true -> canonical_input_is_canonical_v1 b = true ->
  canonical_input_digest_v1 a = canonical_input_digest_v1 b ->
  a = b \/ collide (digest_message a) (digest_message b).
Proof.
  intros Hwa Hwb Hca Hcb Hd.
  destruct (decide (digest_preimage a = digest_preimage b)) as [Hp|Hne].
  2:{ right. apply domain_hash_binds in Hd as [?|Hd]; [done | exact Hd]. }
  left. pose proof (canonical_parts a Hca) as (_ & Hpa & Hra & Hsa & _).
  pose proof (canonical_parts b Hcb) as (_ & Hpb & Hrb & Hsb & _).
  unfold digest_preimage in Hp. rewrite Hca, Hcb in Hp. clear Hd Hca Hcb.
  destruct a as [[sa ba ea fa ra] seata reva preda psa owna],
    b as [[sb bb eb fb rb] seatb revb predb psb ownb].
  destruct Hwa as ((Hs & Hb & He & Hf & Hr) & Hseat & Hrev & Hpred & Hps & Hwps & Hown).
  destruct Hwb as ((Hs' & Hb' & He' & Hf' & Hr') & Hseat' & Hrev' & Hpred' & Hps' & Hwps' & Hown').
  cbn [key session_id branch_id timeline_epoch frame_index seat_revision logical_seat
    reserved_zero0 predicted_port_mask ports owner_signing_key_id] in *.
  do 2 (apply app_eq_length in Hp as [? Hp]; [| congruence]).
  do 3 (apply app_eq_length in Hp as [?Hx Hp]; [| unfold store_u64be; by rewrite !length_be_bytes]).
  apply store_u64be_inj in Hx, Hx0, Hx1; try done.
  apply app_eq_length in Hp as [Hhead Hp]; [| done]. injection Hhead as Hseats Hpreds.
  apply zero_reserved in Hra, Hrb; [| done..].
  assert (is_byte preda) by (apply ldiff_full_mask; split; [lia | done]).
  assert (is_byte predb) by (apply ldiff_full_mask; split; [lia | done]).
  assert (forall x, is_byte x -> u8 (Z.land x kDualFullPortMaskV1) = x) as Hland.
  { intros x Hx2. unfold kDualFullPortMaskV1. change 255 with (Z.ones 8).
    rewrite Z.land_ones by lia. rewrite Z.mod_small by done. by apply u8_small. }
  rewrite !Hland in Hpreds by done.
  apply app_eq_length in Hp as [Hports Hown2].
  2:{ destruct psa as [|? [|? [|? [|? [|]]]]], psb as [|? [|? [|? [|? [|]]]]]; done. }
  apply samples_inj in Hports; [| done..| congruence]. by subst.
Qed.

(** The builder succeeds exactly on a valid key, a seat, an owner, strictly
    increasing nonzero sequences and masks of eight bits; then the bundle is
    canonical, carries the normalized masks, and no pad state has two opposite
    directions pressed. *)
Theorem build_canonical (k : DualInputKeyV1) (seat : Z) (owner : bytes)
    (samples : list DualPortInputV1) (out : DualInputBundleV1) :
  let r := canonical_input_build_v1 k seat owner samples (Some out) in
  (r.1 = StatusOk <->
     seat < 4 /\ dual_input_key_is_valid_v1 k = true /\ all_zero owner = false /\
     increasing None (sequence <$> samples) = true /\
     Forall (fun s => Z.ldiff (raw_mask s) kDualFullPortMaskV1 = 0) samples) /\
  (r.1 = StatusOk -> exists b, r.2 = Some b /\
     canonical_input_is_canonical_v1 b = true /\ key b = k /\ logical_seat b = seat /\
     ports b = (fun s => mkSample (normalize_dual_port_mask_v1 (raw_mask s)) (sequence s)) <$> samples /\
     Forall (fun s => ~ impossible_dpad (mask s)) (ports b)) /\
  (r.1 <> StatusOk -> r.2 = Some out).
Proof.
  cbv zeta. unfold canonical_input_build_v1, kDualPortCountV1.
  destruct (Z.leb_spec 4 seat); [split_and!; [split; [done | lia] | done..] |].
  destruct (dual_input_key_is_valid_v1 k) eqn:Hk; cbn [negb];
    [| split_and!; [split; [done | by intros (_ & ? & _)] | done..]].
  destruct (all_zero owner) eqn:Ho; [split_and!; [split; [done | by intros (_ & _ & ? & _)] | done..] |].
  destruct (increasing None (sequence <$> samples)) eqn:Hi; cbn [negb];
    [| split_and!; [split; [done | by intros (_ & _ & _ & ? & _)] | done..]].
  destruct (normalize_all samples) as [ps|] eqn:Hn; cbn [fst snd].
  - apply normalize_all_spec in Hn as [Hm ->]. split_and!; [done | | done]. intros _.
    eexists. split; [done |]. cbn [key logical_seat ports].
    assert (Forall (fun s => sample_is_canonical s = true)
      ((fun s => mkSample (normalize_dual_port_mask_v1 (raw_mask s)) (sequence s)) <$> samples)) as Hs.
    { apply Forall_fmap, Forall_true. intros s. apply normalized_canonical. }
    split_and!; try done.
    + unfold canonical_input_is_canonical_v1, kDualPortCountV1.
      cbn [key logical_seat owner_signing_key_id predicted_port_mask reserved_zero0 ports].
      rewrite Hk, Ho. destruct (Z.leb_spec 4 seat); [lia |]. cbn [negb existsb orb Z.ldiff].
      apply ports_canonical_spec. split; [| done]. rewrite <- list_fmap_compose. exact Hi.
    + eapply Forall_impl; [exact Hs |]. apply canonical_sample_dpad.
  - split_and!; [| done | done]. split; [done |]. intros (_ & _ & _ & _ & Hm).
    enough (normalize_all samples = Some ((fun s => mkSample (normalize_dual_port_mask_v1
      (raw_mask s)) (sequence s)) <$> samples)) by congruence.
    by apply normalize_all_spec.
Qed.

(** A finding: the duplicate check says the prediction marker is excluded,
    because it is derived and not transmitted, but it compares it: a retransmission
    of the same key, owner and samples is not a duplicate when the stored copy was
    framed as a prediction. *)
Theorem duplicate_compares_prediction (b : DualInputBundleV1) (p : Z) :
  p <> predicted_port_mask b ->
  canonical_input_is_duplicate_v1 b b = true /\
  canonical_input_is_duplicate_v1 (b <| predicted_port_mask := p |>) b = false.
Proof.
  intros Hp. unfold canonical_input_is_duplicate_v1, bundle_eqb. split.
  - rewrite !bool_decide_true, !Z.eqb_refl by done. cbn [negb orb].
    apply forallb_forall. intros i _. by rewrite !Z.eqb_refl.
  - cbn [key logical_seat owner_signing_key_id predicted_port_mask over].
    rewrite !bool_decide_true, Z.eqb_refl by done. cbn [negb orb].
    by destruct (Z.eqb_spec p (predicted_port_mask b)).
Qed.

(** ** Witnesses *)

Definition demo_key : DualInputKeyV1 := mkKey (replicate 16 1) (replicate 16 2) 1 5 1.

Definition demo_bundle : DualInputBundleV1 :=
  mkBundle demo_key 0 [0; 0; 0] 0
    [mkSample 17 1; mkSample 0 2; mkSample 128 3; mkSample 0 4] (replicate 32 9).

Lemma demo_bundle_wf : wf_bundle demo_bundle.
Proof.
  unfold wf_bundle, wf_key, is_byte. cbn [demo_bundle demo_key key session_id branch_id
    timeline_epoch frame_index seat_revision logical_seat reserved_zero0 predicted_port_mask
    ports owner_signing_key_id].
  split_and!; try done; try lia. repeat constructor; cbn; lia.
Qed.

Lemma canonical_digest_injective_witness :
  canonical_input_is_canonical_v1 demo_bundle = true /\
  (demo_bundle = demo_bundle \/ collide (digest_message demo_bundle) (digest_message demo_bundle)).
Proof.
  split; [vm_compute; reflexivity |].
  apply (canonical_digest_injective demo_bundle demo_bundle demo_bundle_wf demo_bundle_wf);
    vm_compute; reflexivity.
Defined.

Lemma duplicate_compares_prediction_witness :
  canonical_input_is_duplicate_v1 (demo_bundle <| predicted_port_mask := 2 |>) demo_bundle = false.
Proof.
  apply (duplicate_compares_prediction demo_bundle 2). discriminate.
Defined.
