(* ===== verification/InputWindow.v ===== *)
(** * Bounded input window of the dual runtime
    ([shared/src/session/dual/input_window.{hpp,cpp}])

    A ring of frame records between two frontiers: the step frontier, the next
    frame the emulator will run, and the commit frontier, the first frame whose
    inputs are not all confirmed and executed.  Peers' bundles arrive in any order
    up to the guest lead; a frame that lacks a port is run on a flagged prediction.

    Arrays are lists of their fixed length; frontiers and frame indices are
    unbounded integers (the code's 64-bit counters start at zero and advance by
    one per emulated frame). *)

From S2P Require Import Prelude.
From S2P Require Import CanonicalInput.

(** ** Data *)

Record DualOwnerKeyV1 := mkOwner { seat : Z; signing_key_id : bytes }.

Inductive DualWindowStatusV1 :=
  | Ok | Duplicate | Accepted | Frozen | RejectedWindowExceeded | RejectedCommittedHistory
  | RejectedWrongOwner | RejectedStaleRevision | RejectedOtherBranch | RejectedOtherTimeline
  | RejectedInvalid.

#[global] Instance window_status_eq_dec : EqDecision DualWindowStatusV1.
Proof. solve_decision. Defined.

Record DualWindowPortPlanV1 := mkPortPlan {
  port : Z;
  sample : DualPortSampleV1;
  plan_owner : bytes;
  real : bool;
}.

Record DualWindowPlanV1 := mkPlan {
  status : DualWindowStatusV1;
  freeze : DualFreezeReasonV1;
  plan_frame : Z;
  plan_key : DualInputKeyV1;
  plan_bundle : DualInputBundleV1;
  plan_ports : list DualWindowPortPlanV1;
  plan_predicted : Z;
  prediction_depth : Z;
  planned_frontier : Z;
}.

#[global] Instance eta_plan : Eta DualWindowPlanV1 := fun r =>
  mkPlan (status r) (freeze r) (plan_frame r) (plan_key r) (plan_bundle r) (plan_ports r)
    (plan_predicted r) (prediction_depth r) (planned_frontier r).

Definition port_plan0 : DualWindowPortPlanV1 := mkPortPlan 0 sample0 zero_key false.

Definition plan0 : DualWindowPlanV1 :=
  mkPlan Ok FreezeNone 0 key0 bundle0 (replicate 4 port_plan0) 0 0 0.

Record FrameRecordV1 := mkRecord {
  used : bool;
  planned : bool;
  record_frame : Z;
  planned_predicted_mask : Z;
  real_port_mask : Z;
  provided : list bool;
  keys : list DualInputKeyV1;
  owner_keys : list bytes;
  masks : list Z;
  sequences : list Z;
}.

#[global] Instance eta_record : Eta FrameRecordV1 := fun r =>
  mkRecord (used r) (planned r) (record_frame r) (planned_predicted_mask r) (real_port_mask r)
    (provided r) (keys r) (owner_keys r) (masks r) (sequences r).

Definition record0 : FrameRecordV1 :=
  mkRecord false false 0 0 0 (replicate 4 false) (replicate 4 key0) (replicate 4 zero_key)
    (replicate 4 0) (replicate 4 0).

Definition kRingSlotsV1 : Z := 20.

Record DualInputWindowV1 := mkWindow {
  ring_ : list FrameRecordV1;
  context_ : DualInputKeyV1;
  owners_ : list DualOwnerKeyV1;
  last_complete_mask_ : list Z;
  last_complete_sequence_ : list Z;
  owned_port_mask_ : Z;
  step_frontier_ : Z;
  commit_frontier_ : Z;
  materialized_through_ : Z;
  min_accept_revision_ : Z;
  bound_ : bool;
}.

#[global] Instance eta_window : Eta DualInputWindowV1 := fun r =>
  mkWindow (ring_ r) (context_ r) (owners_ r) (last_complete_mask_ r)
    (last_complete_sequence_ r) (owned_port_mask_ r) (step_frontier_ r) (commit_frontier_ r)
    (materialized_through_ r) (min_accept_revision_ r) (bound_ r).

Definition owner0 : DualOwnerKeyV1 := mkOwner 0 zero_key.

Definition window0 : DualInputWindowV1 :=
  mkWindow (replicate 20 record0) key0 (replicate 4 owner0) (replicate 4 0) (replicate 4 0)
    0 0 0 0 0 false.

Definition all_ports : list Z := seqZ 0 4.

(** ** Binding *)

Definition key_is_all_zero (value : bytes) : bool := all_zero value.

(** The loop over the owners: every seat in range and none twice. *)
Fixpoint seats_seen (owners : list DualOwnerKeyV1) (seen : list bool) : option (list bool) :=
  match owners with
  | [] => Some seen
  | owner :: rest =>
    if kDualPortCountV1 <=? seat owner then None
    else if aget false seen (seat owner) then None
    else seats_seen rest (aset seen (seat owner) true)
  end.

Definition owned_ports (owners : list DualOwnerKeyV1) : Z :=
  fold_left (fun m p =>
    if negb (key_is_all_zero (signing_key_id (aget owner0 owners p)))
    then Z.lor m (Z.shiftl 1 p) else m) all_ports 0.

Definition begin_ (context : DualInputKeyV1) (owners : list DualOwnerKeyV1)
    (w : DualInputWindowV1) : DualWindowStatusV1 * DualInputWindowV1 :=
  if negb (dual_input_key_is_valid_v1 context) then (RejectedInvalid, w)
  else
    match seats_seen owners (replicate 4 false) with
    | None => (RejectedInvalid, w)
    | Some seen =>
      if negb (forallb id seen) then (RejectedInvalid, w)
      else
        (Ok, w <| ring_ := replicate 20 record0 |> <| context_ := context |>
               <| owners_ := owners |> <| owned_port_mask_ := owned_ports owners |>
               <| last_complete_mask_ := replicate 4 0 |>
               <| last_complete_sequence_ := replicate 4 0 |>
               <| step_frontier_ := 0 |> <| commit_frontier_ := 0 |>
               <| materialized_through_ := 0 |>
               <| min_accept_revision_ := seat_revision context |> <| bound_ := true |>)
    end.

(** ** Records *)

Definition slot_of (frame : Z) : Z := frame mod kRingSlotsV1.

Definition find_record (w : DualInputWindowV1) (frame : Z) : option FrameRecordV1 :=
  let slot := aget record0 (ring_ w) (slot_of frame) in
  if negb (used slot) || negb (record_frame slot =? frame) then None else Some slot.

Definition put_record (w : DualInputWindowV1) (frame : Z) (r : FrameRecordV1)
    : DualInputWindowV1 :=
  w <| ring_ := aset (ring_ w) (slot_of frame) r |>.

(** The record of a frame, and the window in which it exists. *)
Definition ensure_record (w : DualInputWindowV1) (frame : Z)
    : FrameRecordV1 * DualInputWindowV1 :=
  match find_record w frame with
  | Some existing => (existing, w)
  | None =>
    let slot := record0 <| used := true |> <| record_frame := frame |> in
    (slot, put_record w frame slot)
  end.

Definition has_frame (w : DualInputWindowV1) (frame : Z) : bool :=
  bool_decide (is_Some (find_record w frame)).

Definition frame_all_real (w : DualInputWindowV1) (frame : Z) : bool :=
  match find_record w frame with
  | None => false
  | Some r =>
    if owned_port_mask_ w =? 0 then false
    else Z.land (real_port_mask r) (owned_port_mask_ w) =? owned_port_mask_ w
  end.

Definition frame_is_real (w : DualInputWindowV1) (frame : Z) : bool :=
  match find_record w frame with
  | None => false
  | Some r =>
    if owned_port_mask_ w =? 0 then false
    else Z.land (Z.lor (real_port_mask r) (planned_predicted_mask r)) (owned_port_mask_ w) =?
         owned_port_mask_ w
  end.

Definition frame_predicted_mask (w : DualInputWindowV1) (frame : Z) : option Z :=
  planned_predicted_mask <$> find_record w frame.

(** The last known complete state of a port, with a nonzero sequence. *)
Definition last_complete (w : DualInputWindowV1) (p : Z) : DualPortSampleV1 :=
  let last := aget 0 (last_complete_sequence_ w) p in
  mkSample (aget 0 (last_complete_mask_ w) p) (if last =? 0 then 1 else last).

Definition record_sample (r : FrameRecordV1) (p : Z) : DualPortSampleV1 :=
  mkSample (aget 0 (masks r) p) (aget 0 (sequences r) p).

Definition clone_frame_bundle (w : DualInputWindowV1) (frame : Z) : option DualInputBundleV1 :=
  r ← find_record w frame;
  Some (mkBundle ((context_ w) <| frame_index := frame |>) 0 [0; 0; 0]
          (planned_predicted_mask r)
          ((fun p => if aget false (provided r) p then record_sample r p
                     else last_complete w p) <$> all_ports)
          (signing_key_id (aget owner0 (owners_ w) 0))).

Definition effective_mask (w : DualInputWindowV1) (frame p : Z) : Z :=
  if kDualPortCountV1 <=? p then 0
  else
    match find_record w frame with
    | Some r => if aget false (provided r) p then aget 0 (masks r) p
                else aget 0 (last_complete_mask_ w) p
    | None => aget 0 (last_complete_mask_ w) p
    end.

(** ** The commit frontier *)

Definition bit (p : Z) : Z := Z.shiftl 1 p.

Definition owned (w : DualInputWindowV1) (p : Z) : bool :=
  negb (Z.land (owned_port_mask_ w) (bit p) =? 0).

(** The last complete state takes the owned ports of a committed record. *)
Definition remember_complete (w : DualInputWindowV1) (r : FrameRecordV1) : DualInputWindowV1 :=
  fold_left (fun w p =>
    if negb (owned w p) then w
    else w <| last_complete_mask_ := aset (last_complete_mask_ w) p (aget 0 (masks r) p) |>
           <| last_complete_sequence_ :=
                aset (last_complete_sequence_ w) p (aget 0 (sequences r) p) |>)
    all_ports w.

(** The record that lets the frontier pass. *)
Definition committable (w : DualInputWindowV1) : option FrameRecordV1 :=
  match find_record w (commit_frontier_ w) with
  | None => None
  | Some r =>
    if negb (planned r) ||
       negb (Z.land (real_port_mask r) (owned_port_mask_ w) =? owned_port_mask_ w)
    then None else Some r
  end.

Fixpoint advance_loop (fuel : nat) (w : DualInputWindowV1) : DualInputWindowV1 :=
  match fuel with
  | O => w
  | S fuel =>
    match committable w with
    | None => w
    | Some r =>
      let w := remember_complete w r in
      advance_loop fuel (w <| commit_frontier_ := commit_frontier_ w + 1 |>)
    end
  end.

(** Each iteration commits another frame of the ring. *)
Definition advance_fuel : nat := 21.

Definition advance_commit_frontier (w : DualInputWindowV1) : DualInputWindowV1 :=
  advance_loop advance_fuel w.

(** ** Deliveries *)

(** The index of the first owner of a seat. *)
Fixpoint find_seat (owners : list DualOwnerKeyV1) (logical_seat index : Z) : option Z :=
  match owners with
  | [] => None
  | owner :: rest =>
    if seat owner =? logical_seat then Some index
    else find_seat rest logical_seat (index + 1)
  end.

Definition store_sample (r : FrameRecordV1) (p : Z) (b : DualInputBundleV1) : FrameRecordV1 :=
  r <| keys := aset (keys r) p (key b) |>
    <| owner_keys := aset (owner_keys r) p (owner_signing_key_id b) |>
    <| masks := aset (masks r) p (mask (port_of b p)) |>
    <| sequences := aset (sequences r) p (input_sequence (port_of b p)) |>
    <| provided := aset (provided r) p true |>
    <| real_port_mask := Z.lor (real_port_mask r) (bit p) |>
    <| planned_predicted_mask := Z.ldiff (planned_predicted_mask r) (bit p) |>.

(** [deliver_input] from the point where the port is known. *)
Definition deliver_to_port (b : DualInputBundleV1) (p : Z) (w : DualInputWindowV1)
    : DualWindowStatusV1 * DualInputWindowV1 :=
  let frame := frame_index (key b) in
  let existing := find_record w frame in
  let already := match existing with
                 | Some r => if aget false (provided r) p then Some r else None
                 | None => None
                 end in
  match already with
  | Some r =>
    if bool_decide (aget zero_key (owner_keys r) p = owner_signing_key_id b) &&
       (aget 0 (masks r) p =? mask (port_of b p)) &&
       (aget 0 (sequences r) p =? input_sequence (port_of b p))
    then (Duplicate, w)
    else (RejectedCommittedHistory, w)
  | None =>
    if frame <? commit_frontier_ w then (RejectedCommittedHistory, w)
    else if step_frontier_ w + kDualGuestLeadFramesV1 <? frame then (RejectedWindowExceeded, w)
    else
      let '(r, w) := ensure_record w frame in
      let w := put_record w frame (store_sample r p b) in
      let w := if min_accept_revision_ w <? seat_revision (key b)
               then w <| min_accept_revision_ := seat_revision (key b) |> else w in
      (Accepted, advance_commit_frontier w)
  end.

Definition deliver_input (b : DualInputBundleV1) (w : DualInputWindowV1)
    : DualWindowStatusV1 * DualInputWindowV1 :=
  if negb (bound_ w) then (RejectedInvalid, w)
  else if negb (canonical_input_is_canonical_v1 b) then (RejectedInvalid, w)
  else if negb (bool_decide (session_id (key b) = session_id (context_ w)))
  then (RejectedInvalid, w)
  else if negb (bool_decide (branch_id (key b) = branch_id (context_ w)))
  then (RejectedOtherBranch, w)
  else if negb (timeline_epoch (key b) =? timeline_epoch (context_ w))
  then (RejectedOtherTimeline, w)
  else if seat_revision (key b) <? min_accept_revision_ w then (RejectedStaleRevision, w)
  else
    match find_seat (owners_ w) (logical_seat b) 0 with
    | None => (RejectedWrongOwner, w)
    | Some p =>
      let owner := signing_key_id (aget owner0 (owners_ w) p) in
      if key_is_all_zero owner then (RejectedWrongOwner, w)
      else if negb (bool_decide (owner = owner_signing_key_id b)) then (RejectedWrongOwner, w)
      else deliver_to_port b p w
    end.

Definition deliver_local_input (samples : list DualPortInputV1) (logical_seat : Z)
    (w : DualInputWindowV1) : DualWindowStatusV1 * DualInputWindowV1 :=
  if negb (bound_ w) then (RejectedInvalid, w)
  else
    match find_seat (owners_ w) logical_seat 0 with
    | None => (RejectedWrongOwner, w)
    | Some p =>
      let owner := signing_key_id (aget owner0 (owners_ w) p) in
      if key_is_all_zero owner then (RejectedWrongOwner, w)
      else
        let k := (context_ w) <| frame_index := step_frontier_ w |> in
        match canonical_input_build_v1 k logical_seat owner samples (Some bundle0) with
        | (StatusOk, Some b) => deliver_input b w
        | _ => (RejectedInvalid, w)
        end
    end.

(** ** Planning *)

(** The sample a port is served, before the sequences are made increasing. *)
Definition port_sample (w : DualInputWindowV1) (r : FrameRecordV1) (p : Z)
    : DualWindowPortPlanV1 :=
  if aget false (provided r) p
  then mkPortPlan p (record_sample r p) (aget zero_key (owner_keys r) p) true
  else mkPortPlan p (last_complete w p) (signing_key_id (aget owner0 (owners_ w) p)) false.

(** The port loop: the plans, and the mask of the owned ports not provided. *)
Fixpoint plan_ports_loop (w : DualInputWindowV1) (r : FrameRecordV1) (ports : list Z)
    (predicted previous_sequence : Z) : list DualWindowPortPlanV1 * Z :=
  match ports with
  | [] => ([], predicted)
  | p :: rest =>
    let plan := port_sample w r p in
    let predicted := if negb (real plan) && owned w p then Z.lor predicted (bit p)
                     else predicted in
    let sequence := input_sequence (sample plan) in
    let sequence := if sequence <=? previous_sequence then u64 (previous_sequence + 1)
                    else sequence in
    let plan := mkPortPlan p (mkSample (mask (sample plan)) sequence) (plan_owner plan)
                  (real plan) in
    let '(plans, predicted) := plan_ports_loop w r rest predicted sequence in
    (plan :: plans, predicted)
  end.

(** The revision of the last provided port, or the context's. *)
Definition plan_revision (w : DualInputWindowV1) (r : FrameRecordV1) : Z :=
  fold_left (fun rev p => if aget false (provided r) p
                          then seat_revision (aget key0 (keys r) p) else rev)
            all_ports (seat_revision (context_ w)).

Definition next_frame (w : DualInputWindowV1) : Z :=
  Z.max (step_frontier_ w) (commit_frontier_ w).

Definition plan_distance (w : DualInputWindowV1) : Z := next_frame w - commit_frontier_ w.

Definition plan_next (w : DualInputWindowV1) : DualWindowPlanV1 * DualInputWindowV1 :=
  if negb (bound_ w) then (plan0 <| status := RejectedInvalid |>, w)
  else
    let frame := next_frame w in
    let distance := plan_distance w in
    let frozen why := plan0 <| status := Frozen |> <| freeze := why |> <| plan_frame := frame |>
                        <| prediction_depth := distance |>
                        <| planned_frontier := step_frontier_ w |> in
    if kDualMaxRollbackFramesV1 <=? distance then (frozen InputWindowExceeded, w)
    else if kDualPredictionFreezeDepthV1 <=? distance
    then (frozen PredictionDepthExceeded, w)
    else
      let '(r, w) := ensure_record w frame in
      let w := if materialized_through_ w <? frame + 1
               then w <| materialized_through_ := frame + 1 |> else w in
      let k := (context_ w) <| frame_index := frame |> <| seat_revision := plan_revision w r |> in
      let '(plans, predicted) := plan_ports_loop w r all_ports 0 0 in
      let b := mkBundle k 0 [0; 0; 0] predicted (sample <$> plans)
                 (signing_key_id (aget owner0 (owners_ w) 0)) in
      (mkPlan Ok FreezeNone frame k b plans predicted distance (step_frontier_ w), w).

Definition mark_planned (frame predicted : Z) (w : DualInputWindowV1)
    : DualWindowStatusV1 * DualInputWindowV1 :=
  if negb (bound_ w) then (RejectedInvalid, w)
  else if materialized_through_ w <=? frame then (RejectedWindowExceeded, w)
  else
    match find_record w frame with
    | None => (RejectedWindowExceeded, w)
    | Some r =>
      let predicted := Z.ldiff predicted (real_port_mask r) in
      let w := put_record w frame
                 (r <| planned := true |> <| planned_predicted_mask := predicted |>) in
      let w := w <| step_frontier_ := frame + 1 |> in
      (Ok, advance_commit_frontier w)
    end.

(** ** Histories *)

Inductive Op :=
  | Deliver (b : DualInputBundleV1)
  | DeliverLocal (samples : list DualPortInputV1) (logical_seat : Z)
  | PlanNext
  | MarkPlanned (frame predicted : Z).

Definition run_op (o : Op) (w : DualInputWindowV1) : DualInputWindowV1 :=
  match o with
  | Deliver b => (deliver_input b w).2
  | DeliverLocal samples s => (deliver_local_input samples s w).2
  | PlanNext => (plan_next w).2
  | MarkPlanned frame predicted => (mark_planned frame predicted w).2
  end.

(** The arguments have the widths of their types. *)
Definition op_wf (o : Op) : Prop :=
  match o with
  | Deliver b => wf_bundle b
  | DeliverLocal samples _ =>
    length samples = 4%nat /\ Forall (fun s => 0 <= sequence s < 2 ^ 64) samples
  | PlanNext => True
  | MarkPlanned frame _ => 0 <= frame
  end.

(** The windows reached from a successful binding. *)
Inductive reachable (context : DualInputKeyV1) (owners : list DualOwnerKeyV1)
    : DualInputWindowV1 -> Prop :=
  | reachable_begin w :
      length owners = 4%nat -> (begin_ context owners w).1 = Ok -> reachable context owners (begin_ context owners w).2
  | reachable_op w o :
      reachable context owners w -> op_wf o -> reachable context owners (run_op o w).

(** ** Ring lookups *)

Definition port_index (p : Z) : Prop := 0 <= p < 4.

Definition sample_ok (p : Z) (s : DualPortSampleV1) : Prop :=
  sample_is_canonical s = true /\ 1 <= input_sequence s <= 2 ^ 64 - 4 + p.

Definition record_wf (r : FrameRecordV1) : Prop :=
  length (provided r) = 4%nat /\ length (keys r) = 4%nat /\ length (owner_keys r) = 4%nat /\
  length (masks r) = 4%nat /\ length (sequences r) = 4%nat /\
  forall p, port_index p ->
    Z.testbit (real_port_mask r) p = aget false (provided r) p /\
    (aget false (provided r) p = true ->
       sample_ok p (record_sample r p) /\ seat_revision (aget key0 (keys r) p) <> 0).

(** A record in the ring is in its slot and not beyond the in-flight window. *)
Definition slot_wf (commit : Z) (i : nat) (r : FrameRecordV1) : Prop :=
  record_wf r /\
  (used r = true -> 0 <= record_frame r <= commit + 14 /\ slot_of (record_frame r) = Z.of_nat i).

Definition window_wf (w : DualInputWindowV1) : Prop :=
  bound_ w = true /\ length (ring_ w) = 20%nat /\
  (forall i r, ring_ w !! i = Some r -> slot_wf (commit_frontier_ w) i r) /\
  length (last_complete_mask_ w) = 4%nat /\ length (last_complete_sequence_ w) = 4%nat /\
  (forall p, port_index p -> sample_ok p (last_complete w p)) /\
  0 <= commit_frontier_ w /\ 0 <= step_frontier_ w <= commit_frontier_ w + 10 /\
  materialized_through_ w <= commit_frontier_ w + 10 /\
  dual_input_key_is_valid_v1 (context_ w) = true /\ length (owners_ w) = 4%nat.

Lemma slot_of_range f : 0 <= slot_of f < 20.
Proof. unfold slot_of, kRingSlotsV1. by apply Z.mod_pos_bound. Qed.

Lemma find_record_spec w f r :
  length (ring_ w) = 20%nat ->
  find_record w f = Some r <->
  ring_ w !! Z.to_nat (slot_of f) = Some r /\ used r = true /\ record_frame r = f.
Proof.
  intros Hlen. unfold find_record, aget. pose proof (slot_of_range f).
  destruct (lookup_lt_is_Some_2 (ring_ w) (Z.to_nat (slot_of f))) as [x Hx]; [lia |].
  rewrite Hx. cbn [default from_option id]. split.
  - destruct (used x) eqn:Hu; cbn [negb orb]; [| done].
    destruct (Z.eqb_spec (record_frame x) f); cbn [negb]; [| done]. intros [= <-]. done.
  - intros ([= ->] & Hu & Hf). rewrite Hu, Hf, Z.eqb_refl. done.
Qed.

(** What a stored record changes. *)
Lemma find_put_eq w f r :
  length (ring_ w) = 20%nat -> used r = true -> record_frame r = f ->
  find_record (put_record w f r) f = Some r.
Proof.
  intros Hlen Hu Hf. apply find_record_spec; unfold put_record, aset; cbn.
  - by rewrite length_insert.
  - pose proof (slot_of_range f). split; [| done]. apply list_lookup_insert_eq. lia.
Qed.

Lemma find_put_other w f g r :
  length (ring_ w) = 20%nat -> slot_of g <> slot_of f ->
  find_record (put_record w f r) g = find_record w g.
Proof.
  intros Hlen Hne. unfold find_record, put_record. cbn [ring_ over].
  pose proof (slot_of_range f). pose proof (slot_of_range g).
  by rewrite aget_aset_ne by lia.
Qed.

(** Two frames of one slot are a ring apart. *)
Lemma same_slot f g : slot_of f = slot_of g -> f = g \/ f + 20 <= g \/ g + 20 <= f.
Proof.
  unfold slot_of, kRingSlotsV1. intros H.
  pose proof (Z.div_mod f 20). pose proof (Z.div_mod g 20). lia.
Qed.

(** ** Preservation *)

Section Preservation.
Implicit Types w : DualInputWindowV1.

Lemma wf_find w f r :
  window_wf w -> find_record w f = Some r ->
  record_wf r /\ used r = true /\ record_frame r = f /\ 0 <= f <= commit_frontier_ w + 14.
Proof.
  intros (_ & Hlen & Hring & _) Hf. apply find_record_spec in Hf as (Hl & Hu & Hfr); [| done].
  destruct (Hring _ _ Hl) as [Hwf Hs]. destruct (Hs Hu) as [Hr _]. by rewrite Hfr in Hr.
Qed.

Lemma put_record_wf w f r :
  window_wf w -> record_wf r -> used r = true -> record_frame r = f ->
  0 <= f <= commit_frontier_ w + 14 -> window_wf (put_record w f r).
Proof.
  intros (Hb & Hlen & Hring & Hrest) Hwf Hu Hf Hr. unfold window_wf, put_record, aset. cbn.
  split_and!; try apply Hrest; [done | by rewrite length_insert |].
  intros i x Hx. apply list_lookup_insert_Some in Hx as [(<- & <- & _) | [_ Hx]];
    [| by apply Hring].
  split; [done |]. intros _. rewrite Hf. pose proof (slot_of_range f). split; [done | lia].
Qed.

(** Confirmed samples survive from one window to the next while in flight. *)
Definition kept w w' : Prop :=
  commit_frontier_ w <= commit_frontier_ w' /\
  forall f r p, find_record w f = Some r -> port_index p -> aget false (provided r) p = true ->
    commit_frontier_ w' <= f ->
    exists r', find_record w' f = Some r' /\ aget false (provided r') p = true /\
      record_sample r' p = record_sample r p /\
      aget zero_key (owner_keys r') p = aget zero_key (owner_keys r) p.

Lemma kept_refl w : kept w w.
Proof. split; [lia |]. intros f r p Hf _ Hp _. by exists r. Qed.

Lemma kept_trans w w' w'' : kept w w' -> kept w' w'' -> kept w w''.
Proof.
  intros [H1 K1] [H2 K2]. split; [lia |]. intros f r p Hf Hp Hpr Hc.
  destruct (K1 f r p Hf Hp Hpr) as (r' & Hf' & Hpr' & <- & <-); [lia |].
  by apply (K2 f r' p Hf' Hp Hpr').
Qed.

Lemma kept_same w w' :
  ring_ w' = ring_ w -> commit_frontier_ w <= commit_frontier_ w' -> kept w w'.
Proof.
  intros Hr Hc. split; [done |]. intros f r p Hf Hp Hpr _. exists r.
  unfold find_record in *. by rewrite Hr.
Qed.

(** Storing the record of a frame of the in-flight window only evicts a frame
    below the commit frontier. *)
Lemma kept_put w f r :
  window_wf w -> used r = true -> record_frame r = f -> commit_frontier_ w <= f <= commit_frontier_ w + 14 ->
  (forall r0 p, find_record w f = Some r0 -> port_index p -> aget false (provided r0) p = true ->
     aget false (provided r) p = true /\ record_sample r p = record_sample r0 p /\
     aget zero_key (owner_keys r) p = aget zero_key (owner_keys r0) p) ->
  kept w (put_record w f r).
Proof.
  intros Hwf Hu Hf Hrange Hext. split; [cbn; lia |]. intros g r0 p Hg Hp Hpr Hc. cbn in Hc.
  pose proof (wf_find w g r0 Hwf Hg) as (_ & _ & _ & Hgr).
  pose proof Hwf as (_ & Hlen & _).
  destruct (decide (g = f)) as [->|Hne].
  - exists r. rewrite find_put_eq by done. split; [done |]. by apply Hext.
  - exists r0. rewrite find_put_other; [done | done |]. intros Hslot.
    apply same_slot in Hslot. lia.
Qed.

Lemma slot_wf_mono c c' i r : c <= c' -> slot_wf c i r -> slot_wf c' i r.
Proof. intros Hc [H1 H2]. split; [done |]. intros Hu. destruct (H2 Hu). split; [lia | done]. Qed.

(** ** The commit frontier moves *)

Lemma remember_complete_spec w r :
  length (last_complete_mask_ w) = 4%nat -> length (last_complete_sequence_ w) = 4%nat ->
  exists m q, remember_complete w r =
      w <| last_complete_mask_ := m |> <| last_complete_sequence_ := q |> /\
    length m = 4%nat /\ length q = 4%nat /\
    forall p, port_index p ->
      if owned w p then aget 0 m p = aget 0 (masks r) p /\ aget 0 q p = aget 0 (sequences r) p
      else aget 0 m p = aget 0 (last_complete_mask_ w) p /\
           aget 0 q p = aget 0 (last_complete_sequence_ w) p.
Proof.
  intros Hm Hq. unfold remember_complete.
  assert (forall ps w0, Forall port_index ps ->
    length (last_complete_mask_ w0) = 4%nat -> length (last_complete_sequence_ w0) = 4%nat ->
    exists m q, fold_left (fun w p => if negb (owned w p) then w
        else w <| last_complete_mask_ := aset (last_complete_mask_ w) p (aget 0 (masks r) p) |>
               <| last_complete_sequence_ :=
                    aset (last_complete_sequence_ w) p (aget 0 (sequences r) p) |>) ps w0 =
      w0 <| last_complete_mask_ := m |> <| last_complete_sequence_ := q |> /\
      length m = 4%nat /\ length q = 4%nat /\
      forall p, port_index p ->
        if bool_decide (p ∈ ps) && owned w0 p
        then aget 0 m p = aget 0 (masks r) p /\ aget 0 q p = aget 0 (sequences r) p
        else aget 0 m p = aget 0 (last_complete_mask_ w0) p /\
             aget 0 q p = aget 0 (last_complete_sequence_ w0) p) as Hfold.
  { induction ps as [|x ps IH]; intros w0 Hps Hm0 Hq0.
    - exists (last_complete_mask_ w0), (last_complete_sequence_ w0). by destruct w0.
    - apply Forall_cons in Hps as [Hx Hps]. cbn [fold_left].
      destruct (owned w0 x) eqn:Hox; cbn [negb].
      + edestruct (IH (w0 <| last_complete_mask_ := aset (last_complete_mask_ w0) x (aget 0 (masks r) x) |>
             <| last_complete_sequence_ := aset (last_complete_sequence_ w0) x (aget 0 (sequences r) x) |>))
          as (m & q & -> & Hlm & Hlq & Hp); [done | cbn; by rewrite length_aset .. |].
        exists m, q. split_and!; [done | done | done |]. intros p Hpi. specialize (Hp p Hpi).
        change (owned (w0 <| last_complete_mask_ := _ |> <| last_complete_sequence_ := _ |>) p)
          with (owned w0 p) in Hp. cbn [last_complete_mask_ last_complete_sequence_ over] in Hp.
        unfold port_index in *.
        destruct (decide (p = x)) as [->|Hne].
        * rewrite !bool_decide_true by set_solver. rewrite Hox. cbn [andb].
          rewrite !aget_aset_eq in Hp by (unfold zlen; lia). by destruct (_ && _).
        * rewrite !aget_aset_ne in Hp by lia.
          assert (bool_decide (p ∈ x :: ps) = bool_decide (p ∈ ps)) as ->
            by (apply bool_decide_ext; set_solver). done.
      + destruct (IH w0 Hps Hm0 Hq0) as (m & q & -> & Hlm & Hlq & Hp).
        exists m, q. split_and!; [done | done | done |]. intros p Hpi. specialize (Hp p Hpi).
        destruct (decide (p = x)) as [->|Hne].
        * rewrite Hox, andb_false_r in *. done.
        * assert (bool_decide (p ∈ x :: ps) = bool_decide (p ∈ ps)) as ->
            by (apply bool_decide_ext; set_solver). done. }
  destruct (Hfold all_ports w) as (m & q & Hr & Hlm & Hlq & Hp); [| done | done |].
  { unfold all_ports. apply Forall_forall. intros p Hp%elem_of_seqZ. unfold port_index. lia. }
  exists m, q. split_and!; [done | done | done |]. intros p Hpi. specialize (Hp p Hpi).
  rewrite bool_decide_true in Hp; [done |]. unfold all_ports. apply elem_of_seqZ.
  unfold port_index in Hpi. lia.
Qed.

Lemma bit_pow p : bit p = 2 ^ p.
Proof. unfold bit. apply Z.shiftl_1_l. Qed.

Lemma owned_testbit w p : 0 <= p -> owned w p = Z.testbit (owned_port_mask_ w) p.
Proof. intros Hp. unfold owned. by rewrite (land_pow2_testbit _ _ p (bit_pow p)). Qed.

Lemma covers_owned w r p :
  0 <= p -> Z.land (real_port_mask r) (owned_port_mask_ w) = owned_port_mask_ w ->
  owned w p = true -> Z.testbit (real_port_mask r) p = true.
Proof.
  intros Hp Hc Ho. rewrite owned_testbit in Ho by done.
  apply (f_equal (fun x => Z.testbit x p)) in Hc. rewrite Z.land_spec, Ho, andb_true_r in Hc. done.
Qed.

Lemma committable_spec w r :
  committable w = Some r <->
  find_record w (commit_frontier_ w) = Some r /\ planned r = true /\
  Z.land (real_port_mask r) (owned_port_mask_ w) = owned_port_mask_ w.
Proof.
  unfold committable. destruct (find_record w (commit_frontier_ w)) as [x|]; [| split; [done | tauto]].
  destruct (planned x) eqn:Hpl; cbn [negb orb].
  - destruct (Z.eqb_spec (Z.land (real_port_mask x) (owned_port_mask_ w)) (owned_port_mask_ w));
      cbn [negb]; split; [intros [= ->] | intros ([= ->] & _) | | intros ([= ->] & _ & ?)]; done.
  - split; [done |]. intros ([= ->] & ? & _). congruence.
Qed.

(** One iteration of the loop. *)
Lemma commit_step w r :
  window_wf w -> committable w = Some r ->
  let w' := (remember_complete w r) <| commit_frontier_ := commit_frontier_ w + 1 |> in
  commit_frontier_ (remember_complete w r) = commit_frontier_ w /\
  window_wf w' /\ kept w w' /\ ring_ w' = ring_ w.
Proof.
  intros Hwf Hc. apply committable_spec in Hc as (Hf & _ & Hcov).
  destruct (wf_find w _ _ Hwf Hf) as (Hrwf & Hu & Hfr & _).
  destruct Hwf as (Hb & Hlen & Hring & Hlm & Hlq & Hlast & Hc0 & Hs & Hmt & Hk & Ho).
  destruct (remember_complete_spec w r Hlm Hlq) as (m & q & -> & Hlm' & Hlq' & Hp).
  cbv zeta. split; [done |]. split; [| by split; [apply kept_same; [done | cbn; lia] |]].
  unfold window_wf. cbn. split_and!; try done; try lia.
  - intros i x Hx. eapply slot_wf_mono; [| by apply Hring]. lia.
  - intros p Hpi. specialize (Hp p Hpi). unfold last_complete. cbn.
    destruct (owned w p) eqn:Hop; destruct Hp as [-> ->]; [| by apply Hlast].
    destruct Hrwf as (_ & _ & _ & _ & _ & Hports). destruct (Hports p Hpi) as [Hbit Hreal].
    apply (covers_owned w r) in Hop; [| unfold port_index in Hpi; lia | done].
    rewrite Hbit in Hop. destruct (Hreal Hop) as [[Hcan Hseq] _].
    unfold record_sample in *. cbn in Hcan, Hseq.
    destruct (Z.eqb_spec (aget 0 (sequences r) p) 0); [lia |]. by split.
Qed.

Lemma advance_loop_wf fuel w :
  window_wf w ->
  let w' := advance_loop fuel w in
  window_wf w' /\ kept w w' /\ ring_ w' = ring_ w /\
  step_frontier_ w' = step_frontier_ w /\ owned_port_mask_ w' = owned_port_mask_ w /\
  (14 < Z.of_nat fuel -> committable w' = None).
Proof.
  cbv zeta. intros Hwf.
  assert (forall fuel w B, window_wf w ->
    (forall f r, find_record w f = Some r -> f <= B) -> B - commit_frontier_ w < Z.of_nat fuel ->
    committable (advance_loop fuel w) = None) as Hterm.
  { clear. induction fuel as [|fuel IH]; intros w B Hwf HB Hf.
    - cbn [advance_loop]. destruct (committable w) as [r|] eqn:Hc; [| done].
      apply committable_spec in Hc as (Hc & _). apply HB in Hc. lia.
    - cbn [advance_loop]. destruct (committable w) as [r|] eqn:Hc; [| done].
      destruct (commit_step w r Hwf Hc) as (Hcf & Hwf' & _ & Hring). rewrite Hcf.
      apply (IH _ B); [done | |].
      + intros f r' Hr'. apply (HB f r'). unfold find_record in *. by rewrite Hring in Hr'.
      + cbn. lia. }
  assert (14 < Z.of_nat fuel -> committable (advance_loop fuel w) = None) as Ht.
  { intros Hf. apply (Hterm fuel w (commit_frontier_ w + 14)); [done | | lia].
    intros f r Hfr. apply (wf_find w f r Hwf) in Hfr. lia. }
  clear Hterm. split_and!; try done; clear Ht; revert w Hwf;
    induction fuel as [|fuel IH]; intros w Hwf; cbn [advance_loop]; try done;
    try apply kept_refl;
    (destruct (committable w) as [r|] eqn:Hc; [| done || apply kept_refl]);
    destruct (commit_step w r Hwf Hc) as (Hcf & Hwf' & Hk & Hring); rewrite Hcf.
  - by apply IH.
  - eapply kept_trans; [exact Hk | by apply IH].
  - rewrite IH by done. done.
  - rewrite IH by done.
    destruct Hwf as (_ & _ & _ & Hlm & Hlq & _).
    by destruct (remember_complete_spec w r Hlm Hlq) as (m & q & -> & _).
  - rewrite IH by done.
    destruct Hwf as (_ & _ & _ & Hlm & Hlq & _).
    by destruct (remember_complete_spec w r Hlm Hlq) as (m & q & -> & _).
Qed.

(** ** Deliveries and plans *)

Definition fresh_record (f : Z) : FrameRecordV1 :=
  record0 <| used := true |> <| record_frame := f |>.

Lemma fresh_record_wf f : record_wf (fresh_record f).
Proof.
  unfold record_wf, fresh_record. cbn [provided keys owner_keys masks sequences real_port_mask
    record0 over]. split_and!; try done.
  intros p Hp. assert (aget false (replicate 4 false) p = false) as ->.
  { unfold port_index in Hp. assert (p = 0 \/ p = 1 \/ p = 2 \/ p = 3) as Hc by lia.
    destruct_or! Hc; by subst. }
  split; [by rewrite Z.bits_0 | done].
Qed.

Lemma ensure_record_spec w f :
  window_wf w -> commit_frontier_ w <= f <= commit_frontier_ w + 14 ->
  exists r w', ensure_record w f = (r, w') /\
    window_wf w' /\ kept w w' /\ record_wf r /\ used r = true /\ record_frame r = f /\
    find_record w' f = Some r /\
    (w' = w \/ (w' = put_record w f (fresh_record f) /\ r = fresh_record f /\
                find_record w f = None)).
Proof.
  intros Hwf Hr. unfold ensure_record. destruct (find_record w f) as [r|] eqn:Hf.
  - destruct (wf_find w f r Hwf Hf) as (? & ? & ? & ?). exists r, w.
    split_and!; try done; [apply kept_refl | by left].
  - fold (fresh_record f). exists (fresh_record f), (put_record w f (fresh_record f)).
    pose proof Hwf as (_ & Hlen & _ & _ & _ & _ & Hc & _).
    split_and!; try done.
    + apply put_record_wf; try done; [apply fresh_record_wf | lia].
    + apply kept_put; try done. intros r0 p Hr0. congruence.
    + apply fresh_record_wf.
    + by apply find_put_eq.
    + by right.
Qed.

(** The fields of a bundle the window needs. *)
Definition bundle_fits (b : DualInputBundleV1) : Prop :=
  length (ports b) = 4%nat /\ Forall (fun s => 0 <= input_sequence s < 2 ^ 64) (ports b) /\
  0 <= frame_index (key b).

(** Strictly increasing sequences leave room for the ports after. *)
Lemma canonical_port_ok b p :
  bundle_fits b -> canonical_input_is_canonical_v1 b = true -> port_index p ->
  sample_ok p (port_of b p).
Proof.
  intros (Hl & Hs & _) Hc Hp. apply canonical_parts in Hc as (_ & _ & _ & Hcan & Hinc & _).
  unfold port_of. destruct (ports b) as [|[m0 q0] [|[m1 q1] [|[m2 q2] [|[m3 q3] [|]]]]]; try done.
  rewrite !Forall_cons in Hs, Hcan. cbn [fmap list_fmap input_sequence increasing] in *.
  repeat match goal with
  | H : (if ?c then false else _) = true |- _ => destruct c eqn:?; [done |]
  end. bool_hyps. destruct Hs as (? & ? & ? & ? & _). destruct Hcan as (? & ? & ? & ? & _).
  unfold port_index, sample_ok in *.
  assert (p = 0 \/ p = 1 \/ p = 2 \/ p = 3) as Hcase by lia.
  destruct_or! Hcase; subst p;
    match goal with |- context [aget sample0 ?l ?i] =>
      let v := eval vm_compute in (aget sample0 l i) in change (aget sample0 l i) with v end;
    cbn [input_sequence]; (split; [done | lia]).
Qed.

Lemma store_sample_wf r p b :
  record_wf r -> port_index p -> bundle_fits b -> canonical_input_is_canonical_v1 b = true ->
  record_wf (store_sample r p b).
Proof.
  intros (Hlp & Hlk & Hlo & Hlm & Hls & Hports) Hp Hb Hc. unfold record_wf, store_sample.
  cbn [provided keys owner_keys masks sequences real_port_mask over]. unfold port_index in *.
  split_and!; try by rewrite length_aset. intros q Hq. rewrite Z.lor_spec, bit_pow.
  unfold record_sample. cbn [provided keys owner_keys masks sequences real_port_mask over].
  destruct (decide (q = p)) as [->|Hne].
  - rewrite Z.pow2_bits_true, orb_true_r by lia.
    rewrite !aget_aset_eq by (unfold zlen; lia). split; [done |]. intros _. split.
    + pose proof (canonical_port_ok b p Hb Hc Hp) as H. by destruct (port_of b p).
    + apply canonical_parts in Hc as (_ & _ & _ & _ & _ & Hk & _).
      unfold dual_input_key_is_valid_v1 in Hk.
      destruct (_ || _) eqn:E; [done |]. bool_hyps. done.
  - rewrite Z.pow2_bits_false, orb_false_r by lia. rewrite !aget_aset_ne by lia. by apply Hports.
Qed.

Lemma find_seat_range owners s i p :
  find_seat owners s i = Some p -> i <= p < i + Z.of_nat (length owners).
Proof.
  revert i. induction owners as [|o owners IH]; intros i; cbn [find_seat length]; [done |].
  destruct (seat o =? s); [intros [= ->]; lia |]. intros H. apply IH in H. lia.
Qed.

Lemma deliver_to_port_ok b p w :
  window_wf w -> committable w = None -> port_index p -> bundle_fits b ->
  canonical_input_is_canonical_v1 b = true ->
  let w' := (deliver_to_port b p w).2 in
  window_wf w' /\ kept w w' /\ committable w' = None.
Proof.
  intros Hwf Hcom Hp Hb Hc. cbv zeta. unfold deliver_to_port.
  set (f := frame_index (key b)).
  destruct (match find_record w f with Some r => _ | None => _ end) as [r|] eqn:Halready.
  { destruct (_ && _); (split_and!; [done | apply kept_refl | done]). }
  destruct (Z.ltb_spec f (commit_frontier_ w)); [by split_and!; [| apply kept_refl |] |].
  destruct (Z.ltb_spec (step_frontier_ w + kDualGuestLeadFramesV1) f);
    [by split_and!; [| apply kept_refl |] |].
  unfold kDualGuestLeadFramesV1 in *.
  assert (commit_frontier_ w <= f <= commit_frontier_ w + 14) as Hr.
  { destruct Hwf as (_ & _ & _ & _ & _ & _ & _ & ? & _). lia. }
  destruct (ensure_record_spec w f Hwf Hr)
    as (r & w1 & -> & Hwf1 & Hk1 & Hrwf & Hu & Hfr & Hfind & Hw1).
  assert (commit_frontier_ w1 = commit_frontier_ w) as Hcf by (by destruct Hw1 as [-> | (-> & _)]).
  assert (aget false (provided r) p = false) as Hnp.
  { destruct Hw1 as [-> | (_ & -> & _)].
    - rewrite Hfind in Halready. by destruct (aget false (provided r) p).
    - unfold port_index in Hp. assert (p = 0 \/ p = 1 \/ p = 2 \/ p = 3) as Hcs by lia.
      destruct_or! Hcs; by subst. }
  set (w2 := put_record w1 f (store_sample r p b)).
  assert (window_wf w2) as Hwf2.
  { apply put_record_wf; try done; [by apply store_sample_wf | unfold f; destruct Hb as (_ & _ & ?); lia]. }
  assert (kept w1 w2) as Hk2.
  { apply kept_put; try done; [lia |]. intros r0 q Hr0 Hq Hpr.
    rewrite Hfind in Hr0. injection Hr0 as <-. unfold store_sample, record_sample.
    cbn [provided owner_keys masks sequences over]. unfold port_index in *.
    assert (p <> q) by congruence. rewrite !aget_aset_ne by lia. done. }
  match goal with |- context [advance_commit_frontier ?x] => set (w3 := x) end. cbn [snd].
  assert (window_wf w3 /\ kept w2 w3) as [Hwf3 Hk3].
  { subst w3. destruct (_ <? _); (split; [done | apply kept_same; [done | cbn; lia]]). }
  destruct (advance_loop_wf advance_fuel w3 Hwf3) as (? & ? & _ & _ & _ & Hnone).
  unfold advance_commit_frontier. split_and!; [done | | by apply Hnone].
  eapply kept_trans; [exact Hk1 |]. eapply kept_trans; [exact Hk2 |]. by eapply kept_trans.
Qed.

(** The invariant of a history, and what one call does to it. *)
Definition preserves w w' : Prop := window_wf w' /\ kept w w' /\ committable w' = None.

Lemma preserves_same w : window_wf w -> committable w = None -> preserves w w.
Proof. intros. split_and!; [done | apply kept_refl | done]. Qed.

Lemma deliver_input_ok b w :
  window_wf w -> committable w = None -> bundle_fits b -> preserves w (deliver_input b w).2.
Proof.
  intros Hwf Hcom Hb. unfold deliver_input.
  destruct (negb (bound_ w)); [by apply preserves_same |].
  destruct (canonical_input_is_canonical_v1 b) eqn:Hc; cbn [negb]; [| by apply preserves_same].
  destruct (negb _); [by apply preserves_same |]. destruct (negb _); [by apply preserves_same |].
  destruct (negb _); [by apply preserves_same |]. destruct (_ <? _); [by apply preserves_same |].
  destruct (find_seat _ _ 0) as [p|] eqn:Hp; [| by apply preserves_same]. cbv zeta.
  destruct (key_is_all_zero _); [by apply preserves_same |].
  destruct (negb _); [by apply preserves_same |].
  apply deliver_to_port_ok; try done. apply find_seat_range in Hp. unfold port_index.
  destruct Hwf as (_ & _ & _ & _ & _ & _ & _ & _ & _ & _ & Ho). lia.
Qed.

Lemma build_ok_inv k s owner samples b :
  canonical_input_build_v1 k s owner samples (Some bundle0) = (StatusOk, Some b) ->
  key b = k /\ normalize_all samples = Some (ports b).
Proof.
  unfold canonical_input_build_v1.
  destruct (_ <=? _); [done |]. destruct (negb (dual_input_key_is_valid_v1 k)); [done |].
  destruct (all_zero owner); [done |]. destruct (negb _); [done |].
  destruct (normalize_all samples) as [ps|]; [| done]. by intros [= <-].
Qed.

Lemma deliver_local_ok samples s w :
  window_wf w -> committable w = None -> length samples = 4%nat ->
  Forall (fun x => 0 <= sequence x < 2 ^ 64) samples ->
  preserves w (deliver_local_input samples s w).2.
Proof.
  intros Hwf Hcom Hl Hs. unfold deliver_local_input.
  destruct (negb (bound_ w)); [by apply preserves_same |].
  destruct (find_seat _ _ 0) as [p|]; [| by apply preserves_same]. cbv zeta.
  destruct (key_is_all_zero _); [by apply preserves_same |].
  destruct (canonical_input_build_v1 _ _ _ _ _) as [[] [b|]] eqn:Hb;
    try (by apply preserves_same).
  apply build_ok_inv in Hb as [Hk Hn]. apply normalize_all_spec in Hn as [_ Hp].
  apply deliver_input_ok; try done. unfold bundle_fits. rewrite Hk, Hp, length_fmap.
  split_and!; [done | | destruct Hwf as (_ & _ & _ & _ & _ & _ & _ & ? & _); cbn; lia].
  apply Forall_fmap. eapply Forall_impl; [exact Hs | done].
Qed.

(** Replacing the record of a frame already in the ring. *)
Lemma kept_update w f r0 r :
  window_wf w -> find_record w f = Some r0 -> used r = true -> record_frame r = f ->
  (forall p, aget false (provided r) p = aget false (provided r0) p) ->
  (forall p, record_sample r p = record_sample r0 p) ->
  (forall p, aget zero_key (owner_keys r) p = aget zero_key (owner_keys r0) p) ->
  kept w (put_record w f r).
Proof.
  intros Hwf Hf0 Hu Hf Hp Hs Ho. split; [cbn; lia |]. intros g x p Hg Hpi Hpr _.
  pose proof Hwf as (_ & Hlen & _). destruct (decide (g = f)) as [->|Hne].
  - rewrite Hf0 in Hg. injection Hg as <-. exists r. rewrite find_put_eq, Hp, Hs, Ho by done. done.
  - exists x. rewrite find_put_other; [done | done |]. intros Hslot.
    apply find_record_spec in Hg as (Hg & _ & Hgf); [| done].
    apply find_record_spec in Hf0 as (Hf0 & _ & Hff); [| done].
    rewrite Hslot in Hg. rewrite Hg in Hf0. congruence.
Qed.

Lemma mark_planned_ok f predicted w :
  window_wf w -> committable w = None -> 0 <= f -> preserves w (mark_planned f predicted w).2.
Proof.
  intros Hwf Hcom Hf0. unfold mark_planned.
  destruct (negb (bound_ w)); [by apply preserves_same |].
  destruct (Z.leb_spec (materialized_through_ w) f); [by apply preserves_same |].
  destruct (find_record w f) as [r|] eqn:Hf; [| by apply preserves_same]. cbv zeta.
  destruct (wf_find w f r Hwf Hf) as (Hrwf & Hu & Hfr & Hrange).
  set (r' := r <| planned := true |> <| planned_predicted_mask := _ |>).
  assert (window_wf (put_record w f r')) as Hwf1 by (by apply put_record_wf).
  assert (kept w (put_record w f r')) as Hk1 by (by eapply kept_update).
  match goal with |- context [advance_commit_frontier ?x] => set (w2 := x) end. cbn [snd].
  assert (window_wf w2) as Hwf2.
  { destruct Hwf as (_ & _ & _ & _ & _ & _ & _ & _ & Hm & _).
    destruct Hwf1 as (? & ? & ? & ? & ? & ? & ? & ? & ? & ? & ?). subst w2. unfold window_wf. cbn in *.
    split_and!; try done; lia. }
  destruct (advance_loop_wf advance_fuel w2 Hwf2) as (? & ? & _ & _ & _ & Hnone).
  unfold advance_commit_frontier, preserves. split_and!; [done | | by apply Hnone].
  eapply kept_trans; [exact Hk1 |]. eapply kept_trans; [| eassumption].
  apply kept_same; [done | cbn; lia].
Qed.

(** A record without bits does not let the frontier pass. *)
Lemma plan_committable w w' f :
  committable w = None -> commit_frontier_ w' = commit_frontier_ w ->
  owned_port_mask_ w' = owned_port_mask_ w -> length (ring_ w) = 20%nat ->
  ring_ w' = ring_ (put_record w f (fresh_record f)) -> committable w' = None.
Proof.
  intros Hcom Hc Ho Hlen Hring. destruct (committable w') as [r|] eqn:E; [| done].
  apply committable_spec in E as (Hf & Hpl & Hcov). rewrite Hc, Ho in *.
  assert (find_record (put_record w f (fresh_record f)) (commit_frontier_ w) = Some r) as Hf'
    by (unfold find_record in *; by rewrite <- Hring).
  destruct (decide (slot_of (commit_frontier_ w) = slot_of f)) as [Hs|Hs].
  - apply find_record_spec in Hf' as (Hl & _); [| cbn; by rewrite length_aset].
    cbn in Hl. unfold aset in Hl. rewrite Hs in Hl. pose proof (slot_of_range f).
    rewrite list_lookup_insert_eq in Hl by lia. by injection Hl as <-.
  - rewrite find_put_other in Hf' by done.
    assert (committable w = Some r) by (by apply committable_spec). congruence.
Qed.

Lemma plan_next_ok w :
  window_wf w -> committable w = None -> preserves w (plan_next w).2.
Proof.
  intros Hwf Hcom. unfold plan_next.
  destruct (negb (bound_ w)); [by apply preserves_same |]. cbv zeta.
  destruct (Z.leb_spec kDualMaxRollbackFramesV1 (plan_distance w)); [by apply preserves_same |].
  destruct (Z.leb_spec kDualPredictionFreezeDepthV1 (plan_distance w)) as [|Hd];
    [by apply preserves_same |].
  unfold plan_distance, next_frame, kDualPredictionFreezeDepthV1 in *.
  pose proof Hwf as (Hb & Hlen & _ & _ & _ & _ & Hc & Hs & Hm & _).
  set (f := Z.max (step_frontier_ w) (commit_frontier_ w)) in *.
  assert (commit_frontier_ w <= f <= commit_frontier_ w + 14) as Hr by (subst f; lia).
  destruct (ensure_record_spec w f Hwf Hr)
    as (r & w1 & -> & Hwf1 & Hk1 & Hrwf & Hu & Hfr & Hfind & Hw1).
  assert (commit_frontier_ w1 = commit_frontier_ w /\ owned_port_mask_ w1 = owned_port_mask_ w /\
    step_frontier_ w1 = step_frontier_ w) as (Hcf & Hof & Hsf)
    by (by destruct Hw1 as [-> | (-> & _)]).
  assert (committable w1 = None) as Hcom1.
  { destruct Hw1 as [-> | (-> & _)]; [done |]. by eapply (plan_committable w _ f). }
  destruct (plan_ports_loop _ r all_ports 0 0) as [plans pm]. cbn [snd].
  assert (window_wf (w1 <| materialized_through_ := f + 1 |>)) as Hwf2.
  { destruct Hwf1 as (? & ? & ? & ? & ? & ? & ? & ? & ? & ? & ?). unfold window_wf. cbn in *.
    split_and!; try done; lia. }
  destruct (_ <? _); unfold preserves; split_and!; try done.
Qed.

Lemma begin_wf context owners w :
  length owners = 4%nat -> (begin_ context owners w).1 = Ok ->
  window_wf (begin_ context owners w).2 /\ committable (begin_ context owners w).2 = None.
Proof.
  intros Hl. unfold begin_. destruct (dual_input_key_is_valid_v1 context) eqn:Hk; [| done].
  cbn [negb]. destruct (seats_seen _ _); [| done]. destruct (negb _); [done |]. intros _.
  cbn [snd]. split; [| done].
  unfold window_wf. cbn -[last_complete replicate]. split_and!; try done; try lia.
  - intros i r Hr. apply lookup_replicate in Hr as [-> _]. split; [| done].
    exact (fresh_record_wf 0).
  - intros p Hp. unfold port_index in Hp. assert (p = 0 \/ p = 1 \/ p = 2 \/ p = 3) as Hcs by lia.
    destruct_or! Hcs; subst; (split; [done | vm_compute; split; discriminate]).
Qed.

Lemma run_op_ok o w : window_wf w -> committable w = None -> op_wf o -> preserves w (run_op o w).
Proof.
  intros Hwf Hcom Ho. destruct o; cbn [run_op op_wf] in *.
  - apply deliver_input_ok; try done. destruct Ho as ((_ & _ & _ & ? & _) & _ & _ & _ & ? & Hs & _).
    unfold bundle_fits. split_and!; [done | | lia]. eapply Forall_impl; [exact Hs |]. by intros ? [_ ?].
  - destruct Ho. by apply deliver_local_ok.
  - by apply plan_next_ok.
  - by apply mark_planned_ok.
Qed.

Lemma reachable_wf context owners w :
  reachable context owners w -> window_wf w /\ committable w = None.
Proof.
  induction 1 as [w Hl Hok | w o _ [IH1 IH2] Ho]; [by apply begin_wf |].
  by destruct (run_op_ok o w IH1 IH2 Ho) as (? & _ & ?).
Qed.

End Preservation.

(** ** The plan of a frame *)

Section Plans.

Lemma last_complete_eq w p : mask (last_complete w p) = aget 0 (last_complete_mask_ w) p.
Proof. done. Qed.

Lemma port_sample_ok w r p :
  window_wf w -> record_wf r -> port_index p ->
  sample_ok p (sample (port_sample w r p)) /\
  mask (sample (port_sample w r p)) =
    (if aget false (provided r) p then aget 0 (masks r) p else aget 0 (last_complete_mask_ w) p) /\
  real (port_sample w r p) = aget false (provided r) p /\ port (port_sample w r p) = p.
Proof.
  intros (_ & _ & _ & _ & _ & Hlast & _) (_ & _ & _ & _ & _ & Hports) Hp.
  destruct (Hports p Hp) as [_ Hreal]. unfold port_sample.
  destruct (aget false (provided r) p) eqn:E; cbn [sample real port].
  - destruct (Hreal eq_refl) as [Hs _]. split_and!; done.
  - split_and!; [by apply Hlast | done..].
Qed.

Lemma canonical_sequence s q : sample_is_canonical (mkSample (mask s) q) = sample_is_canonical s.
Proof. done. Qed.

(** The port loop, from port [i] on. *)
Lemma plan_ports_loop_spec w r n i predicted previous :
  window_wf w -> record_wf r -> 0 <= i -> i + Z.of_nat n = 4 ->
  0 <= previous < 2 ^ 64 - 4 + i ->
  let '(plans, pm) := plan_ports_loop w r (seqZ i (Z.of_nat n)) predicted previous in
  length plans = n /\
  increasing (Some previous) (input_sequence <$> (sample <$> plans)) = true /\
  Forall (fun pl => sample_is_canonical (sample pl) = true) plans /\
  (forall j pl, plans !! j = Some pl ->
     port pl = i + Z.of_nat j /\ real pl = aget false (provided r) (i + Z.of_nat j) /\
     mask (sample pl) = mask (sample (port_sample w r (i + Z.of_nat j)))) /\
  (forall q, 0 <= q -> Z.testbit pm q =
     Z.testbit predicted q ||
     (bool_decide (i <= q < 4) && owned w q && negb (aget false (provided r) q))).
Proof.
  intros Hw Hr. revert i predicted previous.
  induction n as [|n IH]; intros i predicted previous Hi Hn Hprev.
  - cbn. split_and!; try done. intros q Hq. rewrite bool_decide_false by lia.
    by rewrite orb_false_r.
  - rewrite seqZ_cons by lia. replace (Z.pred (Z.of_nat (S n))) with (Z.of_nat n) by lia.
    replace (Z.succ i) with (i + 1) by lia. cbn [plan_ports_loop].
    assert (port_index i) as Hpi by (unfold port_index; lia).
    destruct (port_sample_ok w r i Hw Hr Hpi) as ([Hcan Hseq] & Hmask & Hreal & Hport).
    set (pl := port_sample w r i) in *.
    assert (pl = port_sample w r i) as Hpl by done. clearbody pl.
    set (q0 := if input_sequence (sample pl) <=? previous then _ else _).
    assert (previous < q0 <= 2 ^ 64 - 4 + i) as Hq0.
    { subst q0. destruct (Z.leb_spec (input_sequence (sample pl)) previous); [| lia].
      rewrite u64_small; lia. }
    set (pred0 := if negb (real pl) && owned w i then _ else _).
    specialize (IH (i + 1) pred0 q0). destruct (plan_ports_loop _ _ _ pred0 q0) as [plans pm].
    destruct IH as (Hl & Hinc & Hcs & Hat & Hpm); [lia | lia | lia |]. split_and!.
    + cbn. by rewrite Hl.
    + cbn [fmap list_fmap increasing sample input_sequence].
      destruct (Z.eqb_spec q0 0); [lia |]. destruct (Z.leb_spec q0 previous); [lia | done].
    + by constructor.
    + intros [|j] pl' Hj.
      * injection Hj as <-. cbn [port real sample mask]. rewrite Z.add_0_r, Hpl in *. done.
      * apply Hat in Hj as (-> & -> & ->).
        by replace (i + 1 + Z.of_nat j) with (i + Z.of_nat (S j)) by lia.
    + intros q Hq. rewrite Hpm by done. subst pred0. rewrite Hreal.
      destruct (decide (q = i)) as [->|Hne].
      * rewrite (bool_decide_false (i + 1 <= i < 4)), (bool_decide_true (i <= i < 4)) by lia.
        cbn [andb]. rewrite orb_false_r.
        destruct (aget false (provided r) i), (owned w i); cbn [negb andb];
          rewrite ?orb_false_r; try done.
        by rewrite Z.lor_spec, bit_pow, Z.pow2_bits_true, !orb_true_r by lia.
      * assert (bool_decide (i + 1 <= q < 4) = bool_decide (i <= q < 4)) as ->
          by (apply bool_decide_ext; lia).
        destruct (negb (aget false (provided r) i) && owned w i); [| done].
        by rewrite Z.lor_spec, bit_pow, Z.pow2_bits_false, orb_false_r by lia.
Qed.

Lemma plan_revision_nonzero w r :
  record_wf r -> dual_input_key_is_valid_v1 (context_ w) = true -> plan_revision w r <> 0.
Proof.
  intros (_ & _ & _ & _ & _ & Hports) Hk. unfold plan_revision.
  assert (forall ps acc, Forall port_index ps -> acc <> 0 ->
    fold_left (fun rev p => if aget false (provided r) p
      then seat_revision (aget key0 (keys r) p) else rev) ps acc <> 0) as Hf.
  { induction ps as [|p ps IH]; intros acc Hps Hacc; [done |].
    apply Forall_cons in Hps as [Hp Hps]. cbn [fold_left]. apply IH; [done |].
    destruct (aget false (provided r) p) eqn:E; [| done]. by apply (Hports p Hp). }
  apply Hf.
  - apply Forall_forall. intros p Hp%elem_of_seqZ. unfold port_index. lia.
  - unfold dual_input_key_is_valid_v1 in Hk. destruct (_ || _) eqn:E; [done |]. by bool_hyps.
Qed.

Lemma increasing_first l : increasing (Some 0) l = true -> increasing None l = true.
Proof.
  destruct l as [|x l]; [done |]. cbn [increasing].
  destruct (x =? 0); [done |]. by destruct (x <=? 0).
Qed.

Lemma ldiff_full_of_bits m : (forall q, 8 <= q -> Z.testbit m q = false) ->
  Z.ldiff m kDualFullPortMaskV1 = 0.
Proof.
  intros Hb. apply Z.bits_inj'. intros q Hq. rewrite Z.ldiff_spec, Z.bits_0.
  destruct (decide (q < 8)) as [Hlt|]; [| by rewrite Hb by lia].
  assert (Z.testbit kDualFullPortMaskV1 q = true) as ->; [| by rewrite andb_false_r].
  assert (q = 0 \/ q = 1 \/ q = 2 \/ q = 3 \/ q = 4 \/ q = 5 \/ q = 6 \/ q = 7) as Hc by lia.
  destruct_or! Hc; by subst.
Qed.

(** The mask a plan's bundle carries on a port. *)
Lemma planned_mask w r f p k seat0 z pm plans owner :
  window_wf w -> record_wf r -> find_record w f = Some r -> port_index p ->
  length plans = 4%nat ->
  (forall j pl, plans !! j = Some pl ->
     mask (sample pl) = mask (sample (port_sample w r (0 + Z.of_nat j)))) ->
  mask (port_of (mkBundle k seat0 z pm (sample <$> plans) owner) p) = effective_mask w f p.
Proof.
  intros Hw Hr Hf Hp Hlen Hat. unfold port_of, aget. cbn [ports].
  destruct (port_sample_ok w r p Hw Hr Hp) as (_ & Hmask & _).
  unfold port_index, effective_mask, kDualPortCountV1 in *.
  destruct (Z.leb_spec 4 p); [lia |]. rewrite Hf, <- Hmask.
  destruct (lookup_lt_is_Some_2 plans (Z.to_nat p)) as [pl Hpl]; [lia |].
  rewrite list_lookup_fmap, Hpl. cbn [fmap option_fmap option_map default from_option id].
  apply Hat in Hpl. rewrite Z.add_0_l, Z2Nat.id in Hpl by lia. exact Hpl.
Qed.

Lemma planned_canonical k rev frame pm plans owner :
  dual_input_key_is_valid_v1 k = true -> rev <> 0 -> all_zero owner = false ->
  (forall q, 8 <= q -> Z.testbit pm q = false) ->
  increasing (Some 0) (input_sequence <$> (sample <$> plans)) = true ->
  Forall (fun pl => sample_is_canonical (sample pl) = true) plans ->
  canonical_input_is_canonical_v1
    (mkBundle (k <| frame_index := frame |> <| seat_revision := rev |>) 0 [0; 0; 0] pm
       (sample <$> plans) owner) = true.
Proof.
  intros Hk Hrev Ho Hpm Hinc Hcan. unfold canonical_input_is_canonical_v1.
  cbn [key logical_seat owner_signing_key_id predicted_port_mask reserved_zero0 ports].
  assert (dual_input_key_is_valid_v1 (k <| frame_index := frame |> <| seat_revision := rev |>) = true)
    as ->.
  { revert Hk. unfold dual_input_key_is_valid_v1. destruct k as [s b e f v]. cbn.
    apply Z.eqb_neq in Hrev. rewrite Hrev.
    destruct (e =? 0); [done |]. by destruct (v =? 0). }
  rewrite Ho, ldiff_full_of_bits by done. cbn.
  apply ports_canonical_spec. split; [by apply increasing_first |]. by apply Forall_fmap.
Qed.

End Plans.

(** ** Frames in order

    When only the frame just planned is ever marked, the records executed lie
    below the step frontier and no frame is skipped. *)

Section InOrder.
Implicit Types w : DualInputWindowV1.

Definition in_order w : Prop :=
  commit_frontier_ w <= step_frontier_ w /\
  forall f r, find_record w f = Some r -> planned r = true -> f < step_frontier_ w.

Lemma in_order_next w : in_order w -> next_frame w = step_frontier_ w.
Proof. intros [H _]. unfold next_frame. lia. Qed.

Lemma find_put_inv w f r g x :
  length (ring_ w) = 20%nat -> used r = true -> record_frame r = f ->
  find_record (put_record w f r) g = Some x ->
  (g = f /\ x = r) \/ find_record w g = Some x.
Proof.
  intros Hlen Hu Hf Hx. destruct (decide (slot_of g = slot_of f)) as [Hs|Hs].
  - left. apply find_record_spec in Hx as (Hl & _ & Hg); [| cbn; by rewrite length_aset].
    cbn in Hl. unfold aset in Hl. rewrite Hs in Hl. pose proof (slot_of_range f).
    rewrite list_lookup_insert_eq in Hl by lia. injection Hl as <-. by rewrite <- Hg, Hf.
  - right. by rewrite find_put_other in Hx.
Qed.

Lemma put_in_order w f r :
  length (ring_ w) = 20%nat -> in_order w -> used r = true -> record_frame r = f ->
  (planned r = true -> f < step_frontier_ w) -> in_order (put_record w f r).
Proof.
  intros Hlen [Hc Hp] Hu Hf Hr. split; [exact Hc |]. intros g x Hx Hpl.
  apply find_put_inv in Hx as [[-> ->] | Hx]; [by apply Hr | | done..]. by eapply Hp.
Qed.

(** Only the ring and the two frontiers matter. *)
Lemma in_order_same w w' :
  ring_ w' = ring_ w -> commit_frontier_ w' = commit_frontier_ w ->
  step_frontier_ w' = step_frontier_ w -> in_order w -> in_order w'.
Proof. unfold in_order, find_record. by intros -> -> ->. Qed.

Lemma ensure_in_order w f :
  length (ring_ w) = 20%nat -> in_order w ->
  let '(r, w') := ensure_record w f in
  in_order w' /\ step_frontier_ w' = step_frontier_ w /\ length (ring_ w') = 20%nat /\
  used r = true /\ record_frame r = f /\ (planned r = true -> f < step_frontier_ w).
Proof.
  intros Hlen Hio. unfold ensure_record. destruct (find_record w f) as [r|] eqn:E.
  - destruct Hio as [Hc Hp]. split_and!; try done; try (by apply find_record_spec in E as (_ & ? & ?)).
    by apply Hp.
  - split_and!; try done; [by apply put_in_order |]. unfold put_record. cbn.
    by rewrite length_aset.
Qed.

Lemma advance_in_order fuel w :
  window_wf w -> in_order w ->
  in_order (advance_loop fuel w) /\ step_frontier_ (advance_loop fuel w) = step_frontier_ w.
Proof.
  revert w. induction fuel as [|fuel IH]; intros w Hwf Hio; [done |]. cbn [advance_loop].
  destruct (committable w) as [r|] eqn:Hc; [| done].
  destruct (commit_step w r Hwf Hc) as (Hcf & Hwf' & _ & Hring). rewrite Hcf.
  apply committable_spec in Hc as (Hf & Hpl & _).
  destruct Hwf as (_ & _ & _ & Hlm & Hlq & _).
  assert (step_frontier_ (remember_complete w r) = step_frontier_ w) as Hst
    by (by destruct (remember_complete_spec w r Hlm Hlq) as (m & q & -> & _)).
  destruct (IH _ Hwf') as [H1 H2]; [| split; [exact H1 | by rewrite H2]].
  destruct Hio as [Hle Hp]. pose proof (Hp _ _ Hf Hpl). split; cbn; rewrite Hst; [lia |].
  intros f x Hx Hx'. apply (Hp f x); [| done]. unfold find_record in *. by rewrite Hring in Hx.
Qed.

Lemma deliver_to_port_in_order b p w :
  window_wf w -> committable w = None -> port_index p -> bundle_fits b ->
  canonical_input_is_canonical_v1 b = true -> in_order w ->
  let w' := (deliver_to_port b p w).2 in
  in_order w' /\ step_frontier_ w' = step_frontier_ w.
Proof.
  intros Hwf Hcom Hp Hb Hc Hio. cbv zeta. unfold deliver_to_port. set (f := frame_index (key b)).
  destruct (match find_record w f with Some r => _ | None => _ end) as [r|]; [by destruct (_ && _) |].
  destruct (Z.ltb_spec f (commit_frontier_ w)); [done |].
  destruct (Z.ltb_spec (step_frontier_ w + kDualGuestLeadFramesV1) f); [done |].
  unfold kDualGuestLeadFramesV1 in *. pose proof Hwf as (_ & Hlen & _ & _ & _ & _ & ? & ? & _).
  destruct (ensure_record_spec w f Hwf) as (r & w1 & Hen & Hwf1 & _ & Hrwf & _); [lia |].
  pose proof (ensure_in_order w f Hlen Hio) as Hio1. rewrite Hen in *.
  destruct Hio1 as (Hio1 & Hst & Hlen1 & Hu & Hfr & Hpl).
  assert (commit_frontier_ w1 = commit_frontier_ w) as Hcf.
  { unfold ensure_record in Hen. by destruct (find_record w f); injection Hen as <- <-. }
  set (w2 := put_record w1 f (store_sample r p b)).
  assert (in_order w2) as Hio2 by (apply put_in_order; try done; by rewrite Hst).
  assert (window_wf w2) as Hwf2.
  { apply put_record_wf; try done; [by apply store_sample_wf | lia]. }
  match goal with |- context [advance_commit_frontier ?x] => set (w3 := x) end. cbn [snd].
  assert (in_order w3 /\ window_wf w3 /\ step_frontier_ w3 = step_frontier_ w) as (Hio3 & Hwf3 & Hst3).
  { subst w3. by destruct (_ <? _). }
  destruct (advance_in_order advance_fuel w3 Hwf3 Hio3) as [? H3].
  unfold advance_commit_frontier. by rewrite H3.
Qed.

Lemma deliver_in_order b w :
  window_wf w -> committable w = None -> bundle_fits b -> in_order w ->
  let w' := (deliver_input b w).2 in in_order w' /\ step_frontier_ w' = step_frontier_ w.
Proof.
  intros Hwf Hcom Hb Hio. cbv zeta. unfold deliver_input.
  destruct (negb (bound_ w)); [done |].
  destruct (canonical_input_is_canonical_v1 b) eqn:Hc; cbn [negb]; [| done].
  do 3 (destruct (negb _); [done |]). destruct (_ <? _); [done |].
  destruct (find_seat _ _ 0) as [p|] eqn:Hp; [| done]. cbv zeta.
  destruct (key_is_all_zero _); [done |]. destruct (negb _); [done |].
  apply deliver_to_port_in_order; try done. apply find_seat_range in Hp. unfold port_index.
  destruct Hwf as (_ & _ & _ & _ & _ & _ & _ & _ & _ & _ & Ho). lia.
Qed.

Lemma deliver_local_in_order samples s w :
  window_wf w -> committable w = None -> length samples = 4%nat ->
  Forall (fun x => 0 <= sequence x < 2 ^ 64) samples -> in_order w ->
  let w' := (deliver_local_input samples s w).2 in
  in_order w' /\ step_frontier_ w' = step_frontier_ w.
Proof.
  intros Hwf Hcom Hl Hs Hio. cbv zeta. unfold deliver_local_input.
  destruct (negb (bound_ w)); [done |]. destruct (find_seat _ _ 0) as [p|]; [| done]. cbv zeta.
  destruct (key_is_all_zero _); [done |].
  destruct (canonical_input_build_v1 _ _ _ _ _) as [[] [b|]] eqn:Hb; try done.
  apply build_ok_inv in Hb as [Hk Hn]. apply normalize_all_spec in Hn as [_ Hp].
  apply deliver_in_order; try done. unfold bundle_fits. rewrite Hk, Hp, length_fmap.
  split_and!; [done | | destruct Hwf as (_ & _ & _ & _ & _ & _ & _ & ? & _); cbn; lia].
  apply Forall_fmap. eapply Forall_impl; [exact Hs | done].
Qed.

Lemma plan_next_in_order w :
  length (ring_ w) = 20%nat -> in_order w ->
  in_order (plan_next w).2 /\ step_frontier_ (plan_next w).2 = step_frontier_ w /\
  (status (plan_next w).1 = Ok -> plan_frame (plan_next w).1 = step_frontier_ w /\
     step_frontier_ w < materialized_through_ (plan_next w).2 /\
     is_Some (find_record (plan_next w).2 (step_frontier_ w))).
Proof.
  intros Hlen Hio. unfold plan_next. destruct (negb (bound_ w)); [done |]. cbv zeta.
  destruct (_ <=? _); [done |]. destruct (_ <=? _); [done |].
  rewrite in_order_next by done. pose proof (ensure_in_order w (step_frontier_ w) Hlen Hio) as H.
  destruct (ensure_record w (step_frontier_ w)) as [r w1] eqn:E.
  destruct H as (Hio1 & Hst & Hlen1 & Hu & Hfr & _).
  assert (find_record w1 (step_frontier_ w) = Some r) as Hf.
  { unfold ensure_record in E. destruct (find_record w (step_frontier_ w)) eqn:E';
      injection E as <- <-; [done |]. by apply find_put_eq. }
  destruct (plan_ports_loop _ r all_ports 0 0) as [plans pm]. cbn [fst snd].
  destruct (Z.ltb_spec (materialized_through_ w1) (step_frontier_ w + 1)); (split; [done |]);
    (split; [done |]); intros _; split_and!; try done; cbn; try lia; by exists r.
Qed.

(** When a plan is made. *)
Lemma plan_next_gate w :
  window_wf w ->
  if plan_distance w <? kDualPredictionFreezeDepthV1
  then status (plan_next w).1 = Ok /\ freeze (plan_next w).1 = FreezeNone /\
       plan_frame (plan_next w).1 = next_frame w /\
       frame_index (key (plan_bundle (plan_next w).1)) = next_frame w /\
       is_Some (find_record (plan_next w).2 (next_frame w))
  else status (plan_next w).1 = Frozen /\ freeze (plan_next w).1 = PredictionDepthExceeded /\
       (plan_next w).2 = w /\ prediction_depth (plan_next w).1 = kDualPredictionFreezeDepthV1.
Proof.
  intros Hwf. unfold plan_next. pose proof Hwf as (-> & _ & _ & _ & _ & _ & Hc & Hs & _).
  cbn [negb]. cbv zeta.
  unfold plan_distance, next_frame, kDualPredictionFreezeDepthV1, kDualMaxRollbackFramesV1 in *.
  set (f := Z.max (step_frontier_ w) (commit_frontier_ w)) in *.
  destruct (Z.leb_spec 12 (f - commit_frontier_ w)); [lia |].
  destruct (Z.ltb_spec (f - commit_frontier_ w) 10) as [Hd|Hd].
  - destruct (Z.leb_spec 10 (f - commit_frontier_ w)); [lia |].
    destruct (ensure_record_spec w f Hwf) as (r & w1 & -> & _ & _ & _ & _ & _ & Hfind & _); [lia |].
    destruct (plan_ports_loop _ r all_ports 0 0) as [plans pm].
    split_and!; try done. exists r. by destruct (_ <? _).
  - destruct (Z.leb_spec 10 (f - commit_frontier_ w)); [| lia]. split_and!; try done. cbn. lia.
Qed.

Lemma mark_next_ok predicted w :
  window_wf w -> in_order w -> step_frontier_ w < materialized_through_ w ->
  is_Some (find_record w (step_frontier_ w)) ->
  let '(st, w') := mark_planned (step_frontier_ w) predicted w in
  st = Ok /\ in_order w' /\ step_frontier_ w' = step_frontier_ w + 1.
Proof.
  intros Hwf Hio Hm [r Hf]. unfold mark_planned. pose proof Hwf as (-> & Hlen & _). cbn [negb].
  destruct (Z.leb_spec (materialized_through_ w) (step_frontier_ w)); [lia |]. rewrite Hf. cbv zeta.
  destruct (wf_find w _ r Hwf Hf) as (Hrwf & Hu & Hfr & Hrange).
  set (r' := r <| planned := true |> <| planned_predicted_mask := _ |>).
  assert (window_wf (put_record w (step_frontier_ w) r')) as Hwf1 by (by apply put_record_wf).
  match goal with |- context [advance_commit_frontier ?x] => set (w2 := x) end.
  assert (window_wf w2) as Hwf2.
  { destruct Hwf as (_ & _ & _ & _ & _ & _ & _ & _ & Hmt & _).
    destruct Hwf1 as (? & ? & ? & ? & ? & ? & ? & ? & ? & ? & ?). subst w2. unfold window_wf.
    cbn in *. split_and!; try done; lia. }
  assert (in_order w2) as Hio2.
  { destruct Hio as [Hle Hp]. split; [subst w2; cbn; lia |]. intros g x Hx Hpl.
    change (find_record (put_record w (step_frontier_ w) r') g = Some x) in Hx.
    apply find_put_inv in Hx as [[-> ->] | Hx]; try done; [subst w2; cbn; lia |].
    specialize (Hp g x Hx Hpl). subst w2. cbn. lia. }
  by destruct (advance_in_order advance_fuel w2 Hwf2 Hio2).
Qed.

(** Planning and marking make no input of a frame arrive. *)
Lemma ensure_no_new w f g :
  window_wf w -> frame_all_real (ensure_record w f).2 g = true -> frame_all_real w g = true.
Proof.
  intros (_ & Hlen & _). unfold ensure_record. destruct (find_record w f) eqn:E; [done |]. cbn [snd].
  unfold frame_all_real. destruct (find_record (put_record w f _) g) as [x|] eqn:Hx; [| done].
  change (owned_port_mask_ (put_record w f _)) with (owned_port_mask_ w).
  destruct (Z.eqb_spec (owned_port_mask_ w) 0) as [|Hm]; [done |].
  apply find_put_inv in Hx as [[-> ->] | ->]; try done.
  cbn [real_port_mask over record0]. rewrite Z.land_0_l, Z.eqb_eq. congruence.
Qed.

Lemma plan_next_no_new w g :
  window_wf w -> frame_all_real (plan_next w).2 g = true -> frame_all_real w g = true.
Proof.
  intros Hwf. unfold plan_next. destruct (negb _); [done |]. cbv zeta.
  destruct (_ <=? _); [done |]. destruct (_ <=? _); [done |].
  pose proof (ensure_no_new w (next_frame w) g Hwf) as H.
  destruct (ensure_record w (next_frame w)) as [r w1]. cbn [snd] in H.
  destruct (plan_ports_loop _ _ _ _ _). cbn [snd]. by destruct (_ <? _).
Qed.

Lemma remember_ring w r :
  ring_ (remember_complete w r) = ring_ w /\ owned_port_mask_ (remember_complete w r) = owned_port_mask_ w.
Proof.
  unfold remember_complete. generalize all_ports as ports. intros ports. revert w.
  induction ports as [|p ports IH]; intros w; [done |]. cbn [fold_left].
  match goal with |- context [fold_left _ ports ?x] => destruct (IH x) as [-> ->] end.
  by destruct (negb _).
Qed.

Lemma advance_same_real fuel w g : frame_all_real (advance_loop fuel w) g = frame_all_real w g.
Proof.
  revert w. induction fuel as [|fuel IH]; intros w; [done |]. cbn [advance_loop].
  destruct (committable w) as [r|]; [| done]. rewrite IH. destruct (remember_ring w r) as [Hring Hmask].
  unfold frame_all_real, find_record. cbn [ring_ owned_port_mask_ over]. by rewrite Hring, Hmask.
Qed.

Lemma mark_planned_no_new f predicted w g :
  length (ring_ w) = 20%nat ->
  frame_all_real (mark_planned f predicted w).2 g = true -> frame_all_real w g = true.
Proof.
  intros Hlen. unfold mark_planned. destruct (negb _); [done |]. destruct (_ <=? _); [done |].
  destruct (find_record w f) as [r|] eqn:E; [| done]. cbv zeta. cbn [snd].
  unfold advance_commit_frontier. rewrite advance_same_real. unfold frame_all_real.
  set (r' := r <| planned := true |> <| planned_predicted_mask := _ |>).
  change (find_record ((put_record w f r') <| step_frontier_ := f + 1 |>) g) with (find_record (put_record w f r') g).
  change (owned_port_mask_ ((put_record w f r') <| step_frontier_ := f + 1 |>)) with (owned_port_mask_ w).
  destruct (find_record (put_record w f r') g) as [x|] eqn:Hx; [| done].
  pose proof (proj1 (find_record_spec w f r Hlen) E) as (_ & Hu & Hf).
  apply find_put_inv in Hx as [[-> ->] | ->]; [by rewrite E | done..].
Qed.

(** Of 21 frames in a row one is not there yet. *)
Lemma ring_holds_twenty w f :
  length (ring_ w) = 20%nat -> frame_all_real w f = false \/ frame_all_real w (f + 20) = false.
Proof.
  intros Hlen. unfold frame_all_real. destruct (find_record w f) as [r|] eqn:E; [| by left].
  destruct (find_record w (f + 20)) as [r'|] eqn:E'; [| by right].
  apply find_record_spec in E as (H1 & _ & Hf), E' as (H2 & _ & Hf'); try done.
  assert (slot_of (f + 20) = slot_of f) as Hs.
  { unfold slot_of, kRingSlotsV1. replace (f + 20) with (f + 1 * 20) by lia. by rewrite Z.mod_add. }
  rewrite Hs, H1 in H2. apply (inj Some) in H2 as ->. lia.
Qed.

End InOrder.

(** ** Properties *)

Fixpoint run_ops (ops : list Op) (w : DualInputWindowV1) : DualInputWindowV1 :=
  match ops with
  | [] => w
  | o :: rest => run_ops rest (run_op o w)
  end.

(** C18. No confirmed input is lost or altered while its frame is in flight:
    whatever calls follow, the commit frontier never moves back, and a sample
    accepted for a frame not below the final commit frontier is still in the ring,
    with the same mask, sequence and owner. *)
Theorem confirmed_samples_kept (context : DualInputKeyV1) (owners : list DualOwnerKeyV1)
    (w : DualInputWindowV1) (ops : list Op) :
  reachable context owners w -> Forall op_wf ops ->
  let w' := run_ops ops w in
  commit_frontier_ w <= commit_frontier_ w' /\
  forall f r p, find_record w f = Some r -> port_index p -> aget false (provided r) p = true ->
    commit_frontier_ w' <= f ->
    exists r', find_record w' f = Some r' /\ aget false (provided r') p = true /\
      record_sample r' p = record_sample r p /\
      aget zero_key (owner_keys r') p = aget zero_key (owner_keys r) p.
Proof.
  intros Hr Hops. destruct (reachable_wf context owners w Hr) as [Hwf Hcom]. clear Hr.
  change (kept w (run_ops ops w)).
  revert w Hwf Hcom. induction Hops as [|o ops Ho _ IH]; intros w Hwf Hcom; [apply kept_refl |].
  destruct (run_op_ok o w Hwf Hcom Ho) as (Hwf' & Hk & Hcom').
  eapply kept_trans; [exact Hk | by apply IH].
Qed.

(** The commit frontier is exact and the window is bounded: the record at the
    frontier, if any, is not both executed and complete; the step frontier leads
    by at most ten frames, and every record in the ring is at most fourteen ahead,
    which is why twenty slots suffice. *)
Theorem commit_frontier_exact (context : DualInputKeyV1) (owners : list DualOwnerKeyV1)
    (w : DualInputWindowV1) :
  reachable context owners w ->
  (forall r, find_record w (commit_frontier_ w) = Some r -> planned r = true ->
     Z.land (real_port_mask r) (owned_port_mask_ w) <> owned_port_mask_ w) /\
  0 <= step_frontier_ w <= commit_frontier_ w + 10 /\
  (forall f r, find_record w f = Some r -> f <= commit_frontier_ w + 14).
Proof.
  intros Hr. destruct (reachable_wf context owners w Hr) as [Hwf Hcom]. split_and!.
  - intros r Hf Hpl Hc. assert (committable w = Some r) by (by apply committable_spec). congruence.
  - apply Hwf.
  - apply Hwf.
  - intros f r Hf. apply (wf_find w f r Hwf) in Hf as (_ & _ & _ & ?). lia.
Qed.

(** [plan_next] plans exactly while the next frame is less than ten frames
    ahead of the commit frontier; otherwise it freezes on the prediction depth and
    changes nothing.  The twelve-frame gate before it can never be the one that
    fires. *)
Theorem plan_gate (context : DualInputKeyV1) (owners : list DualOwnerKeyV1)
    (w : DualInputWindowV1) :
  reachable context owners w ->
  let '(plan, w') := plan_next w in
  if plan_distance w <? kDualPredictionFreezeDepthV1
  then status plan = Ok /\ freeze plan = FreezeNone /\ plan_frame plan = next_frame w /\
       is_Some (find_record w' (next_frame w))
  else status plan = Frozen /\ freeze plan = PredictionDepthExceeded /\ w' = w /\
       prediction_depth plan = kDualPredictionFreezeDepthV1.
Proof.
  intros Hr. destruct (reachable_wf context owners w Hr) as [Hwf _].
  pose proof (plan_next_gate w Hwf) as H. destruct (plan_next w) as [plan w'].
  destruct (_ <? _); [| exact H]. by destruct H as (? & ? & ? & _ & ?).
Qed.

(** What a plan feeds the emulator: each port gets its confirmed sample when
    its owner reported and the last complete state otherwise, the predicted mask
    flags exactly the owned ports not reported, and, when seat zero is in play,
    the bundle is canonical: sequences never wrap or repeat. *)
Theorem plan_contents (context : DualInputKeyV1) (owners : list DualOwnerKeyV1)
    (w : DualInputWindowV1) :
  reachable context owners w -> status (plan_next w).1 = Ok ->
  let plan := (plan_next w).1 in
  let w' := (plan_next w).2 in
  exists r, find_record w' (plan_frame plan) = Some r /\
    (forall p, port_index p ->
       mask (port_of (plan_bundle plan) p) = effective_mask w' (plan_frame plan) p /\
       Z.testbit (plan_predicted plan) p = owned w p && negb (aget false (provided r) p)) /\
    predicted_port_mask (plan_bundle plan) = plan_predicted plan /\
    (all_zero (signing_key_id (aget owner0 (owners_ w) 0)) = false ->
     canonical_input_is_canonical_v1 (plan_bundle plan) = true).
Proof.
  intros Hr. destruct (reachable_wf context owners w Hr) as [Hwf Hcom]. clear Hr.
  unfold plan_next. pose proof Hwf as (-> & _ & _ & _ & _ & _ & _ & _ & _ & Hkey & _).
  cbn [negb]. cbv zeta.
  destruct (Z.leb_spec kDualMaxRollbackFramesV1 (plan_distance w)); [done |].
  destruct (Z.leb_spec kDualPredictionFreezeDepthV1 (plan_distance w)) as [|Hd]; [done |].
  intros _. unfold plan_distance, next_frame, kDualPredictionFreezeDepthV1 in *.
  set (f := Z.max (step_frontier_ w) (commit_frontier_ w)) in *.
  destruct (ensure_record_spec w f Hwf) as (r & w1 & -> & Hwf1 & _ & Hrwf & _ & _ & Hfind & Hw1);
    [lia |].
  assert (owned_port_mask_ w1 = owned_port_mask_ w /\ owners_ w1 = owners_ w /\
    context_ w1 = context_ w /\ commit_frontier_ w1 = commit_frontier_ w) as (Hof & Hos & Hctx & Hcf) by (by destruct Hw1 as [-> | (-> & _)]).
  match goal with |- context [plan_revision ?x r] => set (w2 := x) end.
  assert (window_wf w2) as Hwf2.
  { subst w2. destruct (_ <? _); [| done].
    destruct Hwf1 as (? & ? & ? & ? & ? & ? & ? & ? & ? & ? & ?). unfold window_wf. cbn in *.
    split_and!; try done; lia. }
  assert (find_record w2 f = Some r /\ (forall p, owned w2 p = owned w p) /\
    owners_ w2 = owners_ w /\ context_ w2 = context_ w) as (Hf2 & Ho2 & Hos2 & Hctx2).
  { subst w2. unfold owned. rewrite <- Hof. by destruct (_ <? _). }
  clearbody w2. clear dependent w1. cbn [fst snd].
  pose proof (plan_ports_loop_spec w2 r 4 0 0 0 Hwf2 Hrwf) as Hloop.
  change (seqZ 0 (Z.of_nat 4)) with all_ports in Hloop.
  pose proof (plan_revision_nonzero w2 r Hrwf) as Hrev. rewrite Hctx2 in *.
  destruct (plan_ports_loop w2 r all_ports 0 0) as [plans pm].
  destruct Hloop as (Hlen & Hinc & Hcan & Hat & Hpm); [done | done | done |].
  exists r. cbn [plan_frame plan_bundle plan_predicted predicted_port_mask].
  split_and!; [done | | done |].
  - intros p Hp. rewrite Hpm by (unfold port_index in Hp; lia).
    rewrite Z.bits_0, bool_decide_true, Ho2 by (unfold port_index in Hp; lia). split; [| done].
    apply (planned_mask w2 r); try done. intros j pl Hj. by destruct (Hat j pl Hj) as (_ & _ & ?).
  - intros Hz. apply planned_canonical; try done.
    + by apply Hrev.
    + by rewrite Hos2.
    + intros q Hq. rewrite Hpm, Z.bits_0, bool_decide_false by lia. done.
Qed.

(** ** A concrete session *)

Module Demo.

Definition context : DualInputKeyV1 := mkKey (replicate 16 1) (replicate 16 2) 1 0 1.

(** Seats 0 and 1 are in play. *)
Definition owners : list DualOwnerKeyV1 :=
  [mkOwner 0 (replicate 32 9); mkOwner 1 (replicate 32 8); mkOwner 2 zero_key;
   mkOwner 3 zero_key].

(** The bundle seat [s] signs for a frame, with the same mask on every port. *)
Definition input (s frame m : Z) : DualInputBundleV1 :=
  mkBundle (context <| frame_index := frame |>) s [0; 0; 0] 0
    ((fun p => mkSample m (frame * 4 + p + 1)) <$> all_ports) (replicate 32 (9 - s)).

Lemma input_wf s frame m :
  0 <= s < 2 -> 0 <= frame < 2 ^ 32 -> 0 <= m < 2 ^ 32 -> wf_bundle (input s frame m).
Proof.
  intros Hs Hf Hm. unfold wf_bundle, wf_key, wf_sample, is_byte. cbn -[Z.pow replicate].
  change (seqZ 0 4) with [0; 1; 2; 3].
  assert (2 ^ 32 = 4294967296) by reflexivity. assert (2 ^ 64 = 18446744073709551616) by reflexivity.
  split_and!; try done; try lia;
    repeat constructor; cbn [mask input_sequence]; rewrite ?length_replicate; lia.
Qed.

Definition start : DualInputWindowV1 := (begin_ context owners window0).2.

Lemma start_reachable : reachable context owners start.
Proof. apply reachable_begin; reflexivity. Qed.

Lemma run_reachable ops w :
  reachable context owners w -> Forall op_wf ops -> reachable context owners (run_ops ops w).
Proof.
  intros Hw Hops. revert w Hw. induction Hops as [|o ops Ho _ IH]; intros w Hw; [done |].
  cbn [run_ops]. apply IH. by apply reachable_op.
Qed.

(** One frame: plan it and mark it executed with seat 1 predicted. *)
Definition step (frame : Z) : list Op := [PlanNext; MarkPlanned frame 2].

(** Both inputs of a frame, then the frame. *)
Definition full_step (frame : Z) : list Op :=
  [Deliver (input 0 frame 16); Deliver (input 1 frame 1); PlanNext; MarkPlanned frame 0].

Lemma steps_wf frames : Forall (fun f => 0 <= f) frames -> Forall op_wf (frames ≫= step).
Proof. induction 1; cbn; [constructor |]. repeat constructor; done. Qed.

Lemma full_steps_wf frames :
  Forall (fun f => 0 <= f < 2 ^ 32) frames -> Forall op_wf (frames ≫= full_step).
Proof.
  induction 1 as [|f fs Hf _ IH]; [constructor |].
  change ((f :: fs) ≫= full_step) with (full_step f ++ (fs ≫= full_step)).
  apply Forall_app. split; [| done]. unfold full_step. rewrite !Forall_cons. cbn [op_wf].
  split_and!; try done; try apply input_wf; lia.
Qed.

(** Three frames run on the host's input alone. *)
Definition ahead : DualInputWindowV1 := run_ops ([0; 1; 2] ≫= step) start.

Lemma ahead_reachable : reachable context owners ahead.
Proof. apply run_reachable; [apply start_reachable |]. apply steps_wf. repeat constructor; done. Qed.

End Demo.

Lemma confirmed_samples_kept_witness :
  let w' := run_ops [Deliver (Demo.input 0 3 1); PlanNext] Demo.ahead in
  commit_frontier_ Demo.ahead <= commit_frontier_ w' /\
  forall f r p, find_record Demo.ahead f = Some r -> port_index p ->
    aget false (provided r) p = true -> commit_frontier_ w' <= f ->
    exists r', find_record w' f = Some r' /\ aget false (provided r') p = true /\
      record_sample r' p = record_sample r p /\
      aget zero_key (owner_keys r') p = aget zero_key (owner_keys r) p.
Proof.
  apply (confirmed_samples_kept Demo.context Demo.owners Demo.ahead); [exact Demo.ahead_reachable |].
  constructor; [apply Demo.input_wf; done |]. constructor; done.
Defined.

Lemma commit_frontier_exact_witness :
  commit_frontier_ Demo.ahead = 0 /\ step_frontier_ Demo.ahead = 3 /\
  (forall r, find_record Demo.ahead (commit_frontier_ Demo.ahead) = Some r -> planned r = true ->
     Z.land (real_port_mask r) (owned_port_mask_ Demo.ahead) <> owned_port_mask_ Demo.ahead).
Proof.
  split; [vm_compute; reflexivity |]. split; [vm_compute; reflexivity |].
  apply (commit_frontier_exact Demo.context Demo.owners Demo.ahead Demo.ahead_reachable).
Defined.

Lemma plan_gate_witness :
  plan_distance Demo.ahead <? kDualPredictionFreezeDepthV1 = true /\
  let '(plan, w') := plan_next Demo.ahead in
  if plan_distance Demo.ahead <? kDualPredictionFreezeDepthV1
  then status plan = Ok /\ freeze plan = FreezeNone /\ plan_frame plan = next_frame Demo.ahead /\
       is_Some (find_record w' (next_frame Demo.ahead))
  else status plan = Frozen /\ freeze plan = PredictionDepthExceeded /\ w' = Demo.ahead /\
       prediction_depth plan = kDualPredictionFreezeDepthV1.
Proof.
  split; [vm_compute; reflexivity |].
  exact (plan_gate Demo.context Demo.owners Demo.ahead Demo.ahead_reachable).
Defined.

Lemma plan_contents_witness :
  status (plan_next Demo.ahead).1 = Ok /\
  canonical_input_is_canonical_v1 (plan_bundle (plan_next Demo.ahead).1) = true.
Proof.
  assert (status (plan_next Demo.ahead).1 = Ok) as Hok by (vm_compute; reflexivity).
  split; [exact Hok |].
  destruct (plan_contents Demo.context Demo.owners Demo.ahead Demo.ahead_reachable Hok)
    as (r & _ & _ & _ & H). apply H. clear. vm_compute. reflexivity.
Defined.

(** [mark_planned] takes any materialised frame still in the ring, not only the
    one being planned: after three frames, marking frame 0 again succeeds and moves
    the step frontier back to 1. *)
Theorem mark_planned_rewinds :
  reachable Demo.context Demo.owners Demo.ahead /\ step_frontier_ Demo.ahead = 3 /\
  (mark_planned 0 2 Demo.ahead).1 = Ok /\ step_frontier_ (mark_planned 0 2 Demo.ahead).2 = 1.
Proof.
  split; [exact Demo.ahead_reachable |]. clear. vm_compute. split_and!; reflexivity.
Qed.

(** An identical retransmission reads as a duplicate only while its slot has
    not been taken: of one frame committed long ago it is rejected as an attempt
    to rewrite history. *)
Theorem late_retransmission_is_rejected :
  let after n := run_ops (seqZ 0 n ≫= Demo.full_step) Demo.start in
  (forall n, 0 <= n < 2 ^ 32 -> reachable Demo.context Demo.owners (after n)) /\
  (deliver_input (Demo.input 0 0 16) (after 20)).1 = Duplicate /\
  (deliver_input (Demo.input 0 0 16) (after 21)).1 = RejectedCommittedHistory.
Proof.
  cbv zeta. split; [| split].
  - intros n Hn. apply Demo.run_reachable; [apply Demo.start_reachable |].
    apply Demo.full_steps_wf. apply Forall_forall. intros f Hf%elem_of_seqZ. lia.
  - clear. vm_compute. reflexivity.
  - clear. vm_compute. reflexivity.
Qed.
