(* ===== verification/DualScheduler.v ===== *)
(** * Dual simulation scheduler
    ([shared/src/session/dual/dual_run_scheduler.{hpp,cpp}], [dual_state_digest.cpp])

    One scheduler owns one simulation worker and the input window of its engine.
    It is the only caller that advances the worker, it compares the peer's digest
    of a frame with its own, and it freezes on anything it cannot reconcile.

    The worker is the class [DualRuntimePort].  Out parameters become results;
    a null out parameter only skips the write.  The code allocates nothing, so its
    [bad_alloc] handlers are unreachable and left out. *)

From S2P Require Import Prelude.
From S2P Require Import Sha256.
From S2P Require Import SessionAbi.
From S2P Require Import CanonicalInput.
From S2P Require Import InputWindow.

(** ** The runtime port *)

Record DualFrameOutcomeV1 := mkOutcome {
  outcome_frame : Z;
  applied_input_sequence : list Z;
  honoured_port_mask : Z;
}.

Definition outcome0 : DualFrameOutcomeV1 := mkOutcome 0 (replicate 4 0) 0.
Definition digest0 : DualStateDigestV1 :=
  mkDigest (replicate 32 0) (replicate 32 0) (replicate 32 0).

Record DualContentRefV1 := mkContent {
  content_session : bytes;
  content_branch : bytes;
  content_hash : bytes;
  content_epoch : Z;
}.

Definition content0 : DualContentRefV1 :=
  mkContent (replicate 16 0) (replicate 16 0) (replicate 32 0) 0.

(** The methods of the port, over the worker's state; an out parameter is passed
    in and returned. *)
Class DualRuntimePort (R : Type) := {
  load : DualContentRefV1 -> R -> fly_session_result_v2 * R;
  step : DualInputBundleV1 -> DualFrameOutcomeV1 -> R ->
         fly_session_result_v2 * DualFrameOutcomeV1 * R;
  export_state : Z -> bytes * Z * bytes -> R -> fly_session_result_v2 * (bytes * Z * bytes) * R;
  import_state : option bytes -> Z -> R -> fly_session_result_v2 * R;
  state_digest : Z -> DualStateDigestV1 -> R -> fly_session_result_v2 * DualStateDigestV1 * R;
}.

(** What a caller may rely on: a call that fails leaves its out parameter as the
    caller initialised it. *)
Class DualRuntimePortLaws (R : Type) {P : DualRuntimePort R} : Prop := {
  step_keeps_out b out r : (step b out r).1.1 <> V2_OK -> (step b out r).1.2 = out;
  export_keeps_written cap out r :
    (export_state cap out r).1.1 <> V2_OK -> (export_state cap out r).1.2.1.2 = out.1.2 /\
    (export_state cap out r).1.2.2 = out.2;
  export_within cap out r :
    (export_state cap out r).1.1 = V2_OK -> (export_state cap out r).1.2.1.2 <= cap;
  digest_keeps_out f out r : (state_digest f out r).1.1 <> V2_OK -> (state_digest f out r).1.2 = out;
}.

(** ** Consistency digests *)

Definition kStateDigestDomainV1 : string := "flynes-dual-state-digest-v1".
Definition kFrameDigestDomainV1 : string := "flynes-dual-frame-digest-v1".

(** A null or empty state is [[]]. *)
Definition dual_state_digest_v1 (state_bytes : bytes) (frame_index : Z) : DualStateDigestV1 :=
  let frame_bytes := store_u64be frame_index in
  mkDigest (domain_hash kStateDigestDomainV1 (frame_bytes ++ state_bytes))
           (domain_hash kFrameDigestDomainV1 (frame_bytes ++ state_bytes))
           (domain_hash kStateDigestDomainV1 (frame_bytes ++ replicate 8 165 ++ state_bytes)).

Definition dual_frame_digest_v1 (frame_index : Z) (input : DualInputBundleV1) : bytes :=
  domain_hash kFrameDigestDomainV1
    (store_u64be frame_index ++ canonical_input_digest_v1 input).

Definition dual_digest_gate_v1 (local peer : DualStateDigestV1) : DualFreezeReasonV1 :=
  evaluate_dual_digest_v1 local peer.

Definition dual_digest_equal_v1 (lhs rhs : DualStateDigestV1) : bool := bool_decide (lhs = rhs).

(** ** The scheduler's data *)

Inductive DualSimStateV1 := Unloaded | Ready | Running | SimFrozen.

#[global] Instance sim_state_eq_dec : EqDecision DualSimStateV1.
Proof. solve_decision. Defined.

Inductive DualInputAdmitV1 :=
  | AdmitAccepted | AdmitDuplicate | AdmitRejectedWrongOwner | AdmitRejectedStaleRevision
  | AdmitRejectedEquivocation | AdmitRejectedWindowExceeded | AdmitRejectedFrozen.

Record DualRunSchedulerV1 {R : Type} := mkSched {
  port_ : R;
  window_ : DualInputWindowV1;
  state_ : DualSimStateV1;
  freeze_reason_ : DualFreezeReasonV1;
  mode_ : DualModeV1;
  content_ : DualContentRefV1;
  sched_context_ : DualInputKeyV1;
  digest_valid_ : list bool;
  digest_verified_ : list bool;
  predicted_ : list bool;
  digest_frame_ : list Z;
  digests_ : list DualStateDigestV1;
  last_plan_ : DualWindowPlanV1;
  last_outcome_ : DualFrameOutcomeV1;
  last_digest_ : DualStateDigestV1;
  next_frame_ : Z;
  current_frame_ : Z;
  state_verified_through_ : Z;
  prediction_depth_ : Z;
  last_activity_ms_ : Z;
  paused_ : bool;
  surface_available_ : bool;
  audio_available_ : bool;
  network_available_ : bool;
  transport_terminal_ : bool;
  shutdown_ : bool;
}.
Arguments DualRunSchedulerV1 : clear implicits.

#[global] Instance eta_sched {R} : Eta (DualRunSchedulerV1 R) := fun r =>
  mkSched R (port_ r) (window_ r) (state_ r) (freeze_reason_ r) (mode_ r) (content_ r)
    (sched_context_ r) (digest_valid_ r) (digest_verified_ r) (predicted_ r) (digest_frame_ r)
    (digests_ r) (last_plan_ r) (last_outcome_ r) (last_digest_ r) (next_frame_ r)
    (current_frame_ r) (state_verified_through_ r) (prediction_depth_ r) (last_activity_ms_ r)
    (paused_ r) (surface_available_ r) (audio_available_ r) (network_available_ r)
    (transport_terminal_ r) (shutdown_ r).

Definition digest_slot (frame : Z) : Z := frame mod kRingSlotsV1.

Definition admit_for_window_status (s : DualWindowStatusV1) : DualInputAdmitV1 :=
  match s with
  | Accepted => AdmitAccepted
  | Duplicate => AdmitDuplicate
  | RejectedWrongOwner | RejectedOtherBranch | RejectedOtherTimeline | RejectedInvalid =>
    AdmitRejectedWrongOwner
  | RejectedStaleRevision => AdmitRejectedStaleRevision
  | RejectedCommittedHistory => AdmitRejectedEquivocation
  | RejectedWindowExceeded => AdmitRejectedWindowExceeded
  | Frozen => AdmitRejectedFrozen
  | Ok => AdmitRejectedFrozen
  end.

(** ** The scheduler's operations *)

Section Operations.
Context {R : Type} {P : DualRuntimePort R}.
Implicit Types s : DualRunSchedulerV1 R.

(** A constructed scheduler. *)
Definition scheduler_new (port : R) : DualRunSchedulerV1 R :=
  mkSched R port window0 Unloaded FreezeNone Dual content0 key0 (replicate 20 false)
    (replicate 20 false) (replicate 20 false) (replicate 20 0) (replicate 20 digest0) plan0
    outcome0 digest0 0 0 0 0 0 false true true true false false.

Definition begin (mode : DualModeV1) (content : DualContentRefV1) (context : DualInputKeyV1)
    (owners : list DualOwnerKeyV1) s : fly_session_result_v2 * DualRunSchedulerV1 R :=
  let mode_result := evaluate_dual_mode_v1 mode in
  if decide (mode_result <> V2_OK)
  then (mode_result, s <| mode_ := mode |> <| state_ := Unloaded |>)
  else if negb (dual_input_key_is_valid_v1 context) then (V2_INVALID_ARGUMENT, s)
  else
    let '(load_result, r) := load content (port_ s) in
    let s := s <| port_ := r |> in
    if decide (load_result <> V2_OK) then (load_result, s)
    else
      let '(status, w) := begin_ context owners (window_ s) in
      let s := s <| window_ := w |> in
      if decide (status <> Ok) then (V2_INVALID_ARGUMENT, s)
      else
        (V2_OK,
         s <| mode_ := mode |> <| content_ := content |> <| sched_context_ := context |>
           <| digest_valid_ := replicate 20 false |> <| predicted_ := replicate 20 false |>
           <| digest_frame_ := replicate 20 0 |> <| digests_ := replicate 20 digest0 |>
           <| digest_verified_ := replicate 20 false |> <| last_plan_ := plan0 |>
           <| last_outcome_ := outcome0 |> <| last_digest_ := digest0 |>
           <| next_frame_ := 0 |> <| current_frame_ := 0 |> <| state_verified_through_ := 0 |>
           <| prediction_depth_ := 0 |> <| last_activity_ms_ := 0 |> <| paused_ := false |>
           <| surface_available_ := true |> <| audio_available_ := true |>
           <| network_available_ := true |> <| transport_terminal_ := false |>
           <| shutdown_ := false |> <| freeze_reason_ := FreezeNone |> <| state_ := Ready |>).

Definition announce_running s : fly_session_result_v2 * DualRunSchedulerV1 R :=
  if shutdown_ s then (V2_CLOSED, s)
  else
    match state_ s with
    | SimFrozen => (V2_INVALID_STATE, s)
    | Ready => (V2_OK, s <| state_ := Running |>)
    | _ => (V2_INVALID_STATE, s)
    end.

Definition freeze (reason : DualFreezeReasonV1) s
    : fly_session_result_v2 * DualRunSchedulerV1 R :=
  let s := s <| state_ := SimFrozen |> in
  (V2_INVALID_STATE,
   if decide (freeze_reason_ s = FreezeNone) then s <| freeze_reason_ := reason |> else s).

Definition require_running s : fly_session_result_v2 :=
  if shutdown_ s then V2_CLOSED
  else match state_ s with Running => V2_OK | _ => V2_INVALID_STATE end.

Definition frame_is_verified s (frame : Z) : bool := frame <? state_verified_through_ s.

Definition frame_is_final s (frame : Z) : bool :=
  let slot := digest_slot frame in
  if aget false (digest_valid_ s) slot && (aget 0 (digest_frame_ s) slot =? frame)
  then aget false (digest_verified_ s) slot && negb (aget false (predicted_ s) slot)
  else frame <? state_verified_through_ s.

Definition handle_window_status (status : DualWindowStatusV1) s
    : fly_session_result_v2 * DualInputAdmitV1 * DualRunSchedulerV1 R :=
  let admit_ := admit_for_window_status status in
  let done r := (r, admit_, s) in
  let frozen why := let '(r, s) := freeze why s in (r, admit_, s) in
  match status with
  | Accepted => done V2_ACCEPTED
  | Duplicate => done V2_DUPLICATE
  | RejectedWrongOwner | RejectedOtherBranch | RejectedOtherTimeline => done V2_PERMISSION_DENIED
  | RejectedStaleRevision => done V2_STALE
  | RejectedInvalid => done V2_INVALID_ARGUMENT
  | RejectedCommittedHistory => frozen CommittedHistoryRewrite
  | RejectedWindowExceeded => frozen InputWindowExceeded
  | Frozen => frozen PredictionDepthExceeded
  | Ok => done V2_INVALID_STATE
  end.

(** What a step records once the worker ran the plan and gave its digest. *)
Definition record_digest (plan : DualWindowPlanV1) (digest : DualStateDigestV1) s
    : DualRunSchedulerV1 R :=
  let slot := digest_slot (plan_frame plan) in
  s <| digests_ := aset (digests_ s) slot digest |>
    <| digest_frame_ := aset (digest_frame_ s) slot (plan_frame plan) |>
    <| digest_valid_ := aset (digest_valid_ s) slot true |>
    <| digest_verified_ := aset (digest_verified_ s) slot false |>
    <| predicted_ := aset (predicted_ s) slot (negb (plan_predicted plan =? 0)) |>.

(** [step_next_frame] from the point where the digest is known. *)
Definition commit_step_frame (plan : DualWindowPlanV1) (outcome : DualFrameOutcomeV1)
    (digest : DualStateDigestV1) s : fly_session_result_v2 * DualRunSchedulerV1 R :=
  let s := record_digest plan digest s in
  let '(mark_result, w) := mark_planned (plan_frame plan) (plan_predicted plan) (window_ s) in
  let s := s <| window_ := w |> in
  if decide (mark_result <> Ok) then freeze InputWindowExceeded s
  else
    let next := plan_frame plan + 1 in
    let frontier := commit_frontier_ (window_ s) in
    (V2_OK,
     s <| current_frame_ := plan_frame plan |> <| next_frame_ := next |>
       <| prediction_depth_ := if frontier <? next then next - frontier else 0 |>
       <| last_plan_ := plan |> <| last_outcome_ := outcome |> <| last_digest_ := digest |>).

Definition step_next_frame s : fly_session_result_v2 * DualRunSchedulerV1 R :=
  let guard := require_running s in
  if decide (guard <> V2_OK) then (guard, s)
  else
    let '(plan, w) := plan_next (window_ s) in
    let s := s <| window_ := w |> in
    if decide (status plan = Frozen)
    then freeze (InputWindow.freeze plan) (s <| prediction_depth_ := prediction_depth plan |>)
    else if decide (status plan <> Ok) then freeze InputWindowExceeded s
    else
      let '(step_result, outcome, r) := step (plan_bundle plan) outcome0 (port_ s) in
      let s := s <| port_ := r |> in
      if decide (step_result <> V2_OK) then freeze TransportTerminal s
      else
        let '(digest_result, digest, r) := state_digest (plan_frame plan) digest0 (port_ s) in
        let s := s <| port_ := r |> in
        if decide (digest_result <> V2_OK) then (digest_result, s)
        else commit_step_frame plan outcome digest s.

(** The result, and the out parameter that says whether the frame is verified. *)
Definition acknowledge_peer_digest (frame : Z) (peer_digest : DualStateDigestV1) s
    : fly_session_result_v2 * bool * DualRunSchedulerV1 R :=
  let guard := require_running s in
  if decide (guard <> V2_OK) then (guard, false, s)
  else if u64 (frame + kRingSlotsV1) <=? step_frontier_ (window_ s) then (V2_STALE, false, s)
  else
    let slot := digest_slot frame in
    if negb (aget false (digest_valid_ s) slot) || negb (aget 0 (digest_frame_ s) slot =? frame)
    then (V2_INVALID_ARGUMENT, false, s)
    else if aget false (digest_verified_ s) slot then (V2_STALE, false, s)
    else
      let gate := dual_digest_gate_v1 (aget digest0 (digests_ s) slot) peer_digest in
      if decide (gate <> FreezeNone)
      then let '(r, s) := freeze gate s in (r, false, s)
      else if aget false (predicted_ s) slot then (V2_ACCEPTED, false, s)
      else
        let s := s <| digest_verified_ := aset (digest_verified_ s) slot true |> in
        (V2_OK, true,
         if frame =? state_verified_through_ s then s <| state_verified_through_ := frame + 1 |>
         else s).

Definition acknowledge_committed_rewrite (frame : Z) s
    : fly_session_result_v2 * DualRunSchedulerV1 R :=
  if decide (state_ s = SimFrozen) then (V2_INVALID_STATE, s)
  else if state_verified_through_ s <=? frame then (V2_STALE, s)
  else freeze CommittedHistoryRewrite s.

(** ** Input admission *)

Definition accept_local_input (samples : list DualPortInputV1) (logical_seat : Z) s
    : fly_session_result_v2 * DualInputAdmitV1 * DualRunSchedulerV1 R :=
  let guard := require_running s in
  if decide (guard <> V2_OK) then (guard, AdmitRejectedFrozen, s)
  else
    let '(status, w) := deliver_local_input samples logical_seat (window_ s) in
    handle_window_status status (s <| window_ := w |>).

Definition accept_remote_input (bundle : DualInputBundleV1) s
    : fly_session_result_v2 * DualInputAdmitV1 * DualRunSchedulerV1 R :=
  let guard := require_running s in
  if decide (guard <> V2_OK) then (guard, AdmitRejectedFrozen, s)
  else
    let '(status, w) := deliver_input bundle (window_ s) in
    handle_window_status status (s <| window_ := w |>).

(** ** Lifecycle *)

Definition observe_authenticated_activity (now_ms : Z) s : DualRunSchedulerV1 R :=
  if last_activity_ms_ s <? now_ms then s <| last_activity_ms_ := now_ms |> else s.

Definition pause (now_ms : Z) s : fly_session_result_v2 * DualRunSchedulerV1 R :=
  if shutdown_ s then (V2_CLOSED, s)
  else if decide (state_ s = SimFrozen) then (V2_INVALID_STATE, s)
  else
    let s := observe_authenticated_activity now_ms s in
    (V2_OK, s <| paused_ := true |> <| state_ := Ready |>).

Definition resume (now_ms : Z) (peer_digest : DualStateDigestV1) s
    : fly_session_result_v2 * DualRunSchedulerV1 R :=
  if shutdown_ s then (V2_CLOSED, s)
  else if decide (state_ s = SimFrozen) then (V2_INVALID_STATE, s)
  else if negb (paused_ s) then (V2_INVALID_STATE, s)
  else
    let slot := digest_slot (current_frame_ s) in
    if negb (aget false (digest_valid_ s) slot) ||
       negb (aget 0 (digest_frame_ s) slot =? current_frame_ s)
    then (V2_INVALID_STATE, s)
    else if negb (aget false (digest_verified_ s) slot) ||
            negb (frame_is_real (window_ s) (current_frame_ s))
    then (V2_INVALID_STATE, s)
    else if decide (dual_digest_gate_v1 (aget digest0 (digests_ s) slot) peer_digest <> FreezeNone)
    then (V2_PROTOCOL_VIOLATION, s)
    else
      let s := observe_authenticated_activity now_ms s in
      (V2_OK, s <| paused_ := false |> <| state_ := Running |>).

Definition set_mode (mode : DualModeV1) s : fly_session_result_v2 * DualRunSchedulerV1 R :=
  let result := evaluate_dual_mode_v1 mode in
  if decide (result <> V2_OK) then (result, s) else (V2_OK, s <| mode_ := mode |>).

Definition set_surface_available (available : bool) s
    : fly_session_result_v2 * DualRunSchedulerV1 R :=
  let s := s <| surface_available_ := available |> in
  if negb available then freeze TransportTerminal s else (V2_OK, s).

Definition set_audio_available (available : bool) s
    : fly_session_result_v2 * DualRunSchedulerV1 R :=
  let s := s <| audio_available_ := available |> in
  if negb available then freeze TransportTerminal s else (V2_OK, s).

Definition set_network_available (available : bool) s
    : fly_session_result_v2 * DualRunSchedulerV1 R :=
  let s := s <| network_available_ := available |> in
  if negb available then freeze TransportTerminal s else (V2_OK, s).

Definition mark_transport_terminal s : fly_session_result_v2 * DualRunSchedulerV1 R :=
  freeze TransportTerminal (s <| transport_terminal_ := true |>).

Definition shutdown s : fly_session_result_v2 * DualRunSchedulerV1 R :=
  let s := s <| shutdown_ := true |> <| state_ := SimFrozen |> in
  (V2_OK, if decide (freeze_reason_ s = FreezeNone)
          then s <| freeze_reason_ := FreezeShutdown |> else s).

(** ** Queries *)

Definition frame_is_canonical_success s (frame : Z) : bool :=
  if decide (state_ s = SimFrozen) then false else frame_is_final s frame.

Definition present_guard s : fly_session_result_v2 := require_running s.

(** The slot written when replay is allowed. *)
Definition rollback_allowed s (frame : Z) : option Z :=
  if frame <? state_verified_through_ s then None
  else
    let anchor := if state_verified_through_ s =? 0 then 0 else state_verified_through_ s - 1 in
    dual_rollback_slot_v1 anchor frame.

End Operations.

Definition dual_digest_rollback_allowed_v1 (verified_frame target_frame depth : Z) : option Z :=
  if verified_frame <=? target_frame then None
  else
    let anchor := if verified_frame =? 0 then 0 else verified_frame - 1 in
    match dual_rollback_slot_v1 anchor target_frame with
    | None => None
    | Some slot => if kDualPredictionFreezeDepthV1 <? depth then None else Some slot
    end.

(** ** Histories *)

Section Histories.
Context {R : Type} {P : DualRuntimePort R}.
Implicit Types s : DualRunSchedulerV1 R.

Inductive SchedOp :=
  | Begin (mode : DualModeV1) (content : DualContentRefV1) (context : DualInputKeyV1)
      (owners : list DualOwnerKeyV1)
  | Announce | StepNext
  | AckDigest (frame : Z) (peer : DualStateDigestV1)
  | AckRewrite (frame : Z)
  | Local (samples : list DualPortInputV1) (logical_seat : Z)
  | Remote (bundle : DualInputBundleV1)
  | Observe (now_ms : Z) | Pause (now_ms : Z) | Resume (now_ms : Z) (peer : DualStateDigestV1)
  | SetMode (mode : DualModeV1) | Surface (available : bool) | Audio (available : bool)
  | Network (available : bool) | TransportGone | Shutdown.

Definition sched_run (o : SchedOp) s : fly_session_result_v2 * DualRunSchedulerV1 R :=
  match o with
  | Begin mode content context owners => begin mode content context owners s
  | Announce => announce_running s
  | StepNext => step_next_frame s
  | AckDigest frame peer => let '(r, _, s') := acknowledge_peer_digest frame peer s in (r, s')
  | AckRewrite frame => acknowledge_committed_rewrite frame s
  | Local samples seat => let '(r, _, s') := accept_local_input samples seat s in (r, s')
  | Remote b => let '(r, _, s') := accept_remote_input b s in (r, s')
  | Observe t => (V2_OK, observe_authenticated_activity t s)
  | Pause t => pause t s
  | Resume t peer => resume t peer s
  | SetMode m => set_mode m s
  | Surface b => set_surface_available b s
  | Audio b => set_audio_available b s
  | Network b => set_network_available b s
  | TransportGone => mark_transport_terminal s
  | Shutdown => shutdown s
  end.

Definition sched_op_wf (o : SchedOp) : Prop :=
  match o with
  | Begin _ _ _ owners => length owners = 4%nat
  | AckDigest frame _ => 0 <= frame < 2 ^ 64
  | Remote b => wf_bundle b
  | Local samples _ =>
    length samples = 4%nat /\ Forall (fun x => 0 <= sequence x < 2 ^ 64) samples
  | _ => True
  end.

(** What a history records: a frame run, with its prediction flag and digest, and a
    frame whose digest the peer confirmed. *)
Inductive Event :=
  | Ran (frame : Z) (predicted : bool) (digest : DualStateDigestV1)
  | Confirmed (frame : Z) (digest : DualStateDigestV1).

(** The log after a call, newest first; a successful binding starts a new one. *)
Definition log_after (o : SchedOp) s (log : list Event) : list Event :=
  let '(result, s') := sched_run o s in
  match o with
  | Begin _ _ _ _ => if decide (result = V2_OK) then [] else log
  | StepNext =>
    if decide (result = V2_OK)
    then Ran (current_frame_ s') (negb (plan_predicted (last_plan_ s') =? 0)) (last_digest_ s') :: log
    else log
  | AckDigest frame peer =>
    if decide (result = V2_OK) then Confirmed frame peer :: log else log
  | _ => log
  end.

Inductive sched_reachable : DualRunSchedulerV1 R -> list Event -> Prop :=
  | sched_start r : sched_reachable (scheduler_new r) []
  | sched_op s log o :
      sched_reachable s log -> sched_op_wf o ->
      sched_reachable (sched_run o s).2 (log_after o s log).

(** The frames run, newest first. *)
Fixpoint frames_run (log : list Event) : list Z :=
  match log with
  | [] => []
  | Ran f _ _ :: rest => f :: frames_run rest
  | Confirmed _ _ :: rest => frames_run rest
  end.

(** A window of a scheduler: unbound, or with a history of its own. *)
Definition window_ok (w : DualInputWindowV1) : Prop :=
  w = window0 \/ exists context owners, reachable context owners w.

(** A slot of the digest ring. *)
Definition slot_ok s (log : list Event) (i : Z) : Prop :=
  aget false (digest_valid_ s) i = true ->
  digest_slot (aget 0 (digest_frame_ s) i) = i /\
  Ran (aget 0 (digest_frame_ s) i) (aget false (predicted_ s) i) (aget digest0 (digests_ s) i) ∈ log /\
  (aget false (digest_verified_ s) i = true ->
     aget false (predicted_ s) i = false /\
     Confirmed (aget 0 (digest_frame_ s) i) (aget digest0 (digests_ s) i) ∈ log).

Definition ring_lengths s : Prop :=
  length (digest_valid_ s) = 20%nat /\ length (digest_verified_ s) = 20%nat /\
  length (predicted_ s) = 20%nat /\ length (digest_frame_ s) = 20%nat /\
  length (digests_ s) = 20%nat.

Definition verified_ok s (log : list Event) : Prop :=
  0 <= state_verified_through_ s /\
  forall f, 0 <= f < state_verified_through_ s ->
    exists d, Ran f false d ∈ log /\ Confirmed f d ∈ log.

Definition frames_ok s (log : list Event) : Prop :=
  window_ok (window_ s) /\ in_order (window_ s) /\
  step_frontier_ (window_ s) = next_frame_ s /\ 0 <= next_frame_ s /\
  frames_run log = reverse (seqZ 0 (next_frame_ s)) /\
  (0 < next_frame_ s -> current_frame_ s = next_frame_ s - 1).

(** A frozen scheduler has a reason. *)
Definition states_ok s : Prop := state_ s = SimFrozen -> freeze_reason_ s <> FreezeNone.

Definition sched_ok s (log : list Event) : Prop :=
  frames_ok s log /\ ring_lengths s /\ (forall i, 0 <= i < 20 -> slot_ok s log i) /\
  verified_ok s log.

End Histories.

(** ** Preservation *)

Section Invariant.
Context {R : Type} {P : DualRuntimePort R}.
Implicit Types s : DualRunSchedulerV1 R.

(** The fields the invariant reads, besides the window. *)
Definition rest s :=
  (digest_valid_ s, digest_verified_ s, predicted_ s, digest_frame_ s, digests_ s,
   (next_frame_ s, current_frame_ s, state_verified_through_ s)).

Lemma sched_ok_window s s' log :
  rest s' = rest s -> window_ok (window_ s') -> in_order (window_ s') ->
  step_frontier_ (window_ s') = step_frontier_ (window_ s) -> sched_ok s log -> sched_ok s' log.
Proof.
  intros [= E1 E2 E3 E4 E5 E6 E7 E8] Hw Hi Hs ((_ & _ & Hst & Hn & Hf & Hc) & Hl & Hslots & Hv).
  unfold sched_ok, frames_ok, ring_lengths, slot_ok, verified_ok in *.
  rewrite Hs, E1, E2, E3, E4, E5, E6, E7, E8. done.
Qed.

Lemma sched_ok_same s s' log :
  rest s' = rest s -> window_ s' = window_ s -> sched_ok s log -> sched_ok s' log.
Proof.
  intros Hr Hw Hok. pose proof Hok as ((? & ? & _) & _).
  by apply (sched_ok_window s); rewrite ?Hw.
Qed.

Lemma freeze_same reason s :
  rest (freeze reason s).2 = rest s /\ window_ (freeze reason s).2 = window_ s /\
  port_ (freeze reason s).2 = port_ s.
Proof. unfold freeze. cbn. by destruct (decide _). Qed.

Lemma freeze_ok reason s log : sched_ok s log -> sched_ok (freeze reason s).2 log.
Proof. destruct (freeze_same reason s) as (? & ? & _). by apply sched_ok_same. Qed.

(** A delivery or a plan keeps the window's history. *)
Lemma window_op_ok o w :
  match o with MarkPlanned _ _ => False | _ => True end -> op_wf o ->
  window_ok w -> in_order w ->
  window_ok (run_op o w) /\ in_order (run_op o w) /\
  step_frontier_ (run_op o w) = step_frontier_ w.
Proof.
  intros Ho Hwf [-> | (c & os & Hr)] Hio.
  { assert (run_op o window0 = window0) as -> by (by destruct o). split_and!; [by left | done..]. }
  split; [right; exists c, os; by apply reachable_op |].
  destruct (reachable_wf c os w Hr) as [Hww Hcom]. destruct o as [b | samples st | |]; [..| done].
  - apply deliver_in_order; try done. destruct Hwf as ((_ & _ & _ & ? & _) & _ & _ & _ & ? & Hs & _).
    unfold bundle_fits. split_and!; [done | | lia]. eapply Forall_impl; [exact Hs |]. by intros ? [_ ?].
  - destruct Hwf. by apply deliver_local_in_order.
  - pose proof Hww as (_ & Hlen & _). by destruct (plan_next_in_order w Hlen Hio) as (? & ? & _).
Qed.

Lemma sched_ok_window_op o s s' log :
  match o with MarkPlanned _ _ => False | _ => True end -> op_wf o ->
  rest s' = rest s -> window_ s' = run_op o (window_ s) -> sched_ok s log -> sched_ok s' log.
Proof.
  intros Ho Hwf Hr Hw Hok. pose proof Hok as ((Hwo & Hio & _) & _).
  destruct (window_op_ok o (window_ s) Ho Hwf Hwo Hio) as (? & ? & ?).
  by apply (sched_ok_window s); rewrite ?Hw.
Qed.

Lemma handle_status_same status s :
  let '(_, _, s') := handle_window_status status s in
  rest s' = rest s /\ window_ s' = window_ s /\ port_ s' = port_ s.
Proof.
  unfold handle_window_status. destruct status; try done; cbv zeta;
    match goal with |- context [freeze ?x s] =>
      pose proof (freeze_same x s); by destruct (freeze x s) end.
Qed.

Lemma seqZ_snoc n : 0 <= n -> reverse (seqZ 0 (n + 1)) = n :: reverse (seqZ 0 n).
Proof. intros Hn. by rewrite seqZ_app, reverse_app by lia. Qed.

Lemma slot_ok_more s log log' i : log ⊆ log' -> slot_ok s log i -> slot_ok s log' i.
Proof. unfold slot_ok. set_solver. Qed.

Lemma verified_ok_more s log log' : log ⊆ log' -> verified_ok s log -> verified_ok s log'.
Proof.
  intros Hl [H0 H]. split; [done |]. intros f Hf. destruct (H f Hf) as (d & ? & ?).
  exists d. set_solver.
Qed.

(** A running frame: the ring slot of the plan now speaks of it. *)
Lemma record_digest_slots plan digest s log :
  ring_lengths s -> (forall i, 0 <= i < 20 -> slot_ok s log i) ->
  let s' := record_digest plan digest s in
  let log' := Ran (plan_frame plan) (negb (plan_predicted plan =? 0)) digest :: log in
  ring_lengths s' /\ forall i, 0 <= i < 20 -> slot_ok s' log' i.
Proof.
  intros (L1 & L2 & L3 & L4 & L5) Hs. cbv zeta.
  split; [unfold ring_lengths, record_digest; cbn; by rewrite !length_aset |].
  intros i Hi. unfold slot_ok, record_digest.
  cbn [digest_valid_ digest_verified_ predicted_ digest_frame_ digests_ over].
  set (j := digest_slot (plan_frame plan)).
  assert (0 <= j < 20) as Hj by (apply Z.mod_pos_bound; done).
  destruct (decide (i = j)) as [->|Hne].
  - rewrite !aget_aset_eq by (unfold zlen; lia). intros _. split_and!; [done | left | done].
  - rewrite !aget_aset_ne by lia. intros Hv.
    apply (slot_ok_more s log _ i); [set_solver | by apply Hs | done].
Qed.

(** The end of a step whose worker ran and gave its digest. *)
Lemma commit_step_frame_ok plan outcome digest s log w0 :
  sched_ok (s <| window_ := w0 |>) log -> plan_next w0 = (plan, window_ s) -> status plan = Ok ->
  let '(result, s') := commit_step_frame plan outcome digest s in
  result = V2_OK /\ current_frame_ s' = next_frame_ s /\ next_frame_ s' = next_frame_ s + 1 /\
  last_plan_ s' = plan /\ last_digest_ s' = digest /\ port_ s' = port_ s /\
  state_ s' = state_ s /\ shutdown_ s' = shutdown_ s /\ freeze_reason_ s' = freeze_reason_ s /\
  sched_ok s' (Ran (current_frame_ s') (negb (plan_predicted plan =? 0)) digest :: log).
Proof.
  intros ((Hwo & Hio & Hst & Hn & Hfr & _) & Hl & Hslots & Hv) Hplan Hok.
  cbn [window_ next_frame_ over] in *.
  destruct Hwo as [-> | (c & os & Hr)]; [vm_compute in Hplan; injection Hplan as <- _; done |].
  destruct (reachable_wf c os w0 Hr) as [Hwf _]. pose proof Hwf as (_ & Hlen & _).
  destruct (plan_next_in_order w0 Hlen Hio) as (Hio1 & Hst1 & Hp). rewrite Hplan in *.
  cbn [fst snd] in *. destruct (Hp Hok) as (Hpf & Hm & Hfind).
  assert (reachable c os (window_ s)) as Hr1.
  { pose proof (reachable_op c os w0 PlanNext Hr I) as H. cbn in H. by rewrite Hplan in H. }
  destruct (reachable_wf c os _ Hr1) as [Hwf1 _]. rewrite <- Hst1 in Hm, Hfind.
  pose proof (mark_next_ok (plan_predicted plan) _ Hwf1 Hio1 Hm Hfind) as Hmark.
  assert (0 <= plan_frame plan) as Hpos by lia.
  pose proof (reachable_op c os _ (MarkPlanned (plan_frame plan) (plan_predicted plan)) Hr1 Hpos) as Hr2.
  rewrite Hst1, <- Hpf in Hmark. cbn [run_op] in Hr2. unfold commit_step_frame. cbv zeta.
  change (window_ (record_digest plan digest s)) with (window_ s).
  destruct (mark_planned _ _ (window_ s)) as [st w2]. destruct Hmark as (-> & Hio2 & Hst2).
  destruct (decide (Ok <> Ok)); [done |]. assert (plan_frame plan = next_frame_ s) as Hpn by lia.
  split_and!; try done; [by rewrite <- Hpn |].
  destruct (record_digest_slots plan digest s log Hl Hslots) as [Hl' Hslots'].
  split; [| split; [exact Hl' |]; split; [exact Hslots' |]].
  - split; [right; by exists c, os |]. split; [exact Hio2 |]. split; [exact Hst2 |].
    cbn. rewrite Hpn, Hfr, seqZ_snoc by lia. split_and!; [lia | done | lia].
  - apply (verified_ok_more _ log); [set_solver | exact Hv].
Qed.

End Invariant.

Section Reachable.
Context {R : Type} {P : DualRuntimePort R}.
Implicit Types s : DualRunSchedulerV1 R.

(** A call that records nothing. *)
Lemma log_refused o s log result s' :
  sched_run o s = (result, s') -> result <> V2_OK ->
  log_after o s log = log.
Proof.
  intros Hr Hne. unfold log_after. rewrite Hr.
  destruct o; try done; by destruct (decide (result = V2_OK)).
Qed.

(** One plan of the window. *)
Lemma plan_ok s plan w log :
  plan_next (window_ s) = (plan, w) -> sched_ok s log -> sched_ok (s <| window_ := w |>) log.
Proof.
  intros Hp. apply (sched_ok_window_op PlanNext); try done. cbn. by rewrite Hp.
Qed.

Lemma step_next_frame_ok s log :
  sched_ok s log -> sched_ok (step_next_frame s).2 (log_after StepNext s log).
Proof.
  intros Hok. destruct (step_next_frame s) as [result s'] eqn:E. cbn [snd].
  assert (sched_run StepNext s = (result, s')) as Hrun by exact E. revert E.
  unfold step_next_frame. cbv zeta. destruct (decide (require_running s <> V2_OK)) as [Hg|Hg].
  { intros [= <- <-]. by rewrite (log_refused _ _ _ _ _ Hrun Hg). }
  destruct (plan_next (window_ s)) as [plan w] eqn:Hplan.
  pose proof (plan_ok s plan w log Hplan Hok) as Hok1.
  assert (forall why s1, sched_ok s1 log -> freeze why s1 = (result, s') ->
    sched_ok s' (log_after StepNext s log)) as Hfreeze.
  { intros why s1 Hs1 Hf. assert (result = V2_INVALID_STATE) as -> by (by injection Hf).
    rewrite (log_refused _ _ _ _ _ Hrun) by done.
    pose proof (freeze_ok why s1 log Hs1) as H. by rewrite Hf in H. }
  destruct (decide (status plan = Frozen)); [by apply Hfreeze |].
  destruct (decide (status plan <> Ok)) as [|Hst]; [by apply Hfreeze |].
  apply dec_stable in Hst. destruct (step _ _ _) as [[step_result outcome] r1].
  destruct (decide (step_result <> V2_OK)); [by apply Hfreeze |].
  destruct (state_digest _ _ _) as [[digest_result digest] r2].
  destruct (decide (digest_result <> V2_OK)) as [Hd|].
  { intros [= <- <-]. by rewrite (log_refused _ _ _ _ _ Hrun Hd). }
  intros Hc. match type of Hc with commit_step_frame _ _ _ ?x = _ => set (s1 := x) in * end.
  assert (sched_ok (s1 <| window_ := window_ s |>) log) as Hs1 by (by apply (sched_ok_same s)).
  pose proof (commit_step_frame_ok plan outcome digest s1 log (window_ s) Hs1 Hplan Hst) as H.
  rewrite Hc in H. destruct H as (-> & _ & _ & Hlp & Hld & _ & _ & _ & _ & Hfin).
  unfold log_after. rewrite Hrun. cbn [decide]. destruct (decide (V2_OK = V2_OK)); [| done].
  by rewrite Hlp, Hld.
Qed.

Lemma gate_none local peer : dual_digest_gate_v1 local peer = FreezeNone <-> local = peer.
Proof.
  unfold dual_digest_gate_v1, evaluate_dual_digest_v1.
  destruct (decide (local = peer)) as [->|Hne]; [by rewrite bool_decide_true |].
  rewrite bool_decide_false by done. by split.
Qed.

Lemma acknowledge_ok frame peer s log :
  sched_ok s log ->
  sched_ok (sched_run (AckDigest frame peer) s).2 (log_after (AckDigest frame peer) s log).
Proof.
  intros Hok. destruct (sched_run (AckDigest frame peer) s) as [result s'] eqn:Hrun. cbn [snd].
  pose proof Hrun as E. cbn [sched_run] in E. unfold acknowledge_peer_digest in E. cbv zeta in E.
  assert (result <> V2_OK -> s' = s -> sched_ok s' (log_after (AckDigest frame peer) s log)) as Hno.
  { intros Hne ->. by rewrite (log_refused _ _ _ _ _ Hrun Hne). }
  destruct (decide (require_running s <> V2_OK)); [injection E as <- <-; by apply Hno |].
  destruct (_ <=? _); [injection E as <- <-; by apply Hno |].
  set (i := digest_slot frame) in *.
  destruct (aget false (digest_valid_ s) i) eqn:Hv; cbn [negb orb] in E;
    [| injection E as <- <-; by apply Hno].
  destruct (Z.eqb_spec (aget 0 (digest_frame_ s) i) frame) as [Hfr|]; cbn [negb] in E;
    [| injection E as <- <-; by apply Hno].
  destruct (aget false (digest_verified_ s) i) eqn:Hver; [injection E as <- <-; by apply Hno |].
  destruct (decide (dual_digest_gate_v1 _ peer <> FreezeNone)) as [|Hg].
  { destruct (freeze _ s) as [r1 s1] eqn:Hf. injection E as <- <-.
    assert (r1 = V2_INVALID_STATE) as -> by (by injection Hf).
    rewrite (log_refused _ _ _ _ _ Hrun) by done.
    match type of Hf with freeze ?g _ = _ => pose proof (freeze_ok g s log Hok) as H end.
    by rewrite Hf in H. }
  apply dec_stable, gate_none in Hg.
  destruct (aget false (predicted_ s) i) eqn:Hpr; [injection E as <- <-; by apply Hno |].
  unfold log_after. rewrite Hrun. injection E as <- <-. cbn [decide].
  destruct (decide (V2_OK = V2_OK)); [| done].
  destruct Hok as (Hframes & (L1 & L2 & L3 & L4 & L5) & Hslots & Hv0 & Hvf).
  assert (0 <= i < 20) as Hi by (apply Z.mod_pos_bound; done).
  destruct (Hslots i Hi Hv) as (_ & Hran & _). rewrite Hfr, Hpr, Hg in Hran.
  set (s1 := s <| digest_verified_ := aset (digest_verified_ s) i true |>).
  assert (sched_ok s1 (Confirmed frame peer :: log)) as Hs1.
  { split; [exact Hframes |]. split; [unfold ring_lengths, s1; cbn; by rewrite length_aset |].
    split; [| apply (verified_ok_more _ log); [set_solver | by split]].
    intros j Hj. unfold slot_ok, s1. cbn. intros Hvj. destruct (Hslots j Hj Hvj) as (? & ? & Hconf).
    split_and!; [done | by right |]. destruct (decide (j = i)) as [->|Hne].
    - intros _. rewrite Hpr, Hfr, Hg. split; [done | by left].
    - rewrite aget_aset_ne by lia. intros Hvj'. destruct (Hconf Hvj'). split; [done | by right]. }
  change (state_verified_through_ s1) with (state_verified_through_ s).
  destruct (Z.eqb_spec frame (state_verified_through_ s)) as [->|]; [| exact Hs1].
  destruct Hs1 as (H1 & H2 & H3 & _). split; [exact H1 |]. split; [exact H2 |]. split; [exact H3 |].
  split; [cbn; lia |]. intros f Hf. cbn in Hf.
  destruct (decide (f = state_verified_through_ s)) as [->|Hne].
  - exists peer. split; [by right | by left].
  - destruct (Hvf f) as (d & ? & ?); [lia |]. exists d. split; by right.
Qed.

Lemma aget_replicate {A} (d : A) n i : aget d (replicate n d) i = d.
Proof.
  unfold aget. destruct (replicate n d !! Z.to_nat i) as [b|] eqn:E; [| done].
  by apply lookup_replicate in E as [-> _].
Qed.

Lemma window_begin context owners w :
  length owners = 4%nat -> (begin_ context owners w).1 = Ok ->
  let w' := (begin_ context owners w).2 in
  window_ok w' /\ in_order w' /\ step_frontier_ w' = 0.
Proof.
  intros Hl Hok. cbv zeta. split; [right; exists context, owners; by apply reachable_begin |].
  revert Hok. unfold begin_. destruct (negb _); [done |]. destruct (seats_seen _ _); [| done].
  destruct (negb _); [done |]. intros _. split; [| done]. split; [done |].
  intros f r Hf Hpl. apply find_record_spec in Hf as (Hf & _); [| done].
  cbn -[replicate] in Hf. apply lookup_replicate in Hf as [-> _]. done.
Qed.

Lemma begin_refused context owners w :
  (begin_ context owners w).1 <> Ok -> (begin_ context owners w).2 = w.
Proof.
  unfold begin_. destruct (negb _); [done |]. destruct (seats_seen _ _); [| done].
  by destruct (negb _).
Qed.

Lemma begin_sched_ok mode content context owners s log :
  length owners = 4%nat -> sched_ok s log ->
  let o := Begin mode content context owners in
  sched_ok (sched_run o s).2 (log_after o s log).
Proof.
  intros Hl Hok. cbv zeta.
  destruct (sched_run (Begin mode content context owners) s) as [result s'] eqn:Hrun. cbn [snd].
  assert (result <> V2_OK -> rest s' = rest s -> window_ s' = window_ s ->
    sched_ok s' (log_after (Begin mode content context owners) s log)) as Hno.
  { intros Hne Hr Hw. rewrite (log_refused _ _ _ _ _ Hrun Hne). by apply (sched_ok_same s). }
  pose proof Hrun as E. cbn [sched_run] in E. unfold begin in E. cbv zeta in E.
  destruct (decide _); [injection E as <- <-; by apply Hno |].
  destruct (negb _); [injection E as <- <-; by apply Hno |].
  destruct (load content (port_ s)) as [lr r].
  destruct (decide (lr <> V2_OK)); [injection E as <- <-; by apply Hno |].
  change (window_ (s <| port_ := r |>)) with (window_ s) in E.
  pose proof (window_begin context owners (window_ s) Hl) as Hb.
  pose proof (begin_refused context owners (window_ s)) as Hrf.
  destruct (begin_ context owners (window_ s)) as [st w]. cbn [fst snd] in *.
  destruct (decide (st <> Ok)) as [Hst|Hst]; [injection E as <- <-; apply Hno; [done.. |]; cbn; by apply Hrf |].
  apply dec_stable in Hst. destruct (Hb Hst) as (Hw & Hio & Hs0). unfold log_after. rewrite Hrun.
  injection E as <- <-. destruct (decide (V2_OK = V2_OK)); [| done].
  split; [split_and!; try done; cbn; lia |]. split; [done |].
  split; [| split; [done | cbn; lia]].
  intros i Hi Hv. change (aget false (replicate 20 false) i = true) in Hv.
    by rewrite aget_replicate in Hv.
Qed.

(** The calls that leave the window and the ring alone. *)
Lemma quiet_rest o s :
  match o with Begin _ _ _ _ | StepNext | AckDigest _ _ | Local _ _ | Remote _ => False
  | _ => True end ->
  let s' := (sched_run o s).2 in
  rest s' = rest s /\ window_ s' = window_ s /\ port_ s' = port_ s.
Proof.
  intros Ho. cbv zeta.
  destruct o; try done; cbn [sched_run];
    unfold announce_running, acknowledge_committed_rewrite, observe_authenticated_activity, pause,
      resume, set_mode, set_surface_available, set_audio_available, set_network_available,
      mark_transport_terminal, shutdown, observe_authenticated_activity; cbv zeta;
    repeat match goal with
    | |- context [freeze ?why ?x] =>
        destruct (freeze_same why x) as (? & ? & ?); destruct (freeze why x); done
    | |- context [if ?c then _ else _] => destruct c
    | |- context [match state_ s with _ => _ end] => destruct (state_ s)
    | _ => done
    end.
Qed.

Lemma sched_run_ok o s log :
  sched_ok s log -> sched_op_wf o -> sched_ok (sched_run o s).2 (log_after o s log).
Proof.
  intros Hok Hwf.
  assert (match o with Begin _ _ _ _ | StepNext | AckDigest _ _ => False | _ => True end ->
    log_after o s log = log) as Hlog.
  { intros Ho. unfold log_after. destruct (sched_run o s). by destruct o. }
  destruct o;
    try (rewrite Hlog by done; match goal with |- sched_ok (sched_run ?o s).2 _ =>
           destruct (quiet_rest o s I) as (? & ? & _) end; by apply (sched_ok_same s)).
  - by apply begin_sched_ok.
  - by apply step_next_frame_ok.
  - by apply acknowledge_ok.
  - rewrite Hlog by done. cbn [sched_run]. unfold accept_local_input. cbv zeta.
    destruct (decide _); [done |].
    destruct (deliver_local_input samples logical_seat (window_ s)) as [st w] eqn:E.
    pose proof (handle_status_same st (s <| window_ := w |>)) as H.
    destruct (handle_window_status st _) as [[r a] s']. destruct H as (Hr & Hw & _).
    apply (sched_ok_window_op (DeliverLocal samples logical_seat) s); try done.
    cbn. by rewrite E.
  - rewrite Hlog by done. cbn [sched_run]. unfold accept_remote_input. cbv zeta.
    destruct (decide _); [done |]. destruct (deliver_input bundle (window_ s)) as [st w] eqn:E.
    pose proof (handle_status_same st (s <| window_ := w |>)) as H.
    destruct (handle_window_status st _) as [[r a] s']. destruct H as (Hr & Hw & _).
    apply (sched_ok_window_op (Deliver bundle) s); try done. cbn. by rewrite E.
Qed.

Lemma reachable_sched_ok s log : sched_reachable s log -> sched_ok s log.
Proof.
  induction 1 as [r | s log o _ IH Ho]; [| by apply sched_run_ok].
  assert (in_order window0) as Hio.
  { split; [done |]. intros f x Hf. apply find_record_spec in Hf as (Hf & Hu & _); [| done].
    cbn -[replicate] in Hf. apply lookup_replicate in Hf as [-> _]. done. }
  split; [split_and!; try done; by left |]. split; [done |].
  split; [| split; [done | cbn; lia]].
  intros i Hi Hv. change (aget false (replicate 20 false) i = true) in Hv.
  by rewrite aget_replicate in Hv.
Qed.

(** ** Freezing *)

Lemma plan_freeze_reason w :
  status (plan_next w).1 = Frozen -> InputWindow.freeze (plan_next w).1 <> FreezeNone.
Proof.
  unfold plan_next. destruct (negb _); [done |]. cbv zeta.
  destruct (_ <=? _); [done |]. destruct (_ <=? _); [done |].
  destruct (ensure_record _ _) as [r w1]. by destruct (plan_ports_loop _ _ _ _ _).
Qed.

(** [s'] is [s] frozen for a reason, or as live as [s]. *)
Definition froze_or_same s s' : Prop :=
  (state_ s' = SimFrozen /\ freeze_reason_ s' <> FreezeNone /\ shutdown_ s' = shutdown_ s) \/
  (state_ s' = state_ s /\ freeze_reason_ s' = freeze_reason_ s /\ shutdown_ s' = shutdown_ s).

Lemma freeze_froze why s : why <> FreezeNone -> froze_or_same s (freeze why s).2.
Proof.
  intros Hw. left. unfold freeze. cbn [snd]. by destruct (decide _).
Qed.

Lemma froze_or_same_refl s : froze_or_same s s.
Proof. by right. Qed.

Lemma froze_from s s0 s' :
  state_ s0 = state_ s -> freeze_reason_ s0 = freeze_reason_ s -> shutdown_ s0 = shutdown_ s ->
  froze_or_same s0 s' -> froze_or_same s s'.
Proof. unfold froze_or_same. by intros -> -> ->. Qed.

Lemma froze_states s s' : froze_or_same s s' -> states_ok s -> states_ok s'.
Proof.
  unfold states_ok. by intros [(-> & ? & _) | (-> & -> & _)].
Qed.

Lemma handle_froze st s :
  let '(_, _, s') := handle_window_status st s in froze_or_same s s'.
Proof.
  unfold handle_window_status. destruct st; try apply froze_or_same_refl; cbv zeta;
    match goal with |- context [freeze ?why s] =>
      assert (why <> FreezeNone) as H by done; apply (freeze_froze _ s) in H;
      by destruct (freeze why s) end.
Qed.

Lemma step_froze s : froze_or_same s (step_next_frame s).2.
Proof.
  unfold step_next_frame. cbv zeta. destruct (decide _); [apply froze_or_same_refl |].
  pose proof (plan_freeze_reason (window_ s)) as Hf.
  destruct (plan_next (window_ s)) as [plan w]. cbn [fst] in Hf.
  destruct (decide (status plan = Frozen)) as [Hs|].
  { by eapply froze_from; [..| apply freeze_froze, Hf]. }
  destruct (decide _); [by eapply froze_from; [..| by apply freeze_froze] |].
  destruct (step _ _ _) as [[sr out] r1].
  destruct (decide _); [by eapply froze_from; [..| by apply freeze_froze] |].
  destruct (state_digest _ _ _) as [[dr d] r2]. destruct (decide _); [by right |].
  unfold commit_step_frame. destruct (mark_planned _ _ _) as [mr w2].
  destruct (decide _); [by eapply froze_from; [..| by apply freeze_froze] | by right].
Qed.

Lemma ack_froze frame peer s : froze_or_same s (acknowledge_peer_digest frame peer s).2.
Proof.
  unfold acknowledge_peer_digest. cbv zeta. destruct (decide _); [by right |].
  destruct (_ <=? _); [by right |]. destruct (_ || _); [by right |].
  destruct (aget _ (digest_verified_ s) _); [by right |].
  destruct (decide _) as [Hg|].
  { pose proof (freeze_froze _ s Hg) as H. by destruct (freeze _ s). }
  destruct (aget _ (predicted_ s) _); [by right |]. destruct (_ =? _); by right.
Qed.

Lemma sched_run_states o s : states_ok s -> states_ok (sched_run o s).2.
Proof.
  intros Hs.
  assert (forall why s0, why <> FreezeNone -> states_ok (freeze why s0).2) as Hfr.
  { intros why s0 Hw _. unfold freeze. cbn [snd]. by destruct (decide _). }
  destruct o; cbn [sched_run]; try apply (froze_states _ _ (step_froze s) Hs).
  - unfold begin. cbv zeta. destruct (decide _); [done |]. destruct (negb _); [done |].
    destruct (load content (port_ s)) as [lr r]. destruct (decide _); [done |].
    destruct (begin_ _ _ _) as [st w]. by destruct (decide _).
  - unfold announce_running. destruct (shutdown_ s); [done |]. by destruct (state_ s) eqn:E.
  - pose proof (ack_froze frame peer s) as H.
    destruct (acknowledge_peer_digest frame peer s) as [[r v] s']. by apply (froze_states s).
  - unfold acknowledge_committed_rewrite. destruct (decide _); [done |].
    destruct (_ <=? _); [done | by apply Hfr].
  - unfold accept_local_input. cbv zeta. destruct (decide _); [done |].
    destruct (deliver_local_input _ _ _) as [st w].
    pose proof (handle_froze st (s <| window_ := w |>)) as H.
    destruct (handle_window_status st _) as [[r a] s']. by apply (froze_states _ _ H).
  - unfold accept_remote_input. cbv zeta. destruct (decide _); [done |].
    destruct (deliver_input _ _) as [st w].
    pose proof (handle_froze st (s <| window_ := w |>)) as H.
    destruct (handle_window_status st _) as [[r a] s']. by apply (froze_states _ _ H).
  - unfold observe_authenticated_activity. by destruct (_ <? _).
  - unfold pause, observe_authenticated_activity. destruct (shutdown_ s); [done |].
    destruct (decide _); [done |]. done.
  - unfold resume. cbv zeta. destruct (shutdown_ s); [done |]. destruct (decide _); [done |].
    destruct (negb _); [done |]. destruct (_ || _); [done |]. destruct (_ || _); [done |].
    by destruct (decide _).
  - unfold set_mode. cbv zeta. by destruct (decide _).
  - unfold set_surface_available. cbv zeta. destruct (negb _); [by apply Hfr | done].
  - unfold set_audio_available. cbv zeta. destruct (negb _); [by apply Hfr | done].
  - unfold set_network_available. cbv zeta. destruct (negb _); [by apply Hfr | done].
  - by apply Hfr.
  - intros _. unfold shutdown. cbn [snd]. by destruct (decide _).
Qed.

Lemma reachable_states s log : sched_reachable s log -> states_ok s.
Proof. induction 1; [done | by apply sched_run_states]. Qed.

(** A frozen scheduler keeps the window, the worker and the verdicts. *)
Lemma frozen_call o s :
  state_ s = SimFrozen -> freeze_reason_ s <> FreezeNone ->
  match o with Begin _ _ _ _ => False | _ => True end ->
  let s' := (sched_run o s).2 in
  state_ s' = SimFrozen /\ freeze_reason_ s' = freeze_reason_ s /\
  port_ s' = port_ s /\ window_ s' = window_ s /\ rest s' = rest s.
Proof.
  intros Hs Hr Ho. cbv zeta.
  assert (require_running s <> V2_OK) as Hg
    by (unfold require_running; rewrite Hs; by destruct (shutdown_ s)).
  assert (forall why s0, state_ s0 = SimFrozen -> freeze_reason_ s0 = freeze_reason_ s ->
    state_ (freeze why s0).2 = SimFrozen /\ freeze_reason_ (freeze why s0).2 = freeze_reason_ s)
    as Hfr.
  { intros why s0 H0 H1. unfold freeze. cbn [snd freeze_reason_ over state_].
    destruct (decide _) as [E|]; [| done]. cbn in E. congruence. }
  destruct o; try done;
    try (match goal with |- context [sched_run ?o s] =>
           destruct (quiet_rest o s I) as (-> & -> & ->) end; split_and!; try done);
    cbn [sched_run];
    try (unfold step_next_frame, acknowledge_peer_digest, accept_local_input, accept_remote_input;
         cbv zeta; by destruct (decide (require_running s <> V2_OK)));
    try (apply Hfr; done);
    unfold announce_running, acknowledge_committed_rewrite, observe_authenticated_activity, pause,
      resume, set_mode, set_surface_available, set_audio_available, set_network_available,
      shutdown; cbv zeta; rewrite ?Hs;
    repeat match goal with
    | |- context [if ?c then _ else _] => destruct c
    | _ => done
    | _ => apply Hfr; done
    | H : freeze_reason_ _ = FreezeNone |- _ => by destruct Hr
    end.
Qed.

(** A step that succeeds leads to the next frame, and no input arrives in it. *)
Lemma step_next_real s log :
  sched_ok s log -> (step_next_frame s).1 = V2_OK ->
  let s' := (step_next_frame s).2 in
  next_frame_ s' = next_frame_ s + 1 /\ (exists log', sched_ok s' log') /\
  forall f, frame_all_real (window_ s') f = true -> frame_all_real (window_ s) f = true.
Proof.
  intros Hok Hres. cbv zeta. pose proof (step_next_frame_ok s log Hok) as Hok'.
  split; [| split; [by eexists |]]; clear Hok'; revert Hres; unfold step_next_frame; cbv zeta;
    (destruct (decide _) as [|Hg]; [done |]);
    destruct (plan_next (window_ s)) as [plan w] eqn:Hplan;
    (destruct (decide _); [done |]); (destruct (decide _) as [|Hst]; [done |]); apply dec_stable in Hst;
    destruct (step _ _ _) as [[sr outcome] r1]; (destruct (decide _); [done |]);
    destruct (state_digest _ _ _) as [[dr digest] r2]; (destruct (decide _); [done |]);
    match goal with |- context [commit_step_frame plan outcome digest ?x] => set (s1 := x) end;
    intros Hres.
  - assert (sched_ok (s1 <| window_ := window_ s |>) log) as Hs1 by (by apply (sched_ok_same s)).
    pose proof (commit_step_frame_ok plan outcome digest s1 log (window_ s) Hs1 Hplan Hst) as H.
    destruct (commit_step_frame plan outcome digest s1) as [r s']. destruct H as (_ & _ & H & _). exact H.
  - intros f Hf. destruct Hok as (([Hw0 | (c & os & Hr)] & _) & _).
    { rewrite Hw0 in Hplan. vm_compute in Hplan. by injection Hplan as <- _. }
    destruct (reachable_wf c os _ Hr) as [Hwf _].
    pose proof (plan_next_no_new (window_ s) f Hwf) as Hnew.
    destruct (reachable_wf c os _ (reachable_op c os _ PlanNext Hr I)) as [(_ & Hlen & _) _].
    cbn [run_op] in Hlen. rewrite Hplan in Hnew, Hlen. cbn [snd] in Hnew, Hlen. apply Hnew.
    revert Hf. unfold commit_step_frame. change (window_ (record_digest plan digest s1)) with w.
    pose proof (mark_planned_no_new (plan_frame plan) (plan_predicted plan) w f Hlen) as Hm.
    destruct (mark_planned _ _ w) as [mr w2]. cbn [snd] in Hm. cbv zeta.
    destruct (decide (mr <> Ok)); [| exact Hm].
    match goal with |- context [freeze ?why ?x] => destruct (freeze_same why x) as (_ & -> & _) end. exact Hm.
Qed.

End Reachable.

(** ** The worker's side

    [recorded] is a worker that also keeps every call made to it, newest first, so
    that a history is told from the calls the worker saw and not only from what the
    scheduler noted about them. *)

Inductive WorkerCall :=
  | Loaded (result : fly_session_result_v2)
  | Stepped (bundle : DualInputBundleV1) (result : fly_session_result_v2)
  | Digested (frame : Z) (result : fly_session_result_v2) (digest : DualStateDigestV1).

#[global] Instance recorded {R} (P : DualRuntimePort R) : DualRuntimePort (R * list WorkerCall) := {|
  load := fun content (x : R * list WorkerCall) =>
    let '(result, r) := load content x.1 in (result, (r, Loaded result :: x.2));
  step := fun bundle out (x : R * list WorkerCall) =>
    let '(result, out, r) := step bundle out x.1 in (result, out, (r, Stepped bundle result :: x.2));
  export_state := fun capacity out (x : R * list WorkerCall) =>
    let '(result, out, r) := export_state capacity out x.1 in (result, out, (r, x.2));
  import_state := fun state size (x : R * list WorkerCall) =>
    let '(result, r) := import_state state size x.1 in (result, (r, x.2));
  state_digest := fun frame out (x : R * list WorkerCall) =>
    let '(result, digest, r) := state_digest frame out x.1 in
    (result, digest, (r, Digested frame result digest :: x.2));
|}.

(** The log that a worker's calls stand for: the calls of every frame are those of
    the first frame not yet recorded.  A step the worker refuses, and a step whose
    digest it cannot give, record nothing; a step with its digest records the frame. *)
Inductive fed : list Event -> list WorkerCall -> Prop :=
  | fed_nothing : fed [] []
  | fed_confirmed f d log calls : fed log calls -> fed (Confirmed f d :: log) calls
  | fed_loaded result log calls : fed log calls -> fed log (Loaded result :: calls)
  | fed_refused b result log calls :
      frame_index (key b) = zlen (frames_run log) -> result <> V2_OK ->
      fed log calls -> fed log (Stepped b result :: calls)
  | fed_undigested b f result d log calls :
      frame_index (key b) = f -> f = zlen (frames_run log) -> result <> V2_OK ->
      fed log calls -> fed log (Digested f result d :: Stepped b V2_OK :: calls)
  | fed_ran b f d log calls :
      frame_index (key b) = f -> f = zlen (frames_run log) ->
      fed log calls ->
      fed (Ran f (negb (predicted_port_mask b =? 0)) d :: log)
          (Digested f V2_OK d :: Stepped b V2_OK :: calls).

Section Recorded.
Context {R : Type} {P : DualRuntimePort R}.
Implicit Types s : DualRunSchedulerV1 (R * list WorkerCall).

(** A call, on a recorded worker; an accepted binding starts a new record. *)
Definition recorded_run (o : SchedOp) s : DualRunSchedulerV1 (R * list WorkerCall) :=
  let '(result, s') := sched_run o s in
  match o with
  | Begin _ _ _ _ => if decide (result = V2_OK) then s' <| port_ := ((port_ s').1, []) |> else s'
  | _ => s'
  end.

Inductive recorded_reachable :
    DualRunSchedulerV1 (R * list WorkerCall) -> list Event -> Prop :=
  | recorded_start r : recorded_reachable (scheduler_new (r, [])) []
  | recorded_op s log o :
      recorded_reachable s log -> sched_op_wf o ->
      recorded_reachable (recorded_run o s) (log_after o s log).

(** The scheduler of the worker itself. *)
Definition forget s : DualRunSchedulerV1 R :=
  mkSched R (port_ s).1 (window_ s) (state_ s) (freeze_reason_ s) (mode_ s) (content_ s)
    (sched_context_ s) (digest_valid_ s) (digest_verified_ s) (predicted_ s) (digest_frame_ s)
    (digests_ s) (last_plan_ s) (last_outcome_ s) (last_digest_ s) (next_frame_ s)
    (current_frame_ s) (state_verified_through_ s) (prediction_depth_ s) (last_activity_ms_ s)
    (paused_ s) (surface_available_ s) (audio_available_ s) (network_available_ s)
    (transport_terminal_ s) (shutdown_ s).

Lemma forget_set_window s w : (forget s) <| window_ := w |> = forget (s <| window_ := w |>).
Proof. done. Qed.

Lemma forget_freeze why s :
  freeze why (forget s) = ((freeze why s).1, forget (freeze why s).2).
Proof.
  unfold freeze. change (freeze_reason_ ((forget s) <| state_ := SimFrozen |>))
    with (freeze_reason_ s). cbn [freeze_reason_ over state_]. by destruct (decide _).
Qed.

Lemma forget_handle status s :
  handle_window_status status (forget s) =
    let '(result, admitted, s') := handle_window_status status s in (result, admitted, forget s').
Proof.
  unfold handle_window_status.
  destruct status; try done; cbv zeta; rewrite forget_freeze; by destruct (freeze _ s).
Qed.

Lemma forget_step s :
  step_next_frame (forget s) = ((step_next_frame s).1, forget (step_next_frame s).2).
Proof.
  unfold step_next_frame. cbv zeta. change (require_running (forget s)) with (require_running s).
  destruct (decide (_ <> _)); [done |]. change (window_ (forget s)) with (window_ s).
  destruct (plan_next (window_ s)) as [plan w].
  destruct (decide (status plan = Frozen)).
  { by rewrite <- (forget_freeze _ (s <| window_ := w |> <| prediction_depth_ := _ |>)). }
  destruct (decide (status plan <> Ok)); [by rewrite <- (forget_freeze _ (s <| window_ := w |>)) |].
  cbn [port_ over step recorded forget].
  destruct (step (plan_bundle plan) outcome0 (port_ s).1) as [[sr out] r1].
  destruct (decide (sr <> V2_OK)).
  { by rewrite <- (forget_freeze _ (s <| window_ := w |>
      <| port_ := (r1, Stepped (plan_bundle plan) sr :: (port_ s).2) |>)). }
  cbn [port_ over state_digest recorded fst snd].
  destruct (state_digest (plan_frame plan) digest0 r1) as [[dr d] r2].
  destruct (decide (dr <> V2_OK)); [done |].
  unfold commit_step_frame. cbn [window_ over record_digest forget].
  destruct (mark_planned _ _ w) as [mr w2]. destruct (decide (mr <> Ok)); [| done].
  match goal with |- _ = (_ , forget (freeze _ ?x).2) => by rewrite <- (forget_freeze _ x) end.
Qed.

Lemma forget_ack frame peer s :
  acknowledge_peer_digest frame peer (forget s) =
    let '(result, verified, s') := acknowledge_peer_digest frame peer s in
    (result, verified, forget s').
Proof.
  unfold acknowledge_peer_digest. cbv zeta.
  change (require_running (forget s)) with (require_running s).
  destruct (decide _); [done |]. cbn [window_ forget digest_valid_ digest_frame_ digest_verified_
    digests_ predicted_ state_verified_through_].
  destruct (_ <=? _); [done |]. destruct (_ || _); [done |].
  destruct (aget false (digest_verified_ s) _); [done |].
  destruct (decide _); [rewrite forget_freeze; by destruct (freeze _ s) |].
  destruct (aget false (predicted_ s) _); [done |].
  cbn [state_verified_through_ over]. by destruct (_ =? _).
Qed.

Lemma forget_begin mode content context owners s :
  begin mode content context owners (forget s) =
    let '(result, s') := begin mode content context owners s in (result, forget s').
Proof.
  unfold begin. cbv zeta. destruct (decide _); [done |]. destruct (negb _); [done |].
  cbn [port_ load recorded forget]. destruct (load content (port_ s).1) as [lr r].
  destruct (decide _); [done |]. cbn [window_ over forget].
  destruct (begin_ context owners (window_ s)) as [st w]. by destruct (decide _).
Qed.

(** The record is not seen: every call answers and acts as on the worker itself. *)
Lemma forget_run o s :
  sched_run o (forget s) = ((sched_run o s).1, forget (sched_run o s).2).
Proof.
  destruct o; cbn [sched_run]; try apply forget_step; try done.
  - rewrite forget_begin. by destruct (begin _ _ _ _ s).
  - unfold announce_running. cbn [shutdown_ state_ forget]. destruct (shutdown_ s); [done |].
    by destruct (state_ s).
  - rewrite forget_ack. by destruct (acknowledge_peer_digest frame peer s) as [[r v] s'].
  - unfold acknowledge_committed_rewrite. cbn [state_ state_verified_through_ forget].
    destruct (decide _); [done |]. destruct (_ <=? _); [done | apply forget_freeze].
  - unfold accept_local_input. cbv zeta. change (require_running (forget s)) with (require_running s).
    destruct (decide _); [done |]. change (window_ (forget s)) with (window_ s).
    destruct (deliver_local_input _ _ _) as [st w].
    rewrite forget_set_window, forget_handle.
    by destruct (handle_window_status st (s <| window_ := w |>)) as [[r a] s'].
  - unfold accept_remote_input. cbv zeta. change (require_running (forget s)) with (require_running s).
    destruct (decide _); [done |]. change (window_ (forget s)) with (window_ s).
    destruct (deliver_input _ _) as [st w].
    rewrite forget_set_window, forget_handle.
    by destruct (handle_window_status st (s <| window_ := w |>)) as [[r a] s'].
  - unfold observe_authenticated_activity. cbn [last_activity_ms_ forget]. by destruct (_ <? _).
  - unfold pause, observe_authenticated_activity. cbn [shutdown_ state_ last_activity_ms_ forget].
    destruct (shutdown_ s); [done |]. destruct (decide _); [done |]. by destruct (_ <? _).
  - unfold resume, observe_authenticated_activity. cbv zeta.
    cbn [shutdown_ state_ last_activity_ms_ paused_ current_frame_ digest_valid_ digest_frame_
      digest_verified_ window_ digests_ forget].
    destruct (shutdown_ s); [done |]. destruct (decide _); [done |]. destruct (negb _); [done |].
    destruct (_ || _); [done |]. destruct (_ || _); [done |]. destruct (decide _); [done |].
    by destruct (_ <? _).
  - unfold set_mode. cbv zeta. by destruct (decide _).
  - unfold set_surface_available. cbv zeta. destruct (negb _); [| done].
    exact (forget_freeze TransportTerminal (s <| surface_available_ := available |>)).
  - unfold set_audio_available. cbv zeta. destruct (negb _); [| done].
    exact (forget_freeze TransportTerminal (s <| audio_available_ := available |>)).
  - unfold set_network_available. cbv zeta. destruct (negb _); [| done].
    exact (forget_freeze TransportTerminal (s <| network_available_ := available |>)).
  - exact (forget_freeze TransportTerminal (s <| transport_terminal_ := true |>)).
  - unfold shutdown. cbn [freeze_reason_ over forget]. by destruct (decide _).
Qed.

Lemma forget_log o s log : log_after o (forget s) log = log_after o s log.
Proof. unfold log_after. rewrite forget_run. by destruct (sched_run o s). Qed.

Lemma forget_recorded o s : forget (recorded_run o s) = (sched_run o (forget s)).2.
Proof.
  rewrite forget_run. unfold recorded_run. destruct (sched_run o s) as [r s'].
  destruct o; try done. by destruct (decide _).
Qed.

(** Recording loses no history and adds none. *)
Lemma recorded_reachable_forget s log :
  recorded_reachable s log -> sched_reachable (forget s) log.
Proof.
  induction 1 as [r | s log o _ IH Ho]; [by apply sched_start |].
  rewrite forget_recorded, <- forget_log. by apply sched_op.
Qed.

Lemma sched_reachable_recorded (s0 : DualRunSchedulerV1 R) log :
  sched_reachable s0 log -> exists s, forget s = s0 /\ recorded_reachable s log.
Proof.
  induction 1 as [r | s0 log o _ (s & <- & IH) Ho].
  - exists (scheduler_new (r, [])). split; [done | apply recorded_start].
  - exists (recorded_run o s). rewrite forget_recorded, forget_log.
    split; [done | by apply recorded_op].
Qed.

Lemma recorded_sched_ok s log : recorded_reachable s log -> sched_ok s log.
Proof. intros H. exact (reachable_sched_ok _ _ (recorded_reachable_forget s log H)). Qed.

(** A plan is for the frame it names, and says which ports it predicted. *)
Lemma plan_next_bundle w :
  status (plan_next w).1 = Ok ->
  let plan := (plan_next w).1 in
  frame_index (key (plan_bundle plan)) = plan_frame plan /\
  predicted_port_mask (plan_bundle plan) = plan_predicted plan.
Proof.
  unfold plan_next. destruct (negb _); [done |]. cbv zeta.
  destruct (_ <=? _); [done |]. destruct (_ <=? _); [done |].
  destruct (ensure_record _ _) as [r w1]. by destruct (plan_ports_loop _ _ _ _ _).
Qed.

Lemma frames_run_length s log : sched_ok s log -> zlen (frames_run log) = next_frame_ s.
Proof.
  intros ((_ & _ & _ & Hn & -> & _) & _).
  unfold zlen. rewrite length_reverse, length_seqZ. lia.
Qed.

Lemma fed_step s log :
  sched_ok s log -> fed log (port_ s).2 ->
  fed (log_after StepNext s log) (port_ (step_next_frame s).2).2.
Proof.
  intros Hok Hfed. pose proof (frames_run_length s log Hok) as Hlen.
  destruct (step_next_frame s) as [result s'] eqn:E. cbn [snd].
  assert (sched_run StepNext s = (result, s')) as Hrun by exact E. revert E.
  unfold step_next_frame. cbv zeta. destruct (decide (require_running s <> V2_OK)) as [Hg|Hg].
  { intros [= <- <-]. by rewrite (log_refused _ _ _ _ _ Hrun Hg). }
  pose proof (plan_next_bundle (window_ s)) as Hbundle.
  destruct (plan_next (window_ s)) as [plan w] eqn:Hplan. cbn [fst] in Hbundle.
  pose proof Hok as ((Hwo & Hio & Hst & _) & _).
  assert (status plan = Ok -> plan_frame plan = next_frame_ s) as Hpf.
  { intros Hp. destruct Hwo as [Hw0 | (c & os & Hr)].
    { rewrite Hw0 in Hplan. vm_compute in Hplan. by injection Hplan as <- _. }
    destruct (reachable_wf c os _ Hr) as [(_ & Hl & _) _].
    destruct (plan_next_in_order (window_ s) Hl Hio) as (_ & _ & H).
    rewrite Hplan in H. cbn [fst] in H. by rewrite (proj1 (H Hp)). }
  pose proof (plan_ok s plan w log Hplan Hok) as Hok1.
  assert (forall why s1, fed log (port_ s1).2 -> freeze why s1 = (result, s') ->
    fed (log_after StepNext s log) (port_ s').2) as Hfreeze.
  { intros why s1 Hs1 Hf. assert (result = V2_INVALID_STATE) as -> by (by injection Hf).
    rewrite (log_refused _ _ _ _ _ Hrun) by done.
    pose proof (freeze_same why s1) as (_ & _ & Hp). rewrite Hf in Hp. cbn [snd] in Hp.
    by rewrite Hp. }
  destruct (decide (status plan = Frozen)); [by apply Hfreeze |].
  destruct (decide (status plan <> Ok)) as [|Hsp]; [by apply Hfreeze |].
  apply dec_stable in Hsp. destruct (Hbundle Hsp) as [Hkey Hmask]. specialize (Hpf Hsp).
  cbn [port_ over step recorded].
  destruct (step (plan_bundle plan) outcome0 (port_ s).1) as [[sr outcome] r1].
  destruct (decide (sr <> V2_OK)) as [Hsr|Hsr].
  { apply Hfreeze. cbn [port_ over snd]. apply fed_refused; [lia | done..]. }
  apply dec_stable in Hsr. subst sr. cbn [port_ over state_digest recorded fst snd].
  destruct (state_digest (plan_frame plan) digest0 r1) as [[dr digest] r2].
  destruct (decide (dr <> V2_OK)) as [Hd|Hd].
  { intros [= <- <-]. rewrite (log_refused _ _ _ _ _ Hrun Hd).
    cbn [port_ over snd]. apply fed_undigested; [lia.. | done | done]. }
  apply dec_stable in Hd. subst dr.
  intros Hc. match type of Hc with commit_step_frame _ _ _ ?x = _ => set (s1 := x) in * end.
  assert (sched_ok (s1 <| window_ := window_ s |>) log) as Hs1 by (by apply (sched_ok_same s)).
  pose proof (commit_step_frame_ok plan outcome digest s1 log (window_ s) Hs1 Hplan Hsp) as H.
  rewrite Hc in H. destruct H as (-> & Hcur & _ & Hlp & Hld & -> & _).
  unfold log_after. rewrite Hrun. destruct (decide (V2_OK = V2_OK)); [| done].
  rewrite Hlp, Hld, Hcur, <- Hmask. change (next_frame_ s1) with (next_frame_ s).
  cbn [s1 port_ over snd]. rewrite <- Hpf. apply fed_ran; [lia.. | done].
Qed.

Lemma fed_run o s log :
  sched_ok s log -> fed log (port_ s).2 -> fed (log_after o s log) (port_ (recorded_run o s)).2.
Proof.
  intros Hok Hfed.
  assert (match o with Begin _ _ _ _ => False | _ => True end ->
    recorded_run o s = (sched_run o s).2) as Hplain.
  { intros Ho. unfold recorded_run. destruct (sched_run o s). by destruct o. }
  destruct o;
    try (rewrite Hplain by done; match goal with |- context [sched_run ?o s] =>
           destruct (quiet_rest o s I) as (_ & _ & ->) end;
         unfold log_after; by destruct (sched_run _ s)).
  - unfold recorded_run, log_after. cbn [sched_run].
    destruct (begin mode content context owners s) as [result s'] eqn:E.
    destruct (decide (result = V2_OK)) as [|Hne]; [by apply fed_nothing |].
    revert E. unfold begin. cbv zeta. destruct (decide _); [by intros [= <- <-] |].
    destruct (negb _); [by intros [= <- <-] |]. cbn [load recorded].
    destruct (load content (port_ s).1) as [lr r].
    destruct (decide _); [intros [= <- <-]; by apply fed_loaded |].
    cbn [window_ over]. destruct (begin_ _ _ _) as [st w].
    destruct (decide _); intros [= <- <-]; [by apply fed_loaded | done].
  - rewrite Hplain by done. by apply fed_step.
  - rewrite Hplain by done. unfold log_after. cbn [sched_run].
    destruct (acknowledge_peer_digest frame peer s) as [[r v] s'] eqn:E. cbn [snd].
    assert (port_ s' = port_ s) as ->.
    { revert E. unfold acknowledge_peer_digest. cbv zeta.
      destruct (decide _); [by intros [= _ _ <-] |]. destruct (_ <=? _); [by intros [= _ _ <-] |].
      destruct (_ || _); [by intros [= _ _ <-] |].
      destruct (aget _ (digest_verified_ s) _); [by intros [= _ _ <-] |].
      destruct (decide _).
      { match goal with |- context [freeze ?why s] => pose proof (freeze_same why s) as (_ & _ & H);
          destruct (freeze why s) end. by intros [= _ _ <-]. }
      destruct (aget _ (predicted_ s) _); [by intros [= _ _ <-] |].
      destruct (_ =? _); by intros [= _ _ <-]. }
    destruct (decide _); [by apply fed_confirmed | done].
  - rewrite Hplain by done. unfold log_after. cbn [sched_run]. unfold accept_local_input. cbv zeta.
    destruct (decide _); [done |]. destruct (deliver_local_input _ _ _) as [st w].
    pose proof (handle_status_same st (s <| window_ := w |>)) as H.
    destruct (handle_window_status st _) as [[r a] s']. destruct H as (_ & _ & H).
    cbn [snd]. by rewrite H.
  - rewrite Hplain by done. unfold log_after. cbn [sched_run]. unfold accept_remote_input. cbv zeta.
    destruct (decide _); [done |]. destruct (deliver_input _ _) as [st w].
    pose proof (handle_status_same st (s <| window_ := w |>)) as H.
    destruct (handle_window_status st _) as [[r a] s']. destruct H as (_ & _ & H).
    cbn [snd]. by rewrite H.
Qed.

Lemma recorded_fed s log : recorded_reachable s log -> fed log (port_ s).2.
Proof.
  induction 1 as [r | s log o Hr IH Ho]; [apply fed_nothing |].
  apply fed_run; [by apply recorded_sched_ok | done].
Qed.

End Recorded.

(** ** Properties *)

Section Properties.
Context {R : Type} {P : DualRuntimePort R}.
Implicit Types s : DualRunSchedulerV1 R.

Lemma elem_of_frames_run log f : f ∈ frames_run log <-> exists p d, Ran f p d ∈ log.
Proof.
  induction log as [|[g p d | g d] log IH]; cbn [frames_run].
  - split; [set_solver | intros (? & ? & H); set_solver].
  - rewrite elem_of_cons, IH. split.
    + intros [-> | (p' & d' & H)]; [exists p, d; by left | exists p', d'; by right].
    + intros (p' & d' & [[= -> _ _] | H]%elem_of_cons); [by left | right; by exists p', d'].
  - rewrite IH. split; intros (p' & d' & H); exists p', d'; [by right |].
    by apply elem_of_cons in H as [? | ?].
Qed.

Lemma ran_unique log f p d p' d' :
  NoDup (frames_run log) -> Ran f p d ∈ log -> Ran f p' d' ∈ log -> p = p' /\ d = d'.
Proof.
  induction log as [|[g q e | g e] log IH]; cbn [frames_run]; intros Hnd H1 H2; [set_solver | |].
  - apply NoDup_cons in Hnd as [Hg Hnd].
    apply elem_of_cons in H1 as [E1 | H1]; apply elem_of_cons in H2 as [E2 | H2];
      [by simplify_eq | | | by apply IH]; destruct Hg; apply elem_of_frames_run; simplify_eq.
    + by exists p', d'.
    + by exists p, d.
  - apply elem_of_cons in H1 as [? | H1]; [done |]. apply elem_of_cons in H2 as [? | H2]; [done |].
    by apply IH.
Qed.

Lemma frames_nodup s log : sched_reachable s log -> NoDup (frames_run log).
Proof.
  intros Hr. destruct (reachable_sched_ok s log Hr) as ((_ & _ & _ & _ & -> & _) & _).
  rewrite reverse_Permutation. apply NoDup_seqZ.
Qed.

(** The last time a recorded frame was run: with the flag and the digest recorded of
    it, and only later frames were run since. *)
Lemma fed_last log calls f p d :
  fed log calls -> Ran f p d ∈ log -> NoDup (frames_run log) ->
  frames_run log = reverse (seqZ 0 (zlen (frames_run log))) ->
  exists b since before,
    calls = since ++ Digested f V2_OK d :: Stepped b V2_OK :: before /\
    frame_index (key b) = f /\ p = negb (predicted_port_mask b =? 0) /\
    forall b' result, Stepped b' result ∈ since -> f < frame_index (key b').
Proof.
  intros Hfed Hran Hnd Hframes.
  assert (forall log', frames_run log' = reverse (seqZ 0 (zlen (frames_run log'))) ->
    Ran f p d ∈ log' -> f < zlen (frames_run log')) as Hbelow.
  { intros log' Hf Hin. assert (f ∈ frames_run log') as H
      by (apply elem_of_frames_run; by exists p, d).
    rewrite Hf, elem_of_reverse, elem_of_seqZ in H. lia. }
  induction Hfed as [| g e log calls _ IH | result log calls _ IH | b result log calls Hb _ _ IH
    | b g result e log calls Hb Hg _ _ IH | b g e log calls Hb Hg Hfed IH].
  - by apply not_elem_of_nil in Hran.
  - apply elem_of_cons in Hran as [? | Hran]; [done |]. by apply IH.
  - destruct (IH Hran Hnd Hframes) as (b & since & before & -> & Hkey & Hp & Hs).
    exists b, (Loaded result :: since), before. split_and!; try done.
    intros b' r' [? | H]%elem_of_cons; [done | by eapply Hs].
  - destruct (IH Hran Hnd Hframes) as (b0 & since & before & -> & Hkey & Hp & Hs).
    exists b0, (Stepped b result :: since), before. split_and!; try done.
    intros b' r' [[= -> _] | H]%elem_of_cons; [| by eapply Hs].
    rewrite Hb. by apply Hbelow.
  - destruct (IH Hran Hnd Hframes) as (b0 & since & before & -> & Hkey & Hp & Hs).
    exists b0, (Digested g result e :: Stepped b V2_OK :: since), before. split_and!; try done.
    intros b' r' [? | [[= -> _] | H]%elem_of_cons]%elem_of_cons; [done | | by eapply Hs].
    rewrite Hb, Hg. by apply Hbelow.
  - cbn [frames_run] in Hframes, Hnd. apply NoDup_cons in Hnd as [_ Hnd].
    assert (frames_run log = reverse (seqZ 0 (zlen (frames_run log)))) as Hf'.
    { revert Hframes. unfold zlen. cbn [length]. rewrite Nat2Z.inj_succ, <- Z.add_1_r.
      rewrite seqZ_snoc by lia. intros [= _ H]. exact H. }
    apply elem_of_cons in Hran as [[= -> -> ->] | Hran].
    { exists b, [], calls. split_and!; [done.. |]. intros b' r' H. by apply not_elem_of_nil in H. }
    destruct (IH Hran Hnd Hf') as (b0 & since & before & -> & Hkey & Hp & Hs).
    exists b0, (Digested g V2_OK e :: Stepped b V2_OK :: since), before. split_and!; try done.
    intros b' r' [? | [[= -> _] | H]%elem_of_cons]%elem_of_cons; [done | | by eapply Hs].
    rewrite Hb, Hg. by apply Hbelow.
Qed.

(** C22. The worker is fed frame by frame: since the last accepted binding every
    step and every digest asked of it is for the first frame not yet recorded.  A frame is recorded when
    its step and its digest both succeed, and the frames recorded are 0, 1, ...,
    [next_frame] - 1, each once and in order; a step the worker refuses and a step
    whose digest it cannot give leave that frame to be run again. *)
Theorem frames_run_in_order (s : DualRunSchedulerV1 (R * list WorkerCall)) log :
  recorded_reachable s log ->
  fed log (port_ s).2 /\
  frames_run log = reverse (seqZ 0 (next_frame_ s)) /\
  (0 < next_frame_ s -> current_frame_ s = next_frame_ s - 1) /\
  step_frontier_ (window_ s) = next_frame_ s /\ commit_frontier_ (window_ s) <= next_frame_ s.
Proof.
  intros Hr. split; [by apply recorded_fed |].
  destruct (recorded_sched_ok s log Hr) as ((_ & [Hc _] & Hs & _ & Hf & Hcur) & _).
  rewrite Hs in Hc. split_and!; done.
Qed.

(** C5. The verified watermark only covers frames both engines agree on: a frame
    below it was recorded once, with a digest the peer then confirmed, and the last
    time the worker ran it the input had no predicted port and the worker gave that
    digest.  (The worker may have run the frame before, when it could not give a
    digest: see [digest_failure_repeats_frame].) *)
Theorem verified_frames_agreed (s : DualRunSchedulerV1 (R * list WorkerCall)) log :
  recorded_reachable s log ->
  0 <= state_verified_through_ s <= next_frame_ s /\
  forall f, 0 <= f < state_verified_through_ s ->
    exists d b since before,
      Ran f false d ∈ log /\ Confirmed f d ∈ log /\
      (forall p d', Ran f p d' ∈ log -> p = false /\ d' = d) /\
      (port_ s).2 = since ++ Digested f V2_OK d :: Stepped b V2_OK :: before /\
      frame_index (key b) = f /\ predicted_port_mask b = 0 /\
      forall b' result, Stepped b' result ∈ since -> f < frame_index (key b').
Proof.
  intros Hr. pose proof (recorded_sched_ok s log Hr) as Hok.
  pose proof (frames_run_length s log Hok) as Hlen.
  pose proof (frames_nodup _ _ (recorded_reachable_forget s log Hr)) as Hnd.
  destruct Hok as ((_ & _ & _ & Hn & Hf & _) & _ & _ & Hv0 & Hv).
  split.
  - split; [done |]. destruct (decide (state_verified_through_ s <= next_frame_ s)); [done |].
    destruct (Hv (next_frame_ s)) as (d & H & _); [lia |].
    assert (next_frame_ s ∈ frames_run log) as H' by (apply elem_of_frames_run; by exists false, d).
    rewrite Hf, elem_of_reverse, elem_of_seqZ in H'. lia.
  - intros f Hff. destruct (Hv f Hff) as (d & H1 & H2). rewrite <- Hlen in Hf.
    destruct (fed_last log _ f false d (recorded_fed s log Hr) H1 Hnd Hf)
      as (b & since & before & Hcalls & Hkey & Hp & Hsince).
    exists d, b, since, before. split_and!; try done.
    + intros p d' H. by apply (ran_unique log f p d' false d).
    + apply Z.eqb_eq. by destruct (predicted_port_mask b =? 0).
Qed.

(** A frozen scheduler stays frozen until it is bound again: whatever is called,
    the worker is never touched, the window and the verdicts stand, the first
    reason is kept, and no frame is a canonical success. *)
Theorem frozen_is_final s log (ops : list SchedOp) :
  sched_reachable s log -> state_ s = SimFrozen ->
  Forall (fun o => match o with Begin _ _ _ _ => False | _ => True end) ops ->
  let s' := fold_left (fun s o => (sched_run o s).2) ops s in
  state_ s' = SimFrozen /\ freeze_reason_ s' = freeze_reason_ s /\ freeze_reason_ s' <> FreezeNone /\
  port_ s' = port_ s /\ window_ s' = window_ s /\
  state_verified_through_ s' = state_verified_through_ s /\
  forall f, frame_is_canonical_success s' f = false.
Proof.
  intros Hr Hs Hops. pose proof (reachable_states s log Hr Hs) as Hreason. clear Hr. cbv zeta.
  revert s Hs Hreason. induction Hops as [|o ops Ho _ IH]; intros s Hs Hreason; cbn [fold_left].
  - split_and!; try done. intros f. unfold frame_is_canonical_success.
    by destruct (decide (state_ s = SimFrozen)).
  - destruct (frozen_call o s Hs Hreason Ho) as (H1 & H2 & H3 & H4 & H5).
    destruct (IH _ H1) as (? & E & ? & E' & E'' & E3 & ?); [by rewrite H2 |].
    injection H5 as _ _ _ _ _ _ _ Hver. rewrite E, E', E'', E3, H2, H3, H4, Hver.
    split_and!; done.
Qed.

(** [step_next_frame] on a bound running scheduler: while fewer than ten frames
    are ahead of the commit frontier the worker is fed the window's plan of the
    next frame, exactly once, and the frame is recorded; otherwise the scheduler
    freezes and the worker is not touched.  The window never refuses the mark. *)
Theorem step_next_frame_exact s log :
  sched_reachable s log -> require_running s = V2_OK -> bound_ (window_ s) = true ->
  let n := next_frame_ s in
  if n - commit_frontier_ (window_ s) <? kDualPredictionFreezeDepthV1
  then forall outcome r1 digest r2,
    let bundle := plan_bundle (plan_next (window_ s)).1 in
    step bundle outcome0 (port_ s) = (V2_OK, outcome, r1) ->
    state_digest n digest0 r1 = (V2_OK, digest, r2) ->
    frame_index (key bundle) = n /\
    let '(result, s') := step_next_frame s in
    result = V2_OK /\ port_ s' = r2 /\ current_frame_ s' = n /\ next_frame_ s' = n + 1 /\
    last_digest_ s' = digest /\ require_running s' = V2_OK
  else
    let '(result, s') := step_next_frame s in
    result = V2_INVALID_STATE /\ state_ s' = SimFrozen /\ port_ s' = port_ s /\
    next_frame_ s' = n.
Proof.
  intros Hr Hg Hb. pose proof (reachable_sched_ok s log Hr) as Hok.
  pose proof Hok as ((Hwo & Hio & Hst & Hn & _) & _). cbv zeta.
  destruct Hwo as [Hw0 | (c & os & Hwr)]; [by rewrite Hw0 in Hb |].
  destruct (reachable_wf c os _ Hwr) as [Hwf Hcom]. pose proof Hwf as (_ & Hlen & _).
  pose proof (in_order_next (window_ s) Hio) as Hnext.
  pose proof (plan_next_in_order (window_ s) Hlen Hio) as (_ & _ & Hpf).
  pose proof (plan_next_gate (window_ s) Hwf) as Hgate. unfold plan_distance in Hgate.
  rewrite Hnext, Hst in Hgate. unfold step_next_frame. cbv zeta. rewrite Hg.
  destruct (decide (V2_OK <> V2_OK)); [done |].
  destruct (plan_next (window_ s)) as [plan w] eqn:Hplan. cbn [fst snd] in *.
  destruct (_ <? _).
  - destruct Hgate as (Hok' & _ & _ & Hkey & _). destruct (Hpf Hok') as (Hf & _ & _). rewrite Hst in Hf.
    intros outcome r1 digest r2 Hstep Hdig. split; [by rewrite Hkey |].
    destruct (decide (status plan = Frozen)); [congruence |].
    destruct (decide (status plan <> Ok)); [done |].
    cbn [port_ over]. rewrite Hstep. destruct (decide (V2_OK <> V2_OK)); [done |].
    rewrite Hf. cbn [port_ over]. rewrite Hdig. destruct (decide (V2_OK <> V2_OK)); [done |].
    match goal with |- context [commit_step_frame plan outcome digest ?x] => set (s1 := x) end.
    assert (sched_ok (s1 <| window_ := window_ s |>) log) as Hs1 by (by apply (sched_ok_same s)).
    pose proof (commit_step_frame_ok plan outcome digest s1 log (window_ s) Hs1 Hplan Hok') as H.
    destruct (commit_step_frame plan outcome digest s1) as [result s'].
    destruct H as (-> & -> & -> & _ & -> & -> & Hs' & Hd' & _ & _).
    split_and!; try done. unfold require_running in *. by rewrite Hs', Hd'.
  - destruct Hgate as (Hfrozen & _). destruct (decide (status plan = Frozen)); [| done].
    match goal with |- context [freeze ?why ?x] =>
      destruct (freeze_same why x) as (Hrest & _ & Hport); set (s1 := x) in * end.
    unfold freeze in *. cbn [snd] in *. split_and!; try done; by destruct (decide _).
Qed.

(** [resume] only succeeds from a safe point both engines confirmed: the last
    frame run was run on real inputs, the peer had confirmed the digest it gave,
    and the digest presented now is that digest. *)
Theorem resume_from_safe_point s log now_ms peer :
  sched_reachable s log -> (resume now_ms peer s).1 = V2_OK ->
  paused_ s = true /\ Ran (current_frame_ s) false peer ∈ log /\
  Confirmed (current_frame_ s) peer ∈ log /\ current_frame_ s = next_frame_ s - 1 /\
  require_running (resume now_ms peer s).2 = V2_OK /\ paused_ (resume now_ms peer s).2 = false.
Proof.
  intros Hr. pose proof (reachable_sched_ok s log Hr) as ((_ & _ & _ & Hn & Hf & Hcur) & _ & Hslots & _).
  unfold resume. cbv zeta. destruct (shutdown_ s) eqn:Hsd; [done |].
  destruct (decide (state_ s = SimFrozen)); [done |].
  destruct (paused_ s); cbn [negb]; [| done]. set (i := digest_slot (current_frame_ s)).
  destruct (aget false (digest_valid_ s) i) eqn:Hv; cbn [negb orb]; [| done].
  destruct (Z.eqb_spec (aget 0 (digest_frame_ s) i) (current_frame_ s)) as [Hfr|]; cbn [negb]; [| done].
  destruct (aget false (digest_verified_ s) i) eqn:Hver; cbn [negb orb]; [| done].
  destruct (negb (frame_is_real _ _)); [done |].
  destruct (decide _) as [|Hg]; [done |]. apply dec_stable, gate_none in Hg. intros _.
  assert (0 <= i < 20) as Hi by (apply Z.mod_pos_bound; done).
  destruct (Hslots i Hi Hv) as (_ & Hran & Hconf). destruct (Hconf Hver) as [Hpr Hc].
  rewrite Hpr, Hfr, Hg in *. split_and!; try done.
  - apply Hcur. assert (current_frame_ s ∈ frames_run log) as H
      by (apply elem_of_frames_run; by exists false, peer).
    rewrite Hf, elem_of_reverse, elem_of_seqZ in H. lia.
  - unfold observe_authenticated_activity, require_running. destruct (_ <? _); cbn; by rewrite Hsd.
Qed.

(** The watermark's frame was run, on a prediction or confirmed already. *)
Definition wedged s : Prop :=
  let v := state_verified_through_ s in
  0 <= v < next_frame_ s /\
  (aget 0 (digest_frame_ s) (digest_slot v) = v ->
   aget false (digest_verified_ s) (digest_slot v) || aget false (predicted_ s) (digest_slot v) = true).

Lemma wedged_same s s' : rest s' = rest s -> wedged s ->
  wedged s' /\ state_verified_through_ s' = state_verified_through_ s.
Proof. unfold wedged. intros [= _ -> -> -> _ -> _ ->]. done. Qed.

Lemma commit_step_frame_rest plan outcome digest s :
  let '(result, s') := commit_step_frame plan outcome digest s in
  result = V2_OK ->
  let slot := digest_slot (plan_frame plan) in
  current_frame_ s' = plan_frame plan /\
  digest_frame_ s' = aset (digest_frame_ s) slot (plan_frame plan) /\
  digest_verified_ s' = aset (digest_verified_ s) slot false /\
  predicted_ s' = aset (predicted_ s) slot (negb (plan_predicted plan =? 0)) /\
  state_verified_through_ s' = state_verified_through_ s.
Proof.
  unfold commit_step_frame. destruct (mark_planned _ _ _) as [mr w]. by destruct (decide _).
Qed.

Lemma wedged_step s log :
  sched_ok s log -> wedged s ->
  let s' := (step_next_frame s).2 in
  wedged s' /\ state_verified_through_ s' = state_verified_through_ s.
Proof.
  intros Hok Hw. cbv zeta. unfold step_next_frame. cbv zeta. destruct (decide _); [done |].
  destruct (plan_next (window_ s)) as [plan w] eqn:Hplan.
  assert (forall why s1, rest s1 = rest s -> wedged (freeze why s1).2 /\
    state_verified_through_ (freeze why s1).2 = state_verified_through_ s) as Hfr.
  { intros why s1 Hr. apply wedged_same; [| done].
    by destruct (freeze_same why s1) as (-> & _). }
  destruct (decide _); [by apply Hfr |]. destruct (decide (_ <> _)) as [|Hst]; [by apply Hfr |].
  apply dec_stable in Hst. destruct (step _ _ _) as [[sr out] r1].
  destruct (decide _); [by apply Hfr |]. destruct (state_digest _ _ _) as [[dr dg] r2].
  destruct (decide _); [by apply (wedged_same s) |].
  match goal with |- context [commit_step_frame plan out dg ?x] => set (s1 := x) end.
  assert (sched_ok (s1 <| window_ := window_ s |>) log) as Hs1 by (by apply (sched_ok_same s)).
  pose proof (commit_step_frame_ok plan out dg s1 log (window_ s) Hs1 Hplan Hst) as H.
  pose proof (commit_step_frame_rest plan out dg s1) as Hrest.
  destruct (commit_step_frame plan out dg s1) as [result s2].
  destruct H as (-> & Hcur & Hnx & _). destruct (Hrest eq_refl) as (Hpf & Hdf & Hdv & Hpr & Hvt).
  rewrite Hcur in Hpf. cbn [snd]. rewrite <- Hpf in Hdf, Hdv, Hpr.
  change (next_frame_ s1) with (next_frame_ s) in *.
  change (digest_frame_ s1) with (digest_frame_ s) in *.
  change (digest_verified_ s1) with (digest_verified_ s) in *.
  change (predicted_ s1) with (predicted_ s) in *.
  change (state_verified_through_ s1) with (state_verified_through_ s) in *. clearbody s1.
  destruct Hw as [Hv Hslot]. destruct Hok as (_ & (_ & L2 & L3 & L4 & _) & _).
  split; [| done]. unfold wedged. rewrite Hvt, Hnx, Hdf, Hdv, Hpr. split; [lia |].
  assert (forall f, 0 <= digest_slot f < 20) as Hrange by (intros f; by apply Z.mod_pos_bound).
  pose proof (Hrange (state_verified_through_ s)). pose proof (Hrange (next_frame_ s)).
  destruct (decide (digest_slot (state_verified_through_ s) = digest_slot (next_frame_ s))) as [->|Hne].
  - rewrite aget_aset_eq by (unfold zlen; lia). lia.
  - rewrite !aget_aset_ne by lia. exact Hslot.
Qed.

Lemma wedged_ack frame peer s :
  wedged s ->
  let s' := (acknowledge_peer_digest frame peer s).2 in
  wedged s' /\ state_verified_through_ s' = state_verified_through_ s.
Proof.
  intros Hw. cbv zeta. unfold acknowledge_peer_digest. cbv zeta. destruct (decide _); [done |].
  destruct (_ <=? _); [done |]. set (i := digest_slot frame).
  destruct (aget false (digest_valid_ s) i); cbn [negb orb]; [| done].
  destruct (Z.eqb_spec (aget 0 (digest_frame_ s) i) frame) as [Hfr|]; cbn [negb]; [| done].
  destruct (aget false (digest_verified_ s) i) eqn:Hver; [done |].
  destruct (decide (dual_digest_gate_v1 _ _ <> FreezeNone)).
  { match goal with |- context [freeze ?why s] => pose proof (freeze_same why s) as Hf;
      destruct (freeze why s) end. apply wedged_same; [by destruct Hf | done]. }
  destruct (aget false (predicted_ s) i) eqn:Hpr; [done |]. cbn [snd].
  pose proof Hw as [Hv Hslot]. cbn [state_verified_through_ over] in *.
  destruct (Z.eqb_spec frame (state_verified_through_ s)) as [E|Hne].
  { exfalso. subst i. rewrite E in Hfr, Hver, Hpr. specialize (Hslot Hfr).
    by rewrite Hver, Hpr in Hslot. }
  split; [| done]. split; [exact Hv |].
  cbn [state_verified_through_ digest_frame_ digest_verified_ predicted_ over]. intros Hfv.
  destruct (decide (digest_slot (state_verified_through_ s) = i)) as [Hi|Hi];
    [rewrite Hi in Hfv; congruence |].
  assert (forall f, 0 <= digest_slot f < 20) as Hrange by (intros f; by apply Z.mod_pos_bound).
  pose proof (Hrange frame). pose proof (Hrange (state_verified_through_ s)).
  rewrite aget_aset_ne by (subst i; lia). by apply Hslot.
Qed.

(** The watermark stops for good at the first frame run on a prediction, and at
    the first frame whose confirmation came early: once the frame it has reached
    was run either way, no call short of a new binding moves it. *)
Theorem watermark_wedges s log (ops : list SchedOp) :
  sched_reachable s log -> wedged s -> Forall sched_op_wf ops ->
  Forall (fun o => match o with Begin _ _ _ _ => False | _ => True end) ops ->
  let s' := fold_left (fun s o => (sched_run o s).2) ops s in
  state_verified_through_ s' = state_verified_through_ s.
Proof.
  intros Hr Hw Hwf Hops. pose proof (reachable_sched_ok s log Hr) as Hok. clear Hr. cbv zeta.
  revert s log Hw Hok. induction Hops as [|o ops Ho _ IH]; intros s log Hw Hok; [done |].
  apply Forall_cons in Hwf as [How Hwf]. cbn [fold_left].
  pose proof (sched_run_ok o s log Hok How) as Hok'.
  assert (wedged (sched_run o s).2 /\
    state_verified_through_ (sched_run o s).2 = state_verified_through_ s) as [Hw' <-];
    [| by eapply IH].
  clear IH Hok'. destruct o; try done;
    try (match goal with |- context [sched_run ?o s] =>
           destruct (quiet_rest o s I) as (? & _ & _) end; by apply wedged_same).
  - by apply (wedged_step s log).
  - cbn [sched_run]. pose proof (wedged_ack frame peer s Hw) as H.
    by destruct (acknowledge_peer_digest frame peer s) as [[r v] s'].
  - cbn [sched_run]. unfold accept_local_input. cbv zeta. destruct (decide _); [done |].
    destruct (deliver_local_input _ _ _) as [st w].
    pose proof (handle_status_same st (s <| window_ := w |>)) as H.
    destruct (handle_window_status st _) as [[r a] s']. destruct H as (H & _).
    by apply (wedged_same s).
  - cbn [sched_run]. unfold accept_remote_input. cbv zeta. destruct (decide _); [done |].
    destruct (deliver_input _ _) as [st w].
    pose proof (handle_status_same st (s <| window_ := w |>)) as H.
    destruct (handle_window_status st _) as [[r a] s']. destruct H as (H & _).
    by apply (wedged_same s).
Qed.

(** [rollback_allowed] never allows a rollback once anything is verified: it
    answers yes for frame 0 of an unverified history and for nothing else. *)
Theorem rollback_only_at_start s log (frame : Z) :
  sched_reachable s log -> 0 <= frame ->
  rollback_allowed s frame =
    if (state_verified_through_ s =? 0) && (frame =? 0) then Some 0 else None.
Proof.
  intros Hr Hfr. destruct (reachable_sched_ok s log Hr) as (_ & _ & _ & Hv & _).
  unfold rollback_allowed, dual_rollback_slot_v1, kDualMaxRollbackFramesV1. cbv zeta.
  destruct (Z.ltb_spec frame (state_verified_through_ s)).
  { destruct (Z.eqb_spec (state_verified_through_ s) 0), (Z.eqb_spec frame 0); try done; lia. }
  destruct (Z.eqb_spec (state_verified_through_ s) 0); cbn [andb].
  - destruct (Z.eqb_spec frame 0) as [->|]; [done |]. destruct (Z.ltb_spec 0 frame); [done | lia].
  - destruct (Z.ltb_spec (state_verified_through_ s - 1) frame); [done | lia].
Qed.

End Properties.

(** ** A concrete engine *)

Module SchedDemo.

(** A worker that counts its steps and gives one digest per frame; the digest is
    unavailable when the flag says so. *)
#[global] Instance counter : DualRuntimePort (Z * bool) := {|
  load := fun _ (r : Z * bool) => (V2_OK, (0, r.2));
  step := fun b _ (r : Z * bool) =>
    (V2_OK, mkOutcome (frame_index (key b)) (replicate 4 0) 0, (r.1 + 1, r.2));
  export_state := fun _ out r => (V2_UNSUPPORTED, out, r);
  import_state := fun _ _ r => (V2_UNSUPPORTED, r);
  state_digest := fun f out (r : Z * bool) =>
    if r.2 then (V2_IO_FAILED, out, r) else (V2_OK, mkDigest [f] [f] [f], r);
|}.

Definition digest (f : Z) : DualStateDigestV1 := mkDigest [f] [f] [f].

Lemma counter_step b r :
  step b outcome0 r =
    (V2_OK, mkOutcome (frame_index (key b)) (replicate 4 0) 0, (r.1 + 1, r.2)).
Proof. reflexivity. Qed.

Lemma counter_digest f (r : Z * bool) :
  r.2 = false -> state_digest f digest0 r = (V2_OK, digest f, r).
Proof. destruct r as [n []]; [done |]. reflexivity. Qed.

Definition bind : SchedOp := Begin Dual content0 Demo.context Demo.owners.

(** Both inputs of a frame, then the frame. *)
Definition full (f : Z) : list SchedOp :=
  [Remote (Demo.input 0 f 16); Remote (Demo.input 1 f 1); StepNext].

Fixpoint play (ops : list SchedOp) (s : DualRunSchedulerV1 (Z * bool)) (log : list Event)
    : DualRunSchedulerV1 (Z * bool) * list Event :=
  match ops with
  | [] => (s, log)
  | o :: rest => play rest (sched_run o s).2 (log_after o s log)
  end.

Lemma play_reachable ops s log :
  sched_reachable s log -> Forall sched_op_wf ops ->
  sched_reachable (play ops s log).1 (play ops s log).2.
Proof.
  intros Hs Hops. revert s log Hs. induction Hops as [|o ops Ho _ IH]; intros s log Hs; [done |].
  cbn [play]. apply IH. by apply sched_op.
Qed.

Definition run (broken : bool) (ops : list SchedOp) : DualRunSchedulerV1 (Z * bool) * list Event :=
  play ops (scheduler_new (0, broken)) [].

Lemma full_wf f : 0 <= f < 2 ^ 32 -> Forall sched_op_wf (full f).
Proof.
  intros Hf. unfold full. rewrite !Forall_cons. cbn [sched_op_wf].
  split_and!; try done; apply Demo.input_wf; lia.
Qed.

Lemma run_sched_reachable broken ops :
  Forall sched_op_wf ops -> sched_reachable (run broken ops).1 (run broken ops).2.
Proof. intros H. apply play_reachable; [apply sched_start | exact H]. Qed.

(** Two frames confirmed by the peer, then a pause. *)
Definition confirmed_ops : list SchedOp :=
  bind :: Announce :: full 0 ++ [AckDigest 0 (digest 0)] ++ full 1 ++ [AckDigest 1 (digest 1)].

Lemma confirmed_wf : Forall sched_op_wf confirmed_ops.
Proof.
  unfold confirmed_ops. do 2 (constructor; [done |]). rewrite !Forall_app.
  split_and!; try (by apply full_wf); by repeat constructor.
Qed.

Definition confirmed : DualRunSchedulerV1 (Z * bool) := (run false confirmed_ops).1.
Definition confirmed_log : list Event := (run false confirmed_ops).2.

Lemma confirmed_reachable : sched_reachable confirmed confirmed_log.
Proof. exact (run_sched_reachable false confirmed_ops confirmed_wf). Qed.

End SchedDemo.

(** The same two frames on a recorded worker. *)
Definition recorded_ops (ops : list SchedOp)
    (sl : DualRunSchedulerV1 ((Z * bool) * list WorkerCall) * list Event) :=
  fold_left (fun sl o => (recorded_run o sl.1, log_after o sl.1 sl.2)) ops sl.

Lemma recorded_ops_reachable ops s log :
  recorded_reachable s log -> Forall sched_op_wf ops ->
  recorded_reachable (recorded_ops ops (s, log)).1 (recorded_ops ops (s, log)).2.
Proof.
  unfold recorded_ops. intros Hs Hops. revert s log Hs.
  induction Hops as [|o ops Ho _ IH]; intros s log Hs; [done |].
  cbn [fold_left fst snd]. apply IH. by apply recorded_op.
Qed.

Definition recorded_demo := recorded_ops SchedDemo.confirmed_ops (scheduler_new ((0, false), []), []).

Lemma recorded_demo_reachable : recorded_reachable recorded_demo.1 recorded_demo.2.
Proof.
  exact (recorded_ops_reachable _ _ _ (recorded_start (0, false)) SchedDemo.confirmed_wf).
Qed.

Lemma frames_run_in_order_witness :
  fed recorded_demo.2 (port_ recorded_demo.1).2 /\
  frames_run recorded_demo.2 = [1; 0] /\ length (port_ recorded_demo.1).2 = 4%nat.
Proof.
  split; [exact (proj1 (frames_run_in_order _ _ recorded_demo_reachable)) |].
  split; vm_compute; reflexivity.
Defined.

Lemma verified_frames_agreed_witness :
  state_verified_through_ recorded_demo.1 = 2 /\
  forall f, 0 <= f < state_verified_through_ recorded_demo.1 ->
    exists d b since before,
      Ran f false d ∈ recorded_demo.2 /\ Confirmed f d ∈ recorded_demo.2 /\
      (forall p d', Ran f p d' ∈ recorded_demo.2 -> p = false /\ d' = d) /\
      (port_ recorded_demo.1).2 = since ++ Digested f V2_OK d :: Stepped b V2_OK :: before /\
      frame_index (key b) = f /\ predicted_port_mask b = 0 /\
      forall b' result, Stepped b' result ∈ since -> f < frame_index (key b').
Proof.
  split; [vm_compute; reflexivity |].
  exact (proj2 (verified_frames_agreed _ _ recorded_demo_reachable)).
Defined.

(** A scheduler frozen by the loss of its surface. *)
Definition frozen_ops : list SchedOp := SchedDemo.confirmed_ops ++ [Surface false].

Lemma frozen_ops_wf : Forall sched_op_wf frozen_ops.
Proof. apply Forall_app. split; [exact SchedDemo.confirmed_wf | by repeat constructor]. Qed.

Definition frozen_demo : DualRunSchedulerV1 (Z * bool) := (SchedDemo.run false frozen_ops).1.

Lemma frozen_demo_reachable : sched_reachable frozen_demo (SchedDemo.run false frozen_ops).2.
Proof. exact (SchedDemo.run_sched_reachable false frozen_ops frozen_ops_wf). Qed.

Lemma frozen_is_final_witness :
  let s' := fold_left (fun s o => (sched_run o s).2) [Announce; StepNext] frozen_demo in
  state_ frozen_demo = SimFrozen /\ state_ s' = SimFrozen /\ port_ s' = port_ frozen_demo.
Proof.
  assert (state_ frozen_demo = SimFrozen) as Hs by (vm_compute; reflexivity).
  assert (Forall (fun o => match o with Begin _ _ _ _ => False | _ => True end) [Announce; StepNext])
    as Hops by (repeat constructor).
  pose proof (frozen_is_final frozen_demo _ _ frozen_demo_reachable Hs Hops) as H.
  exact (conj Hs (conj (proj1 H) (proj1 (proj2 (proj2 (proj2 H)))))).
Defined.

Lemma step_next_frame_exact_witness :
  require_running SchedDemo.confirmed = V2_OK /\ bound_ (window_ SchedDemo.confirmed) = true /\
  let '(result, s') := step_next_frame SchedDemo.confirmed in
  result = V2_OK /\ next_frame_ s' = next_frame_ SchedDemo.confirmed + 1.
Proof.
  assert (require_running SchedDemo.confirmed = V2_OK) as Hg by (vm_compute; reflexivity).
  assert (bound_ (window_ SchedDemo.confirmed) = true) as Hb by (vm_compute; reflexivity).
  assert ((port_ SchedDemo.confirmed).2 = false) as Hp by (clear; vm_compute; reflexivity).
  assert ((next_frame_ SchedDemo.confirmed - commit_frontier_ (window_ SchedDemo.confirmed) <?
           kDualPredictionFreezeDepthV1) = true) as Hd by (clear; vm_compute; reflexivity).
  split; [exact Hg |]. split; [exact Hb |].
  pose proof (step_next_frame_exact _ _ SchedDemo.confirmed_reachable Hg Hb) as H. cbv zeta in H.
  rewrite Hd in H.
  pose proof (SchedDemo.counter_digest (next_frame_ SchedDemo.confirmed)
    ((port_ SchedDemo.confirmed).1 + 1, (port_ SchedDemo.confirmed).2) Hp) as Hdig.
  specialize (H _ _ _ _ (SchedDemo.counter_step _ _) Hdig) as [_ H].
  destruct (step_next_frame SchedDemo.confirmed) as [result s'].
  exact (conj (proj1 H) (proj1 (proj2 (proj2 (proj2 H))))).
Defined.

Lemma resume_from_safe_point_witness :
  let s := (SchedDemo.run false (SchedDemo.confirmed_ops ++ [Pause 5])).1 in
  (resume 9 (SchedDemo.digest 1) s).1 = V2_OK /\
  require_running (resume 9 (SchedDemo.digest 1) s).2 = V2_OK.
Proof.
  assert (Forall sched_op_wf (SchedDemo.confirmed_ops ++ [Pause 5])) as Hwf
    by (apply Forall_app; split; [exact SchedDemo.confirmed_wf | by repeat constructor]).
  cbv zeta.
  assert ((resume 9 (SchedDemo.digest 1)
            (SchedDemo.run false (SchedDemo.confirmed_ops ++ [Pause 5])).1).1 = V2_OK) as Hok
    by (clear; vm_compute; reflexivity).
  split; [exact Hok |].
  destruct (resume_from_safe_point _ _ 9 _ (SchedDemo.run_sched_reachable false _ Hwf) Hok)
    as (_ & _ & _ & _ & H & _). exact H.
Defined.

Lemma rollback_only_at_start_witness :
  state_verified_through_ SchedDemo.confirmed = 2 /\
  rollback_allowed SchedDemo.confirmed 2 = None /\ rollback_allowed SchedDemo.confirmed 1 = None.
Proof.
  assert (state_verified_through_ SchedDemo.confirmed = 2) as Hv by (vm_compute; reflexivity).
  assert (0 <= 2) as H2 by lia. assert (0 <= 1) as H1 by lia.
  split; [exact Hv |].
  rewrite (rollback_only_at_start _ _ 2 SchedDemo.confirmed_reachable H2),
    (rollback_only_at_start _ _ 1 SchedDemo.confirmed_reachable H1), Hv.
  split; reflexivity.
Defined.

(** Both frames run, the peer's confirmations in the order 1, 0. *)
Definition swapped_ops : list SchedOp :=
  SchedDemo.bind :: Announce :: SchedDemo.full 0 ++ SchedDemo.full 1 ++
  [AckDigest 1 (SchedDemo.digest 1); AckDigest 0 (SchedDemo.digest 0)].

Lemma swapped_wf : Forall sched_op_wf swapped_ops.
Proof.
  unfold swapped_ops. do 2 (constructor; [done |]). rewrite !Forall_app.
  split_and!; try (by apply SchedDemo.full_wf); by repeat constructor.
Qed.

Definition swapped : DualRunSchedulerV1 (Z * bool) := (SchedDemo.run false swapped_ops).1.

Lemma swapped_reachable : sched_reachable swapped (SchedDemo.run false swapped_ops).2.
Proof. exact (SchedDemo.run_sched_reachable false swapped_ops swapped_wf). Qed.

Lemma watermark_wedges_witness :
  let ops := [AckDigest 1 (SchedDemo.digest 1)] in
  state_verified_through_ swapped = 1 /\ next_frame_ swapped = 2 /\
  state_verified_through_ (fold_left (fun s o => (sched_run o s).2) ops swapped) =
    state_verified_through_ swapped.
Proof.
  cbv zeta. split; [vm_compute; reflexivity |]. split; [vm_compute; reflexivity |].
  assert (wedged swapped) as Hw
    by (split; [split; vm_compute; [intros H; discriminate H | reflexivity]
               | intros _; vm_compute; reflexivity]).
  assert (Forall sched_op_wf [AckDigest 1 (SchedDemo.digest 1)]) as Hwf by (by repeat constructor).
  assert (Forall (fun o => match o with Begin _ _ _ _ => False | _ => True end)
    [AckDigest 1 (SchedDemo.digest 1)]) as Hops by (repeat constructor).
  exact (watermark_wedges swapped _ _ swapped_reachable Hw Hwf Hops).
Defined.

(** A pause does not hold: from a paused scheduler whose last frame no peer
    confirmed, [resume] is refused for every digest, but [announce_running] is not,
    and the next step runs a frame. *)
Theorem announce_bypasses_pause :
  let s := (SchedDemo.run false (SchedDemo.bind :: Announce :: SchedDemo.full 0 ++ [Pause 5])).1 in
  paused_ s = true /\ (forall now_ms peer, (resume now_ms peer s).1 = V2_INVALID_STATE) /\
  (announce_running s).1 = V2_OK /\
  (step_next_frame (announce_running s).2).1 = V2_OK /\
  port_ (step_next_frame (announce_running s).2).2 = (2, false) /\
  paused_ (step_next_frame (announce_running s).2).2 = true.
Proof.
  cbv zeta. split; [vm_compute; reflexivity |]. split; [intros now_ms peer; vm_compute; reflexivity |].
  split_and!; vm_compute; reflexivity.
Qed.

(** When the worker cannot give its digest after a step, the scheduler neither
    freezes nor records the frame: it stays running, and the next call runs the
    worker on the same frame again. *)
Theorem digest_failure_repeats_frame :
  let s0 := (SchedDemo.run true [SchedDemo.bind; Announce]).1 in
  let s1 := (step_next_frame s0).2 in
  let s2 := (step_next_frame s1).2 in
  (step_next_frame s0).1 = V2_IO_FAILED /\ (step_next_frame s1).1 = V2_IO_FAILED /\
  require_running s2 = V2_OK /\ (port_ s0, port_ s1, port_ s2) = ((0, true), (1, true), (2, true)) /\
  plan_frame (plan_next (window_ s0)).1 = 0 /\ plan_frame (plan_next (window_ s1)).1 = 0 /\
  next_frame_ s2 = 0.
Proof. cbv zeta. split_and!; vm_compute; reflexivity. Qed.

(** A refused binding thaws a frozen scheduler: after [HOST_STREAM] is refused
    the state is unloaded, a pause makes it ready, and it runs the old session on. *)
Theorem refused_begin_unfreezes :
  let s := (SchedDemo.run false frozen_ops).1 in
  let s' := (SchedDemo.run false (frozen_ops ++
              [Begin HostStream content0 Demo.context Demo.owners; Pause 5; Announce])).1 in
  state_ s = SimFrozen /\ freeze_reason_ s = TransportTerminal /\
  (sched_run (Begin HostStream content0 Demo.context Demo.owners) s).1 = V2_UNAVAILABLE /\
  require_running s' = V2_OK /\ freeze_reason_ s' = TransportTerminal /\
  (step_next_frame s').1 = V2_OK /\ next_frame_ (step_next_frame s').2 = next_frame_ s + 1.
Proof. cbv zeta. split_and!; vm_compute; reflexivity. Qed.

(** A binding refused for its owners has already reloaded the worker: the scheduler
    runs on with its frame counter over a worker that is back at its first frame. *)
Theorem refused_begin_reloads_worker :
  let s := SchedDemo.confirmed in
  let o := Begin Dual content0 Demo.context (replicate 4 owner0) in
  (sched_run o s).1 = V2_INVALID_ARGUMENT /\ require_running (sched_run o s).2 = V2_OK /\
  (port_ s, next_frame_ s) = ((2, false), 2) /\
  (port_ (sched_run o s).2, next_frame_ (sched_run o s).2) = ((0, false), 2).
Proof. cbv zeta. split_and!; vm_compute; reflexivity. Qed.
