(* ===== verification/DualAdapter.v ===== *)
(** * Adapter of the C simulation provider
    ([shared/src/session/dual/dual_runtime_adapter.{hpp,cpp}])

    The engine reaches its simulation worker through a table of C functions.  The
    adapter turns that table into a [DualRuntimePort]: a missing table or entry is
    [UNAVAILABLE], a failing call leaves the out parameter alone, and an export
    that claims more bytes than it was given is a contract violation.

    The provider's functions are parameters; they work on the provider's own
    state and on the zeroed structures the adapter hands them.  The null checks
    of the adapter's own out parameters are not modelled (its callers pass
    locals), nor is the lifetime of the table. *)

From S2P Require Import Prelude.
From S2P Require Import SessionAbi.
From S2P Require Import CanonicalInput.
From S2P Require Import InputWindow.
From S2P Require Import DualScheduler.

(** ** The C structures *)

Record fly_session_dual_content_ref_v2 := mkAbiContent {
  abi_content_session : bytes;
  abi_content_branch : bytes;
  abi_content_hash : bytes;
  abi_content_epoch : Z;
}.

Record fly_session_dual_input_bundle_v2 := mkAbiBundle {
  struct_size : Z;
  abi_version : Z;
  abi_session : bytes;
  abi_branch : bytes;
  abi_epoch : Z;
  abi_frame : Z;
  abi_revision : Z;
  abi_seat : Z;
  abi_predicted : Z;
  abi_ports : list (Z * Z);
}.

Record fly_session_dual_frame_outcome_v2 := mkAbiOutcome {
  abi_outcome_frame : Z;
  abi_applied : list Z;
  abi_honoured : Z;
}.

Record fly_session_dual_state_digest_v2 := mkAbiDigest {
  abi_state : bytes;
  abi_frame_digest : bytes;
  abi_pcm : bytes;
}.

Definition FLY_SESSION_ABI_VERSION_2 : Z := 2.
Definition FLY_SESSION_DUAL_INPUT_BUNDLE_V2_SIZE : Z := 136.

Definition abi_outcome0 : fly_session_dual_frame_outcome_v2 := mkAbiOutcome 0 (replicate 4 0) 0.
Definition abi_digest0 : fly_session_dual_state_digest_v2 :=
  mkAbiDigest (replicate 32 0) (replicate 32 0) (replicate 32 0).

(** The provider's table: each entry may be null. *)
Record fly_session_dual_runtime_port_v2 (S : Type) := mkTable {
  abi_load : option (fly_session_dual_content_ref_v2 -> S -> fly_session_result_v2 * S);
  abi_step : option (fly_session_dual_input_bundle_v2 -> fly_session_dual_frame_outcome_v2 -> S ->
                     fly_session_result_v2 * fly_session_dual_frame_outcome_v2 * S);
  abi_export : option (Z -> bytes -> S -> fly_session_result_v2 * (bytes * Z * bytes) * S);
  abi_import : option (option bytes -> Z -> S -> fly_session_result_v2 * S);
  abi_state_digest : option (Z -> fly_session_dual_state_digest_v2 -> S ->
                             fly_session_result_v2 * fly_session_dual_state_digest_v2 * S);
}.
Arguments mkTable {S}.
Arguments abi_load {S}.
Arguments abi_step {S}.
Arguments abi_export {S}.
Arguments abi_import {S}.
Arguments abi_state_digest {S}.

(** ** Conversions *)

Definition content_to_abi (c : DualContentRefV1) : fly_session_dual_content_ref_v2 :=
  mkAbiContent (content_session c) (content_branch c) (content_hash c) (content_epoch c).

Definition bundle_to_abi (b : DualInputBundleV1) : fly_session_dual_input_bundle_v2 :=
  mkAbiBundle FLY_SESSION_DUAL_INPUT_BUNDLE_V2_SIZE FLY_SESSION_ABI_VERSION_2
    (session_id (key b)) (branch_id (key b)) (timeline_epoch (key b)) (frame_index (key b))
    (seat_revision (key b)) (logical_seat b) (predicted_port_mask b)
    ((fun p => (mask (port_of b p), input_sequence (port_of b p))) <$> all_ports).

Definition from_abi (v : fly_session_dual_frame_outcome_v2) : DualFrameOutcomeV1 :=
  mkOutcome (abi_outcome_frame v) ((fun p => aget 0 (abi_applied v) p) <$> all_ports)
    (abi_honoured v).

Definition digest_from_abi (v : fly_session_dual_state_digest_v2) : DualStateDigestV1 :=
  mkDigest (abi_state v) (abi_frame_digest v) (abi_pcm v).

(** ** The adapter *)

(** The provider's state behind the adapter, its table, and the call counter. *)
Record CAbiDualRuntimePortV1 (S : Type) := mkCAbi {
  table : option (fly_session_dual_runtime_port_v2 S);
  provider : S;
  forwarded_ : Z;
}.
Arguments mkCAbi {S}.
Arguments table {S}.
Arguments provider {S}.
Arguments forwarded_ {S}.

Section Adapter.
Context {S : Type}.
Implicit Types c : CAbiDualRuntimePortV1 S.

(** The state after a call that was forwarded. *)
Definition forward c (s : S) : CAbiDualRuntimePortV1 S :=
  mkCAbi (table c) s (u64 (forwarded_ c + 1)).

Definition cabi_load (content : DualContentRefV1) c
    : fly_session_result_v2 * CAbiDualRuntimePortV1 S :=
  match table c ≫= abi_load with
  | None => (V2_UNAVAILABLE, c)
  | Some f =>
    let '(result, s) := f (content_to_abi content) (provider c) in (result, forward c s)
  end.

Definition cabi_step (input : DualInputBundleV1) (out : DualFrameOutcomeV1) c
    : fly_session_result_v2 * DualFrameOutcomeV1 * CAbiDualRuntimePortV1 S :=
  match table c ≫= abi_step with
  | None => (V2_UNAVAILABLE, out, c)
  | Some f =>
    let '(result, outcome, s) := f (bundle_to_abi input) abi_outcome0 (provider c) in
    (result, if decide (result = V2_OK) then from_abi outcome else out, forward c s)
  end.

(** The buffer is the provider's to write whatever it returns; the size and the
    hash are copied back only when the call succeeds. *)
Definition cabi_export_state (capacity : Z) (out : bytes * Z * bytes) c
    : fly_session_result_v2 * (bytes * Z * bytes) * CAbiDualRuntimePortV1 S :=
  match table c ≫= abi_export with
  | None => (V2_UNAVAILABLE, out, c)
  | Some f =>
    let '(buffer, out_written, out_hash) := out in
    let '(result, (buffer, written, hash), s) := f capacity buffer (provider c) in
    let c := forward c s in
    if decide (result <> V2_OK) then (result, (buffer, out_written, out_hash), c)
    else if capacity <? written
    then (V2_CONTRACT_VIOLATION, (buffer, out_written, out_hash), c)
    else (V2_OK, (buffer, written, hash), c)
  end.

Definition cabi_import_state (data : option bytes) (size : Z) c
    : fly_session_result_v2 * CAbiDualRuntimePortV1 S :=
  match table c ≫= abi_import with
  | None => (V2_UNAVAILABLE, c)
  | Some f =>
    if bool_decide (data = None) && negb (size =? 0) then (V2_INVALID_ARGUMENT, c)
    else let '(result, s) := f data size (provider c) in (result, forward c s)
  end.

Definition cabi_state_digest (frame : Z) (out : DualStateDigestV1) c
    : fly_session_result_v2 * DualStateDigestV1 * CAbiDualRuntimePortV1 S :=
  match table c ≫= abi_state_digest with
  | None => (V2_UNAVAILABLE, out, c)
  | Some f =>
    let '(result, value, s) := f frame abi_digest0 (provider c) in
    if decide (result <> V2_OK) then (result, out, forward c s)
    else (V2_OK, digest_from_abi value, forward c s)
  end.

#[global] Instance cabi_port : DualRuntimePort (CAbiDualRuntimePortV1 S) := {|
  load := cabi_load;
  step := cabi_step;
  export_state := cabi_export_state;
  import_state := cabi_import_state;
  state_digest := cabi_state_digest;
|}.

#[global] Instance cabi_laws : DualRuntimePortLaws (CAbiDualRuntimePortV1 S).
Proof.
  split.
  - intros b out c. cbn. unfold cabi_step. destruct (table c ≫= abi_step) as [f|]; [| done].
    destruct (f _ _ _) as [[result o] s]. cbn. by destruct (decide _).
  - intros cap [[buf w] h] c. cbn. unfold cabi_export_state.
    destruct (table c ≫= abi_export) as [f|]; [| done].
    destruct (f cap buf _) as [[result [[b n] hh]] s]. destruct (decide _); [done |].
    by destruct (_ <? _).
  - intros cap [[buf w] h] c. cbn. unfold cabi_export_state.
    destruct (table c ≫= abi_export) as [f|]; [| done].
    destruct (f cap buf _) as [[result [[b n] hh]] s]. destruct (decide _) as [|H]; [done |].
    destruct (Z.ltb_spec cap n); [done |]. intros _. cbn. lia.
  - intros f out c. cbn. unfold cabi_state_digest.
    destruct (table c ≫= abi_state_digest) as [g|]; [| done].
    destruct (g _ _ _) as [[result v] s]. by destruct (decide _).
Qed.

End Adapter.

(** A provider that lacks the digest function: the scheduler's step is refused and
    the worker has run. *)
Example missing_digest_runs_worker :
  let t := mkTable (Some (fun _ s => (V2_OK, s))) (Some (fun _ o s => (V2_OK, o, s + 1)))
             None None None in
  let s0 := (begin Dual content0 Demo.context Demo.owners
               (scheduler_new (mkCAbi (Some t) 0 0))).2 in
  let s1 := (announce_running s0).2 in
  (step_next_frame s1).1 = V2_UNAVAILABLE /\ provider (port_ (step_next_frame s1).2) = 1.
Proof. cbv zeta. split; vm_compute; reflexivity. Qed.
