(* ===== verification/CanonicalInputWire.v ===== *)
(** * The canonical input record ([shared/src/session/dual/canonical_input_wire.{hpp,cpp}])

    The 154-byte record two engines exchange for one frame of input.  The bundle
    has facts the record lacks (the seat, its signing key) and the record has facts
    the bundle lacks (authority term, mode generation, batch sequence, the source of
    each port), which the encoder takes from a context.

    The enum bytes of the context are bytes: a C++ enum of underlying type
    [uint8_t] holds any of them, and the encoder checks them. *)

From S2P Require Import Prelude Sha256 SessionCodec SessionAbi CanonicalInput.

(** ** Definitions *)

Definition kDualInputWireBytesV1 : Z := 154.

Module SourceKind.
Definition RealSample : Z := 1.
Definition HeldPrime : Z := 2.
Definition PortClear : Z := 3.
Definition NeutralUnassigned : Z := 4.
Definition Predicted : Z := 5.
Definition TerminalHold : Z := 6.
Definition HeldSample : Z := 7.
End SourceKind.

Module ClearReason.
Definition None_ : Z := 0.
Definition Stop : Z := 1.
Definition Pause : Z := 2.
Definition PeerDisconnect : Z := 3.
Definition SeatReassign : Z := 4.
End ClearReason.

Record DualInputWireContextV1 := mkContext {
  authority_term : Z;
  mode_generation : Z;
  batch_sequence : Z;
  source_kind : list Z;
  clear_reason : list Z;
  stated : list bool;
}.

Inductive DualInputWireStatusV1 := WireOk | WireInvalidArgument | WireInvalidBundle | WireInvalidBytes
  | WireInvalidContext.

#[global] Instance wire_status_eq_dec : EqDecision DualInputWireStatusV1.
Proof. solve_decision. Defined.

Definition source_kind_is_known (value : Z) : bool := (1 <=? value) && (value <=? 7).

(** Whether the bundle marks a port predicted. *)
Definition marked_predicted (b : DualInputBundleV1) (port : Z) : bool :=
  negb (Z.land (predicted_port_mask b) (Z.shiftl 1 port) =? 0).

(** The kind and the reason the encoder uses for a port. *)
Definition port_source (b : DualInputBundleV1) (c : DualInputWireContextV1) (port : Z) : Z * Z :=
  if aget false (stated c) port
  then (aget 0 (source_kind c) port, aget 0 (clear_reason c) port)
  else (if marked_predicted b port then SourceKind.Predicted else SourceKind.RealSample,
        ClearReason.None_).

(** One iteration of the port loop: a refusal, or the 16 bytes of the port's slot. *)
Definition encode_port (b : DualInputBundleV1) (c : DualInputWireContextV1) (port : Z)
    : DualInputWireStatusV1 + bytes :=
  let predicted := marked_predicted b port in
  let '(kind, reason) := port_source b c port in
  if aget false (stated c) port && negb (eqb predicted (kind =? SourceKind.Predicted))
  then inl WireInvalidContext
  else if negb (source_kind_is_known kind) then inl WireInvalidContext
  else if 4 <? reason then inl WireInvalidContext
  else
    let raw := mask (port_of b port) in
    if negb (Z.ldiff raw kDualFullPortMaskV1 =? 0) then inl WireInvalidBundle
    else
      let normalized := normalize_dual_port_mask_v1 raw in
      if negb (normalized =? raw) then inl WireInvalidBundle
      else inr (mjoin [[kind]; [reason]; [0; 0]; be_bytes 4 normalized;
                       be_bytes 8 (input_sequence (port_of b port))]).

Fixpoint encode_ports (b : DualInputBundleV1) (c : DualInputWireContextV1) (ports : list Z)
    : DualInputWireStatusV1 + list bytes :=
  match ports with
  | [] => inr []
  | port :: rest =>
    match encode_port b c port with
    | inl st => inl st
    | inr slot =>
      match encode_ports b c rest with
      | inl st => inl st
      | inr slots => inr (slot :: slots)
      end
    end
  end.

(** The prediction mask accumulated over the ports that passed. *)
Definition wire_predicted_mask (b : DualInputBundleV1) (c : DualInputWireContextV1) : Z :=
  fold_left (fun m port => if (port_source b c port).1 =? SourceKind.Predicted
                           then Z.lor m (Z.shiftl 1 port) else m) (seqZ 0 4) 0.

(** The fields in the order of their offsets 0, 2, 18, 34, 42, 50, 58, 66, 74, 82,
    83 and 90. *)
Definition wire_fields (b : DualInputBundleV1) (c : DualInputWireContextV1) (slots : list bytes)
    : list bytes :=
  [be_bytes 2 1; session_id (key b); branch_id (key b); be_bytes 8 (authority_term c);
   be_bytes 8 (timeline_epoch (key b)); be_bytes 8 (seat_revision (key b));
   be_bytes 8 (mode_generation c); be_bytes 8 (frame_index (key b)); be_bytes 8 (batch_sequence c);
   [u8 (wire_predicted_mask b c)]; replicate 7 0] ++ slots.

Definition encode_dual_input_bundle_v1 (b : DualInputBundleV1) (c : DualInputWireContextV1)
    (out : option bytes) : DualInputWireStatusV1 * option bytes :=
  match out with
  | None => (WireInvalidArgument, out)
  | Some _ =>
    if negb (canonical_input_is_canonical_v1 b) then (WireInvalidBundle, out)
    else if (authority_term c =? 0) || (mode_generation c =? 0) || (batch_sequence c =? 0)
    then (WireInvalidContext, out)
    else
      match encode_ports b c (seqZ 0 4) with
      | inl st => (st, out)
      | inr slots =>
        let record := mjoin (wire_fields b c slots) in
        let '(st, _) := check (Some "CanonicalInputBundleV1"%string) (Some record)
                              kDualInputWireBytesV1 (Some (replicate 32 0)) in
        if decide (st <> Ok) then (WireInvalidBundle, out) else (WireOk, Some record)
      end
  end.

(** The slot of a port, decoded. *)
Definition decode_port (data : bytes) (port : Z) : DualPortSampleV1 :=
  let slot := 90 + port * 16 in mkSample (load32 data (slot + 4)) (load64 data (slot + 8)).

Definition decode_predicted (data : bytes) : Z :=
  fold_left (fun m port => if at_ data (90 + port * 16) =? SourceKind.Predicted
                           then Z.lor m (Z.shiftl 1 port) else m) (seqZ 0 4) 0.

Definition decode_bundle (data : bytes) (seat : Z) (owner : bytes) : DualInputBundleV1 :=
  mkBundle (mkKey (slice data 2 16) (slice data 18 16) (load64 data 42) (load64 data 66) (load64 data 50))
    seat [0; 0; 0] (decode_predicted data) (decode_port data <$> seqZ 0 4) owner.

Definition decode_dual_input_bundle_v1 (data : option bytes) (size seat : Z) (owner : bytes)
    (out : option DualInputBundleV1) : DualInputWireStatusV1 * option DualInputBundleV1 :=
  match data, out with
  | Some d, Some _ =>
    if negb (size =? kDualInputWireBytesV1) then (WireInvalidArgument, out)
    else if kDualPortCountV1 <=? seat then (WireInvalidArgument, out)
    else
      let '(st, _) := check (Some "CanonicalInputBundleV1"%string) (Some d) size (Some (replicate 32 0)) in
      if decide (st <> Ok) then (WireInvalidBytes, out)
      else
        let b := decode_bundle d seat owner in
        if negb (canonical_input_is_canonical_v1 b) then (WireInvalidBytes, out)
        else (WireOk, Some b)
  | _, _ => (WireInvalidArgument, out)
  end.

(** ** The bundle check, as a condition on the record *)

Lemma check_bundle_port_iff data mask port :
  let slot := 90 + port * 16 in
  check_bundle_port data mask port = Ok <->
  1 <= at_ data slot <= 7 /\ at_ data (slot + 1) <= 4 /\
  at_ data (slot + 2) = 0 /\ at_ data (slot + 3) = 0 /\
  Z.land (Z.shiftr mask port) 1 = (if at_ data slot =? 5 then 1 else 0) /\
  Z.land (load32 data (slot + 4)) 0xFFFFFF00 = 0 /\
  Z.land (load32 data (slot + 4)) 0x30 <> 0x30 /\ Z.land (load32 data (slot + 4)) 0xC0 <> 0xC0.
Proof.
  cbv zeta. unfold check_bundle_port. cbv zeta.
  destruct (Z.ltb_spec (at_ data (90 + port * 16)) 1); [split; [done | lia] |].
  destruct (Z.ltb_spec 7 (at_ data (90 + port * 16))); [split; [done | lia] |]. cbn [orb].
  destruct (Z.ltb_spec 4 (at_ data (90 + port * 16 + 1))); [split; [done | lia] |].
  destruct (Z.eqb_spec (at_ data (90 + port * 16 + 2)) 0); [| split; [done | tauto]].
  destruct (Z.eqb_spec (at_ data (90 + port * 16 + 3)) 0); [| split; [done | tauto]]. cbn [negb orb].
  destruct (Z.eqb_spec (Z.land (Z.shiftr mask port) 1) (if at_ data (90 + port * 16) =? 5 then 1 else 0));
    [| split; [done | tauto]]. cbn [negb].
  destruct (Z.eqb_spec (Z.land (load32 data (90 + port * 16 + 4)) 0xFFFFFF00) 0); [| split; [done | tauto]].
  cbn [negb].
  destruct (Z.eqb_spec (Z.land (load32 data (90 + port * 16 + 4)) 0x30) 0x30); [split; [done | tauto] |].
  destruct (Z.eqb_spec (Z.land (load32 data (90 + port * 16 + 4)) 0xC0) 0xC0); [split; [done | tauto] |].
  by split.
Qed.

Lemma check_bundle_iff out data :
  (check_bundle out data).1 = Ok <->
  zlen data = 154 /\ load16 data 0 = 1 /\ zeros data 83 7 = true /\ Z.land (at_ data 82) 0xF0 = 0 /\
  forall port, 0 <= port < 4 -> check_bundle_port data (at_ data 82) port = Ok.
Proof.
  unfold check_bundle, length_status. cbv zeta.
  destruct (Z.eqb_spec (zlen data) 154); [| destruct (_ <? _); (split; [done | tauto])].
  destruct (decide (Ok <> Ok)); [done |].
  destruct (Z.eqb_spec (load16 data 0) 1); [| split; [done | tauto]]. cbn [negb].
  destruct (zeros data 83 7); [| split; [done | by intros (_ & _ & ? & _)]]. cbn [negb].
  destruct (Z.eqb_spec (Z.land (at_ data 82) 0xF0) 0); [| split; [done | tauto]]. cbn [negb].
  assert (check_bundle_ports data (at_ data 82) (seqZ 0 4) = Ok <->
    forall port, 0 <= port < 4 -> check_bundle_port data (at_ data 82) port = Ok) as Hp.
  { assert (forall port, 0 <= port < 4 <-> port ∈ seqZ 0 4) as Hel
      by (intros port; rewrite elem_of_seqZ; lia).
    setoid_rewrite Hel. generalize (seqZ 0 4) as l. induction l as [|p l IH]; cbn [check_bundle_ports].
    { split; [| done]. intros _ port Hport. by apply not_elem_of_nil in Hport. }
    cbv zeta. destruct (decide (check_bundle_port data (at_ data 82) p <> Ok)) as [Hn|Hn].
    - split; [done |]. intros H. destruct Hn. apply H. by left.
    - rewrite IH. split; [| intros H port Hport; apply H; by right].
      intros H port Hport. apply elem_of_cons in Hport as [->|]; [| by apply H].
      destruct (decide (check_bundle_port data (at_ data 82) p = Ok)); done. }
  destruct (decide (check_bundle_ports data (at_ data 82) (seqZ 0 4) <> Ok)) as [Hn|Hn].
  - split; [done |]. intros (_ & _ & _ & _ & H). destruct Hn. by apply Hp.
  - split; [| done]. intros _. split_and!; try done. apply Hp.
    by destruct (decide (check_bundle_ports data (at_ data 82) (seqZ 0 4) = Ok)).
Qed.

(** The public check on a whole buffer is the bundle check. *)
Lemma check_bundle_name data size out :
  0 <= size -> size <= zlen data ->
  (check (Some "CanonicalInputBundleV1"%string) (Some data) size (Some out)).1 =
  (check_bundle out (slice data 0 size)).1.
Proof.
  intros H0 Hs. unfold check.
  change (check_object "CanonicalInputBundleV1" (slice data 0 size) out) with (check_bundle out (slice data 0 size)).
  by destruct (check_bundle out (slice data 0 size)).
Qed.

Lemma slice_whole (l : bytes) n : zlen l = n -> slice l 0 n = l.
Proof. intros <-. apply slice_all. Qed.

(** *** Slots *)

Definition slot_bytes (kind reason m q : Z) : bytes :=
  mjoin [[kind]; [reason]; [0; 0]; be_bytes 4 m; be_bytes 8 q].

Lemma slot_reads data off kind reason m q :
  0 <= off -> off + 16 <= zlen data -> slice data off 16 = slot_bytes kind reason m q ->
  0 <= m < 2 ^ 32 -> 0 <= q < 2 ^ 64 ->
  at_ data off = kind /\ at_ data (off + 1) = reason /\ at_ data (off + 2) = 0 /\
  at_ data (off + 3) = 0 /\ load32 data (off + 4) = m /\ load64 data (off + 8) = q.
Proof.
  intros H0 Hl Hs Hm Hq.
  assert (forall k, 0 <= k < 16 -> at_ data (off + k) = at_ (slot_bytes kind reason m q) k) as Hat
    by (intros k Hk; rewrite <- Hs; symmetry; by apply at_slice).
  split; [by rewrite <- (Z.add_0_r off), Hat by lia |].
  do 3 (split; [by rewrite Hat by lia |]).
  rewrite load32_value, load64_value by lia. split.
  - rewrite <- (slice_slice data off 16 4 4), Hs by lia.
    unfold slot_bytes. rewrite (slice_field _ 3 (be_bytes 4 m)) by done.
    by apply be_value_be_bytes_small.
  - rewrite <- (slice_slice data off 16 8 8), Hs by lia.
    unfold slot_bytes. rewrite (slice_field _ 4 (be_bytes 8 q)) by done.
    by apply be_value_be_bytes_small.
Qed.

Lemma slot_of_reads data off :
  is_bytes data -> 0 <= off -> off + 16 <= zlen data ->
  at_ data (off + 2) = 0 -> at_ data (off + 3) = 0 ->
  slice data off 16 = slot_bytes (at_ data off) (at_ data (off + 1)) (load32 data (off + 4)) (load64 data (off + 8)).
Proof.
  intros Hb H0 Hl H2 H3. unfold slot_bytes.
  rewrite load32_value, load64_value by lia.
  pose proof (be_bytes_slice data (off + 4) 4 Hb ltac:(lia) ltac:(lia)) as E4.
  pose proof (be_bytes_slice data (off + 8) 8 Hb ltac:(lia) ltac:(lia)) as E8.
  change (Z.of_nat 4) with 4 in E4. change (Z.of_nat 8) with 8 in E8. rewrite E4, E8.
  pose proof (mjoin_cut data off [1; 1; 1; 1; 4; 8] H0) as Hcut. change (total _) with 16 in Hcut.
  rewrite <- (Hcut eq_refl) by lia.
  cbn [cut]. replace (off + 1 + 1) with (off + 2) by lia. replace (off + 2 + 1) with (off + 3) by lia.
  replace (off + 3 + 1) with (off + 4) by lia. replace (off + 4 + 4) with (off + 8) by lia.
  rewrite (slice_cons_at data off 1), (slice_cons_at data (off + 1) 1), (slice_cons_at data (off + 2) 1),
    (slice_cons_at data (off + 3) 1) by lia.
  change (1 - 1) with 0. rewrite !slice_zero, H2, H3. done.
Qed.

(** ** The record of a bundle *)

Definition wf_context (c : DualInputWireContextV1) : Prop :=
  0 < authority_term c < 2 ^ 64 /\ 0 < mode_generation c < 2 ^ 64 /\ 0 < batch_sequence c < 2 ^ 64.

(** What the encoder asks of a port's source: an explicit one is a known kind and
    reason, and calls the port predicted exactly when the bundle does. *)
Definition source_ok (b : DualInputBundleV1) (c : DualInputWireContextV1) (port : Z) : Prop :=
  1 <= (port_source b c port).1 <= 7 /\ (port_source b c port).2 <= 4 /\
  marked_predicted b port = ((port_source b c port).1 =? SourceKind.Predicted).

Definition slot_of (b : DualInputBundleV1) (c : DualInputWireContextV1) (port : Z) : bytes :=
  slot_bytes (port_source b c port).1 (port_source b c port).2
    (mask (port_of b port)) (input_sequence (port_of b port)).

Lemma encode_port_ok b c port :
  source_ok b c port -> sample_is_canonical (port_of b port) = true ->
  encode_port b c port = inr (slot_of b c port).
Proof.
  intros (Hk & Hr & Hm) Hs. unfold sample_is_canonical in Hs. apply andb_true_iff in Hs as [H1 H2].
  unfold encode_port, slot_of, source_kind_is_known. cbv zeta.
  destruct (port_source b c port) as [kind reason]. cbn [fst snd] in *.
  rewrite Hm, eqb_reflx, andb_false_r.
  destruct (Z.leb_spec 1 kind); [| lia]. destruct (Z.leb_spec kind 7); [| lia]. cbn [andb negb].
  destruct (Z.ltb_spec 4 reason); [lia |]. rewrite H1. cbn [negb].
  apply Z.eqb_eq in H2. by rewrite <- H2, Z.eqb_refl.
Qed.

Lemma encode_port_inv b c port slot :
  encode_port b c port = inr slot -> source_ok b c port /\ slot = slot_of b c port.
Proof.
  unfold encode_port, slot_of, source_ok, source_kind_is_known. cbv zeta.
  unfold port_source. destruct (aget false (stated c) port); cbn [andb].
  - destruct (eqb _ _) eqn:E; [| done]. apply eqb_prop in E. cbn [negb fst snd].
    destruct (Z.leb_spec 1 (aget 0 (source_kind c) port)); [| done].
    destruct (Z.leb_spec (aget 0 (source_kind c) port) 7); [| done]. cbn [andb negb].
    destruct (Z.ltb_spec 4 (aget 0 (clear_reason c) port)); [done |].
    destruct (negb _); [done |]. destruct (Z.eqb_spec (normalize_dual_port_mask_v1 (mask (port_of b port)))
      (mask (port_of b port))) as [->|]; [| done]. by intros [= <-].
  - destruct (marked_predicted b port); cbn [fst snd].
    all: cbn -[slot_bytes normalize_dual_port_mask_v1 be_bytes mjoin].
    all: destruct (negb _); [done |]; destruct (Z.eqb_spec (normalize_dual_port_mask_v1 (mask (port_of b port)))
      (mask (port_of b port))) as [->|]; [| done]; intros [= <-]; split; [split_and!; done | done].
Qed.

Lemma encode_ports_iff b c l slots :
  (forall port, port ∈ l -> sample_is_canonical (port_of b port) = true) ->
  encode_ports b c l = inr slots <->
  (forall port, port ∈ l -> source_ok b c port) /\ slots = slot_of b c <$> l.
Proof.
  revert slots. induction l as [|p l IH]; intros slots Hs; cbn [encode_ports].
  { split; [intros [= <-]; split; [set_solver | done] | by intros [_ ->]]. }
  assert (forall port, port ∈ l -> sample_is_canonical (port_of b port) = true) as Hs' by set_solver.
  assert (sample_is_canonical (port_of b p) = true) as Hp by (apply Hs; set_solver).
  split.
  - destruct (encode_port b c p) as [|slot] eqn:E; [done |].
    destruct (encode_ports b c l) as [|rest]; [done |]. intros [= <-].
    apply encode_port_inv in E as [? ->]. destruct (proj1 (IH rest Hs') eq_refl) as [Hl ->].
    split; [| done]. intros port Hport. apply elem_of_cons in Hport as [->|]; auto.
  - intros [Hl ->]. rewrite encode_port_ok by (done || (apply Hl; set_solver)).
    rewrite (proj2 (IH (slot_of b c <$> l) Hs')) by (split; [set_solver | done]). done.
Qed.

(** *** The layout of the record *)

Section Layout.
Context (b : DualInputBundleV1) (c : DualInputWireContextV1).
Context (Hwf : wf_bundle b).

Definition record_of : bytes := mjoin (wire_fields b c (slot_of b c <$> seqZ 0 4)).

Lemma zlen_ids : zlen (session_id (key b)) = 16 /\ zlen (branch_id (key b)) = 16.
Proof. destruct Hwf as ((? & ? & _) & _). unfold zlen. lia. Qed.

Ltac layout :=
  cbn [wire_fields app take fmap list_fmap total]; rewrite ?zlen_be_bytes;
  rewrite ?(proj1 zlen_ids), ?(proj2 zlen_ids); reflexivity.

Lemma record_length : zlen record_of = 154.
Proof. unfold record_of. rewrite zlen_mjoin. layout. Qed.

Lemma record_version : slice record_of 0 2 = be_bytes 2 1.
Proof. by apply (slice_field _ 0). Qed.
Lemma record_session : slice record_of 2 16 = session_id (key b).
Proof. apply (slice_field _ 1); [done | layout | by rewrite (proj1 zlen_ids)]. Qed.
Lemma record_branch : slice record_of 18 16 = branch_id (key b).
Proof. apply (slice_field _ 2); [done | layout | by rewrite (proj2 zlen_ids)]. Qed.
Lemma record_epoch : slice record_of 42 8 = be_bytes 8 (timeline_epoch (key b)).
Proof. apply (slice_field _ 4); [done | layout | done]. Qed.
Lemma record_revision : slice record_of 50 8 = be_bytes 8 (seat_revision (key b)).
Proof. apply (slice_field _ 5); [done | layout | done]. Qed.
Lemma record_frame : slice record_of 66 8 = be_bytes 8 (frame_index (key b)).
Proof. apply (slice_field _ 7); [done | layout | done]. Qed.
Lemma record_mask : slice record_of 82 1 = [u8 (wire_predicted_mask b c)].
Proof. apply (slice_field _ 9); [done | layout | done]. Qed.
Lemma record_reserved : slice record_of 83 7 = replicate 7 0.
Proof. apply (slice_field _ 10); [done | layout | done]. Qed.
Lemma record_slot port : 0 <= port < 4 -> slice record_of (90 + port * 16) 16 = slot_of b c port.
Proof.
  intros Hp. assert (port = 0 \/ port = 1 \/ port = 2 \/ port = 3) as Hc by lia.
  destruct_or! Hc; subst port;
    [apply (slice_field _ 11) | apply (slice_field _ 12) | apply (slice_field _ 13) | apply (slice_field _ 14)];
    (done || layout).
Qed.

Lemma record_at_mask : at_ record_of 82 = u8 (wire_predicted_mask b c).
Proof.
  replace 82 with (82 + 0) by lia. rewrite <- (at_slice record_of 82 1 0) by lia. by rewrite record_mask.
Qed.

End Layout.

(** *** Bits *)

Lemma marked_predicted_bit b port :
  0 <= port -> marked_predicted b port = Z.testbit (predicted_port_mask b) port.
Proof. intros Hp. unfold marked_predicted. rewrite Z.shiftl_1_l. by apply land_pow2_testbit. Qed.

Lemma land_ones_bit x i n : 0 <= i -> 0 <= n -> Z.testbit (Z.land x (Z.ones n)) i = (i <? n) && Z.testbit x i.
Proof.
  intros Hi Hn. rewrite Z.land_spec, andb_comm. destruct (Z.ltb_spec i n).
  - by rewrite Z.ones_spec_low by lia.
  - by rewrite Z.ones_spec_high by lia.
Qed.

Lemma wire_mask_low b c :
  (forall port, 0 <= port < 4 -> source_ok b c port) ->
  wire_predicted_mask b c = Z.land (predicted_port_mask b) 15.
Proof.
  intros Hs. apply Z.bits_inj'. intros i Hi. change 15 with (Z.ones 4). rewrite land_ones_bit by lia.
  unfold wire_predicted_mask. change 4 with (Z.of_nat 4) at 1.
  rewrite (mask_fold_testbit (fun port => (port_source b c port).1 =? SourceKind.Predicted)) by done.
  change (Z.of_nat 4) with 4. destruct (Z.ltb_spec i 4); cbn [andb]; [| done].
  destruct (Hs i ltac:(lia)) as (_ & _ & <-). by apply marked_predicted_bit.
Qed.

Lemma land_15_bound x : 0 <= Z.land x 15 < 16.
Proof. change 15 with (Z.ones 4). rewrite Z.land_ones by lia. by apply Z.mod_pos_bound. Qed.

Lemma shiftr_land_1 m port : 0 <= port -> Z.land (Z.shiftr m port) 1 = if Z.testbit m port then 1 else 0.
Proof.
  intros Hp. change 1 with (Z.ones 1) at 1. rewrite Z.land_ones, <- Z.bit0_mod by lia.
  rewrite Z.shiftr_spec, Z.add_0_l by lia. by destruct (Z.testbit m port).
Qed.

Lemma high_bits m k n : 0 <= k -> 0 <= n -> 0 <= m < 2 ^ k -> Z.land m (Z.shiftl n k) = 0.
Proof.
  intros Hk Hn Hm. apply Z.bits_inj'. intros i Hi. rewrite Z.land_spec, Z.bits_0.
  destruct (decide (i < k)).
  - by rewrite Z.shiftl_spec_low, andb_false_r by lia.
  - assert (Z.testbit m i = false) as ->; [| done].
    rewrite <- (Z.mod_small m (2 ^ k)) by lia. apply Z.mod_pow2_bits_high. lia.
Qed.

Lemma land_pair m p : 
  0 <= p -> (Z.land m (3 * 2 ^ p) = 3 * 2 ^ p) <-> Z.testbit m p = true /\ Z.testbit m (p + 1) = true.
Proof.
  intros Hp. assert (forall i, 0 <= i -> Z.testbit (3 * 2 ^ p) i = ((i =? p) || (i =? p + 1))) as Hb.
  { intros i Hi. rewrite <- Z.shiftl_mul_pow2 by lia.
    destruct (decide (i < p)).
    { rewrite Z.shiftl_spec_low by lia. destruct (Z.eqb_spec i p), (Z.eqb_spec i (p + 1)); lia. }
    rewrite Z.shiftl_spec by lia. destruct (Z.eqb_spec i p) as [->|]; [by rewrite Z.sub_diag |].
    destruct (Z.eqb_spec i (p + 1)) as [->|]; [by replace (p + 1 - p) with 1 by lia |].
    apply Z.bits_above_log2; [lia |]. change (Z.log2 3) with 1. lia. }
  split.
  - intros H. split; [specialize (Hb p ltac:(lia)) | specialize (Hb (p + 1) ltac:(lia))];
      rewrite <- H, Z.land_spec in Hb; rewrite Z.eqb_refl, ?orb_true_r in Hb;
      by apply andb_true_iff in Hb as [? _].
  - intros [H1 H2]. apply Z.bits_inj'. intros i Hi. rewrite Z.land_spec, Hb by done.
    destruct (Z.eqb_spec i p) as [->|]; [by rewrite H1 |].
    destruct (Z.eqb_spec i (p + 1)) as [->|]; [by rewrite H2 | by rewrite andb_false_r].
Qed.

(** A canonical pad mask satisfies the record's button rules, and conversely. *)
Lemma canonical_buttons m :
  0 <= m < 2 ^ 32 -> sample_is_canonical (mkSample m 0) = true <->
  Z.land m 0xFFFFFF00 = 0 /\ Z.land m 0x30 <> 0x30 /\ Z.land m 0xC0 <> 0xC0.
Proof.
  intros Hm. change 0xFFFFFF00 with (Z.shiftl (Z.ones 24) 8).
  change 0x30 with (3 * 2 ^ 4). change 0xC0 with (3 * 2 ^ 6). rewrite !land_pair by lia.
  change (4 + 1) with 5. change (6 + 1) with 7.
  assert (Z.land m (Z.shiftl (Z.ones 24) 8) = 0 <-> m < 256) as Hhigh.
  { split; [| intros; apply high_bits; (done || lia)]. intros H.
    destruct (decide (m < 256)); [done |]. exfalso.
    assert (Z.testbit (Z.land m (Z.shiftl (Z.ones 24) 8)) (Z.log2 m) = true) as Hbit; [| by rewrite H, Z.bits_0 in Hbit].
    assert (8 <= Z.log2 m) by (change 8 with (Z.log2 256); apply Z.log2_le_mono; lia).
    assert (Z.log2 m < 32) by (apply Z.log2_lt_pow2; lia).
    rewrite Z.land_spec, Z.bit_log2, Z.shiftl_spec by lia. by rewrite Z.ones_spec_low by lia. }
  rewrite Hhigh. unfold sample_is_canonical. cbn [mask]. split.
  - intros H. apply (canonical_sample_dpad (mkSample m 0)) in H as Hd. unfold impossible_dpad in Hd.
    cbn [mask] in Hd. apply andb_true_iff in H as [H _]. apply Z.eqb_eq in H.
    pose proof (proj2 (ldiff_full_mask m) (conj (proj1 Hm) H)). split_and!; [lia | tauto | tauto].
  - intros (Hlt & H1 & H2). apply andb_true_iff. split.
    + apply Z.eqb_eq. apply (proj1 (ldiff_full_mask m)). lia.
    + apply Z.eqb_eq. apply Z.bits_inj'. intros i Hi. rewrite normalize_bits by done.
      destruct (Z.ltb_spec i 8); cbn [andb].
      2:{ rewrite <- (Z.mod_small m (2 ^ 8)) by lia. apply Z.mod_pow2_bits_high. lia. }
      assert (i < 4 \/ i = 4 \/ i = 5 \/ i = 6 \/ i = 7) as Hc by lia.
      destruct Hc as [Hlow | Hc].
      { destruct (Z.leb_spec 4 i); [lia |]. by rewrite andb_true_r. }
      destruct_or! Hc; subst i; cbn [Z.leb Z.compare Pos.compare Pos.compare_cont andb];
        change (opposite 4) with 5; change (opposite 5) with 4;
        change (opposite 6) with 7; change (opposite 7) with 6;
        destruct (Z.testbit m 4), (Z.testbit m 5), (Z.testbit m 6), (Z.testbit m 7); (done || tauto).
Qed.

Section Accepted.
Context (b : DualInputBundleV1) (c : DualInputWireContextV1).
Context (Hwf : wf_bundle b) (Hcan : canonical_input_is_canonical_v1 b = true).
Context (Hsrc : forall port, 0 <= port < 4 -> source_ok b c port).

Lemma port_member port : 0 <= port < 4 -> port_of b port ∈ ports b.
Proof.
  intros Hp. destruct Hwf as (_ & _ & _ & _ & Hl & _). unfold port_of, aget.
  destruct (lookup_lt_is_Some_2 (ports b) (Z.to_nat port)) as [s Hs]; [lia |].
  rewrite Hs. by apply list_elem_of_lookup_2 in Hs.
Qed.

Lemma port_facts port :
  0 <= port < 4 -> sample_is_canonical (port_of b port) = true /\
  0 <= mask (port_of b port) < 2 ^ 32 /\ 0 <= input_sequence (port_of b port) < 2 ^ 64.
Proof.
  intros Hp. pose proof (port_member port Hp) as Hin.
  destruct (canonical_parts b Hcan) as (_ & _ & _ & Hs & _). destruct Hwf as (_ & _ & _ & _ & _ & Hw & _).
  rewrite Forall_forall in Hs, Hw. split; [by apply Hs |]. by apply Hw.
Qed.

Lemma record_slots port :
  0 <= port < 4 ->
  let data := record_of b c in let slot := 90 + port * 16 in
  at_ data slot = (port_source b c port).1 /\ at_ data (slot + 1) = (port_source b c port).2 /\
  at_ data (slot + 2) = 0 /\ at_ data (slot + 3) = 0 /\
  load32 data (slot + 4) = mask (port_of b port) /\ load64 data (slot + 8) = input_sequence (port_of b port).
Proof.
  intros Hp. destruct (port_facts port Hp) as (_ & Hm & Hq). cbv zeta.
  pose proof (record_length b c Hwf). pose proof (record_slot b c Hwf port Hp).
  apply slot_reads; (done || lia).
Qed.

Lemma record_mask_value : at_ (record_of b c) 82 = Z.land (predicted_port_mask b) 15.
Proof.
  rewrite record_at_mask, wire_mask_low by done. pose proof (land_15_bound (predicted_port_mask b)).
  apply u8_small. unfold is_byte. lia.
Qed.

(** The encoder's bytes pass the validator: its last refusal is never taken. *)
Lemma record_accepted out : (check_bundle out (record_of b c)).1 = Ok.
Proof.
  pose proof (record_length b c Hwf) as Hl. apply check_bundle_iff. split; [done |].
  split. { rewrite load16_value by lia. by rewrite (record_version b c). }
  split. { apply zeros_spec; [lia | lia | lia |]. by rewrite record_reserved. }
  rewrite record_mask_value. pose proof (land_15_bound (predicted_port_mask b)) as H15.
  split. { change 0xF0 with (Z.shiftl 15 4). apply high_bits; lia. }
  intros port Hp. apply check_bundle_port_iff. cbv zeta.
  destruct (record_slots port Hp) as (-> & -> & -> & -> & -> & _).
  destruct (Hsrc port Hp) as (Hk & Hr & Hm). destruct (port_facts port Hp) as (Hs & Hmask & _).
  pose proof (proj1 (canonical_buttons (mask (port_of b port)) Hmask) Hs) as (Hb1 & Hb2 & Hb3).
  split_and!; try done; try lia. rewrite shiftr_land_1 by lia. change 15 with (Z.ones 4).
  rewrite land_ones_bit by lia. destruct (Z.ltb_spec port 4); [| lia]. cbn [andb].
  rewrite <- marked_predicted_bit, Hm by lia. done.
Qed.

Lemma decode_record :
  decode_bundle (record_of b c) (logical_seat b) (owner_signing_key_id b) =
  b <| predicted_port_mask := Z.land (predicted_port_mask b) 15 |>.
Proof.
  pose proof (record_length b c Hwf) as Hl. unfold decode_bundle.
  destruct (canonical_parts b Hcan) as (_ & _ & Hres & _).
  pose proof Hwf as ((_ & _ & He & Hf & Hr) & _ & Hreslen & _ & Hports & _).
  rewrite !load64_value by lia.
  rewrite record_session, record_branch, record_epoch, record_frame, record_revision by done.
  rewrite !be_value_be_bytes_small by done.
  assert (decode_predicted (record_of b c) = Z.land (predicted_port_mask b) 15) as ->.
  { rewrite <- (wire_mask_low b c) by done. unfold decode_predicted, wire_predicted_mask.
    assert (forall l m, (forall port, port ∈ l -> 0 <= port < 4) ->
      fold_left (fun m port => if at_ (record_of b c) (90 + port * 16) =? SourceKind.Predicted
                               then Z.lor m (Z.shiftl 1 port) else m) l m =
      fold_left (fun m port => if (port_source b c port).1 =? SourceKind.Predicted
                               then Z.lor m (Z.shiftl 1 port) else m) l m) as H.
    { induction l as [|p l IH]; intros m Hin; [done |]. cbn [fold_left].
      destruct (record_slots p ltac:(apply Hin; set_solver)) as (-> & _). apply IH. set_solver. }
    apply H. intros port Hport. apply elem_of_seqZ in Hport. lia. }
  assert (decode_port (record_of b c) <$> seqZ 0 4 = ports b) as ->.
  { assert (forall port, 0 <= port < 4 -> decode_port (record_of b c) port = port_of b port) as Hd.
    { intros port Hp. unfold decode_port. cbv zeta.
      destruct (record_slots port Hp) as (_ & _ & _ & _ & -> & ->). by destruct (port_of b port). }
    change (seqZ 0 4) with [0; 1; 2; 3]. cbn [fmap list_fmap]. rewrite !Hd by lia.
    clear -Hports. unfold port_of, aget. destruct (ports b) as [|? [|? [|? [|? [|]]]]]; done. }
  rewrite <- (zero_reserved (reserved_zero0 b)) at 1 by done.
  by destruct b as [[] ? ? ? ? ?].
Qed.

Lemma low_mask_canonical :
  canonical_input_is_canonical_v1 (b <| predicted_port_mask := Z.land (predicted_port_mask b) 15 |>) = true.
Proof.
  pose proof Hcan as H. revert H. unfold canonical_input_is_canonical_v1.
  cbn [over key logical_seat owner_signing_key_id predicted_port_mask reserved_zero0 ports].
  destruct (negb (dual_input_key_is_valid_v1 (key b))); [done |].
  destruct (kDualPortCountV1 <=? logical_seat b); [done |].
  destruct (all_zero (owner_signing_key_id b)); [done |].
  destruct (negb (Z.ldiff (predicted_port_mask b) kDualFullPortMaskV1 =? 0)); [done |].
  pose proof (land_15_bound (predicted_port_mask b)).
  assert (Z.ldiff (Z.land (predicted_port_mask b) 15) kDualFullPortMaskV1 = 0) as E
    by (apply ldiff_full_mask; lia).
  change (predicted_port_mask (b <| predicted_port_mask := Z.land (predicted_port_mask b) 15 |>))
    with (Z.land (predicted_port_mask b) 15). rewrite E. done.
Qed.

End Accepted.

Lemma encode_eq b c out :
  wf_bundle b -> canonical_input_is_canonical_v1 b = true -> wf_context c ->
  (forall port, 0 <= port < 4 -> source_ok b c port) ->
  encode_dual_input_bundle_v1 b c (Some out) = (WireOk, Some (record_of b c)).
Proof.
  intros Hwf Hcan (Ha & Hg & Hq) Hsrc. unfold encode_dual_input_bundle_v1. rewrite Hcan. cbn [negb].
  destruct (Z.eqb_spec (authority_term c) 0); [lia |]. destruct (Z.eqb_spec (mode_generation c) 0); [lia |].
  destruct (Z.eqb_spec (batch_sequence c) 0); [lia |]. cbn [orb].
  assert (forall port, port ∈ seqZ 0 4 -> 0 <= port < 4) as Hin
    by (intros port Hport; apply elem_of_seqZ in Hport; lia).
  rewrite (proj2 (encode_ports_iff b c (seqZ 0 4) (slot_of b c <$> seqZ 0 4)
    ltac:(intros port Hport; by apply (port_facts b Hwf Hcan), Hin))) by (split; auto).
  fold (record_of b c). cbv zeta. pose proof (record_length b c Hwf) as Hl.
  pose proof (check_bundle_name (record_of b c) 154 (replicate 32 0) ltac:(lia) ltac:(lia)) as Hc.
  rewrite (slice_whole _ _ Hl), record_accepted in Hc by done.
  unfold kDualInputWireBytesV1. destruct (check _ _ _ _) as [st h]. cbn [fst] in Hc. subst st.
  by destruct (decide (Ok <> Ok)).
Qed.

(** The record passes the public check and is decoded to its bundle. *)
Lemma record_decodes b c out into :
  wf_bundle b -> canonical_input_is_canonical_v1 b = true ->
  (forall port, 0 <= port < 4 -> source_ok b c port) ->
  (check (Some "CanonicalInputBundleV1"%string) (Some (record_of b c)) 154 (Some out)).1 = Ok /\
  decode_dual_input_bundle_v1 (Some (record_of b c)) 154 (logical_seat b) (owner_signing_key_id b) (Some into) =
    (WireOk, Some (b <| predicted_port_mask := Z.land (predicted_port_mask b) 15 |>)).
Proof.
  intros Hwf Hcan Hsrc. pose proof (record_length b c Hwf) as Hl.
  assert (forall out, (check (Some "CanonicalInputBundleV1"%string) (Some (record_of b c)) 154 (Some out)).1 = Ok)
    as Hcheck.
  { intros o. rewrite check_bundle_name by lia. rewrite (slice_whole _ _ Hl). by apply record_accepted. }
  split; [apply Hcheck |].
  unfold decode_dual_input_bundle_v1, kDualInputWireBytesV1, kDualPortCountV1. cbn [Z.eqb Pos.eqb negb].
  destruct (canonical_parts b Hcan) as (Hseat & _).
  destruct (Z.leb_spec 4 (logical_seat b)); [lia |]. specialize (Hcheck (replicate 32 0)).
  destruct (check _ _ _ _) as [st h]. cbn [fst] in Hcheck. subst st.
  destruct (decide (Ok <> Ok)); [done |]. cbv zeta.
  rewrite decode_record by done. by rewrite low_mask_canonical.
Qed.

(** ** Properties *)

(** C30. The record round trip.  A canonical bundle whose fields have their widths, sent with a context in range
    whose port sources are valid and say [Predicted] exactly for the ports it marks ([source_ok]), is encoded, the validator of the release accepts the 154
    bytes, and the receiver, told the seat and the owner's key, decodes the same bundle with its prediction mask
    cut to the four bits that denote ports: the bundle itself when the mask has no other bit.  (The canonical check
    lets other bits through, and they are lost: [high_prediction_bit_is_dropped].) *)
Theorem wire_roundtrip (b : DualInputBundleV1) (c : DualInputWireContextV1) (out : bytes)
    (into : DualInputBundleV1) :
  wf_bundle b -> canonical_input_is_canonical_v1 b = true -> wf_context c ->
  (forall port, 0 <= port < 4 -> source_ok b c port) ->
  exists record decoded,
    encode_dual_input_bundle_v1 b c (Some out) = (WireOk, Some record) /\ zlen record = 154 /\
    (check (Some "CanonicalInputBundleV1"%string) (Some record) 154 (Some out)).1 = Ok /\
    decode_dual_input_bundle_v1 (Some record) 154 (logical_seat b) (owner_signing_key_id b) (Some into) =
    (WireOk, Some decoded) /\
    decoded = b <| predicted_port_mask := Z.land (predicted_port_mask b) 15 |> /\
    (0 <= predicted_port_mask b < 16 -> decoded = b).
Proof.
  intros Hwf Hcan Hc Hsrc. exists (record_of b c), (b <| predicted_port_mask := Z.land (predicted_port_mask b) 15 |>).
  split; [by apply encode_eq |]. split; [by apply record_length |].
  destruct (record_decodes b c out into) as [Hcheck Hdecode]; [done.. |].
  split_and!; [done | done | done |]. intros Hmask.
  assert (Z.land (predicted_port_mask b) 15 = predicted_port_mask b) as ->; [| by destruct b].
  change 15 with (Z.ones 4). rewrite Z.land_ones by done. by apply Z.mod_small.
Qed.

(** The session facts a record carries beside its bundle. *)
Definition context_of (data : bytes) : DualInputWireContextV1 :=
  mkContext (load64 data 34) (load64 data 58) (load64 data 74)
    ((fun port => at_ data (90 + port * 16)) <$> seqZ 0 4)
    ((fun port => at_ data (90 + port * 16 + 1)) <$> seqZ 0 4) [true; true; true; true].

Section Reencode.
Context (data : bytes) (Hb : is_bytes data) (Hl : zlen data = 154).
Context (Hcheck : (check_bundle (replicate 32 0) data).1 = Ok).

Lemma checked_port port :
  0 <= port < 4 -> port_source (decode_bundle data 0 []) (context_of data) port =
    (at_ data (90 + port * 16), at_ data (90 + port * 16 + 1)).
Proof.
  intros Hp. unfold port_source. assert (port = 0 \/ port = 1 \/ port = 2 \/ port = 3) as Hc by lia.
  by destruct_or! Hc; subst port.
Qed.

Lemma load64_bound off : 0 <= off -> off + 8 <= zlen data -> 0 <= load64 data off < 2 ^ 64.
Proof.
  intros H0 Hlen. rewrite load64_value by lia.
  pose proof (be_value_bound (slice data off 8) (slice_bytes _ _ _ Hb)) as H. by rewrite zlen_slice in H by lia.
Qed.

Lemma decode_predicted_bits i :
  0 <= i -> Z.testbit (decode_predicted data) i = (i <? 4) && (at_ data (90 + i * 16) =? SourceKind.Predicted).
Proof. apply (mask_fold_testbit (fun port => at_ data (90 + port * 16) =? SourceKind.Predicted) 4). Qed.

Lemma decode_predicted_low : Z.land (decode_predicted data) 15 = decode_predicted data.
Proof.
  apply Z.bits_inj'. intros i Hi. change 15 with (Z.ones 4). rewrite land_ones_bit by lia.
  rewrite decode_predicted_bits by done. by destruct (i <? 4).
Qed.

Lemma decoded_wf seat owner :
  is_byte seat -> length owner = 32%nat -> wf_bundle (decode_bundle data seat owner).
Proof.
  intros Hs Ho. unfold wf_bundle, wf_key, decode_bundle. cbn [key logical_seat reserved_zero0
    predicted_port_mask ports owner_signing_key_id session_id branch_id timeline_epoch frame_index seat_revision].
  pose proof (zlen_slice data 2 16 ltac:(lia) ltac:(lia) ltac:(lia)) as E1.
  pose proof (zlen_slice data 18 16 ltac:(lia) ltac:(lia) ltac:(lia)) as E2. unfold zlen in E1, E2.
  pose proof (land_15_bound (decode_predicted data)) as Hm. rewrite decode_predicted_low in Hm.
  pose proof (load64_bound 42 ltac:(lia) ltac:(lia)). pose proof (load64_bound 66 ltac:(lia) ltac:(lia)).
  pose proof (load64_bound 50 ltac:(lia) ltac:(lia)).
  split_and!; try done; try lia.
  apply Forall_fmap, Forall_forall. intros port Hport. apply elem_of_seqZ in Hport.
  unfold compose, decode_port, wf_sample. cbv zeta. cbn [mask input_sequence].
  split; [by apply load32_bound | apply load64_bound; lia].
Qed.

Lemma checked_source seat owner port :
  0 <= port < 4 -> source_ok (decode_bundle data seat owner) (context_of data) port.
Proof.
  intros Hp. destruct (proj1 (check_bundle_iff _ _) Hcheck) as (_ & _ & _ & _ & Hports).
  specialize (Hports port Hp). apply check_bundle_port_iff in Hports. cbv zeta in Hports.
  destruct Hports as (Hk & Hr & _). unfold source_ok.
  change (port_source (decode_bundle data seat owner) (context_of data) port)
    with (port_source (decode_bundle data 0 []) (context_of data) port).
  rewrite checked_port by done. cbn [fst snd]. split; [done |]. split; [done |].
  rewrite marked_predicted_bit by lia. cbn [predicted_port_mask decode_bundle].
  rewrite decode_predicted_bits by lia. destruct (Z.ltb_spec port 4); [done | lia].
Qed.

Lemma checked_mask : at_ data 82 = decode_predicted data.
Proof.
  destruct (proj1 (check_bundle_iff _ _) Hcheck) as (_ & _ & _ & Hhigh & Hports).
  pose proof (at_byte data 82 Hb) as H82. unfold is_byte in H82.
  apply Z.bits_inj'. intros i Hi. rewrite decode_predicted_bits by done.
  destruct (Z.ltb_spec i 4); cbn [andb].
  - specialize (Hports i ltac:(lia)). apply check_bundle_port_iff in Hports. cbv zeta in Hports.
    destruct Hports as (_ & _ & _ & _ & Hbit & _). rewrite shiftr_land_1 in Hbit by lia.
    unfold SourceKind.Predicted.
    destruct (Z.testbit (at_ data 82) i), (at_ data (90 + i * 16) =? 5); done.
  - destruct (decide (i < 8)).
    + apply (f_equal (fun x => Z.testbit x i)) in Hhigh. rewrite Z.land_spec, Z.bits_0 in Hhigh.
      assert (Z.testbit 0xF0 i = true) as E; [| by rewrite E, andb_true_r in Hhigh].
      assert (i = 4 \/ i = 5 \/ i = 6 \/ i = 7) as Hc by lia. by destruct_or! Hc; subst i.
    + rewrite <- (Z.mod_small (at_ data 82) (2 ^ 8)) by lia. apply Z.mod_pow2_bits_high. lia.
Qed.

(** The record of the decoded bundle in its own context is the record. *)
Lemma record_of_decoded seat owner : record_of (decode_bundle data seat owner) (context_of data) = data.
Proof.
  destruct (proj1 (check_bundle_iff _ _) Hcheck) as (_ & Hver & Hres & _ & Hports).
  transitivity (mjoin (cut data 0 [2; 16; 16; 8; 8; 8; 8; 8; 8; 1; 7; 16; 16; 16; 16]));
    [| by apply cut_all].
  unfold record_of, wire_fields. f_equal. cbn [cut].
  assert (forall off, 0 <= off -> off + 8 <= 154 -> be_bytes 8 (load64 data off) = slice data off 8) as H8.
  { intros off H0 Hlen. rewrite load64_value by lia. change 8 with (Z.of_nat 8). apply be_bytes_slice; (done || lia). }
  assert (forall port, 0 <= port < 4 ->
    slot_of (decode_bundle data seat owner) (context_of data) port = slice data (90 + port * 16) 16) as Hslot.
  { intros port Hp. specialize (Hports port Hp). apply check_bundle_port_iff in Hports. cbv zeta in Hports.
    destruct Hports as (_ & _ & H2 & H3 & _). rewrite (slot_of_reads data (90 + port * 16)) by (done || lia).
    unfold slot_of. change (port_source (decode_bundle data seat owner) (context_of data) port)
      with (port_source (decode_bundle data 0 []) (context_of data) port).
    rewrite checked_port by done. cbn [fst snd].
    assert (port = 0 \/ port = 1 \/ port = 2 \/ port = 3) as Hc by lia. by destruct_or! Hc; subst port. }
  change (seqZ 0 4) with [0; 1; 2; 3]. cbn [fmap list_fmap app]. rewrite !Hslot by lia.
  cbn [key decode_bundle session_id branch_id timeline_epoch seat_revision frame_index
    authority_term mode_generation batch_sequence context_of]. rewrite !H8 by lia.
  rewrite (wire_mask_low (decode_bundle data seat owner) (context_of data) (checked_source seat owner)).
  cbn [predicted_port_mask decode_bundle]. rewrite decode_predicted_low, <- checked_mask.
  rewrite u8_small by (by apply at_byte).
  assert (be_bytes 2 1 = slice data 0 2) as ->.
  { rewrite <- Hver, load16_value by lia. apply (be_bytes_slice data 0 2); (done || lia). }
  apply zeros_spec in Hres; [| lia | lia | lia]. change (replicate 7 0) with (replicate (Z.to_nat 7) 0).
  rewrite <- Hres. assert (slice data 82 1 = [at_ data 82]) as E82 by (by rewrite slice_cons_at by lia).
  by rewrite <- E82.
Qed.

End Reencode.

(** The record is canonical: whatever 154 bytes the decoder accepts, the bundle is
    in canonical form with the seat and owner the receiver named, and encoding it in
    the context the record carries gives the same bytes back. *)
Theorem wire_reencode (data owner out : bytes) (seat : Z) (into b : DualInputBundleV1) :
  is_bytes data -> zlen data = 154 -> is_byte seat -> length owner = 32%nat ->
  decode_dual_input_bundle_v1 (Some data) 154 seat owner (Some into) = (WireOk, Some b) ->
  authority_term (context_of data) <> 0 -> mode_generation (context_of data) <> 0 ->
  batch_sequence (context_of data) <> 0 ->
  canonical_input_is_canonical_v1 b = true /\ logical_seat b = seat /\ owner_signing_key_id b = owner /\
  encode_dual_input_bundle_v1 b (context_of data) (Some out) = (WireOk, Some data).
Proof.
  intros Hb Hl Hseat Howner. unfold decode_dual_input_bundle_v1, kDualInputWireBytesV1. cbn [Z.eqb Pos.eqb negb].
  destruct (kDualPortCountV1 <=? seat); [done |].
  pose proof (check_bundle_name data 154 (replicate 32 0) ltac:(lia) ltac:(lia)) as Hc.
  rewrite (slice_whole _ _ Hl) in Hc. destruct (check _ _ _ _) as [st h]. cbn [fst] in Hc.
  destruct (decide (st <> Ok)) as [|Hok]; [done |]. cbv zeta.
  assert (st = Ok) as -> by (by destruct (decide (st = Ok))). symmetry in Hc.
  destruct (canonical_input_is_canonical_v1 (decode_bundle data seat owner)) eqn:Hcan; [| done].
  cbn [negb]. intros [= <-] Ha Hg Hq. split; [done |]. split; [done |]. split; [done |].
  rewrite encode_eq; [by rewrite record_of_decoded | by apply decoded_wf | done | | by intros; apply checked_source].
  unfold wf_context. cbn [context_of authority_term mode_generation batch_sequence] in *.
  pose proof (load64_bound data Hb 34). pose proof (load64_bound data Hb 58).
  pose proof (load64_bound data Hb 74). lia.
Qed.

(** ** Witnesses *)

Definition demo_context : DualInputWireContextV1 :=
  mkContext 3 1 9 [5; 1; 3; 7] [0; 0; 4; 0] [true; false; true; true].

Definition wire_demo_bundle : DualInputBundleV1 :=
  demo_bundle <| predicted_port_mask := 1 |>.

Lemma wire_demo_sources port : 0 <= port < 4 -> source_ok wire_demo_bundle demo_context port.
Proof.
  intros Hp. assert (port = 0 \/ port = 1 \/ port = 2 \/ port = 3) as Hc by lia.
  unfold source_ok. destruct_or! Hc; subst port; vm_compute; by repeat split.
Qed.

Lemma wire_demo_wf : wf_bundle wire_demo_bundle.
Proof. pose proof demo_bundle_wf as (? & ? & ? & _ & ? & ? & ?). unfold wf_bundle. split_and!; (done || by vm_compute). Qed.

Lemma wire_roundtrip_witness :
  exists record,
    encode_dual_input_bundle_v1 wire_demo_bundle demo_context (Some []) = (WireOk, Some record) /\
    decode_dual_input_bundle_v1 (Some record) 154 (logical_seat wire_demo_bundle)
      (owner_signing_key_id wire_demo_bundle) (Some bundle0) = (WireOk, Some wire_demo_bundle).
Proof.
  destruct (wire_roundtrip wire_demo_bundle demo_context [] bundle0 wire_demo_wf)
    as (record & decoded & He & _ & _ & Hd & _ & Hself); [vm_compute; reflexivity | | exact wire_demo_sources |].
  - unfold wf_context. cbn. lia.
  - exists record. split; [exact He |]. rewrite Hself in Hd; [exact Hd | cbn; lia].
Defined.

Definition demo_record : bytes := record_of wire_demo_bundle demo_context.

Lemma wire_reencode_witness :
  encode_dual_input_bundle_v1 wire_demo_bundle (context_of demo_record) (Some []) = (WireOk, Some demo_record).
Proof.
  assert (is_bytes demo_record) as Hb by (apply is_bytes_compute; by vm_compute).
  refine (proj2 (proj2 (proj2 (wire_reencode demo_record (owner_signing_key_id wire_demo_bundle) []
    (logical_seat wire_demo_bundle) bundle0 wire_demo_bundle Hb _ _ _ _ _ _ _)))).
  - vm_compute. reflexivity.
  - unfold is_byte. vm_compute. by split.
  - vm_compute. reflexivity.
  - vm_compute. reflexivity.
  - vm_compute. discriminate.
  - vm_compute. discriminate.
  - vm_compute. discriminate.
Defined.

(** The encoder drops a prediction bit above the four ports, which the canonical
    form allows. *)
Example high_prediction_bit_is_dropped :
  let b := wire_demo_bundle <| predicted_port_mask := 0x11 |> in
  canonical_input_is_canonical_v1 b = true /\
  match encode_dual_input_bundle_v1 b demo_context (Some []) with
  | (WireOk, Some record) =>
    decode_dual_input_bundle_v1 (Some record) 154 (logical_seat b) (owner_signing_key_id b) (Some bundle0) =
    (WireOk, Some wire_demo_bundle)
  | _ => False
  end.
Proof. vm_compute. by split. Qed.
