(* ===== verification/RecoveryLedger.v ===== *)
(** * Recovery: input sequence ledger and link watchdog
    ([shared/src/session/recovery/input_sequence_ledger.{hpp,cpp}],
    [link_activity_watchdog.{hpp,cpp}])

    The ledger numbers the inputs of a parent link: each seat reserves contiguous
    intervals and consumes numbers in increasing order, across the games of the
    link.  The watchdog freezes a silent link after 300 ms and gives it 30 s to
    reconnect.  Both are small state machines over 64-bit counters and clocks. *)

From S2P Require Import Prelude.
From S2P Require Import Sha256.
From S2P Require Import SessionAbi.
From S2P Require Import CanonicalInput.

(** ** Ledger *)

Module Ledger.

Definition kLedgerSeatCountV1 : Z := 2.

Inductive ReservationKindV1 := Normal | Prime | Terminal | AuthorityClear.

Record SeatLedgerV1 := mkSeat {
  reserved_through : Z;
  ledger_generation : Z;
  last_reservation_hash : bytes;
  consumed_through : Z;
}.

#[global] Instance eta_seat : Eta SeatLedgerV1 := fun r =>
  mkSeat (reserved_through r) (ledger_generation r) (last_reservation_hash r)
    (consumed_through r).

Definition seat0 : SeatLedgerV1 := mkSeat 0 0 (replicate 32 0) 0.

Record InputSequenceLedgerV1 := mkLedger {
  seats_ : list SeatLedgerV1;
  granted_ : bool;
  closed_ : bool;
  aborted_prestart_ : bool;
  source_writer_alive_ : bool;
  repair_blocked_ : bool;
  ever_nonzero_ : bool;
}.

#[global] Instance eta_ledger : Eta InputSequenceLedgerV1 := fun r =>
  mkLedger (seats_ r) (granted_ r) (closed_ r) (aborted_prestart_ r) (source_writer_alive_ r)
    (repair_blocked_ r) (ever_nonzero_ r).

Definition ledger_new : InputSequenceLedgerV1 :=
  mkLedger (replicate 2 seat0) false false false true false false.

Definition reservation_hash (seat from through generation : Z) (previous : bytes) : bytes :=
  domain_hash "flynes-ledger-reservation-v1"
    (u8 seat :: store_u64be from ++ store_u64be through ++ store_u64be generation ++ previous).

(** The seat's slot; an index out of range reads seat 0. *)
Definition seat (l : InputSequenceLedgerV1) (index : Z) : SeatLedgerV1 :=
  aget seat0 (seats_ l) (if index <? kLedgerSeatCountV1 then index else 0).

Definition genesis (l : InputSequenceLedgerV1) : fly_session_result_v2 :=
  if ever_nonzero_ l then V2_INVALID_STATE else V2_OK.

Definition next_from (slot : SeatLedgerV1) : Z :=
  if reserved_through slot =? 0 then 1 else u64 (reserved_through slot + 1).

Definition grant (index from through : Z) (kind : ReservationKindV1) (l : InputSequenceLedgerV1)
    : fly_session_result_v2 * InputSequenceLedgerV1 :=
  if (kLedgerSeatCountV1 <=? index) || (from =? 0) || (through <? from)
  then (V2_INVALID_ARGUMENT, l)
  else if repair_blocked_ l || closed_ l || negb (source_writer_alive_ l)
  then (V2_INVALID_STATE, l)
  else
    let slot := aget seat0 (seats_ l) index in
    if negb (from =? next_from slot) then (V2_INVALID_STATE, l)
    else
      let next_generation := u64 (ledger_generation slot + 1) in
      let slot := slot
        <| last_reservation_hash :=
             reservation_hash index from through next_generation (last_reservation_hash slot) |>
        <| reserved_through := through |> <| ledger_generation := next_generation |> in
      (V2_OK, l <| seats_ := aset (seats_ l) index slot |> <| granted_ := true |>
                <| ever_nonzero_ := true |> <| aborted_prestart_ := false |>).

Definition consume (index sequence : Z) (l : InputSequenceLedgerV1)
    : fly_session_result_v2 * InputSequenceLedgerV1 :=
  if (kLedgerSeatCountV1 <=? index) || (sequence =? 0) then (V2_INVALID_ARGUMENT, l)
  else if negb (granted_ l) || closed_ l || repair_blocked_ l then (V2_INVALID_STATE, l)
  else
    let slot := aget seat0 (seats_ l) index in
    if (sequence <=? consumed_through slot) || (reserved_through slot <? sequence)
    then (V2_INVALID_STATE, l)
    else
      (V2_OK, l <| seats_ := aset (seats_ l) index (slot <| consumed_through := sequence |>) |>).

Definition close_child (l : InputSequenceLedgerV1)
    : fly_session_result_v2 * InputSequenceLedgerV1 :=
  if negb (granted_ l) || closed_ l then (V2_INVALID_STATE, l)
  else
    (V2_OK, l <| seats_ := (fun s => s <| consumed_through := reserved_through s |>) <$> seats_ l |>
              <| closed_ := true |>).

Definition abort_prestart (l : InputSequenceLedgerV1)
    : fly_session_result_v2 * InputSequenceLedgerV1 :=
  if closed_ l || repair_blocked_ l then (V2_INVALID_STATE, l)
  else if existsb (fun s => negb (consumed_through s =? 0)) (seats_ l) then (V2_INVALID_STATE, l)
  else
    (V2_OK, l <| aborted_prestart_ := true |> <| closed_ := true |> <| granted_ := false |>).

Definition handoff_successor (l : InputSequenceLedgerV1)
    : fly_session_result_v2 * InputSequenceLedgerV1 :=
  if negb (closed_ l) then (V2_INVALID_STATE, l)
  else
    (V2_OK, l <| seats_ := (fun s => s <| ledger_generation := u64 (ledger_generation s + 1) |>)
                             <$> seats_ l |>
              <| closed_ := false |> <| granted_ := false |> <| aborted_prestart_ := false |>).

Definition release_source_writer (l : InputSequenceLedgerV1)
    : fly_session_result_v2 * InputSequenceLedgerV1 :=
  (V2_OK, l <| source_writer_alive_ := false |>).

Definition reset_to_zero (l : InputSequenceLedgerV1) : fly_session_result_v2 :=
  if ever_nonzero_ l then V2_INVALID_STATE else V2_OK.

Definition may_start (l : InputSequenceLedgerV1) : bool :=
  source_writer_alive_ l && negb (closed_ l) && negb (repair_blocked_ l) &&
  negb (aborted_prestart_ l) && granted_ l.

(** *** Histories *)

Inductive Op :=
  | Grant (index from through : Z) (kind : ReservationKindV1)
  | Consume (index sequence : Z)
  | CloseChild | AbortPrestart | Handoff | ReleaseWriter.

Definition run (o : Op) (l : InputSequenceLedgerV1)
    : fly_session_result_v2 * InputSequenceLedgerV1 :=
  match o with
  | Grant i a b k => grant i a b k l
  | Consume i q => consume i q l
  | CloseChild => close_child l
  | AbortPrestart => abort_prestart l
  | Handoff => handoff_successor l
  | ReleaseWriter => release_source_writer l
  end.

(** Arguments of the code's unsigned types. *)
Definition op_wf (o : Op) : Prop :=
  match o with
  | Grant i a b _ => 0 <= i < 2 ^ 8 /\ 0 <= a < 2 ^ 64 /\ 0 <= b < 2 ^ 64
  | Consume i q => 0 <= i < 2 ^ 8 /\ 0 <= q < 2 ^ 64
  | _ => True
  end.

(** What a history records of the calls that succeed, newest first. *)
Inductive Entry := Granted (index from through : Z) | Consumed (index sequence : Z).

Definition entry_of (o : Op) (result : fly_session_result_v2) : list Entry :=
  if decide (result = V2_OK) then
    match o with
    | Grant i a b _ => [Granted i a b]
    | Consume i q => [Consumed i q]
    | _ => []
    end
  else [].

Inductive reachable : InputSequenceLedgerV1 -> list Entry -> Prop :=
  | reachable_new : reachable ledger_new []
  | reachable_run l log o :
      reachable l log -> op_wf o ->
      reachable (run o l).2 (entry_of o (run o l).1 ++ log).

(** The numbers a seat consumed, and the intervals it was granted, newest first. *)
Fixpoint consumed (i : Z) (log : list Entry) : list Z :=
  match log with
  | [] => []
  | Consumed j q :: rest => if j =? i then q :: consumed i rest else consumed i rest
  | Granted _ _ _ :: rest => consumed i rest
  end.

Fixpoint intervals (i : Z) (log : list Entry) : list (Z * Z) :=
  match log with
  | [] => []
  | Granted j a b :: rest => if j =? i then (a, b) :: intervals i rest else intervals i rest
  | Consumed _ _ :: rest => intervals i rest
  end.

(** Strictly decreasing, and all at most the bound. *)
Fixpoint descending (bound : Z) (l : list Z) : Prop :=
  match l with
  | [] => True
  | x :: rest => 1 <= x <= bound /\ descending (x - 1) rest
  end.

(** Adjacent intervals that cover 1 .. through. *)
Fixpoint tiles (through : Z) (l : list (Z * Z)) : Prop :=
  match l with
  | [] => through = 0
  | (a, b) :: rest => b = through /\ 1 <= a <= b /\ tiles (a - 1) rest
  end.

Definition seat_ok (l : InputSequenceLedgerV1) (log : list Entry) (i : Z) : Prop :=
  let slot := aget seat0 (seats_ l) i in
  0 <= consumed_through slot <= reserved_through slot /\ reserved_through slot < 2 ^ 64 /\
  descending (consumed_through slot) (consumed i log) /\
  tiles (reserved_through slot) (intervals i log).

Definition ledger_ok (l : InputSequenceLedgerV1) (log : list Entry) : Prop :=
  length (seats_ l) = 2%nat /\ forall i, 0 <= i < 2 -> seat_ok l log i.

Lemma descending_weaken b b' l : b <= b' -> descending b l -> descending b' l.
Proof. destruct l; cbn [descending]; [done |]. intros ? [? ?]. split; [lia | done]. Qed.

Lemma aget_fmap {A B} (f : A -> B) (d : A) (e : B) l i :
  0 <= i < zlen l -> aget e (f <$> l) i = f (aget d l i).
Proof.
  unfold aget, zlen. intros Hi. rewrite list_lookup_fmap.
  destruct (lookup_lt_is_Some_2 l (Z.to_nat i)) as [x ->]; [lia | done].
Qed.

Lemma run_ok o l log :
  ledger_ok l log -> op_wf o -> ledger_ok (run o l).2 (entry_of o (run o l).1 ++ log).
Proof.
  intros Hok Ho. pose proof Hok as [Hlen Hs].
  destruct o as [i a b k | i q | | | |]; cbn [run op_wf] in *.
  - unfold grant, kLedgerSeatCountV1. destruct (Z.leb_spec 2 i); [done |].
    destruct (Z.eqb_spec a 0); [done |]. destruct (Z.ltb_spec b a); [done |]. cbn [orb].
    destruct (_ || _ || _); [done |]. cbv zeta.
    destruct (Z.eqb_spec a (next_from (aget seat0 (seats_ l) i))) as [Ha|]; [| done]. cbn [negb snd fst].
    unfold entry_of. destruct (decide (V2_OK = V2_OK)); [| done]. cbn [app].
    split; [cbn; by rewrite length_aset |]. intros j Hj. destruct (Hs i) as ((? & ?) & ? & Hd & Ht); [lia |].
    unfold seat_ok. cbn [seats_ over consumed intervals].
    destruct (Z.eqb_spec i j) as [<-|Hne].
    + rewrite aget_aset_eq by (unfold zlen; lia). cbn [reserved_through consumed_through over].
      unfold next_from in Ha. cbn [tiles].
      destruct (Z.eqb_spec (reserved_through (aget seat0 (seats_ l) i)) 0) as [E|E].
      * split_and!; try done; try lia. rewrite E in Ht. by replace (a - 1) with 0 by lia.
      * assert (reserved_through (aget seat0 (seats_ l) i) <> 2 ^ 64 - 1).
        { intros E'. rewrite E' in Ha. by vm_compute in Ha. }
        rewrite u64_small in Ha by lia. split_and!; try done; try lia.
        by replace (a - 1) with (reserved_through (aget seat0 (seats_ l) i)) by lia.
    + rewrite aget_aset_ne by lia. by apply Hs.
  - unfold consume, kLedgerSeatCountV1. destruct (Z.leb_spec 2 i); [done |].
    destruct (Z.eqb_spec q 0); [done |]. cbn [orb]. destruct (_ || _ || _); [done |]. cbv zeta.
    destruct (Z.leb_spec q (consumed_through (aget seat0 (seats_ l) i))); [done |].
    destruct (Z.ltb_spec (reserved_through (aget seat0 (seats_ l) i)) q); [done |].
    cbn [orb fst snd]. unfold entry_of. destruct (decide (V2_OK = V2_OK)); [| done]. cbn [app].
    split; [cbn; by rewrite length_aset |]. intros j Hj. destruct (Hs i) as ((? & ?) & ? & Hd & Ht); [lia |].
    unfold seat_ok. cbn [seats_ over consumed intervals].
    destruct (Z.eqb_spec i j) as [<-|Hne].
    + rewrite aget_aset_eq by (unfold zlen; lia). cbn [reserved_through consumed_through over descending].
      split_and!; try done; try lia. eapply descending_weaken; [| exact Hd]. lia.
    + rewrite aget_aset_ne by lia. by apply Hs.
  - unfold close_child. destruct (_ || _); [done |]. split; [cbn; by rewrite length_fmap |].
    intros j Hj. destruct (Hs j) as ((? & ?) & ? & Hd & Ht); [lia |].
    unfold seat_ok. cbn [seats_ over snd fst]. unfold entry_of. destruct (decide _); [| done]. cbn [app].
    rewrite (aget_fmap _ seat0) by (unfold zlen; lia). cbn [reserved_through consumed_through over].
    split_and!; try done; try lia. by eapply descending_weaken.
  - unfold abort_prestart. destruct (_ || _); [done |]. destruct (existsb _ _); [done |].
    unfold entry_of. destruct (decide _); done.
  - unfold handoff_successor. destruct (negb _); [done |]. split; [cbn; by rewrite length_fmap |].
    intros j Hj. destruct (Hs j) as ((? & ?) & ? & Hd & Ht); [lia |].
    unfold seat_ok. cbn [seats_ over snd fst]. unfold entry_of. destruct (decide _); [| done]. cbn [app].
    rewrite (aget_fmap _ seat0) by (unfold zlen; lia). done.
  - unfold release_source_writer, entry_of. cbn. by destruct (decide _).
Qed.

Lemma ledger_reachable_ok l log : reachable l log -> ledger_ok l log.
Proof.
  induction 1 as [| l log o _ IH Ho]; [| by apply run_ok].
  split; [done |]. intros i Hi. assert (i = 0 \/ i = 1) as [-> | ->] by lia; by vm_compute.
Qed.

(** C14. No input number is ever used twice on a link: whatever games are granted,
    closed, aborted or handed over, each seat's granted intervals tile 1 .. n
    without gap or overlap, and the numbers it consumes strictly increase inside
    them. *)
Theorem sequences_never_reused (l : InputSequenceLedgerV1) (log : list Entry) (i : Z) :
  reachable l log -> 0 <= i < 2 ->
  let slot := aget seat0 (seats_ l) i in
  tiles (reserved_through slot) (intervals i log) /\
  descending (consumed_through slot) (consumed i log) /\
  NoDup (consumed i log) /\
  0 <= consumed_through slot <= reserved_through slot /\ reserved_through slot < 2 ^ 64.
Proof.
  intros Hr Hi. destruct (ledger_reachable_ok l log Hr) as [_ Hs].
  destruct (Hs i Hi) as ((? & ?) & ? & Hd & Ht). cbv zeta. split_and!; try done.
  clear -Hd. revert Hd. generalize (consumed_through (aget seat0 (seats_ l) i)).
  assert (forall xs b x, descending b xs -> b < x -> x ∉ xs) as Hnot.
  { induction xs as [|y xs IH]; intros b x; cbn [descending]; [set_solver |].
    intros [? Hd] Hx. apply not_elem_of_cons. split; [lia |]. by apply (IH (y - 1)); [| lia]. }
  induction (consumed i log) as [|x xs IH]; intros b; cbn [descending]; [constructor |].
  intros [? Hd]. constructor; [by apply (Hnot _ (x - 1)); [| lia] | by eapply IH].
Qed.

(** Two grants, a close, a handover, a further grant. *)
Definition demo_ops : list Op :=
  [Grant 0 1 100 Normal; Grant 1 1 80 Prime; Consume 0 1; Consume 0 7; CloseChild; Handoff;
   Grant 0 101 120 Normal; Consume 0 101].

Fixpoint play (ops : list Op) (l : InputSequenceLedgerV1) (log : list Entry)
    : InputSequenceLedgerV1 * list Entry :=
  match ops with
  | [] => (l, log)
  | o :: rest => play rest (run o l).2 (entry_of o (run o l).1 ++ log)
  end.

Lemma ledger_play_reachable ops l log :
  reachable l log -> Forall op_wf ops -> reachable (play ops l log).1 (play ops l log).2.
Proof.
  intros Hr Hops. revert l log Hr. induction Hops; intros; [done |]. cbn [play].
  apply IHHops. by apply reachable_run.
Qed.

Lemma demo_wf : Forall op_wf demo_ops.
Proof. repeat constructor; done. Qed.

Lemma sequences_never_reused_witness :
  let '(l, log) := play demo_ops ledger_new [] in
  consumed 0 log = [101; 7; 1] /\ intervals 0 log = [(101, 120); (1, 100)] /\
  NoDup (consumed 0 log).
Proof.
  pose proof (sequences_never_reused _ _ 0 (ledger_play_reachable _ _ _ reachable_new demo_wf)) as H.
  destruct (play demo_ops ledger_new []) as [l log] eqn:E.
  split; [| split].
  - change log with (l, log).2. rewrite <- E. reflexivity.
  - change log with (l, log).2. rewrite <- E. reflexivity.
  - apply H. lia.
Defined.

(** A number of an aborted game can still be consumed: aborting burns nothing, and
    the successor's grant reopens the whole unconsumed range. *)
Theorem aborted_interval_consumable :
  let '(l, _) := play [Grant 0 1 10 Prime; AbortPrestart; Handoff; Grant 0 11 20 Normal]
                   ledger_new [] in
  (consume 0 5 l).1 = V2_OK.
Proof. reflexivity. Qed.

End Ledger.

(** ** Watchdog *)

Module Watchdog.

Definition kLinkFreezeNsV1 : Z := 300 * 1000 * 1000.
Definition kReconnectDeadlineNsV1 : Z := 30 * 1000 * 1000 * 1000.

Inductive LinkActivityStateV1 := Live | LinkFrozen | ReconnectExpired.

#[global] Instance activity_eq_dec : EqDecision LinkActivityStateV1.
Proof. solve_decision. Defined.

Record LinkActivityWatchdogV1 := mkWatchdog {
  state_ : LinkActivityStateV1;
  last_activity_ns_ : Z;
  freeze_ns_ : Z;
  clock_seen_ : bool;
}.

#[global] Instance eta_watchdog : Eta LinkActivityWatchdogV1 := fun r =>
  mkWatchdog (state_ r) (last_activity_ns_ r) (freeze_ns_ r) (clock_seen_ r).

Definition watchdog_new : LinkActivityWatchdogV1 := mkWatchdog Live 0 0 false.

Definition reset (t : Z) (w : LinkActivityWatchdogV1) : LinkActivityWatchdogV1 :=
  w <| state_ := Live |> <| last_activity_ns_ := t |> <| freeze_ns_ := 0 |>
    <| clock_seen_ := true |>.

Definition refresh (t : Z) (w : LinkActivityWatchdogV1) : LinkActivityWatchdogV1 :=
  if decide (state_ w = ReconnectExpired) then w
  else
    let w := w <| last_activity_ns_ := t |> in
    if decide (state_ w = LinkFrozen) then w
    else w <| state_ := Live |> <| freeze_ns_ := 0 |>.

Definition on_verified_peer_activity (t : Z) (w : LinkActivityWatchdogV1) := refresh t w.
Definition on_authenticated_peer_ack (t : Z) (w : LinkActivityWatchdogV1) := refresh t w.
Definition on_local_send_complete (_ : Z) (w : LinkActivityWatchdogV1) := w.
Definition on_transport_ack (_ : Z) (w : LinkActivityWatchdogV1) := w.
Definition on_queued_callback (_ : Z) (w : LinkActivityWatchdogV1) := w.

Definition on_clock (t : Z) (w : LinkActivityWatchdogV1)
    : LinkActivityStateV1 * LinkActivityWatchdogV1 :=
  if negb (clock_seen_ w)
  then (state_ w, w <| last_activity_ns_ := t |> <| clock_seen_ := true |>)
  else
    match state_ w with
    | Live =>
      let w := if (last_activity_ns_ w <=? t) && (kLinkFreezeNsV1 <=? t - last_activity_ns_ w)
               then w <| state_ := LinkFrozen |> <| freeze_ns_ := t |> else w in
      (state_ w, w)
    | LinkFrozen =>
      let w := if (freeze_ns_ w <=? t) && (kReconnectDeadlineNsV1 <=? t - freeze_ns_ w)
               then w <| state_ := ReconnectExpired |> else w in
      (state_ w, w)
    | ReconnectExpired => (state_ w, w)
    end.

Definition frozen (w : LinkActivityWatchdogV1) : bool := negb (bool_decide (state_ w = Live)).
Definition reconnect_expired (w : LinkActivityWatchdogV1) : bool :=
  bool_decide (state_ w = ReconnectExpired).

(** The calls between two resets. *)
Inductive Signal :=
  | PeerActivity (t : Z) | PeerAck (t : Z) | LocalSend (t : Z) | TransportAck (t : Z)
  | QueuedCallback (t : Z) | Clock (t : Z).

Definition observe (s : Signal) (w : LinkActivityWatchdogV1) : LinkActivityWatchdogV1 :=
  match s with
  | PeerActivity t => on_verified_peer_activity t w
  | PeerAck t => on_authenticated_peer_ack t w
  | LocalSend t => on_local_send_complete t w
  | TransportAck t => on_transport_ack t w
  | QueuedCallback t => on_queued_callback t w
  | Clock t => (on_clock t w).2
  end.

Definition observe_all (l : list Signal) (w : LinkActivityWatchdogV1) : LinkActivityWatchdogV1 :=
  fold_left (fun w s => observe s w) l w.

Definition deadline_passed (delay t0 t : Z) : bool := (t0 <=? t) && (delay <=? t - t0).

(** What the watchdog promises of a trace: it scans for the first clock reading
    300 ms after the last peer signal, and then for one 30 s after that. *)
Fixpoint expired_after (freeze_at : Z) (l : list Signal) : bool :=
  match l with
  | [] => false
  | Clock t :: rest =>
    if deadline_passed kReconnectDeadlineNsV1 freeze_at t then true
    else expired_after freeze_at rest
  | _ :: rest => expired_after freeze_at rest
  end.

Fixpoint verdict (heard : Z) (l : list Signal) : LinkActivityStateV1 :=
  match l with
  | [] => Live
  | Clock t :: rest =>
    if deadline_passed kLinkFreezeNsV1 heard t
    then if expired_after t rest then ReconnectExpired else LinkFrozen
    else verdict heard rest
  | PeerActivity t :: rest | PeerAck t :: rest => verdict t rest
  | _ :: rest => verdict heard rest
  end.

Lemma observe_expired l w :
  state_ w = ReconnectExpired -> clock_seen_ w = true -> observe_all l w = w.
Proof.
  intros Hs Hc. induction l as [|s l IH]; [done |]. unfold observe_all in *. cbn [fold_left].
  assert (observe s w = w) as ->; [| exact IH].
  destruct s; cbn [observe]; try done; unfold on_verified_peer_activity, on_authenticated_peer_ack,
    refresh, on_clock; rewrite ?Hc, Hs; done.
Qed.

Lemma observe_frozen l w :
  state_ w = LinkFrozen -> clock_seen_ w = true ->
  state_ (observe_all l w) = if expired_after (freeze_ns_ w) l then ReconnectExpired else LinkFrozen.
Proof.
  revert w. induction l as [|s l IH]; intros w Hs Hc; [done |].
  unfold observe_all in *. cbn [fold_left].
  assert (forall t, state_ (refresh t w) = LinkFrozen /\ clock_seen_ (refresh t w) = true /\
    freeze_ns_ (refresh t w) = freeze_ns_ w) as Hrefresh.
  { intros t. destruct w as [st last fr seen]. cbn in Hs, Hc. by subst. }
  destruct s as [t | t | t | t | t | t]; cbn [observe expired_after]; try (by apply IH);
    try (destruct (Hrefresh t) as (? & ? & <-); by apply IH).
  unfold on_clock. rewrite Hc, Hs. cbn [negb]. cbv zeta. cbn [snd].
  fold (deadline_passed kReconnectDeadlineNsV1 (freeze_ns_ w) t).
  destruct (deadline_passed _ _ t); [| by apply IH].
  by fold (observe_all l (w <| state_ := ReconnectExpired |>)); rewrite observe_expired.
Qed.

(** The watchdog implements its abstract specification on every trace: a link
    freezes exactly at the first clock reading 300 ms after the last verified peer
    signal, expires exactly at one 30 s after the freeze, and nothing else, in
    particular no local send, transport acknowledgement or late peer signal, moves
    either deadline. *)
Theorem watchdog_refines_deadlines (w : LinkActivityWatchdogV1) (t0 : Z) (l : list Signal) :
  state_ (observe_all l (reset t0 w)) = verdict t0 l.
Proof.
  assert (forall w, state_ w = Live -> clock_seen_ w = true ->
    state_ (observe_all l w) = verdict (last_activity_ns_ w) l) as H.
  { clear. induction l as [|s l IH]; intros w Hs Hc; [done |].
    unfold observe_all in *. cbn [fold_left].
    assert (forall t, state_ (refresh t w) = Live /\ clock_seen_ (refresh t w) = true /\
      last_activity_ns_ (refresh t w) = t) as Hrefresh.
    { intros t. destruct w as [st last fr seen]. cbn in Hs, Hc. by subst. }
    destruct s as [t | t | t | t | t | t]; cbn [observe verdict]; try (by apply IH).
    - destruct (Hrefresh t) as (H1 & H2 & H3). rewrite <- H3 at 2. by apply IH.
    - destruct (Hrefresh t) as (H1 & H2 & H3). rewrite <- H3 at 2. by apply IH.
    - unfold on_clock. rewrite Hc, Hs. cbn [negb]. cbv zeta. cbn [snd].
      fold (deadline_passed kLinkFreezeNsV1 (last_activity_ns_ w) t).
      destruct (deadline_passed _ _ t); [| by apply IH].
      exact (observe_frozen l (w <| state_ := LinkFrozen |> <| freeze_ns_ := t |>) eq_refl Hc). }
  by rewrite H.
Qed.

(** The trace of the 30 s deadline that does not slide. *)
Example deadline_trace :
  verdict 10 [Clock (10 + kLinkFreezeNsV1); PeerActivity (10 + kLinkFreezeNsV1 + 5);
              LocalSend (10 + kLinkFreezeNsV1 + kReconnectDeadlineNsV1 - 1);
              Clock (10 + kLinkFreezeNsV1 + kReconnectDeadlineNsV1)] = ReconnectExpired.
Proof. reflexivity. Qed.

End Watchdog.
