(* ===== verification/RecoveryStore.v ===== *)
(** * Recovery: durable root store
    ([shared/src/session/recovery/durable_root_store.{hpp,cpp}])

    Immutable objects are keyed by their SHA-256 hash; they wait in a pending map
    until a flush makes them durable.  A guarded replace publishes a new root: it
    compares the revision and hash the caller expects, stores and flushes the new
    bytes, and then switches.  Crash points stop it in between.

    The maps are finite maps keyed by the hash bytes.  Allocation failure and the
    null checks of out parameters are not modelled; null bytes are the empty
    string. *)

From S2P Require Import Prelude.
From S2P Require Import Sha256.
From S2P Require Import SessionAbi.

Inductive CrashPointV1 := NoCrash | BeforeFlush | AfterFlushBeforeCas | AfterCasBeforeAck.

#[global] Instance crash_eq_dec : EqDecision CrashPointV1.
Proof. solve_decision. Defined.

Record RootViewV1 := mkRoot { revision : Z; root_hash : bytes; root_bytes : bytes }.

Record DurableRootStoreV1 := mkStore {
  durable_ : gmap (list Z) (list Z);
  pending_ : gmap (list Z) (list Z);
  root_ : option RootViewV1;
  crash_ : CrashPointV1;
}.

#[global] Instance eta_store : Eta DurableRootStoreV1 := fun r =>
  mkStore (durable_ r) (pending_ r) (root_ r) (crash_ r).

Definition store_new : DurableRootStoreV1 := mkStore ∅ ∅ None NoCrash.

Definition put_immutable (data : bytes) (s : DurableRootStoreV1)
    : fly_session_result_v2 * bytes * DurableRootStoreV1 :=
  let hash := sha256 data in
  (V2_OK, hash, s <| pending_ := <[hash := data]> (pending_ s) |>).

Definition flush (s : DurableRootStoreV1) : fly_session_result_v2 * DurableRootStoreV1 :=
  if decide (crash_ s = BeforeFlush) then (V2_UNAVAILABLE, s)
  else (V2_OK, s <| durable_ := pending_ s ∪ durable_ s |> <| pending_ := ∅ |>).

(** Whether the root is the one the caller expects. *)
Definition root_matches (expected_revision : Z) (expected_hash : bytes) (s : DurableRootStoreV1)
    : bool :=
  match root_ s with
  | Some r => (revision r =? expected_revision) && bool_decide (root_hash r = expected_hash)
  | None => expected_revision =? 0
  end.

Definition next_revision (s : DurableRootStoreV1) : Z :=
  match root_ s with Some r => u64 (revision r + 1) | None => 1 end.

Definition cas_replace (expected_revision : Z) (expected_hash new_bytes : bytes)
    (s : DurableRootStoreV1) : fly_session_result_v2 * DurableRootStoreV1 :=
  if negb (root_matches expected_revision expected_hash s) then (V2_STALE, s)
  else
    let '(put, new_hash, s) := put_immutable new_bytes s in
    if decide (put <> V2_OK) then (put, s)
    else
      let '(flushed, s) := flush s in
      if decide (flushed <> V2_OK) then (flushed, s)
      else if decide (crash_ s = AfterFlushBeforeCas) then (V2_UNAVAILABLE, s)
      else (V2_OK, s <| root_ := Some (mkRoot (next_revision s) new_hash new_bytes) |>).

Definition read_root (s : DurableRootStoreV1) : fly_session_result_v2 * option RootViewV1 :=
  match root_ s with None => (V2_UNAVAILABLE, None) | Some r => (V2_OK, Some r) end.

Definition read_object (hash : bytes) (s : DurableRootStoreV1)
    : fly_session_result_v2 * option bytes :=
  match durable_ s !! hash with
  | None => (V2_UNAVAILABLE, None)
  | Some b => (V2_OK, Some b)
  end.

Definition inject_crash (point : CrashPointV1) (s : DurableRootStoreV1) : DurableRootStoreV1 :=
  s <| crash_ := point |>.

Definition restart (s : DurableRootStoreV1) : DurableRootStoreV1 :=
  s <| pending_ := ∅ |> <| crash_ := NoCrash |>.

Definition store_revision (s : DurableRootStoreV1) : Z :=
  match root_ s with Some r => revision r | None => 0 end.

(** ** Histories *)

Inductive Op :=
  | Put (data : bytes) | Flush | Cas (expected_revision : Z) (expected_hash data : bytes)
  | InjectCrash (point : CrashPointV1) | RestartStore.

Definition run (o : Op) (s : DurableRootStoreV1) : DurableRootStoreV1 :=
  match o with
  | Put d => (put_immutable d s).2
  | Flush => (flush s).2
  | Cas r h d => (cas_replace r h d s).2
  | InjectCrash p => inject_crash p s
  | RestartStore => restart s
  end.

Inductive reachable : DurableRootStoreV1 -> Prop :=
  | reachable_new : reachable store_new
  | reachable_run s o : reachable s -> reachable (run o s).

(** Every object is filed under its hash. *)
Definition keyed (m : gmap (list Z) (list Z)) : Prop :=
  map_Forall (fun h d => h = sha256 d) m.

Definition store_ok (s : DurableRootStoreV1) : Prop :=
  keyed (durable_ s) /\ keyed (pending_ s) /\
  match root_ s with
  | None => True
  | Some r => root_hash r = sha256 (root_bytes r) /\ is_Some (durable_ s !! root_hash r)
  end.

Lemma keyed_insert m d : keyed m -> keyed (<[sha256 d := d]> m).
Proof. intros Hm. by apply map_Forall_insert_2. Qed.

Lemma keyed_union m1 m2 : keyed m1 -> keyed m2 -> keyed (m1 ∪ m2).
Proof. intros H1 H2. by apply map_Forall_union_2. Qed.

#[local] Hint Resolve keyed_insert keyed_union : flynes.

Lemma flush_ok s : store_ok s -> store_ok (flush s).2.
Proof.
  intros (Hd & Hp & Hr). unfold flush. destruct (decide _); [done |]. cbn [snd].
  split_and!; cbn; [auto with flynes | apply map_Forall_empty |].
  destruct (root_ s) as [r|]; [| done]. destruct Hr as [? Hr]. split; [done |].
  destruct (pending_ s !! root_hash r) as [b|] eqn:E.
  - exists b. by apply lookup_union_Some_l.
  - rewrite lookup_union_r by done. exact Hr.
Qed.

Lemma put_ok d s : store_ok s -> store_ok (put_immutable d s).2.
Proof. intros (Hd & Hp & Hr). split_and!; cbn; auto with flynes. Qed.

(** A publish is all or nothing. *)
Lemma cas_cases r h d s :
  let '(result, s') := cas_replace r h d s in
  (result = V2_OK /\ root_matches r h s = true /\
     crash_ s <> BeforeFlush /\ crash_ s <> AfterFlushBeforeCas /\
     root_ s' = Some (mkRoot (next_revision s) (sha256 d) d) /\
     is_Some (durable_ s' !! sha256 d)) \/
  (result <> V2_OK /\ root_ s' = root_ s /\
     (root_matches r h s = false \/ crash_ s = BeforeFlush \/ crash_ s = AfterFlushBeforeCas)).
Proof.
  unfold cas_replace. destruct (root_matches r h s) eqn:Hm; cbn [negb];
    [| right; split_and!; [done | done | by left]].
  unfold put_immutable. cbv zeta. destruct (decide (V2_OK <> V2_OK)); [done |].
  unfold flush. destruct (decide (crash_ _ = BeforeFlush)) as [Hc|Hc].
  { destruct (decide (V2_UNAVAILABLE <> V2_OK)) as [|Hn]; [| by destruct Hn]. right. split; [done |].
    split; [done |]. right. by left. }
  destruct (decide (V2_OK <> V2_OK)); [done |].
  destruct (decide (crash_ _ = AfterFlushBeforeCas)) as [Hc'|Hc'].
  - right. split; [done |]. split; [done |]. right. by right.
  - left. split_and!; try done. cbn. exists d.
    apply lookup_union_Some_l, lookup_insert_eq.
Qed.

Lemma cas_ok r h d s : store_ok s -> store_ok (cas_replace r h d s).2.
Proof.
  intros Hok. pose proof (cas_cases r h d s) as Hcases. unfold cas_replace in *.
  destruct (negb _); [done |].
  pose proof (put_ok d s Hok) as H1. destruct (put_immutable d s) as [[put hash] s1] eqn:Hput.
  destruct (decide (put <> V2_OK)); [done |].
  pose proof (flush_ok s1 H1) as H2. destruct (flush s1) as [fl s2].
  destruct (decide (fl <> V2_OK)); [done |]. destruct (decide (crash_ s2 = _)); [done |].
  destruct H2 as (Hd & Hp & _). split_and!; [exact Hd | exact Hp |]. cbn.
  destruct Hcases as [(_ & _ & _ & _ & Hroot & Hdur) | (? & _)]; [| done].
  injection Hput as <- <- <-. split; [done | exact Hdur].
Qed.

Lemma store_reachable_ok s : reachable s -> store_ok s.
Proof.
  induction 1 as [| s o _ IH]; [done |].
  destruct o; cbn [run].
  - by apply put_ok.
  - by apply flush_ok.
  - by apply cas_ok.
  - exact IH.
  - by destruct IH as (? & _ & ?).
Qed.

(** ** Properties *)


(** The guarded replace is exclusive: once a writer has published against a root,
    any other writer that expected the same root is stale. *)
Theorem publish_is_exclusive (s : DurableRootStoreV1) (expected_revision : Z)
    (expected_hash mine theirs : bytes) (s' : DurableRootStoreV1) :
  cas_replace expected_revision expected_hash mine s = (V2_OK, s') ->
  cas_replace expected_revision expected_hash theirs s' = (V2_STALE, s').
Proof.
  intros Hcas. pose proof (cas_cases expected_revision expected_hash mine s) as H.
  rewrite Hcas in H. destruct H as [(_ & Hm & _ & _ & Hroot & _) | (? & _)]; [| done].
  unfold cas_replace. assert (root_matches expected_revision expected_hash s' = false) as ->; [| done].
  unfold root_matches in *. rewrite Hroot. cbn [revision root_hash].
  assert (next_revision s <> expected_revision) as Hne.
  { unfold next_revision. destruct (root_ s) as [r|].
    - apply andb_true_iff in Hm as [Hm _]. apply Z.eqb_eq in Hm. rewrite <- Hm. unfold u64.
      intros E. assert (0 <= revision r < 2 ^ 64) as Hr.
      { rewrite <- E. by apply Z.mod_pos_bound. }
      destruct (decide (revision r = 2 ^ 64 - 1)) as [E'|]; [by rewrite E' in E |].
      rewrite Z.mod_small in E by lia. lia.
    - apply Z.eqb_eq in Hm. lia. }
  apply Z.eqb_neq in Hne. by rewrite Hne.
Qed.

(** A durable object stays durable and, unless two messages with one hash are at
    hand, keeps its bytes. *)
Lemma flush_keeps s h d :
  store_ok s -> durable_ s !! h = Some d ->
  exists d', durable_ (flush s).2 !! h = Some d' /\ sha256 d' = sha256 d.
Proof.
  intros (Hd & Hp & _) Hh. unfold flush. destruct (decide _); [by exists d |]. cbn.
  destruct (pending_ s !! h) as [b|] eqn:E.
  - exists b. split; [by apply lookup_union_Some_l |].
    by rewrite <- (Hd h d Hh), <- (Hp h b E).
  - exists d. split; [by rewrite lookup_union_r |]. done.
Qed.

(** Nothing durable is lost: after any history of puts, flushes, publishes,
    crashes and restarts, an object that was durable can still be read by its
    hash, with its bytes, or a SHA-256 collision is at hand. *)
Theorem durable_objects_kept (s : DurableRootStoreV1) (ops : list Op) (h d : bytes) :
  reachable s -> read_object h s = (V2_OK, Some d) ->
  exists d', read_object h (fold_left (fun s o => run o s) ops s) = (V2_OK, Some d') /\
    (d' = d \/ (d' <> d /\ sha256 d' = sha256 d)).
Proof.
  intros Hr Hread.
  assert (durable_ s !! h = Some d) as Hd.
  { unfold read_object in Hread. by destruct (durable_ s !! h); [injection Hread as -> |]. }
  assert (exists d', durable_ (fold_left (fun s o => run o s) ops s) !! h = Some d' /\
    sha256 d' = sha256 d) as (d' & Hd' & Hs).
  { clear Hread. revert s d Hr Hd. induction ops as [|o ops IH]; intros s d Hr Hd; [by exists d |].
    cbn [fold_left]. pose proof (store_reachable_ok s Hr) as Hok.
    assert (exists d1, durable_ (run o s) !! h = Some d1 /\ sha256 d1 = sha256 d) as (d1 & H1 & H2).
    { destruct o as [b | | r e b | p |]; cbn [run]; try (by exists d).
      - by apply flush_keeps.
      - unfold cas_replace. destruct (negb _); [by exists d |].
        destruct (put_immutable b s) as [[put hash] s1] eqn:Hput.
        assert (store_ok s1 /\ durable_ s1 !! h = Some d) as [Hok1 Hd1].
        { pose proof (put_ok b s Hok) as H. rewrite Hput in H. split; [exact H |].
          by injection Hput as <- <- <-. }
        destruct (decide (put <> V2_OK)); [by exists d |].
        destruct (flush_keeps s1 h d Hok1 Hd1) as (d1 & Hd1' & ?). destruct (flush s1) as [fl s2].
        cbn [snd] in Hd1'. exists d1. destruct (decide _); [done |]. by destruct (decide _). }
    destruct (IH (run o s) d1 (reachable_run s o Hr) H1) as (d' & ? & ?).
    exists d'. split; [done | congruence]. }
  exists d'. unfold read_object. rewrite Hd'. split; [done |].
  destruct (decide (d' = d)); [by left | by right].
Qed.

(** ** Witnesses *)

Definition demo : DurableRootStoreV1 := run (Cas 0 [] [111; 108; 100]) store_new.

Lemma store_demo_reachable : reachable demo.
Proof. apply reachable_run, reachable_new. Qed.


Lemma publish_is_exclusive_witness :
  cas_replace 0 [] [110] demo = (V2_STALE, demo).
Proof.
  apply (publish_is_exclusive store_new 0 [] [111; 108; 100] [110] demo).
  reflexivity.
Defined.

Lemma durable_objects_kept_witness :
  exists d', read_object (sha256 [111; 108; 100])
      (fold_left (fun s o => run o s) [InjectCrash BeforeFlush; Cas 1 [] [1]; RestartStore] demo) =
      (V2_OK, Some d') /\
    (d' = [111; 108; 100] \/ (d' <> [111; 108; 100] /\ sha256 d' = sha256 [111; 108; 100])).
Proof.
  apply (durable_objects_kept demo _ _ _ store_demo_reachable). vm_compute. reflexivity.
Defined.
