(* ===== verification/RecoveryReducer.v ===== *)
(** * Recovery: reconnect and handover reducer
    ([shared/src/session/recovery/recovery_reducer.{hpp,cpp}])

    The reducer ties the ledger, the watchdog and the root store of one link to the
    phase of its game: it starts and ends games, freezes them when the link goes
    silent, merges both sides' phases on reconnect, and publishes roots.  Its three
    parts are public members, so a history interleaves its own calls with direct
    calls on them.  The test-only [install_child_fixture] is left out. *)

From S2P Require Import Prelude.
From S2P Require Import Sha256.
From S2P Require Import SessionAbi.
From S2P Require Import RecoveryLedger.
From S2P Require Import RecoveryStore.

Inductive ChildPhaseV1 :=
  | PhaseNone | Pending | Active | PhaseFrozen | Ending | Ended | AbortedPrestart | RepairBlocked.

Inductive ResumePhaseV1 := Idle | RouteOnly | TailPrelude | ReadRoot | Reconcile | ResumeReady.

#[global] Instance phase_eq_dec : EqDecision ChildPhaseV1.
Proof. solve_decision. Defined.
#[global] Instance resume_eq_dec : EqDecision ResumePhaseV1.
Proof. solve_decision. Defined.

Record RecoveryReducerV1 := mkReducer {
  store : DurableRootStoreV1;
  ledger : Ledger.InputSequenceLedgerV1;
  watch : Watchdog.LinkActivityWatchdogV1;
  local_ : ChildPhaseV1;
  peer_ : ChildPhaseV1;
  resume_ : ResumePhaseV1;
  paused_ : bool;
  prelude_complete_ : bool;
  end_proof_ : bool;
  close_proof_ : bool;
  clock_generation_ : Z;
  last_clock_ns_ : Z;
  expected_root_revision_ : Z;
  expected_root_hash_ : bytes;
}.

#[global] Instance eta_reducer : Eta RecoveryReducerV1 := fun r =>
  mkReducer (store r) (ledger r) (watch r) (local_ r) (peer_ r) (resume_ r) (paused_ r)
    (prelude_complete_ r) (end_proof_ r) (close_proof_ r) (clock_generation_ r)
    (last_clock_ns_ r) (expected_root_revision_ r) (expected_root_hash_ r).

Definition reducer_new : RecoveryReducerV1 :=
  mkReducer store_new Ledger.ledger_new Watchdog.watchdog_new PhaseNone PhaseNone Idle
    false false false false 1 0 0 (replicate 32 0).

(** ** Operations *)

(** The merge of the two sides' phases, rule by rule. *)
Definition merge_children (local peer : ChildPhaseV1) (paused : bool) : ChildPhaseV1 :=
  if paused && bool_decide (local = Active) && bool_decide (peer = Active) then Active
  else if bool_decide (local = RepairBlocked) || bool_decide (peer = RepairBlocked)
  then RepairBlocked
  else
    match local, peer with
    | PhaseNone, PhaseNone => PhaseNone
    | PhaseNone, Pending => Pending
    | PhaseNone, Active => RepairBlocked
    | Ended, (Active | Ending | Ended) => Ended
    | (Active | Ending), Ended => Ended
    | Active, Active => PhaseFrozen
    | AbortedPrestart, PhaseNone => PhaseNone
    | Pending, Ended => RepairBlocked
    | Ended, Pending => RepairBlocked
    | _, _ => local
    end.

Definition may_step (r : RecoveryReducerV1) : bool :=
  bool_decide (local_ r = Active) && negb (paused_ r) && negb (Watchdog.frozen (watch r)) &&
  Ledger.may_start (ledger r).

Definition genesis_link (r : RecoveryReducerV1) : fly_session_result_v2 * RecoveryReducerV1 :=
  let born := Ledger.genesis (ledger r) in
  if decide (born <> V2_OK) then (born, r)
  else
    (V2_OK, r <| local_ := PhaseNone |> <| peer_ := PhaseNone |> <| resume_ := Idle |>
              <| paused_ := false |> <| prelude_complete_ := false |>
              <| end_proof_ := false |> <| close_proof_ := false |>).

Definition grant_and_start (r : RecoveryReducerV1) : fly_session_result_v2 * RecoveryReducerV1 :=
  if bool_decide (local_ r = Ended) && end_proof_ r then (V2_INVALID_STATE, r)
  else if negb (Ledger.source_writer_alive_ (ledger r)) then (V2_INVALID_STATE, r)
  else
    let from0 := Ledger.next_from (Ledger.seat (ledger r) 0) in
    let from1 := Ledger.next_from (Ledger.seat (ledger r) 1) in
    let '(granted, l) := Ledger.grant 0 from0 (u64 (from0 + 99)) Ledger.Normal (ledger r) in
    let r := r <| ledger := l |> in
    if decide (granted <> V2_OK) then (granted, r)
    else
      let '(granted, l) := Ledger.grant 1 from1 (u64 (from1 + 99)) Ledger.Normal (ledger r) in
      let r := r <| ledger := l |> in
      if decide (granted <> V2_OK) then (granted, r)
      else (V2_OK, r <| local_ := Active |> <| paused_ := false |> <| end_proof_ := false |>).

Definition step_game (r : RecoveryReducerV1) : fly_session_result_v2 :=
  if negb (may_step r) then V2_INVALID_STATE else V2_OK.

Definition request_stream (_ : RecoveryReducerV1) : fly_session_result_v2 := V2_UNAVAILABLE.

Definition pause_game (r : RecoveryReducerV1) : fly_session_result_v2 * RecoveryReducerV1 :=
  if decide (local_ r <> Active) then (V2_INVALID_STATE, r)
  else (V2_OK, r <| paused_ := true |>).

Definition end_game (r : RecoveryReducerV1) : fly_session_result_v2 * RecoveryReducerV1 :=
  if negb (bool_decide (local_ r = Active)) && negb (bool_decide (local_ r = PhaseFrozen))
  then (V2_INVALID_STATE, r)
  else
    let '(closed, l) := Ledger.close_child (ledger r) in
    let r := r <| ledger := l |> in
    if decide (closed <> V2_OK) then (closed, r)
    else
      let r := r <| close_proof_ := true |> <| end_proof_ := true |> <| local_ := Ended |>
                 <| paused_ := false |> in
      let '(released, l) := Ledger.release_source_writer (ledger r) in
      (released, r <| ledger := l |>).

Definition export_user_save (r : RecoveryReducerV1) : fly_session_result_v2 :=
  if negb (end_proof_ r) || negb (close_proof_ r) || negb (bool_decide (local_ r = Ended))
  then V2_INVALID_STATE else V2_OK.

Definition close_then_handoff (r : RecoveryReducerV1)
    : fly_session_result_v2 * RecoveryReducerV1 :=
  let handoff r :=
    let '(result, l) := Ledger.handoff_successor (ledger r) in (result, r <| ledger := l |>) in
  if negb (Ledger.closed_ (ledger r)) then
    let '(closed, l) := Ledger.close_child (ledger r) in
    let r := r <| ledger := l |> in
    if decide (closed <> V2_OK) then (closed, r)
    else handoff (r <| close_proof_ := true |>)
  else handoff r.

Definition abort_prestart (r : RecoveryReducerV1) : fly_session_result_v2 * RecoveryReducerV1 :=
  let '(aborted, l) := Ledger.abort_prestart (ledger r) in
  let r := r <| ledger := l |> in
  if decide (aborted <> V2_OK) then (aborted, r)
  else (V2_OK, r <| local_ := AbortedPrestart |>).

Definition note_clock (t : Z) (r : RecoveryReducerV1) : fly_session_result_v2 * RecoveryReducerV1 :=
  let r := r <| last_clock_ns_ := t |> in
  let '(state, w) := Watchdog.on_clock t (watch r) in
  let r := r <| watch := w |> in
  (V2_OK, if bool_decide (state <> Watchdog.Live) && bool_decide (local_ r = Active)
          then r <| local_ := PhaseFrozen |> else r).

(** Which phases need the tail of the last game before the root is read. *)
Definition needs_tail (local peer : ChildPhaseV1) : bool :=
  match local with
  | Active | PhaseFrozen | Ending | Ended => true
  | _ => match peer with Active | Ending | Ended => true | _ => false end
  end.

Definition reconnect (now_ns clock_generation : Z) (peer_phase : ChildPhaseV1)
    (r : RecoveryReducerV1) : fly_session_result_v2 * RecoveryReducerV1 :=
  let r := r <| peer_ := peer_phase |> in
  if negb (clock_generation =? clock_generation_ r) && Watchdog.reconnect_expired (watch r)
  then (V2_INVALID_STATE, r)
  else
    let r := r <| resume_ := RouteOnly |> in
    let r := if needs_tail (local_ r) peer_phase
             then r <| resume_ := TailPrelude |> <| prelude_complete_ := true |>
                    <| resume_ := ReadRoot |>
             else r <| prelude_complete_ := true |> in
    let r := r <| resume_ := Reconcile |> in
    let r := r <| local_ := merge_children (local_ r) peer_phase (paused_ r) |> in
    if decide (local_ r = RepairBlocked) then (V2_OK, r)
    else if decide (local_ r = PhaseFrozen) then (V2_OK, r)
    else (V2_OK, r <| resume_ := ResumeReady |> <| last_clock_ns_ := now_ns |>).

(** The expected revision and hash after the root was read. *)
Definition adopt_root (view : option RootViewV1) (r : RecoveryReducerV1) : RecoveryReducerV1 :=
  match view with
  | Some v => r <| expected_root_revision_ := revision v |> <| expected_root_hash_ := root_hash v |>
  | None => r
  end.

Definition cas_after_conflict (r : RecoveryReducerV1)
    : fly_session_result_v2 * RecoveryReducerV1 :=
  let '(read, view) := read_root (store r) in
  if decide (read <> V2_OK) then (read, r) else (V2_OK, adopt_root view r).

Definition publish_root (data : bytes) (crash : CrashPointV1) (r : RecoveryReducerV1)
    : fly_session_result_v2 * RecoveryReducerV1 :=
  let r := r <| store := inject_crash crash (store r) |> in
  let '(published, s) :=
    cas_replace (expected_root_revision_ r) (expected_root_hash_ r) data (store r) in
  let r := r <| store := s |> in
  if decide (published <> V2_OK) then (published, r)
  else
    let '(read, view) := read_root (store r) in
    if decide (read <> V2_OK) then (read, r) else (V2_OK, adopt_root view r).

Definition ready_bound (r : RecoveryReducerV1) : bool := bool_decide (resume_ r = ResumeReady).

(** ** Histories *)

Inductive ReducerOp :=
  | GenesisLink | GrantAndStart | PauseGame | EndGame | CloseThenHandoff | AbortGame
  | NoteClock (t : Z) | Reconnect (now_ns generation : Z) (peer : ChildPhaseV1)
  | PublishRoot (data : bytes) (crash : CrashPointV1) | CasAfterConflict
  | OnLedger (o : Ledger.Op) | OnStore (o : RecoveryStore.Op)
  | OnWatch (s : Watchdog.Signal) | ResetWatch (t : Z).

Definition reduce (o : ReducerOp) (r : RecoveryReducerV1) : RecoveryReducerV1 :=
  match o with
  | GenesisLink => (genesis_link r).2
  | GrantAndStart => (grant_and_start r).2
  | PauseGame => (pause_game r).2
  | EndGame => (end_game r).2
  | CloseThenHandoff => (close_then_handoff r).2
  | AbortGame => (abort_prestart r).2
  | NoteClock t => (note_clock t r).2
  | Reconnect now g p => (reconnect now g p r).2
  | PublishRoot d c => (publish_root d c r).2
  | CasAfterConflict => (cas_after_conflict r).2
  | OnLedger o => r <| ledger := (Ledger.run o (ledger r)).2 |>
  | OnStore o => r <| store := RecoveryStore.run o (store r) |>
  | OnWatch s => r <| watch := Watchdog.observe s (watch r) |>
  | ResetWatch t => r <| watch := Watchdog.reset t (watch r) |>
  end.

Inductive reducer_reachable : RecoveryReducerV1 -> Prop :=
  | reducer_start : reducer_reachable reducer_new
  | reducer_op r o : reducer_reachable r -> reducer_reachable (reduce o r).

Definition reduce_all (ops : list ReducerOp) (r : RecoveryReducerV1) : RecoveryReducerV1 :=
  fold_left (fun r o => reduce o r) ops r.

Lemma reduce_all_reachable ops r : reducer_reachable r -> reducer_reachable (reduce_all ops r).
Proof.
  revert r. induction ops as [|o ops IH]; intros r Hr; [done |].
  unfold reduce_all. cbn [fold_left]. apply IH. by apply reducer_op.
Qed.

(** ** A released writer stays released *)

Definition dead (r : RecoveryReducerV1) : Prop :=
  Ledger.source_writer_alive_ (ledger r) = false.

Lemma ledger_run_dead o l :
  Ledger.source_writer_alive_ l = false ->
  Ledger.source_writer_alive_ (Ledger.run o l).2 = false.
Proof.
  intros Hd. destruct o; cbn [Ledger.run];
    unfold Ledger.grant, Ledger.consume, Ledger.close_child, Ledger.abort_prestart,
      Ledger.handoff_successor, Ledger.release_source_writer; cbv zeta;
    repeat match goal with |- context [if ?c then _ else _] => destruct c end; done.
Qed.

Lemma grant_dead r : dead r -> grant_and_start r = (V2_INVALID_STATE, r).
Proof. unfold dead, grant_and_start. intros ->. by destruct (_ && _). Qed.

Lemma reduce_ledger o r :
  exists ops, ledger (reduce o r) = fold_left (fun l o => (Ledger.run o l).2) ops (ledger r).
Proof.
  destruct o; cbn [reduce]; try (exists []; done).
  - exists []. unfold genesis_link. cbv zeta. by destruct (decide _).
  - unfold grant_and_start. destruct (_ && _); [by exists [] |]. destruct (negb _); [by exists [] |].
    cbv zeta. set (a := Ledger.next_from _). set (b := Ledger.next_from _).
    destruct (Ledger.grant 0 a _ _ _) as [g1 l1] eqn:E1.
    assert (forall l', (Ledger.run (Ledger.Grant 0 a (u64 (a + 99)) Ledger.Normal) l').2 = 
      (Ledger.grant 0 a (u64 (a + 99)) Ledger.Normal l').2) as Hrun by done.
    destruct (decide _).
    + exists [Ledger.Grant 0 a (u64 (a + 99)) Ledger.Normal]. cbn [fold_left]. by rewrite Hrun, E1.
    + change (ledger (r <| ledger := l1 |>)) with l1.
      destruct (Ledger.grant 1 b _ _ l1) as [g2 l2] eqn:E2.
      exists [Ledger.Grant 0 a (u64 (a + 99)) Ledger.Normal;
              Ledger.Grant 1 b (u64 (b + 99)) Ledger.Normal].
      cbn [fold_left]. rewrite Hrun, E1. cbn [snd Ledger.run]. rewrite E2. by destruct (decide _).
  - exists []. unfold pause_game. by destruct (decide _).
  - unfold end_game. destruct (_ && _); [by exists [] |].
    destruct (Ledger.close_child (ledger r)) as [c l] eqn:E. destruct (decide _).
    + exists [Ledger.CloseChild]. cbn. by rewrite E.
    + exists [Ledger.CloseChild; Ledger.ReleaseWriter]. cbn. by rewrite E.
  - unfold close_then_handoff. cbv zeta. destruct (negb _).
    + destruct (Ledger.close_child (ledger r)) as [c l] eqn:E. destruct (decide _).
      * exists [Ledger.CloseChild]. cbn. by rewrite E.
      * exists [Ledger.CloseChild; Ledger.Handoff]. cbn. rewrite E. cbn.
        by destruct (Ledger.handoff_successor l).
    + exists [Ledger.Handoff]. cbn. by destruct (Ledger.handoff_successor (ledger r)).
  - unfold abort_prestart. destruct (Ledger.abort_prestart (ledger r)) as [a l] eqn:E.
    exists [Ledger.AbortPrestart]. cbn. rewrite E. by destruct (decide _).
  - exists []. unfold note_clock. destruct (Watchdog.on_clock _ _). cbn. by destruct (_ && _).
  - exists []. unfold reconnect. cbv zeta. destruct (_ && _); [done |].
    destruct (needs_tail _ _); destruct (decide _); try done; by destruct (decide _).
  - exists []. unfold publish_root. cbv zeta. destruct (cas_replace _ _ _ _) as [p s].
    destruct (decide _); [done |]. destruct (read_root _) as [q v]. destruct (decide _); [done |].
    by destruct v.
  - exists []. unfold cas_after_conflict. destruct (read_root _) as [q v].
    destruct (decide _); [done |]. by destruct v.
  - by exists [o].
Qed.

Lemma reduce_dead o r : dead r -> dead (reduce o r).
Proof.
  unfold dead. destruct (reduce_ledger o r) as [ops ->]. generalize (ledger r) as l.
  induction ops as [|x ops IH]; intros l Hd; [done |]. cbn [fold_left].
  apply IH. by apply ledger_run_dead.
Qed.

(** A game with an end proof has released its writer. *)
Ltac no_proof := let H := fresh in intros H; cbn in H; congruence.

Lemma reduce_proof o r :
  (end_proof_ r = true -> dead r) -> end_proof_ (reduce o r) = true -> dead (reduce o r).
Proof.
  intros Hr. destruct (end_proof_ r) eqn:Hp; [intros _; by apply reduce_dead, Hr |].
  destruct o; cbn [reduce]; try (no_proof).
  - unfold genesis_link. cbv zeta. destruct (decide _); no_proof.
  - unfold grant_and_start. rewrite Hp, andb_false_r. destruct (negb _); [no_proof |]. cbv zeta.
    destruct (Ledger.grant 0 _ _ _ _). destruct (decide _); [no_proof |].
    destruct (Ledger.grant 1 _ _ _ _). destruct (decide _); [no_proof | done].
  - unfold pause_game. destruct (decide _); no_proof.
  - unfold end_game. destruct (_ && _); [no_proof |].
    destruct (Ledger.close_child _). destruct (decide _); [no_proof | done].
  - unfold close_then_handoff. cbv zeta. destruct (negb _).
    + destruct (Ledger.close_child _). destruct (decide _); [no_proof |].
      destruct (Ledger.handoff_successor _). no_proof.
    + destruct (Ledger.handoff_successor _). no_proof.
  - unfold abort_prestart. destruct (Ledger.abort_prestart _). destruct (decide _); no_proof.
  - unfold note_clock. destruct (Watchdog.on_clock _ _). cbn [snd].
    destruct (_ && _); no_proof.
  - unfold reconnect. cbv zeta. destruct (_ && _); [no_proof |].
    destruct (needs_tail _ _); destruct (decide _); try (no_proof);
      destruct (decide _); no_proof.
  - unfold publish_root. cbv zeta. destruct (cas_replace _ _ _ _) as [p s].
    destruct (decide _); [no_proof |]. destruct (read_root _) as [q v].
    destruct (decide _); [no_proof |]. destruct v; no_proof.
  - unfold cas_after_conflict. destruct (read_root _) as [q v].
    destruct (decide _); [no_proof |]. destruct v; no_proof.
Qed.

Lemma reachable_proof r : reducer_reachable r -> end_proof_ r = true -> dead r.
Proof. induction 1; [done |]. by apply reduce_proof. Qed.

Lemma dead_no_step r : dead r -> may_step r = false.
Proof.
  unfold dead, may_step, Ledger.may_start. intros ->. by rewrite andb_false_r.
Qed.

(** ** Properties *)

(** A saved game is over for good: ending a game licenses the export of its
    save, and from any state that licenses it no sequence of calls, on the reducer
    or directly on its ledger, watchdog and store, steps or starts a game again. *)
Theorem saved_game_is_over (r : RecoveryReducerV1) (ops : list ReducerOp) :
  reducer_reachable r -> export_user_save r = V2_OK ->
  let r' := reduce_all ops r in
  step_game r' = V2_INVALID_STATE /\ grant_and_start r' = (V2_INVALID_STATE, r').
Proof.
  intros Hr Hs. assert (dead r) as Hd.
  { apply (reachable_proof r Hr). unfold export_user_save in Hs. by destruct (end_proof_ r). }
  cbv zeta. assert (dead (reduce_all ops r)) as Hd'.
  { clear Hr Hs. revert r Hd. induction ops as [|o ops IH]; intros r Hd; [done |].
    unfold reduce_all. cbn [fold_left]. apply IH. by apply reduce_dead. }
  split; [| by apply grant_dead]. unfold step_game. by rewrite dead_no_step.
Qed.

(** A reconnect never revives a game: whatever phase the peer reports, the game
    may step afterwards only if it could before, and two live games that meet
    unpaused are both frozen.  On a refusal only the peer's phase is noted. *)
Theorem reconnect_never_revives (now_ns generation : Z) (peer : ChildPhaseV1)
    (r : RecoveryReducerV1) :
  let '(result, r') := reconnect now_ns generation peer r in
  (may_step r' = true -> may_step r = true) /\
  (peer = Active -> result = V2_OK -> may_step r' = false) /\
  (result <> V2_OK -> r' = r <| peer_ := peer |> /\ Watchdog.reconnect_expired (watch r) = true).
Proof.
  unfold reconnect. cbv zeta.
  destruct (Watchdog.reconnect_expired _) eqn:He; [destruct (negb (_ =? _)); cbn [andb] |].
  - split_and!; [by unfold may_step | done | done].
  - destruct (needs_tail _ _); repeat case_decide; (split_and!; [| | done]);
      unfold may_step in *; cbn in *;
      destruct (local_ r), peer, (paused_ r); try done; by rewrite ?andb_false_r.
  - rewrite andb_false_r. destruct (needs_tail _ _); repeat case_decide; (split_and!; [| | done]);
      unfold may_step in *; cbn in *;
      destruct (local_ r), peer, (paused_ r); try done; by rewrite ?andb_false_r.
Qed.

Lemma root_matches_self v s :
  root_ s = Some v -> root_matches (revision v) (root_hash v) s = true.
Proof. intros Hr. unfold root_matches. by rewrite Hr, Z.eqb_refl, bool_decide_true. Qed.

(** Publishing through the reducer is a guarded chain: a publish succeeds exactly
    when the root is the one last read or published and no crash cuts it short; it
    then holds the new bytes and expects them, so the next publish goes through; a
    refused one leaves the root and the expectation alone; and re-reading the root
    after a conflict makes the expectation current again. *)
Theorem publish_chain (data : bytes) (crash : CrashPointV1) (r : RecoveryReducerV1) :
  let current r := root_matches (expected_root_revision_ r) (expected_root_hash_ r) (store r) in
  let '(result, r') := publish_root data crash r in
  (result = V2_OK <-> current r = true /\ crash <> BeforeFlush /\ crash <> AfterFlushBeforeCas) /\
  (result = V2_OK -> current r' = true /\
     root_ (store r') = Some (mkRoot (next_revision (store r)) (sha256 data) data)) /\
  (result <> V2_OK -> root_ (store r') = root_ (store r) /\ current r' = current r /\
     let '(reread, r'') := cas_after_conflict r' in
     if decide (root_ (store r) = None) then reread = V2_UNAVAILABLE
     else reread = V2_OK /\ current r'' = true).
Proof.
  cbv zeta. unfold publish_root. cbv zeta.
  change (expected_root_revision_ (r <| store := inject_crash crash (store r) |>))
    with (expected_root_revision_ r).
  change (expected_root_hash_ (r <| store := inject_crash crash (store r) |>))
    with (expected_root_hash_ r).
  change (store (r <| store := inject_crash crash (store r) |>)) with (inject_crash crash (store r)).
  set (e := expected_root_revision_ r). set (h := expected_root_hash_ r).
  pose proof (cas_cases e h data (inject_crash crash (store r))) as Hc.
  destruct (cas_replace e h data _) as [published s].
  change (root_matches e h (inject_crash crash (store r))) with (root_matches e h (store r)) in Hc.
  change (next_revision (inject_crash crash (store r))) with (next_revision (store r)) in Hc.
  change (crash_ (inject_crash crash (store r))) with crash in Hc.
  change (root_ (inject_crash crash (store r))) with (root_ (store r)) in Hc.
  destruct Hc as [(-> & Hm & Hc1 & Hc2 & Hroot & _) | (Hne & Hroot & Hwhy)].
  - destruct (decide (V2_OK <> V2_OK)); [done |].
    unfold read_root. cbn [store over]. change (store (r <| store := _ |> <| store := s |>)) with s.
    rewrite Hroot. destruct (decide (V2_OK <> V2_OK)); [done |]. split; [by split |].
    split; [| done]. intros _. cbn [adopt_root]. split; [| exact Hroot].
    exact (root_matches_self _ _ Hroot).
  - destruct (decide (published <> V2_OK)); [| done]. split; [| split; [done |]].
    + split; [done |]. intros (Hm & ? & ?). rewrite Hm in Hwhy. by destruct Hwhy as [? | [? | ?]].
    + intros _. cbn [store over]. split; [exact Hroot |]. split.
      { unfold root_matches. cbn. by rewrite Hroot. }
      unfold cas_after_conflict, read_root.
      change (store (r <| store := _ |> <| store := s |>)) with s. rewrite Hroot.
      destruct (root_ (store r)) as [v|] eqn:Hv.
      * destruct (decide (V2_OK <> V2_OK)); [done |]. destruct (decide (Some v = None)); [done |].
        split; [done |]. cbn [adopt_root]. exact (root_matches_self v s Hroot).
      * destruct (decide (V2_UNAVAILABLE <> V2_OK)) as [|Hn]; [| by destruct Hn].
        by destruct (decide (None = None)).
Qed.

(** ** Witnesses and divergences *)

Definition ended_demo : RecoveryReducerV1 :=
  reduce_all [GenesisLink; GrantAndStart; EndGame] reducer_new.

Lemma saved_game_is_over_witness :
  export_user_save ended_demo = V2_OK /\
  step_game (reduce_all [CloseThenHandoff; ResetWatch 0; GrantAndStart] ended_demo) = V2_INVALID_STATE.
Proof.
  assert (export_user_save ended_demo = V2_OK) as He by reflexivity.
  split; [exact He |].
  exact (proj1 (saved_game_is_over ended_demo _
    (reduce_all_reachable _ _ reducer_start) He)).
Defined.

(** A frozen side never learns that its peer ended the game: the merge keeps it
    frozen, although an active side converges on the end. *)
Example frozen_never_ends :
  merge_children Active Ended false = Ended /\ merge_children PhaseFrozen Ended false = PhaseFrozen.
Proof. done. Qed.

(** The 30 s deadline binds only a new clock generation: with the generation
    unchanged an expired link still reconnects. *)
Example expired_link_reconnects :
  let r := reduce_all [GenesisLink; ResetWatch 0; NoteClock Watchdog.kLinkFreezeNsV1;
             NoteClock (Watchdog.kLinkFreezeNsV1 + Watchdog.kReconnectDeadlineNsV1)] reducer_new in
  Watchdog.reconnect_expired (watch r) = true /\
  (reconnect (40 * 1000 * 1000 * 1000) 1 PhaseNone r).1 = V2_OK /\
  ready_bound (reconnect (40 * 1000 * 1000 * 1000) 1 PhaseNone r).2 = true.
Proof. cbv zeta. split_and!; vm_compute; reflexivity. Qed.
