(* ===== verification/AppFrame.v ===== *)
(** * Application frames ([shared/src/session/wire/app_frame.{hpp,cpp}])

    The framing of every application object: a 32-bit length that counts the
    16-bit type tag, the tag, the object.  A frame is accepted when the tag is in
    the table, its type is on the channel's allow list, the object is within the
    channel's maximum, and the object codec accepts it.

    The pointers of the code are buffers here: an output parameter is the value it
    holds, a type name is the string. *)

From S2P Require Import Prelude Sha256 SessionCodec.

(** ** The tables *)

Inductive FrameTypeNamespace := ObjectKind | Message.

#[global] Instance namespace_eq_dec : EqDecision FrameTypeNamespace.
Proof. solve_decision. Defined.

Definition object_kind_tag_max : Z := 0xefff.
Definition message_tag_base : Z := 0xff00.

Open Scope string_scope.

Definition kFrameTags : list (Z * FrameTypeNamespace * string) := [
  (0x0001, ObjectKind, "0x0001"); (0x0002, ObjectKind, "0x0002"); (0x0003, ObjectKind, "0x0003");
  (0x0004, ObjectKind, "0x0004"); (0x0005, ObjectKind, "0x0005"); (0x0006, ObjectKind, "0x0006");
  (0x0007, ObjectKind, "0x0007"); (0x0008, ObjectKind, "0x0008"); (0x0009, ObjectKind, "0x0009");
  (0x000a, ObjectKind, "0x000a"); (0x000b, ObjectKind, "0x000b"); (0x000c, ObjectKind, "0x000c");
  (0x000d, ObjectKind, "0x000d"); (0x000e, ObjectKind, "0x000e"); (0x0101, ObjectKind, "0x0101");
  (0x0102, ObjectKind, "0x0102"); (0x0103, ObjectKind, "0x0103"); (0x0104, ObjectKind, "0x0104");
  (0x0105, ObjectKind, "0x0105"); (0x0106, ObjectKind, "0x0106"); (0x0107, ObjectKind, "0x0107");
  (0x0108, ObjectKind, "0x0108"); (0x0109, ObjectKind, "0x0109"); (0x010a, ObjectKind, "0x010a");
  (0x010b, ObjectKind, "0x010b"); (0x010c, ObjectKind, "0x010c"); (0x010d, ObjectKind, "0x010d");
  (0x010e, ObjectKind, "0x010e"); (0x010f, ObjectKind, "0x010f"); (0x0110, ObjectKind, "0x0110");
  (0x0111, ObjectKind, "0x0111"); (0x0112, ObjectKind, "0x0112"); (0x0201, ObjectKind, "0x0201");
  (0x0202, ObjectKind, "0x0202"); (0x0203, ObjectKind, "0x0203"); (0x0204, ObjectKind, "0x0204");
  (0x0205, ObjectKind, "0x0205"); (0x0206, ObjectKind, "0x0206"); (0x0207, ObjectKind, "0x0207");
  (0x0208, ObjectKind, "0x0208"); (0x0209, ObjectKind, "0x0209"); (0x020a, ObjectKind, "0x020a");
  (0x020b, ObjectKind, "0x020b"); (0x020c, ObjectKind, "0x020c"); (0x020d, ObjectKind, "0x020d");
  (0x020e, ObjectKind, "0x020e"); (0x020f, ObjectKind, "0x020f"); (0x0210, ObjectKind, "0x0210");
  (0x0211, ObjectKind, "0x0211"); (0x0212, ObjectKind, "0x0212"); (0x0213, ObjectKind, "0x0213");
  (0x0216, ObjectKind, "0x0216"); (0x0217, ObjectKind, "0x0217"); (0x0218, ObjectKind, "0x0218");
  (0x0301, ObjectKind, "0x0301"); (0x0302, ObjectKind, "0x0302"); (0x0303, ObjectKind, "0x0303");
  (0x0304, ObjectKind, "0x0304"); (0x0305, ObjectKind, "0x0305"); (0x0306, ObjectKind, "0x0306");
  (0x0307, ObjectKind, "0x0307"); (0x0308, ObjectKind, "0x0308");
  (0xff00, Message, "FrameCursorV1"); (0xff01, Message, "EvidenceCursorV1");
  (0xff02, Message, "CanonicalInputBundleV1"); (0xff03, Message, "ChannelBindV1");
  (0xff04, Message, "ChannelBindProofV1"); (0xff05, Message, "ChannelResumeSummaryV1");
  (0xff06, Message, "LinkHelloV1"); (0xff07, Message, "LinkReadyV1")
].

Definition kControlTypes : list string := ["0x0210"; "0x0212"; "0x0216"; "0x0217"; "0x0218"].

Definition kStateCommitTypes : list string :=
  ["0x0112"; "0x0202"; "0x0203"; "0x020A"; "0x020B"; "0x020C"; "0x020D"; "0x020E"; "0x020F";
   "0x0211"; "CanonicalInputBundleV1"].

Definition kBulkTypes : list string := ["0x000b"].

Close Scope string_scope.

Definition allow_list_for (channel : QuicChannel) : list string :=
  match channel with
  | Control => kControlTypes
  | Input => []
  | StateCommit => kStateCommitTypes
  | Bulk => kBulkTypes
  | Rom | Video | Audio => []
  end.

(** The numeric value of the enum. *)
Definition channel_id (channel : QuicChannel) : Z :=
  match channel with
  | Control => 1 | Input => 2 | StateCommit => 3 | Bulk => 4 | Rom => 5 | Video => 6 | Audio => 7
  end.

Definition kMaxObjectBytes : list Z := [0; 65536; 1200; 65536; 245760; 65536; 1200; 1200].

Definition max_object_bytes (channel : QuicChannel) : Z := aget 0 kMaxObjectBytes (channel_id channel).

Definition absolute_max_object_bytes : Z := 245760.

(** [strcmp] against each name of the list. *)
Definition allow_list_has_type (allow : list string) (type_name : option string) : bool :=
  match type_name with
  | None => false
  | Some name => existsb (fun n => bool_decide (n = name)) allow
  end.

Fixpoint find_tag (tags : list (Z * FrameTypeNamespace * string)) (tag : Z)
    : option (FrameTypeNamespace * string) :=
  match tags with
  | [] => None
  | (t, namespace, name) :: rest => if t =? tag then Some (namespace, name) else find_tag rest tag
  end.

Definition frame_tag_info (tag : Z) : option (FrameTypeNamespace * string) := find_tag kFrameTags tag.

Definition type_name_for_tag (tag : Z) : option string := snd <$> frame_tag_info tag.

Definition frame_tag_count : Z := zlen kFrameTags.

Definition frame_tag_entry (index : Z) : option (Z * FrameTypeNamespace * string) :=
  if frame_tag_count <=? index then None else kFrameTags !! Z.to_nat index.

Definition tag_is_legal_on (channel : QuicChannel) (tag : Z) : bool :=
  allow_list_has_type (allow_list_for channel) (type_name_for_tag tag).

Definition type_name_is_legal_on (channel : QuicChannel) (type_name : option string) : bool :=
  allow_list_has_type (allow_list_for channel) type_name.

Definition allowed_type_count (channel : QuicChannel) : Z := zlen (allow_list_for channel).

(** ** Frames *)

Record AppFrame := mkFrame {
  frame_type_tag : Z;
  type_namespace : FrameTypeNamespace;
  type_name : option string;
  object_bytes : bytes;
  object_size : Z;
  frame_length : Z;
  object_hash : bytes;
  app_frame_hash : bytes;
  has_app_frame_hash : bool;
}.

Definition frame0 : AppFrame :=
  mkFrame 0 ObjectKind None [] 0 0 (replicate 32 0) (replicate 32 0) false.

(** The classification preimage: domain, channel, tag, length, body. *)
Definition app_frame_preimage (channel : QuicChannel) (tag : Z) (body : bytes) : bytes :=
  ascii_bytes "flynes-app-frame-v1" ++ [channel_id channel] ++ be_bytes 2 tag ++
  be_bytes 4 (zlen body) ++ body.

Definition compute_app_frame_hash (channel : QuicChannel) (tag : Z) (body : bytes) : bytes :=
  sha256 (app_frame_preimage channel tag body).

Record ChannelContext := mkChannel { context_channel : QuicChannel; max_body : Z; allow : list string }.

Definition channel_context (channel : QuicChannel) : ChannelContext :=
  mkChannel channel (max_object_bytes channel) (allow_list_for channel).

(** One record at the front of [data]: the status, the bytes consumed, the frame;
    the last two only on success. *)
Definition decode_record (data : bytes) (context : option ChannelContext)
    : Status * option (Z * AppFrame) :=
  let max := match context with None => absolute_max_object_bytes | Some c => max_body c end in
  if zlen data <? 4 then (Truncated, None)
  else
    let declared := load32 data 0 in
    if declared <? 2 then (BadLength, None)
    else
      let body_size := declared - 2 in
      if max <? body_size then (BadLength, None)
      else
        let total := 4 + declared in
        if zlen data <? total then (Truncated, None)
        else
          let tag := load16 data 4 in
          match frame_tag_info tag with
          | None => (UnknownKind, None)
          | Some (namespace, name) =>
            if match context with
               | None => false
               | Some c => negb (allow_list_has_type (allow c) (Some name))
               end
            then (InvalidField, None)
            else
              let body := slice data 6 body_size in
              let '(status, hash) := check_object name body (replicate 32 0) in
              if decide (status <> Ok) then (status, None)
              else
                (Ok, Some (total,
                  mkFrame tag namespace (Some name) body body_size declared hash
                    (match context with
                     | None => replicate 32 0
                     | Some c => compute_app_frame_hash (context_channel c) tag body
                     end)
                    (match context with None => false | Some _ => true end)))
          end.

(** Exactly one record; the frame is stored before the trailing bytes are noticed. *)
Definition decode_exactly (data : bytes) (context : option ChannelContext) (out : AppFrame)
    : Status * AppFrame :=
  match decode_record data context with
  | (Ok, Some (consumed, frame)) =>
    if negb (consumed =? zlen data) then (Trailing, frame) else (Ok, frame)
  | (status, _) => (status, out)
  end.

Definition identify_app_frame (data : option bytes) (size : Z) (out : option AppFrame)
    : Status * option AppFrame :=
  match data, out with
  | None, Some o =>
    if negb (size =? 0) then (InvalidField, out)
    else let '(status, frame) := decode_exactly [] None o in (status, Some frame)
  | Some d, Some o => let '(status, frame) := decode_exactly (slice d 0 size) None o in (status, Some frame)
  | _, None => (InvalidField, out)
  end.

Definition parse_app_frame (channel : QuicChannel) (data : option bytes) (size : Z) (out : option AppFrame)
    : Status * option AppFrame :=
  let context := Some (channel_context channel) in
  match data, out with
  | None, Some o =>
    if negb (size =? 0) then (InvalidField, out)
    else let '(status, frame) := decode_exactly [] context o in (status, Some frame)
  | Some d, Some o => let '(status, frame) := decode_exactly (slice d 0 size) context o in (status, Some frame)
  | _, None => (InvalidField, out)
  end.

(** *** The stream cursor *)

Record AppFrameCursor := mkCursor {
  cursor_channel : QuicChannel; cursor_bytes : bytes; cursor_size : Z; cursor_offset : Z }.

#[global] Instance eta_cursor : Eta AppFrameCursor := fun r =>
  mkCursor (cursor_channel r) (cursor_bytes r) (cursor_size r) (cursor_offset r).

Definition app_frame_cursor (channel : QuicChannel) (data : bytes) (size : Z) : AppFrameCursor :=
  mkCursor channel data size 0.

(** The status, whether a frame was read, the frame buffer and the cursor. *)
Definition next_app_frame (cursor : option AppFrameCursor) (out : option AppFrame) (has_frame : option bool)
    : Status * option AppFrameCursor * option AppFrame * option bool :=
  match cursor, out, has_frame with
  | Some cur, Some _, Some _ =>
    if cursor_size cur <? cursor_offset cur then (Truncated, cursor, out, Some false)
    else if cursor_offset cur =? cursor_size cur then (Ok, cursor, out, Some false)
    else
      match decode_record (slice (cursor_bytes cur) (cursor_offset cur) (cursor_size cur - cursor_offset cur))
                          (Some (channel_context (cursor_channel cur))) with
      | (Ok, Some (consumed, frame)) =>
        (Ok, Some (cur <| cursor_offset := cursor_offset cur + consumed |>), Some frame, Some true)
      | (status, _) => (status, cursor, out, Some false)
      end
  | _, _, _ => (InvalidField, cursor, out, has_frame)
  end.

(** *** The encoder

    [out] is the caller's buffer, its capacity the length. *)

Definition app_frame_bytes (tag : Z) (body : bytes) : bytes :=
  mjoin [be_bytes 4 (2 + zlen body); be_bytes 2 tag; body].

Definition encode_app_frame (tag : Z) (object : option bytes) (size : Z) (out : option bytes)
    (written : option Z) : Status * option bytes * option Z :=
  match out, written with
  | Some buffer, Some _ =>
    if match object with None => negb (size =? 0) | Some _ => false end then (InvalidField, out, written)
    else if decide (type_name_for_tag tag = None) then (UnknownKind, out, written)
    else if absolute_max_object_bytes <? size then (BadLength, out, written)
    else
      let total := 6 + size in
      if zlen buffer <? total then (Truncated, out, written)
      else
        let body := match object with None => [] | Some b => slice b 0 size end in
        (Ok, Some (app_frame_bytes tag body ++ drop (Z.to_nat total) buffer), Some total)
  | _, _ => (InvalidField, out, written)
  end.

(** ** Well-formed records *)

(** A legal type for the context, an object within the bound that its codec
    accepts, and the frame that describes it. *)
Definition record_ok (context : option ChannelContext) (record : bytes) (frame : AppFrame) : Prop :=
  exists tag namespace name body hash,
    frame_tag_info tag = Some (namespace, name) /\
    match context with None => True | Some c => allow_list_has_type (allow c) (Some name) = true end /\
    is_bytes body /\
    zlen body <= match context with None => absolute_max_object_bytes | Some c => max_body c end /\
    check_object name body (replicate 32 0) = (Ok, hash) /\
    record = app_frame_bytes tag body /\
    frame = mkFrame tag namespace (Some name) body (zlen body) (2 + zlen body) hash
      (match context with None => replicate 32 0
       | Some c => compute_app_frame_hash (context_channel c) tag body end)
      (match context with None => false | Some _ => true end).

(** Bounds on the object that fit the 32-bit length. *)
Definition context_small (context : option ChannelContext) : Prop :=
  match context with None => True | Some c => max_body c < 2 ^ 31 end.

Lemma channel_context_small channel : context_small (Some (channel_context channel)).
Proof. by destruct channel. Qed.

#[local] Hint Resolve channel_context_small : flynes.

Lemma find_tag_in tags tag info :
  find_tag tags tag = Some info -> (tag, info.1, info.2) ∈ tags.
Proof.
  induction tags as [|[[t ns] name] tags IH]; cbn [find_tag]; [done |].
  destruct (Z.eqb_spec t tag) as [->|]; [intros [= <-]; by left | intros H; right; auto].
Qed.

Lemma tag_bound tag info : frame_tag_info tag = Some info -> 0 <= tag < 2 ^ 16.
Proof.
  intros H. apply find_tag_in, list_elem_of_In in H.
  assert (forallb (fun e => (0 <=? e.1.1) && (e.1.1 <? 2 ^ 16)) kFrameTags = true) as Ht by reflexivity.
  rewrite forallb_forall in Ht. specialize (Ht _ H). cbn [fst] in Ht. bool_hyps. lia.
Qed.

Lemma zlen_app_frame tag body : zlen (app_frame_bytes tag body) = 6 + zlen body.
Proof.
  unfold app_frame_bytes. rewrite zlen_mjoin. cbn [fmap list_fmap total].
  rewrite !zlen_be_bytes. lia.
Qed.

(** The fields of a record at the front of a buffer. *)
Lemma app_frame_fields tag body rest :
  0 <= tag < 2 ^ 16 -> zlen body < 2 ^ 31 ->
  let data := app_frame_bytes tag body ++ rest in
  load32 data 0 = 2 + zlen body /\ load16 data 4 = tag /\ slice data 6 (zlen body) = body.
Proof.
  intros Ht Hb. cbv zeta. pose proof (zlen_nonneg body). pose proof (zlen_nonneg rest).
  pose proof (zlen_app_frame tag body) as Hl.
  rewrite load32_value, load16_value by (rewrite ?zlen_app; lia).
  rewrite !slice_app_left by lia. unfold app_frame_bytes. split_and!.
  - rewrite (slice_field _ 0 (be_bytes 4 (2 + zlen body))) by done. apply be_value_be_bytes_small.
    change (8 * Z.of_nat 4) with 32. lia.
  - rewrite (slice_field _ 1 (be_bytes 2 tag)) by done. by apply be_value_be_bytes_small.
  - by rewrite (slice_field _ 2 body) by done.
Qed.

(** A record at the front of a buffer is read whatever follows it. *)
Lemma decode_record_ok context record frame rest :
  context_small context -> record_ok context record frame ->
  decode_record (record ++ rest) context = (Ok, Some (zlen record, frame)).
Proof.
  intros Hc (tag & ns & name & body & hash & Hinfo & Hallow & _ & Hsize & Hcheck & -> & ->).
  pose proof (zlen_nonneg body). pose proof (zlen_nonneg rest). pose proof (zlen_app_frame tag body) as Hl.
  assert (zlen body < 2 ^ 31) as Hsmall.
  { destruct context as [c|]; cbn in Hc, Hsize; [lia |]. unfold absolute_max_object_bytes in Hsize. lia. }
  destruct (app_frame_fields tag body rest) as (E1 & E2 & E3); [by eapply tag_bound | done |].
  unfold decode_record. cbv zeta. rewrite E1, E2, Hinfo, zlen_app, Hl.
  destruct (Z.ltb_spec (6 + zlen body + zlen rest) 4); [lia |].
  destruct (Z.ltb_spec (2 + zlen body) 2); [lia |].
  replace (2 + zlen body - 2) with (zlen body) by lia. rewrite E3.
  destruct (Z.ltb_spec (match context with None => absolute_max_object_bytes | Some c => max_body c end) (zlen body));
    [lia |].
  destruct (Z.ltb_spec (6 + zlen body + zlen rest) (4 + (2 + zlen body))); [lia |].
  destruct context as [c|]; [rewrite Hallow; cbn [negb] |]; rewrite Hcheck;
    destruct (decide (Ok <> Ok)); try done; by replace (4 + (2 + zlen body)) with (6 + zlen body) by lia.
Qed.

Lemma status_ok_dec (s : Status) : ~ s <> Ok -> s = Ok.
Proof. by destruct (decide (s = Ok)). Qed.

(** Whatever is read is a well-formed record. *)
Lemma decode_record_inv context data consumed frame :
  is_bytes data -> decode_record data context = (Ok, Some (consumed, frame)) ->
  6 <= consumed <= zlen data /\ record_ok context (slice data 0 consumed) frame.
Proof.
  intros Hb. unfold decode_record. cbv zeta. destruct (Z.ltb_spec (zlen data) 4); [done |].
  pose proof (load32_bound data 0 Hb) as Hd. set (declared := load32 data 0) in *.
  destruct (Z.ltb_spec declared 2); [done |].
  destruct (Z.ltb_spec (match context with None => absolute_max_object_bytes | Some c => max_body c end) (declared - 2));
    [done |].
  destruct (Z.ltb_spec (zlen data) (4 + declared)); [done |].
  destruct (frame_tag_info (load16 data 4)) as [[ns name]|] eqn:Hinfo; [| done].
  destruct (match context with None => false | Some c => negb (allow_list_has_type (allow c) (Some name)) end) eqn:Hallow;
    [done |].
  destruct (check_object _ _ _) as [status hash] eqn:Hcheck.
  destruct (decide (status <> Ok)) as [|Hok]; [intros; congruence |]. apply status_ok_dec in Hok as ->.
  intros [= <- <-]. split; [lia |].
  assert (zlen (slice data 6 (declared - 2)) = declared - 2) as Hbody by (apply zlen_slice; lia).
  exists (load16 data 4), ns, name, (slice data 6 (declared - 2)), hash. rewrite Hbody.
  split; [done |]. split. { destruct context; [by apply negb_false_iff | done]. }
  split; [by apply slice_bytes |]. split; [done |]. split; [done |].
  split; [| by replace (2 + (declared - 2)) with declared by lia].
  unfold app_frame_bytes. rewrite Hbody. replace (2 + (declared - 2)) with declared by lia.
  pose proof (mjoin_cut data 0 [4; 2; declared - 2]) as Hcut.
  assert (total [4; 2; declared - 2] = 4 + declared) as Htot by (cbn [total]; lia).
  rewrite Htot in Hcut. rewrite <- Hcut; [| lia | | lia].
  2:{ cbn [forallb Z.leb Z.compare]. rewrite andb_true_r. by apply Z.leb_le; lia. }
  cbn [cut]. change (0 + 4) with 4. change (4 + 2) with 6. f_equal.
  subst declared. rewrite load32_value, load16_value by lia.
  pose proof (be_bytes_slice data 0 4 Hb ltac:(lia) ltac:(lia)) as E4.
  pose proof (be_bytes_slice data 4 2 Hb ltac:(lia) ltac:(lia)) as E2.
  change (Z.of_nat 4) with 4 in E4. change (Z.of_nat 2) with 2 in E2. by rewrite E4, E2.
Qed.

(** ** Properties *)

Lemma decode_record_some context data : decode_record data context <> (Ok, None).
Proof.
  unfold decode_record. cbv zeta. repeat (destruct (_ <? _); [done |]).
  destruct (frame_tag_info _) as [[ns name]|]; [| done].
  destruct (match context with None => false | Some c => negb (allow_list_has_type (allow c) (Some name)) end);
    [done |].
  destruct (check_object _ _ _) as [status hash]. destruct (decide (status <> Ok)); congruence.
Qed.

Lemma decode_exactly_iff context data out frame :
  is_bytes data -> context_small context ->
  decode_exactly data context out = (Ok, frame) <-> record_ok context data frame.
Proof.
  intros Hb Hc. unfold decode_exactly. split.
  - destruct (decode_record data context) as [status [[consumed f]|]] eqn:Hd;
      [| by destruct status; try (intros; congruence); destruct (decode_record_some context data)].
    destruct status; try (intros; congruence).
    destruct (Z.eqb_spec consumed (zlen data)) as [->|]; cbn [negb]; intros [= ->].
    apply decode_record_inv in Hd as [_ Hr]; [| done]. by rewrite slice_all in Hr.
  - intros Hr. pose proof (decode_record_ok context data frame [] Hc Hr) as Hd.
    rewrite app_nil_r in Hd. by rewrite Hd, Z.eqb_refl.
Qed.

(** C29. A datagram is accepted on a channel exactly when it is what the encoder makes
    of a type that is legal there and an object of it that the codec accepts and the
    channel's bound admits; the frame then describes exactly that object, under its
    digest and the digest of its classification. *)
Theorem parse_is_encode_inverse (channel : QuicChannel) (data out : bytes) (f f0 : AppFrame) :
  is_bytes data -> zlen out = zlen data ->
  parse_app_frame channel (Some data) (zlen data) (Some f0) = (Ok, Some f) <->
  exists tag namespace name body hash,
    frame_tag_info tag = Some (namespace, name) /\ tag_is_legal_on channel tag = true /\
    is_bytes body /\ zlen body <= max_object_bytes channel /\
    check_object name body (replicate 32 0) = (Ok, hash) /\
    encode_app_frame tag (Some body) (zlen body) (Some out) (Some 0) = (Ok, Some data, Some (zlen data)) /\
    f = mkFrame tag namespace (Some name) body (zlen body) (2 + zlen body) hash
          (compute_app_frame_hash channel tag body) true.
Proof.
  intros Hb Hout. unfold parse_app_frame. rewrite slice_all.
  assert (forall tag body, frame_tag_info tag <> None -> zlen body <= max_object_bytes channel ->
    encode_app_frame tag (Some body) (zlen body) (Some out) (Some 0) = (Ok, Some data, Some (zlen data)) <->
    data = app_frame_bytes tag body) as Henc.
  { intros tag body Ht Hsize. pose proof (zlen_app_frame tag body) as Hl. unfold encode_app_frame, type_name_for_tag.
    destruct (decide (snd <$> frame_tag_info tag = None)) as [E|]; [by destruct (frame_tag_info tag) |].
    destruct (Z.ltb_spec absolute_max_object_bytes (zlen body)).
    { exfalso. unfold absolute_max_object_bytes in *.
      assert (max_object_bytes channel <= 245760) by (by destruct channel). lia. }
    rewrite slice_all. split.
    - destruct (Z.ltb_spec (zlen out) (6 + zlen body)); [done |]. intros [= Hd Hn].
      rewrite drop_ge, app_nil_r in Hd by (unfold zlen in *; lia). done.
    - intros ->. destruct (Z.ltb_spec (zlen out) (6 + zlen body)); [lia |].
      rewrite drop_ge, app_nil_r by (unfold zlen in *; lia). by rewrite Hl. }
  destruct (decode_exactly data (Some (channel_context channel)) f0) as [status frame] eqn:Hd.
  split.
  - intros [= -> ->]. apply decode_exactly_iff in Hd; [| done | apply channel_context_small].
    destruct Hd as (tag & ns & name & body & hash & Hinfo & Hallow & Hbody & Hsize & Hcheck & Hdata & ->).
    exists tag, ns, name, body, hash. split; [done |]. split.
    { unfold tag_is_legal_on, type_name_for_tag. by rewrite Hinfo. }
    split; [done |]. split; [done |]. split; [done |]. split; [| done].
    apply Henc; [by rewrite Hinfo | done | done].
  - intros (tag & ns & name & body & hash & Hinfo & Hallow & Hbody & Hsize & Hcheck & He & ->).
    apply Henc in He; [| by rewrite Hinfo | done].
    enough (decode_exactly data (Some (channel_context channel)) f0 =
      (Ok, mkFrame tag ns (Some name) body (zlen body) (2 + zlen body) hash
             (compute_app_frame_hash channel tag body) true)) as E by congruence.
    apply decode_exactly_iff; [done | apply channel_context_small |].
    exists tag, ns, name, body, hash. unfold tag_is_legal_on, type_name_for_tag in Hallow.
    rewrite Hinfo in Hallow. split_and!; done.
Qed.

(** The classification digest binds channel, tag and object. *)
Lemma preimage_inj channel channel' tag tag' body body' :
  0 <= tag < 2 ^ 16 -> 0 <= tag' < 2 ^ 16 ->
  app_frame_preimage channel tag body = app_frame_preimage channel' tag' body' ->
  channel = channel' /\ tag = tag' /\ body = body'.
Proof.
  intros Ht Ht' E. unfold app_frame_preimage in E. apply app_inv_head in E.
  apply cons_eq in E as [Ec E]. apply app_eq_length in E as [Et E]; [| by rewrite !length_be_bytes].
  apply app_eq_length in E as [_ E]; [| by rewrite !length_be_bytes].
  apply be_bytes_inj in Et; [| done | done]. split; [by destruct channel, channel' | done].
Qed.

(** The classification is tamper-evident: two accepted frames, on whatever
    channels, with one classification digest are the same channel, tag and object,
    or a SHA-256 collision is at hand. *)
Theorem classification_binds (channel1 channel2 : QuicChannel) (data1 data2 : bytes) (f0 f1 f2 : AppFrame) :
  is_bytes data1 -> is_bytes data2 ->
  parse_app_frame channel1 (Some data1) (zlen data1) (Some f0) = (Ok, Some f1) ->
  parse_app_frame channel2 (Some data2) (zlen data2) (Some f0) = (Ok, Some f2) ->
  app_frame_hash f1 = app_frame_hash f2 ->
  (channel1 = channel2 /\ data1 = data2 /\ f1 = f2) \/
  collide (app_frame_preimage channel1 (frame_type_tag f1) (object_bytes f1))
    (app_frame_preimage channel2 (frame_type_tag f2) (object_bytes f2)).
Proof.
  intros Hb1 Hb2. unfold parse_app_frame. rewrite !slice_all.
  destruct (decode_exactly data1 _ f0) as [s1 g1] eqn:H1. destruct (decode_exactly data2 _ f0) as [s2 g2] eqn:H2.
  intros [= -> ->] [= -> ->] E.
  apply decode_exactly_iff in H1; [| done | apply channel_context_small].
  apply decode_exactly_iff in H2; [| done | apply channel_context_small].
  destruct H1 as (t1 & ns1 & n1 & b1 & h1 & Hi1 & _ & _ & _ & Hc1 & Hd1 & ->).
  destruct H2 as (t2 & ns2 & n2 & b2 & h2 & Hi2 & _ & _ & _ & Hc2 & Hd2 & ->).
  cbn [app_frame_hash context_channel channel_context] in *. unfold compute_app_frame_hash in *.
  destruct (decide (app_frame_preimage channel1 t1 b1 = app_frame_preimage channel2 t2 b2)) as [Ep|Hne].
  - left. apply preimage_inj in Ep as (-> & -> & ->); [| by eapply tag_bound..].
    rewrite Hi1 in Hi2. injection Hi2 as <- <-. rewrite Hc1 in Hc2. injection Hc2 as <-.
    split; [done |]. split; [congruence | done].
  - right. by split.
Qed.

(** *** The stream cursor *)

(** The loop the header prescribes: read until no frame is returned. *)
Fixpoint read_all (fuel : nat) (cursor : AppFrameCursor) : Status * list AppFrame * AppFrameCursor :=
  match fuel with
  | O => (Ok, [], cursor)
  | S fuel' =>
    match next_app_frame (Some cursor) (Some frame0) (Some false) with
    | (Ok, Some cursor', Some frame, Some true) =>
      let '(status, frames, last) := read_all fuel' cursor' in (status, frame :: frames, last)
    | (status, Some cursor', _, _) => (status, [], cursor')
    | (status, None, _, _) => (status, [], cursor)
    end
  end.

Lemma record_ok_size context record frame : record_ok context record frame -> 6 <= zlen record.
Proof.
  intros (tag & ns & name & body & hash & _ & _ & _ & _ & _ & -> & _). rewrite zlen_app_frame.
  pose proof (zlen_nonneg body). lia.
Qed.

Lemma read_all_records channel pre records frames fuel :
  Forall2 (record_ok (Some (channel_context channel))) records frames -> (length records < fuel)%nat ->
  let data := pre ++ mjoin records in
  read_all fuel (mkCursor channel data (zlen data) (zlen pre)) =
  (Ok, frames, mkCursor channel data (zlen data) (zlen data)).
Proof.
  intros Hr. revert pre fuel. induction Hr as [|r f records frames Hrf Hrs IH]; intros pre fuel Hf;
    cbn [length] in Hf; (destruct fuel as [|fuel]; [lia |]); cbn [read_all next_app_frame cursor_size cursor_offset].
  { change (mjoin []) with (@nil Z). rewrite app_nil_r. by rewrite Z.ltb_irrefl, Z.eqb_refl. }
  change (mjoin (r :: records)) with (r ++ mjoin records).
  pose proof (record_ok_size _ _ _ Hrf). pose proof (zlen_nonneg (mjoin records)). pose proof (zlen_nonneg pre).
  rewrite !zlen_app. destruct (Z.ltb_spec (zlen pre + (zlen r + zlen (mjoin records))) (zlen pre)); [lia |].
  destruct (Z.eqb_spec (zlen pre) (zlen pre + (zlen r + zlen (mjoin records)))); [lia |].
  cbn [cursor_bytes cursor_channel]. rewrite slice_app_right by lia. rewrite Z.sub_diag.
  replace (zlen pre + (zlen r + zlen (mjoin records)) - zlen pre) with (zlen (r ++ mjoin records))
    by (rewrite zlen_app; lia).
  rewrite slice_all, (decode_record_ok _ _ f) by (auto using channel_context_small).
  specialize (IH (pre ++ r) fuel ltac:(lia)). cbv zeta in IH. rewrite <- !app_assoc, !zlen_app in IH.
  match goal with |- context [read_all fuel ?c] =>
    change c with (mkCursor channel (pre ++ r ++ mjoin records)
                     (zlen pre + (zlen r + zlen (mjoin records))) (zlen pre + zlen r)) end.
  by rewrite IH.
Qed.

(** Six state-commit types are spelled with capital hex digits in the allow list and
    with small ones in the type table, so no tag reaches them. *)
Theorem state_commit_types_unreachable :
  Forall (fun tag => is_Some (frame_tag_info tag) /\ tag_is_legal_on StateCommit tag = false)
    [0x020a; 0x020b; 0x020c; 0x020d; 0x020e; 0x020f] /\
  Forall (fun name => type_name_is_legal_on StateCommit (Some name) = true /\
                      Forall (fun e => e.2 <> name) kFrameTags)
    ["0x020A"; "0x020B"; "0x020C"; "0x020D"; "0x020E"; "0x020F"]%string.
Proof.
  split.
  - repeat (constructor; [split; [by eexists | reflexivity] |]). constructor.
  - repeat (constructor; [split; [reflexivity |]; apply Forall_forall; intros e He;
      apply list_elem_of_In in He; cbn in He; repeat (destruct He as [<- | He]; [done |]); done |]). constructor.
Qed.

(** ** Witnesses *)

(** A confirmation of a pending configuration, framed for the control channel. *)
Definition confirm_body : bytes := [0; 1; 0; 0] ++ replicate 32 7 ++ be_bytes 8 5.
Definition confirm_record : bytes := app_frame_bytes 0x218 confirm_body.

Definition confirm_frame : AppFrame :=
  mkFrame 0x218 ObjectKind (Some "0x0218"%string) confirm_body 44 46
    (domain_hash "flynes-pending-config-confirm-v1" confirm_body)
    (compute_app_frame_hash Control 0x218 confirm_body) true.

Lemma confirm_record_bytes : is_bytes confirm_record.
Proof. apply is_bytes_compute. by vm_compute. Qed.

Lemma confirm_parses :
  parse_app_frame Control (Some confirm_record) (zlen confirm_record) (Some frame0) = (Ok, Some confirm_frame).
Proof. vm_compute. reflexivity. Qed.

Lemma parse_is_encode_inverse_witness :
  exists tag body, encode_app_frame tag (Some body) (zlen body) (Some (replicate 50 0)) (Some 0) =
    (Ok, Some confirm_record, Some 50) /\ tag_is_legal_on Control tag = true.
Proof.
  destruct (proj1 (parse_is_encode_inverse Control confirm_record (replicate 50 0) confirm_frame frame0
    confirm_record_bytes eq_refl) confirm_parses)
    as (tag & ns & name & body & hash & _ & Hlegal & _ & _ & _ & He & _).
  exists tag, body. split; [exact He | exact Hlegal].
Defined.

Lemma classification_binds_witness :
  (Control = Control /\ confirm_record = confirm_record /\ confirm_frame = confirm_frame) \/
  collide (app_frame_preimage Control (frame_type_tag confirm_frame) (object_bytes confirm_frame))
    (app_frame_preimage Control (frame_type_tag confirm_frame) (object_bytes confirm_frame)).
Proof.
  exact (classification_binds Control Control confirm_record confirm_record frame0 confirm_frame confirm_frame
    confirm_record_bytes confirm_record_bytes confirm_parses confirm_parses eq_refl).
Defined.
