(* ===== verification/AppStream.v ===== *)
(** * Stream reassembly ([shared/src/session/wire/app_stream_assembler.{hpp,cpp}])

    A reliable stream arrives in arbitrary pieces; the assembler buffers them and
    hands out each application frame as soon as it is complete.  Failing, finishing
    and resetting close it for good.  Running out of memory, which the code turns
    into backpressure, is not modelled. *)

From S2P Require Import Prelude Sha256 SessionCodec AppFrame.

(** ** Definitions *)

Inductive StreamAssemblyResult :=
  | NeedMore | Produced | CleanFin | StreamClosed | StreamBackpressure | StreamProtocolViolation
  | StreamInvalidArgument.

#[global] Instance assembly_result_eq_dec : EqDecision StreamAssemblyResult.
Proof. solve_decision. Defined.

Record OwnedAppFrame := mkOwned {
  owned_tag : Z;
  owned_namespace : FrameTypeNamespace;
  owned_name : string;
  owned_object : bytes;
  owned_object_hash : bytes;
  owned_app_hash : bytes;
}.

(** The copy made of a parsed frame. *)
Definition owned_of (parsed : AppFrame) : OwnedAppFrame :=
  mkOwned (frame_type_tag parsed) (type_namespace parsed) (default ""%string (type_name parsed))
    (slice (object_bytes parsed) 0 (object_size parsed)) (object_hash parsed) (app_frame_hash parsed).

Record AppStreamAssembler := mkAssembler { channel_ : QuicChannel; buffer_ : bytes; closed_ : bool }.

Definition assembler_new (channel : QuicChannel) : AppStreamAssembler := mkAssembler channel [] false.

Definition fail (result : StreamAssemblyResult) (a : AppStreamAssembler)
    : StreamAssemblyResult * AppStreamAssembler :=
  (result, mkAssembler (channel_ a) [] true).

(** The extraction loop; [None] when the fuel runs out. *)
Fixpoint data_loop (fuel : nat) (channel : QuicChannel) (buffer : bytes) (output : list OwnedAppFrame)
    (produced : bool) : option (StreamAssemblyResult * AppStreamAssembler * list OwnedAppFrame) :=
  match fuel with
  | O => None
  | S fuel' =>
    let here := mkAssembler channel buffer false in
    let stop := Some ((if produced then Produced else NeedMore), here, output) in
    if zlen buffer <? 4 then stop
    else
      let frame_length := load32 buffer 0 in
      if frame_length <? 2 then Some (fail StreamProtocolViolation here, output)
      else
        let object_size := frame_length - 2 in
        if max_object_bytes channel <? object_size then Some (fail StreamBackpressure here, output)
        else
          let total := frame_length + 4 in
          if zlen buffer <? total then stop
          else
            match parse_app_frame channel (Some buffer) total (Some frame0) with
            | (Ok, Some parsed) =>
              data_loop fuel' channel (drop (Z.to_nat total) buffer) (output ++ [owned_of parsed]) true
            | _ => Some (fail StreamProtocolViolation here, output)
            end
  end.

(** Each iteration removes a record, at least six bytes: the buffer's length is
    enough fuel (see [data_loop_terminates]). *)
Definition data (chunk : option bytes) (size : Z) (output : option (list OwnedAppFrame))
    (a : AppStreamAssembler) : StreamAssemblyResult * AppStreamAssembler * option (list OwnedAppFrame) :=
  match output with
  | None => (StreamInvalidArgument, a, output)
  | Some out =>
    if match chunk with None => negb (size =? 0) | Some _ => false end then (StreamInvalidArgument, a, output)
    else if closed_ a then (StreamClosed, a, output)
    else
      let hard_limit := max_object_bytes (channel_ a) + 6 in
      if (hard_limit <? size) || (hard_limit - size <? zlen (buffer_ a))
      then (fail StreamBackpressure a, output)
      else
        let buffer := buffer_ a ++ match chunk with None => [] | Some c => slice c 0 size end in
        match data_loop (S (length buffer)) (channel_ a) buffer out false with
        | Some (result, a', out') => (result, a', Some out')
        | None => (NeedMore, a, output)
        end
  end.

Definition finish (output : option (list OwnedAppFrame)) (a : AppStreamAssembler)
    : StreamAssemblyResult * AppStreamAssembler :=
  match output with
  | None => (StreamInvalidArgument, a)
  | Some _ =>
    if closed_ a then (StreamClosed, a)
    else if decide (buffer_ a <> []) then fail StreamProtocolViolation a
    else (CleanFin, mkAssembler (channel_ a) (buffer_ a) true)
  end.

Definition reset (a : AppStreamAssembler) : StreamAssemblyResult * AppStreamAssembler :=
  (StreamClosed, mkAssembler (channel_ a) [] true).

Definition buffered_bytes (a : AppStreamAssembler) : Z := zlen (buffer_ a).

(** ** Feeding a stream *)

(** Feed whole chunks, collecting the frames. *)
Definition feed (a : AppStreamAssembler) (chunks : list bytes) : AppStreamAssembler * list OwnedAppFrame :=
  fold_left (fun s chunk =>
    let '(_, a', out) := data (Some chunk) (zlen chunk) (Some s.2) s.1 in (a', default s.2 out))
    chunks (a, []).

(** What may stay in the buffer: a piece that does not complete a record. *)
Definition incomplete (channel : QuicChannel) (buffer : bytes) : Prop :=
  zlen buffer < 4 \/
  (2 <= load32 buffer 0 <= max_object_bytes channel + 2 /\ zlen buffer < load32 buffer 0 + 4).

Lemma record_owned channel record frame :
  record_ok (Some (channel_context channel)) record frame ->
  parse_app_frame channel (Some record) (zlen record) (Some frame0) = (Ok, Some frame).
Proof.
  intros Hr. unfold parse_app_frame. rewrite slice_all.
  pose proof (decode_record_ok _ record frame [] (channel_context_small channel) Hr) as Hd.
  rewrite app_nil_r in Hd. unfold decode_exactly. by rewrite Hd, Z.eqb_refl.
Qed.

(** The loop on any buffer ends, has taken whole records off the front, and either
    fails or leaves an incomplete piece. *)
Lemma data_loop_spec fuel channel buffer output produced :
  is_bytes buffer -> (length buffer < fuel)%nat ->
  exists result a records frames rest,
    data_loop fuel channel buffer output produced = Some (result, a, output ++ (owned_of <$> frames)) /\
    Forall2 (record_ok (Some (channel_context channel))) records frames /\
    buffer = mjoin records ++ rest /\ channel_ a = channel /\
    (closed_ a = true /\ buffer_ a = [] /\ (result = StreamProtocolViolation \/ result = StreamBackpressure) \/
     closed_ a = false /\ buffer_ a = rest /\ incomplete channel rest /\
     result = if produced || negb (bool_decide (records = [])) then Produced else NeedMore).
Proof.
  revert buffer output produced. induction fuel as [|fuel IH]; intros buffer output produced Hb Hf; [lia |].
  cbn [data_loop]. cbv zeta.
  assert (forall result, exists a records frames rest,
    Some (fail result (mkAssembler channel buffer false), output) =
      Some (result, a, output ++ (owned_of <$> frames)) /\
    Forall2 (record_ok (Some (channel_context channel))) records frames /\
    buffer = mjoin records ++ rest /\ channel_ a = channel /\ closed_ a = true /\ buffer_ a = []) as Hfail.
  { intros result. exists (mkAssembler channel [] true), [], [], buffer. rewrite app_nil_r. by split_and!. }
  assert (incomplete channel buffer -> exists result a records frames rest,
    Some ((if produced then Produced else NeedMore), mkAssembler channel buffer false, output) =
      Some (result, a, output ++ (owned_of <$> frames)) /\
    Forall2 (record_ok (Some (channel_context channel))) records frames /\
    buffer = mjoin records ++ rest /\ channel_ a = channel /\
    closed_ a = false /\ buffer_ a = rest /\ incomplete channel rest /\
    result = if produced || negb (bool_decide (records = [])) then Produced else NeedMore) as Hstop.
  { intros Hi. exists (if produced then Produced else NeedMore), (mkAssembler channel buffer false), [], [], buffer.
    rewrite app_nil_r. split_and!; try done. by destruct produced. }
  destruct (Z.ltb_spec (zlen buffer) 4).
  { destruct Hstop as (r & a & rs & fs & rest & ? & ? & ? & ? & ?); [by left |].
    exists r, a, rs, fs, rest. split_and!; try done. by right. }
  destruct (Z.ltb_spec (load32 buffer 0) 2).
  { destruct (Hfail StreamProtocolViolation) as (a & rs & fs & rest & ? & ? & ? & ? & ? & ?).
    exists StreamProtocolViolation, a, rs, fs, rest. split_and!; try done. left. by split_and!; [| | left]. }
  destruct (Z.ltb_spec (max_object_bytes channel) (load32 buffer 0 - 2)).
  { destruct (Hfail StreamBackpressure) as (a & rs & fs & rest & ? & ? & ? & ? & ? & ?).
    exists StreamBackpressure, a, rs, fs, rest. split_and!; try done. left. by split_and!; [| | right]. }
  destruct (Z.ltb_spec (zlen buffer) (load32 buffer 0 + 4)).
  { destruct Hstop as (r & a & rs & fs & rest & ? & ? & ? & ? & ?); [right; lia |].
    exists r, a, rs, fs, rest. split_and!; try done. by right. }
  set (total := load32 buffer 0 + 4) in *.
  destruct (parse_app_frame channel (Some buffer) total (Some frame0)) as [status parsed] eqn:Hparse.
  assert (status = Ok /\ (exists f, parsed = Some f) \/
    match status, parsed with Ok, Some _ => False | _, _ => True end) as [[-> [f ->]] | Hno].
  { destruct status, parsed; try (by right). left. split; [done | by eexists]. }
  - assert (record_ok (Some (channel_context channel)) (slice buffer 0 total) f) as Hrec.
    { unfold parse_app_frame in Hparse. destruct (decode_exactly _ _ _) as [s f'] eqn:Hd.
      injection Hparse as -> ->. apply decode_exactly_iff in Hd; [done | by apply slice_bytes |].
      apply channel_context_small. }
    assert (slice buffer 0 total = take (Z.to_nat total) buffer) as Hs by done.
    destruct (IH (drop (Z.to_nat total) buffer) (output ++ [owned_of f]) true)
      as (result & a & rs & fs & rest & Hl & Hall & Hsplit & Hch & Hcase).
    { by apply Forall_drop. }
    { rewrite length_drop. unfold zlen in *. lia. }
    exists result, a, (slice buffer 0 total :: rs), (f :: fs), rest. split.
    { rewrite Hl. rewrite <- app_assoc. done. }
    split; [by constructor |]. split.
    { change (mjoin (?x :: ?y)) with (x ++ mjoin y). rewrite <- app_assoc, <- Hsplit, Hs.
      by rewrite take_drop. }
    split; [done |]. destruct Hcase as [Hc | (Hc1 & Hc2 & Hc3 & ->)]; [by left |]. right.
    split_and!; try done. by rewrite (bool_decide_false (_ :: _ = [])), orb_true_r.
  - assert (match status, parsed with
      | Ok, Some parsed => data_loop fuel channel (drop (Z.to_nat total) buffer) (output ++ [owned_of parsed]) true
      | _, _ => Some (fail StreamProtocolViolation (mkAssembler channel buffer false), output)
      end = Some (fail StreamProtocolViolation (mkAssembler channel buffer false), output)) as ->
      by (by destruct status, parsed).
    destruct (Hfail StreamProtocolViolation) as (a & rs & fs & rest & ? & ? & ? & ? & ? & ?).
    exists StreamProtocolViolation, a, rs, fs, rest. split_and!; try done. left. by split_and!; [| | left].
Qed.

Lemma data_loop_more fuel channel buffer output produced r :
  data_loop fuel channel buffer output produced = Some r ->
  data_loop (S fuel) channel buffer output produced = Some r.
Proof.
  revert buffer output produced. induction fuel as [|fuel IH]; intros buffer output produced H; [done |].
  cbn [data_loop] in H. cbv zeta in H. change (data_loop (S (S fuel)) channel buffer output produced) with
    (let here := mkAssembler channel buffer false in
     let stop := Some ((if produced then Produced else NeedMore), here, output) in
     if zlen buffer <? 4 then stop
     else if load32 buffer 0 <? 2 then Some (fail StreamProtocolViolation here, output)
     else if max_object_bytes channel <? load32 buffer 0 - 2 then Some (fail StreamBackpressure here, output)
     else if zlen buffer <? load32 buffer 0 + 4 then stop
     else match parse_app_frame channel (Some buffer) (load32 buffer 0 + 4) (Some frame0) with
          | (Ok, Some parsed) =>
            data_loop (S fuel) channel (drop (Z.to_nat (load32 buffer 0 + 4)) buffer) (output ++ [owned_of parsed]) true
          | _ => Some (fail StreamProtocolViolation here, output)
          end). cbv zeta.
  destruct (_ <? 4); [done |]. destruct (_ <? 2); [done |]. destruct (max_object_bytes channel <? _); [done |].
  destruct (_ <? _); [done |]. destruct (parse_app_frame _ _ _ _) as [[] [f|]]; try done. by apply IH.
Qed.

(** ** Properties *)

(** C39. The extraction loop terminates on every buffer: with one unit of fuel per
    byte it ends, and more fuel changes nothing. *)
Theorem data_loop_terminates (channel : QuicChannel) (buffer : bytes) (output : list OwnedAppFrame)
    (produced : bool) :
  is_bytes buffer ->
  exists r, forall fuel, (length buffer < fuel)%nat -> data_loop fuel channel buffer output produced = Some r.
Proof.
  intros Hb. destruct (data_loop_spec (S (length buffer)) channel buffer output produced Hb ltac:(lia))
    as (result & a & rs & fs & rest & H & _).
  exists (result, a, output ++ (owned_of <$> fs)). intros fuel Hf.
  induction fuel as [|fuel IH]; [lia |]. destruct (decide (length buffer = fuel)) as [<-|]; [done |].
  apply data_loop_more, IH. lia.
Qed.

(** The invariant of a fed assembler. *)
Definition fed (channel : QuicChannel) (stream : bytes) (s : AppStreamAssembler * list OwnedAppFrame) : Prop :=
  exists records frames rest,
    stream = mjoin records ++ rest /\
    Forall2 (record_ok (Some (channel_context channel))) records frames /\
    s.2 = owned_of <$> frames /\ channel_ s.1 = channel /\
    if closed_ s.1 then buffer_ s.1 = [] else buffer_ s.1 = rest /\ is_bytes rest /\ incomplete channel rest.

Lemma mjoin_app (l k : list bytes) : mjoin (l ++ k) = mjoin l ++ mjoin k.
Proof. induction l as [|x l IH]; [done |]. cbn. rewrite <- app_assoc. f_equal. exact IH. Qed.

(** One chunk keeps the invariant. *)
Lemma data_fed channel stream chunk a out :
  is_bytes chunk -> fed channel stream (a, out) ->
  let '(_, a', out') := data (Some chunk) (zlen chunk) (Some out) a in
  fed channel (stream ++ chunk) (a', default out out').
Proof.
  intros Hb (rs & fs & rest & -> & Hall & Hout & Hch & Hbuf). cbn [fst snd] in *. unfold data.
  destruct (closed_ a) eqn:Hc.
  { exists rs, fs, (rest ++ chunk). cbn [fst snd default]. rewrite Hc, app_assoc. by split_and!. }
  destruct Hbuf as (Hbuf & Hbr & Hinc).
  destruct (_ || _).
  { exists rs, fs, (rest ++ chunk). cbn. rewrite app_assoc. by split_and!. }
  rewrite slice_all, Hbuf.
  destruct (data_loop_spec (S (length (rest ++ chunk))) (channel_ a) (rest ++ chunk) out false)
    as (result & a' & rs' & fs' & rest' & -> & Hall' & Hsplit & Hch' & Hcase).
  { by apply is_bytes_app. } { lia. }
  exists (rs ++ rs'), (fs ++ fs'), rest'. cbn [fst snd default]. rewrite Hch in *.
  split; [by rewrite mjoin_app, <- !app_assoc, <- Hsplit |]. split; [by apply Forall2_app |].
  split; [by rewrite fmap_app, Hout |]. split; [done |].
  destruct Hcase as [(-> & ? & _) | (-> & ? & ? & _)]; [done |]. split; [done |]. split; [| done].
  assert (is_bytes (rest ++ chunk)) as Hall2 by (by apply is_bytes_app). rewrite Hsplit in Hall2.
  by apply is_bytes_app in Hall2 as [_ ?].
Qed.

Lemma feed_snoc a chunks chunk :
  feed a (chunks ++ [chunk]) =
  let '(_, a', out) := data (Some chunk) (zlen chunk) (Some (feed a chunks).2) (feed a chunks).1 in
  (a', default (feed a chunks).2 out).
Proof. unfold feed. by rewrite fold_left_app. Qed.

Lemma feed_fed channel chunks :
  Forall is_bytes chunks -> fed channel (mjoin chunks) (feed (assembler_new channel) chunks).
Proof.
  induction chunks as [|chunk chunks IH] using rev_ind; intros Hb.
  { exists [], [], []. cbn. split_and!; try done; [constructor | by left]. }
  apply Forall_app in Hb as [Hb Hc]. apply Forall_cons in Hc as [Hc _]. rewrite feed_snoc, mjoin_app.
  specialize (IH Hb). destruct (feed (assembler_new channel) chunks) as [a out].
  replace (mjoin [chunk]) with chunk by (cbn; by rewrite app_nil_r).
  pose proof (data_fed channel (mjoin chunks) chunk a out Hc IH) as H. cbn [fst snd].
  by destruct (data (Some chunk) (zlen chunk) (Some out) a) as [[result a'] out'].
Qed.

Lemma incomplete_bound channel rest : incomplete channel rest -> zlen rest < max_object_bytes channel + 6.
Proof.
  intros [?|[? ?]]; [| lia]. assert (0 <= max_object_bytes channel) by (by destruct channel). lia.
Qed.

(** However a stream is cut, what the assembler has handed out is exactly the
    sequence of well-formed records the stream starts with; while it is open it
    holds the piece after them, which completes no record and is smaller than one
    maximal record, and once closed it holds nothing. *)
Theorem assembler_exact (channel : QuicChannel) (chunks : list bytes) :
  Forall is_bytes chunks ->
  let '(a, out) := feed (assembler_new channel) chunks in
  exists records frames rest,
    mjoin chunks = mjoin records ++ rest /\
    Forall2 (record_ok (Some (channel_context channel))) records frames /\
    out = owned_of <$> frames /\ buffered_bytes a < max_object_bytes channel + 6 /\
    if closed_ a then buffer_ a = [] else buffer_ a = rest /\ incomplete channel rest.
Proof.
  intros Hb. pose proof (feed_fed channel chunks Hb) as H.
  destruct (feed (assembler_new channel) chunks) as [a out].
  destruct H as (rs & fs & rest & H1 & H2 & H3 & _ & H4). cbn [fst snd] in *.
  exists rs, fs, rest. unfold buffered_bytes.
  assert (0 <= max_object_bytes channel) by (by destruct channel).
  destruct (closed_ a); split_and!; try done.
  - rewrite H4. change (zlen []) with 0. lia.
  - destruct H4 as (-> & _ & Hi). by apply incomplete_bound.
  - tauto.
  - tauto.
Qed.

(** *** Completeness *)

(** A well-formed record is recognised as complete or not by the loop. *)
Lemma record_front channel record frame buffer future rest :
  record_ok (Some (channel_context channel)) record frame ->
  buffer ++ future = record ++ rest ->
  (zlen buffer < zlen record /\ incomplete channel buffer) \/
  (exists buffer', buffer = record ++ buffer' /\ buffer' ++ future = rest).
Proof.
  intros Hr E. pose proof Hr as (tag & ns & name & body & hash & Hinfo & _ & _ & Hsize & _ & -> & _).
  cbn [max_body channel_context] in Hsize.
  pose proof (zlen_app_frame tag body) as Hl.
  destruct (decide (zlen buffer < zlen (app_frame_bytes tag body))) as [Hlt|Hge].
  - left. split; [done |]. destruct (decide (zlen buffer < 4)); [by left | right].
    pose proof (zlen_nonneg future). pose proof (zlen_nonneg body).
    assert (max_object_bytes channel <= 245760) by (by destruct channel).
    destruct (app_frame_fields tag body rest) as (E1 & _); [by eapply tag_bound | lia |].
    assert (load32 buffer 0 = 2 + zlen body) as ->; [| lia].
    rewrite <- E1, <- E, !load32_value by (rewrite ?zlen_app; lia).
    by rewrite slice_app_left by lia.
  - right. exists (drop (length (app_frame_bytes tag body)) buffer).
    assert (take (length (app_frame_bytes tag body)) buffer = app_frame_bytes tag body) as Ht.
    { apply (f_equal (take (length (app_frame_bytes tag body)))) in E.
      rewrite take_app_length, take_app_le in E; [done |]. unfold zlen in Hge. lia. }
    rewrite <- Ht at 1. split; [by rewrite take_drop |].
    apply (app_inv_head (app_frame_bytes tag body)). rewrite <- E, app_assoc.
    f_equal. rewrite <- Ht at 1. by rewrite take_drop.
Qed.

(** On a prefix of a stream of well-formed records the loop never fails. *)
Lemma data_loop_complete channel records frames : 
  Forall2 (record_ok (Some (channel_context channel))) records frames ->
  forall fuel buffer future output produced, 
  is_bytes buffer -> (length buffer < fuel)%nat -> buffer ++ future = mjoin records ->
  exists result rs1 rs2 fs1 fs2 rest,
    data_loop fuel channel buffer output produced =
      Some (result, mkAssembler channel rest false, output ++ (owned_of <$> fs1)) /\
    records = rs1 ++ rs2 /\ frames = fs1 ++ fs2 /\ length rs1 = length fs1 /\ rest ++ future = mjoin rs2 /\
    match rs2 with [] => rest = [] | r :: _ => zlen rest < zlen r end.
Proof.
  induction 1 as [|r f records frames Hr Hrs IH]; intros fuel buffer future output produced Hb Hf E.
  { apply app_nil in E as [-> ->]. destruct fuel; [cbn in Hf; lia |].
    exists (if produced then Produced else NeedMore), [], [], [], [], []. rewrite app_nil_r. by split_and!. }
  destruct fuel as [|fuel]; [cbn in Hf; lia |].
  change (mjoin (r :: records)) with (r ++ mjoin records) in E.
  destruct (record_front channel r f buffer future _ Hr E) as [[Hlt Hinc] | (buffer' & -> & E')].
  - exists (if produced then Produced else NeedMore), [], (r :: records), [], (f :: frames), buffer.
    rewrite app_nil_r. split; [| by split_and!]. cbn [data_loop]. cbv zeta.
    destruct (Z.ltb_spec (zlen buffer) 4); [done |]. destruct Hinc as [?|[? ?]]; [lia |].
    destruct (Z.ltb_spec (load32 buffer 0) 2); [lia |].
    destruct (Z.ltb_spec (max_object_bytes channel) (load32 buffer 0 - 2)); [lia |].
    destruct (Z.ltb_spec (zlen buffer) (load32 buffer 0 + 4)); [done | lia].
  - pose proof (record_ok_size _ _ _ Hr) as H6.
    apply is_bytes_app in Hb as [_ Hb]. rewrite length_app in Hf.
    destruct (IH fuel buffer' future (output ++ [owned_of f]) true)
      as (result & rs1 & rs2 & fs1 & fs2 & rest & Hl & Hrs' & Hfs & Hlen & Hrest & Hcase);
      [done | unfold zlen in H6; lia | done |].
    exists result, (r :: rs1), rs2, (f :: fs1), fs2, rest.
    split; [| subst; by split_and!; cbn; try congruence].
    pose proof (record_owned _ _ _ Hr) as Hparse.
    pose proof Hr as (tag & ns & name & body & hash & Hinfo & _ & _ & Hsize & _ & Hre & _).
    cbn [max_body channel_context] in Hsize. pose proof (zlen_app_frame tag body) as Hlr. rewrite <- Hre in Hlr.
    pose proof (zlen_nonneg body). pose proof (zlen_nonneg buffer').
    assert (max_object_bytes channel <= 245760) by (by destruct channel).
    destruct (app_frame_fields tag body buffer') as (E1 & _); [by eapply tag_bound | lia |].
    rewrite <- Hre in E1. cbn [data_loop]. cbv zeta. rewrite zlen_app, E1.
    destruct (Z.ltb_spec (zlen r + zlen buffer') 4); [lia |].
    destruct (Z.ltb_spec (2 + zlen body) 2); [lia |].
    destruct (Z.ltb_spec (max_object_bytes channel) (2 + zlen body - 2)); [lia |].
    destruct (Z.ltb_spec (zlen r + zlen buffer') (2 + zlen body + 4)); [lia |].
    replace (2 + zlen body + 4) with (zlen r) by lia.
    unfold parse_app_frame in Hparse |- *. rewrite slice_all in Hparse. rewrite slice_app_here by done.
    destruct (decode_exactly r _ frame0) as [s g]. injection Hparse as -> ->.
    unfold zlen at 1. rewrite Nat2Z.id, drop_app_length, Hl, <- app_assoc. done.
Qed.

Lemma record_bytes context record frame : record_ok context record frame -> is_bytes record.
Proof.
  intros (tag & ns & name & body & hash & _ & _ & Hb & _ & _ & -> & _).
  change (app_frame_bytes tag body) with (be_bytes 4 (2 + zlen body) ++ be_bytes 2 tag ++ body ++ []).
  rewrite !is_bytes_app. split_and!; eauto with flynes. constructor.
Qed.

Lemma records_bytes context records frames : Forall2 (record_ok context) records frames -> is_bytes (mjoin records).
Proof.
  induction 1 as [|r f rs fs Hr _ IH]; [constructor |]. change (mjoin (r :: rs)) with (r ++ mjoin rs).
  apply is_bytes_app. split; [by eapply record_bytes | done].
Qed.

Section Delivery.
Context (channel : QuicChannel) (records : list bytes) (frames : list AppFrame).
Context (Hall : Forall2 (record_ok (Some (channel_context channel))) records frames).

(** Every chunk leaves room for a record in progress. *)
Definition chunks_fit (chunks : list bytes) : Prop :=
  forall chunk record, chunk ∈ chunks -> record ∈ records ->
    zlen chunk + zlen record <= max_object_bytes channel + 7.

Lemma feed_complete chunks future :
  chunks_fit chunks -> mjoin chunks ++ future = mjoin records ->
  exists rs1 rs2 fs1 fs2 rest,
    feed (assembler_new channel) chunks = (mkAssembler channel rest false, owned_of <$> fs1) /\
    records = rs1 ++ rs2 /\ frames = fs1 ++ fs2 /\ length rs1 = length fs1 /\ rest ++ future = mjoin rs2 /\
    match rs2 with [] => rest = [] | r :: _ => zlen rest < zlen r end.
Proof.
  revert future. induction chunks as [|chunk chunks IH] using rev_ind; intros future Hfit E.
  { exists [], records, [], frames, []. cbn in E |- *. split_and!; try done.
    destruct Hall as [|r f rs fs Hr _]; [done |]. pose proof (record_ok_size _ _ _ Hr). change (zlen []) with 0. lia. }
  rewrite mjoin_app, <- app_assoc in E. replace (mjoin [chunk]) with chunk in E by (cbn; by rewrite app_nil_r).
  destruct (IH (chunk ++ future)) as (rs1 & rs2 & fs1 & fs2 & rest & Hfeed & Hrs & Hfs & Hlen & Hrest & Hcase);
    [intros c r Hc Hr; apply Hfit; set_solver | done |].
  rewrite feed_snoc, Hfeed. cbn [fst snd]. unfold data. cbn [closed_ channel_ buffer_].
  pose proof Hall as Hall2. rewrite Hrs, Hfs in Hall2.
  apply Forall2_app_inv in Hall2 as [_ Hall2]; [| done].
  assert (0 <= max_object_bytes channel) as Hmax by (by destruct channel).
  assert (zlen chunk + zlen rest <= max_object_bytes channel + 6) as Hroom.
  { destruct rs2 as [|r rs2].
    - apply app_nil in Hrest as [-> Hrest]. apply app_nil in Hrest as [-> _]. change (zlen []) with 0. lia.
    - specialize (Hfit chunk r). rewrite Hrs in Hfit. specialize (Hfit ltac:(set_solver) ltac:(set_solver)). lia. }
  destruct (Z.ltb_spec (max_object_bytes channel + 6) (zlen chunk)); [pose proof (zlen_nonneg rest); lia |].
  destruct (Z.ltb_spec (max_object_bytes channel + 6 - zlen chunk) (zlen rest)); [lia |]. cbn [orb].
  rewrite slice_all.
  assert (is_bytes (rest ++ chunk)) as Hb.
  { pose proof (records_bytes _ _ _ Hall2) as H'. rewrite <- Hrest, app_assoc in H'.
    by apply is_bytes_app in H' as [? _]. }
  destruct (data_loop_complete channel rs2 fs2 Hall2 (S (length (rest ++ chunk))) (rest ++ chunk) future
    (owned_of <$> fs1) false Hb ltac:(lia)) as (result & rs3 & rs4 & fs3 & fs4 & rest' & -> & -> & -> & Hl3 & Hr' & Hc');
    [by rewrite <- app_assoc |].
  exists (rs1 ++ rs3), rs4, (fs1 ++ fs3), fs4, rest'. cbn [default].
  rewrite fmap_app, !length_app, <- !app_assoc. split_and!; (done || congruence || lia).
Qed.

(** Reassembly is the inverse of cutting: when no chunk exceeds what the buffer
    has room for beside a record in progress, a stream of well-formed records comes
    out frame by frame however it was cut, ends cleanly, and equals what the cursor
    reads from the whole stream. *)
Theorem assembler_delivers (chunks : list bytes) :
  chunks_fit chunks -> mjoin chunks = mjoin records ->
  let '(a, out) := feed (assembler_new channel) chunks in
  out = owned_of <$> frames /\ buffered_bytes a = 0 /\ (finish (Some out) a).1 = CleanFin /\
  let stream := mjoin chunks in
  exists last,
    read_all (S (length records)) (app_frame_cursor channel stream (zlen stream)) = (Ok, frames, last) /\
    out = owned_of <$> frames.
Proof.
  intros Hfit E. destruct (feed_complete chunks [] Hfit) as (rs1 & rs2 & fs1 & fs2 & rest & -> & Hrs & Hfs & Hlen & Hrest & Hcase).
  { by rewrite app_nil_r. }
  rewrite app_nil_r in Hrest.
  pose proof Hall as Hall2. rewrite Hrs, Hfs in Hall2. apply Forall2_app_inv in Hall2 as [_ Hall2]; [| done].
  assert (rs2 = []) as ->.
  { destruct rs2 as [|r rs2]; [done |]. exfalso. rewrite Hrest in Hcase.
    change (mjoin (r :: rs2)) with (r ++ mjoin rs2) in Hcase. rewrite zlen_app in Hcase.
    pose proof (zlen_nonneg (mjoin rs2)). lia. }
  apply Forall2_nil_inv_l in Hall2. subst fs2. rewrite app_nil_r in Hfs. subst fs1. rewrite Hcase.
  split; [done |]. split; [done |]. split; [done |]. cbv zeta. rewrite E. eexists. split; [| done].
  exact (read_all_records channel [] records frames (S (length records)) Hall ltac:(lia)).
Qed.

End Delivery.

(** ** Witnesses *)

Lemma data_loop_terminates_witness :
  exists r, forall fuel, (length confirm_record < fuel)%nat ->
    data_loop fuel Control confirm_record [] false = Some r.
Proof. exact (data_loop_terminates Control confirm_record [] false confirm_record_bytes). Defined.

Lemma assembler_exact_witness :
  let '(a, out) := feed (assembler_new Control) [take 9 confirm_record] in
  exists records frames rest,
    mjoin [take 9 confirm_record] = mjoin records ++ rest /\ out = owned_of <$> frames /\
    Forall2 (record_ok (Some (channel_context Control))) records frames.
Proof.
  assert (Forall is_bytes [take 9 confirm_record]) as Hb
    by (constructor; [apply Forall_take, confirm_record_bytes | constructor]).
  pose proof (assembler_exact Control [take 9 confirm_record] Hb) as H.
  destruct (feed _ _) as [a out]. destruct H as (rs & fs & rest & H1 & H2 & H3 & _).
  exists rs, fs, rest. split; [exact H1 |]. split; [exact H3 | exact H2].
Defined.

Lemma confirm_record_ok : record_ok (Some (channel_context Control)) confirm_record confirm_frame.
Proof.
  apply (decode_exactly_iff _ _ frame0); [exact confirm_record_bytes | apply channel_context_small |].
  vm_compute. reflexivity.
Qed.

Lemma assembler_delivers_witness :
  let '(a, out) := feed (assembler_new Control)
    [take 3 confirm_record; drop 3 confirm_record ++ take 20 confirm_record; drop 20 confirm_record] in
  out = [owned_of confirm_frame; owned_of confirm_frame] /\ (finish (Some out) a).1 = CleanFin.
Proof.
  set (chunks := [take 3 confirm_record; drop 3 confirm_record ++ take 20 confirm_record; drop 20 confirm_record]).
  assert (Forall2 (record_ok (Some (channel_context Control))) [confirm_record; confirm_record]
    [confirm_frame; confirm_frame]) as Hall by (repeat constructor; exact confirm_record_ok).
  assert (chunks_fit Control [confirm_record; confirm_record] chunks) as Hfit.
  { intros chunk record Hc Hr. assert (record = confirm_record) as -> by set_solver.
    assert (zlen chunk <= 70) as H.
    { repeat (apply elem_of_cons in Hc as [-> | Hc]; [vm_compute; discriminate |]). by apply not_elem_of_nil in Hc. }
    assert (zlen confirm_record = 50) as -> by reflexivity.
    assert (max_object_bytes Control = 65536) as -> by reflexivity. lia. }
  assert (mjoin chunks = mjoin [confirm_record; confirm_record]) as E by (vm_compute; reflexivity).
  pose proof (assembler_delivers Control _ _ Hall chunks Hfit E) as H.
  destruct (feed _ chunks) as [a out]. destruct H as (H1 & _ & H2 & _). split; [exact H1 | exact H2].
Defined.
