(* ===== verification/PreBindQueue.v ===== *)
(** * The pre-bind record queue ([shared/src/session/wire/prebind_record_queue.{hpp,cpp}])

    Application frames that arrive before the link is ready are held until the
    transport is authenticated, the channel bound and both sides ready; then they
    are released together, once.  Any violation discards them and closes the queue. *)

From S2P Require Import Prelude SessionCodec AppFrame AppStream.

(** ** Definitions *)

Definition kAppFramePrefixBytes : Z := 6.

Inductive PreBindQueueResult :=
  | Queued | Blocked | Released | QueueClosed | QueueBackpressure | QueueProtocolViolation
  | QueueInvalidArgument.

#[global] Instance queue_result_eq_dec : EqDecision PreBindQueueResult.
Proof. solve_decision. Defined.

Record QueuedAppRecord := mkQueued { stream_id : Z; stream_sequence : Z; frame : OwnedAppFrame }.

Record PreBindRecordQueue := mkQueue {
  maximum_bytes_ : Z;
  maximum_records_ : Z;
  bytes_ : Z;
  records_ : list QueuedAppRecord;
  identities_ : gset (Z * Z);
  transport_authenticated_ : bool;
  channel_bound_ : bool;
  local_ready_ : bool;
  remote_ready_ : bool;
  released_ : bool;
  failed_ : bool;
}.

#[global] Instance eta_queue : Eta PreBindRecordQueue := fun r =>
  mkQueue (maximum_bytes_ r) (maximum_records_ r) (bytes_ r) (records_ r) (identities_ r)
    (transport_authenticated_ r) (channel_bound_ r) (local_ready_ r) (remote_ready_ r) (released_ r) (failed_ r).

Definition queue_new (maximum_bytes maximum_records : Z) : PreBindRecordQueue :=
  mkQueue maximum_bytes maximum_records 0 [] ∅ false false false false false false.

Definition open (q : PreBindRecordQueue) : bool :=
  transport_authenticated_ q && channel_bound_ q && local_ready_ q && remote_ready_ q.

Definition gate_result (q : PreBindRecordQueue) : PreBindQueueResult :=
  if open q then Released else Blocked.

Definition discard (q : PreBindRecordQueue) : PreBindRecordQueue :=
  q <| records_ := [] |> <| identities_ := ∅ |> <| bytes_ := 0 |>.

Definition fail (result : PreBindQueueResult) (q : PreBindRecordQueue)
    : PreBindQueueResult * PreBindRecordQueue :=
  (result, (discard q) <| failed_ := true |>).

Definition enqueue (id sequence : Z) (f : OwnedAppFrame) (q : PreBindRecordQueue)
    : PreBindQueueResult * PreBindRecordQueue :=
  if (maximum_bytes_ q =? 0) || (maximum_records_ q =? 0) || (id =? 0) || (sequence =? 0) ||
     (owned_tag f =? 0) || bool_decide (owned_name f = ""%string)
  then (QueueInvalidArgument, q)
  else if failed_ q || released_ q || open q then (QueueClosed, q)
  else if decide ((id, sequence) ∈ identities_ q) then fail QueueProtocolViolation q
  else if u64_max - kAppFramePrefixBytes <? zlen (owned_object f) then fail QueueBackpressure q
  else
    let record_bytes := zlen (owned_object f) + kAppFramePrefixBytes in
    if (maximum_records_ q <=? zlen (records_ q)) || (maximum_bytes_ q <? record_bytes) ||
       (maximum_bytes_ q - record_bytes <? bytes_ q)
    then fail QueueBackpressure q
    else (Queued, q <| identities_ := {[ (id, sequence) ]} ∪ identities_ q |>
                    <| records_ := records_ q ++ [mkQueued id sequence f] |>
                    <| bytes_ := bytes_ q + record_bytes |>).

Definition mark_transport_authenticated (full_tls13 pin_verified exporter_verified : bool)
    (q : PreBindRecordQueue) : PreBindQueueResult * PreBindRecordQueue :=
  if failed_ q || released_ q then (QueueClosed, q)
  else if negb full_tls13 || negb pin_verified || negb exporter_verified
  then fail QueueProtocolViolation q
  else let q := q <| transport_authenticated_ := true |> in (gate_result q, q).

Definition mark_channel_bound (q : PreBindRecordQueue) : PreBindQueueResult * PreBindRecordQueue :=
  if failed_ q || released_ q then (QueueClosed, q)
  else if negb (transport_authenticated_ q) then fail QueueProtocolViolation q
  else let q := q <| channel_bound_ := true |> in (gate_result q, q).

Definition mark_link_ready (local_ready remote_ready : bool) (q : PreBindRecordQueue)
    : PreBindQueueResult * PreBindRecordQueue :=
  if failed_ q || released_ q then (QueueClosed, q)
  else if negb (channel_bound_ q) then fail QueueProtocolViolation q
  else
    let q := q <| local_ready_ := local_ready_ q || local_ready |>
               <| remote_ready_ := remote_ready_ q || remote_ready |> in
    (gate_result q, q).

Definition release (output : option (list QueuedAppRecord)) (q : PreBindRecordQueue)
    : PreBindQueueResult * option (list QueuedAppRecord) * PreBindRecordQueue :=
  match output with
  | None => (QueueInvalidArgument, None, q)
  | Some out =>
    if failed_ q then (QueueClosed, output, q)
    else if released_ q then (Released, output, q)
    else if negb (open q) then (Blocked, output, q)
    else (Released, Some (out ++ records_ q),
          q <| records_ := [] |> <| identities_ := ∅ |> <| bytes_ := 0 |> <| released_ := true |>)
  end.

(** ** Histories

    The calls of a queue's owner.  The log keeps what was accepted and what left. *)

Inductive QueueOp :=
  | Enqueue (id sequence : Z) (f : OwnedAppFrame)
  | TransportAuthenticated (full_tls13 pin_verified exporter_verified : bool)
  | ChannelBound
  | LinkReady (local_ready remote_ready : bool)
  | Release
  | Discard.

(** The queue, the records accepted and not discarded by the owner, the records
    released. *)
Record History := mkHistory {
  queue : PreBindRecordQueue; accepted : list QueuedAppRecord; delivered : list QueuedAppRecord }.

Definition queue_step (h : History) (o : QueueOp) : History :=
  let q := queue h in
  match o with
  | Enqueue id sequence f =>
    let '(result, q') := enqueue id sequence f q in
    mkHistory q' (if decide (result = Queued) then accepted h ++ [mkQueued id sequence f] else accepted h)
      (delivered h)
  | TransportAuthenticated a b c => mkHistory (mark_transport_authenticated a b c q).2 (accepted h) (delivered h)
  | ChannelBound => mkHistory (mark_channel_bound q).2 (accepted h) (delivered h)
  | LinkReady a b => mkHistory (mark_link_ready a b q).2 (accepted h) (delivered h)
  | Release =>
    let '(_, out, q') := release (Some (delivered h)) q in
    mkHistory q' (accepted h) (default (delivered h) out)
  | Discard => mkHistory (discard q) (if released_ q then accepted h else []) (delivered h)
  end.

Definition run_queue (max_bytes max_records : Z) (ops : list QueueOp) : History :=
  fold_left queue_step ops (mkHistory (queue_new max_bytes max_records) [] []).

(** The order of the gates, read off the history: authentication, then the bind,
    then a side's readiness. *)
Definition authenticated (ops : list QueueOp) : Prop := TransportAuthenticated true true true ∈ ops.

Definition bound_after (ops : list QueueOp) : Prop :=
  exists o1 o2, ops = o1 ++ o2 /\ authenticated o1 /\ ChannelBound ∈ o2.

Definition ready_after (side : bool -> bool -> bool) (ops : list QueueOp) : Prop :=
  exists o1 o2, ops = o1 ++ o2 /\ bound_after o1 /\ exists l r, LinkReady l r ∈ o2 /\ side l r = true.

Definition local_side (l _ : bool) : bool := l.
Definition remote_side (_ r : bool) : bool := r.

Definition record_size (r : QueuedAppRecord) : Z := zlen (owned_object (frame r)) + kAppFramePrefixBytes.
Definition identity (r : QueuedAppRecord) : Z * Z := (stream_id r, stream_sequence r).

Definition gates_ok (ops : list QueueOp) (q : PreBindRecordQueue) : Prop :=
  (transport_authenticated_ q = true -> authenticated ops) /\
  (channel_bound_ q = true -> bound_after ops) /\
  (local_ready_ q = true -> ready_after local_side ops) /\
  (remote_ready_ q = true -> ready_after remote_side ops).

Definition contents_ok (max_bytes max_records : Z) (q : PreBindRecordQueue) : Prop :=
  maximum_bytes_ q = max_bytes /\ maximum_records_ q = max_records /\
  bytes_ q = total (record_size <$> records_ q) /\ bytes_ q <= max_bytes /\
  zlen (records_ q) <= max_records /\
  identities_ q = list_to_set (identity <$> records_ q) /\ NoDup (identity <$> records_ q).

Definition phase_ok (h : History) : Prop :=
  let q := queue h in
  if failed_ q then records_ q = [] /\ delivered h = [] /\ released_ q = false
  else if released_ q then records_ q = [] /\ open q = true /\ delivered h = accepted h
  else records_ q = accepted h /\ delivered h = [].

Definition queue_inv (max_bytes max_records : Z) (ops : list QueueOp) (h : History) : Prop :=
  gates_ok ops (queue h) /\ contents_ok max_bytes max_records (queue h) /\ phase_ok h.

(** ** The invariant *)

Lemma authenticated_more ops more : authenticated ops -> authenticated (ops ++ more).
Proof. unfold authenticated. set_solver. Qed.

Lemma bound_more ops more : bound_after ops -> bound_after (ops ++ more).
Proof.
  intros (o1 & o2 & -> & Ha & Hb). exists o1, (o2 ++ more). rewrite app_assoc. split_and!; [done | done | set_solver].
Qed.

Lemma ready_more side ops more : ready_after side ops -> ready_after side (ops ++ more).
Proof.
  intros (o1 & o2 & -> & Ha & l & r & Hb & Hs). exists o1, (o2 ++ more). rewrite app_assoc.
  split_and!; [done | done |]. exists l, r. split; [set_solver | done].
Qed.

#[local] Hint Resolve authenticated_more bound_more ready_more : prebind.

Lemma gates_more ops more q : gates_ok ops q -> gates_ok (ops ++ more) q.
Proof. intros (? & ? & ? & ?). unfold gates_ok. split_and!; auto with prebind. Qed.

(** The gates of a queue are all that [gates_ok] reads. *)
Lemma gates_same ops q q' :
  gates_ok ops q -> transport_authenticated_ q' = transport_authenticated_ q ->
  channel_bound_ q' = channel_bound_ q -> local_ready_ q' = local_ready_ q ->
  remote_ready_ q' = remote_ready_ q -> gates_ok ops q'.
Proof. unfold gates_ok. by intros ? -> -> -> ->. Qed.

Lemma contents_empty mb mr q :
  0 <= mb -> 0 <= mr -> maximum_bytes_ q = mb -> maximum_records_ q = mr ->
  records_ q = [] -> identities_ q = ∅ -> bytes_ q = 0 -> contents_ok mb mr q.
Proof.
  unfold contents_ok. intros ? ? -> -> -> -> ->. change (zlen []) with 0.
  split_and!; (done || lia || constructor).
Qed.

Lemma contents_same mb mr q q' :
  contents_ok mb mr q -> maximum_bytes_ q' = maximum_bytes_ q -> maximum_records_ q' = maximum_records_ q ->
  records_ q' = records_ q -> identities_ q' = identities_ q -> bytes_ q' = bytes_ q -> contents_ok mb mr q'.
Proof. unfold contents_ok. by intros ? -> -> -> -> ->. Qed.

Lemma fail_inv mb mr ops h result :
  0 <= mb -> 0 <= mr -> queue_inv mb mr ops h -> failed_ (queue h) = false -> released_ (queue h) = false ->
  queue_inv mb mr ops (mkHistory (fail result (queue h)).2 (accepted h) (delivered h)).
Proof.
  intros Hmb Hmr (Hg & Hc & Hp) Hf Hr. unfold phase_ok in Hp. rewrite Hf, Hr in Hp.
  destruct Hc as (Hc1 & Hc2 & _). split; [by apply (gates_same ops (queue h)) |].
  split; [by apply contents_empty |]. unfold phase_ok. cbn. split_and!; try done. apply Hp.
Qed.

Lemma total_snoc l r : total (record_size <$> l ++ [r]) = total (record_size <$> l) + record_size r.
Proof. induction l as [|x l IH]; cbn in *; lia. Qed.

Lemma enqueue_inv mb mr ops id sequence f h :
  0 <= mb -> 0 <= mr -> queue_inv mb mr ops h ->
  queue_inv mb mr ops (queue_step h (Enqueue id sequence f)).
Proof.
  intros Hmb Hmr Hinv. cbn [queue_step]. unfold enqueue.
  assert (queue_inv mb mr ops (mkHistory (queue h) (accepted h) (delivered h))) as Hsame by (by destruct h).
  destruct (_ || bool_decide _); [by destruct (decide (QueueInvalidArgument = Queued)) |].
  destruct (failed_ (queue h)) eqn:Hf; [done |]. destruct (released_ (queue h)) eqn:Hr; [done |].
  destruct (open (queue h)) eqn:Ho; [done |]. cbn [orb].
  pose proof (fun result => fail_inv mb mr ops h result Hmb Hmr Hinv Hf Hr) as Hfail.
  destruct (decide _) as [Hin|Hin]; [exact (Hfail QueueProtocolViolation) |].
  destruct (_ <? _); [exact (Hfail QueueBackpressure) |]. cbv zeta.
  destruct (_ || _) eqn:Hguard; [exact (Hfail QueueBackpressure) |]. bool_hyps.
  destruct (decide (Queued = Queued)); [| done].
  destruct Hinv as (Hg & (Hc1 & Hc2 & Hc3 & Hc4 & Hc5 & Hc6 & Hc7) & Hp).
  unfold phase_ok in Hp. rewrite Hf, Hr in Hp. destruct Hp as [Hp1 Hp2].
  split; [by apply (gates_same ops (queue h)) |]. split.
  - cbn [queue]. match goal with |- contents_ok _ _ ?x => set (q' := x) end.
    assert (maximum_bytes_ q' = maximum_bytes_ (queue h)) as E1 by done.
    assert (maximum_records_ q' = maximum_records_ (queue h)) as E2 by done.
    assert (records_ q' = records_ (queue h) ++ [mkQueued id sequence f]) as E3 by done.
    assert (identities_ q' = {[ (id, sequence) ]} ∪ identities_ (queue h)) as E4 by done.
    assert (bytes_ q' = bytes_ (queue h) + (zlen (owned_object f) + kAppFramePrefixBytes)) as E5 by done.
    clearbody q'. unfold contents_ok. rewrite E1, E2, E3, E4, E5.
    rewrite total_snoc, zlen_app, fmap_app, list_to_set_app_L. change (zlen [_]) with 1.
    change (record_size (mkQueued id sequence f)) with (zlen (owned_object f) + kAppFramePrefixBytes).
    split_and!; [done | done | lia | lia | lia | rewrite Hc6; set_solver |].
    apply NoDup_app. split; [done |]. rewrite Hc6 in Hin. cbn.
    split; [| repeat constructor; set_solver]. intros x Hx. apply not_elem_of_cons.
    split; [| set_solver]. intros ->. apply Hin. by apply elem_of_list_to_set.
  - unfold phase_ok. cbn [queue accepted delivered].
    match goal with |- context [failed_ ?x] => set (q' := x) end.
    assert (failed_ q' = failed_ (queue h)) as -> by done.
    assert (released_ q' = released_ (queue h)) as -> by done.
    rewrite Hf, Hr. split; [| done]. change (records_ q') with (records_ (queue h) ++ [mkQueued id sequence f]).
    by rewrite Hp1.
Qed.

Lemma phase_gate h q :
  phase_ok h -> failed_ (queue h) = false -> released_ (queue h) = false ->
  records_ q = records_ (queue h) -> failed_ q = false -> released_ q = false ->
  phase_ok (mkHistory q (accepted h) (delivered h)).
Proof. unfold phase_ok. cbn [queue accepted delivered]. intros Hp Hf Hr E -> ->. rewrite Hf, Hr in Hp. by rewrite E. Qed.

Lemma step_inv mb mr ops o h :
  0 <= mb -> 0 <= mr -> queue_inv mb mr ops h -> queue_inv mb mr (ops ++ [o]) (queue_step h o).
Proof.
  intros Hmb Hmr Hinv.
  assert (queue_inv mb mr (ops ++ [o]) h) as Hinv'
    by (destruct Hinv as (? & ? & ?); split; [by apply gates_more | by split]).
  assert (queue_inv mb mr (ops ++ [o]) (mkHistory (queue h) (accepted h) (delivered h))) as Hsame by (by destruct h).
  destruct o as [id sequence f | a b c | | l r | |]; [by apply enqueue_inv | | | | |]; cbn [queue_step].
  - unfold mark_transport_authenticated. destruct (failed_ (queue h)) eqn:Hf; [done |].
    destruct (released_ (queue h)) eqn:Hr; [done |]. cbn [orb].
    destruct (negb a || negb b || negb c) eqn:Habc; [by apply fail_inv |]. bool_hyps. subst.
    destruct Hinv' as ((G1 & G2 & G3 & G4) & Hc & Hp). split; [| split].
    + unfold gates_ok. split; [| by split_and!]. intros _. unfold authenticated. set_solver.
    + by apply (contents_same _ _ (queue h)).
    + by apply phase_gate.
  - unfold mark_channel_bound. destruct (failed_ (queue h)) eqn:Hf; [done |].
    destruct (released_ (queue h)) eqn:Hr; [done |]. cbn [orb].
    destruct (transport_authenticated_ (queue h)) eqn:Ht; cbn [negb]; [| by apply fail_inv].
    destruct Hinv as ((G & _) & _). destruct Hinv' as ((G1 & G2 & G3 & G4) & Hc & Hp). split; [| split].
    + unfold gates_ok. split_and!; try done. intros _. exists ops, [ChannelBound].
      split_and!; [done | by apply G | set_solver].
    + by apply (contents_same _ _ (queue h)).
    + by apply phase_gate.
  - unfold mark_link_ready. destruct (failed_ (queue h)) eqn:Hf; [done |].
    destruct (released_ (queue h)) eqn:Hr; [done |]. cbn [orb].
    destruct (channel_bound_ (queue h)) eqn:Hb; cbn [negb]; [| by apply fail_inv].
    destruct Hinv as ((_ & G & _) & _). specialize (G Hb).
    destruct Hinv' as ((G1 & G2 & G3 & G4) & Hc & Hp). split; [| split].
    + unfold gates_ok. split; [done |]. split; [done |]. cbv zeta. cbn [snd queue].
      split; intros H;
        [change (local_ready_ (queue h) || l = true) in H | change (remote_ready_ (queue h) || r = true) in H];
        (apply orb_true_iff in H as [H | ->]; [auto |]); exists ops; eexists;
        (split; [reflexivity |]); (split; [done |]); do 2 eexists; (split; [left | done]).
    + by apply (contents_same _ _ (queue h)).
    + by apply phase_gate.
  - unfold release. destruct (failed_ (queue h)) eqn:Hf; [done |].
    destruct (released_ (queue h)) eqn:Hr; [done |]. destruct (open (queue h)) eqn:Ho; cbn [negb]; [| done].
    destruct Hinv' as (Hg & (Hc1 & Hc2 & _) & Hp). unfold phase_ok in Hp. rewrite Hf, Hr in Hp. destruct Hp as [Hp1 Hp2].
    cbn [default]. split; [by apply (gates_same _ (queue h)) |].
    split; [by apply contents_empty |]. unfold phase_ok. cbn [queue accepted delivered].
    match goal with |- context [failed_ ?q] => change (failed_ q) with (failed_ (queue h)); change (released_ q) with true;
      change (open q) with (open (queue h)) end.
    rewrite Hf, Hp2, Hp1. by split_and!.
  - destruct Hinv' as (Hg & (Hc1 & Hc2 & _) & Hp). split; [by apply (gates_same _ (queue h)) |].
    split; [by apply contents_empty |]. unfold phase_ok in *. cbn [queue accepted delivered].
    change (failed_ (discard (queue h))) with (failed_ (queue h)).
    change (released_ (discard (queue h))) with (released_ (queue h)).
    change (open (discard (queue h))) with (open (queue h)).
    destruct (failed_ (queue h)); [tauto |]. destruct (released_ (queue h)); tauto.
Qed.

Lemma run_queue_inv mb mr ops : 0 <= mb -> 0 <= mr -> queue_inv mb mr ops (run_queue mb mr ops).
Proof.
  intros Hmb Hmr. unfold run_queue. induction ops as [|o ops IH] using rev_ind.
  - split; [| split]; [by unfold gates_ok | by apply contents_empty | done].
  - rewrite fold_left_app. by apply step_inv.
Qed.

(** ** Property *)

(** Whatever calls are made, nothing leaves the queue before the transport is
    authenticated, the channel bound and both sides ready, in that order; what
    leaves is every accepted record, in order and once, and after a violation
    nothing ever does.  The queue never holds more than its two bounds nor one
    record twice. *)
Theorem released_once_after_gates (max_bytes max_records : Z) (ops : list QueueOp) :
  0 <= max_bytes -> 0 <= max_records ->
  let h := run_queue max_bytes max_records ops in
  let q := queue h in
  (delivered h = [] \/
   delivered h = accepted h /\ failed_ q = false /\ authenticated ops /\ bound_after ops /\
   ready_after local_side ops /\ ready_after remote_side ops) /\
  (failed_ q = true -> delivered h = [] /\ records_ q = []) /\
  (failed_ q = false -> released_ q = false -> records_ q = accepted h) /\
  total (record_size <$> records_ q) <= max_bytes /\ zlen (records_ q) <= max_records /\
  NoDup (identity <$> records_ q).
Proof.
  intros Hmb Hmr. cbv zeta. destruct (run_queue_inv max_bytes max_records ops Hmb Hmr)
    as ((G1 & G2 & G3 & G4) & (_ & _ & Hc3 & Hc4 & Hc5 & _ & Hc7) & Hp).
  set (h := run_queue max_bytes max_records ops) in *. unfold phase_ok in Hp.
  destruct (failed_ (queue h)) eqn:Hf; [| destruct (released_ (queue h)) eqn:Hr].
  - split_and!; try done; try (by rewrite <- Hc3); [left; apply Hp | by intros _; split; apply Hp].
  - destruct Hp as (Hp1 & Ho & Hd). unfold open in Ho. bool_hyps.
    split_and!; try done; try (by rewrite <- Hc3). right. split_and!; auto.
  - split_and!; try done; try (by rewrite <- Hc3); [left; apply Hp | intros _ _; apply Hp].
Qed.

(** ** Witness *)

Definition queued_confirm : OwnedAppFrame := mkOwned 0x218 ObjectKind "0x0218" confirm_body [] [].

Definition open_ops : list QueueOp :=
  [Enqueue 4 1 queued_confirm; TransportAuthenticated true true true; Enqueue 4 2 queued_confirm; ChannelBound;
   LinkReady true false; LinkReady false true; Release; Release].

Lemma released_once_after_gates_witness :
  let h := run_queue 4096 8 open_ops in
  delivered h = [mkQueued 4 1 queued_confirm; mkQueued 4 2 queued_confirm] /\
  delivered h = accepted h /\ ready_after remote_side open_ops.
Proof.
  pose proof (released_once_after_gates 4096 8 open_ops ltac:(lia) ltac:(lia)) as H. cbv zeta in H |- *.
  assert (delivered (run_queue 4096 8 open_ops) = [mkQueued 4 1 queued_confirm; mkQueued 4 2 queued_confirm]) as Hd
    by (vm_compute; reflexivity).
  revert Hd H. generalize (run_queue 4096 8 open_ops) as h. intros h Hd H.
  split; [exact Hd |]. destruct H as ([H | (H & _ & _ & _ & _ & Hr)] & _); [congruence |].
  split; [exact H | exact Hr].
Defined.
