(* ===== verification/QuicContract.v ===== *)
(** * The QUIC contract ([shared/src/session/wire/quic_contract.{hpp,cpp}])

    What a QUIC connection must have done before its bytes count: a full TLS 1.3
    handshake without resumption or early data, the agreed protocol name, and -- on
    the connecting side -- the pinned certificate.  The facts of a handshake travel as
    88 bytes; the exporter of the connection is bound into the channel identifier. *)

From S2P Require Import Prelude Sha256 SessionCodec PairHandshake PairAuth.

(** ** Definitions *)

Definition kAlpn : bytes := ascii_bytes "flynes-nearby/2".
Definition kExporterLabel : bytes := ascii_bytes "EXPORTER-flynes-nearby-v1".
Definition kQuicHandshakeFactsWireSizeV2 : Z := 88.
Definition FLY_SESSION_ABI_VERSION_2 : Z := 2.
(** [sizeof]: six 32-bit words and two arrays of 32 bytes. *)
Definition FLY_SESSION_QUIC_CONNECT_POLICY_V2_SIZE : Z := 88.

Record QuicHandshakeFactsV2 := mkFacts {
  tls_major : Z;
  tls_minor : Z;
  full_handshake : bool;
  pin_verifier_invoked : bool;
  peer_certificate_verified : bool;
  resumed : bool;
  zero_rtt : bool;
  alpn : bytes;
  der_spki_hash : bytes;
}.

Definition facts0 : QuicHandshakeFactsV2 :=
  mkFacts 0 0 false false false false false (zero_bytes 32) (zero_bytes 32).

Record fly_session_quic_connect_policy_v2 := mkPolicy {
  struct_size : Z;
  abi_version : Z;
  require_full_tls13 : Z;
  forbid_resumption : Z;
  forbid_zero_rtt : Z;
  policy_reserved_zero : Z;
  policy_alpn : bytes;
  expected_der_spki_hash : bytes;
}.

Record ChannelExporterRequestV1 := mkExporterRequest { label : bytes; context : bytes; output_size : Z }.

(** A fixed-size C string: the expected text, then only zeros, at least one. *)
Definition exact_text (text expected : bytes) : bool :=
  if (zlen text <? zlen expected + 1) || negb (bool_decide (slice text 0 (zlen expected) = expected)) ||
     negb (at_ text (zlen expected) =? 0)
  then false
  else forallb (fun i => at_ text i =? 0) (seqZ (zlen expected + 1) (zlen text - (zlen expected + 1))).

Definition concat_hash (domain first second third : bytes) : bytes :=
  sha256 (domain ++ first ++ second ++ third).

Definition bit (b : bool) : Z := if b then 1 else 0.

(** The 88 bytes: the buffer is cleared, then version, TLS version, flags, name and
    certificate hash are written. *)
Definition facts_layout (facts : QuicHandshakeFactsV2) : bytes :=
  mjoin [[0; 1]; zero_bytes 6; [0; u8 (tls_major facts); 0; u8 (tls_minor facts)];
         [bit (full_handshake facts); bit (pin_verifier_invoked facts); bit (peer_certificate_verified facts);
          bit (resumed facts); bit (zero_rtt facts)]; zero_bytes 7; alpn facts; der_spki_hash facts].

Definition encode_quic_handshake_facts_v2 (facts : QuicHandshakeFactsV2) (out : option bytes) : Status * option bytes :=
  match out with
  | None => (InvalidField, out)
  | Some _ =>
    if negb (tls_major facts =? 1) || negb (tls_minor facts =? 3) || negb (exact_text (alpn facts) kAlpn)
    then (InvalidField, out)
    else (Ok, Some (facts_layout facts))
  end.

Definition decode_quic_handshake_facts_v2 (data : option bytes) (out : option QuicHandshakeFactsV2)
    : Status * option QuicHandshakeFactsV2 :=
  match data, out with
  | Some b, Some _ =>
    let out := Some facts0 in
    if zlen b <? kQuicHandshakeFactsWireSizeV2 then (Truncated, out)
    else if kQuicHandshakeFactsWireSizeV2 <? zlen b then (Trailing, out)
    else if negb (at_ b 0 =? 0) || negb (at_ b 1 =? 1) || negb (zeros b 2 6) || negb (at_ b 8 =? 0) ||
            negb (at_ b 9 =? 1) || negb (at_ b 10 =? 0) || negb (at_ b 11 =? 3) || (1 <? at_ b 12) ||
            (1 <? at_ b 13) || (1 <? at_ b 14) || (1 <? at_ b 15) || (1 <? at_ b 16) || negb (zeros b 17 7)
    then (InvalidField, out)
    else
      let facts := mkFacts 1 3 (at_ b 12 =? 1) (at_ b 13 =? 1) (at_ b 14 =? 1) (at_ b 15 =? 1) (at_ b 16 =? 1)
                     (slice b 24 32) (slice b 56 32) in
      (if exact_text (alpn facts) kAlpn then Ok else InvalidField, Some facts)
  | _, _ => (InvalidField, out)
  end.

Definition validate_quic_policy_v2 (policy : option fly_session_quic_connect_policy_v2) : Status :=
  match policy with
  | None => InvalidField
  | Some p =>
    if (struct_size p <? FLY_SESSION_QUIC_CONNECT_POLICY_V2_SIZE) || negb (abi_version p =? FLY_SESSION_ABI_VERSION_2)
    then BadLength
    else if negb (policy_reserved_zero p =? 0) then NonzeroReserved
    else if negb (require_full_tls13 p =? 1) || negb (forbid_resumption p =? 1) || negb (forbid_zero_rtt p =? 1) ||
            negb (exact_text (policy_alpn p) kAlpn) || negb (any_nonzero (expected_der_spki_hash p))
    then InvalidField
    else Ok
  end.

Definition verify_quic_handshake_v2 (policy : fly_session_quic_connect_policy_v2) (facts : QuicHandshakeFactsV2) : Status :=
  let valid_policy := validate_quic_policy_v2 (Some policy) in
  if decide (valid_policy <> Ok) then valid_policy
  else if negb (tls_major facts =? 1) || negb (tls_minor facts =? 3) || negb (full_handshake facts) ||
          negb (pin_verifier_invoked facts) || negb (peer_certificate_verified facts) || resumed facts ||
          zero_rtt facts || negb (exact_text (alpn facts) kAlpn) ||
          negb (bool_decide (der_spki_hash facts = expected_der_spki_hash policy))
  then InvalidField
  else Ok.

Definition verify_quic_listener_handshake_v2 (facts : QuicHandshakeFactsV2) : Status :=
  if negb (tls_major facts =? 1) || negb (tls_minor facts =? 3) || negb (full_handshake facts) ||
     pin_verifier_invoked facts || peer_certificate_verified facts || resumed facts || zero_rtt facts ||
     negb (exact_text (alpn facts) kAlpn) || any_nonzero (der_spki_hash facts)
  then InvalidField
  else Ok.

Definition make_channel_exporter_request_v1 (pair_transcript_hash session_id reconnect_transcript_hash : bytes)
    : ChannelExporterRequestV1 :=
  mkExporterRequest kExporterLabel
    (concat_hash (ascii_bytes "flynes-channel-exporter-context-v1") pair_transcript_hash session_id
       reconnect_transcript_hash) 32.

Definition channel_message (pair_transcript_hash session_id reconnect_transcript_hash exporter : bytes) : bytes :=
  ascii_bytes "flynes-channel-id-v1" ++ pair_transcript_hash ++ session_id ++ reconnect_transcript_hash ++ exporter.

Definition derive_channel_id_v1 (pair_transcript_hash session_id reconnect_transcript_hash exporter : bytes) : bytes :=
  slice (sha256 (channel_message pair_transcript_hash session_id reconnect_transcript_hash exporter)) 0 16.

(** ** Lemmas *)

Lemma exact_text_spec text expected :
  exact_text text expected = true <->
  zlen expected < zlen text /\ text = expected ++ replicate (Z.to_nat (zlen text - zlen expected)) 0.
Proof.
  assert (zlen expected < zlen text ->
          (forall i, zlen expected <= i < zlen text -> at_ text i = 0) <->
          slice text (zlen expected) (zlen text - zlen expected) = replicate (Z.to_nat (zlen text - zlen expected)) 0) as Hz.
  { intros L. pose proof (zlen_nonneg expected). rewrite <- zeros_spec by lia. unfold zeros. rewrite forallb_forall. split.
    - intros H' x Hx. apply list_elem_of_In, elem_of_seqZ in Hx. apply Z.eqb_eq, H'. lia.
    - intros H' i Hi. replace i with (zlen expected + (i - zlen expected)) by lia.
      apply Z.eqb_eq, H', list_elem_of_In, elem_of_seqZ. lia. }
  pose proof (zlen_nonneg expected) as Hpos. unfold exact_text. split.
  - split_guard; [discriminate |]. intros Hrest. split; [lia |].
    match goal with H : slice _ _ _ = _ |- _ => rename H into Hpre end.
    rewrite <- (slice_all text) at 1. rewrite (slice_split text 0 (zlen expected)), Hpre by lia. f_equal.
    rewrite Z.add_0_l. apply Hz; [lia |]. intros i Hi. destruct (decide (i = zlen expected)) as [->|N]; [done |].
    rewrite forallb_forall in Hrest. apply Z.eqb_eq, Hrest, list_elem_of_In, elem_of_seqZ. lia.
  - intros [L E]. assert (slice text 0 (zlen expected) = expected) as Hpre by (rewrite E; by apply slice_app_here).
    assert (forall i, zlen expected <= i < zlen text -> at_ text i = 0) as Hrest.
    { apply Hz; [lia |]. rewrite E at 1. rewrite slice_app_right, Z.sub_diag by lia. set (k := zlen text - zlen expected).
      pose proof (slice_all (replicate (Z.to_nat k) 0)) as Hall. unfold zlen in Hall. rewrite length_replicate in Hall.
      by rewrite Z2Nat.id in Hall by lia. }
    rewrite Hpre, bool_decide_true, Hrest by (done || lia).
    destruct (Z.ltb_spec (zlen text) (zlen expected + 1)); [lia |]. cbn [negb orb Z.eqb].
    apply forallb_forall. intros i Hi. apply list_elem_of_In, elem_of_seqZ in Hi. apply Z.eqb_eq, Hrest. lia.
Qed.

(** The protocol name of a 32-byte field is one value. *)
Lemma exact_alpn text : zlen text = 32 -> exact_text text kAlpn = true <-> text = kAlpn ++ zero_bytes 17.
Proof.
  intros L. rewrite exact_text_spec, L. change (zlen kAlpn) with 15. change (Z.to_nat (32 - 15)) with 17%nat.
  split; [by intros [_ ?] | by split].
Qed.

Lemma bit_flag z : is_byte z -> z <= 1 -> bit (z =? 1) = z.
Proof. unfold is_byte, bit. intros ? ?. destruct (Z.eqb_spec z 1); lia. Qed.

Lemma flag_bit b : (bit b =? 1) = b.
Proof. by destruct b. Qed.

(** Handshake facts as the interface's structure holds them. *)
Definition facts_sized (facts : QuicHandshakeFactsV2) : Prop :=
  zlen (alpn facts) = 32 /\ zlen (der_spki_hash facts) = 32.

Lemma zlen_layout facts : facts_sized facts -> zlen (facts_layout facts) = 88.
Proof. intros [L1 L2]. unfold facts_layout. rewrite zlen_mjoin. cbn [fmap list_fmap total]. rewrite L1, L2. done. Qed.

Lemma slice_ats l i n : 0 <= i -> 0 <= n -> i + n <= zlen l -> slice l i n = at_ l <$> seqZ i n.
Proof.
  intros Hi Hn. revert i Hi. pattern n. apply natlike_ind; [| | done]; clear n Hn.
  - intros i _ _. by rewrite slice_zero.
  - intros n Hn IH i Hi L. rewrite slice_cons_at, seqZ_cons_first, fmap_cons by lia. f_equal.
    replace (Z.succ n - 1) with n by lia. apply IH; lia.
Qed.

(** A buffer cut along the fields of the layout. *)
Lemma facts_cut wire :
  zlen wire = 88 ->
  wire = mjoin [[at_ wire 0; at_ wire 1]; slice wire 2 6; [at_ wire 8; at_ wire 9; at_ wire 10; at_ wire 11];
                [at_ wire 12; at_ wire 13; at_ wire 14; at_ wire 15; at_ wire 16]; slice wire 17 7;
                slice wire 24 32; slice wire 56 32].
Proof.
  intros L. rewrite <- (cut_all wire [2; 6; 4; 5; 7; 32; 32]) at 1 by done. cbn [cut]. f_equal.
  rewrite (slice_ats wire 0 2), (slice_ats wire (0 + 2 + 6) 4), (slice_ats wire (0 + 2 + 6 + 4) 5) by lia. reflexivity.
Qed.

(** The handshake record has one form: bytes decode to facts exactly when the facts
    have the sizes of the structure and encode to these bytes. *)
Theorem quic_facts_round_trip (wire spare : bytes) (facts before : QuicHandshakeFactsV2) :
  is_bytes wire ->
  decode_quic_handshake_facts_v2 (Some wire) (Some before) = (Ok, Some facts) <->
  facts_sized facts /\ encode_quic_handshake_facts_v2 facts (Some spare) = (Ok, Some wire).
Proof.
  intros Hb. unfold decode_quic_handshake_facts_v2, encode_quic_handshake_facts_v2, kQuicHandshakeFactsWireSizeV2. split.
  - split_guard; [discriminate |]. split_guard; [discriminate |]. split_guard; [discriminate |].
    destruct (exact_text _ kAlpn) eqn:Ha; [| discriminate]. intros [= <-]. cbn [alpn] in Ha.
    assert (zlen wire = 88) as L by lia. split; [by split; cbn; rewrite zlen_slice by lia |].
    cbn [tls_major tls_minor alpn]. rewrite Ha. cbn [Z.eqb negb orb]. do 2 f_equal.
    etrans; [| symmetry; exact (facts_cut wire L)]. unfold facts_layout. cbn [tls_major tls_minor full_handshake
      pin_verifier_invoked peer_certificate_verified resumed zero_rtt alpn der_spki_hash].
    rewrite !bit_flag by (done || by apply at_byte).
    apply zeros_spec in H10, H0; [| lia..]. rewrite H10, H0, H, H6, H7, H8, H9, H11. done.
  - intros [[L1 L2] E]. assert (zlen (facts_layout facts) = 88) as L by (by apply zlen_layout).
    revert E. split_guard; [discriminate |]. intros [= <-]. rewrite L.
    destruct facts as [major minor f1 f2 f3 f4 f5 name hash]. cbn [tls_major tls_minor alpn der_spki_hash] in *. subst.
    set (w := facts_layout _) in *.
    assert (slice w 24 32 = name) as -> by (apply (slice_field _ 5); [done | done | by cbn]).
    assert (slice w 56 32 = hash) as ->.
    { apply (slice_field _ 6); [done | | by cbn]. change (56 = 2 + (6 + (4 + (5 + (7 + (zlen name + 0)))))). lia. }
    change (at_ w 12) with (bit f1). change (at_ w 13) with (bit f2). change (at_ w 14) with (bit f3).
    change (at_ w 15) with (bit f4). change (at_ w 16) with (bit f5). rewrite !flag_bit.
    assert (forall f, (1 <? bit f) = false) as Hbit by (by intros []). rewrite !Hbit. cbn [alpn].
    match goal with H : exact_text name kAlpn = true |- _ => rewrite H end. reflexivity.
Qed.

(** Facts of a verified client handshake. *)
Definition demo_facts : QuicHandshakeFactsV2 :=
  mkFacts 1 3 true true true false false (kAlpn ++ zero_bytes 17) (replicate 32 7).

Lemma quic_facts_round_trip_witness :
  decode_quic_handshake_facts_v2 (Some (facts_layout demo_facts)) (Some facts0) = (Ok, Some demo_facts).
Proof.
  apply (quic_facts_round_trip (facts_layout demo_facts) (zero_bytes 88) demo_facts facts0).
  - apply is_bytes_compute. reflexivity.
  - split; [by split |]. reflexivity.
Defined.
