(* ===== verification/LinkActivation.v ===== *)
(** * The link gate ([shared/src/session/link_activation.{hpp,cpp}])

    The gate between an authenticated pairing and an active link: it takes the sealed
    pairing evidence, the facts of the QUIC handshake, the bind of the channel and both
    sides' readiness, in that order, and only then lets the records that arrived early
    leave.  Any failed proof closes it and destroys them. *)

From S2P Require Import Prelude SessionCodec AppFrame AppStream PreBindQueue PairHandshake PairAuth QuicContract.

(** ** Data *)

Inductive LinkActivationResult :=
  | LinkAccepted | LinkConnected | LinkReleased | LinkClosed | LinkInvalidArgument | LinkAuthFailed
  | LinkProtocolViolation | LinkBackpressure.

#[global] Instance link_result_eq_dec : EqDecision LinkActivationResult.
Proof. solve_decision. Defined.

Record LinkActivationStartV1 := mkLinkStart {
  pair : VerifiedPairEvidence;
  session_id : bytes;
  reconnect_transcript_hash : bytes;
  quic_listener_role : Z;
  listener_der_spki_hash : bytes;
}.

Definition link_start0 : LinkActivationStartV1 := mkLinkStart evidence0 (zero_bytes 16) (zero_bytes 32) 0 (zero_bytes 32).

Record LinkChannelBindV1 := mkBind {
  bind_pair_transcript_hash : bytes;
  bind_session_id : bytes;
  bind_reconnect_transcript_hash : bytes;
  bind_channel_id : bytes;
}.

Inductive GatePhase := GateIdle | PairAccepted | GateTransportAuthenticated | GateBound | GateConnected | GateFailed.

#[global] Instance gate_phase_eq_dec : EqDecision GatePhase.
Proof. solve_decision. Defined.

Record AuthenticatedLinkGate := mkGate {
  prebind_ : PreBindRecordQueue;
  gate_phase_ : GatePhase;
  start_ : LinkActivationStartV1;
  exporter_ : bytes;
  channel_id_ : bytes;
  initiator_ready_ : bool;
  responder_ready_ : bool;
}.

#[global] Instance eta_gate : Eta AuthenticatedLinkGate := fun r =>
  mkGate (prebind_ r) (gate_phase_ r) (start_ r) (exporter_ r) (channel_id_ r) (initiator_ready_ r) (responder_ready_ r).

Definition gate_new (maximum_prebind_bytes maximum_prebind_records : Z) : AuthenticatedLinkGate :=
  mkGate (queue_new maximum_prebind_bytes maximum_prebind_records) GateIdle link_start0 (zero_bytes 32) (zero_bytes 16)
    false false.

(** ** Operations *)

Section Gate.
Implicit Types g : AuthenticatedLinkGate.

Definition gate_fail (result : LinkActivationResult) g : LinkActivationResult * AuthenticatedLinkGate :=
  (result, g <| prebind_ := discard (prebind_ g) |> <| gate_phase_ := GateFailed |>).

Definition gate_begin (start : LinkActivationStartV1) g : LinkActivationResult * AuthenticatedLinkGate :=
  if negb (bool_decide (gate_phase_ g = GateIdle)) then gate_fail LinkProtocolViolation g
  else if negb (authenticated (pair start)) || negb (valid_role (local_role (pair start))) ||
          negb (valid_role (quic_listener_role start)) || (generation (pair start) =? 0) ||
          negb (any_nonzero (transcript (pair start))) || negb (any_nonzero (session_id start)) ||
          negb (any_nonzero (listener_der_spki_hash start))
  then gate_fail LinkAuthFailed g
  else (LinkAccepted, g <| start_ := start |> <| gate_phase_ := PairAccepted |>).

Definition map_queue (result : PreBindQueueResult) : LinkActivationResult :=
  match result with
  | Queued | Blocked => LinkAccepted
  | Released => LinkReleased
  | QueueBackpressure => LinkBackpressure
  | QueueInvalidArgument => LinkInvalidArgument
  | QueueProtocolViolation => LinkProtocolViolation
  | QueueClosed => LinkClosed
  end.

Definition enqueue_prebind (id sequence : Z) (f : OwnedAppFrame) g : LinkActivationResult * AuthenticatedLinkGate :=
  if decide (gate_phase_ g = GateIdle) then (LinkInvalidArgument, g)
  else if decide (gate_phase_ g = GateFailed \/ gate_phase_ g = GateConnected) then (LinkClosed, g)
  else
    let '(queued, q) := enqueue id sequence f (prebind_ g) in
    let g := g <| prebind_ := q |> in
    (map_queue queued,
     if decide (queued = QueueBackpressure \/ queued = QueueProtocolViolation) then g <| gate_phase_ := GateFailed |> else g).

Definition link_policy (listener_hash : bytes) : fly_session_quic_connect_policy_v2 :=
  mkPolicy FLY_SESSION_QUIC_CONNECT_POLICY_V2_SIZE FLY_SESSION_ABI_VERSION_2 1 1 1 0
    (ascii_bytes "flynes-nearby/2" ++ zero_bytes 17) listener_hash.

Definition accept_transport (facts : QuicHandshakeFactsV2) (exporter : bytes) g
    : LinkActivationResult * AuthenticatedLinkGate :=
  if negb (bool_decide (gate_phase_ g = PairAccepted)) then gate_fail LinkProtocolViolation g
  else if negb (any_nonzero exporter) then gate_fail LinkAuthFailed g
  else
    let handshake_status :=
      if local_role (pair (start_ g)) =? quic_listener_role (start_ g) then verify_quic_listener_handshake_v2 facts
      else verify_quic_handshake_v2 (link_policy (listener_der_spki_hash (start_ g))) facts in
    if decide (handshake_status <> Ok) then gate_fail LinkAuthFailed g
    else
      let '(queue_result, q) := mark_transport_authenticated true true true (prebind_ g) in
      let g := g <| exporter_ := exporter |> <| prebind_ := q |> in
      if decide (queue_result = QueueProtocolViolation) then gate_fail LinkProtocolViolation g
      else (LinkAccepted, g <| gate_phase_ := GateTransportAuthenticated |>).

Definition accept_channel_bind (bind : LinkChannelBindV1) g : LinkActivationResult * AuthenticatedLinkGate :=
  if negb (bool_decide (gate_phase_ g = GateTransportAuthenticated)) then gate_fail LinkProtocolViolation g
  else
    let expected_channel_id :=
      derive_channel_id_v1 (transcript (pair (start_ g))) (session_id (start_ g)) (reconnect_transcript_hash (start_ g))
        (exporter_ g) in
    if negb (bool_decide (bind_pair_transcript_hash bind = transcript (pair (start_ g)))) ||
       negb (bool_decide (bind_session_id bind = session_id (start_ g))) ||
       negb (bool_decide (bind_reconnect_transcript_hash bind = reconnect_transcript_hash (start_ g))) ||
       negb (bool_decide (bind_channel_id bind = expected_channel_id))
    then gate_fail LinkProtocolViolation g
    else
      let '(queue_result, q) := mark_channel_bound (prebind_ g) in
      let g := g <| channel_id_ := expected_channel_id |> <| prebind_ := q |> in
      if decide (queue_result = QueueProtocolViolation) then gate_fail LinkProtocolViolation g
      else (LinkAccepted, g <| gate_phase_ := GateBound |>).

Definition accept_link_ready (sender : Z) g : LinkActivationResult * AuthenticatedLinkGate :=
  if negb (bool_decide (gate_phase_ g = GateBound)) || negb (valid_role sender) then gate_fail LinkProtocolViolation g
  else if (if sender =? Initiator then initiator_ready_ g else responder_ready_ g) then gate_fail LinkProtocolViolation g
  else
    let g := if sender =? Initiator then g <| initiator_ready_ := true |> else g <| responder_ready_ := true |> in
    let initiator := local_role (pair (start_ g)) =? Initiator in
    let '(queue_result, q) :=
      mark_link_ready (if initiator then initiator_ready_ g else responder_ready_ g)
        (if initiator then responder_ready_ g else initiator_ready_ g) (prebind_ g) in
    let g := g <| prebind_ := q |> in
    if decide (queue_result = QueueProtocolViolation) then gate_fail LinkProtocolViolation g
    else if initiator_ready_ g && responder_ready_ g then (LinkConnected, g <| gate_phase_ := GateConnected |>)
    else (LinkAccepted, g).

Definition release_prebind (output : option (list QueuedAppRecord)) g
    : LinkActivationResult * option (list QueuedAppRecord) * AuthenticatedLinkGate :=
  if decide (gate_phase_ g = GateFailed) then (LinkClosed, output, g)
  else
    let '(result, out, q) := release output (prebind_ g) in
    (map_queue result, out, g <| prebind_ := q |>).

Definition connected g : bool := bool_decide (gate_phase_ g = GateConnected).
Definition gate_failed g : bool := bool_decide (gate_phase_ g = GateFailed).

End Gate.

(** ** Histories *)

Inductive GateCall :=
  | GateBegin (start : LinkActivationStartV1)
  | GateEnqueue (id sequence : Z) (f : OwnedAppFrame)
  | GateTransport (facts : QuicHandshakeFactsV2) (exporter : bytes)
  | GateBind (bind : LinkChannelBindV1)
  | GateReady (sender : Z)
  | GateRelease.

(** The gate, the records it accepted, the records it released. *)
Record LinkHistory := mkLinkHistory {
  gate : AuthenticatedLinkGate; taken : list QueuedAppRecord; freed : list QueuedAppRecord }.

Definition gate_step (h : LinkHistory) (call : GateCall) : LinkHistory :=
  match call with
  | GateBegin start => mkLinkHistory (gate_begin start (gate h)).2 (taken h) (freed h)
  | GateEnqueue id sequence f =>
    let '(result, g) := enqueue_prebind id sequence f (gate h) in
    mkLinkHistory g (if decide (result = LinkAccepted) then taken h ++ [mkQueued id sequence f] else taken h) (freed h)
  | GateTransport facts exporter => mkLinkHistory (accept_transport facts exporter (gate h)).2 (taken h) (freed h)
  | GateBind bind => mkLinkHistory (accept_channel_bind bind (gate h)).2 (taken h) (freed h)
  | GateReady sender => mkLinkHistory (accept_link_ready sender (gate h)).2 (taken h) (freed h)
  | GateRelease =>
    let '(_, out, g) := release_prebind (Some (freed h)) (gate h) in mkLinkHistory g (taken h) (default (freed h) out)
  end.

Definition run_gate (maximum_bytes maximum_records : Z) (calls : list GateCall) : LinkHistory :=
  fold_left gate_step calls (mkLinkHistory (gate_new maximum_bytes maximum_records) [] []).

(** ** Specification *)

Definition proof_call (call : GateCall) : bool :=
  match call with GateEnqueue _ _ _ | GateRelease => false | _ => true end.

(** The proofs offered, without the records in between. *)
Definition offered (calls : list GateCall) : list GateCall := List.filter proof_call calls.

(** Evidence that was sealed by the pairing and names what the link needs. *)
Definition start_ok (start : LinkActivationStartV1) : Prop :=
  authenticated (pair start) = true /\ valid_role (local_role (pair start)) = true /\
  valid_role (quic_listener_role start) = true /\ generation (pair start) <> 0 /\
  any_nonzero (transcript (pair start)) = true /\ any_nonzero (session_id start) = true /\
  any_nonzero (listener_der_spki_hash start) = true.

(** A full TLS 1.3 handshake under the agreed name; the connecting side has verified
    the pinned certificate, the listening side has seen none. *)
Definition transport_ok (start : LinkActivationStartV1) (facts : QuicHandshakeFactsV2) : Prop :=
  tls_major facts = 1 /\ tls_minor facts = 3 /\ full_handshake facts = true /\ resumed facts = false /\
  zero_rtt facts = false /\ exact_text (alpn facts) kAlpn = true /\
  if local_role (pair start) =? quic_listener_role start
  then pin_verifier_invoked facts = false /\ peer_certificate_verified facts = false /\
       any_nonzero (der_spki_hash facts) = false
  else pin_verifier_invoked facts = true /\ peer_certificate_verified facts = true /\
       der_spki_hash facts = listener_der_spki_hash start.

Definition bind_of (start : LinkActivationStartV1) (exporter : bytes) : LinkChannelBindV1 :=
  mkBind (transcript (pair start)) (session_id start) (reconnect_transcript_hash start)
    (derive_channel_id_v1 (transcript (pair start)) (session_id start) (reconnect_transcript_hash start) exporter).

(** The readiness messages the gate has taken. *)
Definition readies (g : AuthenticatedLinkGate) (ready : list Z) : Prop :=
  NoDup ready /\ Forall (fun role => valid_role role = true) ready /\
  initiator_ready_ g = bool_decide (Initiator ∈ ready) /\ responder_ready_ g = bool_decide (Responder ∈ ready).

Definition stage_ok (g : AuthenticatedLinkGate) (said : list GateCall) : Prop :=
  let begun := GateBegin (start_ g) in
  let bound := GateBind (bind_of (start_ g) (exporter_ g)) in
  let secured facts := start_ok (start_ g) /\ transport_ok (start_ g) facts /\ any_nonzero (exporter_ g) = true in
  match gate_phase_ g with
  | GateIdle => said = [] /\ readies g []
  | PairAccepted => said = [begun] /\ start_ok (start_ g) /\ readies g []
  | GateTransportAuthenticated =>
    readies g [] /\ exists facts, secured facts /\ said = [begun; GateTransport facts (exporter_ g)]
  | GateBound =>
    channel_id_ g = bind_channel_id (bind_of (start_ g) (exporter_ g)) /\
    exists facts ready, secured facts /\ readies g ready /\ (length ready < 2)%nat /\
      said = [begun; GateTransport facts (exporter_ g); bound] ++ (GateReady <$> ready)
  | GateConnected =>
    channel_id_ g = bind_channel_id (bind_of (start_ g) (exporter_ g)) /\
    exists facts ready, secured facts /\ readies g ready /\ length ready = 2%nat /\
      said = [begun; GateTransport facts (exporter_ g); bound] ++ (GateReady <$> ready)
  | GateFailed => True
  end.

(** The flags of the queue follow the phase. *)
Definition flags_ok (g : AuthenticatedLinkGate) : Prop :=
  let q := prebind_ g in
  let initiator := local_role (pair (start_ g)) =? Initiator in
  PreBindQueue.failed_ q = false /\
  match gate_phase_ g with
  | GateIdle | PairAccepted =>
    transport_authenticated_ q = false /\ channel_bound_ q = false /\ local_ready_ q = false /\ remote_ready_ q = false
  | GateTransportAuthenticated =>
    transport_authenticated_ q = true /\ channel_bound_ q = false /\ local_ready_ q = false /\ remote_ready_ q = false
  | _ =>
    transport_authenticated_ q = true /\ channel_bound_ q = true /\
    local_ready_ q = (if initiator then initiator_ready_ g else responder_ready_ g) /\
    remote_ready_ q = (if initiator then responder_ready_ g else initiator_ready_ g)
  end.

(** The records: held until the gate connects, gone once they are released or the gate fails. *)
Definition records_ok (g : AuthenticatedLinkGate) (taken freed : list QueuedAppRecord) : Prop :=
  let q := prebind_ g in
  match gate_phase_ g with
  | GateFailed => records_ q = [] /\ (freed = [] \/ freed = taken)
  | GateConnected =>
    if released_ q then records_ q = [] /\ freed = taken else records_ q = taken /\ freed = []
  | _ => released_ q = false /\ records_ q = taken /\ freed = []
  end.

Definition gate_inv (said : list GateCall) (h : LinkHistory) : Prop :=
  (gate_phase_ (gate h) = GateFailed \/ stage_ok (gate h) said /\ flags_ok (gate h)) /\
  records_ok (gate h) (taken h) (freed h).

(** ** Lemmas *)

Lemma freed_cases g t f : records_ok g t f -> f = [] \/ f = t.
Proof.
  unfold records_ok. destruct (gate_phase_ g); try (by intros (_ & _ & ->); left).
  - destruct (released_ _); intros [_ ->]; [by right | by left].
  - by intros [_ ?].
Qed.

(** A gate that fails holds nothing. *)
Lemma fail_gate_inv said h g result :
  records_ok (gate h) (taken h) (freed h) -> gate_inv said (mkLinkHistory (gate_fail result g).2 (taken h) (freed h)).
Proof.
  intros Hr. split; [by left |]. unfold records_ok. cbn. split; [done |]. exact (freed_cases _ _ _ Hr).
Qed.

(** A call before the gate connects keeps the records. *)
Lemma records_keep g g' t f :
  gate_phase_ g <> GateFailed -> gate_phase_ g <> GateConnected -> gate_phase_ g' <> GateFailed ->
  records_ (prebind_ g') = records_ (prebind_ g) -> released_ (prebind_ g') = released_ (prebind_ g) ->
  records_ok g t f -> records_ok g' t f.
Proof.
  unfold records_ok. intros H1 H2 H3 E1 E2 Hr. rewrite E1, E2.
  destruct (gate_phase_ g); try done; destruct Hr as (-> & -> & ->); by destruct (gate_phase_ g').
Qed.

(** The handshake check of the code. *)
Lemma handshake_ok start facts :
  (if local_role (pair start) =? quic_listener_role start then verify_quic_listener_handshake_v2 facts
   else verify_quic_handshake_v2 (link_policy (listener_der_spki_hash start)) facts) = Ok ->
  transport_ok start facts.
Proof.
  unfold transport_ok. destruct (_ =? _).
  - unfold verify_quic_listener_handshake_v2. split_guard; [discriminate |]. by intros _.
  - unfold verify_quic_handshake_v2. destruct (decide _) as [N|E]; [congruence |].
    split_guard; [discriminate |]. by intros _.
Qed.

Definition mark_ready (sender : Z) (g : AuthenticatedLinkGate) : AuthenticatedLinkGate :=
  if sender =? Initiator then g <| initiator_ready_ := true |> else g <| responder_ready_ := true |>.

Lemma valid_role_cases role : valid_role role = true -> role = Initiator \/ role = Responder.
Proof. unfold valid_role. intros H. bool_hyps. lia. Qed.

(** A readiness message not seen before. *)
Lemma readies_step g ready sender :
  readies g ready -> (length ready < 2)%nat -> valid_role sender = true ->
  (if sender =? Initiator then initiator_ready_ g else responder_ready_ g) = false ->
  readies (mark_ready sender g) (ready ++ [sender]) /\
  (if initiator_ready_ (mark_ready sender g) && responder_ready_ (mark_ready sender g)
   then length (ready ++ [sender]) = 2%nat else (length (ready ++ [sender]) < 2)%nat).
Proof.
  intros (Hn & Hv & H1 & H2) L Hs Hnew. unfold mark_ready.
  assert (forall g', initiator_ready_ g' = bool_decide (Initiator ∈ ready ++ [sender]) ->
            responder_ready_ g' = bool_decide (Responder ∈ ready ++ [sender]) -> NoDup (ready ++ [sender]) ->
            readies g' (ready ++ [sender])) as Hmk.
  { intros g' ? ? ?. split_and!; try done. apply Forall_app. by split; [| constructor]. }
  destruct ready as [|a [|b ready]]; [| apply List.Forall_inv, valid_role_cases in Hv | cbn in L; lia].
  - destruct g as [q p s e c i r]. cbn [initiator_ready_ responder_ready_] in *. subst i r.
    apply valid_role_cases in Hs as [->| ->]; (split; [apply Hmk; [reflexivity | reflexivity | apply NoDup_singleton] | apply Nat.ltb_lt; reflexivity]).
  - destruct g as [q p s e c i r]. cbn [initiator_ready_ responder_ready_] in *. subst i r.
    apply valid_role_cases in Hs as [->| ->]; destruct Hv as [->| ->]; try discriminate Hnew;
      (split; [apply Hmk; [reflexivity | reflexivity | apply NoDup_cons; split; [| apply NoDup_singleton]; set_solver] | done]).
Qed.

(** One readiness message is not both. *)
Lemma not_both_ready g ready :
  readies g ready -> (length ready < 2)%nat -> initiator_ready_ g = true -> responder_ready_ g = true -> False.
Proof.
  intros (_ & _ & H1 & H2) L E1 E2. rewrite E1 in H1. rewrite E2 in H2. symmetry in H1, H2.
  apply bool_decide_eq_true in H1, H2. destruct ready as [|a [|b ready]]; [| | cbn in L; lia].
  - by apply not_elem_of_nil in H1.
  - apply list_elem_of_singleton in H1, H2. rewrite <- H1 in H2. discriminate H2.
Qed.

(** The queue takes the flags of both sides as they stand. *)
Lemma mark_link_ready_flags local remote q :
  PreBindQueue.failed_ q = false -> released_ q = false -> channel_bound_ q = true ->
  (local_ready_ q = true -> local = true) -> (remote_ready_ q = true -> remote = true) ->
  exists result, mark_link_ready local remote q = (result, q <| local_ready_ := local |> <| remote_ready_ := remote |>) /\
    result <> QueueProtocolViolation.
Proof.
  intros Hf Hr Hb Hl Hrem. unfold mark_link_ready. rewrite Hf, Hr, Hb. cbn [orb negb].
  replace (local_ready_ q || local) with local by (destruct (local_ready_ q); [by rewrite Hl | done]).
  cbn [remote_ready_]. change (remote_ready_ (q <| local_ready_ := local |>)) with (remote_ready_ q).
  replace (remote_ready_ q || remote) with remote by (destruct (remote_ready_ q); [by rewrite Hrem | done]).
  eexists. split; [done |]. unfold gate_result. by destruct (open _).
Qed.

Lemma mark_ready_grows sender g :
  (initiator_ready_ g = true -> initiator_ready_ (mark_ready sender g) = true) /\
  (responder_ready_ g = true -> responder_ready_ (mark_ready sender g) = true).
Proof. unfold mark_ready. by destruct (sender =? Initiator). Qed.

Section Steps.
Variables (said : list GateCall) (h : LinkHistory).
Hypothesis Hinv : gate_inv said h.

Lemma gate_begin_inv start :
  gate_inv (said ++ [GateBegin start]) (mkLinkHistory (gate_begin start (gate h)).2 (taken h) (freed h)).
Proof using Hinv.
  destruct Hinv as [Hst Hr]. unfold gate_begin.
  destruct (negb (bool_decide _)) eqn:Hp; [by apply fail_gate_inv |]. bool_hyps.
  match goal with H : gate_phase_ _ = _ |- _ => rename H into Hphase end.
  destruct (_ || _) eqn:G; [by apply fail_gate_inv |]. bool_hyps.
  destruct Hst as [?|[Hst Hf]]; [congruence |]. unfold stage_ok, flags_ok in *. rewrite Hphase in Hst, Hf.
  destruct Hst as [-> Hready]. cbn [snd]. split; [right; split |].
  - split; [done |]. split; [| done]. by split_and!.
  - exact Hf.
  - by apply (records_keep (gate h)); rewrite ?Hphase.
Qed.

Lemma transport_inv facts exporter :
  gate_inv (said ++ [GateTransport facts exporter])
    (mkLinkHistory (accept_transport facts exporter (gate h)).2 (taken h) (freed h)).
Proof using Hinv.
  destruct Hinv as [Hst Hr]. unfold accept_transport.
  destruct (negb (bool_decide _)) eqn:Hp; [by apply fail_gate_inv |]. bool_hyps.
  match goal with H : gate_phase_ _ = _ |- _ => rename H into Hphase end.
  destruct (negb (any_nonzero exporter)) eqn:He; [by apply fail_gate_inv |]. bool_hyps.
  destruct (decide _) as [N|E]; [by apply fail_gate_inv |]. apply dec_stable, handshake_ok in E.
  destruct Hst as [?|[Hst Hf]]; [congruence |]. unfold stage_ok, flags_ok in *. rewrite Hphase in Hst, Hf.
  destruct Hst as (-> & Hok & Hready), Hf as (Hf & Hf').
  assert (released_ (prebind_ (gate h)) = false) as Hrel by (unfold records_ok in Hr; rewrite Hphase in Hr; apply Hr).
  unfold mark_transport_authenticated. rewrite Hf, Hrel. cbn [orb negb]. unfold gate_result.
  replace (open _) with false by (unfold open; cbn; destruct Hf' as (_ & -> & _); by rewrite ?andb_false_r).
  rewrite decide_False by done. cbn [snd]. split; [right; split |].
  - unfold stage_ok. cbn. split; [done |]. by exists facts.
  - unfold flags_ok. cbn. split_and!; try done; apply Hf'.
  - by apply (records_keep (gate h)); rewrite ?Hphase.
Qed.

Lemma bind_inv bind :
  gate_inv (said ++ [GateBind bind]) (mkLinkHistory (accept_channel_bind bind (gate h)).2 (taken h) (freed h)).
Proof using Hinv.
  destruct Hinv as [Hst Hr]. unfold accept_channel_bind.
  destruct (negb (bool_decide _)) eqn:Hp; [by apply fail_gate_inv |]. bool_hyps.
  match goal with H : gate_phase_ _ = _ |- _ => rename H into Hphase end. cbv zeta.
  destruct (_ || negb (bool_decide (bind_channel_id bind = _))) eqn:G; [by apply fail_gate_inv |]. bool_hyps.
  destruct Hst as [?|[Hst Hf]]; [congruence |]. unfold stage_ok, flags_ok in *. rewrite Hphase in Hst, Hf.
  destruct Hst as (Hready & facts & Hsec & ->), Hf as (Hf & Ht & Hc & Hl & Hrem).
  assert (released_ (prebind_ (gate h)) = false) as Hrel by (unfold records_ok in Hr; rewrite Hphase in Hr; apply Hr).
  unfold mark_channel_bound. rewrite Hf, Hrel, Ht. cbn [orb negb]. unfold gate_result.
  replace (open _) with false by (unfold open; cbn; by rewrite Hl, ?andb_false_r).
  rewrite decide_False by done. cbn [snd]. destruct bind as [b1 b2 b3 b4]. cbn [bind_pair_transcript_hash bind_session_id bind_reconnect_transcript_hash
    bind_channel_id] in *. subst. split; [right; split |].
  - unfold stage_ok. cbn. split; [done |]. exists facts, []. split; [exact Hsec |]. split; [exact Hready |]. split; [cbn; lia | done].
  - destruct Hready as (_ & _ & I1 & I2). cbn in I1, I2.
    unfold flags_ok. cbn. rewrite I1, I2. split_and!; try done; by destruct (_ =? _).
  - by apply (records_keep (gate h)); rewrite ?Hphase.
Qed.


Lemma ready_inv sender :
  gate_inv (said ++ [GateReady sender]) (mkLinkHistory (accept_link_ready sender (gate h)).2 (taken h) (freed h)).
Proof using Hinv.
  destruct Hinv as [Hst Hr]. unfold accept_link_ready.
  destruct (_ || negb (valid_role sender)) eqn:Hp; [by apply fail_gate_inv |]. bool_hyps.
  match goal with H : gate_phase_ _ = _ |- _ => rename H into Hphase end.
  match goal with H : valid_role _ = _ |- _ => rename H into Hrole end.
  destruct (if sender =? Initiator then initiator_ready_ (gate h) else responder_ready_ (gate h)) eqn:Hnew; [by apply fail_gate_inv |].
  destruct Hst as [?|[Hst Hf]]; [congruence |]. unfold stage_ok, flags_ok in *. rewrite Hphase in Hst, Hf.
  destruct Hst as (Hid & facts & ready & Hsec & Hready & L & ->), Hf as (Hf & Ht & Hc & Hl & Hrem).
  assert (released_ (prebind_ (gate h)) = false) as Hrel by (unfold records_ok in Hr; rewrite Hphase in Hr; apply Hr).
  destruct (readies_step _ _ _ Hready L Hrole Hnew) as [Hready' Hlen]. cbv zeta.
  change (if sender =? Initiator then _ else _) with (mark_ready sender (gate h)) in |- *.
  assert (prebind_ (mark_ready sender (gate h)) = prebind_ (gate h) /\ start_ (mark_ready sender (gate h)) = start_ (gate h) /\
          exporter_ (mark_ready sender (gate h)) = exporter_ (gate h) /\
          channel_id_ (mark_ready sender (gate h)) = channel_id_ (gate h) /\
          gate_phase_ (mark_ready sender (gate h)) = gate_phase_ (gate h)) as (E1 & E2 & E3 & E4 & E5)
    by (unfold mark_ready; destruct (sender =? Initiator); split_and!; reflexivity).
  destruct (mark_ready_grows sender (gate h)) as [M1 M2].
  set (g := mark_ready sender (gate h)) in *. rewrite E1, E2.
  destruct (mark_link_ready_flags
    (if local_role (pair (start_ (gate h))) =? Initiator then initiator_ready_ g else responder_ready_ g)
    (if local_role (pair (start_ (gate h))) =? Initiator then responder_ready_ g else initiator_ready_ g)
    (prebind_ (gate h)) Hf Hrel Hc) as (result & -> & Hresult);
    [by rewrite Hl; destruct (_ =? _) | by rewrite Hrem; destruct (_ =? _) |].
  rewrite decide_False by done. cbn [initiator_ready_ responder_ready_].
  set (q := (prebind_ (gate h)) <| local_ready_ := _ |> <| remote_ready_ := _ |>).
  change (initiator_ready_ (g <| prebind_ := q |>)) with (initiator_ready_ g).
  change (responder_ready_ (g <| prebind_ := q |>)) with (responder_ready_ g).
  assert (forall g', gate_phase_ g' <> GateFailed -> prebind_ g' = q -> records_ok g' (taken h) (freed h)) as Hrec.
  { intros g' Hp' Eq. apply (records_keep (gate h)); rewrite ?Hphase, ?Eq; done. }
  rewrite <- app_assoc. change [GateReady sender] with (GateReady <$> [sender]).
  rewrite <- (fmap_app GateReady ready [sender]).
  rewrite <- E2 in Hsec, Hid, Hl, Hrem |- *. rewrite <- E3 in Hsec, Hid |- *. rewrite <- E4 in Hid.
  destruct (initiator_ready_ g && responder_ready_ g); cbn [snd].
  - split; [right; split | apply Hrec; [discriminate | done]].
    + unfold stage_ok. cbn. split; [exact Hid |]. exists facts, (ready ++ [sender]). split; [exact Hsec |]. by split_and!.
    + unfold flags_ok. cbn. rewrite E2. by split_and!.
  - split; [right; split | apply Hrec; [cbn; congruence | done]].
    + unfold stage_ok. cbn. rewrite E5, Hphase. split; [exact Hid |]. exists facts, (ready ++ [sender]).
      split; [exact Hsec |]. by split_and!.
    + unfold flags_ok. cbn. rewrite E5, Hphase, E2. by split_and!.
Qed.

Lemma enqueue_records id sequence f q q' queued :
  PreBindQueue.failed_ q = false -> released_ q = false -> enqueue id sequence f q = (queued, q') ->
  (queued = Queued /\ records_ q' = records_ q ++ [mkQueued id sequence f] /\ PreBindQueue.failed_ q' = false /\
   released_ q' = false /\ transport_authenticated_ q' = transport_authenticated_ q /\
   channel_bound_ q' = channel_bound_ q /\ local_ready_ q' = local_ready_ q /\ remote_ready_ q' = remote_ready_ q) \/
  ((queued = QueueBackpressure \/ queued = QueueProtocolViolation) /\ records_ q' = []) \/
  ((queued = QueueInvalidArgument \/ queued = QueueClosed) /\ q' = q).
Proof.
  intros Hf Hr. unfold enqueue. destruct (_ || bool_decide _); [intros [= <- <-]; auto |].
  destruct (_ || open q); [intros [= <- <-]; auto |].
  destruct (decide _); [intros [= <- <-]; auto 6 |]. destruct (_ <? _); [intros [= <- <-]; auto 6 |]. cbv zeta.
  destruct (_ || _); intros [= <- <-]; [auto 6 |]. left. by split_and!.
Qed.

Lemma enqueue_gate_inv id sequence f : gate_inv said (gate_step h (GateEnqueue id sequence f)).
Proof using Hinv.
  destruct Hinv as [Hst Hr]. cbn [gate_step]. unfold enqueue_prebind.
  assert (gate_inv said (mkLinkHistory (gate h) (taken h) (freed h))) as Hsame by (by split).
  destruct (decide (gate_phase_ (gate h) = GateIdle)) as [|N1]; [by rewrite decide_False |].
  destruct (decide (_ \/ _)) as [|N2]; [by rewrite decide_False |].
  destruct Hst as [?|[Hst Hf]]; [tauto |]. destruct (enqueue _ _ _ _) as [queued q] eqn:He.
  assert (released_ (prebind_ (gate h)) = false /\ records_ (prebind_ (gate h)) = taken h /\ freed h = []) as (R1 & R2 & R3)
    by (unfold records_ok in Hr; by destruct (gate_phase_ (gate h)); try tauto).
  apply enqueue_records in He; [| apply Hf | done].
  destruct He as [(-> & H1 & H2 & H3 & H4 & H5 & H6 & H7)|[[Hq H1]|[Hq ->]]].
  - rewrite decide_False by (by intros [|]). rewrite decide_True by done. split; [right; split; [exact Hst |] |].
    + unfold flags_ok in *. cbn. split; [exact H2 |]. rewrite H4, H5, H6, H7. apply Hf.
    + unfold records_ok. cbn. rewrite H3, H1, R2. by destruct (gate_phase_ (gate h)); try tauto.
  - rewrite decide_True by done. rewrite decide_False by (destruct Hq as [->| ->]; discriminate). split; [by left |].
    split; [exact H1 | by left].
  - rewrite decide_False by (destruct Hq as [->| ->]; intros [E|E]; discriminate E).
    rewrite decide_False by (destruct Hq as [->| ->]; discriminate).
    replace ((gate h) <| prebind_ := prebind_ (gate h) |>) with (gate h) by (by destruct (gate h)). exact Hsame.
Qed.

(** A release gives out everything once, and only from a connected gate. *)
Lemma release_gate_inv :
  gate_inv said (gate_step h GateRelease) /\ taken (gate_step h GateRelease) = taken h /\
  (freed (gate_step h GateRelease) = freed h \/ gate_phase_ (gate h) = GateConnected).
Proof using Hinv.
  destruct Hinv as [Hst Hr]. cbn [gate_step]. unfold release_prebind.
  assert (gate_inv said (mkLinkHistory (gate h) (taken h) (freed h))) as Hsame by (by split).
  destruct (decide (gate_phase_ (gate h) = GateFailed)) as [|N]; [by split_and!; [| | left] |].
  destruct Hst as [?|[Hst Hf]]; [done |]. unfold release. rewrite (proj1 Hf).
  assert ((gate h) <| prebind_ := prebind_ (gate h) |> = gate h) as Heta by (by destruct (gate h)).
  destruct (released_ _) eqn:Hrel; [rewrite Heta; by split_and!; [| | left] |].
  destruct (open _) eqn:Ho; cbn [negb]; [| rewrite Heta; by split_and!; [| | left]].
  unfold open in Ho. bool_hyps.
  assert (gate_phase_ (gate h) = GateConnected) as Hphase.
  { unfold stage_ok, flags_ok in *. destruct (gate_phase_ (gate h)); try done; try (exfalso; intuition congruence).
    exfalso. destruct Hst as (_ & _ & ready & _ & Hready & L & _), Hf as (_ & _ & _ & E1 & E2).
    apply (not_both_ready _ _ Hready L); destruct (local_role _ =? _); congruence. }
  split_and!; [| done | by right]. split; [right; split; [exact Hst |] |].
  - unfold flags_ok in *. cbn. rewrite Hphase in Hf |- *. exact Hf.
  - unfold records_ok in *. cbn. rewrite Hphase in Hr |- *. rewrite Hrel in Hr. destruct Hr as [-> ->]. done.
Qed.

End Steps.

Lemma run_gate_snoc max_bytes max_records calls call :
  run_gate max_bytes max_records (calls ++ [call]) = gate_step (run_gate max_bytes max_records calls) call.
Proof. unfold run_gate. by rewrite fold_left_app. Qed.

Lemma offered_snoc calls call : offered (calls ++ [call]) = offered calls ++ (if proof_call call then [call] else []).
Proof. unfold offered. rewrite List.filter_app. cbn. by destruct (proof_call call). Qed.

Lemma run_gate_inv max_bytes max_records calls :
  gate_inv (offered calls) (run_gate max_bytes max_records calls) /\
  (freed (run_gate max_bytes max_records calls) <> [] ->
   exists before more, calls = before ++ more /\ connected (gate (run_gate max_bytes max_records before)) = true).
Proof.
  induction calls as [|call calls [IH1 IH2]] using rev_ind.
  - split; [| done]. split; [right; split | done]; [| done]. split; [done |]. by split_and!; [constructor | constructor | |].
  - rewrite run_gate_snoc, offered_snoc. set (h := run_gate max_bytes max_records calls) in *.
    assert (freed h <> [] -> exists before more, calls ++ [call] = before ++ more /\
              connected (gate (run_gate max_bytes max_records before)) = true) as Hmore.
    { intros (before & more & -> & Hc)%IH2. exists before, (more ++ [call]). by rewrite app_assoc. }
    destruct call as [start|id sequence f|facts exporter|bind|sender|]; cbn [proof_call]; rewrite ?app_nil_r.
    + split; [by apply gate_begin_inv | exact Hmore].
    + split; [by apply enqueue_gate_inv |]. intros Hf. apply Hmore. revert Hf. cbn [gate_step].
      by destruct (enqueue_prebind _ _ _ _).
    + split; [by apply transport_inv | exact Hmore].
    + split; [by apply bind_inv | exact Hmore].
    + split; [by apply ready_inv | exact Hmore].
    + destruct (release_gate_inv (offered calls) h IH1) as (H1 & _ & H2). split; [exact H1 |]. intros Hf.
      destruct H2 as [H2|Hp]; [rewrite H2 in Hf; by apply Hmore |].
      exists calls, [GateRelease]. split; [done |]. by apply bool_decide_eq_true.
Qed.

Definition link_chain (start : LinkActivationStartV1) (facts : QuicHandshakeFactsV2) (exporter : bytes)
    (first second : Z) : list GateCall :=
  [GateBegin start; GateTransport facts exporter; GateBind (bind_of start exporter); GateReady first; GateReady second].

Lemma two_roles g first second : readies g [first; second] -> opposite first second = true.
Proof.
  intros (Hn & Hv & _). apply NoDup_cons in Hn as [Hn _]. apply Forall_cons in Hv as [H1 H2].
  apply List.Forall_inv, valid_role_cases in H2. apply valid_role_cases in H1.
  destruct H1 as [->| ->], H2 as [->| ->]; try done; exfalso; apply Hn; left.
Qed.

(** C4. A link is connected exactly when the proofs offered to the gate were the whole
    chain in its order -- evidence sealed by the pairing, a full TLS 1.3 handshake
    verified against the pinned certificate, the bind of the channel identifier derived
    from that connection's exporter, one readiness from each side -- and nothing failed
    since.  The records that arrived early leave only from a connected gate, all of them
    and once; a failed gate holds none. *)
Theorem link_connects_exactly (max_bytes max_records : Z) (calls : list GateCall) :
  let h := run_gate max_bytes max_records calls in
  (connected (gate h) = true <->
   gate_failed (gate h) = false /\
   exists start facts exporter first second,
     offered calls = link_chain start facts exporter first second /\ start_ok start /\ transport_ok start facts /\
     any_nonzero exporter = true /\ opposite first second = true) /\
  (freed h = [] \/
   freed h = taken h /\
   exists before more, calls = before ++ more /\ connected (gate (run_gate max_bytes max_records before)) = true) /\
  (gate_failed (gate h) = true -> records_ (prebind_ (gate h)) = []).
Proof.
  cbv zeta. destruct (run_gate_inv max_bytes max_records calls) as [[Hst Hr] Hmore].
  set (h := run_gate max_bytes max_records calls) in *. unfold connected, gate_failed. split; [split | split].
  - intros Hc%bool_decide_eq_true. split; [by rewrite Hc |]. destruct Hst as [?|[Hst _]]; [congruence |].
    unfold stage_ok in Hst. rewrite Hc in Hst.
    destruct Hst as (_ & facts & [|first [|second [|]]] & (H1 & H2 & H3) & Hready & L & E); try discriminate L.
    exists (start_ (gate h)), facts, (exporter_ (gate h)), first, second. split_and!; try done. by apply two_roles in Hready.
  - intros (Hf%bool_decide_eq_false & start & facts & exporter & first & second & E & _).
    destruct Hst as [?|[Hst _]]; [done |]. unfold stage_ok in Hst. rewrite E in Hst. unfold link_chain in Hst.
    destruct (gate_phase_ (gate h)); try done; try (by destruct Hst as [? _]); try (by destruct Hst as (_ & ? & _ & ?)).
    destruct Hst as (_ & ? & [|a [|b ready]] & _ & _ & L & ?); cbn in L; try done; lia.
  - destruct (decide (freed h = [])) as [|N]; [by left | right]. split; [by destruct (freed_cases _ _ _ Hr) | by apply Hmore].
  - intros Hf%bool_decide_eq_true. unfold records_ok in Hr. rewrite Hf in Hr. apply Hr.
Qed.

Lemma offered_elem calls call : proof_call call = true -> call ∈ calls -> call ∈ offered calls.
Proof. intros Hp Hc. apply list_elem_of_In, filter_In. split; [by apply list_elem_of_In | done]. Qed.

(** The bind of a connected gate is the one its own transcript and exporter derive. *)
Lemma connected_bind max_bytes max_records calls bind :
  connected (gate (run_gate max_bytes max_records calls)) = true -> GateBind bind ∈ calls ->
  bind = bind_of (start_ (gate (run_gate max_bytes max_records calls))) (exporter_ (gate (run_gate max_bytes max_records calls))).
Proof.
  destruct (run_gate_inv max_bytes max_records calls) as [[Hst _] _]. unfold connected. intros Hc%bool_decide_eq_true Hb.
  destruct Hst as [?|[Hst _]]; [congruence |]. unfold stage_ok in Hst. rewrite Hc in Hst.
  destruct Hst as (_ & facts & ready & _ & _ & _ & E). apply (offered_elem _ (GateBind bind) eq_refl) in Hb. rewrite E in Hb.
  apply elem_of_app in Hb as [Hb|Hb]; [set_solver |]. apply list_elem_of_fmap in Hb as (r & ? & _). discriminate.
Qed.

Lemma binds_agree s e s' e' :
  bind_of s e = bind_of s' e' ->
  let message s e := channel_message (transcript (pair s)) (session_id s) (reconnect_transcript_hash s) e in
  transcript (pair s) = transcript (pair s') /\ session_id s = session_id s' /\
  reconnect_transcript_hash s = reconnect_transcript_hash s' /\
  (e = e' \/ message s e <> message s' e' /\
             slice (Sha256.sha256 (message s e)) 0 16 = slice (Sha256.sha256 (message s' e')) 0 16).
Proof.
  unfold bind_of, derive_channel_id_v1. intros E. injection E as E1 E2 E3 E4. cbv zeta. split_and!; try done.
  destruct (decide (e = e')) as [|N]; [by left | right]. split; [| exact E4].
  unfold channel_message. rewrite E1, E2, E3. intros H. do 4 apply app_inv_head in H. by apply N.
Qed.

(** C28. One bind makes one channel: when both sides are connected through the same bind
    message, they agree on the pairing transcript, the session and the reconnection, and
    they export the same secret from their connections -- or hold two distinct messages
    whose SHA-256 agree in the sixteen bytes of the channel identifier.  A relay in the
    middle, whose two connections export different secrets, connects neither. *)
Theorem one_bind_one_channel (max_bytes max_records : Z) (ours theirs : list GateCall) (bind : LinkChannelBindV1) :
  let l := gate (run_gate max_bytes max_records ours) in
  let r := gate (run_gate max_bytes max_records theirs) in
  let message g := channel_message (transcript (pair (start_ g))) (session_id (start_ g))
                     (reconnect_transcript_hash (start_ g)) (exporter_ g) in
  connected l = true -> connected r = true -> GateBind bind ∈ ours -> GateBind bind ∈ theirs ->
  transcript (pair (start_ l)) = transcript (pair (start_ r)) /\ session_id (start_ l) = session_id (start_ r) /\
  reconnect_transcript_hash (start_ l) = reconnect_transcript_hash (start_ r) /\
  (exporter_ l = exporter_ r \/
   message l <> message r /\ slice (Sha256.sha256 (message l)) 0 16 = slice (Sha256.sha256 (message r)) 0 16).
Proof.
  cbv zeta. intros Hl Hr Bl Br. apply binds_agree.
  by rewrite <- (connected_bind _ _ ours bind Hl Bl), <- (connected_bind _ _ theirs bind Hr Br).
Qed.

(** Both sides of one link: the initiator listens, the responder pins its certificate. *)
Definition demo_exporter : bytes := replicate 32 6.

Definition demo_start (role : Z) : LinkActivationStartV1 :=
  mkLinkStart
    (seal_for_authenticated_pipeline
       (mkEvidence role 7 (replicate 32 1) (replicate 32 2) (replicate 32 3) (replicate 32 4) (replicate 32 5)
          (replicate 512 0) (replicate 512 0) (zero_bytes 32)))
    (replicate 16 8) (zero_bytes 32) Initiator (replicate 32 7).

Definition listener_facts : QuicHandshakeFactsV2 :=
  mkFacts 1 3 true false false false false (kAlpn ++ zero_bytes 17) (zero_bytes 32).

Definition demo_link (role : Z) : list GateCall :=
  [GateBegin (demo_start role); GateEnqueue 4 1 queued_confirm;
   GateTransport (if role =? Initiator then listener_facts else demo_facts) demo_exporter; GateRelease;
   GateBind (bind_of (demo_start Initiator) demo_exporter); GateReady role;
   GateReady (if role =? Initiator then Responder else Initiator); GateRelease].

(** What the examples look at, in one evaluation of the run. *)
Definition outcome (h : LinkHistory) : bool * list QueuedAppRecord := (connected (gate h), freed h).

Lemma listener_run : outcome (run_gate 4096 8 (demo_link Initiator)) = (true, [mkQueued 4 1 queued_confirm]).
Proof. vm_compute. reflexivity. Qed.

Lemma connector_run : outcome (run_gate 4096 8 (demo_link Responder)) = (true, [mkQueued 4 1 queued_confirm]).
Proof. vm_compute. reflexivity. Qed.

Lemma outcome_connected h records : outcome h = (true, records) -> connected (gate h) = true.
Proof. by intros [= -> _]. Qed.

Lemma demo_connected role :
  role = Initiator \/ role = Responder -> connected (gate (run_gate 4096 8 (demo_link role))) = true.
Proof.
  intros [->| ->]; [exact (outcome_connected _ _ listener_run) | exact (outcome_connected _ _ connector_run)].
Qed.

Lemma one_bind_one_channel_witness :
  session_id (start_ (gate (run_gate 4096 8 (demo_link Initiator)))) =
  session_id (start_ (gate (run_gate 4096 8 (demo_link Responder)))).
Proof.
  exact (proj1 (proj2 (one_bind_one_channel 4096 8 (demo_link Initiator) (demo_link Responder)
    (bind_of (demo_start Initiator) demo_exporter) (demo_connected Initiator (or_introl eq_refl))
    (demo_connected Responder (or_intror eq_refl))
    (list_elem_of_lookup_2 (demo_link Initiator) 4 (GateBind (bind_of (demo_start Initiator) demo_exporter)) eq_refl)
    (list_elem_of_lookup_2 (demo_link Responder) 4 (GateBind (bind_of (demo_start Initiator) demo_exporter)) eq_refl)))).
Defined.
