(* ===== verification/BearerRecords.v ===== *)
(** * Records of the initial bearer ([shared/src/session/wire/initial_bearer.cpp], [endpoint_offer.cpp])

    How the two players meet on the local network: the credentials of the bearer one of them creates, the endpoint one of
    them listens on, and the frames in which both travel sealed. The sealing itself is the provider's; its nonce and
    its associated data are built here.

    [None] for a pointer is the null pointer. Roles and kinds are enumerations over a byte that casts can leave. *)

From S2P Require Import Prelude Sha256 SessionCodec PairHandshake PairAuth PairCapability QuicContract.

Definition kServiceUuid : bytes :=
  [0xe7; 0x38; 0xdc; 0xda; 0xa2; 0x1a; 0x58; 0x2b; 0x9c; 0xed; 0xa9; 0x7f; 0x6f; 0xeb; 0xee; 0xdd].

Definition kBearerCredentialBytesSizeV1 : Z := 100.
Definition kBearerJoinParamsSizeV1 : Z := 536.
Definition kInitialBearerCredentialPlaintextSizeV1 : Z := 600.
Definition kInitialBearerCredentialEnvelopeSizeV1 : Z := 628.
Definition kEndpointOfferPlaintextSizeV1 : Z := 184.
Definition kEndpointOfferEnvelopeSizeV1 : Z := 216.

Definition opposite_role (r : Z) : Z := if r =? Initiator then Responder else Initiator.
Definition printable (data : bytes) : bool := forallb (fun value => (0x21 <=? value) && (value <=? 0x7e)) data.

(** The size checks both decoders start with. *)
Definition sized (data : bytes) (size : Z) : Status :=
  if zlen data <? size then Truncated else if size <? zlen data then Trailing else Ok.

(** ** Credentials *)

Definition validate_bearer_credential_v1 (codec : Z) (data : option bytes) : Status :=
  match data with
  | None => InvalidField
  | Some b =>
    if zlen b <? kBearerCredentialBytesSizeV1 then Truncated
    else if kBearerCredentialBytesSizeV1 <? zlen b then Trailing
    else if negb (at_ b 0 =? 1) then InvalidField
    else
      let first_length := at_ b 2 in
      let second_length := at_ b 3 in
      if codec =? 1 then
        if negb (at_ b 1 =? 1) || (first_length <? 1) || (32 <? first_length) || (second_length <? 8) || (63 <? second_length) ||
           negb (printable (slice b 4 first_length)) || negb (printable (slice b 36 second_length)) ||
           negb (zeros b (4 + first_length) (32 - first_length)) || negb (zeros b (36 + second_length) (64 - second_length))
        then InvalidField else Ok
      else if codec =? 2 then
        if (negb (at_ b 1 =? 1) && negb (at_ b 1 =? 2)) || (first_length <? 16) || (32 <? first_length) ||
           (if at_ b 1 =? 1 then negb (second_length =? 0) else negb (second_length =? 32)) ||
           zeros b 4 first_length || negb (zeros b (4 + first_length) (32 - first_length)) ||
           negb (zeros b (36 + second_length) (64 - second_length))
        then InvalidField else Ok
      else UnknownEnum
  end.

Record BearerJoinParamsV1 := mkJoin {
  bearer_kind : Z; bearer_creator : Z; quic_listener : Z; credential_codec : Z; valid_for_ms : Z; credential : bytes
}.

Definition join0 : BearerJoinParamsV1 := mkJoin 0 0 0 0 0 (zero_bytes 100).

Definition join_layout (plan : bytes) (valid_for_ms : Z) (credential : bytes) : list bytes :=
  [[0; 1]; zero_bytes 6; slice plan 0 4; zero_bytes 4; be_bytes 4 valid_for_ms; be_bytes 2 100; zero_bytes 2; credential; zero_bytes 412].

Definition encode_bearer_join_params_v1 (selected_plan : bytes) (valid_for_ms : Z) (credential : bytes) (out : option bytes)
    : Status * option bytes :=
  let platform := if at_ selected_plan 4 =? 3 then 3 else 1 in
  match out with
  | None => (InvalidField, out)
  | Some _ =>
    if (valid_for_ms =? 0) || (60000 <? valid_for_ms) || negb (bool_decide (validate_bearer_plan_v1 selected_plan platform = Ok)) ||
       negb (bool_decide (validate_bearer_credential_v1 (at_ selected_plan 3) (Some credential) = Ok))
    then (InvalidField, out)
    else (Ok, Some (mjoin (join_layout selected_plan valid_for_ms credential)))
  end.

Definition decode_bearer_join_params_v1 (data : option bytes) (expected_plan : bytes) (out : option BearerJoinParamsV1)
    : Status * option BearerJoinParamsV1 :=
  match data, out with
  | Some b, Some _ =>
    let out := Some join0 in
    if zlen b <? kBearerJoinParamsSizeV1 then (Truncated, out)
    else if kBearerJoinParamsSizeV1 <? zlen b then (Trailing, out)
    else if negb (at_ b 0 =? 0) || negb (at_ b 1 =? 1) then (InvalidField, out)
    else if negb (zeros b 2 6) || negb (zeros b 12 4) || negb (zeros b 22 2) || negb (load16 b 20 =? 100) || negb (zeros b 124 412)
    then (NonzeroReserved, out)
    else if negb (bool_decide (slice expected_plan 0 4 = slice b 8 4)) then (InvalidField, out)
    else
      let valid_for := load32 b 16 in
      if (valid_for =? 0) || (60000 <? valid_for) ||
         negb (bool_decide (validate_bearer_credential_v1 (at_ b 11) (Some (slice b 24 100)) = Ok))
      then (InvalidField, out)
      else (Ok, Some (mkJoin (at_ b 8) (at_ b 9) (at_ b 10) (at_ b 11) valid_for (slice b 24 100)))
  | _, _ => (InvalidField, out)
  end.

Record InitialBearerCredentialPlaintextV1 := mkCredentialPlaintext {
  credential_transcript_hash : bytes; credential_session_id : bytes; credential_sender : Z; credential_receiver : Z; join : BearerJoinParamsV1
}.

Definition credential_plaintext0 : InitialBearerCredentialPlaintextV1 := mkCredentialPlaintext (zero_bytes 32) (zero_bytes 16) 0 0 join0.

Definition credential_layout (transcript session : bytes) (sender : Z) (join_params : bytes) : list bytes :=
  [[0; 1]; zero_bytes 6; transcript; session; [u8 sender; opposite_role sender]; zero_bytes 6; join_params].

Definition encode_initial_bearer_credential_plaintext_v1 (transcript session : bytes) (sender : Z) (selected_plan join_params : bytes)
    (out : option bytes) : Status * option bytes :=
  match out with
  | None => (InvalidField, out)
  | Some _ =>
    if negb (valid_role sender) || negb (sender =? at_ selected_plan 1) || negb (any_nonzero transcript) || negb (any_nonzero session) ||
       negb (bool_decide ((decode_bearer_join_params_v1 (Some join_params) selected_plan (Some join0)).1 = Ok))
    then (InvalidField, out)
    else (Ok, Some (mjoin (credential_layout transcript session sender join_params)))
  end.

(** The decoder of the join parameters writes into the record even where a later check refuses it. *)
Definition decode_initial_bearer_credential_plaintext_v1 (data : option bytes) (transcript session : bytes) (sender : Z) (expected_plan : bytes)
    (out : option InitialBearerCredentialPlaintextV1) : Status * option InitialBearerCredentialPlaintextV1 :=
  match data, out with
  | Some b, Some _ =>
    let out := Some credential_plaintext0 in
    if zlen b <? kInitialBearerCredentialPlaintextSizeV1 then (Truncated, out)
    else if kInitialBearerCredentialPlaintextSizeV1 <? zlen b then (Trailing, out)
    else if negb (at_ b 0 =? 0) || negb (at_ b 1 =? 1) then (InvalidField, out)
    else if negb (zeros b 2 6) || negb (zeros b 58 6) then (NonzeroReserved, out)
    else if negb (valid_role sender) || negb (sender =? at_ expected_plan 1) || negb (at_ b 56 =? u8 sender) ||
            negb (at_ b 57 =? opposite_role sender) || negb (bool_decide (transcript = slice b 8 32)) ||
            negb (bool_decide (session = slice b 40 16))
    then (InvalidField, out)
    else
      let '(status, decoded) := decode_bearer_join_params_v1 (Some (slice b 64 536)) expected_plan (Some join0) in
      let decoded := default join0 decoded in
      if negb (bool_decide (status = Ok)) then (InvalidField, Some (mkCredentialPlaintext (zero_bytes 32) (zero_bytes 16) 0 0 decoded))
      else (Ok, Some (mkCredentialPlaintext transcript session sender (opposite_role sender) decoded))
  | _, _ => (InvalidField, out)
  end.

(** ** Nonce, associated data and envelope of the credentials *)

Definition build_initial_bearer_credential_nonce_v1 (sender message_counter : Z) (out : option bytes) : Status * option bytes :=
  match out with
  | None => (InvalidField, out)
  | Some _ =>
    if negb (valid_role sender) || (message_counter =? 0) then (InvalidField, out)
    else (Ok, Some (be_bytes 4 (if sender =? Initiator then 0x49325201 else 0x52324901) ++ be_bytes 8 message_counter))
  end.

Definition credential_aad_layout (sender : Z) (transcript session : bytes) (message_counter : Z) : list bytes :=
  [kServiceUuid; [0; 2; 0; 0]; [8; u8 sender; opposite_role sender; 0]; transcript; session; be_bytes 8 message_counter; be_bytes 4 600].

Definition build_initial_bearer_credential_aad_v1 (sender : Z) (transcript session : bytes) (message_counter : Z) (out : option bytes)
    : Status * option bytes :=
  match out with
  | None => (InvalidField, out)
  | Some _ =>
    if negb (valid_role sender) || (message_counter =? 0) || negb (any_nonzero transcript) || negb (any_nonzero session)
    then (InvalidField, out)
    else (Ok, Some (mjoin (credential_aad_layout sender transcript session message_counter)))
  end.

Record InitialBearerCredentialEnvelopeV1 := mkCredentialEnvelope { message_counter : Z; ciphertext_and_tag : bytes }.

Definition credential_envelope0 : InitialBearerCredentialEnvelopeV1 := mkCredentialEnvelope 0 [].

Definition credential_envelope_layout (message_counter : Z) (ciphertext : bytes) : list bytes :=
  [[1]; zero_bytes 3; be_bytes 8 message_counter; ciphertext].

Definition encode_initial_bearer_credential_envelope_v1 (message_counter : Z) (ciphertext : option bytes) (out : option bytes)
    : Status * option bytes :=
  match ciphertext, out with
  | Some c, Some _ =>
    if (message_counter =? 0) || negb (zlen c =? 616) then (InvalidField, out)
    else (Ok, Some (mjoin (credential_envelope_layout message_counter c)))
  | _, _ => (InvalidField, out)
  end.

Definition decode_initial_bearer_credential_envelope_v1 (data : option bytes) (out : option InitialBearerCredentialEnvelopeV1)
    : Status * option InitialBearerCredentialEnvelopeV1 :=
  match data, out with
  | Some b, Some _ =>
    let out := Some credential_envelope0 in
    if zlen b <? kInitialBearerCredentialEnvelopeSizeV1 then (Truncated, out)
    else if kInitialBearerCredentialEnvelopeSizeV1 <? zlen b then (Trailing, out)
    else if negb (at_ b 0 =? 1) || negb (zeros b 1 3) then (if negb (at_ b 0 =? 1) then InvalidField else NonzeroReserved, out)
    else
      let counter_value := load64 b 4 in
      if counter_value =? 0 then (InvalidField, out) else (Ok, Some (mkCredentialEnvelope counter_value (slice b 12 616)))
  | _, _ => (InvalidField, out)
  end.

(** ** Endpoint offers *)

Definition Ipv4 : Z := 1.
Definition Ipv6 : Z := 2.
Definition AppleBonjourP2p : Z := 3.
Definition BindingInitial : Z := 1.
Definition BindingNewBearerReconnect : Z := 3.

Record EndpointOfferPlaintextV1 := mkEndpointOffer {
  offer_transcript_hash : bytes;
  offer_session_id : bytes;
  offer_reconnect_hash : bytes;
  binding_kind : Z;
  listener : Z;
  endpoint_kind : Z;
  endpoint_value : bytes;
  port : Z;
  bearer_binding_hash : bytes;
  spki_hash : bytes;
}.

Definition endpoint_offer0 : EndpointOfferPlaintextV1 :=
  mkEndpointOffer (zero_bytes 32) (zero_bytes 16) (zero_bytes 32) 0 0 0 (zero_bytes 16) 0 (zero_bytes 32) (zero_bytes 32).

Definition valid_endpoint (kind : Z) (value : bytes) (port : Z) : bool :=
  if kind =? Ipv4 then zeros value 0 12 && negb (zeros value 12 4) && (49152 <=? port)
  else if kind =? Ipv6 then any_nonzero value && (49152 <=? port)
  else if kind =? AppleBonjourP2p then any_nonzero value && (port =? 0)
  else false.

Definition initial_bearer_binding_hash_v1 (transcript : bytes) (creator : Z) (credential_hash : bytes) : bytes :=
  sha256 (ascii_bytes "flynes-initial-bearer-binding-v1" ++ transcript ++ [u8 creator] ++ credential_hash).

Definition endpoint_layout (transcript session : bytes) (listener kind : Z) (value : bytes) (port : Z) (binding spki : bytes) : list bytes :=
  [[0; 1]; zero_bytes 6; transcript; session; zero_bytes 32; [BindingInitial; u8 listener; u8 kind]; zero_bytes 5; value; be_bytes 2 port;
   zero_bytes 6; binding; spki].

Definition encode_initial_endpoint_offer_plaintext_v1 (transcript session : bytes) (listener kind : Z) (value : bytes) (port : Z)
    (binding spki : bytes) (out : option bytes) : Status * option bytes :=
  match out with
  | None => (InvalidField, out)
  | Some _ =>
    if negb (valid_role listener) || negb (any_nonzero transcript) || negb (any_nonzero session) || negb (any_nonzero binding) ||
       negb (any_nonzero spki) || negb (valid_endpoint kind value port)
    then (InvalidField, out)
    else (Ok, Some (mjoin (endpoint_layout transcript session listener kind value port binding spki)))
  end.

Definition decode_initial_endpoint_offer_plaintext_v1 (data : option bytes) (transcript session : bytes) (listener kind : Z)
    (binding spki : bytes) (out : option EndpointOfferPlaintextV1) : Status * option EndpointOfferPlaintextV1 :=
  match data, out with
  | Some b, Some _ =>
    let out := Some endpoint_offer0 in
    if zlen b <? kEndpointOfferPlaintextSizeV1 then (Truncated, out)
    else if kEndpointOfferPlaintextSizeV1 <? zlen b then (Trailing, out)
    else if negb (at_ b 0 =? 0) || negb (at_ b 1 =? 1) || negb (at_ b 88 =? BindingInitial) || negb (at_ b 89 =? u8 listener) ||
            negb (at_ b 90 =? u8 kind) || negb (bool_decide (transcript = slice b 8 32)) || negb (bool_decide (session = slice b 40 16)) ||
            negb (zeros b 56 32) || negb (zeros b 2 6) || negb (zeros b 91 5) || negb (zeros b 114 6) ||
            negb (bool_decide (binding = slice b 120 32)) || negb (bool_decide (spki = slice b 152 32))
    then (InvalidField, out)
    else
      let endpoint := slice b 96 16 in
      let port := load16 b 112 in
      if negb (valid_endpoint kind endpoint port) then (InvalidField, out)
      else (Ok, Some (mkEndpointOffer transcript session (zero_bytes 32) BindingInitial listener kind endpoint port binding spki))
  | _, _ => (InvalidField, out)
  end.

Definition offer_aad_layout (sender binding_kind : Z) (transcript session reconnect : bytes) : list bytes :=
  [kServiceUuid; [0; 2; 0; 1]; [22; u8 sender; opposite_role sender; u8 binding_kind]; transcript; session; reconnect; [0; 0; 0; 184]].

Definition build_endpoint_offer_aad_v1 (sender binding_kind : Z) (transcript session reconnect : bytes) (out : option bytes)
    : Status * option bytes :=
  match out with
  | None => (InvalidField, out)
  | Some _ =>
    if negb (valid_role sender) || (negb (binding_kind =? BindingInitial) && negb (binding_kind =? BindingNewBearerReconnect)) ||
       negb (any_nonzero transcript) || negb (any_nonzero session) ||
       (if binding_kind =? BindingInitial then any_nonzero reconnect else negb (any_nonzero reconnect))
    then (InvalidField, out)
    else (Ok, Some (mjoin (offer_aad_layout sender binding_kind transcript session reconnect)))
  end.

Record EndpointOfferEnvelopeV1 := mkOfferEnvelope { public_nonce : bytes; offer_ciphertext : bytes }.

Definition offer_envelope0 : EndpointOfferEnvelopeV1 := mkOfferEnvelope (zero_bytes 12) [].

Definition offer_envelope_layout (nonce ciphertext : bytes) : list bytes := [[1]; zero_bytes 3; nonce; ciphertext].

Definition encode_endpoint_offer_envelope_v1 (nonce : bytes) (ciphertext : option bytes) (out : option bytes) : Status * option bytes :=
  match ciphertext, out with
  | Some c, Some _ =>
    if negb (zlen c =? kEndpointOfferPlaintextSizeV1 + 16) || negb (any_nonzero nonce) then (InvalidField, out)
    else (Ok, Some (mjoin (offer_envelope_layout nonce c)))
  | _, _ => (InvalidField, out)
  end.

Definition decode_endpoint_offer_envelope_v1 (data : option bytes) (out : option EndpointOfferEnvelopeV1)
    : Status * option EndpointOfferEnvelopeV1 :=
  match data, out with
  | Some b, Some _ =>
    let out := Some offer_envelope0 in
    if zlen b <? kEndpointOfferEnvelopeSizeV1 then (Truncated, out)
    else if kEndpointOfferEnvelopeSizeV1 <? zlen b then (Trailing, out)
    else if negb (at_ b 0 =? 1) || negb (zeros b 1 3) || zeros b 4 12 then (InvalidField, out)
    else (Ok, Some (mkOfferEnvelope (slice b 4 12) (slice b 16 200)))
  | _, _ => (InvalidField, out)
  end.

(** ** Layouts *)

(** Bytes whose pieces along the sizes are the fields are the layout. *)
Lemma wire_layout wire sizes fields :
  forallb (fun n => 0 <=? n) sizes = true -> total sizes = zlen wire -> cut wire 0 sizes = fields -> wire = mjoin fields.
Proof. intros H1 H2 <-. symmetry. by apply cut_all. Qed.

Lemma zlen_zero n : 0 <= n -> zlen (zero_bytes n) = n.
Proof. intros H. unfold zlen, zero_bytes. rewrite length_replicate. lia. Qed.

Lemma zeros_of b off n : 0 <= off -> 0 <= n -> off + n <= zlen b -> zeros b off n = true <-> slice b off n = zero_bytes n.
Proof. intros. by apply zeros_spec. Qed.

Lemma load16_of b off : is_bytes b -> 0 <= off -> off + 2 <= zlen b -> be_bytes 2 (load16 b off) = slice b off 2.
Proof.
  intros Hb Ho Hl. rewrite load16_value by done. rewrite <- (be_bytes_be_value (slice b off 2)) at 2 by (by apply slice_bytes).
  f_equal. pose proof (zlen_slice b off 2 ltac:(lia) ltac:(lia) ltac:(lia)) as L. unfold zlen in L. lia.
Qed.

Lemma load32_of b off : is_bytes b -> 0 <= off -> off + 4 <= zlen b -> be_bytes 4 (load32 b off) = slice b off 4.
Proof.
  intros Hb Ho Hl. rewrite load32_value by done. rewrite <- (be_bytes_be_value (slice b off 4)) at 2 by (by apply slice_bytes).
  f_equal. pose proof (zlen_slice b off 4 ltac:(lia) ltac:(lia) ltac:(lia)) as L. unfold zlen in L. lia.
Qed.

Lemma load64_of b off : is_bytes b -> 0 <= off -> off + 8 <= zlen b -> be_bytes 8 (load64 b off) = slice b off 8.
Proof.
  intros Hb Ho Hl. rewrite load64_value by done. rewrite <- (be_bytes_be_value (slice b off 8)) at 2 by (by apply slice_bytes).
  f_equal. pose proof (zlen_slice b off 8 ltac:(lia) ltac:(lia) ltac:(lia)) as L. unfold zlen in L. lia.
Qed.

(** A byte of a piece. *)
Lemma at_piece b off n i piece : off <= i < off + n -> 0 <= off -> slice b off n = piece -> at_ b i = at_ piece (i - off).
Proof. intros Hi Ho <-. rewrite at_slice by lia. f_equal. lia. Qed.

(** Concatenations of fields of the same sizes are equal only field by field. *)
Lemma mjoin_inj (left right : list bytes) : zlen <$> left = zlen <$> right -> mjoin left = mjoin right -> left = right.
Proof.
  revert right. induction left as [|f left IH]; intros [|g right]; try done. rewrite !fmap_cons. intros [= Hl Hs].
  change (mjoin (?x :: ?y)) with (x ++ mjoin y). intros H. apply app_eq_length in H as [-> H]; [| unfold zlen in Hl; lia]. f_equal. by apply IH.
Qed.

Lemma nonzero_zeros l : zeros l 0 (zlen l) = negb (any_nonzero l).
Proof.
  apply Bool.eq_iff_eq_true. rewrite zeros_of by (pose proof (zlen_nonneg l); lia). rewrite slice_all, negb_true_iff.
  unfold any_nonzero, zero_bytes, zlen. rewrite Nat2Z.id. induction l as [|x l IH]; [done |]. cbn [length replicate existsb].
  rewrite orb_false_iff, <- IH, negb_false_iff, Z.eqb_eq. split; [by intros [= -> <-] | by intros [-> <-]].
Qed.

(** What both sides know of an offer beforehand. *)
Record offer_context (transcript session : bytes) (listener : Z) (binding spki : bytes) : Prop := {
  known_listener : valid_role listener = true;
  known_transcript : zlen transcript = 32 /\ any_nonzero transcript = true;
  known_session : zlen session = 16 /\ any_nonzero session = true;
  known_binding : zlen binding = 32 /\ any_nonzero binding = true;
  known_spki : zlen spki = 32 /\ any_nonzero spki = true;
}.

(** The offsets of a cut, computed. *)
Ltac offsets wire :=
  cbn [cut];
  repeat match goal with |- context [slice wire ?e ?n] => let v := eval vm_compute in e in progress change (slice wire e n) with (slice wire v n) end.

Ltac sizes :=
  cbn [take fmap list_fmap total]; rewrite ?zlen_cons, ?zlen_nil, ?zlen_be_bytes, ?zlen_zero by lia; lia.

Ltac at_field k := apply (slice_field _ k); [reflexivity | sizes | sizes].

(** An endpoint offer has one form. With the transcript, the session, the listener and the hashes both sides know,
    bytes are accepted exactly when they are the encoding of an endpoint of the expected kind and a port that this kind
    allows, and that endpoint is what is read. *)
Theorem endpoint_offer_exact wire transcript session listener kind binding spki before spare offer :
  is_bytes wire -> offer_context transcript session listener binding spki ->
  decode_initial_endpoint_offer_plaintext_v1 (Some wire) transcript session listener kind binding spki (Some before) = (Ok, Some offer) <->
  exists value port, zlen value = 16 /\ 0 <= port < 2 ^ 16 /\
    offer = mkEndpointOffer transcript session (zero_bytes 32) BindingInitial listener kind value port binding spki /\
    encode_initial_endpoint_offer_plaintext_v1 transcript session listener kind value port binding spki (Some spare) = (Ok, Some wire).
Proof.
  intros Hb [Hl [Lt Ht] [Ls Hs] [Lb Hbi] [Lk Hk]].
  unfold decode_initial_endpoint_offer_plaintext_v1, encode_initial_endpoint_offer_plaintext_v1. rewrite Hl, Ht, Hs, Hbi, Hk. cbn [negb orb].
  split.
  - destruct (Z.ltb_spec (zlen wire) kEndpointOfferPlaintextSizeV1); [done |].
    destruct (Z.ltb_spec kEndpointOfferPlaintextSizeV1 (zlen wire)); [done |].
    assert (zlen wire = 184) as L by (unfold kEndpointOfferPlaintextSizeV1 in *; lia). destruct (_ || _) eqn:G; [done |]. bool_hyps.
    destruct (valid_endpoint kind (slice wire 96 16) (load16 wire 112)) eqn:V; [| done]. intros [= <-].
    exists (slice wire 96 16), (load16 wire 112). rewrite V. cbn [negb].
    split_and!; [by apply zlen_slice; lia | by apply load16_bound.. | done |]. f_equal. f_equal. symmetry.
    repeat match goal with H : zeros _ _ _ = true |- _ => apply zeros_of in H; [| lia..] end.
    apply (wire_layout wire [2; 6; 32; 16; 32; 3; 5; 16; 2; 6; 32; 32]); [done | by rewrite L |].
    offsets wire. unfold endpoint_layout. rewrite load16_of by (done || lia).
    rewrite (slice_ats wire 0 2), (slice_ats wire 88 3) by lia.
    change (at_ wire <$> seqZ 0 2) with [at_ wire 0; at_ wire 1]. change (at_ wire <$> seqZ 88 3) with [at_ wire 88; at_ wire 89; at_ wire 90].
    congruence.
  - intros (value & port & Lv & Hp & -> & E). destruct (valid_endpoint kind value port) eqn:V; [| done]. cbn [negb] in E.
    assert (wire = mjoin (endpoint_layout transcript session listener kind value port binding spki)) as Ew by congruence. clear E.
    assert (zlen wire = 184) as L by (rewrite Ew, zlen_mjoin; cbn [endpoint_layout fmap list_fmap total]; rewrite Lt, Ls, Lv, Lb, Lk; done).
    unfold endpoint_layout in Ew. rewrite L. cbn [Z.ltb Z.compare kEndpointOfferPlaintextSizeV1 Pos.compare Pos.compare_cont].
    assert (slice wire 8 32 = transcript) as -> by (rewrite Ew; at_field 2%nat).
    assert (slice wire 40 16 = session) as -> by (rewrite Ew; at_field 3%nat).
    assert (slice wire 120 32 = binding) as -> by (rewrite Ew; at_field 10%nat).
    assert (slice wire 152 32 = spki) as -> by (rewrite Ew; at_field 11%nat).
    assert (slice wire 96 16 = value) as -> by (rewrite Ew; at_field 7%nat).
    assert (slice wire 88 3 = [BindingInitial; u8 listener; u8 kind]) as S by (rewrite Ew; at_field 5%nat).
    assert (slice wire 0 2 = [0; 1]) as S0 by (rewrite Ew; at_field 0%nat).
    assert (zeros wire 56 32 = true) as -> by (apply zeros_of; [lia.. | rewrite Ew; at_field 4%nat]).
    assert (zeros wire 2 6 = true) as -> by (apply zeros_of; [lia.. | rewrite Ew; at_field 1%nat]).
    assert (zeros wire 91 5 = true) as -> by (apply zeros_of; [lia.. | rewrite Ew; at_field 6%nat]).
    assert (zeros wire 114 6 = true) as -> by (apply zeros_of; [lia.. | rewrite Ew; at_field 9%nat]).
    assert (load16 wire 112 = port) as -> by (rewrite Ew; apply (load16_field _ 8 (be_bytes 2 port)); [reflexivity | sizes | done | done]).
    rewrite (at_piece wire 0 2 0 _ ltac:(lia) ltac:(lia) S0), (at_piece wire 0 2 1 _ ltac:(lia) ltac:(lia) S0), (at_piece wire 88 3 88 _ ltac:(lia) ltac:(lia) S),
      (at_piece wire 88 3 89 _ ltac:(lia) ltac:(lia) S), (at_piece wire 88 3 90 _ ltac:(lia) ltac:(lia) S).
    rewrite !bool_decide_true, V by done. cbn. rewrite !Z.eqb_refl. done.
Qed.

Definition demo_spki : bytes := replicate 32 9.
Definition demo_address : bytes := zero_bytes 12 ++ [192; 168; 1; 7].
Definition demo_offer_wire : bytes :=
  mjoin (endpoint_layout (replicate 32 5) (replicate 16 6) Responder Ipv4 demo_address 50000 (replicate 32 8) demo_spki).

Lemma endpoint_offer_exact_witness :
  decode_initial_endpoint_offer_plaintext_v1 (Some demo_offer_wire) (replicate 32 5) (replicate 16 6) Responder Ipv4 (replicate 32 8) demo_spki
    (Some endpoint_offer0) =
  (Ok, Some (mkEndpointOffer (replicate 32 5) (replicate 16 6) (zero_bytes 32) BindingInitial Responder Ipv4 demo_address 50000 (replicate 32 8) demo_spki)).
Proof.
  apply (endpoint_offer_exact demo_offer_wire _ _ _ _ _ _ _ (zero_bytes 184)).
  - apply is_bytes_compute. by vm_compute.
  - by split.
  - exists demo_address, 50000. split_and!; try done; by vm_compute.
Defined.

(** ** Join parameters and credentials *)

(** What makes a plan one that can be joined. *)
Definition joinable (plan : bytes) : Prop :=
  zlen plan = 48 /\ validate_bearer_plan_v1 plan (if at_ plan 4 =? 3 then 3 else 1) = Ok.

Lemma credential_length codec credential : validate_bearer_credential_v1 codec (Some credential) = Ok -> zlen credential = 100.
Proof.
  unfold validate_bearer_credential_v1, kBearerCredentialBytesSizeV1. destruct (Z.ltb_spec (zlen credential) 100); [done |].
  destruct (Z.ltb_spec 100 (zlen credential)); [done |]. lia.
Qed.

(** The join parameters have one form: for a plan that can be joined, bytes are accepted exactly when they are the
    encoding of a duration of at most a minute and a credential that is well formed in the plan's codec, and what is read
    is these with the plan's own kind, roles and codec. *)
Theorem join_params_exact wire plan before spare j :
  is_bytes wire -> joinable plan ->
  decode_bearer_join_params_v1 (Some wire) plan (Some before) = (Ok, Some j) <->
  j = mkJoin (at_ plan 0) (at_ plan 1) (at_ plan 2) (at_ plan 3) (valid_for_ms j) (credential j) /\ 0 <= valid_for_ms j /\
  encode_bearer_join_params_v1 plan (valid_for_ms j) (credential j) (Some spare) = (Ok, Some wire).
Proof.
  intros Hb [Lp Hplan]. unfold decode_bearer_join_params_v1, encode_bearer_join_params_v1. cbv zeta. rewrite Hplan, (bool_decide_true (Ok = Ok)) by done.
  cbn [negb]. rewrite orb_false_r. split.
  - destruct (Z.ltb_spec (zlen wire) kBearerJoinParamsSizeV1); [done |]. destruct (Z.ltb_spec kBearerJoinParamsSizeV1 (zlen wire)); [done |].
    assert (zlen wire = 536) as L by (unfold kBearerJoinParamsSizeV1 in *; lia). destruct (negb (at_ wire 0 =? 0) || _) eqn:G1; [done |].
    destruct (_ || negb (zeros wire 124 412)) eqn:G2; [done |]. destruct (negb (bool_decide (slice plan 0 4 = _))) eqn:G3; [done |].
    destruct (_ || negb (bool_decide (validate_bearer_credential_v1 _ _ = Ok))) eqn:G4; [done |]. bool_hyps. intros [= <-]. cbn [valid_for_ms credential].
    match goal with H : slice plan 0 4 = slice wire 8 4 |- _ => rename H into Hp end.
    assert (forall i, 0 <= i < 4 -> at_ wire (8 + i) = at_ plan i) as Hat.
    { intros i Hi. rewrite <- (at_slice wire 8 4 i), <- Hp, at_slice by lia. done. }
    assert (at_ wire 8 = at_ plan 0) as A0 by exact (Hat 0 ltac:(lia)). assert (at_ wire 9 = at_ plan 1) as A1 by exact (Hat 1 ltac:(lia)).
    assert (at_ wire 10 = at_ plan 2) as A2 by exact (Hat 2 ltac:(lia)). assert (at_ wire 11 = at_ plan 3) as A3 by exact (Hat 3 ltac:(lia)).
    rewrite A0, A1, A2, A3.
    match goal with H : validate_bearer_credential_v1 _ _ = Ok |- _ => rewrite A3 in H; rename H into Hc end.
    split; [done |]. split; [apply load32_bound; done |].
    rewrite bool_decide_true by exact Hc. replace (_ || _ || _) with false by lia. f_equal. f_equal. symmetry.
    repeat match goal with H : zeros _ _ _ = true |- _ => apply zeros_of in H; [| lia..] end.
    apply (wire_layout wire [2; 6; 4; 4; 4; 2; 2; 100; 412]); [done | by rewrite L |]. offsets wire. unfold join_layout.
    rewrite (load32_of wire 16) by (done || lia).
    match goal with H : load16 wire 20 = 100 |- _ => rewrite <- H end. rewrite (load16_of wire 20) by (done || lia).
    rewrite (slice_ats wire 0 2) by lia. change (at_ wire <$> seqZ 0 2) with [at_ wire 0; at_ wire 1]. congruence.
  - intros (Ej & Hv & E). destruct (_ || negb (bool_decide (validate_bearer_credential_v1 _ _ = Ok))) eqn:G; [done |]. bool_hyps.
    match goal with H : validate_bearer_credential_v1 _ _ = Ok |- _ => rename H into Hc end. pose proof (credential_length _ _ Hc) as Lc.
    assert (wire = mjoin (join_layout plan (valid_for_ms j) (credential j))) as Ew by congruence. clear E.
    assert (zlen (slice plan 0 4) = 4) as L4 by (apply zlen_slice; lia).
    assert (zlen wire = 536) as L.
    { rewrite Ew, zlen_mjoin. unfold join_layout. cbn [fmap list_fmap total]. rewrite L4, Lc, !zlen_be_bytes. done. }
    unfold join_layout in Ew. rewrite L. cbn [Z.ltb Z.compare kBearerJoinParamsSizeV1 Pos.compare Pos.compare_cont].
    assert (slice wire 0 2 = [0; 1]) as S0 by (rewrite Ew; at_field 0%nat).
    assert (slice wire 8 4 = slice plan 0 4) as S8 by (rewrite Ew; at_field 2%nat).
    assert (slice wire 24 100 = credential j) as S24 by (rewrite Ew; at_field 7%nat).
    assert (zeros wire 2 6 = true) as -> by (apply zeros_of; [lia.. | rewrite Ew; at_field 1%nat]).
    assert (zeros wire 12 4 = true) as -> by (apply zeros_of; [lia.. | rewrite Ew; at_field 3%nat]).
    assert (zeros wire 22 2 = true) as -> by (apply zeros_of; [lia.. | rewrite Ew; at_field 6%nat]).
    assert (zeros wire 124 412 = true) as -> by (apply zeros_of; [lia.. | rewrite Ew; at_field 8%nat]).
    assert (load16 wire 20 = 100) as -> by (rewrite Ew; apply (load16_field _ 5 (be_bytes 2 100)); [reflexivity | sizes | done | done]).
    assert (load32 wire 16 = valid_for_ms j) as ->
      by (rewrite Ew; apply (load32_field _ 4 (be_bytes 4 (valid_for_ms j))); [reflexivity | sizes | done | lia]).
    assert (forall i, 0 <= i < 4 -> at_ wire (8 + i) = at_ plan i) as Hat.
    { intros i Hi. rewrite <- (at_slice wire 8 4 i), S8, at_slice by lia. done. }
    assert (at_ wire 8 = at_ plan 0) as A0 by exact (Hat 0 ltac:(lia)). assert (at_ wire 9 = at_ plan 1) as A1 by exact (Hat 1 ltac:(lia)).
    assert (at_ wire 10 = at_ plan 2) as A2 by exact (Hat 2 ltac:(lia)). assert (at_ wire 11 = at_ plan 3) as A3 by exact (Hat 3 ltac:(lia)).
   
    rewrite (at_piece wire 0 2 0 _ ltac:(lia) ltac:(lia) S0), (at_piece wire 0 2 1 _ ltac:(lia) ltac:(lia) S0), S8, S24, A0, A1, A2, A3.
    change (at_ [0; 1] (0 - 0)) with 0. change (at_ [0; 1] (1 - 0)) with 1. rewrite !bool_decide_true by done.
    replace ((valid_for_ms j =? 0) || (60000 <? valid_for_ms j)) with false by lia. by rewrite <- Ej.
Qed.

(** A plan for a Wi-Fi network with a passphrase, and a credential for it. *)
Definition demo_plan_bytes : bytes := [4; 1; 2; 1; 1; 0; 30; 0] ++ [0; 0; 0; 1] ++ replicate 32 3 ++ zero_bytes 4.
Definition demo_credential : bytes :=
  [1; 1; 4; 8] ++ ascii_bytes "game" ++ zero_bytes 28 ++ ascii_bytes "hunter22" ++ zero_bytes 56.
Definition demo_join_wire : bytes := mjoin (join_layout demo_plan_bytes 60000 demo_credential).

Lemma join_params_exact_witness :
  decode_bearer_join_params_v1 (Some demo_join_wire) demo_plan_bytes (Some join0) = (Ok, Some (mkJoin 4 1 2 1 60000 demo_credential)).
Proof.
  apply (join_params_exact demo_join_wire demo_plan_bytes join0 (zero_bytes 536)).
  - apply is_bytes_compute. by vm_compute.
  - by split; vm_compute.
  - split_and!; [done | done | by vm_compute].
Defined.

Lemma decode_join_out data plan before : (decode_bearer_join_params_v1 data plan (Some before)).2 <> None.
Proof.
  unfold decode_bearer_join_params_v1. destruct data; [| done]. repeat (destruct (_ <? _); [done |]). repeat (destruct (_ || _); [done |]).
  destruct (negb _); [done |]. by destruct (_ || _).
Qed.

(** The credentials in their frame: with the transcript and session both sides know and a sender who creates the bearer
    of the plan, bytes are accepted exactly when they are the encoding of join parameters that are accepted, and what is
    read is what these say. *)
Theorem credentials_exact wire transcript session sender plan before spare p :
  is_bytes wire -> valid_role sender = true -> sender = at_ plan 1 -> zlen transcript = 32 -> any_nonzero transcript = true ->
  zlen session = 16 -> any_nonzero session = true ->
  decode_initial_bearer_credential_plaintext_v1 (Some wire) transcript session sender plan (Some before) = (Ok, Some p) <->
  exists params, decode_bearer_join_params_v1 (Some params) plan (Some join0) = (Ok, Some (join p)) /\
    p = mkCredentialPlaintext transcript session sender (opposite_role sender) (join p) /\
    encode_initial_bearer_credential_plaintext_v1 transcript session sender plan params (Some spare) = (Ok, Some wire).
Proof.
  intros Hb Hr Hs Lt Ht Ls Hss. unfold decode_initial_bearer_credential_plaintext_v1, encode_initial_bearer_credential_plaintext_v1.
  rewrite Hr, Ht, Hss, <- Hs, Z.eqb_refl. cbn [negb orb]. split.
  - destruct (Z.ltb_spec (zlen wire) kInitialBearerCredentialPlaintextSizeV1); [done |].
    destruct (Z.ltb_spec kInitialBearerCredentialPlaintextSizeV1 (zlen wire)); [done |].
    assert (zlen wire = 600) as L by (unfold kInitialBearerCredentialPlaintextSizeV1 in *; lia).
    destruct (negb (at_ wire 0 =? 0) || _) eqn:G1; [done |]. destruct (negb (zeros wire 2 6) || _) eqn:G2; [done |].
    destruct (_ || negb (bool_decide (session = _))) eqn:G3; [done |]. bool_hyps.
    destruct (decode_bearer_join_params_v1 (Some (slice wire 64 536)) plan (Some join0)) as [status [j|]] eqn:D;
      [| by apply (f_equal snd) in D; apply decode_join_out in D]. cbn [default].
    destruct (bool_decide_reflect (status = Ok)) as [-> |]; [| done]. cbn [negb]. intros [= <-]. cbn [join].
    exists (slice wire 64 536). split; [exact D |]. split; [done |]. rewrite D. cbn [fst].
    rewrite bool_decide_true by done. cbn [negb]. f_equal. f_equal. symmetry.
    repeat match goal with H : zeros _ _ _ = true |- _ => apply zeros_of in H; [| lia..] end.
    apply (wire_layout wire [2; 6; 32; 16; 2; 6; 536]); [done | by rewrite L |]. offsets wire. unfold credential_layout.
    rewrite (slice_ats wire 0 2), (slice_ats wire 56 2) by lia.
    change (at_ wire <$> seqZ 0 2) with [at_ wire 0; at_ wire 1]. change (at_ wire <$> seqZ 56 2) with [at_ wire 56; at_ wire 57]. congruence.
  - intros (params & D & Ep & E). rewrite D in E. cbn [fst] in E. rewrite bool_decide_true in E by done. cbn [negb] in E.
    assert (wire = mjoin (credential_layout transcript session sender params)) as Ew by congruence. clear E.
    assert (zlen params = 536) as Lp.
    { unfold decode_bearer_join_params_v1 in D. destruct (Z.ltb_spec (zlen params) kBearerJoinParamsSizeV1); [done |].
      destruct (Z.ltb_spec kBearerJoinParamsSizeV1 (zlen params)); [done |]. unfold kBearerJoinParamsSizeV1 in *. lia. }
    assert (zlen wire = 600) as L.
    { rewrite Ew, zlen_mjoin. unfold credential_layout. cbn [fmap list_fmap total]. rewrite Lt, Ls, Lp. done. }
    unfold credential_layout in Ew. rewrite L. cbn [Z.ltb Z.compare kInitialBearerCredentialPlaintextSizeV1 Pos.compare Pos.compare_cont].
    assert (slice wire 0 2 = [0; 1]) as S0 by (rewrite Ew; at_field 0%nat).
    assert (slice wire 56 2 = [u8 sender; opposite_role sender]) as S56 by (rewrite Ew; at_field 4%nat).
    assert (slice wire 8 32 = transcript) as -> by (rewrite Ew; at_field 2%nat).
    assert (slice wire 40 16 = session) as -> by (rewrite Ew; at_field 3%nat).
    assert (slice wire 64 536 = params) as -> by (rewrite Ew; at_field 6%nat).
    assert (zeros wire 2 6 = true) as -> by (apply zeros_of; [lia.. | rewrite Ew; at_field 1%nat]).
    assert (zeros wire 58 6 = true) as -> by (apply zeros_of; [lia.. | rewrite Ew; at_field 5%nat]).
    rewrite (at_piece wire 0 2 0 _ ltac:(lia) ltac:(lia) S0), (at_piece wire 0 2 1 _ ltac:(lia) ltac:(lia) S0),
      (at_piece wire 56 2 56 _ ltac:(lia) ltac:(lia) S56), (at_piece wire 56 2 57 _ ltac:(lia) ltac:(lia) S56).
    change (at_ [0; 1] (0 - 0)) with 0. change (at_ [0; 1] (1 - 0)) with 1.
    change (at_ [u8 sender; opposite_role sender] (56 - 56)) with (u8 sender).
    change (at_ [u8 sender; opposite_role sender] (57 - 56)) with (opposite_role sender).
    rewrite !Z.eqb_refl, !bool_decide_true by done. cbn [negb orb]. rewrite D. cbn [default]. rewrite bool_decide_true by done. cbn [negb]. unfold id. by rewrite <- Ep.
Qed.

Lemma credentials_exact_witness :
  decode_initial_bearer_credential_plaintext_v1
    (Some (mjoin (credential_layout (replicate 32 5) (replicate 16 6) Initiator demo_join_wire))) (replicate 32 5) (replicate 16 6) Initiator
    demo_plan_bytes (Some credential_plaintext0) =
  (Ok, Some (mkCredentialPlaintext (replicate 32 5) (replicate 16 6) Initiator Responder (mkJoin 4 1 2 1 60000 demo_credential))).
Proof.
  apply (credentials_exact _ (replicate 32 5) (replicate 16 6) Initiator demo_plan_bytes _ (zero_bytes 600)); try done.
  - apply is_bytes_compute. by vm_compute.
  - exists demo_join_wire. split_and!; [by vm_compute | done | by vm_compute].
Defined.

(** ** Nonces and associated data *)

(** A nonce of the credentials is used for one message only: it determines the sender and the counter. *)
Theorem credential_nonces_differ sender1 counter1 out1 sender2 counter2 out2 nonce :
  0 <= counter1 < 2 ^ 64 -> 0 <= counter2 < 2 ^ 64 ->
  build_initial_bearer_credential_nonce_v1 sender1 counter1 out1 = (Ok, Some nonce) ->
  build_initial_bearer_credential_nonce_v1 sender2 counter2 out2 = (Ok, Some nonce) ->
  sender1 = sender2 /\ counter1 = counter2.
Proof.
  unfold build_initial_bearer_credential_nonce_v1. intros H1 H2. destruct out1; [| done]. destruct out2; [| done].
  destruct (negb (valid_role sender1) || _) eqn:G1; [done |]. destruct (negb (valid_role sender2) || _) eqn:G2; [done |]. intros E1 E2.
  assert (be_bytes 4 (if sender1 =? Initiator then 0x49325201 else 0x52324901) ++ be_bytes 8 counter1 =
          be_bytes 4 (if sender2 =? Initiator then 0x49325201 else 0x52324901) ++ be_bytes 8 counter2) as E by congruence. clear E1 E2.
  apply app_eq_length in E as [Ep Ec]; [| by rewrite !length_be_bytes].
  apply be_bytes_inj in Ec; [| done..]. split; [| done].
  unfold valid_role, Initiator, Responder in *. destruct (Z.eqb_spec sender1 1), (Z.eqb_spec sender2 1); try lia; by vm_compute in Ep.
Qed.

Lemma credential_nonces_differ_witness :
  exists nonce, build_initial_bearer_credential_nonce_v1 Responder 7 (Some []) = (Ok, Some nonce) /\ Responder = Responder /\ 7 = 7.
Proof.
  eexists. split; [by vm_compute |]. eapply (credential_nonces_differ Responder 7 (Some []) Responder 7 (Some [])); [done | done | by vm_compute..].
Defined.

(** The associated data of a sealed record names its context: credentials and offers have different ones, and each
    determines who sent it, in which transcript and session, and its counter or what its endpoint is bound to. *)
Theorem associated_data_names_context aad :
  (forall s1 t1 i1 c1 o1 s2 t2 i2 c2 o2,
     zlen t1 = 32 -> zlen i1 = 16 -> 0 <= c1 < 2 ^ 64 -> zlen t2 = 32 -> zlen i2 = 16 -> 0 <= c2 < 2 ^ 64 ->
     build_initial_bearer_credential_aad_v1 s1 t1 i1 c1 o1 = (Ok, Some aad) -> build_initial_bearer_credential_aad_v1 s2 t2 i2 c2 o2 = (Ok, Some aad) ->
     s1 = s2 /\ t1 = t2 /\ i1 = i2 /\ c1 = c2) /\
  (forall s1 k1 t1 i1 r1 o1 s2 k2 t2 i2 r2 o2,
     zlen t1 = 32 -> zlen i1 = 16 -> zlen r1 = 32 -> zlen t2 = 32 -> zlen i2 = 16 -> zlen r2 = 32 ->
     build_endpoint_offer_aad_v1 s1 k1 t1 i1 r1 o1 = (Ok, Some aad) -> build_endpoint_offer_aad_v1 s2 k2 t2 i2 r2 o2 = (Ok, Some aad) ->
     s1 = s2 /\ k1 = k2 /\ t1 = t2 /\ i1 = i2 /\ r1 = r2) /\
  (forall s1 t1 i1 c1 o1 s2 k2 t2 i2 r2 o2,
     build_initial_bearer_credential_aad_v1 s1 t1 i1 c1 o1 = (Ok, Some aad) -> build_endpoint_offer_aad_v1 s2 k2 t2 i2 r2 o2 <> (Ok, Some aad)).
Proof.
  assert (forall s s', valid_role s = true -> valid_role s' = true -> u8 s = u8 s' -> s = s') as Hrole.
  { unfold valid_role, Initiator, Responder, u8. intros s s' ? ? E. assert (s = 1 \/ s = 2) as [-> | ->] by lia; assert (s' = 1 \/ s' = 2) as [-> | ->] by lia; done. }
  unfold build_initial_bearer_credential_aad_v1, build_endpoint_offer_aad_v1. split_and!.
  - intros s1 t1 i1 c1 [o1|] s2 t2 i2 c2 [o2|] Lt1 Li1 Hc1 Lt2 Li2 Hc2; try done.
    destruct (_ || negb (any_nonzero i1)) eqn:G1; [done |]. destruct (_ || negb (any_nonzero i2)) eqn:G2; [done |]. bool_hyps. intros E1 E2.
    assert (credential_aad_layout s1 t1 i1 c1 = credential_aad_layout s2 t2 i2 c2) as E.
    { apply mjoin_inj; [| congruence]. unfold credential_aad_layout. cbn [fmap list_fmap]. rewrite Lt1, Li1, Lt2, Li2, !zlen_be_bytes. done. }
    pose proof (f_equal (fun l => at_ (nth 2 l []) 1) E) as Es. pose proof (f_equal (fun l => nth 3 l []) E) as Et.
    pose proof (f_equal (fun l => nth 4 l []) E) as Ei. pose proof (f_equal (fun l => nth 5 l []) E) as Ec.
    split_and!; [by apply Hrole | exact Et | exact Ei |]. by apply (be_bytes_inj 8).
  - intros s1 k1 t1 i1 r1 [o1|] s2 k2 t2 i2 r2 [o2|] Lt1 Li1 Lr1 Lt2 Li2 Lr2; try done.
    destruct (_ || (if k1 =? BindingInitial then _ else _)) eqn:G1; [done |]. destruct (_ || (if k2 =? BindingInitial then _ else _)) eqn:G2; [done |]. intros E1 E2.
    assert (offer_aad_layout s1 k1 t1 i1 r1 = offer_aad_layout s2 k2 t2 i2 r2) as E.
    { apply mjoin_inj; [| congruence]. unfold offer_aad_layout. cbn [fmap list_fmap]. rewrite Lt1, Li1, Lr1, Lt2, Li2, Lr2. done. }
    unfold offer_aad_layout in E. injection E as Es _ Ek -> -> ->.
    apply orb_false_iff in G1 as [G1 _], G2 as [G2 _]. bool_hyps. split_and!; try done; [by apply Hrole |].
    unfold BindingInitial, BindingNewBearerReconnect, u8 in *.
    assert (k1 = 1 \/ k1 = 3) as [-> | ->] by lia; assert (k2 = 1 \/ k2 = 3) as [-> | ->] by lia; done.
  - intros s1 t1 i1 c1 [o1|] s2 k2 t2 i2 r2 [o2|]; try done.
    destruct (_ || negb (any_nonzero i1)) eqn:G1; [done |]. destruct (_ || (if k2 =? BindingInitial then _ else _)) eqn:G2; [done |]. intros E1 E2.
    assert (mjoin (credential_aad_layout s1 t1 i1 c1) = mjoin (offer_aad_layout s2 k2 t2 i2 r2)) as E by congruence.
    apply (f_equal (fun l => take 4 (drop 16 l))) in E. by vm_compute in E.
Qed.

Lemma associated_data_names_context_witness :
  exists aad, build_initial_bearer_credential_aad_v1 Initiator (replicate 32 5) (replicate 16 6) 1 (Some []) = (Ok, Some aad) /\
    build_endpoint_offer_aad_v1 Responder BindingInitial (replicate 32 5) (replicate 16 6) (zero_bytes 32) (Some []) <> (Ok, Some aad).
Proof.
  eexists. split; [by vm_compute |].
  eapply (proj2 (proj2 (associated_data_names_context _)) Initiator (replicate 32 5) (replicate 16 6) 1 (Some [])). by vm_compute.
Defined.

(** ** Envelopes *)

(** Both envelopes have one form: bytes are opened exactly when they are the envelope of a counter or a nonce that is
    not zero and of a sealed record of the right size. *)
Theorem envelopes_exact wire before1 spare1 envelope1 before2 spare2 envelope2 :
  is_bytes wire ->
  (decode_initial_bearer_credential_envelope_v1 (Some wire) (Some before1) = (Ok, Some envelope1) <->
   0 <= message_counter envelope1 < 2 ^ 64 /\
   encode_initial_bearer_credential_envelope_v1 (message_counter envelope1) (Some (ciphertext_and_tag envelope1)) (Some spare1) = (Ok, Some wire)) /\
  (decode_endpoint_offer_envelope_v1 (Some wire) (Some before2) = (Ok, Some envelope2) <->
   zlen (public_nonce envelope2) = 12 /\
   encode_endpoint_offer_envelope_v1 (public_nonce envelope2) (Some (offer_ciphertext envelope2)) (Some spare2) = (Ok, Some wire)).
Proof.
  intros Hb. split.
  - unfold decode_initial_bearer_credential_envelope_v1, encode_initial_bearer_credential_envelope_v1. cbv zeta. split.
    + destruct (Z.ltb_spec (zlen wire) kInitialBearerCredentialEnvelopeSizeV1); [done |].
      destruct (Z.ltb_spec kInitialBearerCredentialEnvelopeSizeV1 (zlen wire)); [done |].
      assert (zlen wire = 628) as L by (unfold kInitialBearerCredentialEnvelopeSizeV1 in *; lia).
      destruct (_ || _) eqn:G; [by destruct (negb _) |]. destruct (load64 wire 4 =? 0) eqn:C; [done |]. bool_hyps. intros [= <-].
      cbn [message_counter ciphertext_and_tag]. rewrite (proj2 (Z.eqb_neq _ _) C), zlen_slice by lia. split.
      { rewrite load64_value by lia. pose proof (be_value_bound (slice wire 4 8) (slice_bytes _ _ _ Hb)) as B. rewrite zlen_slice in B by lia. exact B. }
      cbn [Z.eqb Pos.eqb negb orb]. f_equal. f_equal. symmetry. match goal with H : zeros _ _ _ = true |- _ => apply zeros_of in H; [| lia..] end.
      apply (wire_layout wire [1; 3; 8; 616]); [done | by rewrite L |]. offsets wire. unfold credential_envelope_layout.
      rewrite (load64_of wire 4) by (done || lia). rewrite (slice_ats wire 0 1) by lia. change (at_ wire <$> seqZ 0 1) with [at_ wire 0]. congruence.
    + destruct envelope1 as [counter c]. cbn [message_counter ciphertext_and_tag]. intros [Hc E]. destruct (_ || _) eqn:G; [done |]. bool_hyps.
      assert (wire = mjoin (credential_envelope_layout counter c)) as Ew by congruence. clear E.
      assert (zlen wire = 628) as L by (rewrite Ew, zlen_mjoin; unfold credential_envelope_layout; sizes).
      unfold credential_envelope_layout in Ew. rewrite L. cbn [Z.ltb Z.compare kInitialBearerCredentialEnvelopeSizeV1 Pos.compare Pos.compare_cont].
      assert (at_ wire 0 = 1) as -> by (by rewrite Ew).
      assert (zeros wire 1 3 = true) as -> by (apply zeros_of; [lia.. | rewrite Ew; at_field 1%nat]).
      assert (slice wire 12 616 = c) as -> by (rewrite Ew; at_field 3%nat).
      assert (load64 wire 4 = counter) as ->.
      { rewrite load64_value by lia. assert (slice wire 4 8 = be_bytes 8 counter) as -> by (rewrite Ew; at_field 2%nat). by apply be_value_be_bytes_small. }
      cbn [Z.eqb Pos.eqb negb orb]. by destruct (Z.eqb_spec counter 0).
  - unfold decode_endpoint_offer_envelope_v1, encode_endpoint_offer_envelope_v1. cbv zeta. split.
    + destruct (Z.ltb_spec (zlen wire) kEndpointOfferEnvelopeSizeV1); [done |]. destruct (Z.ltb_spec kEndpointOfferEnvelopeSizeV1 (zlen wire)); [done |].
      assert (zlen wire = 216) as L by (unfold kEndpointOfferEnvelopeSizeV1 in *; lia).
      destruct (_ || _) eqn:G; [done |]. bool_hyps. intros [= <-]. cbn [public_nonce offer_ciphertext]. rewrite !zlen_slice by lia. split; [done |].
      rewrite zeros_slice in * by lia. match goal with H : zeros (slice wire 4 12) 0 12 = false |- _ => rename H into Hz end.
      assert (any_nonzero (slice wire 4 12) = true) as ->.
      { rewrite <- (negb_involutive (any_nonzero _)), <- nonzero_zeros, zlen_slice by lia. by rewrite Hz. }
      cbn [Z.eqb Pos.eqb Z.add Pos.add kEndpointOfferPlaintextSizeV1 negb orb]. change (200 =? 200) with true. f_equal. f_equal. symmetry.
      match goal with H : zeros (slice wire 1 3) _ _ = true |- _ => rewrite <- zeros_slice in H by lia; apply zeros_of in H; [| lia..] end.
      apply (wire_layout wire [1; 3; 12; 200]); [done | by rewrite L |]. offsets wire. unfold offer_envelope_layout.
      rewrite (slice_ats wire 0 1) by lia. change (at_ wire <$> seqZ 0 1) with [at_ wire 0]. congruence.
    + destruct envelope2 as [nonce c]. cbn [public_nonce offer_ciphertext]. intros [Ln E]. destruct (_ || _) eqn:G; [done |]. bool_hyps.
      assert (wire = mjoin (offer_envelope_layout nonce c)) as Ew by congruence. clear E. unfold kEndpointOfferPlaintextSizeV1 in *.
      assert (zlen wire = 216) as L by (rewrite Ew, zlen_mjoin; unfold offer_envelope_layout; sizes).
      unfold offer_envelope_layout in Ew. rewrite L. cbn [Z.ltb Z.compare kEndpointOfferEnvelopeSizeV1 Pos.compare Pos.compare_cont].
      assert (at_ wire 0 = 1) as -> by (by rewrite Ew).
      assert (zeros wire 1 3 = true) as -> by (apply zeros_of; [lia.. | rewrite Ew; at_field 1%nat]).
      rewrite (zeros_slice wire 4 12) by lia.
      assert (slice wire 4 12 = nonce) as -> by (rewrite Ew; at_field 2%nat).
      assert (slice wire 16 200 = c) as -> by (rewrite Ew; at_field 3%nat).
      assert (zeros nonce 0 12 = false) as -> by (rewrite <- Ln, nonzero_zeros; by apply negb_false_iff). done.
Qed.

Definition demo_envelope_wire : bytes := mjoin (offer_envelope_layout (replicate 12 3) (replicate 200 7)).

Lemma envelopes_exact_witness :
  decode_endpoint_offer_envelope_v1 (Some demo_envelope_wire) (Some offer_envelope0) = (Ok, Some (mkOfferEnvelope (replicate 12 3) (replicate 200 7))).
Proof.
  refine (proj2 (proj2 (envelopes_exact demo_envelope_wire credential_envelope0 [] credential_envelope0 offer_envelope0 (zero_bytes 216) _ _)) _).
  - apply is_bytes_compute. by vm_compute.
  - split; [done | by vm_compute].
Defined.
