(* ===== verification/ChannelBind.v ===== *)
(** * Channel binding ([shared/src/session/wire/channel_bind.cpp])

    How both ends prove, over the QUIC connection, that it is the one their pairing set up: the bind names transcript,
    session and channel, each end proves it with its role and both identities, and the acknowledgement carries the
    hashes of the two proofs. The messages to be authenticated are built here; the HMAC is the provider's.

    [None] for a pointer is the null pointer. *)

From S2P Require Import Prelude Sha256 P256 SessionCodec PairHandshake PairAuth PairCapability QuicContract BearerRecords.

Definition kChannelBindSizeV1 : Z := 136.
Definition kChannelBindProofBodySizeV1 : Z := 216.
Definition kChannelBindProofSizeV1 : Z := 248.
Definition kChannelBindAckBodySizeV1 : Z := 96.
Definition kChannelBindAckSizeV1 : Z := 128.

(** [identity_key_id_v1] of [pair_secure.cpp]: the identifier of a key that is a point. *)
Definition identity_key_id_v1 (public_key : bytes) (validate_point : P256PointValidatorV1) (out : option bytes) : Status * option bytes :=
  match out, validate_point with
  | Some _, Some valid =>
    if negb (at_ public_key 0 =? 4) || negb (valid public_key) then (InvalidField, out)
    else (Ok, Some (domain_hash "flynes-identity-key-id-v1" public_key))
  | _, _ => (InvalidField, out)
  end.

Definition build_hmac_input (domain body exporter : bytes) (out : option bytes) : Status * option bytes :=
  match out with
  | None => (InvalidField, out)
  | Some _ => if negb (any_nonzero exporter) then (InvalidField, out) else (Ok, Some (domain ++ be_bytes 4 (zlen body) ++ body ++ exporter))
  end.

(** ** The bind *)

Definition bind_digest (transcript : bytes) : bytes := sha256 (ascii_bytes "flynes-initial-bind-v1" ++ transcript).

Definition bind_layout (transcript session channel_id : bytes) : list bytes :=
  [[0; 1]; zero_bytes 6; [1]; zero_bytes 7; transcript; session; zero_bytes 40; channel_id; slice (bind_digest transcript) 0 16].

Definition encode_initial_channel_bind_v1 (transcript session channel_id : bytes) (out : option bytes) : Status * option bytes :=
  match out with
  | None => (InvalidField, out)
  | Some _ =>
    if negb (any_nonzero transcript) || negb (any_nonzero session) || negb (any_nonzero channel_id) then (InvalidField, out)
    else (Ok, Some (mjoin (bind_layout transcript session channel_id)))
  end.

Definition decode_initial_channel_bind_v1 (data : option bytes) (transcript session channel_id : bytes) : Status :=
  match data with
  | None => InvalidField
  | Some b =>
    if zlen b <? kChannelBindSizeV1 then Truncated
    else if kChannelBindSizeV1 <? zlen b then Trailing
    else
      match encode_initial_channel_bind_v1 transcript session channel_id (Some (zero_bytes 136)) with
      | (Ok, Some expected) => if bool_decide (expected = b) then Ok else InvalidField
      | _ => InvalidField
      end
  end.

(** ** The proofs *)

Definition proof_body_layout (bind : bytes) (sender : Z) (sender_id receiver_id : bytes) : list bytes :=
  [[0; 1]; zero_bytes 6; bind; [u8 sender; opposite_role sender]; zero_bytes 6; sender_id; receiver_id].

Definition encode_channel_bind_proof_body_v1 (bind : bytes) (sender : Z) (sender_public_key receiver_public_key : bytes) (out : option bytes)
    : Status * option bytes :=
  match out with
  | None => (InvalidField, out)
  | Some _ =>
    if negb (valid_role sender) then (InvalidField, out)
    else
      match identity_key_id_v1 sender_public_key (Some validate_p256_uncompressed_point) (Some (zero_bytes 32)),
            identity_key_id_v1 receiver_public_key (Some validate_p256_uncompressed_point) (Some (zero_bytes 32)) with
      | (Ok, Some sender_id), (Ok, Some receiver_id) => (Ok, Some (mjoin (proof_body_layout bind sender sender_id receiver_id)))
      | _, _ => (InvalidField, out)
      end
  end.

Definition build_channel_bind_proof_hmac_input_v1 (body : option bytes) (exporter : bytes) (out : option bytes) : Status * option bytes :=
  match body with
  | None => (InvalidField, out)
  | Some b =>
    if negb (zlen b =? kChannelBindProofBodySizeV1) then (InvalidField, out)
    else build_hmac_input (ascii_bytes "flynes-channel-bind-proof-v1") b exporter out
  end.

Definition encode_channel_bind_proof_v1 (body tag : bytes) (out : option bytes) : Status * option bytes :=
  match out with
  | None => (InvalidField, out)
  | Some _ => if negb (any_nonzero tag) then (InvalidField, out) else (Ok, Some (body ++ tag))
  end.

Definition decode_channel_bind_proof_v1 (data : option bytes) (expected_bind : bytes) (expected_sender : Z)
    (sender_public_key receiver_public_key : bytes) (tag : option bytes) : Status * option bytes :=
  match data, tag with
  | Some b, Some _ =>
    if zlen b <? kChannelBindProofSizeV1 then (Truncated, tag)
    else if kChannelBindProofSizeV1 <? zlen b then (Trailing, tag)
    else
      match encode_channel_bind_proof_body_v1 expected_bind expected_sender sender_public_key receiver_public_key (Some (zero_bytes 216)) with
      | (Ok, Some expected) =>
        if negb (bool_decide (expected = slice b 0 216)) || negb (any_nonzero (slice b 216 32)) then (InvalidField, tag)
        else (Ok, Some (slice b 216 32))
      | _ => (InvalidField, tag)
      end
  | _, _ => (InvalidField, tag)
  end.

Definition proof_message (proof : bytes) : bytes :=
  ascii_bytes "flynes-channel-bind-proof-hash-v1" ++ be_bytes 4 kChannelBindProofSizeV1 ++ proof.

Definition channel_bind_proof_hash_v1 (proof : bytes) : bytes := sha256 (proof_message proof).

(** ** The acknowledgement *)

Definition ack_body_layout (channel_id connector_hash listener_hash : bytes) (connector : Z) : list bytes :=
  [[0; 1]; zero_bytes 6; channel_id; connector_hash; listener_hash; [u8 connector; opposite_role connector]; zero_bytes 6].

Definition encode_channel_bind_ack_body_v1 (channel_id connector_hash listener_hash : bytes) (connector : Z) (out : option bytes)
    : Status * option bytes :=
  match out with
  | None => (InvalidField, out)
  | Some _ =>
    if negb (valid_role connector) || negb (any_nonzero channel_id) || negb (any_nonzero connector_hash) || negb (any_nonzero listener_hash)
    then (InvalidField, out)
    else (Ok, Some (mjoin (ack_body_layout channel_id connector_hash listener_hash connector)))
  end.

Definition build_channel_bind_ack_hmac_input_v1 (body : option bytes) (exporter : bytes) (out : option bytes) : Status * option bytes :=
  match body with
  | None => (InvalidField, out)
  | Some b =>
    if negb (zlen b =? kChannelBindAckBodySizeV1) then (InvalidField, out)
    else build_hmac_input (ascii_bytes "flynes-channel-bind-ack-v1") b exporter out
  end.

Definition encode_channel_bind_ack_v1 (body tag : bytes) (out : option bytes) : Status * option bytes :=
  match out with
  | None => (InvalidField, out)
  | Some _ => if negb (any_nonzero tag) then (InvalidField, out) else (Ok, Some (body ++ tag))
  end.

Definition decode_channel_bind_ack_v1 (data : option bytes) (channel_id connector_hash listener_hash : bytes) (connector : Z)
    (tag : option bytes) : Status * option bytes :=
  match data, tag with
  | Some b, Some _ =>
    if zlen b <? kChannelBindAckSizeV1 then (Truncated, tag)
    else if kChannelBindAckSizeV1 <? zlen b then (Trailing, tag)
    else
      match encode_channel_bind_ack_body_v1 channel_id connector_hash listener_hash connector (Some (zero_bytes 96)) with
      | (Ok, Some expected) =>
        if negb (bool_decide (expected = slice b 0 96)) || negb (any_nonzero (slice b 96 32)) then (InvalidField, tag)
        else (Ok, Some (slice b 96 32))
      | _ => (InvalidField, tag)
      end
  | _, _ => (InvalidField, tag)
  end.

Definition bind_stream_preamble_v1 : bytes := [0x46; 0x4e; 0x42; 0x31; 0x00; 0x01; 0x00; 0x01].

Definition channel_bind_binding_hash_v1 (channel_id connector_hash listener_hash : bytes) (out_hash : option bytes) : Status * option bytes :=
  match out_hash with
  | None => (InvalidField, out_hash)
  | Some _ =>
    if negb (any_nonzero channel_id) || negb (any_nonzero connector_hash) || negb (any_nonzero listener_hash) then (InvalidField, out_hash)
    else (Ok, Some (domain_hash "flynes-channel-bind-binding-v1" (channel_id ++ connector_hash ++ listener_hash)))
  end.

(** ** What a binding hash names *)

(** One end's proof as it was accepted: what it says of the pairing, and the tag. *)
Record ProvenBind := mkProven {
  proven_transcript : bytes; proven_session : bytes; proven_channel : bytes; proven_sender : Z; proven_key : bytes; proven_peer_key : bytes; proven_tag : bytes
}.

Definition proven_sized (p : ProvenBind) : Prop :=
  zlen (proven_transcript p) = 32 /\ zlen (proven_session p) = 16 /\ zlen (proven_channel p) = 16 /\
  zlen (proven_key p) = 65 /\ zlen (proven_peer_key p) = 65.

(** [proof] was accepted as the proof of [p]. *)
Definition accepted_proof (p : ProvenBind) (proof : bytes) : Prop :=
  exists bind spare spare',
    encode_initial_channel_bind_v1 (proven_transcript p) (proven_session p) (proven_channel p) (Some spare) = (Ok, Some bind) /\
    decode_channel_bind_proof_v1 (Some proof) bind (proven_sender p) (proven_key p) (proven_peer_key p) (Some spare') = (Ok, Some (proven_tag p)).

Lemma key_id_ok key valid out id :
  identity_key_id_v1 key (Some valid) out = (Ok, Some id) -> id = domain_hash "flynes-identity-key-id-v1" key /\ valid key = true.
Proof.
  unfold identity_key_id_v1. destruct out; [| done]. destruct (_ || _) eqn:G; [done |]. bool_hyps. intros [= <-]. split; [done |].
  by destruct (valid key).
Qed.

Definition proof_fields (p : ProvenBind) : list bytes :=
  proof_body_layout (mjoin (bind_layout (proven_transcript p) (proven_session p) (proven_channel p))) (proven_sender p)
    (domain_hash "flynes-identity-key-id-v1" (proven_key p)) (domain_hash "flynes-identity-key-id-v1" (proven_peer_key p)).

(** An accepted proof is the layout of what it says, with the tag. *)
Lemma accepted_proof_bytes p proof :
  accepted_proof p proof -> proof = mjoin (proof_fields p) ++ proven_tag p /\ valid_role (proven_sender p) = true /\ zlen proof = 248.
Proof.
  intros (bind & spare & spare' & E & D). unfold encode_initial_channel_bind_v1 in E. destruct (_ || _); [done |].
  assert (bind = mjoin (bind_layout (proven_transcript p) (proven_session p) (proven_channel p))) as -> by congruence. clear E.
  unfold decode_channel_bind_proof_v1 in D. destruct (Z.ltb_spec (zlen proof) kChannelBindProofSizeV1); [done |].
  destruct (Z.ltb_spec kChannelBindProofSizeV1 (zlen proof)); [done |].
  assert (zlen proof = 248) as L by (unfold kChannelBindProofSizeV1 in *; lia).
  destruct (encode_channel_bind_proof_body_v1 _ _ _ _ _) as [status [expected|]] eqn:B; [| by destruct status].
  destruct status; try done. destruct (_ || _) eqn:G; [done |]. bool_hyps.
  assert (slice proof 216 32 = proven_tag p) as T by congruence. clear D.
  unfold encode_channel_bind_proof_body_v1 in B. destruct (valid_role (proven_sender p)); [| done]. cbn [negb] in B.
  destruct (identity_key_id_v1 (proven_key p) _ _) as [s1 [id1|]] eqn:K1; [| by destruct s1]. destruct s1; try done.
  destruct (identity_key_id_v1 (proven_peer_key p) _ _) as [s2 [id2|]] eqn:K2; [| by destruct s2]. destruct s2; try done.
  apply key_id_ok in K1 as [-> _], K2 as [-> _]. split_and!; [| done | done].
  rewrite <- T. rewrite <- (slice_all proof) at 1. rewrite L, (slice_split proof 0 216 248) by lia. f_equal.
  change (slice proof 0 216 = mjoin (proof_fields p)). unfold proof_fields. congruence.
Qed.

Lemma proof_fields_sizes p : proven_sized p -> zlen <$> proof_fields p = [2; 6; 136; 2; 6; 32; 32].
Proof.
  intros (Lt & Ls & Lc & _). unfold proof_fields, proof_body_layout. cbn [fmap list_fmap].
  assert (forall domain data, zlen (domain_hash domain data) = 32) as Lh by (intros; unfold zlen; by rewrite domain_hash_length).
  rewrite !Lh, zlen_mjoin. unfold bind_layout. cbn [fmap list_fmap total].
  assert (zlen (slice (bind_digest (proven_transcript p)) 0 16) = 16) as -> by (apply zlen_slice; [lia.. | unfold bind_digest, zlen; by rewrite sha256_length]).
  rewrite Lt, Ls, Lc. done.
Qed.

(** Two accepted proofs with one hash say the same, or a collision of SHA-256 is in their hand. *)
Lemma proof_hash_binds p1 proof1 p2 proof2 :
  proven_sized p1 -> proven_sized p2 -> accepted_proof p1 proof1 -> accepted_proof p2 proof2 ->
  channel_bind_proof_hash_v1 proof1 = channel_bind_proof_hash_v1 proof2 ->
  proof1 = proof2 /\ p1 = p2 \/ collide (proof_message proof1) (proof_message proof2) \/
  collide (domain_message "flynes-identity-key-id-v1" (proven_key p1)) (domain_message "flynes-identity-key-id-v1" (proven_key p2)) \/
  collide (domain_message "flynes-identity-key-id-v1" (proven_peer_key p1)) (domain_message "flynes-identity-key-id-v1" (proven_peer_key p2)).
Proof.
  intros S1 S2 A1 A2 H. apply accepted_proof_bytes in A1 as (E1 & V1 & L1), A2 as (E2 & V2 & L2).
  destruct (decide (proof1 = proof2)) as [E |]; [| right; left; split; [intros M | exact H]].
  2: { unfold proof_message in M. apply app_inv_head, app_inv_head in M. done. }
  pose proof (proof_fields_sizes p1 S1) as F1. pose proof (proof_fields_sizes p2 S2) as F2.
  assert (mjoin (proof_fields p1) = mjoin (proof_fields p2) /\ proven_tag p1 = proven_tag p2) as [Em Et].
  { apply app_eq_length; [| congruence]. enough (zlen (mjoin (proof_fields p1)) = zlen (mjoin (proof_fields p2))) by (unfold zlen in *; lia).
    by rewrite !zlen_mjoin, F1, F2. }
  apply mjoin_inj in Em; [| by rewrite F1, F2]. unfold proof_fields, proof_body_layout in Em.
  pose proof (f_equal (fun l => nth 2 l []) Em) as Eb. pose proof (f_equal (fun l => at_ (nth 3 l []) 0) Em) as Es.
  pose proof (f_equal (fun l => nth 5 l []) Em) as Ek. pose proof (f_equal (fun l => nth 6 l []) Em) as Ep. cbn [nth at_ Z.to_nat] in *. clear Em.
  apply domain_hash_binds in Ek as [Ek | C]; [| by do 2 right; left]. apply domain_hash_binds in Ep as [Ep | C]; [| by do 3 right].
  left. split; [done |]. destruct S1 as (Lt1 & Ls1 & Lc1 & _), S2 as (Lt2 & Ls2 & Lc2 & _).
  apply mjoin_inj in Eb.
  2: { unfold bind_layout. cbn [fmap list_fmap]. rewrite Lt1, Ls1, Lc1, Lt2, Ls2, Lc2. do 8 f_equal. unfold bind_digest.
       rewrite !zlen_slice; try done; try lia; unfold zlen; by rewrite sha256_length. }
  unfold bind_layout in Eb.
  pose proof (f_equal (fun l => nth 4 l []) Eb) as Eb1. pose proof (f_equal (fun l => nth 5 l []) Eb) as Eb2.
  pose proof (f_equal (fun l => nth 7 l []) Eb) as Eb3. cbn [nth] in *.
  assert (proven_sender p1 = proven_sender p2) as Er.
  { unfold valid_role, Initiator, Responder, u8 in *. assert (proven_sender p1 = 1 \/ proven_sender p1 = 2) as [R1 | R1] by lia;
      assert (proven_sender p2 = 1 \/ proven_sender p2 = 2) as [R2 | R2] by lia; rewrite R1, R2 in *; done. }
  destruct p1, p2. cbn in *. by subst.
Qed.

(** The collision [C] is one of those that are named. *)
Ltac listed := first [apply list_elem_of_here | apply list_elem_of_further; listed].
Ltac named C :=
  right; eexists _, _; (split; [exact C | right]); cbn [fmap list_fmap]; first [left; listed | right; listed].

(** What a channel binding names: if two links compute the same binding hash from proofs they accepted, then it is
    one channel, and both proofs (the connector's and the listener's) are the same and say the same: one pairing
    transcript, one session, one channel, the same roles and the same identity keys -- or a SHA-256 collision is in
    their hands. *)
Theorem binding_names_everything channel1 connector1 listener1 c1 l1 out1 channel2 connector2 listener2 c2 l2 out2 hash :
  zlen channel1 = 16 -> zlen channel2 = 16 ->
  proven_sized c1 -> proven_sized l1 -> proven_sized c2 -> proven_sized l2 ->
  accepted_proof c1 connector1 -> accepted_proof l1 listener1 -> accepted_proof c2 connector2 -> accepted_proof l2 listener2 ->
  channel_bind_binding_hash_v1 channel1 (channel_bind_proof_hash_v1 connector1) (channel_bind_proof_hash_v1 listener1) out1 = (Ok, Some hash) ->
  channel_bind_binding_hash_v1 channel2 (channel_bind_proof_hash_v1 connector2) (channel_bind_proof_hash_v1 listener2) out2 = (Ok, Some hash) ->
  channel1 = channel2 /\ c1 = c2 /\ l1 = l2 \/
  exists m1 m2, collide m1 m2 /\
    (m1 = domain_message "flynes-channel-bind-binding-v1" (channel1 ++ channel_bind_proof_hash_v1 connector1 ++ channel_bind_proof_hash_v1 listener1) \/
     m1 ∈ [proof_message connector1; proof_message listener1] \/
     m1 ∈ domain_message "flynes-identity-key-id-v1" <$> [proven_key c1; proven_peer_key c1; proven_key l1; proven_peer_key l1]).
Proof.
  intros H1 H2 Sc1 Sl1 Sc2 Sl2 Ac1 Al1 Ac2 Al2. unfold channel_bind_binding_hash_v1. destruct out1; [| done]. destruct out2; [| done].
  destruct (_ || negb (any_nonzero (channel_bind_proof_hash_v1 listener1))); [done |].
  destruct (_ || negb (any_nonzero (channel_bind_proof_hash_v1 listener2))); [done |]. intros E1 E2.
  assert (domain_hash "flynes-channel-bind-binding-v1" (channel1 ++ channel_bind_proof_hash_v1 connector1 ++ channel_bind_proof_hash_v1 listener1) =
          domain_hash "flynes-channel-bind-binding-v1" (channel2 ++ channel_bind_proof_hash_v1 connector2 ++ channel_bind_proof_hash_v1 listener2)) as E by congruence.
  apply domain_hash_binds in E as [E | C]; [| right; eexists _, _; split; [exact C | by left]].
  apply app_eq_length in E as [-> E]; [| unfold zlen in *; lia].
  apply app_eq_length in E as [Ec El]; [| unfold channel_bind_proof_hash_v1; by rewrite !sha256_length].
  destruct (proof_hash_binds c1 connector1 c2 connector2 Sc1 Sc2 Ac1 Ac2 Ec) as [[_ ->] | [C | [C | C]]];
    [| named C..].
  destruct (proof_hash_binds l1 listener1 l2 listener2 Sl1 Sl2 Al1 Al2 El) as [[_ ->] | [C | [C | C]]];
    [by left | named C..].
Qed.

(** ** An example: the listener's proof, and the binding of two proofs *)

Definition demo_bind_fields : list bytes := bind_layout (replicate 32 5) (replicate 16 6) (replicate 16 7).
Definition demo_proven (sender : Z) : ProvenBind :=
  mkProven (replicate 32 5) (replicate 16 6) (replicate 16 7) sender base_point base_point (replicate 32 8).
Definition demo_proof (sender : Z) : bytes := mjoin (proof_fields (demo_proven sender)) ++ replicate 32 8.

Lemma base_key_id out :
  identity_key_id_v1 base_point (Some validate_p256_uncompressed_point) (Some out) = (Ok, Some (domain_hash "flynes-identity-key-id-v1" base_point)).
Proof. unfold identity_key_id_v1. destruct demo_key_ok as (_ & -> & ->). done. Qed.

Lemma demo_accepted sender : valid_role sender = true -> accepted_proof (demo_proven sender) (demo_proof sender).
Proof.
  intros Hs. exists (mjoin demo_bind_fields), [], []. split; [by vm_compute |].
  assert (zlen (mjoin (proof_fields (demo_proven sender))) = 216) as L by (rewrite zlen_mjoin, proof_fields_sizes; done).
  unfold decode_channel_bind_proof_v1, encode_channel_bind_proof_body_v1. cbn [demo_proven proven_sender proven_key proven_peer_key proven_tag].
  rewrite Hs, !base_key_id. change (mjoin (proof_body_layout _ _ _ _)) with (mjoin (proof_fields (demo_proven sender))).
  assert (slice (demo_proof sender) 0 216 = mjoin (proof_fields (demo_proven sender))) as -> by (by apply slice_app_here).
  assert (slice (demo_proof sender) 216 32 = replicate 32 8) as -> by (unfold demo_proof; rewrite slice_app_right, L by lia; done).
  assert (zlen (demo_proof sender) = 248) as -> by (unfold demo_proof; rewrite zlen_app, L; done).
  unfold kChannelBindProofSizeV1. cbn [Z.ltb Z.compare Pos.compare Pos.compare_cont negb]. by rewrite bool_decide_true by done.
Qed.

Lemma demo_hash_nonzero sender : valid_role sender = true -> any_nonzero (channel_bind_proof_hash_v1 (demo_proof sender)) = true.
Proof.
  intros Hs. assert (sender = 1 \/ sender = 2) as [-> | ->] by (unfold valid_role, Initiator, Responder in Hs; lia); by vm_compute.
Qed.

Lemma binding_names_everything_witness :
  exists hash,
    channel_bind_binding_hash_v1 (replicate 16 7) (channel_bind_proof_hash_v1 (demo_proof 1)) (channel_bind_proof_hash_v1 (demo_proof 2)) (Some []) =
      (Ok, Some hash) /\
    (replicate 16 7 = replicate 16 7 /\ demo_proven 1 = demo_proven 1 /\ demo_proven 2 = demo_proven 2 \/
     exists m1 m2, collide m1 m2 /\
       (m1 = domain_message "flynes-channel-bind-binding-v1"
               (replicate 16 7 ++ channel_bind_proof_hash_v1 (demo_proof 1) ++ channel_bind_proof_hash_v1 (demo_proof 2)) \/
        m1 ∈ [proof_message (demo_proof 1); proof_message (demo_proof 2)] \/
        m1 ∈ domain_message "flynes-identity-key-id-v1" <$> [base_point; base_point; base_point; base_point])).
Proof.
  exists (domain_hash "flynes-channel-bind-binding-v1"
            (replicate 16 7 ++ channel_bind_proof_hash_v1 (demo_proof 1) ++ channel_bind_proof_hash_v1 (demo_proof 2))).
  match goal with |- ?a /\ _ => assert a as E end.
  { unfold channel_bind_binding_hash_v1. by rewrite !demo_hash_nonzero. }
  split; [exact E |].
  exact (binding_names_everything (replicate 16 7) (demo_proof 1) (demo_proof 2) (demo_proven 1) (demo_proven 2) (Some [])
    (replicate 16 7) (demo_proof 1) (demo_proof 2) (demo_proven 1) (demo_proven 2) (Some []) _ eq_refl eq_refl
    (conj eq_refl (conj eq_refl (conj eq_refl (conj eq_refl eq_refl)))) (conj eq_refl (conj eq_refl (conj eq_refl (conj eq_refl eq_refl))))
    (conj eq_refl (conj eq_refl (conj eq_refl (conj eq_refl eq_refl)))) (conj eq_refl (conj eq_refl (conj eq_refl (conj eq_refl eq_refl))))
    (demo_accepted 1 eq_refl) (demo_accepted 2 eq_refl) (demo_accepted 1 eq_refl) (demo_accepted 2 eq_refl) E E).
Defined.
