(* ===== verification/GattFragment.v ===== *)
(** * GATT fragmentation ([shared/src/session/wire/gatt_fragment.{hpp,cpp}])

    A logical message (header, body, domain hash) is cut into physical values
    small enough for one GATT write, and reassembled from values that arrive in
    any order, repeated or interleaved with another message.  The borrowed
    windows of a decoded message are modelled as the bytes they show; running out
    of memory is not modelled. *)

From stdpp Require Import sorting.
From S2P Require Import Prelude Sha256.

(** ** Definitions *)

Definition kGattPhysicalHeaderSize : Z := 14.
Definition kGattLogicalMinSize : Z := 40.
Definition kGattLogicalMaxSize : Z := 4096.
Definition kGattMaxIncompleteMessages : Z := 2.
Definition kGattMaxBufferedBytes : Z := 8192.
Definition kGattNoProgressTimeoutNs : Z := 5000000000.

(** [GattPhysicalDirection] is a byte that may hold any value. *)
Definition CentralToPeripheral : Z := 1.
Definition PeripheralToCentral : Z := 2.

Definition known_direction (role : Z) : bool :=
  (role =? CentralToPeripheral) || (role =? PeripheralToCentral).

Inductive GattFragmentResult :=
  | Accepted | Duplicate | Complete | Stale | InvalidArgument | NotSupported | Backpressure
  | ProtocolViolation.

#[global] Instance gatt_result_eq_dec : EqDecision GattFragmentResult.
Proof. solve_decision. Defined.

(** [GattLogicalType::PhysicalAck]. *)
Definition PhysicalAck : Z := 16.

Record GattLogicalMessageView := mkView {
  view_version : Z;
  view_logical_type : Z;
  view_body : bytes;
  view_body_size : Z;
  view_logical_hash : bytes;
}.

Definition kGattLogicalAckBodySize : Z := 36.

Record GattLogicalAckV1 := mkAck {
  original_sender_physical_role : Z;
  acked_logical_type : Z;
  ack_message_id : Z;
  ack_logical_hash : bytes;
}.

Definition write_be16 (value : Z) : bytes := [u8 (Z.shiftr value 8); u8 value].
Definition write_be32 (value : Z) : bytes :=
  [u8 (Z.shiftr value 24); u8 (Z.shiftr value 16); u8 (Z.shiftr value 8); u8 value].

(** The acknowledgement body; [None] is a null [out]. *)
Definition encode_gatt_logical_ack_v1 (ack : GattLogicalAckV1) (out : option bytes)
    : GattFragmentResult * option bytes :=
  match out with
  | None => (InvalidArgument, None)
  | Some _ =>
    let role := original_sender_physical_role ack in
    if negb (known_direction role) || (acked_logical_type ack =? 0) ||
       (acked_logical_type ack =? PhysicalAck) || (ack_message_id ack =? 0)
    then (ProtocolViolation, Some (replicate 36 0))
    else (Accepted, Some ([role; acked_logical_type ack] ++ write_be16 (ack_message_id ack) ++
                          ack_logical_hash ack))
  end.

Definition ack0 : GattLogicalAckV1 := mkAck 0 0 0 (replicate 32 0).

Definition decode_gatt_logical_ack_v1 (source : option bytes) (size : Z) (out : option GattLogicalAckV1)
    : GattFragmentResult * option GattLogicalAckV1 :=
  match source, out with
  | Some p, Some _ =>
    if negb (size =? kGattLogicalAckBodySize) then (ProtocolViolation, Some ack0)
    else
      let decoded := mkAck (at_ p 0) (at_ p 1) (load16 p 2) (slice p 4 32) in
      match encode_gatt_logical_ack_v1 decoded (Some (replicate 36 0)) with
      | (Accepted, Some canonical) =>
        if decide (canonical = slice p 0 36) then (Complete, Some decoded) else (ProtocolViolation, Some ack0)
      | _ => (ProtocolViolation, Some ack0)
      end
  | _, _ => (InvalidArgument, out)
  end.

Definition view0 : GattLogicalMessageView := mkView 0 0 [] 0 [].

(** The domain a version and a type select. *)
Definition logical_domain (version expected_type : Z) : option string :=
  if (version =? 1) && (1 <=? expected_type) && (expected_type <=? 26) then Some "flynes-gatt-logical-v1"%string
  else if (version =? 2) && ((expected_type =? 27) || (expected_type =? 28))
  then Some "flynes-gatt-logical-v2"%string
  else None.

Definition decode_gatt_logical_message (source : option bytes) (size expected_type : Z)
    (out : option GattLogicalMessageView) : GattFragmentResult * option GattLogicalMessageView :=
  match source, out with
  | Some p, Some _ =>
    if (size <? kGattLogicalMinSize) || (kGattLogicalMaxSize <? size) || (expected_type =? 0) ||
       negb (at_ p 1 =? expected_type) || negb (at_ p 2 =? 0) || negb (at_ p 3 =? 0)
    then (ProtocolViolation, Some view0)
    else
      let body_size := load32 p 4 in
      if (kGattLogicalMaxSize - 40 <? body_size) || negb (size =? 8 + body_size + 32)
      then (ProtocolViolation, Some view0)
      else
        match logical_domain (at_ p 0) expected_type with
        | None => (ProtocolViolation, Some view0)
        | Some domain =>
          if decide (domain_hash domain (slice p 0 (8 + body_size)) = slice p (8 + body_size) 32)
          then (Complete, Some (mkView (at_ p 0) (at_ p 1) (slice p 8 body_size) body_size
                                 (slice p (8 + body_size) 32)))
          else (ProtocolViolation, Some view0)
        end
  | _, _ => (InvalidArgument, out)
  end.

Definition encode_gatt_logical_message (logical_type : Z) (body : option bytes) (body_size : Z)
    (out : option bytes) : GattFragmentResult * option bytes :=
  match out with
  | None => (InvalidArgument, None)
  | Some _ =>
    if match body with None => negb (body_size =? 0) | Some _ => false end then (InvalidArgument, out)
    else
      let v1 := (1 <=? logical_type) && (logical_type <=? 26) in
      let v2 := (logical_type =? 27) || (logical_type =? 28) in
      if negb v1 && negb v2 then (NotSupported, Some [])
      else if kGattLogicalMaxSize - kGattLogicalMinSize <? body_size then (Backpressure, Some [])
      else
        let encoded := [if v1 then 1 else 2; logical_type; 0; 0] ++ write_be32 (u32 body_size) ++
                       match body with None => [] | Some b => slice b 0 body_size end in
        let hash := domain_hash (if v1 then "flynes-gatt-logical-v1" else "flynes-gatt-logical-v2") encoded in
        (Accepted, Some (encoded ++ hash))
  end.

Definition exact_logical_message (p : bytes) (size expected_type : Z) : bool :=
  bool_decide ((decode_gatt_logical_message (Some p) size expected_type (Some view0)).1 = Complete).

(** One physical value of [fragment_gatt_logical]. *)
Definition physical_value (logical : bytes) (logical_type message_id data_cap count total index : Z) : bytes :=
  let offset := index * data_cap in
  let data_size := Z.min data_cap (total - offset) in
  [1; logical_type; Z.lor (if index =? 0 then 1 else 0) (if index + 1 =? count then 2 else 0); 0] ++
  write_be16 message_id ++ write_be16 index ++ write_be16 count ++ write_be16 (u16 offset) ++
  write_be16 total ++ slice logical offset data_size.

Definition fragment_gatt_logical (logical : option bytes) (logical_size logical_type message_id att_value_cap : Z)
    (out : option (list bytes)) : GattFragmentResult * option (list bytes) :=
  match logical, out with
  | Some l, Some _ =>
    if att_value_cap <? 20 then (NotSupported, Some [])
    else if (logical_size <? kGattLogicalMinSize) || (kGattLogicalMaxSize <? logical_size)
    then (Backpressure, Some [])
    else if (message_id =? 0) || (logical_type =? 0) ||
            negb (exact_logical_message l logical_size logical_type)
    then (ProtocolViolation, Some [])
    else
      let data_cap := att_value_cap - kGattPhysicalHeaderSize in
      let count_size := (logical_size + data_cap - 1) / data_cap in
      if (count_size =? 0) || (683 <? count_size) || (65535 <? count_size) then (Backpressure, Some [])
      else
        let count := u16 count_size in
        (Accepted, Some (physical_value l logical_type message_id data_cap count (u16 logical_size)
                           <$> seqZ 0 count))
  | _, _ => (InvalidArgument, out)
  end.

(** *** The reassembler *)

Record Piece := mkPiece { piece_index : Z; piece_offset : Z; piece_bytes : bytes }.

Record Assembly := mkAssembly {
  assembly_type : Z;
  assembly_id : Z;
  fragment_count : Z;
  total_length : Z;
  last_progress_ns : Z;
  pieces : list Piece;
}.

Record Completed := mkCompleted {
  completed_type : Z;
  completed_id : Z;
  completed_count : Z;
  completed_length : Z;
  completed_logical : bytes;
}.

Record GattCompletedMetadata := mkMetadata {
  metadata_type : Z;
  metadata_id : Z;
  metadata_hash : bytes;
}.

Definition metadata0 : GattCompletedMetadata := mkMetadata 0 0 (replicate 32 0).

Record GattReassembler := mkReassembler {
  generation_ : Z;
  direction_ : Z;
  buffered_bytes_ : Z;
  assemblies_ : list Assembly;
  completed_ : list Completed;
}.

#[global] Instance eta_assembly : Eta Assembly := fun a =>
  mkAssembly (assembly_type a) (assembly_id a) (fragment_count a) (total_length a) (last_progress_ns a)
    (pieces a).
#[global] Instance eta_reassembler : Eta GattReassembler := fun r =>
  mkReassembler (generation_ r) (direction_ r) (buffered_bytes_ r) (assemblies_ r) (completed_ r).

Definition reassembler_new (connection_generation direction : Z) : GattReassembler :=
  mkReassembler connection_generation direction 0 [] [].

Definition ranges_overlap (first_offset first_size second_offset second_size : Z) : bool :=
  let first_end := first_offset + first_size in
  let second_end := second_offset + second_size in
  (first_offset <? second_end) && (second_offset <? first_end).

Definition erase (index : nat) (r : GattReassembler) : GattReassembler :=
  match assemblies_ r !! index with
  | Some a =>
    r <| buffered_bytes_ := u64 (buffered_bytes_ r - total_length a) |>
      <| assemblies_ := delete index (assemblies_ r) |>
  | None => r
  end.

(** The header fields of a physical value. *)
Record Physical := mkPhysical {
  logical_type : Z;
  flags : Z;
  message_id : Z;
  index : Z;
  count : Z;
  offset : Z;
  total : Z;
  payload : bytes;
}.

Definition read_physical (value : bytes) (size : Z) : Physical :=
  mkPhysical (at_ value 1) (at_ value 2) (load16 value 4) (load16 value 6) (load16 value 8)
    (load16 value 10) (load16 value 12)
    (slice value kGattPhysicalHeaderSize (size - kGattPhysicalHeaderSize)).

(** The checks on the leading bytes and on the fields. *)
Definition leading_bytes_ok (value : bytes) (size : Z) : bool :=
  (kGattPhysicalHeaderSize <? size) && (size <=? 244) && (at_ value 0 =? 1) && negb (at_ value 1 =? 0) &&
  (Z.ldiff (at_ value 2) 3 =? 0) && (at_ value 3 =? 0).

Definition fields_ok (h : Physical) : bool :=
  negb (message_id h =? 0) && negb (count h =? 0) && (count h <=? 683) && (index h <? count h) &&
  (kGattLogicalMinSize <=? total h) && (total h <=? kGattLogicalMaxSize) &&
  (offset h + zlen (payload h) <=? total h) &&
  eqb (Z.testbit (flags h) 0) (index h =? 0) && eqb (Z.testbit (flags h) 1) (index h + 1 =? count h).

(** A value of a message that was completed before. *)
Definition repeats (h : Physical) (prior : Completed) : bool :=
  (completed_type prior =? logical_type h) && (completed_count prior =? count h) &&
  (completed_length prior =? total h) &&
  (offset h + zlen (payload h) <=? zlen (completed_logical prior)) &&
  bool_decide (payload h = slice (completed_logical prior) (offset h) (zlen (payload h))).

Definition last_32 (logical : bytes) : bytes := drop (length logical - 32) logical.

(** The loop over the pieces received so far: [None] when the value is new. *)
Fixpoint check_pieces (h : Physical) (received : list Piece) : option GattFragmentResult :=
  match received with
  | [] => None
  | piece :: rest =>
    if piece_index piece =? index h then
      if (piece_offset piece =? offset h) && (zlen (piece_bytes piece) =? zlen (payload h)) &&
         bool_decide (piece_bytes piece = payload h)
      then Some Duplicate else Some ProtocolViolation
    else if ranges_overlap (piece_offset piece) (zlen (piece_bytes piece)) (offset h) (zlen (payload h))
    then Some ProtocolViolation
    else check_pieces h rest
  end.

Definition by_offset (left right : Piece) : Prop := piece_offset left <= piece_offset right.

#[global] Instance by_offset_dec : RelDecision by_offset := fun left right => Z_le_dec _ _.

(** The copy loop: [None] on a gap. *)
Fixpoint copy_pieces (sorted : list Piece) (cursor : Z) (completed : bytes) : option (Z * bytes) :=
  match sorted with
  | [] => Some (cursor, completed)
  | current :: rest =>
    if negb (piece_offset current =? cursor) then None
    else copy_pieces rest (cursor + zlen (piece_bytes current))
           (overwrite (Z.to_nat cursor) (piece_bytes current) completed)
  end.

(** The message of a full assembly, when it is one. *)
Definition assemble (a : Assembly) : option bytes :=
  match copy_pieces (merge_sort by_offset (pieces a)) 0 (replicate (Z.to_nat (total_length a)) 0) with
  | Some (cursor, completed) =>
    if negb (cursor =? total_length a) || negb (exact_logical_message completed (zlen completed) (assembly_type a))
    then None else Some completed
  | None => None
  end.

(** What a call leaves in its output arguments. *)
Record Outputs := mkOutputs { out_completed : option bytes; out_metadata : option GattCompletedMetadata }.

Definition nothing (metadata : option GattCompletedMetadata) : Outputs :=
  mkOutputs (Some []) ((fun _ => metadata0) <$> metadata).

(** The assembly of the message: found, refused, or made. *)
Definition find_assembly (h : Physical) (now : Z) (r : GattReassembler)
    : GattFragmentResult * GattReassembler + nat * GattReassembler :=
  match list_find (fun a => assembly_id a = message_id h) (assemblies_ r) with
  | Some (i, a) =>
    if negb (assembly_type a =? logical_type h) then inl (ProtocolViolation, erase i r) else inr (i, r)
  | None =>
    if (kGattMaxIncompleteMessages <=? zlen (assemblies_ r)) ||
       (kGattMaxBufferedBytes <? buffered_bytes_ r + total h)
    then inl (Backpressure, r)
    else
      let fresh := mkAssembly (logical_type h) (message_id h) (count h) (total h) now [] in
      inr (length (assemblies_ r),
           r <| assemblies_ := assemblies_ r ++ [fresh] |>
             <| buffered_bytes_ := buffered_bytes_ r + total h |>)
  end.

(** The piece is stored; the message may be complete. *)
Definition store_piece (h : Physical) (now : Z) (i : nat) (a : Assembly)
    (metadata : option GattCompletedMetadata) (r : GattReassembler)
    : GattFragmentResult * Outputs * GattReassembler :=
  let a' := a <| pieces := pieces a ++ [mkPiece (index h) (offset h) (payload h)] |>
              <| last_progress_ns := now |> in
  let r' := r <| assemblies_ := <[i := a']> (assemblies_ r) |> in
  if negb (zlen (pieces a') =? fragment_count a') then (Accepted, nothing metadata, r')
  else
    match assemble a' with
    | None => (ProtocolViolation, nothing metadata, erase i r')
    | Some completed =>
      let prior := mkCompleted (assembly_type a') (assembly_id a') (fragment_count a') (total_length a')
                     completed in
      let kept := if zlen (completed_ r') =? kGattMaxIncompleteMessages then drop 1 (completed_ r')
                  else completed_ r' in
      (Complete,
       mkOutputs (Some completed)
         ((fun _ => mkMetadata (assembly_type a') (assembly_id a') (last_32 completed)) <$> metadata),
       erase i (r' <| completed_ := kept ++ [prior] |>))
    end.

Definition accept (connection_generation now : Z) (value : option bytes) (size : Z)
    (completed : option bytes) (metadata : option GattCompletedMetadata) (r : GattReassembler)
    : GattFragmentResult * Outputs * GattReassembler :=
  match value, completed with
  | Some v, Some _ =>
    let none := nothing metadata in
    if negb (connection_generation =? generation_ r) then (Stale, none, r)
    else if negb (known_direction (direction_ r)) then (InvalidArgument, none, r)
    else if negb (leading_bytes_ok v size) then (ProtocolViolation, none, r)
    else
      let h := read_physical v size in
      if negb (fields_ok h) then (ProtocolViolation, none, r)
      else
        match list_find (fun prior => completed_id prior = message_id h) (completed_ r) with
        | Some (_, prior) =>
          if negb (repeats h prior) then (ProtocolViolation, none, r)
          else
            (Duplicate,
             mkOutputs (Some [])
               ((fun _ => mkMetadata (completed_type prior) (completed_id prior) (last_32 (completed_logical prior)))
                  <$> metadata), r)
        | None =>
          match find_assembly h now r with
          | inl (result, r') => (result, none, r')
          | inr (i, r') =>
            match assemblies_ r' !! i with
            | None => (ProtocolViolation, none, r')
            | Some a =>
              if negb (fragment_count a =? count h) || negb (total_length a =? total h)
              then (ProtocolViolation, none, erase i r')
              else
                match check_pieces h (pieces a) with
                | Some ProtocolViolation => (ProtocolViolation, none, erase i r')
                | Some result => (result, none, r')
                | None => store_piece h now i a metadata r'
                end
            end
          end
        end
  | _, _ => (InvalidArgument, mkOutputs completed metadata, r)
  end.

(** The expiry loop runs from the last assembly to the first. *)
Fixpoint expire_loop (i : nat) (now : Z) (expired : Z) (r : GattReassembler) : Z * GattReassembler :=
  match i with
  | O => (expired, r)
  | S k =>
    match assemblies_ r !! k with
    | Some a =>
      let last := last_progress_ns a in
      if (last <=? now) && (kGattNoProgressTimeoutNs <=? now - last)
      then expire_loop k now (expired + 1) (erase k r)
      else expire_loop k now expired r
    | None => expire_loop k now expired r
    end
  end.

Definition expire (now : Z) (r : GattReassembler) : Z * GattReassembler :=
  expire_loop (length (assemblies_ r)) now 0 r.

Definition incomplete_count (r : GattReassembler) : Z := zlen (assemblies_ r).
Definition buffered_bytes (r : GattReassembler) : Z := buffered_bytes_ r.

(** ** The reassembler is bounded *)

(** Two pieces that can stand in one assembly. *)
Definition apart (p q : Piece) : Prop :=
  piece_index p <> piece_index q /\
  (piece_offset p + zlen (piece_bytes p) <= piece_offset q \/ piece_offset q + zlen (piece_bytes q) <= piece_offset p).

#[global] Instance apart_symmetric : Symmetric apart.
Proof. intros p q (H & H'). split; [congruence | lia]. Qed.

Fixpoint pairwise (l : list Piece) : Prop :=
  match l with
  | [] => True
  | p :: rest => Forall (apart p) rest /\ pairwise rest
  end.

Definition piece_ok (count total : Z) (p : Piece) : Prop :=
  0 <= piece_index p < count /\ 0 <= piece_offset p /\ 0 < zlen (piece_bytes p) /\
  piece_offset p + zlen (piece_bytes p) <= total.

Definition assembly_ok (a : Assembly) : Prop :=
  kGattLogicalMinSize <= total_length a <= kGattLogicalMaxSize /\
  zlen (pieces a) < fragment_count a <= 683 /\
  Forall (piece_ok (fragment_count a) (total_length a)) (pieces a) /\ pairwise (pieces a).

Definition completed_ok (c : Completed) : Prop :=
  exact_logical_message (completed_logical c) (zlen (completed_logical c)) (completed_type c) = true.

Definition held_bytes (a : Assembly) : Z := Prelude.total (zlen ∘ piece_bytes <$> pieces a).

Record wf (r : GattReassembler) : Prop := {
  wf_count : zlen (assemblies_ r) <= kGattMaxIncompleteMessages;
  wf_buffered : buffered_bytes_ r = Prelude.total (total_length <$> assemblies_ r);
  wf_assemblies : Forall assembly_ok (assemblies_ r);
  wf_completed_count : zlen (completed_ r) <= kGattMaxIncompleteMessages;
  wf_completed : Forall completed_ok (completed_ r);
  wf_ids : NoDup ((assembly_id <$> assemblies_ r) ++ (completed_id <$> completed_ r));
}.

#[global] Instance by_offset_trans : Transitive by_offset.
Proof. unfold by_offset. intros p q r; lia. Qed.
#[global] Instance by_offset_total : Total by_offset.
Proof. unfold by_offset. intros p q; lia. Qed.

Lemma total_perm l k : l ≡ₚ k -> Prelude.total l = Prelude.total k.
Proof. induction 1; cbn; lia. Qed.

Lemma pairwise_perm l k : l ≡ₚ k -> pairwise l -> pairwise k.
Proof.
  induction 1 as [|p l k Hp IH|p q l|l k m H1 IH1 H2 IH2]; cbn; try tauto.
  - intros (H & H'). split; [by rewrite <- Hp | auto].
  - intros (H & H' & H''). inversion H; subst. repeat split; auto. constructor; [by symmetry | done].
Qed.

Lemma pairwise_snoc l p : pairwise (l ++ [p]) <-> Forall (apart p) l /\ pairwise l.
Proof.
  split.
  - intros H. apply (pairwise_perm _ (p :: l)) in H; [exact H | by rewrite <- Permutation_cons_append].
  - intros H. apply (pairwise_perm (p :: l)); [by rewrite <- Permutation_cons_append | exact H].
Qed.

(** Disjoint pieces inside a message hold no more bytes than it has. *)
Lemma sorted_held count total l lo :
  StronglySorted by_offset l -> pairwise l -> Forall (piece_ok count total) l ->
  Forall (fun p => lo <= piece_offset p) l -> lo <= total ->
  Prelude.total (zlen ∘ piece_bytes <$> l) <= total - lo.
Proof.
  intros Hs. revert lo. induction Hs as [|p l Hs IH Hp]; intros lo Hw Hf Hlo Hle; [cbn; lia |].
  destruct Hw as [Hap Hw]. inversion Hf as [|? ? (Hi & Ho & Hn & Ht) Hf']; subst.
  inversion Hlo; subst. cbn. specialize (IH (piece_offset p + zlen (piece_bytes p)) Hw Hf').
  enough (Prelude.total (zlen ∘ piece_bytes <$> l) <= total - (piece_offset p + zlen (piece_bytes p))) by
    (unfold compose in *; cbn in *; lia).
  apply IH; [| lia]. rewrite Forall_forall in *. intros q Hq.
  destruct (Hap q Hq) as (_ & [? | ?]); [done |]. specialize (Hp q Hq). unfold by_offset in Hp.
  destruct (Hf' q Hq) as (_ & _ & ? & _). lia.
Qed.

Lemma held_le_total a : assembly_ok a -> held_bytes a <= total_length a.
Proof.
  intros (Ht & Hc & Hf & Hw). unfold held_bytes.
  assert (merge_sort by_offset (pieces a) ≡ₚ pieces a) as Hp by apply merge_sort_Permutation.
  rewrite <- (total_perm (zlen ∘ piece_bytes <$> merge_sort by_offset (pieces a))) by (by rewrite Hp).
  replace (total_length a) with (total_length a - 0) by lia.
  eapply (sorted_held (fragment_count a)).
  - apply (StronglySorted_merge_sort by_offset).
  - eapply pairwise_perm; [symmetry; exact Hp | done].
  - by rewrite Hp.
  - rewrite Hp. eapply Forall_impl; [exact Hf |]. intros p (_ & ? & _). lia.
  - unfold kGattLogicalMinSize in *. lia.
Qed.

Lemma total_nonneg l : Forall (fun x => 0 <= x) l -> 0 <= Prelude.total l.
Proof. induction 1; cbn; lia. Qed.

Lemma total_app l k : Prelude.total (l ++ k) = Prelude.total l + Prelude.total k.
Proof. induction l; cbn; lia. Qed.

Lemma delete_split {A} (l : list A) i x : l !! i = Some x -> exists l1 l2, l = l1 ++ x :: l2 /\ delete i l = l1 ++ l2 /\ i = length l1.
Proof.
  intros H. exists (take i l), (drop (S i) l). split; [by rewrite take_drop_middle |].
  split; [by rewrite delete_take_drop |]. apply lookup_lt_Some in H. rewrite length_take. lia.
Qed.

Lemma wf_total_bound r : wf r -> 0 <= buffered_bytes_ r <= 4096 * zlen (assemblies_ r).
Proof.
  intros [_ -> Ha _ _ _]. induction Ha as [|a l (H & _) Hl IH]; [by cbv |].
  rewrite fmap_cons, zlen_cons. cbn [Prelude.total]. unfold kGattLogicalMinSize, kGattLogicalMaxSize in H. lia.
Qed.

(** Removing an assembly, whatever it holds, when the others are well formed. *)
Record wf_but (i : nat) (a : Assembly) (r : GattReassembler) : Prop := {
  but_lookup : assemblies_ r !! i = Some a;
  but_size : kGattLogicalMinSize <= total_length a <= kGattLogicalMaxSize;
  but_count : zlen (assemblies_ r) <= kGattMaxIncompleteMessages;
  but_buffered : buffered_bytes_ r = Prelude.total (total_length <$> assemblies_ r);
  but_others : Forall assembly_ok (delete i (assemblies_ r));
  but_completed_count : zlen (completed_ r) <= kGattMaxIncompleteMessages;
  but_completed : Forall completed_ok (completed_ r);
  but_ids : NoDup ((assembly_id <$> assemblies_ r) ++ (completed_id <$> completed_ r));
}.

Lemma erase_but i a r : wf_but i a r -> wf (erase i r).
Proof.
  intros [Hl Hs Hc Hb Ho Hcc Hco Hid]. unfold erase. rewrite Hl.
  destruct (delete_split _ _ _ Hl) as (l1 & l2 & E & Ed & _).
  constructor; cbn; rewrite ?Ed in *.
  - revert Hc. rewrite E, !zlen_app, zlen_cons. lia.
  - rewrite Hb, E, !fmap_app, fmap_cons, !total_app. cbn.
    assert (Forall (fun x => 0 <= x <= 4096) (total_length <$> l1 ++ l2)) as H.
    { apply Forall_fmap. eapply Forall_impl; [exact Ho |]. intros x ((? & ?) & _).
      unfold kGattLogicalMinSize, kGattLogicalMaxSize in *. cbn. lia. }
    assert (0 <= Prelude.total (total_length <$> l1 ++ l2) <= 4096 * zlen (l1 ++ l2)) as H'.
    { clear -H. generalize dependent (l1 ++ l2). intros l H. induction l as [|x l IH]; [by cbv |].
      rewrite fmap_cons in *. inversion H; subst. rewrite zlen_cons. cbn. specialize (IH H3). lia. }
    rewrite fmap_app, total_app in H'. rewrite u64_small; [lia |].
    revert Hc. rewrite E, !zlen_app, zlen_cons in *. unfold kGattMaxIncompleteMessages. lia.
  - done.
  - done.
  - done.
  - revert Hid. rewrite E, !fmap_app, fmap_cons, <- !app_assoc. cbn.
    rewrite <- Permutation_middle. by intros [_ ?]%NoDup_cons.
Qed.

Lemma wf_is_but i a r : wf r -> assemblies_ r !! i = Some a -> wf_but i a r.
Proof.
  intros [Hc Hb Ha Hcc Hco Hid] Hl. constructor; try done.
  - apply (Forall_lookup_1 _ _ _ _ Ha Hl).
  - by apply Forall_delete.
Qed.

Lemma erase_keeps_wf i r : wf r -> wf (erase i r).
Proof.
  intros H. unfold erase. destruct (assemblies_ r !! i) as [a|] eqn:E; [| done].
  pose proof (erase_but i a r (wf_is_but i a r H E)) as He. unfold erase in He. by rewrite E in He.
Qed.

Lemma check_pieces_new h received :
  check_pieces h received = None ->
  Forall (fun p => apart p (mkPiece (index h) (offset h) (payload h))) received.
Proof.
  induction received as [|p l IH]; [constructor |]. cbn [check_pieces]. repeat split_guard; try discriminate.
  intros H. constructor; [| auto]. split; [done |]. cbn.
  unfold ranges_overlap in *. apply andb_false_iff in G0 as [G0 | G0]; bool_hyps; lia.
Qed.

(** What the field checks give. *)
Lemma fields_ok_piece h :
  fields_ok h = true -> 0 <= index h -> 0 <= offset h -> 0 < zlen (payload h) ->
  piece_ok (count h) (total h) (mkPiece (index h) (offset h) (payload h)) /\
  kGattLogicalMinSize <= total h <= kGattLogicalMaxSize /\ 0 < count h <= 683.
Proof. unfold fields_ok, piece_ok. intros H ???. bool_hyps. cbn. lia. Qed.

Lemma physical_bounds v size :
  is_bytes v -> size = zlen v -> leading_bytes_ok v size = true ->
  let h := read_physical v size in
  0 <= index h < 2 ^ 16 /\ 0 <= offset h < 2 ^ 16 /\ 0 < zlen (payload h).
Proof.
  intros Hv -> H h. unfold leading_bytes_ok in H. bool_hyps. subst h. cbn.
  pose proof (load16_bound v 6 Hv). pose proof (load16_bound v 10 Hv).
  unfold kGattPhysicalHeaderSize in *. rewrite zlen_slice by lia. lia.
Qed.

Lemma delete_insert_same {A} (l : list A) i x : delete i (<[i:=x]> l) = delete i l.
Proof. revert i. induction l as [|y l IH]; intros [|i]; cbn; [done.. |]. by rewrite IH. Qed.

Lemma ids_insert i a' a (l : list Assembly) :
  l !! i = Some a -> assembly_id a' = assembly_id a -> assembly_id <$> <[i:=a']> l = assembly_id <$> l.
Proof. intros Hl E. rewrite list_fmap_insert, E. apply list_insert_id. by rewrite list_lookup_fmap, Hl. Qed.

(** Storing another version of the assembly a call works on. *)
Lemma but_insert i a a' r :
  wf_but i a r -> assembly_id a' = assembly_id a -> total_length a' = total_length a ->
  wf_but i a' (r <| assemblies_ := <[i := a']> (assemblies_ r) |>).
Proof.
  intros [Hl Hs Hc Hb Ho Hcc Hco Hid] Ei Et.
  assert (i < length (assemblies_ r))%nat as Hi by (eapply lookup_lt_Some; done).
  constructor; cbn; rewrite ?Et; try done.
  - by apply list_lookup_insert_eq.
  - unfold zlen in *. by rewrite length_insert.
  - rewrite Hb. f_equal. rewrite list_fmap_insert, Et. symmetry. apply list_insert_id.
    by rewrite list_lookup_fmap, Hl.
  - by rewrite delete_insert_same.
  - by rewrite (ids_insert i a' a).
Qed.

Lemma but_is_wf i a r : wf_but i a r -> assembly_ok a -> wf r.
Proof.
  intros [Hl Hs Hc Hb Ho Hcc Hco Hid] Ha. constructor; try done.
  destruct (delete_split _ _ _ Hl) as (l1 & l2 & E & Ed & _). rewrite Ed in Ho. rewrite E.
  apply Forall_app in Ho as [? ?]. apply Forall_app. split; [done |]. by constructor.
Qed.

Lemma nodup_move {A} (l1 l2 g k : list A) x : NoDup ((l1 ++ x :: l2) ++ g ++ k) -> NoDup ((l1 ++ l2) ++ k ++ [x]).
Proof.
  rewrite <- (Permutation_middle l1). cbn. intros [Hx H]%NoDup_cons.
  rewrite app_assoc, <- Permutation_cons_append. apply NoDup_cons. split.
  - intros Hin. apply Hx. rewrite !elem_of_app in *. tauto.
  - revert H. rewrite (Permutation_app_comm g k), app_assoc. by intros [? _]%NoDup_app.
Qed.

Lemma but_completed_push i a r c :
  wf_but i a r -> completed_id c = assembly_id a -> completed_ok c ->
  wf (erase i (r <| completed_ := (if zlen (completed_ r) =? kGattMaxIncompleteMessages
                                   then drop 1 (completed_ r) else completed_ r) ++ [c] |>)).
Proof.
  intros Hbut Ec Hc. pose proof (erase_but i a r Hbut) as [Hcount Hbuf Hok Hcc Hco Hids].
  pose proof (but_lookup _ _ _ Hbut) as Hl. pose proof (but_ids _ _ _ Hbut) as Hid.
  destruct (delete_split _ _ _ Hl) as (l1 & l2 & E & Ed & _).
  unfold erase in *. cbn [assemblies_ over]. cbn. rewrite Hl in *. cbn in *.
  set (kept := if _ =? _ then _ else _).
  assert (exists gone, completed_ r = gone ++ kept /\ zlen kept <= 1) as (gone & Eg & Hk).
  { subst kept. destruct (Z.eqb_spec (zlen (completed_ r)) kGattMaxIncompleteMessages) as [e|n].
    - exists (take 1 (completed_ r)). split; [by rewrite take_drop |]. revert e. unfold zlen, kGattMaxIncompleteMessages.
      rewrite length_drop. lia.
    - exists []. split; [done |]. unfold kGattMaxIncompleteMessages in *. pose proof (zlen_nonneg (completed_ r)). lia. }
  clearbody kept. constructor; cbn; try done.
  - rewrite zlen_app, zlen_cons, zlen_nil. unfold kGattMaxIncompleteMessages. lia.
  - rewrite Eg in Hco. apply Forall_app in Hco as [_ ?]. apply Forall_app. split; [done |]. by constructor.
  - rewrite Ed. revert Hid. rewrite E, Eg, !fmap_app, fmap_cons. cbn. rewrite Ec. apply nodup_move.
Qed.

Lemma assemble_exact a completed :
  assemble a = Some completed -> exact_logical_message completed (zlen completed) (assembly_type a) = true.
Proof.
  unfold assemble. destruct (copy_pieces _ _ _) as [[cursor c]|]; [| done].
  destruct (negb _ || negb _) eqn:G; [done |]. bool_hyps. by intros [= <-].
Qed.

Lemma store_piece_wf h now i a metadata r :
  wf_but i a r -> zlen (pieces a) < fragment_count a <= 683 ->
  Forall (piece_ok (fragment_count a) (total_length a)) (pieces a) -> pairwise (pieces a) ->
  piece_ok (fragment_count a) (total_length a) (mkPiece (index h) (offset h) (payload h)) ->
  Forall (fun p => apart p (mkPiece (index h) (offset h) (payload h))) (pieces a) ->
  wf (store_piece h now i a metadata r).2.
Proof.
  intros Hbut Hcount Hok Hpair Hnew Hapart. unfold store_piece. cbv zeta.
  set (a' := over last_progress_ns _ _).
  assert (assembly_id a' = assembly_id a /\ total_length a' = total_length a /\ fragment_count a' = fragment_count a /\
          pieces a' = pieces a ++ [mkPiece (index h) (offset h) (payload h)]) as (Ei & Et & Ec & Ep) by done.
  clearbody a'. pose proof (but_insert i a a' r Hbut Ei Et) as Hbut'.
  set (r' := over assemblies_ _ r) in *. clearbody r'.
  destruct (zlen (pieces a') =? fragment_count a') eqn:E; cbn [negb snd]; bool_hyps.
  - destruct (assemble a') as [completed|] eqn:Ea; cbn [snd].
    + apply (but_completed_push i a' r'); [done | done |]. unfold completed_ok. cbn.
      by apply assemble_exact.
    + by eapply erase_but.
  - eapply but_is_wf; [done |]. unfold assembly_ok. rewrite Ec, Et, Ep in *.
    rewrite zlen_app, zlen_cons, zlen_nil in *. split; [by rewrite <- Et; eapply but_size |]. split; [lia |].
    split; [apply Forall_app; split; [done | by constructor] |].
    apply pairwise_snoc. split; [| done]. eapply Forall_impl; [exact Hapart |]. intros p ?. by symmetry.
Qed.

Lemma find_assembly_wf h now r :
  wf r -> kGattLogicalMinSize <= total h <= kGattLogicalMaxSize ->
  message_id h ∉ completed_id <$> completed_ r ->
  match find_assembly h now r with
  | inl (result, r') => wf r'
  | inr (i, r') => exists a, wf_but i a r' /\
      (assembly_ok a \/ pieces a = [] /\ fragment_count a = count h /\ total_length a = total h)
  end.
Proof.
  intros Hwf Ht Hid. unfold find_assembly. pose proof Hwf as [Hc Hb Ha Hcc Hco Hids].
  destruct (list_find _ _) as [[i a]|] eqn:Ef.
  - apply list_find_Some in Ef as (Hl & _ & _).
    destruct (negb _); [by apply erase_keeps_wf |]. exists a. split; [by apply wf_is_but |].
    left. by eapply Forall_lookup_1.
  - destruct (_ || _) eqn:G; [done |]. bool_hyps. apply list_find_None in Ef.
    eexists. split; [constructor; cbn |].
    + by apply list_lookup_middle.
    + done.
    + rewrite zlen_app, zlen_cons, zlen_nil. unfold kGattMaxIncompleteMessages in *. lia.
    + rewrite fmap_app, total_app, Hb. cbn. lia.
    + rewrite delete_take_drop, take_app_length, drop_ge by (rewrite length_app; cbn; lia). by rewrite app_nil_r.
    + done.
    + done.
    + rewrite fmap_app. cbn. rewrite <- app_assoc. cbn. rewrite <- Permutation_middle. apply NoDup_cons.
      split; [| done]. rewrite elem_of_app. intros [Hin | Hin]; [| done].
      apply list_elem_of_fmap in Hin as (b & Eb & Hb'). rewrite Forall_forall in Ef. by apply (Ef b).
    + by right.
Qed.

Lemma accept_wf generation now v size completed metadata r :
  (forall p, v = Some p -> is_bytes p /\ size = zlen p) -> wf r ->
  wf (accept generation now v size completed metadata r).2.
Proof.
  intros Hv Hwf. unfold accept. destruct v as [p|], completed; try done.
  specialize (Hv p eq_refl) as [Hp Hs]. cbv zeta.
  destruct (negb (generation =? _)); [done |]. destruct (negb (known_direction _)); [done |].
  destruct (leading_bytes_ok p size) eqn:Gl; [| done]. cbn [negb].
  pose proof (physical_bounds p size Hp Hs Gl) as (Hi & Ho & Hn).
  set (h := read_physical p size) in *. clearbody h.
  destruct (fields_ok h) eqn:Gf; [| done]. cbn [negb].
  pose proof (fields_ok_piece h Gf ltac:(lia) ltac:(lia) Hn) as (Hpiece & Ht & Hc).
  destruct (list_find _ (completed_ r)) as [[? prior]|] eqn:Ef; [by destruct (negb _) |].
  assert (message_id h ∉ completed_id <$> completed_ r) as Hid.
  { apply list_find_None in Ef. intros (c & Ec & Hin)%list_elem_of_fmap. rewrite Forall_forall in Ef.
    by apply (Ef c). }
  pose proof (find_assembly_wf h now r Hwf Ht Hid) as Hfind.
  destruct (find_assembly h now r) as [[? r']|[i r']]; [done |]. destruct Hfind as (a & Hbut & Ha).
  rewrite (but_lookup _ _ _ Hbut).
  destruct (negb _ || negb _) eqn:G; [by eapply erase_but |]. bool_hyps.
  assert (zlen (pieces a) < fragment_count a <= 683 /\ pairwise (pieces a) /\
          Forall (piece_ok (fragment_count a) (total_length a)) (pieces a)) as (Hcount & Hpair & Hok).
  { destruct Ha as [(_ & ? & ? & ?) | (-> & ? & ?)]; [done |]. cbn. rewrite zlen_nil.
    split; [lia | split; [done | constructor]]. }
  destruct (check_pieces h (pieces a)) as [result|] eqn:Gp.
  - destruct Ha as [Ha | (Hnil & _)]; [| by rewrite Hnil in Gp].
    destruct result; try (by eapply but_is_wf). by eapply erase_but.
  - apply store_piece_wf; try done; [| by apply check_pieces_new].
    replace (fragment_count a) with (count h) by done. by replace (total_length a) with (total h) by done.
Qed.

Lemma expire_loop_wf i now expired r : wf r -> wf (expire_loop i now expired r).2.
Proof.
  revert expired r. induction i as [|k IH]; intros expired r Hwf; cbn; [done |].
  destruct (assemblies_ r !! k); [| auto]. destruct (_ && _); auto using erase_keeps_wf.
Qed.

(** *** Runs *)

Inductive GattOp :=
  | OpAccept (generation now : Z) (value : bytes)
  | OpExpire (now : Z).

Definition gatt_step (r : GattReassembler) (op : GattOp) : GattReassembler :=
  match op with
  | OpAccept generation now value =>
    (accept generation now (Some value) (zlen value) (Some []) (Some metadata0) r).2
  | OpExpire now => (expire now r).2
  end.

Definition op_bytes (op : GattOp) : Prop :=
  match op with OpAccept _ _ value => is_bytes value | OpExpire _ => True end.

Definition run_gatt (generation direction : Z) (ops : list GattOp) : GattReassembler :=
  fold_left gatt_step ops (reassembler_new generation direction).

Lemma gatt_step_wf r op : op_bytes op -> wf r -> wf (gatt_step r op).
Proof.
  destruct op; cbn [op_bytes gatt_step]; intros Hb Hwf; [| by apply expire_loop_wf].
  apply accept_wf; [| done]. by intros p [= <-].
Qed.

Lemma fold_step_wf ops r : Forall op_bytes ops -> wf r -> wf (fold_left gatt_step ops r).
Proof. intros H. revert r. induction H; cbn; auto using gatt_step_wf. Qed.

Lemma new_wf generation direction : wf (reassembler_new generation direction).
Proof. constructor; cbn; try done; try constructor. Qed.

(** Whatever values arrive and expire, in whatever order, the reassembler
    works on at most two messages and remembers at most two completed ones; the
    bytes its unfinished pieces really hold are at most what it accounts for, and
    that is at most 8192; every remembered message is an exact one, and no message
    is both unfinished and completed. *)
Theorem reassembler_bounded (generation direction : Z) (ops : list GattOp) :
  Forall op_bytes ops ->
  let r := run_gatt generation direction ops in
  incomplete_count r <= 2 /\ zlen (completed_ r) <= 2 /\
  Prelude.total (held_bytes <$> assemblies_ r) <= buffered_bytes r <= kGattMaxBufferedBytes /\
  Forall (fun c => exact_logical_message (completed_logical c) (zlen (completed_logical c)) (completed_type c) = true)
    (completed_ r) /\
  NoDup ((assembly_id <$> assemblies_ r) ++ (completed_id <$> completed_ r)).
Proof.
  intros Hops r. assert (wf r) as Hwf by (apply fold_step_wf; [done | apply new_wf]). clearbody r.
  pose proof (wf_total_bound r Hwf) as Hbound. destruct Hwf as [Hc Hb Ha Hcc Hco Hid].
  unfold incomplete_count, buffered_bytes, kGattMaxIncompleteMessages, kGattMaxBufferedBytes in *.
  split; [done |]. split; [done |]. split; [| done]. split; [| lia]. rewrite Hb. clear -Ha.
  induction Ha as [|a l Ha Hl IH]; [done |]. rewrite !fmap_cons. cbn. pose proof (held_le_total a Ha). lia.
Qed.

(** ** Fragments reassemble *)

Lemma load16_write16 v rest off (p : bytes) :
  0 <= v < 2 ^ 16 -> 0 <= off -> drop (Z.to_nat off) p = write_be16 v ++ rest -> load16 p off = v.
Proof.
  intros Hv Ho E. unfold load16. rewrite <- (Z.add_0_r off) at 1. rewrite <- !at_drop by lia. rewrite E.
  unfold at_, write_be16. cbn. rewrite lor_shiftl_byte by apply u8_byte.
  unfold u8. rewrite Z.shiftr_div_pow2 by lia. rewrite (Z.mod_small (v / 2 ^ 8)) by (split; [apply Z.div_pos |
    apply Z.div_lt_upper_bound]; lia). pose proof (Z.div_mod v (2 ^ 8) ltac:(lia)).
  change (Z.to_nat 0) with 0%nat. change (Z.to_nat 1) with 1%nat. cbv iota. lia.
Qed.

Lemma zlen_write16 v : zlen (write_be16 v) = 2.
Proof. done. Qed.

Lemma filter_other id (l : list Assembly) :
  Forall (fun a => assembly_id a <> id) l -> filter (fun a => assembly_id a = id) l = [].
Proof. induction 1 as [|a l Ha Hl IH]; [done |]. by rewrite filter_cons_False. Qed.

Section Fragments.

Context (logical : bytes) (lt id cap : Z).
Hypothesis (Hbytes : is_bytes logical).
Hypothesis (Hsize : 40 <= zlen logical <= 4096).
Hypothesis (Htype : 0 < lt < 256).
Hypothesis (Hid : 0 < id < 2 ^ 16).
Hypothesis (Hcap : 20 <= cap <= 244).
Hypothesis (Hexact : exact_logical_message logical (zlen logical) lt = true).

Definition D : Z := cap - kGattPhysicalHeaderSize.
Definition L : Z := zlen logical.
Definition N : Z := (L + D - 1) / D.
Definition size_at (i : Z) : Z := Z.min D (L - i * D).
Definition piece_at (i : Z) : Piece := mkPiece i (i * D) (slice logical (i * D) (size_at i)).
Definition frag (i : Z) : bytes := physical_value logical lt id D N L i.

Lemma D_range : 6 <= D <= 230.
Proof using Hcap. unfold D, kGattPhysicalHeaderSize. lia. Qed.

Lemma N_spec : 0 < N <= 683 /\ (N - 1) * D < L <= N * D.
Proof using Hcap Hsize.
  pose proof D_range. unfold N, L in *. pose proof (Z.div_mod (zlen logical + D - 1) D ltac:(lia)).
  pose proof (Z.mod_pos_bound (zlen logical + D - 1) D ltac:(lia)). nia.
Qed.

Lemma size_at_range i : 0 <= i < N -> 0 < size_at i <= 230 /\ i * D + size_at i <= L /\ 0 <= i * D.
Proof using Hcap Hsize. intros Hi. pose proof D_range. pose proof N_spec. unfold size_at. nia. Qed.

Lemma frag_read i :
  0 <= i < N ->
  read_physical (frag i) (zlen (frag i)) =
    mkPhysical lt (Z.lor (if i =? 0 then 1 else 0) (if i + 1 =? N then 2 else 0)) id i N (i * D) L
      (slice logical (i * D) (size_at i)) /\
  zlen (frag i) = 14 + size_at i /\ is_bytes (frag i).
Proof using Hcap Hsize Hid Hbytes Htype.
  intros Hi. pose proof (size_at_range i Hi) as (Hs & Ht & Ho). pose proof N_spec. unfold L in *.
  assert (zlen (frag i) = 14 + size_at i) as Hlen.
  { unfold frag, physical_value. cbv zeta. fold (size_at i).
    rewrite !zlen_app, (zlen_slice logical (i * D)) by lia.
    rewrite !zlen_write16, !zlen_cons, zlen_nil. lia. }
  assert (forall off v rest, 0 <= v < 2 ^ 16 -> 0 <= off ->
    drop (Z.to_nat off) (frag i) = write_be16 v ++ rest -> load16 (frag i) off = v) as Hload.
  { intros off v rest Hv Ho' E. by eapply load16_write16. }
  split; [| split; [done |]].
  - unfold read_physical. rewrite Hlen. f_equal.
    + eapply Hload; [| lia |]; [exact (conj (Z.lt_le_incl _ _ (proj1 Hid)) (proj2 Hid)) | reflexivity].
    + eapply Hload; [| lia | reflexivity]. lia.
    + eapply Hload; [| lia | reflexivity]. lia.
    + erewrite Hload; [| | lia | reflexivity]; [| unfold u16; apply Z.mod_pos_bound; lia]. unfold u16.
      apply Z.mod_small. lia.
    + eapply Hload; [| lia | reflexivity]. lia.
    + unfold kGattPhysicalHeaderSize, slice. replace (14 + size_at i - 14) with (size_at i) by lia.
      change (drop (Z.to_nat 14) (frag i)) with (slice logical (i * D) (size_at i)).
      apply take_ge. fold (slice logical (i * D) (size_at i)).
      pose proof (zlen_slice logical (i * D) (size_at i)). unfold zlen in *. lia.
  - apply is_bytes_app. split.
    + repeat (apply Forall_cons_2; [unfold is_byte; first [lia | by destruct (i =? 0), (i + 1 =? N)] |]).
      by apply Forall_nil.
    + assert (forall v, is_bytes (write_be16 v)) as Hw.
      { intros v. repeat (apply Forall_cons_2; [apply u8_byte |]). by apply Forall_nil. }
      repeat (apply is_bytes_app; split; [apply Hw |]). by apply slice_bytes.
Qed.

Lemma frag_ok i :
  0 <= i < N -> leading_bytes_ok (frag i) (zlen (frag i)) = true /\
  fields_ok (read_physical (frag i) (zlen (frag i))) = true.
Proof using Hcap Hsize Hid Hbytes Htype.
  intros Hi. destruct (frag_read i Hi) as (-> & -> & _). pose proof (size_at_range i Hi) as (Hs & Ht & Ho).
  pose proof N_spec. unfold L in *. split.
  - unfold leading_bytes_ok, kGattPhysicalHeaderSize. repeat (apply andb_true_iff; split).
    + by apply Z.ltb_lt; lia.
    + by apply Z.leb_le; lia.
    + done.
    + change (at_ (frag i) 1) with lt. apply negb_true_iff, Z.eqb_neq. lia.
    + change (at_ (frag i) 2) with (Z.lor (if i =? 0 then 1 else 0) (if i + 1 =? N then 2 else 0)).
      by destruct (i =? 0), (i + 1 =? N).
    + done.
  - unfold fields_ok, kGattLogicalMinSize, kGattLogicalMaxSize. cbn -[Z.testbit Z.lor].
    rewrite zlen_slice by lia. repeat (apply andb_true_iff; split);
      rewrite ?negb_true_iff, ?Z.eqb_neq, ?Z.leb_le, ?Z.ltb_lt; try lia;
      by destruct (i =? 0), (i + 1 =? N).
Qed.

Lemma seqZ_sorted j m : 0 <= j -> j + m <= N -> StronglySorted by_offset (piece_at <$> seqZ j m).
Proof using Hcap.
  pose proof D_range. intros Hj Hm. remember (Z.to_nat m) as k eqn:Ek. revert j m Hj Hm Ek.
  induction k as [|k IH]; intros j m Hj Hm Ek.
  - rewrite seqZ_nil by lia. constructor.
  - rewrite seqZ_cons_first by lia. rewrite fmap_cons. constructor; [apply IH; lia |].
    apply Forall_fmap, Forall_seqZ. intros x ?. unfold by_offset, compose. cbn. nia.
Qed.

Lemma copy_all (k : nat) j completed :
  0 <= j -> j + Z.of_nat k = N -> zlen completed = L ->
  take (Z.to_nat (Z.min (j * D) L)) completed = take (Z.to_nat (Z.min (j * D) L)) logical ->
  copy_pieces (piece_at <$> seqZ j (Z.of_nat k)) (Z.min (j * D) L) completed = Some (L, logical).
Proof using Hcap Hsize.
  pose proof D_range. pose proof N_spec. revert j completed.
  induction k as [|k IH]; intros j completed Hj Hk Hl Ht.
  - rewrite seqZ_nil by lia. cbn. replace j with N in * by lia. rewrite Z.min_r in * by lia.
    do 2 f_equal. revert Ht. unfold L, zlen in *. by rewrite (take_ge completed), (take_ge logical) by (unfold zlen; lia).
  - rewrite seqZ_cons_first by lia. rewrite fmap_cons. cbn [copy_pieces piece_offset piece_at piece_bytes].
    assert (0 <= j < N) as Hj' by lia. pose proof (size_at_range j Hj') as (Hs & Hs' & Ho).
    rewrite Z.min_l in * by nia. rewrite Z.eqb_refl. cbn [negb]. unfold L in *.
    rewrite zlen_slice by lia.
    assert (j * D + size_at j = Z.min ((j + 1) * D) (zlen logical)) as E by (unfold size_at, L in *; nia).
    assert (length (slice logical (j * D) (size_at j)) = Z.to_nat (size_at j)) as Hls.
    { pose proof (zlen_slice logical (j * D) (size_at j)) as Hz. unfold zlen in *. lia. }
    replace (Z.of_nat (S k) - 1) with (Z.of_nat k) by lia. rewrite E. apply IH; [lia | lia | |].
    + unfold overwrite. unfold zlen in *. rewrite !length_app, length_take, length_drop, Hls. lia.
    + rewrite <- E. unfold overwrite. rewrite Ht, app_assoc.
      assert (take (Z.to_nat (j * D)) logical ++ slice logical (j * D) (size_at j) =
              take (Z.to_nat (j * D + size_at j)) logical) as Ej.
      { unfold slice. rewrite Z2Nat.inj_add by lia. by rewrite take_take_drop. }
      rewrite Ej. apply take_app_length'. rewrite length_take. unfold zlen in *. lia.
Qed.

Lemma assemble_all a :
  assembly_type a = lt -> total_length a = L -> pieces a ≡ₚ piece_at <$> seqZ 0 N -> assemble a = Some logical.
Proof using Hcap Hsize Hexact Htype.
  intros Et El Hp. pose proof N_spec. pose proof D_range. unfold assemble.
  assert (merge_sort by_offset (pieces a) = piece_at <$> seqZ 0 N) as ->.
  { apply (StronglySorted_unique_strong by_offset).
    - intros p q Hin Hq. rewrite merge_sort_Permutation, Hp in Hin.
      apply list_elem_of_fmap in Hin as (i & -> & Hi). apply list_elem_of_fmap in Hq as (j & -> & Hj).
      unfold by_offset. cbn. intros. assert (i = j) by nia. by subst.
    - apply StronglySorted_merge_sort; apply _.
    - apply seqZ_sorted; lia.
    - by rewrite merge_sort_Permutation. }
  replace N with (Z.of_nat (Z.to_nat N)) by lia.
  pose proof (copy_all (Z.to_nat N) 0 (replicate (Z.to_nat (total_length a)) 0)) as Hc.
  rewrite Z.mul_0_l, Z.min_l in Hc by (unfold L; lia). rewrite Hc; [| lia.. | |].
  - rewrite El, Z.eqb_refl, Et. unfold L. by rewrite Hexact.
  - rewrite El. unfold zlen at 1. rewrite length_replicate. unfold L. lia.
  - done.
Qed.

(** *** The message while its fragments arrive *)

Definition mine (r : GattReassembler) : list Assembly := filter (fun a => assembly_id a = id) (assemblies_ r).

(** The pieces of the indices [done], in their order of arrival, are stored. *)
Definition collecting (direction generation : Z) (done : list Z) (r : GattReassembler) : Prop :=
  direction_ r = direction /\ generation_ r = generation /\ wf r /\
  id ∉ completed_id <$> completed_ r /\
  NoDup done /\ Forall (fun i => 0 <= i < N) done /\ zlen done < N /\
  ((done = [] /\ mine r = [] /\ zlen (assemblies_ r) < 2) \/
   exists t, mine r = [mkAssembly lt id N L t (piece_at <$> done)]).

Lemma check_pieces_seen i done :
  0 <= i < N -> Forall (fun j => 0 <= j < N) done ->
  check_pieces (read_physical (frag i) (zlen (frag i))) (piece_at <$> done) =
    if decide (i ∈ done) then Some Duplicate else None.
Proof using Hcap Hsize Hid Hbytes Htype.
  intros Hi Hd. destruct (frag_read i Hi) as (-> & _ & _). pose proof N_spec. pose proof D_range.
  pose proof (size_at_range i Hi). unfold L in *.
  induction Hd as [|j done Hj Hd IH]; [by rewrite decide_False by apply not_elem_of_nil |].
  pose proof (size_at_range j Hj). unfold L in *. rewrite fmap_cons. cbn [check_pieces piece_index piece_offset piece_bytes piece_at index offset payload].
  destruct (Z.eqb_spec j i) as [-> | Hne].
  - rewrite decide_True by (by left). by rewrite !Z.eqb_refl, bool_decide_eq_true_2.
  - unfold ranges_overlap. rewrite !zlen_slice by lia. unfold size_at in *.
    assert (j * D + D <= i * D \/ i * D + D <= j * D) as Hap.
    { clear -Hne H0. destruct (Z.lt_total j i) as [? | [? | ?]]; [left | done | right]; nia. }
    rewrite (proj2 (andb_false_iff _ _)) by (rewrite !Z.ltb_ge; clear -Hap; lia).
    rewrite IH. destruct (decide (i ∈ done)) as [Hin | Hout].
    + by rewrite decide_True by (by right).
    + rewrite decide_False; [done |]. intros [? | ?]%elem_of_cons; [by subst | done].
Qed.

Lemma mine_find r a :
  mine r = [a] ->
  exists i, list_find (fun b => assembly_id b = id) (assemblies_ r) = Some (i, a) /\
    assemblies_ r !! i = Some a /\
    (forall a', assembly_id a' = id ->
       filter (fun b => assembly_id b = id) (<[i := a']> (assemblies_ r)) = [a']).
Proof.
  unfold mine. generalize (assemblies_ r). intros l. induction l as [|b l IH]; [done |].
  rewrite filter_cons. destruct (decide (assembly_id b = id)) as [e|n].
  - intros [= -> Hn]. exists 0%nat. split_and!; [cbn; by rewrite decide_True | done |].
    intros a' Ha'. change (<[0%nat := a']> (a :: l)) with (a' :: l). rewrite filter_cons_True by done. by rewrite Hn.
  - intros (i & Hf & Hl & Hi)%IH. exists (S i). split_and!; [cbn; by rewrite decide_False, Hf | done |].
    intros a' Ha'. change (<[S i := a']> (b :: l)) with (b :: <[i := a']> l). rewrite filter_cons_False by done. by apply Hi.
Qed.

Definition frag_header (i : Z) : Physical := read_physical (frag i) (zlen (frag i)).

Lemma frag_header_fields i :
  0 <= i < N ->
  logical_type (frag_header i) = lt /\ message_id (frag_header i) = id /\ index (frag_header i) = i /\
  count (frag_header i) = N /\ offset (frag_header i) = i * D /\ total (frag_header i) = L /\
  payload (frag_header i) = piece_bytes (piece_at i).
Proof using Hcap Hsize Hid Hbytes Htype. intros Hi. unfold frag_header. by destruct (frag_read i Hi) as (-> & _ & _). Qed.

(** The assembly a fragment is stored in. *)
Lemma find_own now direction generation done i r :
  0 <= i < N -> collecting direction generation done r ->
  exists k r1 t, find_assembly (frag_header i) now r = inr (k, r1) /\
    assemblies_ r1 !! k = Some (mkAssembly lt id N L t (piece_at <$> done)) /\
    completed_ r1 = completed_ r /\ direction_ r1 = direction /\ generation_ r1 = generation /\
    (done <> [] -> r1 = r) /\
    (forall a', assembly_id a' = id ->
       filter (fun b => assembly_id b = id) (<[k := a']> (assemblies_ r1)) = [a']).
Proof using Hcap Hsize Hid Hbytes Htype.
  intros Hi (Hd & Hg & Hwf & Hc & Hnd & Hf & Hz & Hmine).
  destruct (frag_header_fields i Hi) as (El & Eid & _ & Ec & _ & Et & _). unfold find_assembly.
  rewrite Eid, El, Ec, Et. destruct Hmine as [(-> & Hm & Hlen) | (t & Hm)].
  - pose proof (wf_total_bound r Hwf) as Hb. unfold mine in Hm.
    assert (Forall (fun a => assembly_id a <> id) (assemblies_ r)) as Hnone.
    { rewrite Forall_forall. intros a Ha Ea. apply (not_elem_of_nil a). rewrite <- Hm.
      by apply list_elem_of_filter. }
    rewrite (proj2 (list_find_None _ _)) by done.
    rewrite (proj2 (orb_false_iff _ _)).
    2:{ unfold kGattMaxIncompleteMessages, kGattMaxBufferedBytes, L. rewrite Z.leb_gt, Z.ltb_ge. lia. }
    eexists _, _, now. split; [done |]. cbn. split; [by apply list_lookup_middle |]. split_and!; try done.
    intros a' Ha'. rewrite insert_app_r_alt, Nat.sub_diag by done. cbn. rewrite filter_app, Hm, filter_cons_True by done.
    done.
  - destruct (mine_find r _ Hm) as (k & Hk & Hl & Hi'). rewrite Hk. cbn [assembly_type]. rewrite Z.eqb_refl.
    cbn [negb]. exists k, r, t. by split_and!.
Qed.

Lemma accept_own now direction generation done i r :
  known_direction direction = true -> 0 <= i < N -> collecting direction generation done r ->
  exists k r1 t, find_assembly (frag_header i) now r = inr (k, r1) /\
    accept generation now (Some (frag i)) (zlen (frag i)) (Some []) (Some metadata0) r =
    let a := mkAssembly lt id N L t (piece_at <$> done) in
    if decide (i ∈ done) then (Duplicate, nothing (Some metadata0), r)
    else store_piece (frag_header i) now k a (Some metadata0) r1.
Proof using Hcap Hsize Hid Hbytes Htype.
  intros Hdir Hi Hcol. destruct (find_own now _ _ _ _ _ Hi Hcol) as (k & r1 & t & Hf & Hl & _ & _ & _ & Hsame & _).
  destruct Hcol as (Hd & Hg & Hwf & Hc & Hnd & Hfd & Hz & Hmine).
  exists k, r1, t. split; [done |]. destruct (frag_ok i Hi) as (Hlead & Hfields).
  destruct (frag_header_fields i Hi) as (_ & Eid & _ & Ec & _ & Et & _).
  pose proof (check_pieces_seen i done Hi Hfd) as Hcheck. cbv zeta. unfold accept. fold (frag_header i) in *. cbv zeta.
  rewrite Hg, Z.eqb_refl, Hd, Hdir, Hlead, Hfields, Hf, Hl. cbn [negb fragment_count total_length pieces].
  rewrite Ec, Et, !Z.eqb_refl. cbn [negb orb]. rewrite (proj2 (list_find_None _ _)), Hcheck.
  - destruct (decide (i ∈ done)) as [Hin|]; [| done]. rewrite Hsame; [done |]. intros ->. by apply not_elem_of_nil in Hin.
  - rewrite Forall_forall. intros c Hin Ecid. apply Hc. apply list_elem_of_fmap. exists c. by rewrite <- Eid.
Qed.

Lemma all_indices done : NoDup done -> Forall (fun i => 0 <= i < N) done -> zlen done = N -> done ≡ₚ seqZ 0 N.
Proof using Hcap Hsize.
  intros Hn Hf Hz. pose proof N_spec. apply submseteq_length_Permutation.
  - apply NoDup_submseteq; [done |]. intros i Hi. rewrite Forall_forall in Hf. apply elem_of_seqZ.
    specialize (Hf i Hi). lia.
  - rewrite length_seqZ. unfold zlen in Hz. lia.
Qed.

Lemma own_step now direction generation done i r :
  known_direction direction = true -> 0 <= i < N -> collecting direction generation done r ->
  let '(result, out, r') := accept generation now (Some (frag i)) (zlen (frag i)) (Some []) (Some metadata0) r in
  if decide (i ∈ done) then result = Duplicate /\ out = nothing (Some metadata0) /\ r' = r
  else if decide (zlen done + 1 = N)
  then result = Complete /\ out = mkOutputs (Some logical) (Some (mkMetadata lt id (last_32 logical)))
  else result = Accepted /\ out = nothing (Some metadata0) /\ collecting direction generation (done ++ [i]) r'.
Proof using Hcap Hsize Hid Hbytes Htype Hexact.
  intros Hdir Hi Hcol.
  destruct (accept_own now _ _ _ _ _ Hdir Hi Hcol) as (k & r1 & t & Hf & Ha).
  destruct (find_own now _ _ _ _ _ Hi Hcol) as (k' & r1' & t' & Hf' & Hl & Hc' & Hd' & Hg' & _ & Hins).
  rewrite Hf in Hf'. injection Hf' as <- <-.
  pose proof Hcol as (Hd & Hg & Hwf & Hc & Hnd & Hfd & Hz & _).
  pose proof (accept_wf generation now (Some (frag i)) (zlen (frag i)) (Some []) (Some metadata0) r) as Hwf'.
  destruct (frag_read i Hi) as (_ & _ & Hfb).
  specialize (Hwf' ltac:(by intros p [= <-]) Hwf). revert Hwf'. rewrite Ha. cbv zeta.
  destruct (decide (i ∈ done)) as [Hin | Hout]; [done |].
  destruct (frag_header_fields i Hi) as (_ & _ & Ei & _ & Eo & _ & Ep).
  unfold store_piece. cbv zeta. rewrite Ei, Eo, Ep.
  change (mkPiece i (i * D) (piece_bytes (piece_at i))) with (piece_at i).
  set (a' := over last_progress_ns _ _).
  assert (a' = mkAssembly lt id N L now (piece_at <$> done ++ [i])) as -> by (subst a'; by rewrite fmap_app).
  set (r2 := over assemblies_ _ r1).
  assert (assemblies_ r2 = <[k := mkAssembly lt id N L now (piece_at <$> done ++ [i])]> (assemblies_ r1) /\
    completed_ r2 = completed_ r1 /\ direction_ r2 = direction_ r1 /\ generation_ r2 = generation_ r1)
    as (Ea2 & Ec2 & Ed2 & Eg2) by done.
  clearbody r2. cbn [pieces fragment_count assembly_type assembly_id].
  assert (zlen (piece_at <$> done ++ [i]) = zlen done + 1) as El by (unfold zlen; rewrite length_fmap, length_app; cbn; lia).
  rewrite El.
  assert (NoDup (done ++ [i])) as Hnd'.
  { rewrite <- Permutation_cons_append. by apply NoDup_cons. }
  assert (Forall (fun j => 0 <= j < N) (done ++ [i])) as Hfd' by (apply Forall_app; split; [done | by constructor]).
  destruct (decide (zlen done + 1 = N)) as [Elast | Hmore].
  - rewrite (proj2 (Z.eqb_eq _ _) Elast). cbn [negb]. intros _.
    rewrite assemble_all; [done | done | done |]. cbn [pieces]. f_equiv. apply all_indices; [done | done |].
    rewrite <- Elast, <- El. unfold zlen. by rewrite length_fmap.
  - rewrite (proj2 (Z.eqb_neq _ _) Hmore). cbn [negb]. intros Hwf2. split; [done |]. split; [done |].
    unfold collecting. rewrite Ed2, Eg2, Ec2, Hc'. split_and!; try done.
    + unfold zlen in *. rewrite length_fmap in El. lia.
    + right. exists now. unfold mine. rewrite Ea2. by apply Hins.
Qed.

(** *** Values of other messages *)

Definition same (r r' : GattReassembler) : Prop :=
  direction_ r' = direction_ r /\ generation_ r' = generation_ r /\ mine r' = mine r /\
  (id ∉ completed_id <$> completed_ r -> id ∉ completed_id <$> completed_ r').

Lemma same_refl r : same r r.
Proof using. done. Qed.

Lemma same_trans r1 r2 r3 : same r1 r2 -> same r2 r3 -> same r1 r3.
Proof using. intros (? & ? & ? & ?) (? & ? & ? & ?). unfold same. split_and!; auto; congruence. Qed.

Lemma filter_swap (l : list Assembly) i a (mid : list Assembly) :
  l !! i = Some a -> assembly_id a <> id -> Forall (fun b => assembly_id b <> id) mid ->
  filter (fun b => assembly_id b = id) (take i l ++ mid ++ drop (S i) l) = filter (fun b => assembly_id b = id) l.
Proof using.
  intros Hl Ha Hm. rewrite <- (take_drop_middle l i a Hl) at 3. rewrite !filter_app, filter_cons_False by done.
  by rewrite (filter_other id mid).
Qed.

Lemma erase_same i a r : assemblies_ r !! i = Some a -> assembly_id a <> id -> same r (erase i r).
Proof using.
  intros Hl Ha. unfold erase. rewrite Hl. unfold same, mine. cbn. split_and!; try done.
  rewrite delete_take_drop. by apply (filter_swap _ _ a []).
Qed.

Lemma find_assembly_same h now r :
  message_id h <> id ->
  match find_assembly h now r with
  | inl (_, r') => same r r'
  | inr (i, r') => same r r' /\ forall a, assemblies_ r' !! i = Some a -> assembly_id a = message_id h
  end.
Proof using.
  intros Hne. unfold find_assembly. destruct (list_find _ _) as [[i a]|] eqn:Ef.
  - apply list_find_Some in Ef as (Hl & Ea & _).
    destruct (negb _); [by eapply erase_same; [exact Hl | congruence] |]. split; [done |]. congruence.
  - destruct (_ || _); [done |]. split.
    + unfold same, mine. cbn. split_and!; try done. rewrite filter_app, filter_cons_False by done. apply app_nil_r.
    + intros a. cbn. rewrite list_lookup_middle by done. by intros [= <-].
Qed.

Lemma store_piece_same h now i a metadata r :
  assemblies_ r !! i = Some a -> assembly_id a <> id -> same r (store_piece h now i a metadata r).2.
Proof using.
  intros Hl Ha. unfold store_piece. cbv zeta. set (a' := over last_progress_ns _ _).
  assert (assembly_id a' = assembly_id a) as Ei by done. clearbody a'.
  assert (same r (r <| assemblies_ := <[i := a']> (assemblies_ r) |>)) as Hs.
  { unfold same, mine. cbn. split_and!; try done.
    rewrite insert_take_drop by (by eapply lookup_lt_Some). apply (filter_swap _ _ a [a']); [done | done |].
    constructor; [congruence | constructor]. }
  set (r' := over assemblies_ _ r) in *.
  assert (assemblies_ r' !! i = Some a') as Hl' by (cbn; apply list_lookup_insert_eq; by eapply lookup_lt_Some).
  clearbody r'. destruct (negb _); [done |]. assert (assembly_id a' <> id) as Ha' by congruence.
  destruct (assemble a') as [completed|]; cbn [snd].
  - eapply same_trans; [exact Hs |].
    eapply same_trans; [| eapply erase_same; [cbn; exact Hl' | done]].
    unfold same, mine. cbn. split_and!; try done. intros Hc.
    rewrite fmap_app, elem_of_app. cbn. intros [Hin | Hin%list_elem_of_singleton]; [| congruence].
    apply Hc. revert Hin. destruct (_ =? _); [| done]. intros Hin.
    rewrite <- (take_drop 1 (completed_ r')), fmap_app, elem_of_app. by right.
  - eapply same_trans; [exact Hs |]. by eapply erase_same.
Qed.

Lemma accept_same generation now v size completed metadata r :
  load16 v 4 <> id -> same r (accept generation now (Some v) size completed metadata r).2.
Proof using.
  intros Hne. unfold accept. destruct completed; [| apply same_refl]. cbv zeta.
  destruct (negb (generation =? _)); [apply same_refl |]. destruct (negb (known_direction _)); [apply same_refl |].
  destruct (negb (leading_bytes_ok v size)); [apply same_refl |].
  assert (message_id (read_physical v size) <> id) as Hid' by done.
  set (h := read_physical v size) in *. clearbody h. destruct (negb (fields_ok h)); [apply same_refl |].
  destruct (list_find _ (completed_ r)) as [[? prior]|]; [by destruct (negb _) |].
  pose proof (find_assembly_same h now r Hid') as Hf. destruct (find_assembly h now r) as [[? r']|[i r']]; [done |].
  destruct Hf as (Hs & Hi). destruct (assemblies_ r' !! i) as [a|] eqn:Hl; [| done].
  specialize (Hi a eq_refl). assert (assembly_id a <> id) as Ha by congruence.
  pose proof (same_trans _ _ _ Hs (erase_same _ _ _ Hl Ha)) as He.
  destruct (_ || _); [done |]. destruct (check_pieces h (pieces a)) as [[]|]; try done.
  eapply same_trans; [exact Hs |]. by apply store_piece_same.
Qed.

(** *** A run of calls *)

Lemma frag_inj i j : 0 <= i < N -> 0 <= j < N -> frag i = frag j -> i = j.
Proof using Hcap Hsize Hid Hbytes Htype.
  intros Hi Hj E. destruct (frag_header_fields i Hi) as (_ & _ & <- & _).
  destruct (frag_header_fields j Hj) as (_ & _ & <- & _). unfold frag_header. by rewrite E.
Qed.

Lemma add_index done i (seen : list bytes) j :
  0 <= i < N -> 0 <= j < N -> (forall j, 0 <= j < N -> j ∈ done <-> frag j ∈ seen) ->
  j ∈ (if decide (i ∈ done) then done else done ++ [i]) <-> frag j ∈ seen ++ [frag i].
Proof using Hcap Hsize Hid Hbytes Htype.
  intros Hi Hj Hin. rewrite elem_of_app, list_elem_of_singleton, <- Hin by done.
  assert (frag j = frag i <-> j = i) as -> by (split; [by apply frag_inj | by intros ->]).
  destruct (decide (i ∈ done)); [| by rewrite elem_of_app, list_elem_of_singleton].
  split; [by left | by intros [? | ->]].
Qed.

Definition accept_all (generation : Z) (calls : list (Z * bytes)) (r : GattReassembler) : GattReassembler :=
  fold_left (fun r c => (accept generation c.1 (Some c.2) (zlen c.2) (Some []) (Some metadata0) r).2) calls r.

Lemma accept_all_snoc generation calls c r :
  accept_all generation (calls ++ [c]) r =
    (accept generation c.1 (Some c.2) (zlen c.2) (Some []) (Some metadata0) (accept_all generation calls r)).2.
Proof using. unfold accept_all. by rewrite fold_left_app. Qed.

Definition fragments : list bytes := frag <$> seqZ 0 N.

Lemma elem_of_fragments f : f ∈ fragments <-> exists i, 0 <= i < N /\ f = frag i.
Proof using.
  unfold fragments. rewrite list_elem_of_fmap. setoid_rewrite elem_of_seqZ. split.
  - intros (i & -> & Hi). exists i. split; [lia | done].
  - intros (i & Hi & ->). exists i. split; [done | lia].
Qed.

Definition call_ok (c : Z * bytes) : Prop := is_bytes c.2 /\ (c.2 ∈ fragments \/ load16 c.2 4 <> id).

Lemma foreign_step now v direction generation done r :
  is_bytes v -> load16 v 4 <> id -> done <> [] -> collecting direction generation done r ->
  collecting direction generation done
    (accept generation now (Some v) (zlen v) (Some []) (Some metadata0) r).2.
Proof using.
  intros Hv Hne Hdone (Hd & Hg & Hwf & Hc & Hnd & Hfd & Hz & Hmine).
  pose proof (accept_wf generation now (Some v) (zlen v) (Some []) (Some metadata0) r) as Hwf'.
  specialize (Hwf' ltac:(by intros p [= <-]) Hwf).
  destruct (accept_same generation now v (zlen v) (Some []) (Some metadata0) r Hne) as (Hd' & Hg' & Hm' & Hc').
  unfold collecting. rewrite Hd', Hg', Hm'. split_and!; auto. right. by destruct Hmine as [(? & _) | ?].
Qed.

Lemma collecting_calls direction generation r calls :
  known_direction direction = true -> collecting direction generation [] r -> Forall call_ok calls ->
  (forall c, head calls = Some c -> c.2 ∈ fragments) ->
  (exists f, f ∈ fragments /\ f ∉ calls.*2) ->
  exists got, collecting direction generation got (accept_all generation calls r) /\
    (calls <> [] -> got <> []) /\
    forall i, 0 <= i < N -> i ∈ got <-> frag i ∈ calls.*2.
Proof using Hcap Hsize Hid Hbytes Htype Hexact.
  intros Hdir Hr. induction calls as [|c calls IH] using rev_ind; intros Hok Hhead Hmiss.
  - exists []. split; [done |]. split; [done |]. intros i Hi. cbn. split; intros H; by apply not_elem_of_nil in H.
  - apply Forall_app in Hok as [Hok Hc]. apply Forall_singleton in Hc as (Hcb & Hc).
    destruct Hmiss as (f & Hf & Hmiss). rewrite fmap_app, not_elem_of_app in Hmiss. destruct Hmiss as (Hm1 & Hm2).
    destruct IH as (got & Hcol & Hne & Hin); [done | | by exists f |].
    { intros c' Hc'. apply Hhead. by destruct calls. }
    rewrite accept_all_snoc.
    destruct (decide (c.2 ∈ fragments)) as [Hcf | Hcf].
    + apply elem_of_fragments in Hcf as (i & Hi & Ec). rewrite Ec in *.
      pose proof (own_step c.1 _ _ _ _ _ Hdir Hi Hcol) as Hstep.
      destruct (accept _ _ _ _ _ _ _) as [[result out] r']. cbn [snd].
      assert (forall j, 0 <= j < N -> j ∈ (if decide (i ∈ got) then got else got ++ [i]) <-> frag j ∈ (calls ++ [c]).*2) as Hset.
      { intros j Hj. rewrite fmap_app. cbn. rewrite Ec. by apply add_index. }
      destruct (decide (i ∈ got)) as [Hid' | Hid'].
      * destruct Hstep as (_ & _ & ->). exists got. split; [done |]. split; [| done].
        intros _ ->. by apply not_elem_of_nil in Hid'.
      * destruct (decide (zlen got + 1 = N)) as [Elast | Hmore].
        -- exfalso. apply elem_of_fragments in Hf as (j & Hj & ->).
           assert (got ++ [i] ≡ₚ seqZ 0 N) as Hall.
           { destruct Hcol as (_ & _ & _ & _ & Hnd & Hfd & _). apply all_indices.
             - rewrite <- Permutation_cons_append. by apply NoDup_cons.
             - apply Forall_app. split; [done |]. by constructor.
             - rewrite zlen_app, zlen_cons, zlen_nil. lia. }
           assert (j ∈ got ++ [i]) as Hj' by (rewrite Hall; apply elem_of_seqZ; lia).
           apply (Hset j Hj) in Hj'. rewrite fmap_app, elem_of_app in Hj'. by destruct Hj'.
        -- destruct Hstep as (_ & _ & Hcol'). exists (got ++ [i]). split; [done |]. split; [| done].
           intros _ E. by apply app_nil in E as [_ ?].
    + destruct Hc as [? | Hc]; [done |].
      assert (calls <> []) as Hcalls by (intros ->; apply Hcf, Hhead; done).
      exists got. split; [apply foreign_step; auto |]. split; [auto |].
      intros i Hi. rewrite fmap_app, elem_of_app, <- Hin by done. cbn. rewrite list_elem_of_singleton.
      split; [tauto |]. intros [? | E]; [done |]. exfalso. apply Hcf. rewrite <- E. apply elem_of_fragments. by exists i.
Qed.

End Fragments.

Lemma run_generation generation direction ops :
  generation_ (run_gatt generation direction ops) = generation /\
  direction_ (run_gatt generation direction ops) = direction.
Proof.
  unfold run_gatt. induction ops as [|op ops IH] using rev_ind; [done |]. rewrite fold_left_app.
  cbn [fold_left]. set (r := fold_left gatt_step ops _) in *. clearbody r.
  enough (generation_ (gatt_step r op) = generation_ r /\ direction_ (gatt_step r op) = direction_ r) by intuition congruence.
  destruct op as [g now value | now]; cbn [gatt_step].
  - by destruct (accept_same (load16 value 4 + 1) g now value (zlen value) (Some []) (Some metadata0) r ltac:(lia))
      as (? & ? & _).
  - unfold expire. generalize 0. clear. generalize (length (assemblies_ r)). intros n. revert r.
    induction n as [|n IH]; intros r z; cbn [expire_loop]; [done |]. destruct (assemblies_ r !! n) as [a|] eqn:E; [| apply IH].
    destruct (_ && _); [| apply IH]. destruct (IH (erase n r) (z + 1)) as [-> ->]. unfold erase. by rewrite E.
Qed.

Lemma fragment_accepted logical lt id cap fs :
  fragment_gatt_logical (Some logical) (zlen logical) lt id cap (Some []) = (Accepted, Some fs) -> 0 <= lt < 256 -> 0 <= id ->
  40 <= zlen logical <= 4096 /\ 0 < lt < 256 /\ 0 < id /\ 20 <= cap /\
  exact_logical_message logical (zlen logical) lt = true /\
  fs = fragments logical lt id cap.
Proof.
  intros H Hlt Hid. unfold fragment_gatt_logical, kGattLogicalMinSize, kGattLogicalMaxSize in H.
  destruct (cap <? 20) eqn:G1; [done |].
  destruct (_ || _) eqn:G2 in H; [done |]. destruct (_ || _ || negb _) eqn:G3 in H; [done |]. bool_hyps.
  destruct (_ || _ || _) eqn:G4 in H; [done |]. bool_hyps. injection H as <-.
  unfold fragments, frag, N, L, D. unfold u16 at 1 2 3.
  pose proof (Z.div_pos (zlen logical + (cap - kGattPhysicalHeaderSize) - 1) (cap - kGattPhysicalHeaderSize)) as Hpos.
  unfold kGattPhysicalHeaderSize in *. rewrite !Z.mod_small by lia.
  split_and!; try done; lia.
Qed.

(** C9. Reassembly is the inverse of fragmentation.  Take any reassembler reached
    by any calls, with room for a message whose id it does not know, and let the
    fragments of a message arrive in any order, repeated, and interleaved with
    arbitrary values of other messages.  Until the last missing fragment every
    fragment is accepted or recognised as a repeat; the moment the last missing
    fragment arrives the call completes with exactly the message, its type, its
    id and its hash. *)
Theorem fragments_reassemble (generation direction : Z) (ops : list GattOp) (logical : bytes)
    (lt id cap : Z) (fs : list bytes) (calls : list (Z * bytes)) (now : Z) (last : bytes) :
  Forall op_bytes ops -> is_bytes logical -> 0 <= lt < 256 -> 0 <= id < 2 ^ 16 -> cap <= 244 ->
  known_direction direction = true ->
  fragment_gatt_logical (Some logical) (zlen logical) lt id cap (Some []) = (Accepted, Some fs) ->
  let r := run_gatt generation direction ops in
  incomplete_count r < 2 ->
  id ∉ (assembly_id <$> assemblies_ r) ++ (completed_id <$> completed_ r) ->
  Forall (fun c => is_bytes c.2 /\ (c.2 ∈ fs \/ load16 c.2 4 <> id)) calls ->
  (forall c, head calls = Some c -> c.2 ∈ fs) ->
  (exists f, f ∈ fs /\ f ∉ calls.*2) -> last ∈ fs ->
  let '(result, out, _) :=
    accept generation now (Some last) (zlen last) (Some []) (Some metadata0) (accept_all generation calls r) in
  if decide (Forall (fun f => f ∈ calls.*2 ++ [last]) fs)
  then result = Complete /\ out = mkOutputs (Some logical) (Some (mkMetadata lt id (last_32 logical)))
  else (result = Accepted \/ result = Duplicate) /\ out = nothing (Some metadata0).
Proof.
  intros Hops Hb Hlt Hid Hcap Hdir Hfrag r Hcount Hnew Hcalls Hhead Hmiss Hlast.
  destruct (fragment_accepted _ _ _ _ _ Hfrag Hlt ltac:(lia)) as (Hs & Ht & Hid' & Hc' & Hex & ->).
  assert (wf r) as Hwf by (apply fold_step_wf; [done | apply new_wf]).
  destruct (run_generation generation direction ops) as [Hg Hd]. fold r in Hg, Hd.
  assert (0 < id < 2 ^ 16) as Hidr by lia. assert (20 <= cap <= 244) as Hcapr by lia.
  rewrite elem_of_app in Hnew. pose proof (N_spec logical cap Hs Hcapr) as HN.
  assert (collecting logical lt id cap direction generation [] r) as Hcol.
  { unfold collecting. split_and!; [done | done | done | tauto | by apply NoDup_nil | by apply Forall_nil |
      rewrite zlen_nil; lia |].
    left. split; [done |]. split; [| done]. unfold mine.
    assert (Forall (fun a => assembly_id a <> id) (assemblies_ r)) as Hnone.
    { rewrite Forall_forall. intros a Ha Ea. apply Hnew. left. apply list_elem_of_fmap. by exists a. }
    by apply filter_other. }
  destruct (collecting_calls logical lt id cap Hb Hs Ht Hidr Hcapr Hex direction generation r calls Hdir Hcol
    Hcalls Hhead Hmiss) as (got & Hgot & _ & Hin).
  apply (elem_of_fragments logical lt id cap) in Hlast as (i & Hi & ->).
  pose proof (own_step logical lt id cap Hb Hs Ht Hidr Hcapr Hex now _ _ _ _ _ Hdir Hi Hgot) as Hstep.
  destruct (accept _ _ _ _ _ _ _) as [[result out] r'].
  assert (forall j, 0 <= j < N logical cap -> j ∈ (if decide (i ∈ got) then got else got ++ [i]) <->
    frag logical lt id cap j ∈ calls.*2 ++ [frag logical lt id cap i]) as Hset by (intros j Hj; by apply add_index).
  destruct Hgot as (_ & _ & _ & _ & Hnd & Hfd & Hz & _).
  destruct (decide (i ∈ got)) as [Hi' | Hi'].
  - destruct Hstep as (-> & -> & _). rewrite decide_False; [auto |]. intros Hall. rewrite Forall_forall in Hall.
    destruct Hmiss as (f & Hf & Hnf). specialize (Hall f Hf). apply elem_of_app in Hall as [? | ->%list_elem_of_singleton]; [done |].
    apply Hnf. by apply Hin.
  - destruct (decide (zlen got + 1 = N logical cap)) as [Elast | Hmore].
    + rewrite decide_True; [done |]. rewrite Forall_forall. intros f (j & Hj & ->)%(elem_of_fragments logical lt id cap).
      apply (Hset j Hj). rewrite (all_indices logical cap Hs Hcapr); [apply elem_of_seqZ; lia | | |].
      * rewrite <- Permutation_cons_append. by apply NoDup_cons.
      * apply Forall_app. split; [done |]. by constructor.
      * rewrite zlen_app, zlen_cons, zlen_nil. lia.
    + destruct Hstep as (-> & -> & _). rewrite decide_False; [auto |]. intros Hall. rewrite Forall_forall in Hall.
      assert (seqZ 0 (N logical cap) ⊆+ got ++ [i]) as Hsub.
      { apply NoDup_submseteq; [apply NoDup_seqZ |]. intros j Hj%elem_of_seqZ. apply (Hset j ltac:(lia)), Hall.
        apply elem_of_fragments. exists j. split; [lia | done]. }
      apply submseteq_length in Hsub. rewrite length_seqZ, length_app in Hsub. cbn in Hsub. unfold zlen in *. lia.
Qed.

(** A message of 70 bytes in three fragments, the last one first and twice, with
    a fragment of another message between. *)
Definition demo_message : bytes :=
  default [] (encode_gatt_logical_message 4 (Some (replicate 30 7)) 30 (Some [])).2.
Definition demo_fragments : list bytes :=
  default [] (fragment_gatt_logical (Some demo_message) (zlen demo_message) 4 300 40 (Some [])).2.
Definition other_fragments : list bytes :=
  default [] (fragment_gatt_logical (Some demo_message) (zlen demo_message) 4 301 60 (Some [])).2.
Definition demo_fragment (i : nat) : bytes := nth i demo_fragments [].
Definition demo_calls : list (Z * bytes) :=
  [(1, demo_fragment 2); (2, nth 0 other_fragments []); (3, demo_fragment 2); (4, demo_fragment 0)].

Lemma demo_fragments_are : demo_fragments = [demo_fragment 0; demo_fragment 1; demo_fragment 2].
Proof. vm_compute. reflexivity. Qed.

Lemma demo_membership :
  demo_fragment 0 ∈ demo_fragments /\ demo_fragment 1 ∈ demo_fragments /\ demo_fragment 2 ∈ demo_fragments /\
  Forall (fun f => f ∈ demo_calls.*2 ++ [demo_fragment 1]) demo_fragments.
Proof.
  rewrite demo_fragments_are. unfold demo_calls. cbn [fmap list_fmap snd app].
  generalize (demo_fragment 0) (demo_fragment 1) (demo_fragment 2) (nth 0 other_fragments []). intros f0 f1 f2 o.
  rewrite !Forall_cons, Forall_nil. rewrite !elem_of_cons. tauto.
Qed.

Lemma demo_missing : demo_fragment 1 ∉ demo_calls.*2.
Proof.
  intros Hin. apply (list_elem_of_fmap_2 (fun l => at_ l 7)) in Hin. revert Hin.
  assert (at_ (demo_fragment 1) 7 = 1) as -> by (vm_compute; reflexivity).
  assert ((fun l => at_ l 7) <$> demo_calls.*2 = [2; 0; 2; 0]) as -> by (vm_compute; reflexivity).
  rewrite !elem_of_cons. intros [? | [? | [? | [? | H]]]]; try discriminate. by apply not_elem_of_nil in H.
Qed.

Lemma fragments_reassemble_witness :
  (accept 5 6 (Some (demo_fragment 1)) (zlen (demo_fragment 1)) (Some []) (Some metadata0)
     (accept_all 5 demo_calls (run_gatt 5 1 []))).1 =
  (Complete, mkOutputs (Some demo_message) (Some (mkMetadata 4 300 (last_32 demo_message)))).
Proof.
  pose proof (fragments_reassemble 5 1 [] demo_message 4 300 40 demo_fragments demo_calls 6 (demo_fragment 1)) as H.
  destruct demo_membership as (H0 & H1 & H2 & Hall).
  specialize (H ltac:(constructor) ltac:(apply is_bytes_compute; vm_compute; reflexivity) ltac:(lia) ltac:(lia) ltac:(lia)
    eq_refl ltac:(vm_compute; reflexivity) ltac:(vm_compute; reflexivity) ltac:(apply not_elem_of_nil)).
  revert H. destruct (accept 5 6 _ _ _ _ _) as [[result out] r']. intros H. cbn [fst].
  rewrite decide_True in H by exact Hall. revert H0 H1 H2 H. generalize demo_missing. clear. intros Hm H0 H1 H2 H.
  destruct H as [Hr Ho].
  - unfold demo_calls. repeat (apply Forall_cons_2; [split; [apply is_bytes_compute; vm_compute; reflexivity |] |]).
    5: by apply Forall_nil.
    1, 3: left; exact H2.
    2: left; exact H0.
    right. vm_compute. discriminate.
  - intros c [= <-]. exact H2.
  - exists (demo_fragment 1). split; [exact H1 | exact Hm].
  - exact H1.
  - by rewrite Hr, Ho.
Defined.

Definition demo_ops : list GattOp := ((fun c => OpAccept 5 c.1 c.2) <$> demo_calls) ++ [OpExpire 6000000000].

Lemma reassembler_bounded_witness : incomplete_count (run_gatt 5 1 demo_ops) <= 2.
Proof.
  assert (Forall op_bytes demo_ops) as Hops.
  { unfold demo_ops, demo_calls. cbn [fmap list_fmap app fst snd].
    repeat (apply Forall_cons_2; [first [exact I | apply is_bytes_compute; vm_compute; reflexivity] |]).
    by apply Forall_nil. }
  destruct (reassembler_bounded 5 1 demo_ops Hops) as [H _]. exact H.
Defined.
