(* ===== verification/QuicStreamGate.v ===== *)
(** * QUIC stream gate ([shared/src/session/wire/quic_stream_gate.{hpp,cpp}])

    Before any application stream, a connection carries one stream per binding
    step, opened by the connector: a prebind stream when the same path is
    reconnected, then the bind stream.  The gate checks the preamble, the number,
    the sizes and the leading bytes of the records each side sends, and lets
    application streams pass once the bind stream is finished on both sides.
    Running out of memory is not modelled. *)

From S2P Require Import Prelude.

(** ** Definitions *)

Inductive BindingKindV1 := Initial | SamePathReconnect | NewBearerReconnect.

(** [TlsSideV1] is a byte that may hold any value. *)
Definition Connector : Z := 1.
Definition Listener : Z := 2.

Inductive QuicGateResult :=
  | NeedMore | Accepted | PrebindComplete | ChannelBound | Closed | Backpressure | ProtocolViolation
  | InvalidArgument.

#[global] Instance gate_result_eq_dec : EqDecision QuicGateResult.
Proof. solve_decision. Defined.

Record ExpectedRecord := mkExpected { expected_size : Z; first_byte : Z }.

Definition kInitiatorPrebind : list ExpectedRecord :=
  [mkExpected 356 1; mkExpected 356 3; mkExpected 289 13; mkExpected 181 20; mkExpected 173 14].
Definition kResponderPrebind : list ExpectedRecord :=
  [mkExpected 356 2; mkExpected 356 4; mkExpected 181 20; mkExpected 289 13; mkExpected 173 14].
Definition kConnectorBind : list ExpectedRecord := [mkExpected 248 0; mkExpected 128 0].
Definition kListenerBind : list ExpectedRecord := [mkExpected 248 0].

Definition valid_side (side : Z) : bool := (side =? Connector) || (side =? Listener).

Inductive Phase := ExpectPrebind | Prebind | ExpectBind | Bind | Bound | Failed.

#[global] Instance phase_eq_dec : EqDecision Phase.
Proof. solve_decision. Defined.

Record Direction := mkDirection { buffered : bytes; record_index : Z; fin : bool }.
Definition direction0 : Direction := mkDirection [] 0 false.

Record QuicStreamGate := mkGate {
  initiator_is_connector_ : bool;
  phase_ : Phase;
  stream_id_ : Z;
  prior_stream_id_ : Z;
  preamble_complete_ : bool;
  connector_ : Direction;
  listener_ : Direction;
}.

#[global] Instance eta_direction : Eta Direction := fun d => mkDirection (buffered d) (record_index d) (fin d).
#[global] Instance eta_gate : Eta QuicStreamGate := fun g =>
  mkGate (initiator_is_connector_ g) (phase_ g) (stream_id_ g) (prior_stream_id_ g) (preamble_complete_ g)
    (connector_ g) (listener_ g).

(** An unknown binding kind leaves the gate failed from the start. *)
Definition gate_new (binding_kind : option BindingKindV1) (pair_initiator_is_connector : bool) : QuicStreamGate :=
  mkGate pair_initiator_is_connector
    (match binding_kind with
     | Some SamePathReconnect => ExpectPrebind
     | Some Initial | Some NewBearerReconnect => ExpectBind
     | None => Failed
     end) 0 0 false direction0 direction0.

Definition fail (result : QuicGateResult) (g : QuicStreamGate) : QuicGateResult * QuicStreamGate :=
  (result, g <| connector_ := (connector_ g) <| buffered := [] |> |>
             <| listener_ := (listener_ g) <| buffered := [] |> |>
             <| phase_ := Failed |>).

Definition open_bidi (stream_id opener : Z) (g : QuicStreamGate) : QuicGateResult * QuicStreamGate :=
  if negb (valid_side opener) || (stream_id =? 0) then fail InvalidArgument g
  else if (negb (bool_decide (phase_ g = ExpectPrebind)) && negb (bool_decide (phase_ g = ExpectBind))) ||
          negb (opener =? Connector) || (stream_id =? prior_stream_id_ g)
  then fail ProtocolViolation g
  else
    (Accepted,
     g <| stream_id_ := stream_id |> <| connector_ := direction0 |> <| listener_ := direction0 |>
       <| preamble_complete_ := false |>
       <| phase_ := if decide (phase_ g = ExpectPrebind) then Prebind else Bind |>).

Definition direction (sender : Z) (g : QuicStreamGate) : Direction :=
  if sender =? Connector then connector_ g else listener_ g.

(** Assignment through the reference [direction(sender)]. *)
Definition set_direction (sender : Z) (d : Direction) (g : QuicStreamGate) : QuicStreamGate :=
  if sender =? Connector then g <| connector_ := d |> else g <| listener_ := d |>.

Definition expected_count (sender : Z) (g : QuicStreamGate) : Z :=
  if decide (phase_ g = Bind) then
    if sender =? Connector then zlen kConnectorBind else zlen kListenerBind
  else zlen kInitiatorPrebind.

(** The records a side has to send in a phase. *)
Definition expected_records (phase : Phase) (initiator_is_connector : bool) (sender : Z) : list ExpectedRecord :=
  if decide (phase = Bind) then
    if sender =? Connector then kConnectorBind else kListenerBind
  else if eqb (sender =? Connector) initiator_is_connector then kInitiatorPrebind else kResponderPrebind.

(** The record loop on a direction; [None] is a protocol violation, the [bool]
    whether a record was accepted, and the result [NeedMore] of the early return
    is [Some NeedMore].  The fuel is the length of the buffer. *)
Fixpoint parse_loop (fuel : nat) (expected : list ExpectedRecord) (count : Z) (value : Direction) (accepted : bool)
    : option QuicGateResult * Direction :=
  let stop := (Some (if accepted then Accepted else NeedMore), value) in
  match fuel with
  | O => stop
  | S fuel' =>
    if zlen (buffered value) <? 4 then stop
    else if count <=? record_index value then (None, value)
    else
      let e := aget (mkExpected 0 0) expected (record_index value) in
      let size := load32 (buffered value) 0 in
      if negb (size =? expected_size e) then (None, value)
      else
        let total := size + 4 in
        if zlen (buffered value) <? total then (Some NeedMore, value)
        else if negb (first_byte e =? 0) && negb (at_ (buffered value) 4 =? first_byte e) then (None, value)
        else
          parse_loop fuel' expected count
            (mkDirection (drop (Z.to_nat total) (buffered value)) (record_index value + 1) (fin value)) true
  end.

Definition parse (sender : Z) (g : QuicStreamGate) : QuicGateResult * QuicStreamGate :=
  let value := direction sender g in
  match parse_loop (S (length (buffered value))) (expected_records (phase_ g) (initiator_is_connector_ g) sender)
          (expected_count sender g) value false with
  | (Some result, value') => (result, set_direction sender value' g)
  | (None, value') => fail ProtocolViolation (set_direction sender value' g)
  end.

Definition preamble (phase : Phase) : bytes :=
  if decide (phase = Prebind) then [70; 78; 82; 49; 0; 1; 0; 2] else [70; 78; 66; 49; 0; 1; 0; 1].

Definition data (stream_id sender : Z) (chunk : option bytes) (size : Z) (g : QuicStreamGate)
    : QuicGateResult * QuicStreamGate :=
  if negb (valid_side sender) || match chunk with None => negb (size =? 0) | Some _ => false end
  then fail InvalidArgument g
  else if decide (phase_ g = Failed \/ phase_ g = Bound) then (Closed, g)
  else if (negb (bool_decide (phase_ g = Prebind)) && negb (bool_decide (phase_ g = Bind))) ||
          negb (stream_id =? stream_id_ g) || fin (direction sender g)
  then fail ProtocolViolation g
  else
    let target := direction sender g in
    if 2048 <? zlen (buffered target) + size then fail Backpressure g
    else
      let bytes := buffered target ++ match chunk with None => [] | Some c => slice c 0 size end in
      let g1 := set_direction sender (target <| buffered := bytes |>) g in
      if negb (preamble_complete_ g) then
        if negb (sender =? Connector) then fail ProtocolViolation g1
        else if zlen bytes <? 8 then (NeedMore, g1)
        else if decide (slice bytes 0 8 = preamble (phase_ g)) then
          parse sender ((set_direction sender (target <| buffered := drop 8 bytes |>) g)
                          <| preamble_complete_ := true |>)
        else fail ProtocolViolation g1
      else parse sender g1.

Definition finish (stream_id sender : Z) (g : QuicStreamGate) : QuicGateResult * QuicStreamGate :=
  if negb (valid_side sender) then fail InvalidArgument g
  else if decide (phase_ g = Failed \/ phase_ g = Bound) then (Closed, g)
  else if (negb (bool_decide (phase_ g = Prebind)) && negb (bool_decide (phase_ g = Bind))) ||
          negb (stream_id =? stream_id_ g) || negb (preamble_complete_ g)
  then fail ProtocolViolation g
  else
    let target := direction sender g in
    if fin target || negb (bool_decide (buffered target = [])) ||
       negb (record_index target =? expected_count sender g)
    then fail ProtocolViolation g
    else if bool_decide (phase_ g = Bind) && (sender =? Listener) && negb (fin (connector_ g))
    then fail ProtocolViolation g
    else
      let g1 := set_direction sender (target <| fin := true |>) g in
      if negb (fin (connector_ g1)) || negb (fin (listener_ g1)) then (Accepted, g1)
      else
        let g2 := g1 <| prior_stream_id_ := stream_id_ g1 |> <| stream_id_ := 0 |> in
        if decide (phase_ g = Prebind) then (PrebindComplete, g2 <| phase_ := ExpectBind |>)
        else (ChannelBound, g2 <| phase_ := Bound |>).

Definition normal_app_stream_allowed (g : QuicStreamGate) : bool := bool_decide (phase_ g = Bound).
Definition failed (g : QuicStreamGate) : bool := bool_decide (phase_ g = Failed).

(** ** The record loop *)

(** A record of the kind [e]: its length, then that many bytes. *)
Definition record_ok (e : ExpectedRecord) (record : bytes) : Prop :=
  exists body, record = be_bytes 4 (expected_size e) ++ body /\ zlen body = expected_size e /\
    (first_byte e <> 0 -> at_ body 0 = first_byte e).

Lemma take_record l size :
  is_bytes l -> 4 <= zlen l -> load32 l 0 = size -> size + 4 <= zlen l ->
  l = (be_bytes 4 size ++ slice l 4 size) ++ drop (Z.to_nat (size + 4)) l /\ zlen (slice l 4 size) = size /\ 0 <= size.
Proof.
  intros Hb H4 Hs Ht. pose proof (load32_bound l 0 Hb) as Hbound. rewrite Hs in Hbound.
  split; [| split; [rewrite zlen_slice; lia | lia]].
  assert (be_bytes 4 size = take 4 l) as ->.
  { rewrite <- Hs, load32_value by lia. by apply (be_bytes_slice l 0 4). }
  unfold slice. change (Z.to_nat 4) with 4%nat. rewrite take_take_drop.
  replace (4 + Z.to_nat size)%nat with (Z.to_nat (size + 4)) by lia. by rewrite take_drop.
Qed.

Lemma parse_loop_enough fuel fuel' expected count value accepted :
  is_bytes (buffered value) -> (length (buffered value) < fuel)%nat -> (length (buffered value) < fuel')%nat ->
  parse_loop fuel expected count value accepted = parse_loop fuel' expected count value accepted.
Proof.
  revert fuel' value accepted. induction fuel as [|fuel IH]; intros [|fuel'] value accepted Hb Hf Hf'; [lia.. |].
  cbn [parse_loop]. destruct (zlen (buffered value) <? 4) eqn:G4; [done |]. destruct (count <=? _); [done |].
  destruct (negb (load32 _ _ =? _)); [done |]. destruct (zlen (buffered value) <? _ + 4) eqn:Gt; [done |].
  destruct (negb (first_byte _ =? 0) && _); [done |]. bool_hyps.
  pose proof (load32_bound (buffered value) 0 Hb).
  apply IH; [by apply Forall_drop |..]; cbn [buffered]; rewrite length_drop; unfold zlen in *; lia.
Qed.

Lemma parse_loop_spec fuel expected value accepted result value' :
  is_bytes (buffered value) -> Forall (fun e => 0 < expected_size e) expected ->
  0 <= record_index value <= zlen expected ->
  parse_loop fuel expected (zlen expected) value accepted = (Some result, value') ->
  exists more, fin value' = fin value /\ buffered value = mjoin more ++ buffered value' /\
    record_index value' = record_index value + zlen more /\ record_index value' <= zlen expected /\
    Forall2 record_ok (take (length more) (drop (Z.to_nat (record_index value)) expected)) more /\
    (result = NeedMore \/ result = Accepted).
Proof.
  revert value accepted. induction fuel as [|fuel IH]; intros value accepted Hb Hsize Hi; cbn [parse_loop]; cbv zeta.
  - intros [= <- <-]. exists []. cbn. rewrite zlen_nil. split_and!; try done; try lia. destruct accepted; auto.
  - assert (forall r, r = NeedMore \/ r = Accepted -> (Some r, value) = (Some result, value') ->
      exists more, fin value' = fin value /\ buffered value = mjoin more ++ buffered value' /\
        record_index value' = record_index value + zlen more /\ record_index value' <= zlen expected /\
        Forall2 record_ok (take (length more) (drop (Z.to_nat (record_index value)) expected)) more /\
        (result = NeedMore \/ result = Accepted)) as Hstop.
    { intros r Hr [= -> <-]. exists []. cbn. rewrite zlen_nil. split_and!; try done; lia. }
    destruct (zlen (buffered value) <? 4) eqn:G4; [apply Hstop; destruct accepted; auto |].
    destruct (zlen expected <=? record_index value) eqn:Gi; [done |]. bool_hyps.
    destruct (negb (load32 (buffered value) 0 =? _)) eqn:Gs; [done |].
    destruct (zlen (buffered value) <? load32 (buffered value) 0 + 4) eqn:Gt; [apply Hstop; auto |].
    destruct (negb (first_byte _ =? 0) && _) eqn:Gf; [done |]. bool_hyps.
    destruct (lookup_lt_is_Some_2 expected (Z.to_nat (record_index value))) as (e & He); [unfold zlen in *; lia |].
    unfold aget in *. rewrite He in *. change (default (mkExpected 0 0) (Some e)) with e in *.
    destruct (take_record (buffered value) (expected_size e)) as (Eb & Hl & Hpos); [done | lia | done | lia |].
    intros (more & Hfin & Hbuf & Hidx & Hle & Hrec & Hr)%IH; [| by apply Forall_drop | done | cbn; lia].
    cbn [fin buffered record_index] in *. rewrite Gs in Hbuf.
    exists ((be_bytes 4 (expected_size e) ++ slice (buffered value) 4 (expected_size e)) :: more).
    split_and!; try done.
    + cbn [mjoin list_join]. rewrite Eb at 1. rewrite <- !app_assoc. f_equal. f_equal. exact Hbuf.
    + rewrite zlen_cons. lia.
    + rewrite (drop_S _ e) by done. cbn [length take]. constructor.
      * eexists. split; [done |]. split; [done |]. intros Hne.
        apply andb_false_iff in Gf as [Gf | Gf]; bool_hyps; [done |].
        rewrite Forall_lookup in Hsize. specialize (Hsize _ _ He). cbn in Hsize.
        rewrite at_slice by lia. by rewrite <- Gf.
      * replace (Z.to_nat (record_index value + 1)) with (S (Z.to_nat (record_index value))) in Hrec by lia. done.
Qed.

Lemma expected_positive phase initiator sender :
  Forall (fun e => 0 < expected_size e) (expected_records phase initiator sender).
Proof.
  unfold expected_records. destruct (decide _), (sender =? Connector), initiator; cbn;
    repeat (apply Forall_cons_2; [cbn; lia |]); by apply Forall_nil.
Qed.

Lemma expected_count_is sender g :
  expected_count sender g = zlen (expected_records (phase_ g) (initiator_is_connector_ g) sender).
Proof.
  unfold expected_count, expected_records. destruct (decide _), (sender =? Connector), (initiator_is_connector_ g); done.
Qed.

(** ** Runs *)

Inductive GateOp :=
  | Open (stream_id opener : Z)
  | Data (stream_id sender : Z) (chunk : bytes)
  | Finish (stream_id sender : Z).

Definition op_bytes (op : GateOp) : Prop :=
  match op with Data _ _ chunk => is_bytes chunk | _ => True end.

(** The gate, the streams that were finished with the bytes each side sent on
    them, and the bytes sent on the current one. *)
Record Trace := mkTrace { gate : QuicStreamGate; streams : list (bytes * bytes); sent : bytes * bytes }.

Definition sent_by (sender : Z) (pair : bytes * bytes) : bytes :=
  if sender =? Connector then pair.1 else pair.2.

Definition send (sender : Z) (chunk : bytes) (pair : bytes * bytes) : bytes * bytes :=
  if sender =? Connector then (pair.1 ++ chunk, pair.2) else (pair.1, pair.2 ++ chunk).

Definition gate_step (t : Trace) (op : GateOp) : Trace :=
  match op with
  | Open stream_id opener =>
    let '(result, g) := open_bidi stream_id opener (gate t) in
    mkTrace g (streams t) (if decide (result = Accepted) then ([], []) else sent t)
  | Data stream_id sender chunk =>
    let '(result, g) := data stream_id sender (Some chunk) (zlen chunk) (gate t) in
    mkTrace g (streams t)
      (if decide (result = Accepted \/ result = NeedMore) then send sender chunk (sent t) else sent t)
  | Finish stream_id sender =>
    let '(result, g) := finish stream_id sender (gate t) in
    mkTrace g (if decide (result = PrebindComplete \/ result = ChannelBound) then streams t ++ [sent t] else streams t)
      (sent t)
  end.

Definition run_gate (kind : option BindingKindV1) (initiator : bool) (ops : list GateOp) : Trace :=
  fold_left gate_step ops (mkTrace (gate_new kind initiator) [] ([], [])).

(** What a whole stream of a phase consists of. *)
Definition stream_ok (phase : Phase) (initiator : bool) (sender : Z) (stream : bytes) : Prop :=
  exists records, Forall2 record_ok (expected_records phase initiator sender) records /\
    stream = (if sender =? Connector then preamble phase else []) ++ mjoin records.

Definition pair_ok (initiator : bool) (phase : Phase) (pair : bytes * bytes) : Prop :=
  stream_ok phase initiator Connector pair.1 /\ stream_ok phase initiator Listener pair.2.

(** The phases a kind of binding goes through before it is bound. *)
Definition phases_of (kind : option BindingKindV1) : list Phase :=
  match kind with
  | Some SamePathReconnect => [Prebind; Bind]
  | Some _ => [Bind]
  | None => []
  end.

(** One side of the current stream. *)
Record side_ok (phase : Phase) (initiator started : bool) (sender : Z) (d : Direction) (stream : bytes) : Prop := {
  side_bytes : is_bytes (buffered d);
  side_bound : zlen (buffered d) <= 2048;
  side_index : 0 <= record_index d <= zlen (expected_records phase initiator sender);
  side_stream : exists records, zlen records = record_index d /\
    Forall2 record_ok (take (length records) (expected_records phase initiator sender)) records /\
    stream = (if started && (sender =? Connector) then preamble phase else []) ++ mjoin records ++ buffered d;
  side_start : started = false -> record_index d = 0 /\ (sender <> Connector -> buffered d = []);
  side_fin : fin d = true -> started = true /\ buffered d = [] /\
    record_index d = zlen (expected_records phase initiator sender);
}.

Lemma side_complete phase initiator started sender d stream :
  side_ok phase initiator started sender d stream -> fin d = true -> stream_ok phase initiator sender stream.
Proof.
  intros [_ _ _ (records & Hz & Hr & ->) _ Hf] Hfin. destruct (Hf Hfin) as (-> & -> & Hi).
  exists records. rewrite app_nil_r. split; [| done].
  rewrite take_ge in Hr; [done |]. unfold zlen in *. lia.
Qed.

(** The call failed the gate. *)
Definition failed_call (out : QuicGateResult * QuicStreamGate) (g : QuicStreamGate) : Prop :=
  (out.1 = InvalidArgument \/ out.1 = ProtocolViolation \/ out.1 = Backpressure) /\ phase_ out.2 = Failed /\
  buffered (connector_ out.2) = [] /\ buffered (listener_ out.2) = [] /\
  initiator_is_connector_ out.2 = initiator_is_connector_ g.

Lemma fail_failed result g g0 :
  initiator_is_connector_ g = initiator_is_connector_ g0 ->
  result = InvalidArgument \/ result = ProtocolViolation \/ result = Backpressure -> failed_call (fail result g) g0.
Proof. intros H Hr. by split_and!. Qed.

Lemma set_direction_keeps sender d g :
  phase_ (set_direction sender d g) = phase_ g /\
  initiator_is_connector_ (set_direction sender d g) = initiator_is_connector_ g /\
  preamble_complete_ (set_direction sender d g) = preamble_complete_ g /\
  direction sender (set_direction sender d g) = d.
Proof. unfold set_direction, direction. by destruct (sender =? Connector) eqn:E. Qed.

Lemma set_direction_twice sender d d' g : set_direction sender d' (set_direction sender d g) = set_direction sender d' g.
Proof. unfold set_direction. by destruct (sender =? Connector). Qed.

(** Parsing keeps the account of a started side. *)
Lemma parse_side p sender g stream :
  phase_ g = p -> side_ok p (initiator_is_connector_ g) true sender (direction sender g) stream ->
  fin (direction sender g) = false ->
  failed_call (parse sender g) g \/
  exists result d', parse sender g = (result, set_direction sender d' g) /\
    side_ok p (initiator_is_connector_ g) true sender d' stream /\ (result = NeedMore \/ result = Accepted).
Proof.
  intros <- [Hb Hbound Hi (records & Hz & Hr & Hs) _ _] Hfin. unfold parse.
  destruct (set_direction_keeps sender (direction sender g) g) as (_ & Hini & _).
  destruct (parse_loop _ _ _ _ _) as [[result|] d'] eqn:Hp.
  2:{ left. apply fail_failed; [by apply set_direction_keeps | auto]. }
  right. rewrite expected_count_is in Hp.
  apply parse_loop_spec in Hp as (more & Hf & Hbuf & Hidx & Hle & Hrec & Hres);
    [| done | apply expected_positive | done].
  exists result, d'. split; [done |]. split; [| done]. rewrite Hbuf in Hb, Hbound. apply is_bytes_app in Hb as [_ Hb].
  rewrite zlen_app in Hbound. pose proof (zlen_nonneg (mjoin more)). pose proof (zlen_nonneg more).
  constructor; try done; try lia; [|congruence].
  exists (records ++ more). rewrite zlen_app. split; [lia |]. split.
  - rewrite length_app, <- (take_take_drop _ (length records)). apply Forall2_app; [done |].
    replace (length records) with (Z.to_nat (record_index (direction sender g))) by (unfold zlen in Hz; lia). done.
  - rewrite Hs, Hbuf. by rewrite join_app, <- !app_assoc.
Qed.

(** More bytes from a side that is not finished. *)
Lemma buffer_side p initiator started sender d stream chunk :
  side_ok p initiator started sender d stream -> is_bytes chunk -> fin d = false ->
  zlen (buffered d) + zlen chunk <= 2048 -> (started = false -> sender = Connector) ->
  side_ok p initiator started sender (d <| buffered := buffered d ++ chunk |>) (stream ++ chunk).
Proof.
  intros [Hb Hbound Hi (records & Hz & Hr & Hs) Hstart Hfin] Hc Hf Hl Hside.
  constructor; cbn [buffered record_index fin over]; try done.
  - by apply is_bytes_app.
  - rewrite zlen_app. lia.
  - exists records. split; [done |]. split; [done |]. rewrite Hs. by rewrite <- !app_assoc.
  - intros E. split; [by apply Hstart |]. intros Hne. by specialize (Hside E).
  - cbn. congruence.
Qed.

(** The preamble of the connector is complete. *)
Lemma start_side p initiator d stream :
  side_ok p initiator false Connector d stream -> slice (buffered d) 0 8 = preamble p ->
  side_ok p initiator true Connector (d <| buffered := drop 8 (buffered d) |>) stream.
Proof.
  intros [Hb Hbound Hi (records & Hz & Hr & Hs) Hstart Hfin] Hp. destruct (Hstart eq_refl) as (H0 & _).
  assert (records = []) as -> by (destruct records; [done |]; rewrite zlen_cons in Hz; pose proof (zlen_nonneg records); lia).
  constructor; cbn [buffered record_index fin over]; try done.
  - by apply Forall_drop.
  - unfold zlen in *. cbn. rewrite length_drop. lia.
  - exists []. split; [done |]. split; [done |]. rewrite Hs. cbn. rewrite <- Hp. unfold slice. cbn. by rewrite take_drop.
  - intros H. cbn in H. by destruct (Hfin H).
Qed.

Lemma started_listener p initiator d stream :
  side_ok p initiator false Listener d stream -> side_ok p initiator true Listener d stream.
Proof.
  intros [Hb Hbound Hi (records & Hz & Hr & Hs) Hstart Hfin]. constructor; try done.
  - by exists records.
  - intros H. by destruct (Hfin H).
Qed.

(** *** The invariant of a run *)

Definition sides_ok (p : Phase) (t : Trace) : Prop :=
  let g := gate t in
  side_ok p (initiator_is_connector_ g) (preamble_complete_ g) Connector (connector_ g) (sent t).1 /\
  side_ok p (initiator_is_connector_ g) (preamble_complete_ g) Listener (listener_ g) (sent t).2.

(** The streams finished before the one of the phase [p]. *)
Definition before (kind : option BindingKindV1) (p : Phase) : list Phase :=
  match kind, p with
  | Some SamePathReconnect, (ExpectBind | Bind) => [Prebind]
  | _, _ => []
  end.

Definition trace_ok (kind : option BindingKindV1) (initiator : bool) (t : Trace) : Prop :=
  let g := gate t in
  initiator_is_connector_ g = initiator /\
  zlen (buffered (connector_ g)) <= 2048 /\ zlen (buffered (listener_ g)) <= 2048 /\
  match phase_ g with
  | Failed => True
  | Bound => kind <> None /\ Forall2 (pair_ok initiator) (phases_of kind) (streams t)
  | p =>
    kind <> None /\ (p = ExpectPrebind \/ p = Prebind -> kind = Some SamePathReconnect) /\
    Forall2 (pair_ok initiator) (before kind p) (streams t) /\
    (p = Prebind \/ p = Bind -> sides_ok p t)
  end.

Lemma failed_trace kind initiator t out (s : list (bytes * bytes)) (x : bytes * bytes) :
  initiator_is_connector_ (gate t) = initiator -> failed_call out (gate t) -> trace_ok kind initiator (mkTrace out.2 s x).
Proof.
  intros H (_ & Hp & Hc & Hl & Hi). unfold trace_ok. cbn. rewrite Hp, Hc, Hl, Hi, zlen_nil. split_and!; done || lia.
Qed.

Lemma side_empty p initiator sender :
  side_ok p initiator false sender direction0 [].
Proof.
  constructor; cbn; try done.
  - by apply Forall_nil.
  - pose proof (zlen_nonneg (expected_records p initiator sender)). lia.
  - by exists [].
Qed.

Lemma open_step kind initiator t stream_id opener :
  trace_ok kind initiator t -> trace_ok kind initiator (gate_step t (Open stream_id opener)).
Proof.
  intros (Hi & Hc & Hl & H). cbn [gate_step]. destruct t as [g done' x]. cbn [gate streams sent] in *.
  pose proof (fail_failed InvalidArgument g g eq_refl ltac:(auto)) as HfI.
  pose proof (fail_failed ProtocolViolation g g eq_refl ltac:(auto)) as HfP.
  unfold open_bidi. destruct (negb (valid_side opener) || _); [apply (failed_trace _ _ (mkTrace g done' x) (fail InvalidArgument g)); done |].
  destruct (_ || _) eqn:G; [apply (failed_trace _ _ (mkTrace g done' x) (fail ProtocolViolation g)); done |].
  apply orb_false_iff in G as [[G%andb_false_iff _]%orb_false_iff _].
  rewrite (decide_True (P := Accepted = Accepted)) by done. unfold trace_ok. cbn. split; [done |]. split; [by cbn |]. split; [by cbn |].
  destruct (phase_ g) eqn:Ep; cbn in *; try (destruct G; discriminate).
  - destruct H as (Hk & Hk' & Hs & _). split_and!; auto.
    intros _. split; apply side_empty.
  - destruct H as (Hk & _ & Hs & _). split_and!; auto.
    + intros [? | ?]; done.
    + intros _. split; apply side_empty.
Qed.

Lemma send_sides sender chunk (x : bytes * bytes) :
  valid_side sender = true ->
  (sender = Connector /\ send sender chunk x = (x.1 ++ chunk, x.2)) \/
  (sender = Listener /\ send sender chunk x = (x.1, x.2 ++ chunk)).
Proof.
  unfold valid_side, send. intros [H | H]%orb_true_iff; apply Z.eqb_eq in H; subst; auto.
Qed.

(** One data call on a running stream, seen from the side that sends. *)
Lemma data_side p stream_id sender chunk g x :
  phase_ g = p -> p = Prebind \/ p = Bind -> valid_side sender = true -> is_bytes chunk ->
  sides_ok p (mkTrace g [] x) ->
  let out := data stream_id sender (Some chunk) (zlen chunk) g in
  failed_call out g \/
  ((out.1 = NeedMore \/ out.1 = Accepted) /\ phase_ out.2 = p /\
   initiator_is_connector_ out.2 = initiator_is_connector_ g /\ sides_ok p (mkTrace out.2 [] (send sender chunk x))).
Proof.
  intros Ep Hp Hside Hb [Hsc Hsl]. cbn [gate sent] in *. cbv zeta. unfold data. rewrite Hside.
  cbn [negb orb].
  destruct (decide (phase_ g = Failed \/ phase_ g = Bound)) as [H | _]; [destruct H, Hp; congruence |].
  destruct (_ || fin (direction sender g)) eqn:G; [left; apply fail_failed; auto |].
  apply orb_false_iff in G as [_ Hfin].
  destruct (2048 <? _) eqn:G2; [left; apply fail_failed; auto |]. apply Z.ltb_ge in G2.
  rewrite slice_all.
  destruct (set_direction_keeps sender ((direction sender g) <| buffered := buffered (direction sender g) ++ chunk |>) g) as (Kp & Ki & Kc & Kd).
  set (g1 := set_direction sender _ g) in *.
  destruct (send_sides sender chunk x Hside) as [(-> & ->) | (-> & ->)]; cbn [fst snd].
  - (* the connector *)
    change (direction Connector g) with (connector_ g) in *.
    pose proof (buffer_side _ _ _ _ _ _ chunk Hsc Hb Hfin G2 ltac:(done)) as Hsc1.
    assert (connector_ g1 = (connector_ g) <| buffered := buffered (connector_ g) ++ chunk |> /\ listener_ g1 = listener_ g)
      as (Ec1 & El1) by done. clearbody g1.
    destruct (preamble_complete_ g) eqn:Epre; cbn [negb].
    + rewrite <- Ki, Ep in *. destruct (parse_side p Connector g1 (x.1 ++ chunk)) as [Hf | (res & d' & -> & Hs & Hr)].
      * congruence.
      * unfold direction. cbn. by rewrite Ec1.
      * unfold direction. cbn. by rewrite Ec1.
      * left. unfold failed_call in *. rewrite <- Ki. done.
      * right. cbn [fst snd]. split; [done |]. split; [by cbn; rewrite Kp |]. split; [done |].
        unfold sides_ok. cbn. rewrite Kc. split; [done |]. by rewrite El1.
    + change (Connector =? Connector) with true. cbn [negb].
      destruct (zlen _ <? 8) eqn:G8.
      * right. cbn [fst snd]. split; [auto |]. split; [congruence |]. split; [done |].
        unfold sides_ok. cbn. rewrite Ki, Kc, Ec1, El1. by split.
      * destruct (decide _) as [Hpre | _]; [| left; apply fail_failed; auto].
        set (g2 := over preamble_complete_ _ _).
        assert (phase_ g2 = p /\ initiator_is_connector_ g2 = initiator_is_connector_ g /\ preamble_complete_ g2 = true /\
          connector_ g2 = (connector_ g1) <| buffered := drop 8 (buffered (connector_ g1)) |> /\ listener_ g2 = listener_ g)
          as (Kp2 & Ki2 & Kc2 & Ec2 & El2).
        { subst g2. rewrite Ec1. by split_and!. }
        clearbody g2. rewrite Ep in Hpre. rewrite <- Ec1 in Hsc1.
        pose proof (start_side _ _ _ _ Hsc1) as Hst. rewrite Ec1 in Hst at 1. specialize (Hst Hpre). rewrite <- Ec2, <- Ki2 in Hst.
        destruct (parse_side p Connector g2 (x.1 ++ chunk) Kp2 Hst) as [Hf | (res & d' & -> & Hs & Hr)].
        -- unfold direction. cbn. by rewrite Ec2, Ec1.
        -- left. unfold failed_call in *. by rewrite <- Ki2.
        -- right. cbn [fst snd]. split; [done |]. split; [done |]. split; [done |].
           unfold sides_ok. cbn. rewrite Kc2. split; [done |]. rewrite El2, Ki2. by apply started_listener.
  - (* the listener *)
    change (direction Listener g) with (listener_ g) in *.
    assert (listener_ g1 = (listener_ g) <| buffered := buffered (listener_ g) ++ chunk |> /\ connector_ g1 = connector_ g)
      as (El1 & Ec1) by done. clearbody g1.
    destruct (preamble_complete_ g) eqn:Epre; cbn [negb]; [| left; apply fail_failed; auto].
    pose proof (buffer_side _ _ _ _ _ _ chunk Hsl Hb Hfin G2 ltac:(done)) as Hsl1.
    rewrite <- Ki, Ep in *. destruct (parse_side p Listener g1 (x.2 ++ chunk)) as [Hf | (res & d' & -> & Hs & Hr)].
    + congruence.
    + unfold direction. cbn. by rewrite El1.
    + unfold direction. cbn. by rewrite El1.
    + left. unfold failed_call in *. rewrite <- Ki. done.
    + right. cbn [fst snd]. split; [done |]. split; [by cbn; rewrite Kp |]. split; [done |].
      unfold sides_ok. cbn. rewrite Kc. split; [by rewrite Ec1 | done].
Qed.

Lemma data_idle stream_id sender chunk size g :
  phase_ g <> Prebind -> phase_ g <> Bind ->
  failed_call (data stream_id sender chunk size g) g \/ data stream_id sender chunk size g = (Closed, g).
Proof.
  intros H1 H2. unfold data. destruct (negb (valid_side sender) || _); [left; by apply fail_failed; auto |].
  destruct (decide _); [by right |]. rewrite !bool_decide_eq_false_2 by done. left. apply fail_failed; auto.
Qed.

Lemma sides_bounded p t :
  sides_ok p t -> zlen (buffered (connector_ (gate t))) <= 2048 /\ zlen (buffered (listener_ (gate t))) <= 2048.
Proof. intros [Hc Hl]. split; by eapply side_bound. Qed.

Lemma data_step kind initiator t stream_id sender chunk :
  is_bytes chunk -> trace_ok kind initiator t -> trace_ok kind initiator (gate_step t (Data stream_id sender chunk)).
Proof.
  intros Hb Ht. pose proof Ht as (Hi & Hc & Hl & H). cbn [gate_step]. destruct t as [g done' x]. cbn [gate streams sent] in *.
  assert (failed_call (data stream_id sender (Some chunk) (zlen chunk) g) g \/
    data stream_id sender (Some chunk) (zlen chunk) g = (Closed, g) \/
    exists p, (p = Prebind \/ p = Bind) /\ phase_ g = p /\
      let out := data stream_id sender (Some chunk) (zlen chunk) g in
      (out.1 = NeedMore \/ out.1 = Accepted) /\ phase_ out.2 = p /\
      initiator_is_connector_ out.2 = initiator_is_connector_ g /\ sides_ok p (mkTrace out.2 [] (send sender chunk x)))
    as [Hf | [Hcl | (p & Hp & Ep & Hout)]].
  { destruct (decide (phase_ g = Prebind \/ phase_ g = Bind)) as [Hp | Hp].
    2:{ destruct (data_idle stream_id sender (Some chunk) (zlen chunk) g); tauto. }
    destruct (valid_side sender) eqn:Hside.
    2:{ left. unfold data. rewrite Hside. apply fail_failed; auto. }
    assert (sides_ok (phase_ g) (mkTrace g [] x)) as Hsides.
    { destruct (phase_ g); try (by destruct Hp); by apply H; auto. }
    destruct (data_side (phase_ g) stream_id sender chunk g x eq_refl Hp Hside Hb Hsides) as [? | ?]; [by left |].
    right. right. by exists (phase_ g). }
  - pose proof (failed_trace kind initiator (mkTrace g done' x) _ done' x Hi Hf) as Hft.
    destruct (data _ _ _ _ _) as [res g']. destruct Hf as (Hr & _). cbn [fst snd] in *.
    rewrite decide_False; [done |]. by destruct Hr as [-> | [-> | ->]]; intros [? | ?].
  - rewrite Hcl. by rewrite decide_False by (by intros [? | ?]).
  - destruct (data _ _ _ _ _) as [res g']. destruct Hout as (Hr & Ep' & Hi' & Hs). cbn [fst snd] in *.
    rewrite decide_True by tauto. unfold trace_ok. cbn [gate streams].
    destruct (sides_bounded _ _ Hs) as (? & ?). cbn [gate] in *. split; [congruence |]. split; [done |]. split; [done |].
    rewrite Ep'. rewrite Ep in H. destruct Hp as [-> | ->]; destruct H as (? & ? & ? & _); auto.
Qed.

(** Finishing one side of a running stream. *)
Lemma finish_side p stream_id sender g x :
  phase_ g = p -> p = Prebind \/ p = Bind -> sides_ok p (mkTrace g [] x) ->
  let out := finish stream_id sender g in
  failed_call out g \/
  (initiator_is_connector_ out.2 = initiator_is_connector_ g /\
   ((out.1 = Accepted /\ phase_ out.2 = p /\ sides_ok p (mkTrace out.2 [] x)) \/
    (pair_ok (initiator_is_connector_ g) p x /\
     zlen (buffered (connector_ out.2)) <= 2048 /\ zlen (buffered (listener_ out.2)) <= 2048 /\
     (p = Prebind /\ out.1 = PrebindComplete /\ phase_ out.2 = ExpectBind \/
      p = Bind /\ out.1 = ChannelBound /\ phase_ out.2 = Bound)))).
Proof.
  intros Ep Hp Hsides. cbv zeta. unfold finish.
  destruct (valid_side sender) eqn:Hside; cbn [negb]; [| left; apply fail_failed; auto].
  destruct (decide (phase_ g = Failed \/ phase_ g = Bound)) as [H | _]; [destruct H, Hp; congruence |].
  destruct (_ || negb (preamble_complete_ g)) eqn:G; [left; apply fail_failed; auto |].
  apply orb_false_iff in G as [_ Gpre%negb_false_iff].
  destruct (_ || negb (record_index _ =? _)) eqn:G2; [left; apply fail_failed; auto |].
  apply orb_false_iff in G2 as [[Gf Gb]%orb_false_iff Gi]. rewrite expected_count_is in Gi. bool_hyps.
  destruct (bool_decide _ && _ && _) eqn:G3; [left; apply fail_failed; auto |]. clear G3.
  set (g1 := set_direction sender _ g).
  assert (phase_ g1 = p /\ initiator_is_connector_ g1 = initiator_is_connector_ g /\
          preamble_complete_ g1 = preamble_complete_ g /\ sides_ok p (mkTrace g1 [] x)) as (Ep1 & Ei1 & Epre1 & Hs1).
  { destruct (set_direction_keeps sender ((direction sender g) <| fin := true |>) g) as (K1 & ? & ? & _).
    split; [unfold g1; congruence |]. split; [done |]. split; [done |].
    destruct Hsides as [Hsc Hsl]. unfold sides_ok. cbn [gate sent] in *.
    assert (forall d s, side_ok p (initiator_is_connector_ g) (preamble_complete_ g) sender d s -> d = direction sender g ->
      side_ok p (initiator_is_connector_ g) (preamble_complete_ g) sender (d <| fin := true |>) s) as Hfin.
    { intros d s [A1 A2 A3 A4 A5 A6] Ed. constructor; cbn [buffered record_index fin over]; try done.
      intros _. rewrite Ed. rewrite <- Ep. by split_and!. }
    destruct (send_sides sender [] x Hside) as [(-> & _) | (-> & _)]; cbn -[preamble]; split; try done;
      by apply Hfin. }
  clearbody g1. right. destruct Hs1 as [Hc1 Hl1]. cbn [gate sent] in *.
  destruct (fin (connector_ g1)) eqn:Fc; [| cbn [negb orb fst snd]; split; [done |]; left; by split_and!].
  destruct (fin (listener_ g1)) eqn:Fl; [| cbn [negb orb fst snd]; split; [done |]; left; by split_and!].
  cbn [negb orb]. rewrite Ep. 
  assert (pair_ok (initiator_is_connector_ g) p x) as Hpair.
  { split; rewrite <- Ei1; eapply side_complete; done. }
  split; [by destruct (decide _) |]. right. split; [done |].
  split; [destruct (decide _); by eapply (side_bound _ _ _ _ _ _ Hc1) |].
  split; [destruct (decide _); by eapply (side_bound _ _ _ _ _ _ Hl1) |].
  destruct (decide (p = Prebind)) as [e | n]; [left | right]; cbn [fst snd]; split_and!; try done. by destruct Hp.
Qed.

Lemma finish_idle stream_id sender g :
  phase_ g <> Prebind -> phase_ g <> Bind ->
  failed_call (finish stream_id sender g) g \/ finish stream_id sender g = (Closed, g).
Proof.
  intros H1 H2. unfold finish. destruct (negb (valid_side sender)); [left; by apply fail_failed; auto |].
  destruct (decide _); [by right |]. rewrite !bool_decide_eq_false_2 by done. left. apply fail_failed; auto.
Qed.

Lemma finish_step kind initiator t stream_id sender :
  trace_ok kind initiator t -> trace_ok kind initiator (gate_step t (Finish stream_id sender)).
Proof.
  intros Ht. pose proof Ht as (Hi & Hc & Hl & H). cbn [gate_step]. destruct t as [g done' x]. cbn [gate streams sent] in *.
  destruct (decide (phase_ g = Prebind \/ phase_ g = Bind)) as [Hp | Hp].
  - assert (sides_ok (phase_ g) (mkTrace g [] x)) as Hsides.
    { destruct (phase_ g); try (by destruct Hp); by apply H; auto. }
    destruct (finish_side (phase_ g) stream_id sender g x eq_refl Hp Hsides) as [Hf | (Hi' & Hout)].
    + pose proof (failed_trace kind initiator (mkTrace g done' x) _ done' x Hi Hf) as Hft.
      destruct (finish _ _ _) as [res g']. destruct Hf as (Hr & _). cbn [fst snd] in *.
      rewrite decide_False; [done |]. by destruct Hr as [-> | [-> | ->]]; intros [? | ?].
    + destruct (finish _ _ _) as [res g']. cbn [fst snd] in *. unfold trace_ok. cbn [gate].
      destruct Hout as [(-> & Ep & Hs) | (Hpair & Hbc & Hbl & Hcase)].
      * rewrite decide_False by (by intros [? | ?]). destruct (sides_bounded _ _ Hs) as (? & ?). cbn [gate streams] in *.
        split; [congruence |]. split; [done |]. split; [done |]. rewrite Ep.
        destruct (phase_ g); try (by destruct Hp); destruct H as (? & ? & ? & _); auto.
      * split; [congruence |]. split; [done |]. split; [done |]. rewrite Hi in Hpair.
        destruct Hcase as [(Ep & -> & ->) | (Ep & -> & ->)]; rewrite Ep in H, Hpair;
          destruct H as (Hk & Hk' & Hs & _); rewrite decide_True by auto; cbn [streams].
        -- rewrite (Hk' ltac:(auto)) in *. cbn [before] in *. inversion Hs; subst. cbn. split_and!; auto; by intros [? | ?].
        -- split; [done |]. replace (phases_of kind) with (before kind Bind ++ [Bind]) by (by destruct kind as [[]|]).
           apply Forall2_app; auto.
  - destruct (finish_idle stream_id sender g) as [Hf | Hcl]; [tauto.. | |].
    + pose proof (failed_trace kind initiator (mkTrace g done' x) _ done' x Hi Hf) as Hft.
      destruct (finish _ _ _) as [res g']. destruct Hf as (Hr & _). cbn [fst snd] in *.
      rewrite decide_False; [done |]. by destruct Hr as [-> | [-> | ->]]; intros [? | ?].
    + rewrite Hcl. by rewrite decide_False by (by intros [? | ?]).
Qed.

Lemma run_gate_ok kind initiator ops : Forall op_bytes ops -> trace_ok kind initiator (run_gate kind initiator ops).
Proof.
  unfold run_gate. intros H.
  assert (trace_ok kind initiator (mkTrace (gate_new kind initiator) [] ([], []))) as H0.
  { unfold trace_ok. cbn. split_and!; try done. destruct kind as [[]|]; cbn; try done; split_and!; auto; by intros [? | ?]. }
  revert H0. generalize (mkTrace (gate_new kind initiator) [] ([], [])).
  induction H as [|op ops Hop Hops IH]; intros t Ht; [done |]. cbn [fold_left]. apply IH.
  destruct op; auto using open_step, data_step, finish_step.
Qed.

(** C21. Application streams are let through only after a complete binding: when
    the gate is bound, whatever calls were made and however the bytes were cut,
    the connection carried exactly the streams of its kind of binding, and on each
    of them the connector sent the preamble and exactly its records, and the
    listener exactly its own, of the sizes and with the leading bytes the tables
    give.  Neither direction ever buffers more than 2048 bytes. *)
Theorem bound_after_exact_records (kind : option BindingKindV1) (initiator : bool) (ops : list GateOp) :
  Forall op_bytes ops ->
  let t := run_gate kind initiator ops in
  (normal_app_stream_allowed (gate t) = true ->
     kind <> None /\
     Forall2 (fun phase stream => stream_ok phase initiator Connector stream.1 /\
                                  stream_ok phase initiator Listener stream.2) (phases_of kind) (streams t)) /\
  zlen (buffered (connector_ (gate t))) <= 2048 /\ zlen (buffered (listener_ (gate t))) <= 2048.
Proof.
  intros Hops t. destruct (run_gate_ok kind initiator ops Hops) as (Hi & Hc & Hl & H). subst t.
  split; [| by split]. intros Hb%bool_decide_eq_true. by rewrite Hb in H.
Qed.

(** The bind exchange of a new connection, in chunks. *)
Definition bind_record (size : Z) : bytes := be_bytes 4 size ++ replicate (Z.to_nat size) 9.
Definition bind_ops : list GateOp :=
  [Open 4 Connector; Data 4 Connector [70; 78; 66]; Data 4 Connector ([49; 0; 1; 0; 1] ++ bind_record 248 ++ [0; 0]);
   Data 4 Listener (bind_record 248); Data 4 Connector ([0; 128] ++ replicate 128 3);
   Finish 4 Connector; Finish 4 Listener].

Lemma bound_after_exact_records_witness :
  normal_app_stream_allowed (gate (run_gate (Some Initial) true bind_ops)) = true /\
  Forall2 (fun phase stream => stream_ok phase true Connector stream.1 /\ stream_ok phase true Listener stream.2)
    [Bind] (streams (run_gate (Some Initial) true bind_ops)).
Proof.
  assert (Forall op_bytes bind_ops) as Hops.
  { unfold bind_ops. repeat (apply Forall_cons_2; [first [exact I | apply is_bytes_compute; vm_compute; reflexivity] |]).
    by apply Forall_nil. }
  assert (normal_app_stream_allowed (gate (run_gate (Some Initial) true bind_ops)) = true) as Hb by (vm_compute; reflexivity).
  split; [exact Hb |]. destruct (bound_after_exact_records (Some Initial) true bind_ops Hops) as [H _].
  destruct (H Hb) as [_ H']. exact H'.
Defined.

(** A failed gate stays failed and empty. *)
Lemma failed_gate_final g op :
  phase_ g = Failed -> buffered (connector_ g) = [] -> buffered (listener_ g) = [] ->
  let g' := gate (gate_step (mkTrace g [] ([], [])) op) in
  phase_ g' = Failed /\ buffered (connector_ g') = [] /\ buffered (listener_ g') = [].
Proof.
  intros Hp Hc Hl. destruct op as [id o | id s c | id s]; cbn [gate_step gate].
  - unfold open_bidi. rewrite Hp. by destruct (negb (valid_side o) || _).
  - destruct (data_idle id s (Some c) (zlen c) g) as [(_ & ? & ? & ? & _) | ->]; [by rewrite Hp.. | |];
      destruct (data id s (Some c) (zlen c) g); done.
  - destruct (finish_idle id s g) as [(_ & ? & ? & ? & _) | ->]; [by rewrite Hp.. | |]; destruct (finish id s g); done.
Qed.
