(* ===== verification/ContentOffer.v ===== *)
(** * Offering a game image ([shared/src/session/content/content_offer_{wire,scheduler}.{hpp,cpp}])

    The records of the image stream and the state machine of one offer: consents to
    send and to receive, the transfer into a staging area, the hash check, the import.
    Exhausted memory is not modelled; the output pointers of the codec are never null. *)

From S2P Require Import Prelude SessionAbi Sha256.

(** ** Data *)

Definition kContentRomMaxBytesV1 : Z := 8 * 1024 * 1024.
Definition kContentStallTimeoutNsV1 : Z := 10 * 1000 * 1000 * 1000.
Definition kContentOfferTypeV1 : Z := 1.
Definition kContentChunkTypeV1 : Z := 2.
Definition kContentOfferBodyBytesV1 : Z := 88.
Definition kContentChunkHeaderBytesV1 : Z := 28.
Definition kContentChunkMaxPayloadV1 : Z := 4096.

Inductive ContentOfferRoleV1 := Offerer | Receiver.
Inductive ContentOfferStateV1 :=
  | Idle | Offered | WaitingConsent | Transferring | Checking | WaitingImport | Imported | Failed | Cancelled.
Inductive ContentOfferFailV1 :=
  | NoFailure | Oversize | HashMismatch | OffsetOutOfRange | StallTimeout | WasCancelled | DiskFull | MultiPayload | Format.

#[global] Instance content_role_eq_dec : EqDecision ContentOfferRoleV1.
Proof. solve_decision. Defined.
#[global] Instance content_state_eq_dec : EqDecision ContentOfferStateV1.
Proof. solve_decision. Defined.

Record ContentOfferDeclV1 := mkDecl {
  offer_id : bytes;
  content_id : bytes;
  declared_length : Z;
  payload_sha256 : bytes;
}.

Definition decl0 : ContentOfferDeclV1 := mkDecl (replicate 16 0) (replicate 32 0) 0 (replicate 32 0).

Record ContentOfferSchedulerV1 := mkOffer {
  role_ : ContentOfferRoleV1;
  state_ : ContentOfferStateV1;
  fail_ : ContentOfferFailV1;
  decl_ : ContentOfferDeclV1;
  send_ok_ : bool;
  receive_ok_ : bool;
  import_ok_ : bool;
  catalog_published_ : bool;
  staging_live_ : bool;
  transferred_ : Z;
  last_progress_ns_ : Z;
  clock_seen_ : bool;
  staging_ : bytes;
}.

#[global] Instance eta_offer : Eta ContentOfferSchedulerV1 := fun r =>
  mkOffer (role_ r) (state_ r) (fail_ r) (decl_ r) (send_ok_ r) (receive_ok_ r) (import_ok_ r) (catalog_published_ r)
    (staging_live_ r) (transferred_ r) (last_progress_ns_ r) (clock_seen_ r) (staging_ r).

(** ** Records *)

Definition wrap_record (type : Z) (body : bytes) : bytes := be_bytes 4 (u32 (1 + zlen body)) ++ [type] ++ body.

Definition offer_layout (decl : ContentOfferDeclV1) : list bytes :=
  [be_bytes 2 1; [0]; [0]; offer_id decl; content_id decl; be_bytes 4 (declared_length decl); payload_sha256 decl].

Definition encode_content_offer_v1 (decl : ContentOfferDeclV1) : bytes :=
  wrap_record kContentOfferTypeV1 (mjoin (offer_layout decl)).

Definition decode_content_offer_v1 (body : bytes) : option ContentOfferDeclV1 :=
  if negb (zlen body =? kContentOfferBodyBytesV1) then None
  else if negb (load16 body 0 =? 1) then None
  else if negb (at_ body 2 =? 0) || negb (at_ body 3 =? 0) then None
  else Some (mkDecl (slice body 4 16) (slice body 20 32) (load32 body 52) (slice body 56 32)).

Definition chunk_layout (id : bytes) (offset : Z) (data : bytes) : list bytes :=
  [be_bytes 2 1; [0]; [0]; id; be_bytes 4 offset; be_bytes 4 (u32 (zlen data)); data].

Definition encode_content_chunk_v1 (id : bytes) (offset : Z) (data : bytes) : option bytes :=
  if kContentChunkMaxPayloadV1 <? zlen data then None
  else Some (wrap_record kContentChunkTypeV1 (mjoin (chunk_layout id offset data))).

(** Offer, offset and payload of a chunk. *)
Definition decode_content_chunk_v1 (body : bytes) : option (bytes * Z * bytes) :=
  if zlen body <? kContentChunkHeaderBytesV1 then None
  else if negb (load16 body 0 =? 1) || negb (at_ body 2 =? 0) || negb (at_ body 3 =? 0) then None
  else
    let declared := load32 body 24 in
    if negb (zlen body =? kContentChunkHeaderBytesV1 + declared) then None
    else Some (slice body 4 16, load32 body 20, slice body 28 declared).

(** ** The scheduler *)

Definition any_nonzero (id : bytes) : bool := existsb (fun byte => negb (byte =? 0)) id.

Definition offer_new (role : ContentOfferRoleV1) : ContentOfferSchedulerV1 :=
  mkOffer role Idle NoFailure decl0 false false false false false 0 0 false [].

Definition reset (role : ContentOfferRoleV1) (s : ContentOfferSchedulerV1) : ContentOfferSchedulerV1 :=
  s <| role_ := role |> <| state_ := Idle |> <| fail_ := NoFailure |> <| decl_ := decl0 |>
    <| send_ok_ := false |> <| receive_ok_ := false |> <| import_ok_ := false |> <| catalog_published_ := false |>
    <| staging_live_ := false |> <| transferred_ := 0 |> <| last_progress_ns_ := 0 |> <| clock_seen_ := false |>
    <| staging_ := [] |>.

Definition discard_staging (s : ContentOfferSchedulerV1) : ContentOfferSchedulerV1 :=
  s <| staging_ := [] |> <| staging_live_ := false |> <| transferred_ := 0 |>.

Definition fail (reason : ContentOfferFailV1) (s : ContentOfferSchedulerV1) : ContentOfferSchedulerV1 :=
  discard_staging (s <| fail_ := reason |> <| state_ := Failed |> <| catalog_published_ := false |> <| import_ok_ := false |>).

Definition bind_decl (decl : ContentOfferDeclV1) (s : ContentOfferSchedulerV1)
    : fly_session_result_v2 * ContentOfferSchedulerV1 :=
  if negb (bool_decide (state_ s = Idle)) then (V2_INVALID_STATE, s)
  else if negb (any_nonzero (offer_id decl)) || negb (any_nonzero (content_id decl)) || (declared_length decl =? 0)
  then (V2_INVALID_ARGUMENT, fail Format s)
  else if kContentRomMaxBytesV1 <? declared_length decl then (V2_INVALID_ARGUMENT, fail Oversize s)
  else
    (V2_OK, s <| decl_ := decl |> <| staging_ := replicate (Z.to_nat (declared_length decl)) 0 |>
              <| transferred_ := 0 |> <| staging_live_ := false |> <| state_ := Offered |>).

Definition offer (decl : ContentOfferDeclV1) (s : ContentOfferSchedulerV1)
    : fly_session_result_v2 * ContentOfferSchedulerV1 :=
  if negb (bool_decide (role_ s = Offerer)) then (V2_INVALID_STATE, s) else bind_decl decl s.

Definition maybe_enter_transfer (s : ContentOfferSchedulerV1) : ContentOfferSchedulerV1 :=
  if negb (bool_decide (state_ s = Offered)) && negb (bool_decide (state_ s = WaitingConsent)) then s
  else if send_ok_ s && receive_ok_ s then s <| state_ := Transferring |>
  else s <| state_ := WaitingConsent |>.

Definition accept_offer (decl : ContentOfferDeclV1) (s : ContentOfferSchedulerV1)
    : fly_session_result_v2 * ContentOfferSchedulerV1 :=
  if negb (bool_decide (role_ s = Receiver)) then (V2_INVALID_STATE, s)
  else
    let '(bound, s) := bind_decl decl s in
    if negb (bool_decide (bound = V2_OK)) then (bound, s) else (V2_OK, maybe_enter_transfer s).

(** Failed or cancelled: no consent counts. *)
Definition over_ (s : ContentOfferSchedulerV1) : bool :=
  bool_decide (state_ s = Failed) || bool_decide (state_ s = Cancelled).

Definition approve_send (s : ContentOfferSchedulerV1) : fly_session_result_v2 * ContentOfferSchedulerV1 :=
  if over_ s then (V2_INVALID_STATE, s)
  else if bool_decide (state_ s = Idle) then
    if negb (bool_decide (role_ s = Receiver)) then (V2_INVALID_STATE, s) else (V2_OK, s <| send_ok_ := true |>)
  else (V2_OK, maybe_enter_transfer (s <| send_ok_ := true |>)).

Definition approve_receive (s : ContentOfferSchedulerV1) : fly_session_result_v2 * ContentOfferSchedulerV1 :=
  if over_ s then (V2_INVALID_STATE, s)
  else if bool_decide (state_ s = Idle) then
    if negb (bool_decide (role_ s = Receiver)) then (V2_INVALID_STATE, s) else (V2_OK, s <| receive_ok_ := true |>)
  else (V2_OK, maybe_enter_transfer (s <| receive_ok_ := true |>)).

Definition approve_import (s : ContentOfferSchedulerV1) : fly_session_result_v2 * ContentOfferSchedulerV1 :=
  if over_ s then (V2_INVALID_STATE, s)
  else if negb (bool_decide (state_ s = WaitingImport)) && negb (bool_decide (state_ s = Imported)) then (V2_INVALID_STATE, s)
  else
    (V2_OK, discard_staging (s <| import_ok_ := true |> <| catalog_published_ := true |> <| state_ := Imported |>)).

Definition cancel (s : ContentOfferSchedulerV1) : fly_session_result_v2 * ContentOfferSchedulerV1 :=
  if bool_decide (state_ s = Imported) then (V2_INVALID_STATE, s)
  else (V2_OK, discard_staging (s <| fail_ := WasCancelled |> <| state_ := Cancelled |>)).

Definition note_friend_saved (s : ContentOfferSchedulerV1) : fly_session_result_v2 * ContentOfferSchedulerV1 := (V2_OK, s).

Definition on_clock (continuous_ns : Z) (s : ContentOfferSchedulerV1) : fly_session_result_v2 * ContentOfferSchedulerV1 :=
  if over_ s || bool_decide (state_ s = Imported) then (V2_OK, s)
  else if negb (clock_seen_ s) then (V2_OK, s <| last_progress_ns_ := continuous_ns |> <| clock_seen_ := true |>)
  else if bool_decide (state_ s = Transferring) && staging_live_ s && (last_progress_ns_ s <=? continuous_ns) &&
          (kContentStallTimeoutNsV1 <=? continuous_ns - last_progress_ns_ s)
  then (V2_TIMEOUT, fail StallTimeout s)
  else (V2_OK, s).

Definition may_open_rom_stream (s : ContentOfferSchedulerV1) : bool :=
  if negb (send_ok_ s) || negb (receive_ok_ s) then false
  else if bool_decide (role_ s = Receiver) then true
  else bool_decide (state_ s = Transferring) || bool_decide (state_ s = Checking) || bool_decide (state_ s = WaitingImport).

Definition maybe_finish_check (s : ContentOfferSchedulerV1) : ContentOfferSchedulerV1 :=
  if negb (bool_decide (state_ s = Transferring)) then s
  else if transferred_ s <? declared_length (decl_ s) then s
  else
    let s := s <| state_ := Checking |> in
    let got := sha256 (slice (staging_ s) 0 (declared_length (decl_ s))) in
    if negb (bool_decide (got = payload_sha256 (decl_ s))) then fail HashMismatch s
    else s <| state_ := WaitingImport |>.

(** A null pointer is [None]. *)
Definition append_bytes (offset : Z) (data : option bytes) (size : Z) (s : ContentOfferSchedulerV1)
    : fly_session_result_v2 * ContentOfferSchedulerV1 :=
  if negb (may_open_rom_stream s) then (V2_UNAVAILABLE, s)
  else if bool_decide (data = None) && negb (size =? 0) then (V2_INVALID_ARGUMENT, s)
  else if kContentRomMaxBytesV1 <? size then (V2_INVALID_ARGUMENT, fail Oversize s)
  else
    let last := offset + size in
    if declared_length (decl_ s) <? last then (V2_INVALID_ARGUMENT, fail OffsetOutOfRange s)
    else
      let s := if negb (zlen (staging_ s) =? declared_length (decl_ s))
               then s <| staging_ := replicate (Z.to_nat (declared_length (decl_ s))) 0 |> else s in
      let s := if negb (size =? 0)
               then s <| staging_ := overwrite (Z.to_nat offset) (slice (default [] data) 0 size) (staging_ s) |> else s in
      let s := if transferred_ s <? last then s <| transferred_ := u32 last |> else s in
      let s := maybe_finish_check (s <| staging_live_ := true |>) in
      if bool_decide (state_ s = Failed) then (V2_PROTOCOL_VIOLATION, s) else (V2_OK, s).

Definition note_disk_full (s : ContentOfferSchedulerV1) : fly_session_result_v2 * ContentOfferSchedulerV1 :=
  if bool_decide (state_ s = Idle) then (V2_INVALID_STATE, s) else (V2_UNAVAILABLE, fail DiskFull s).

Definition note_multi_payload (s : ContentOfferSchedulerV1) : fly_session_result_v2 * ContentOfferSchedulerV1 :=
  if bool_decide (state_ s = Idle) then (V2_INVALID_STATE, s) else (V2_INVALID_ARGUMENT, fail MultiPayload s).

Definition note_format_invalid (s : ContentOfferSchedulerV1) : fly_session_result_v2 * ContentOfferSchedulerV1 :=
  if bool_decide (state_ s = Idle) then (V2_INVALID_STATE, s) else (V2_INVALID_ARGUMENT, fail Format s).

(** ** Runs *)

Inductive OfferCall :=
  | CallReset (role : ContentOfferRoleV1)
  | CallOffer (decl : ContentOfferDeclV1)
  | CallAccept (decl : ContentOfferDeclV1)
  | CallApproveSend | CallApproveReceive | CallApproveImport | CallCancel | CallFriendSaved
  | CallClock (continuous_ns : Z)
  | CallAppend (offset : Z) (data : option bytes) (size : Z)
  | CallDiskFull | CallMultiPayload | CallFormatInvalid.

Definition offer_call (call : OfferCall) (s : ContentOfferSchedulerV1) : ContentOfferSchedulerV1 :=
  match call with
  | CallReset role => reset role s
  | CallOffer decl => (offer decl s).2
  | CallAccept decl => (accept_offer decl s).2
  | CallApproveSend => (approve_send s).2
  | CallApproveReceive => (approve_receive s).2
  | CallApproveImport => (approve_import s).2
  | CallCancel => (cancel s).2
  | CallFriendSaved => (note_friend_saved s).2
  | CallClock t => (on_clock t s).2
  | CallAppend offset data size => (append_bytes offset data size s).2
  | CallDiskFull => (note_disk_full s).2
  | CallMultiPayload => (note_multi_payload s).2
  | CallFormatInvalid => (note_format_invalid s).2
  end.

Definition run_offer (calls : list OfferCall) : ContentOfferSchedulerV1 :=
  fold_left (fun s call => offer_call call s) calls (offer_new Offerer).

(** ** Lemmas *)

Lemma zlen_replicate {A} n (x : A) : zlen (replicate n x) = Z.of_nat n.
Proof. unfold zlen. by rewrite length_replicate. Qed.

(** *** Records *)

Definition decl_ok (decl : ContentOfferDeclV1) : Prop :=
  zlen (offer_id decl) = 16 /\ zlen (content_id decl) = 32 /\ 0 <= declared_length decl < 2 ^ 32 /\
  zlen (payload_sha256 decl) = 32.

(** Sizes and offsets in a layout whose variable fields have known sizes. *)
#[local] Ltac layout :=
  unfold offer_layout, chunk_layout; cbn [take]; rewrite ?fmap_cons, ?fmap_nil; cbn [total];
  rewrite ?zlen_be_bytes, ?zlen_cons, ?zlen_nil; lia.

Lemma offer_body_size decl : decl_ok decl -> zlen (mjoin (offer_layout decl)) = 88.
Proof. intros (H1 & H2 & _ & H3). rewrite zlen_mjoin. layout. Qed.

Lemma chunk_body_size id offset data : zlen id = 16 -> zlen (mjoin (chunk_layout id offset data)) = 28 + zlen data.
Proof. intros H. rewrite zlen_mjoin. layout. Qed.

Lemma decode_encoded_offer decl : decl_ok decl -> decode_content_offer_v1 (mjoin (offer_layout decl)) = Some decl.
Proof.
  intros Hd. pose proof (offer_body_size decl Hd) as Hsize. destruct Hd as (H1 & H2 & H3 & H4).
  unfold decode_content_offer_v1. rewrite Hsize. cbn [Z.eqb negb kContentOfferBodyBytesV1 Pos.eqb].
  rewrite (load16_field _ 0 _ 0) with (v := 1) by (done || layout). cbn [Z.eqb negb Pos.eqb].
  rewrite (at_field _ 1 _ 2) with (v := 0) by (done || layout). rewrite (at_field _ 2 _ 3) with (v := 0) by (done || layout).
  cbn [Z.eqb negb orb]. rewrite (load32_field _ 5 _ 52) with (v := declared_length decl) by (done || layout).
  rewrite (slice_field _ 3 (offer_id decl) 4 16), (slice_field _ 4 (content_id decl) 20 32),
    (slice_field _ 6 (payload_sha256 decl) 56 32) by (done || layout).
  by destruct decl.
Qed.

Lemma decode_encoded_chunk id offset data :
  zlen id = 16 -> 0 <= offset < 2 ^ 32 -> zlen data <= kContentChunkMaxPayloadV1 ->
  decode_content_chunk_v1 (mjoin (chunk_layout id offset data)) = Some (id, offset, data).
Proof.
  intros Hid Hoff Hdata. unfold kContentChunkMaxPayloadV1 in Hdata. pose proof (zlen_nonneg data).
  assert (u32 (zlen data) = zlen data) as Hu by (apply Z.mod_small; lia).
  unfold decode_content_chunk_v1. rewrite chunk_body_size by done.
  destruct (Z.ltb_spec (28 + zlen data) kContentChunkHeaderBytesV1) as [Hl|_]; [unfold kContentChunkHeaderBytesV1 in Hl; lia |].
  rewrite (load16_field _ 0 _ 0) with (v := 1) by (done || layout). cbn [Z.eqb negb Pos.eqb orb].
  rewrite (at_field _ 1 _ 2) with (v := 0) by (done || layout). rewrite (at_field _ 2 _ 3) with (v := 0) by (done || layout).
  cbn [Z.eqb negb orb]. cbv zeta. rewrite (load32_field _ 5 (be_bytes 4 (u32 (zlen data))) 24) with (v := zlen data)
    by (done || (by rewrite Hu) || layout).
  unfold kContentChunkHeaderBytesV1. rewrite Z.eqb_refl. cbn [negb].
  rewrite (load32_field _ 4 _ 20) with (v := offset) by (done || layout).
  rewrite (slice_field _ 3 id 4 16), (slice_field _ 6 data 28 (zlen data)) by (done || layout). done.
Qed.

(** *** The staging area *)

Lemma zlen_overwrite cursor source (target : bytes) :
  Z.of_nat cursor + zlen source <= zlen target -> zlen (overwrite cursor source target) = zlen target.
Proof. unfold overwrite, zlen. rewrite !length_app, length_take, length_drop. lia. Qed.

Lemma overwrite_next (got source rest : bytes) :
  zlen source <= zlen rest ->
  overwrite (length got) source (got ++ rest) = (got ++ source) ++ drop (length source) rest.
Proof.
  intros H. unfold overwrite. rewrite take_app_length, drop_app_add', <- app_assoc by done. done.
Qed.

(** A transfer under way that has received [got]. *)
Record receiving (decl : ContentOfferDeclV1) (got : bytes) (s : ContentOfferSchedulerV1) : Prop := {
  receiver : role_ s = Receiver;
  transferring : state_ s = Transferring;
  expecting : decl_ s = decl;
  consents : send_ok_ s = true /\ receive_ok_ s = true;
  counted : transferred_ s = zlen got;
  staged : staging_ s = got ++ replicate (Z.to_nat (declared_length decl - zlen got)) 0;
}.

(** The offer is complete and checked. *)
Record received (decl : ContentOfferDeclV1) (payload : bytes) (s : ContentOfferSchedulerV1) : Prop := {
  waiting_import : state_ s = WaitingImport;
  received_decl : decl_ s = decl;
  received_payload : staging_ s = payload;
}.

(** What the state of the transfer is before the check. *)
Definition appended (got data : bytes) (s : ContentOfferSchedulerV1) : ContentOfferSchedulerV1 :=
  s <| staging_ := overwrite (length got) data (staging_ s) |> <| transferred_ := zlen got + zlen data |>
    <| staging_live_ := true |>.

Lemma append_receiving decl got data s :
  receiving decl got s -> declared_length decl <= kContentRomMaxBytesV1 -> 0 < zlen data ->
  zlen got + zlen data <= declared_length decl ->
  append_bytes (zlen got) (Some data) (zlen data) s =
  let s := maybe_finish_check (appended got data s) in
  if bool_decide (state_ s = Failed) then (V2_PROTOCOL_VIOLATION, s) else (V2_OK, s).
Proof.
  intros [Hrole Hstate Hdecl [Hs Hr] Hcount Hstage] Hmax Hpos Hmore. pose proof (zlen_nonneg got).
  assert (zlen (staging_ s) = declared_length decl) as Hlen by (rewrite Hstage, zlen_app, zlen_replicate; lia).
  unfold append_bytes, may_open_rom_stream. rewrite Hs, Hr, Hrole. cbn [negb orb].
  rewrite bool_decide_true, bool_decide_false by done. cbn [negb andb].
  destruct (Z.ltb_spec kContentRomMaxBytesV1 (zlen data)); [lia |]. cbv zeta. rewrite Hdecl.
  destruct (Z.ltb_spec (declared_length decl) (zlen got + zlen data)); [lia |].
  rewrite Hlen, Z.eqb_refl. cbn [negb]. destruct (Z.eqb_spec (zlen data) 0); [lia |]. cbn [negb default]. unfold id.
  assert (transferred_ (s <| staging_ := overwrite (Z.to_nat (zlen got)) (slice data 0 (zlen data)) (staging_ s) |>) =
    zlen got) as -> by done. destruct (Z.ltb_spec (zlen got) (zlen got + zlen data)); [| lia].
  assert (u32 (zlen got + zlen data) = zlen got + zlen data) as ->
    by (apply Z.mod_small; unfold kContentRomMaxBytesV1 in *; lia).
  rewrite slice_all. by assert (Z.to_nat (zlen got) = length got) as -> by apply Nat2Z.id.
Qed.

Lemma appended_staging decl got data s :
  receiving decl got s -> zlen got + zlen data <= declared_length decl ->
  staging_ (appended got data s) = (got ++ data) ++ replicate (Z.to_nat (declared_length decl - zlen (got ++ data))) 0.
Proof.
  intros [_ _ _ _ _ Hstage] Hmore. change (staging_ (appended got data s)) with (overwrite (length got) data (staging_ s)).
  rewrite Hstage, overwrite_next.
  - f_equal. rewrite drop_replicate. f_equal. rewrite zlen_app. unfold zlen in *. lia.
  - rewrite zlen_replicate. pose proof (zlen_nonneg data). lia.
Qed.

Lemma append_next decl got data s :
  receiving decl got s -> declared_length decl <= kContentRomMaxBytesV1 -> 0 < zlen data ->
  zlen got + zlen data < declared_length decl ->
  (append_bytes (zlen got) (Some data) (zlen data) s).1 = V2_OK /\
  receiving decl (got ++ data) (append_bytes (zlen got) (Some data) (zlen data) s).2.
Proof.
  intros H Hmax Hpos Hmore. rewrite (append_receiving decl) by (done || lia). cbv zeta.
  assert (maybe_finish_check (appended got data s) = appended got data s) as ->.
  { destruct H. unfold maybe_finish_check. rewrite bool_decide_true by done. cbn [negb].
    change (transferred_ (appended got data s)) with (zlen got + zlen data).
    change (decl_ (appended got data s)) with (decl_ s). rewrite expecting0. by destruct (Z.ltb_spec (zlen got + zlen data) (declared_length decl)); [| lia]. }
  pose proof (appended_staging decl got data s H ltac:(lia)) as Hstage. destruct H.
  rewrite bool_decide_false by (change (state_ s <> Failed); congruence). split; [done |].
  split; try done. change (zlen got + zlen data = zlen (got ++ data)). by rewrite zlen_app.
Qed.

Lemma append_last decl got data s :
  receiving decl got s -> declared_length decl <= kContentRomMaxBytesV1 -> 0 < zlen data ->
  zlen (got ++ data) = declared_length decl -> sha256 (got ++ data) = payload_sha256 decl ->
  (append_bytes (zlen got) (Some data) (zlen data) s).1 = V2_OK /\
  received decl (got ++ data) (append_bytes (zlen got) (Some data) (zlen data) s).2.
Proof.
  intros H Hmax Hpos Hlast Hhash. rewrite zlen_app in Hlast. rewrite (append_receiving decl) by (done || lia). cbv zeta.
  pose proof (appended_staging decl got data s H ltac:(lia)) as Hstage.
  rewrite zlen_app, Hlast, Z.sub_diag in Hstage. cbn [Z.to_nat replicate] in Hstage. rewrite app_nil_r in Hstage.
  assert (maybe_finish_check (appended got data s) =
    appended got data s <| state_ := Checking |> <| state_ := WaitingImport |>) as ->.
  { destruct H. unfold maybe_finish_check. rewrite bool_decide_true by done. cbn [negb].
    change (transferred_ (appended got data s)) with (zlen got + zlen data).
    change (decl_ (appended got data s)) with (decl_ s). rewrite expecting0. destruct (Z.ltb_spec (zlen got + zlen data) (declared_length decl)); [lia |]. cbv zeta.
    match goal with |- context [sha256 (slice ?p 0 (declared_length ?d))] =>
      change p with (staging_ (appended got data s)); change d with (decl_ s) end.
    rewrite Hstage, expecting0, <- Hlast, <- zlen_app, slice_all, Hhash, bool_decide_true by done. done. }
  rewrite bool_decide_false by done. split; [done |]. destruct H. by split.
Qed.

(** *** What the import rests on *)

Definition call_ok (call : OfferCall) : Prop :=
  match call with
  | CallOffer decl | CallAccept decl => decl_ok decl
  | CallAppend offset data size =>
    0 <= offset < 2 ^ 32 /\ 0 <= size /\ match data with Some d => size <= zlen d | None => True end
  | _ => True
  end.

(** The staged bytes are all of the declared payload, and both sides consented. *)
Definition checked (s : ContentOfferSchedulerV1) : Prop :=
  state_ s = WaitingImport /\ send_ok_ s = true /\ receive_ok_ s = true /\
  zlen (staging_ s) = declared_length (decl_ s) /\ sha256 (staging_ s) = payload_sha256 (decl_ s).

Definition is_reset (call : OfferCall) : bool := match call with CallReset _ => true | _ => false end.

(** An operation leaves the state alone, or leaves it to be imported or not. *)
Definition quiet (s s' : ContentOfferSchedulerV1) : Prop :=
  state_ s' = state_ s /\ decl_ s' = decl_ s /\ catalog_published_ s' = catalog_published_ s.

Definition gone (s' : ContentOfferSchedulerV1) : Prop := state_ s' = Failed /\ catalog_published_ s' = false.

Lemma bind_outcome decl s :
  bind_decl decl s = (V2_INVALID_STATE, s) \/
  (bind_decl decl s).1 <> V2_OK /\ gone (bind_decl decl s).2 /\ decl_ (bind_decl decl s).2 = decl_ s \/
  state_ s = Idle /\ bind_decl decl s = (V2_OK, (bind_decl decl s).2) /\ state_ (bind_decl decl s).2 = Offered /\
    decl_ (bind_decl decl s).2 = decl /\ catalog_published_ (bind_decl decl s).2 = catalog_published_ s.
Proof.
  unfold bind_decl. destruct (bool_decide_reflect (state_ s = Idle)); [| auto]. cbn [negb].
  destruct (_ || _); [by right; left |]. destruct (_ <? _); [by right; left |]. by right; right.
Qed.

Lemma enter_outcome s :
  maybe_enter_transfer s = s \/
  (state_ s = Offered \/ state_ s = WaitingConsent) /\
  (state_ (maybe_enter_transfer s) = Transferring \/ state_ (maybe_enter_transfer s) = WaitingConsent) /\
  decl_ (maybe_enter_transfer s) = decl_ s /\ catalog_published_ (maybe_enter_transfer s) = catalog_published_ s.
Proof.
  unfold maybe_enter_transfer.
  destruct (bool_decide_reflect (state_ s = Offered)), (bool_decide_reflect (state_ s = WaitingConsent)); cbn [negb andb];
    auto; right; (split; [auto |]); by destruct (_ && _); auto.
Qed.

Lemma finish_outcome s :
  send_ok_ s = true -> receive_ok_ s = true -> zlen (staging_ s) = declared_length (decl_ s) ->
  maybe_finish_check s = s \/ gone (maybe_finish_check s) /\ decl_ (maybe_finish_check s) = decl_ s \/
  state_ s = Transferring /\ checked (maybe_finish_check s) /\ decl_ (maybe_finish_check s) = decl_ s /\
    catalog_published_ (maybe_finish_check s) = catalog_published_ s.
Proof.
  intros Hs Hr Hlen. unfold maybe_finish_check.
  destruct (bool_decide_reflect (state_ s = Transferring)); cbn [negb]; [| auto]. destruct (_ <? _); [auto |]. cbv zeta.
  match goal with |- context [sha256 (slice ?p 0 (declared_length ?d))] =>
    change p with (staging_ s); change d with (decl_ s) end.
  rewrite <- Hlen, slice_all. destruct (bool_decide_reflect (sha256 (staging_ s) = payload_sha256 (decl_ s))); cbn [negb].
  - right; right. split; [done |]. by split_and!.
  - by right; left.
Qed.

Lemma append_outcome offset data size s :
  call_ok (CallAppend offset data size) -> 0 <= declared_length (decl_ s) ->
  let s' := (append_bytes offset data size s).2 in
  quiet s s' \/ gone s' /\ decl_ s' = decl_ s \/
  state_ s = Transferring /\ checked s' /\ decl_ s' = decl_ s /\ catalog_published_ s' = catalog_published_ s.
Proof.
  intros (Ho & Hn & Hd) Hdecl. cbv zeta. unfold append_bytes. destruct (may_open_rom_stream s) eqn:Hopen; [| by left].
  cbn [negb]. destruct (_ && _) eqn:Hnull; [by left |]. destruct (_ <? size); [by right; left |]. cbv zeta.
  destruct (Z.ltb_spec (declared_length (decl_ s)) (offset + size)); [by right; left |].
  set (s1 := if negb (zlen (staging_ s) =? declared_length (decl_ s)) then _ else s).
  assert (zlen (staging_ s1) = declared_length (decl_ s) /\ decl_ s1 = decl_ s /\ state_ s1 = state_ s /\
    catalog_published_ s1 = catalog_published_ s /\ send_ok_ s1 = true /\ receive_ok_ s1 = true) as (L1 & D1 & T1 & P1 & C1 & C2).
  { unfold may_open_rom_stream in Hopen. destruct (send_ok_ s) eqn:S1, (receive_ok_ s) eqn:S2; try done. subst s1.
    destruct (Z.eqb_spec (zlen (staging_ s)) (declared_length (decl_ s))); cbn [negb]; split_and!; try done.
    change (zlen (replicate (Z.to_nat (declared_length (decl_ s))) 0) = declared_length (decl_ s)).
    rewrite zlen_replicate. lia. }
  set (s2 := if negb (size =? 0) then _ else s1).
  assert (zlen (staging_ s2) = declared_length (decl_ s) /\ decl_ s2 = decl_ s /\ state_ s2 = state_ s /\
    catalog_published_ s2 = catalog_published_ s /\ send_ok_ s2 = true /\ receive_ok_ s2 = true) as (L2 & D2 & T2 & P2 & C3 & C4).
  { subst s2. destruct (Z.eqb_spec size 0); cbn [negb]; split_and!; try done.
    match goal with |- zlen (staging_ (s1 <| staging_ := ?p |>)) = _ => change (zlen p = declared_length (decl_ s)) end.
    rewrite zlen_overwrite; [done |]. destruct data as [d|]; [| by rewrite bool_decide_true in Hnull by done; lia].
    cbn [default]. unfold id.
    rewrite zlen_slice by lia. rewrite L1. lia. }
  set (s3 := if transferred_ s2 <? offset + size then _ else s2).
  assert (zlen (staging_ s3) = declared_length (decl_ s) /\ decl_ s3 = decl_ s /\ state_ s3 = state_ s /\
    catalog_published_ s3 = catalog_published_ s /\ send_ok_ s3 = true /\ receive_ok_ s3 = true) as (L3 & D3 & T3 & P3 & C5 & C6)
    by (by subst s3; destruct (_ <? _)).
  set (s4 := s3 <| staging_live_ := true |>).
  assert (forall c : bool, (if c then (V2_PROTOCOL_VIOLATION, maybe_finish_check s4) else (V2_OK, maybe_finish_check s4)).2 =
    maybe_finish_check s4) as -> by (by intros []).
  destruct (finish_outcome s4) as [-> | [[? E] | (T4 & ? & E & F)]]; try done.
  - change (zlen (staging_ s3) = declared_length (decl_ s3)). congruence.
  - left. split_and!; [exact T3 | exact D3 | exact P3].
  - right; left. split; [done |]. rewrite E. exact D3.
  - right; right. split_and!; [by rewrite <- T3 | done | rewrite E; exact D3 | rewrite F; exact P3].
Qed.

(** The parts of the state no operation breaks. *)
Definition offer_inv (s : ContentOfferSchedulerV1) : Prop :=
  0 <= declared_length (decl_ s) /\ (catalog_published_ s = true <-> state_ s = Imported).

Lemma quiet_inv s s' : offer_inv s -> quiet s s' -> offer_inv s'.
Proof. intros [H1 H2] (S & D & P). split; [by rewrite D | by rewrite P, S]. Qed.

Lemma gone_inv s s' : offer_inv s -> gone s' -> decl_ s' = decl_ s -> offer_inv s'.
Proof. intros [H1 H2] [T P] D. split; [by rewrite D | by rewrite P, T]. Qed.

(** An operation under the invariant: it changes nothing that matters, leaves the offer without a checked payload, checks
    the payload, or imports the one that waits. *)
Definition outcome (call : OfferCall) (s s' : ContentOfferSchedulerV1) : Prop :=
  quiet s s' /\ is_reset call = false \/
  (state_ s' <> WaitingImport /\ state_ s' <> Imported) \/
  checked s' \/
  (call = CallApproveImport /\ state_ s = WaitingImport /\ state_ s' = Imported /\ decl_ s' = decl_ s).

Lemma fail_outcome call reason s : offer_inv s -> offer_inv (fail reason s) /\ outcome call s (fail reason s).
Proof. intros H. split; [by apply (gone_inv s) | by right; left]. Qed.

Lemma same_outcome call s : is_reset call = false -> offer_inv s -> offer_inv s /\ outcome call s s.
Proof. intros R H. split; [done | by left]. Qed.

Lemma enter_after call s t :
  is_reset call = false -> offer_inv s -> quiet s t -> offer_inv (maybe_enter_transfer t) /\ outcome call s (maybe_enter_transfer t).
Proof.
  intros R H Q. destruct (enter_outcome t) as [-> | (B & A & D & P)].
  - split; [by apply (quiet_inv s) | by left].
  - pose proof (quiet_inv s t H Q) as [H1 H2]. split.
    + split; [by rewrite D |]. rewrite P, H2. split; intros C; [rewrite C in B; by destruct B | destruct A; congruence].
    + right; left. by destruct A as [-> | ->].
Qed.

Lemma bind_after call decl s t :
  is_reset call = false -> decl_ok decl -> offer_inv s -> (bind_decl decl s).2 = t -> offer_inv t /\ outcome call s t.
Proof.
  intros R Hd H <-. destruct (bind_outcome decl s) as [-> | [(_ & G & D) | (I & _ & O & D & P)]].
  - by apply same_outcome.
  - split; [by apply (gone_inv s) |]. right; left. destruct G as [-> _]. done.
  - destruct H as [_ H2]. split; [split |].
    + rewrite D. destruct Hd as (_ & _ & ? & _). lia.
    + rewrite P, H2, O, I. done.
    + right; left. by rewrite O.
Qed.

Lemma call_outcome call s :
  call_ok call -> offer_inv s -> offer_inv (offer_call call s) /\ outcome call s (offer_call call s).
Proof.
  intros Hok H. destruct call as [role | decl | decl | | | | | | t | offset data size | | |]; cbn [offer_call call_ok] in *.
  - split; [done | by right; left].
  - unfold offer. destruct (negb _); [by apply same_outcome | by apply (bind_after _ decl)].
  - unfold accept_offer. destruct (negb _); [by apply same_outcome |].
    destruct (bind_after (CallAccept decl) decl s _ eq_refl Hok H eq_refl) as [Hi Ho].
    destruct (bind_outcome decl s) as [-> | [(N & _) | (I & E & O & D & P)]]; [by apply same_outcome | |].
    + destruct (bind_decl decl s) as [bound s']. cbn [fst snd] in *. by rewrite bool_decide_false.
    + rewrite E. rewrite bool_decide_true by done. cbn [negb snd]. set (b := (bind_decl decl s).2) in *.
      destruct (enter_outcome b) as [-> | (_ & A & D' & P')]; [done |]. destruct Hi as [Hi1 Hi2]. split.
      * split; [by rewrite D' |]. rewrite P', Hi2, O. split; intros C; [done | destruct A; congruence].
      * right; left. by destruct A as [-> | ->].
  - unfold approve_send. destruct (over_ s); [by apply same_outcome |]. destruct (bool_decide _); [destruct (negb _) |].
    + by apply same_outcome.
    + split; [by apply (quiet_inv s) | by left].
    + by apply enter_after.
  - unfold approve_receive. destruct (over_ s); [by apply same_outcome |]. destruct (bool_decide _); [destruct (negb _) |].
    + by apply same_outcome.
    + split; [by apply (quiet_inv s) | by left].
    + by apply enter_after.
  - unfold approve_import. destruct (over_ s); [by apply same_outcome |].
    destruct (bool_decide_reflect (state_ s = WaitingImport)) as [W|]; cbn [negb andb].
    { destruct H as [H1 H2]. split; [done |]. by right; right; right. }
    destruct (bool_decide_reflect (state_ s = Imported)) as [I|]; [| by apply same_outcome].
    destruct H as [H1 H2]. cbn [negb snd]. split; [done |]. left. split; [| done]. split_and!; try done. by rewrite (proj2 H2 I).
  - unfold cancel. destruct (bool_decide_reflect (state_ s = Imported)) as [|N]; [by apply same_outcome |].
    destruct H as [H1 H2]. split; [| by right; left]. split; [done |]. split; [| done].
    intros C. by destruct (N (proj1 H2 C)).
  - by apply same_outcome.
  - unfold on_clock. destruct (_ || _); [by apply same_outcome |]. destruct (negb _); [split; [done | by left] |].
    destruct (_ && _ && _ && _); [by apply fail_outcome | by apply same_outcome].
  - destruct (append_outcome offset data size s Hok (proj1 H)) as [Q | [[G D] | (T & C & D & P)]].
    + split; [by apply (quiet_inv s) | by left].
    + split; [by apply (gone_inv s) |]. right; left. destruct G as [-> _]. done.
    + split; [| by right; right; left]. destruct H as [H1 H2]. split; [by rewrite D |].
      rewrite P, H2, T. by destruct C as [-> _].
  - unfold note_disk_full. destruct (bool_decide _); [by apply same_outcome | by apply fail_outcome].
  - unfold note_multi_payload. destruct (bool_decide _); [by apply same_outcome | by apply fail_outcome].
  - unfold note_format_invalid. destruct (bool_decide _); [by apply same_outcome | by apply fail_outcome].
Qed.

Lemma run_offer_snoc calls call : run_offer (calls ++ [call]) = offer_call call (run_offer calls).
Proof. unfold run_offer. by rewrite fold_left_app. Qed.

(** Since [before], whose bytes passed the check, nothing was reset. *)
Definition checked_at (calls : list OfferCall) : Prop :=
  exists before after, calls = before ++ after /\ checked (run_offer before) /\
    decl_ (run_offer before) = decl_ (run_offer calls) /\ Forall (fun call => is_reset call = false) after.

(** The import was approved after the check. *)
Definition imported_at (calls : list OfferCall) : Prop :=
  exists before middle after, calls = before ++ middle ++ CallApproveImport :: after /\ checked (run_offer before) /\
    decl_ (run_offer before) = decl_ (run_offer calls) /\
    Forall (fun call => is_reset call = false) (middle ++ CallApproveImport :: after).

Lemma run_inv calls :
  Forall call_ok calls ->
  offer_inv (run_offer calls) /\ (state_ (run_offer calls) = WaitingImport -> checked_at calls) /\
  (state_ (run_offer calls) = Imported -> imported_at calls).
Proof.
  induction calls as [|call calls IH] using rev_ind; intros Hok; [done |].
  apply Forall_app in Hok as [Hcalls Hcall]. apply List.Forall_inv in Hcall.
  destruct (IH Hcalls) as (Hinv & Hwait & Himport). rewrite run_offer_snoc.
  destruct (call_outcome call _ Hcall Hinv) as [Hinv' Hout]. split; [done |].
  unfold checked_at, imported_at. rewrite run_offer_snoc.
  destruct Hout as [((S & D & _) & R) | [[N1 N2] | [C | (-> & S & S' & D)]]].
  - rewrite S, D. split; intros H.
    + destruct (Hwait H) as (before & after & -> & ? & ? & ?). exists before, (after ++ [call]). rewrite <- app_assoc.
      split_and!; try done. apply Forall_app. by split; [| constructor].
    + destruct (Himport H) as (before & middle & after & -> & ? & ? & Hn). exists before, middle, (after ++ [call]).
      rewrite <- !app_assoc. split_and!; try done. change ((CallApproveImport :: after) ++ [call]) with
        (CallApproveImport :: after ++ [call]) in *. rewrite app_comm_cons, app_assoc. apply Forall_app. by split; [| constructor].
  - by split.
  - split; intros H; [| destruct C; congruence]. exists (calls ++ [call]), []. rewrite app_nil_r, run_offer_snoc. by split_and!.
  - split; intros H; [congruence |]. destruct (Hwait S) as (before & after & -> & ? & ? & ?). exists before, after, [].
    rewrite <- app_assoc. split_and!; try done; [congruence |]. apply Forall_app. by split; [| constructor].
Qed.

(** ** Correctness *)

(** C25. A game is published only after the user approved the import, and that only after every byte of the declared
    payload had been staged, with the declared SHA-256, while both consents were given; no reset lies between. *)
Theorem published_after_check (calls : list OfferCall) (Hok : Forall call_ok calls)
    (H : catalog_published_ (run_offer calls) = true) :
  state_ (run_offer calls) = Imported /\
  exists before middle after, calls = before ++ middle ++ CallApproveImport :: after /\ checked (run_offer before) /\
    decl_ (run_offer before) = decl_ (run_offer calls) /\
    Forall (fun call => is_reset call = false) (middle ++ CallApproveImport :: after).
Proof.
  destruct (run_inv calls Hok) as ([_ Hpub] & _ & Himport). apply Hpub in H. split; [done | by apply Himport].
Qed.

(** ** What the scheduler lets happen *)

Definition demo_payload : bytes := ascii_bytes "abc".

Definition demo_decl : ContentOfferDeclV1 := mkDecl (replicate 16 1) (replicate 32 2) 3 (sha256 demo_payload).

Definition demo_receive : list OfferCall :=
  [CallReset Receiver; CallApproveSend; CallApproveReceive; CallAccept demo_decl; CallAppend 0 (Some demo_payload) 3].

(** The check is not repeated: bytes that arrive while the import waits for its approval replace checked ones. *)
Example staging_after_check :
  let s := run_offer (demo_receive ++ [CallAppend 0 (Some (ascii_bytes "x")) 1]) in
  state_ s = WaitingImport /\ staging_ s = ascii_bytes "xbc".
Proof. vm_compute. done. Qed.

(** Bytes that arrive after the offer was cancelled are staged again. *)
Example staging_after_cancel :
  let s := run_offer ([CallReset Receiver; CallApproveSend; CallApproveReceive; CallAccept demo_decl; CallCancel;
    CallAppend 0 (Some (ascii_bytes "ab")) 2]) in
  state_ s = Cancelled /\ staging_live_ s = true /\ staging_ s = ascii_bytes "ab" ++ [0].
Proof. vm_compute. done. Qed.

(** The stall timer is never wound up again: a transfer that makes progress ends ten seconds after the first tick. *)
Example steady_transfer_times_out :
  let s := run_offer ([CallReset Receiver; CallApproveSend; CallApproveReceive; CallClock 0; CallAccept demo_decl;
    CallAppend 0 (Some (ascii_bytes "a")) 1; CallClock 9000000000; CallAppend 1 (Some (ascii_bytes "b")) 1;
    CallClock 10000000000]) in
  state_ s = Failed /\ fail_ s = StallTimeout.
Proof. vm_compute. done. Qed.

Lemma published_after_check_witness : state_ (run_offer (demo_receive ++ [CallApproveImport])) = Imported.
Proof.
  refine (proj1 (published_after_check (demo_receive ++ [CallApproveImport]) _ _)).
  - unfold demo_receive. cbn [app]. repeat (apply Forall_cons_2; [try exact I | ..]); try apply Forall_nil_2; try exact I.
    + unfold call_ok, decl_ok. cbn [demo_decl offer_id content_id declared_length payload_sha256]. vm_compute. done.
    + cbn. unfold zlen. cbn. lia.
  - vm_compute. reflexivity.
Defined.
