(* ===== verification/ContentTransfer.v ===== *)
(** * Transferring a game image ([shared/src/session/content/content_transfer_controller.{hpp,cpp}])

    The controller opens the stream of an offer, writes the records of the payload, and
    hands the records of the peer to the scheduler of [ContentOffer]. *)

From S2P Require Import Prelude SessionAbi Sha256 PairHandshake ContentOffer.

(** ** Data *)

Definition kRomReadCredit : Z := 65536.
Definition FLY_SESSION_PROVIDER_QUIC_STREAM_V2 : Z := 283.
Definition FLY_SESSION_PROVIDER_QUIC_DATA_V2 : Z := 284.
Definition FLY_SESSION_PROVIDER_QUIC_END_V2 : Z := 287.

Inductive EffectKind := OpenStream | Write | GrantRead.

Record Effect := mkEffect {
  kind : EffectKind;
  accept : bool;
  opener_role : Z;
  effect_connection : Z;
  stream : Z;
  effect_bytes : bytes;
  read_credit : Z;
  stream_kind : Z;
  expected_payload_kind : Z;
}.

(** [Effect effect{};] *)
Definition effect0 : Effect := mkEffect OpenStream false 0 0 0 [] 0 5 0.

#[global] Instance eta_effect : Eta Effect := fun r =>
  mkEffect (kind r) (accept r) (opener_role r) (effect_connection r) (stream r) (effect_bytes r) (read_credit r)
    (stream_kind r) (expected_payload_kind r).

Record ContentTransferControllerV1 := mkTransfer {
  scheduler_ : ContentOfferSchedulerV1;
  transfer_role_ : ContentOfferRoleV1;
  connection_ : Z;
  send_stream_ : Z;
  receive_stream_ : Z;
  local_is_listener_ : bool;
  want_stream_ : bool;
  stream_open_ : bool;
  open_outstanding_ : bool;
  write_outstanding_ : bool;
  read_outstanding_ : bool;
  want_read_ : bool;
  frames_queued_ : bool;
  bulk_writes_ : Z;
  payload_ : bytes;
  write_queue_ : list bytes;
  read_accumulator_ : bytes;
}.

#[global] Instance eta_transfer : Eta ContentTransferControllerV1 := fun r =>
  mkTransfer (scheduler_ r) (transfer_role_ r) (connection_ r) (send_stream_ r) (receive_stream_ r) (local_is_listener_ r)
    (want_stream_ r) (stream_open_ r) (open_outstanding_ r) (write_outstanding_ r) (read_outstanding_ r) (want_read_ r)
    (frames_queued_ r) (bulk_writes_ r) (payload_ r) (write_queue_ r) (read_accumulator_ r).

Definition transfer_new : ContentTransferControllerV1 :=
  mkTransfer (offer_new Offerer) Offerer 0 0 0 false false false false false false false false 0 [] [] [].

(** ** Operations *)

Definition reset (role : ContentOfferRoleV1) (c : ContentTransferControllerV1) : ContentTransferControllerV1 :=
  c <| scheduler_ := ContentOffer.reset role (scheduler_ c) |> <| transfer_role_ := role |> <| want_stream_ := false |>
    <| stream_open_ := false |> <| open_outstanding_ := false |> <| write_outstanding_ := false |>
    <| read_outstanding_ := false |> <| want_read_ := false |> <| frames_queued_ := false |> <| bulk_writes_ := 0 |>
    <| payload_ := [] |> <| write_queue_ := [] |> <| read_accumulator_ := [] |>.

Definition attach_connection (connection : Z) (local_is_listener : bool) (c : ContentTransferControllerV1)
    : ContentTransferControllerV1 :=
  c <| connection_ := connection |> <| local_is_listener_ := local_is_listener |>.

Definition offer (decl : ContentOfferDeclV1) (payload : option bytes) (payload_size : Z) (c : ContentTransferControllerV1)
    : fly_session_result_v2 * ContentTransferControllerV1 :=
  if bool_decide (payload = None) && negb (payload_size =? 0) then (V2_INVALID_ARGUMENT, c)
  else if negb (payload_size =? declared_length decl) then (V2_INVALID_ARGUMENT, c)
  else
    let '(bound, s) := ContentOffer.offer decl (scheduler_ c) in
    let c := c <| scheduler_ := s |> in
    if negb (bool_decide (bound = V2_OK)) then (bound, c)
    else (V2_OK, c <| payload_ := slice (default [] payload) 0 payload_size |>).

(** A call of the scheduler. *)
Definition with_scheduler (f : ContentOfferSchedulerV1 -> fly_session_result_v2 * ContentOfferSchedulerV1)
    (c : ContentTransferControllerV1) : fly_session_result_v2 * ContentTransferControllerV1 :=
  let '(result, s) := f (scheduler_ c) in (result, c <| scheduler_ := s |>).

Definition accept_offer (decl : ContentOfferDeclV1) (c : ContentTransferControllerV1)
    : fly_session_result_v2 * ContentTransferControllerV1 := with_scheduler (ContentOffer.accept_offer decl) c.

Definition approve_send (c : ContentTransferControllerV1) : fly_session_result_v2 * ContentTransferControllerV1 :=
  let '(result, c) := with_scheduler ContentOffer.approve_send c in
  if bool_decide (result = V2_OK) && may_open_rom_stream (scheduler_ c)
  then (result, c <| want_stream_ := true |>) else (result, c).

Definition approve_receive (c : ContentTransferControllerV1) : fly_session_result_v2 * ContentTransferControllerV1 :=
  let '(result, c) := with_scheduler ContentOffer.approve_receive c in
  if bool_decide (result = V2_OK) && may_open_rom_stream (scheduler_ c)
  then (result, c <| want_stream_ := true |>) else (result, c).

Definition approve_import (c : ContentTransferControllerV1) : fly_session_result_v2 * ContentTransferControllerV1 :=
  with_scheduler ContentOffer.approve_import c.

Definition cancel (c : ContentTransferControllerV1) : fly_session_result_v2 * ContentTransferControllerV1 :=
  with_scheduler ContentOffer.cancel (c <| want_stream_ := false |> <| write_queue_ := [] |> <| payload_ := [] |>).

Definition note_friend_saved (c : ContentTransferControllerV1) : fly_session_result_v2 * ContentTransferControllerV1 :=
  with_scheduler ContentOffer.note_friend_saved c.

Definition on_clock (continuous_ns : Z) (c : ContentTransferControllerV1)
    : fly_session_result_v2 * ContentTransferControllerV1 := with_scheduler (ContentOffer.on_clock continuous_ns) c.

(** The chunks of the payload from [offset], and whether all of them could be encoded. *)
Fixpoint chunk_loop (fuel : nat) (id payload : bytes) (offset : Z) : list bytes * bool :=
  match fuel with
  | O => ([], false)
  | S fuel =>
    if offset <? zlen payload then
      let remaining := zlen payload - offset in
      let size := if kContentChunkMaxPayloadV1 <? remaining then kContentChunkMaxPayloadV1 else remaining in
      match encode_content_chunk_v1 id offset (slice payload offset size) with
      | None => ([], false)
      | Some chunk => let '(rest, whole) := chunk_loop fuel id payload (u32 (offset + size)) in (chunk :: rest, whole)
      end
    else ([], true)
  end.

(** Each turn takes at least one byte: the payload's length is enough fuel. *)
Definition queue_payload_frames (c : ContentTransferControllerV1) : ContentTransferControllerV1 :=
  if frames_queued_ c || negb (bool_decide (transfer_role_ c = Offerer)) then c
  else
    let '(chunks, whole) := chunk_loop (S (length (payload_ c))) (offer_id (decl_ (scheduler_ c))) (payload_ c) 0 in
    let c := c <| write_queue_ := write_queue_ c ++ encode_content_offer_v1 (decl_ (scheduler_ c)) :: chunks |> in
    if whole : bool then c <| frames_queued_ := true |> else c.

Definition poll_effect (c : ContentTransferControllerV1) : option Effect * ContentTransferControllerV1 :=
  if bool_decide (state_ (scheduler_ c) = Failed) || bool_decide (state_ (scheduler_ c) = Cancelled) then (None, c)
  else if want_stream_ c && negb (stream_open_ c) && negb (open_outstanding_ c) && negb (connection_ c =? 0) then
    (Some (effect0 <| kind := OpenStream |> <| accept := local_is_listener_ c |>
             <| opener_role := if local_is_listener_ c then Responder else Initiator |>
             <| effect_connection := connection_ c |>
             <| expected_payload_kind := FLY_SESSION_PROVIDER_QUIC_STREAM_V2 |>),
     c <| open_outstanding_ := true |>)
  else
    let c := if stream_open_ c && bool_decide (transfer_role_ c = Offerer) && negb (frames_queued_ c) &&
                may_open_rom_stream (scheduler_ c)
             then queue_payload_frames c else c in
    if stream_open_ c && negb (write_outstanding_ c) && negb (bool_decide (write_queue_ c = [])) then
      (Some (effect0 <| kind := Write |> <| stream := send_stream_ c |> <| effect_bytes := default [] (head (write_queue_ c)) |>
               <| expected_payload_kind := FLY_SESSION_PROVIDER_QUIC_END_V2 |>),
       c <| write_outstanding_ := true |>)
    else if stream_open_ c && want_read_ c && negb (read_outstanding_ c) && negb (receive_stream_ c =? 0) then
      (Some (effect0 <| kind := GrantRead |> <| stream := receive_stream_ c |> <| read_credit := kRomReadCredit |>
               <| expected_payload_kind := FLY_SESSION_PROVIDER_QUIC_DATA_V2 |>),
       c <| read_outstanding_ := true |>)
    else (None, c).

Definition on_stream_open (send recv : Z) (c : ContentTransferControllerV1)
    : fly_session_result_v2 * ContentTransferControllerV1 :=
  let c := c <| open_outstanding_ := false |> in
  if (send =? 0) || (recv =? 0) then (V2_CONTRACT_VIOLATION, c)
  else
    let c := c <| send_stream_ := send |> <| receive_stream_ := recv |> <| stream_open_ := true |> in
    (V2_OK, if bool_decide (transfer_role_ c = Receiver) then c <| want_read_ := true |> else c).

Definition on_write_complete (c : ContentTransferControllerV1) : fly_session_result_v2 * ContentTransferControllerV1 :=
  (V2_OK, c <| write_outstanding_ := false |> <| write_queue_ := tail (write_queue_ c) |>
            <| bulk_writes_ := u32 (bulk_writes_ c + 1) |> <| want_read_ := true |>).

(** One record of the peer. *)
Definition consume_record (type : Z) (body : bytes) (c : ContentTransferControllerV1)
    : fly_session_result_v2 * ContentTransferControllerV1 :=
  if type =? kContentOfferTypeV1 then
    match decode_content_offer_v1 body with
    | None => (V2_PROTOCOL_VIOLATION, c)
    | Some decl =>
      if bool_decide (transfer_role_ c = Receiver) && bool_decide (state_ (scheduler_ c) = Idle)
      then with_scheduler (ContentOffer.accept_offer decl) c
      else (V2_OK, c)
    end
  else if type =? kContentChunkTypeV1 then
    match decode_content_chunk_v1 body with
    | None => (V2_PROTOCOL_VIOLATION, c)
    | Some (id, offset, payload) =>
      if negb (bool_decide (id = offer_id (decl_ (scheduler_ c)))) then (V2_PROTOCOL_VIOLATION, c)
      else with_scheduler (append_bytes offset (if zlen payload =? 0 then None else Some payload) (zlen payload)) c
    end
  else (V2_PROTOCOL_VIOLATION, c).

(** Each turn but the last removes a record of at least five bytes: the length of the accumulator is enough fuel. *)
Fixpoint consume_loop (fuel : nat) (c : ContentTransferControllerV1)
    : option (fly_session_result_v2 * ContentTransferControllerV1) :=
  match fuel with
  | O => None
  | S fuel =>
    if zlen (read_accumulator_ c) <? 5 then Some (V2_OK, c)
    else
      let body_len := load32 (read_accumulator_ c) 0 in
      let total := 4 + body_len in
      if (body_len <? 1) || (65536 <? total) then Some (V2_PROTOCOL_VIOLATION, c)
      else if zlen (read_accumulator_ c) <? total then Some (V2_OK, c)
      else
        let '(result, c) := consume_record (at_ (read_accumulator_ c) 4) (slice (read_accumulator_ c) 5 (body_len - 1)) c in
        if negb (bool_decide (result = V2_OK)) then Some (result, c)
        else consume_loop fuel (c <| read_accumulator_ := drop (Z.to_nat total) (read_accumulator_ c) |>)
  end.

Definition consume_records (c : ContentTransferControllerV1) : option (fly_session_result_v2 * ContentTransferControllerV1) :=
  consume_loop (S (length (read_accumulator_ c))) c.

Definition ingest_remote_bytes (data : option bytes) (size : Z) (c : ContentTransferControllerV1)
    : option (fly_session_result_v2 * ContentTransferControllerV1) :=
  let c := c <| read_outstanding_ := false |> <| want_read_ := false |> in
  if bool_decide (data = None) && negb (size =? 0) then Some (V2_INVALID_ARGUMENT, c)
  else
    let c := c <| read_accumulator_ := read_accumulator_ c ++ slice (default [] data) 0 size |> in
    match consume_records c with
    | None => None
    | Some (consumed, c) =>
      if negb (bool_decide (consumed = V2_OK)) then Some (consumed, c)
      else
        let state := state_ (scheduler_ c) in
        if negb (bool_decide (state = WaitingImport)) && negb (bool_decide (state = Imported)) &&
           negb (bool_decide (state = Failed)) && negb (bool_decide (state = Cancelled))
        then Some (V2_OK, c <| want_read_ := true |>)
        else Some (V2_OK, c)
    end.

(** ** Runs *)

(** Polls and completes writes, up to [n] of them. *)
Fixpoint written (n : nat) (c : ContentTransferControllerV1) : list bytes * ContentTransferControllerV1 :=
  match n with
  | O => ([], c)
  | S n =>
    match poll_effect c with
    | (Some effect, c') =>
      match kind effect with
      | Write => let '(rest, last) := written n (on_write_complete c').2 in (effect_bytes effect :: rest, last)
      | _ => ([], c)
      end
    | (None, _) => ([], c)
    end
  end.

(** Hands pieces of the peer's stream over, as long as they are accepted. *)
Fixpoint ingest_all (pieces : list bytes) (c : ContentTransferControllerV1) : option ContentTransferControllerV1 :=
  match pieces with
  | [] => Some c
  | piece :: rest =>
    match ingest_remote_bytes (Some piece) (zlen piece) c with
    | Some (V2_OK, c) => ingest_all rest c
    | _ => None
    end
  end.

(** The side that owns the game, its stream just opened. *)
Definition sender (decl : ContentOfferDeclV1) (payload : bytes) (connection send recv : Z) (listener : bool)
    : ContentTransferControllerV1 :=
  let c := attach_connection connection listener (reset Offerer transfer_new) in
  let c := (offer decl (Some payload) (zlen payload) c).2 in
  let c := (approve_receive (approve_send c).2).2 in
  (on_stream_open send recv (poll_effect c).2).2.

(** The side that asked for it. *)
Definition recipient (connection send recv : Z) (listener : bool) : ContentTransferControllerV1 :=
  let c := attach_connection connection listener (reset Receiver transfer_new) in
  let c := (approve_receive (approve_send c).2).2 in
  (on_stream_open send recv (poll_effect c).2).2.

(** ** Lemmas *)

(** The header of a record, seen through any cut of the stream. *)
Lemma wrapped_size type body : 0 <= zlen body < 65531 -> zlen (wrap_record type body) = 5 + zlen body.
Proof. intros H. unfold wrap_record. rewrite !zlen_app, zlen_be_bytes, zlen_cons, zlen_nil. lia. Qed.

Lemma wrapped_body type body : slice (wrap_record type body) 5 (zlen body) = body.
Proof.
  unfold wrap_record. rewrite app_assoc. set (head := be_bytes 4 _ ++ [type]).
  assert (zlen head = 5) as Hhead by (subst head; by rewrite zlen_app, zlen_be_bytes).
  rewrite slice_app_right, Hhead by lia. apply slice_all.
Qed.

Lemma wrapped_header type body acc suffix rest :
  0 <= zlen body < 65531 -> acc ++ suffix = wrap_record type body ++ rest -> 5 <= zlen acc ->
  load32 acc 0 = 1 + zlen body /\ at_ acc 4 = type.
Proof.
  intros Hbody Heq Hacc. assert (slice acc 0 5 = be_bytes 4 (1 + zlen body) ++ [type]) as Hhead.
  { rewrite <- (slice_app_left acc suffix 0 5), Heq by lia. unfold wrap_record, u32. rewrite Z.mod_small by lia.
    rewrite (app_assoc (be_bytes _ _)), <- app_assoc. apply slice_app_here. by rewrite zlen_app, zlen_be_bytes. }
  split.
  - rewrite load32_value by lia. replace (slice acc 0 4) with (slice (slice acc 0 5) 0 4) by (by rewrite slice_slice by lia).
    rewrite Hhead, slice_app_here by (by rewrite zlen_be_bytes).
    apply be_value_be_bytes_small. lia.
  - replace (at_ acc 4) with (at_ (slice acc 0 5) 4) by (by rewrite at_slice by lia). rewrite Hhead. done.
Qed.

Section Transfer.
Variables (decl : ContentOfferDeclV1) (payload : bytes).
Hypothesis Hdecl : decl_ok decl.
Hypothesis Hid : any_nonzero (offer_id decl) = true /\ any_nonzero (content_id decl) = true.
Hypothesis Hsize : 0 < zlen payload <= kContentRomMaxBytesV1.
Hypothesis Hlength : declared_length decl = zlen payload.
Hypothesis Hhash : payload_sha256 decl = sha256 payload.

(** The records of the payload from an offset. *)
Inductive chunked : Z -> list bytes -> Prop :=
  | chunked_end : chunked (zlen payload) []
  | chunked_next offset data rest :
    0 < zlen data <= kContentChunkMaxPayloadV1 -> offset + zlen data <= zlen payload ->
    data = slice payload offset (zlen data) -> chunked (offset + zlen data) rest ->
    chunked offset (wrap_record kContentChunkTypeV1 (mjoin (chunk_layout (offer_id decl) offset data)) :: rest).

Lemma chunk_loop_spec fuel offset :
  0 <= offset <= zlen payload -> zlen payload - offset < Z.of_nat fuel ->
  exists chunks, chunk_loop fuel (offer_id decl) payload offset = (chunks, true) /\ chunked offset chunks.
Proof using Hsize.
  revert offset. induction fuel as [|fuel IH]; intros offset Ho Hf; [lia |]. cbn [chunk_loop]. cbv zeta.
  destruct (Z.ltb_spec offset (zlen payload)); [| assert (offset = zlen payload) as -> by lia; eexists; split; [done | constructor]].
  set (size := if kContentChunkMaxPayloadV1 <? zlen payload - offset then _ else _).
  assert (0 < size <= kContentChunkMaxPayloadV1 /\ offset + size <= zlen payload) as [Hs Hend].
  { subst size. unfold kContentChunkMaxPayloadV1. destruct (Z.ltb_spec 4096 (zlen payload - offset)); lia. }
  assert (zlen (slice payload offset size) = size) as Hlen by (apply zlen_slice; lia).
  unfold encode_content_chunk_v1. destruct (Z.ltb_spec kContentChunkMaxPayloadV1 (zlen (slice payload offset size))); [lia |].
  assert (u32 (offset + size) = offset + size) as -> by (apply Z.mod_small; unfold kContentRomMaxBytesV1 in *; lia).
  destruct (IH (offset + size)) as (chunks & -> & Hc); [lia | lia |]. eexists. split; [done |].
  apply chunked_next; rewrite ?Hlen; done.
Qed.

(** What is still to come when the receiver is here. *)
Inductive stage : ContentOfferSchedulerV1 -> list bytes -> Prop :=
  | stage_idle s chunks :
    role_ s = Receiver -> state_ s = Idle -> send_ok_ s = true -> receive_ok_ s = true -> chunked 0 chunks ->
    stage s (encode_content_offer_v1 decl :: chunks)
  | stage_receiving s got chunks :
    receiving decl got s -> got = slice payload 0 (zlen got) -> zlen got < zlen payload -> chunked (zlen got) chunks ->
    stage s chunks
  | stage_received s : received decl payload s -> stage s [].

Lemma bind_accepts s :
  role_ s = Receiver -> state_ s = Idle -> send_ok_ s = true -> receive_ok_ s = true ->
  (ContentOffer.accept_offer decl s).1 = V2_OK /\ receiving decl [] (ContentOffer.accept_offer decl s).2.
Proof using Hid Hsize Hlength.
  intros Hr Hi Hs Hv. unfold ContentOffer.accept_offer. rewrite Hr, bool_decide_true by done. cbn [negb].
  unfold bind_decl. rewrite bool_decide_true by done. destruct Hid as [-> ->]. cbn [negb orb].
  destruct (Z.eqb_spec (declared_length decl) 0); [lia |].
  destruct (Z.ltb_spec kContentRomMaxBytesV1 (declared_length decl)); [lia |].
  rewrite bool_decide_true by done. cbn [negb]. set (s' := s <| decl_ := _ |> <| staging_ := _ |> <| transferred_ := _ |>
    <| staging_live_ := _ |> <| state_ := _ |>).
  assert (maybe_enter_transfer s' = s' <| state_ := Transferring |>) as ->.
  { unfold maybe_enter_transfer. rewrite bool_decide_true by done. cbn [negb andb].
    change (send_ok_ s') with (send_ok_ s). change (receive_ok_ s') with (receive_ok_ s). by rewrite Hs, Hv. }
  split; [done |]. split; try done. rewrite Z.sub_0_r. done.
Qed.

(** The next record is one the receiver takes. *)
Lemma stage_step c record rest :
  transfer_role_ c = Receiver -> stage (scheduler_ c) (record :: rest) ->
  exists type body s',
    record = wrap_record type body /\ 0 <= zlen body < 65531 /\
    consume_record type body c = (V2_OK, c <| scheduler_ := s' |>) /\ stage s' rest.
Proof using Hdecl Hid Hsize Hlength Hhash.
  intros Hrole H. inversion H as [s chunks R I S V C | s got chunks R G L C | ]; subst.
  - exists kContentOfferTypeV1, (mjoin (offer_layout decl)), (ContentOffer.accept_offer decl (scheduler_ c)).2.
    split; [done |]. split; [rewrite offer_body_size by done; lia |].
    destruct (bind_accepts (scheduler_ c) R I S V) as [Hok Hrecv]. split.
    + unfold consume_record. cbn [Z.eqb kContentOfferTypeV1 Pos.eqb]. rewrite decode_encoded_offer by done.
      rewrite Hrole, I, !bool_decide_true by done. cbn [andb]. unfold with_scheduler.
      destruct (ContentOffer.accept_offer decl (scheduler_ c)) as [result s']. cbn [fst snd] in *. by subst.
    + apply (stage_receiving _ []); [done | done | rewrite zlen_nil; lia | done].
  - inversion C as [|offset data rest' Hdata Hend Hslice Hrest]; subst.
    pose proof (zlen_nonneg got). destruct Hdecl as (Hlid & _). unfold kContentChunkMaxPayloadV1, kContentRomMaxBytesV1 in *.
    assert (slice payload 0 (zlen got + zlen data) = got ++ data) as Hgot.
    { rewrite (slice_split payload 0 (zlen got)), <- G by lia. f_equal. etransitivity; [| symmetry; exact Hslice]. f_equal; lia. }
    set (s' := (append_bytes (zlen got) (Some data) (zlen data) (scheduler_ c)).2).
    exists kContentChunkTypeV1, (mjoin (chunk_layout (offer_id decl) (zlen got) data)), s'.
    split; [done |]. split; [rewrite chunk_body_size by done; lia |].
    assert ((append_bytes (zlen got) (Some data) (zlen data) (scheduler_ c)).1 = V2_OK /\ stage s' rest) as [Hok Hst].
    { destruct (Z.eq_dec (zlen got + zlen data) (zlen payload)) as [E|E].
      - assert (got ++ data = payload) as Hall by (by rewrite <- Hgot, E, slice_all).
        destruct (append_last decl got data (scheduler_ c) R) as [Hok Hrec];
          [unfold kContentRomMaxBytesV1; lia | lia | rewrite Hall; lia | by rewrite Hall |].
        split; [done |]. rewrite Hall in Hrec. fold s' in Hrec.
        rewrite E in Hrest. inversion Hrest; [| lia]. subst. by constructor.
      - destruct (append_next decl got data (scheduler_ c) R) as [Hok Hrec]; [unfold kContentRomMaxBytesV1; lia | lia | lia |].
        split; [done |]. fold s' in Hrec. apply (stage_receiving _ (got ++ data)); rewrite ?zlen_app; [done | done | lia | done]. }
    split; [| done]. unfold consume_record. cbn [Z.eqb kContentOfferTypeV1 kContentChunkTypeV1 Pos.eqb].
    rewrite decode_encoded_chunk by (done || unfold kContentChunkMaxPayloadV1; lia).
    rewrite (expecting _ _ _ R), bool_decide_true by done. cbn [negb].
    destruct (Z.eqb_spec (zlen data) 0); [lia |]. unfold with_scheduler.
    subst s'. destruct (append_bytes _ _ _ _) as [result s']. cbn [fst snd] in *. by subst.
Qed.

(** An unfinished record at the end of what has arrived. *)
Definition partial (acc : bytes) (rest : list bytes) : Prop :=
  match rest with [] => acc = [] | record :: _ => zlen acc < zlen record end.

Lemma consume_loop_spec fuel rest c suffix :
  transfer_role_ c = Receiver -> stage (scheduler_ c) rest -> read_accumulator_ c ++ suffix = mjoin rest ->
  (length (read_accumulator_ c) < fuel)%nat ->
  exists c' rest', consume_loop fuel c = Some (V2_OK, c') /\ transfer_role_ c' = Receiver /\ stage (scheduler_ c') rest' /\
    read_accumulator_ c' ++ suffix = mjoin rest' /\ partial (read_accumulator_ c') rest'.
Proof using Hdecl Hid Hsize Hlength Hhash.
  revert rest c. induction fuel as [|fuel IH]; intros rest c Hrole Hst Hacc Hf; [lia |]. cbn [consume_loop]. cbv zeta.
  destruct rest as [|record rest].
  { apply app_eq_nil in Hacc as [Ha ->]. rewrite Ha. cbn [zlen length Z.of_nat Z.ltb Z.compare].
    exists c, []. rewrite Ha. by split_and!. }
  destruct (stage_step c record rest Hrole Hst) as (type & body & s' & -> & Hbody & Hconsume & Hnext).
  change (mjoin (?x :: ?y)) with (x ++ mjoin y) in Hacc. pose proof (wrapped_size type body Hbody) as Hw.
  destruct (Z.ltb_spec (zlen (read_accumulator_ c)) 5) as [|H5].
  { exists c, (wrap_record type body :: rest). split_and!; try done. cbn [partial]. lia. }
  destruct (wrapped_header type body _ _ _ Hbody Hacc H5) as [Hlen Htype]. rewrite Hlen, Htype.
  destruct (Z.ltb_spec (1 + zlen body) 1); [lia |]. destruct (Z.ltb_spec 65536 (4 + (1 + zlen body))); [lia |]. cbn [orb].
  destruct (Z.ltb_spec (zlen (read_accumulator_ c)) (4 + (1 + zlen body))) as [|Hwhole].
  { exists c, (wrap_record type body :: rest). split_and!; try done. cbn [partial]. lia. }
  assert (slice (read_accumulator_ c) 5 (1 + zlen body - 1) = body) as ->.
  { replace (1 + zlen body - 1) with (zlen body) by lia. rewrite <- (slice_app_left _ suffix) by lia. rewrite Hacc.
    rewrite slice_app_left by lia. apply wrapped_body. }
  rewrite Hconsume, bool_decide_true by done. cbn [negb].
  change (read_accumulator_ (c <| scheduler_ := s' |>)) with (read_accumulator_ c).
  apply (IH rest); [done | done | |].
  - match goal with |- read_accumulator_ (_ <| read_accumulator_ := ?p |>) ++ _ = _ => change (p ++ suffix = mjoin rest) end.
    assert (drop (Z.to_nat (4 + (1 + zlen body))) (read_accumulator_ c ++ suffix) = mjoin rest) as Hdrop.
    { rewrite Hacc. replace (Z.to_nat _) with (length (wrap_record type body)) by (unfold zlen in *; lia).
      apply drop_app_length. }
    rewrite drop_app in Hdrop. rewrite <- Hdrop. do 2 f_equal. replace (_ - _)%nat with 0%nat by (unfold zlen in *; lia). done.
  - match goal with |- (length (read_accumulator_ (_ <| read_accumulator_ := ?p |>)) < _)%nat => change (length p < fuel)%nat end.
    rewrite length_drop. unfold zlen in *. lia.
Qed.

Lemma ingest_spec rest c piece suffix :
  transfer_role_ c = Receiver -> stage (scheduler_ c) rest -> read_accumulator_ c ++ piece ++ suffix = mjoin rest ->
  exists c' rest', ingest_remote_bytes (Some piece) (zlen piece) c = Some (V2_OK, c') /\ transfer_role_ c' = Receiver /\
    stage (scheduler_ c') rest' /\ read_accumulator_ c' ++ suffix = mjoin rest' /\ partial (read_accumulator_ c') rest'.
Proof using Hdecl Hid Hsize Hlength Hhash.
  intros Hrole Hst Hacc. unfold ingest_remote_bytes. rewrite bool_decide_false by done. cbn [andb default]. cbv zeta. unfold id.
  rewrite slice_all, app_assoc in *. set (acc := read_accumulator_ _ ++ piece).
  match goal with |- context [consume_records ?x] => set (c1 := x) end.
  destruct (consume_loop_spec (S (length acc)) rest c1 suffix) as (c' & rest' & Hloop & ? & ? & ? & ?); try done.
  { change (length acc < S (length acc))%nat. lia. }
  unfold consume_records. change (length (read_accumulator_ c1)) with (length acc). rewrite Hloop.
  rewrite bool_decide_true by done. cbn [negb]. destruct (_ && _ && _ && _); eexists _, rest'; by split_and!.
Qed.

Lemma ingest_all_spec pieces rest c :
  transfer_role_ c = Receiver -> stage (scheduler_ c) rest -> partial (read_accumulator_ c) rest ->
  read_accumulator_ c ++ mjoin pieces = mjoin rest ->
  exists c', ingest_all pieces c = Some c' /\ received decl payload (scheduler_ c').
Proof using Hdecl Hid Hsize Hlength Hhash.
  revert rest c. induction pieces as [|piece pieces IH]; intros rest c Hrole Hst Hpartial Hacc.
  - exists c. split; [done |]. change (mjoin []) with (@nil Z) in Hacc. rewrite app_nil_r in Hacc.
    destruct rest as [|record rest].
    + inversion Hst as [|s got chunks R G L C|]; subst; [| done]. inversion C. lia.
    + cbn [partial] in Hpartial. change (mjoin (?x :: ?y)) with (x ++ mjoin y) in Hacc. rewrite Hacc, zlen_app in Hpartial.
      pose proof (zlen_nonneg (mjoin rest)). lia.
  - change (mjoin (?x :: ?y)) with (x ++ mjoin y) in Hacc. cbn [ingest_all].
    destruct (ingest_spec rest c piece (mjoin pieces) Hrole Hst Hacc) as (c' & rest' & -> & ? & ? & ? & ?).
    by apply (IH rest').
Qed.

(** *** The sending side *)

(** Nothing stands between the queue and the stream. *)
Definition writing (c : ContentTransferControllerV1) : Prop :=
  state_ (scheduler_ c) = Transferring /\ stream_open_ c = true /\ write_outstanding_ c = false /\ frames_queued_ c = true.

Lemma written_queue n c :
  writing c -> (length (write_queue_ c) <= n)%nat -> (written n c).1 = write_queue_ c.
Proof using.
  clear. revert c. induction n as [|n IH]; intros c (Hstate & Hopen & Hidle & Hqueued) Hn.
  { destruct (write_queue_ c); [done | cbn in Hn; lia]. }
  cbn [written]. unfold poll_effect. cbv zeta. rewrite (bool_decide_false (_ = Failed)), (bool_decide_false (_ = Cancelled)) by congruence.
  rewrite Hopen, Hqueued. cbn [orb negb andb]. rewrite !andb_false_r. cbn [andb]. rewrite Hopen, Hidle. cbn [andb negb].
  destruct (write_queue_ c) as [|record queue] eqn:Q.
  { rewrite bool_decide_true by done. cbn [negb andb]. by destruct (_ && _ && _). }
  rewrite bool_decide_false by done. cbn [negb andb]. set (c' := (on_write_complete _).2).
  assert (write_queue_ c' = queue) as Hq by (change (tail (write_queue_ c) = queue); by rewrite Q).
  specialize (IH c'). rewrite Hq in IH. destruct (written n c') as [records last]. cbn [kind fst] in *.
  rewrite IH; [done | by split_and! | cbn in Hn; lia].
Qed.

Lemma sender_ready connection send recv listener :
  connection <> 0 -> send <> 0 -> recv <> 0 ->
  let c := sender decl payload connection send recv listener in
  state_ (scheduler_ c) = Transferring /\ decl_ (scheduler_ c) = decl /\ may_open_rom_stream (scheduler_ c) = true /\
  transfer_role_ c = Offerer /\ stream_open_ c = true /\ write_outstanding_ c = false /\ frames_queued_ c = false /\
  write_queue_ c = [] /\ payload_ c = payload.
Proof using Hid Hsize Hlength.
  intros Hc Hs Hr. unfold sender. set (c0 := attach_connection _ _ _).
  assert (exists s, offer decl (Some payload) (zlen payload) c0 = (V2_OK, c0 <| scheduler_ := s |> <| payload_ := payload |>) /\
    role_ s = Offerer /\ state_ s = Offered /\ decl_ s = decl /\ send_ok_ s = false /\ receive_ok_ s = false) as
    (s & -> & S1 & S2 & S3 & S4 & S5).
  { unfold offer. rewrite bool_decide_false by done. cbn [andb]. rewrite Hlength, Z.eqb_refl. cbn [negb default]. unfold id.
    rewrite slice_all. unfold ContentOffer.offer, bind_decl. rewrite !bool_decide_true by done. cbn [negb].
    destruct Hid as [-> ->]. cbn [negb orb]. destruct (Z.eqb_spec (declared_length decl) 0); [lia |].
    destruct (Z.ltb_spec kContentRomMaxBytesV1 (declared_length decl)); [lia |]. rewrite bool_decide_true by done.
    eexists. by split_and!. }
  destruct s. cbn in S1, S2, S3, S4, S5. subst.
  assert (forall x, x <> 0 -> (x =? 0) = false) as Hnz by (intros; lia).
  lazy -[Z.eqb]. rewrite (Hnz connection), (Hnz send), (Hnz recv) by done. lazy. done.
Qed.

Lemma chunked_count offset chunks : chunked offset chunks -> Z.of_nat (length chunks) <= zlen payload - offset.
Proof using. clear. intros H. induction H; cbn [length]; lia. Qed.

(** What the sender writes: the offer, then the chunks of the payload. *)
Lemma sender_writes connection send recv listener :
  connection <> 0 -> send <> 0 -> recv <> 0 ->
  exists chunks, chunked 0 chunks /\
    (written (S (S (length payload))) (sender decl payload connection send recv listener)).1 =
    encode_content_offer_v1 decl :: chunks.
Proof using Hid Hsize Hlength.
  intros Hc Hs Hr. destruct (sender_ready connection send recv listener Hc Hs Hr) as (S1 & S2 & S3 & S4 & S5 & S6 & S7 & S8 & S9).
  set (c := sender decl payload connection send recv listener) in *.
  destruct (chunk_loop_spec (S (length payload)) 0) as (chunks & Hloop & Hchunks); [lia | unfold zlen; lia |].
  exists chunks. split; [done |]. set (records := encode_content_offer_v1 decl :: chunks).
  assert (queue_payload_frames c = c <| write_queue_ := records |> <| frames_queued_ := true |>) as Hqueue.
  { unfold queue_payload_frames. rewrite S7, S4, bool_decide_true by done. cbn [negb orb]. by rewrite S9, S2, Hloop, S8. }
  assert (poll_effect c = poll_effect (queue_payload_frames c)) as Hpoll.
  { rewrite Hqueue. unfold poll_effect. cbv zeta. set (c1 := c <| write_queue_ := records |> <| frames_queued_ := true |>).
    change (scheduler_ c1) with (scheduler_ c). change (stream_open_ c1) with (stream_open_ c).
    change (transfer_role_ c1) with (transfer_role_ c). change (frames_queued_ c1) with true.
    rewrite S1, S5, (bool_decide_false (_ = Failed)), (bool_decide_false (_ = Cancelled)) by done. cbn [negb orb]. rewrite !andb_false_r. cbn [andb]. rewrite S4, S7, S3, bool_decide_true by done. cbn [andb negb].
    by rewrite Hqueue. }
  assert (forall n x, poll_effect c = poll_effect x -> (written (S n) c).1 = (written (S n) x).1) as Hsame.
  { intros n x E. cbn [written]. rewrite E. destruct (poll_effect x) as [[effect|] x']; [| done]. by destruct (kind effect). }
  rewrite (Hsame _ _ Hpoll), Hqueue. rewrite written_queue; [done | by split_and! |].
  apply chunked_count in Hchunks. change (length records <= S (S (length payload)))%nat. subst records. cbn [length].
  unfold zlen in *. lia.
Qed.

Lemma recipient_ready connection send recv listener :
  connection <> 0 -> send <> 0 -> recv <> 0 ->
  let c := recipient connection send recv listener in
  transfer_role_ c = Receiver /\ read_accumulator_ c = [] /\
  role_ (scheduler_ c) = Receiver /\ state_ (scheduler_ c) = Idle /\ send_ok_ (scheduler_ c) = true /\
  receive_ok_ (scheduler_ c) = true.
Proof using.
  clear. intros Hc Hs Hr. assert (forall x, x <> 0 -> (x =? 0) = false) as Hnz by (intros; lia).
  lazy -[Z.eqb]. rewrite (Hnz connection), (Hnz send), (Hnz recv) by done. lazy. done.
Qed.

End Transfer.

(** ** Correctness *)

(** C13. Both users consented and the streams are open: whatever pieces the stream cuts the sender's records into, the
    receiver takes all of them, ends with exactly the payload staged and checked, and publishes the game when the import
    is approved. *)
Theorem content_transfer_delivers (decl : ContentOfferDeclV1) (payload : bytes) (connection send recv connection' send' recv' : Z)
    (listener listener' : bool) (pieces : list bytes)
    (Hdecl : decl_ok decl) (Hid : any_nonzero (offer_id decl) = true /\ any_nonzero (content_id decl) = true)
    (Hsize : 0 < zlen payload <= kContentRomMaxBytesV1) (Hlength : declared_length decl = zlen payload)
    (Hhash : payload_sha256 decl = sha256 payload)
    (Hours : connection <> 0 /\ send <> 0 /\ recv <> 0) (Htheirs : connection' <> 0 /\ send' <> 0 /\ recv' <> 0)
    (Hpieces : mjoin pieces = mjoin (written (S (S (length payload))) (sender decl payload connection send recv listener)).1) :
  exists c, ingest_all pieces (recipient connection' send' recv' listener') = Some c /\
    state_ (scheduler_ c) = WaitingImport /\ staging_ (scheduler_ c) = payload /\
    catalog_published_ (scheduler_ (approve_import c).2) = true.
Proof.
  destruct Hours as (H1 & H2 & H3), Htheirs as (H4 & H5 & H6).
  destruct (sender_writes decl payload Hid Hsize Hlength connection send recv listener H1 H2 H3) as (chunks & Hchunks & Hw).
  rewrite Hw in Hpieces. destruct (recipient_ready connection' send' recv' listener' H4 H5 H6) as (R1 & R2 & R3 & R4 & R5 & R6).
  destruct (ingest_all_spec decl payload Hdecl Hid Hsize Hlength Hhash pieces (encode_content_offer_v1 decl :: chunks)
    (recipient connection' send' recv' listener')) as (c & Hc & [W D P]).
  - done.
  - by constructor.
  - rewrite R2. cbn [partial]. unfold encode_content_offer_v1. rewrite wrapped_size, offer_body_size by (rewrite ?offer_body_size by done; done || lia). done.
  - by rewrite R2.
  - exists c. split_and!; try done. unfold approve_import, with_scheduler, ContentOffer.approve_import, over_.
    rewrite W, !bool_decide_false by done. done.
Qed.

Lemma content_transfer_delivers_witness :
  exists c, ingest_all [slice (mjoin (written 5 (sender demo_decl demo_payload 1 2 3 true)).1) 0 50;
      slice (mjoin (written 5 (sender demo_decl demo_payload 1 2 3 true)).1) 50 200] (recipient 4 5 6 false) = Some c /\
    staging_ (scheduler_ c) = demo_payload.
Proof.
  destruct (content_transfer_delivers demo_decl demo_payload 1 2 3 4 5 6 true false
    [slice (mjoin (written 5 (sender demo_decl demo_payload 1 2 3 true)).1) 0 50;
     slice (mjoin (written 5 (sender demo_decl demo_payload 1 2 3 true)).1) 50 200]) as (c & H & _ & P & _).
  - unfold decl_ok. vm_compute. done.
  - vm_compute. done.
  - vm_compute. done.
  - reflexivity.
  - reflexivity.
  - split_and!; lia.
  - split_and!; lia.
  - vm_compute. reflexivity.
  - exact (ex_intro _ c (conj H P)).
Defined.
