(* ===== verification/DualController.v ===== *)
(** * The dual session controller
    ([shared/src/session/dual/dual_session_controller.{hpp,cpp}],
    [shared/src/product/dual_start_identity.cpp])

    The engine's dual game after the lobby: the catalog walk, the choice and its
    bilateral confirmation, the start, the exchange of input records over one
    stream, and the calls into the scheduler.  It composes the scheduler, the
    canonical record, the application frames and the activity watchdog.

    The provider's effects are requests ([poll_effect]) and their completions
    ([complete]).  A provider buffer is the bytes it holds, so reading it whole
    always succeeds; running out of memory is not modelled.  The worker a start
    is given is the state of a [DualRuntimePort]; a null table is [None]. *)

From S2P Require Import Prelude.
From S2P Require Import Sha256.
From S2P Require Import SessionCodec.
From S2P Require Import SessionAbi.
From S2P Require Import CanonicalInput.
From S2P Require Import InputWindow.
From S2P Require Import DualScheduler.
From S2P Require Import CanonicalInputWire.
From S2P Require Import RecoveryLedger.
From S2P Require Import AppFrame.

(** ** Data *)

(** [fly_session_game_choice_v2], without its size, version and revision
    constants; the display name is its [display_name_size] bytes. *)
Record GameChoice := mkChoice {
  choice_content : bytes;
  choice_ref : bytes;
  choice_selectable : Z;
  choice_name : bytes;
  choice_reason : string;
  choice_core : bytes;
  choice_profile : bytes;
  choice_options : bytes;
}.

#[global] Instance eta_choice : Eta GameChoice := fun c =>
  mkChoice (choice_content c) (choice_ref c) (choice_selectable c) (choice_name c) (choice_reason c)
    (choice_core c) (choice_profile c) (choice_options c).

Inductive PairRoleV1 := Initiator | Responder.

#[global] Instance role_eq_dec : EqDecision PairRoleV1.
Proof. solve_decision. Defined.

Record DualStartInputsV1 (R : Type) := mkInputs {
  in_session : bytes;
  in_branch : bytes;
  in_role : PairRoleV1;
  in_local_public : bytes;
  in_peer_public : bytes;
  in_connection : Z;
  in_is_listener : bool;
  in_runtime : option R;
}.
Arguments mkInputs {R}.
Arguments in_session {R}.
Arguments in_branch {R}.
Arguments in_role {R}.
Arguments in_local_public {R}.
Arguments in_peer_public {R}.
Arguments in_connection {R}.
Arguments in_is_listener {R}.
Arguments in_runtime {R}.

(** What the start reference adds to the content reference. *)
Record DualStartRef := mkStartRef {
  ref_content : DualContentRefV1;
  ref_choice : bytes;
  ref_config : bytes;
  ref_revision : Z;
}.

Inductive EffectKind := QueryContent | OpenStream | GrantRead | Write.

#[global] Instance effect_kind_eq_dec : EqDecision EffectKind.
Proof. solve_decision. Defined.

Record Effect := mkEffect {
  effect_kind : EffectKind;
  content_index : Z;
  effect_accept : bool;
  opener_role : Z;
  effect_connection : Z;
  effect_stream : Z;
  effect_bytes : bytes;
  read_credit : Z;
}.

#[global] Instance eta_effect : Eta Effect := fun e =>
  mkEffect (effect_kind e) (content_index e) (effect_accept e) (opener_role e) (effect_connection e)
    (effect_stream e) (effect_bytes e) (read_credit e).

Definition effect0 : Effect := mkEffect QueryContent 0 false 0 0 0 [] 0.

(** The fields of [ParsedProviderEvent] and of the port event the controller reads. *)
Record ProviderEvent := mkEvent {
  event_result : fly_session_result_v2;
  event_resource : Z;
  event_value0 : Z;
  event_hash : bytes;
  event_buffer : option bytes;
}.

(** [fly_session_input_v2]. *)
Record SessionInput := mkSessionInput {
  input_struct_size : Z;
  expected_seat_revision : Z;
  buttons : Z;
  port_mask : list Z;
}.

Definition FLY_SESSION_INPUT_V2_SIZE : Z := 152.
Definition FLY_SESSION_CONTENT_CHOICE_V2_HEADER_SIZE : Z := 56.
Definition FLY_SESSION_CONTENT_CHOICE_V2_START_TAIL_SIZE : Z := 96.
Definition FLY_SESSION_CONTENT_CHOICE_V2_MAX_NAME : Z := 64.

Definition kContentChoiceDomain : string := "flynes-content-choice-v1".
Definition kPendingConfigDomain : string := "flynes-pending-config-v1".
Definition kOwnerKeyDomain : string := "flynes-dual-owner-key-v1".
Definition kUnboundReason : string := "nearby_blocked_session_read".
Definition kUnsupportedProfileReason : string := "nearby_blocked_profile_verify".
Definition kCanonicalInputTag : Z := 0xFF02.
Definition kStateCommitReadCredit : Z := 256.
Definition kFramedInputBytes : Z := 6 + kDualInputWireBytesV1.

(** The required start identity, three fixed hashes. *)
Record DualStartIdentity := mkIdentity { core_id : bytes; profile_id : bytes; options_id : bytes }.

Definition canonical_dual_start_identity_v1 : DualStartIdentity :=
  mkIdentity (domain_hash "flynes-dual-core-id-v1" [49; 46; 53; 51; 46; 50])
    (domain_hash "flynes-dual-profile-id-v1" (write_canonical_dual_profile_bytes_v1 256 240))
    (domain_hash "flynes-dual-options-id-v1" (write_canonical_dual_options_bytes_v1 48000)).

Definition kMaxBindRevisions : Z := 16.

Record DualSessionController (R : Type) := mkController {
  choices_ : list GameChoice;
  catalog_index_ : Z;
  catalog_started_ : bool;
  catalog_complete_ : bool;
  catalog_query_outstanding_ : bool;
  selected_ : bool;
  selected_ref_ : bytes;
  selected_content_ : bytes;
  pending_config_id_ : bytes;
  pending_config_revision_ : Z;
  pending_config_local_confirmed_ : bool;
  pending_config_peer_confirmed_ : bool;
  pending_start_bound_ : bool;
  bind_revisions_ : list (bytes * Z);
  scheduler_ : option (DualRunSchedulerV1 R);
  game_context_ : DualInputKeyV1;
  game_content_ : DualContentRefV1;
  game_owners_ : list DualOwnerKeyV1;
  local_seat_ : Z;
  local_sequence_ : Z;
  batch_sequence_ : Z;
  game_digest_ : DualStateDigestV1;
  connection_ : Z;
  send_stream_ : Z;
  receive_stream_ : Z;
  local_is_listener_ : bool;
  want_stream_ : bool;
  stream_open_ : bool;
  open_outstanding_ : bool;
  write_outstanding_ : bool;
  read_outstanding_ : bool;
  want_read_ : bool;
  write_queue_ : list bytes;
  read_accumulator_ : bytes;
  local_runtime_ready_ : bool;
  peer_runtime_ready_ : bool;
  running_ : bool;
  game_paused_ : bool;
  game_frozen_ : bool;
  game_freeze_reason_ : DualFreezeReasonV1;
  view_dirty_ : bool;
  watchdog_ : Watchdog.LinkActivityWatchdogV1;
  last_clock_ns_ : Z;
}.
Arguments mkController {R}.
Arguments choices_ {R}.
Arguments catalog_index_ {R}.
Arguments catalog_started_ {R}.
Arguments catalog_complete_ {R}.
Arguments catalog_query_outstanding_ {R}.
Arguments selected_ {R}.
Arguments selected_ref_ {R}.
Arguments selected_content_ {R}.
Arguments pending_config_id_ {R}.
Arguments pending_config_revision_ {R}.
Arguments pending_config_local_confirmed_ {R}.
Arguments pending_config_peer_confirmed_ {R}.
Arguments pending_start_bound_ {R}.
Arguments bind_revisions_ {R}.
Arguments scheduler_ {R}.
Arguments game_context_ {R}.
Arguments game_content_ {R}.
Arguments game_owners_ {R}.
Arguments local_seat_ {R}.
Arguments local_sequence_ {R}.
Arguments batch_sequence_ {R}.
Arguments game_digest_ {R}.
Arguments connection_ {R}.
Arguments send_stream_ {R}.
Arguments receive_stream_ {R}.
Arguments local_is_listener_ {R}.
Arguments want_stream_ {R}.
Arguments stream_open_ {R}.
Arguments open_outstanding_ {R}.
Arguments write_outstanding_ {R}.
Arguments read_outstanding_ {R}.
Arguments want_read_ {R}.
Arguments write_queue_ {R}.
Arguments read_accumulator_ {R}.
Arguments local_runtime_ready_ {R}.
Arguments peer_runtime_ready_ {R}.
Arguments running_ {R}.
Arguments game_paused_ {R}.
Arguments game_frozen_ {R}.
Arguments game_freeze_reason_ {R}.
Arguments view_dirty_ {R}.
Arguments watchdog_ {R}.
Arguments last_clock_ns_ {R}.

#[global] Instance eta_controller {R} : Eta (DualSessionController R) := fun c =>
  mkController
    (choices_ c) (catalog_index_ c) (catalog_started_ c) (catalog_complete_ c)
    (catalog_query_outstanding_ c) (selected_ c) (selected_ref_ c) (selected_content_ c)
    (pending_config_id_ c) (pending_config_revision_ c) (pending_config_local_confirmed_ c)
    (pending_config_peer_confirmed_ c) (pending_start_bound_ c) (bind_revisions_ c) (scheduler_ c)
    (game_context_ c) (game_content_ c) (game_owners_ c) (local_seat_ c) (local_sequence_ c)
    (batch_sequence_ c) (game_digest_ c) (connection_ c) (send_stream_ c) (receive_stream_ c)
    (local_is_listener_ c) (want_stream_ c) (stream_open_ c) (open_outstanding_ c) (write_outstanding_
    c) (read_outstanding_ c) (want_read_ c) (write_queue_ c) (read_accumulator_ c) (local_runtime_ready_
    c) (peer_runtime_ready_ c) (running_ c) (game_paused_ c) (game_frozen_ c) (game_freeze_reason_ c)
    (view_dirty_ c) (watchdog_ c) (last_clock_ns_ c).

(** A default-constructed controller. *)
Definition controller_new {R} : DualSessionController R :=
  mkController [] 0 false false false false (replicate 16 0) (replicate 32 0) (replicate 32 0) 0 false false
    false [] None key0 content0 (replicate 4 owner0) 0 1 1 digest0 0 0 0 false false false false false
    false false [] [] false false false false false FreezeNone false Watchdog.watchdog_new 0.

(** ** The catalog *)

Definition id_zero (l : bytes) : bool := forallb (fun x => x =? 0) l.

Definition start_conditions_bound (c : GameChoice) : bool :=
  negb (id_zero (choice_content c)) && negb (id_zero (choice_core c)) &&
  negb (id_zero (choice_profile c)) && negb (id_zero (choice_options c)).

Definition start_conditions_unsupported (c : GameChoice) : bool :=
  let required := canonical_dual_start_identity_v1 in
  (negb (id_zero (choice_core c)) && negb (bool_decide (choice_core c = core_id required))) ||
  (negb (id_zero (choice_profile c)) && negb (bool_decide (choice_profile c = profile_id required))) ||
  (negb (id_zero (choice_options c)) && negb (bool_decide (choice_options c = options_id required))).

Definition pending_config_fingerprint (c : GameChoice) : bytes :=
  domain_hash kPendingConfigDomain
    (choice_content c ++ choice_core c ++ choice_profile c ++ choice_options c ++
     be_bytes 4 1 ++ be_bytes 4 0 ++ be_bytes 4 0 ++ be_bytes 4 1).

(** [read_parsed_buffer]. *)
Definition read_parsed_buffer (parsed : ProviderEvent) : fly_session_result_v2 * bytes :=
  match event_buffer parsed with
  | None => (V2_INVALID_ARGUMENT, [])
  | Some b => (V2_OK, b)
  end.

Definition owner_key (public_key : bytes) : bytes := domain_hash kOwnerKeyDomain public_key.

(** The choice a record denotes. *)
Definition choice_of (record : bytes) : GameChoice :=
  let name_size := load32 record 52 in
  let tail := FLY_SESSION_CONTENT_CHOICE_V2_HEADER_SIZE + name_size in
  let v2 := load16 record 0 =? 2 in
  let field off := if v2 then slice record (tail + off) 32 else replicate 32 0 in
  let choice := mkChoice (slice record 20 32) (slice record 4 16) 1 (slice record 56 name_size) ""
                  (field 0) (field 32) (field 64) in
  if start_conditions_unsupported choice
  then choice <| choice_selectable := 0 |> <| choice_reason := kUnsupportedProfileReason |>
  else if negb (start_conditions_bound choice) then choice <| choice_reason := kUnboundReason |>
  else choice.

Section Operations.
Context {R : Type} {P : DualRuntimePort R}.
Implicit Types c : DualSessionController R.

Definition begin_catalog c : DualSessionController R :=
  c <| catalog_started_ := true |> <| catalog_complete_ := false |> <| catalog_query_outstanding_ := false |>
    <| catalog_index_ := 0 |> <| choices_ := [] |> <| view_dirty_ := true |>.

Definition on_content_empty c : fly_session_result_v2 * DualSessionController R :=
  (V2_OK, c <| catalog_query_outstanding_ := false |> <| catalog_complete_ := true |> <| view_dirty_ := true |>).

(** A null record is [None]. *)
Definition parse_choice_record (record : option bytes) (size : Z) (expected_hash : bytes) c
    : fly_session_result_v2 * DualSessionController R :=
  match record with
  | None => (V2_PROTOCOL_VIOLATION, c)
  | Some b =>
    if size <? FLY_SESSION_CONTENT_CHOICE_V2_HEADER_SIZE then (V2_PROTOCOL_VIOLATION, c)
    else
      let r := slice b 0 size in
      if negb (bool_decide (domain_hash kContentChoiceDomain r = expected_hash)) then (V2_PROTOCOL_VIOLATION, c)
      else
        let version := load16 r 0 in
        if (negb (version =? 1) && negb (version =? 2)) || negb (at_ r 2 =? 0) || negb (at_ r 3 =? 0)
        then (V2_PROTOCOL_VIOLATION, c)
        else
          let name_size := load32 r 52 in
          let tail := if version =? 2 then FLY_SESSION_CONTENT_CHOICE_V2_START_TAIL_SIZE else 0 in
          if (name_size =? 0) || (FLY_SESSION_CONTENT_CHOICE_V2_MAX_NAME <? name_size) ||
             negb (size =? FLY_SESSION_CONTENT_CHOICE_V2_HEADER_SIZE + name_size + tail)
          then (V2_PROTOCOL_VIOLATION, c)
          else (V2_OK, c <| choices_ := choices_ c ++ [choice_of r] |>)
  end.

Definition on_content_choice (parsed : ProviderEvent) c : fly_session_result_v2 * DualSessionController R :=
  let c := c <| catalog_query_outstanding_ := false |> in
  let '(read, record) := read_parsed_buffer parsed in
  if decide (read <> V2_OK) then (read, c)
  else
    let '(accepted, c) := parse_choice_record (Some record) (zlen record) (event_hash parsed) c in
    if decide (accepted <> V2_OK) then (accepted, c)
    else (V2_OK, c <| catalog_index_ := u32 (catalog_index_ c + 1) |> <| view_dirty_ := true |>).

Definition ingest_content_choice_record := parse_choice_record.

Definition set_observed_local_seat (seat : Z) c : DualSessionController R := c <| local_seat_ := seat |>.

(** The loop over the revisions kept for other configurations. *)
Fixpoint bump_revision (id : bytes) (revisions : list (bytes * Z)) : option (Z * list (bytes * Z)) :=
  match revisions with
  | [] => None
  | (i, old) :: rest =>
    if decide (i = id) then
      let count := u64 (old + 1) in
      let count := if count =? 0 then 1 else count in
      Some (count, (i, count) :: rest)
    else
      match bump_revision id rest with
      | Some (count, rest') => Some (count, (i, old) :: rest')
      | None => None
      end
  end.

Definition revision_for_bind (id : bytes) c : Z * DualSessionController R :=
  match bump_revision id (bind_revisions_ c) with
  | Some (count, revisions) => (count, c <| bind_revisions_ := revisions |>)
  | None =>
    if zlen (bind_revisions_ c) <? kMaxBindRevisions
    then (1, c <| bind_revisions_ := bind_revisions_ c ++ [(id, 1)] |>)
    else
      let next := u64 (pending_config_revision_ c + 1) in
      let next := if next =? 0 then 1 else next in
      (next, c <| pending_config_revision_ := next |>)
  end.

Definition bind_pending_config (choice : GameChoice) c : DualSessionController R :=
  let fingerprint := pending_config_fingerprint choice in
  let same := selected_ c && bool_decide (pending_config_id_ c = fingerprint) in
  let c := c <| selected_ref_ := choice_ref choice |> <| selected_content_ := choice_content choice |>
             <| pending_config_id_ := fingerprint |> <| selected_ := true |>
             <| pending_start_bound_ := start_conditions_bound choice |> in
  let c := if same then c
           else
             let c := c <| pending_config_local_confirmed_ := false |>
                        <| pending_config_peer_confirmed_ := false |> in
             let '(revision, c) := revision_for_bind (pending_config_id_ c) c in
             c <| pending_config_revision_ := revision |> in
  c <| view_dirty_ := true |>.

(** The first choice with the reference decides. *)
Definition select_content (choice_id : option bytes) c : fly_session_result_v2 * DualSessionController R :=
  match choice_id with
  | None => (V2_INVALID_STATE, c)
  | Some id =>
    if negb (catalog_complete_ c) || game_frozen_ c then (V2_INVALID_STATE, c)
    else
      match list_find (fun choice => choice_ref choice = id) (choices_ c) with
      | None => (V2_INVALID_ARGUMENT, c)
      | Some (_, choice) =>
        if choice_selectable choice =? 0 then (V2_INVALID_ARGUMENT, c)
        else (V2_OK, bind_pending_config choice c)
      end
  end.

Definition confirm_local_pending c : fly_session_result_v2 * DualSessionController R :=
  if negb (selected_ c) || game_frozen_ c || negb (pending_start_bound_ c) then (V2_INVALID_STATE, c)
  else (V2_OK, c <| pending_config_local_confirmed_ := true |> <| view_dirty_ := true |>).

Definition apply_peer_pending_confirm (id : option bytes) (revision : Z) c
    : fly_session_result_v2 * DualSessionController R :=
  match id with
  | None => (V2_INVALID_STATE, c)
  | Some id =>
    if negb (selected_ c) || game_frozen_ c || negb (pending_start_bound_ c) then (V2_INVALID_STATE, c)
    else if negb (bool_decide (pending_config_id_ c = id)) || negb (revision =? pending_config_revision_ c)
    then (V2_STALE, c)
    else if pending_config_peer_confirmed_ c then (V2_DUPLICATE, c)
    else (V2_OK, c <| pending_config_peer_confirmed_ := true |> <| view_dirty_ := true |>)
  end.

Definition ingest_verified_pending_confirm (data : option bytes) (size : Z) c
    : fly_session_result_v2 * DualSessionController R :=
  match data with
  | None => (V2_PROTOCOL_VIOLATION, c)
  | Some b =>
    let '(status, _) := check (Some "0x0218"%string) (Some b) size (Some (replicate 32 0)) in
    if decide (status <> SessionCodec.Ok) then (V2_PROTOCOL_VIOLATION, c)
    else apply_peer_pending_confirm (Some (slice b 4 32)) (load64 b 36) c
  end.

(** [mark_frozen]: a terminal transport overrides an activity timeout. *)
Definition mark_frozen (reason : DualFreezeReasonV1) c : DualSessionController R :=
  let c := c <| game_frozen_ := true |> <| running_ := false |> in
  let c := if bool_decide (game_freeze_reason_ c = FreezeNone) ||
              (bool_decide (reason = TransportTerminal) &&
               bool_decide (game_freeze_reason_ c = AuthenticatedActivityTimeout))
           then c <| game_freeze_reason_ := reason |> else c in
  c <| view_dirty_ := true |>.

Definition controller_pause c : fly_session_result_v2 * DualSessionController R :=
  if negb (running_ c) || game_frozen_ c then (V2_INVALID_STATE, c)
  else
    match scheduler_ c with
    | None => (V2_INVALID_STATE, c)
    | Some s =>
      let '(result, s) := DualScheduler.pause 1 s in
      let c := c <| scheduler_ := Some s |> in
      if decide (result <> V2_OK) then (result, c)
      else (V2_OK, c <| game_paused_ := true |> <| game_freeze_reason_ := FreezePaused |> <| view_dirty_ := true |>)
    end.

Definition ingest_verified_suspend (data : option bytes) (size : Z) c
    : fly_session_result_v2 * DualSessionController R :=
  match data with
  | None => (V2_PROTOCOL_VIOLATION, c)
  | Some b =>
    let '(status, _) := check (Some "0x0210"%string) (Some b) size (Some (replicate 32 0)) in
    if decide (status <> SessionCodec.Ok) then (V2_PROTOCOL_VIOLATION, c)
    else if game_paused_ c || game_frozen_ c then (V2_DUPLICATE, c)
    else controller_pause c
  end.

Definition publish_imported_choice (choice : GameChoice) c : fly_session_result_v2 * DualSessionController R :=
  (V2_OK, c <| choices_ := choices_ c ++ [choice] |> <| catalog_complete_ := true |> <| view_dirty_ := true |>).

(** ** The start *)

(** The reference is written only on success. *)
Definition read_start_ref (inputs : DualStartInputsV1 R) c : fly_session_result_v2 + DualStartRef :=
  if negb (selected_ c) || negb (pending_start_bound_ c) || running_ c || game_frozen_ c || game_paused_ c ||
     local_runtime_ready_ c
  then inl V2_INVALID_STATE
  else if negb (pending_config_local_confirmed_ c) || negb (pending_config_peer_confirmed_ c)
  then inl V2_INVALID_STATE
  else if match in_runtime inputs with None => true | Some _ => in_connection inputs =? 0 end then inl V2_UNAVAILABLE
  else if id_zero (in_session inputs) || id_zero (in_branch inputs) || id_zero (selected_content_ c)
  then inl V2_INVALID_ARGUMENT
  else inr (mkStartRef (mkContent (in_session inputs) (in_branch inputs) (selected_content_ c) 1)
              (selected_ref_ c) (pending_config_id_ c) (pending_config_revision_ c)).

Definition start_owners (inputs : DualStartInputsV1 R) : list DualOwnerKeyV1 :=
  let initiator := bool_decide (in_role inputs = Initiator) in
  let initiator_key := owner_key (if initiator then in_local_public inputs else in_peer_public inputs) in
  let responder_key := owner_key (if initiator then in_peer_public inputs else in_local_public inputs) in
  [mkOwner 0 initiator_key; mkOwner 1 responder_key; mkOwner 2 zero_key; mkOwner 3 zero_key].

Definition start_key (inputs : DualStartInputsV1 R) (ref : DualStartRef) : DualInputKeyV1 :=
  mkKey (in_session inputs) (in_branch inputs) (content_epoch (ref_content ref)) 0 1.

Definition start_dual (inputs : DualStartInputsV1 R) c : fly_session_result_v2 * DualSessionController R :=
  match read_start_ref inputs c with
  | inl result => (result, c)
  | inr expected =>
    let key := start_key inputs expected in
    if negb (dual_input_key_is_valid_v1 key) then (V2_INVALID_ARGUMENT, c)
    else
      match in_runtime inputs with
      | None => (V2_UNAVAILABLE, c)
      | Some worker =>
        let owners := start_owners inputs in
        let content := ref_content expected in
        let '(began, s) := begin Dual content key owners (scheduler_new worker) in
        if decide (began <> V2_OK) then (began, c <| scheduler_ := None |>)
        else
          (V2_OK,
           c <| scheduler_ := Some s |> <| game_context_ := key |> <| game_content_ := content |>
             <| game_owners_ := owners |>
             <| local_seat_ := if decide (in_role inputs = Initiator) then 0 else 1 |>
             <| local_sequence_ := 1 |> <| batch_sequence_ := 1 |> <| game_digest_ := digest0 |>
             <| connection_ := in_connection inputs |> <| local_is_listener_ := in_is_listener inputs |>
             <| want_stream_ := true |> <| stream_open_ := false |> <| want_read_ := false |>
             <| local_runtime_ready_ := true |> <| peer_runtime_ready_ := false |> <| running_ := false |>
             <| game_paused_ := false |> <| game_frozen_ := false |> <| game_freeze_reason_ := FreezeNone |>
             <| view_dirty_ := true |> <| watchdog_ := Watchdog.reset (last_clock_ns_ c) (watchdog_ c) |>)
      end
  end.

Definition controller_on_clock (continuous_ns : Z) c : DualSessionController R :=
  let c := c <| last_clock_ns_ := continuous_ns |> in
  if negb (running_ c) && negb (local_runtime_ready_ c) && negb (game_frozen_ c) && negb (game_paused_ c) then c
  else
    let '(state, w) := Watchdog.on_clock continuous_ns (watchdog_ c) in
    let c := c <| watchdog_ := w |> in
    if bool_decide (state = Watchdog.LinkFrozen) && negb (game_frozen_ c) && negb (game_paused_ c)
    then mark_frozen AuthenticatedActivityTimeout c
    else if decide (state = Watchdog.ReconnectExpired) then mark_frozen TransportTerminal c
    else c.

(** ** Sending *)

(** A bundle framed for the wire; the encoders write into zeroed buffers. *)
Definition frame_bundle (b : DualInputBundleV1) (context : DualInputWireContextV1)
    : fly_session_result_v2 + bytes :=
  match encode_dual_input_bundle_v1 b context (Some (replicate 154 0)) with
  | (WireOk, object) =>
    match encode_app_frame kCanonicalInputTag object kDualInputWireBytesV1 (Some (replicate 160 0)) (Some 0) with
    | (SessionCodec.Ok, Some framed, Some written) =>
      if negb (written =? kFramedInputBytes) then inl V2_CONTRACT_VIOLATION else inr framed
    | _ => inl V2_CONTRACT_VIOLATION
    end
  | _ => inl V2_CONTRACT_VIOLATION
  end.

(** A context that states no source. *)
Definition plain_context (batch : Z) : DualInputWireContextV1 :=
  mkContext 1 1 batch (replicate 4 0) (replicate 4 0) (replicate 4 false).

Definition local_owner c : bytes := signing_key_id (aget owner0 (game_owners_ c) (local_seat_ c)).

(** The scheduler exists when this is called (see [submit_local]). *)
Definition queue_local_bundle (samples : list DualPortInputV1) c : fly_session_result_v2 * DualSessionController R :=
  match scheduler_ c with
  | None => (V2_INVALID_STATE, c)
  | Some s =>
    let key := (game_context_ c) <| frame_index := next_frame_ s |> in
    match canonical_input_build_v1 key (local_seat_ c) (local_owner c) samples (Some bundle0) with
    | (StatusOk, Some b) =>
      let '(accepted, admission, s) := accept_local_input samples (local_seat_ c) s in
      let c := c <| scheduler_ := Some s |> in
      if negb (bool_decide (accepted = V2_OK)) && negb (bool_decide (accepted = V2_ACCEPTED)) then (accepted, c)
      else
        match admission with
        | AdmitAccepted | AdmitDuplicate =>
          let batch := batch_sequence_ c in
          match checked_dual_next_sequence_v1 batch with
          | None => (V2_INVALID_STATE, c)
          | Some next =>
            let c := c <| batch_sequence_ := next |> in
            match frame_bundle b (plain_context batch) with
            | inl result => (result, c)
            | inr framed => (V2_OK, c <| write_queue_ := write_queue_ c ++ [framed] |>)
            end
          end
        | _ => (V2_INVALID_STATE, c)
        end
    | _ => (V2_INVALID_ARGUMENT, c)
    end
  end.

(** The neutral samples of the beacon. *)
Definition beacon_samples : list DualPortInputV1 := [mkInput 0 1; mkInput 0 2; mkInput 0 3; mkInput 0 4].

Definition queue_runtime_ready_beacon c : fly_session_result_v2 * DualSessionController R :=
  if negb (local_runtime_ready_ c) || game_frozen_ c || bool_decide (scheduler_ c = None)
  then (V2_INVALID_STATE, c)
  else
    let key := (game_context_ c) <| frame_index := 0 |> in
    match canonical_input_build_v1 key (local_seat_ c) (local_owner c) beacon_samples (Some bundle0) with
    | (StatusOk, Some b) =>
      match frame_bundle b (plain_context 1) with
      | inl result => (result, c)
      | inr framed => (V2_OK, c <| write_queue_ := write_queue_ c ++ [framed] |>)
      end
    | _ => (V2_INVALID_ARGUMENT, c)
    end.

Definition maybe_enter_running c : DualSessionController R :=
  if game_frozen_ c || game_paused_ c || running_ c || negb (local_runtime_ready_ c) ||
     negb (peer_runtime_ready_ c)
  then c
  else
    match scheduler_ c with
    | None => c
    | Some s =>
      let '(result, s) := announce_running s in
      let c := c <| scheduler_ := Some s |> in
      if decide (result <> V2_OK) then c else c <| running_ := true |> <| view_dirty_ := true |>
    end.

(** *** Stepping *)

(** The stepping loop; each pass runs a frame of the ring, so one more than the
    number of slots is enough ([step_fuel_enough]). *)
Fixpoint step_loop (fuel : nat) c : fly_session_result_v2 * DualSessionController R :=
  match fuel with
  | O => (V2_OK, c)
  | S fuel' =>
    match scheduler_ c with
    | None => (V2_OK, c)
    | Some s =>
      if negb (bool_decide (state_ s = Running)) then (V2_OK, c)
      else if negb (frame_all_real (window_ s) (next_frame_ s)) then (V2_OK, c)
      else
        let '(stepped, s) := step_next_frame s in
        let c := c <| scheduler_ := Some s |> in
        if decide (stepped <> V2_OK) then (stepped, mark_frozen (freeze_reason_ s) c)
        else step_loop fuel' (c <| game_digest_ := last_digest_ s |> <| view_dirty_ := true |>)
    end
  end.

Definition step_fuel : nat := 21.

Definition try_step c : fly_session_result_v2 * DualSessionController R :=
  if bool_decide (scheduler_ c = None) || game_frozen_ c || game_paused_ c then (V2_OK, c)
  else
    let '(result, c) := step_loop step_fuel c in
    if decide (result <> V2_OK) then (result, c)
    else
      match scheduler_ c with
      | Some s => (V2_OK, if decide (state_ s = SimFrozen) then mark_frozen (freeze_reason_ s) c else c)
      | None => (V2_OK, c)
      end.

(** The mask of the input, and the samples of the four ports. *)
Definition submitted_mask (input : SessionInput) c : Z :=
  normalize_dual_port_mask_v1
    (if FLY_SESSION_INPUT_V2_SIZE <=? input_struct_size input then aget 0 (port_mask input) (local_seat_ c)
     else buttons input).

Definition local_samples (mask : Z) c : list DualPortInputV1 :=
  (fun port => mkInput (if port =? local_seat_ c then mask else 0) (local_sequence_ c + port)) <$> all_ports.

Definition submit_local (input : SessionInput) c : fly_session_result_v2 * DualSessionController R :=
  if negb (running_ c) || game_frozen_ c || game_paused_ c || bool_decide (scheduler_ c = None)
  then (V2_INVALID_STATE, c)
  else if negb (expected_seat_revision input =? seat_revision (game_context_ c)) then (V2_STALE, c)
  else
    let base := local_sequence_ c in
    if (base =? 0) || (u64_max - 4 <? base) then (V2_INVALID_STATE, c)
    else
      let samples := local_samples (submitted_mask input c) c in
      let '(queued, c) := queue_local_bundle samples (c <| local_sequence_ := base + kDualPortCountV1 |>) in
      if decide (queued <> V2_OK) then (queued, c) else try_step c.

(** ** Receiving *)

(** The record of a frame belongs to this game. *)
Definition same_game (k : DualInputKeyV1) c : bool :=
  bool_decide (session_id k = session_id (game_context_ c)) &&
  bool_decide (branch_id k = branch_id (game_context_ c)) &&
  (timeline_epoch k =? timeline_epoch (game_context_ c)) &&
  (seat_revision k =? seat_revision (game_context_ c)).

Definition peer_seat c : Z := u8 (1 - local_seat_ c).

(** What happens to a bundle of this game that was taken off the accumulator: a
    result that ends the call, or the next state. *)
Definition handle_bundle (b : DualInputBundleV1) c
    : fly_session_result_v2 * DualSessionController R + DualSessionController R :=
  if negb (running_ c) then
    if negb (local_runtime_ready_ c) || game_frozen_ c then inl (V2_INVALID_STATE, c)
    else inr (maybe_enter_running (c <| peer_runtime_ready_ := true |>))
  else
    match scheduler_ c with
    | None => inl (V2_INVALID_STATE, c)
    | Some s =>
      let '(accepted, admission, s) := accept_remote_input b s in
      let c := c <| scheduler_ := Some s |> in
      if negb (bool_decide (accepted = V2_OK)) && negb (bool_decide (accepted = V2_ACCEPTED)) &&
         negb (match admission with AdmitDuplicate => true | _ => false end)
      then inl (accepted, c)
      else
        let '(stepped, c) := try_step c in
        if decide (stepped <> V2_OK) then inl (stepped, c) else inr c
    end.

(** One pass of the receiving loop over the accumulator. *)
Definition ingest_one c : fly_session_result_v2 * DualSessionController R + DualSessionController R :=
  let acc := read_accumulator_ c in
  match next_app_frame (Some (app_frame_cursor StateCommit acc (zlen acc))) (Some frame0) (Some false) with
  | (status, Some cursor, Some frame, Some has_frame) =>
    if bool_decide (status = Truncated) || (bool_decide (status = SessionCodec.Ok) && negb has_frame)
    then inl (V2_OK, c)
    else if negb (bool_decide (status = SessionCodec.Ok)) || negb has_frame then inl (V2_PROTOCOL_VIOLATION, c)
    else if negb (frame_type_tag frame =? kCanonicalInputTag) then inl (V2_PROTOCOL_VIOLATION, c)
    else
      let seat := peer_seat c in
      match decode_dual_input_bundle_v1 (Some (object_bytes frame)) (object_size frame) seat
              (signing_key_id (aget owner0 (game_owners_ c) seat)) (Some bundle0) with
      | (WireOk, Some b) =>
        let erased := drop (Z.to_nat (cursor_offset cursor)) acc in
        if negb (same_game (key b) c) then inl (V2_STALE, c <| read_accumulator_ := erased |>)
        else
          handle_bundle b
            (c <| watchdog_ := Watchdog.on_verified_peer_activity (last_clock_ns_ c) (watchdog_ c) |>
               <| read_accumulator_ := erased |>)
      | _ => inl (V2_PROTOCOL_VIOLATION, c)
      end
  | _ => inl (V2_PROTOCOL_VIOLATION, c)
  end.

(** Each pass takes a record off the accumulator, so its length is enough fuel. *)
Fixpoint ingest_loop (fuel : nat) c : fly_session_result_v2 * DualSessionController R :=
  match fuel with
  | O => (V2_OK, c)
  | S fuel' =>
    match ingest_one c with
    | inl out => out
    | inr c => ingest_loop fuel' c
    end
  end.

Definition ingest_remote_bytes (received : bytes) c : fly_session_result_v2 * DualSessionController R :=
  let acc := read_accumulator_ c ++ received in
  let c := c <| read_accumulator_ := acc |> in
  if 2 * kFramedInputBytes <? zlen acc then (V2_PROTOCOL_VIOLATION, c)
  else ingest_loop (S (length acc)) c.

(** ** Effects *)

Definition disconnect c : fly_session_result_v2 * DualSessionController R :=
  let c := match scheduler_ c with
           | Some s => c <| scheduler_ := Some (mark_transport_terminal s).2 |>
           | None => c
           end in
  (V2_OK, mark_frozen TransportTerminal c).

Definition poll_effect c : option Effect * DualSessionController R :=
  if game_frozen_ c then (None, c)
  else if catalog_started_ c && negb (catalog_complete_ c) && negb (catalog_query_outstanding_ c) then
    (Some (effect0 <| effect_kind := QueryContent |> <| content_index := catalog_index_ c |>),
     c <| catalog_query_outstanding_ := true |>)
  else if want_stream_ c && negb (stream_open_ c) && negb (open_outstanding_ c) && negb (connection_ c =? 0) then
    (Some (effect0 <| effect_kind := OpenStream |> <| effect_accept := local_is_listener_ c |>
             <| opener_role := if local_is_listener_ c then 2 else 1 |> <| effect_connection := connection_ c |>),
     c <| open_outstanding_ := true |>)
  else if stream_open_ c && negb (write_outstanding_ c) && negb (bool_decide (write_queue_ c = [])) then
    (Some (effect0 <| effect_kind := Write |> <| effect_stream := send_stream_ c |>
             <| effect_bytes := default [] (head (write_queue_ c)) |>),
     c <| write_outstanding_ := true |>)
  else if stream_open_ c && want_read_ c && negb (read_outstanding_ c) && negb (receive_stream_ c =? 0) then
    (Some (effect0 <| effect_kind := GrantRead |> <| effect_stream := receive_stream_ c |>
             <| read_credit := kStateCommitReadCredit |>),
     c <| read_outstanding_ := true |>)
  else (None, c).

Definition complete (kind : EffectKind) (event : ProviderEvent) c
    : fly_session_result_v2 * DualSessionController R :=
  match kind with
  | QueryContent =>
    if decide (event_result event <> V2_OK) then (event_result event, c) else on_content_choice event c
  | OpenStream =>
    let c := c <| open_outstanding_ := false |> in
    if decide (event_result event <> V2_OK) then (event_result event, c)
    else if (event_resource event =? 0) || (event_value0 event =? 0) then (V2_CONTRACT_VIOLATION, c)
    else
      let c := c <| send_stream_ := event_resource event |> <| receive_stream_ := event_value0 event |>
                 <| stream_open_ := true |> in
      if game_frozen_ c || negb (local_runtime_ready_ c) then (V2_INVALID_STATE, c)
      else queue_runtime_ready_beacon c
  | Write =>
    let c := c <| write_outstanding_ := false |> in
    if decide (event_result event <> V2_OK) then (event_result event, c)
    else
      (V2_OK, c <| write_queue_ := drop 1 (write_queue_ c) |> <| want_read_ := true |>
                <| watchdog_ := Watchdog.on_local_send_complete (last_clock_ns_ c) (watchdog_ c) |>)
  | GrantRead =>
    let c := c <| read_outstanding_ := false |> <| want_read_ := false |> in
    if decide (event_result event <> V2_OK) then (event_result event, c)
    else
      let '(read, received) := read_parsed_buffer event in
      if decide (read <> V2_OK) then (read, c) else ingest_remote_bytes received c
  end.

Definition cancel c : DualSessionController R :=
  let c := c <| catalog_query_outstanding_ := false |> <| open_outstanding_ := false |>
             <| write_outstanding_ := false |> <| read_outstanding_ := false |> <| want_read_ := false |>
             <| write_queue_ := [] |> in
  match scheduler_ c with
  | Some s => c <| scheduler_ := Some (DualScheduler.shutdown s).2 |>
  | None => c
  end.

(** ** Queries *)

(** [running()], [frozen()], [game_state()] and [freeze_reason()] as the engine's
    view shows them; the states are the interface's numbers. *)
Definition controller_running c : bool := running_ c && negb (game_frozen_ c) && negb (game_paused_ c).
Definition controller_frozen c : bool := game_frozen_ c || game_paused_ c.

Definition game_state c : Z :=
  if game_frozen_ c || game_paused_ c then 4
  else if running_ c then 3
  else if local_runtime_ready_ c then 2
  else 0.

Definition controller_freeze_reason c : DualFreezeReasonV1 :=
  if game_paused_ c && negb (game_frozen_ c) then FreezePaused else game_freeze_reason_ c.

(** *** The fuel of the stepping loop *)

(** A loop that meets a frame without its inputs ends there. *)
Lemma step_loop_ends (m : nat) c s log fuel :
  scheduler_ c = Some s -> sched_ok s log ->
  frame_all_real (window_ s) (next_frame_ s + Z.of_nat m) = false -> (m < fuel)%nat ->
  step_loop fuel c = step_loop (S m) c.
Proof.
  revert c s log fuel. induction m as [|m IH]; intros c s log fuel Hs Hok Hend Hfuel;
    (destruct fuel as [|fuel]; [lia |]).
  - rewrite Z.add_0_r in Hend. cbn [step_loop]. rewrite Hs. by rewrite Hend.
  - change (step_loop (S fuel) c = step_loop (S (S m)) c).
    cbn [step_loop]. rewrite Hs. destruct (negb (bool_decide _)); [done |].
    destruct (negb (frame_all_real _ _)); [done |].
    pose proof (step_next_real s log Hok) as Hstep. destruct (step_next_frame s) as [stepped s'].
    cbn [fst snd] in Hstep. cbv zeta. destruct (decide (stepped <> V2_OK)) as [|Hres]; [done |].
    apply dec_stable in Hres. destruct (Hstep Hres) as (Hnext & [log' Hok'] & Hnew).
    match goal with |- step_loop fuel ?c' = _ =>
      change (step_loop fuel c' = step_loop (S m) c'); apply (IH c' s' log') end; [done | done | | lia].
    apply not_true_iff_false. intros Hr. apply Hnew in Hr. rewrite Hnext in Hr.
    replace (next_frame_ s + 1 + Z.of_nat m) with (next_frame_ s + Z.of_nat (S m)) in Hr by lia. congruence.
Qed.

(** The ring has 20 slots, so 21 passes are enough: more change nothing. *)
Lemma step_fuel_enough c s log fuel :
  scheduler_ c = Some s -> sched_ok s log -> (step_fuel <= fuel)%nat -> step_loop fuel c = step_loop step_fuel c.
Proof.
  intros Hs Hok Hfuel. unfold step_fuel in *.
  assert (length (ring_ (window_ s)) = 20%nat) as Hlen.
  { destruct Hok as (([-> | (k & os & Hr)] & _) & _); [done |]. by destruct (reachable_wf k os _ Hr) as [(_ & ? & _) _]. }
  destruct (ring_holds_twenty (window_ s) (next_frame_ s) Hlen) as [H | H].
  - rewrite (step_loop_ends 0 c s log fuel), (step_loop_ends 0 c s log 21); rewrite ?Z.add_0_r; try done; lia.
  - rewrite (step_loop_ends 20 c s log fuel); try done; lia.
Qed.

End Operations.

(** ** Lobbies *)

(** The calls that only concern the lobby. *)
Inductive LobbyOp :=
  | BeginCatalog | ContentEmpty | ContentChoice (event : ProviderEvent)
  | Select (choice : option bytes) | ConfirmLocal
  | PeerConfirm (id : option bytes) (revision : Z) | VerifiedConfirm (data : option bytes) (size : Z)
  | PublishImported (choice : GameChoice).

Section Lobby.
Context {R : Type}.
Implicit Types c : DualSessionController R.

Definition lobby_run (o : LobbyOp) c : DualSessionController R :=
  match o with
  | BeginCatalog => begin_catalog c
  | ContentEmpty => (on_content_empty c).2
  | ContentChoice event => (on_content_choice event c).2
  | Select choice => (select_content choice c).2
  | ConfirmLocal => (confirm_local_pending c).2
  | PeerConfirm id revision => (apply_peer_pending_confirm id revision c).2
  | VerifiedConfirm data size => (ingest_verified_pending_confirm data size c).2
  | PublishImported choice => (publish_imported_choice choice c).2
  end.

(** A controller after the calls of the lobby. *)
Definition lobby (ops : list LobbyOp) : DualSessionController R :=
  fold_left (fun c o => lobby_run o c) ops controller_new.

End Lobby.
