(* ===== verification/InputProvenance.v ===== *)
(** * Where the samples of an input window come from

    Lemmas on [InputWindow.v] for a client that runs only frames whose every owned
    port is confirmed: which deliveries the stored samples come from, what no
    operation changes, and the bundle such a frame is run on, a function of the
    confirmed samples alone ([joint_bundle]).  [DualPeers.v] applies them to the two
    ends of a game. *)

From S2P Require Import Prelude CanonicalInput InputWindow.

(** The owners of a two-player game: a key on seats 0 and 1, none on 2 and 3. *)
Definition two_owners (k0 k1 : bytes) : list DualOwnerKeyV1 :=
  [mkOwner 0 k0; mkOwner 1 k1; mkOwner 2 zero_key; mkOwner 3 zero_key].

(** The sequences of a plan: each above the one before. *)
Fixpoint raise (previous : Z) (samples : list DualPortSampleV1) : list DualPortSampleV1 :=
  match samples with
  | [] => []
  | s :: rest =>
    let q := if input_sequence s <=? previous then u64 (previous + 1) else input_sequence s in
    mkSample (mask s) q :: raise q rest
  end.

(** The bundle of a frame with both players' samples, and neutral pads behind. *)
Definition joint_bundle (context : DualInputKeyV1) (owner : bytes) (frame : Z)
    (s0 s1 : DualPortSampleV1) : DualInputBundleV1 :=
  mkBundle (context <| frame_index := frame |> <| seat_revision := 1 |>) 0 [0; 0; 0] 0
    (raise 0 [s0; s1; mkSample 0 1; mkSample 0 1]) owner.

Section Provenance.
Implicit Types w : DualInputWindowV1.

(** The window holds sample [s] of port [p] for frame [f], delivered at revision [v]. *)
Definition recorded w f p (s : DualPortSampleV1) (v : Z) : Prop :=
  0 <= p /\ exists r, find_record w f = Some r /\ aget false (provided r) p = true /\
    record_sample r p = s /\ seat_revision (aget key0 (keys r) p) = v.

Lemma recorded_ring w w' f p s v : ring_ w' = ring_ w -> recorded w' f p s v -> recorded w f p s v.
Proof. unfold recorded, find_record. by intros ->. Qed.

Lemma recorded_unique w f p s v s' v' :
  recorded w f p s v -> recorded w f p s' v' -> s = s' /\ v = v'.
Proof. intros (_ & r & Hr & _ & <- & <-) (_ & r' & Hr' & _ & <- & <-). rewrite Hr in Hr'. by injection Hr' as <-. Qed.

Lemma aget_replicate_false n i : aget false (replicate n false) i = false.
Proof.
  unfold aget. destruct (replicate n false !! Z.to_nat i) eqn:E; [| done].
  by apply lookup_replicate in E as [-> _].
Qed.

Lemma recorded_put w f r g p s v :
  length (ring_ w) = 20%nat -> used r = true -> record_frame r = f ->
  recorded (put_record w f r) g p s v ->
  (g = f /\ 0 <= p /\ aget false (provided r) p = true /\ record_sample r p = s /\
   seat_revision (aget key0 (keys r) p) = v) \/ recorded w g p s v.
Proof.
  intros Hlen Hu Hf (H0 & x & Hx & Hp). apply find_put_inv in Hx as [[-> ->] | Hx]; try done; [by left |].
  right. split; [done |]. by exists x.
Qed.

Lemma ensure_recorded w f g p s v :
  length (ring_ w) = 20%nat -> recorded (ensure_record w f).2 g p s v -> recorded w g p s v.
Proof.
  unfold ensure_record. intros Hlen. destruct (find_record w f) as [r|]; [done |]. cbn [snd].
  intros [(_ & _ & Hp & _) | H]%recorded_put; [| done..].
  change (aget false (replicate 4 false) p = true) in Hp. by rewrite aget_replicate_false in Hp.
Qed.

(** ** What no operation changes *)

Definition fixed w :=
  (context_ w, owners_ w, owned_port_mask_ w,
   (aget 0 (last_complete_mask_ w) 2, aget 0 (last_complete_sequence_ w) 2),
   (aget 0 (last_complete_mask_ w) 3, aget 0 (last_complete_sequence_ w) 3)).

(** Only the first two ports are owned. *)
Definition two_ports w : Prop := owned_port_mask_ w = 3.

Lemma two_ports_owned w p : two_ports w -> port_index p -> owned w p = (p <? 2).
Proof.
  intros H Hp. unfold owned. rewrite H. unfold port_index in Hp.
  assert (p = 0 \/ p = 1 \/ p = 2 \/ p = 3) as Hc by lia. by destruct_or! Hc; subst.
Qed.

Lemma commit_step_fixed w r :
  window_wf w -> two_ports w ->
  fixed ((remember_complete w r) <| commit_frontier_ := commit_frontier_ (remember_complete w r) + 1 |>) = fixed w.
Proof.
  intros (_ & _ & _ & Hlm & Hlq & _) H2.
  destruct (remember_complete_spec w r Hlm Hlq) as (m & q & -> & _ & _ & Hp). unfold fixed. cbn.
  pose proof (Hp 2 ltac:(done)) as P2. pose proof (Hp 3 ltac:(done)) as P3.
  rewrite two_ports_owned in P2, P3 by done. cbn in P2, P3.
  by destruct P2 as [-> ->], P3 as [-> ->].
Qed.

Lemma advance_fixed fuel w : window_wf w -> two_ports w -> fixed (advance_loop fuel w) = fixed w.
Proof.
  revert w. induction fuel as [|fuel IH]; intros w Hwf H2; [done |]. cbn [advance_loop].
  destruct (committable w) as [r|] eqn:Hc; [| done].
  pose proof (commit_step_fixed w r Hwf H2) as Hfix.
  destruct (commit_step w r Hwf Hc) as (Hcf & Hwf' & _). rewrite <- Hcf in Hwf'.
  rewrite IH; [done | done |]. unfold fixed in Hfix. unfold two_ports in *. congruence.
Qed.

(** ** Deliveries *)

(** What a delivery to a port does: it stores the sample of an open frame, finds it
    stored already, or changes nothing. *)
Lemma deliver_to_port_recorded b p w :
  window_wf w -> committable w = None -> two_ports w -> port_index p -> bundle_fits b ->
  canonical_input_is_canonical_v1 b = true ->
  let '(st, w') := deliver_to_port b p w in
  let f := frame_index (key b) in
  fixed w' = fixed w /\
  (forall g q s v, recorded w' g q s v -> recorded w g q s v \/
     (st = Accepted /\ g = f /\ q = p /\ s = port_of b p /\ v = seat_revision (key b))) /\
  (st = Accepted -> (forall s v, ~ recorded w f p s v) /\
     recorded w' f p (port_of b p) (seat_revision (key b))) /\
  (st = Duplicate -> w' = w /\ exists v, recorded w f p (port_of b p) v).
Proof.
  intros Hwf Hcom H2 Hp Hb Hc. unfold deliver_to_port. set (f := frame_index (key b)).
  assert (record_sample_of : mkSample (mask (port_of b p)) (input_sequence (port_of b p)) = port_of b p)
    by (by destruct (port_of b p)).
  destruct (match find_record w f with Some r => _ | None => _ end) as [r|] eqn:Halready.
  { destruct (find_record w f) as [r'|] eqn:Hf; [| done].
    destruct (aget false (provided r') p) eqn:Hpr; [| done]. injection Halready as ->.
    destruct (_ && _) eqn:E; (split_and!; [done | by left | done |]); [| done]. intros _.
    bool_hyps. split; [done |]. exists (seat_revision (aget key0 (keys r) p)).
    split; [unfold port_index in Hp; lia |]. exists r. split_and!; try done. unfold record_sample. congruence. }
  destruct (Z.ltb_spec f (commit_frontier_ w)); [by split_and!; [| left | |] |].
  destruct (Z.ltb_spec (step_frontier_ w + kDualGuestLeadFramesV1) f); [by split_and!; [| left | |] |].
  unfold kDualGuestLeadFramesV1 in *. pose proof Hwf as (_ & Hlen & _ & _ & _ & _ & ? & ? & _).
  destruct (ensure_record_spec w f Hwf) as (r & w1 & Hen & Hwf1 & Hk1 & Hrwf & Hu & Hfr & Hfind & Hw1); [lia |].
  rewrite Hen.
  assert (commit_frontier_ w1 = commit_frontier_ w /\ fixed w1 = fixed w) as [Hcf Hfx1]
    by (by destruct Hw1 as [-> | (-> & _)]).
  assert (forall g q s v, recorded w1 g q s v -> recorded w g q s v) as Hback.
  { intros g q s v Hr. apply (ensure_recorded w f); [done |]. by rewrite Hen. }
  assert (aget false (provided r) p = false) as Hnp.
  { destruct Hw1 as [-> | (_ & -> & _)]; [| apply aget_replicate_false].
    rewrite Hfind in Halready. by destruct (aget false (provided r) p). }
  set (w2 := put_record w1 f (store_sample r p b)).
  pose proof Hrwf as (Hl1 & Hl2 & Hl3 & Hl4 & Hl5 & _).
  assert (window_wf w2) as Hwf2.
  { apply put_record_wf; try done; [by apply store_sample_wf | lia]. }
  pose proof Hwf1 as (_ & Hlen1 & _).
  match goal with |- context [advance_commit_frontier ?x] => set (w3 := x) end.
  assert (window_wf w3 /\ fixed w3 = fixed w /\ ring_ w3 = ring_ w2) as (Hwf3 & Hfx3 & Hr3).
  { subst w3. by destruct (_ <? _). }
  assert (two_ports w3) as H23 by (unfold fixed, two_ports in *; congruence).
  destruct (advance_loop_wf advance_fuel w3 Hwf3) as (_ & _ & Hring & _).
  cbv zeta. unfold advance_commit_frontier.
  assert (Z.to_nat p < length (provided r))%nat as Hpl by (unfold port_index in Hp; lia).
  split_and!.
  - by rewrite advance_fixed.
  - intros g q s v Hr. apply (recorded_ring w2) in Hr; [| by rewrite Hring].
    apply recorded_put in Hr as [(-> & Hq0 & Hpq & Hs & Hv) | Hr]; try done; [| left; by apply Hback].
    unfold store_sample, record_sample in *.
    cbn [provided masks sequences keys over] in *. unfold port_index in Hp. destruct (decide (q = p)) as [->|Hne].
    + right. rewrite !aget_aset_eq in Hs by (unfold zlen; lia).
      rewrite aget_aset_eq in Hv by (unfold zlen; lia). split_and!; try done. congruence.
    + left. apply Hback. rewrite !aget_aset_ne in * by lia. split; [done |]. by exists r.
  - intros _. split.
    + intros s v (_ & x & Hx & Hxp & _). destruct Hw1 as [-> | (_ & _ & Hn)]; congruence.
    + apply (recorded_ring _ w2); [by rewrite Hring |].
      split; [unfold port_index in Hp; lia |]. exists (store_sample r p b).
      unfold w2. rewrite find_put_eq by done. unfold store_sample, record_sample.
      cbn [provided masks sequences keys over].
      rewrite !aget_aset_eq by (unfold zlen, port_index in *; lia). done.
  - done.
Qed.

Lemma find_two_owners k0 k1 s p :
  find_seat (two_owners k0 k1) s 0 = Some p -> p = s /\ port_index s.
Proof.
  unfold two_owners, port_index. cbn [find_seat seat].
  repeat match goal with |- context [?x =? s] => destruct (Z.eqb_spec x s) as [<-|]; [by intros [= <-] |] end.
  done.
Qed.

(** The same for a delivery to the owner of a seat of a two-player game. *)
Lemma deliver_input_recorded b w k0 k1 :
  window_wf w -> committable w = None -> two_ports w -> owners_ w = two_owners k0 k1 -> bundle_fits b ->
  let '(st, w') := deliver_input b w in
  let f := frame_index (key b) in
  let p := logical_seat b in
  fixed w' = fixed w /\
  (forall g q s v, recorded w' g q s v -> recorded w g q s v \/
     (st = Accepted /\ g = f /\ q = p /\ (p = 0 \/ p = 1) /\ s = port_of b p /\ v = seat_revision (key b))) /\
  (st = Accepted -> (forall s v, ~ recorded w f p s v) /\
     recorded w' f p (port_of b p) (seat_revision (key b))) /\
  (st = Duplicate -> w' = w /\ exists v, recorded w f p (port_of b p) v).
Proof.
  intros Hwf Hcom H2 Ho Hb. unfold deliver_input.
  destruct (negb (bound_ w)); [by split_and!; [| left | |] |].
  destruct (canonical_input_is_canonical_v1 b) eqn:Hc; cbn [negb]; [| by split_and!; [| left | |]].
  do 3 (destruct (negb _); [by split_and!; [| left | |] |]).
  destruct (_ <? _); [by split_and!; [| left | |] |].
  destruct (find_seat _ _ 0) as [p|] eqn:Hp; [| by split_and!; [| left | |]]. cbv zeta.
  destruct (key_is_all_zero _) eqn:Hz; [by split_and!; [| left | |] |].
  destruct (negb _); [by split_and!; [| left | |] |].
  rewrite Ho in Hp, Hz. apply find_two_owners in Hp as [-> Hp].
  pose proof (deliver_to_port_recorded b (logical_seat b) w Hwf Hcom H2 Hp Hb Hc) as H.
  destruct (deliver_to_port b (logical_seat b) w) as [st w']. destruct H as (Hfix & Hback & H).
  split_and!; [done | | apply H..].
  intros g q s v Hr. destruct (Hback _ _ _ _ Hr) as [|(? & ? & -> & ? & ?)]; [by left |]. right.
  split_and!; try done. unfold port_index in Hp.
  assert (logical_seat b = 0 \/ logical_seat b = 1 \/ logical_seat b = 2 \/ logical_seat b = 3) as Hcs by lia.
  destruct_or! Hcs; [by left | by right | rewrite Hcs in Hz; by vm_compute in Hz ..].
Qed.

(** A sample stays recorded while its frame is in flight. *)
Lemma recorded_kept w w' f p s v :
  kept w w' -> port_index p -> commit_frontier_ w' <= f -> recorded w f p s v ->
  exists v', recorded w' f p s v'.
Proof.
  intros [_ Hk] Hp Hc (H0 & r & Hr & Hpr & <- & _).
  destruct (Hk f r p Hr Hp Hpr Hc) as (r' & Hr' & Hpr' & Hs & _).
  eexists. split; [done |]. by exists r'.
Qed.

(** ** Plans *)

Lemma plan_next_recorded w :
  window_wf w ->
  fixed (plan_next w).2 = fixed w /\
  (forall g q s v, recorded (plan_next w).2 g q s v -> recorded w g q s v).
Proof.
  intros Hwf. pose proof Hwf as (_ & Hlen & _). unfold plan_next. destruct (negb (bound_ w)); [done |]. cbv zeta.
  destruct (_ <=? _); [done |]. destruct (_ <=? _); [done |].
  pose proof (ensure_recorded w (next_frame w)) as He.
  assert (fixed (ensure_record w (next_frame w)).2 = fixed w) as Hfix
    by (unfold ensure_record; by destruct (find_record w (next_frame w))).
  destruct (ensure_record w (next_frame w)) as [r w1]. cbn [snd] in *.
  destruct (plan_ports_loop _ r all_ports 0 0) as [plans pm]. cbn [snd].
  by destruct (_ <? _); split; try done; intros; apply He.
Qed.

Lemma mark_planned_recorded f predicted w :
  window_wf w -> two_ports w -> 0 <= f ->
  fixed (mark_planned f predicted w).2 = fixed w /\
  (forall g q s v, recorded (mark_planned f predicted w).2 g q s v -> recorded w g q s v).
Proof.
  intros Hwf H2 Hf0. unfold mark_planned.
  destruct (negb (bound_ w)); [done |]. destruct (Z.leb_spec (materialized_through_ w) f); [done |].
  destruct (find_record w f) as [r|] eqn:Hf; [| done]. cbv zeta.
  destruct (wf_find w f r Hwf Hf) as (Hrwf & Hu & Hfr & Hrange).
  set (r' := r <| planned := true |> <| planned_predicted_mask := _ |>).
  assert (window_wf (put_record w f r')) as Hwf1 by (by apply put_record_wf).
  match goal with |- context [advance_commit_frontier ?x] => set (w2 := x) end. cbn [snd].
  assert (window_wf w2) as Hwf2.
  { destruct Hwf as (_ & _ & _ & _ & _ & _ & _ & _ & Hm & _).
    destruct Hwf1 as (? & ? & ? & ? & ? & ? & ? & ? & ? & ? & ?). subst w2. unfold window_wf. cbn in *.
    split_and!; try done; lia. }
  unfold advance_commit_frontier. split; [by rewrite advance_fixed |].
  intros g q s v Hr. destruct (advance_loop_wf advance_fuel w2 Hwf2) as (_ & _ & Hring & _).
  apply (recorded_ring (put_record w f r')) in Hr; [| by rewrite Hring].
  pose proof Hwf as (_ & Hlen & _).
  apply recorded_put in Hr as [(-> & Hq & Hp & Hs & Hv) | Hr]; try done. split; [done |]. by exists r.
Qed.

Lemma raise_loop w r ports predicted previous :
  sample <$> (plan_ports_loop w r ports predicted previous).1 =
  raise previous ((fun p => sample (port_sample w r p)) <$> ports).
Proof.
  revert predicted previous. induction ports as [|p ports IH]; intros predicted previous; [done |].
  cbn [plan_ports_loop]. cbv zeta.
  match goal with |- context [plan_ports_loop w r ports ?a ?b] =>
    specialize (IH a b); destruct (plan_ports_loop w r ports a b) as [plans pm] end.
  cbn [fst] in *. cbn [fmap list_fmap raise sample mask input_sequence]. f_equal. exact IH.
Qed.

(** Nothing is predicted when every owned port is confirmed. *)
Lemma loop_predicted w r ports predicted previous :
  (forall p, p ∈ ports -> Z.testbit (owned_port_mask_ w) p = true -> aget false (provided r) p = true) ->
  Forall (fun p => 0 <= p) ports ->
  (plan_ports_loop w r ports predicted previous).2 = predicted.
Proof.
  revert predicted previous. induction ports as [|p ports IH]; intros predicted previous Hall Hpos; [done |].
  apply Forall_cons in Hpos as [Hp Hpos]. cbn [plan_ports_loop]. cbv zeta.
  assert (negb (real (port_sample w r p)) && owned w p = false) as ->.
  { unfold port_sample. rewrite owned_testbit by done.
    destruct (Z.testbit (owned_port_mask_ w) p) eqn:E; [| apply andb_false_r].
    rewrite Hall by (set_solver). done. }
  match goal with |- context [plan_ports_loop w r ports predicted ?b] =>
    specialize (IH predicted b); destruct (plan_ports_loop w r ports predicted b) as [plans pm] end.
  cbn [snd] in *. apply IH; [set_solver | done].
Qed.

(** The plan of a frame whose two players are confirmed is their joint bundle. *)
Lemma plan_joint w k0 k1 :
  window_wf w -> two_ports w -> owners_ w = two_owners k0 k1 ->
  last_complete w 2 = mkSample 0 1 -> last_complete w 3 = mkSample 0 1 ->
  (forall f p s v, recorded w f p s v -> v = 1 /\ (p = 0 \/ p = 1)) ->
  frame_all_real w (next_frame w) = true ->
  exists s0 s1, recorded w (next_frame w) 0 s0 1 /\ recorded w (next_frame w) 1 s1 1 /\
    (status (plan_next w).1 = Ok ->
     plan_bundle (plan_next w).1 = joint_bundle (context_ w) k0 (next_frame w) s0 s1).
Proof.
  intros Hwf H2 Ho Hl2 Hl3 Hsrc Hreal. pose proof Hwf as (Hb & _).
  unfold frame_all_real in Hreal. destruct (find_record w (next_frame w)) as [r|] eqn:Hf; [| done].
  destruct (wf_find w _ r Hwf Hf) as (Hrwf & Hu & Hfr & Hrange).
  unfold two_ports in H2. rewrite H2 in Hreal. cbn in Hreal. apply Z.eqb_eq in Hreal.
  assert (forall p, port_index p -> Z.testbit 3 p = true -> aget false (provided r) p = true) as Hpr.
  { intros p Hp Hbit. destruct Hrwf as (_ & _ & _ & _ & _ & Hports). destruct (Hports p Hp) as [<- _].
    apply (f_equal (fun x => Z.testbit x p)) in Hreal. rewrite Z.land_spec, Hbit, andb_true_r in Hreal. done. }
  pose proof (Hpr 0 ltac:(done) eq_refl) as P0. pose proof (Hpr 1 ltac:(done) eq_refl) as P1.
  assert (forall p, 0 <= p -> aget false (provided r) p = true ->
    recorded w (next_frame w) p (record_sample r p) (seat_revision (aget key0 (keys r) p))) as Hrec.
  { intros p Hp0 Hp. split; [done |]. by exists r. }
  pose proof (Hrec 0 ltac:(done) P0) as R0. pose proof (Hrec 1 ltac:(done) P1) as R1.
  destruct (Hsrc _ _ _ _ R0) as [V0 _]. destruct (Hsrc _ _ _ _ R1) as [V1 _]. rewrite V0 in R0. rewrite V1 in R1.
  assert (forall p, 2 <= p -> aget false (provided r) p = false) as Hno.
  { intros p Hp. destruct (aget false (provided r) p) eqn:E; [| done].
    apply Hrec in E; [| lia]. apply Hsrc in E as [_ E]. lia. }
  exists (record_sample r 0), (record_sample r 1). split_and!; [done | done |].
  unfold plan_next. rewrite Hb. cbn [negb]. cbv zeta.
  destruct (_ <=? _); [done |]. destruct (_ <=? _); [done |]. intros _.
  unfold ensure_record. rewrite Hf.
  set (w1 := if _ <? _ then _ else w).
  assert (context_ w1 = context_ w /\ owners_ w1 = owners_ w /\ owned_port_mask_ w1 = 3 /\
    (forall p, last_complete w1 p = last_complete w p)) as (Hctx & Hown & Hmask & Hlast)
    by (subst w1; by destruct (_ <? _)).
  clearbody w1. pose proof (raise_loop w1 r all_ports 0 0) as Hraise.
  pose proof (loop_predicted w1 r all_ports 0 0) as Hpred.
  destruct (plan_ports_loop w1 r all_ports 0 0) as [plans pm]. cbn [fst snd plan_bundle] in *.
  rewrite Hpred, Hraise, Hctx, Hown, Ho.
  2:{ intros p Hp Howned. unfold all_ports in Hp. apply elem_of_seqZ in Hp. rewrite Hmask in Howned.
      apply Hpr; [unfold port_index; lia | done]. }
  2:{ unfold all_ports. apply Forall_forall. intros p Hp%elem_of_seqZ. lia. }
  unfold joint_bundle. f_equal.
  - unfold plan_revision. cbn [all_ports seqZ fmap list_fmap seq].
    change all_ports with [0; 1; 2; 3]. cbn [fold_left]. by rewrite P0, P1, V1, !Hno by lia.
  - change all_ports with [0; 1; 2; 3]. cbn [fmap list_fmap]. unfold port_sample.
    rewrite P0, P1, !Hno, !Hlast, Hl2, Hl3 by lia. done.
Qed.

End Provenance.
