(* ===== verification/DualMessages.v ===== *)
(** * The messages of a dual game

    A message is a bundle framed by [frame_bundle]: the canonical record of 154
    bytes inside an application frame of 160.  Whatever a peer's accumulator holds
    after a message, the receiving loop takes exactly that message off and hands on
    the bundle that was framed; a part of a message is left alone. *)

From S2P Require Import Prelude.
From S2P Require Import SessionAbi.
From S2P Require Import CanonicalInput.
From S2P Require Import InputWindow.
From S2P Require Import DualScheduler.
From S2P Require Import SessionCodec.
From S2P Require Import CanonicalInputWire.
From S2P Require Import RecoveryLedger.
From S2P Require Import AppFrame.
From S2P Require Import DualController.

(** What a seat of a game sends: canonical bundles with real samples of its own. *)
Record message_ok (context : DualInputKeyV1) (seat : Z) (owner : bytes) (b : DualInputBundleV1) (batch : Z)
    : Prop := {
  message_wf : wf_bundle b;
  message_canonical : canonical_input_is_canonical_v1 b = true;
  message_session : session_id (key b) = session_id context /\ is_bytes (session_id context);
  message_branch : branch_id (key b) = branch_id context /\ is_bytes (branch_id context);
  message_epoch : timeline_epoch (key b) = timeline_epoch context;
  message_revision : seat_revision (key b) = seat_revision context;
  message_seat : logical_seat b = seat;
  message_owner : owner_signing_key_id b = owner;
  message_predicted : predicted_port_mask b = 0;
  message_batch : 0 < batch < 2 ^ 64;
}.

Definition message_bytes (b : DualInputBundleV1) (batch : Z) : bytes :=
  app_frame_bytes kCanonicalInputTag (record_of b (plain_context batch)).

Lemma plain_source_ok b batch port : 0 <= port < 4 -> source_ok b (plain_context batch) port.
Proof.
  intros Hp. unfold source_ok, port_source, plain_context. cbn [stated source_kind clear_reason].
  assert (aget false (replicate 4 false) port = false) as ->.
  { assert (port = 0 \/ port = 1 \/ port = 2 \/ port = 3) as Hc by lia. by destruct_or! Hc; subst. }
  unfold SourceKind.Predicted, SourceKind.RealSample, ClearReason.None_.
  by destruct (marked_predicted b port).
Qed.

Lemma record_is_bytes b batch :
  wf_bundle b -> canonical_input_is_canonical_v1 b = true ->
  is_bytes (session_id (key b)) -> is_bytes (branch_id (key b)) -> is_bytes (record_of b (plain_context batch)).
Proof.
  intros Hwf Hcan Hs Hbr. unfold record_of, wire_fields, is_bytes.
  assert (forall port, 0 <= port < 4 -> is_bytes (slot_of b (plain_context batch) port)) as Hslot.
  { intros port Hp. unfold slot_of, slot_bytes.
    destruct (plain_source_ok b batch port Hp) as (H1 & H2 & _).
    assert (0 <= (port_source b (plain_context batch) port).2) as H3.
    { unfold port_source. cbn [stated plain_context].
      assert (port = 0 \/ port = 1 \/ port = 2 \/ port = 3) as Hc by lia. by destruct_or! Hc; subst. }
    cbn [mjoin list_join]. rewrite !is_bytes_app, !is_bytes_cons. unfold is_byte.
    split_and!; try lia; try apply be_bytes_bytes; try constructor; by unfold is_bytes; constructor. }
  change (seqZ 0 4) with [0; 1; 2; 3]. cbn [fmap list_fmap app mjoin list_join].
  change (Forall is_byte) with is_bytes. rewrite !is_bytes_app.
  split_and!; try apply be_bytes_bytes; try done; try (apply Hslot; lia); try constructor.
  - apply u8_byte.
  - do 7 (constructor; [unfold is_byte; lia |]). change (Forall is_byte) with is_bytes.
    rewrite !is_bytes_app. split_and!; try (apply Hslot; lia). constructor.
Qed.

Lemma zlen_message b batch : wf_bundle b -> zlen (message_bytes b batch) = 160.
Proof. intros Hwf. unfold message_bytes. rewrite zlen_app_frame, record_length by done. done. Qed.

Lemma canonical_frame_tag : frame_tag_info kCanonicalInputTag = Some (Message, "CanonicalInputBundleV1"%string).
Proof. reflexivity. Qed.

Lemma canonical_tag_allowed :
  allow_list_has_type (allow (channel_context StateCommit)) (Some "CanonicalInputBundleV1"%string) = true.
Proof. reflexivity. Qed.

Section Message.
Context (context : DualInputKeyV1) (seat : Z) (owner : bytes) (b : DualInputBundleV1) (batch : Z).
Context (Hok : message_ok context seat owner b batch).

Let Hwf := message_wf _ _ _ _ _ Hok.
Let Hcan := message_canonical _ _ _ _ _ Hok.

(** The framing always succeeds. *)
Lemma frame_message : frame_bundle b (plain_context batch) = inr (message_bytes b batch).
Proof using Hok.
  unfold frame_bundle. rewrite encode_eq; [| done | done | | by intros; apply plain_source_ok].
  2:{ unfold wf_context, plain_context. cbn. pose proof (message_batch _ _ _ _ _ Hok). lia. }
  pose proof (record_length b (plain_context batch) Hwf) as Hl. unfold encode_app_frame.
  destruct (decide (type_name_for_tag kCanonicalInputTag = None)) as [E|_]; [done |].
  change (absolute_max_object_bytes <? kDualInputWireBytesV1) with false. cbv zeta.
  change (zlen (replicate 160 0) <? 6 + kDualInputWireBytesV1) with false.
  change (6 + kDualInputWireBytesV1 =? kFramedInputBytes) with true. cbn [negb].
  unfold kDualInputWireBytesV1. rewrite (slice_whole _ _ Hl).
  rewrite (drop_ge (replicate 160 0)) by (rewrite length_replicate; lia). by rewrite app_nil_r.
Qed.

(** A record at the front of the accumulator is read whatever follows. *)
Lemma next_message rest : exists cursor frame,
  next_app_frame (Some (app_frame_cursor StateCommit (message_bytes b batch ++ rest)
      (zlen (message_bytes b batch ++ rest)))) (Some frame0) (Some false) =
    (Ok, Some cursor, Some frame, Some true) /\
  cursor_offset cursor = 160 /\ frame_type_tag frame = kCanonicalInputTag /\
  object_bytes frame = record_of b (plain_context batch) /\ object_size frame = 154.
Proof using Hok.
  pose proof (record_length b (plain_context batch) Hwf) as Hl.
  pose proof (zlen_message b batch Hwf) as Hz. pose proof (zlen_nonneg rest) as Hr.
  unfold next_app_frame, app_frame_cursor. cbn [cursor_size cursor_offset cursor_bytes cursor_channel].
  rewrite zlen_app, Hz. destruct (Z.ltb_spec (160 + zlen rest) 0); [lia |].
  destruct (Z.eqb_spec 0 (160 + zlen rest)); [lia |].
  rewrite Z.sub_0_r, <- Hz, <- zlen_app, slice_all.
  destruct (check_object "CanonicalInputBundleV1" (record_of b (plain_context batch)) (replicate 32 0)) as [st h] eqn:Hc.
  assert (st = Ok) as ->.
  { change (check_object "CanonicalInputBundleV1" (record_of b (plain_context batch)) (replicate 32 0))
      with (check_bundle (replicate 32 0) (record_of b (plain_context batch))) in Hc.
    pose proof (record_accepted b (plain_context batch) Hwf Hcan (plain_source_ok b batch) (replicate 32 0)) as Ha.
    by rewrite Hc in Ha. }
  destruct (message_session _ _ _ _ _ Hok) as [E1 B1]. destruct (message_branch _ _ _ _ _ Hok) as [E2 B2].
  rewrite (decode_record_ok (Some (channel_context StateCommit)) (message_bytes b batch)
    (mkFrame kCanonicalInputTag Message (Some "CanonicalInputBundleV1"%string) (record_of b (plain_context batch))
       154 (2 + 154) h
       (compute_app_frame_hash StateCommit kCanonicalInputTag (record_of b (plain_context batch))) true) rest).
  - eexists _, _. split; [reflexivity |]. cbn [over cursor_offset frame_type_tag object_bytes object_size]. split_and!; [| done..].
    by unfold over; cbn [cursor_offset].
  - apply channel_context_small.
  - exists kCanonicalInputTag, Message, "CanonicalInputBundleV1"%string, (record_of b (plain_context batch)), h.
    split_and!; [apply canonical_frame_tag | apply canonical_tag_allowed | | rewrite Hl; by vm_compute | done | done |].
    + apply record_is_bytes; [done | done | by rewrite E1 | by rewrite E2].
    + by rewrite Hl.
Qed.

(** A proper part of a message is not read. *)
Lemma next_part part more rest :
  part ++ more = message_bytes b batch ++ rest -> zlen part < 160 ->
  let out := next_app_frame (Some (app_frame_cursor StateCommit part (zlen part))) (Some frame0) (Some false) in
  exists cursor frame, (out = (Truncated, Some cursor, Some frame, Some false) \/
                        out = (Ok, Some cursor, Some frame, Some false)).
Proof using Hok.
  intros Heq Hpart. cbv zeta. pose proof (zlen_message b batch Hwf) as Hz.
  unfold next_app_frame, app_frame_cursor. cbn [cursor_size cursor_offset cursor_bytes cursor_channel].
  pose proof (zlen_nonneg part). destruct (Z.ltb_spec (zlen part) 0); [lia |].
  destruct (Z.eqb_spec 0 (zlen part)); [eexists _, _; by right |].
  rewrite Z.sub_0_r, slice_all. eexists _, _. left.
  unfold decode_record. destruct (Z.ltb_spec (zlen part) 4); [done |]. cbv zeta.
  assert (load32 part 0 = 156) as ->.
  { pose proof (record_length b (plain_context batch) Hwf) as Hl.
    destruct (app_frame_fields kCanonicalInputTag (record_of b (plain_context batch)) rest) as [Hd _];
      [done | lia |]. fold (message_bytes b batch) in Hd.
    rewrite load32_value in Hd; [| lia | rewrite zlen_app; pose proof (zlen_nonneg rest); lia].
    rewrite <- Heq, slice_app_left in Hd by lia. rewrite load32_value by lia. lia. }
  change (156 <? 2) with false. change (max_body (channel_context StateCommit) <? 156 - 2) with false.
  destruct (Z.ltb_spec (zlen part) (4 + 156)); [done | lia].
Qed.

(** What is handed on once a message is off the accumulator. *)
Lemma decode_message into :
  decode_dual_input_bundle_v1 (Some (record_of b (plain_context batch))) 154 seat owner (Some into) = (WireOk, Some b).
Proof using Hok.
  destruct (record_decodes b (plain_context batch) (replicate 32 0) into Hwf Hcan (plain_source_ok b batch)) as [_ Hd].
  rewrite (message_seat _ _ _ _ _ Hok), (message_owner _ _ _ _ _ Hok) in Hd. rewrite Hd. do 2 f_equal.
  pose proof (message_predicted _ _ _ _ _ Hok) as Hp. destruct b. cbn in *. by subst.
Qed.

End Message.

(** ** Building a message *)

Lemma build_canonical_bundle k seat owner samples b :
  canonical_input_build_v1 k seat owner samples (Some bundle0) = (StatusOk, Some b) ->
  canonical_input_is_canonical_v1 b = true /\ key b = k /\ logical_seat b = seat /\
  owner_signing_key_id b = owner /\ predicted_port_mask b = 0 /\ reserved_zero0 b = [0; 0; 0] /\ seat < 4 /\
  ports b = (fun s => mkSample (normalize_dual_port_mask_v1 (raw_mask s)) (sequence s)) <$> samples.
Proof.
  unfold canonical_input_build_v1, kDualPortCountV1.
  destruct (Z.leb_spec 4 seat); [done |]. destruct (dual_input_key_is_valid_v1 k) eqn:Hk; [| done].
  destruct (all_zero owner) eqn:Ho; [done |].
  destruct (increasing None (sequence <$> samples)) eqn:Hi; [| done]. cbn [negb].
  destruct (normalize_all samples) as [ps|] eqn:Hn; [| done]. intros [= <-].
  apply normalize_all_spec in Hn as [_ ->]. split_and!; try done.
  unfold canonical_input_is_canonical_v1, kDualPortCountV1.
  cbn [key logical_seat owner_signing_key_id predicted_port_mask reserved_zero0 ports].
  rewrite Hk, Ho. destruct (Z.leb_spec 4 seat); [lia |]. cbn [negb existsb orb Z.ldiff].
  apply ports_canonical_spec. split; [by rewrite <- list_fmap_compose |].
  apply Forall_fmap, Forall_true. intros s. apply normalized_canonical.
Qed.

(** What a peer builds for a frame is a message. *)
Lemma build_message context seat owner samples frame batch b :
  wf_key context -> is_bytes (session_id context) -> is_bytes (branch_id context) -> 0 <= seat ->
  length owner = 32%nat -> length samples = 4%nat -> Forall (fun s => 0 <= sequence s < 2 ^ 64) samples ->
  0 <= frame < 2 ^ 64 -> 0 < batch < 2 ^ 64 ->
  canonical_input_build_v1 (context <| frame_index := frame |>) seat owner samples (Some bundle0) =
    (StatusOk, Some b) ->
  message_ok context seat owner b batch /\ frame_index (key b) = frame.
Proof.
  intros (L1 & L2 & He & _ & Hr) Hs Hb Hseat Hown Hlen Hseq Hf Hbatch Hbuild.
  apply build_canonical_bundle in Hbuild as (Hcan & Hk & Hl & Ho & Hp & Hz & H4 & Hports).
  split; [| by rewrite Hk]. split; rewrite ?Hk; try done.
  unfold wf_bundle. rewrite Hk, Hl, Hz, Hp, Hports, Ho, length_fmap. unfold wf_key, is_byte.
  cbn [session_id branch_id timeline_epoch frame_index seat_revision over].
  split_and!; try done; try lia. apply Forall_fmap. eapply Forall_impl; [exact Hseq |].
  intros s Hseq1. cbn beta in Hseq1. unfold wf_sample, compose. cbn [mask input_sequence].
  pose proof (normalize_range (raw_mask s)). lia.
Qed.

(** The beacon is always built. *)
Lemma beacon_builds k seat owner :
  seat < 4 -> dual_input_key_is_valid_v1 k = true -> all_zero owner = false ->
  exists b, canonical_input_build_v1 k seat owner beacon_samples (Some bundle0) = (StatusOk, Some b).
Proof.
  intros Hs Hk Ho. unfold canonical_input_build_v1, kDualPortCountV1.
  destruct (Z.leb_spec 4 seat); [lia |]. rewrite Hk, Ho. by eexists.
Qed.
