(* ===== verification/DualPeers.v ===== *)
(** * The two ends of a dual game

    Two controllers of [DualController.v] joined by two byte channels, each with any
    interleaving of player input, lobby calls, clock ticks, polls, completions, cuts
    of the byte stream, failures, pauses and disconnects: whatever they do, the
    simulations they run never diverge.  Every frame both have run was run on the
    same bundle.

    The channel is the provider's reliable stream: a completed write puts the bytes
    at the head of the write queue on it, a completed read takes any number of bytes
    off it.  A completion is only delivered for a request that is outstanding. *)

From S2P Require Import Prelude.
From S2P Require Import Sha256.
From S2P Require Import SessionCodec.
From S2P Require Import SessionAbi.
From S2P Require Import CanonicalInput.
From S2P Require Import InputWindow.
From S2P Require Import DualScheduler.
From S2P Require Import CanonicalInputWire.
From S2P Require Import RecoveryLedger.
From S2P Require Import AppFrame.
From S2P Require Import DualController.
From S2P Require Import InputProvenance.
From S2P Require Import DualMessages.

(** ** The system *)

(** A worker, and the bundles it has run. *)
#[global] Instance logged_port {R} {P : DualRuntimePort R} : DualRuntimePort (R * list DualInputBundleV1) := {|
  load content r := let '(res, w) := load content r.1 in (res, (w, r.2));
  step b out r :=
    let '(res, out, w) := step b out r.1 in (res, out, (w, if decide (res = V2_OK) then r.2 ++ [b] else r.2));
  export_state cap out r := let '(res, out, w) := export_state cap out r.1 in (res, out, (w, r.2));
  import_state data size r := let '(res, w) := import_state data size r.1 in (res, (w, r.2));
  state_digest f out r := let '(res, out, w) := state_digest f out r.1 in (res, out, (w, r.2));
|}.

(** What can happen at one end.  A failed request completes with [result]. *)
Inductive PeerOp :=
  | Submit (input : SessionInput) | PauseGame | SuspendReceived (data : option bytes) (size : Z)
  | Disconnected | ClockTick (now_ns : Z) | PollEffect | InLobby (o : LobbyOp)
  | Opened (send receive : Z) | Written | Received (count : nat)
  | Failed (kind : EffectKind) (result : fly_session_result_v2).

Section System.
Context {R : Type} {P : DualRuntimePort R}.

Abbreviation Controller := (DualSessionController (R * list DualInputBundleV1)).

Definition outstanding (kind : EffectKind) (c : Controller) : bool :=
  match kind with
  | QueryContent => catalog_query_outstanding_ c
  | OpenStream => open_outstanding_ c
  | GrantRead => read_outstanding_ c
  | Write => write_outstanding_ c
  end.

Definition completed (result : fly_session_result_v2) (send receive : Z) (received : option bytes) : ProviderEvent :=
  mkEvent result send receive [] received.

(** One end: its controller, the channel it reads and the channel it writes. *)
Definition peer_run (o : PeerOp) (me : Controller) (inp outp : bytes) : Controller * bytes * bytes :=
  match o with
  | Submit input => ((submit_local input me).2, inp, outp)
  | PauseGame => ((controller_pause me).2, inp, outp)
  | SuspendReceived data size => ((ingest_verified_suspend data size me).2, inp, outp)
  | Disconnected => ((disconnect me).2, inp, outp)
  | ClockTick now => (controller_on_clock now me, inp, outp)
  | PollEffect => ((poll_effect me).2, inp, outp)
  | InLobby o => (lobby_run o me, inp, outp)
  | Opened send receive =>
    if outstanding OpenStream me
    then ((complete OpenStream (completed V2_OK send receive None) me).2, inp, outp)
    else (me, inp, outp)
  | Written =>
    if outstanding Write me
    then ((complete Write (completed V2_OK 0 0 None) me).2, inp, outp ++ default [] (head (write_queue_ me)))
    else (me, inp, outp)
  | Received count =>
    if outstanding GrantRead me
    then ((complete GrantRead (completed V2_OK 0 0 (Some (take count inp))) me).2, drop count inp, outp)
    else (me, inp, outp)
  | Failed kind result =>
    if outstanding kind me && negb (bool_decide (result = V2_OK))
    then ((complete kind (completed result 0 0 None) me).2, inp, outp)
    else (me, inp, outp)
  end.

Record Peers := mkPeers { initiator : Controller; responder : Controller; downlink : bytes; uplink : bytes }.

Inductive Side := AtInitiator | AtResponder.

Definition peers_run (o : Side * PeerOp) (p : Peers) : Peers :=
  match o with
  | (AtInitiator, o) =>
    let '(me, inp, outp) := peer_run o (initiator p) (uplink p) (downlink p) in mkPeers me (responder p) outp inp
  | (AtResponder, o) =>
    let '(me, inp, outp) := peer_run o (responder p) (downlink p) (uplink p) in mkPeers (initiator p) me inp outp
  end.

Definition run_peers (ops : list (Side * PeerOp)) (p : Peers) : Peers := fold_left (fun p o => peers_run o p) ops p.

(** The bundles the worker of a controller has run. *)
Definition executed (c : Controller) : list DualInputBundleV1 :=
  match scheduler_ c with Some s => (port_ s).2 | None => [] end.

End System.

(** ** What holds of one end

    [mine] and [theirs] are the inputs each end has accepted from its own player:
    the frame and the sample. *)

Section Game.
Context (K : DualInputKeyV1) (k0 k1 : bytes).

(** The key of the game and the owners are those [start_dual] makes. *)
Record game_ok : Prop := {
  game_key : wf_key K /\ dual_input_key_is_valid_v1 K = true /\ seat_revision K = 1;
  game_session : is_bytes (session_id K) /\ is_bytes (branch_id K);
  game_owner0 : length k0 = 32%nat /\ all_zero k0 = false;
  game_owner1 : length k1 = 32%nat /\ all_zero k1 = false;
}.
Definition is_seat (s : Z) : Prop := s = 0 \/ s = 1.
Definition owner_of (seat : Z) : bytes := if seat =? 0 then k0 else k1.

Abbreviation Inputs := (list (Z * DualPortSampleV1)).
Implicit Types mine theirs : Inputs.

Record window_inv (seat : Z) mine theirs (w : DualInputWindowV1) : Prop := {
  wi_wf : window_wf w;
  wi_committed : committable w = None;
  wi_order : in_order w;
  wi_fixed : fixed w = (K, two_owners k0 k1, 3, (0, 0), (0, 0));
  wi_source : forall f p s v, recorded w f p s v ->
    v = 1 /\ ((p = seat /\ (f, s) ∈ mine) \/ (p = 1 - seat /\ (f, s) ∈ theirs));
  wi_open : forall f s, (f, s) ∈ mine ->
    f < step_frontier_ w \/ (f = step_frontier_ w /\ exists v, recorded w f seat s v);
  wi_mine : forall f s s', (f, s) ∈ mine -> (f, s') ∈ mine -> s = s';
}.

Lemma fixed_parts w :
  fixed w = (K, two_owners k0 k1, 3, (0, 0), (0, 0)) ->
  context_ w = K /\ owners_ w = two_owners k0 k1 /\ two_ports w /\
  last_complete w 2 = mkSample 0 1 /\ last_complete w 3 = mkSample 0 1.
Proof.
  unfold fixed, two_ports, last_complete. intros [= -> -> -> -> -> -> ->]. done.
Qed.

(** A change that keeps the records, or loses only old ones. *)
Lemma window_inv_kept seat mine theirs w w' :
  is_seat seat -> window_inv seat mine theirs w ->
  preserves w w' -> in_order w' -> fixed w' = fixed w -> step_frontier_ w' = step_frontier_ w ->
  (forall f p s v, recorded w' f p s v -> recorded w f p s v) -> window_inv seat mine theirs w'.
Proof.
  intros Hs [] (Hwf & Hk & Hc) Hio Hfix Hst Hback. split; try done.
  - congruence.
  - intros f p s v Hr. apply (wi_source0 f p s v). by apply Hback.
  - intros f s Hin. rewrite Hst. destruct (wi_open0 f s Hin) as [|[-> [v Hr]]]; [by left | right].
    split; [done |]. apply (recorded_kept w w' _ seat s v); try done.
    + unfold is_seat, port_index in *. lia.
    + destruct Hio as [? _]. lia.
Qed.

(** The peer's input arrives. *)
Lemma window_inv_remote seat mine theirs w b :
  is_seat seat -> window_inv seat mine theirs w -> bundle_fits b -> seat_revision (key b) = 1 ->
  logical_seat b = 1 - seat -> (frame_index (key b), port_of b (1 - seat)) ∈ theirs ->
  window_inv seat mine theirs (deliver_input b w).2 /\
  step_frontier_ (deliver_input b w).2 = step_frontier_ w.
Proof.
  intros Hs Hinv Hb Hv Hl Hin. pose proof Hinv as [Hwf Hcom Hio Hfix Hsrc Hopen Hmine].
  destruct (fixed_parts w Hfix) as (_ & Ho & H2 & _).
  pose proof (deliver_input_recorded b w k0 k1 Hwf Hcom H2 Ho Hb) as H.
  pose proof (deliver_input_ok b w Hwf Hcom Hb) as (Hwf' & Hk & Hcom').
  destruct (deliver_in_order b w Hwf Hcom Hb Hio) as [Hio' Hst].
  destruct (deliver_input b w) as [st w']. cbn [snd] in *. destruct H as (Hfx & Hback & _).
  split; [| done]. split; try done.
  - congruence.
  - intros f p s v Hr. destruct (Hback _ _ _ _ Hr) as [|(_ & -> & -> & _ & -> & ->)]; [by apply (Hsrc f p s v) |].
    split; [done |]. right. rewrite Hl. done.
  - intros f s Hm. rewrite Hst. destruct (Hopen f s Hm) as [|[-> [v Hr]]]; [by left | right].
    split; [done |]. apply (recorded_kept w w' _ seat s v); try done.
    + unfold is_seat, port_index in *. lia.
    + destruct Hio' as [? _]. lia.
Qed.

(** The own player's input for the next frame is accepted. *)
Lemma window_inv_local seat mine theirs w b :
  is_seat seat -> window_inv seat mine theirs w -> bundle_fits b -> seat_revision (key b) = 1 ->
  logical_seat b = seat -> frame_index (key b) = step_frontier_ w ->
  let '(st, w') := deliver_input b w in
  step_frontier_ w' = step_frontier_ w /\
  window_inv seat (if decide (st = Accepted) then (step_frontier_ w, port_of b seat) :: mine else mine) theirs w'.
Proof.
  intros Hs Hinv Hb Hv Hl Hf. pose proof Hinv as [Hwf Hcom Hio Hfix Hsrc Hopen Hmine].
  destruct (fixed_parts w Hfix) as (_ & Ho & H2 & _).
  pose proof (deliver_input_recorded b w k0 k1 Hwf Hcom H2 Ho Hb) as H.
  pose proof (deliver_input_ok b w Hwf Hcom Hb) as Hpres.
  destruct (deliver_in_order b w Hwf Hcom Hb Hio) as [Hio' Hst].
  destruct (deliver_input b w) as [st w']. cbn [snd] in *. destruct H as (Hfx & Hback & Hacc & _).
  split; [done |]. destruct (decide (st = Accepted)) as [Ha|Hna].
  2:{ apply (window_inv_kept _ _ _ w); try done.
      intros f p s v Hr. by destruct (Hback _ _ _ _ Hr) as [|(? & _)]. }
  destruct (Hacc Ha) as [Hnone Hnew]. rewrite Hf, Hl in *. destruct Hpres as (Hwf' & Hk & Hcom').
  split; try done.
  - congruence.
  - intros f p s v Hr. destruct (Hback _ _ _ _ Hr) as [Hr'|(_ & -> & -> & _ & -> & ->)].
    + destruct (Hsrc f p s v Hr') as [-> [[-> ?]|?]]; (split; [done |]); [left; split; [done | by right] | by right].
    + split; [done |]. left. split; [done | by left].
  - intros f s [[= -> ->] | Hm]%elem_of_cons; rewrite Hst.
    + right. split; [done |]. by eexists.
    + destruct (Hopen f s Hm) as [|[-> [v Hr]]]; [by left |]. by destruct (Hnone s v).
  - assert (forall s, (step_frontier_ w, s) ∉ mine) as Hfresh.
    { intros s Hm. destruct (Hopen _ _ Hm) as [|[_ [v Hr]]]; [lia |]. by destruct (Hnone s v). }
    intros f s s' [[= -> ->] | Hm]%elem_of_cons [E | Hm']%elem_of_cons; try done.
    + by injection E as ->.
    + by destruct (Hfresh s').
    + injection E as -> ->. by destruct (Hfresh s).
    + by apply (Hmine f).
Qed.

(** A frame is planned, and marked. *)
Lemma window_inv_plan seat mine theirs w :
  is_seat seat -> window_inv seat mine theirs w ->
  window_inv seat mine theirs (plan_next w).2 /\ step_frontier_ (plan_next w).2 = step_frontier_ w.
Proof.
  intros Hs Hinv. pose proof Hinv as [Hwf Hcom Hio Hfix _ _ _].
  pose proof Hwf as (_ & Hlen & _). destruct (plan_next_in_order w Hlen Hio) as (Hio' & Hst & _).
  destruct (plan_next_recorded w Hwf) as [Hfx Hback]. split; [| done].
  apply (window_inv_kept _ _ _ w); try done. by apply plan_next_ok.
Qed.

Lemma window_inv_mark seat mine theirs w predicted :
  is_seat seat -> window_inv seat mine theirs w -> step_frontier_ w < materialized_through_ w ->
  is_Some (find_record w (step_frontier_ w)) ->
  let '(st, w') := mark_planned (step_frontier_ w) predicted w in
  st = Ok /\ step_frontier_ w' = step_frontier_ w + 1 /\ window_inv seat mine theirs w'.
Proof.
  intros Hs Hinv Hm Hr. pose proof Hinv as [Hwf Hcom Hio Hfix Hsrc Hopen Hmine].
  destruct (fixed_parts w Hfix) as (_ & _ & H2 & _).
  assert (0 <= step_frontier_ w) as H0 by (destruct Hwf as (_ & _ & _ & _ & _ & _ & _ & ? & _); lia).
  pose proof (mark_next_ok predicted w Hwf Hio Hm Hr) as H.
  pose proof (mark_planned_ok (step_frontier_ w) predicted w Hwf Hcom H0) as (Hwf' & Hk & Hcom').
  destruct (mark_planned_recorded (step_frontier_ w) predicted w Hwf H2 H0) as [Hfx Hback].
  destruct (mark_planned (step_frontier_ w) predicted w) as [st w']. destruct H as (-> & Hio' & Hst). cbn [snd] in *.
  split_and!; [done | done |]. split; try done.
  - congruence.
  - intros f p s v Hrec. by apply (Hsrc f p s v), Hback.
  - intros f s Hin. rewrite Hst. left. destruct (Hopen f s Hin) as [|[-> _]]; lia.
Qed.

(** *** The scheduler *)

Section Scheduler.
Context {R : Type} {P : DualRuntimePort R}.
Context (seat : Z) (Hseat : is_seat seat).
Implicit Types g : DualRunSchedulerV1 (R * list DualInputBundleV1).

(** A bundle that may run as frame [n]: the joint bundle of two accepted inputs. *)
Definition ran mine theirs (n : Z) (b : DualInputBundleV1) : Prop :=
  exists s0 s1, (n, s0) ∈ (if seat =? 0 then mine else theirs) /\
    (n, s1) ∈ (if seat =? 0 then theirs else mine) /\ b = joint_bundle K k0 n s0 s1.

Record game_inv mine theirs (sequence : Z) g : Prop := {
  gi_window : window_inv seat mine theirs (window_ g);
  gi_next : next_frame_ g = step_frontier_ (window_ g);
  gi_ran : forall n b, (port_ g).2 !! n = Some b -> ran mine theirs (Z.of_nat n) b;
  gi_sequence : 4 * next_frame_ g + 1 <= sequence;
  gi_taken : forall x, (next_frame_ g, x) ∈ mine -> 4 * next_frame_ g + 5 <= sequence;
}.

Lemma game_inv_same mine theirs q g g' :
  window_ g' = window_ g -> next_frame_ g' = next_frame_ g -> (port_ g').2 = (port_ g).2 ->
  game_inv mine theirs q g -> game_inv mine theirs q g'.
Proof. intros E1 E2 E3 []. by split; rewrite ?E1, ?E2, ?E3. Qed.

Lemma ran_more mine theirs mine' theirs' n b :
  mine ⊆ mine' -> theirs ⊆ theirs' -> ran mine theirs n b -> ran mine' theirs' n b.
Proof.
  intros Hm Ht (s0 & s1 & H0 & H1 & ->). exists s0, s1. by destruct (seat =? 0); split_and!; auto.
Qed.

Lemma game_inv_theirs mine theirs theirs' q g :
  theirs ⊆ theirs' -> game_inv mine theirs q g -> game_inv mine theirs' q g.
Proof.
  intros Ht [[] ? Hran ? ?]. split; try done.
  - split; try done. intros f p x v Hr. destruct (wi_source0 f p x v Hr) as [-> [|[-> ?]]]; [by auto |].
    split; [done |]. right. auto.
  - intros n b Hb. apply (ran_more mine theirs); [done | done | by apply Hran].
Qed.

Lemma game_inv_freeze mine theirs q why g : game_inv mine theirs q g -> game_inv mine theirs q (freeze why g).2.
Proof. apply game_inv_same; unfold freeze; cbn; by destruct (decide _). Qed.

(** One frame of the game: the joint bundle of the two inputs is what the worker ran. *)
Lemma step_game mine theirs q g :
  game_inv mine theirs q g -> Z.of_nat (length (port_ g).2) = next_frame_ g ->
  frame_all_real (window_ g) (next_frame_ g) = true ->
  let '(r, g') := step_next_frame g in
  game_inv mine theirs q g' /\ (r = V2_OK -> Z.of_nat (length (port_ g').2) = next_frame_ g').
Proof.
  intros Hinv Hlen Hreal. pose proof Hinv as [Hwin Hnext Hran Hq Htaken].
  pose proof Hwin as [Hwf Hcom Hio Hfix Hsrc Hopen Hmine].
  destruct (fixed_parts _ Hfix) as (Hctx & Hown & H2 & Hl2 & Hl3).
  assert (InputWindow.next_frame (window_ g) = next_frame_ g) as Hnf by (by rewrite in_order_next).
  assert (forall f p x v, recorded (window_ g) f p x v -> v = 1 /\ (p = 0 \/ p = 1)) as Hsrc01.
  { intros f p x v Hr. destruct (Hsrc f p x v Hr) as [-> H]. split; [done |]. unfold is_seat in Hseat. lia. }
  destruct (plan_joint (window_ g) k0 k1 Hwf H2 Hown Hl2 Hl3 Hsrc01) as (x0 & x1 & R0 & R1 & Hplan);
    [by rewrite Hnf |].
  rewrite Hnf, Hctx in *.
  assert (ran mine theirs (next_frame_ g) (joint_bundle K k0 (next_frame_ g) x0 x1)) as Hjoint.
  { exists x0, x1. destruct (Hsrc _ _ _ _ R0) as [_ M0]. destruct (Hsrc _ _ _ _ R1) as [_ M1].
    unfold is_seat in Hseat. destruct Hseat as [-> | ->]; cbn [Z.eqb] in *;
      (split_and!; [| | done]); [destruct M0 as [[_ ?]|[? _]] | destruct M1 as [[? _]|[_ ?]]
        | destruct M0 as [[? _]|[_ ?]] | destruct M1 as [[_ ?]|[? _]]]; done. }
  destruct (window_inv_plan seat mine theirs (window_ g) Hseat Hwin) as [Hwin1 Hst1].
  pose proof Hwf as (_ & Hwlen & _). destruct (plan_next_in_order (window_ g) Hwlen Hio) as (_ & _ & Hok).
  unfold step_next_frame. cbv zeta.
  destruct (decide (require_running g <> V2_OK)) as [Hnr|_]; [by split; [| intros E; rewrite E in Hnr] |].
  destruct (plan_next (window_ g)) as [plan w1]. cbn [fst snd] in *.
  set (g1 := g <| window_ := w1 |>).
  assert (game_inv mine theirs q g1) as Hinv1.
  { split; cbn [g1 window_ next_frame_ port_ over]; try done. subst g1. cbn. congruence. }
  destruct (decide (status plan = Frozen)) as [_|_].
  { split; [| done]. eapply game_inv_freeze. by apply (game_inv_same _ _ _ g1). }
  destruct (decide (status plan <> Ok)) as [_|Hst]; [split; [by apply game_inv_freeze | done] |].
  destruct (decide (status plan = Ok)) as [Hst'|]; [| done]. clear Hst. rename Hst' into Hst.
  destruct (Hok Hst) as (Hpf & Hmat & Hfind). rewrite (Hplan Hst). clear Hplan Hok.
  assert ((port_ g1).2 = (port_ g).2) as Eport by done.
  assert (next_frame_ g1 = next_frame_ g) as Enext by done.
  assert (window_ g1 = w1) as Ewin by done. clearbody g1.
  cbn [step logged_port]. destruct (step _ outcome0 (port_ g1).1) as [[res outcome] r].
  destruct (decide (res <> V2_OK)) as [Hr|Hr].
  { split; [| done]. apply game_inv_freeze. apply (game_inv_same _ _ _ g1); [done.. | | exact Hinv1].
    cbn. by destruct (decide (res = V2_OK)). }
  destruct (decide (res = V2_OK)) as [_|]; [| done]. clear Hr res.
  set (bundle := joint_bundle K k0 (next_frame_ g) x0 x1) in *. rewrite Eport.
  set (g2 := g1 <| port_ := _ |>).
  assert (game_inv mine theirs q g2) as Hinv2.
  { destruct Hinv1 as [Hw Hn Hr ? ?]. split; try done. intros n b Hb.
    cbn in Hb. apply lookup_app_Some in Hb as [Hb | [Hge Hb]]; [by apply Hran |].
    apply list_lookup_singleton_Some in Hb as [Hb <-].
    assert (Z.of_nat n = next_frame_ g) as -> by lia. done. }
  assert (Z.of_nat (length (port_ g2).2) = next_frame_ g + 1) as Hlen2 by (cbn; rewrite length_app; cbn; lia).
  assert (next_frame_ g2 = next_frame_ g) as Enext2 by done.
  assert (window_ g2 = w1) as Ewin2 by done. clearbody g2.
  cbn [state_digest logged_port]. destruct (state_digest _ digest0 (port_ g2).1) as [[dres digest] r'].
  destruct (decide (dres <> V2_OK)) as [Hr|_].
  { split; [| done]. apply (game_inv_same _ _ _ g2); [done.. | exact Hinv2]. }
  pose proof (window_inv_mark seat mine theirs w1 (plan_predicted plan) Hseat Hwin1) as Hmark.
  rewrite Hst1 in Hmark. specialize (Hmark Hmat Hfind).
  unfold commit_step_frame.
  match goal with |- context [record_digest plan digest ?x] => set (g3 := record_digest plan digest x) end.
  assert (window_ g3 = w1) as Ewin3 by done.
  assert ((port_ g3).2 = (port_ g2).2) as Eport3 by done. clearbody g3.
  rewrite Ewin3, Hpf. destruct (mark_planned (step_frontier_ (window_ g)) (plan_predicted plan) w1) as [st w2].
  destruct Hmark as (-> & Hst2 & Hwin2). destruct (decide (Ok <> Ok)); [done |].
  split; [| intros _; cbn; rewrite Eport3, Hlen2; lia].
  split; cbn [window_ next_frame_ port_ over]; [done | by rewrite Hst2 | | |].
  - intros i b. cbn. rewrite Eport3. apply (gi_ran _ _ _ _ Hinv2).
  - cbn. pose proof (fun x => wi_open _ _ _ _ Hwin2 (next_frame_ g) x). 
    assert (exists x, (next_frame_ g, x) ∈ mine) as [x Hx].
    { destruct Hjoint as (y0 & y1 & H0 & H1 & _). destruct (seat =? 0); eauto. }
    apply Htaken in Hx. lia.
  - cbn. intros x Hx. destruct (wi_open _ _ _ _ Hwin _ _ Hx); lia.
Qed.

Lemma wf_bundle_fits b : wf_bundle b -> bundle_fits b.
Proof.
  intros ((_ & _ & _ & ? & _) & _ & _ & _ & ? & Hs & _). unfold bundle_fits.
  split_and!; [done | | lia]. eapply Forall_impl; [exact Hs |]. by intros ? [_ ?].
Qed.

(** What a window status does to the scheduler. *)
Lemma handle_status_inv mine theirs q st g :
  game_inv mine theirs q g ->
  let '(res, admission, g') := handle_window_status st g in
  game_inv mine theirs q g' /\ (port_ g').2 = (port_ g).2 /\ next_frame_ g' = next_frame_ g /\
  res <> V2_OK /\ (res = V2_ACCEPTED <-> st = Accepted).
Proof.
  intros Hinv. pose proof (handle_status_same st g) as H.
  assert (let '(res, admission, g') := handle_window_status st g in
    res <> V2_OK /\ (res = V2_ACCEPTED <-> st = Accepted)) as Hres by (by destruct st).
  destruct (handle_window_status st g) as [[res admission] g']. destruct H as (Hr & Hw & Hp).
  unfold rest in Hr. injection Hr as _ _ _ _ _ Hn _ _. rewrite Hp.
  split_and!; try done; try apply Hres. apply (game_inv_same _ _ _ g); try done. by rewrite Hp.
Qed.

Lemma remote_game mine theirs q g b batch :
  game_inv mine theirs q g -> message_ok K (1 - seat) (owner_of (1 - seat)) b batch -> seat_revision K = 1 ->
  (frame_index (key b), port_of b (1 - seat)) ∈ theirs ->
  let '(_, _, g') := accept_remote_input b g in
  game_inv mine theirs q g' /\ (port_ g').2 = (port_ g).2 /\ next_frame_ g' = next_frame_ g.
Proof.
  intros Hinv Hb Hrev Hin. unfold accept_remote_input. cbv zeta. destruct (decide _); [done |].
  pose proof Hinv as [Hwin Hnext Hran Hq Htaken].
  destruct (window_inv_remote seat mine theirs (window_ g) b) as [Hwin' Hst]; try done.
  { apply wf_bundle_fits, (message_wf _ _ _ _ _ Hb). }
  { by rewrite (message_revision _ _ _ _ _ Hb). }
  { apply (message_seat _ _ _ _ _ Hb). }
  destruct (deliver_input b (window_ g)) as [st w']. cbn [snd] in *.
  pose proof (handle_status_inv mine theirs q st (g <| window_ := w' |>)) as H.
  destruct (handle_window_status _ _) as [[res admission] g'].
  destruct H as (H1 & H2 & H3 & _); [| done].
  split; try done. cbn. congruence.
Qed.

(** The own player's samples, for the next frame. *)
Lemma local_game mine theirs q g samples b :
  game_inv mine theirs q g -> seat_revision K = 1 -> all_zero (owner_of seat) = false ->
  canonical_input_build_v1 (K <| frame_index := next_frame_ g |>) seat (owner_of seat) samples (Some bundle0)
    = (StatusOk, Some b) -> wf_bundle b ->
  let '(res, admission, g') := accept_local_input samples seat g in
  (port_ g').2 = (port_ g).2 /\ next_frame_ g' = next_frame_ g /\ res <> V2_OK /\
  game_inv (if decide (res = V2_ACCEPTED) then (next_frame_ g, port_of b seat) :: mine else mine) theirs (q + 4) g'.
Proof.
  intros Hinv Hrev Hzero Hbuild Hwfb. unfold accept_local_input. cbv zeta.
  pose proof Hinv as [Hwin Hnext Hran Hq Htaken].
  assert (game_inv mine theirs (q + 4) g) as Hinv4.
  { split; try done; [lia |]. intros x Hx. apply Htaken in Hx. lia. }
  destruct (decide (require_running g <> V2_OK)) as [Hn|_].
  { split_and!; try done. unfold require_running. destruct (shutdown_ g), (state_ g); by destruct (decide _). }
  pose proof (build_canonical_bundle _ _ _ _ _ Hbuild) as (_ & Hk & Hl & _).
  pose proof Hwin as [Hwf Hcom Hio Hfix _ _ _].
  destruct (fixed_parts _ Hfix) as (Hctx & Hown & _).
  assert (deliver_local_input samples seat (window_ g) = deliver_input b (window_ g)) as ->.
  { unfold deliver_local_input. pose proof Hwf as (-> & _). cbn [negb]. rewrite Hown, Hctx.
    assert (find_seat (two_owners k0 k1) seat 0 = Some seat /\
      signing_key_id (aget owner0 (two_owners k0 k1) seat) = owner_of seat) as [-> ->]
      by (destruct Hseat as [-> | ->]; by split).
    cbv zeta. change (key_is_all_zero (owner_of seat)) with (all_zero (owner_of seat)).
    rewrite Hzero, <- Hnext, Hbuild. done. }
  pose proof (window_inv_local seat mine theirs (window_ g) b Hseat Hwin (wf_bundle_fits b Hwfb)) as H.
  rewrite Hk, Hl in H. specialize (H Hrev eq_refl Hnext).
  destruct (deliver_input b (window_ g)) as [st w']. destruct H as [Hst Hwin'].
  set (mine' := if decide (st = Accepted) then _ else mine) in *.
  assert (mine ⊆ mine') as Hsub by (subst mine'; destruct (decide _); set_solver).
  pose proof (handle_status_inv mine' theirs (q + 4) st (g <| window_ := w' |>)) as H.
  destruct (handle_window_status _ _) as [[res admission] g']. destruct H as (H1 & H2 & H3 & H4 & H5).
  { split; cbn; try done.
    - congruence.
    - intros n x Hx. apply (ran_more mine theirs); try done. by apply Hran.
    - lia.
    - intros x _. lia. }
  split_and!; try done. subst mine'. rewrite <- Hnext in H1.
  destruct (decide (st = Accepted)), (decide (res = V2_ACCEPTED)); tauto || done.
Qed.

End Scheduler.

(** *** The controller *)

Section Control.
Context {R : Type} {P : DualRuntimePort R}.
Context (Hgame : game_ok) (seat : Z) (Hseat : is_seat seat).
Implicit Types c me : DualSessionController (R * list DualInputBundleV1).

(** What the invariant reads besides the scheduler and the running and frozen flags. *)
Definition core c :=
  (game_context_ c, game_owners_ c, local_seat_ c, local_runtime_ready_ c, local_sequence_ c, batch_sequence_ c,
   (stream_open_ c, open_outstanding_ c, read_outstanding_ c, game_paused_ c)).

(** A change that at most freezes, and one that also leaves the queues alone. *)
Definition calm c c' : Prop :=
  core c' = core c /\
  ((game_frozen_ c' = true /\ running_ c' = false) \/
   (game_frozen_ c' = game_frozen_ c /\ running_ c' = running_ c)).

Definition quiet c c' : Prop :=
  calm c c' /\ write_queue_ c' = write_queue_ c /\ read_accumulator_ c' = read_accumulator_ c.

Record flags_inv c : Prop := {
  fi_context : game_context_ c = K;
  fi_owners : game_owners_ c = two_owners k0 k1;
  fi_seat : local_seat_ c = seat;
  fi_ready : local_runtime_ready_ c = true;
  fi_sequence : 1 <= local_sequence_ c < 2 ^ 64;
  fi_batch : 1 <= batch_sequence_ c < 2 ^ 64;
  fi_frozen : game_frozen_ c = true -> running_ c = false;
  fi_paused : game_paused_ c = true -> running_ c = true \/ game_frozen_ c = true;
  fi_open : stream_open_ c = true -> open_outstanding_ c = false;
  fi_read : read_outstanding_ c = true -> stream_open_ c = true;
  fi_running : running_ c = true -> stream_open_ c = true;
}.

Record sched_inv mine theirs c : Prop := {
  si_game : exists g, scheduler_ c = Some g /\ game_inv seat mine theirs (local_sequence_ c) g /\
    (game_frozen_ c = false -> Z.of_nat (length (port_ g).2) = next_frame_ g) /\
    (game_frozen_ c = false -> running_ c = false -> state_ g = Ready /\ shutdown_ g = false);
}.

Definition side_inv mine theirs c : Prop := flags_inv c /\ sched_inv mine theirs c.

Lemma quiet_refl c : quiet c c.
Proof. split; [split; [done | by right] | done]. Qed.

Lemma calm_trans c c' c'' : calm c c' -> calm c' c'' -> calm c c''.
Proof. unfold calm. intros [-> H] [-> H']. split; [done |]. intuition congruence. Qed.

Lemma quiet_trans c c' c'' : quiet c c' -> quiet c' c'' -> quiet c c''.
Proof.
  intros (H & E1 & E2) (H' & E3 & E4). split; [by eapply calm_trans | split; congruence].
Qed.

Lemma calm_flags c c' : calm c c' -> flags_inv c -> flags_inv c'.
Proof.
  unfold calm, core. intros [[= E1 E2 E3 E4 E5 E6 E9 E10 E11 E12] Hf] [].
  split; rewrite ?E1, ?E2, ?E3, ?E4, ?E5, ?E6, ?E9, ?E10, ?E11, ?E12; try done;
    destruct Hf as [[H1 H2] | [H1 H2]]; rewrite ?H1, ?H2; try done; try (by right).
Qed.

(** The scheduler may have changed; the flags at most froze. *)
Lemma calm_side mine theirs c c' g :
  calm c c' -> flags_inv c -> scheduler_ c' = Some g -> game_inv seat mine theirs (local_sequence_ c') g ->
  (game_frozen_ c' = false -> Z.of_nat (length (port_ g).2) = next_frame_ g) ->
  (game_frozen_ c' = false -> running_ c' = false -> state_ g = Ready /\ shutdown_ g = false) ->
  side_inv mine theirs c'.
Proof. intros Hq Hf Hs Hg Hl Hr. split; [by apply (calm_flags c) |]. split. by exists g. Qed.

Lemma calm_same_side mine theirs c c' :
  calm c c' -> scheduler_ c' = scheduler_ c -> side_inv mine theirs c -> side_inv mine theirs c'.
Proof.
  intros Hq Hs [Hf [(g & Hg & Hinv & Hlen & Hready)]].
  assert (local_sequence_ c' = local_sequence_ c) as Hls
    by (destruct Hq as [E _]; unfold core in E; congruence).
  apply (calm_side _ _ c c' g); [done | done | by rewrite Hs | by rewrite Hls | |];
    destruct Hq as [_ [[Hfr Hrun] | [Hfr Hrun]]]; rewrite ?Hfr, ?Hrun; done.
Qed.

Lemma mark_frozen_quiet why c : quiet c (mark_frozen why c) /\ scheduler_ (mark_frozen why c) = scheduler_ c /\
  game_frozen_ (mark_frozen why c) = true.
Proof.
  unfold mark_frozen. cbv zeta. destruct (_ || _); (split_and!; [split; [split; [done | by left] | done] | done | done]).
Qed.

Lemma mark_frozen_side mine theirs why c : side_inv mine theirs c -> side_inv mine theirs (mark_frozen why c).
Proof.
  intros H. destruct (mark_frozen_quiet why c) as ([Hq _] & Hs & _). by apply (calm_same_side _ _ c).
Qed.

(** *** Stepping *)

Lemma step_loop_side fuel mine theirs c :
  side_inv mine theirs c -> game_frozen_ c = false ->
  let c' := (step_loop fuel c).2 in side_inv mine theirs c' /\ quiet c c'.
Proof.
  cbv zeta. revert c. induction fuel as [|fuel IH]; intros c Hside Hfr; cbn [step_loop];
    [split; [done | apply quiet_refl] |].
  pose proof Hside as [Hf [(g & Hg & Hinv & Hlen & Hready)]]. rewrite Hg.
  destruct (bool_decide (state_ g = Running)) eqn:Hrun; cbn [negb]; [| split; [done | apply quiet_refl]].
  destruct (frame_all_real (window_ g) (next_frame_ g)) eqn:Hreal; cbn [negb];
    [| split; [done | apply quiet_refl]].
  pose proof (step_game seat Hseat mine theirs _ g Hinv (Hlen Hfr) Hreal) as Hstep.
  destruct (step_next_frame g) as [r g'] eqn:Estep. destruct Hstep as [Hinv' Hlen'].
  apply bool_decide_eq_true in Hrun.
  assert (running_ c = true) as Hrunning.
  { destruct (running_ c) eqn:E; [done |]. destruct (Hready Hfr eq_refl) as [E' _]. congruence. }
  cbv zeta. destruct (decide (r <> V2_OK)) as [Hr|Hr]; cbn [snd].
  - set (c1 := c <| scheduler_ := Some g' |>). destruct (mark_frozen_quiet (freeze_reason_ g') c1) as (Hq & Hs & Hfz).
    assert (quiet c c1) as Hq1 by (split; [split; [done | by right] | done]).
    assert (local_sequence_ (mark_frozen (freeze_reason_ g') c1) = local_sequence_ c) as Hls
      by (unfold mark_frozen; cbv zeta; by destruct (_ || _)).
    split; [| by eapply quiet_trans].
    apply (calm_side _ _ c _ g'); [by eapply calm_trans; [apply Hq1 | apply Hq] | done | by rewrite Hs | by rewrite Hls |
      by rewrite Hfz | by rewrite Hfz].
  - assert (r = V2_OK) as -> by (by destruct (decide (r = V2_OK))).
    set (c1 := c <| scheduler_ := Some g' |> <| game_digest_ := last_digest_ g' |> <| view_dirty_ := true |>).
    assert (quiet c c1) as Hq1 by (split; [split; [done | by right] | done]).
    assert (side_inv mine theirs c1) as Hside1.
    { apply (calm_side _ _ c _ g'); try done.
      - apply Hq1.
      - intros _. by apply Hlen'.
      - intros _ E. change (running_ c = false) in E. congruence. }
    destruct (IH c1 Hside1 Hfr) as [H1 H2]. split; [exact H1 |].
    exact (quiet_trans _ _ _ Hq1 H2).
Qed.

Lemma try_step_side mine theirs c :
  side_inv mine theirs c -> let c' := (try_step c).2 in side_inv mine theirs c' /\ quiet c c'.
Proof.
  cbv zeta. intros Hside. unfold try_step.
  destruct (_ || _ || _) eqn:E; [split; [done | apply quiet_refl] |]. bool_hyps.
  pose proof (step_loop_side step_fuel mine theirs c Hside) as Hloop. cbv zeta in Hloop.
  destruct (step_loop step_fuel c) as [r c']. cbn [snd] in Hloop. destruct Hloop as [Hs Hq]; [done |].
  destruct (decide (r <> V2_OK)); [done |]. destruct (scheduler_ c') as [g|]; [| done]. cbn [snd].
  destruct (decide (state_ g = SimFrozen)); [| done]. split; [by apply mark_frozen_side |].
  eapply quiet_trans; [exact Hq | apply mark_frozen_quiet].
Qed.

(** *** Receiving *)

(** An input of seat [s] that it has accepted. *)
Definition sent_ok (s : Z) (inputs : Inputs) (m : DualInputBundleV1 * Z) : Prop :=
  message_ok K s (owner_of s) m.1 m.2 /\ (frame_index (key m.1), port_of m.1 s) ∈ inputs.

Definition stream_bytes (msgs : list (DualInputBundleV1 * Z)) : bytes :=
  mjoin ((fun m => message_bytes m.1 m.2) <$> msgs).

(** What the peer still has to read is a sequence of messages: a first one that only
    says the sender is ready, then inputs.  [opened] and [halted] say whether the
    sender has opened its stream and whether it is frozen; what a frozen reader gets
    no longer matters. *)
Definition inbound theirs (opened halted : bool) c (rest : bytes) : Prop :=
  game_frozen_ c = true \/
  exists msgs, read_accumulator_ c ++ rest = stream_bytes msgs /\
    Forall (fun m => message_ok K (1 - seat) (owner_of (1 - seat)) m.1 m.2) msgs /\
    if running_ c then opened = true /\ Forall (sent_ok (1 - seat) theirs) msgs
    else (msgs = [] /\ (opened = false \/ halted = true)) \/
         (opened = true /\ exists m ms, msgs = m :: ms /\ Forall (sent_ok (1 - seat) theirs) ms).

(** What the other end sees of this one is unchanged, or it froze. *)
Definition outward c c' : Prop :=
  write_queue_ c' = write_queue_ c /\ stream_open_ c' = stream_open_ c /\
  (game_frozen_ c = true -> game_frozen_ c' = true).

Lemma outward_refl c : outward c c.
Proof. done. Qed.

Lemma outward_trans c c' c'' : outward c c' -> outward c' c'' -> outward c c''.
Proof. intros (E1 & E2 & H) (E3 & E4 & H'). split_and!; [congruence | congruence | auto]. Qed.

Lemma quiet_outward c c' : quiet c c' -> outward c c'.
Proof.
  intros ([Hc Hf] & Hw & _). unfold core in Hc. split_and!; [done | congruence |].
  intros E. destruct Hf as [[? _] | [-> _]]; done.
Qed.

Lemma quiet_inbound theirs o h c c' rest : quiet c c' -> inbound theirs o h c rest -> inbound theirs o h c' rest.
Proof.
  intros ([_ Hf] & _ & Ha) [Hz | Hin].
  - left. destruct Hf as [[? _] | [-> _]]; done.
  - destruct Hf as [[? _] | [Hz Hr]]; [by left |]. right. by rewrite Ha, Hr.
Qed.

Lemma enter_running mine theirs c :
  side_inv mine theirs c -> game_frozen_ c = false -> running_ c = false -> stream_open_ c = true ->
  let c' := maybe_enter_running (c <| peer_runtime_ready_ := true |>) in
  side_inv mine theirs c' /\ running_ c' = true /\ game_frozen_ c' = false /\
  write_queue_ c' = write_queue_ c /\ read_accumulator_ c' = read_accumulator_ c /\ stream_open_ c' = stream_open_ c.
Proof.
  intros [Hf [(g & Hg & Hinv & Hlen & Hready)]] Hz Hr Ho. pose proof Hf as [].
  unfold maybe_enter_running.
  cbn [game_frozen_ game_paused_ running_ local_runtime_ready_ peer_runtime_ready_ scheduler_ over].
  assert (game_paused_ c = false) as Hp.
  { destruct (game_paused_ c) eqn:E; [| done]. destruct (fi_paused0 eq_refl); congruence. }
  rewrite Hz, Hp, Hr, fi_ready0, Hg. cbn [orb negb].
  destruct (Hready Hz Hr) as [Hst Hsh]. unfold announce_running. rewrite Hst, Hsh. cbv zeta.
  destruct (decide (V2_OK <> V2_OK)); [done |]. split_and!; try done.
  split.
  - split; try done; [intros E; change (game_frozen_ c = true) in E; congruence | by left].
  - split. exists (g <| state_ := Running |>). split_and!; try done. by apply (game_inv_same _ _ _ _ g).
Qed.

Lemma handle_bundle_side mine theirs o h c b batch ms rest :
  side_inv mine theirs c -> game_frozen_ c = false -> stream_open_ c = true -> o = true ->
  message_ok K (1 - seat) (owner_of (1 - seat)) b batch ->
  (running_ c = true -> (frame_index (key b), port_of b (1 - seat)) ∈ theirs) ->
  read_accumulator_ c ++ rest = stream_bytes ms -> Forall (sent_ok (1 - seat) theirs) ms ->
  match handle_bundle b c with
  | inl (_, c') | inr c' => side_inv mine theirs c' /\ inbound theirs o h c' rest /\ outward c c'
  end.
Proof.
  intros Hside Hz Ho -> Hb Hin Hacc Hms.
  assert (Forall (fun m => message_ok K (1 - seat) (owner_of (1 - seat)) m.1 m.2) ms) as Hmsgs
    by (eapply Forall_impl; [exact Hms | by intros m []]).
  unfold handle_bundle. destruct (running_ c) eqn:Hr; cbn [negb].
  - pose proof Hside as [Hf [(g & Hg & Hinv & Hlen & Hready)]]. rewrite Hg.
    assert (inbound theirs true h c rest) as Hinb by (right; exists ms; by rewrite Hr).
    pose proof (remote_game seat Hseat mine theirs _ g b batch Hinv Hb) as Hremote.
    specialize (Hremote (proj2 (proj2 (game_key Hgame))) (Hin eq_refl)).
    destruct (accept_remote_input b g) as [[accepted admission] g']. destruct Hremote as (Hinv' & Hp & Hn).
    set (c1 := c <| scheduler_ := Some g' |>).
    assert (quiet c c1) as Hq1 by (split; [split; [done | by right] | done]).
    assert (side_inv mine theirs c1) as Hside1.
    { apply (calm_side _ _ c _ g'); [apply Hq1 | done | done | done | |].
      - intros _. rewrite Hp, Hn. by apply Hlen.
      - intros _ E. change (running_ c = false) in E. congruence. }
    destruct (_ && _).
    { split_and!; [done | by apply (quiet_inbound _ _ _ c) | by apply quiet_outward]. }
    destruct (try_step_side mine theirs c1 Hside1) as [Hside2 Hq2].
    destruct (try_step c1) as [stepped c2]. cbn [snd] in *.
    assert (quiet c c2) as Hq by exact (quiet_trans _ _ _ Hq1 Hq2).
    destruct (decide _); split_and!; try done; try (by apply (quiet_inbound _ _ _ c)); by apply quiet_outward.
  - pose proof Hside as [Hf _]. rewrite (fi_ready _ Hf), Hz. cbn [negb orb].
    destruct (enter_running mine theirs c Hside Hz Hr Ho) as (Hs' & Hr' & Hz' & Hw' & Ha' & Ho').
    split_and!; [done | | split_and!; [done | done | by rewrite Hz]].
    right. exists ms. by rewrite Ha', Hr'.
Qed.

(** Taking bytes off the accumulator, and noting activity. *)
Lemma erased_side mine theirs c acc w :
  side_inv mine theirs c ->
  side_inv mine theirs (c <| read_accumulator_ := acc |>) /\
  side_inv mine theirs (c <| watchdog_ := w |> <| read_accumulator_ := acc |>).
Proof. intros H. split; apply (calm_same_side _ _ c); done || (split; [done | by right]). Qed.

Lemma ingest_one_frozen mine theirs c :
  side_inv mine theirs c -> game_frozen_ c = true ->
  match ingest_one c with
  | inl (_, c') | inr c' => side_inv mine theirs c' /\ game_frozen_ c' = true /\ outward c c'
  end.
Proof.
  intros Hside Hz. unfold ingest_one. cbv zeta. pose proof Hside as [Hf _]. pose proof (fi_frozen _ Hf Hz) as Hr.
  destruct (next_app_frame _ _ _) as [[[status [cursor|]] [frame|]] [has|]]; try done.
  do 3 (destruct (_ || _) || destruct (negb _); [done |]).
  destruct (decode_dual_input_bundle_v1 _ _ _ _ _) as [[] [b|]]; try done.
  set (acc := drop _ _). destruct (erased_side mine theirs c acc
    (Watchdog.on_verified_peer_activity (last_clock_ns_ c) (watchdog_ c)) Hside) as [H1 H2].
  destruct (negb (same_game (key b) c)); [done |].
  unfold handle_bundle. cbn [running_ game_frozen_ local_runtime_ready_ over].
  rewrite Hr, (fi_ready _ Hf), Hz. done.
Qed.

Lemma peer_owner c : flags_inv c ->
  peer_seat c = 1 - seat /\ signing_key_id (aget owner0 (game_owners_ c) (1 - seat)) = owner_of (1 - seat).
Proof.
  intros Hf. unfold peer_seat. rewrite (fi_seat _ Hf), (fi_owners _ Hf). by destruct Hseat as [-> | ->].
Qed.

(** One pass takes exactly the first message, if it is there whole. *)
Lemma ingest_one_side mine theirs o h c rest :
  side_inv mine theirs c -> stream_open_ c = true -> inbound theirs o h c rest ->
  match ingest_one c with
  | inl (_, c') | inr c' => side_inv mine theirs c' /\ inbound theirs o h c' rest /\ outward c c'
  end.
Proof.
  intros Hside Ho Hin. destruct (game_frozen_ c) eqn:Hz.
  { pose proof (ingest_one_frozen mine theirs c Hside Hz) as H.
    destruct (ingest_one c) as [[? c']|c']; destruct H as (? & ? & ?); split_and!; try done; by left. }
  destruct Hin as [Hz'|(msgs & Hacc & Hmsgs & Hphase)]; [congruence |].
  assert (match msgs with [] => True | m :: ms => o = true /\
    (running_ c = true -> (frame_index (key m.1), port_of m.1 (1 - seat)) ∈ theirs) /\
    Forall (sent_ok (1 - seat) theirs) ms end) as Htail.
  { destruct msgs as [|m ms]; [done |]. destruct (running_ c).
    - destruct Hphase as [-> Hs]. apply Forall_cons in Hs as [[_ ?] ?]. done.
    - destruct Hphase as [[? _]|(-> & m' & ms' & [= <- <-] & ?)]; done. }
  assert (inbound theirs o h c rest) as Hin by (right; by exists msgs). clear Hphase.
  destruct (peer_owner c (proj1 Hside)) as [Hseat' Howner].
  unfold ingest_one. cbv zeta. destruct (Z.ltb_spec (zlen (read_accumulator_ c)) 160) as [Hshort|Hlong].
  - destruct msgs as [|[b batch] ms].
    + apply app_nil in Hacc as [-> ->]. cbn. done.
    + apply Forall_cons in Hmsgs as [Hb _]. cbn [fst snd] in Hb.
      unfold stream_bytes in Hacc. cbn [fmap list_fmap mjoin list_join fst snd] in Hacc.
      destruct (next_part _ _ _ _ _ Hb (read_accumulator_ c) rest _ Hacc Hshort) as (cursor & frame & [-> | ->]); done.
  - destruct msgs as [|[b batch] ms].
    { apply app_nil in Hacc as [E _]. rewrite E in Hlong. by cbv in Hlong. }
    apply Forall_cons in Hmsgs as [Hb Hms]. cbn [fst snd] in *. destruct Htail as (-> & Hfirst & Hrest).
    unfold stream_bytes in Hacc. cbn [fmap list_fmap mjoin list_join fst snd] in Hacc.
    pose proof (zlen_message b batch (message_wf _ _ _ _ _ Hb)) as Hl.
    assert (exists tail, read_accumulator_ c = message_bytes b batch ++ tail /\ tail ++ rest = stream_bytes ms)
      as (tail & Etail & Hacc').
    { exists (drop 160 (read_accumulator_ c)).
      assert (take 160 (read_accumulator_ c) = message_bytes b batch) as Htake.
      { apply (f_equal (take 160)) in Hacc. unfold zlen in *.
        rewrite take_app_le in Hacc by lia. rewrite Hacc, take_app_length' by lia. done. }
      rewrite <- Htake at 1. split; [by rewrite take_drop |].
      apply (f_equal (drop 160)) in Hacc. unfold zlen in *.
      rewrite drop_app_le in Hacc by lia. rewrite Hacc. by rewrite drop_app_length' by lia. }
    destruct (next_message _ _ _ b batch Hb tail) as (cursor & frame & Hnext & Hoff & Htag & Hobj & Hsize).
    rewrite Etail, Hnext, Htag, Hobj, Hsize, Hoff.
    rewrite Hseat', Howner, (decode_message _ _ _ b batch Hb).
    assert (drop (Z.to_nat 160) (message_bytes b batch ++ tail) = tail) as -> by
      (rewrite drop_app_length' by (unfold zlen in Hl; lia); done).
    destruct (erased_side mine theirs c tail
      (Watchdog.on_verified_peer_activity (last_clock_ns_ c) (watchdog_ c)) Hside) as [H1 H2].
    assert (same_game (key b) c = true) as ->.
    { unfold same_game. rewrite (fi_context _ (proj1 Hside)).
      destruct Hb as [_ _ [-> _] [-> _] -> -> _ _ _ _]. by rewrite !bool_decide_true, !Z.eqb_refl. }
    pose proof (handle_bundle_side mine theirs true h
      (c <| watchdog_ := Watchdog.on_verified_peer_activity (last_clock_ns_ c) (watchdog_ c) |>
         <| read_accumulator_ := tail |>) b batch ms rest H2 Hz Ho eq_refl Hb Hfirst Hacc' Hrest) as Hdone.
    cbn [bool_decide negb andb orb]. change (bool_decide (SessionCodec.Ok = Truncated)) with false.
    change (bool_decide (SessionCodec.Ok = SessionCodec.Ok)) with true. change (kCanonicalInputTag =? kCanonicalInputTag) with true.
    cbn [negb andb orb]. destruct (handle_bundle b _) as [[res c']|c']; exact Hdone.
Qed.

Lemma ingest_loop_side mine theirs o h c rest fuel :
  side_inv mine theirs c -> stream_open_ c = true -> inbound theirs o h c rest ->
  let c' := (ingest_loop fuel c).2 in
  side_inv mine theirs c' /\ inbound theirs o h c' rest /\ outward c c'.
Proof.
  cbv zeta. revert c. induction fuel as [|fuel IH]; intros c Hside Ho Hin; [done |]. cbn [ingest_loop].
  pose proof (ingest_one_side mine theirs o h c rest Hside Ho Hin) as H.
  destruct (ingest_one c) as [[res c']|c']; [done |]. destruct H as (H1 & H2 & H3).
  destruct (IH c' H1) as (H4 & H5 & H6); [by destruct H3 as (_ & -> & _) | done |].
  split_and!; [done | done |]. exact (outward_trans _ _ _ H3 H6).
Qed.

(** A read: bytes move from the channel to the accumulator, and messages are handled. *)
Lemma ingest_bytes_side mine theirs o h c received rest :
  side_inv mine theirs c -> stream_open_ c = true -> inbound theirs o h c (received ++ rest) ->
  let c' := (ingest_remote_bytes received c).2 in
  side_inv mine theirs c' /\ inbound theirs o h c' rest /\ outward c c'.
Proof.
  cbv zeta. intros Hside Ho Hin. unfold ingest_remote_bytes. cbv zeta.
  set (c1 := c <| read_accumulator_ := read_accumulator_ c ++ received |>).
  assert (side_inv mine theirs c1) as Hside1
    by (apply (erased_side mine theirs c (read_accumulator_ c ++ received) (watchdog_ c) Hside)).
  assert (inbound theirs o h c1 rest) as Hin1.
  { destruct Hin as [|(msgs & Hacc & Hrest)]; [by left | right]. exists msgs.
    cbn [c1 read_accumulator_ over]. unfold c1. cbn. rewrite <- app_assoc. done. }
  destruct (_ <? _); [done |].
  by apply (ingest_loop_side mine theirs o h c1 rest).
Qed.

(** *** Sending *)

(** The flags at most froze, and the accumulator is as it was. *)
Definition steady c c' : Prop :=
  stream_open_ c' = stream_open_ c /\ read_accumulator_ c' = read_accumulator_ c /\
  ((game_frozen_ c' = true /\ running_ c' = false) \/
   (game_frozen_ c' = game_frozen_ c /\ running_ c' = running_ c)).

Lemma quiet_steady c c' : quiet c c' -> steady c c'.
Proof. intros ([Hc Hf] & _ & Ha). unfold core in Hc. split_and!; [congruence | done | done]. Qed.

Lemma steady_trans c c' c'' : steady c c' -> steady c' c'' -> steady c c''.
Proof. intros (E1 & E2 & H) (E3 & E4 & H'). split_and!; [congruence | congruence | intuition congruence]. Qed.

Lemma steady_inbound theirs o h c c' rest : steady c c' -> inbound theirs o h c rest -> inbound theirs o h c' rest.
Proof.
  intros (_ & Ha & Hf) [Hz | Hin].
  - left. destruct Hf as [[? _] | [-> _]]; done.
  - destruct Hf as [[? _] | [Hz Hr]]; [by left |]. right. by rewrite Ha, Hr.
Qed.

(** What a call that may send does: the inputs this end has accepted by then, and
    what it added to the queue. *)
Definition sends mine theirs c c' : Prop :=
  exists mine' new, mine ⊆ mine' /\ side_inv mine' theirs c' /\ steady c c' /\
    write_queue_ c' = write_queue_ c ++ new /\
    (new = [] \/ (stream_open_ c = true /\ game_frozen_ c = false /\
       exists m, sent_ok seat mine' m /\ new = [message_bytes m.1 m.2])).

Lemma quiet_sends mine theirs c c' : quiet c c' -> side_inv mine theirs c' -> sends mine theirs c c'.
Proof.
  intros Hq Hs. exists mine, []. split_and!; try done; [by apply quiet_steady | | by left].
  rewrite app_nil_r. apply Hq.
Qed.

Lemma seat_owner : length (owner_of seat) = 32%nat /\ all_zero (owner_of seat) = false.
Proof using Hgame Hseat. destruct Hgame as [_ _ ? ?]. by destruct Hseat as [-> | ->]. Qed.

Lemma local_samples_ok c mask :
  1 <= local_sequence_ c -> local_sequence_ c <= u64_max - 4 ->
  length (local_samples mask c) = 4%nat /\
  Forall (fun s => 0 <= sequence s < 2 ^ 64) (local_samples mask c).
Proof.
  unfold u64_max. intros H1 H2. split; [done |]. unfold local_samples. change all_ports with [0; 1; 2; 3].
  cbn [fmap list_fmap]. repeat constructor; cbn [sequence]; lia.
Qed.

(** The bundle of the next frame is queued exactly when the scheduler accepts it. *)
Lemma queue_local_sends mine theirs c mask :
  side_inv mine theirs c -> running_ c = true -> game_frozen_ c = false -> local_sequence_ c <= u64_max - 4 ->
  sends mine theirs c
    (queue_local_bundle (local_samples mask c) (c <| local_sequence_ := local_sequence_ c + kDualPortCountV1 |>)).2.
Proof using Hgame Hseat.
  intros Hside Hr Hz Hbase. pose proof Hside as [Hf [(g & Hg & Hinv & Hlen & Hready)]]. pose proof Hf as [].
  destruct (local_samples_ok c mask) as [Hsl Hss]; [lia | done |].
  set (samples := local_samples mask c) in *. clearbody samples.
  set (c1 := c <| local_sequence_ := local_sequence_ c + kDualPortCountV1 |>).
  assert (forall mine' g' batch queue, mine ⊆ mine' -> game_inv seat mine' theirs (local_sequence_ c + 4) g' ->
    (port_ g').2 = (port_ g).2 -> next_frame_ g' = next_frame_ g -> 1 <= batch < 2 ^ 64 ->
    side_inv mine' theirs (c1 <| scheduler_ := Some g' |> <| batch_sequence_ := batch |> <| write_queue_ := queue |>))
    as Hkeep.
  { intros mine' g' batch queue Hm Hg' Hp Hn Hb. split.
    - split; try done. unfold c1. cbn. unfold u64_max, kDualPortCountV1 in *. lia.
    - split. exists g'. split_and!; [done | done | |].
      + intros _. rewrite Hp, Hn. by apply Hlen.
      + intros _ E. change (running_ c = false) in E. congruence. }
  assert (game_inv seat mine theirs (local_sequence_ c + 4) g) as Hinv4.
  { destruct Hinv as [H1 H2 H3 H4 H5]. split; try done; [lia |]. intros x Hx. apply H5 in Hx. lia. }
  assert (forall g' , game_inv seat mine theirs (local_sequence_ c + 4) g' ->
    (port_ g').2 = (port_ g).2 -> next_frame_ g' = next_frame_ g ->
    sends mine theirs c (c1 <| scheduler_ := Some g' |>)) as Hnone.
  { intros g' Hg' Hp Hn. exists mine, []. split_and!; try done; [| | | by left].
    - exact (Hkeep mine g' (batch_sequence_ c) (write_queue_ c) ltac:(done) Hg' Hp Hn ltac:(done)).
    - split_and!; try done. by right.
    - by rewrite app_nil_r. }
  assert (sends mine theirs c c1) as Hsame.
  { pose proof (Hnone g Hinv4 eq_refl eq_refl) as H. replace (c1 <| scheduler_ := Some g |>) with c1 in H; [done |].
    unfold c1. destruct c. cbn in *. by subst. }
  assert (local_owner c1 = owner_of seat) as Howner.
  { unfold local_owner. change (game_owners_ c1) with (game_owners_ c). change (local_seat_ c1) with (local_seat_ c).
    rewrite fi_owners0, fi_seat0. by destruct Hseat as [-> | ->]. }
  unfold queue_local_bundle. cbv zeta. rewrite Howner.
  change (scheduler_ c1) with (scheduler_ c). change (game_context_ c1) with (game_context_ c).
  change (local_seat_ c1) with (local_seat_ c). rewrite Hg, fi_context0, fi_seat0.
  destruct (canonical_input_build_v1 _ seat (owner_of seat) samples (Some bundle0)) as [[] [b|]] eqn:Hbuild; try done.
  pose proof Hinv as [Hw Hn Hran Hq Ht]. destruct (game_key Hgame) as (Hwk & Hvalid & Hrev).
  destruct seat_owner as [Hol Hoz].
  assert (0 <= next_frame_ g < 2 ^ 64) as Hframe.
  { rewrite Hn. destruct Hw as [(_ & _ & _ & _ & _ & _ & _ & ? & _) _ _ _ _ _ _]. unfold u64_max in *. lia. }
  assert (0 <= seat) as Hs0 by (destruct Hseat; lia).
  destruct (build_message K seat (owner_of seat) samples (next_frame_ g) (batch_sequence_ c) b Hwk
    (proj1 (game_session Hgame)) (proj2 (game_session Hgame)) Hs0 Hol Hsl Hss Hframe ltac:(lia) Hbuild) as [Hmsg Hfr].
  pose proof (local_game seat Hseat mine theirs _ g samples b Hinv
    Hrev Hoz Hbuild (message_wf _ _ _ _ _ Hmsg)) as Hlocal.
  destruct (accept_local_input samples seat g) as [[accepted admission] g']. destruct Hlocal as (Hp & Hn' & Hnok & Hinv').
  destruct (decide (accepted = V2_ACCEPTED)) as [->|Hna].
  2:{ rewrite !bool_decide_false by done. cbn [negb andb snd]. by apply Hnone. }
  cbn [bool_decide negb andb]. change (negb (bool_decide (V2_ACCEPTED = V2_OK)) && negb (bool_decide (V2_ACCEPTED = V2_ACCEPTED))) with false. cbv iota.
  set (mine' := (next_frame_ g, port_of b seat) :: mine) in *.
  assert (mine ⊆ mine') as Hsub by (intros x Hx; by right).
  assert (forall batch, 1 <= batch < 2 ^ 64 ->
    sends mine theirs c (c1 <| scheduler_ := Some g' |> <| batch_sequence_ := batch |>)) as Hquiet.
  { intros batch Hb. exists mine', []. split_and!; [done | | | by rewrite app_nil_r | by left].
    - exact (Hkeep mine' g' batch (write_queue_ c) Hsub Hinv' Hp Hn' Hb).
    - split_and!; try done. by right. }
  assert (sends mine theirs c (c1 <| scheduler_ := Some g' |>)) as Hquiet0 by exact (Hquiet _ fi_batch0).
  destruct admission; try exact Hquiet0.
  all: unfold checked_dual_next_sequence_v1; change (batch_sequence_ (c1 <| scheduler_ := Some g' |>)) with (batch_sequence_ c).
  all: destruct ((batch_sequence_ c =? 0) || (batch_sequence_ c =? u64_max)) eqn:Hbatch; [exact Hquiet0 |].
  all: assert (1 <= batch_sequence_ c + 1 < 2 ^ 64) as Hb1 by (bool_hyps; unfold u64_max in *; lia).
  all: rewrite (frame_message _ _ _ b (batch_sequence_ c) Hmsg); cbn [snd].
  all: exists mine', [message_bytes b (batch_sequence_ c)]; split_and!; [done | | | done | right].
  all: try exact (Hkeep mine' g' (batch_sequence_ c + 1) (write_queue_ c ++ [message_bytes b (batch_sequence_ c)])
    Hsub Hinv' Hp Hn' Hb1).
  all: try (split_and!; [done | done | by right]).
  all: split_and!; [auto | done |]; exists (b, batch_sequence_ c); split; [| done]; split; [exact Hmsg |];
    cbn [fst]; rewrite Hfr; by left.
Qed.

Lemma try_step_sends mine theirs c c1 :
  sends mine theirs c c1 -> sends mine theirs c (try_step c1).2.
Proof.
  intros (mine' & new & Hm & Hside & Hst & Hq & Hnew).
  destruct (try_step_side mine' theirs c1 Hside) as [Hside' Hq'].
  exists mine', new. split_and!; try done; [exact (steady_trans _ _ _ Hst (quiet_steady _ _ Hq')) |].
  destruct Hq' as (_ & -> & _). done.
Qed.

Lemma submit_sends mine theirs c input :
  side_inv mine theirs c -> sends mine theirs c (submit_local input c).2.
Proof using Hgame Hseat.
  intros Hside. unfold submit_local. cbv zeta.
  assert (sends mine theirs c c) as Hnone by (by apply quiet_sends; [apply quiet_refl |]).
  destruct (_ || _ || _ || _) eqn:E; [done |]. destruct (negb (expected_seat_revision input =? _)); [done |].
  destruct ((local_sequence_ c =? 0) || (u64_max - 4 <? local_sequence_ c)) eqn:Hb; [done |]. bool_hyps.
  pose proof (queue_local_sends mine theirs c (submitted_mask input c) Hside) as Hqueue.
  destruct (queue_local_bundle _ _) as [queued c1]. cbn [snd] in Hqueue.
  assert (sends mine theirs c c1) as Hs by (apply Hqueue; [by destruct (running_ c) | done | lia]).
  destruct (decide _); [done |]. by apply try_step_sends.
Qed.

(** The stream opens: the beacon is the first message. *)
Lemma beacon_sends mine theirs c :
  side_inv mine theirs c -> game_frozen_ c = false ->
  let c' := (queue_runtime_ready_beacon c).2 in
  side_inv mine theirs c' /\ steady c c' /\
  exists m, message_ok K seat (owner_of seat) m.1 m.2 /\
    write_queue_ c' = write_queue_ c ++ [message_bytes m.1 m.2].
Proof using Hgame Hseat.
  intros Hside Hz. cbv zeta. pose proof Hside as [Hf [(g & Hg & _)]]. pose proof Hf as [].
  assert (local_owner c = owner_of seat) as Howner.
  { unfold local_owner. rewrite fi_owners0, fi_seat0. by destruct Hseat as [-> | ->]. }
  unfold queue_runtime_ready_beacon. rewrite fi_ready0, Hz, Hg, Howner, fi_seat0, fi_context0.
  rewrite bool_decide_false by done. cbn [negb orb]. cbv zeta.
  destruct (game_key Hgame) as (Hwk & Hvalid & Hrev). destruct seat_owner as [Hol Hoz].
  destruct (beacon_builds (K <| frame_index := 0 |>) seat (owner_of seat)) as [b Hb];
    [destruct Hseat; lia | by destruct K | done |].
  assert (0 <= seat) as Hs0 by (destruct Hseat; lia).
  destruct (build_message K seat (owner_of seat) beacon_samples 0 1 b Hwk (proj1 (game_session Hgame))
    (proj2 (game_session Hgame)) Hs0 Hol) as [Hmsg _]; try done.
  { unfold beacon_samples. repeat constructor; by cbn. }
  rewrite Hb, (frame_message _ _ _ b 1 Hmsg). cbn [snd]. split_and!.
  - apply (calm_same_side _ _ c); [split; [done | by right] | done | done].
  - split_and!; try done. by right.
  - exists (b, 1). done.
Qed.

(** What a call at this end does to the channel it writes: nothing, a message of an
    accepted input, or the first message once the stream is open. *)
Definition emits mine me me' (outp outp' : bytes) : Prop :=
  (game_frozen_ me = true -> game_frozen_ me' = true) /\
  exists new, outp' ++ mjoin (write_queue_ me') = outp ++ mjoin (write_queue_ me) ++ stream_bytes new /\
    ((stream_open_ me' = stream_open_ me /\
        (new = [] \/ (stream_open_ me = true /\ game_frozen_ me = false /\ exists m, sent_ok seat mine m /\ new = [m]))) \/
     (stream_open_ me = false /\ stream_open_ me' = true /\
        ((new = [] /\ game_frozen_ me' = true) \/
         exists m, message_ok K seat (owner_of seat) m.1 m.2 /\ new = [m]))).

(** One call at this end. *)
Definition advances mine theirs (o h : bool) me (outp rest : bytes) (after : DualSessionController (R * list DualInputBundleV1) * bytes * bytes)
    (rest' : bytes) : Prop :=
  let '(me', _, outp') := after in
  exists mine', mine ⊆ mine' /\ side_inv mine' theirs me' /\ inbound theirs o h me' rest' /\
    emits mine' me me' outp outp'.

Lemma quiet_advances mine theirs o h me me' inp outp rest :
  quiet me me' -> side_inv mine theirs me' -> inbound theirs o h me rest ->
  advances mine theirs o h me outp rest (me', inp, outp) rest.
Proof.
  intros Hq Hs Hin. exists mine. split_and!; [done | done | by apply (quiet_inbound _ _ _ me) |].
  pose proof (quiet_outward _ _ Hq) as (Hw & Ho & Hf). split; [done |]. exists []. rewrite Hw, app_nil_r.
  split; [done |]. left. split; [done | by left].
Qed.

Lemma sends_advances mine theirs o h me me' inp outp rest :
  sends mine theirs me me' -> inbound theirs o h me rest ->
  advances mine theirs o h me outp rest (me', inp, outp) rest.
Proof.
  intros (mine' & new & Hm & Hs & Hst & Hq & Hnew) Hin. exists mine'.
  split_and!; [done | done | by apply (steady_inbound _ _ _ me) |].
  destruct Hst as (Ho & _ & Hf). split; [intros E; destruct Hf as [[? _] | [-> _]]; done |].
  destruct Hnew as [-> | (Hopen & Hz & m & Hok & ->)].
  - exists []. rewrite Hq, app_nil_r. unfold stream_bytes. cbn. rewrite !app_nil_r. split; [done |].
    left. split; [done | by left].
  - exists [m]. rewrite Hq. split; [| left; split; [done | right]; split_and!; [done | done | by exists m]].
    unfold stream_bytes. cbn. rewrite app_nil_r. by rewrite join_app.
Qed.

(** *** Every call *)

(** Calls that leave the scheduler, the queues and the flags alone. *)
Lemma same_sends mine theirs c c' :
  side_inv mine theirs c' -> steady c c' -> write_queue_ c' = write_queue_ c -> sends mine theirs c c'.
Proof.
  intros Hs Hst Hq. exists mine, []. split_and!; try done; [by rewrite app_nil_r | by left].
Qed.

Lemma pause_sends mine theirs c : side_inv mine theirs c -> sends mine theirs c (controller_pause c).2.
Proof.
  intros Hside. unfold controller_pause.
  assert (sends mine theirs c c) as Hnone by (by apply quiet_sends; [apply quiet_refl |]).
  destruct (running_ c) eqn:Hr; [| done]. destruct (game_frozen_ c) eqn:Hz; [done |]. cbn [negb orb].
  pose proof Hside as [Hf [(g & Hg & Hinv & Hlen & Hready)]]. rewrite Hg.
  assert (exists res g', DualScheduler.pause 1 g = (res, g') /\ window_ g' = window_ g /\
    next_frame_ g' = next_frame_ g /\ port_ g' = port_ g) as (res & g' & -> & Hw & Hn & Hp).
  { unfold DualScheduler.pause, observe_authenticated_activity. destruct (shutdown_ g); [by eexists _, _ |].
    destruct (decide _); [by eexists _, _ |]. eexists _, _. split; [done |]. by destruct (_ <? _). }
  assert (game_inv seat mine theirs (local_sequence_ c) g') as Hinv'
    by (apply (game_inv_same seat _ _ _ g); congruence).
  assert (forall c', core c' = core c \/ core c' = core (c <| game_paused_ := true |>) -> running_ c' = true ->
    game_frozen_ c' = false -> scheduler_ c' = Some g' -> side_inv mine theirs c') as Hkeep.
  { intros c' Hc Hr' Hz' Hs. destruct Hf. split.
    - unfold core in Hc. cbn in Hc.
      destruct Hc as [[= E1 E2 E3 E4 E5 E6 E9 E10 E11 E12] | [= E1 E2 E3 E4 E5 E6 E9 E10 E11 E12]];
      split; rewrite ?E1, ?E2, ?E3, ?E4, ?E5, ?E6, ?E9, ?E10, ?E11, ?E12, ?Hr', ?Hz'; try done; auto.
    - split. exists g'. rewrite Hz', Hr'. split_and!; [done | | rewrite Hp, Hn; by intros _; apply Hlen | done].
      replace (local_sequence_ c') with (local_sequence_ c); [done |].
      unfold core in Hc. cbn in Hc. destruct Hc; congruence. }
  cbv zeta. destruct (decide _); cbn [snd]; apply same_sends; try done;
    try (split_and!; [done | done | by right]); apply Hkeep; auto.
Qed.

Lemma disconnect_sends mine theirs c : side_inv mine theirs c -> sends mine theirs c (disconnect c).2.
Proof.
  intros Hside. unfold disconnect. cbv zeta. cbn [snd].
  pose proof Hside as [Hf [(g & Hg & Hinv & Hlen & Hready)]]. rewrite Hg.
  set (c1 := c <| scheduler_ := _ |>).
  destruct (mark_frozen_quiet TransportTerminal c1) as (Hq & Hs & Hz).
  assert (quiet c c1) as Hq1 by (split; [split; [done | by right] | done]).
  apply quiet_sends; [exact (quiet_trans _ _ _ Hq1 Hq) |].
  apply (calm_side _ _ c _ (mark_transport_terminal g).2); [exact (calm_trans _ _ _ (proj1 Hq1) (proj1 Hq)) | done |
    by rewrite Hs | | by rewrite Hz | by rewrite Hz].
  replace (local_sequence_ (mark_frozen TransportTerminal c1)) with (local_sequence_ c)
    by (unfold mark_frozen; cbv zeta; by destruct (_ || _)).
  unfold mark_transport_terminal. apply game_inv_freeze. by apply (game_inv_same _ _ _ _ g).
Qed.

Lemma clock_sends mine theirs c now : side_inv mine theirs c -> sends mine theirs c (controller_on_clock now c).
Proof.
  intros Hside. unfold controller_on_clock. cbv zeta.
  assert (forall c', scheduler_ c' = scheduler_ c -> quiet c c' -> sends mine theirs c c' /\ forall why, sends mine theirs c (mark_frozen why c')) as Hk.
  { intros c' Hs Hq. assert (side_inv mine theirs c') as Hside' by (apply (calm_same_side _ _ c); [apply Hq | done..]).
    split; [by apply quiet_sends |]. intros why. destruct (mark_frozen_quiet why c') as (Hq' & _ & _).
    apply quiet_sends; [exact (quiet_trans _ _ _ Hq Hq') | by apply mark_frozen_side]. }
  destruct (_ && _ && _ && _).
  { by apply Hk; [| split; [split; [done | by right] |]]. }
  destruct (Watchdog.on_clock _ _) as [state w].
  match goal with |- context [mark_frozen TransportTerminal ?x] => destruct (Hk x) as [H1 H2] end;
    [done | split; [split; [done | by right] | done] |].
  destruct (_ && _ && _); [apply H2 |]. destruct (decide _); [apply H2 | exact H1].
Qed.

(** The lobby's calls do not touch the game. *)
Definition game_fields c :=
  (scheduler_ c, core c, game_frozen_ c, running_ c, write_queue_ c, read_accumulator_ c).

Lemma choice_fields record size hash c : game_fields (parse_choice_record record size hash c).2 = game_fields c.
Proof. unfold parse_choice_record. cbv zeta. destruct record; [| done]. by repeat case_match. Qed.

Lemma revision_fields id c : game_fields (revision_for_bind id c).2 = game_fields c.
Proof.
  unfold revision_for_bind. destruct (bump_revision _ _) as [[count revisions]|]; [done |].
  by destruct (_ <? _).
Qed.

Lemma bind_fields choice c : game_fields (bind_pending_config choice c) = game_fields c.
Proof.
  unfold bind_pending_config. cbv zeta.
  match goal with |- context [if ?b then ?x else _] => set (c1 := x); destruct b; [done |] end.
  match goal with |- context [revision_for_bind ?i ?x] => pose proof (revision_fields i x) as H;
    destruct (revision_for_bind i x) as [revision c2] end.
  exact H.
Qed.

Lemma lobby_fields o c : game_fields (lobby_run o c) = game_fields c.
Proof.
  destruct o as [| | event | choice | | id revision | data size | choice]; cbn [lobby_run]; try done.
  - unfold on_content_choice. cbv zeta. destruct (read_parsed_buffer event) as [read record].
    destruct (decide _); [done |].
    set (c1 := c <| catalog_query_outstanding_ := false |>).
    pose proof (choice_fields (Some record) (zlen record) (event_hash event) c1) as H.
    destruct (parse_choice_record _ _ _ c1) as [accepted c2]. cbn [snd] in H.
    destruct (decide _); exact H.
  - unfold select_content. destruct choice as [id|]; [| done]. destruct (_ || _); [done |].
    destruct (list_find _ _) as [[n choice]|]; [| done]. destruct (_ =? _); [done | apply bind_fields].
  - unfold confirm_local_pending. by destruct (_ || _ || _).
  - unfold apply_peer_pending_confirm. destruct id; [| done]. by repeat case_match.
  - unfold ingest_verified_pending_confirm. destruct data; [| done]. destruct (check _ _ _ _) as [st h].
    destruct (decide _); [done |]. unfold apply_peer_pending_confirm. by repeat case_match.
Qed.

Lemma fields_quiet c c' : game_fields c' = game_fields c -> quiet c c' /\ scheduler_ c' = scheduler_ c.
Proof.
  intros E. split; [split; [split |] | exact (f_equal (fun x => x.1.1.1.1.1) E)].
  - exact (f_equal (fun x => x.1.1.1.1.2) E).
  - right. split; [exact (f_equal (fun x => x.1.1.1.2) E) | exact (f_equal (fun x => x.1.1.2) E)].
  - split; [exact (f_equal (fun x => x.1.2) E) | exact (f_equal (fun x => x.2) E)].
Qed.

Lemma fields_sends mine theirs c c' :
  game_fields c' = game_fields c -> side_inv mine theirs c -> sends mine theirs c c'.
Proof.
  intros He Hside. destruct (fields_quiet c c' He) as [Hq Hs]. apply quiet_sends; [done |].
  apply (calm_same_side _ _ c); [apply Hq | done..].
Qed.

(** Requests: what is polled, and what fails. *)
Lemma poll_sends mine theirs c : side_inv mine theirs c -> sends mine theirs c (poll_effect c).2.
Proof.
  intros Hside. unfold poll_effect.
  assert (sends mine theirs c c) as Hnone by (by apply quiet_sends; [apply quiet_refl |]).
  destruct (game_frozen_ c) eqn:Hz; [done |].
  destruct (_ && _ && _); [by apply fields_sends |].
  pose proof Hside as [Hf Hs]. pose proof Hf as [].
  destruct (want_stream_ c && _ && _ && _) eqn:E1.
  { bool_hyps. apply same_sends; [| split_and!; [done | done | by right] | done]. split; [| by destruct Hs; split].
    split; try done. intros Ho. cbn in Ho. congruence. }
  destruct (stream_open_ c && negb (write_outstanding_ c) && _); [by apply fields_sends |].
  destruct (stream_open_ c && _ && _ && _) eqn:E2; [| done].
  bool_hyps. apply same_sends; [| split_and!; [done | done | by right] | done]. split; [| by destruct Hs; split].
  by split.
Qed.

Lemma failed_sends mine theirs c kind result :
  side_inv mine theirs c -> result <> V2_OK ->
  sends mine theirs c (complete kind (completed result 0 0 None) c).2.
Proof.
  intros Hside Hr. pose proof Hside as [Hf Hs]. pose proof Hf as [].
  destruct kind; cbn [complete completed event_result]; cbv zeta;
    (destruct (decide (result <> V2_OK)); [| done]); cbn [snd].
  - by apply quiet_sends; [apply quiet_refl |].
  - apply same_sends; [| split_and!; [done | done | by right] | done]. split; [| by destruct Hs; split]. by split.
  - apply same_sends; [| split_and!; [done | done | by right] | done]. split; [| by destruct Hs; split]. by split.
  - by apply fields_sends.
Qed.

(** The provider's completions. *)
Lemma opened_advances mine theirs o h me inp outp rest send receive :
  side_inv mine theirs me -> inbound theirs o h me rest -> open_outstanding_ me = true ->
  advances mine theirs o h me outp rest
    ((complete OpenStream (completed V2_OK send receive None) me).2, inp, outp) rest.
Proof using Hgame Hseat.
  intros Hside Hin Hout. pose proof Hside as [Hf Hs]. pose proof Hf as [].
  assert (stream_open_ me = false) as Ho.
  { destruct (stream_open_ me); [| done]. by rewrite fi_open0 in Hout. }
  cbn [complete completed event_result event_resource event_value0]. cbv zeta.
  destruct (decide (V2_OK <> V2_OK)); [done |].
  destruct (_ || _).
  { apply sends_advances; [| done]. apply same_sends; [| split_and!; [done | done | by right] | done].
    split; [| by destruct Hs; split]. by split. }
  match goal with |- context [game_frozen_ ?x] => set (c1 := x) end.
  assert (side_inv mine theirs c1) as Hside1.
  { split; [| by destruct Hs; split]. by split. }
  assert (inbound theirs o h c1 rest) as Hin1 by exact Hin.
  rewrite (fi_ready _ (proj1 Hside1)). destruct (game_frozen_ c1) eqn:Hz; cbn [orb negb].
  - exists mine. split_and!; [done | done | done |]. split; [done |]. exists []. rewrite app_nil_r.
    split; [done |]. right. split_and!; [done | done | by left].
  - destruct (beacon_sends mine theirs c1 Hside1 Hz) as (Hside2 & Hst & m & Hm & Hq).
    exists mine. split_and!; [done | done | by apply (steady_inbound _ _ _ c1) |].
    split; [intros E; change (game_frozen_ c1 = true) in E; congruence |]. exists [m]. split.
    + rewrite Hq. unfold stream_bytes. change (write_queue_ c1) with (write_queue_ me). cbn.
      rewrite app_nil_r. by rewrite join_app.
    + right. destruct Hst as (Hopen & _). split_and!; [done | by rewrite Hopen |]. right. by exists m.
Qed.

Lemma written_advances mine theirs o h me inp outp rest :
  side_inv mine theirs me -> inbound theirs o h me rest ->
  advances mine theirs o h me outp rest
    ((complete Write (completed V2_OK 0 0 None) me).2, inp, outp ++ default [] (head (write_queue_ me))) rest.
Proof.
  intros Hside Hin. cbn [complete completed event_result]. cbv zeta. destruct (decide (V2_OK <> V2_OK)); [done |].
  exists mine. split_and!; [done | | done |].
  - apply (calm_same_side _ _ me); [split; [done | by right] | done | done].
  - split; [done |]. exists []. rewrite app_nil_r. split; [| left; split; [done | by left]].
    cbn [snd write_queue_ over]. unfold over. cbn. destruct (write_queue_ me) as [|q qs]; cbn; [by rewrite app_nil_r |].
    rewrite drop_0, <- app_assoc. done.
Qed.

Lemma received_advances mine theirs o h me inp outp queued count :
  side_inv mine theirs me -> inbound theirs o h me (inp ++ queued) -> read_outstanding_ me = true ->
  advances mine theirs o h me outp (inp ++ queued)
    ((complete GrantRead (completed V2_OK 0 0 (Some (take count inp))) me).2, drop count inp, outp)
    (drop count inp ++ queued).
Proof using Hgame Hseat.
  intros Hside Hin Hread. pose proof Hside as [Hf Hs]. pose proof Hf as [].
  cbn [complete completed event_result read_parsed_buffer event_buffer]. cbv zeta.
  destruct (decide (V2_OK <> V2_OK)); [done |].
  match goal with |- context [ingest_remote_bytes _ ?x] => set (c1 := x) end.
  assert (side_inv mine theirs c1) as Hside1.
  { split; [| by destruct Hs; split]. by split. }
  destruct (ingest_bytes_side mine theirs o h c1 (take count inp) (drop count inp ++ queued) Hside1)
    as (H1 & H2 & (Hw & Ho & Hz)).
  { by apply fi_read0. }
  { rewrite app_assoc, take_drop. exact Hin. }
  exists mine. split_and!; [done | done | done |]. split; [exact Hz |]. exists [].
  rewrite Hw, app_nil_r. split; [done |]. left. split; [exact Ho | by left].
Qed.

Lemma peer_run_advances mine theirs o h me inp outp queued op :
  side_inv mine theirs me -> inbound theirs o h me (inp ++ queued) ->
  let after := peer_run op me inp outp in
  advances mine theirs o h me outp (inp ++ queued) after (after.1.2 ++ queued).
Proof using Hgame Hseat.
  intros Hside Hin. cbv zeta.
  assert (advances mine theirs o h me outp (inp ++ queued) (me, inp, outp) (inp ++ queued)) as Hnone
    by (by apply quiet_advances; [apply quiet_refl | |]).
  destruct op as [input | | data size | | now | | lop | send receive | | count | kind result];
    cbn [peer_run outstanding fst snd]; try (apply sends_advances; [| done]).
  - by apply submit_sends.
  - by apply pause_sends.
  - unfold ingest_verified_suspend. assert (sends mine theirs me me) as Hs0 by (by apply quiet_sends; [apply quiet_refl |]).
    destruct data; [| done]. destruct (check _ _ _ _) as [st hash]. destruct (decide _); [done |].
    destruct (_ || _); [done |]. by apply pause_sends.
  - by apply disconnect_sends.
  - by apply clock_sends.
  - by apply poll_sends.
  - apply fields_sends; [apply lobby_fields | done].
  - destruct (open_outstanding_ me) eqn:E; cbn [fst snd]; [by apply opened_advances | done].
  - destruct (write_outstanding_ me); cbn [fst snd]; [by apply written_advances | done].
  - destruct (read_outstanding_ me) eqn:E; cbn [fst snd]; [by apply received_advances | done].
  - destruct (_ && _) eqn:E; cbn [fst snd]; [| done]. apply sends_advances; [| done].
    apply andb_true_iff in E as [_ E]. apply failed_sends; [done |].
    apply negb_true_iff, bool_decide_eq_false in E. done.
Qed.

End Control.

(** *** Both ends *)

Section Both.
Context {R : Type} {P : DualRuntimePort R}.
Context (Hgame : game_ok).
Implicit Types me other : DualSessionController (R * list DualInputBundleV1).

(** Each end's inputs are what it accepted, each channel carries the other's. *)
Definition pair_inv (seat : Z) me other (inp outp : bytes) : Prop :=
  exists mine theirs,
    side_inv seat mine theirs me /\ side_inv (1 - seat) theirs mine other /\
    inbound seat theirs (stream_open_ other) (game_frozen_ other) me (inp ++ mjoin (write_queue_ other)) /\
    inbound (1 - seat) mine (stream_open_ me) (game_frozen_ me) other (outp ++ mjoin (write_queue_ me)).

Lemma pair_swap seat me other inp outp :
  is_seat seat -> pair_inv seat me other inp outp -> pair_inv (1 - seat) other me outp inp.
Proof. intros [-> | ->] (mine & theirs & H1 & H2 & H3 & H4); by exists theirs, mine. Qed.

Lemma side_theirs seat mine theirs theirs' me :
  theirs ⊆ theirs' -> side_inv seat mine theirs me -> side_inv seat mine theirs' me.
Proof.
  intros Ht [Hf [(g & Hg & Hinv & Hrest)]]. split; [done |]. split. exists g. split_and!; try done; try apply Hrest.
  by apply (game_inv_theirs _ _ theirs).
Qed.

Lemma stream_bytes_app l k : stream_bytes (l ++ k) = stream_bytes l ++ stream_bytes k.
Proof. unfold stream_bytes. by rewrite fmap_app, join_app. Qed.

(** What one end emits keeps the other's inbound stream well formed. *)
Lemma emits_inbound seat mine mine' me me' other outp outp' :
  is_seat seat -> mine ⊆ mine' -> emits seat mine' me me' outp outp' ->
  inbound (1 - seat) mine (stream_open_ me) (game_frozen_ me) other (outp ++ mjoin (write_queue_ me)) ->
  inbound (1 - seat) mine' (stream_open_ me') (game_frozen_ me') other (outp' ++ mjoin (write_queue_ me')).
Proof.
  intros Hseat Hsub (Hz & new & Hbytes & Hnew) [|(msgs & Hacc & Hmsgs & Hphase)]; [by left | right].
  assert (1 - (1 - seat) = seat) as Es by lia. rewrite Es in *.
  assert (forall l, Forall (sent_ok seat mine) l -> Forall (sent_ok seat mine') l) as Hmono.
  { intros l Hl. eapply Forall_impl; [exact Hl |]. intros m [? Hin]. split; [done | by apply Hsub]. }
  exists (msgs ++ new). rewrite Hbytes, stream_bytes_app, <- Hacc, <- !app_assoc. split; [done |].
  assert (forall m, sent_ok seat mine' m -> message_ok K seat (owner_of seat) m.1 m.2) as Hsent by (by intros m []).
  destruct Hnew as [[-> [-> | (Ho & Hf & m & Hm & ->)]] | (Ho & -> & [[-> Hf] | (m & Hm & ->)])];
    rewrite ?app_nil_r; rewrite ?Ho in *; rewrite ?Hf in *.
  - split; [done |]. destruct (running_ other); [destruct Hphase as [-> ?]; auto |].
    destruct Hphase as [[-> Hph] | (-> & m & ms & -> & Hms)].
    + left. split; [done |]. destruct Hph; [by left | right; auto].
    + right. split; [done |]. exists m, ms. auto.
  - split; [apply Forall_app; split; [done | apply Forall_singleton; auto] |].
    destruct (running_ other).
    + split; [done |]. destruct Hphase as [_ Hs]. apply Forall_app. split; [auto | by apply Forall_singleton].
    + destruct Hphase as [[_ [|]] | (_ & m0 & ms & -> & Hms)]; try done. right. split; [done |].
      exists m0, (ms ++ [m]). split; [done |]. apply Forall_app. split; [auto | by apply Forall_singleton].
  - split; [done |]. destruct (running_ other); [by destruct Hphase |].
    destruct Hphase as [[-> _] | [? _]]; [| done]. left. split; [done | by right].
  - split; [apply Forall_app; split; [done | by apply Forall_singleton] |].
    destruct (running_ other); [by destruct Hphase |].
    destruct Hphase as [[-> _] | [? _]]; [| done]. right. split; [done |]. by exists m, [].
Qed.

Lemma pair_step seat me other inp outp op :
  is_seat seat -> pair_inv seat me other inp outp ->
  let '(me', inp', outp') := peer_run op me inp outp in pair_inv seat me' other inp' outp'.
Proof using Hgame.
  intros Hseat (mine & theirs & H1 & H2 & H3 & H4).
  pose proof (peer_run_advances Hgame seat Hseat mine theirs _ _ me inp outp _ op H1 H3) as H.
  destruct (peer_run op me inp outp) as [[me' inp'] outp']. destruct H as (mine' & Hsub & H1' & H3' & Hem).
  exists mine', theirs. split_and!; [done | by apply (side_theirs _ _ mine) | exact H3' |].
  by apply (emits_inbound seat mine mine' me me' other outp).
Qed.

(** The frames both ends have run are the same. *)
Lemma pair_agree me other inp outp n b b' :
  pair_inv 0 me other inp outp -> executed me !! n = Some b -> executed other !! n = Some b' ->
  b = b' /\ exists s0 s1, b = joint_bundle K k0 (Z.of_nat n) s0 s1.
Proof.
  intros (mine & theirs & [_ [(g & Hg & Hinv & _)]] & [_ [(g' & Hg' & Hinv' & _)]] & _).
  unfold executed. rewrite Hg, Hg'. intros Hb Hb'.
  destruct (gi_ran _ _ _ _ _ Hinv n b Hb) as (x0 & x1 & M0 & M1 & ->).
  destruct (gi_ran _ _ _ _ _ Hinv' n b' Hb') as (y0 & y1 & N0 & N1 & ->). cbn in M0, M1, N0, N1.
  pose proof (wi_mine _ _ _ _ (gi_window _ _ _ _ _ Hinv) _ _ _ M0 N0) as ->.
  pose proof (wi_mine _ _ _ _ (gi_window _ _ _ _ _ Hinv') _ _ _ N1 M1) as ->.
  split; [done |]. by eexists _, _.
Qed.

End Both.
End Game.

(** ** The start *)

Section Start.
Context {R : Type} {P : DualRuntimePort R}.

Abbreviation Inputs1 := (DualStartInputsV1 (R * list DualInputBundleV1)).

(** The key of a started game. *)
Definition game_key_of (i : Inputs1) : DualInputKeyV1 := mkKey (in_session i) (in_branch i) 1 0 1.

(** What the pairing gives the two ends: one session and branch, each other's keys,
    one role each, and a fresh worker.  The owner keys are hashes, none of them zero. *)
Record paired (l r : Inputs1) : Prop := {
  paired_session : in_session l = in_session r /\ length (in_session l) = 16%nat /\ is_bytes (in_session l);
  paired_branch : in_branch l = in_branch r /\ length (in_branch l) = 16%nat /\ is_bytes (in_branch l);
  paired_roles : in_role l = Initiator /\ in_role r = Responder;
  paired_keys : in_local_public l = in_peer_public r /\ in_peer_public l = in_local_public r;
  paired_owners : all_zero (owner_key (in_local_public l)) = false /\ all_zero (owner_key (in_peer_public l)) = false;
  paired_workers : (exists w, in_runtime l = Some (w, [])) /\ (exists w, in_runtime r = Some (w, []));
}.

Lemma two_owned k0 k1 : all_zero k0 = false -> all_zero k1 = false -> owned_ports (two_owners k0 k1) = 3.
Proof.
  intros H0 H1. unfold owned_ports. change all_ports with [0; 1; 2; 3]. cbn [fold_left].
  change (signing_key_id (aget owner0 (two_owners k0 k1) 0)) with k0.
  change (signing_key_id (aget owner0 (two_owners k0 k1) 1)) with k1.
  change (signing_key_id (aget owner0 (two_owners k0 k1) 2)) with zero_key.
  change (signing_key_id (aget owner0 (two_owners k0 k1) 3)) with zero_key.
  change (key_is_all_zero k0) with (all_zero k0). change (key_is_all_zero k1) with (all_zero k1).
  by rewrite H0, H1.
Qed.

(** A bound window: nothing recorded, nothing run. *)
Lemma bound_window K k0 k1 seat w :
  all_zero k0 = false -> all_zero k1 = false ->
  (begin_ K (two_owners k0 k1) w).1 = Ok ->
  window_inv K k0 k1 seat [] [] (begin_ K (two_owners k0 k1) w).2 /\
  step_frontier_ (begin_ K (two_owners k0 k1) w).2 = 0.
Proof.
  intros H0 H1 Hok. destruct (begin_wf K (two_owners k0 k1) w eq_refl Hok) as [Hwf Hcom]. revert Hok Hwf Hcom.
  unfold begin_. destruct (negb _); [done |]. destruct (seats_seen _ _) as [seen|]; [| done].
  destruct (negb _); [done |]. cbn [fst snd]. rewrite (two_owned _ _ H0 H1). intros _ Hwf Hcom.
  match goal with |- window_inv _ _ _ _ _ _ ?x /\ _ => set (w1 := x) in * end.
  assert (forall f, find_record w1 f = None) as Hnone.
  { intros f. destruct (find_record w1 f) as [r|] eqn:E; [| done].
    apply find_record_spec in E as (Hl & Hu & _); [| done]. apply lookup_replicate in Hl as [-> _]. done. }
  split; [| done]. split; try done.
  - split; [done |]. intros f r Hf. by rewrite Hnone in Hf.
  - intros f p s v (_ & r & Hr & _). by rewrite Hnone in Hr.
  - intros f s Hin. by apply not_elem_of_nil in Hin.
  - intros f s s' Hin. by apply not_elem_of_nil in Hin.
Qed.

(** The lobby leaves the game's fields as constructed. *)
Lemma lobby_game_fields ops : game_fields (lobby (R := R * list DualInputBundleV1) ops) = game_fields controller_new.
Proof.
  unfold lobby. generalize (controller_new (R := R * list DualInputBundleV1)) at 1 2 as c.
  induction ops as [|op ops IH]; intros c; [done |]. cbn [fold_left]. rewrite IH. apply lobby_fields.
Qed.

(** A successful binding of a new scheduler. *)
Lemma begin_game K k0 k1 seat content w (g : DualRunSchedulerV1 (R * list DualInputBundleV1)) :
  all_zero k0 = false -> all_zero k1 = false ->
  begin Dual content K (two_owners k0 k1) (scheduler_new (w, [])) = (V2_OK, g) ->
  game_inv K k0 k1 seat [] [] 1 g /\ state_ g = Ready /\ shutdown_ g = false /\ (port_ g).2 = [] /\ next_frame_ g = 0.
Proof.
  intros H0 H1. unfold begin. change (evaluate_dual_mode_v1 Dual) with V2_OK.
  destruct (decide (V2_OK <> V2_OK)); [done |]. destruct (negb _); [done |].
  cbn [load logged_port]. change (port_ (scheduler_new (w, []))) with (w, @nil DualInputBundleV1). cbn [fst snd].
  destruct (load content w) as [res w']. destruct (decide (res <> V2_OK)) as [Hn|_].
  { intros [= ->]. done. }
  pose proof (bound_window K k0 k1 seat window0 H0 H1) as Hbound.
  match goal with |- context [begin_ K (two_owners k0 k1) ?x] => change x with window0 end.
  destruct (begin_ K (two_owners k0 k1) window0) as [st win]. cbn [fst snd] in Hbound.
  destruct (decide (st <> Ok)) as [|Hst]; [done |].
  assert (st = Ok) as -> by (by destruct (decide (st = Ok))). destruct (Hbound eq_refl) as [Hwin Hfr].
  intros [= <-]. split_and!; try done. split; try done; try lia.
  intros x Hx. by apply not_elem_of_nil in Hx.
Qed.

(** A started game, before anything happened. *)
Definition started_idle (c : DualSessionController (R * list DualInputBundleV1)) : Prop :=
  stream_open_ c = false /\ game_frozen_ c = false /\ running_ c = false /\ write_queue_ c = [] /\
  read_accumulator_ c = [].

Lemma started_end (i : Inputs1) c k0 k1 w :
  game_fields c = game_fields controller_new -> in_runtime i = Some (w, []) -> (start_dual i c).1 = V2_OK ->
  start_owners i = two_owners k0 k1 -> all_zero k0 = false -> all_zero k1 = false ->
  let seat := if decide (in_role i = Initiator) then 0 else 1 in
  side_inv (game_key_of i) k0 k1 seat [] [] (start_dual i c).2 /\ started_idle (start_dual i c).2 /\
  dual_input_key_is_valid_v1 (game_key_of i) = true.
Proof.
  intros Hnew Hrt Hok Hown H0 H1. cbv zeta. revert Hok.
  assert (core c = core (controller_new (R := R * list DualInputBundleV1))) as Hcore
    by exact (f_equal (fun x => x.1.1.1.1.2) Hnew).
  assert (write_queue_ c = [] /\ read_accumulator_ c = []) as [Hwq Hacc]
    by (split; [exact (f_equal (fun x => x.1.2) Hnew) | exact (f_equal (fun x => x.2) Hnew)]).
  assert (open_outstanding_ c = false /\ read_outstanding_ c = false) as [Hopen Hread].
  { split; [exact (f_equal (fun x => x.2.1.1.2) Hcore) | exact (f_equal (fun x => x.2.1.2) Hcore)]. }
  unfold start_dual, read_start_ref. rewrite Hrt.
  destruct (_ || _); [done |]. destruct (_ || _); [done |]. destruct (in_connection i =? 0); [done |].
  destruct (_ || _); [done |]. cbv zeta.
  change (start_key i _) with (game_key_of i). destruct (dual_input_key_is_valid_v1 (game_key_of i)) eqn:Hk; [| done].
  cbn [negb]. rewrite Hown. destruct (begin Dual _ _ _ _) as [began g] eqn:Hbegin.
  destruct (decide (began <> V2_OK)) as [|Hb]; [done |].
  assert (began = V2_OK) as -> by (by destruct (decide (began = V2_OK))). intros _. cbn [snd].
  split; [| by split_and!].
  set (seat := if decide (in_role i = Initiator) then 0 else 1).
  destruct (begin_game (game_key_of i) k0 k1 seat _ w g H0 H1 Hbegin) as (Hg & Hst & Hsh & Hp & Hn).
  split.
  - split; try done. intros E. change (read_outstanding_ c = true) in E. congruence.
  - split. exists g. split_and!; try done. intros _. by rewrite Hp, Hn.
Qed.

Lemma paired_game l r : paired l r -> dual_input_key_is_valid_v1 (game_key_of l) = true ->
  game_ok (game_key_of l) (owner_key (in_local_public l)) (owner_key (in_peer_public l)).
Proof.
  intros [(_ & Ls & Bs) (_ & Lb & Bb) _ _ [O0 O1] _] Hk.
  split; [split_and!; [unfold wf_key, game_key_of; cbn; lia | done | done] | done | |];
    (split; [apply domain_hash_length | done]).
Qed.

(** Both ends have just started. *)
Lemma pair_started K k0 k1 (me other : DualSessionController (R * list DualInputBundleV1)) :
  side_inv K k0 k1 0 [] [] me -> side_inv K k0 k1 1 [] [] other -> started_idle me -> started_idle other ->
  pair_inv K k0 k1 0 me other [] [].
Proof.
  intros H1 H2 (Ho & Hz & Hr & Hw & Ha) (Ho' & Hz' & Hr' & Hw' & Ha'). exists [], [].
  split_and!; [done | done | |]; right; exists [];
    [rewrite Ha, Hw', Hr | rewrite Ha', Hw, Hr']; (split_and!; [done | done | left; auto]).
Qed.

Lemma run_peers_inv K k0 k1 (ops : list (Side * PeerOp)) p :
  game_ok K k0 k1 -> pair_inv K k0 k1 0 (initiator p) (responder p) (uplink p) (downlink p) ->
  let p' := run_peers ops p in pair_inv K k0 k1 0 (initiator p') (responder p') (uplink p') (downlink p').
Proof.
  intros Hgame. cbv zeta. revert p. induction ops as [|[[] op] ops IH]; intros p Hp; [done | |];
    unfold run_peers; cbn [fold_left peers_run]; apply IH.
  - pose proof (pair_step K k0 k1 Hgame 0 _ _ _ _ op (or_introl eq_refl) Hp) as H.
    by destruct (peer_run op (initiator p) (uplink p) (downlink p)) as [[me inp] outp].
  - apply (pair_swap K k0 k1 0) in Hp; [| by left].
    pose proof (pair_step K k0 k1 Hgame 1 _ _ _ _ op (or_intror eq_refl) Hp) as H.
    destruct (peer_run op (responder p) (downlink p) (uplink p)) as [[me inp] outp].
    apply (pair_swap K k0 k1 1) in H; [exact H | by right].
Qed.

(** Two ends after their lobbies, the start, and a history. *)
Definition play (lobby_l lobby_r : list LobbyOp) (l r : Inputs1) (ops : list (Side * PeerOp)) : Peers :=
  run_peers ops (mkPeers (start_dual l (lobby lobby_l)).2 (start_dual r (lobby lobby_r)).2 [] []).

(** C1. Two ends of a dual game never diverge.  After any lobby at each end and a
    start with the data of one pairing, whatever the players, the clocks, the
    providers and the channels do, in any order, with any cut of the streams, any
    failed request, pause or disconnect: every frame that both ends have run was run
    on the same bundle, the one of that frame, with nothing predicted. *)
Theorem dual_peers_agree (lobby_l lobby_r : list LobbyOp) (l r : Inputs1) (ops : list (Side * PeerOp)) :
  paired l r -> (start_dual l (lobby lobby_l)).1 = V2_OK -> (start_dual r (lobby lobby_r)).1 = V2_OK ->
  forall n b b',
    executed (initiator (play lobby_l lobby_r l r ops)) !! n = Some b ->
    executed (responder (play lobby_l lobby_r l r ops)) !! n = Some b' ->
    b = b' /\ frame_index (key b) = Z.of_nat n /\ predicted_port_mask b = 0.
Proof.
  intros Hpair Sl Sr. pose proof Hpair as [(Es & _) (Eb & _) [Rl Rr] [Kl Kr] [O0 O1] [[wl Wl] [wr Wr]]].
  set (k0 := owner_key (in_local_public l)) in *. set (k1 := owner_key (in_peer_public l)) in *.
  assert (start_owners l = two_owners k0 k1) as Ol by (unfold start_owners; by rewrite Rl).
  assert (start_owners r = two_owners k0 k1) as Or
    by (unfold start_owners; rewrite Rr; unfold k0, k1; by rewrite Kl, Kr).
  destruct (started_end l _ k0 k1 wl (lobby_game_fields lobby_l) Wl Sl Ol O0 O1) as (Hl & Il & Hk).
  destruct (started_end r _ k0 k1 wr (lobby_game_fields lobby_r) Wr Sr Or O0 O1) as (Hr & Ir & _).
  rewrite Rl in Hl. rewrite Rr in Hr. cbn in Hl, Hr.
  assert (game_key_of r = game_key_of l) as Ek by (unfold game_key_of; congruence). rewrite Ek in Hr.
  pose proof (run_peers_inv _ _ _ ops (mkPeers _ _ [] []) (paired_game l r Hpair Hk)
    (pair_started _ _ _ _ _ Hl Hr Il Ir)) as Hinv. cbv zeta in Hinv.
  intros n b b' Hb Hb'. destruct (pair_agree _ _ _ _ _ _ _ n b b' Hinv Hb Hb') as [-> (s0 & s1 & ->)]. done.
Qed.

End Start.

(** ** A concrete game *)

Module PeersDemo.

(** A worker that counts its frames. *)
#[global] Instance counting_port : DualRuntimePort nat := {|
  load _ r := (V2_OK, r);
  step b out r := (V2_OK, out, S r);
  export_state _ out r := (V2_OK, out, r);
  import_state _ _ r := (V2_OK, r);
  state_digest f _ r := (V2_OK, mkDigest [f] [f] [f], r);
|}.

Definition choice : GameChoice :=
  mkChoice (replicate 32 1) (replicate 16 2) 1 [65] "" (replicate 32 3) (replicate 32 4) (replicate 32 5).

Definition lobby_ops : list LobbyOp :=
  [PublishImported choice; Select (Some (replicate 16 2)); ConfirmLocal;
   PeerConfirm (Some (pending_config_fingerprint choice)) 1].

Definition inputs (role : PairRoleV1) (mine theirs : bytes) : DualStartInputsV1 (nat * list DualInputBundleV1) :=
  mkInputs (replicate 16 7) (replicate 16 8) role mine theirs 9 (bool_decide (role = Responder)) (Some (O, [])).

Definition left_inputs := inputs Initiator [1] [2].
Definition right_inputs := inputs Responder [2] [1].

Definition press (m : Z) : PeerOp := Submit (mkSessionInput 0 1 m []).

(** The streams open, the beacons cross, and two frames are played; the second
    frame's inputs are delivered one way before the other way. *)
Definition opening : list (Side * PeerOp) :=
  ((fun side => (side, PollEffect)) <$> [AtInitiator; AtResponder]) ++
  [(AtInitiator, Opened 5 6); (AtResponder, Opened 7 8)] ++
  ([AtInitiator; AtResponder] ≫= fun side => [(side, PollEffect); (side, Written); (side, PollEffect)]) ++
  [(AtInitiator, Received 160); (AtResponder, Received 160)].

Definition frame (a b : Z) : list (Side * PeerOp) :=
  [(AtInitiator, press a); (AtInitiator, PollEffect); (AtInitiator, Written); (AtInitiator, PollEffect);
   (AtResponder, press b); (AtResponder, PollEffect); (AtResponder, Written); (AtResponder, PollEffect);
   (AtResponder, Received 160); (AtInitiator, Received 160)].

Definition game : list (Side * PeerOp) := opening ++ frame 1 2 ++ frame 4 64.

End PeersDemo.

Module PeersWitness.
Import PeersDemo.

Lemma left_started : (start_dual left_inputs (lobby lobby_ops)).1 = V2_OK.
Proof. vm_compute. reflexivity. Qed.

Lemma right_started : (start_dual right_inputs (lobby lobby_ops)).1 = V2_OK.
Proof. vm_compute. reflexivity. Qed.

Lemma ends_paired : paired left_inputs right_inputs.
Proof.
  split.
  - split_and!; [done | done | by apply is_bytes_compute].
  - split_and!; [done | done | by apply is_bytes_compute].
  - done.
  - done.
  - split; by vm_compute.
  - split; by exists O.
Qed.

(** The second frame was run at both ends, on the buttons of both. *)
Lemma second_frame : exists b b',
  executed (initiator (play lobby_ops lobby_ops left_inputs right_inputs game)) !! 1%nat = Some b /\
  executed (responder (play lobby_ops lobby_ops left_inputs right_inputs game)) !! 1%nat = Some b' /\
  mask <$> ports b = [4; 64; 0; 0].
Proof. vm_compute. eexists _, _. split; [reflexivity |]. split; reflexivity. Qed.

End PeersWitness.

Lemma dual_peers_agree_witness : exists b,
  executed (initiator (play PeersDemo.lobby_ops PeersDemo.lobby_ops PeersDemo.left_inputs PeersDemo.right_inputs PeersDemo.game)) !! 1%nat = Some b /\
  executed (responder (play PeersDemo.lobby_ops PeersDemo.lobby_ops PeersDemo.left_inputs PeersDemo.right_inputs PeersDemo.game)) !! 1%nat = Some b /\
  mask <$> ports b = [4; 64; 0; 0].
Proof.
  destruct PeersWitness.second_frame as (b & b' & Hb & Hb' & Hm).
  destruct (dual_peers_agree PeersDemo.lobby_ops PeersDemo.lobby_ops PeersDemo.left_inputs PeersDemo.right_inputs
    PeersDemo.game PeersWitness.ends_paired PeersWitness.left_started PeersWitness.right_started 1%nat b b' Hb Hb')
    as [E _].
  subst b'. exists b. exact (conj Hb (conj Hb' Hm)).
Defined.
